(* ===== verification/_CoqProject ===== *)
-Q . S2P
Prelude.v
Kernel.v
Hw.v
Bd.v
BdProps.v
BdRing.v
RingGeom.v
RingSpec.v
RingHw.v
RingCreate.v
RingStart.v
RingSys.v
RingClient.v
RingProps.v
Dma.v
DmaProps.v
DmaBuf.v
AesDma.v
AesProps.v
AesThms.v
AesFlow.v
Vpci.v
VpciProps.v
Temac.v
EthDma.v
EthProps.v
EthSend.v
EthTx.v
EthRun.v
EthPoll.v
AesProbe.v
AesInit.v
VdiskAes.v
VdiskCut.v
VdiskProps.v
VdiskRun.v
VdiskThms.v
VdiskLink.v
Fips197.v
AesGold.v
AesGoldEq.v
AesGoldThms.v
PresTid.v
Pres.v
PresInv.v
PresReg.v
PresOut.v
PresThms.v
PresIn.v
PresEx.v
PresFile.v
PresDisk.v
PresLock.v
Sn.v
SnInv.v
SnRun.v
SnThms.v
SnLive.v
SnSplit.v
Hash.v
HashRef.v
HashThms.v
CStr.v
ChapCode.v
ChapThms.v
IscsiText.v
IscsiParam.v
Wild.v
IscsiConn.v
IscsiChap.v
IscsiLogin.v
IscsiAuth.v
IscsiSess.v
IscsiNego.v
