(* ===== verification/Prelude.v ===== *)
(** * Drivers of the ML605 PCIe card: a verification library

    The card is an FPGA behind one PCI function that carries AXI DMA engines: one
    feeds an AES core, the others 10G Ethernet MACs.  [src/linux-drv] holds the
    Linux drivers of the card, [src/cg/scst] a fork of the SCST storage target
    whose block devices use the AES driver, [src/cg/iscsi-scst] its iSCSI front end,
    [src/tb/dma] the software model that the AES core is tested against.  This
    library models the drivers, the encrypted block devices, the persistent
    reservations of the target and its order of commands, the login and the sessions
    of the iSCSI daemon, and the software model, and proves what makes them correct.

    ** The parts and how they interact

    - A buffer descriptor ([xaxidma_bd]) is sixteen words of memory shared with
      the hardware.  A ring of them ([xaxidma_bdring]) belongs to one channel; its
      descriptors move from free to prepared, to the hardware, to completed and
      back.  A DMA engine ([xaxidma]) is a transmit ring and its receive rings
      behind a block of registers.
    - The AES driver ([aesdma.c]) turns a request into descriptors on both rings,
      counts a reference for each of them, and calls back when the last one was
      completed; interrupts start its bottom halves.
    - The Ethernet driver ([ethdma.c]) keeps a socket buffer in each descriptor:
      it sends frames with their fragments, frees them when they are done, polls
      the receive ring and refills it.  The MAC is managed through MDIO
      ([axitemac.c]).
    - The virtual PCI bus ([vpci.c]) makes a device of each function of the card,
      binds the two drivers to them and dispatches the interrupts of the card.
    - A block device ([scst_vdisk.c]) cuts a command into bios; on an encrypted
      one the data passes through [aes_submit] before a write and after a read.
    - Initiators register on a device of the target with keys and reserve it
      ([scst_pres.c]); every other command first looks whether the reservation lets
      it pass.  Registrations follow the sessions of the initiators, survive them,
      and are saved in two files when the initiator asks for it.
    - A command of a device gets a number when it arrives and is executed when its
      turn has come ([scst_cmd_set_sn], [scst_exec_check_sn]); until then it is
      deferred, and woken when earlier ones have gone on.  HEAD OF QUEUE commands
      hold up all others until they are answered.
    - The iSCSI daemon ([iscsi-scst/usr]) accepts connections, negotiates parameters
      with the initiator as key=value text ([iscsid.c], [param.c]), authenticates it
      with CHAP ([chap.c], with the digests of [md5.c] and [sha1.c]), decides by name
      which initiator sees which target ([target.c]), and gives the connection to the
      kernel with a session ([session.c], [conn.c]).
    - The software model of the AES core ([tb/dma/aes.c]) gives the blocks that the
      test bench compares the card's output with.

    ** Files

    - [Prelude]: 32-bit integers, cyclic groups, the state and partial-state
      monads with their notation, record updates, tactics and the hint database
      [drv].  [Kernel]: error codes and timers.
    - [Hw] (xaxidma_hw.h, xstatus.h): constants, word-addressed memory, and the
      class [RegBus], the interface to an arbitrary device behind the registers.
    - [Bd], [BdProps] (xaxidma_bd.c/.h): accessors of a descriptor.
    - [BdRing] (xaxidma_bdring.c/.h): the ring.  [RingGeom]: the addresses of a
      ring as cyclic indices.  [RingSpec]: the abstract ring of four queues and the
      refinement of the operations that only move groups.  [RingHw]: submission
      and reclaiming.  [RingCreate]: creation, cloning, checking.  [RingStart]:
      starting and coalescing.  [RingSys]: runs.  [RingClient]: what the drivers
      use of a ring.  [RingProps]: the theorems.
    - [Dma], [DmaProps] (xaxidma.c/.h): initialisation, reset, start, pause,
      resume, simple transfers.
    - [DmaBuf] (dma_buf_t of aesdma.c): scatter lists of a request.
    - [AesDma] (aesdma.c): submission, references, completion, interrupts, timers.
      [AesProps]: filling and reaping.  [AesThms]: buffers and submission.
      [AesFlow]: the invariant of the device and runs.  [AesProbe] (the probe,
      test and remove functions of aesdma.c).  [AesInit]: initialisation
      establishes the invariant.
    - [Vpci], [VpciProps] (vpci.c): the bus.
    - [Temac] (axitemac.c): MDIO and the MAC.
    - [EthDma] (ethdma.c): the Ethernet driver.  [EthProps]: checksum words, refill,
      receiving.  [EthSend]: sending a frame.  [EthTx]: completion.  [EthRun]: runs
      of the transmit side.  [EthPoll]: polls, and runs of the receive side.
    - [VdiskAes] (the block I/O path and the [aes] attribute of scst_vdisk.c).
      [VdiskCut]: cutting a command into bios.  [VdiskProps]: executing a command.
      [VdiskRun]: the life of commands.  [VdiskThms]: bios and requests, reads,
      switching encryption.  [VdiskLink]: the block device on top of the AES driver.
    - [Fips197]: the cipher of the standard, from the field with 256 elements.
      [AesGold] (tb/dma/aes.c, sbox.h): the table-driven routines.  [AesGoldEq]:
      words and columns, rounds.  [AesGoldThms]: the theorems.
    - [PresTid] (tid_size, tid_secure, tid_equal of scst_pres.c): names of initiator
      ports.  [Pres] (scst_pres.c, the PR commands of scst_targ.c): registrations,
      reservation, service actions.  [PresInv]: the invariant and that the small
      operations keep it.  [PresReg]: registering and undoing.  [PresOut]: every
      service action.  [PresThms]: runs and the theorems.  [PresIn]: PERSISTENT
      RESERVE IN.  [PresEx]: runs that show deviations.  [PresFile], [PresDisk]:
      saving, loading and losses of power.  [PresLock] (scst_pres.h): the lock
      between the commands that look at a reservation and those that change it.
    - [Sn] (scst_targ.c, scst_lib.c): the numbers of commands, deferred and skipped
      commands, and runs of all commands of a device.  [SnInv]: the numbers as a
      queue of groups.  [SnRun]: the queue against the commands that arrived and
      where they are.  [SnThms]: every step keeps the invariant; HEAD OF QUEUE
      commands.  [SnLive]: the measure of what is left to do, and a command that waits
      for ever.  [SnSplit]: the slot counted down before the lock is taken, as a step
      of its own; the order, and that no command waits for ever.
    - [Hash] (md5.c, sha1.c): digests of data that comes in pieces.  [HashRef]: the
      digests of RFC 1321 and FIPS 180-4.  [HashThms]: they are the same.
    - [CStr]: strings of C.  [ChapCode] (chap.c): encodings, buffers and digests.
      [ChapThms]: round trips and bounds.
    - [IscsiText] (iscsid.c): key=value text in segments.  [IscsiParam] (param.c): the
      keys, and how values are read, checked, combined and printed.  [Wild]
      (target.c of the daemon, scst_targ.c): names with wildcards and groups.
    - [IscsiConn] (iscsid.h, conn.c, session.c, target.c): the daemon, connections,
      targets, sessions.  [IscsiChap] (chap.c): the exchange.  [IscsiLogin] (iscsid.c,
      session.c, conn.c, iscsi_scstd.c): login, text and logout requests, and what the
      daemon does with a connection.  [IscsiAuth]: authentication.  [IscsiSess]:
      sessions and their count.  [IscsiNego]: the parameters.

    ** How the code is modelled

    A C structure is a record with its fields; an operation is a function from the
    state to a result and a new state, in the order of the code's calls, with its
    guards and early returns.  Unsigned words are integers below [2^32] with their
    wrap-around written out.  Pointers are addresses: descriptors are memory
    words, other objects live in maps, and a computation that dereferences a bad
    pointer has no result.  Answers of the kernel are arguments, calls of it are
    events of a log.  The hardware is an arbitrary register device, and a step of
    the runs that may complete descriptors and change registers at any time.  An
    operation is one step of a run; the lock of the reservations is modelled with
    steps of its processes between each other, and so is the one place where the
    order of commands does without its lock ([SnSplit]).  The daemon has one thread:
    its steps are the events of its connections, in any order; the memory it gets from
    the allocator has arbitrary contents.

    Interfaces are classes: [RegBus] (any device), [RegReadback] (a register that
    keeps what is written), [BlockLayer] (what [bio_add_page] takes) and [DmaMap]
    (what mapping a scatter table yields; it may merge neighbours).  Each has an
    instance on which the witnesses are evaluated.

    ** What the theorems show

    - Rings ([RingProps]): the code is a simulation of the abstract ring; in every
      run each descriptor belongs to one group and descriptors come back in the
      order in which they were given; reclaiming returns the longest run of whole
      completed packets; which sets a submission refuses; creation, start and the
      consistency check.
    - Engine ([DmaProps]): initialisation with its bounded reset, pausing keeps
      submissions from the hardware, resuming ends.
    - AES ([AesThms], [AesFlow], [AesInit], [AesProbe]): a request is programmed
      exactly, is on both rings when it was accepted, holds one reference for each
      descriptor, and completes once, when the last one comes back, in every run; the
      bottom halves give back whole packets in the order of the hardware;
      initialisation establishes the invariant when there is memory for as many
      request structures as it asks for; error exits of the probe.
    - Ethernet ([EthSend], [EthTx], [EthRun], [EthPoll]): frames are programmed
      exactly, with their checksum offsets, or refused without a trace; socket
      buffers are conserved on both sides in every run, in order, on the transmit side
      while the bottom half finds no deferred frame that it loses
      ([eth_deferred_lost]); polls obey their budget.
    - Bus ([VpciProps]) and MAC ([Temac]): probing, binding, interrupt lines and
      dispatch; the bounded wait.
    - Block devices ([VdiskRun], [VdiskThms], [VdiskLink]): bios carry the buffer
      in order at the right sectors; commands, references and pages are conserved
      and nothing freed is used, on plain devices and for encrypted writes, where
      what stays behind when a bio cannot be allocated is named; an
      encrypted write is accepted by the AES driver, however the mapping merges.
    - Reservations ([PresThms], [PresIn], [PresDisk], [PresLock]): in every run of
      sessions and commands registrants and sessions point at each other, ports are
      registered once, and a reservation has a holder; every command whose list has
      the bytes that the code reads has a result
      and one that fails leaves no trace; what RESERVE, RELEASE, CLEAR and PREEMPT
      do, and which commands pass; reports stay in their buffer; what is saved is
      loaded unless an operation on the files fails, and what is left then; a loss
      of power in a save loses neither the old nor the new state;
      writers exclude those that hold the lock as readers and nobody waits for ever.
    - Order of commands ([SnThms], [SnSplit]): an ORDERED command and any other one are
      sent in the order in which they arrived, after the first has passed, also when
      commands are aborted; HEAD OF QUEUE commands go first; without aborts every
      command is finished, however the threads are scheduled.  Order and end hold as
      long as no command arrives while a thread is between counting down a slot and
      taking the lock; [sn_slot_race] is a run with such an arrival.
    - iSCSI daemon: the digests are those of their standards ([HashThms]); what CHAP
      encodes it decodes, and a challenge fits its buffer ([ChapThms]); text survives
      the cut into segments ([IscsiText]); names are matched as the recursive
      definition does ([Wild]); a connection gets past the security stage of a target
      with accounts only with a response that decodes to the right digest
      ([IscsiAuth]); sessions have different SIDs and are counted exactly, and creating
      one ends ([IscsiSess]); parameters stay in the ranges of their keys
      ([IscsiNego]).
    - Software model ([AesGoldThms]): it is the cipher of FIPS-197 for all keys and
      blocks.
    - Deviations, as theorems about the code as it is: [ring_create_overflow],
      [dma_buf_empty_entry], [aes_probe_early_exits], [eth_rx_starves],
      [eth_deferred_lost], [vdisk_read_use_after_free], [vdisk_toggle_breaks], and
      the examples of [PresEx] and at the end of [PresDisk], [sn_lost_wakeup],
      [sn_slot_race], [chap_response_overruns], [unaligned_base64],
      [refused_session_counts_twice], [send_targets_of_no_session],
      [wildcmp_empty_name].

    ** Bounds

    Loops that are not structural carry fuel, and the theorems show that it is
    enough.  Loops over a ring run for its descriptor count, or one more than the
    descriptors with the hardware ([aes_reap], [send_done]): every turn takes
    one away.  The search for the restart descriptor ends within one turn of the
    ring.  The reset is polled 500 times and the MDIO interface 10000 times, as in
    the code.  A segment of [len] bytes is cut in at most [2 * len + 1] turns: a
    turn takes a byte or gets a new bio.  A list of transport identifiers is walked
    in at most as many turns as its buffer has bytes, since each has four at least;
    a file of reservations in as many as it has bytes.  Looking for deferred commands
    takes one turn more than there are skipped ones.  A device has fewer commands
    than there are numbers, as [scst_cmd_set_sn] relies on.  The search for a TSIH
    takes at most as many turns as there are values; the loops over text and encoded
    strings as many as there are characters, the one over names with wildcards their
    product.

    ** Not modelled

    - The rest of [src/cg] (SCST core, other device handlers, the kernel part of the
      iSCSI target): a vendored framework that the project did not write.  Of the iSCSI
      daemon, reading its configuration, iSNS, netlink events, the administration interface,
      and reads and writes of a part of a PDU.  Of the reservations,
      tracing and dumps, and the waiting for the commands that an abort ends.  Of the
      order of commands, retried and internal ones and the blocking of a device, and
      other threads between the lock and the call for a skipped command.
    - The rest of [src/tb], and [src/eth_sim]: test benches and simulations around
      the HDL, with copies of the ring code.  [xilinx_axienet_*]: not built.
    - [xio.c] and the types of [xil_types.h]: register access is the class [RegBus].
    - Functions that only print ([aes_ring_dump], [eth_ring_dump], [disp_bd],
      [XAxiDma_DumpBd], [XAxiDma_BdRingDumpRegs]), the SPI flash stubs of
      [vpci.c], the fields of the LRO manager.
    - The locks of the drivers, and the interleaving of two operations on the same
      object; the hardware's own behaviour (the HDL), in particular the AES core.

    ** Left for later

    A combined state of block device and AES driver with runs of both; the
    Ethernet driver's reset, open and close; the virtual bus as the interface
    through which the drivers get their interrupts; more of SCST's core, such as
    the blocking of devices and the descriptions of SCSI commands. *)

From Stdlib Require Export ZArith Lia Bool ZifyBool.
From stdpp Require Export base tactics numbers list gmap.

#[global] Open Scope Z_scope.

(** ** 32-bit machine integers

    A [u32] is a [Z] in [0, 2^32); every arithmetic operation of the C code
    that works on a [u32] is followed by the reduction [u32].  Signed [int]
    values are plain [Z]: the components that compute with them prove that
    they stay far from the bounds of an [int]. *)

Definition u32 (x : Z) : Z := x mod 4294967296.

(** The [int] with the same 32 bits. *)
Definition s32 (x : Z) : Z :=
  if u32 x <? 2147483648 then u32 x else u32 x - 4294967296.

Definition is_u32 (x : Z) : Prop := 0 <= x < 4294967296.

(** C's [~x] on a [u32]. *)
Definition not32 (x : Z) : Z := u32 (Z.lnot x).

(** C's [a & b] used as a truth value. *)
Definition tst (a b : Z) : bool := negb (Z.land a b =? 0).

Declare Scope drv_scope.
Delimit Scope drv_scope with drv.
Notation "a '.&' b" := (Z.land a b) (at level 52, left associativity) : drv_scope.
Notation "a '.|' b" := (Z.lor a b) (at level 53, left associativity) : drv_scope.
#[global] Open Scope drv_scope.

Create HintDb drv discriminated.
Create Rewrite HintDb u32.
Create Rewrite HintDb st.

Lemma u32_range x : is_u32 (u32 x).
Proof. unfold is_u32, u32. apply Z.mod_pos_bound. lia. Qed.

Lemma u32_small x : is_u32 x -> u32 x = x.
Proof. unfold is_u32, u32. intros. apply Z.mod_small. lia. Qed.

Lemma s32_small x : 0 <= x < 2147483648 -> s32 x = x.
Proof.
  intros H. unfold s32. rewrite u32_small by (unfold is_u32; lia).
  destruct (Z.ltb_spec x 2147483648); lia.
Qed.

Lemma u32_idemp x : u32 (u32 x) = u32 x.
Proof. apply u32_small, u32_range. Qed.

Lemma u32_add_l x y : u32 (u32 x + y) = u32 (x + y).
Proof. unfold u32. apply Z.add_mod_idemp_l. lia. Qed.

Lemma u32_add_r x y : u32 (x + u32 y) = u32 (x + y).
Proof. unfold u32. apply Z.add_mod_idemp_r. lia. Qed.

Lemma u32_sub_l x y : u32 (u32 x - y) = u32 (x - y).
Proof. unfold u32. apply Zminus_mod_idemp_l. Qed.

Lemma u32_sub_r x y : u32 (x - u32 y) = u32 (x - y).
Proof. unfold u32. apply Zminus_mod_idemp_r. Qed.

(** The value of [u32] after one wrap in either direction. *)
Lemma u32_wrap_up x : 4294967296 <= x < 2 * 4294967296 -> u32 x = x - 4294967296.
Proof. unfold u32. intros. symmetry. apply (Z.mod_unique _ _ 1); lia. Qed.

Lemma u32_wrap_down x : - 4294967296 <= x < 0 -> u32 x = x + 4294967296.
Proof. unfold u32. intros. symmetry. apply (Z.mod_unique _ _ (-1)); lia. Qed.

#[export] Hint Resolve u32_range : drv.
#[export] Hint Rewrite u32_idemp u32_add_l u32_add_r u32_sub_l u32_sub_r : u32.

(** [u32_cases x] splits on whether [x] is in range, wrapped up or wrapped
    down, and rewrites [u32 x] accordingly. *)
Ltac u32_cases x :=
  let H := fresh "Hu" in
  destruct (Z_lt_le_dec x 0) as [H|H];
  [ rewrite (u32_wrap_down x) in * by (unfold is_u32 in *; lia)
  | destruct (Z_lt_le_dec x 4294967296);
    [ rewrite (u32_small x) in * by (unfold is_u32 in *; lia)
    | rewrite (u32_wrap_up x) in * by (unfold is_u32 in *; lia) ] ].

(** ** Bits and masks *)

Lemma testbit_u32 x i : 0 <= i -> Z.testbit (u32 x) i = (i <? 32) && Z.testbit x i.
Proof.
  intros Hi. unfold u32. change 4294967296 with (2 ^ 32).
  destruct (Z.ltb_spec i 32); cbn.
  - now apply Z.mod_pow2_bits_low.
  - apply Z.mod_pow2_bits_high; lia.
Qed.

Lemma testbit_is_u32 x i : is_u32 x -> 32 <= i -> Z.testbit x i = false.
Proof.
  intros Hx Hi. rewrite <- (u32_small x Hx), testbit_u32 by lia.
  destruct (Z.ltb_spec i 32); [lia|reflexivity].
Qed.

Lemma is_u32_testbit x : (forall i, 32 <= i -> Z.testbit x i = false) -> is_u32 x.
Proof.
  intros Hb. assert (x = u32 x) as ->; [|apply u32_range].
  apply Z.bits_inj'. intros i Hi. rewrite testbit_u32 by lia.
  destruct (Z.ltb_spec i 32); [reflexivity|]. now rewrite Hb.
Qed.

(** [zbits] proves an equation between bitwise expressions bit by bit. *)
Ltac zbits :=
  let i := fresh "i" in let Hi := fresh "Hi" in
  apply Z.bits_inj'; intros i Hi;
  repeat first
    [ rewrite Z.land_spec | rewrite Z.lor_spec | rewrite Z.ldiff_spec
    | rewrite Z.lxor_spec | rewrite Z.bits_0 ];
  repeat match goal with |- context [Z.testbit ?x i] => destruct (Z.testbit x i) end;
  try reflexivity.

Lemma is_u32_land x y : is_u32 x -> is_u32 (x .& y).
Proof.
  intros Hx. apply is_u32_testbit. intros i Hi.
  now rewrite Z.land_spec, (testbit_is_u32 x).
Qed.

Lemma is_u32_land_r x y : is_u32 y -> is_u32 (x .& y).
Proof. rewrite Z.land_comm. apply is_u32_land. Qed.

Lemma is_u32_lor x y : is_u32 x -> is_u32 y -> is_u32 (x .| y).
Proof.
  intros Hx Hy. apply is_u32_testbit. intros i Hi.
  now rewrite Z.lor_spec, (testbit_is_u32 x), (testbit_is_u32 y).
Qed.

Lemma is_u32_ldiff x y : is_u32 x -> is_u32 (Z.ldiff x y).
Proof.
  intros Hx. apply is_u32_testbit. intros i Hi.
  now rewrite Z.ldiff_spec, (testbit_is_u32 x).
Qed.

(** Clearing the bits of a mask, as C writes it. *)
Lemma land_not32 x m : is_u32 x -> (x .& not32 m) = Z.ldiff x m.
Proof.
  intros Hx. apply Z.bits_inj'. intros i Hi.
  rewrite Z.land_spec, Z.ldiff_spec. unfold not32. rewrite testbit_u32 by lia.
  rewrite Z.lnot_spec by lia.
  destruct (Z.ltb_spec i 32); [reflexivity|]. now rewrite (testbit_is_u32 x).
Qed.

(** [mask_has m b]: the bits of [b] all lie in the mask [m]. *)
Definition mask_has (m b : Z) : Prop := (b .& m) = b.

Lemma mask_set_get x m b : mask_has m b -> ((Z.ldiff x m .| b) .& m) = b.
Proof.
  unfold mask_has. intros Hb. rewrite Z.land_lor_distr_l, Hb.
  replace (Z.ldiff x m .& m) with 0 by zbits. apply Z.lor_0_l.
Qed.

Lemma mask_set_other x m b m' :
  mask_has m b -> (m .& m') = 0 -> ((Z.ldiff x m .| b) .& m') = (x .& m').
Proof.
  unfold mask_has. intros Hb Hm. rewrite <- Hb. apply Z.bits_inj'. intros i Hi.
  assert (Z.testbit (m .& m') i = false) as H by (rewrite Hm; apply Z.bits_0).
  rewrite Z.land_spec in H.
  rewrite !Z.land_spec, Z.lor_spec, Z.land_spec, Z.ldiff_spec.
  destruct (Z.testbit x i), (Z.testbit m i), (Z.testbit b i), (Z.testbit m' i);
    cbn in *; congruence.
Qed.

(** A mask of [n] low bits is a modulus. *)
Lemma land_ones_mod x n : 0 <= n -> (x .& Z.ones n) = x mod 2 ^ n.
Proof. apply Z.land_ones. Qed.

(** Numbers without a common bit. *)
Lemma lor_is_add a b : Z.land a b = 0 -> Z.lor a b = a + b.
Proof. intros H. rewrite <- Z.lxor_lor, Z.add_nocarry_lxor by done. done. Qed.

Lemma lor_shiftl x y k : 0 <= k -> 0 <= y < 2 ^ k -> Z.lor (Z.shiftl x k) y = x * 2 ^ k + y.
Proof.
  intros Hk Hy. rewrite lor_is_add; [by rewrite Z.shiftl_mul_pow2 by lia|]. apply Z.bits_inj'. intros i Hi. rewrite Z.land_spec, Z.shiftl_spec, Z.bits_0 by lia.
  destruct (Z.lt_ge_cases i k); [by rewrite Z.testbit_neg_r by lia|]. rewrite <- (Z.mod_small y (2 ^ k)) by done. rewrite Z.mod_pow2_bits_high by lia. apply andb_false_r.
Qed.

(** A field of a number. *)
Lemma field_mod x m k n : 0 <= k -> 0 <= n -> Z.shiftr m k = Z.ones n -> Z.shiftr (Z.land x m) k = x / 2 ^ k mod 2 ^ n.
Proof. intros Hk Hn Hm. by rewrite Z.shiftr_land, Hm, Z.land_ones, Z.shiftr_div_pow2 by lia. Qed.

Lemma tst_true a b : tst a b = true <-> (a .& b) <> 0.
Proof. unfold tst. rewrite negb_true_iff, Z.eqb_neq. reflexivity. Qed.

Lemma tst_false a b : tst a b = false <-> (a .& b) = 0.
Proof. unfold tst. rewrite negb_false_iff, Z.eqb_eq. reflexivity. Qed.

#[export] Hint Resolve is_u32_land is_u32_land_r is_u32_lor is_u32_ldiff : drv.

(** ** State-passing effects

    [ST S A] is a computation that reads and updates a state [S] and returns
    an [A]; it uses stdpp's monad notation ([x ← m; k]). *)

Definition ST (S A : Type) : Type := S -> A * S.

#[export] Instance st_ret {S} : MRet (ST S) := fun A a s => (a, s).
#[export] Instance st_bind {S} : MBind (ST S) :=
  fun A B k m s => let '(a, s') := m s in k a s'.

Definition st_get {S A} (f : S -> A) : ST S A := fun s => (f s, s).
Definition st_mod {S} (f : S -> S) : ST S unit := fun s => (tt, f s).

(** The result and the final state of a computation. *)
Definition st_val {S A} (m : ST S A) (s : S) : A := (m s).1.
Definition st_out {S A} (m : ST S A) (s : S) : S := (m s).2.

Lemma st_bind_eq {S A B} (m : ST S A) (k : A -> ST S B) s :
  (m ≫= k) s = k (st_val m s) (st_out m s).
Proof. unfold mbind, st_bind, st_val, st_out. now destruct (m s). Qed.

Lemma st_val_bind {S A B} (m : ST S A) (k : A -> ST S B) s :
  st_val (m ≫= k) s = st_val (k (st_val m s)) (st_out m s).
Proof. unfold st_val at 1. now rewrite st_bind_eq. Qed.

Lemma st_out_bind {S A B} (m : ST S A) (k : A -> ST S B) s :
  st_out (m ≫= k) s = st_out (k (st_val m s)) (st_out m s).
Proof. unfold st_out at 1. now rewrite st_bind_eq. Qed.

Lemma st_val_ret {S A} (a : A) (s : S) : st_val (mret a) s = a.
Proof. reflexivity. Qed.
Lemma st_out_ret {S A} (a : A) (s : S) : st_out (mret a) s = s.
Proof. reflexivity. Qed.
Lemma st_val_get {S A} (f : S -> A) s : st_val (st_get f) s = f s.
Proof. reflexivity. Qed.
Lemma st_out_get {S A} (f : S -> A) s : st_out (st_get f) s = s.
Proof. reflexivity. Qed.
Lemma st_out_mod {S} (f : S -> S) s : st_out (st_mod f) s = f s.
Proof. reflexivity. Qed.

#[export] Hint Rewrite @st_bind_eq @st_val_bind @st_out_bind @st_val_ret @st_out_ret
  @st_val_get @st_out_get @st_out_mod : st.

(** [st] steps through the binds of a state-passing program. *)
Ltac st := autorewrite with st in *.

(** [PT S A]: a computation that may also diverge ([None]). *)
Definition PT (S A : Type) : Type := S -> option (A * S).

#[export] Instance pt_ret {S} : MRet (PT S) := fun A a s => Some (a, s).
#[export] Instance pt_bind {S} : MBind (PT S) :=
  fun A B k m s => match m s with Some (a, s') => k a s' | None => None end.

Definition total {S A} (m : ST S A) : PT S A := fun s => Some (m s).

Lemma pt_bind_some {S A B} (m : PT S A) (k : A -> PT S B) s a s' :
  m s = Some (a, s') -> (m ≫= k) s = k a s'.
Proof. intros H. unfold mbind, pt_bind. now rewrite H. Qed.

Lemma pt_bind_total {S A B} (m : ST S A) (k : A -> PT S B) s :
  (total m ≫= k) s = k (st_val m s) (st_out m s).
Proof. unfold mbind, pt_bind, total, st_val, st_out. now destruct (m s). Qed.

(** ** Record update

    [r <| f := v |>] replaces the field [f] of the record [r]; each field
    that the code assigns to has an instance of [Setter]. *)

Class Setter {R T : Type} (f : R -> T) : Type := set_field : T -> R -> R.
Arguments set_field {R T} f {_} _ _.
Notation "r <| f := v |>" := (set_field f v r)
  (at level 1, left associativity, f at level 9, v at level 200,
   format "r  <| f  :=  v |>") : drv_scope.

(** ** Case analysis *)

(** [case_if] splits the innermost conditional of the goal and turns its test
    into arithmetic hypotheses. *)
Ltac bool_prop :=
  repeat match goal with
  | H : (_ && _)%bool = true |- _ => apply andb_true_iff in H; destruct H
  | H : (_ || _)%bool = false |- _ => apply orb_false_iff in H; destruct H
  | H : (_ || _)%bool = true |- _ => apply orb_true_iff in H
  | H : (_ && _)%bool = false |- _ => apply andb_false_iff in H
  | H : negb _ = true |- _ => apply negb_true_iff in H
  | H : negb _ = false |- _ => apply negb_false_iff in H
  | H : (_ <? _)%Z = true |- _ => apply Z.ltb_lt in H
  | H : (_ <? _)%Z = false |- _ => apply Z.ltb_ge in H
  | H : (_ <=? _)%Z = true |- _ => apply Z.leb_le in H
  | H : (_ <=? _)%Z = false |- _ => apply Z.leb_gt in H
  | H : (_ =? _)%Z = true |- _ => apply Z.eqb_eq in H
  | H : (_ =? _)%Z = false |- _ => apply Z.eqb_neq in H
  end.

Ltac case_if :=
  match goal with
  | |- context [if ?b then _ else _] =>
      lazymatch b with
      | context [if _ then _ else _] => fail
      | _ => let E := fresh "E" in destruct b eqn:E; bool_prop
      end
  end.

Ltac case_if_in H :=
  match type of H with
  | context [if ?b then _ else _] =>
      lazymatch b with
      | context [if _ then _ else _] => fail
      | _ => let E := fresh "E" in destruct b eqn:E; bool_prop
      end
  end.
