(* ===== verification/Kernel.v ===== *)
(** * What the drivers use of the kernel

    Error codes, interrupt results, DMA directions and timers. *)

From S2P Require Import Prelude.

Definition ENOMEM : Z := 12.
Definition EBUSY : Z := 16.
Definition ENODEV : Z := 19.
Definition EINVAL : Z := 22.
Definition EIO : Z := 5.

Definition IRQ_NONE : Z := 0.
Definition IRQ_HANDLED : Z := 1.

Definition DMA_TO_DEVICE : Z := 1.
Definition DMA_FROM_DEVICE : Z := 2.

(** A kernel timer: armed or not, and its expiry. *)
Record ktimer : Type := mkTimer { t_pending : bool; t_expires : Z }.
Definition mod_timer (e : Z) : ktimer := mkTimer true e.
Definition del_timer (t : ktimer) : ktimer := mkTimer false (t_expires t).

(** [time_before (a, b)] on a 32-bit machine. *)
Definition time_before (a b : Z) : bool := s32 (a - b) <? 0.
