(* ===== verification/Hw.v ===== *)
(** * Hardware interface: constants, descriptor memory and register bus

    Models [linux-drv/xaxidma_hw.h], the status codes of [xstatus.h] and the
    channel constants of [xaxidma_bdring.h].  Physical devices are not part of
    the C sources, so the register bus is the class [RegBus]: the operations
    of this library are parametric in the device behind it. *)

From S2P Require Import Prelude.

(** ** Status codes (xstatus.h) *)

Definition XST_SUCCESS : Z := 0.
Definition XST_FAILURE : Z := 1.
Definition XST_DEVICE_IS_STARTED : Z := 5.
Definition XST_DMA_ERROR : Z := 9.
Definition XST_INVALID_PARAM : Z := 15.
Definition XST_NOT_SGDMA : Z := 16.
Definition XST_IS_STARTED : Z := 23.
Definition XST_DMA_SG_NO_LIST : Z := 523.
Definition XST_DMA_SG_LIST_ERROR : Z := 526.

(** ** Channel constants (xaxidma_bdring.h) *)

Definition AXIDMA_CHANNEL_NOT_HALTED : Z := 1.
Definition AXIDMA_CHANNEL_HALTED : Z := 2.
Definition XAXIDMA_NO_CHANGE : Z := 0xFFFFFFFF.
Definition XAXIDMA_ALL_BDS : Z := 0x0FFFFFFF.

(** ** Register and descriptor layout (xaxidma_hw.h) *)

Definition XAXIDMA_DMA_TO_DEVICE : Z := 0x00.
Definition XAXIDMA_DEVICE_TO_DMA : Z := 0x01.
Definition XAXIDMA_BD_MINIMUM_ALIGNMENT : Z := 0x40.
Definition XAXIDMA_MAX_TRANSFER_LEN : Z := 0x7FFFFF.
Definition XAXIDMA_MCHAN_MAX_TRANSFER_LEN : Z := 0x00FFFF.
Definition XAXIDMA_TX_OFFSET : Z := 0x00000000.
Definition XAXIDMA_RX_OFFSET : Z := 0x00000030.
Definition XAXIDMA_CR_OFFSET : Z := 0x00000000.
Definition XAXIDMA_SR_OFFSET : Z := 0x00000004.
Definition XAXIDMA_CDESC_OFFSET : Z := 0x00000008.
Definition XAXIDMA_TDESC_OFFSET : Z := 0x00000010.
Definition XAXIDMA_SRCADDR_OFFSET : Z := 0x00000018.
Definition XAXIDMA_DESTADDR_OFFSET : Z := 0x00000018.
Definition XAXIDMA_BUFFLEN_OFFSET : Z := 0x00000028.
Definition XAXIDMA_SGCTL_OFFSET : Z := 0x0000002c.
Definition XAXIDMA_RX_CDESC0_OFFSET : Z := 0x00000040.
Definition XAXIDMA_RX_TDESC0_OFFSET : Z := 0x00000048.
Definition XAXIDMA_RX_NDESC_OFFSET : Z := 0x00000020.
Definition XAXIDMA_CR_RUNSTOP_MASK : Z := 0x00000001.
Definition XAXIDMA_CR_RESET_MASK : Z := 0x00000004.
Definition XAXIDMA_CR_KEYHOLE_MASK : Z := 0x00000008.
Definition XAXIDMA_HALTED_MASK : Z := 0x00000001.
Definition XAXIDMA_IDLE_MASK : Z := 0x00000002.
Definition XAXIDMA_ERR_INTERNAL_MASK : Z := 0x00000010.
Definition XAXIDMA_ERR_SLAVE_MASK : Z := 0x00000020.
Definition XAXIDMA_ERR_DECODE_MASK : Z := 0x00000040.
Definition XAXIDMA_ERR_SG_INT_MASK : Z := 0x00000100.
Definition XAXIDMA_ERR_SG_SLV_MASK : Z := 0x00000200.
Definition XAXIDMA_ERR_SG_DEC_MASK : Z := 0x00000400.
Definition XAXIDMA_ERR_ALL_MASK : Z := 0x00000770.
Definition XAXIDMA_IRQ_IOC_MASK : Z := 0x00001000.
Definition XAXIDMA_IRQ_DELAY_MASK : Z := 0x00002000.
Definition XAXIDMA_IRQ_ERROR_MASK : Z := 0x00004000.
Definition XAXIDMA_IRQ_ALL_MASK : Z := 0x00007000.
Definition XAXIDMA_DELAY_MASK : Z := 0xFF000000.
Definition XAXIDMA_COALESCE_MASK : Z := 0x00FF0000.
Definition XAXIDMA_DELAY_SHIFT : Z := 24.
Definition XAXIDMA_COALESCE_SHIFT : Z := 16.
Definition XAXIDMA_BD_NDESC_OFFSET : Z := 0x00.
Definition XAXIDMA_BD_BUFA_OFFSET : Z := 0x08.
Definition XAXIDMA_BD_MCCTL_OFFSET : Z := 0x10.
Definition XAXIDMA_BD_STRIDE_VSIZE_OFFSET : Z := 0x14.
Definition XAXIDMA_BD_CTRL_LEN_OFFSET : Z := 0x18.
Definition XAXIDMA_BD_STS_OFFSET : Z := 0x1C.
Definition XAXIDMA_BD_USR0_OFFSET : Z := 0x20.
Definition XAXIDMA_BD_USR1_OFFSET : Z := 0x24.
Definition XAXIDMA_BD_USR2_OFFSET : Z := 0x28.
Definition XAXIDMA_BD_USR3_OFFSET : Z := 0x2C.
Definition XAXIDMA_BD_USR4_OFFSET : Z := 0x30.
Definition XAXIDMA_BD_ID_OFFSET : Z := 0x34.
Definition XAXIDMA_BD_HAS_STSCNTRL_OFFSET : Z := 0x38.
Definition XAXIDMA_BD_HAS_DRE_OFFSET : Z := 0x3C.
Definition XAXIDMA_BD_HAS_DRE_MASK : Z := 0xF00.
Definition XAXIDMA_BD_WORDLEN_MASK : Z := 0xFF.
Definition XAXIDMA_BD_HAS_DRE_SHIFT : Z := 8.
Definition XAXIDMA_BD_WORDLEN_SHIFT : Z := 0.
Definition XAXIDMA_BD_START_CLEAR : Z := 8.
Definition XAXIDMA_BD_BYTES_TO_CLEAR : Z := 48.
Definition XAXIDMA_BD_NUM_WORDS : Z := 16.
Definition XAXIDMA_BD_HW_NUM_BYTES : Z := 52.
Definition XAXIDMA_LAST_APPWORD : Z := 4.
Definition XAXIDMA_BD_CTRL_TXSOF_MASK : Z := 0x08000000.
Definition XAXIDMA_BD_CTRL_TXEOF_MASK : Z := 0x04000000.
Definition XAXIDMA_BD_CTRL_ALL_MASK : Z := 0x0C000000.
Definition XAXIDMA_BD_STS_COMPLETE_MASK : Z := 0x80000000.
Definition XAXIDMA_BD_STS_DEC_ERR_MASK : Z := 0x40000000.
Definition XAXIDMA_BD_STS_SLV_ERR_MASK : Z := 0x20000000.
Definition XAXIDMA_BD_STS_INT_ERR_MASK : Z := 0x10000000.
Definition XAXIDMA_BD_STS_ALL_ERR_MASK : Z := 0x70000000.
Definition XAXIDMA_BD_STS_RXSOF_MASK : Z := 0x08000000.
Definition XAXIDMA_BD_STS_RXEOF_MASK : Z := 0x04000000.
Definition XAXIDMA_BD_STS_ALL_MASK : Z := 0xFC000000.
Definition XAXIDMA_BD_TDEST_FIELD_MASK : Z := 0x0000000F.
Definition XAXIDMA_BD_TID_FIELD_MASK : Z := 0x00000F00.
Definition XAXIDMA_BD_TUSER_FIELD_MASK : Z := 0x000F0000.
Definition XAXIDMA_BD_ARCACHE_FIELD_MASK : Z := 0x0F000000.
Definition XAXIDMA_BD_ARUSER_FIELD_MASK : Z := 0xF0000000.
Definition XAXIDMA_BD_TDEST_FIELD_SHIFT : Z := 0.
Definition XAXIDMA_BD_TID_FIELD_SHIFT : Z := 8.
Definition XAXIDMA_BD_TUSER_FIELD_SHIFT : Z := 16.
Definition XAXIDMA_BD_ARCACHE_FIELD_SHIFT : Z := 24.
Definition XAXIDMA_BD_ARUSER_FIELD_SHIFT : Z := 28.
Definition XAXIDMA_BD_STRIDE_FIELD_MASK : Z := 0x0000FFFF.
Definition XAXIDMA_BD_VSIZE_FIELD_MASK : Z := 0xFFF80000.
Definition XAXIDMA_BD_STRIDE_FIELD_SHIFT : Z := 0.
Definition XAXIDMA_BD_VSIZE_FIELD_SHIFT : Z := 19.

(** [sizeof(XAxiDma_Bd)]: sixteen 32-bit words. *)
Definition sizeof_Bd : Z := XAXIDMA_BD_NUM_WORDS * 4.

(** ** Memory

    Word-addressed memory: the word at byte address [a] is [m !! a]; words that
    were never written read as zero.  All accesses of the driver are to
    naturally aligned words, so no two accesses overlap partially. *)

Abbreviation Mem := (gmap Z Z).

Definition mem_read (m : Mem) (a : Z) : Z := u32 (default 0 (m !! a)).
Definition mem_write (m : Mem) (a v : Z) : Mem := <[a := u32 v]> m.

(** [memset(a, 0, 4 * n)] on words. *)
Fixpoint mem_zero (n : nat) (a : Z) (m : Mem) : Mem :=
  match n with
  | O => m
  | S n => mem_zero n (u32 (a + 4)) (mem_write m a 0)
  end.

(** [memcpy] of a block of words that has been read before. *)
Fixpoint mem_store (ws : list Z) (a : Z) (m : Mem) : Mem :=
  match ws with
  | [] => m
  | w :: ws => mem_store ws (u32 (a + 4)) (mem_write m a w)
  end.

(** The [n] words from address [a]. *)
Fixpoint mem_load (n : nat) (a : Z) (m : Mem) : list Z :=
  match n with
  | O => []
  | S n => mem_read m a :: mem_load n (u32 (a + 4)) m
  end.

(** ** Registers

    A register access can change the device: reading a status register may
    have side effects and the hardware makes progress between accesses. *)

Class RegBus (D : Type) : Type := {
  bus_read : Z -> D -> Z * D;
  bus_write : Z -> Z -> D -> D
}.

(** The machine the driver runs on: main memory and the device. *)
Record World (D : Type) : Type := mkWorld { w_mem : Mem; w_dev : D }.
Arguments mkWorld {D} _ _.
Arguments w_mem {D} _.
Arguments w_dev {D} _.

Section registers.
Context {D : Type} `{!RegBus D}.

Definition XAxiDma_ReadReg (BaseAddress RegOffset : Z) : ST (World D) Z := fun w =>
  let '(v, d) := bus_read (u32 (BaseAddress + RegOffset)) (w_dev w) in
  (u32 v, mkWorld (w_mem w) d).

Definition XAxiDma_WriteReg (BaseAddress RegOffset Data : Z) : ST (World D) unit := fun w =>
  (tt, mkWorld (w_mem w) (bus_write (u32 (BaseAddress + RegOffset)) (u32 Data) (w_dev w))).

(** Memory accesses of a computation that also uses the registers. *)
Definition on_mem {A} (f : ST Mem A) : ST (World D) A := fun w =>
  let '(a, m) := f (w_mem w) in (a, mkWorld m (w_dev w)).

Lemma ReadReg_mem b o w : w_mem (st_out (XAxiDma_ReadReg b o) w) = w_mem w.
Proof. unfold st_out, XAxiDma_ReadReg. now destruct (bus_read _ _). Qed.

Lemma ReadReg_u32 b o w : is_u32 (st_val (XAxiDma_ReadReg b o) w).
Proof. unfold st_val, XAxiDma_ReadReg. destruct (bus_read _ _). apply u32_range. Qed.

Lemma WriteReg_mem b o v w : w_mem (st_out (XAxiDma_WriteReg b o v) w) = w_mem w.
Proof. reflexivity. Qed.

End registers.

#[export] Hint Rewrite @ReadReg_mem @WriteReg_mem : st.
#[export] Hint Resolve ReadReg_u32 : drv.

(** ** A register file

    The laws that clients assume of a device, and the simplest device that
    satisfies them: every register reads back what was last written. *)

Class RegReadback (D : Type) `{!RegBus D} (a mask : Z) : Prop :=
  reg_readback : forall v d, is_u32 v -> ((bus_read a (bus_write a v d)).1 .& mask) = (v .& mask).

Abbreviation RegFile := (gmap Z Z).

#[export] Instance regfile_bus : RegBus RegFile := {
  bus_read a d := (default 0 (d !! a), d);
  bus_write a v d := <[a := v]> d
}.

#[export] Instance regfile_readback a mask : RegReadback RegFile a mask.
Proof. intros v d _. cbn. now rewrite lookup_insert_eq. Qed.

Section readback.
Context {D : Type} `{!RegBus D}.

(** A register that reads back all its bits. *)
Lemma readback_val b o v (w : World D) :
  RegReadback D (u32 (b + o)) 0xFFFFFFFF -> is_u32 v ->
  st_val (XAxiDma_ReadReg b o) (st_out (XAxiDma_WriteReg b o v) w) = v.
Proof.
  intros RB Hv. unfold st_val, st_out, XAxiDma_ReadReg, XAxiDma_WriteReg. cbn [fst snd w_dev w_mem].
  pose proof (RB v (w_dev w) Hv) as Hb. rewrite (u32_small v) by done.
  destruct (bus_read _ _) as [x d]. cbn [fst] in *.
  assert (forall y, u32 y = (y .& 0xFFFFFFFF)) as Hl.
  { intros. change 0xFFFFFFFF with (Z.ones 32). now rewrite Z.land_ones by lia. }
  rewrite Hl, Hb, <- Hl. now apply u32_small.
Qed.

End readback.

(** ** Memory lemmas *)

Lemma mem_read_write_eq m a v : mem_read (mem_write m a v) a = u32 v.
Proof. unfold mem_read, mem_write. rewrite lookup_insert_eq. apply u32_idemp. Qed.

Lemma mem_read_u32 m a : is_u32 (mem_read m a).
Proof. apply u32_range. Qed.
#[export] Hint Resolve mem_read_u32 : drv.

Lemma mem_read_write_ne m a b v : a <> b -> mem_read (mem_write m a v) b = mem_read m b.
Proof. intros. unfold mem_read, mem_write. now rewrite lookup_insert_ne. Qed.

(** [a] is outside the [n] words from [b]. *)
Definition outside (n : nat) (b a : Z) : Prop := a < b \/ b + 4 * Z.of_nat n <= a.

Lemma mem_zero_outside n : forall b m a,
  0 <= b -> b + 4 * Z.of_nat n <= 4294967296 -> outside n b a ->
  mem_read (mem_zero n b m) a = mem_read m a.
Proof.
  unfold outside. induction n as [|n IH]; intros b m a H0 H1 Ho; cbn [mem_zero]; [done|].
  destruct n as [|n]; [cbn; apply mem_read_write_ne; lia|].
  rewrite u32_small by (unfold is_u32; lia).
  rewrite IH by lia. apply mem_read_write_ne; lia.
Qed.

Lemma mem_zero_inside n : forall b m k,
  0 <= b -> b + 4 * Z.of_nat n <= 4294967296 -> 0 <= k < Z.of_nat n ->
  mem_read (mem_zero n b m) (b + 4 * k) = 0.
Proof.
  induction n as [|n IH]; intros b m k H0 H1 Hk; [lia|]. cbn [mem_zero].
  destruct n as [|n]; [cbn; replace (b + 4 * k) with b by lia; apply mem_read_write_eq|].
  rewrite u32_small by (unfold is_u32; lia).
  destruct (decide (k = 0)) as [->|].
  - rewrite mem_zero_outside by (unfold outside; lia).
    replace (b + 4 * 0) with b by lia. apply mem_read_write_eq.
  - replace (b + 4 * k) with ((b + 4) + 4 * (k - 1)) by lia. apply IH; lia.
Qed.

Lemma mem_store_outside ws : forall b m a,
  0 <= b -> b + 4 * Z.of_nat (length ws) <= 4294967296 -> outside (length ws) b a ->
  mem_read (mem_store ws b m) a = mem_read m a.
Proof.
  unfold outside. induction ws as [|w ws IH]; intros b m a H0 H1 Ho; cbn [mem_store]; [done|].
  cbn [length] in *. destruct ws as [|w' ws]; [cbn; apply mem_read_write_ne; lia|].
  rewrite u32_small by (unfold is_u32; cbn [length] in *; lia).
  rewrite IH by lia. apply mem_read_write_ne; lia.
Qed.

Lemma mem_store_inside ws : forall b m (k : nat) w,
  0 <= b -> b + 4 * Z.of_nat (length ws) <= 4294967296 -> ws !! k = Some w ->
  mem_read (mem_store ws b m) (b + 4 * Z.of_nat k) = u32 w.
Proof.
  induction ws as [|w ws IH]; intros b m k v H0 H1 Hk; [done|]. cbn [mem_store length] in *.
  destruct k as [|k]; cbn in Hk.
  - injection Hk as ->. replace (b + 4 * Z.of_nat 0) with b by lia.
    destruct ws as [|w' ws]; [cbn; apply mem_read_write_eq|].
    rewrite u32_small by (unfold is_u32; cbn [length] in *; lia).
    rewrite mem_store_outside by (unfold outside; lia). apply mem_read_write_eq.
  - assert (k < length ws)%nat by (eapply lookup_lt_Some; eauto).
    rewrite u32_small by (unfold is_u32; lia).
    replace (b + 4 * Z.of_nat (S k)) with ((b + 4) + 4 * Z.of_nat k) by lia.
    apply IH; [lia|lia|done].
Qed.

Lemma length_mem_load n a m : length (mem_load n a m) = n.
Proof. revert a. induction n; intros; cbn; [done|]. f_equal. auto. Qed.
