(* ===== verification/Bd.v ===== *)
(** * Buffer descriptors

    Models [linux-drv/xaxidma_bd.h] and [linux-drv/xaxidma_bd.c]: the field
    accessors of one buffer descriptor (BD) in memory.  A BD pointer is the
    [u32] address of its first word; an accessor with a result code is a
    computation over the memory. *)

From S2P Require Import Prelude Hw.

(** ** Word access *)

Definition XAxiDma_BdRead (m : Mem) (BaseAddress Offset : Z) : Z :=
  mem_read m (u32 (u32 BaseAddress + u32 Offset)).

Definition XAxiDma_BdWrite (BaseAddress Offset Data : Z) : ST Mem unit :=
  st_mod (fun m => mem_write m (u32 (u32 BaseAddress + u32 Offset)) Data).

(** [memset] of the 48 bytes that belong to the transfer. *)
Definition XAxiDma_BdClear (BdPtr : Z) : ST Mem unit :=
  st_mod (mem_zero (Z.to_nat (XAXIDMA_BD_BYTES_TO_CLEAR / 4))
            (u32 (BdPtr + XAXIDMA_BD_START_CLEAR))).

(** ** Getters *)

Definition XAxiDma_BdGetCtrl (m : Mem) (BdPtr : Z) : Z :=
  XAxiDma_BdRead m BdPtr XAXIDMA_BD_CTRL_LEN_OFFSET .& XAXIDMA_BD_CTRL_ALL_MASK.

Definition XAxiDma_BdGetSts (m : Mem) (BdPtr : Z) : Z :=
  XAxiDma_BdRead m BdPtr XAXIDMA_BD_STS_OFFSET .& XAXIDMA_BD_STS_ALL_MASK.

Definition XAxiDma_BdGetLength (m : Mem) (BdPtr LengthMask : Z) : Z :=
  XAxiDma_BdRead m BdPtr XAXIDMA_BD_CTRL_LEN_OFFSET .& LengthMask.

Definition XAxiDma_BdGetId (m : Mem) (BdPtr : Z) : Z :=
  XAxiDma_BdRead m BdPtr XAXIDMA_BD_ID_OFFSET.

Definition XAxiDma_BdGetBufAddr (m : Mem) (BdPtr : Z) : Z :=
  XAxiDma_BdRead m BdPtr XAXIDMA_BD_BUFA_OFFSET.

Definition XAxiDma_BdHwCompleted (m : Mem) (BdPtr : Z) : bool :=
  tst (XAxiDma_BdRead m BdPtr XAXIDMA_BD_STS_OFFSET) XAXIDMA_BD_STS_COMPLETE_MASK.

Definition XAxiDma_BdGetActualLength (m : Mem) (BdPtr LengthMask : Z) : Z :=
  XAxiDma_BdRead m BdPtr XAXIDMA_BD_STS_OFFSET .& LengthMask.

(** ** Setters *)

Definition XAxiDma_BdSetId (BdPtr Id : Z) : ST Mem unit :=
  XAxiDma_BdWrite BdPtr XAXIDMA_BD_ID_OFFSET (u32 Id).

Definition XAxiDma_BdSetLength (BdPtr LenBytes LengthMask : Z) : ST Mem Z :=
  if (LenBytes <=? 0) || (LengthMask <? LenBytes) then mret XST_INVALID_PARAM
  else
    m ← st_get id;
    XAxiDma_BdWrite BdPtr XAXIDMA_BD_CTRL_LEN_OFFSET
      ((XAxiDma_BdRead m BdPtr XAXIDMA_BD_CTRL_LEN_OFFSET .& not32 LengthMask) .| LenBytes);;
    mret XST_SUCCESS.

Definition XAxiDma_BdSetBufAddr (BdPtr Addr : Z) : ST Mem Z :=
  m ← st_get id;
  let HasDRE := XAxiDma_BdRead m BdPtr XAXIDMA_BD_HAS_DRE_OFFSET in
  let WordLen := HasDRE .& XAXIDMA_BD_WORDLEN_MASK in
  if tst Addr (u32 (WordLen - 1)) && ((HasDRE .& XAXIDMA_BD_HAS_DRE_MASK) =? 0)
  then mret XST_INVALID_PARAM
  else XAxiDma_BdWrite BdPtr XAXIDMA_BD_BUFA_OFFSET Addr;; mret XST_SUCCESS.

Definition XAxiDma_BdSetAppWord (BdPtr Offset Word : Z) : ST Mem Z :=
  m ← st_get id;
  if XAxiDma_BdRead m BdPtr XAXIDMA_BD_HAS_STSCNTRL_OFFSET =? 0 then mret XST_INVALID_PARAM
  else if (Offset <? 0) || (XAXIDMA_LAST_APPWORD <? Offset) then mret XST_INVALID_PARAM
  else XAxiDma_BdWrite BdPtr (XAXIDMA_BD_USR0_OFFSET + Offset * 4) Word;; mret XST_SUCCESS.

(** The word and the value stored through [Valid]. *)
Definition XAxiDma_BdGetAppWord (m : Mem) (BdPtr Offset : Z) : Z * Z :=
  if XAxiDma_BdRead m BdPtr XAXIDMA_BD_HAS_STSCNTRL_OFFSET =? 0 then (0, 0)
  else if (Offset <? 0) || (XAXIDMA_LAST_APPWORD <? Offset) then (0, 0)
  else (XAxiDma_BdRead m BdPtr (XAXIDMA_BD_USR0_OFFSET + Offset * 4), 1).

Definition XAxiDma_BdSetCtrl (BdPtr Data : Z) : ST Mem unit :=
  m ← st_get id;
  let RegValue := XAxiDma_BdRead m BdPtr XAXIDMA_BD_CTRL_LEN_OFFSET in
  let RegValue := RegValue .& not32 XAXIDMA_BD_CTRL_ALL_MASK in
  let RegValue := RegValue .| (Data .& XAXIDMA_BD_CTRL_ALL_MASK) in
  XAxiDma_BdWrite BdPtr XAXIDMA_BD_CTRL_LEN_OFFSET RegValue.

(** ** Multi-channel fields *)

(** The setters of the multi-channel words all or a shifted value into the
    word they read. *)
Definition bd_or_field (BdPtr Offset Val Shift : Z) : ST Mem unit :=
  m ← st_get id;
  XAxiDma_BdWrite BdPtr Offset (XAxiDma_BdRead m BdPtr Offset .| u32 (Z.shiftl (u32 Val) Shift)).

Definition XAxiDma_BdSetTId (BdPtr TId : Z) : ST Mem unit :=
  bd_or_field BdPtr XAXIDMA_BD_MCCTL_OFFSET TId XAXIDMA_BD_TID_FIELD_SHIFT.
Definition XAxiDma_BdGetTId (m : Mem) (BdPtr : Z) : Z :=
  XAxiDma_BdRead m BdPtr XAXIDMA_BD_STS_OFFSET .& XAXIDMA_BD_TID_FIELD_MASK.
Definition XAxiDma_BdSetTDest (BdPtr TDest : Z) : ST Mem unit :=
  bd_or_field BdPtr XAXIDMA_BD_MCCTL_OFFSET TDest XAXIDMA_BD_TDEST_FIELD_SHIFT.
Definition XAxiDma_BdGetTDest (m : Mem) (BdPtr : Z) : Z :=
  XAxiDma_BdRead m BdPtr XAXIDMA_BD_STS_OFFSET .& XAXIDMA_BD_TDEST_FIELD_MASK.
Definition XAxiDma_BdSetTUser (BdPtr TUser : Z) : ST Mem unit :=
  bd_or_field BdPtr XAXIDMA_BD_MCCTL_OFFSET TUser XAXIDMA_BD_TUSER_FIELD_SHIFT.
Definition XAxiDma_BdGetTUser (m : Mem) (BdPtr : Z) : Z :=
  XAxiDma_BdRead m BdPtr XAXIDMA_BD_STS_OFFSET .& XAXIDMA_BD_TUSER_FIELD_MASK.
Definition XAxiDma_BdSetARCache (BdPtr ARCache : Z) : ST Mem unit :=
  bd_or_field BdPtr XAXIDMA_BD_MCCTL_OFFSET ARCache XAXIDMA_BD_ARCACHE_FIELD_SHIFT.
Definition XAxiDma_BdGetARCache (m : Mem) (BdPtr : Z) : Z :=
  XAxiDma_BdRead m BdPtr XAXIDMA_BD_MCCTL_OFFSET .& XAXIDMA_BD_ARCACHE_FIELD_MASK.
Definition XAxiDma_BdSetARUser (BdPtr ARUser : Z) : ST Mem unit :=
  bd_or_field BdPtr XAXIDMA_BD_MCCTL_OFFSET ARUser XAXIDMA_BD_ARUSER_FIELD_SHIFT.
Definition XAxiDma_BdGetARUser (m : Mem) (BdPtr : Z) : Z :=
  XAxiDma_BdRead m BdPtr XAXIDMA_BD_MCCTL_OFFSET .& XAXIDMA_BD_ARUSER_FIELD_MASK.
Definition XAxiDma_BdSetStride (BdPtr Stride : Z) : ST Mem unit :=
  bd_or_field BdPtr XAXIDMA_BD_STRIDE_VSIZE_OFFSET Stride XAXIDMA_BD_STRIDE_FIELD_SHIFT.
Definition XAxiDma_BdGetStride (m : Mem) (BdPtr : Z) : Z :=
  XAxiDma_BdRead m BdPtr XAXIDMA_BD_STRIDE_VSIZE_OFFSET .& XAXIDMA_BD_STRIDE_FIELD_MASK.
Definition XAxiDma_BdSetVSize (BdPtr VSize : Z) : ST Mem unit :=
  bd_or_field BdPtr XAXIDMA_BD_STRIDE_VSIZE_OFFSET VSize XAXIDMA_BD_VSIZE_FIELD_SHIFT.
Definition XAxiDma_BdGetVSize (m : Mem) (BdPtr : Z) : Z :=
  XAxiDma_BdRead m BdPtr XAXIDMA_BD_STRIDE_VSIZE_OFFSET .& XAXIDMA_BD_VSIZE_FIELD_MASK.

(** ** Where a descriptor lives *)

(** A descriptor that does not wrap around the end of the address space, and
    an offset of one of its words. *)
Definition bd_ok (bd : Z) : Prop := 0 <= bd /\ bd + sizeof_Bd <= 4294967296.
Definition bd_off (o : Z) : Prop := 0 <= o < sizeof_Bd.

Lemma BdRead_addr m bd o : bd_ok bd -> bd_off o -> XAxiDma_BdRead m bd o = mem_read m (bd + o).
Proof.
  unfold bd_ok, bd_off, XAxiDma_BdRead, sizeof_Bd, XAXIDMA_BD_NUM_WORDS. intros.
  now rewrite !u32_small by (unfold is_u32; lia || (rewrite !u32_small by (unfold is_u32; lia); lia)).
Qed.

Lemma BdWrite_addr m bd o v :
  bd_ok bd -> bd_off o -> st_out (XAxiDma_BdWrite bd o v) m = mem_write m (bd + o) v.
Proof.
  unfold bd_ok, bd_off, XAxiDma_BdWrite, sizeof_Bd, XAXIDMA_BD_NUM_WORDS. intros.
  st. now rewrite !u32_small by (unfold is_u32; lia || (rewrite !u32_small by (unfold is_u32; lia); lia)).
Qed.

Lemma BdRead_u32 m bd o : is_u32 (XAxiDma_BdRead m bd o).
Proof. apply mem_read_u32. Qed.
#[export] Hint Resolve BdRead_u32 : drv.

(** Reading back the word just written, and any other word. *)
Lemma BdRead_Write_eq m bd o v :
  XAxiDma_BdRead (st_out (XAxiDma_BdWrite bd o v) m) bd o = u32 v.
Proof. unfold XAxiDma_BdRead, XAxiDma_BdWrite. st. apply mem_read_write_eq. Qed.

Lemma BdRead_Write_off m bd o o' v :
  bd_ok bd -> bd_off o -> bd_off o' -> o <> o' ->
  XAxiDma_BdRead (st_out (XAxiDma_BdWrite bd o v) m) bd o' = XAxiDma_BdRead m bd o'.
Proof.
  intros. rewrite BdWrite_addr, !BdRead_addr by done. apply mem_read_write_ne. lia.
Qed.

(** Two descriptors at least one descriptor apart share no word. *)
Definition bd_apart (a b : Z) : Prop := sizeof_Bd <= Z.abs (a - b).

Lemma BdRead_Write_apart m bd bd' o o' v :
  bd_ok bd -> bd_ok bd' -> bd_off o -> bd_off o' -> bd_apart bd bd' ->
  XAxiDma_BdRead (st_out (XAxiDma_BdWrite bd o v) m) bd' o' = XAxiDma_BdRead m bd' o'.
Proof.
  unfold bd_apart, bd_off. intros. rewrite BdWrite_addr, !BdRead_addr by (done || unfold bd_off; lia).
  apply mem_read_write_ne. lia.
Qed.

Ltac bd_off_tac := solve [unfold bd_off, sizeof_Bd; vm_compute; intuition congruence].
#[export] Hint Extern 1 (bd_off _) => bd_off_tac : drv.
#[export] Hint Extern 1 (_ <> _ :> Z) => discriminate : drv.
#[export] Hint Rewrite BdRead_Write_eq : st.

(** ** What the setters of a transfer do *)

(** Only the word at offset [o] of [bd] may differ. *)
Definition word_frame (bd o : Z) (m m' : Mem) : Prop :=
  forall a, a <> bd + o -> mem_read m' a = mem_read m a.

Lemma word_frame_write bd o v m : bd_ok bd -> bd_off o ->
  word_frame bd o m (st_out (XAxiDma_BdWrite bd o v) m).
Proof. intros Hb Ho a Ha. rewrite BdWrite_addr by done. apply mem_read_write_ne. lia. Qed.

Lemma word_frame_read bd o m m' o' : word_frame bd o m m' -> bd_ok bd -> bd_off o' -> o <> o' ->
  XAxiDma_BdRead m' bd o' = XAxiDma_BdRead m bd o'.
Proof. intros F Hb Ho Hne. rewrite !BdRead_addr by done. apply F. lia. Qed.

Lemma mask_has_ones n v : 0 <= n -> 0 <= v <= Z.ones n -> mask_has (Z.ones n) v.
Proof.
  intros Hn Hv. unfold mask_has. rewrite Z.land_ones by done. apply Z.mod_small.
  rewrite Z.ones_equiv in Hv. lia.
Qed.

Lemma ones_u32 n : 0 <= n <= 32 -> is_u32 (Z.ones n).
Proof.
  intros Hn. unfold is_u32. rewrite Z.ones_equiv.
  assert (0 < 2 ^ n <= 2 ^ 32) by (split; [apply Z.pow_pos_nonneg; lia|apply Z.pow_le_mono_r; lia]).
  change (2 ^ 32) with 4294967296 in *. lia.
Qed.

(** The length field and the packet flags are disjoint. *)
Lemma ones_ctrl n : 0 <= n <= 26 -> (Z.ones n .& XAXIDMA_BD_CTRL_ALL_MASK) = 0.
Proof.
  intros Hn. apply Z.bits_inj'. intros i Hi. rewrite Z.land_spec, Z.bits_0.
  destruct (Z_lt_le_dec i n); [|now rewrite Z.ones_spec_high by lia].
  change XAXIDMA_BD_CTRL_ALL_MASK with (Z.shiftl 3 26).
  rewrite Z.shiftl_spec by lia. rewrite (Z.testbit_neg_r 3) by lia. apply andb_false_r.
Qed.

Lemma BdSetLength_ok m bd len n : bd_ok bd -> 0 <= n <= 26 -> 0 < len <= Z.ones n ->
  let m' := st_out (XAxiDma_BdSetLength bd len (Z.ones n)) m in
  st_val (XAxiDma_BdSetLength bd len (Z.ones n)) m = XST_SUCCESS /\
  XAxiDma_BdGetLength m' bd (Z.ones n) = len /\
  XAxiDma_BdGetCtrl m' bd = XAxiDma_BdGetCtrl m bd /\
  word_frame bd XAXIDMA_BD_CTRL_LEN_OFFSET m m'.
Proof.
  intros Hok Hn Hl. unfold XAxiDma_BdSetLength. cbv zeta.
  replace (len <=? 0) with false by lia. replace (Z.ones n <? len) with false by lia. cbn [orb].
  st. change (id m) with m. set (old := XAxiDma_BdRead m bd XAXIDMA_BD_CTRL_LEN_OFFSET).
  assert (Hu : is_u32 old) by (unfold old; auto with drv).
  pose proof (ones_u32 n ltac:(lia)) as Ho. unfold is_u32 in Ho. rewrite land_not32 by done.
  assert (Hnew : u32 (Z.ldiff old (Z.ones n) .| len) = (Z.ldiff old (Z.ones n) .| len)).
  { apply u32_small, is_u32_lor; [by apply is_u32_ldiff|unfold is_u32; lia]. }
  split_and!; [done|..|apply word_frame_write; auto with drv].
  - unfold XAxiDma_BdGetLength. st. rewrite Hnew. apply mask_set_get, mask_has_ones; lia.
  - unfold XAxiDma_BdGetCtrl. st. rewrite Hnew.
    apply mask_set_other; [apply mask_has_ones; lia|by apply ones_ctrl].
Qed.

Lemma BdSetLength_bad m bd len mask : len <= 0 \/ mask < len ->
  XAxiDma_BdSetLength bd len mask m = (XST_INVALID_PARAM, m).
Proof. intros H. unfold XAxiDma_BdSetLength. case_if; [done|lia]. Qed.

Lemma BdSetCtrl_ok m bd data n : bd_ok bd -> 0 <= n <= 26 -> is_u32 data ->
  let m' := st_out (XAxiDma_BdSetCtrl bd data) m in
  XAxiDma_BdGetCtrl m' bd = (data .& XAXIDMA_BD_CTRL_ALL_MASK) /\
  XAxiDma_BdGetLength m' bd (Z.ones n) = XAxiDma_BdGetLength m bd (Z.ones n) /\
  word_frame bd XAXIDMA_BD_CTRL_LEN_OFFSET m m'.
Proof.
  intros Hok Hn Hd. cbv zeta. unfold XAxiDma_BdSetCtrl. st. change (id m) with m.
  set (old := XAxiDma_BdRead m bd XAXIDMA_BD_CTRL_LEN_OFFSET).
  assert (Hu : is_u32 old) by (unfold old; auto with drv).
  rewrite land_not32 by done. set (b := data .& XAXIDMA_BD_CTRL_ALL_MASK).
  assert (Hb : mask_has XAXIDMA_BD_CTRL_ALL_MASK b).
  { unfold mask_has, b. rewrite <- Z.land_assoc. now rewrite Z.land_diag. }
  assert (Hnew : u32 (Z.ldiff old XAXIDMA_BD_CTRL_ALL_MASK .| b) =
                 (Z.ldiff old XAXIDMA_BD_CTRL_ALL_MASK .| b)).
  { apply u32_small. unfold b. auto with drv. }
  split_and!; [..|apply word_frame_write; auto with drv].
  - unfold XAxiDma_BdGetCtrl. st. rewrite Hnew. now apply mask_set_get.
  - unfold XAxiDma_BdGetLength. st. rewrite Hnew. apply mask_set_other; [done|].
    rewrite Z.land_comm. by apply ones_ctrl.
Qed.

(** The address test: the engine realigns, or the address is a multiple of the
    word length stored in the descriptor. *)
Definition buf_ok (m : Mem) (bd addr : Z) : bool :=
  let DRE := XAxiDma_BdRead m bd XAXIDMA_BD_HAS_DRE_OFFSET in
  negb (tst addr (u32 ((DRE .& XAXIDMA_BD_WORDLEN_MASK) - 1))
        && ((DRE .& XAXIDMA_BD_HAS_DRE_MASK) =? 0)).

Lemma BdSetBufAddr_ok m bd addr : bd_ok bd -> buf_ok m bd addr = true ->
  let m' := st_out (XAxiDma_BdSetBufAddr bd addr) m in
  st_val (XAxiDma_BdSetBufAddr bd addr) m = XST_SUCCESS /\
  XAxiDma_BdGetBufAddr m' bd = u32 addr /\ word_frame bd XAXIDMA_BD_BUFA_OFFSET m m'.
Proof.
  intros Hok Hb. apply negb_true_iff in Hb. cbv zeta. unfold XAxiDma_BdSetBufAddr. st.
  change (id m) with m. rewrite Hb. st. unfold XAxiDma_BdGetBufAddr. st.
  split_and!; [done|done|apply word_frame_write; auto with drv].
Qed.

Lemma BdSetBufAddr_bad m bd addr : buf_ok m bd addr = false ->
  XAxiDma_BdSetBufAddr bd addr m = (XST_INVALID_PARAM, m).
Proof.
  intros Hb. apply negb_false_iff in Hb. unfold XAxiDma_BdSetBufAddr. rewrite st_bind_eq.
  st. change (id m) with m. now rewrite Hb.
Qed.
