(* ===== verification/BdProps.v ===== *)
(** * Properties of the descriptor accessors

    What the field accessors of [xaxidma_bd.h] and [xaxidma_bd.c] promise to
    the rings and to the client drivers: a field that was set reads back, its
    neighbours in the same word keep their value, bad arguments are refused. *)

From S2P Require Import Prelude Hw Bd.

(** A buffer length of at least one byte that fits the channel's length
    field is stored and reads back, the packet flags in the same word and all
    other words of the descriptor keep their values; any other length is
    refused with [XST_INVALID_PARAM] and nothing is written. *)
Theorem bd_length_roundtrip m bd len n :
  bd_ok bd -> 0 <= n <= 26 ->
  let '(st, m') := XAxiDma_BdSetLength bd len (Z.ones n) m in
  if (0 <? len) && (len <=? Z.ones n)
  then st = XST_SUCCESS /\ XAxiDma_BdGetLength m' bd (Z.ones n) = len /\
       XAxiDma_BdGetCtrl m' bd = XAxiDma_BdGetCtrl m bd /\
       forall o, bd_off o -> o <> XAXIDMA_BD_CTRL_LEN_OFFSET ->
         XAxiDma_BdRead m' bd o = XAxiDma_BdRead m bd o
  else st = XST_INVALID_PARAM /\ m' = m.
Proof.
  intros Hok Hn. case_if.
  - destruct (BdSetLength_ok m bd len n Hok Hn ltac:(lia)) as (V & L & C & F).
    unfold st_val, st_out in *. destruct (XAxiDma_BdSetLength bd len (Z.ones n) m) as [st m'].
    split_and!; try done. intros o Ho Hne. eapply word_frame_read; eauto.
  - rewrite BdSetLength_bad by lia. done.
Qed.

Lemma bd_length_roundtrip_witness :
  XAxiDma_BdGetLength (st_out (XAxiDma_BdSetLength 0x1000 1500 (Z.ones 23)) ∅) 0x1000 (Z.ones 23) = 1500.
Proof.
  pose proof (bd_length_roundtrip ∅ 0x1000 1500 23
    ltac:(unfold bd_ok; change sizeof_Bd with 64; lia) ltac:(lia)) as H.
  unfold st_out. destruct (XAxiDma_BdSetLength 0x1000 1500 (Z.ones 23) ∅) as [st m'].
  exact (proj1 (proj2 H)).
Defined.

(** Setting the packet flags replaces both flags, keeps the buffer length
    in the same word and every other word. *)
Theorem bd_ctrl_roundtrip m bd data n :
  bd_ok bd -> 0 <= n <= 26 -> is_u32 data ->
  let m' := st_out (XAxiDma_BdSetCtrl bd data) m in
  XAxiDma_BdGetCtrl m' bd = (data .& XAXIDMA_BD_CTRL_ALL_MASK) /\
  XAxiDma_BdGetLength m' bd (Z.ones n) = XAxiDma_BdGetLength m bd (Z.ones n) /\
  forall o, bd_off o -> o <> XAXIDMA_BD_CTRL_LEN_OFFSET ->
    XAxiDma_BdRead m' bd o = XAxiDma_BdRead m bd o.
Proof.
  intros Hok Hn Hd. destruct (BdSetCtrl_ok m bd data n Hok Hn Hd) as (C & L & F).
  split_and!; [done|done|]. intros o Ho Hne. eapply word_frame_read; eauto.
Qed.

Lemma bd_ctrl_roundtrip_witness :
  XAxiDma_BdGetCtrl (st_out (XAxiDma_BdSetCtrl 0x1000 XAXIDMA_BD_CTRL_TXSOF_MASK) ∅) 0x1000 =
  XAXIDMA_BD_CTRL_TXSOF_MASK.
Proof.
  exact (proj1 (bd_ctrl_roundtrip ∅ 0x1000 XAXIDMA_BD_CTRL_TXSOF_MASK 23
    ltac:(unfold bd_ok; change sizeof_Bd with 64; lia) ltac:(lia)
    ltac:(unfold is_u32, XAXIDMA_BD_CTRL_TXSOF_MASK; lia))).
Defined.

(** A buffer address is accepted exactly when the engine can realign data
    or the address is a multiple of the stream's word length (a power of two
    number of bytes, as stored at ring creation); an accepted address reads
    back, a refused one changes nothing. *)
Theorem bd_bufaddr_aligned m bd addr k : bd_ok bd -> is_u32 addr -> 0 <= k <= 7 ->
  let DRE := XAxiDma_BdRead m bd XAXIDMA_BD_HAS_DRE_OFFSET in
  (DRE .& XAXIDMA_BD_WORDLEN_MASK) = 2 ^ k ->
  let '(st, m') := XAxiDma_BdSetBufAddr bd addr m in
  if negb ((DRE .& XAXIDMA_BD_HAS_DRE_MASK) =? 0) || (addr mod 2 ^ k =? 0)
  then st = XST_SUCCESS /\ XAxiDma_BdGetBufAddr m' bd = addr /\
       forall o, bd_off o -> o <> XAXIDMA_BD_BUFA_OFFSET ->
         XAxiDma_BdRead m' bd o = XAxiDma_BdRead m bd o
  else st = XST_INVALID_PARAM /\ m' = m.
Proof.
  intros Hok Ha Hk DRE HW.
  assert (H2 : 0 < 2 ^ k <= 2 ^ 7) by (split; [apply Z.pow_pos_nonneg|apply Z.pow_le_mono_r]; lia).
  change (2 ^ 7) with 128 in H2.
  assert (Ht : buf_ok m bd addr = negb ((DRE .& XAXIDMA_BD_HAS_DRE_MASK) =? 0) || (addr mod 2 ^ k =? 0)).
  { unfold buf_ok. fold DRE. rewrite HW, u32_small by (unfold is_u32; lia). unfold tst.
    replace (2 ^ k - 1) with (Z.ones k) by (rewrite Z.ones_equiv; lia). rewrite Z.land_ones by lia.
    destruct (addr mod 2 ^ k =? 0), ((DRE .& XAXIDMA_BD_HAS_DRE_MASK) =? 0); done. }
  rewrite <- Ht. destruct (buf_ok m bd addr) eqn:E.
  - destruct (BdSetBufAddr_ok m bd addr Hok E) as (V & B & F). unfold st_val, st_out in *.
    destruct (XAxiDma_BdSetBufAddr bd addr m) as [st m'].
    cbn [fst snd] in *. split_and!; [done|rewrite B; by apply u32_small|].
    intros o Ho Hne. eapply word_frame_read; eauto.
  - by rewrite BdSetBufAddr_bad.
Qed.

Lemma bd_bufaddr_aligned_witness :
  (XAxiDma_BdSetBufAddr 0x1000 0x2002 (mem_write ∅ 0x103C 4)).1 = XST_INVALID_PARAM.
Proof.
  set (m := mem_write ∅ 0x103C 4).
  assert (E : (XAxiDma_BdRead m 0x1000 XAXIDMA_BD_HAS_DRE_OFFSET .& XAXIDMA_BD_WORDLEN_MASK) = 2 ^ 2)
    by (vm_compute; reflexivity).
  assert (F : negb ((XAxiDma_BdRead m 0x1000 XAXIDMA_BD_HAS_DRE_OFFSET .& XAXIDMA_BD_HAS_DRE_MASK) =? 0)
    || (0x2002 mod 2 ^ 2 =? 0) = false) by (vm_compute; reflexivity).
  assert (Hok : bd_ok 0x1000) by (unfold bd_ok; change sizeof_Bd with 64; lia).
  assert (Ha : is_u32 0x2002) by (unfold is_u32; lia). clearbody m.
  pose proof (bd_bufaddr_aligned m 0x1000 0x2002 2 Hok Ha ltac:(lia) E) as H.
  destruct (XAxiDma_BdSetBufAddr 0x1000 0x2002 m) as [st m']. rewrite F in H. exact (proj1 H).
Defined.

(** An application word with offset 0..4 of a descriptor of a channel with
    the status/control stream reads back with a valid mark; without the stream
    or with another offset the store is refused and the load is marked
    invalid. *)
Theorem bd_appword_roundtrip m bd off v : bd_ok bd -> is_u32 v ->
  let '(st, m') := XAxiDma_BdSetAppWord bd off v m in
  if negb (XAxiDma_BdRead m bd XAXIDMA_BD_HAS_STSCNTRL_OFFSET =? 0) && (0 <=? off) && (off <=? 4)
  then st = XST_SUCCESS /\ XAxiDma_BdGetAppWord m' bd off = (v, 1)
  else st = XST_INVALID_PARAM /\ m' = m /\ XAxiDma_BdGetAppWord m bd off = (0, 0).
Proof.
  intros Hok Hv. unfold XAxiDma_BdSetAppWord, XAxiDma_BdGetAppWord.
  rewrite st_bind_eq, st_val_get, st_out_get. change (id m) with m.
  destruct (XAxiDma_BdRead m bd XAXIDMA_BD_HAS_STSCNTRL_OFFSET =? 0) eqn:E; cbn [negb andb]; [done|].
  unfold XAXIDMA_LAST_APPWORD. case_if; [case_if; [lia|done]|]. case_if; [|lia].
  rewrite st_bind_eq. unfold mret, st_ret. split; [done|].
  assert (Hoff : bd_off (XAXIDMA_BD_USR0_OFFSET + off * 4)).
  { unfold bd_off. change sizeof_Bd with 64. change XAXIDMA_BD_USR0_OFFSET with 32. lia. }
  rewrite BdRead_Write_off; [|done|done|auto with drv|].
  2:{ change XAXIDMA_BD_USR0_OFFSET with 32. change XAXIDMA_BD_HAS_STSCNTRL_OFFSET with 56. lia. }
  rewrite (proj2 (Z.eqb_neq _ _) E), BdRead_Write_eq. now rewrite u32_small by done.
Qed.

Lemma bd_appword_roundtrip_witness :
  (XAxiDma_BdSetAppWord 0x1000 2 7 (mem_write ∅ 0x1038 1)).1 = XST_SUCCESS.
Proof.
  pose proof (bd_appword_roundtrip (mem_write ∅ 0x1038 1) 0x1000 2 7
    ltac:(unfold bd_ok; change sizeof_Bd with 64; lia) ltac:(unfold is_u32; lia)) as H.
  destruct (XAxiDma_BdSetAppWord 0x1000 2 7 (mem_write ∅ 0x1038 1)) as [st m'].
  exact (proj1 H).
Defined.

(** Clearing a descriptor zeroes its twelve transfer words, the completed
    bit among them, and keeps the link and the build information. *)
Theorem bd_clear_words m bd o : bd_ok bd -> bd_off o -> o mod 4 = 0 ->
  XAxiDma_BdRead (st_out (XAxiDma_BdClear bd) m) bd o =
  if (XAXIDMA_BD_START_CLEAR <=? o) && (o <? XAXIDMA_BD_START_CLEAR + XAXIDMA_BD_BYTES_TO_CLEAR)
  then 0 else XAxiDma_BdRead m bd o.
Proof.
  intros Hok Ho Ho4. unfold XAxiDma_BdClear. st. rewrite !BdRead_addr by done.
  unfold bd_ok, bd_off in *. change sizeof_Bd with 64 in *.
  change XAXIDMA_BD_START_CLEAR with 8. change XAXIDMA_BD_BYTES_TO_CLEAR with 48.
  rewrite u32_small by (unfold is_u32; lia). change (Z.to_nat (48 / 4)) with 12%nat.
  apply Z.mod_divide in Ho4 as [q Hq]; [|lia]. case_if.
  - replace (bd + o) with ((bd + 8) + 4 * (q - 2)) by lia. apply mem_zero_inside; lia.
  - apply mem_zero_outside; [lia|lia|]. unfold outside. lia.
Qed.

Lemma bd_clear_words_witness :
  XAxiDma_BdRead (st_out (XAxiDma_BdClear 0x1000) (mem_write ∅ 0x101C 0x80000000)) 0x1000
    XAXIDMA_BD_STS_OFFSET = 0.
Proof.
  rewrite (bd_clear_words _ 0x1000 XAXIDMA_BD_STS_OFFSET); [reflexivity| |auto with drv|reflexivity].
  unfold bd_ok. change sizeof_Bd with 64. lia.
Defined.

(** The multi-channel stream identifier does not read back: the setter
    stores it in the multi-channel control word while the getter reads the
    status word, so on a cleared descriptor the getter gives 0 for every
    identifier (and the same for the destination and user fields). *)
Theorem bd_multichannel_no_readback m bd v : bd_ok bd ->
  let m0 := st_out (XAxiDma_BdClear bd) m in
  XAxiDma_BdGetTId (st_out (XAxiDma_BdSetTId bd v) m0) bd = 0 /\
  XAxiDma_BdGetTDest (st_out (XAxiDma_BdSetTDest bd v) m0) bd = 0 /\
  XAxiDma_BdGetTUser (st_out (XAxiDma_BdSetTUser bd v) m0) bd = 0.
Proof.
  intros Hok. cbv zeta.
  assert (Hz : XAxiDma_BdRead (st_out (XAxiDma_BdClear bd) m) bd XAXIDMA_BD_STS_OFFSET = 0).
  { unfold XAxiDma_BdClear. st. rewrite BdRead_addr by auto with drv.
    unfold bd_ok in *. change sizeof_Bd with 64 in *. change XAXIDMA_BD_START_CLEAR with 8.
    rewrite u32_small by (unfold is_u32; lia). change (Z.to_nat (_ / 4)) with 12%nat.
    replace (bd + XAXIDMA_BD_STS_OFFSET) with ((bd + 8) + 4 * 5)
      by (change XAXIDMA_BD_STS_OFFSET with 28; lia). apply mem_zero_inside; lia. }
  unfold XAxiDma_BdGetTId, XAxiDma_BdGetTDest, XAxiDma_BdGetTUser,
    XAxiDma_BdSetTId, XAxiDma_BdSetTDest, XAxiDma_BdSetTUser, bd_or_field. st.
  rewrite !BdRead_Write_off by auto with drv. rewrite Hz. done.
Qed.

Lemma bd_multichannel_no_readback_witness :
  XAxiDma_BdGetTId (st_out (XAxiDma_BdSetTId 0x1000 5) (st_out (XAxiDma_BdClear 0x1000) ∅)) 0x1000 = 0.
Proof.
  assert (Hok : bd_ok 0x1000) by (unfold bd_ok; change sizeof_Bd with 64; lia).
  exact (proj1 (bd_multichannel_no_readback ∅ 0x1000 5 Hok)).
Defined.
