(* ===== verification/BdRing.v ===== *)
(** * The descriptor ring: data and operations

    Models [linux-drv/xaxidma_bdring.h] and [linux-drv/xaxidma_bdring.c].  The
    ring structure is a record with the fields of the C structure; an
    operation takes the record and returns the updated one beside its result.
    Pointers to descriptors are their [u32] virtual addresses, except
    [BdaRestart], which holds a physical address as in the code. *)

From S2P Require Import Prelude Hw Bd.

Record XAxiDma_BdRing : Type := mkBdRing {
  ChanBase : Z;
  IsRxChannel : Z;
  RunState : Z;
  HasStsCntrlStrm : Z;
  HasDRE : Z;
  DataWidth : Z;
  MaxTransferLen : Z;
  FirstBdPhysAddr : Z;
  FirstBdAddr : Z;
  LastBdAddr : Z;
  Length : Z;
  Separation : Z;
  FreeHead : Z;
  PreHead : Z;
  HwHead : Z;
  HwTail : Z;
  PostHead : Z;
  BdaRestart : Z;
  FreeCnt : Z;
  PreCnt : Z;
  HwCnt : Z;
  PostCnt : Z;
  AllCnt : Z
}.

#[export] Instance set_ChanBase : Setter ChanBase := fun v r =>
  mkBdRing v (IsRxChannel r) (RunState r) (HasStsCntrlStrm r) (HasDRE r) (DataWidth r)
    (MaxTransferLen r) (FirstBdPhysAddr r) (FirstBdAddr r) (LastBdAddr r) (Length r)
    (Separation r) (FreeHead r) (PreHead r) (HwHead r) (HwTail r) (PostHead r) (BdaRestart r)
    (FreeCnt r) (PreCnt r) (HwCnt r) (PostCnt r) (AllCnt r).
#[export] Instance set_IsRxChannel : Setter IsRxChannel := fun v r =>
  mkBdRing (ChanBase r) v (RunState r) (HasStsCntrlStrm r) (HasDRE r) (DataWidth r)
    (MaxTransferLen r) (FirstBdPhysAddr r) (FirstBdAddr r) (LastBdAddr r) (Length r)
    (Separation r) (FreeHead r) (PreHead r) (HwHead r) (HwTail r) (PostHead r) (BdaRestart r)
    (FreeCnt r) (PreCnt r) (HwCnt r) (PostCnt r) (AllCnt r).
#[export] Instance set_RunState : Setter RunState := fun v r =>
  mkBdRing (ChanBase r) (IsRxChannel r) v (HasStsCntrlStrm r) (HasDRE r) (DataWidth r)
    (MaxTransferLen r) (FirstBdPhysAddr r) (FirstBdAddr r) (LastBdAddr r) (Length r)
    (Separation r) (FreeHead r) (PreHead r) (HwHead r) (HwTail r) (PostHead r) (BdaRestart r)
    (FreeCnt r) (PreCnt r) (HwCnt r) (PostCnt r) (AllCnt r).
#[export] Instance set_HasStsCntrlStrm : Setter HasStsCntrlStrm := fun v r =>
  mkBdRing (ChanBase r) (IsRxChannel r) (RunState r) v (HasDRE r) (DataWidth r)
    (MaxTransferLen r) (FirstBdPhysAddr r) (FirstBdAddr r) (LastBdAddr r) (Length r)
    (Separation r) (FreeHead r) (PreHead r) (HwHead r) (HwTail r) (PostHead r) (BdaRestart r)
    (FreeCnt r) (PreCnt r) (HwCnt r) (PostCnt r) (AllCnt r).
#[export] Instance set_HasDRE : Setter HasDRE := fun v r =>
  mkBdRing (ChanBase r) (IsRxChannel r) (RunState r) (HasStsCntrlStrm r) v (DataWidth r)
    (MaxTransferLen r) (FirstBdPhysAddr r) (FirstBdAddr r) (LastBdAddr r) (Length r)
    (Separation r) (FreeHead r) (PreHead r) (HwHead r) (HwTail r) (PostHead r) (BdaRestart r)
    (FreeCnt r) (PreCnt r) (HwCnt r) (PostCnt r) (AllCnt r).
#[export] Instance set_DataWidth : Setter DataWidth := fun v r =>
  mkBdRing (ChanBase r) (IsRxChannel r) (RunState r) (HasStsCntrlStrm r) (HasDRE r) v
    (MaxTransferLen r) (FirstBdPhysAddr r) (FirstBdAddr r) (LastBdAddr r) (Length r)
    (Separation r) (FreeHead r) (PreHead r) (HwHead r) (HwTail r) (PostHead r) (BdaRestart r)
    (FreeCnt r) (PreCnt r) (HwCnt r) (PostCnt r) (AllCnt r).
#[export] Instance set_MaxTransferLen : Setter MaxTransferLen := fun v r =>
  mkBdRing (ChanBase r) (IsRxChannel r) (RunState r) (HasStsCntrlStrm r) (HasDRE r) (DataWidth
    r) v (FirstBdPhysAddr r) (FirstBdAddr r) (LastBdAddr r) (Length r) (Separation r)
    (FreeHead r) (PreHead r) (HwHead r) (HwTail r) (PostHead r) (BdaRestart r) (FreeCnt r)
    (PreCnt r) (HwCnt r) (PostCnt r) (AllCnt r).
#[export] Instance set_FirstBdPhysAddr : Setter FirstBdPhysAddr := fun v r =>
  mkBdRing (ChanBase r) (IsRxChannel r) (RunState r) (HasStsCntrlStrm r) (HasDRE r) (DataWidth
    r) (MaxTransferLen r) v (FirstBdAddr r) (LastBdAddr r) (Length r) (Separation r) (FreeHead
    r) (PreHead r) (HwHead r) (HwTail r) (PostHead r) (BdaRestart r) (FreeCnt r) (PreCnt r)
    (HwCnt r) (PostCnt r) (AllCnt r).
#[export] Instance set_FirstBdAddr : Setter FirstBdAddr := fun v r =>
  mkBdRing (ChanBase r) (IsRxChannel r) (RunState r) (HasStsCntrlStrm r) (HasDRE r) (DataWidth
    r) (MaxTransferLen r) (FirstBdPhysAddr r) v (LastBdAddr r) (Length r) (Separation r)
    (FreeHead r) (PreHead r) (HwHead r) (HwTail r) (PostHead r) (BdaRestart r) (FreeCnt r)
    (PreCnt r) (HwCnt r) (PostCnt r) (AllCnt r).
#[export] Instance set_LastBdAddr : Setter LastBdAddr := fun v r =>
  mkBdRing (ChanBase r) (IsRxChannel r) (RunState r) (HasStsCntrlStrm r) (HasDRE r) (DataWidth
    r) (MaxTransferLen r) (FirstBdPhysAddr r) (FirstBdAddr r) v (Length r) (Separation r)
    (FreeHead r) (PreHead r) (HwHead r) (HwTail r) (PostHead r) (BdaRestart r) (FreeCnt r)
    (PreCnt r) (HwCnt r) (PostCnt r) (AllCnt r).
#[export] Instance set_Length : Setter Length := fun v r =>
  mkBdRing (ChanBase r) (IsRxChannel r) (RunState r) (HasStsCntrlStrm r) (HasDRE r) (DataWidth
    r) (MaxTransferLen r) (FirstBdPhysAddr r) (FirstBdAddr r) (LastBdAddr r) v (Separation r)
    (FreeHead r) (PreHead r) (HwHead r) (HwTail r) (PostHead r) (BdaRestart r) (FreeCnt r)
    (PreCnt r) (HwCnt r) (PostCnt r) (AllCnt r).
#[export] Instance set_Separation : Setter Separation := fun v r =>
  mkBdRing (ChanBase r) (IsRxChannel r) (RunState r) (HasStsCntrlStrm r) (HasDRE r) (DataWidth
    r) (MaxTransferLen r) (FirstBdPhysAddr r) (FirstBdAddr r) (LastBdAddr r) (Length r) v
    (FreeHead r) (PreHead r) (HwHead r) (HwTail r) (PostHead r) (BdaRestart r) (FreeCnt r)
    (PreCnt r) (HwCnt r) (PostCnt r) (AllCnt r).
#[export] Instance set_FreeHead : Setter FreeHead := fun v r =>
  mkBdRing (ChanBase r) (IsRxChannel r) (RunState r) (HasStsCntrlStrm r) (HasDRE r) (DataWidth
    r) (MaxTransferLen r) (FirstBdPhysAddr r) (FirstBdAddr r) (LastBdAddr r) (Length r)
    (Separation r) v (PreHead r) (HwHead r) (HwTail r) (PostHead r) (BdaRestart r) (FreeCnt r)
    (PreCnt r) (HwCnt r) (PostCnt r) (AllCnt r).
#[export] Instance set_PreHead : Setter PreHead := fun v r =>
  mkBdRing (ChanBase r) (IsRxChannel r) (RunState r) (HasStsCntrlStrm r) (HasDRE r) (DataWidth
    r) (MaxTransferLen r) (FirstBdPhysAddr r) (FirstBdAddr r) (LastBdAddr r) (Length r)
    (Separation r) (FreeHead r) v (HwHead r) (HwTail r) (PostHead r) (BdaRestart r) (FreeCnt
    r) (PreCnt r) (HwCnt r) (PostCnt r) (AllCnt r).
#[export] Instance set_HwHead : Setter HwHead := fun v r =>
  mkBdRing (ChanBase r) (IsRxChannel r) (RunState r) (HasStsCntrlStrm r) (HasDRE r) (DataWidth
    r) (MaxTransferLen r) (FirstBdPhysAddr r) (FirstBdAddr r) (LastBdAddr r) (Length r)
    (Separation r) (FreeHead r) (PreHead r) v (HwTail r) (PostHead r) (BdaRestart r) (FreeCnt
    r) (PreCnt r) (HwCnt r) (PostCnt r) (AllCnt r).
#[export] Instance set_HwTail : Setter HwTail := fun v r =>
  mkBdRing (ChanBase r) (IsRxChannel r) (RunState r) (HasStsCntrlStrm r) (HasDRE r) (DataWidth
    r) (MaxTransferLen r) (FirstBdPhysAddr r) (FirstBdAddr r) (LastBdAddr r) (Length r)
    (Separation r) (FreeHead r) (PreHead r) (HwHead r) v (PostHead r) (BdaRestart r) (FreeCnt
    r) (PreCnt r) (HwCnt r) (PostCnt r) (AllCnt r).
#[export] Instance set_PostHead : Setter PostHead := fun v r =>
  mkBdRing (ChanBase r) (IsRxChannel r) (RunState r) (HasStsCntrlStrm r) (HasDRE r) (DataWidth
    r) (MaxTransferLen r) (FirstBdPhysAddr r) (FirstBdAddr r) (LastBdAddr r) (Length r)
    (Separation r) (FreeHead r) (PreHead r) (HwHead r) (HwTail r) v (BdaRestart r) (FreeCnt r)
    (PreCnt r) (HwCnt r) (PostCnt r) (AllCnt r).
#[export] Instance set_BdaRestart : Setter BdaRestart := fun v r =>
  mkBdRing (ChanBase r) (IsRxChannel r) (RunState r) (HasStsCntrlStrm r) (HasDRE r) (DataWidth
    r) (MaxTransferLen r) (FirstBdPhysAddr r) (FirstBdAddr r) (LastBdAddr r) (Length r)
    (Separation r) (FreeHead r) (PreHead r) (HwHead r) (HwTail r) (PostHead r) v (FreeCnt r)
    (PreCnt r) (HwCnt r) (PostCnt r) (AllCnt r).
#[export] Instance set_FreeCnt : Setter FreeCnt := fun v r =>
  mkBdRing (ChanBase r) (IsRxChannel r) (RunState r) (HasStsCntrlStrm r) (HasDRE r) (DataWidth
    r) (MaxTransferLen r) (FirstBdPhysAddr r) (FirstBdAddr r) (LastBdAddr r) (Length r)
    (Separation r) (FreeHead r) (PreHead r) (HwHead r) (HwTail r) (PostHead r) (BdaRestart r)
    v (PreCnt r) (HwCnt r) (PostCnt r) (AllCnt r).
#[export] Instance set_PreCnt : Setter PreCnt := fun v r =>
  mkBdRing (ChanBase r) (IsRxChannel r) (RunState r) (HasStsCntrlStrm r) (HasDRE r) (DataWidth
    r) (MaxTransferLen r) (FirstBdPhysAddr r) (FirstBdAddr r) (LastBdAddr r) (Length r)
    (Separation r) (FreeHead r) (PreHead r) (HwHead r) (HwTail r) (PostHead r) (BdaRestart r)
    (FreeCnt r) v (HwCnt r) (PostCnt r) (AllCnt r).
#[export] Instance set_HwCnt : Setter HwCnt := fun v r =>
  mkBdRing (ChanBase r) (IsRxChannel r) (RunState r) (HasStsCntrlStrm r) (HasDRE r) (DataWidth
    r) (MaxTransferLen r) (FirstBdPhysAddr r) (FirstBdAddr r) (LastBdAddr r) (Length r)
    (Separation r) (FreeHead r) (PreHead r) (HwHead r) (HwTail r) (PostHead r) (BdaRestart r)
    (FreeCnt r) (PreCnt r) v (PostCnt r) (AllCnt r).
#[export] Instance set_PostCnt : Setter PostCnt := fun v r =>
  mkBdRing (ChanBase r) (IsRxChannel r) (RunState r) (HasStsCntrlStrm r) (HasDRE r) (DataWidth
    r) (MaxTransferLen r) (FirstBdPhysAddr r) (FirstBdAddr r) (LastBdAddr r) (Length r)
    (Separation r) (FreeHead r) (PreHead r) (HwHead r) (HwTail r) (PostHead r) (BdaRestart r)
    (FreeCnt r) (PreCnt r) (HwCnt r) v (AllCnt r).
#[export] Instance set_AllCnt : Setter AllCnt := fun v r =>
  mkBdRing (ChanBase r) (IsRxChannel r) (RunState r) (HasStsCntrlStrm r) (HasDRE r) (DataWidth
    r) (MaxTransferLen r) (FirstBdPhysAddr r) (FirstBdAddr r) (LastBdAddr r) (Length r)
    (Separation r) (FreeHead r) (PreHead r) (HwHead r) (HwTail r) (PostHead r) (BdaRestart r)
    (FreeCnt r) (PreCnt r) (HwCnt r) (PostCnt r) v.

#[export] Instance BdRing_eq_dec : EqDecision XAxiDma_BdRing.
Proof. solve_decision. Defined.

(** A structure cleared by [memset]. *)
Definition BdRing_zero : XAxiDma_BdRing :=
  mkBdRing 0 0 0 0 0 0 0 0 0 0 0 0 0 0 0 0 0 0 0 0 0 0 0.

(** ** Geometry macros *)

(** Bytes between adjacent descriptors for an alignment. *)
Definition bd_separation (Alignment : Z) : Z :=
  u32 (sizeof_Bd + (Alignment - 1)) .& not32 (Alignment - 1).

Definition XAxiDma_mBdRingCntCalc (Alignment Bytes : Z) : Z :=
  Bytes / bd_separation Alignment.

Definition XAxiDma_mBdRingMemCalc (Alignment NumBd : Z) : Z :=
  bd_separation Alignment * NumBd.

Definition XAXIDMA_VIRT_TO_PHYS (r : XAxiDma_BdRing) (BdPtr : Z) : Z :=
  u32 (BdPtr + u32 (FirstBdPhysAddr r - FirstBdAddr r)).

Definition XAXIDMA_PHYS_TO_VIRT (r : XAxiDma_BdRing) (BdPtr : Z) : Z :=
  u32 (u32 (BdPtr + FirstBdAddr r) - FirstBdPhysAddr r).

Definition XAXIDMA_RING_SEEKAHEAD (r : XAxiDma_BdRing) (BdPtr NumBd : Z) : Z :=
  let Addr := u32 (BdPtr + u32 (Separation r * NumBd)) in
  if (LastBdAddr r <? Addr) || (Addr <? BdPtr) then u32 (Addr - Length r) else Addr.

Definition XAXIDMA_RING_SEEKBACK (r : XAxiDma_BdRing) (BdPtr NumBd : Z) : Z :=
  let Addr := u32 (BdPtr - u32 (Separation r * NumBd)) in
  if (Addr <? FirstBdAddr r) || (BdPtr <? Addr) then u32 (Addr + Length r) else Addr.

Definition XAxiDma_mBdRingNext (r : XAxiDma_BdRing) (BdPtr : Z) : Z :=
  if LastBdAddr r <=? BdPtr then FirstBdAddr r else u32 (BdPtr + Separation r).

Definition XAxiDma_mBdRingPrev (r : XAxiDma_BdRing) (BdPtr : Z) : Z :=
  if BdPtr <=? FirstBdAddr r then LastBdAddr r else u32 (BdPtr - Separation r).

Definition XAxiDma_mBdRingGetCnt (r : XAxiDma_BdRing) : Z := AllCnt r.
Definition XAxiDma_mBdRingGetFreeCnt (r : XAxiDma_BdRing) : Z := FreeCnt r.

(** ** Creation *)

(** The hardware build information stored in every descriptor. *)
Definition bd_put_hwinfo (r : XAxiDma_BdRing) (bd : Z) : ST Mem unit :=
  XAxiDma_BdWrite bd XAXIDMA_BD_HAS_STSCNTRL_OFFSET (u32 (HasStsCntrlStrm r));;
  XAxiDma_BdWrite bd XAXIDMA_BD_HAS_DRE_OFFSET
    (u32 (Z.shiftl (u32 (HasDRE r)) XAXIDMA_BD_HAS_DRE_SHIFT) .| u32 (DataWidth r)).

(** The loop over the first [n] descriptors; returns the final [BdVirtAddr]. *)
Fixpoint bdring_create_loop (r : XAxiDma_BdRing) (n : nat) (BdVirtAddr BdPhysAddr : Z)
  : ST Mem Z :=
  match n with
  | O => mret BdVirtAddr
  | S n =>
      XAxiDma_BdWrite BdVirtAddr XAXIDMA_BD_NDESC_OFFSET BdPhysAddr;;
      bd_put_hwinfo r BdVirtAddr;;
      bdring_create_loop r n (u32 (BdVirtAddr + Separation r)) (u32 (BdPhysAddr + Separation r))
  end.

Definition XAxiDma_BdRingCreate (r : XAxiDma_BdRing) (PhysAddr VirtAddr Alignment BdCount : Z)
  : ST Mem (Z * XAxiDma_BdRing) :=
  if BdCount <=? 0 then mret (XST_INVALID_PARAM, r)
  else
  let r := r <|AllCnt := 0|> <|FreeCnt := 0|> <|HwCnt := 0|> <|PreCnt := 0|> <|PostCnt := 0|> in
  if Alignment <? XAXIDMA_BD_MINIMUM_ALIGNMENT then mret (XST_INVALID_PARAM, r)
  else if tst (Alignment - 1) Alignment then mret (XST_INVALID_PARAM, r)
  else if negb (PhysAddr mod Alignment =? 0) || negb (VirtAddr mod Alignment =? 0)
  then mret (XST_INVALID_PARAM, r)
  else
  let r := r <|Separation := bd_separation Alignment|> in
  if u32 (VirtAddr + u32 (Separation r * BdCount) - 1) <? VirtAddr
  then mret (XST_DMA_SG_LIST_ERROR, r)
  else
    st_mod (mem_zero (Z.to_nat (u32 (Separation r * BdCount) / 4)) VirtAddr);;
    BdVirtAddr ← bdring_create_loop r (Z.to_nat (BdCount - 1)) VirtAddr
                   (u32 (PhysAddr + Separation r));
    XAxiDma_BdWrite BdVirtAddr XAXIDMA_BD_NDESC_OFFSET PhysAddr;;
    bd_put_hwinfo r BdVirtAddr;;
    mret (XST_SUCCESS,
      r <|RunState := AXIDMA_CHANNEL_HALTED|>
        <|FirstBdAddr := VirtAddr|>
        <|FirstBdPhysAddr := PhysAddr|>
        <|LastBdAddr := BdVirtAddr|>
        <|Length := u32 (BdVirtAddr - VirtAddr + Separation r)|>
        <|AllCnt := BdCount|>
        <|FreeCnt := BdCount|>
        <|FreeHead := VirtAddr|>
        <|PreHead := VirtAddr|>
        <|HwHead := VirtAddr|>
        <|HwTail := VirtAddr|>
        <|PostHead := VirtAddr|>
        <|BdaRestart := PhysAddr|>).

(** ** Cloning a template into every descriptor *)

Fixpoint bdring_clone_loop (r : XAxiDma_BdRing) (ws : list Z) (n : nat) (CurBd : Z)
  : ST Mem unit :=
  match n with
  | O => mret tt
  | S n =>
      st_mod (mem_store ws (u32 (CurBd + XAXIDMA_BD_START_CLEAR)));;
      bdring_clone_loop r ws n (u32 (CurBd + Separation r))
  end.

Definition XAxiDma_BdRingClone (r : XAxiDma_BdRing) (SrcBdPtr : Z) : ST Mem Z :=
  if AllCnt r =? 0 then mret XST_DMA_SG_NO_LIST
  else if RunState r =? AXIDMA_CHANNEL_NOT_HALTED then mret XST_DEVICE_IS_STARTED
  else if negb (FreeCnt r =? AllCnt r) then mret XST_DMA_SG_LIST_ERROR
  else
    TmpBd ← st_get (mem_load (Z.to_nat XAXIDMA_BD_NUM_WORDS) SrcBdPtr);
    let Save := default 0 (TmpBd !! Z.to_nat (XAXIDMA_BD_STS_OFFSET / 4))
                .& not32 XAXIDMA_BD_STS_COMPLETE_MASK in
    let TmpBd := <[Z.to_nat (XAXIDMA_BD_STS_OFFSET / 4) := Save]> TmpBd in
    bdring_clone_loop r
      (take (Z.to_nat (XAXIDMA_BD_BYTES_TO_CLEAR / 4))
         (drop (Z.to_nat (XAXIDMA_BD_START_CLEAR / 4)) TmpBd))
      (Z.to_nat (AllCnt r)) (FirstBdAddr r);;
    mret XST_SUCCESS.

(** ** Moving descriptors between the groups *)

(** Result code, the value stored through [BdSetPtr] (if any), the ring. *)
Definition XAxiDma_BdRingAlloc (r : XAxiDma_BdRing) (NumBd : Z)
  : Z * option Z * XAxiDma_BdRing :=
  if NumBd <=? 0 then (XST_INVALID_PARAM, None, r)
  else if FreeCnt r <? NumBd then (XST_FAILURE, None, r)
  else (XST_SUCCESS, Some (FreeHead r),
        r <|FreeHead := XAXIDMA_RING_SEEKAHEAD r (FreeHead r) NumBd|>
          <|FreeCnt := FreeCnt r - NumBd|>
          <|PreCnt := PreCnt r + NumBd|>).

Definition XAxiDma_BdRingUnAlloc (r : XAxiDma_BdRing) (NumBd BdSetPtr : Z)
  : Z * XAxiDma_BdRing :=
  if NumBd <=? 0 then (XST_INVALID_PARAM, r)
  else if PreCnt r <? NumBd then (XST_FAILURE, r)
  else
  let TmpBd := XAXIDMA_RING_SEEKAHEAD r BdSetPtr NumBd in
  if negb (TmpBd =? FreeHead r) then (XST_FAILURE, r)
  else (XST_SUCCESS,
        r <|FreeHead := XAXIDMA_RING_SEEKBACK r (FreeHead r) NumBd|>
          <|FreeCnt := FreeCnt r + NumBd|>
          <|PreCnt := PreCnt r - NumBd|>).

(** The walk over the work group: the counts of completed descriptors and of
    those after the last end of packet. *)
Fixpoint bdring_fromhw_loop (m : Mem) (r : XAxiDma_BdRing) (n : nat)
  (CurBdPtr BdCount BdPartialCount : Z) : Z * Z :=
  match n with
  | O => (BdCount, BdPartialCount)
  | S n =>
      let BdSts := XAxiDma_BdRead m CurBdPtr XAXIDMA_BD_STS_OFFSET in
      let BdCr := XAxiDma_BdRead m CurBdPtr XAXIDMA_BD_CTRL_LEN_OFFSET in
      if negb (tst BdSts XAXIDMA_BD_STS_COMPLETE_MASK) then (BdCount, BdPartialCount)
      else
      let BdCount := BdCount + 1 in
      let BdPartialCount :=
        if ((IsRxChannel r =? 0) && tst BdCr XAXIDMA_BD_CTRL_TXEOF_MASK)
           || (negb (IsRxChannel r =? 0) && tst BdSts XAXIDMA_BD_STS_RXEOF_MASK)
        then 0 else BdPartialCount + 1 in
      if CurBdPtr =? HwTail r then (BdCount, BdPartialCount)
      else bdring_fromhw_loop m r n (XAxiDma_mBdRingNext r CurBdPtr) BdCount BdPartialCount
  end.

(** Number of descriptors, the value stored through [BdSetPtr], the ring. *)
Definition XAxiDma_BdRingFromHw (m : Mem) (r : XAxiDma_BdRing) (BdLimit : Z)
  : Z * Z * XAxiDma_BdRing :=
  if HwCnt r =? 0 then (0, 0, r)
  else
  let BdLimit := if HwCnt r <? BdLimit then HwCnt r else BdLimit in
  let '(BdCount, BdPartialCount) :=
    bdring_fromhw_loop m r (Z.to_nat BdLimit) (HwHead r) 0 0 in
  let BdCount := BdCount - BdPartialCount in
  if negb (BdCount =? 0)
  then (BdCount, HwHead r,
        r <|HwCnt := HwCnt r - BdCount|>
          <|PostCnt := PostCnt r + BdCount|>
          <|HwHead := XAXIDMA_RING_SEEKAHEAD r (HwHead r) BdCount|>)
  else (0, 0, r).

Definition XAxiDma_BdRingFree (r : XAxiDma_BdRing) (NumBd BdSetPtr : Z)
  : Z * XAxiDma_BdRing :=
  if NumBd <? 0 then (XST_INVALID_PARAM, r)
  else if NumBd =? 0 then (XST_SUCCESS, r)
  else if (PostCnt r <? NumBd) || negb (PostHead r =? BdSetPtr)
  then (XST_DMA_SG_LIST_ERROR, r)
  else (XST_SUCCESS,
        r <|FreeCnt := FreeCnt r + NumBd|>
          <|PostCnt := PostCnt r - NumBd|>
          <|PostHead := XAXIDMA_RING_SEEKAHEAD r (PostHead r) NumBd|>).

(** ** Consistency check *)

Definition bdring_ptr_bad (r : XAxiDma_BdRing) (AddrV : Z) : bool :=
  (AddrV <? FirstBdAddr r) || (LastBdAddr r <? AddrV).

(** The walk over the next pointers; [None] on a broken link, otherwise the
    address of the last descriptor. *)
Fixpoint bdring_check_loop (m : Mem) (r : XAxiDma_BdRing) (n : nat) (AddrV AddrP : Z)
  : option Z :=
  match n with
  | O => Some AddrV
  | S n =>
      if negb (XAxiDma_BdRead m AddrV XAXIDMA_BD_NDESC_OFFSET =? AddrP) then None
      else bdring_check_loop m r n (u32 (AddrV + Separation r)) (u32 (AddrP + Separation r))
  end.

Definition XAxiDma_BdRingCheck (m : Mem) (r : XAxiDma_BdRing) : Z :=
  if AllCnt r =? 0 then XST_DMA_SG_NO_LIST
  else if RunState r =? AXIDMA_CHANNEL_NOT_HALTED then XST_IS_STARTED
  else if negb (RunState r =? AXIDMA_CHANNEL_HALTED) then XST_DMA_SG_LIST_ERROR
  else if bdring_ptr_bad r (FreeHead r) then XST_DMA_SG_LIST_ERROR
  else if bdring_ptr_bad r (PreHead r) then XST_DMA_SG_LIST_ERROR
  else if bdring_ptr_bad r (HwHead r) then XST_DMA_SG_LIST_ERROR
  else if bdring_ptr_bad r (HwTail r) then XST_DMA_SG_LIST_ERROR
  else if bdring_ptr_bad r (PostHead r) then XST_DMA_SG_LIST_ERROR
  else if negb (HwCnt r + PreCnt r + FreeCnt r + PostCnt r =? AllCnt r)
  then XST_DMA_SG_LIST_ERROR
  else
  match bdring_check_loop m r (Z.to_nat (AllCnt r - 1)) (FirstBdAddr r)
          (u32 (FirstBdPhysAddr r + Separation r)) with
  | None => XST_DMA_SG_LIST_ERROR
  | Some AddrV =>
      if negb (XAxiDma_BdRead m AddrV XAXIDMA_BD_NDESC_OFFSET =? FirstBdPhysAddr r)
      then XST_DMA_SG_LIST_ERROR
      else XST_SUCCESS
  end.

(** ** Operations that use the channel registers *)

Section ring_registers.
Context {D : Type} `{!RegBus D}.

(** Offset of the current and of the tail descriptor register. *)
Definition cdesc_offset (r : XAxiDma_BdRing) (RingIndex : Z) : Z :=
  if negb (IsRxChannel r =? 0)
  then if RingIndex =? 0 then XAXIDMA_CDESC_OFFSET
       else u32 (XAXIDMA_RX_CDESC0_OFFSET + (RingIndex - 1) * XAXIDMA_RX_NDESC_OFFSET)
  else XAXIDMA_CDESC_OFFSET.

Definition tdesc_offset (r : XAxiDma_BdRing) (RingIndex : Z) : Z :=
  if negb (IsRxChannel r =? 0)
  then if RingIndex =? 0 then XAXIDMA_TDESC_OFFSET
       else u32 (XAXIDMA_RX_TDESC0_OFFSET + (RingIndex - 1) * XAXIDMA_RX_NDESC_OFFSET)
  else XAXIDMA_TDESC_OFFSET.

Definition XAxiDma_mBdRingSnapShotCurrBd (r : XAxiDma_BdRing) (RingIndex : Z)
  : ST (World D) XAxiDma_BdRing :=
  v ← XAxiDma_ReadReg (ChanBase r) (cdesc_offset r RingIndex);
  mret (r <|BdaRestart := v|>).

Definition XAxiDma_mBdRingGetCurrBd (r : XAxiDma_BdRing) : ST (World D) Z :=
  XAxiDma_ReadReg (ChanBase r) XAXIDMA_CDESC_OFFSET.

Definition XAxiDma_mBdRingGetSr (r : XAxiDma_BdRing) : ST (World D) Z :=
  XAxiDma_ReadReg (ChanBase r) XAXIDMA_SR_OFFSET.

Definition XAxiDma_mBdRingGetError (r : XAxiDma_BdRing) : ST (World D) Z :=
  v ← XAxiDma_ReadReg (ChanBase r) XAXIDMA_SR_OFFSET;
  mret (v .& XAXIDMA_ERR_ALL_MASK).

Definition XAxiDma_mBdRingHwIsStarted (r : XAxiDma_BdRing) : ST (World D) bool :=
  v ← XAxiDma_ReadReg (ChanBase r) XAXIDMA_SR_OFFSET;
  mret (negb (tst v XAXIDMA_HALTED_MASK)).

Definition XAxiDma_mBdRingIntEnable (r : XAxiDma_BdRing) (Mask : Z) : ST (World D) unit :=
  v ← XAxiDma_ReadReg (ChanBase r) XAXIDMA_CR_OFFSET;
  XAxiDma_WriteReg (ChanBase r) XAXIDMA_CR_OFFSET (v .| (Mask .& XAXIDMA_IRQ_ALL_MASK)).

Definition XAxiDma_mBdRingIntGetEnabled (r : XAxiDma_BdRing) : ST (World D) Z :=
  v ← XAxiDma_ReadReg (ChanBase r) XAXIDMA_CR_OFFSET;
  mret (v .& XAXIDMA_IRQ_ALL_MASK).

Definition XAxiDma_mBdRingIntDisable (r : XAxiDma_BdRing) (Mask : Z) : ST (World D) unit :=
  v ← XAxiDma_ReadReg (ChanBase r) XAXIDMA_CR_OFFSET;
  XAxiDma_WriteReg (ChanBase r) XAXIDMA_CR_OFFSET (v .& not32 (Mask .& XAXIDMA_IRQ_ALL_MASK)).

Definition XAxiDma_mBdRingGetIrq (r : XAxiDma_BdRing) : ST (World D) Z :=
  v ← XAxiDma_ReadReg (ChanBase r) XAXIDMA_SR_OFFSET;
  mret (v .& XAXIDMA_IRQ_ALL_MASK).

Definition XAxiDma_mBdRingAckIrq (r : XAxiDma_BdRing) (Mask : Z) : ST (World D) unit :=
  XAxiDma_WriteReg (ChanBase r) XAXIDMA_SR_OFFSET (Mask .& XAXIDMA_IRQ_ALL_MASK).

(** *** Starting a channel *)

(** How the search for an uncompleted descriptor ends: at a descriptor (its
    physical address), back at the restart descriptor, or by the loop test. *)
Inductive cdesc_search : Type :=
| CdFound (BdPtrPhy : Z)
| CdNone
| CdExit.

(** The [while] loop; [None] when [n] iterations were not enough. *)
Fixpoint bdring_cdesc_loop (m : Mem) (r : XAxiDma_BdRing) (n : nat) (BdPtr : Z)
  : option cdesc_search :=
  match n with
  | O => None
  | S n =>
      if negb (XAxiDma_BdHwCompleted m BdPtr) then Some CdExit
      else
      let BdPtr := XAxiDma_mBdRingNext r BdPtr in
      let BdPtrPhy := XAXIDMA_VIRT_TO_PHYS r BdPtr in
      if BdPtrPhy =? BdaRestart r then Some CdNone
      else if negb (XAxiDma_BdHwCompleted m BdPtr) then Some (CdFound BdPtrPhy)
      else bdring_cdesc_loop m r n BdPtr
  end.

(** The search is given one iteration per descriptor of the ring, which is
    enough when the restart descriptor belongs to the ring. *)
Definition XAxiDma_UpdateBdRingCDesc (r : XAxiDma_BdRing) (RingIndex : Z) : PT (World D) Z :=
  if AllCnt r =? 0 then mret XST_DMA_SG_NO_LIST
  else if RunState r =? AXIDMA_CHANNEL_NOT_HALTED then mret XST_SUCCESS
  else
  started ← total (XAxiDma_mBdRingHwIsStarted r);
  if negb started then
    let BdPtr := XAXIDMA_PHYS_TO_VIRT r (BdaRestart r) in
    m ← total (st_get w_mem);
    if negb (XAxiDma_BdHwCompleted m BdPtr) then
      total (XAxiDma_WriteReg (ChanBase r) (cdesc_offset r RingIndex) (BdaRestart r));;
      mret XST_SUCCESS
    else
      match bdring_cdesc_loop m r (Z.to_nat (AllCnt r)) BdPtr with
      | None => fun _ => None
      | Some CdNone => mret XST_DMA_ERROR
      | Some CdExit => mret XST_SUCCESS
      | Some (CdFound BdPtrPhy) =>
          total (XAxiDma_WriteReg (ChanBase r) (cdesc_offset r RingIndex) BdPtrPhy);;
          mret XST_SUCCESS
      end
  else mret XST_SUCCESS.

Definition XAxiDma_StartBdRingHw (r : XAxiDma_BdRing) (RingIndex : Z)
  : ST (World D) (Z * XAxiDma_BdRing) :=
  started ← XAxiDma_mBdRingHwIsStarted r;
  (if negb started then
     v ← XAxiDma_ReadReg (ChanBase r) XAXIDMA_CR_OFFSET;
     XAxiDma_WriteReg (ChanBase r) XAXIDMA_CR_OFFSET (v .| XAXIDMA_CR_RUNSTOP_MASK)
   else mret tt);;
  started ← XAxiDma_mBdRingHwIsStarted r;
  if (started : bool) then
    let r := r <|RunState := AXIDMA_CHANNEL_NOT_HALTED|> in
    m ← st_get w_mem;
    (if (0 <? HwCnt r) &&
        ((XAxiDma_BdRead m (HwTail r) XAXIDMA_BD_STS_OFFSET
          .& XAXIDMA_BD_STS_COMPLETE_MASK) =? 0)
     then XAxiDma_WriteReg (ChanBase r) (tdesc_offset r RingIndex)
            (XAXIDMA_VIRT_TO_PHYS r (HwTail r))
     else mret tt);;
    mret (XST_SUCCESS, r)
  else mret (XST_DMA_ERROR, r).

Definition XAxiDma_BdRingStart (r : XAxiDma_BdRing) (RingIndex : Z)
  : PT (World D) (Z * XAxiDma_BdRing) :=
  Status ← XAxiDma_UpdateBdRingCDesc r RingIndex;
  if negb (Status =? XST_SUCCESS) then mret (Status, r)
  else
  '(Status, r) ← total (XAxiDma_StartBdRingHw r RingIndex);
  if negb (Status =? XST_SUCCESS) then mret (Status, r)
  else mret (XST_SUCCESS, r).

(** *** Interrupt coalescing *)

Definition XAxiDma_BdRingSetCoalesce (r : XAxiDma_BdRing) (Counter Timer : Z)
  : ST (World D) Z :=
  Cr ← XAxiDma_ReadReg (ChanBase r) XAXIDMA_CR_OFFSET;
  if negb (Counter =? XAXIDMA_NO_CHANGE) && ((Counter =? 0) || (0xFF <? Counter))
  then mret XST_FAILURE
  else
  let Cr := if negb (Counter =? XAXIDMA_NO_CHANGE)
            then (Cr .& not32 XAXIDMA_COALESCE_MASK)
                 .| u32 (Z.shiftl Counter XAXIDMA_COALESCE_SHIFT)
            else Cr in
  if negb (Timer =? XAXIDMA_NO_CHANGE) && (0xFF <? Timer) then mret XST_FAILURE
  else
  let Cr := if negb (Timer =? XAXIDMA_NO_CHANGE)
            then (Cr .& not32 XAXIDMA_DELAY_MASK)
                 .| u32 (Z.shiftl Timer XAXIDMA_DELAY_SHIFT)
            else Cr in
  XAxiDma_WriteReg (ChanBase r) XAXIDMA_CR_OFFSET Cr;;
  mret XST_SUCCESS.

(** The values stored through [CounterPtr] and [TimerPtr]. *)
Definition XAxiDma_BdRingGetCoalesce (r : XAxiDma_BdRing) : ST (World D) (Z * Z) :=
  Cr ← XAxiDma_ReadReg (ChanBase r) XAXIDMA_CR_OFFSET;
  mret (Z.shiftr (Cr .& XAXIDMA_COALESCE_MASK) XAXIDMA_COALESCE_SHIFT,
        Z.shiftr (Cr .& XAXIDMA_DELAY_MASK) XAXIDMA_DELAY_SHIFT).

(** *** Handing descriptors to the hardware *)

(** The loop over all but the last descriptor: [None] on a zero length,
    otherwise the last descriptor with its control and status words. *)
Fixpoint bdring_tohw_loop (r : XAxiDma_BdRing) (n : nat) (CurBdPtr BdCr BdSts : Z)
  : ST Mem (option (Z * Z * Z)) :=
  match n with
  | O => mret (Some (CurBdPtr, BdCr, BdSts))
  | S n =>
      m ← st_get id;
      if XAxiDma_BdGetLength m CurBdPtr (MaxTransferLen r) =? 0 then mret None
      else
        XAxiDma_BdWrite CurBdPtr XAXIDMA_BD_STS_OFFSET
          (BdSts .& not32 XAXIDMA_BD_STS_COMPLETE_MASK);;
        let CurBdPtr := XAxiDma_mBdRingNext r CurBdPtr in
        m ← st_get id;
        bdring_tohw_loop r n CurBdPtr
          (XAxiDma_BdRead m CurBdPtr XAXIDMA_BD_CTRL_LEN_OFFSET)
          (XAxiDma_BdRead m CurBdPtr XAXIDMA_BD_STS_OFFSET)
  end.

(** The memory part: checks the set and clears the completed bits; [None] when
    the set is rejected, otherwise its last descriptor. *)
Definition bdring_tohw_bds (r : XAxiDma_BdRing) (NumBd BdSetPtr : Z) : ST Mem (option Z) :=
  m ← st_get id;
  let BdCr := XAxiDma_BdGetCtrl m BdSetPtr in
  let BdSts := XAxiDma_BdGetSts m BdSetPtr in
  if (IsRxChannel r =? 0) && negb (tst BdCr XAXIDMA_BD_CTRL_TXSOF_MASK) then mret None
  else
    res ← bdring_tohw_loop r (Z.to_nat (NumBd - 1)) BdSetPtr BdCr BdSts;
    match res with
    | None => mret None
    | Some (CurBdPtr, BdCr, BdSts) =>
        if (IsRxChannel r =? 0) && negb (tst BdCr XAXIDMA_BD_CTRL_TXEOF_MASK) then mret None
        else
        m ← st_get id;
        if XAxiDma_BdGetLength m CurBdPtr (MaxTransferLen r) =? 0 then mret None
        else
          XAxiDma_BdWrite CurBdPtr XAXIDMA_BD_STS_OFFSET
            (BdSts .& not32 XAXIDMA_BD_STS_COMPLETE_MASK);;
          mret (Some CurBdPtr)
    end.

Definition XAxiDma_BdRingToHw (r : XAxiDma_BdRing) (NumBd BdSetPtr RingIndex : Z)
  : ST (World D) (Z * XAxiDma_BdRing) :=
  if NumBd <? 0 then mret (XST_INVALID_PARAM, r)
  else if NumBd =? 0 then mret (XST_SUCCESS, r)
  else if (PreCnt r <? NumBd) || negb (PreHead r =? BdSetPtr)
  then mret (XST_DMA_SG_LIST_ERROR, r)
  else
    res ← on_mem (bdring_tohw_bds r NumBd BdSetPtr);
    match res with
    | None => mret (XST_FAILURE, r)
    | Some CurBdPtr =>
        let r := r <|PreHead := XAXIDMA_RING_SEEKAHEAD r (PreHead r) NumBd|>
                   <|PreCnt := PreCnt r - NumBd|>
                   <|HwTail := CurBdPtr|>
                   <|HwCnt := HwCnt r + NumBd|> in
        (if RunState r =? AXIDMA_CHANNEL_NOT_HALTED
         then XAxiDma_WriteReg (ChanBase r) (tdesc_offset r RingIndex)
                (XAXIDMA_VIRT_TO_PHYS r (HwTail r))
         else mret tt);;
        mret (XST_SUCCESS, r)
    end.

End ring_registers.
