(* ===== verification/RingGeom.v ===== *)
(** * Geometry of a descriptor ring

    A created ring is [AllCnt] descriptors, [Separation] bytes apart, from
    [FirstBdAddr] on.  [bd_at r i] is the descriptor with (cyclic) index [i].
    The lemmas here say that the pointer arithmetic of the macros, with its
    32-bit wrap-around, is addition of cyclic indices. *)

From S2P Require Import Prelude Hw Bd BdRing.

Record geom (r : XAxiDma_BdRing) : Prop := {
  g_cnt : 0 < AllCnt r;
  g_sep : sizeof_Bd <= Separation r;
  g_first : 0 <= FirstBdAddr r;
  g_last : LastBdAddr r = FirstBdAddr r + Separation r * (AllCnt r - 1);
  g_end : FirstBdAddr r + Separation r * AllCnt r <= 4294967296;
  g_size : Separation r * AllCnt r < 4294967296;
  g_len : Length r = Separation r * AllCnt r;
}.

(** The descriptor with cyclic index [i]. *)
Definition bd_at (r : XAxiDma_BdRing) (i : Z) : Z :=
  FirstBdAddr r + Separation r * (i mod AllCnt r).

Definition in_ring (r : XAxiDma_BdRing) (bd : Z) : Prop := exists i, bd = bd_at r i.

(** The structure fields that never change once the ring is created. *)
Definition same_geom (r r' : XAxiDma_BdRing) : Prop :=
  AllCnt r' = AllCnt r /\ Separation r' = Separation r /\ FirstBdAddr r' = FirstBdAddr r /\
  LastBdAddr r' = LastBdAddr r /\ Length r' = Length r /\ FirstBdPhysAddr r' = FirstBdPhysAddr r.

Lemma same_geom_geom r r' : same_geom r r' -> geom r -> geom r'.
Proof.
  intros (Ha & Hs & Hf & Hl & Hn & Hp) [].
  split; rewrite ?Ha, ?Hs, ?Hf, ?Hl, ?Hn; auto.
Qed.

Lemma same_geom_at r r' i : same_geom r r' -> bd_at r' i = bd_at r i.
Proof. intros (Ha & Hs & Hf & _). unfold bd_at. now rewrite Ha, Hs, Hf. Qed.

#[export] Instance same_geom_equiv : Equivalence same_geom.
Proof.
  split; unfold same_geom; red; intuition congruence.
Qed.

Section geometry.
Context (r : XAxiDma_BdRing) (G : geom r).

#[local] Ltac gsimp := destruct G as [Hc Hs Hf Hl He Hz Hn]; unfold sizeof_Bd, XAXIDMA_BD_NUM_WORDS in *.

Lemma bd_at_periodic i : bd_at r (i + AllCnt r) = bd_at r i.
Proof.
  gsimp. unfold bd_at. do 2 f_equal.
  replace (i + AllCnt r) with (i + 1 * AllCnt r) by lia. now rewrite Z.mod_add by lia.
Qed.

Lemma bd_at_small i : 0 <= i < AllCnt r -> bd_at r i = FirstBdAddr r + Separation r * i.
Proof. intros. unfold bd_at. now rewrite Z.mod_small by lia. Qed.

Lemma bd_at_mod i : bd_at r (i mod AllCnt r) = bd_at r i.
Proof. gsimp. unfold bd_at. now rewrite Z.mod_mod by lia. Qed.

Lemma bd_at_shift i n : bd_at r (i + n) = bd_at r (i mod AllCnt r + n).
Proof.
  gsimp. rewrite <- (bd_at_mod (i + n)), <- (bd_at_mod (_ + n)).
  now rewrite Z.add_mod_idemp_l by lia.
Qed.

(** Reduces a statement about [bd_at r i] to an index in range. *)
#[local] Ltac reduce_index i :=
  rewrite <- (bd_at_mod i);
  pose proof (Z.mod_pos_bound i (AllCnt r) (g_cnt r G)) as Hb;
  set (k := i mod AllCnt r) in *; clearbody k.

(** One step past the end wraps, one step before the start too. *)
Lemma bd_at_over i : AllCnt r <= i < 2 * AllCnt r ->
  bd_at r i = FirstBdAddr r + Separation r * (i - AllCnt r).
Proof.
  intros. replace i with ((i - AllCnt r) + AllCnt r) at 1 by lia.
  rewrite bd_at_periodic. apply bd_at_small. lia.
Qed.

Lemma bd_at_under i : - AllCnt r <= i < 0 ->
  bd_at r i = FirstBdAddr r + Separation r * (i + AllCnt r).
Proof. intros. rewrite <- bd_at_periodic. apply bd_at_small. lia. Qed.

(** Every descriptor of the ring is a whole descriptor below [2^32]. *)
Lemma bd_at_bounds i : FirstBdAddr r <= bd_at r i <= LastBdAddr r.
Proof.
  gsimp. unfold bd_at. pose proof (Z.mod_pos_bound i (AllCnt r) Hc). rewrite Hl. nia.
Qed.

Lemma bd_at_ok i : bd_ok (bd_at r i).
Proof.
  pose proof (bd_at_bounds i). gsimp. unfold bd_ok, sizeof_Bd, XAXIDMA_BD_NUM_WORDS. nia.
Qed.

Lemma bd_at_inj i j : bd_at r i = bd_at r j <-> i mod AllCnt r = j mod AllCnt r.
Proof. gsimp. unfold bd_at. nia. Qed.

Lemma bd_at_apart i j : bd_at r i <> bd_at r j -> bd_apart (bd_at r i) (bd_at r j).
Proof.
  gsimp. unfold bd_apart, bd_at, sizeof_Bd, XAXIDMA_BD_NUM_WORDS. intros Hne.
  assert (i mod AllCnt r <> j mod AllCnt r) by congruence. nia.
Qed.

Lemma mBdRingNext_at i : XAxiDma_mBdRingNext r (bd_at r i) = bd_at r (i + 1).
Proof.
  rewrite bd_at_shift. reduce_index i. unfold XAxiDma_mBdRingNext.
  rewrite (bd_at_small k) by lia. gsimp.
  case_if.
  - rewrite bd_at_over by nia. nia.
  - rewrite bd_at_small by nia. rewrite u32_small by (unfold is_u32; nia). lia.
Qed.

Lemma mBdRingPrev_at i : XAxiDma_mBdRingPrev r (bd_at r i) = bd_at r (i - 1).
Proof.
  replace (i - 1) with (i + -1) by lia. rewrite bd_at_shift. reduce_index i.
  replace (k + -1) with (k - 1) by lia. unfold XAxiDma_mBdRingPrev.
  rewrite (bd_at_small k) by lia. gsimp.
  case_if.
  - assert (k = 0) as -> by nia. rewrite bd_at_under by lia. nia.
  - assert (1 <= k) by nia. assert (Separation r * k <= Separation r * AllCnt r) by nia.
    rewrite bd_at_small by lia. rewrite u32_small by (unfold is_u32; nia). lia.
Qed.

Lemma RING_SEEKAHEAD_at i n : 0 <= n <= AllCnt r ->
  XAXIDMA_RING_SEEKAHEAD r (bd_at r i) n = bd_at r (i + n).
Proof.
  intros Hn'.
  rewrite bd_at_shift. reduce_index i. unfold XAXIDMA_RING_SEEKAHEAD.
  rewrite (bd_at_small k) by lia. rewrite u32_add_r.
  assert (Separation r * n < 4294967296) by (gsimp; nia).
  destruct (Z_lt_le_dec (k + n) (AllCnt r)) as [Hw|Hw].
  - rewrite (bd_at_small (k + n)) by lia. gsimp.
    rewrite u32_small by (unfold is_u32; nia). case_if; [|nia].
    destruct E as [E|E]; bool_prop; nia.
  - rewrite (bd_at_over (k + n)) by lia. gsimp. rewrite Hn.
    replace (FirstBdAddr r + Separation r * (k + n - AllCnt r))
      with (FirstBdAddr r + Separation r * k + Separation r * n - Separation r * AllCnt r) by nia.
    set (a := FirstBdAddr r + Separation r * k + Separation r * n) in *.
    assert (FirstBdAddr r + Separation r * AllCnt r <= a) by (unfold a; nia).
    assert (a < 2 * 4294967296) by (unfold a; nia).
    case_if.
    + rewrite u32_sub_l. apply u32_small. unfold is_u32. split; [nia|]. unfold a. nia.
    + exfalso. destruct (Z_lt_le_dec a 4294967296).
      * rewrite u32_small in * by (unfold is_u32; nia). nia.
      * rewrite u32_wrap_up in * by lia. unfold a in *. nia.
Qed.

Lemma RING_SEEKBACK_at i n : 0 <= n <= AllCnt r ->
  XAXIDMA_RING_SEEKBACK r (bd_at r i) n = bd_at r (i - n).
Proof.
  intros Hn'.
  replace (i - n) with (i + -n) by lia. rewrite bd_at_shift. reduce_index i.
  replace (k + -n) with (k - n) by lia. unfold XAXIDMA_RING_SEEKBACK.
  rewrite (bd_at_small k) by lia. rewrite u32_sub_r.
  assert (Separation r * n < 4294967296) by (gsimp; nia).
  destruct (Z_lt_le_dec (k - n) 0) as [Hw|Hw].
  - rewrite (bd_at_under (k - n)) by lia. gsimp. rewrite Hn.
    replace (FirstBdAddr r + Separation r * (k - n + AllCnt r))
      with (FirstBdAddr r + Separation r * k - Separation r * n + Separation r * AllCnt r) by nia.
    set (a := FirstBdAddr r + Separation r * k - Separation r * n) in *.
    assert (a < FirstBdAddr r) by (unfold a; nia).
    assert (- 4294967296 <= a) by (unfold a; nia).
    case_if.
    + rewrite u32_add_l. apply u32_small. unfold is_u32. unfold a in *. nia.
    + exfalso. destruct (Z_lt_le_dec a 0).
      * rewrite u32_wrap_down in * by lia. unfold a in *. nia.
      * rewrite u32_small in * by (unfold is_u32; nia). nia.
  - rewrite (bd_at_small (k - n)) by lia. gsimp.
    rewrite u32_small by (unfold is_u32; nia). case_if; [|nia].
    destruct E as [E|E]; bool_prop; nia.
Qed.

(** A fact of each descriptor of a ring of four. *)
Lemma ring_of_four (P : Z -> Prop) : AllCnt r = 4 ->
  P (bd_at r 0) -> P (bd_at r 1) -> P (bd_at r 2) -> P (bd_at r 3) -> forall i, P (bd_at r i).
Proof.
  intros E P0 P1 P2 P3 i. rewrite <- bd_at_mod, E. pose proof (Z.mod_pos_bound i 4 ltac:(lia)) as Hk.
  set (k := i mod 4) in *. clearbody k. assert (k = 0 \/ k = 1 \/ k = 2 \/ k = 3) as Hc by lia.
  by destruct Hc as [->|[->|[->| ->]]].
Qed.

End geometry.
