(* ===== verification/RingHw.v ===== *)
(** * Exchanging descriptors with the hardware

    The behaviour of [XAxiDma_BdRingFromHw] and [XAxiDma_BdRingToHw], which
    depend on what the descriptors hold.  [ready] and [tohw_accepts] are the
    reference definitions: how many descriptors at the front of a queue form
    whole completed packets, and which sets of prepared descriptors may be
    committed. *)

From S2P Require Import Prelude Hw Bd BdRing RingGeom RingSpec.

(** ** Retrieving completed packets *)

(** The descriptor ends a packet: marked by the driver on a transmit channel,
    by the hardware on a receive channel. *)
Definition bd_eof (m : Mem) (r : XAxiDma_BdRing) (bd : Z) : bool :=
  if IsRxChannel r =? 0
  then tst (XAxiDma_BdRead m bd XAXIDMA_BD_CTRL_LEN_OFFSET) XAXIDMA_BD_CTRL_TXEOF_MASK
  else tst (XAxiDma_BdRead m bd XAXIDMA_BD_STS_OFFSET) XAXIDMA_BD_STS_RXEOF_MASK.

(** [k] descriptors at the front of [l] are completed and are whole packets. *)
Definition packets_done (m : Mem) (r : XAxiDma_BdRing) (l : list Z) (k : Z) : Prop :=
  0 <= k <= zlen l /\ Forall (fun bd => XAxiDma_BdHwCompleted m bd = true) (ztake k l) /\
  (k = 0 \/ exists bd, l !! Z.to_nat (k - 1) = Some bd /\ bd_eof m r bd = true).

(** The largest such [k], by recursion on the queue. *)
Fixpoint ready (m : Mem) (r : XAxiDma_BdRing) (l : list Z) : Z :=
  match l with
  | [] => 0
  | bd :: l =>
      if XAxiDma_BdHwCompleted m bd
      then let k := ready m r l in
           if 0 <? k then k + 1 else if bd_eof m r bd then 1 else 0
      else 0
  end.

Lemma ready_bounds m r l : 0 <= ready m r l <= zlen l.
Proof.
  unfold zlen. induction l as [|bd l IH]; cbn [ready length]; [lia|].
  repeat case_if; lia.
Qed.

Lemma packets_done_cons m r bd l k : 1 <= k ->
  packets_done m r (bd :: l) k <->
  XAxiDma_BdHwCompleted m bd = true /\
  (k = 1 /\ bd_eof m r bd = true \/ 1 < k /\ packets_done m r l (k - 1)).
Proof.
  intros Hk. unfold packets_done, zlen, ztake. cbn [length].
  replace (Z.to_nat k) with (S (Z.to_nat (k - 1))) by lia. cbn [take].
  rewrite Forall_cons. destruct (decide (k = 1)) as [->|].
  - cbn. split.
    + intros (_ & [? _] & [?|(b & [= <-] & ?)]); [lia|auto].
    + intros [? [[_ ?]|[? _]]]; [|lia]. split_and!; [lia|lia|done|constructor|right; eauto].
  - assert (Hs : (bd :: l) !! Z.to_nat (k - 1) = l !! Z.to_nat (k - 1 - 1)).
    { now replace (Z.to_nat (k - 1)) with (S (Z.to_nat (k - 1 - 1))) by lia. }
    rewrite Hs. split.
    + intros (? & [? ?] & [?|(b & ? & ?)]); [lia|].
      split; [done|right]. split_and!; [lia|lia|lia|done|right; by exists b].
    + intros [? [[? _]|(? & ? & ? & [?|(b & ? & ?)])]]; [lia|lia|].
      split_and!; [lia|lia|done|done|right; by exists b].
Qed.

Lemma ready_done m r l : packets_done m r l (ready m r l).
Proof.
  induction l as [|bd l IH]; cbn [ready].
  { split_and!; [done|done|by constructor|by left]. }
  assert (Z0 : packets_done m r (bd :: l) 0).
  { split_and!; [done|unfold zlen; lia|by constructor|by left]. }
  pose proof (ready_bounds m r l).
  repeat case_if; try done; apply packets_done_cons; try lia; split; try done.
  right. split; [lia|]. now replace (ready m r l + 1 - 1) with (ready m r l) by lia.
Qed.

Lemma ready_max m r l : forall k, packets_done m r l k -> k <= ready m r l.
Proof.
  induction l as [|bd l IH]; intros k Hk.
  { destruct Hk as [Hk _]. cbn in *. unfold zlen in Hk. cbn in Hk. lia. }
  pose proof (ready_bounds m r (bd :: l)).
  destruct (Z_lt_le_dec k 1); [lia|].
  apply packets_done_cons in Hk as [Hc [[-> He]|[Hk1 Hk]]]; [| |lia];
    cbn [ready]; rewrite Hc.
  - repeat case_if; lia || congruence.
  - apply IH in Hk. repeat case_if; lia.
Qed.

(** The loop of the code computes [ready]: the completed descriptors less the
    ones behind the last end of packet. *)
Lemma fromhw_loop_ready m r (G : geom r) n : forall i c q,
  (forall j, 0 <= j < Z.of_nat n - 1 -> bd_at r (i + j) <> HwTail r) ->
  let '(c', q') := bdring_fromhw_loop m r n (bd_at r i) c q in
  let k := ready m r (grp r i (Z.of_nat n)) in
  c' - q' = if 0 <? k then c + k else c - q.
Proof.
  induction n as [|n IH]; intros i c q Ht.
  { change (grp r i (Z.of_nat 0)) with (@nil Z). cbn. lia. }
  replace (grp r i (Z.of_nat (S n))) with (bd_at r i :: grp r (i + 1) (Z.of_nat n)).
  2:{ unfold grp. rewrite (seqZ_cons i) by lia. cbn. do 3 f_equal; lia. }
  cbn [bdring_fromhw_loop ready].
  change (tst (XAxiDma_BdRead m (bd_at r i) XAXIDMA_BD_STS_OFFSET)
            XAXIDMA_BD_STS_COMPLETE_MASK) with (XAxiDma_BdHwCompleted m (bd_at r i)).
  destruct (XAxiDma_BdHwCompleted m (bd_at r i)); cbn [negb]; [|cbn; lia].
  assert (Heof : forall a b : Z, (if ((IsRxChannel r =? 0) && tst (XAxiDma_BdRead m (bd_at r i)
      XAXIDMA_BD_CTRL_LEN_OFFSET) XAXIDMA_BD_CTRL_TXEOF_MASK)
      || (negb (IsRxChannel r =? 0) && tst (XAxiDma_BdRead m (bd_at r i)
      XAXIDMA_BD_STS_OFFSET) XAXIDMA_BD_STS_RXEOF_MASK) then a else b)
      = if bd_eof m r (bd_at r i) then a else b).
  { intros. unfold bd_eof. destruct (IsRxChannel r =? 0); cbn; [|done].
    now rewrite orb_false_r. }
  rewrite Heof. pose proof (ready_bounds m r (grp r (i + 1) (Z.of_nat n))) as Hb.
  destruct (Z.eqb_spec (bd_at r i) (HwTail r)) as [E|E].
  - destruct n as [|n].
    + cbn [grp]. change (grp r (i + 1) (Z.of_nat 0)) with (@nil Z). cbn [ready].
      destruct (bd_eof m r (bd_at r i)); cbn; lia.
    + exfalso. apply (Ht 0); [lia|]. now rewrite Z.add_0_r.
  - rewrite mBdRingNext_at by done.
    specialize (IH (i + 1) (c + 1) (if bd_eof m r (bd_at r i) then 0 else q + 1)).
    destruct (bdring_fromhw_loop _ _ _ _ _ _) as [c' q']. cbv zeta in *.
    rewrite IH.
    2:{ intros j Hj. replace (i + 1 + j) with (i + (j + 1)) by lia. apply Ht. lia. }
    destruct (Z.ltb_spec 0 (ready m r (grp r (i + 1) (Z.of_nat n)))).
    + case_if; lia.
    + destruct (bd_eof m r (bd_at r i)); cbn; lia.
Qed.

(** Retrieval as a reference definition over the queues. *)
Definition spec_fromhw_count (m : Mem) (r : XAxiDma_BdRing) (limit : Z) (a : aring) : Z :=
  ready m r (ztake limit (a_hw a)).

Lemma tail_last r p j : geom r -> groups r p -> 0 <= j < HwCnt r - 1 ->
  bd_at r (p + PostCnt r + j) <> HwTail r.
Proof.
  intros G H Hj. rewrite (gr_tail r p H) by lia. destruct H. rewrite bd_at_inj by done.
  replace (p + PostCnt r + HwCnt r - 1) with ((p + PostCnt r + j) + (HwCnt r - 1 - j)) by lia.
  set (x := p + PostCnt r + j). pose proof (g_cnt r G). intros E.
  assert ((x + (HwCnt r - 1 - j) - x) mod AllCnt r = 0) as E0.
  { rewrite Zminus_mod, <- E, Z.sub_diag. now apply Z.mod_0_l; lia. }
  rewrite Z.mod_small in E0 by lia. lia.
Qed.

Lemma fromhw_sim m r limit : ring_wf r ->
  let '(cnt, ptr, r') := XAxiDma_BdRingFromHw m r limit in
  let k := spec_fromhw_count m r limit (ring_abs r) in
  sim r r' (spec_fromhw k (ring_abs r)) /\ cnt = k /\
  (0 < k -> head (ztake k (a_hw (ring_abs r))) = Some ptr) /\ (k = 0 -> ptr = 0 /\ r' = r).
Proof.
  intros W. pose proof W as [G [p H]]. pose proof (abs_groups r p G H) as Ha.
  assert (Hh : a_hw (ring_abs r) = grp r (p + PostCnt r) (HwCnt r)) by now rewrite Ha.
  unfold XAxiDma_BdRingFromHw, spec_fromhw_count. rewrite Hh.
  assert (Hno : spec_fromhw 0 (ring_abs r) = ring_abs r).
  { unfold spec_fromhw, zdrop, ztake. cbn [Z.to_nat drop take].
    rewrite app_nil_r. now destruct (ring_abs r). }
  destruct (Z.eqb_spec (HwCnt r) 0) as [E0|E0].
  { rewrite E0. change (ztake limit (grp r (p + PostCnt r) 0)) with (take (Z.to_nat limit) (@nil Z)).
    rewrite take_nil. cbn [ready]. rewrite Hno. split_and!; auto with drv; lia. }
  set (lim := if HwCnt r <? limit then HwCnt r else limit).
  assert (Hl : ztake limit (grp r (p + PostCnt r) (HwCnt r)) = grp r (p + PostCnt r) (Z.max 0 lim)).
  { unfold lim. destruct H. case_if.
    - unfold ztake. rewrite take_ge; [f_equal; lia|].
      pose proof (grp_length r (p + PostCnt r) (HwCnt r)). unfold zlen in *. lia.
    - destruct (Z_lt_le_dec limit 0).
      + unfold ztake. replace (Z.to_nat limit) with 0%nat by lia.
        now replace (Z.max 0 limit) with 0 by lia.
      + rewrite grp_take by lia. f_equal. lia. }
  rewrite Hl. pose proof (fromhw_loop_ready m r G (Z.to_nat lim) (p + PostCnt r) 0 0) as HL.
  rewrite (gr_hwh r p H). destruct (bdring_fromhw_loop _ _ _ _ _ _) as [c q]. cbv zeta in HL.
  replace (Z.of_nat (Z.to_nat lim)) with (Z.max 0 lim) in HL by lia.
  assert (Hlim : lim <= HwCnt r) by (unfold lim; case_if; lia).
  rewrite HL by (intros j Hj; apply tail_last; [done..|lia]). clear HL.
  pose proof (ready_bounds m r (grp r (p + PostCnt r) (Z.max 0 lim))) as Hb.
  rewrite grp_length in Hb by lia.
  set (k := ready m r (grp r (p + PostCnt r) (Z.max 0 lim))) in *. clearbody k.
  replace (if 0 <? k then 0 + k else 0 - 0) with k by (case_if; lia).
  destruct (Z.eqb_spec k 0) as [->|Hk]; cbn [negb].
  { rewrite Hno. split_and!; auto with drv; lia. }
  pose proof (fromhw_groups r p G H k ltac:(lia)) as H'. rewrite (gr_hwh r p H) in H'.
  split_and!; [|done| |lia].
  - destruct H. apply (sim_groups _ _ p); [done|auto with drv|done|].
    unfold spec_fromhw. rewrite Ha. cbn -[grp]. queues.
  - intros _. rewrite grp_take by lia. now rewrite grp_head by lia.
Qed.

(** ** Committing prepared descriptors *)

(** A set that the hardware may get: no empty descriptor, and on a transmit
    channel a start of packet on the first and an end on the last one. *)
Definition tohw_accepts (m : Mem) (r : XAxiDma_BdRing) (l : list Z) : bool :=
  forallb (fun bd => negb (XAxiDma_BdGetLength m bd (MaxTransferLen r) =? 0)) l &&
  (negb (IsRxChannel r =? 0) ||
   (match head l with
    | Some bd => tst (XAxiDma_BdGetCtrl m bd) XAXIDMA_BD_CTRL_TXSOF_MASK
    | None => false
    end &&
    match last l with
    | Some bd => tst (XAxiDma_BdGetCtrl m bd) XAXIDMA_BD_CTRL_TXEOF_MASK
    | None => false
    end)).

(** Only the status words of the descriptors [l] may differ. *)
Definition sts_frame (l : list Z) (m m' : Mem) : Prop :=
  forall a, (forall bd, bd ∈ l -> a <> bd + XAXIDMA_BD_STS_OFFSET) ->
  mem_read m' a = mem_read m a.

Lemma sts_frame_refl l m : sts_frame l m m.
Proof. intros ? _. done. Qed.

Lemma sts_frame_trans l l' m m' m'' :
  l ⊆ l' -> sts_frame l m m' -> sts_frame l' m' m'' -> sts_frame l' m m''.
Proof. intros Hl H1 H2 a Ha. rewrite H2 by done. apply H1. auto. Qed.

Lemma sts_frame_incl l l' m m' : l ⊆ l' -> sts_frame l m m' -> sts_frame l' m m'.
Proof. intros Hl H a Ha. apply H. auto. Qed.

Lemma sts_frame_write l bd v m : bd_ok bd -> bd ∈ l ->
  sts_frame l m (st_out (XAxiDma_BdWrite bd XAXIDMA_BD_STS_OFFSET v) m).
Proof.
  intros Hok Hin a Ha. rewrite BdWrite_addr by auto with drv.
  apply mem_read_write_ne. intros <-. now apply (Ha bd).
Qed.
#[export] Hint Resolve sts_frame_refl : drv.

(** A word of a ring descriptor that the frame protects. *)
Lemma sts_frame_read r (G : geom r) l m m' i o : sts_frame l m m' ->
  (forall bd, bd ∈ l -> in_ring r bd) -> bd_off o ->
  o <> XAXIDMA_BD_STS_OFFSET \/ bd_at r i ∉ l ->
  XAxiDma_BdRead m' (bd_at r i) o = XAxiDma_BdRead m (bd_at r i) o.
Proof.
  intros F Hin Ho Hd. rewrite !BdRead_addr by auto using bd_at_ok. apply F.
  intros bd Hbd E. destruct (Hin bd Hbd) as [j ->].
  destruct (decide (bd_at r i = bd_at r j)) as [Eq|Ne].
  - rewrite Eq in *. destruct Hd; [lia|done].
  - pose proof (bd_at_apart r G i j Ne) as Ha. unfold bd_apart, bd_off in *.
    change XAXIDMA_BD_STS_OFFSET with 28 in *. change sizeof_Bd with 64 in *. lia.
Qed.

Lemma elem_grp r i n bd : bd ∈ grp r i n <-> exists j, 0 <= j < n /\ bd = bd_at r (i + j).
Proof.
  unfold grp. rewrite list_elem_of_fmap. setoid_rewrite elem_of_seqZ. split.
  - intros (x & -> & ?). exists (x - i). split; [lia|]. f_equal. lia.
  - intros (j & ? & ->). exists (i + j). split; [done|lia].
Qed.

Lemma grp_in_ring r i n bd : bd ∈ grp r i n -> in_ring r bd.
Proof. rewrite elem_grp. intros (j & _ & ->). by eexists. Qed.

(** Distinct positions less than a round apart are distinct descriptors. *)
Lemma bd_at_ne r i j : geom r -> 0 < j < AllCnt r -> bd_at r (i + j) <> bd_at r i.
Proof.
  intros G Hj. rewrite bd_at_inj by done. intros E.
  assert ((i + j - i) mod AllCnt r = 0) as E0.
  { rewrite Zminus_mod, E, Z.sub_diag. apply Z.mod_0_l. lia. }
  replace (i + j - i) with j in E0 by lia. rewrite Z.mod_small in E0 by lia. lia.
Qed.

Lemma grp_cons r i n : 0 < n -> grp r i n = bd_at r i :: grp r (i + 1) (n - 1).
Proof. intros. unfold grp. rewrite seqZ_cons by lia. cbn. do 3 f_equal; lia. Qed.

Lemma grp_snoc r i n : 0 < n -> grp r i n = grp r i (n - 1) ++ [bd_at r (i + n - 1)].
Proof.
  intros. rewrite (grp_join r i i (n - 1) (i + n - 1) 1 n) by lia.
  by rewrite (grp_cons r _ 1) by lia.
Qed.

Lemma grp_head_notin r i n : geom r -> n <= AllCnt r -> bd_at r i ∉ grp r (i + 1) (n - 1).
Proof.
  intros G Hn. rewrite elem_grp. intros (j & Hj & E).
  apply (bd_at_ne r i (j + 1) G); [lia|]. rewrite E. f_equal. lia.
Qed.

Lemma grp_nodup r i n : geom r -> n <= AllCnt r -> NoDup (grp r i n).
Proof.
  intros G. revert i. induction (Z_lt_le_dec 0 n) as [H|H].
  - pattern n. revert n H. refine (Z.lt_ind _ ltac:(solve_proper) 0 _ _).
    + intros i _. rewrite grp_cons by lia. apply NoDup_cons. split; [|by constructor].
      change (grp r (i + 1) (Z.succ 0 - 1)) with (@nil Z). apply not_elem_of_nil.
    + intros n Hn IH i Hle. rewrite grp_cons by lia. apply NoDup_cons.
      split; [apply grp_head_notin; [done|lia]|].
      replace (Z.succ n - 1) with n by lia. apply IH. lia.
  - intros i _. replace (grp r i n) with (@nil Z); [constructor|].
    unfold grp. rewrite seqZ_nil by lia. done.
Qed.

(** The descriptors of one round, from any start, are those of the ring. *)
Lemma grp_round r p : geom r -> grp r p (AllCnt r) ≡ₚ ring_bds r.
Proof.
  intros G. pose proof (g_cnt r G).
  assert (ring_bds r = grp r 0 (AllCnt r)) as ->.
  { unfold ring_bds. replace (FirstBdAddr r) with (bd_at r 0) by (rewrite bd_at_small by lia; lia).
    rewrite bd_walk_at, Z2Nat.id by (done || lia). done. }
  apply NoDup_Permutation; [by apply grp_nodup..|]. intros bd. rewrite !elem_grp. split.
  - intros (j & _ & ->). exists ((p + j) mod AllCnt r).
    split; [apply Z.mod_pos_bound; lia|]. symmetry. now apply bd_at_mod.
  - intros (j & _ & ->). exists ((j - p) mod AllCnt r).
    split; [apply Z.mod_pos_bound; lia|]. apply bd_at_inj; [done|].
    rewrite Z.add_mod_idemp_r by lia. f_equal. lia.
Qed.

Lemma abs_partition r : ring_wf r ->
  let a := ring_abs r in
  a_post a ++ a_hw a ++ a_pre a ++ a_free a ≡ₚ ring_bds r /\ NoDup (ring_bds r).
Proof.
  intros [G [p H]]. cbv zeta. rewrite (abs_groups r p G H). cbn [a_post a_hw a_pre a_free].
  destruct H. rewrite !grp_app by lia.
  replace (PostCnt r + (HwCnt r + (PreCnt r + FreeCnt r))) with (AllCnt r) by lia.
  split; [by apply grp_round|]. rewrite <- (grp_round r 0 G). by apply grp_nodup.
Qed.

Lemma not_completed m bd v :
  XAxiDma_BdHwCompleted
    (st_out (XAxiDma_BdWrite bd XAXIDMA_BD_STS_OFFSET (v .& not32 XAXIDMA_BD_STS_COMPLETE_MASK)) m)
    bd = false.
Proof.
  unfold XAxiDma_BdHwCompleted. rewrite BdRead_Write_eq. apply tst_false.
  rewrite u32_small by (apply is_u32_land_r; vm_compute; split; congruence).
  rewrite <- Z.land_assoc. apply Z.land_0_r.
Qed.

(** The loop accepts exactly when no descriptor it passes is empty; it clears
    their completed bits and ends at the last descriptor of the set with that
    descriptor's control word. *)
Lemma tohw_loop_spec r (G : geom r) n : forall i cr sts m,
  Z.of_nat n < AllCnt r ->
  let l := grp r i (Z.of_nat n) in
  let m' := st_out (bdring_tohw_loop r n (bd_at r i) cr sts) m in
  sts_frame l m m' /\
  match st_val (bdring_tohw_loop r n (bd_at r i) cr sts) m with
  | None => exists bd, bd ∈ l /\ XAxiDma_BdGetLength m bd (MaxTransferLen r) = 0
  | Some (cur, cr', _) =>
      cur = bd_at r (i + Z.of_nat n) /\
      (forall bd, bd ∈ l -> XAxiDma_BdGetLength m bd (MaxTransferLen r) <> 0) /\
      (forall bd, bd ∈ l -> XAxiDma_BdHwCompleted m' bd = false) /\
      cr' = match n with O => cr | S _ => XAxiDma_BdRead m cur XAXIDMA_BD_CTRL_LEN_OFFSET end
  end.
Proof.
  induction n as [|n IH]; intros i cr sts m Hn; cbv zeta.
  { cbn [bdring_tohw_loop]. st. change (grp r i (Z.of_nat 0)) with (@nil Z).
    split; [auto with drv|]. split_and!; [f_equal; lia|by intros ? ?%elem_of_nil..|done]. }
  rewrite (grp_cons r i (Z.of_nat (S n))) by lia.
  replace (Z.of_nat (S n) - 1) with (Z.of_nat n) by lia.
  cbn [bdring_tohw_loop]. st. change (id m) with m. case_if.
  { st. split; [auto with drv|]. exists (bd_at r i). split; [left|done]. }
  st. change (@id Mem) with (fun x : Mem => x). cbv beta. rewrite mBdRingNext_at by done.
  set (v := sts .& not32 XAXIDMA_BD_STS_COMPLETE_MASK).
  set (m1 := st_out (XAxiDma_BdWrite (bd_at r i) XAXIDMA_BD_STS_OFFSET v) m).
  assert (F1 : sts_frame [bd_at r i] m m1).
  { apply sts_frame_write; [by apply bd_at_ok|by left]. }
  assert (Hkeep : forall j o, bd_off o -> o <> XAXIDMA_BD_STS_OFFSET ->
    XAxiDma_BdRead m1 (bd_at r j) o = XAxiDma_BdRead m (bd_at r j) o).
  { intros. eapply sts_frame_read; eauto. intros bd ->%list_elem_of_singleton. by eexists. }
  specialize (IH (i + 1) (XAxiDma_BdRead m1 (bd_at r (i + 1)) XAXIDMA_BD_CTRL_LEN_OFFSET)
    (XAxiDma_BdRead m1 (bd_at r (i + 1)) XAXIDMA_BD_STS_OFFSET) m1 ltac:(lia)).
  cbv zeta in IH. destruct IH as [F2 Hres].
  assert (Hlen : forall bd, bd ∈ grp r (i + 1) (Z.of_nat n) ->
    XAxiDma_BdGetLength m1 bd (MaxTransferLen r) = XAxiDma_BdGetLength m bd (MaxTransferLen r)).
  { intros bd Hbd. destruct (grp_in_ring _ _ _ _ Hbd) as [j ->]. unfold XAxiDma_BdGetLength.
    rewrite Hkeep by auto with drv. done. }
  split.
  { eapply (sts_frame_trans [bd_at r i]); [set_solver|done|].
    eapply sts_frame_incl; [|exact F2]. set_solver. }
  destruct (st_val _ m1) as [[[cur cr'] sts']|].
  - destruct Hres as (Hcur & Hl & Hc & Hcr). split_and!.
    + rewrite Hcur. f_equal. lia.
    + intros bd [->|Hbd]%elem_of_cons; [done|]. rewrite <- Hlen by done. auto.
    + intros bd [->|Hbd]%elem_of_cons; [|auto]. unfold XAxiDma_BdHwCompleted.
      erewrite (sts_frame_read r G); [apply not_completed|exact F2|apply grp_in_ring|auto with drv|].
      right. replace (Z.of_nat n) with (Z.of_nat (S n) - 1) by lia. apply grp_head_notin; [done|lia].
    + rewrite Hcr, Hcur. destruct n; [rewrite Hkeep by auto with drv; do 2 f_equal; lia|].
      apply Hkeep; auto with drv.
  - destruct Hres as (bd & Hbd & Hz). exists bd. rewrite <- Hlen by done. set_solver.
Qed.

(** On a control word and on its masked copy the packet flags are the same. *)
Lemma ctrl_flag m bd f : mask_has XAXIDMA_BD_CTRL_ALL_MASK f ->
  tst (XAxiDma_BdRead m bd XAXIDMA_BD_CTRL_LEN_OFFSET) f = tst (XAxiDma_BdGetCtrl m bd) f.
Proof.
  unfold mask_has, tst, XAxiDma_BdGetCtrl. intros Hf. do 2 f_equal.
  rewrite <- Z.land_assoc, (Z.land_comm XAXIDMA_BD_CTRL_ALL_MASK f), Hf. done.
Qed.

Lemma tohw_accepts_grp m r i n : 0 < n ->
  tohw_accepts m r (grp r i n) =
  forallb (fun bd => negb (XAxiDma_BdGetLength m bd (MaxTransferLen r) =? 0)) (grp r i n) &&
  (negb (IsRxChannel r =? 0) ||
   (tst (XAxiDma_BdGetCtrl m (bd_at r i)) XAXIDMA_BD_CTRL_TXSOF_MASK &&
    tst (XAxiDma_BdGetCtrl m (bd_at r (i + n - 1))) XAXIDMA_BD_CTRL_TXEOF_MASK)).
Proof.
  intros. unfold tohw_accepts. rewrite grp_head by lia. rewrite (grp_snoc r i n) by lia.
  now rewrite last_snoc.
Qed.

Lemma tohw_rejects_empty m r l bd :
  bd ∈ l -> XAxiDma_BdGetLength m bd (MaxTransferLen r) = 0 -> tohw_accepts m r l = false.
Proof.
  intros Hin Hz. apply andb_false_iff. left. apply not_true_iff_false. rewrite forallb_forall.
  intros Hall. specialize (Hall bd (proj1 (list_elem_of_In _ _) Hin)).
  rewrite Hz in Hall. discriminate Hall.
Qed.

Lemma grp_snoc_elem r i n bd : 0 < n ->
  bd ∈ grp r i n <-> bd ∈ grp r i (n - 1) \/ bd = bd_at r (i + n - 1).
Proof. intros. rewrite (grp_snoc r i n) by lia. set_solver. Qed.

(** [bdring_tohw_bds] decides [tohw_accepts]; it changes nothing but status
    words of the set, and an accepted set has no completed bit left. *)
Lemma tohw_bds_spec r (G : geom r) i n m : 0 < n <= AllCnt r ->
  let l := grp r i n in
  let m' := st_out (bdring_tohw_bds r n (bd_at r i)) m in
  sts_frame l m m' /\
  match st_val (bdring_tohw_bds r n (bd_at r i)) m with
  | None => tohw_accepts m r l = false
  | Some cur =>
      tohw_accepts m r l = true /\ cur = bd_at r (i + n - 1) /\
      forall bd, bd ∈ l -> XAxiDma_BdHwCompleted m' bd = false
  end.
Proof.
  intros Hn. cbv zeta. unfold bdring_tohw_bds. st. change (id m) with m.
  pose proof (tohw_accepts_grp m r i n ltac:(lia)) as Hacc. case_if.
  { st. split; [auto with drv|]. rewrite Hacc, H, H0. apply andb_false_r. }
  st. pose proof (tohw_loop_spec r G (Z.to_nat (n - 1)) i (XAxiDma_BdGetCtrl m (bd_at r i))
    (XAxiDma_BdGetSts m (bd_at r i)) m ltac:(lia)) as HL.
  cbv zeta in HL. rewrite Z2Nat.id in HL by lia. destruct HL as [F HL].
  set (m1 := st_out (bdring_tohw_loop _ _ _ _ _) m) in *.
  pose proof (fun bd => grp_snoc_elem r i n bd ltac:(lia)) as Hel.
  assert (Hsub : grp r i (n - 1) ⊆ grp r i n) by (intros bd Hbd; apply Hel; auto).
  destruct (st_val (bdring_tohw_loop _ _ _ _ _) m) as [[[cur cr] sts]|]; st.
  2:{ split; [by eapply sts_frame_incl|]. destruct HL as (bd & Hbd & Hz).
      eapply tohw_rejects_empty; eauto. }
  destruct HL as (-> & Hlen & Hc & Hcr).
  replace (i + (n - 1)) with (i + n - 1) in * by lia. set (e := bd_at r (i + n - 1)) in *.
  assert (tst cr XAXIDMA_BD_CTRL_TXEOF_MASK =
    tst (XAxiDma_BdGetCtrl m e) XAXIDMA_BD_CTRL_TXEOF_MASK) as ->.
  { destruct (Z.to_nat (n - 1)) eqn:En; [|rewrite Hcr; by apply ctrl_flag].
    unfold e. replace (i + n - 1) with i by lia. now rewrite Hcr. }
  case_if.
  { st. split; [by eapply sts_frame_incl|]. rewrite Hacc, H, H0. cbn. now rewrite !andb_false_r. }
  st. change (id m1) with m1.
  assert (XAxiDma_BdGetLength m1 e (MaxTransferLen r) =
          XAxiDma_BdGetLength m e (MaxTransferLen r)) as ->.
  { unfold XAxiDma_BdGetLength, e.
    erewrite (sts_frame_read r G); eauto using grp_in_ring with drv. }
  case_if; st.
  { split; [by eapply sts_frame_incl|]. eapply tohw_rejects_empty; [|exact E1]. apply Hel; auto. }
  split; [|split_and!]; [| |done|].
  - eapply sts_frame_trans; [exact Hsub|exact F|].
    apply sts_frame_write; [by apply bd_at_ok|apply Hel; auto].
  - rewrite Hacc. apply andb_true_iff. split.
    + apply forallb_forall. intros bd Hbd%list_elem_of_In. apply negb_true_iff, Z.eqb_neq.
      apply Hel in Hbd as [Hbd| ->]; auto.
    + destruct (IsRxChannel r =? 0), E as [E|E], E0 as [E0|E0]; try discriminate; bool_prop;
        cbn; now rewrite ?E, ?E0.
  - intros bd Hbd. destruct (decide (bd = e)) as [->|Ne]; [apply not_completed|].
    apply Hel in Hbd as [Hbd| ->]; [|done].
    destruct (grp_in_ring _ _ _ _ Hbd) as [j ->]. unfold XAxiDma_BdHwCompleted, e.
    rewrite BdRead_Write_apart by (auto using bd_at_ok, bd_at_apart with drv). by apply Hc.
Qed.

Section tohw.
Context {D : Type} `{!RegBus D}.

(** The tail descriptor register is written exactly when the channel runs. *)
Definition tohw_kick (r : XAxiDma_BdRing) (ix : Z) (d : D) : D :=
  if RunState r =? AXIDMA_CHANNEL_NOT_HALTED
  then bus_write (u32 (ChanBase r + tdesc_offset r ix)) (u32 (XAXIDMA_VIRT_TO_PHYS r (HwTail r))) d
  else d.

(** All branches of [XAxiDma_BdRingToHw]. *)
Lemma tohw_sim r n bd ix (w : World D) : ring_wf r ->
  let a := ring_abs r in
  let l := ztake n (a_pre a) in
  let '(st, r') := st_val (XAxiDma_BdRingToHw r n bd ix) w in
  let w' := st_out (XAxiDma_BdRingToHw r n bd ix) w in
  if n <? 0 then st = XST_INVALID_PARAM /\ r' = r /\ w' = w
  else if n =? 0 then st = XST_SUCCESS /\ r' = r /\ w' = w
  else if (zlen (a_pre a) <? n) || negb (bool_decide (head l = Some bd))
  then st = XST_DMA_SG_LIST_ERROR /\ r' = r /\ w' = w
  else
    sts_frame l (w_mem w) (w_mem w') /\
    if tohw_accepts (w_mem w) r l
    then st = XST_SUCCESS /\ sim r r' (spec_tohw n a) /\ last l = Some (HwTail r') /\
         (forall b, b ∈ l -> XAxiDma_BdHwCompleted (w_mem w') b = false) /\
         w_dev w' = tohw_kick r' ix (w_dev w)
    else st = XST_FAILURE /\ r' = r /\ w_dev w' = w_dev w.
Proof.
  intros W. pose proof W as [G [p H]]. pose proof (abs_groups r p G H) as Ha. cbv zeta.
  unfold XAxiDma_BdRingToHw. case_if; [done|]. case_if; [done|].
  assert (Hpre : a_pre (ring_abs r) = grp r (p + PostCnt r + HwCnt r) (PreCnt r)) by now rewrite Ha.
  rewrite Hpre, grp_length by apply H. rewrite (gr_preh r p H).
  destruct (Z.ltb_spec (PreCnt r) n); cbn [orb]; [done|].
  rewrite grp_take, grp_head by lia. set (i := p + PostCnt r + HwCnt r) in *.
  destruct (Z.eqb_spec (bd_at r i) bd) as [<-|Ne]; cbn [negb].
  2:{ rewrite bool_decide_eq_false_2 by congruence. done. }
  rewrite bool_decide_eq_true_2 by done. cbn [negb].
  pose proof (tohw_bds_spec r G i n (w_mem w) ltac:(destruct H; lia)) as [F S].
  st. unfold on_mem, st_val, st_out in *.
  destruct (bdring_tohw_bds r n (bd_at r i) (w_mem w)) as [[cur|] m1]; cbn [fst snd w_mem w_dev] in *.
  2:{ rewrite S. unfold mret, st_ret. cbn. auto. }
  destruct S as (-> & -> & Hc). cbn [RunState].
  pose proof (tohw_groups r p G H n _ ltac:(lia) eq_refl) as H'. rewrite (gr_preh r p H) in H'.
  fold i in H'. set (r' := r <|PreHead := _|> <|PreCnt := _|> <|HwTail := _|> <|HwCnt := _|>) in *.
  assert (Hsim : sim r r' (spec_tohw n (ring_abs r))).
  { unfold r' in *. clear r'. destruct H. apply (sim_groups _ _ p); [done|auto with drv|done|].
    unfold spec_tohw. rewrite Ha. cbn -[grp]. unfold i in *. queues. }
  assert (Hlast : last (grp r i n) = Some (HwTail r')).
  { rewrite (grp_snoc r i n) by lia. apply last_snoc. }
  unfold tohw_kick, mbind, st_bind.
  destruct (RunState r' =? AXIDMA_CHANNEL_NOT_HALTED) eqn:Er; cbv beta iota;
    split_and!; rewrite ?Er; done || exact Hc.
Qed.

(** ** Allocating and committing in one go

    What clients do: take [k] free descriptors from a ring with nothing
    prepared, program them, and commit them all. *)

Record allocated (r : XAxiDma_BdRing) (k i : Z) (r1 : XAxiDma_BdRing) : Prop := {
  al_run : XAxiDma_BdRingAlloc r k = (XST_SUCCESS, Some (bd_at r1 i), r1);
  al_geom : same_geom r r1;
  al_wf : geom r1;
  al_at : forall j, bd_at r1 j = bd_at r j;
  al_all : k <= AllCnt r1;
  al_max : MaxTransferLen r1 = MaxTransferLen r;
  al_rx : IsRxChannel r1 = IsRxChannel r;
  al_free : ztake k (a_free (ring_abs r)) = grp r i k;
  al_commit : forall w1 : World D, tohw_accepts (w_mem w1) r1 (grp r1 i k) = true ->
    exists r2, let w2 := st_out (XAxiDma_BdRingToHw r1 k (bd_at r1 i) 0) w1 in
    st_val (XAxiDma_BdRingToHw r1 k (bd_at r1 i) 0) w1 = (XST_SUCCESS, r2) /\
    sts_frame (grp r1 i k) (w_mem w1) (w_mem w2) /\
    (let a := ring_abs r in
     sim r r2 (mkARing (zdrop k (a_free a)) [] (a_hw a ++ grp r i k) (a_post a))) /\
    w_dev w2 = tohw_kick r2 0 (w_dev w1);
}.

Lemma alloc_commit r k : ring_wf r -> PreCnt r = 0 -> 0 < k <= FreeCnt r -> exists i r1, allocated r k i r1.
Proof.
  intros W Hpre Hk. pose proof W as [G [p H]].
  set (r1 := r <|FreeHead := XAXIDMA_RING_SEEKAHEAD r (FreeHead r) k|> <|FreeCnt := FreeCnt r - k|>
               <|PreCnt := PreCnt r + k|>).
  set (i := p + PostCnt r + HwCnt r). exists i, r1.
  assert (S1 : same_geom r r1) by auto with drv.
  assert (G1 : geom r1) by (eapply same_geom_geom; eauto).
  assert (H1 : groups r1 p) by (apply (alloc_groups r p G H k); lia).
  assert (Hat : forall j, bd_at r1 j = bd_at r j) by (intros; by apply same_geom_at).
  assert (Hg : grp r1 i k = grp r i k) by (by apply grp_same).
  pose proof (abs_groups r p G H) as Ha. pose proof (abs_groups r1 p G1 H1) as Ha1.
  assert (Hfr : a_free (ring_abs r) = grp r i (FreeCnt r)) by (rewrite Ha; cbn [a_free]; unfold i; f_equal; lia).
  assert (Hpre1 : a_pre (ring_abs r1) = grp r1 i k).
  { rewrite Ha1. cbn [a_pre]. change (PreCnt r1) with (PreCnt r + k). unfold i. f_equal. lia. }
  split; try done.
  - unfold XAxiDma_BdRingAlloc. replace (k <=? 0) with false by lia. replace (FreeCnt r <? k) with false by lia.
    fold r1. assert (Hf : FreeHead r = bd_at r1 i); [|by rewrite Hf].
    rewrite Hat, (gr_freeh r p H). f_equal. unfold i. lia.
  - destruct H. change (AllCnt r1) with (AllCnt r). lia.
  - rewrite Hfr, grp_take by lia. done.
  - intros w1 Hacc. pose proof (tohw_sim r1 k (bd_at r1 i) 0 w1 (conj G1 (ex_intro _ p H1))) as HT. cbv zeta in HT.
    rewrite Hpre1, grp_length, grp_take, grp_head, bool_decide_eq_true_2 in HT by (done || lia).
    replace (k <? 0) with false in HT by lia. replace (k =? 0) with false in HT by lia.
    replace (k <? k) with false in HT by lia. cbn [negb orb] in HT. rewrite Hacc in HT.
    destruct (st_val (XAxiDma_BdRingToHw r1 k (bd_at r1 i) 0) w1) as [st r2].
    destruct HT as (Fs & -> & [W2 S2 A2] & _ & _ & Hdev). exists r2. split_and!; [done|done| |done].
    split; [done|by etransitivity|]. rewrite A2. unfold spec_tohw.
    rewrite Hpre1, Hfr, Hg, grp_take, !grp_drop by lia. rewrite Ha1, Ha. cbn [a_free a_hw a_post].
    rewrite !(grp_same r r1) by done. change (PreCnt r1) with (PreCnt r + k).
    change (FreeCnt r1) with (FreeCnt r - k). change (PostCnt r1) with (PostCnt r). change (HwCnt r1) with (HwCnt r).
    f_equal; [unfold i; f_equal; lia|]. unfold grp. now rewrite seqZ_nil by lia.
Qed.

End tohw.
