(* ===== verification/RingCreate.v ===== *)
(** * Building a ring, checking it and cloning a template into it

    [XAxiDma_BdRingCreate] establishes the representation invariant with every
    descriptor free and linked to its successor; [XAxiDma_BdRingCheck] accepts
    every such ring, and [XAxiDma_BdRingClone] fills its descriptors. *)

From S2P Require Import Prelude Hw Bd BdRing RingGeom RingSpec RingHw.

(** ** The separation of adjacent descriptors *)

Lemma pow2_of_tst a : 0 < a -> tst (a - 1) a = false -> a = 2 ^ Z.log2 a.
Proof.
  intros Ha Ht. apply tst_false in Ht. pose proof (Z.log2_spec a Ha) as [L U].
  destruct (decide (a = 2 ^ Z.log2 a)) as [|Ne]; [done|exfalso].
  assert (B1 : Z.testbit a (Z.log2 a) = true) by (apply Z.bit_log2; done).
  assert (Z.log2 (a - 1) = Z.log2 a) as El.
  { apply Z.log2_unique; [apply Z.log2_nonneg|lia]. }
  assert (B2 : Z.testbit (a - 1) (Z.log2 a) = true).
  { rewrite <- El. apply Z.bit_log2. pose proof (Z.log2_nonneg a).
    assert (0 < 2 ^ Z.log2 a) by (apply Z.pow_pos_nonneg; lia). lia. }
  assert (Z.testbit ((a - 1) .& a) (Z.log2 a) = true) as B by now rewrite Z.land_spec, B1, B2.
  rewrite Ht, Z.bits_0 in B. done.
Qed.

(** A legal alignment is at least one descriptor, so it is the separation. *)
Lemma bd_separation_eq a : is_u32 a -> XAXIDMA_BD_MINIMUM_ALIGNMENT <= a ->
  tst (a - 1) a = false -> bd_separation a = a.
Proof.
  unfold is_u32, XAXIDMA_BD_MINIMUM_ALIGNMENT. intros Hu Hm Ht.
  pose proof (pow2_of_tst a ltac:(lia) Ht) as Hp. set (k := Z.log2 a) in *.
  pose proof (Z.log2_nonneg a) as Hk. fold k in Hk.
  assert (Ha : 2 * a <= 4294967296).
  { rewrite Hp. change 4294967296 with (2 ^ 32). rewrite <- Z.pow_succ_r by done.
    apply Z.pow_le_mono_r; [lia|]. apply Z.le_succ_l. apply (Z.pow_lt_mono_r_iff 2); [lia|lia|].
    rewrite <- Hp. change (2 ^ 32) with 4294967296. lia. }
  unfold bd_separation. change sizeof_Bd with 64. rewrite land_not32 by apply u32_range.
  rewrite u32_small by (unfold is_u32; lia).
  replace (a - 1) with (Z.ones k) at 2 by (rewrite Z.ones_equiv, <- Hp; lia).
  rewrite Z.ldiff_ones_r, Z.shiftr_div_pow2, Z.shiftl_mul_pow2, <- Hp by done.
  replace ((64 + (a - 1)) / a) with 1; [lia|]. apply Z.div_unique with (64 - 1); lia.
Qed.

Lemma alignment_words a : XAXIDMA_BD_MINIMUM_ALIGNMENT <= a -> tst (a - 1) a = false -> a mod 4 = 0.
Proof.
  unfold XAXIDMA_BD_MINIMUM_ALIGNMENT. intros Hm Ht.
  pose proof (pow2_of_tst a ltac:(lia) Ht) as Hp.
  assert (2 <= Z.log2 a) by (change 2 with (Z.log2 4); apply Z.log2_le_mono; lia).
  replace (Z.log2 a) with ((Z.log2 a - 2) + 2) in Hp by lia.
  rewrite Z.pow_add_r in Hp by lia. rewrite Hp. apply Z.mod_mul. lia.
Qed.

(** ** The words of one descriptor after creation *)

(** The word at offset [o] once the next pointer [nd] and the hardware
    information of [r] are stored over a descriptor that held [old]. *)
Definition init_word (r : XAxiDma_BdRing) (nd o old : Z) : Z :=
  if o =? XAXIDMA_BD_NDESC_OFFSET then u32 nd
  else if o =? XAXIDMA_BD_HAS_STSCNTRL_OFFSET then u32 (HasStsCntrlStrm r)
  else if o =? XAXIDMA_BD_HAS_DRE_OFFSET
       then u32 (Z.shiftl (u32 (HasDRE r)) XAXIDMA_BD_HAS_DRE_SHIFT) .| u32 (DataWidth r)
  else old.

Definition put_bd (r : XAxiDma_BdRing) (bd nd : Z) : ST Mem unit :=
  XAxiDma_BdWrite bd XAXIDMA_BD_NDESC_OFFSET nd;; bd_put_hwinfo r bd.

Lemma put_bd_same r bd nd m o : bd_ok bd -> bd_off o ->
  XAxiDma_BdRead (st_out (put_bd r bd nd) m) bd o = init_word r nd o (XAxiDma_BdRead m bd o).
Proof.
  intros. unfold put_bd, bd_put_hwinfo, init_word. st.
  destruct (Z.eqb_spec o XAXIDMA_BD_HAS_DRE_OFFSET) as [->|].
  { st. cbn. apply u32_small. auto using u32_range with drv. }
  rewrite (BdRead_Write_off _ _ XAXIDMA_BD_HAS_DRE_OFFSET) by auto with drv.
  destruct (Z.eqb_spec o XAXIDMA_BD_HAS_STSCNTRL_OFFSET) as [->|].
  { st. cbn. apply u32_idemp. }
  rewrite (BdRead_Write_off _ _ XAXIDMA_BD_HAS_STSCNTRL_OFFSET) by auto with drv.
  destruct (Z.eqb_spec o XAXIDMA_BD_NDESC_OFFSET) as [->|]; [by st|].
  now rewrite BdRead_Write_off by auto with drv.
Qed.

Lemma put_bd_apart r bd bd' nd m o : bd_ok bd -> bd_ok bd' -> bd_off o -> bd_apart bd bd' ->
  XAxiDma_BdRead (st_out (put_bd r bd nd) m) bd' o = XAxiDma_BdRead m bd' o.
Proof.
  intros. unfold put_bd, bd_put_hwinfo. st. now rewrite !BdRead_Write_apart by auto with drv.
Qed.

Lemma create_loop_unfold r n v p m :
  bdring_create_loop r (S n) v p m =
  bdring_create_loop r n (u32 (v + Separation r)) (u32 (p + Separation r))
    (st_out (put_bd r v p) m).
Proof. unfold put_bd. cbn [bdring_create_loop]. now st. Qed.

(** The loop leaves the pointer behind the descriptors it initialised and
    sets exactly their words. *)
Lemma create_loop_spec r : sizeof_Bd <= Separation r -> forall n v p m,
  0 <= v -> v + Separation r * Z.of_nat (S n) <= 4294967296 ->
  st_val (bdring_create_loop r n v p) m = v + Separation r * Z.of_nat n /\
  forall k o, bd_ok (v + Separation r * k) -> bd_off o ->
    XAxiDma_BdRead (st_out (bdring_create_loop r n v p) m) (v + Separation r * k) o =
    let old := XAxiDma_BdRead m (v + Separation r * k) o in
    if (0 <=? k) && (k <? Z.of_nat n) then init_word r (p + Separation r * k) o old else old.
Proof.
  change sizeof_Bd with 64. intros Hs n. induction n as [|n IH]; intros v p m Hv He.
  { split; [cbn; lia|]. intros k o _ _. cbv zeta. now case_if; [lia|]. }
  unfold st_val, st_out. rewrite create_loop_unfold.
  assert (Hbv : bd_ok v) by (unfold bd_ok; change sizeof_Bd with 64; nia).
  rewrite (u32_small (v + Separation r)) by (unfold is_u32; nia).
  set (m1 := st_out (put_bd r v p) m).
  destruct (IH (v + Separation r) (u32 (p + Separation r)) m1 ltac:(nia) ltac:(nia)) as [Hv' Hr].
  unfold st_val, st_out in Hv', Hr. split; [rewrite Hv'; nia|].
  intros k o Hk Ho. specialize (Hr (k - 1) o).
  replace (v + Separation r + Separation r * (k - 1)) with (v + Separation r * k) in Hr by nia.
  rewrite Hr by done. cbv zeta. destruct (decide (k = 0)) as [->|Hk0].
  - cbn. unfold m1. replace (v + Separation r * 0) with v by lia.
    replace (p + Separation r * 0) with p by lia. apply put_bd_same; done.
  - assert (Hsame : XAxiDma_BdRead m1 (v + Separation r * k) o =
                    XAxiDma_BdRead m (v + Separation r * k) o).
    { apply put_bd_apart; [done..|]. unfold bd_apart. change sizeof_Bd with 64. nia. }
    rewrite Hsame. replace ((0 <=? k - 1) && (k - 1 <? Z.of_nat n))
      with ((0 <=? k) && (k <? Z.of_nat (S n)))
      by (apply eq_true_iff_eq; rewrite !andb_true_iff, !Z.leb_le, !Z.ltb_lt; lia).
    case_if; [|done]. unfold init_word. rewrite u32_add_l.
    replace (p + Separation r + Separation r * (k - 1)) with (p + Separation r * k) by nia. done.
Qed.

(** ** A created ring *)

(** Every descriptor points to the physical address of its successor. *)
Definition linked (m : Mem) (r : XAxiDma_BdRing) : Prop :=
  forall i, XAxiDma_BdRead m (bd_at r i) XAXIDMA_BD_NDESC_OFFSET =
            XAXIDMA_VIRT_TO_PHYS r (bd_at r (i + 1)).

(** Every descriptor carries the build information of its channel. *)
Definition hw_tagged (m : Mem) (r : XAxiDma_BdRing) : Prop :=
  forall i, XAxiDma_BdRead m (bd_at r i) XAXIDMA_BD_HAS_STSCNTRL_OFFSET = u32 (HasStsCntrlStrm r) /\
    XAxiDma_BdRead m (bd_at r i) XAXIDMA_BD_HAS_DRE_OFFSET =
    (u32 (Z.shiftl (u32 (HasDRE r)) XAXIDMA_BD_HAS_DRE_SHIFT) .| u32 (DataWidth r)).

(** The arguments the function accepts, without the wrap-around. *)
Record create_args (PhysAddr VirtAddr Alignment BdCount : Z) : Prop := {
  ca_cnt : 0 < BdCount;
  ca_min : XAXIDMA_BD_MINIMUM_ALIGNMENT <= Alignment;
  ca_u32 : is_u32 Alignment;
  ca_pow2 : tst (Alignment - 1) Alignment = false;
  ca_phys : is_u32 PhysAddr /\ PhysAddr mod Alignment = 0;
  ca_virt : is_u32 VirtAddr /\ VirtAddr mod Alignment = 0;
  ca_size : Alignment * BdCount < 4294967296;
  ca_end : VirtAddr + Alignment * BdCount <= 4294967296;
}.

(** The record that a successful creation returns. *)
Definition created (r : XAxiDma_BdRing) (PhysAddr VirtAddr Alignment BdCount : Z)
  : XAxiDma_BdRing :=
  r <|AllCnt := BdCount|> <|FreeCnt := BdCount|> <|HwCnt := 0|> <|PreCnt := 0|> <|PostCnt := 0|>
    <|Separation := Alignment|> <|RunState := AXIDMA_CHANNEL_HALTED|>
    <|FirstBdAddr := VirtAddr|> <|FirstBdPhysAddr := PhysAddr|>
    <|LastBdAddr := VirtAddr + Alignment * (BdCount - 1)|> <|Length := Alignment * BdCount|>
    <|FreeHead := VirtAddr|> <|PreHead := VirtAddr|> <|HwHead := VirtAddr|>
    <|HwTail := VirtAddr|> <|PostHead := VirtAddr|> <|BdaRestart := PhysAddr|>.

Section created.
Context (r : XAxiDma_BdRing) (PhysAddr VirtAddr Alignment BdCount : Z).
Context (CA : create_args PhysAddr VirtAddr Alignment BdCount).
#[local] Abbreviation rr := (created r PhysAddr VirtAddr Alignment BdCount).
#[local] Abbreviation r0 := (r <|AllCnt := 0|> <|FreeCnt := 0|> <|HwCnt := 0|> <|PreCnt := 0|>
  <|PostCnt := 0|> <|Separation := Alignment|>).

Lemma created_geom : geom rr.
Proof.
  destruct CA. unfold is_u32, XAXIDMA_BD_MINIMUM_ALIGNMENT in *.
  split; unfold created; cbn; try (change sizeof_Bd with 64); lia.
Qed.

Lemma created_groups : groups rr 0.
Proof.
  pose proof created_geom as G. destruct CA.
  assert (H0 : forall i, i = 0 -> VirtAddr = bd_at rr i).
  { intros i ->. rewrite bd_at_small by (cbn; lia). cbn. lia. }
  split; [cbn; lia..| | | | |cbn; lia|exists 0]; by apply H0.
Qed.

(** What the memory part of the function does. *)
Definition create_mem : ST Mem Z :=
  st_mod (mem_zero (Z.to_nat (u32 (Alignment * BdCount) / 4)) VirtAddr);;
  BdVirtAddr ← bdring_create_loop r0 (Z.to_nat (BdCount - 1)) VirtAddr
                 (u32 (PhysAddr + Alignment));
  put_bd r0 BdVirtAddr PhysAddr;;
  mret BdVirtAddr.

(** The word at [o] of the [k]-th descriptor. *)
Lemma create_mem_word m k o : 0 <= k < BdCount -> bd_off o -> o mod 4 = 0 ->
  st_val create_mem m = VirtAddr + Alignment * (BdCount - 1) /\
  XAxiDma_BdRead (st_out create_mem m) (VirtAddr + Alignment * k) o =
  init_word r (if k =? BdCount - 1 then PhysAddr else PhysAddr + Alignment * (k + 1)) o 0.
Proof.
  intros Hk Ho Ho4. change (init_word r) with (init_word r0). destruct CA as [Hc Hmin Hu Hp2 [Hp Hpa] [Hv Hva] Hsz Hend].
  unfold is_u32 in *. assert (Hs64 : 64 <= Alignment) by done.
  unfold create_mem. st. set (rs := r0).
  set (m0 := mem_zero _ _ m).
  destruct (create_loop_spec rs Hs64 (Z.to_nat (BdCount - 1)) VirtAddr
    (u32 (PhysAddr + Alignment)) m0 ltac:(lia)) as [Hval Hread].
  { change (Separation rs) with Alignment.
    replace (Z.of_nat (S (Z.to_nat (BdCount - 1)))) with BdCount by lia. lia. }
  change (Separation rs) with Alignment in *.
  rewrite Z2Nat.id in * by lia. rewrite Hval. split; [done|].
  assert (Hok : forall j, 0 <= j < BdCount -> bd_ok (VirtAddr + Alignment * j)).
  { intros j Hj. unfold bd_ok. change sizeof_Bd with 64. nia. }
  assert (Hz : XAxiDma_BdRead m0 (VirtAddr + Alignment * k) o = 0).
  { rewrite BdRead_addr by auto. unfold m0, bd_off in *. change sizeof_Bd with 64 in *.
    pose proof (alignment_words Alignment Hmin Hp2) as Ha4.
    apply Z.mod_divide in Ha4 as [q Hq]; [|lia]. apply Z.mod_divide in Ho4 as [s Hs]; [|lia].
    rewrite u32_small by (unfold is_u32; nia).
    replace (VirtAddr + Alignment * k + o) with (VirtAddr + 4 * (q * k + s)) by nia.
    replace (Alignment * BdCount / 4) with (q * BdCount)
      by (rewrite Hq; replace (q * 4 * BdCount) with (q * BdCount * 4) by lia;
          rewrite Z.div_mul; lia).
    apply mem_zero_inside; rewrite ?Z2Nat.id; nia. }
  destruct (Z.eqb_spec k (BdCount - 1)) as [->|Hne].
  - rewrite put_bd_same by auto with lia. f_equal. rewrite Hread by auto.
    case_if; [lia|]. done.
  - rewrite put_bd_apart; [|auto with lia..|].
    2:{ unfold bd_apart. change sizeof_Bd with 64. nia. }
    rewrite Hread by auto. rewrite Hz. case_if; [|lia]. unfold init_word. rewrite u32_add_l.
    replace (PhysAddr + Alignment + Alignment * k) with (PhysAddr + Alignment * (k + 1)) by lia.
    done.
Qed.

Lemma create_run m :
  XAxiDma_BdRingCreate r PhysAddr VirtAddr Alignment BdCount m =
  (XST_SUCCESS, rr, st_out create_mem m).
Proof.
  destruct CA as [Hc Hmin Hu Hp2 [Hp Hpa] [Hv Hva] Hsz Hend].
  pose proof (bd_separation_eq Alignment Hu Hmin Hp2) as Hsep. unfold is_u32 in *.
  unfold XAXIDMA_BD_MINIMUM_ALIGNMENT in *.
  unfold XAxiDma_BdRingCreate. case_if; [lia|]. cbv zeta.
  rewrite Hsep. unfold XAXIDMA_BD_MINIMUM_ALIGNMENT. case_if; [lia|]. rewrite Hp2, Hpa, Hva.
  cbn [negb orb Z.eqb Separation set_field set_Separation].
  rewrite (u32_small (Alignment * BdCount)) by (unfold is_u32; nia).
  rewrite (u32_small (_ - 1)) by (unfold is_u32; nia).
  case_if; [nia|]. unfold create_mem, put_bd, bd_put_hwinfo.
  pose proof (create_mem_word m 0 0 ltac:(lia) ltac:(auto with drv) eq_refl) as [Hval _].
  unfold create_mem, put_bd, bd_put_hwinfo in Hval. st.
  rewrite (u32_small (Alignment * BdCount)) in * by (unfold is_u32; nia).
  rewrite Hval. unfold mret, st_ret. f_equal. f_equal. unfold created. cbn.
  replace (u32 (VirtAddr + Alignment * (BdCount - 1) - VirtAddr + Alignment))
    with (Alignment * BdCount); [done|]. rewrite u32_small; unfold is_u32; nia.
Qed.

Lemma created_word m i o : bd_off o -> o mod 4 = 0 ->
  XAxiDma_BdRead (st_out create_mem m) (bd_at rr i) o =
  init_word r (XAXIDMA_VIRT_TO_PHYS rr (bd_at rr (i + 1))) o 0.
Proof.
  intros Ho Ho4. pose proof created_geom as G. rewrite bd_at_shift by done.
  rewrite <- (bd_at_mod rr G i). pose proof (Z.mod_pos_bound i (AllCnt rr) (g_cnt rr G)) as Hk.
  set (k := i mod AllCnt rr) in *. clearbody k. change (AllCnt rr) with BdCount in Hk.
  rewrite (bd_at_small rr k) by done. change (Separation rr) with Alignment.
  change (FirstBdAddr rr) with VirtAddr.
  destruct (create_mem_word m k o Hk Ho Ho4) as [_ ->]. unfold init_word. case_if; [|done].
  unfold XAXIDMA_VIRT_TO_PHYS. change (FirstBdPhysAddr rr) with PhysAddr.
  change (FirstBdAddr rr) with VirtAddr. rewrite u32_idemp, u32_add_r. case_if.
  - rewrite bd_at_over by (done || (change (AllCnt rr) with BdCount; lia)).
    change (Separation rr) with Alignment. change (FirstBdAddr rr) with VirtAddr.
    change (AllCnt rr) with BdCount. f_equal. lia.
  - rewrite bd_at_small by (change (AllCnt rr) with BdCount; lia).
    change (Separation rr) with Alignment. change (FirstBdAddr rr) with VirtAddr. f_equal. lia.
Qed.

End created.

(** ** The consistency check *)

Lemma ptr_in_ring r bd : geom r -> in_ring r bd -> bdring_ptr_bad r bd = false.
Proof.
  intros G [i ->]. pose proof (bd_at_bounds r G i). unfold bdring_ptr_bad.
  apply orb_false_iff. rewrite !Z.ltb_ge. lia.
Qed.

Lemma virt_to_phys_at r i : geom r -> 0 <= i < AllCnt r ->
  XAXIDMA_VIRT_TO_PHYS r (bd_at r i) = u32 (FirstBdPhysAddr r + Separation r * i).
Proof.
  intros G Hi. rewrite bd_at_small by done. unfold XAXIDMA_VIRT_TO_PHYS. rewrite u32_add_r.
  f_equal. lia.
Qed.

Lemma check_loop_linked m r (G : geom r) : linked m r -> forall n i,
  0 <= i -> i + Z.of_nat n < AllCnt r ->
  bdring_check_loop m r n (bd_at r i) (u32 (FirstBdPhysAddr r + Separation r * (i + 1))) =
  Some (bd_at r (i + Z.of_nat n)).
Proof.
  intros L. induction n as [|n IH]; intros i Hi Hn; cbn [bdring_check_loop].
  { do 2 f_equal. lia. }
  rewrite (L i), virt_to_phys_at, Z.eqb_refl by (done || lia). cbn [negb].
  assert (u32 (bd_at r i + Separation r) = bd_at r (i + 1)) as ->.
  { destruct G. rewrite !bd_at_small by lia. change sizeof_Bd with 64 in *.
    rewrite u32_small by (unfold is_u32; nia). nia. }
  rewrite u32_add_l.
  replace (FirstBdPhysAddr r + Separation r * (i + 1) + Separation r)
    with (FirstBdPhysAddr r + Separation r * (i + 1 + 1)) by nia.
  rewrite IH by lia. do 2 f_equal. lia.
Qed.

(** A halted, linked ring that satisfies the invariant passes the check. *)
Lemma check_ok m r : ring_wf r -> linked m r -> RunState r = AXIDMA_CHANNEL_HALTED ->
  is_u32 (FirstBdPhysAddr r) -> XAxiDma_BdRingCheck m r = XST_SUCCESS.
Proof.
  intros [G [p H]] L Hs Hu. pose proof (g_cnt r G).
  assert (B : forall i, bdring_ptr_bad r (bd_at r i) = false)
    by (intros; apply ptr_in_ring; [done|by eexists]).
  pose proof (check_loop_linked m r G L (Z.to_nat (AllCnt r - 1)) 0 ltac:(lia) ltac:(lia)) as C.
  destruct H as [? ? ? ? Hsum Hp Hh Hpr Hf ? [j Ht]].
  unfold XAxiDma_BdRingCheck. rewrite Hs. case_if; [lia|]. cbn [Z.eqb negb Pos.eqb AXIDMA_CHANNEL_HALTED AXIDMA_CHANNEL_NOT_HALTED].
  rewrite Hf, Hpr, Hh, Ht, Hp, !B. case_if; [lia|].
  replace (FirstBdAddr r) with (bd_at r 0) by (rewrite bd_at_small by lia; lia).
  replace (u32 (FirstBdPhysAddr r + Separation r))
    with (u32 (FirstBdPhysAddr r + Separation r * (0 + 1))) by (f_equal; lia).
  rewrite C, (L _), Z2Nat.id by lia. replace (0 + (AllCnt r - 1) + 1) with (0 + AllCnt r) by lia.
  rewrite bd_at_periodic, virt_to_phys_at by (done || lia).
  replace (FirstBdPhysAddr r + Separation r * 0) with (FirstBdPhysAddr r) by lia.
  rewrite u32_small, Z.eqb_refl by done. done.
Qed.

(** ** Cloning *)

(** The words of a descriptor that cloning replaces. *)
Definition cloned_off (o : Z) : Prop :=
  XAXIDMA_BD_START_CLEAR <= o < XAXIDMA_BD_START_CLEAR + XAXIDMA_BD_BYTES_TO_CLEAR.

Lemma mem_store_bd_inside ws bd m (k : nat) w : bd_ok bd -> length ws = 12%nat -> ws !! k = Some w ->
  XAxiDma_BdRead (mem_store ws (u32 (bd + XAXIDMA_BD_START_CLEAR)) m) bd
    (XAXIDMA_BD_START_CLEAR + 4 * Z.of_nat k) = u32 w.
Proof.
  unfold bd_ok. change sizeof_Bd with 64. change XAXIDMA_BD_START_CLEAR with 8.
  intros Hok Hl Hk. pose proof (lookup_lt_Some _ _ _ Hk).
  rewrite u32_small by (unfold is_u32; lia).
  rewrite BdRead_addr by (unfold bd_ok, bd_off; change sizeof_Bd with 64; lia).
  rewrite Z.add_assoc. apply mem_store_inside; [lia|rewrite Hl; lia|done].
Qed.

Lemma mem_store_bd_outside ws bd bd' m o : bd_ok bd -> bd_ok bd' -> bd_off o ->
  length ws = 12%nat -> bd' = bd /\ ~ cloned_off o \/ bd_apart bd bd' ->
  XAxiDma_BdRead (mem_store ws (u32 (bd + XAXIDMA_BD_START_CLEAR)) m) bd' o =
  XAxiDma_BdRead m bd' o.
Proof.
  unfold bd_ok, bd_apart, bd_off, cloned_off, XAXIDMA_BD_BYTES_TO_CLEAR.
  change sizeof_Bd with 64. change XAXIDMA_BD_START_CLEAR with 8.
  intros Hok Hok' Ho Hl Hd. rewrite u32_small by (unfold is_u32; lia).
  rewrite !BdRead_addr by (unfold bd_ok, bd_off; change sizeof_Bd with 64; lia).
  apply mem_store_outside; [lia|rewrite Hl; lia|]. unfold outside. rewrite Hl. lia.
Qed.

(** Cloning writes the words [ws] into the [n] descriptors from index [i] on
    and leaves everything else of every descriptor alone. *)
Lemma clone_loop_spec r (G : geom r) ws : length ws = 12%nat -> forall n i m,
  0 <= i -> i + Z.of_nat n <= AllCnt r ->
  let m' := st_out (bdring_clone_loop r ws n (bd_at r i)) m in
  forall j, 0 <= j < AllCnt r ->
  (i <= j < i + Z.of_nat n -> forall (k : nat) w, ws !! k = Some w ->
    XAxiDma_BdRead m' (bd_at r j) (XAXIDMA_BD_START_CLEAR + 4 * Z.of_nat k) = u32 w) /\
  (forall o, bd_off o -> ~ cloned_off o \/ ~ (i <= j < i + Z.of_nat n) ->
    XAxiDma_BdRead m' (bd_at r j) o = XAxiDma_BdRead m (bd_at r j) o).
Proof.
  intros Hl. induction n as [|n IH]; intros i m Hi Hn; cbv zeta; intros j Hj.
  { split; [lia|]. done. }
  cbn [bdring_clone_loop]. st.
  set (m1 := mem_store ws (u32 (bd_at r i + XAXIDMA_BD_START_CLEAR)) m).
  assert (Hap : forall x, 0 <= x < AllCnt r -> x <> i -> bd_apart (bd_at r i) (bd_at r x)).
  { intros x Hx Hne. apply bd_at_apart; [done|]. rewrite bd_at_inj, !Z.mod_small by (done || lia). lia. }
  destruct n as [|n'].
  { cbn [bdring_clone_loop]. st. split.
    - intros Hj' k w Hk. replace j with i by lia. apply mem_store_bd_inside; auto using bd_at_ok.
    - intros o Ho Hd. apply mem_store_bd_outside; auto using bd_at_ok.
      destruct (decide (j = i)) as [->|]; [left; split; [done|]; destruct Hd; [done|lia]|].
      right. apply Hap; lia. }
  assert (u32 (bd_at r i + Separation r) = bd_at r (i + 1)) as ->.
  { destruct G. rewrite !bd_at_small by lia. change sizeof_Bd with 64 in *.
    rewrite u32_small by (unfold is_u32; nia). nia. }
  destruct (IH (i + 1) m1 ltac:(lia) ltac:(lia) j Hj) as [I1 I2]. split.
  - intros Hj' k w Hk. destruct (decide (j = i)) as [->|]; [|apply I1; [lia|done]].
    rewrite I2; [apply mem_store_bd_inside; auto using bd_at_ok|idtac|right; lia].
    pose proof (lookup_lt_Some _ _ _ Hk). unfold bd_off. change sizeof_Bd with 64.
    change XAXIDMA_BD_START_CLEAR with 8. lia.
  - intros o Ho Hd. rewrite I2 by (done || (destruct Hd; [left; done|right; lia])).
    apply mem_store_bd_outside; auto using bd_at_ok.
    destruct (decide (j = i)) as [->|]; [left; split; [done|]; destruct Hd; [done|lia]|].
    right. apply Hap; lia.
Qed.

(** The template word at [o], with the completed bit off. *)
Definition clone_word (m : Mem) (src o : Z) : Z :=
  let w := mem_read m (src + o) in
  if o =? XAXIDMA_BD_STS_OFFSET then w .& not32 XAXIDMA_BD_STS_COMPLETE_MASK else w.

Lemma mem_load_lookup n : forall a m (k : nat), 0 <= a -> a + 4 * Z.of_nat n <= 4294967296 ->
  (k < n)%nat -> mem_load n a m !! k = Some (mem_read m (a + 4 * Z.of_nat k)).
Proof.
  induction n as [|n IH]; intros a m k Ha He Hk; [lia|]. cbn [mem_load].
  destruct k as [|k]; [cbn; do 2 f_equal; lia|]. cbn.
  rewrite u32_small by (unfold is_u32; lia). rewrite IH by lia. do 2 f_equal. lia.
Qed.

(** The twelve words that are cloned. *)
Lemma clone_words_lookup m src (k : nat) : bd_ok src -> (k < 12)%nat ->
  let Tmp := mem_load 16 src m in
  let Save := default 0 (Tmp !! 7%nat) .& not32 XAXIDMA_BD_STS_COMPLETE_MASK in
  take 12 (drop 2 (<[7%nat := Save]> Tmp)) !! k =
  Some (clone_word m src (XAXIDMA_BD_START_CLEAR + 4 * Z.of_nat k)).
Proof.
  unfold bd_ok. change sizeof_Bd with 64. intros Hok Hk. cbv zeta.
  rewrite lookup_take_lt, lookup_drop by lia. unfold clone_word.
  rewrite (mem_load_lookup 16 src m 7) by lia. cbn [default].
  change XAXIDMA_BD_START_CLEAR with 8. change XAXIDMA_BD_STS_OFFSET with 28.
  destruct (decide (k = 5)%nat) as [->|Hne].
  - rewrite list_lookup_insert_eq by (rewrite length_mem_load; lia). done.
  - rewrite list_lookup_insert_ne by lia. rewrite mem_load_lookup by lia.
    case_if; [lia|]. do 2 f_equal. lia.
Qed.

Lemma clone_ok m r src i o : ring_wf r -> FreeCnt r = AllCnt r ->
  RunState r <> AXIDMA_CHANNEL_NOT_HALTED -> bd_ok src -> bd_off o -> o mod 4 = 0 ->
  st_val (XAxiDma_BdRingClone r src) m = XST_SUCCESS /\
  XAxiDma_BdRead (st_out (XAxiDma_BdRingClone r src) m) (bd_at r i) o =
  if bool_decide (cloned_off o) then u32 (clone_word m src o) else XAxiDma_BdRead m (bd_at r i) o.
Proof.
  intros [G _] Hf Hs Hok Ho Ho4. pose proof (g_cnt r G) as Hc. unfold XAxiDma_BdRingClone.
  case_if; [lia|]. case_if; [done|]. rewrite Hf, Z.eqb_refl. cbn [negb]. st. split; [done|].
  set (ws := take _ _). replace (FirstBdAddr r) with (bd_at r 0) by (rewrite bd_at_small by lia; lia).
  assert (Hl : length ws = 12%nat).
  { unfold ws. rewrite length_take, length_drop, length_insert, length_mem_load. done. }
  rewrite <- (bd_at_mod r G i). pose proof (Z.mod_pos_bound i (AllCnt r) Hc) as Hk.
  destruct (clone_loop_spec r G ws Hl (Z.to_nat (AllCnt r)) 0 m ltac:(lia) ltac:(lia) _ Hk) as [I1 I2].
  case_bool_decide as Hcl; [|apply I2; auto].
  set (k := Z.to_nat ((o - 8) / 4)). unfold cloned_off in Hcl.
  change XAXIDMA_BD_START_CLEAR with 8 in *. change XAXIDMA_BD_BYTES_TO_CLEAR with 48 in *.
  assert (Hko : o = 8 + 4 * Z.of_nat k).
  { unfold k. pose proof (Z.div_mod o 4 ltac:(lia)).
    replace ((o - 8) / 4) with (o / 4 - 2)
      by (replace (o - 8) with (o + -2 * 4) by lia; rewrite Z.div_add by lia; lia). lia. }
  rewrite Hko. apply I1; [lia|]. apply clone_words_lookup; [done|lia].
Qed.
