(* ===== verification/RingStart.v ===== *)
(** * Starting a channel and its control register

    [XAxiDma_BdRingStart] resumes at the first descriptor, from the restart
    descriptor on, that the hardware has not completed.  The search in
    [XAxiDma_UpdateBdRingCDesc] is a [while] loop; it is shown to end within
    one round and to compute [first_open].  The coalescing operations are
    field updates of the control register. *)

From S2P Require Import Prelude Hw Bd BdRing RingGeom RingSpec RingHw.

(** ** Virtual and physical addresses *)

Lemma phys_virt r a : is_u32 a -> XAXIDMA_PHYS_TO_VIRT r (XAXIDMA_VIRT_TO_PHYS r a) = a.
Proof.
  intros Ha. unfold XAXIDMA_PHYS_TO_VIRT, XAXIDMA_VIRT_TO_PHYS.
  autorewrite with u32. rewrite <- Z.add_sub_assoc, u32_add_l.
  rewrite <- (u32_small a Ha) at 2. f_equal. lia.
Qed.

Lemma virt_phys r a : is_u32 a -> XAXIDMA_VIRT_TO_PHYS r (XAXIDMA_PHYS_TO_VIRT r a) = a.
Proof.
  intros Ha. unfold XAXIDMA_PHYS_TO_VIRT, XAXIDMA_VIRT_TO_PHYS.
  autorewrite with u32. rewrite <- (u32_small a Ha) at 2. f_equal. lia.
Qed.

Lemma bd_at_u32 r i : geom r -> is_u32 (bd_at r i).
Proof.
  intros G. pose proof (bd_at_ok r G i) as H. unfold bd_ok, is_u32 in *.
  change sizeof_Bd with 64 in H. lia.
Qed.

Lemma virt_phys_inj r i j : geom r ->
  XAXIDMA_VIRT_TO_PHYS r (bd_at r i) = XAXIDMA_VIRT_TO_PHYS r (bd_at r j) -> bd_at r i = bd_at r j.
Proof.
  intros G E. rewrite <- (phys_virt r (bd_at r i)), E by now apply bd_at_u32.
  apply phys_virt. now apply bd_at_u32.
Qed.

(** ** The search for the first uncompleted descriptor *)

Definition first_open (m : Mem) (l : list Z) : option Z :=
  List.find (fun bd => negb (XAxiDma_BdHwCompleted m bd)) l.

(** After [k] completed descriptors the loop looks at the remaining ones of
    the round and stops before the restart descriptor comes again. *)
Lemma cdesc_loop_spec m r (G : geom r) i : BdaRestart r = XAXIDMA_VIRT_TO_PHYS r (bd_at r i) ->
  forall n k, 0 <= k -> k + Z.of_nat n = AllCnt r -> (0 < n)%nat ->
  XAxiDma_BdHwCompleted m (bd_at r (i + k)) = true ->
  bdring_cdesc_loop m r n (bd_at r (i + k)) =
  Some (match first_open m (grp r (i + k + 1) (Z.of_nat n - 1)) with
        | Some bd => CdFound (XAXIDMA_VIRT_TO_PHYS r bd)
        | None => CdNone
        end).
Proof.
  intros HR n. induction n as [|n IH]; intros k Hk Hkn Hn Hc; [lia|].
  cbn [bdring_cdesc_loop]. rewrite Hc. cbn [negb]. rewrite mBdRingNext_at, HR by done.
  destruct n as [|n].
  - replace (i + k + 1) with (i + AllCnt r) by lia. rewrite bd_at_periodic, Z.eqb_refl by done.
    reflexivity.
  - rewrite (proj2 (Z.eqb_neq _ _)).
    2:{ intros E%virt_phys_inj; [|done]. revert E. replace (i + k + 1) with (i + (k + 1)) by lia.
        apply bd_at_ne; [done|lia]. }
    rewrite grp_cons by lia. cbn [first_open List.find].
    destruct (XAxiDma_BdHwCompleted m (bd_at r (i + k + 1))) eqn:E; cbn [negb]; [|done].
    replace (i + k + 1) with (i + (k + 1)) in * by lia. rewrite IH by (lia || done).
    now replace (Z.of_nat (S (S n)) - 1 - 1) with (Z.of_nat (S n) - 1) by lia.
Qed.

(** The restart descriptor is one of the ring. *)
Definition restart_at (r : XAxiDma_BdRing) (i : Z) : Prop :=
  BdaRestart r = XAXIDMA_VIRT_TO_PHYS r (bd_at r i).

Section start.
Context {D : Type} `{!RegBus D}.

(** The status register as read at the start of the update. *)
Definition read_sr (r : XAxiDma_BdRing) (w : World D) : bool * World D :=
  XAxiDma_mBdRingHwIsStarted r w.

(** What the update does to a halted channel whose hardware is halted too. *)
Definition cdesc_update (r : XAxiDma_BdRing) (ix : Z) (ob : option Z) (w : World D)
  : Z * World D :=
  match ob with
  | Some bd =>
      (XST_SUCCESS,
       st_out (XAxiDma_WriteReg (ChanBase r) (cdesc_offset r ix) (XAXIDMA_VIRT_TO_PHYS r bd)) w)
  | None => (XST_DMA_ERROR, w)
  end.

Lemma HwIsStarted_mem r (w : World D) :
  w_mem (st_out (XAxiDma_mBdRingHwIsStarted r) w) = w_mem w.
Proof. unfold XAxiDma_mBdRingHwIsStarted. now st. Qed.

Lemma update_cdesc_spec r ix i (w : World D) : geom r -> restart_at r i ->
  XAxiDma_UpdateBdRingCDesc r ix w =
  Some (if RunState r =? AXIDMA_CHANNEL_NOT_HALTED then (XST_SUCCESS, w)
        else let '(started, w1) := read_sr r w in
             if (started : bool) then (XST_SUCCESS, w1)
             else cdesc_update r ix (first_open (w_mem w) (grp r i (AllCnt r))) w1).
Proof.
  intros G HR. pose proof (g_cnt r G). unfold XAxiDma_UpdateBdRingCDesc.
  case_if; [lia|]. case_if; [done|]. rewrite pt_bind_total. unfold read_sr.
  pose proof (HwIsStarted_mem r w) as Hm. unfold st_out, st_val in *.
  destruct (XAxiDma_mBdRingHwIsStarted r w) as [started w1]. cbn [fst snd] in *.
  destruct started; cbn [negb]; [done|]. rewrite pt_bind_total. st. rewrite Hm.
  rewrite HR, phys_virt by now apply bd_at_u32.
  rewrite grp_cons by lia. cbn [first_open List.find].
  destruct (XAxiDma_BdHwCompleted (w_mem w) (bd_at r i)) eqn:Ec; cbn [negb]; [|done].
  pose proof (cdesc_loop_spec (w_mem w) r G i HR (Z.to_nat (AllCnt r)) 0) as HL.
  rewrite Z2Nat.id, Z.add_0_r in HL by lia. rewrite HL by (done || lia). unfold first_open.
  destruct (List.find _ _); done.
Qed.

(** Starting changes at most the run state, and never the memory. *)
Lemma start_hw_ring r ix (w : World D) :
  let '(st, r') := st_val (XAxiDma_StartBdRingHw r ix) w in
  w_mem (st_out (XAxiDma_StartBdRingHw r ix) w) = w_mem w /\
  (st = XST_SUCCESS /\ r' = r <|RunState := AXIDMA_CHANNEL_NOT_HALTED|> \/
   st = XST_DMA_ERROR /\ r' = r).
Proof.
  unfold XAxiDma_StartBdRingHw. st.
  set (w1 := st_out (if negb _ then _ else _) _).
  assert (Hm1 : w_mem w1 = w_mem w).
  { unfold w1. case_if; st; [|apply HwIsStarted_mem]. cbn. now st; rewrite ?HwIsStarted_mem. }
  case_if; st; [|split; [rewrite HwIsStarted_mem; done|auto]].
  split; [|auto]. case_if; st; rewrite ?HwIsStarted_mem; done.
Qed.

(** A channel whose restart descriptor belongs to the ring always finishes
    its start, with a result code of the two kinds the code produces. *)
Lemma start_ring r ix i (w : World D) : geom r -> restart_at r i ->
  exists st r' w', XAxiDma_BdRingStart r ix w = Some ((st, r'), w') /\ w_mem w' = w_mem w /\
  (st = XST_SUCCESS /\ r' = r <|RunState := AXIDMA_CHANNEL_NOT_HALTED|> \/
   st = XST_DMA_ERROR /\ r' = r).
Proof.
  intros G HR. unfold XAxiDma_BdRingStart.
  pose proof (update_cdesc_spec r ix i w G HR) as HU.
  set (res := if RunState r =? _ then _ else _) in HU.
  assert (Hres : w_mem res.2 = w_mem w /\ (res.1 = XST_SUCCESS \/ res.1 = XST_DMA_ERROR)).
  { unfold res. case_if; [auto|]. unfold read_sr. pose proof (HwIsStarted_mem r w) as Hm.
    unfold st_out in Hm. destruct (XAxiDma_mBdRingHwIsStarted r w) as [[] w1]; [auto|].
    unfold cdesc_update. cbn [snd] in Hm. destruct (first_open _ _); cbn; auto. }
  destruct res as [st w1]. destruct Hres as [Hm1 Hst]. cbn [fst snd] in *.
  rewrite (pt_bind_some _ _ _ _ _ HU).
  destruct Hst as [->| ->]; cbn [negb Z.eqb XST_SUCCESS XST_DMA_ERROR].
  2:{ do 3 eexists. split; [reflexivity|]. auto. }
  rewrite pt_bind_total. pose proof (start_hw_ring r ix w1) as HS. unfold st_val, st_out in *.
  destruct (XAxiDma_StartBdRingHw r ix w1) as [[st2 r2] w2]. cbn [fst snd] in *.
  destruct HS as [Hm2 Hc]. exists st2, r2, w2.
  split; [|split; [congruence|done]]. now destruct Hc as [[-> ->]|[-> ->]].
Qed.

(** ** Interrupt coalescing *)

Lemma field_set_get x m b s : mask_has m b -> Z.shiftr ((Z.ldiff x m .| b) .& m) s = Z.shiftr b s.
Proof. intros. now rewrite mask_set_get. Qed.

(** An 8-bit value shifted into an 8-bit field lies in the field's mask. *)
Lemma byte_field v s : 0 <= v <= 0xFF -> 0 <= s -> mask_has (Z.shiftl 0xFF s) (Z.shiftl v s).
Proof.
  intros Hv Hs. unfold mask_has. rewrite <- Z.shiftl_land. f_equal.
  change 0xFF with (Z.ones 8). rewrite Z.land_ones by lia. apply Z.mod_small. change (2 ^ 8) with 256. lia.
Qed.

(** The control register after a successful call. *)
Definition coalesce_cr (Cr Counter Timer : Z) : Z :=
  Z.ldiff (Z.ldiff Cr XAXIDMA_COALESCE_MASK .| Z.shiftl Counter 16) XAXIDMA_DELAY_MASK
  .| Z.shiftl Timer 24.

Lemma shiftl_byte_u32 v s : 0 <= v <= 0xFF -> 0 <= s <= 24 -> is_u32 (Z.shiftl v s).
Proof.
  intros Hv Hs. unfold is_u32. rewrite Z.shiftl_mul_pow2 by lia.
  assert (0 < 2 ^ s <= 2 ^ 24) by (split; [apply Z.pow_pos_nonneg; lia|apply Z.pow_le_mono_r; lia]).
  change (2 ^ 24) with 16777216 in *. nia.
Qed.

Lemma set_coalesce_run r Counter Timer (w : World D) :
  1 <= Counter <= 0xFF -> 0 <= Timer <= 0xFF ->
  XAxiDma_BdRingSetCoalesce r Counter Timer w =
  (let Cr := st_val (XAxiDma_ReadReg (ChanBase r) XAXIDMA_CR_OFFSET) w in
   let w1 := st_out (XAxiDma_ReadReg (ChanBase r) XAXIDMA_CR_OFFSET) w in
   (XST_SUCCESS,
    st_out (XAxiDma_WriteReg (ChanBase r) XAXIDMA_CR_OFFSET (coalesce_cr Cr Counter Timer)) w1)).
Proof.
  intros Hc Ht. unfold XAxiDma_BdRingSetCoalesce. st. unfold XAXIDMA_NO_CHANGE.
  pose proof (ReadReg_u32 (ChanBase r) XAXIDMA_CR_OFFSET w) as Hu.
  set (Cr := st_val _ w) in *.
  replace (Counter =? 0xFFFFFFFF) with false by lia. replace (Timer =? 0xFFFFFFFF) with false by lia.
  replace (Counter =? 0) with false by lia. replace (0xFF <? Counter) with false by lia.
  replace (0xFF <? Timer) with false by lia.
  cbn [negb andb orb]. st. unfold coalesce_cr. rewrite (land_not32 Cr) by done.
  change XAXIDMA_COALESCE_SHIFT with 16. change XAXIDMA_DELAY_SHIFT with 24.
  rewrite !u32_small by (apply shiftl_byte_u32; lia).
  rewrite land_not32; [done|].
  apply is_u32_lor; [by apply is_u32_ldiff|apply shiftl_byte_u32; lia].
Qed.

Lemma coalesce_cr_u32 Cr c t : is_u32 Cr -> 0 <= c <= 0xFF -> 0 <= t <= 0xFF ->
  is_u32 (coalesce_cr Cr c t).
Proof.
  intros. unfold coalesce_cr.
  repeat first [apply is_u32_lor | apply is_u32_ldiff | apply shiftl_byte_u32]; done || lia.
Qed.

Lemma coalesce_cr_fields Cr c t : 0 <= c <= 0xFF -> 0 <= t <= 0xFF ->
  Z.shiftr (coalesce_cr Cr c t .& XAXIDMA_COALESCE_MASK) 16 = c /\
  Z.shiftr (coalesce_cr Cr c t .& XAXIDMA_DELAY_MASK) 24 = t /\
  (coalesce_cr Cr c t .& 0xFFFF) = (Cr .& 0xFFFF).
Proof.
  intros Hc Ht.
  pose proof (byte_field c 16 Hc ltac:(lia)) as Mc. pose proof (byte_field t 24 Ht ltac:(lia)) as Mt.
  change (Z.shiftl 0xFF 16) with XAXIDMA_COALESCE_MASK in Mc.
  change (Z.shiftl 0xFF 24) with XAXIDMA_DELAY_MASK in Mt. unfold coalesce_cr. split_and!.
  - rewrite mask_set_other, mask_set_get by done. rewrite Z.shiftr_shiftl_l by lia. apply Z.shiftl_0_r.
  - rewrite mask_set_get by done. rewrite Z.shiftr_shiftl_l by lia. apply Z.shiftl_0_r.
  - now rewrite !mask_set_other by done.
Qed.

End start.
