(* ===== verification/RingSys.v ===== *)
(** * A ring in use: executions, ownership and order

    A ring is driven by calls of the API, by the hardware, which completes
    descriptors and changes registers at any time, and by the client, which
    fills descriptors.  [ring_step] is that transition system; its labels
    record the descriptors that a call hands to the hardware and the ones it
    gets back.  [spec_step] is the specification of the interface, and the
    step lemma shows that the code is a simulation of it. *)

From S2P Require Import Prelude Hw Bd BdRing RingGeom RingSpec RingHw RingCreate RingStart.

(** ** The specification *)

(** Descriptors submitted and returned by one step. *)
Record label : Type := mkLabel { l_sub : list Z; l_ret : list Z }.
Definition silent : label := mkLabel [] [].

Inductive spec_step : aring -> label -> aring -> Prop :=
| SpecStutter a : spec_step a silent a
| SpecAlloc a n : 0 < n <= zlen (a_free a) ->
    spec_step a silent
      (mkARing (zdrop n (a_free a)) (a_pre a ++ ztake n (a_free a)) (a_hw a) (a_post a))
| SpecUnAlloc a n : 0 < n <= zlen (a_pre a) ->
    let k := zlen (a_pre a) - n in
    spec_step a silent
      (mkARing (zdrop k (a_pre a) ++ a_free a) (ztake k (a_pre a)) (a_hw a) (a_post a))
| SpecToHw a n : 0 < n <= zlen (a_pre a) ->
    spec_step a (mkLabel (ztake n (a_pre a)) []) (spec_tohw n a)
| SpecFromHw a n : 0 < n <= zlen (a_hw a) ->
    spec_step a (mkLabel [] (ztake n (a_hw a))) (spec_fromhw n a)
| SpecFree a n : 0 < n <= zlen (a_post a) ->
    spec_step a silent
      (mkARing (a_free a ++ ztake n (a_post a)) (a_pre a) (a_hw a) (zdrop n (a_post a))).

(** ** The system *)

Section system.
Context {D : Type} `{!RegBus D}.

Record Sys : Type := mkSys { s_w : World D; s_r : XAxiDma_BdRing }.

(** The set that a caller walks from [bd] on. *)
Definition bd_set (r : XAxiDma_BdRing) (n bd : Z) : list Z := bd_walk r (Z.to_nat n) bd.

(** Only words that carry a transfer change: the links and the build
    information of the ring's descriptors stay. *)
Definition env_mem (r : XAxiDma_BdRing) (m m' : Mem) : Prop :=
  forall i o, o = XAXIDMA_BD_NDESC_OFFSET \/ o = XAXIDMA_BD_HAS_STSCNTRL_OFFSET \/
              o = XAXIDMA_BD_HAS_DRE_OFFSET ->
  XAxiDma_BdRead m' (bd_at r i) o = XAxiDma_BdRead m (bd_at r i) o.

Inductive ring_step : Sys -> label -> Sys -> Prop :=
| StepAlloc s n : ring_step s silent (mkSys (s_w s) (XAxiDma_BdRingAlloc (s_r s) n).2)
| StepUnAlloc s n bd : in_ring (s_r s) bd ->
    ring_step s silent (mkSys (s_w s) (XAxiDma_BdRingUnAlloc (s_r s) n bd).2)
| StepToHw s n bd ix st r' w' :
    XAxiDma_BdRingToHw (s_r s) n bd ix (s_w s) = ((st, r'), w') ->
    ring_step s (mkLabel (if st =? XST_SUCCESS then bd_set (s_r s) n bd else []) []) (mkSys w' r')
| StepFromHw s limit cnt bd r' :
    XAxiDma_BdRingFromHw (w_mem (s_w s)) (s_r s) limit = (cnt, bd, r') ->
    ring_step s (mkLabel [] (bd_set (s_r s) cnt bd)) (mkSys (s_w s) r')
| StepFree s n bd : ring_step s silent (mkSys (s_w s) (XAxiDma_BdRingFree (s_r s) n bd).2)
| StepStart s ix st r' w' :
    XAxiDma_BdRingStart (s_r s) ix (s_w s) = Some ((st, r'), w') ->
    ring_step s silent (mkSys w' r')
| StepSnapShot s ix r' w' :
    XAxiDma_mBdRingSnapShotCurrBd (s_r s) ix (s_w s) = (r', w') ->
    ring_step s silent (mkSys w' r')
| StepEnv s m' d' : env_mem (s_r s) (w_mem (s_w s)) m' ->
    ring_step s silent (mkSys (mkWorld m' d') (s_r s)).

(** Executions collect the labels. *)
Inductive ring_run (s0 : Sys) : list Z -> list Z -> Sys -> Prop :=
| RunNil : ring_run s0 [] [] s0
| RunStep sub ret s l s' :
    ring_run s0 sub ret s -> ring_step s l s' ->
    ring_run s0 (sub ++ l_sub l) (ret ++ l_ret l) s'.

(** ** The invariant *)

Record sys_inv (s : Sys) : Prop := {
  inv_wf : ring_wf (s_r s);
  inv_linked : linked (w_mem (s_w s)) (s_r s);
  inv_phys : is_u32 (FirstBdPhysAddr (s_r s));
  inv_run : RunState (s_r s) = AXIDMA_CHANNEL_HALTED \/
            RunState (s_r s) = AXIDMA_CHANNEL_NOT_HALTED;
}.

(** Calls keep the channel description besides the geometry. *)
Definition keeps_run (r r' : XAxiDma_BdRing) : Prop :=
  RunState r' = RunState r /\ MaxTransferLen r' = MaxTransferLen r /\ IsRxChannel r' = IsRxChannel r /\
  ChanBase r' = ChanBase r.

Lemma linked_same m r r' : same_geom r r' -> linked m r -> linked m r'.
Proof.
  intros S L i. rewrite !(same_geom_at r r') by done. rewrite (L i).
  destruct S as (_ & _ & Hf & _ & _ & Hp). unfold XAXIDMA_VIRT_TO_PHYS. now rewrite Hf, Hp.
Qed.

Lemma linked_env r m m' : env_mem r m m' -> linked m r -> linked m' r.
Proof. intros E L i. rewrite E by auto. apply L. Qed.

Lemma env_mem_sts r (G : geom r) l m m' : (forall bd, bd ∈ l -> in_ring r bd) ->
  sts_frame l m m' -> env_mem r m m'.
Proof.
  intros Hl F i o Ho. eapply sts_frame_read; eauto.
  - destruct Ho as [->|[->| ->]]; auto with drv.
  - left. destruct Ho as [->|[->| ->]]; discriminate.
Qed.

(** A call that gives a good successor ring keeps the invariant. *)
Lemma inv_sim s r' w' a' : sys_inv s -> sim (s_r s) r' a' -> keeps_run (s_r s) r' ->
  env_mem (s_r s) (w_mem (s_w s)) (w_mem w') -> sys_inv (mkSys w' r').
Proof.
  intros [W L P R] [W' S' _] K E. split; cbn.
  - done.
  - eapply linked_same; [done|]. by eapply linked_env.
  - destruct S' as (_ & _ & _ & _ & _ & ->). done.
  - destruct K as [-> _]. done.
Qed.

Lemma env_mem_refl r m : env_mem r m m.
Proof. intros ? ? _. done. Qed.

(** The ring keeps its channel description through the calls that move descriptors. *)
Lemma alloc_keeps r n : keeps_run r (XAxiDma_BdRingAlloc r n).2.
Proof. unfold XAxiDma_BdRingAlloc. repeat case_if; by repeat split. Qed.
Lemma unalloc_keeps r n bd : keeps_run r (XAxiDma_BdRingUnAlloc r n bd).2.
Proof. unfold XAxiDma_BdRingUnAlloc. repeat case_if; by repeat split. Qed.
Lemma free_keeps r n bd : keeps_run r (XAxiDma_BdRingFree r n bd).2.
Proof. unfold XAxiDma_BdRingFree. repeat case_if; by repeat split. Qed.
Lemma fromhw_keeps m r n : keeps_run r (XAxiDma_BdRingFromHw m r n).2.
Proof.
  unfold XAxiDma_BdRingFromHw. case_if; [by repeat split|]. destruct (bdring_fromhw_loop _ _ _ _ _ _).
  case_if; by repeat split.
Qed.
Lemma tohw_keeps r n bd ix (w : World D) : keeps_run r (st_val (XAxiDma_BdRingToHw r n bd ix) w).2.
Proof.
  unfold XAxiDma_BdRingToHw. do 3 (case_if; [by repeat split|]). st.
  destruct (st_val (on_mem _) w); [|by repeat split]. st. by repeat split.
Qed.
Hint Resolve alloc_keeps unalloc_keeps free_keeps fromhw_keeps tohw_keeps env_mem_refl : drv.

(** A ring that differs only in run state or restart address is as good. *)
Lemma sim_control r r' : ring_wf r -> same_geom r r' ->
  FreeHead r' = FreeHead r -> PreHead r' = PreHead r -> HwHead r' = HwHead r ->
  HwTail r' = HwTail r -> PostHead r' = PostHead r -> FreeCnt r' = FreeCnt r ->
  PreCnt r' = PreCnt r -> HwCnt r' = HwCnt r -> PostCnt r' = PostCnt r ->
  sim r r' (ring_abs r).
Proof.
  intros [G [p H]] S E1 E2 E3 E4 E5 E6 E7 E8 E9. pose proof (abs_groups r p G H) as Ha.
  destruct H as [? ? ? ? ? ? ? ? ? ? [j Hj]].
  apply (sim_groups r r' p); [done|done| |rewrite Ha, E6, E7, E8, E9; done].
  split; rewrite ?E1, ?E2, ?E3, ?E4, ?E5, ?E6, ?E7, ?E8, ?E9, ?(same_geom_at r r') by done; auto.
  - destruct S as (-> & _). done.
  - exists j. now rewrite (same_geom_at r r').
Qed.

(** ** Every step of the code is a step of the specification *)

Definition good_step (s : Sys) (l : label) (s' : Sys) : Prop :=
  sys_inv s' /\ same_geom (s_r s) (s_r s') /\ spec_step (ring_abs (s_r s)) l (ring_abs (s_r s')).

Lemma bd_set_take r i n k : geom r -> 0 <= k <= n -> bd_set r k (bd_at r i) = ztake k (grp r i n).
Proof.
  intros G Hk. unfold bd_set. rewrite bd_walk_at, grp_take by done.
  now rewrite Z2Nat.id by lia.
Qed.

Lemma step_alloc s n : sys_inv s ->
  good_step s silent (mkSys (s_w s) (XAxiDma_BdRingAlloc (s_r s) n).2).
Proof.
  intros I. pose proof (alloc_sim (s_r s) n (inv_wf s I)) as HS.
  pose proof (alloc_keeps (s_r s) n) as HK.
  destruct (XAxiDma_BdRingAlloc (s_r s) n) as [[st out] r'].
  assert (Sp : spec_step (ring_abs (s_r s)) silent (spec_alloc n (ring_abs (s_r s))).2).
  { unfold spec_alloc. repeat case_if; constructor; lia. }
  destruct (spec_alloc _ _) as [[st' got] a']. destruct HS as [HS _].
  split_and!; [eapply inv_sim; eauto with drv|apply HS|]. cbn. now rewrite (sim_abs _ _ _ HS).
Qed.

Lemma step_unalloc s n bd : sys_inv s -> in_ring (s_r s) bd ->
  good_step s silent (mkSys (s_w s) (XAxiDma_BdRingUnAlloc (s_r s) n bd).2).
Proof.
  intros I Hin. pose proof (unalloc_sim (s_r s) n bd (inv_wf s I) Hin) as HS.
  pose proof (unalloc_keeps (s_r s) n bd) as HK.
  destruct (XAxiDma_BdRingUnAlloc (s_r s) n bd) as [st r'].
  assert (Sp : spec_step (ring_abs (s_r s)) silent (spec_unalloc n bd (ring_abs (s_r s))).2).
  { unfold spec_unalloc. repeat case_if; constructor; lia. }
  destruct (spec_unalloc _ _) as [st' a']. destruct HS as [HS _].
  split_and!; [eapply inv_sim; eauto with drv|apply HS|]. cbn. now rewrite (sim_abs _ _ _ HS).
Qed.

Lemma step_free s n bd : sys_inv s ->
  good_step s silent (mkSys (s_w s) (XAxiDma_BdRingFree (s_r s) n bd).2).
Proof.
  intros I. pose proof (free_sim (s_r s) n bd (inv_wf s I)) as HS.
  pose proof (free_keeps (s_r s) n bd) as HK.
  destruct (XAxiDma_BdRingFree (s_r s) n bd) as [st r'].
  assert (Sp : spec_step (ring_abs (s_r s)) silent (spec_free n bd (ring_abs (s_r s))).2).
  { unfold spec_free. repeat case_if; constructor; lia. }
  destruct (spec_free _ _) as [st' a']. destruct HS as [HS _].
  split_and!; [eapply inv_sim; eauto with drv|apply HS|]. cbn. now rewrite (sim_abs _ _ _ HS).
Qed.

Lemma step_fromhw s limit cnt bd r' : sys_inv s ->
  XAxiDma_BdRingFromHw (w_mem (s_w s)) (s_r s) limit = (cnt, bd, r') ->
  good_step s (mkLabel [] (bd_set (s_r s) cnt bd)) (mkSys (s_w s) r').
Proof.
  intros I E. pose proof (fromhw_sim (w_mem (s_w s)) (s_r s) limit (inv_wf s I)) as HS.
  pose proof (fromhw_keeps (w_mem (s_w s)) (s_r s) limit) as HK.
  rewrite E in HS, HK. cbv zeta in HS. destruct HS as (HS & -> & Hpos & Hz).
  set (k := spec_fromhw_count _ _ _ _) in *. destruct (inv_wf s I) as [G [p H]].
  pose proof (abs_groups _ p G H) as Ha.
  assert (Hk : 0 <= k <= zlen (a_hw (ring_abs (s_r s)))).
  { unfold k, spec_fromhw_count. pose proof (ready_bounds (w_mem (s_w s)) (s_r s)
      (ztake limit (a_hw (ring_abs (s_r s))))) as B. unfold zlen, ztake in *.
    rewrite length_take in B. lia. }
  split_and!; [eapply inv_sim; eauto with drv|apply HS|]. cbn [s_r].
  destruct (decide (k = 0)) as [Hk0|Hk0].
  { destruct (Hz Hk0) as [_ ->]. rewrite Hk0. constructor. }
  rewrite (sim_abs _ _ _ HS). specialize (Hpos ltac:(lia)). rewrite Ha in Hpos, Hk. cbn [a_hw] in Hpos, Hk.
  rewrite grp_length in Hk by apply H. rewrite grp_take, grp_head in Hpos by lia.
  injection Hpos as <-. rewrite (bd_set_take _ _ (HwCnt (s_r s))) by (done || lia).
  replace (grp (s_r s) (p + PostCnt (s_r s)) (HwCnt (s_r s))) with (a_hw (ring_abs (s_r s)))
    by now rewrite Ha. constructor. rewrite Ha. cbn. rewrite grp_length by apply H. lia.
Qed.

Lemma step_tohw s n bd ix st r' w' : sys_inv s ->
  XAxiDma_BdRingToHw (s_r s) n bd ix (s_w s) = ((st, r'), w') ->
  good_step s (mkLabel (if st =? XST_SUCCESS then bd_set (s_r s) n bd else []) []) (mkSys w' r').
Proof.
  intros I E. pose proof (tohw_sim (s_r s) n bd ix (s_w s) (inv_wf s I)) as HS.
  pose proof (tohw_keeps (s_r s) n bd ix (s_w s)) as HK. cbv zeta in HS.
  unfold st_val, st_out in HS, HK. rewrite E in HS, HK. cbn [fst snd] in HS, HK.
  assert (Hsame : r' = s_r s -> w' = s_w s -> good_step s silent (mkSys w' r')).
  { intros -> ->. split_and!; [by destruct s|reflexivity|constructor]. }
  destruct (inv_wf s I) as [G [p H]]. pose proof (abs_groups _ p G H) as Ha.
  case_if_in HS; [destruct HS as (-> & ? & ?); auto|].
  case_if_in HS; [destruct HS as (-> & ? & ?); subst n; auto|].
  case_if_in HS; [destruct HS as (-> & ? & ?); auto|]. destruct HS as [F HS].
  assert (Hpre : a_pre (ring_abs (s_r s)) =
    grp (s_r s) (p + PostCnt (s_r s) + HwCnt (s_r s)) (PreCnt (s_r s))) by now rewrite Ha.
  assert (Hn : 0 < n <= PreCnt (s_r s)).
  { rewrite Hpre, grp_length in * by apply H. lia. }
  assert (Env : env_mem (s_r s) (w_mem (s_w s)) (w_mem w')).
  { eapply env_mem_sts; [done| |exact F]. rewrite Hpre, grp_take by lia. apply grp_in_ring. }
  case_if_in HS.
  - destruct HS as (-> & HS & _). cbn [Z.eqb XST_SUCCESS].
    split_and!; [eapply inv_sim; eauto|apply HS|]. cbn [s_r]. rewrite (sim_abs _ _ _ HS).
    apply bool_decide_eq_true in H1. rewrite Hpre, grp_take, grp_head in H1 by lia.
    injection H1 as <-. rewrite (bd_set_take _ _ (PreCnt (s_r s))) by (done || lia).
    rewrite <- Hpre. constructor. rewrite Hpre, grp_length by apply H. lia.
  - destruct HS as (-> & -> & _). cbn [Z.eqb XST_SUCCESS XST_FAILURE].
    split_and!; [|reflexivity|constructor].
    eapply inv_sim; [done|apply sim_same, inv_wf, I|done|done].
Qed.

Lemma step_start s ix st r' w' : sys_inv s ->
  XAxiDma_BdRingStart (s_r s) ix (s_w s) = Some ((st, r'), w') ->
  w_mem w' = w_mem (s_w s) /\
  (r' = s_r s \/ r' = (s_r s) <|RunState := AXIDMA_CHANNEL_NOT_HALTED|>).
Proof.
  intros I. unfold XAxiDma_BdRingStart.
  destruct (XAxiDma_UpdateBdRingCDesc (s_r s) ix (s_w s)) as [[st1 w1]|] eqn:EU.
  2:{ unfold mbind, pt_bind. rewrite EU. discriminate. }
  rewrite (pt_bind_some _ _ _ _ _ EU).
  assert (Hm1 : w_mem w1 = w_mem (s_w s)).
  { revert EU. unfold XAxiDma_UpdateBdRingCDesc. case_if; [by intros [= <- <-]|].
    case_if; [by intros [= <- <-]|]. rewrite pt_bind_total.
    case_if; [|intros [= <- <-]; apply HwIsStarted_mem]. rewrite pt_bind_total.
    case_if. { rewrite pt_bind_total. intros [= <- <-]. st. apply HwIsStarted_mem. }
    destruct (bdring_cdesc_loop _ _ _ _) as [[]|]; [|intros [= <- <-]; apply HwIsStarted_mem..|done].
    rewrite pt_bind_total. intros [= <- <-]. st. apply HwIsStarted_mem. }
  case_if; [intros [= <- <- <-]; auto|]. rewrite pt_bind_total.
  pose proof (start_hw_ring (s_r s) ix w1) as HS. unfold st_val, st_out in *.
  destruct (XAxiDma_StartBdRingHw (s_r s) ix w1) as [[st2 r2] w2]. cbn [fst snd] in *.
  destruct HS as [Hm2 Hc]. intros HE.
  assert (r2 = r' /\ w2 = w') as [<- <-] by (destruct (negb _); injection HE; auto).
  split; [congruence|]. destruct Hc as [[_ ->]|[_ ->]]; auto.
Qed.

Lemma control_step s r' w' : sys_inv s -> w_mem w' = w_mem (s_w s) ->
  sim (s_r s) r' (ring_abs (s_r s)) ->
  (RunState r' = RunState (s_r s) \/ RunState r' = AXIDMA_CHANNEL_NOT_HALTED) ->
  good_step s silent (mkSys w' r').
Proof.
  intros [W L P R] Hm [W' S' A'] HR. split_and!; [split; cbn| done |cbn; rewrite A'; constructor].
  - done.
  - rewrite Hm. by eapply linked_same.
  - destruct S' as (_ & _ & _ & _ & _ & ->). done.
  - destruct HR as [->| ->]; auto.
Qed.

Lemma step_sim s l s' : sys_inv s -> ring_step s l s' -> good_step s l s'.
Proof.
  intros I St. destruct St.
  - by apply step_alloc.
  - by apply step_unalloc.
  - by eapply step_tohw.
  - by eapply step_fromhw.
  - by apply step_free.
  - destruct (step_start _ _ _ _ _ I H) as [Hm [->| ->]]; (apply control_step; [done|done| |auto]).
    + apply sim_same, inv_wf, I.
    + apply sim_control; auto with drv. apply inv_wf, I.
  - unfold XAxiDma_mBdRingSnapShotCurrBd in H. rewrite st_bind_eq in H. injection H as <- <-.
    apply control_step; [done|by st| |auto]. apply sim_control; auto with drv. apply inv_wf, I.
  - split_and!; [|reflexivity|constructor].
    eapply inv_sim; [done|apply sim_same, inv_wf, I|done|done].
Qed.

(** ** Executions *)

Lemma spec_step_fifo a l a' sub ret : spec_step a l a' -> sub = ret ++ a_hw a ->
  sub ++ l_sub l = (ret ++ l_ret l) ++ a_hw a'.
Proof.
  intros St ->. destruct St; cbn; rewrite ?app_nil_r; try done.
  - now rewrite app_assoc.
  - unfold ztake, zdrop. rewrite <- app_assoc. now rewrite take_drop.
Qed.

Lemma run_inv s0 sub ret s : sys_inv s0 -> ring_run s0 sub ret s ->
  sys_inv s /\ same_geom (s_r s0) (s_r s) /\
  a_hw (ring_abs (s_r s0)) ++ sub = ret ++ a_hw (ring_abs (s_r s)).
Proof.
  intros I0 R. induction R as [|sub ret s l s' R IH St].
  - split_and!; [done|reflexivity|now rewrite app_nil_r].
  - destruct IH as (I & S & F). destruct (step_sim s l s' I St) as (I' & S' & Sp).
    split_and!; [done|by etransitivity|]. rewrite app_assoc. by eapply spec_step_fifo.
Qed.

End system.

(** ** Masking a channel *)

(** Masking and unmasking all interrupts of a channel changes exactly the
    interrupt bits of its control register. *)
Lemma int_disable_cr {D} `{!RegBus D} r (w : World D) :
  RegReadback D (u32 (ChanBase r + XAXIDMA_CR_OFFSET)) 0xFFFFFFFF ->
  let cr w := st_val (XAxiDma_ReadReg (ChanBase r) XAXIDMA_CR_OFFSET) w in
  let w' := st_out (XAxiDma_mBdRingIntDisable r XAXIDMA_IRQ_ALL_MASK) w in
  cr w' = Z.ldiff (cr w) XAXIDMA_IRQ_ALL_MASK /\ w_mem w' = w_mem w.
Proof.
  intros RB cr w'. pose proof (ReadReg_u32 (ChanBase r) XAXIDMA_CR_OFFSET w) as Hu.
  unfold w', cr, XAxiDma_mBdRingIntDisable. st. split; [|done].
  change (XAXIDMA_IRQ_ALL_MASK .& XAXIDMA_IRQ_ALL_MASK) with XAXIDMA_IRQ_ALL_MASK.
  rewrite readback_val; [by apply land_not32|done|]. auto with drv.
Qed.

Lemma int_enable_cr {D} `{!RegBus D} r (w : World D) :
  RegReadback D (u32 (ChanBase r + XAXIDMA_CR_OFFSET)) 0xFFFFFFFF ->
  let cr w := st_val (XAxiDma_ReadReg (ChanBase r) XAXIDMA_CR_OFFSET) w in
  let w' := st_out (XAxiDma_mBdRingIntEnable r XAXIDMA_IRQ_ALL_MASK) w in
  cr w' = (cr w .| XAXIDMA_IRQ_ALL_MASK) /\ w_mem w' = w_mem w.
Proof.
  intros RB cr w'. pose proof (ReadReg_u32 (ChanBase r) XAXIDMA_CR_OFFSET w) as Hu.
  unfold w', cr, XAxiDma_mBdRingIntEnable. st. split; [|done].
  change (XAXIDMA_IRQ_ALL_MASK .& XAXIDMA_IRQ_ALL_MASK) with XAXIDMA_IRQ_ALL_MASK.
  apply readback_val; [done|]. apply is_u32_lor; [done|]. unfold is_u32, XAXIDMA_IRQ_ALL_MASK. lia.
Qed.
