(* ===== verification/RingClient.v ===== *)
(** * What the drivers use of a ring

    Both drivers take completed sets off their rings and give them back at once,
    and both keep a request or a socket buffer in the identifier word of a
    descriptor.  The facts about that which they share: the queues of a ring, a
    completed set, memory that differs only in some descriptors, identifiers. *)

From S2P Require Import Prelude Hw Bd BdRing RingGeom RingSpec RingHw RingCreate RingStart RingSys.

(** ** The queues of a ring *)

Lemma elem_of_take_drop {A} (x : A) k l : (x ∈ ztake k l \/ x ∈ zdrop k l) -> x ∈ l.
Proof.
  unfold ztake, zdrop. intros H. rewrite <- (take_drop (Z.to_nat k) l). by apply elem_of_app.
Qed.

Lemma take_split {A} (l : list A) a b : 0 <= a -> 0 <= b ->
  ztake (a + b) l = ztake a l ++ ztake b (zdrop a l) /\ zdrop (a + b) l = zdrop b (zdrop a l).
Proof.
  intros Ha Hb. unfold ztake, zdrop. rewrite Z2Nat.inj_add by lia. split.
  - now rewrite take_take_drop.
  - now rewrite drop_drop.
Qed.

(** The queue of the hardware, by indices. *)
Lemma hw_grp r : ring_wf r -> exists i, a_hw (ring_abs r) = grp r i (HwCnt r) /\ 0 <= HwCnt r <= AllCnt r.
Proof.
  intros [G [p H]]. exists (p + PostCnt r). rewrite (abs_groups r p G H).
  split; [done|]. destruct H. lia.
Qed.

Lemma hw_cnt r : ring_wf r -> zlen (a_hw (ring_abs r)) = HwCnt r.
Proof. intros W. destruct (hw_grp r W) as (i & -> & ?). apply grp_length. lia. Qed.

Lemma free_cnt r : ring_wf r -> zlen (a_free (ring_abs r)) = FreeCnt r.
Proof. intros [G [p H]]. rewrite (abs_groups r p G H). cbn [a_free]. apply grp_length. by destruct H. Qed.

Lemma post_cnt_nil r : ring_wf r -> a_post (ring_abs r) = [] -> PostCnt r = 0.
Proof.
  intros [G [p H]] E. rewrite (abs_groups r p G H) in E. cbn [a_post] in E.
  pose proof (grp_length r p (PostCnt r) (gr_post _ _ H)) as El. by rewrite E in El.
Qed.

Lemma cnt_nil r : ring_wf r -> (a_pre (ring_abs r) = [] -> PreCnt r = 0) /\ (PostCnt r = 0 -> a_post (ring_abs r) = []).
Proof.
  intros [G [p H]]. split; [|unfold ring_abs; cbn; by intros ->].
  rewrite (abs_groups r p G H). cbn [a_pre]. intros E.
  pose proof (grp_length r (p + PostCnt r + HwCnt r) (PreCnt r) (gr_pre _ _ H)) as El. by rewrite E in El.
Qed.

(** The queues of a ring, all in the ring and pairwise disjoint. *)
Lemma hw_in_ring r bd : ring_wf r -> bd ∈ a_hw (ring_abs r) -> in_ring r bd.
Proof. intros W H. destruct (hw_grp r W) as (i & E & _). rewrite E in H. by eapply grp_in_ring. Qed.

Lemma hw_free_disjoint r bd : ring_wf r -> bd ∈ a_hw (ring_abs r) -> bd ∉ a_free (ring_abs r).
Proof.
  intros W Hh Hf. destruct (abs_partition r W) as [P N]. rewrite <- P in N.
  apply NoDup_app in N as (_ & _ & N). apply NoDup_app in N as (_ & N & _).
  apply (N bd Hh). apply elem_of_app. auto.
Qed.

Lemma hw_split r k bd : ring_wf r -> 0 <= k <= HwCnt r ->
  (bd ∈ ztake k (a_hw (ring_abs r)) -> in_ring r bd) /\
  (bd ∈ zdrop k (a_hw (ring_abs r)) -> in_ring r bd /\ bd ∉ ztake k (a_hw (ring_abs r))).
Proof.
  intros W Hk. pose proof W as [G _]. destruct (hw_grp r W) as (i & Hhw & Hle). set (hw := a_hw _) in *.
  split; intros Hb.
  - rewrite Hhw, grp_take in Hb by lia. by eapply grp_in_ring.
  - split; [rewrite Hhw, grp_drop in Hb by lia; by eapply grp_in_ring|].
    assert (N : NoDup hw) by (rewrite Hhw; apply grp_nodup; [done|lia]).
    rewrite <- (take_drop (Z.to_nat k) hw) in N. apply NoDup_app in N as (_ & N & _). intros Hb'. exact (N bd Hb' Hb).
Qed.

(** ** Taking a completed set off a ring *)

(** The descriptors that the ring hands out are completed. *)
Lemma ready_completed m r l limit : let k := ready m r (ztake limit l) in
  Forall (fun bd => XAxiDma_BdHwCompleted m bd = true) (ztake k l).
Proof.
  cbv zeta. destruct (ready_done m r (ztake limit l)) as (B & F & _). set (k := ready _ _ _) in *.
  clearbody k. unfold zlen, ztake in *. rewrite length_take in B. rewrite take_take in F.
  now replace (Z.to_nat k `min` Z.to_nat limit)%nat with (Z.to_nat k) in F by lia.
Qed.

Lemma ready_cap m r lim l : 0 <= lim -> 0 <= ready m r (ztake lim l) <= lim.
Proof.
  intros H. pose proof (ready_bounds m r (ztake lim l)) as B. unfold zlen, ztake in *. rewrite length_take in B. lia.
Qed.

(** Putting back a retrieved set: all of the completed queue becomes free. *)
Lemma free_all_sim r r1 k bd : sim r r1 (spec_fromhw k (ring_abs r)) -> PostCnt r = 0 -> 0 < k ->
  0 <= k <= zlen (a_hw (ring_abs r)) -> head (ztake k (a_hw (ring_abs r))) = Some bd ->
  let r2 := (XAxiDma_BdRingFree r1 k bd).2 in
  let a := ring_abs r in
  (XAxiDma_BdRingFree r1 k bd).1 = XST_SUCCESS /\
  sim r r2 (mkARing (a_free a ++ ztake k (a_hw a)) (a_pre a) (zdrop k (a_hw a)) []).
Proof.
  intros [W1 S1 A1] HP Hk Hle Hh. cbv zeta. pose proof (free_sim r1 k bd W1) as HF.
  destruct (XAxiDma_BdRingFree r1 k bd) as [st r2]. cbn [fst snd]. rewrite A1 in HF.
  assert (Hp : a_post (ring_abs r) = []) by (unfold ring_abs; now rewrite HP).
  unfold spec_free, spec_fromhw in HF. cbn [a_post a_free a_pre a_hw] in HF. rewrite Hp in HF.
  cbn [app] in HF. set (l := ztake k (a_hw (ring_abs r))) in *.
  assert (Hl : zlen l = k).
  { unfold l, ztake, zlen. unfold zlen in Hle. rewrite length_take. lia. }
  rewrite Hl in HF. replace (k <? 0) with false in HF by lia. replace (k =? 0) with false in HF by lia.
  replace (k <? k) with false in HF by lia. rewrite bool_decide_eq_true_2 in HF by done.
  cbn [negb orb] in HF. destruct HF as [[W2 S2 A2] ->]. split; [done|]. split; [done|by etransitivity|]. rewrite A2.
  unfold zlen in Hl. change (ztake k l) with (take (Z.to_nat k) l).
  change (zdrop k l) with (drop (Z.to_nat k) l). rewrite take_ge, drop_ge by lia. done.
Qed.

(** The set that [XAxiDma_BdRingFromHw] hands out, and what freeing it gives. *)
Record taken_set (r : XAxiDma_BdRing) (k i : Z) (r1 r2 : XAxiDma_BdRing) : Prop := {
  tk_geom : same_geom r r1;
  tk_wf : geom r1;
  tk_all : k <= AllCnt r1;
  tk_max : MaxTransferLen r1 = MaxTransferLen r;
  tk_grp : grp r1 i k = ztake k (a_hw (ring_abs r));
  tk_free : XAxiDma_BdRingFree r1 k (bd_at r1 i) = (XST_SUCCESS, r2);
  tk_sim : let a := ring_abs r in
    sim r r2 (mkARing (a_free a ++ ztake k (a_hw a)) (a_pre a) (zdrop k (a_hw a)) []);
}.

Lemma fromhw_taken m r limit : ring_wf r -> PostCnt r = 0 ->
  let k := spec_fromhw_count m r limit (ring_abs r) in
  0 <= k <= HwCnt r /\ (k = 0 -> XAxiDma_BdRingFromHw m r limit = (0, 0, r)) /\
  (0 < k -> exists i r1 r2, XAxiDma_BdRingFromHw m r limit = (k, bd_at r1 i, r1) /\ taken_set r k i r1 r2).
Proof.
  intros W HP. cbv zeta. destruct (hw_grp r W) as (i & Hhw & Hle). pose proof (hw_cnt r W) as Hcnt.
  pose proof W as [G _]. pose proof (fromhw_sim m r limit W) as HF.
  destruct (fromhw_keeps m r limit) as (_ & HM & _).
  destruct (XAxiDma_BdRingFromHw m r limit) as [[cnt bd] r1]. cbv zeta in HF. cbn [snd] in HM.
  destruct HF as (HS & -> & Hpos & Hzero). set (k := spec_fromhw_count m r limit (ring_abs r)) in *.
  set (hw := a_hw (ring_abs r)) in *.
  assert (Hk : 0 <= k <= HwCnt r).
  { rewrite <- Hcnt. unfold k, spec_fromhw_count. pose proof (ready_bounds m r (ztake limit hw)) as B.
    fold hw. unfold zlen, ztake in *. rewrite length_take in B. lia. }
  split_and!; [lia|lia|..]; [intros E; destruct (Hzero E) as [-> ->]; by rewrite E|]. intros Hk0.
  specialize (Hpos Hk0). pose proof (free_all_sim r r1 k bd HS HP Hk0 ltac:(fold hw; lia) Hpos) as [Hst HF2].
  cbv zeta in HF2. fold hw in Hpos, HF2.
  assert (Htk : ztake k hw = grp r i k) by (rewrite Hhw; apply grp_take; lia).
  rewrite Htk, grp_head in Hpos by lia. injection Hpos as <-.
  pose proof (sim_geom _ _ _ HS) as S1. rewrite <- (same_geom_at r r1 i S1) in *.
  exists i, r1, (XAxiDma_BdRingFree r1 k (bd_at r1 i)).2. split; [done|]. split; try done.
  - exact (same_geom_geom r r1 S1 G).
  - destruct S1 as (-> & _). lia.
  - fold hw. rewrite Htk. by apply grp_same.
  - by rewrite (surjective_pairing (XAxiDma_BdRingFree _ _ _)), Hst.
Qed.

(** ** What clients change in descriptor memory *)

(** Memory that differs only inside the descriptors [l]. *)
Definition bds_frame (l : list Z) (m m' : Mem) : Prop :=
  forall a, (forall bd, bd ∈ l -> a < bd \/ bd + sizeof_Bd <= a) -> mem_read m' a = mem_read m a.

Lemma bds_frame_sts l m m' : sts_frame l m m' -> bds_frame l m m'.
Proof.
  intros F a Ha. apply F. intros bd Hbd. specialize (Ha bd Hbd). change sizeof_Bd with 64 in Ha.
  change XAXIDMA_BD_STS_OFFSET with 28. lia.
Qed.

Lemma bds_frame_trans l m m' m'' : bds_frame l m m' -> bds_frame l m' m'' -> bds_frame l m m''.
Proof. intros H1 H2 a Ha. rewrite H2 by done. by apply H1. Qed.

Lemma bds_frame_refl l m : bds_frame l m m.
Proof. by intros a _. Qed.

Lemma bds_frame_incl l l' m m' : l ⊆ l' -> bds_frame l m m' -> bds_frame l' m m'.
Proof. intros Hl H a Ha. apply H. auto. Qed.

Lemma bds_frame_word bd o m m' : word_frame bd o m m' -> bd_off o -> bds_frame [bd] m m'.
Proof.
  intros F Ho a Ha. apply F. specialize (Ha bd ltac:(by left)). unfold bd_off in Ho. change sizeof_Bd with 64 in *. lia.
Qed.

Lemma bds_frame_write bd o v m : bd_ok bd -> bd_off o -> bds_frame [bd] m (st_out (XAxiDma_BdWrite bd o v) m).
Proof. intros. eapply bds_frame_word; [by apply word_frame_write|done]. Qed.

Lemma bds_frame_read l m m' bd o : bds_frame l m m' -> bd_ok bd -> bd_off o ->
  (forall b, b ∈ l -> bd_apart b bd) -> XAxiDma_BdRead m' bd o = XAxiDma_BdRead m bd o.
Proof.
  intros F Hb Ho Ha. rewrite !BdRead_addr by done. apply F. intros b Hin. specialize (Ha b Hin).
  unfold bd_apart, bd_off in *. change sizeof_Bd with 64 in *. lia.
Qed.

(** Descriptors of the ring outside the frame keep all their words. *)
Lemma bds_frame_ring r (G : geom r) l m m' i o : bds_frame l m m' -> (forall bd, bd ∈ l -> in_ring r bd) ->
  bd_off o -> bd_at r i ∉ l -> XAxiDma_BdRead m' (bd_at r i) o = XAxiDma_BdRead m (bd_at r i) o.
Proof.
  intros F Hl Ho Hn. eapply bds_frame_read; eauto using bd_at_ok. intros b Hb. destruct (Hl b Hb) as [j ->].
  apply bd_at_apart; [done|]. intros E. rewrite E in Hb. done.
Qed.

Definition ids (m : Mem) (l : list Z) : list Z := XAxiDma_BdGetId m <$> l.

(** Only the identifier words of [l] differ. *)
Definition id_frame (l : list Z) (m m' : Mem) : Prop :=
  forall a, (forall bd, bd ∈ l -> a <> bd + XAXIDMA_BD_ID_OFFSET) -> mem_read m' a = mem_read m a.

Lemma id_frame_trans l m m' m'' : id_frame l m m' -> id_frame l m' m'' -> id_frame l m m''.
Proof. intros H1 H2 a Ha. rewrite H2 by done. by apply H1. Qed.

Lemma id_frame_incl l l' m m' : l ⊆ l' -> id_frame l m m' -> id_frame l' m m'.
Proof. intros Hl H a Ha. apply H. auto. Qed.

Lemma id_frame_read r (G : geom r) l m m' i o : id_frame l m m' ->
  (forall bd, bd ∈ l -> in_ring r bd) -> bd_off o ->
  o <> XAXIDMA_BD_ID_OFFSET \/ bd_at r i ∉ l ->
  XAxiDma_BdRead m' (bd_at r i) o = XAxiDma_BdRead m (bd_at r i) o.
Proof.
  intros F Hin Ho Hd. rewrite !BdRead_addr by auto using bd_at_ok. apply F.
  intros bd Hbd E. destruct (Hin bd Hbd) as [j ->].
  destruct (decide (bd_at r i = bd_at r j)) as [Eq|Ne].
  - rewrite Eq in *. destruct Hd; [lia|done].
  - pose proof (bd_at_apart r G i j Ne) as Ha. unfold bd_apart, bd_off in *.
    change XAXIDMA_BD_ID_OFFSET with 52 in *. change sizeof_Bd with 64 in *. lia.
Qed.

Lemma ids_frame r (G : geom r) l k m m' : id_frame l m m' ->
  (forall bd, bd ∈ l -> in_ring r bd) -> (forall bd, bd ∈ k -> in_ring r bd /\ bd ∉ l) ->
  ids m' k = ids m k.
Proof.
  intros F Hl Hk. unfold ids. apply list_fmap_ext. intros j bd Hj.
  destruct (Hk bd) as [[i ->] Hn]; [by eapply list_elem_of_lookup_2|].
  unfold XAxiDma_BdGetId. eapply (id_frame_read r G); eauto with drv.
Qed.

(** Programming free descriptors leaves the hardware's queue alone. *)
Lemma hw_ids_frame m m' r i k : ring_wf r -> ztake k (a_free (ring_abs r)) = grp r i k ->
  bds_frame (grp r i k) m m' -> ids m' (a_hw (ring_abs r)) = ids m (a_hw (ring_abs r)).
Proof.
  intros W Hfree Hfr. pose proof W as [G _]. apply list_fmap_ext. intros j bd Hk%list_elem_of_lookup_2.
  unfold XAxiDma_BdGetId. destruct (hw_in_ring r bd W Hk) as [x ->]. eapply bds_frame_read; eauto using bd_at_ok with drv.
  intros b Hb. assert (b ≠ bd_at r x) as Hne.
  { intros ->. apply (hw_free_disjoint r _ W Hk). rewrite <- Hfree in Hb. eapply (elem_of_take_drop _ k). by left. }
  destruct (grp_in_ring _ _ _ _ Hb) as [y ->]. by apply bd_at_apart.
Qed.

Lemma single_in_ring r i : forall bd, bd ∈ [bd_at r i] -> in_ring r bd.
Proof. intros bd ->%list_elem_of_singleton. by eexists. Qed.
