(* ===== verification/RingProps.v ===== *)
(** * Properties of the descriptor ring

    The theorems about [xaxidma_bdring.c] that clients rely on, each with a
    witness on a concrete ring of four descriptors. *)

From S2P Require Import Prelude Hw Bd BdRing RingGeom RingSpec RingHw RingCreate RingStart RingSys.

(** ** A concrete ring *)

(** A transmit channel without data realignment, 32-bit stream. *)
Definition demo_blank : XAxiDma_BdRing :=
  BdRing_zero <|MaxTransferLen := XAXIDMA_MAX_TRANSFER_LEN|> <|DataWidth := 4|>.
Definition demo_ring : XAxiDma_BdRing := created demo_blank 0x1000 0x80001000 0x40 4.
Definition demo_mem : Mem :=
  st_out (XAxiDma_BdRingCreate demo_blank 0x1000 0x80001000 0x40 4) ∅.
Definition demo_world : World RegFile := mkWorld demo_mem ∅.
Definition demo_sys : Sys (D:=RegFile) := mkSys demo_world demo_ring.

Lemma demo_args : create_args 0x1000 0x80001000 0x40 4.
Proof. split; try done; unfold is_u32; lia. Qed.

Lemma demo_wf : ring_wf demo_ring.
Proof. split; [apply created_geom, demo_args|exists 0; apply created_groups, demo_args]. Qed.

(** A transmit set of [n] descriptors from [bd] on, filled and marked. *)
Definition demo_fill (m : Mem) : Mem :=
  st_out (XAxiDma_BdSetLength 0x80001000 100 XAXIDMA_MAX_TRANSFER_LEN;;
          XAxiDma_BdSetCtrl 0x80001000 XAXIDMA_BD_CTRL_TXSOF_MASK;;
          XAxiDma_BdSetLength 0x80001040 60 XAXIDMA_MAX_TRANSFER_LEN;;
          XAxiDma_BdSetCtrl 0x80001040 XAXIDMA_BD_CTRL_TXEOF_MASK) m.

Definition demo_ring2 : XAxiDma_BdRing := (XAxiDma_BdRingAlloc demo_ring 2).2.
Definition demo_world2 : World RegFile := mkWorld (demo_fill demo_mem) ∅.

(** ** Creation *)

(** [XAxiDma_BdRingCreate] on legal arguments succeeds and establishes
    the ring: the representation invariant holds, all descriptors are free and
    in address order, each one points to the physical address of its successor
    and carries the build information, and all its other words are zero. *)
Theorem ring_create_correct r PhysAddr VirtAddr Alignment BdCount m :
  create_args PhysAddr VirtAddr Alignment BdCount ->
  let '(st, r') := st_val (XAxiDma_BdRingCreate r PhysAddr VirtAddr Alignment BdCount) m in
  let m' := st_out (XAxiDma_BdRingCreate r PhysAddr VirtAddr Alignment BdCount) m in
  st = XST_SUCCESS /\ ring_wf r' /\ ring_abs r' = mkARing (ring_bds r') [] [] [] /\
  zlen (ring_bds r') = BdCount /\ linked m' r' /\ hw_tagged m' r' /\
  RunState r' = AXIDMA_CHANNEL_HALTED /\ restart_at r' 0 /\
  forall i o, bd_off o -> o mod 4 = 0 -> o <> XAXIDMA_BD_NDESC_OFFSET ->
    o <> XAXIDMA_BD_HAS_STSCNTRL_OFFSET -> o <> XAXIDMA_BD_HAS_DRE_OFFSET ->
    XAxiDma_BdRead m' (bd_at r' i) o = 0.
Proof.
  intros CA. unfold st_val, st_out. rewrite (create_run r _ _ _ _ CA). cbn [fst snd].
  pose proof (created_geom r _ _ _ _ CA) as G. pose proof (created_groups r _ _ _ _ CA) as H.
  pose proof (created_word r _ _ _ _ CA m) as Hw.
  set (rr := created r PhysAddr VirtAddr Alignment BdCount) in *.
  assert (Hb : ring_bds rr = grp rr 0 BdCount).
  { unfold ring_bds. replace (FirstBdAddr rr) with (bd_at rr 0)
      by (rewrite bd_at_small by (pose proof (g_cnt rr G); lia); lia).
    rewrite bd_walk_at by done. destruct CA. rewrite Z2Nat.id; [done|]. change (AllCnt rr) with BdCount. lia. }
  split; [done|]. split; [by split; eauto|]. split_and!; [..|done| |].
  - rewrite (abs_groups rr 0 G H), Hb. done.
  - rewrite Hb. apply grp_length. destruct CA. lia.
  - intros i. rewrite Hw by auto with drv. unfold init_word. cbn.
    unfold XAXIDMA_VIRT_TO_PHYS. apply u32_idemp.
  - intros i. rewrite !Hw by auto with drv. done.
  - unfold restart_at. rewrite virt_to_phys_at by (done || (pose proof (g_cnt rr G); lia)).
    destruct CA. rewrite Z.mul_0_r, Z.add_0_r. symmetry. apply u32_small. tauto.
  - intros i o Ho Ho4 ? ? ?. rewrite Hw by done. unfold init_word.
    repeat case_if; congruence.
Qed.

Lemma ring_create_correct_witness :
  st_val (XAxiDma_BdRingCreate demo_blank 0x1000 0x80001000 0x40 4) ∅ = (XST_SUCCESS, demo_ring) /\
  linked demo_mem demo_ring.
Proof.
  pose proof (ring_create_correct demo_blank 0x1000 0x80001000 0x40 4 ∅ demo_args) as H.
  assert (E : st_val (XAxiDma_BdRingCreate demo_blank 0x1000 0x80001000 0x40 4) ∅ =
    (XST_SUCCESS, demo_ring)) by (vm_compute; reflexivity).
  rewrite E in H. split; [exact E|]. apply H.
Defined.

(** A region that crosses the top of the address space is refused with
    [XST_DMA_SG_LIST_ERROR], bad counts and alignments with
    [XST_INVALID_PARAM]; a refused call leaves the memory alone and, unless
    the count itself was bad, a ring with no descriptors. *)
Theorem ring_create_rejects r PhysAddr VirtAddr Alignment BdCount m :
  is_u32 VirtAddr -> is_u32 Alignment -> Alignment * BdCount < 4294967296 ->
  let '(st, r') := st_val (XAxiDma_BdRingCreate r PhysAddr VirtAddr Alignment BdCount) m in
  let bad_param := (BdCount <=? 0) || (Alignment <? XAXIDMA_BD_MINIMUM_ALIGNMENT) ||
    tst (Alignment - 1) Alignment || negb (PhysAddr mod Alignment =? 0) ||
    negb (VirtAddr mod Alignment =? 0) in
  (bad_param = true -> st = XST_INVALID_PARAM) /\
  (bad_param = false -> 4294967296 < VirtAddr + Alignment * BdCount -> st = XST_DMA_SG_LIST_ERROR) /\
  (st <> XST_SUCCESS ->
   st_out (XAxiDma_BdRingCreate r PhysAddr VirtAddr Alignment BdCount) m = m /\
   (0 < BdCount -> AllCnt r' = 0 /\ FreeCnt r' = 0 /\ PreCnt r' = 0 /\ HwCnt r' = 0 /\ PostCnt r' = 0)).
Proof.
  intros Hv Ha Hs. unfold XAxiDma_BdRingCreate.
  case_if; [cbn; split_and!; [done..|intros _; split; [done|lia]]|]. case_if; [cbn; done|].
  destruct (tst (Alignment - 1) Alignment) eqn:Ht; [cbn; done|].
  rewrite (bd_separation_eq Alignment) by done.
  destruct (PhysAddr mod Alignment =? 0); [|cbn; done].
  destruct (VirtAddr mod Alignment =? 0); [|cbn; done].
  cbn [negb orb Separation set_field set_Separation]. unfold is_u32, XAXIDMA_BD_MINIMUM_ALIGNMENT in *.
  rewrite (u32_small (Alignment * BdCount)) by (unfold is_u32; nia). case_if.
  - split_and!; [lia|done|]. intros _. done.
  - st. split_and!; [lia| |done]. intros _ Hw. exfalso.
    rewrite u32_wrap_up in E1 by nia. nia.
Qed.

Lemma ring_create_rejects_witness :
  (st_val (XAxiDma_BdRingCreate demo_blank 0 0xFFFFFFC0 0x40 4) ∅).1 = XST_DMA_SG_LIST_ERROR.
Proof.
  pose proof (ring_create_rejects demo_blank 0 0xFFFFFFC0 0x40 4 ∅) as H.
  destruct (st_val _ _) as [st r'] eqn:E. destruct H as (_ & H & _); try (unfold is_u32; lia).
  apply H; [vm_compute; reflexivity|lia].
Defined.

(** The guard against a region that crosses the top of the address space
    is itself computed modulo [2^32]: a ring whose size overflows passes it, so
    creation succeeds although the descriptors cannot be distinct. *)
Theorem ring_create_overflow r m : exists r',
  st_val (XAxiDma_BdRingCreate r 0x1000 0x80001000 0x40 0x4000001) m = (XST_SUCCESS, r') /\
  AllCnt r' = 0x4000001 /\ 4294967296 < FirstBdAddr r' + Separation r' * AllCnt r'.
Proof.
  unfold XAxiDma_BdRingCreate.
  change (0x4000001 <=? 0) with false. change (0x40 <? XAXIDMA_BD_MINIMUM_ALIGNMENT) with false.
  change (tst (0x40 - 1) 0x40) with false. change (bd_separation 0x40) with 0x40.
  change (negb (0x1000 mod 0x40 =? 0) || negb (0x80001000 mod 0x40 =? 0)) with false.
  cbv iota zeta. cbn [Separation set_field set_Separation].
  change (u32 (0x80001000 + u32 (0x40 * 0x4000001) - 1) <? 0x80001000) with false. cbv iota.
  rewrite !st_val_bind. rewrite st_val_ret. eexists. split; [reflexivity|].
  split; [reflexivity|]. cbn. lia.
Qed.

(** ** Refinement and order *)

(** C1: the ring refines its specification: from any state that satisfies the
    invariant, every call, hardware completion or client write leads to a state
    that satisfies it, and acts on the four queues as one step of [spec_step]
    with the same submitted and returned descriptors. *)
Theorem ring_simulation {D} `{!RegBus D} (s : Sys (D:=D)) l s' :
  sys_inv s -> ring_step s l s' ->
  sys_inv s' /\ same_geom (s_r s) (s_r s') /\
  spec_step (ring_abs (s_r s)) l (ring_abs (s_r s')).
Proof. apply step_sim. Qed.

Lemma demo_inv : sys_inv demo_sys.
Proof.
  split; cbn.
  - apply demo_wf.
  - intros i. change demo_mem with (st_out (create_mem demo_blank 0x1000 0x80001000 0x40 4) ∅).
    unfold demo_ring. rewrite created_word by (apply demo_args || auto with drv).
    unfold init_word. cbn -[bd_at created]. apply u32_idemp.
  - unfold is_u32. cbn. lia.
  - left. reflexivity.
Qed.

Definition demo_sys2 : Sys (D:=RegFile) := mkSys (s_w demo_sys) (XAxiDma_BdRingAlloc (s_r demo_sys) 2).2.

Lemma ring_simulation_witness :
  spec_step (ring_abs (s_r demo_sys)) silent (ring_abs (s_r demo_sys2)) /\
  zlen (a_pre (ring_abs demo_ring2)) = 2.
Proof.
  split; [|vm_compute; reflexivity].
  pose proof (ring_simulation demo_sys silent demo_sys2 demo_inv
    (StepAlloc demo_sys 2)) as H.
  exact (proj2 (proj2 H)).
Defined.

(** C2: order is kept: in every execution from a state with nothing in the
    hardware, the descriptors handed to the hardware are exactly those already
    returned, in the same order, followed by those still in the hardware. *)
Theorem ring_fifo {D} `{!RegBus D} (s0 : Sys (D:=D)) sub ret s :
  sys_inv s0 -> HwCnt (s_r s0) = 0 -> ring_run s0 sub ret s ->
  sub = ret ++ a_hw (ring_abs (s_r s)).
Proof.
  intros I Hh R. destruct (run_inv s0 sub ret s I R) as (_ & _ & F).
  unfold ring_abs at 1 in F. rewrite Hh in F. exact F.
Qed.

Definition demo_sys3 : Sys (D:=RegFile) := mkSys (mkWorld (demo_fill demo_mem) ∅) (s_r demo_sys2).
Definition demo_run_end : Sys (D:=RegFile) :=
  let '((_, r'), w') := XAxiDma_BdRingToHw (s_r demo_sys3) 2 0x80001000 0 (s_w demo_sys3) in
  mkSys w' r'.

Lemma demo_fill_env : env_mem (s_r demo_sys2) (w_mem (s_w demo_sys2)) (demo_fill demo_mem).
Proof.
  pose proof demo_wf as [G _]. intros i o Ho.
  change (bd_at (s_r demo_sys2) i) with (bd_at demo_ring i). rewrite <- (bd_at_mod _ G i).
  pose proof (Z.mod_pos_bound i (AllCnt demo_ring) ltac:(vm_compute; reflexivity)) as Hk.
  set (k := i mod AllCnt demo_ring) in *. clearbody k. change (AllCnt demo_ring) with 4 in Hk.
  assert (k = 0 \/ k = 1 \/ k = 2 \/ k = 3) as [->|[->|[->| ->]]] by lia;
    destruct Ho as [->|[->| ->]]; vm_compute; reflexivity.
Qed.

Lemma demo_run : ring_run demo_sys [0x80001000; 0x80001040] [] demo_run_end.
Proof.
  assert (E : XAxiDma_BdRingToHw (s_r demo_sys3) 2 0x80001000 0 (s_w demo_sys3) =
    ((XST_SUCCESS, s_r demo_run_end), s_w demo_run_end)) by (vm_compute; reflexivity).
  pose proof (RunStep demo_sys [] [] _ _ _ (RunNil demo_sys) (StepAlloc demo_sys 2)) as R1.
  pose proof (RunStep demo_sys _ _ _ _ _ R1
    (StepEnv demo_sys2 (demo_fill demo_mem) ∅ demo_fill_env)) as R2.
  pose proof (RunStep demo_sys _ _ _ _ _ R2 (StepToHw demo_sys3 2 0x80001000 0 _ _ _ E)) as R3.
  destruct demo_run_end. exact R3.
Qed.

Lemma ring_fifo_witness : [0x80001000; 0x80001040] = [] ++ a_hw (ring_abs (s_r demo_run_end)).
Proof.
  exact (ring_fifo demo_sys [0x80001000; 0x80001040] [] demo_run_end demo_inv eq_refl demo_run).
Defined.

(** ** Ownership *)

(** C3: in every reachable state each descriptor of the ring belongs to
    exactly one of the four owners, and the counters of the structure are the
    lengths of their queues. *)
Theorem ring_ownership {D} `{!RegBus D} (s0 : Sys (D:=D)) sub ret s :
  sys_inv s0 -> ring_run s0 sub ret s ->
  let r := s_r s in let a := ring_abs r in
  a_post a ++ a_hw a ++ a_pre a ++ a_free a ≡ₚ ring_bds (s_r s0) /\ NoDup (ring_bds (s_r s0)) /\
  zlen (a_post a) = PostCnt r /\ zlen (a_hw a) = HwCnt r /\
  zlen (a_pre a) = PreCnt r /\ zlen (a_free a) = FreeCnt r.
Proof.
  intros I R. destruct (run_inv s0 sub ret s I R) as (I' & S & _). cbv zeta.
  destruct (abs_partition (s_r s) (inv_wf s I')) as [P N].
  assert (ring_bds (s_r s) = ring_bds (s_r s0)) as E.
  { destruct S as (Ha & Hs & Hf & Hl & _). unfold ring_bds. rewrite Ha, Hf.
    generalize (Z.to_nat (AllCnt (s_r s0))), (FirstBdAddr (s_r s0)).
    intros n. induction n as [|n IH]; intros bd; [done|]. cbn [bd_walk]. f_equal.
    unfold XAxiDma_mBdRingNext. rewrite Hl, Hf, Hs. apply IH. }
  rewrite <- E. destruct (inv_wf s I') as [G [p H]]. split_and!; [done|done|..];
    rewrite (abs_groups _ p G H); cbn; apply grp_length; apply H.
Qed.

Lemma ring_ownership_witness :
  a_post (ring_abs (s_r demo_run_end)) ++ a_hw (ring_abs (s_r demo_run_end)) ++
  a_pre (ring_abs (s_r demo_run_end)) ++ a_free (ring_abs (s_r demo_run_end)) ≡ₚ ring_bds (s_r demo_sys) /\
  HwCnt (s_r demo_run_end) = 2.
Proof.
  split; [|vm_compute; reflexivity].
  exact (proj1 (ring_ownership demo_sys _ _ demo_run_end demo_inv demo_run)).
Defined.

(** [XAxiDma_BdRingCheck] has no false alarms: in every reachable state it
    returns [XST_SUCCESS] while the channel is halted and [XST_IS_STARTED]
    while it runs. *)
Theorem ring_check_reachable {D} `{!RegBus D} (s0 : Sys (D:=D)) sub ret s :
  sys_inv s0 -> ring_run s0 sub ret s ->
  XAxiDma_BdRingCheck (w_mem (s_w s)) (s_r s) =
  if RunState (s_r s) =? AXIDMA_CHANNEL_HALTED then XST_SUCCESS else XST_IS_STARTED.
Proof.
  intros I R. destruct (run_inv s0 sub ret s I R) as ([W L P [H|H]] & _ & _); rewrite H; cbn.
  - now apply check_ok.
  - destruct W as [G _]. pose proof (g_cnt _ G). unfold XAxiDma_BdRingCheck. rewrite H.
    case_if; [lia|done].
Qed.

Lemma ring_check_reachable_witness :
  XAxiDma_BdRingCheck (w_mem (s_w demo_run_end)) (s_r demo_run_end) = XST_SUCCESS.
Proof. exact (ring_check_reachable demo_sys _ _ demo_run_end demo_inv demo_run). Defined.

(** ** Exchange with the hardware *)

(** C28: [XAxiDma_BdRingFromHw] returns only whole packets that the hardware
    completed, at the front of the hardware's queue and within the limit, and
    as many as possible: no longer prefix has this property. *)
Theorem fromhw_whole_packets m r limit : ring_wf r ->
  let '(cnt, bd, r') := XAxiDma_BdRingFromHw m r limit in
  let hw := a_hw (ring_abs r) in
  packets_done m r (ztake limit hw) cnt /\
  (forall k, packets_done m r (ztake limit hw) k -> k <= cnt) /\
  ring_wf r' /\ ring_abs r' = spec_fromhw cnt (ring_abs r) /\
  (0 < cnt -> head hw = Some bd) /\ (cnt = 0 -> bd = 0 /\ r' = r).
Proof.
  intros W. pose proof (fromhw_sim m r limit W) as HS.
  destruct (XAxiDma_BdRingFromHw m r limit) as [[cnt bd] r']. cbv zeta in *.
  destruct HS as (HS & -> & Hp & Hz). unfold spec_fromhw_count in *.
  split; [apply ready_done|]. split; [apply ready_max|].
  split; [apply HS|]. split; [apply HS|]. split; [|done].
  intros Hk. specialize (Hp Hk). destruct (a_hw (ring_abs r)) as [|x l].
  - unfold ztake in Hp. now rewrite take_nil in Hp.
  - unfold ztake in Hp. destruct (Z.to_nat _); [done|]. exact Hp.
Qed.

Definition demo_done_mem : Mem :=
  st_out (XAxiDma_BdWrite 0x80001000 XAXIDMA_BD_STS_OFFSET 0x80000064;;
          XAxiDma_BdWrite 0x80001040 XAXIDMA_BD_STS_OFFSET 0x8000003C) (w_mem (s_w demo_run_end)).

Lemma demo_run_wf : ring_wf (s_r demo_run_end).
Proof. apply (inv_wf demo_run_end). by destruct (run_inv _ _ _ _ demo_inv demo_run). Qed.

Lemma fromhw_whole_packets_witness :
  packets_done demo_done_mem (s_r demo_run_end) (ztake 10 [0x80001000; 0x80001040]) 2 /\
  (XAxiDma_BdRingFromHw demo_done_mem (s_r demo_run_end) 10).1 = (2, 0x80001000).
Proof.
  pose proof (fromhw_whole_packets demo_done_mem (s_r demo_run_end) 10 demo_run_wf) as H.
  assert (E : (XAxiDma_BdRingFromHw demo_done_mem (s_r demo_run_end) 10).1 = (2, 0x80001000))
    by (vm_compute; reflexivity).
  destruct (XAxiDma_BdRingFromHw demo_done_mem (s_r demo_run_end) 10) as [[cnt bd] r'].
  cbn in E. injection E as -> ->. split; [|reflexivity].
  replace [0x80001000; 0x80001040] with (a_hw (ring_abs (s_r demo_run_end)))
    by (vm_compute; reflexivity). exact (proj1 H).
Defined.

(** C29: every branch of [XAxiDma_BdRingToHw].  A set that is not at the front
    of the prepared queue is refused without effect; a set with an empty
    descriptor, or a transmit set without its packet marks, is refused and the
    ring is unchanged; any other set is appended to the hardware's queue with
    its completed bits off.  Only status words of the set are written, and the
    tail register is written exactly when the channel runs. *)
Theorem tohw_branches {D} `{!RegBus D} r n bd ix (w : World D) : ring_wf r ->
  let a := ring_abs r in
  let l := ztake n (a_pre a) in
  let '(st, r') := st_val (XAxiDma_BdRingToHw r n bd ix) w in
  let w' := st_out (XAxiDma_BdRingToHw r n bd ix) w in
  if n <? 0 then st = XST_INVALID_PARAM /\ r' = r /\ w' = w
  else if n =? 0 then st = XST_SUCCESS /\ r' = r /\ w' = w
  else if (zlen (a_pre a) <? n) || negb (bool_decide (head l = Some bd))
  then st = XST_DMA_SG_LIST_ERROR /\ r' = r /\ w' = w
  else
    sts_frame l (w_mem w) (w_mem w') /\
    if tohw_accepts (w_mem w) r l
    then st = XST_SUCCESS /\ ring_wf r' /\ ring_abs r' = spec_tohw n a /\
         last l = Some (HwTail r') /\
         (forall b, b ∈ l -> XAxiDma_BdHwCompleted (w_mem w') b = false) /\
         w_dev w' = tohw_kick r' ix (w_dev w)
    else st = XST_FAILURE /\ r' = r /\ w_dev w' = w_dev w.
Proof.
  intros W. pose proof (tohw_sim r n bd ix w W) as HS. cbv zeta in *.
  destruct (st_val (XAxiDma_BdRingToHw r n bd ix) w) as [st r'].
  repeat (case_if; [exact HS|]). destruct HS as [F HS]. split; [exact F|].
  case_if; [|exact HS]. destruct HS as (? & [] & ? & ? & ?). done.
Qed.

Lemma demo_inv2 : sys_inv demo_sys2.
Proof. exact (proj1 (step_alloc demo_sys 2 demo_inv)). Qed.

Lemma demo_sys3_wf : ring_wf (s_r demo_sys3).
Proof.
  assert (s_r demo_sys3 = s_r demo_sys2) as -> by (vm_compute; reflexivity).
  exact (inv_wf demo_sys2 demo_inv2).
Qed.

Lemma tohw_branches_witness :
  last [0x80001000; 0x80001040] = Some (HwTail (s_r demo_run_end)) /\
  st_val (XAxiDma_BdRingToHw (s_r demo_sys3) 2 0x80001000 0) (s_w demo_sys3) =
  (XST_SUCCESS, s_r demo_run_end).
Proof.
  pose proof (tohw_branches (s_r demo_sys3) 2 0x80001000 0 (s_w demo_sys3) demo_sys3_wf) as H.
  assert (E : st_val (XAxiDma_BdRingToHw (s_r demo_sys3) 2 0x80001000 0) (s_w demo_sys3) =
    (XST_SUCCESS, s_r demo_run_end)) by (vm_compute; reflexivity).
  split; [|exact E]. cbv zeta in H. rewrite E in H.
  assert (A : ztake 2 (a_pre (ring_abs (s_r demo_sys3))) = [0x80001000; 0x80001040])
    by (vm_compute; reflexivity).
  rewrite A in H.
  replace (zlen (a_pre (ring_abs (s_r demo_sys3)))) with 2 in H by (vm_compute; reflexivity).
  replace (tohw_accepts (w_mem (s_w demo_sys3)) (s_r demo_sys3) [0x80001000; 0x80001040])
    with true in H by (vm_compute; reflexivity).
  exact (proj1 (proj2 (proj2 (proj2 (proj2 H))))).
Defined.

(** Allocation can be taken back: [XAxiDma_BdRingUnAlloc] of exactly the
    set that [XAxiDma_BdRingAlloc] just gave restores the ring structure. *)
Theorem alloc_unalloc_restores r n bd r' : ring_wf r ->
  XAxiDma_BdRingAlloc r n = (XST_SUCCESS, Some bd, r') ->
  XAxiDma_BdRingUnAlloc r' n bd = (XST_SUCCESS, r).
Proof.
  intros [G [p H]]. unfold XAxiDma_BdRingAlloc. case_if; [discriminate|]. case_if; [discriminate|].
  intros [= <- <-]. unfold XAxiDma_BdRingUnAlloc. case_if; [lia|].
  cbn [PreCnt FreeHead FreeCnt set_field set_PreCnt set_FreeHead set_FreeCnt].
  pose proof (gr_freeh r p H) as Hf. destruct H. case_if; [lia|].
  match goal with |- context [XAXIDMA_RING_SEEKBACK ?r1] => set (r' := r1) end.
  change (XAXIDMA_RING_SEEKAHEAD r') with (XAXIDMA_RING_SEEKAHEAD r).
  change (XAXIDMA_RING_SEEKBACK r') with (XAXIDMA_RING_SEEKBACK r).
  rewrite Hf, Z.eqb_refl, RING_SEEKAHEAD_at, RING_SEEKBACK_at by (done || lia). cbn [negb].
  f_equal. replace (p + PostCnt r + HwCnt r + PreCnt r + n - n)
    with (p + PostCnt r + HwCnt r + PreCnt r) by lia. rewrite <- Hf. unfold r'. cbn.
  replace (FreeCnt r - n + n) with (FreeCnt r) by lia.
  replace (PreCnt r + n - n) with (PreCnt r) by lia. now destruct r.
Qed.

Lemma alloc_unalloc_restores_witness :
  XAxiDma_BdRingUnAlloc demo_ring2 2 0x80001000 = (XST_SUCCESS, demo_ring).
Proof.
  apply (alloc_unalloc_restores demo_ring 2 0x80001000 demo_ring2); [apply demo_wf|].
  vm_compute. reflexivity.
Defined.

(** Cloning sets the transfer words of every descriptor of an idle ring
    to those of the template, with the completed bit off, and keeps the link
    and the build information. *)
Theorem clone_all m r src : ring_wf r -> FreeCnt r = AllCnt r ->
  RunState r <> AXIDMA_CHANNEL_NOT_HALTED -> bd_ok src ->
  st_val (XAxiDma_BdRingClone r src) m = XST_SUCCESS /\
  forall i o, bd_off o -> o mod 4 = 0 ->
  XAxiDma_BdRead (st_out (XAxiDma_BdRingClone r src) m) (bd_at r i) o =
  if bool_decide (cloned_off o) then u32 (clone_word m src o) else XAxiDma_BdRead m (bd_at r i) o.
Proof.
  intros W F R S. split.
  - apply (clone_ok m r src 0 0 W F R S); auto with drv.
  - intros i o Ho Ho4. by apply clone_ok.
Qed.

Lemma clone_all_witness :
  XAxiDma_BdRead (st_out (XAxiDma_BdRingClone demo_ring 0x5000)
    (mem_write demo_mem 0x5008 0xABCD)) (bd_at demo_ring 3) XAXIDMA_BD_BUFA_OFFSET = 0xABCD.
Proof.
  pose proof (clone_all (mem_write demo_mem 0x5008 0xABCD) demo_ring 0x5000 demo_wf eq_refl
    ltac:(discriminate) ltac:(unfold bd_ok; change sizeof_Bd with 64; lia)) as [_ H].
  rewrite (H 3 XAXIDMA_BD_BUFA_OFFSET) by (auto with drv). vm_compute. reflexivity.
Defined.

(** ** Starting and the control register *)

(** A channel whose restart descriptor belongs to the ring is started in a
    bounded number of steps.  If the channel and its hardware are halted, the
    current-descriptor register is set to the first descriptor, from the
    restart descriptor on, that is not completed; if all are completed the
    start fails with [XST_DMA_ERROR] before the hardware is run. *)
Theorem start_resumes {D} `{!RegBus D} r ix i (w : World D) : geom r -> restart_at r i ->
  XAxiDma_UpdateBdRingCDesc r ix w =
  Some (if RunState r =? AXIDMA_CHANNEL_NOT_HALTED then (XST_SUCCESS, w)
        else let '(started, w1) := read_sr r w in
             if (started : bool) then (XST_SUCCESS, w1)
             else cdesc_update r ix (first_open (w_mem w) (grp r i (AllCnt r))) w1) /\
  exists st r' w', XAxiDma_BdRingStart r ix w = Some ((st, r'), w') /\ w_mem w' = w_mem w /\
  (st = XST_SUCCESS /\ r' = r <|RunState := AXIDMA_CHANNEL_NOT_HALTED|> \/
   st = XST_DMA_ERROR /\ r' = r).
Proof. intros G R. split; [by apply update_cdesc_spec|by apply (start_ring r ix i)]. Qed.

Definition halted_dev : RegFile := {[ XAXIDMA_SR_OFFSET := XAXIDMA_HALTED_MASK ]}.

Lemma start_resumes_witness :
  XAxiDma_UpdateBdRingCDesc demo_ring 0 (mkWorld demo_mem halted_dev) =
  Some (XST_SUCCESS, mkWorld demo_mem (<[XAXIDMA_CDESC_OFFSET := 0x1000]> halted_dev)).
Proof.
  destruct (start_resumes demo_ring 0 0 (mkWorld demo_mem halted_dev)) as [E _];
    [apply demo_wf|vm_compute; reflexivity|].
  rewrite E. vm_compute. reflexivity.
Defined.

(** Coalescing settings round-trip: after [XAxiDma_BdRingSetCoalesce] with
    a counter in 1..255 and a timer in 0..255 the call returns
    [XST_SUCCESS], [XAxiDma_BdRingGetCoalesce] reads both back, and the rest of
    the control register is as it was. *)
Theorem coalesce_roundtrip {D} `{!RegBus D} r Counter Timer (w : World D) :
  RegReadback D (u32 (ChanBase r + XAXIDMA_CR_OFFSET)) 0xFFFFFFFF ->
  1 <= Counter <= 0xFF -> 0 <= Timer <= 0xFF ->
  let w' := st_out (XAxiDma_BdRingSetCoalesce r Counter Timer) w in
  st_val (XAxiDma_BdRingSetCoalesce r Counter Timer) w = XST_SUCCESS /\
  st_val (XAxiDma_BdRingGetCoalesce r) w' = (Counter, Timer) /\
  (st_val (XAxiDma_ReadReg (ChanBase r) XAXIDMA_CR_OFFSET) w' .& 0xFFFF) =
  (st_val (XAxiDma_ReadReg (ChanBase r) XAXIDMA_CR_OFFSET) w .& 0xFFFF).
Proof.
  intros RB Hc Ht. cbv zeta. unfold st_val at 1, st_out. rewrite set_coalesce_run by done.
  cbv zeta. cbn [fst snd]. split; [done|].
  pose proof (ReadReg_u32 (ChanBase r) XAXIDMA_CR_OFFSET w) as Hu.
  set (Cr := st_val (XAxiDma_ReadReg (ChanBase r) XAXIDMA_CR_OFFSET) w) in *.
  set (w1 := st_out (XAxiDma_ReadReg (ChanBase r) XAXIDMA_CR_OFFSET) w).
  pose proof (coalesce_cr_u32 Cr Counter Timer Hu ltac:(lia) Ht) as Hn.
  set (v := coalesce_cr Cr Counter Timer) in *.
  assert (Hr : st_val (XAxiDma_ReadReg (ChanBase r) XAXIDMA_CR_OFFSET)
    (st_out (XAxiDma_WriteReg (ChanBase r) XAXIDMA_CR_OFFSET v) w1) = v).
  { by apply readback_val. }
  unfold XAxiDma_BdRingGetCoalesce. st. rewrite Hr.
  destruct (coalesce_cr_fields Cr Counter Timer ltac:(lia) Ht) as (F1 & F2 & F3). fold v in F1, F2, F3.
  split; [|exact F3]. change XAXIDMA_COALESCE_SHIFT with 16. change XAXIDMA_DELAY_SHIFT with 24.
  now rewrite F1, F2.
Qed.

Lemma coalesce_roundtrip_witness :
  st_val (XAxiDma_BdRingGetCoalesce demo_ring)
    (st_out (XAxiDma_BdRingSetCoalesce demo_ring 0x10 0x20) demo_world) = (0x10, 0x20).
Proof.
  exact (proj1 (proj2 (coalesce_roundtrip demo_ring 0x10 0x20 demo_world
    (regfile_readback _ _) ltac:(lia) ltac:(lia)))).
Defined.

(** Settings out of range are refused with [XST_FAILURE] and no register
    is written. *)
Theorem coalesce_rejects {D} `{!RegBus D} r Counter Timer (w : World D) :
  is_u32 Counter -> is_u32 Timer ->
  (Counter = 0 \/ 0xFF < Counter < XAXIDMA_NO_CHANGE) \/ 0xFF < Timer < XAXIDMA_NO_CHANGE ->
  XAxiDma_BdRingSetCoalesce r Counter Timer w =
  (XST_FAILURE, st_out (XAxiDma_ReadReg (ChanBase r) XAXIDMA_CR_OFFSET) w).
Proof.
  unfold is_u32, XAXIDMA_NO_CHANGE. intros Hc Ht H. unfold XAxiDma_BdRingSetCoalesce. st.
  unfold XAXIDMA_NO_CHANGE. case_if; [done|]. case_if; [done|]. lia.
Qed.

Lemma coalesce_rejects_witness :
  (XAxiDma_BdRingSetCoalesce demo_ring 0 5 demo_world).1 = XST_FAILURE.
Proof.
  rewrite (coalesce_rejects demo_ring 0 5 demo_world); [reflexivity|unfold is_u32; lia..|auto].
Defined.

(** ** Geometry *)

(** Stepping forward and backward are inverse on the ring, seeking is
    repeated stepping, and address translation round-trips, although all of
    them compute with 32-bit wrap-around. *)
Theorem ring_navigation r bd n : geom r -> in_ring r bd -> 0 <= n <= AllCnt r ->
  XAxiDma_mBdRingPrev r (XAxiDma_mBdRingNext r bd) = bd /\
  XAxiDma_mBdRingNext r (XAxiDma_mBdRingPrev r bd) = bd /\
  XAXIDMA_RING_SEEKAHEAD r bd n = Nat.iter (Z.to_nat n) (XAxiDma_mBdRingNext r) bd /\
  XAXIDMA_RING_SEEKBACK r bd n = Nat.iter (Z.to_nat n) (XAxiDma_mBdRingPrev r) bd /\
  XAXIDMA_PHYS_TO_VIRT r (XAXIDMA_VIRT_TO_PHYS r bd) = bd.
Proof.
  intros G [i ->] Hn. rewrite RING_SEEKAHEAD_at, RING_SEEKBACK_at, phys_virt by auto using bd_at_u32.
  rewrite mBdRingNext_at, !mBdRingPrev_at, mBdRingNext_at by done.
  assert (I1 : forall k, Nat.iter k (XAxiDma_mBdRingNext r) (bd_at r i) = bd_at r (i + Z.of_nat k)).
  { induction k as [|k IH]; [cbn; f_equal; lia|]. rewrite Nat.iter_succ, IH, mBdRingNext_at by done. f_equal. lia. }
  assert (I2 : forall k, Nat.iter k (XAxiDma_mBdRingPrev r) (bd_at r i) = bd_at r (i - Z.of_nat k)).
  { induction k as [|k IH]; [cbn; f_equal; lia|]. rewrite Nat.iter_succ, IH, mBdRingPrev_at by done. f_equal. lia. }
  rewrite I1, I2, Z2Nat.id by lia. split_and!; try done; f_equal; lia.
Qed.

Lemma ring_navigation_witness :
  XAXIDMA_RING_SEEKAHEAD demo_ring 0x800010C0 2 =
  Nat.iter 2 (XAxiDma_mBdRingNext demo_ring) 0x800010C0.
Proof.
  apply (ring_navigation demo_ring 0x800010C0 2); [apply demo_wf|exists 3; reflexivity|cbn; lia].
Defined.

(** The two sizing macros agree: a region computed for [NumBd]
    descriptors holds exactly [NumBd]. *)
Theorem ring_sizing Alignment NumBd : is_u32 Alignment ->
  XAXIDMA_BD_MINIMUM_ALIGNMENT <= Alignment -> tst (Alignment - 1) Alignment = false ->
  XAxiDma_mBdRingCntCalc Alignment (XAxiDma_mBdRingMemCalc Alignment NumBd) = NumBd /\
  XAxiDma_mBdRingMemCalc Alignment NumBd = Alignment * NumBd.
Proof.
  intros Hu Hm Ht. unfold XAxiDma_mBdRingCntCalc, XAxiDma_mBdRingMemCalc.
  rewrite bd_separation_eq by done. split; [|done].
  rewrite Z.mul_comm. apply Z.div_mul. unfold XAXIDMA_BD_MINIMUM_ALIGNMENT in Hm. lia.
Qed.

Lemma ring_sizing_witness :
  XAxiDma_mBdRingCntCalc 0x40 (XAxiDma_mBdRingMemCalc 0x40 512) = 512.
Proof. apply (ring_sizing 0x40 512); [unfold is_u32; lia|done|reflexivity]. Defined.
