(* ===== verification/Dma.v ===== *)
(** * The DMA engine

    Models [linux-drv/xaxidma.c] and [linux-drv/xaxidma.h]: one transmit ring
    and up to sixteen receive rings behind one register block.  The instance
    structure is a record passed through the operations; a pointer to a ring
    inside the instance is an access path ([TxBdRing], or an index into
    [RxBdRing]), so that an update through it is an update of the instance. *)

From S2P Require Import Prelude Hw Bd BdRing.

Record XAxiDma : Type := mkXAxiDma {
  RegBase : Z;
  HasMm2S : Z;
  HasS2Mm : Z;
  Initialized : Z;
  HasSg : Z;
  TxBdRing : XAxiDma_BdRing;
  RxBdRing : list XAxiDma_BdRing;
  TxNumChannels : Z;
  RxNumChannels : Z
}.

#[export] Instance set_RegBase : Setter RegBase := fun v a =>
  mkXAxiDma v (HasMm2S a) (HasS2Mm a) (Initialized a) (HasSg a) (TxBdRing a) (RxBdRing
    a) (TxNumChannels a) (RxNumChannels a).
#[export] Instance set_HasMm2S : Setter HasMm2S := fun v a =>
  mkXAxiDma (RegBase a) v (HasS2Mm a) (Initialized a) (HasSg a) (TxBdRing a) (RxBdRing
    a) (TxNumChannels a) (RxNumChannels a).
#[export] Instance set_HasS2Mm : Setter HasS2Mm := fun v a =>
  mkXAxiDma (RegBase a) (HasMm2S a) v (Initialized a) (HasSg a) (TxBdRing a) (RxBdRing
    a) (TxNumChannels a) (RxNumChannels a).
#[export] Instance set_Initialized : Setter Initialized := fun v a =>
  mkXAxiDma (RegBase a) (HasMm2S a) (HasS2Mm a) v (HasSg a) (TxBdRing a) (RxBdRing a)
    (TxNumChannels a) (RxNumChannels a).
#[export] Instance set_HasSg : Setter HasSg := fun v a =>
  mkXAxiDma (RegBase a) (HasMm2S a) (HasS2Mm a) (Initialized a) v (TxBdRing a) (RxBdRing
    a) (TxNumChannels a) (RxNumChannels a).
#[export] Instance set_TxBdRing : Setter TxBdRing := fun v a =>
  mkXAxiDma (RegBase a) (HasMm2S a) (HasS2Mm a) (Initialized a) (HasSg a) v (RxBdRing a)
    (TxNumChannels a) (RxNumChannels a).
#[export] Instance set_RxBdRing : Setter RxBdRing := fun v a =>
  mkXAxiDma (RegBase a) (HasMm2S a) (HasS2Mm a) (Initialized a) (HasSg a) (TxBdRing a) v
    (TxNumChannels a) (RxNumChannels a).
#[export] Instance set_TxNumChannels : Setter TxNumChannels := fun v a =>
  mkXAxiDma (RegBase a) (HasMm2S a) (HasS2Mm a) (Initialized a) (HasSg a) (TxBdRing a)
    (RxBdRing a) v (RxNumChannels a).
#[export] Instance set_RxNumChannels : Setter RxNumChannels := fun v a =>
  mkXAxiDma (RegBase a) (HasMm2S a) (HasS2Mm a) (Initialized a) (HasSg a) (TxBdRing a)
    (RxBdRing a) (TxNumChannels a) v.

(** The hardware build information passed to the driver. *)
Record XAxiDma_Config : Type := mkConfig {
  c_DeviceId : Z;
  c_BaseAddr : Z;
  c_HasStsCntrlStrm : Z;
  c_HasMm2S : Z;
  c_HasMm2SDRE : Z;
  c_Mm2SDataWidth : Z;
  c_HasS2Mm : Z;
  c_HasS2MmDRE : Z;
  c_S2MmDataWidth : Z;
  c_HasSg : Z;
  c_Mm2sNumChannels : Z;
  c_S2MmNumChannels : Z
}.

(** A structure cleared by [memset]. *)
Definition XAxiDma_zero : XAxiDma := mkXAxiDma 0 0 0 0 0 BdRing_zero (replicate 16 BdRing_zero) 0 0.

Definition XAXIDMA_RESET_TIMEOUT : Z := 500.

(** ** Ring access *)

Definition XAxiDma_GetTxRing (a : XAxiDma) : XAxiDma_BdRing := TxBdRing a.
Definition XAxiDma_GetRxRing (a : XAxiDma) (RingIndex : Z) : XAxiDma_BdRing :=
  default BdRing_zero (RxBdRing a !! Z.to_nat RingIndex).
(** Stores through the pointer that [XAxiDma_GetRxRing] gives. *)
Definition put_rx (a : XAxiDma) (RingIndex : Z) (r : XAxiDma_BdRing) : XAxiDma :=
  a <|RxBdRing := <[Z.to_nat RingIndex := r]> (RxBdRing a)|>.
Definition XAxiDma_HasSg (a : XAxiDma) : bool := negb (HasSg a =? 0).

Section engine.
Context {D : Type} `{!RegBus D}.

(** [for (Index = 0; Index < n; Index++)] over the receive rings. *)
Fixpoint rx_loop (f : Z -> XAxiDma_BdRing -> ST (World D) XAxiDma_BdRing) (n : nat) (Index : Z)
  (a : XAxiDma) : ST (World D) XAxiDma :=
  match n with
  | O => mret a
  | S n =>
      r ← f Index (XAxiDma_GetRxRing a Index);
      rx_loop f n (Index + 1) (put_rx a Index r)
  end.

Definition rx_for (f : Z -> XAxiDma_BdRing -> ST (World D) XAxiDma_BdRing) (a : XAxiDma)
  : ST (World D) XAxiDma :=
  rx_loop f (Z.to_nat (RxNumChannels a)) 0 a.

(** ** Reset *)

Definition XAxiDma_Reset (a : XAxiDma) : ST (World D) XAxiDma :=
  a ← (if XAxiDma_HasSg a then
         r ← XAxiDma_mBdRingSnapShotCurrBd (XAxiDma_GetTxRing a) 0;
         rx_for (fun RingIndex r => XAxiDma_mBdRingSnapShotCurrBd r RingIndex)
           (a <|TxBdRing := r|>)
       else mret a);
  let Base := if negb (HasMm2S a =? 0) then u32 (RegBase a + XAXIDMA_TX_OFFSET)
              else u32 (RegBase a + XAXIDMA_RX_OFFSET) in
  XAxiDma_WriteReg Base XAXIDMA_CR_OFFSET XAXIDMA_CR_RESET_MASK;;
  let a := if negb (HasMm2S a =? 0)
           then a <|TxBdRing := (TxBdRing a) <|RunState := AXIDMA_CHANNEL_HALTED|> |>
           else a in
  rx_for (fun _ r => mret (if negb (HasS2Mm a =? 0)
                           then r <|RunState := AXIDMA_CHANNEL_HALTED|> else r)) a.

Definition XAxiDma_ResetIsDone (a : XAxiDma) : ST (World D) Z :=
  let TxRing := XAxiDma_GetTxRing a in
  let RxRing := XAxiDma_GetRxRing a 0 in
  tx ← (if negb (HasMm2S a =? 0) then
          v ← XAxiDma_ReadReg (ChanBase TxRing) XAXIDMA_CR_OFFSET;
          mret (tst v XAXIDMA_CR_RESET_MASK)
        else mret false);
  if (tx : bool) then mret 0
  else
  rx ← (if negb (HasS2Mm a =? 0) then
          v ← XAxiDma_ReadReg (ChanBase RxRing) XAXIDMA_CR_OFFSET;
          mret (tst v XAXIDMA_CR_RESET_MASK)
        else mret false);
  if (rx : bool) then mret 0 else mret 1.

(** ** Initialisation *)

(** The polling loop; the remaining [TimeOut]. *)
Fixpoint reset_wait (a : XAxiDma) (TimeOut : nat) : ST (World D) nat :=
  match TimeOut with
  | O => mret O
  | S n =>
      done ← XAxiDma_ResetIsDone a;
      if negb (done =? 0) then mret (S n) else reset_wait a n
  end.

(** The length limit of the build. *)
Definition cfg_maxlen (Config : XAxiDma_Config) : Z :=
  if (1 <? c_S2MmNumChannels Config) || (1 <? c_Mm2sNumChannels Config)
  then XAXIDMA_MCHAN_MAX_TRANSFER_LEN else XAXIDMA_MAX_TRANSFER_LEN.

(** The cleared instance with its global fields and its transmit ring. *)
Definition cfg_head (Config : XAxiDma_Config) : XAxiDma :=
  let a := XAxiDma_zero <|RegBase := c_BaseAddr Config|>
             <|HasMm2S := c_HasMm2S Config|> <|HasS2Mm := c_HasS2Mm Config|>
             <|HasSg := c_HasSg Config|>
             <|TxNumChannels := c_Mm2sNumChannels Config|>
             <|RxNumChannels := c_S2MmNumChannels Config|> in
  a <|TxBdRing := (TxBdRing a) <|RunState := AXIDMA_CHANNEL_HALTED|>
                    <|IsRxChannel := 0|> <|MaxTransferLen := cfg_maxlen Config|> |>.

Definition cfg_rx_state (a : XAxiDma) : ST (World D) XAxiDma :=
  rx_for (fun _ r => mret (r <|RunState := AXIDMA_CHANNEL_HALTED|> <|IsRxChannel := 1|>)) a.

Definition cfg_tx (Config : XAxiDma_Config) (a : XAxiDma) : XAxiDma :=
  if negb (HasMm2S a =? 0)
  then a <|TxBdRing := (TxBdRing a)
             <|ChanBase := u32 (c_BaseAddr Config + XAXIDMA_TX_OFFSET)|>
             <|HasStsCntrlStrm := c_HasStsCntrlStrm Config|>
             <|HasDRE := c_HasMm2SDRE Config|>
             <|DataWidth := Z.shiftr (u32 (c_Mm2SDataWidth Config)) 3|> |>
  else a.

Definition cfg_rx (Config : XAxiDma_Config) (a : XAxiDma) : ST (World D) XAxiDma :=
  if negb (HasS2Mm a =? 0)
  then rx_for (fun _ r => mret (r <|ChanBase := u32 (c_BaseAddr Config + XAXIDMA_RX_OFFSET)|>
                                  <|HasStsCntrlStrm := c_HasStsCntrlStrm Config|>
                                  <|HasDRE := c_HasS2MmDRE Config|>
                                  <|DataWidth := Z.shiftr (u32 (c_S2MmDataWidth Config)) 3|>
                                  <|MaxTransferLen := cfg_maxlen Config|>)) a
  else mret a.

(** The instance as set up from the configuration, before the reset. *)
Definition cfg_setup (Config : XAxiDma_Config) : ST (World D) XAxiDma :=
  a ← cfg_rx_state (cfg_head Config);
  cfg_rx Config (cfg_tx Config a).

Definition XAxiDma_CfgInitialize (a : XAxiDma) (Config : option XAxiDma_Config)
  : ST (World D) (Z * XAxiDma) :=
  match Config with
  | None => mret (XST_INVALID_PARAM, a <|Initialized := 0|>)
  | Some Config =>
      a ← cfg_setup Config;
      a ← XAxiDma_Reset a;
      TimeOut ← reset_wait a (Z.to_nat XAXIDMA_RESET_TIMEOUT);
      match TimeOut with
      | O => mret (XST_DMA_ERROR, a <|Initialized := 0|>)
      | S _ => mret (XST_SUCCESS, a <|Initialized := 1|>)
      end
  end.

(** ** Starting, pausing and resuming *)

(** Read-modify-write of a channel's control register. *)
Definition cr_set (r : XAxiDma_BdRing) (Mask : Z) : ST (World D) unit :=
  v ← XAxiDma_ReadReg (ChanBase r) XAXIDMA_CR_OFFSET;
  XAxiDma_WriteReg (ChanBase r) XAXIDMA_CR_OFFSET (v .| Mask).

Definition cr_clear (r : XAxiDma_BdRing) (Mask : Z) : ST (World D) unit :=
  v ← XAxiDma_ReadReg (ChanBase r) XAXIDMA_CR_OFFSET;
  XAxiDma_WriteReg (ChanBase r) XAXIDMA_CR_OFFSET (v .& not32 Mask).

Definition XAxiDma_Started (a : XAxiDma) (RingIndex : Z) : ST (World D) bool :=
  if Initialized a =? 0 then mret false
  else
  tx ← (if negb (HasMm2S a =? 0) then XAxiDma_mBdRingHwIsStarted (XAxiDma_GetTxRing a)
        else mret true);
  if negb (tx : bool) then mret false
  else
  rx ← (if negb (HasS2Mm a =? 0) then XAxiDma_mBdRingHwIsStarted (XAxiDma_GetRxRing a RingIndex)
        else mret true);
  mret (rx : bool).

(** Starts one halted ring: through the ring in scatter-gather mode, by the
    run bit otherwise. *)
Definition ring_start (sg : bool) (r : XAxiDma_BdRing) (RingIndex : Z)
  : PT (World D) (Z * XAxiDma_BdRing) :=
  if sg then XAxiDma_BdRingStart r RingIndex
  else total (cr_set r XAXIDMA_CR_RUNSTOP_MASK);; mret (XST_SUCCESS, r).

Definition XAxiDma_Start (a : XAxiDma) (RingIndex : Z) : PT (World D) (Z * XAxiDma) :=
  if Initialized a =? 0 then mret (XST_NOT_SGDMA, a)
  else
  '(Status, a) ←
    (if negb (HasMm2S a =? 0) && (RunState (TxBdRing a) =? AXIDMA_CHANNEL_HALTED) then
       '(Status, r) ← ring_start (XAxiDma_HasSg a) (TxBdRing a) RingIndex;
       if negb (Status =? XST_SUCCESS) then mret (XST_DMA_ERROR, a <|TxBdRing := r|>)
       else mret (XST_SUCCESS, a <|TxBdRing := r <|RunState := AXIDMA_CHANNEL_NOT_HALTED|> |>)
     else mret (XST_SUCCESS, a));
  if negb (Status =? XST_SUCCESS) then mret (Status, a)
  else if negb (HasS2Mm a =? 0) then
    let r := XAxiDma_GetRxRing a RingIndex in
    if negb (RunState r =? AXIDMA_CHANNEL_HALTED) then mret (XST_SUCCESS, a)
    else
    '(Status, r) ← ring_start (XAxiDma_HasSg a) r RingIndex;
    if negb (Status =? XST_SUCCESS) then mret (XST_DMA_ERROR, put_rx a RingIndex r)
    else mret (XST_SUCCESS, put_rx a RingIndex (r <|RunState := AXIDMA_CHANNEL_NOT_HALTED|>))
  else mret (XST_SUCCESS, a).

Definition XAxiDma_Pause (a : XAxiDma) (RingIndex : Z) : ST (World D) (Z * XAxiDma) :=
  if Initialized a =? 0 then mret (XST_NOT_SGDMA, a)
  else
  a ← (if negb (HasMm2S a =? 0) then
         (if negb (XAxiDma_HasSg a) then cr_clear (TxBdRing a) XAXIDMA_CR_RUNSTOP_MASK
          else mret tt);;
         mret (a <|TxBdRing := (TxBdRing a) <|RunState := AXIDMA_CHANNEL_HALTED|> |>)
       else mret a);
  a ← (if negb (HasS2Mm a =? 0) then
         let r := XAxiDma_GetRxRing a RingIndex in
         (if negb (XAxiDma_HasSg a) then cr_clear r XAXIDMA_CR_RUNSTOP_MASK else mret tt);;
         mret (put_rx a RingIndex (r <|RunState := AXIDMA_CHANNEL_HALTED|>))
       else mret a);
  mret (XST_SUCCESS, a).

(** The two channel blocks of [XAxiDma_Resume]. *)
Definition resume_tx (a : XAxiDma) (RingIndex : Z) : PT (World D) (Z * XAxiDma) :=
  if negb (HasMm2S a =? 0) then
    '(Status, r) ← (if XAxiDma_HasSg a then XAxiDma_BdRingStart (TxBdRing a) RingIndex
                    else mret (XST_SUCCESS, TxBdRing a));
    if negb (Status =? XST_SUCCESS) then mret (XST_DMA_ERROR, a <|TxBdRing := r|>)
    else mret (XST_SUCCESS, a <|TxBdRing := r <|RunState := AXIDMA_CHANNEL_NOT_HALTED|> |>)
  else mret (XST_SUCCESS, a).

Definition resume_rx (a : XAxiDma) (RingIndex : Z) : PT (World D) (Z * XAxiDma) :=
  if negb (HasS2Mm a =? 0) then
    let r := XAxiDma_GetRxRing a RingIndex in
    '(Status, r) ← (if XAxiDma_HasSg a then XAxiDma_BdRingStart r RingIndex
                    else mret (XST_SUCCESS, r));
    if negb (Status =? XST_SUCCESS) then mret (XST_DMA_ERROR, put_rx a RingIndex r)
    else mret (XST_SUCCESS, put_rx a RingIndex (r <|RunState := AXIDMA_CHANNEL_NOT_HALTED|>))
  else mret (XST_SUCCESS, a).

Definition XAxiDma_Resume (a : XAxiDma) (RingIndex : Z) : PT (World D) (Z * XAxiDma) :=
  if Initialized a =? 0 then mret (XST_NOT_SGDMA, a)
  else
  started ← total (XAxiDma_Started a RingIndex);
  '(Status, a) ← (if negb started then XAxiDma_Start a RingIndex else mret (XST_SUCCESS, a));
  if negb (Status =? XST_SUCCESS) then mret (Status, a)
  else
  '(Status, a) ← resume_tx a RingIndex;
  if negb (Status =? XST_SUCCESS) then mret (Status, a)
  else resume_rx a RingIndex.

(** ** Simple mode *)

(** The register block of a direction. *)
Definition dir_base (a : XAxiDma) (Direction : Z) : Z :=
  u32 (RegBase a + u32 (XAXIDMA_RX_OFFSET * Direction)).

Definition XAxiDma_Busy (a : XAxiDma) (Direction : Z) : ST (World D) bool :=
  v ← XAxiDma_ReadReg (dir_base a Direction) XAXIDMA_SR_OFFSET;
  mret (negb (tst v XAXIDMA_IDLE_MASK)).

Definition XAxiDma_SelectKeyHole (a : XAxiDma) (Direction Select : Z) : ST (World D) Z :=
  Value ← XAxiDma_ReadReg (dir_base a Direction) XAXIDMA_CR_OFFSET;
  let Value := if negb (Select =? 0) then Value .| XAXIDMA_CR_KEYHOLE_MASK
               else Value .& not32 XAXIDMA_CR_KEYHOLE_MASK in
  XAxiDma_WriteReg (dir_base a Direction) XAXIDMA_CR_OFFSET Value;;
  mret XST_SUCCESS.

(** One direction of [XAxiDma_SimpleTransfer]: the code repeats it for the
    transmit and for the receive ring, with the address register of each. *)
Definition simple_transfer (a : XAxiDma) (present : bool) (r : XAxiDma_BdRing)
  (AddrOffset BuffAddr Len Direction : Z) : ST (World D) Z :=
  if (Len <? 1) || (MaxTransferLen r <? Len) then mret XST_INVALID_PARAM
  else if negb present then mret XST_FAILURE
  else
  sr ← XAxiDma_ReadReg (ChanBase r) XAXIDMA_SR_OFFSET;
  busy ← (if negb (tst sr XAXIDMA_HALTED_MASK) then XAxiDma_Busy a Direction else mret false);
  if (busy : bool) then mret XST_FAILURE
  else
  let WordBits := u32 (DataWidth r - 1) in
  if tst BuffAddr WordBits && (HasDRE r =? 0) then mret XST_INVALID_PARAM
  else
    XAxiDma_WriteReg (ChanBase r) AddrOffset BuffAddr;;
    cr_set r XAXIDMA_CR_RUNSTOP_MASK;;
    XAxiDma_WriteReg (ChanBase r) XAXIDMA_BUFFLEN_OFFSET Len;;
    mret XST_SUCCESS.

Definition XAxiDma_SimpleTransfer (a : XAxiDma) (BuffAddr Len Direction RingIndex : Z)
  : ST (World D) Z :=
  if XAxiDma_HasSg a then mret XST_FAILURE
  else if Direction =? XAXIDMA_DMA_TO_DEVICE then
    simple_transfer a (negb (HasMm2S a =? 0)) (TxBdRing a) XAXIDMA_SRCADDR_OFFSET
      BuffAddr Len Direction
  else if Direction =? XAXIDMA_DEVICE_TO_DMA then
    simple_transfer a (negb (HasS2Mm a =? 0)) (XAxiDma_GetRxRing a RingIndex)
      XAXIDMA_DESTADDR_OFFSET BuffAddr Len Direction
  else mret XST_SUCCESS.

(** ** Interrupts *)

Definition XAxiDma_IntrEnable (a : XAxiDma) (Mask Direction : Z) : ST (World D) unit :=
  v ← XAxiDma_ReadReg (dir_base a Direction) XAXIDMA_CR_OFFSET;
  XAxiDma_WriteReg (dir_base a Direction) XAXIDMA_CR_OFFSET (v .| (Mask .& XAXIDMA_IRQ_ALL_MASK)).

Definition XAxiDma_IntrDisable (a : XAxiDma) (Mask Direction : Z) : ST (World D) unit :=
  v ← XAxiDma_ReadReg (dir_base a Direction) XAXIDMA_CR_OFFSET;
  XAxiDma_WriteReg (dir_base a Direction) XAXIDMA_CR_OFFSET
    (v .& not32 (Mask .& XAXIDMA_IRQ_ALL_MASK)).

Definition XAxiDma_IntrGetIrq (a : XAxiDma) (Direction : Z) : ST (World D) Z :=
  v ← XAxiDma_ReadReg (dir_base a Direction) XAXIDMA_SR_OFFSET;
  mret (v .& XAXIDMA_IRQ_ALL_MASK).

Definition XAxiDma_IntrAckIrq (a : XAxiDma) (Mask Direction : Z) : ST (World D) unit :=
  XAxiDma_WriteReg (dir_base a Direction) XAXIDMA_SR_OFFSET (Mask .& XAXIDMA_IRQ_ALL_MASK).

End engine.
