(* ===== verification/DmaProps.v ===== *)
(** * Properties of the DMA engine

    Initialisation brings every ring to the halted, empty state whatever the
    hardware does; pausing keeps later submissions away from the hardware;
    resuming ends in bounded time; simple transfers are checked before any
    register is written. *)

From S2P Require Import Prelude Hw Bd BdRing RingGeom RingSpec RingHw RingCreate RingStart Dma.

Section engine_lemmas.
Context {D : Type} `{!RegBus D}.

(** ** Loops over the receive rings *)

(** The loop changes only the rings with an index in range, each as its body
    does. *)
Lemma rx_loop_spec (R : Z -> XAxiDma_BdRing -> XAxiDma_BdRing -> Prop) f :
  (forall i r (w : World D), R i r (st_val (f i r) w)) ->
  forall n i a w, 0 <= i -> i + Z.of_nat n <= zlen (RxBdRing a) ->
  let a' := st_val (rx_loop f n i a) w in
  a' = a <|RxBdRing := RxBdRing a'|> /\ zlen (RxBdRing a') = zlen (RxBdRing a) /\
  forall k, 0 <= k < zlen (RxBdRing a) ->
    if (i <=? k) && (k <? i + Z.of_nat n)
    then R k (XAxiDma_GetRxRing a k) (XAxiDma_GetRxRing a' k)
    else XAxiDma_GetRxRing a' k = XAxiDma_GetRxRing a k.
Proof.
  intros HR n. unfold zlen. induction n as [|n IH]; intros i a w Hi Hn; cbv zeta; cbn [rx_loop].
  { st. split_and!; [by destruct a|done|]. intros k Hk. case_if; [lia|done]. }
  st. set (r1 := st_val (f i (XAxiDma_GetRxRing a i)) w). set (w1 := st_out _ w).
  assert (Hl : length (RxBdRing (put_rx a i r1)) = length (RxBdRing a)).
  { cbn. apply length_insert. }
  destruct (IH (i + 1) (put_rx a i r1) w1 ltac:(lia) ltac:(rewrite Hl; lia)) as (E & L & K).
  rewrite Hl in *. split_and!; [etransitivity; [exact E|by destruct a]|done|].
  intros k Hk. specialize (K k Hk).
  assert (Hput : XAxiDma_GetRxRing (put_rx a i r1) k = if k =? i then r1 else XAxiDma_GetRxRing a k).
  { unfold XAxiDma_GetRxRing, put_rx. cbn. destruct (Z.eqb_spec k i) as [->|].
    - rewrite list_lookup_insert_eq by lia. done.
    - rewrite list_lookup_insert_ne by lia. done. }
  rewrite Hput in K. clear Hput. destruct (Z.eqb_spec k i) as [Ek|Ek].
  - case_if_in K; [lia|]. case_if; [|lia]. rewrite K, Ek. apply HR.
  - case_if_in K; (case_if; [|lia] || (case_if; [lia|])); done.
Qed.

Lemma rx_for_spec (R : Z -> XAxiDma_BdRing -> XAxiDma_BdRing -> Prop) f a (w : World D) :
  (forall i r (w : World D), R i r (st_val (f i r) w)) ->
  0 <= RxNumChannels a <= zlen (RxBdRing a) ->
  let a' := st_val (rx_for f a) w in
  a' = a <|RxBdRing := RxBdRing a'|> /\ zlen (RxBdRing a') = zlen (RxBdRing a) /\
  forall k, 0 <= k < RxNumChannels a -> R k (XAxiDma_GetRxRing a k) (XAxiDma_GetRxRing a' k).
Proof.
  intros HR Hn. cbv zeta. unfold rx_for.
  destruct (rx_loop_spec R f HR (Z.to_nat (RxNumChannels a)) 0 a w ltac:(lia) ltac:(lia)) as (E & L & K).
  split_and!; [done|done|]. intros k Hk. specialize (K k ltac:(lia)). case_if_in K; [done|lia].
Qed.

(** ** Initialisation *)

(** What the configuration determines of a transmit and of a receive ring;
    everything else is cleared. *)
Definition cfg_tx_ring (c : XAxiDma_Config) : XAxiDma_BdRing :=
  let r := BdRing_zero <|RunState := AXIDMA_CHANNEL_HALTED|> <|MaxTransferLen := cfg_maxlen c|> in
  if c_HasMm2S c =? 0 then r
  else r <|ChanBase := u32 (c_BaseAddr c + XAXIDMA_TX_OFFSET)|>
         <|HasStsCntrlStrm := c_HasStsCntrlStrm c|> <|HasDRE := c_HasMm2SDRE c|>
         <|DataWidth := Z.shiftr (u32 (c_Mm2SDataWidth c)) 3|>.

Definition cfg_rx_ring (c : XAxiDma_Config) : XAxiDma_BdRing :=
  let r := BdRing_zero <|RunState := AXIDMA_CHANNEL_HALTED|> <|IsRxChannel := 1|> in
  if c_HasS2Mm c =? 0 then r
  else r <|ChanBase := u32 (c_BaseAddr c + XAXIDMA_RX_OFFSET)|>
         <|HasStsCntrlStrm := c_HasStsCntrlStrm c|> <|HasDRE := c_HasS2MmDRE c|>
         <|DataWidth := Z.shiftr (u32 (c_S2MmDataWidth c)) 3|>
         <|MaxTransferLen := cfg_maxlen c|>.

(** An instance of the configured shape: its global fields are those of the
    configuration, its transmit ring satisfies [P] and its receive rings [Q]. *)
Record shape (c : XAxiDma_Config) (P Q : XAxiDma_BdRing -> Prop) (a : XAxiDma) : Prop := {
  sh_base : RegBase a = c_BaseAddr c;
  sh_mm2s : HasMm2S a = c_HasMm2S c;
  sh_s2mm : HasS2Mm a = c_HasS2Mm c;
  sh_sg : HasSg a = c_HasSg c;
  sh_txn : TxNumChannels a = c_Mm2sNumChannels c;
  sh_rxn : RxNumChannels a = c_S2MmNumChannels c;
  sh_len : zlen (RxBdRing a) = 16;
  sh_tx : P (TxBdRing a);
  sh_rx : forall k, 0 <= k < c_S2MmNumChannels c -> Q (XAxiDma_GetRxRing a k);
}.

Section shape.
Context (c : XAxiDma_Config) (Hn : 0 <= c_S2MmNumChannels c <= 16).

Lemma shape_rx_for (P Q Q' : XAxiDma_BdRing -> Prop) f a (w : World D) :
  (forall i r (w : World D), Q r -> Q' (st_val (f i r) w)) -> shape c P Q a ->
  shape c P Q' (st_val (rx_for f a) w).
Proof.
  intros Hf []. 
  destruct (rx_for_spec (fun _ r r' => Q r -> Q' r') f a w ltac:(auto) ltac:(lia)) as (E & L & K).
  set (a' := st_val (rx_for f a) w) in *.
  assert (Hall : forall k, 0 <= k < c_S2MmNumChannels c -> Q' (XAxiDma_GetRxRing a' k)).
  { intros k Hk. apply K; [lia|auto]. }
  split; [rewrite E; done..|now rewrite L|rewrite E; done|done].
Qed.

Lemma shape_tx (P P' Q : XAxiDma_BdRing -> Prop) a r :
  P' r -> shape c P Q a -> shape c P' Q (a <|TxBdRing := r|>).
Proof. intros HP []. by split. Qed.

Lemma zero_rx k : 0 <= k < 16 -> XAxiDma_GetRxRing XAxiDma_zero k = BdRing_zero.
Proof.
  intros. unfold XAxiDma_GetRxRing.
  change (RxBdRing XAxiDma_zero) with (replicate 16 BdRing_zero).
  now rewrite lookup_replicate_2 by lia.
Qed.

Lemma cfg_setup_shape (w : World D) :
  shape c (eq (cfg_tx_ring c)) (eq (cfg_rx_ring c)) (st_val (cfg_setup c) w).
Proof.
  unfold cfg_setup. st.
  assert (S0 : shape c (eq (TxBdRing (cfg_head c))) (eq BdRing_zero) (cfg_head c)).
  { split; try done. intros k Hk. symmetry. apply (zero_rx k). lia. }
  set (rx0 := BdRing_zero <|RunState := AXIDMA_CHANNEL_HALTED|> <|IsRxChannel := 1|>).
  assert (S1 : shape c (eq (TxBdRing (cfg_head c))) (eq rx0) (st_val (cfg_rx_state (cfg_head c)) w)).
  { eapply shape_rx_for; [|exact S0]. by intros i r w' <-. }
  set (a1 := st_val (cfg_rx_state _) w) in *. set (w1 := st_out _ w).
  assert (S2 : shape c (eq (cfg_tx_ring c)) (eq rx0) (cfg_tx c a1)).
  { unfold cfg_tx, cfg_tx_ring. rewrite (sh_mm2s _ _ _ _ S1). destruct (c_HasMm2S c =? 0); [done|].
    eapply shape_tx; [|exact S1]. now rewrite <- (sh_tx _ _ _ _ S1). }
  unfold cfg_rx, cfg_rx_ring. rewrite (sh_s2mm _ _ _ _ S2).
  destruct (c_HasS2Mm c =? 0); [done|]. eapply shape_rx_for; [|exact S2]. by intros i r w' <-.
Qed.

(** The reset only records where the rings were and marks them halted. *)
Definition up_to_restart (r0 r : XAxiDma_BdRing) : Prop := exists b, r = r0 <|BdaRestart := b|>.

Lemma reset_shape a (w : World D) :
  shape c (eq (cfg_tx_ring c)) (eq (cfg_rx_ring c)) a ->
  shape c (up_to_restart (cfg_tx_ring c)) (up_to_restart (cfg_rx_ring c)) (st_val (XAxiDma_Reset a) w).
Proof.
  intros S. assert (Hmono : shape c (up_to_restart (cfg_tx_ring c)) (up_to_restart (cfg_rx_ring c)) a).
  { destruct S as [? ? ? ? ? ? ? Ht Hr]. split; try done.
    - exists 0. rewrite <- Ht. unfold cfg_tx_ring. by destruct (c_HasMm2S c =? 0).
    - intros k Hk. exists 0. rewrite <- (Hr k Hk). unfold cfg_rx_ring. by destruct (c_HasS2Mm c =? 0). }
  unfold XAxiDma_Reset. rewrite st_val_bind.
  set (a1 := st_val (if XAxiDma_HasSg a then _ else _) w). set (w1 := st_out _ w).
  assert (S1 : shape c (up_to_restart (cfg_tx_ring c)) (up_to_restart (cfg_rx_ring c)) a1).
  { unfold a1. destruct (XAxiDma_HasSg a); [|done]. st. eapply shape_rx_for.
    2:{ eapply shape_tx; [|exact Hmono]. unfold XAxiDma_mBdRingSnapShotCurrBd, XAxiDma_GetTxRing. st.
        rewrite <- (sh_tx _ _ _ _ S). by eexists. }
    intros i r w' [b ->]. unfold XAxiDma_mBdRingSnapShotCurrBd. st. by eexists. }
  st. set (a2 := if negb (HasMm2S a1 =? 0) then _ else _).
  assert (S2 : shape c (up_to_restart (cfg_tx_ring c)) (up_to_restart (cfg_rx_ring c)) a2).
  { unfold a2. case_if; [|done]. eapply shape_tx; [|exact S1].
    destruct (sh_tx _ _ _ _ S1) as [b ->]. exists b. unfold cfg_tx_ring.
    by destruct (c_HasMm2S c =? 0). }
  eapply shape_rx_for; [|exact S2]. intros i r w' [b ->]. exists b. st. unfold cfg_rx_ring.
  by destruct (c_HasS2Mm c =? 0), (HasS2Mm a2 =? 0).
Qed.

Lemma shape_initialized P Q a v : shape c P Q a -> shape c P Q (a <|Initialized := v|>).
Proof. intros []. by split. Qed.

End shape.

(** The outcome of the polling loop on hardware that finishes its reset at
    once, and on hardware that never does. *)
Lemma reset_wait_done a n (w : World D) :
  (forall w : World D, st_val (XAxiDma_ResetIsDone a) w = 1) -> (0 < n)%nat ->
  st_val (reset_wait a n) w = n.
Proof. intros H Hn. destruct n; [lia|]. cbn [reset_wait]. st. now rewrite H. Qed.

Lemma reset_wait_stuck a n : (forall w : World D, st_val (XAxiDma_ResetIsDone a) w = 0) ->
  forall w, st_val (reset_wait a n) w = O.
Proof.
  intros H. induction n as [|n IH]; intros w; cbn [reset_wait]; [done|]. st. rewrite H. cbn. apply IH.
Qed.

End engine_lemmas.

(** ** Properties *)

(** Initialisation with a configuration of at most sixteen receive
    channels always returns after at most 500 polls.  Whatever the hardware
    does, the instance then has exactly the configured shape, with all rings
    empty, halted and at their register block; it is marked initialised iff the
    result is [XST_SUCCESS], and the only other result is [XST_DMA_ERROR].
    Hardware whose reset bit reads low gives the former, hardware that keeps it
    high the latter. *)
Theorem dma_init_configures {D} `{!RegBus D} a c (w : World D) :
  0 <= c_S2MmNumChannels c <= 16 ->
  let '(st, a') := st_val (XAxiDma_CfgInitialize a (Some c)) w in
  shape c (up_to_restart (cfg_tx_ring c)) (up_to_restart (cfg_rx_ring c)) a' /\
  (st = XST_SUCCESS /\ Initialized a' = 1 \/ st = XST_DMA_ERROR /\ Initialized a' = 0) /\
  ((forall x (d : D), tst (u32 (bus_read x d).1) XAXIDMA_CR_RESET_MASK = false) ->
   st = XST_SUCCESS) /\
  ((forall x (d : D), tst (u32 (bus_read x d).1) XAXIDMA_CR_RESET_MASK = true) ->
   c_HasMm2S c <> 0 \/ c_HasS2Mm c <> 0 -> st = XST_DMA_ERROR).
Proof.
  intros Hn. unfold XAxiDma_CfgInitialize. st.
  pose proof (cfg_setup_shape c Hn w) as S0. set (a0 := st_val (cfg_setup c) w) in *.
  set (w0 := st_out (cfg_setup c) w) in *. pose proof (reset_shape c Hn a0 w0 S0) as S1.
  set (a1 := st_val (XAxiDma_Reset a0) w0) in *. set (w1 := st_out (XAxiDma_Reset a0) w0).
  assert (Hrd : forall b o (w' : World D) v,
    (forall x (d : D), tst (u32 (bus_read x d).1) XAXIDMA_CR_RESET_MASK = v) ->
    tst (st_val (XAxiDma_ReadReg b o) w') XAXIDMA_CR_RESET_MASK = v).
  { intros b o w' v Hv. unfold st_val, XAxiDma_ReadReg. rewrite <- (Hv (u32 (b + o)) (w_dev w')).
    by destruct (bus_read _ _). }
  assert (Hdone : (forall x (d : D), tst (u32 (bus_read x d).1) XAXIDMA_CR_RESET_MASK = false) ->
    forall w' : World D, st_val (XAxiDma_ResetIsDone a1) w' = 1).
  { intros Hv w'. unfold XAxiDma_ResetIsDone. st. destruct (HasMm2S a1 =? 0), (HasS2Mm a1 =? 0);
      cbn [negb]; st; rewrite ?(Hrd _ _ _ _ Hv); st; rewrite ?(Hrd _ _ _ _ Hv); done. }
  assert (Hstuck : (forall x (d : D), tst (u32 (bus_read x d).1) XAXIDMA_CR_RESET_MASK = true) ->
    c_HasMm2S c <> 0 \/ c_HasS2Mm c <> 0 ->
    forall w' : World D, st_val (XAxiDma_ResetIsDone a1) w' = 0).
  { intros Hv Hc w'. unfold XAxiDma_ResetIsDone. rewrite (sh_mm2s _ _ _ _ S1), (sh_s2mm _ _ _ _ S1).
    st. destruct (Z.eqb_spec (c_HasMm2S c) 0), (Z.eqb_spec (c_HasS2Mm c) 0); cbn [negb]; st;
      rewrite ?(Hrd _ _ _ _ Hv); st; rewrite ?(Hrd _ _ _ _ Hv); try done; tauto. }
  assert (Hf : (forall x (d : D), tst (u32 (bus_read x d).1) XAXIDMA_CR_RESET_MASK = false) ->
    st_val (reset_wait a1 (Z.to_nat XAXIDMA_RESET_TIMEOUT)) w1 = 500%nat).
  { intros Hv. apply reset_wait_done; [by apply Hdone|]. cbn. lia. }
  assert (Hs : (forall x (d : D), tst (u32 (bus_read x d).1) XAXIDMA_CR_RESET_MASK = true) ->
    c_HasMm2S c <> 0 \/ c_HasS2Mm c <> 0 ->
    st_val (reset_wait a1 (Z.to_nat XAXIDMA_RESET_TIMEOUT)) w1 = O).
  { intros Hv Hc. apply reset_wait_stuck. by apply Hstuck. }
  set (t := st_val (reset_wait a1 _) w1) in *. clearbody t. destruct t as [|t]; st;
    (split_and!; [by apply shape_initialized|auto|intros Hv|intros Hv Hc]); try done.
  - specialize (Hf Hv). done.
  - specialize (Hs Hv Hc). done.
Qed.

Definition demo_cfg : XAxiDma_Config := mkConfig 0 0x10000 0 1 0 32 1 0 32 1 1 1.

Lemma dma_init_configures_witness :
  (st_val (XAxiDma_CfgInitialize XAxiDma_zero (Some demo_cfg)) (mkWorld ∅ (∅ : RegFile))).1
    = XST_DMA_ERROR.
Proof.
  pose proof (dma_init_configures XAxiDma_zero demo_cfg (mkWorld ∅ (∅ : RegFile)) ltac:(cbn; lia)) as H.
  destruct (st_val _ _) as [st a'] eqn:E. cbn.
  destruct H as (_ & [[-> _]|[-> _]] & _); [exfalso|reflexivity].
  assert (F : (st_val (XAxiDma_CfgInitialize XAxiDma_zero (Some demo_cfg))
    (mkWorld ∅ (∅ : RegFile))).1 = XST_DMA_ERROR) by (vm_compute; reflexivity).
  rewrite E in F. discriminate F.
Defined.

Lemma get_put_rx a ix r : 0 <= ix < zlen (RxBdRing a) -> XAxiDma_GetRxRing (put_rx a ix r) ix = r.
Proof.
  unfold zlen. intros H. unfold XAxiDma_GetRxRing, put_rx. cbn.
  now rewrite list_lookup_insert_eq by lia.
Qed.

(** A halted ring never touches the device when descriptors are submitted. *)
Lemma tohw_halted_dev {D} `{!RegBus D} r n bd ix (w : World D) :
  RunState r = AXIDMA_CHANNEL_HALTED ->
  w_dev (st_out (XAxiDma_BdRingToHw r n bd ix) w) = w_dev w.
Proof.
  intros Hr. unfold XAxiDma_BdRingToHw. do 3 (case_if; [done|]). st.
  assert (Hd : w_dev (st_out (on_mem (D:=D) (bdring_tohw_bds r n bd)) w) = w_dev w).
  { unfold st_out, on_mem. now destruct (bdring_tohw_bds r n bd (w_mem w)). }
  destruct (st_val (on_mem _) w); [|done]. cbn [RunState set_field set_HwCnt set_HwTail set_PreCnt set_PreHead].
  rewrite Hr. cbn. st. exact Hd.
Qed.

(** Pausing a scatter-gather engine touches no register and from then on
    no submission to the paused rings reaches the hardware, whatever set is
    submitted. *)
Theorem pause_quiesces {D} `{!RegBus D} a ix (w : World D) :
  Initialized a <> 0 -> HasSg a <> 0 -> HasMm2S a <> 0 -> HasS2Mm a <> 0 ->
  0 <= ix < zlen (RxBdRing a) ->
  exists a', XAxiDma_Pause a ix w = ((XST_SUCCESS, a'), w) /\
  forall n bd (w1 : World D),
    w_dev (st_out (XAxiDma_BdRingToHw (XAxiDma_GetTxRing a') n bd ix) w1) = w_dev w1 /\
    w_dev (st_out (XAxiDma_BdRingToHw (XAxiDma_GetRxRing a' ix) n bd ix) w1) = w_dev w1.
Proof.
  intros Hi Hs Ht Hr Hx. unfold XAxiDma_Pause. case_if; [done|]. unfold XAxiDma_HasSg.
  rewrite st_bind_eq. case_if; [|lia]. cbn [HasSg HasS2Mm set_field set_TxBdRing].
  destruct (Z.eqb_spec (HasSg a) 0); [done|]. cbn [negb].
  st. cbn [HasS2Mm HasSg set_field set_TxBdRing]. destruct (Z.eqb_spec (HasS2Mm a) 0); [done|].
  destruct (Z.eqb_spec (HasSg a) 0); [done|]. cbn [negb]. st.
  eexists. split; [reflexivity|]. intros nb bd w1.
  split; apply tohw_halted_dev; [done|]. now rewrite get_put_rx.
Qed.

Definition demo_dma : XAxiDma := (st_val (XAxiDma_CfgInitialize XAxiDma_zero (Some demo_cfg))
  (mkWorld ∅ (∅ : RegFile))).2 <|Initialized := 1|>.

Lemma pause_quiesces_witness : exists a',
  XAxiDma_Pause demo_dma 0 (mkWorld ∅ (∅ : RegFile)) =
  ((XST_SUCCESS, a'), mkWorld ∅ (∅ : RegFile)).
Proof.
  destruct (pause_quiesces demo_dma 0 (mkWorld ∅ (∅ : RegFile))) as (a' & E & _);
    [vm_compute; discriminate..|vm_compute; intuition congruence|].
  exists a'. exact E.
Defined.

(** Closes an outcome whose state is known. *)
Ltac outcome := do 3 eexists; split; [reflexivity|]; first [split_and!; solve [auto] | solve [auto]].

Section resume.
Context {D : Type} `{!RegBus D}.

(** A ring that may be started: linked up, with its restart descriptor in it. *)
Definition startable (r : XAxiDma_BdRing) : Prop := geom r /\ exists i, restart_at r i.

Lemma startable_run r v : startable r -> startable (r <|RunState := v|>).
Proof.
  intros [G [i H]]. split; [eapply (same_geom_geom r); [by auto with drv|done]|].
  exists i. exact H.
Qed.

(** Starting a startable ring ends, and the ring stays startable. *)
Lemma start_startable r ix (w : World D) : startable r ->
  exists st r' w', XAxiDma_BdRingStart r ix w = Some ((st, r'), w') /\ startable r' /\
  (st = XST_SUCCESS \/ st = XST_DMA_ERROR).
Proof.
  intros [G [i H]]. destruct (start_ring r ix i w G H) as (st & r' & w' & E & _ & Hc).
  exists st, r', w'. split; [exact E|]. destruct Hc as [[-> ->]|[-> ->]]; split; auto.
  - apply startable_run. split; eauto.
  - split; eauto.
Qed.

Lemma ring_start_startable sg r ix (w : World D) : startable r ->
  exists st r' w', ring_start sg r ix w = Some ((st, r'), w') /\ startable r' /\
  (st = XST_SUCCESS \/ st = XST_DMA_ERROR).
Proof.
  intros S. unfold ring_start. destruct sg; [by apply start_startable|].
  rewrite pt_bind_total. do 3 eexists. split; [reflexivity|]. auto.
Qed.

(** The engine's rings for index [ix] can be started. *)
Definition engine_ok (a : XAxiDma) (ix : Z) : Prop :=
  0 <= ix < zlen (RxBdRing a) /\ startable (TxBdRing a) /\ startable (XAxiDma_GetRxRing a ix).

Lemma engine_ok_tx a ix r : engine_ok a ix -> startable r -> engine_ok (a <|TxBdRing := r|>) ix.
Proof. intros (? & ? & ?) ?. done. Qed.

Lemma engine_ok_rx a ix r : engine_ok a ix -> startable r -> engine_ok (put_rx a ix r) ix.
Proof.
  intros (Hx & ? & ?) ?. unfold engine_ok. rewrite get_put_rx by done.
  assert (zlen (RxBdRing (put_rx a ix r)) = zlen (RxBdRing a)) as ->; [|done].
  unfold zlen, put_rx. cbn. now rewrite length_insert.
Qed.

(** The outcome of starting or resuming an engine. *)
Definition start_outcome (a : XAxiDma) (ix : Z) (res : option ((Z * XAxiDma) * World D)) : Prop :=
  exists st a' w', res = Some ((st, a'), w') /\ engine_ok a' ix /\
  (st = XST_SUCCESS \/ st = XST_DMA_ERROR) /\
  Initialized a' = Initialized a /\ HasMm2S a' = HasMm2S a /\ HasS2Mm a' = HasS2Mm a /\
  HasSg a' = HasSg a.

Lemma start_engine a ix (w : World D) : Initialized a <> 0 -> engine_ok a ix ->
  start_outcome a ix (XAxiDma_Start a ix w).
Proof.
  intros Hi O. unfold XAxiDma_Start. case_if; [done|].
  set (tx := if negb (HasMm2S a =? 0) && _ then _ else _).
  assert (Htx : start_outcome a ix (tx w)).
  { unfold tx. case_if; [|outcome].
    destruct (ring_start_startable (XAxiDma_HasSg a) (TxBdRing a) ix w) as (st & r' & w' & E' & S' & C');
      [by destruct O as (_ & ? & _)|].
    rewrite (pt_bind_some _ _ _ _ _ E'). destruct C' as [->| ->]; cbn [negb Z.eqb XST_SUCCESS XST_DMA_ERROR];
      (do 3 eexists; split; [reflexivity|]; split; [|split_and!; auto]);
      apply engine_ok_tx; auto using startable_run. }
  destruct Htx as (st & a1 & w1 & Etx & O1 & C1 & F1). rewrite (pt_bind_some _ _ _ _ _ Etx).
  destruct C1 as [->| ->]; cbn [negb Z.eqb XST_SUCCESS XST_DMA_ERROR].
  2:{ outcome. }
  case_if; [|outcome].
  case_if; [outcome|].
  destruct (ring_start_startable (XAxiDma_HasSg a1) (XAxiDma_GetRxRing a1 ix) ix w1)
    as (st & r' & w' & E' & S' & C'); [by destruct O1 as (_ & _ & ?)|].
  rewrite (pt_bind_some _ _ _ _ _ E'). destruct C' as [->| ->]; cbn [negb Z.eqb XST_SUCCESS XST_DMA_ERROR];
    (do 3 eexists; split; [reflexivity|]; split; [|split; [auto|exact F1]]); apply engine_ok_rx; auto using startable_run.
Qed.

Lemma resume_start (sg : bool) r ix (w : World D) : startable r -> exists st r' w',
  (if sg then XAxiDma_BdRingStart r ix else mret (XST_SUCCESS, r)) w = Some ((st, r'), w')
  /\ startable r' /\ (st = XST_SUCCESS \/ st = XST_DMA_ERROR).
Proof. intros S. destruct sg; [by apply start_startable|]. outcome. Qed.

Lemma resume_tx_spec a ix (w : World D) : engine_ok a ix -> HasMm2S a <> 0 ->
  exists st r' w', resume_tx a ix w = Some ((st, a <|TxBdRing := r'|>), w') /\ startable r' /\
  (st = XST_SUCCESS /\ RunState r' = AXIDMA_CHANNEL_NOT_HALTED \/ st = XST_DMA_ERROR).
Proof.
  intros (_ & S & _) H. unfold resume_tx. case_if; [|lia].
  destruct (resume_start (XAxiDma_HasSg a) (TxBdRing a) ix w S) as (st & r' & w' & E' & S' & C').
  rewrite (pt_bind_some _ _ _ _ _ E'). destruct C' as [->| ->];
    (do 3 eexists; split; [reflexivity|]; split; auto using startable_run).
Qed.

Lemma resume_rx_spec a ix (w : World D) : engine_ok a ix -> HasS2Mm a <> 0 ->
  exists st r' w', resume_rx a ix w = Some ((st, put_rx a ix r'), w') /\ startable r' /\
  (st = XST_SUCCESS /\ RunState r' = AXIDMA_CHANNEL_NOT_HALTED \/ st = XST_DMA_ERROR).
Proof.
  intros (_ & _ & S) H. unfold resume_rx. case_if; [|lia].
  destruct (resume_start (XAxiDma_HasSg a) (XAxiDma_GetRxRing a ix) ix w S)
    as (st & r' & w' & E' & S' & C').
  rewrite (pt_bind_some _ _ _ _ _ E'). destruct C' as [->| ->];
    (do 3 eexists; split; [reflexivity|]; split; auto using startable_run).
Qed.

End resume.

(** A ring of one descriptor on both channels. *)
Definition resume_demo : XAxiDma :=
  let r := created BdRing_zero 0x1000 0x80001000 0x40 1 in
  put_rx (XAxiDma_zero <|Initialized := 1|> <|HasMm2S := 1|> <|HasS2Mm := 1|> <|HasSg := 1|>
    <|TxBdRing := r|>) 0 (created BdRing_zero 0x2000 0x80002000 0x40 1).

Lemma resume_demo_ok : engine_ok resume_demo 0.
Proof.
  assert (A : forall p v, create_args p v 0x40 1 -> startable (created BdRing_zero p v 0x40 1)).
  { intros p v CA. split; [by apply created_geom|]. exists 0.
    unfold restart_at. rewrite virt_to_phys_at by (apply created_geom, CA || (cbn; lia)).
    destruct CA as [_ _ _ _ [Hp _] _ _ _]. cbn. rewrite Z.add_0_r. symmetry. by apply u32_small. }
  split; [vm_compute; intuition congruence|]. split; apply A; split; try done; unfold is_u32; lia.
Qed.

(** Resuming an initialised engine with startable rings always finishes:
    with [XST_SUCCESS] and then both channels are marked running, or with
    [XST_DMA_ERROR].  (An engine that was not initialised gives
    [XST_NOT_SGDMA] and is not touched.) *)
Theorem resume_runs {D} `{!RegBus D} a ix (w : World D) : engine_ok a ix ->
  HasMm2S a <> 0 -> HasS2Mm a <> 0 ->
  exists st a' w', XAxiDma_Resume a ix w = Some ((st, a'), w') /\
  (Initialized a = 0 /\ st = XST_NOT_SGDMA /\ a' = a /\ w' = w \/
   Initialized a <> 0 /\ st = XST_DMA_ERROR \/
   Initialized a <> 0 /\ st = XST_SUCCESS /\
   RunState (XAxiDma_GetTxRing a') = AXIDMA_CHANNEL_NOT_HALTED /\
   RunState (XAxiDma_GetRxRing a' ix) = AXIDMA_CHANNEL_NOT_HALTED).
Proof.
  intros O Ht Hr. unfold XAxiDma_Resume. case_if; [outcome|].
  rewrite pt_bind_total. set (w0 := st_out _ w).
  set (m0 := if negb _ then XAxiDma_Start a ix else _).
  assert (H0 : start_outcome a ix (m0 w0)).
  { unfold m0. case_if; [by apply start_engine|]. outcome. }
  destruct H0 as (st & a1 & w1 & E1 & O1 & C1 & F1 & F2 & F3 & F4). rewrite (pt_bind_some _ _ _ _ _ E1).
  destruct C1 as [->| ->]; cbn [negb Z.eqb XST_SUCCESS XST_DMA_ERROR].
  2:{ outcome. }
  destruct (resume_tx_spec a1 ix w1 O1 ltac:(congruence)) as (st & r2 & w2 & E2 & S2 & C2).
  rewrite (pt_bind_some _ _ _ _ _ E2).
  destruct C2 as [[-> R2]| ->]; cbn [negb Z.eqb XST_SUCCESS XST_DMA_ERROR]; [|outcome].
  destruct (resume_rx_spec _ ix w2 (engine_ok_tx _ _ r2 O1 S2) ltac:(cbn; congruence))
    as (st & r3 & w3 & E3 & S3 & C3).
  rewrite E3. destruct C3 as [[-> R3]| ->]; (do 3 eexists; split; [reflexivity|]); [|auto].
  right. right. split_and!; [done|done|done|]. rewrite get_put_rx; [done|apply O1].
Qed.

Lemma resume_runs_witness : exists st a' w',
  XAxiDma_Resume resume_demo 0 (mkWorld ∅ (∅ : RegFile)) = Some ((st, a'), w').
Proof.
  destruct (resume_runs resume_demo 0 (mkWorld ∅ (∅ : RegFile)) resume_demo_ok)
    as (st & a' & w' & E & _); [vm_compute; discriminate..|].
  exists st, a', w'. exact E.
Defined.

(** ** Simple transfers *)

(** A simple transfer is submitted exactly when the engine has no
    scatter-gather mode, the direction is built in, the length is between one
    and the channel's limit, the channel is halted or idle and the buffer is
    aligned (or the channel realigns); the address, the run bit and then the
    length are written in this order.  Otherwise no register is written. *)
Theorem simple_transfer_checked {D} `{!RegBus D} a addr len ix (w : World D) :
  let r := TxBdRing a in
  let rd := XAxiDma_ReadReg (ChanBase r) XAXIDMA_SR_OFFSET w in
  let bz := if tst rd.1 XAXIDMA_HALTED_MASK then (false, rd.2)
            else XAxiDma_Busy a XAXIDMA_DMA_TO_DEVICE rd.2 in
  XAxiDma_SimpleTransfer a addr len XAXIDMA_DMA_TO_DEVICE ix w =
  if XAxiDma_HasSg a then (XST_FAILURE, w)
  else if (len <? 1) || (MaxTransferLen r <? len) then (XST_INVALID_PARAM, w)
  else if HasMm2S a =? 0 then (XST_FAILURE, w)
  else if bz.1 then (XST_FAILURE, bz.2)
  else if tst addr (u32 (DataWidth r - 1)) && (HasDRE r =? 0) then (XST_INVALID_PARAM, bz.2)
  else
    let w3 := st_out (XAxiDma_WriteReg (ChanBase r) XAXIDMA_SRCADDR_OFFSET addr) bz.2 in
    let w4 := st_out (cr_set r XAXIDMA_CR_RUNSTOP_MASK) w3 in
    (XST_SUCCESS, st_out (XAxiDma_WriteReg (ChanBase r) XAXIDMA_BUFFLEN_OFFSET len) w4).
Proof.
  cbv zeta. unfold XAxiDma_SimpleTransfer. destruct (XAxiDma_HasSg a); [done|].
  rewrite (Z.eqb_refl XAXIDMA_DMA_TO_DEVICE). unfold simple_transfer.
  case_if; [done|]. destruct (HasMm2S a =? 0); [done|]. cbn [negb].
  rewrite st_bind_eq. unfold st_val at 1, st_out at 1.
  destruct (XAxiDma_ReadReg _ _ w) as [sr w1]. cbn [fst snd]. rewrite st_bind_eq.
  destruct (tst sr XAXIDMA_HALTED_MASK); cbn [negb].
  - st. cbn [fst snd]. case_if; [done|]. now st.
  - unfold st_val at 1, st_out at 1. destruct (XAxiDma_Busy _ _ w1) as [busy w2]. cbn [fst snd].
    destruct busy; [done|]. case_if; [done|]. now st.
Qed.

(** ** Interrupts *)

(** Enabling interrupts sets exactly the named interrupt bits of the
    direction's control register and disabling clears exactly them: bits
    outside the mask, among them the run bit, keep their value. *)
Theorem intr_enable_disable {D} `{!RegBus D} a Mask dir (w : World D) :
  RegReadback D (u32 (dir_base a dir + XAXIDMA_CR_OFFSET)) 0xFFFFFFFF -> is_u32 Mask ->
  let cr w := st_val (XAxiDma_ReadReg (dir_base a dir) XAXIDMA_CR_OFFSET) w in
  let M := Mask .& XAXIDMA_IRQ_ALL_MASK in
  cr (st_out (XAxiDma_IntrEnable a Mask dir) w) = (cr w .| M) /\
  cr (st_out (XAxiDma_IntrDisable a Mask dir) w) = Z.ldiff (cr w) M /\
  (M .& XAXIDMA_CR_RUNSTOP_MASK) = 0.
Proof.
  intros RB HM. cbv zeta.
  pose proof (ReadReg_u32 (dir_base a dir) XAXIDMA_CR_OFFSET w) as Hu.
  unfold XAxiDma_IntrEnable, XAxiDma_IntrDisable. st. split_and!.
  - apply readback_val; [done|]. auto with drv.
  - rewrite readback_val; [by apply land_not32|done|]. auto with drv.
  - rewrite <- Z.land_assoc. apply Z.land_0_r.
Qed.

Lemma intr_enable_disable_witness :
  st_val (XAxiDma_ReadReg (dir_base demo_dma 1) XAXIDMA_CR_OFFSET)
    (st_out (XAxiDma_IntrEnable demo_dma XAXIDMA_IRQ_IOC_MASK 1) (mkWorld ∅ (∅ : RegFile)))
  = (st_val (XAxiDma_ReadReg (dir_base demo_dma 1) XAXIDMA_CR_OFFSET) (mkWorld ∅ (∅ : RegFile))
     .| (XAXIDMA_IRQ_IOC_MASK .& XAXIDMA_IRQ_ALL_MASK)).
Proof.
  assert (H : is_u32 XAXIDMA_IRQ_IOC_MASK) by (unfold is_u32, XAXIDMA_IRQ_IOC_MASK; lia).
  exact (proj1 (intr_enable_disable demo_dma XAXIDMA_IRQ_IOC_MASK 1 (mkWorld ∅ (∅ : RegFile))
    (regfile_readback _ _) H)).
Defined.
