(* ===== verification/DmaBuf.v ===== *)
(** * Scatter-gather buffers of the AES driver

    Models the [dma_buf_*] functions of [linux-drv/aesdma.c]: a request's
    buffer is either one mapped address or a private copy of the part of the
    caller's scatter list that covers the request.  [dma_buf_first] and
    [dma_buf_next] iterate over the segments; the number of segments given out
    must be the number of descriptors that [dma_buf_cnt] made the driver
    allocate. *)

From S2P Require Import Prelude Kernel Hw RingSpec.

(** One entry of a mapped scatter list. *)
Record sg_ent : Type := mkSg { sg_dma_address : Z; sg_dma_len : Z }.

(** A [struct scatterlist *] is the list of the remaining entries. *)
Abbreviation sglist := (list sg_ent).

Inductive dma_buf_t : Type :=
| BufSg (sg : sglist) (cnt sz : Z) (_sg : sglist) (_i _len : Z)
| BufAddr (dma len : Z).

(** A buffer in a descriptor cleared by [memset] ([DMA_TYPE_SG] is 0). *)
Definition dma_buf_zero : dma_buf_t := BufSg [] 0 0 [] 0 0.


(** [for_each_sg (sg_list, sg, sg_cnt, i)] with the early exit. *)
Fixpoint sg_cnt_update (sg_list : sglist) (sg_cnt : nat) (tsz : Z) : Z :=
  match sg_cnt, sg_list with
  | S n, sg :: rest =>
      let len := Z.min (s32 (sg_dma_len sg)) tsz in
      let tsz := tsz - len in
      if tsz =? 0 then 1 else 1 + sg_cnt_update rest n tsz
  | _, _ => 0
  end.

(** [alloc] tells whether [sg_alloc_table] found memory. *)
Definition dma_buf_sg_init (alloc : bool) (buf : dma_buf_t) (sg_list : sglist) (cnt sz : Z)
  : Z * dma_buf_t :=
  let sg_cnt := sg_cnt_update sg_list (Z.to_nat cnt) sz in
  if negb alloc then (- ENOMEM, buf)
  else (0, BufSg (take (Z.to_nat sg_cnt) sg_list) sg_cnt sz [] 0 0).

Definition dma_buf_list_init (alloc : bool) (buf : dma_buf_t) (dma : list Z) (cnt len : Z)
  : Z * dma_buf_t :=
  if negb alloc then (- ENOMEM, buf)
  else (0, BufSg ((fun d => mkSg d (u32 len)) <$> take (Z.to_nat cnt) dma) cnt (len * cnt) [] 0 0).

Definition dma_buf_addr_init (dma len : Z) : Z * dma_buf_t := (0, BufAddr dma len).

Definition dma_buf_cnt (buf : dma_buf_t) : Z :=
  match buf with
  | BufAddr _ _ => 1
  | BufSg _ cnt _ _ _ _ => cnt
  end.

(** The segment under a list pointer. *)
Definition sg_seg (sg : sglist) : sg_ent := default (mkSg 0 0) (head sg).

(** Length and address of the first segment, and the buffer with its cursor. *)
Definition dma_buf_first (buf : dma_buf_t) : Z * Z * dma_buf_t :=
  match buf with
  | BufAddr dma len => (len, dma, buf)
  | BufSg sg cnt sz _ _ _ =>
      let s := sg_seg sg in
      let res := Z.min (s32 (sg_dma_len s)) sz in
      (res, sg_dma_address s, BufSg sg cnt sz sg 1 (sz - res))
  end.

(** Length 0 ends the iteration; the address is then left alone. *)
Definition dma_buf_next (buf : dma_buf_t) (addr : Z) : Z * Z * dma_buf_t :=
  match buf with
  | BufAddr _ _ => (0, addr, buf)
  | BufSg sg cnt sz cur i rem =>
      if i <? cnt
      then let cur := tail cur in
           let s := sg_seg cur in
           let res := Z.min (s32 (sg_dma_len s)) rem in
           (res, sg_dma_address s, BufSg sg cnt sz cur (i + 1) (rem - res))
      else (0, addr, buf)
  end.

(** ** The segments of a buffer *)

(** The segments after the first one, as the submission loop sees them. *)
Fixpoint segs_from (n : nat) (buf : dma_buf_t) (addr : Z) : list (Z * Z) :=
  match n with
  | O => []
  | S n =>
      let '(len, addr, buf) := dma_buf_next buf addr in
      if 0 <? len then (addr, len) :: segs_from n buf addr else []
  end.

(** All segments, address and length; the loop body runs at least once. *)
Definition dma_buf_segs (buf : dma_buf_t) : list (Z * Z) :=
  let '(len, addr, buf1) := dma_buf_first buf in
  (addr, len) :: segs_from (Z.to_nat (dma_buf_cnt buf)) buf1 addr.

(** The reference: the entries of a scatter list cut off at [sz] bytes. *)
Fixpoint sg_cut (sg : sglist) (sz : Z) : list (Z * Z) :=
  match sg with
  | [] => []
  | s :: sg =>
      if sz <=? 0 then []
      else let len := Z.min (sg_dma_len s) sz in
           (sg_dma_address s, len) :: sg_cut sg (sz - len)
  end.

Definition seg_bytes (l : list (Z * Z)) : Z := foldr (fun s acc => s.2 + acc) 0 l.
Definition sg_bytes (sg : sglist) : Z := foldr (fun s acc => sg_dma_len s + acc) 0 sg.

(** Entries as the DMA mapping layer makes them: not empty, below 2 GiB. *)
Definition sg_good (sg : sglist) : Prop := Forall (fun s => 0 < sg_dma_len s < 2147483648) sg.

Lemma sg_bytes_nonneg sg : sg_good sg -> 0 <= sg_bytes sg.
Proof. unfold sg_bytes. induction 1; cbn in *; lia. Qed.

Lemma sg_cut_length sg : forall sz, (length (sg_cut sg sz) <= length sg)%nat.
Proof. induction sg as [|s sg IH]; intros sz; cbn; [lia|]. case_if; cbn; [lia|]. specialize (IH (sz - Z.min (sg_dma_len s) sz)). lia. Qed.

Lemma sg_cut_bytes sg : sg_good sg -> forall sz, 0 <= sz <= sg_bytes sg -> seg_bytes (sg_cut sg sz) = sz.
Proof.
  unfold seg_bytes. induction 1 as [|s sg Hs Hg IH]; intros sz Hsz; cbn in *; [lia|].
  pose proof (sg_bytes_nonneg sg Hg). unfold sg_bytes in *. case_if; cbn; [lia|]. rewrite IH; lia.
Qed.

(** The count update is the number of entries that the request needs. *)
Lemma sg_cnt_update_cut sg : sg_good sg -> forall n sz, 0 < sz ->
  sg_cnt_update sg n sz = zlen (sg_cut (take n sg) sz).
Proof.
  induction 1 as [|s sg Hs Hg IH]; intros [|n] sz Hsz; try done.
  cbn [sg_cnt_update take sg_cut]. rewrite s32_small by lia.
  destruct (Z.leb_spec sz 0); [lia|]. unfold zlen in *. cbn [length].
  destruct (Z.eqb_spec (sz - Z.min (sg_dma_len s) sz) 0) as [->|].
  - by destruct (take n sg).
  - rewrite IH by lia. lia.
Qed.

Lemma sg_cut_take sg : sg_good sg -> forall sz,
  sg_cut (take (length (sg_cut sg sz)) sg) sz = sg_cut sg sz.
Proof.
  induction 1 as [|s sg Hs Hg IH]; intros sz; [done|]. cbn [sg_cut].
  destruct (Z.leb_spec sz 0) as [H|H]; [done|]. cbn [length take sg_cut].
  destruct (Z.leb_spec sz 0); [lia|]. f_equal. apply IH.
Qed.

(** From a cursor with [rem] bytes to go, the iteration gives the rest. *)
Lemma segs_from_cut n : forall sg cnt sz cur i rem addr,
  sg_good (tail cur) -> 0 <= rem -> i + zlen (tail cur) = cnt -> zlen (tail cur) <= Z.of_nat n ->
  segs_from n (BufSg sg cnt sz cur i rem) addr = sg_cut (tail cur) rem.
Proof.
  unfold zlen. induction n as [|n IH]; intros sg cnt sz cur i rem addr Hg Hr Hi Hn.
  { destruct (tail cur) as [|s rest] eqn:E; [done|cbn in *; lia]. }
  cbn [segs_from dma_buf_next].
  destruct (tail cur) as [|s rest] eqn:E.
  { cbn in Hi. destruct (Z.ltb_spec i cnt); [lia|]. done. }
  cbn [length] in Hi, Hn. destruct (Z.ltb_spec i cnt); [|lia].
  inversion Hg as [|? ? Hs Hg' E1]; subst. change (sg_seg (s :: rest)) with s. cbn [sg_cut].
  rewrite s32_small by lia. destruct (Z.leb_spec rem 0).
  { replace rem with 0 by lia. rewrite Z.min_r by lia. done. }
  destruct (Z.ltb_spec 0 (Z.min (sg_dma_len s) rem)); [|lia]. f_equal.
  rewrite (IH _ _ _ (s :: rest)); cbn [tail]; [done|done|lia|lia|lia].
Qed.

(** The segments of a buffer made from a scatter list. *)
Lemma sg_init_segs buf sg cnt sz : sg_good sg -> 0 <= cnt -> 0 < sz <= sg_bytes (take (Z.to_nat cnt) sg) ->
  let buf' := (dma_buf_sg_init true buf sg cnt sz).2 in
  dma_buf_segs buf' = sg_cut (take (Z.to_nat cnt) sg) sz /\
  dma_buf_cnt buf' = zlen (sg_cut (take (Z.to_nat cnt) sg) sz).
Proof.
  intros Hg Hc Hsz. cbv zeta. unfold dma_buf_sg_init. cbn [negb snd].
  rewrite sg_cnt_update_cut by (done || lia). set (l := take (Z.to_nat cnt) sg) in *.
  assert (Hgl : sg_good l) by by apply Forall_take. split; [|done].
  unfold dma_buf_segs. cbn [dma_buf_first dma_buf_cnt]. unfold zlen. rewrite !Nat2Z.id.
  pose proof (sg_cut_length l sz) as Hle.
  assert (Ht : take (length (sg_cut l sz)) sg = take (length (sg_cut l sz)) l).
  { unfold l in *. rewrite take_take. f_equal. rewrite length_take in Hle. lia. }
  rewrite Ht. set (n := length (sg_cut l sz)) in *.
  pose proof (sg_cut_take l Hgl sz) as Hcut. fold n in Hcut.
  assert (Hl2 : length (take n l) = n) by (rewrite length_take; lia).
  assert (Hgk : sg_good (take n l)) by by apply Forall_take.
  set (k := take n l) in *. clearbody k. rewrite <- Hcut. rewrite <- Hl2.
  destruct k as [|s k].
  { exfalso. cbn in Hcut. pose proof (sg_cut_bytes l Hgl sz ltac:(lia)) as Hb.
    rewrite <- Hcut in Hb. cbn in Hb. lia. }
  inversion Hgk as [|? ? Hs Hk]; subst. change (sg_seg (s :: k)) with s. cbn [sg_cut].
  rewrite s32_small by lia. destruct (Z.leb_spec sz 0); [lia|]. f_equal.
  apply (segs_from_cut _ _ _ _ (s :: k)); cbn [tail length]; unfold zlen; try done; lia.
Qed.
