(* ===== verification/AesDma.v ===== *)
(** * The AES driver

    Models [linux-drv/aesdma.c]: requests are descriptors ([aes_desc]) that are
    reference-counted by the buffer descriptors they own in the two rings.
    Pointers to devices and request descriptors are addresses; the objects
    behind them live in the maps [devs] and [descs].  Kernel services are
    recorded in a log or given as arguments (memory, jiffies).  A computation
    over the driver state that would dereference a bad pointer has no result
    ([None]). *)

From S2P Require Import Prelude Kernel Hw Bd BdRing RingSpec Dma DmaBuf.

Definition TX_BD_NUM : Z := 65536.
Definition RX_BD_NUM : Z := 65536.

Record aes_dev : Type := mkAesDev {
  AxiDma : XAxiDma;
  tx_bd_v : Z;
  tx_bd_p : Z;
  tx_bd_size : Z;
  rx_bd_v : Z;
  rx_bd_p : Z;
  rx_bd_size : Z;
  desc_head : list Z;
  desc_free : Z;
  timer : ktimer;
  poll_timer : ktimer;
  hw_head : list Z
}.

Record aes_desc : Type := mkAesDesc {
  d_dma : Z;
  d_tx_BdPtr : Z;
  d_rx_BdPtr : Z;
  d_kref : Z;
  d_src_buf : dma_buf_t;
  d_dst_buf : dma_buf_t;
  d_priv : Z;
  d_cb : Z;
  d_deadline : Z;
  d_jiffies : Z
}.

#[export] Instance set_AxiDma : Setter AxiDma := fun v d =>
  mkAesDev v (tx_bd_v d) (tx_bd_p d) (tx_bd_size d) (rx_bd_v d) (rx_bd_p d) (rx_bd_size
    d) (desc_head d) (desc_free d) (timer d) (poll_timer d) (hw_head d).
#[export] Instance set_tx_bd_v : Setter tx_bd_v := fun v d =>
  mkAesDev (AxiDma d) v (tx_bd_p d) (tx_bd_size d) (rx_bd_v d) (rx_bd_p d) (rx_bd_size
    d) (desc_head d) (desc_free d) (timer d) (poll_timer d) (hw_head d).
#[export] Instance set_tx_bd_p : Setter tx_bd_p := fun v d =>
  mkAesDev (AxiDma d) (tx_bd_v d) v (tx_bd_size d) (rx_bd_v d) (rx_bd_p d) (rx_bd_size
    d) (desc_head d) (desc_free d) (timer d) (poll_timer d) (hw_head d).
#[export] Instance set_tx_bd_size : Setter tx_bd_size := fun v d =>
  mkAesDev (AxiDma d) (tx_bd_v d) (tx_bd_p d) v (rx_bd_v d) (rx_bd_p d) (rx_bd_size d)
    (desc_head d) (desc_free d) (timer d) (poll_timer d) (hw_head d).
#[export] Instance set_rx_bd_v : Setter rx_bd_v := fun v d =>
  mkAesDev (AxiDma d) (tx_bd_v d) (tx_bd_p d) (tx_bd_size d) v (rx_bd_p d) (rx_bd_size
    d) (desc_head d) (desc_free d) (timer d) (poll_timer d) (hw_head d).
#[export] Instance set_rx_bd_p : Setter rx_bd_p := fun v d =>
  mkAesDev (AxiDma d) (tx_bd_v d) (tx_bd_p d) (tx_bd_size d) (rx_bd_v d) v (rx_bd_size
    d) (desc_head d) (desc_free d) (timer d) (poll_timer d) (hw_head d).
#[export] Instance set_rx_bd_size : Setter rx_bd_size := fun v d =>
  mkAesDev (AxiDma d) (tx_bd_v d) (tx_bd_p d) (tx_bd_size d) (rx_bd_v d) (rx_bd_p d) v
    (desc_head d) (desc_free d) (timer d) (poll_timer d) (hw_head d).
#[export] Instance set_desc_head : Setter desc_head := fun v d =>
  mkAesDev (AxiDma d) (tx_bd_v d) (tx_bd_p d) (tx_bd_size d) (rx_bd_v d) (rx_bd_p d)
    (rx_bd_size d) v (desc_free d) (timer d) (poll_timer d) (hw_head d).
#[export] Instance set_desc_free : Setter desc_free := fun v d =>
  mkAesDev (AxiDma d) (tx_bd_v d) (tx_bd_p d) (tx_bd_size d) (rx_bd_v d) (rx_bd_p d)
    (rx_bd_size d) (desc_head d) v (timer d) (poll_timer d) (hw_head d).
#[export] Instance set_timer : Setter timer := fun v d =>
  mkAesDev (AxiDma d) (tx_bd_v d) (tx_bd_p d) (tx_bd_size d) (rx_bd_v d) (rx_bd_p d)
    (rx_bd_size d) (desc_head d) (desc_free d) v (poll_timer d) (hw_head d).
#[export] Instance set_poll_timer : Setter poll_timer := fun v d =>
  mkAesDev (AxiDma d) (tx_bd_v d) (tx_bd_p d) (tx_bd_size d) (rx_bd_v d) (rx_bd_p d)
    (rx_bd_size d) (desc_head d) (desc_free d) (timer d) v (hw_head d).
#[export] Instance set_hw_head : Setter hw_head := fun v d =>
  mkAesDev (AxiDma d) (tx_bd_v d) (tx_bd_p d) (tx_bd_size d) (rx_bd_v d) (rx_bd_p d)
    (rx_bd_size d) (desc_head d) (desc_free d) (timer d) (poll_timer d) v.

#[export] Instance set_d_dma : Setter d_dma := fun v s =>
  mkAesDesc v (d_tx_BdPtr s) (d_rx_BdPtr s) (d_kref s) (d_src_buf s) (d_dst_buf s)
    (d_priv s) (d_cb s) (d_deadline s) (d_jiffies s).
#[export] Instance set_d_tx_BdPtr : Setter d_tx_BdPtr := fun v s =>
  mkAesDesc (d_dma s) v (d_rx_BdPtr s) (d_kref s) (d_src_buf s) (d_dst_buf s) (d_priv s)
    (d_cb s) (d_deadline s) (d_jiffies s).
#[export] Instance set_d_rx_BdPtr : Setter d_rx_BdPtr := fun v s =>
  mkAesDesc (d_dma s) (d_tx_BdPtr s) v (d_kref s) (d_src_buf s) (d_dst_buf s) (d_priv s)
    (d_cb s) (d_deadline s) (d_jiffies s).
#[export] Instance set_d_kref : Setter d_kref := fun v s =>
  mkAesDesc (d_dma s) (d_tx_BdPtr s) (d_rx_BdPtr s) v (d_src_buf s) (d_dst_buf s)
    (d_priv s) (d_cb s) (d_deadline s) (d_jiffies s).
#[export] Instance set_d_src_buf : Setter d_src_buf := fun v s =>
  mkAesDesc (d_dma s) (d_tx_BdPtr s) (d_rx_BdPtr s) (d_kref s) v (d_dst_buf s) (d_priv
    s) (d_cb s) (d_deadline s) (d_jiffies s).
#[export] Instance set_d_dst_buf : Setter d_dst_buf := fun v s =>
  mkAesDesc (d_dma s) (d_tx_BdPtr s) (d_rx_BdPtr s) (d_kref s) (d_src_buf s) v (d_priv
    s) (d_cb s) (d_deadline s) (d_jiffies s).
#[export] Instance set_d_priv : Setter d_priv := fun v s =>
  mkAesDesc (d_dma s) (d_tx_BdPtr s) (d_rx_BdPtr s) (d_kref s) (d_src_buf s) (d_dst_buf
    s) v (d_cb s) (d_deadline s) (d_jiffies s).
#[export] Instance set_d_cb : Setter d_cb := fun v s =>
  mkAesDesc (d_dma s) (d_tx_BdPtr s) (d_rx_BdPtr s) (d_kref s) (d_src_buf s) (d_dst_buf
    s) (d_priv s) v (d_deadline s) (d_jiffies s).
#[export] Instance set_d_deadline : Setter d_deadline := fun v s =>
  mkAesDesc (d_dma s) (d_tx_BdPtr s) (d_rx_BdPtr s) (d_kref s) (d_src_buf s) (d_dst_buf
    s) (d_priv s) (d_cb s) v (d_jiffies s).
#[export] Instance set_d_jiffies : Setter d_jiffies := fun v s =>
  mkAesDesc (d_dma s) (d_tx_BdPtr s) (d_rx_BdPtr s) (d_kref s) (d_src_buf s) (d_dst_buf
    s) (d_priv s) (d_cb s) (d_deadline s) v.

(** Requests to the kernel, in order. *)
Inductive kevent : Type :=
| EvUnmapSingle (dma len dir : Z)
| EvUnmapSg (sg : sglist) (cnt dir : Z)
| EvSgFree (sg : sglist)
| EvCallback (cb priv : Z)
| EvTasklet (rx : bool)
| EvIrqError (rx : bool) (sts : Z)
| EvEnableDevice
| EvDisableDevice
| EvRequestRegions
| EvReleaseRegions
| EvSetMaster
| EvKfree (p : Z)
| EvRequestIrq (irq : Z)
| EvFreeIrq (irq : Z)
| EvIounmap (p : Z)
| EvFreePages (sg : sglist)
| EvSetDrvdata (p : Z)
| EvCacheCreate
| EvCacheDestroy
| EvRegisterPci
| EvUnregisterPci
| EvRegisterVpci
| EvUnregisterVpci.

(** A request descriptor after [memset]. *)
Definition aes_desc_zero : aes_desc := mkAesDesc 0 0 0 0 dma_buf_zero dma_buf_zero 0 0 0 0.

(** The two channels of the engine. *)
Inductive chan : Type := ChTx | ChRx.
#[export] Instance chan_eq_dec : EqDecision chan.
Proof. solve_decision. Defined.

Definition get_ring (ch : chan) (d : aes_dev) : XAxiDma_BdRing :=
  match ch with
  | ChTx => XAxiDma_GetTxRing (AxiDma d)
  | ChRx => XAxiDma_GetRxRing (AxiDma d) 0
  end.

Definition set_ring (ch : chan) (r : XAxiDma_BdRing) (d : aes_dev) : aes_dev :=
  match ch with
  | ChTx => d <|AxiDma := (AxiDma d) <|TxBdRing := r|> |>
  | ChRx => d <|AxiDma := put_rx (AxiDma d) 0 r|>
  end.

Definition get_buf (ch : chan) (s : aes_desc) : dma_buf_t :=
  match ch with ChTx => d_src_buf s | ChRx => d_dst_buf s end.

(** The driver with its machine: devices, request descriptors, the two lists of
    devices with work for the bottom halves, the clock and the log. *)
Record Drv (D : Type) : Type := mkDrv {
  d_w : World D;
  d_devs : gmap Z aes_dev;
  d_descs : gmap Z aes_desc;
  d_tx_head : list Z;
  d_rx_head : list Z;
  d_now : Z;
  d_log : list kevent
}.
Arguments mkDrv {D}.
Arguments d_w {D}.
Arguments d_devs {D}.
Arguments d_descs {D}.
Arguments d_tx_head {D}.
Arguments d_rx_head {D}.
Arguments d_now {D}.
Arguments d_log {D}.

#[export] Instance set_d_w {D} : Setter (@d_w D) := fun v d =>
  mkDrv v (d_devs d) (d_descs d) (d_tx_head d) (d_rx_head d) (d_now d) (d_log d).
#[export] Instance set_d_devs {D} : Setter (@d_devs D) := fun v d =>
  mkDrv (d_w d) v (d_descs d) (d_tx_head d) (d_rx_head d) (d_now d) (d_log d).
#[export] Instance set_d_descs {D} : Setter (@d_descs D) := fun v d =>
  mkDrv (d_w d) (d_devs d) v (d_tx_head d) (d_rx_head d) (d_now d) (d_log d).
#[export] Instance set_d_tx_head {D} : Setter (@d_tx_head D) := fun v d =>
  mkDrv (d_w d) (d_devs d) (d_descs d) v (d_rx_head d) (d_now d) (d_log d).
#[export] Instance set_d_rx_head {D} : Setter (@d_rx_head D) := fun v d =>
  mkDrv (d_w d) (d_devs d) (d_descs d) (d_tx_head d) v (d_now d) (d_log d).
#[export] Instance set_d_now {D} : Setter (@d_now D) := fun v d =>
  mkDrv (d_w d) (d_devs d) (d_descs d) (d_tx_head d) (d_rx_head d) v (d_log d).
#[export] Instance set_d_log {D} : Setter (@d_log D) := fun v d =>
  mkDrv (d_w d) (d_devs d) (d_descs d) (d_tx_head d) (d_rx_head d) (d_now d) v.

Section aes.
Context {D : Type} `{!RegBus D}.
Context (HZ : Z) (round_jiffies_up : Z -> Z).

Definition AES_TIMEOUT : Z := 10 * HZ.

(** *** Access to objects *)

Definition fails {A} : PT (Drv D) A := fun _ => None.
Definition on_w {A} (m : ST (World D) A) : PT (Drv D) A := fun d =>
  let '(a, w) := m (d_w d) in Some (a, d <|d_w := w|>).
Definition upd (f : Drv D -> Drv D) : PT (Drv D) unit := fun d => Some (tt, f d).
Definition look {A} (f : Drv D -> A) : PT (Drv D) A := fun d => Some (f d, d).

Definition get_dev (dma : Z) : PT (Drv D) aes_dev := fun d =>
  dv ← d_devs d !! dma; Some (dv, d).
Definition put_dev (dma : Z) (dv : aes_dev) : PT (Drv D) unit :=
  upd (fun d => d <|d_devs := <[dma := dv]> (d_devs d)|>).
Definition get_desc (sw : Z) : PT (Drv D) aes_desc := fun d =>
  s ← d_descs d !! sw; Some (s, d).
Definition put_desc (sw : Z) (s : aes_desc) : PT (Drv D) unit :=
  upd (fun d => d <|d_descs := <[sw := s]> (d_descs d)|>).
Definition log (e : kevent) : PT (Drv D) unit := upd (fun d => d <|d_log := d_log d ++ [e]|>).

(** ** Request descriptors *)

(** [fresh] is what [kmem_cache_alloc] would return. *)
Definition aes_alloc_desc (fresh : option Z) (dev : Z) : PT (Drv D) Z :=
  dv ← get_dev dev;
  sw ← match desc_head dv with
       | sw :: rest =>
           put_dev dev (dv <|desc_head := rest|> <|desc_free := desc_free dv - 1|>);; mret sw
       | [] => match fresh with Some sw => mret sw | None => fails end
       end;
  put_desc sw (aes_desc_zero <|d_kref := 1|> <|d_dma := dev|>);;
  mret sw.

(** Frees every descriptor on the device's list. *)
Definition aes_clean_desc (dev : Z) : PT (Drv D) unit :=
  dv ← get_dev dev;
  upd (fun d => d <|d_descs := foldr delete (d_descs d) (desc_head dv)|>);;
  put_dev dev (dv <|desc_head := []|>).

Definition aes_unmap_buf (buf : dma_buf_t) (dir : Z) : PT (Drv D) unit :=
  match buf with
  | BufAddr dma len => log (EvUnmapSingle dma len dir)
  | BufSg sg cnt _ _ _ _ => log (EvUnmapSg sg cnt dir);; log (EvSgFree sg)
  end.

Definition aes_free_desc (sw : Z) : PT (Drv D) unit :=
  s ← get_desc sw;
  let dma := d_dma s in
  dv ← get_dev dma;
  let dv := dv <|hw_head := filter (fun x => x <> sw) (hw_head dv)|> in
  dv ← match hw_head dv with
       | next_sw :: _ =>
           nx ← get_desc next_sw;
           mret (if time_before (t_expires (timer dv)) (d_deadline nx)
                 then dv <|timer := mod_timer (d_deadline nx)|> else dv)
       | [] => mret (dv <|timer := del_timer (timer dv)|>)
       end;
  put_dev dma (dv <|desc_head := desc_head dv ++ [sw]|> <|desc_free := desc_free dv + 1|>);;
  aes_unmap_buf (d_src_buf s) DMA_TO_DEVICE;;
  aes_unmap_buf (d_dst_buf s) DMA_FROM_DEVICE;;
  if negb (d_cb s =? 0)
  then log (EvCallback (d_cb s) (d_priv s));; put_desc sw (s <|d_cb := 0|>)
  else mret tt.

Definition kref_put (sw : Z) : PT (Drv D) unit :=
  s ← get_desc sw;
  put_desc sw (s <|d_kref := d_kref s - 1|>);;
  if d_kref s - 1 =? 0 then aes_free_desc sw else mret tt.

(** ** Submission *)

(** The [do ... while (len > 0)] loop over the segments of [buf]: the last
    descriptor used, the number of descriptors and the buffer's cursor.
    [n] bounds the iterations; [None] when it was not enough. *)
Fixpoint aes_fill_loop (r : XAxiDma_BdRing) (sw : Z) (n : nat) (bd_ptr len addr : Z)
  (buf : dma_buf_t) (tcnt : Z) : ST Mem (option (Z * Z * dma_buf_t)) :=
  match n with
  | O => mret None
  | S n =>
      XAxiDma_BdSetBufAddr bd_ptr addr;;
      XAxiDma_BdSetLength bd_ptr len (MaxTransferLen r);;
      XAxiDma_BdSetCtrl bd_ptr 0;;
      XAxiDma_BdSetId bd_ptr sw;;
      let '(len, addr, buf) := dma_buf_next buf addr in
      if 0 <? len
      then aes_fill_loop r sw n (XAxiDma_mBdRingNext r bd_ptr) len addr buf (tcnt + 1)
      else mret (Some (bd_ptr, tcnt + 1, buf))
  end.

(** Fills the allocated set and marks its packet. *)
Definition aes_fill (r : XAxiDma_BdRing) (sw first_bd_ptr : Z) (buf : dma_buf_t)
  : ST Mem (option (Z * dma_buf_t)) :=
  let '(len, addr, buf1) := dma_buf_first buf in
  res ← aes_fill_loop r sw (Z.to_nat (dma_buf_cnt buf)) first_bd_ptr len addr buf1 0;
  match res with
  | None => mret None
  | Some (last_bd_ptr, tcnt, buf2) =>
      (if first_bd_ptr =? last_bd_ptr
       then XAxiDma_BdSetCtrl first_bd_ptr
              (XAXIDMA_BD_CTRL_TXSOF_MASK .| XAXIDMA_BD_CTRL_TXEOF_MASK)
       else XAxiDma_BdSetCtrl last_bd_ptr XAXIDMA_BD_CTRL_TXEOF_MASK;;
            XAxiDma_BdSetCtrl first_bd_ptr XAXIDMA_BD_CTRL_TXSOF_MASK);;
      mret (Some (tcnt, buf2))
  end.

Definition set_submitted (ch : chan) (bd : Z) (buf : dma_buf_t) (tcnt : Z) (s : aes_desc)
  : aes_desc :=
  match ch with
  | ChTx => s <|d_tx_BdPtr := bd|> <|d_src_buf := buf|> <|d_kref := d_kref s + tcnt|>
  | ChRx => s <|d_rx_BdPtr := bd|> <|d_dst_buf := buf|> <|d_kref := d_kref s + tcnt|>
  end.

(** [_aes_desc_to_hw]: every descriptor filled takes one reference, before any
    of them is handed to the hardware. *)
Definition aes_desc_to_hw_ch (dma sw : Z) (ch : chan) : PT (Drv D) Z :=
  dv ← get_dev dma;
  s ← get_desc sw;
  let '(res, bd, r) := XAxiDma_BdRingAlloc (get_ring ch dv) (dma_buf_cnt (get_buf ch s)) in
  put_dev dma (set_ring ch r dv);;
  match bd with
  | None => mret res
  | Some bd =>
      filled ← on_w (on_mem (aes_fill r sw bd (get_buf ch s)));
      match filled with
      | None => fails
      | Some (tcnt, buf) =>
          put_desc sw (set_submitted ch bd buf tcnt s);;
          '(res, r) ← on_w (XAxiDma_BdRingToHw r tcnt bd 0);
          put_dev dma (set_ring ch r dv);;
          mret res
      end
  end.

Definition aes_desc_to_hw (dma sw : Z) : PT (Drv D) Z :=
  s ← get_desc sw;
  now ← look d_now;
  let s := s <|d_deadline := u32 (now + AES_TIMEOUT)|> <|d_jiffies := now|> in
  put_desc sw s;;
  dv ← get_dev dma;
  let dv := if negb (t_pending (timer dv)) || time_before (d_deadline s) (t_expires (timer dv))
            then dv <|timer := mod_timer (round_jiffies_up (d_deadline s))|> else dv in
  put_dev dma (dv <|hw_head := hw_head dv ++ [sw]|>);;
  res ← aes_desc_to_hw_ch dma sw ChRx;
  if negb (res =? 0) then mret res
  else
  res ← aes_desc_to_hw_ch dma sw ChTx;
  if negb (res =? 0) then mret res
  else
  kref_put sw;;
  mret 0.

(** ** Completion *)

Definition clean_bh (bd : Z) : PT (Drv D) unit :=
  sw ← look (fun d => XAxiDma_BdGetId (w_mem (d_w d)) bd);
  kref_put sw.

(** The [do ... while] over the [n] descriptors of a completed set. *)
Fixpoint aes_clean_set (r : XAxiDma_BdRing) (n : nat) (BdCurPtr : Z) : PT (Drv D) unit :=
  match n with
  | O => mret tt
  | S n =>
      clean_bh BdCurPtr;;
      on_w (on_mem (XAxiDma_BdSetId BdCurPtr 0));;
      aes_clean_set r n (XAxiDma_mBdRingNext r BdCurPtr)
  end.

(** The [while] loop that empties the hardware's queue; [n] bounds its
    iterations. *)
Fixpoint aes_reap (dma : Z) (ch : chan) (limit : Z) (n : nat) : PT (Drv D) unit :=
  match n with
  | O => fails
  | S n =>
      dv ← get_dev dma;
      m ← look (fun d => w_mem (d_w d));
      let '(bd_processed, BdPtr, r) := XAxiDma_BdRingFromHw m (get_ring ch dv) limit in
      put_dev dma (set_ring ch r dv);;
      if bd_processed <=? 0 then mret tt
      else
        aes_clean_set r (Z.to_nat bd_processed) BdPtr;;
        dv ← get_dev dma;
        put_dev dma (set_ring ch (XAxiDma_BdRingFree (get_ring ch dv) bd_processed BdPtr).2 dv);;
        aes_reap dma ch limit n
  end.

(** The work of a bottom half for one device. *)
Definition aes_handle_dev (dma : Z) (ch : chan) (limit : Z) : PT (Drv D) unit :=
  dv ← get_dev dma;
  aes_reap dma ch limit (S (Z.to_nat (HwCnt (get_ring ch dv))));;
  dv ← get_dev dma;
  on_w (XAxiDma_mBdRingIntEnable (get_ring ch dv) XAXIDMA_IRQ_ALL_MASK).

(** The outer loop over the devices with work. *)
Fixpoint handle_devs (ch : chan) (limit : Z) (l : list Z) : PT (Drv D) unit :=
  match l with
  | [] => mret tt
  | dma :: l =>
      upd (fun d => match ch with ChTx => d <|d_tx_head := l|> | ChRx => d <|d_rx_head := l|> end);;
      aes_handle_dev dma ch limit;;
      handle_devs ch limit l
  end.

Definition tx_handle_bh : PT (Drv D) unit :=
  l ← look d_tx_head; handle_devs ChTx TX_BD_NUM l.

Definition rx_handle_bh : PT (Drv D) unit :=
  l ← look d_rx_head; handle_devs ChRx RX_BD_NUM l.

(** ** Interrupts *)

Definition bh_head (ch : chan) (d : Drv D) : list Z :=
  match ch with ChTx => d_tx_head d | ChRx => d_rx_head d end.

Definition bh_add (ch : chan) (dma : Z) (d : Drv D) : Drv D :=
  match ch with
  | ChTx => d <|d_tx_head := d_tx_head d ++ [dma]|>
  | ChRx => d <|d_rx_head := d_rx_head d ++ [dma]|>
  end.

Definition is_rx (ch : chan) : bool := match ch with ChTx => false | ChRx => true end.

(** [aes_tx_isr] and [aes_rx_isr]; they differ in the channel only. *)
Definition aes_ch_isr (ch : chan) (dma : Z) : PT (Drv D) Z :=
  dv ← get_dev dma;
  let ring := get_ring ch dv in
  sts ← on_w (XAxiDma_ReadReg (ChanBase ring) XAXIDMA_SR_OFFSET);
  on_w (XAxiDma_mBdRingAckIrq ring sts);;
  if tst sts XAXIDMA_ERR_ALL_MASK then log (EvIrqError (is_rx ch) sts);; mret IRQ_HANDLED
  else
  head ← look (bh_head ch);
  (if tst sts (XAXIDMA_IRQ_DELAY_MASK .| XAXIDMA_IRQ_IOC_MASK)
      && negb (bool_decide (dma ∈ (head : list Z)))
   then upd (bh_add ch dma);;
        on_w (XAxiDma_mBdRingIntDisable ring XAXIDMA_IRQ_ALL_MASK);;
        log (EvTasklet (is_rx ch))
   else mret tt);;
  mret IRQ_HANDLED.

Definition aes_tx_isr (dma : Z) : PT (Drv D) Z := aes_ch_isr ChTx dma.
Definition aes_rx_isr (dma : Z) : PT (Drv D) Z := aes_ch_isr ChRx dma.

Definition aes_isr (dma : Z) : PT (Drv D) Z :=
  dv ← get_dev dma;
  IrqStsTx ← on_w (XAxiDma_ReadReg (ChanBase (get_ring ChTx dv)) XAXIDMA_SR_OFFSET);
  IrqStsRx ← on_w (XAxiDma_ReadReg (ChanBase (get_ring ChRx dv)) XAXIDMA_SR_OFFSET);
  if ((IrqStsTx .| IrqStsRx) .& XAXIDMA_IRQ_ALL_MASK) =? 0 then mret IRQ_NONE
  else
  res ← (if tst IrqStsTx XAXIDMA_IRQ_ALL_MASK then aes_tx_isr dma else mret IRQ_NONE);
  if tst IrqStsRx XAXIDMA_IRQ_ALL_MASK then aes_rx_isr dma else mret res.

Definition aes_poll_isr (dma : Z) : PT (Drv D) unit :=
  aes_isr dma;;
  now ← look d_now;
  dv ← get_dev dma;
  put_dev dma (dv <|poll_timer := mod_timer (u32 (now + 1))|>).

(** The watchdog: after its report it is only disarmed. *)
Definition aes_timeout (dma : Z) : PT (Drv D) unit :=
  dv ← get_dev dma;
  put_dev dma (dv <|timer := del_timer (timer dv)|>).

Definition AxiDma_Stop (base : Z) : ST (World D) unit :=
  reg ← XAxiDma_ReadReg base (XAXIDMA_TX_OFFSET + XAXIDMA_CR_OFFSET);
  XAxiDma_WriteReg base (XAXIDMA_TX_OFFSET + XAXIDMA_CR_OFFSET)
    (reg .& not32 XAXIDMA_CR_RUNSTOP_MASK);;
  reg ← XAxiDma_ReadReg base (XAXIDMA_RX_OFFSET + XAXIDMA_CR_OFFSET);
  XAxiDma_WriteReg base (XAXIDMA_RX_OFFSET + XAXIDMA_CR_OFFSET)
    (reg .& not32 XAXIDMA_CR_RUNSTOP_MASK).

(** ** Requests *)

(** [dev] is the global [_dma]; the other arguments that the caller does not
    give are the outcomes of the kernel services: how many entries
    [dma_map_sg] mapped, the fresh descriptor and the scatter tables. *)
Definition aes_submit (dev : option Z) (mapped_src mapped_dst : Z) (fresh : option Z)
  (alloc_src alloc_dst : bool) (src_sg : sglist) (src_cnt src_sz : Z)
  (dst_sg : sglist) (dst_cnt dst_sz : Z) (cb priv : Z) : PT (Drv D) Z :=
  match dev with
  | None => mret (- ENODEV)
  | Some dma =>
      if mapped_src =? 0 then mret (- ENOMEM)
      else if mapped_dst =? 0 then mret (- ENOMEM)
      else
      sw ← aes_alloc_desc fresh dma;
      s ← get_desc sw;
      put_desc sw (s <|d_cb := cb|> <|d_priv := priv|>
        <|d_src_buf := (dma_buf_sg_init alloc_src (d_src_buf s) src_sg src_cnt src_sz).2|>
        <|d_dst_buf := (dma_buf_sg_init alloc_dst (d_dst_buf s) dst_sg dst_cnt dst_sz).2|>);;
      aes_desc_to_hw dma sw
  end.

(** ** Setting up the channels *)

(** [tmpl] is the address of the template on the stack. *)
Definition aes_init_channel (tmpl : Z) (ring : XAxiDma_BdRing) (phy virt cnt : Z)
  : ST Mem (Z * XAxiDma_BdRing) :=
  '(res, ring) ← XAxiDma_BdRingCreate ring phy virt XAXIDMA_BD_MINIMUM_ALIGNMENT cnt;
  if negb (res =? XST_SUCCESS) then mret (- ENOMEM, ring)
  else
  XAxiDma_BdClear tmpl;;
  res ← XAxiDma_BdRingClone ring tmpl;
  if negb (res =? XST_SUCCESS) then mret (- ENOMEM, ring)
  else mret (0, ring).

(** The loop that fills the list of free requests with [n] structures: the
    results of [kmem_cache_alloc] are not looked at, so that a null pointer,
    whose [desc_entry] would be linked in, has no result. *)
Fixpoint aes_desc_fill (dma : Z) (n : nat) (descs : list Z) : PT (Drv D) unit :=
  match n, descs with
  | O, _ => mret tt
  | S _, [] => fails
  | S n, sw :: descs =>
      if sw =? 0 then fails
      else
      dv ← get_dev dma;
      put_dev dma (dv <|desc_head := desc_head dv ++ [sw]|> <|desc_free := desc_free dv + 1|>);;
      aes_desc_fill dma n descs
  end.

(** [tx] and [rx] are the results of [dma_alloc_coherent] (virtual and bus
    address, 0 when it failed) and [descs] those of [kmem_cache_alloc], 0 where
    it failed. *)
Definition aes_desc_init (tmpl : Z) (tx rx : Z * Z) (descs : list Z) (dma : Z) : PT (Drv D) Z :=
  dv ← get_dev dma;
  let sendsize := XAxiDma_mBdRingMemCalc XAXIDMA_BD_MINIMUM_ALIGNMENT TX_BD_NUM in
  let recvsize := XAxiDma_mBdRingMemCalc XAXIDMA_BD_MINIMUM_ALIGNMENT RX_BD_NUM in
  let dv := dv <|tx_bd_v := tx.1|> <|tx_bd_p := tx.2|> <|tx_bd_size := sendsize|>
               <|rx_bd_v := rx.1|> <|rx_bd_p := rx.2|> <|rx_bd_size := recvsize|> in
  put_dev dma dv;;
  if (tx_bd_v dv =? 0) || (rx_bd_v dv =? 0) then mret (- ENOMEM)
  else
  '(res, r) ← on_w (on_mem (aes_init_channel tmpl (get_ring ChTx dv) (tx_bd_p dv) (tx_bd_v dv) TX_BD_NUM));
  let dv := set_ring ChTx r dv in
  put_dev dma dv;;
  if negb (res =? 0) then mret res
  else
  '(res, r) ← on_w (on_mem (aes_init_channel tmpl (get_ring ChRx dv) (rx_bd_p dv) (rx_bd_v dv) RX_BD_NUM));
  let dv := set_ring ChRx r dv in
  put_dev dma dv;;
  if negb (res =? 0) then mret res
  else
  put_dev dma (dv <|desc_head := []|> <|hw_head := []|> <|desc_free := 0|>
                  <|timer := mkTimer false 0|> <|poll_timer := mkTimer false 0|>);;
  aes_desc_fill dma (Z.to_nat TX_BD_NUM) descs;;
  mret 0.

End aes.
