(* ===== verification/AesProps.v ===== *)
(** * Properties of the AES driver

    Submission programs the rings with exactly the bytes of the request, and
    completion drops exactly the references that submission took, so that a
    request is called back once, when its last descriptor is done. *)

From S2P Require Import Prelude Kernel Hw Bd BdRing RingGeom RingSpec RingHw RingCreate RingStart RingSys RingClient Dma DmaBuf AesDma.

(** ** Filling descriptors *)

(** What one descriptor holds after the loop body. *)
Record filled (m : Mem) (bd n sw : Z) (seg : Z * Z) : Prop := {
  fi_buf : XAxiDma_BdGetBufAddr m bd = u32 seg.1;
  fi_len : XAxiDma_BdGetLength m bd (Z.ones n) = seg.2;
  fi_id : XAxiDma_BdGetId m bd = u32 sw;
}.

(** Memory that differs only in transfer words of the descriptors [l]: their
    build information and all other memory is the same. *)
Definition fill_frame (l : list Z) (m m' : Mem) : Prop :=
  forall a, (forall bd, bd ∈ l -> a <> bd + XAXIDMA_BD_BUFA_OFFSET /\
             a <> bd + XAXIDMA_BD_CTRL_LEN_OFFSET /\ a <> bd + XAXIDMA_BD_ID_OFFSET) ->
  mem_read m' a = mem_read m a.

Lemma fill_frame_refl l m : fill_frame l m m.
Proof. intros ? _. done. Qed.

Lemma fill_frame_trans l m m' m'' : fill_frame l m m' -> fill_frame l m' m'' -> fill_frame l m m''.
Proof. intros H1 H2 a Ha. rewrite H2 by done. by apply H1. Qed.

Lemma fill_frame_incl l l' m m' : l ⊆ l' -> fill_frame l m m' -> fill_frame l' m m'.
Proof. intros Hl H a Ha. apply H. auto. Qed.

Lemma fill_frame_word l bd o m m' : bd ∈ l -> word_frame bd o m m' ->
  o = XAXIDMA_BD_BUFA_OFFSET \/ o = XAXIDMA_BD_CTRL_LEN_OFFSET \/ o = XAXIDMA_BD_ID_OFFSET ->
  fill_frame l m m'.
Proof. intros Hin F Ho a Ha. apply F. specialize (Ha bd Hin). intuition congruence. Qed.

Definition transfer_off (o : Z) : Prop :=
  o = XAXIDMA_BD_BUFA_OFFSET \/ o = XAXIDMA_BD_CTRL_LEN_OFFSET \/ o = XAXIDMA_BD_ID_OFFSET.

(** A word of a ring descriptor that the frame protects. *)
Lemma fill_frame_read r (G : geom r) l m m' i o : fill_frame l m m' ->
  (forall bd, bd ∈ l -> in_ring r bd) -> bd_off o ->
  ~ transfer_off o \/ bd_at r i ∉ l ->
  XAxiDma_BdRead m' (bd_at r i) o = XAxiDma_BdRead m (bd_at r i) o.
Proof.
  intros F Hin Ho Hd. rewrite !BdRead_addr by auto using bd_at_ok. apply F.
  intros bd Hbd. destruct (Hin bd Hbd) as [j ->].
  destruct (decide (bd_at r i = bd_at r j)) as [Eq|Ne].
  - rewrite Eq in *. destruct Hd as [Hd|Hd]; [|done]. unfold transfer_off in Hd.
    split_and!; intros E; apply Hd; lia.
  - pose proof (bd_at_apart r G i j Ne) as Ha. unfold bd_apart, bd_off in *.
    change XAXIDMA_BD_BUFA_OFFSET with 8. change XAXIDMA_BD_CTRL_LEN_OFFSET with 24.
    change XAXIDMA_BD_ID_OFFSET with 52. change sizeof_Bd with 64 in *. lia.
Qed.

(** One iteration. *)
Definition fill_one (r : XAxiDma_BdRing) (sw bd len addr : Z) : ST Mem unit :=
  XAxiDma_BdSetBufAddr bd addr;;
  XAxiDma_BdSetLength bd len (MaxTransferLen r);;
  XAxiDma_BdSetCtrl bd 0;;
  XAxiDma_BdSetId bd sw.

(** A segment that the descriptor takes: the length fits and the address is
    aligned for the channel. *)
Definition seg_fits (m : Mem) (n bd : Z) (seg : Z * Z) : Prop :=
  0 < seg.2 <= Z.ones n /\ buf_ok m bd seg.1 = true.

Lemma fill_one_spec r sw bd seg n m : bd_ok bd -> 0 <= n <= 26 -> MaxTransferLen r = Z.ones n ->
  seg_fits m n bd seg ->
  let m' := st_out (fill_one r sw bd seg.2 seg.1) m in
  filled m' bd n sw seg /\ XAxiDma_BdGetCtrl m' bd = 0 /\ fill_frame [bd] m m'.
Proof.
  intros Hok Hn HM [Hlen Hbuf]. cbv zeta. unfold fill_one. rewrite HM. st.
  destruct (BdSetBufAddr_ok m bd seg.1 Hok Hbuf) as (_ & B1 & F1).
  set (m1 := st_out (XAxiDma_BdSetBufAddr bd seg.1) m) in *.
  destruct (BdSetLength_ok m1 bd seg.2 n Hok Hn Hlen) as (_ & L2 & _ & F2).
  set (m2 := st_out (XAxiDma_BdSetLength bd seg.2 (Z.ones n)) m1) in *.
  destruct (BdSetCtrl_ok m2 bd 0 n Hok Hn ltac:(unfold is_u32; lia)) as (C3 & L3 & F3).
  set (m3 := st_out (XAxiDma_BdSetCtrl bd 0) m2) in *. unfold XAxiDma_BdSetId.
  pose proof (word_frame_write bd XAXIDMA_BD_ID_OFFSET (u32 sw) m3 Hok ltac:(auto with drv)) as F4.
  set (m4 := st_out _ m3) in *.
  assert (K3 : XAxiDma_BdRead m4 bd XAXIDMA_BD_CTRL_LEN_OFFSET =
               XAxiDma_BdRead m3 bd XAXIDMA_BD_CTRL_LEN_OFFSET)
    by (eapply word_frame_read; eauto with drv).
  split_and!.
  - split.
    + rewrite <- B1. unfold XAxiDma_BdGetBufAddr.
      rewrite (word_frame_read _ _ _ _ _ F4), (word_frame_read _ _ _ _ _ F3),
        (word_frame_read _ _ _ _ _ F2); auto with drv.
    + rewrite <- L2, <- L3. unfold XAxiDma_BdGetLength. now rewrite K3.
    + unfold XAxiDma_BdGetId, m4. st. apply u32_idemp.
  - unfold XAxiDma_BdGetCtrl in *. now rewrite K3, C3.
  - eapply fill_frame_trans; [eapply fill_frame_word; [by left|exact F1|auto]|].
    eapply fill_frame_trans; [eapply fill_frame_word; [by left|exact F2|auto]|].
    eapply fill_frame_trans; [eapply fill_frame_word; [by left|exact F3|auto]|].
    eapply fill_frame_word; [by left|exact F4|auto].
Qed.

(** ** The loop over the segments *)

Lemma aes_fill_loop_unfold r sw k bd len addr buf tcnt m :
  aes_fill_loop r sw (S k) bd len addr buf tcnt m =
  (let '(len', addr', buf') := dma_buf_next buf addr in
   if 0 <? len'
   then aes_fill_loop r sw k (XAxiDma_mBdRingNext r bd) len' addr' buf' (tcnt + 1)
   else mret (Some (bd, tcnt + 1, buf'))) (st_out (fill_one r sw bd len addr) m).
Proof.
  cbn [aes_fill_loop]. unfold fill_one. rewrite !st_bind_eq. st.
  destruct (dma_buf_next buf addr) as [[len' addr'] buf']. done.
Qed.

(** Everything that the loop over the segments [segs], starting at index [i],
    leaves in the ring's descriptors. *)
Definition segs_filled (m : Mem) (r : XAxiDma_BdRing) (i n sw : Z) (segs : list (Z * Z)) : Prop :=
  forall k seg, segs !! k = Some seg -> filled m (bd_at r (i + Z.of_nat k)) n sw seg.

(** The result of the loop on the segments that remain. *)
Record fill_result (r : XAxiDma_BdRing) (n sw i : Z) (segs : list (Z * Z)) (m m' : Mem) : Prop := {
  fr_filled : segs_filled m' r i n sw segs;
  fr_ctrl : forall j, 0 <= j < zlen segs -> XAxiDma_BdGetCtrl m' (bd_at r (i + j)) = 0;
  fr_frame : fill_frame (grp r i (zlen segs)) m m';
}.

Lemma buf_ok_same m m' bd addr :
  XAxiDma_BdRead m' bd XAXIDMA_BD_HAS_DRE_OFFSET = XAxiDma_BdRead m bd XAXIDMA_BD_HAS_DRE_OFFSET ->
  buf_ok m' bd addr = buf_ok m bd addr.
Proof. unfold buf_ok. now intros ->. Qed.

(** The build information is no transfer word. *)
Lemma dre_no_transfer : ~ transfer_off XAXIDMA_BD_HAS_DRE_OFFSET.
Proof. intros [H|[H|H]]; discriminate. Qed.

(** Adding one more descriptor in front of those already filled. *)
Lemma fill_result_cons r (G : geom r) n sw i seg segs m m1 m' : zlen segs < AllCnt r ->
  filled m1 (bd_at r i) n sw seg -> XAxiDma_BdGetCtrl m1 (bd_at r i) = 0 ->
  fill_frame [bd_at r i] m m1 -> fill_result r n sw (i + 1) segs m1 m' ->
  fill_result r n sw i (seg :: segs) m m'.
Proof.
  intros Hlen [B L I] C F [Ff Fc Fr].
  assert (Hz : zlen (seg :: segs) = zlen segs + 1) by (unfold zlen; cbn [length]; lia).
  assert (Hnot : bd_at r i ∉ grp r (i + 1) (zlen segs)).
  { replace (zlen segs) with (zlen segs + 1 - 1) by lia. apply grp_head_notin; [done|lia]. }
  assert (K : forall o, bd_off o -> XAxiDma_BdRead m' (bd_at r i) o = XAxiDma_BdRead m1 (bd_at r i) o).
  { intros o Ho. eapply fill_frame_read; eauto using grp_in_ring. }
  split.
  - intros [|k] sg Hk; cbn in Hk.
    + injection Hk as <-. replace (i + Z.of_nat 0) with i by lia.
      split; unfold XAxiDma_BdGetBufAddr, XAxiDma_BdGetLength, XAxiDma_BdGetId in *;
        rewrite K by auto with drv; done.
    + replace (i + Z.of_nat (S k)) with (i + 1 + Z.of_nat k) by lia. by apply Ff.
  - intros j Hj. destruct (decide (j = 0)) as [->|].
    + rewrite Z.add_0_r. unfold XAxiDma_BdGetCtrl in *. rewrite K by auto with drv. done.
    + replace (i + j) with (i + 1 + (j - 1)) by lia. apply Fc. lia.
  - rewrite Hz, grp_cons by (unfold zlen; lia). replace (zlen segs + 1 - 1) with (zlen segs) by lia.
    eapply fill_frame_trans; (eapply fill_frame_incl; [|eassumption]); set_solver.
Qed.

Lemma fill_loop_spec r (G : geom r) n sw : 0 <= n <= 26 -> MaxTransferLen r = Z.ones n ->
  forall k i len addr buf tcnt m,
  let segs := (addr, len) :: segs_from (S k) buf addr in
  (length (segs_from (S k) buf addr) <= k)%nat -> zlen segs <= AllCnt r ->
  (forall j seg, segs !! j = Some seg -> seg_fits m n (bd_at r (i + Z.of_nat j)) seg) ->
  let m' := st_out (aes_fill_loop r sw (S k) (bd_at r i) len addr buf tcnt) m in
  exists buf',
  st_val (aes_fill_loop r sw (S k) (bd_at r i) len addr buf tcnt) m =
    Some (bd_at r (i + zlen segs - 1), tcnt + zlen segs, buf') /\
  fill_result r n sw i segs m m'.
Proof.
  intros Hn HM k. induction k as [|k IH]; intros i len addr buf tcnt m segs Hk Hz Hfit m'.
  all: assert (Hfit0 : seg_fits m n (bd_at r i) (addr, len))
    by (replace i with (i + Z.of_nat 0) by lia; by apply (Hfit 0%nat)).
  all: destruct (fill_one_spec r sw (bd_at r i) (addr, len) n m (bd_at_ok r G i) Hn HM Hfit0)
    as (Ff & Fc & Fr); cbn [fst snd] in Ff, Fc, Fr.
  all: set (m1 := st_out (fill_one r sw (bd_at r i) len addr) m) in *.
  all: unfold m', st_val, st_out; rewrite aes_fill_loop_unfold; fold m1.
  all: destruct (dma_buf_next buf addr) as [[len' addr'] buf'] eqn:En.
  all: assert (Es : forall k, segs_from (S k) buf addr =
    if 0 <? len' then (addr', len') :: segs_from k buf' addr' else [])
    by (intros; cbn [segs_from]; now rewrite En).
  all: assert (Hnil : fill_result r n sw (i + 1) [] m1 m1)
    by (split; [by intros ? ?|unfold zlen; cbn; lia|apply fill_frame_refl]).
  all: assert (Hone : fill_result r n sw i [(addr, len)] m m1)
    by (eapply (fill_result_cons _ G); eauto; pose proof (g_cnt r G); unfold zlen; cbn; lia).
  all: unfold segs in *; clear segs; rewrite Es in *; destruct (0 <? len').
  - cbn in Hk. lia.
  - exists buf'. split; [|exact Hone]. unfold mret, st_ret. cbn [fst].
    replace (i + zlen [(addr, len)] - 1) with i by (unfold zlen; cbn; lia). done.
  - set (rest := (addr', len') :: segs_from (S k) buf' addr') in *.
    assert (Hs : zlen ((addr, len) :: rest) = zlen rest + 1) by (unfold zlen; cbn [length]; lia).
    assert (Hkr : (length (segs_from (S k) buf' addr') <= k)%nat) by (cbn [length rest] in Hk; lia).
    rewrite mBdRingNext_at by done.
    destruct (IH (i + 1) len' addr' buf' (tcnt + 1) m1 Hkr) as (bf & Hv & Hr); [fold rest; lia| |].
    { intros j seg Hj. destruct (Hfit (S j) seg Hj) as [F1 F2]. split; [exact F1|].
      replace (i + 1 + Z.of_nat j) with (i + Z.of_nat (S j)) by lia. rewrite <- F2.
      apply buf_ok_same. eapply (fill_frame_read r G); eauto using dre_no_transfer with drv.
      intros b ->%list_elem_of_singleton. by eexists. }
    fold rest in Hv, Hr. exists bf. unfold st_val, st_out in Hv, Hr. split.
    + rewrite Hv, Hs. replace (i + (zlen rest + 1) - 1) with (i + 1 + zlen rest - 1) by lia.
      replace (tcnt + (zlen rest + 1)) with (tcnt + 1 + zlen rest) by lia. done.
    + eapply (fill_result_cons _ G); eauto. lia.
  - exists buf'. split; [|exact Hone]. unfold mret, st_ret. cbn [fst].
    replace (i + zlen [(addr, len)] - 1) with i by (unfold zlen; cbn; lia). done.
Qed.

(** The packet flags of the [j]-th of [len] descriptors. *)
Definition packet_flags (len j : Z) : Z :=
  (if j =? 0 then XAXIDMA_BD_CTRL_TXSOF_MASK else 0)
  .| (if j =? len - 1 then XAXIDMA_BD_CTRL_TXEOF_MASK else 0).

(** Setting the flags of one descriptor keeps what is filled in. *)
Lemma set_ctrl_filled r (G : geom r) n i data m : 0 <= n <= 26 -> is_u32 data ->
  let m' := st_out (XAxiDma_BdSetCtrl (bd_at r i) data) m in
  XAxiDma_BdGetCtrl m' (bd_at r i) = (data .& XAXIDMA_BD_CTRL_ALL_MASK) /\
  fill_frame [bd_at r i] m m' /\
  (forall j, bd_at r j <> bd_at r i -> XAxiDma_BdGetCtrl m' (bd_at r j) = XAxiDma_BdGetCtrl m (bd_at r j)) /\
  forall j sw seg, filled m (bd_at r j) n sw seg -> filled m' (bd_at r j) n sw seg.
Proof.
  intros Hn Hd. cbv zeta. destruct (BdSetCtrl_ok m (bd_at r i) data n (bd_at_ok r G i) Hn Hd) as (C & L & F).
  set (m' := st_out _ m) in *.
  assert (Fr : fill_frame [bd_at r i] m m') by (eapply fill_frame_word; [by left|exact F|auto]).
  assert (Hne : forall j o, bd_off o -> bd_at r j <> bd_at r i ->
    XAxiDma_BdRead m' (bd_at r j) o = XAxiDma_BdRead m (bd_at r j) o).
  { intros j o Ho Hj. eapply (fill_frame_read r G); eauto; [|right; set_solver].
    intros b ->%list_elem_of_singleton. by eexists. }
  split_and!; [done|done|..].
  - intros j Hj. unfold XAxiDma_BdGetCtrl. now rewrite Hne by auto with drv.
  - intros j sw seg [B Le I]. destruct (decide (bd_at r j = bd_at r i)) as [E|Ne].
    + rewrite E in *. split; [|now rewrite L|]; unfold XAxiDma_BdGetBufAddr, XAxiDma_BdGetId in *;
        rewrite (word_frame_read _ _ _ _ _ F); auto using bd_at_ok with drv.
    + split; unfold XAxiDma_BdGetBufAddr, XAxiDma_BdGetLength, XAxiDma_BdGetId in *;
        rewrite Hne by auto with drv; done.
Qed.

(** What a prepared set of descriptors for [segs] looks like. *)
Record prepared (r : XAxiDma_BdRing) (n sw i : Z) (segs : list (Z * Z)) (m : Mem) : Prop := {
  pr_filled : segs_filled m r i n sw segs;
  pr_ctrl : forall j, 0 <= j < zlen segs ->
    XAxiDma_BdGetCtrl m (bd_at r (i + j)) = packet_flags (zlen segs) j;
}.

Lemma aes_fill_spec r (G : geom r) n sw i buf m : 0 <= n <= 26 -> MaxTransferLen r = Z.ones n ->
  let segs := dma_buf_segs buf in
  zlen segs = dma_buf_cnt buf -> zlen segs <= AllCnt r ->
  (forall j seg, segs !! j = Some seg -> seg_fits m n (bd_at r (i + Z.of_nat j)) seg) ->
  exists buf', st_val (aes_fill r sw (bd_at r i) buf) m = Some (zlen segs, buf') /\
  let m' := st_out (aes_fill r sw (bd_at r i) buf) m in
  prepared r n sw i segs m' /\ fill_frame (grp r i (zlen segs)) m m'.
Proof.
  intros Hn HM segs Hc Hz Hfit. unfold aes_fill. unfold dma_buf_segs in segs.
  destruct (dma_buf_first buf) as [[len addr] buf1] eqn:Ef.
  assert (Hk : exists k, Z.to_nat (dma_buf_cnt buf) = S k).
  { exists (pred (Z.to_nat (dma_buf_cnt buf))). unfold segs, zlen in Hc. cbn [length] in Hc. lia. }
  destruct Hk as [k Hk]. unfold segs in *. clear segs. rewrite Hk in *.
  destruct (fill_loop_spec r G n sw Hn HM k i len addr buf1 0 m) as (buf2 & Hv & [Ff Fc Fr]);
    [unfold zlen in Hc; cbn [length] in Hc; lia|done|done|].
  set (segs := (addr, len) :: segs_from (S k) buf1 addr) in *. set (L := zlen segs) in *.
  assert (HL : 0 < L) by (unfold L, segs, zlen; cbn [length]; lia). clearbody segs.
  rewrite st_val_bind, st_out_bind, Hv. exists buf2.
  set (m1 := st_out (aes_fill_loop _ _ _ _ _ _ _ _) m) in *. clearbody m1. clear Hv Hfit Ef Hc Hk.
  replace (i + L - 1) with (i + (L - 1)) by lia.
  destruct (Z.eqb_spec (bd_at r i) (bd_at r (i + (L - 1)))) as [E|E].
  - assert (L = 1) as HL1.
    { destruct (decide (L = 1)); [done|]. exfalso. apply (bd_at_ne r i (L - 1) G); [lia|done]. }
    st. split; [do 3 f_equal; lia|].
    destruct (set_ctrl_filled r G n i (XAXIDMA_BD_CTRL_TXSOF_MASK .| XAXIDMA_BD_CTRL_TXEOF_MASK)
      m1 Hn ltac:(vm_compute; split; congruence)) as (C1 & F1 & _ & K1).
    split; [split|].
    + intros j seg Hj. by apply K1, Ff.
    + intros j Hj. assert (j = 0) as -> by lia. rewrite Z.add_0_r, C1. fold L. rewrite HL1. done.
    + eapply fill_frame_trans; [exact Fr|]. eapply fill_frame_incl; [|exact F1].
      rewrite grp_cons by lia. set_solver.
  - assert (HL1 : L <> 1) by (intros HL1; apply E; f_equal; lia).
    st. split; [do 3 f_equal; lia|].
    destruct (set_ctrl_filled r G n (i + (L - 1)) XAXIDMA_BD_CTRL_TXEOF_MASK
      m1 Hn ltac:(vm_compute; split; congruence)) as (C1 & F1 & N1 & K1).
    set (m2 := st_out (XAxiDma_BdSetCtrl (bd_at r (i + (L - 1))) _) m1) in *.
    destruct (set_ctrl_filled r G n i XAXIDMA_BD_CTRL_TXSOF_MASK
      m2 Hn ltac:(vm_compute; split; congruence)) as (C2 & F2 & N2 & K2).
    split; [split|].
    + intros j seg Hj. by apply K2, K1, Ff.
    + intros j Hj. fold L. unfold packet_flags. destruct (Z.eqb_spec j 0) as [->|].
      * rewrite Z.add_0_r, C2. destruct (Z.eqb_spec 0 (L - 1)); [lia|done].
      * rewrite N2 by (apply bd_at_ne; [done|lia]). destruct (Z.eqb_spec j (L - 1)) as [->|].
        { rewrite C1. done. }
        rewrite N1; [by apply Fc|]. replace (i + (L - 1)) with (i + j + (L - 1 - j)) by lia.
        intros Eq. symmetry in Eq. revert Eq. apply bd_at_ne; [done|lia].
    + eapply fill_frame_trans; [exact Fr|].
      eapply fill_frame_trans; (eapply fill_frame_incl; [|eassumption]); intros b ->%list_elem_of_singleton;
        apply elem_grp; [exists (L - 1)|exists 0]; (split; [lia|f_equal; lia]).
Qed.

(** ** One channel of a submission *)

(** A prepared set is one that the ring accepts. *)
Lemma prepared_accepted r n sw i segs m : MaxTransferLen r = Z.ones n ->
  0 < zlen segs -> (forall seg, seg ∈ segs -> 0 < seg.2) -> prepared r n sw i segs m ->
  tohw_accepts m r (grp r i (zlen segs)) = true.
Proof.
  intros HM HL Hpos [Hf Hc]. rewrite tohw_accepts_grp by done. apply andb_true_iff. split.
  - apply forallb_forall. intros bd Hbd%list_elem_of_In. apply elem_grp in Hbd as (j & Hj & ->).
    destruct (lookup_lt_is_Some_2 segs (Z.to_nat j)) as [seg Hseg]; [unfold zlen in Hj; lia|].
    pose proof (Hf _ _ Hseg) as [_ L _]. rewrite Z2Nat.id in L by lia. rewrite HM, L.
    apply negb_true_iff, Z.eqb_neq. apply list_elem_of_lookup_2 in Hseg. specialize (Hpos _ Hseg). lia.
  - apply orb_true_iff. right. apply andb_true_iff. replace (i + zlen segs - 1) with (i + (zlen segs - 1)) by lia.
    replace i with (i + 0) at 1 by lia. rewrite !Hc by lia. unfold packet_flags.
    rewrite Z.eqb_refl. destruct (Z.eqb_spec (zlen segs - 1) 0), (Z.eqb_spec 0 (zlen segs - 1));
      rewrite ?Z.eqb_refl; try lia; done.
Qed.

(** The status words that [XAxiDma_BdRingToHw] clears are no transfer words. *)
Lemma prepared_sts r (G : geom r) n sw i segs l m m' : sts_frame l m m' ->
  (forall bd, bd ∈ l -> in_ring r bd) -> prepared r n sw i segs m -> prepared r n sw i segs m'.
Proof.
  intros F Hl [Hf Hc].
  assert (K : forall j o, bd_off o -> o <> XAXIDMA_BD_STS_OFFSET ->
    XAxiDma_BdRead m' (bd_at r j) o = XAxiDma_BdRead m (bd_at r j) o).
  { intros. eapply sts_frame_read; eauto. }
  split.
  - intros k seg Hk. destruct (Hf k seg Hk) as [B L I].
    split; unfold XAxiDma_BdGetBufAddr, XAxiDma_BdGetLength, XAxiDma_BdGetId in *;
      rewrite K by auto with drv; done.
  - intros j Hj. unfold XAxiDma_BdGetCtrl in *. rewrite K by auto with drv. by apply Hc.
Qed.

Lemma bds_frame_fill l m m' : fill_frame l m m' -> bds_frame l m m'.
Proof.
  intros F a Ha. apply F. intros bd Hbd. specialize (Ha bd Hbd). change sizeof_Bd with 64 in Ha.
  change XAXIDMA_BD_BUFA_OFFSET with 8. change XAXIDMA_BD_CTRL_LEN_OFFSET with 24.
  change XAXIDMA_BD_ID_OFFSET with 52. lia.
Qed.

Section submit.
Context {D : Type} `{!RegBus D}.

Lemma get_dev_eq dma dv (d : Drv D) : d_devs d !! dma = Some dv -> get_dev dma d = Some (dv, d).
Proof. intros H. unfold get_dev, mbind, option_bind. now rewrite H. Qed.

Lemma get_desc_eq sw s (d : Drv D) : d_descs d !! sw = Some s -> get_desc sw d = Some (s, d).
Proof. intros H. unfold get_desc, mbind, option_bind. now rewrite H. Qed.

Lemma put_dev_eq dma dv (d : Drv D) :
  put_dev dma dv d = Some (tt, d <|d_devs := <[dma := dv]> (d_devs d)|>).
Proof. done. Qed.

Lemma put_desc_eq sw s (d : Drv D) :
  put_desc sw s d = Some (tt, d <|d_descs := <[sw := s]> (d_descs d)|>).
Proof. done. Qed.

Lemma on_w_eq {A} (m : ST (World D) A) (d : Drv D) :
  on_w m d = Some (st_val m (d_w d), d <|d_w := st_out m (d_w d)|>).
Proof. unfold on_w, st_val, st_out. now destruct (m (d_w d)). Qed.

Lemma on_mem_val {A} (f : ST Mem A) (w : World D) : st_val (on_mem f) w = st_val f (w_mem w).
Proof. unfold st_val, on_mem. now destruct (f (w_mem w)). Qed.

Lemma on_mem_out {A} (f : ST Mem A) (w : World D) :
  st_out (on_mem f) w = mkWorld (st_out f (w_mem w)) (w_dev w).
Proof. unfold st_out, on_mem. now destruct (f (w_mem w)). Qed.

(** A request's buffer suits a ring: its segments are as many as its
    descriptor count, they fit the free descriptors, and each of them fits a
    descriptor of the ring. *)
Record buf_fits (m : Mem) (r : XAxiDma_BdRing) (n : Z) (buf : dma_buf_t) : Prop := {
  bf_n : 0 <= n <= 26;
  bf_max : MaxTransferLen r = Z.ones n;
  bf_cnt : zlen (dma_buf_segs buf) = dma_buf_cnt buf;
  bf_free : zlen (dma_buf_segs buf) <= FreeCnt r;
  bf_seg : forall i seg, seg ∈ dma_buf_segs buf -> seg_fits m n (bd_at r i) seg;
}.

(** What the ring side of a submission achieves: the first free descriptors
    are moved to the hardware's queue, programmed with the segments. *)
Record submitted (m m' : Mem) (r r' : XAxiDma_BdRing) (n sw : Z) (segs : list (Z * Z)) (i : Z)
  : Prop := {
  su_sim : let a := ring_abs r in
           sim r r' (mkARing (zdrop (zlen segs) (a_free a)) [] (a_hw a ++ grp r i (zlen segs)) (a_post a));
  su_free : ztake (zlen segs) (a_free (ring_abs r)) = grp r i (zlen segs);
  su_prep : prepared r n sw i segs m';
  su_frame : bds_frame (grp r i (zlen segs)) m m';
}.

Lemma dma_buf_segs_pos buf : 0 < zlen (dma_buf_segs buf).
Proof.
  unfold dma_buf_segs. destruct (dma_buf_first buf) as [[? ?] ?]. unfold zlen. cbn [length]. lia.
Qed.

Lemma submit_ch (d : Drv D) dma sw ch dv s n :
  d_devs d !! dma = Some dv -> d_descs d !! sw = Some s ->
  let r := get_ring ch dv in let segs := dma_buf_segs (get_buf ch s) in
  ring_wf r -> PreCnt r = 0 -> buf_fits (w_mem (d_w d)) r n (get_buf ch s) ->
  exists w' r' i buf',
  aes_desc_to_hw_ch dma sw ch d = Some (XST_SUCCESS,
    d <|d_w := w'|> <|d_devs := <[dma := set_ring ch r' dv]> (d_devs d)|>
      <|d_descs := <[sw := set_submitted ch (bd_at r i) buf' (zlen segs) s]> (d_descs d)|>) /\
  submitted (w_mem (d_w d)) (w_mem w') r r' n sw segs i.
Proof.
  intros Hdv Hs r segs W Hpre [Hn HM Hc Hfree Hseg].
  pose proof (dma_buf_segs_pos (get_buf ch s)) as HL. fold segs in HL, Hc, Hfree, Hseg.
  destruct (alloc_commit r (zlen segs) W Hpre ltac:(lia)) as (i & r1 & [Ha Sg G1 Hat Hall HM1 Hrx Hfr Hcommit]).
  unfold aes_desc_to_hw_ch. rewrite (pt_bind_some _ _ _ _ _ (get_dev_eq _ _ _ Hdv)).
  rewrite (pt_bind_some _ _ _ _ _ (get_desc_eq _ _ _ Hs)). fold r. rewrite <- Hc, Ha. clear Ha.
  rewrite (pt_bind_some (put_dev _ _) _ d tt (d <|d_devs := <[dma := set_ring ch r1 dv]> (d_devs d)|>)) by done.
  destruct (aes_fill_spec r1 G1 n sw i (get_buf ch s) (w_mem (d_w d)) Hn) as (buf' & Hv & Pr & Fr).
  { by rewrite HM1. } { by fold segs. } { by fold segs. }
  { fold segs. intros j seg Hj. rewrite Hat. apply Hseg. by eapply list_elem_of_lookup_2. }
  fold segs in Hv, Pr, Fr. rewrite (pt_bind_some _ _ _ _ _ (on_w_eq _ _)). cbn [d_w set_field set_d_devs].
  rewrite on_mem_val, on_mem_out, Hv. set (m1 := st_out _ (w_mem (d_w d))) in *.
  rewrite (pt_bind_some (put_desc _ _) _ _ tt (d <|d_devs := <[dma := set_ring ch r1 dv]> (d_devs d)|>
    <|d_w := mkWorld m1 (w_dev (d_w d))|>
    <|d_descs := <[sw := set_submitted ch (bd_at r1 i) buf' (zlen segs) s]> (d_descs d)|>)) by done.
  rewrite (pt_bind_some _ _ _ _ _ (on_w_eq _ _)). cbn [d_w set_field set_d_descs set_d_w].
  set (w1 := mkWorld m1 (w_dev (d_w d))).
  destruct (Hcommit w1) as (r2 & Hrun & Fs & Hsim & _).
  { apply (prepared_accepted r1 n sw i segs); [by rewrite HM1|done| |exact Pr].
    intros seg Hin. destruct (Hseg 0 seg Hin) as [? _]. lia. }
  rewrite Hrun. set (w2 := st_out (XAxiDma_BdRingToHw _ _ _ _) w1) in *.
  exists w2, r2, i, buf'. rewrite <- (Hat i). split.
  { unfold put_dev, upd, mret, pt_ret, mbind, pt_bind. do 2 f_equal.
    unfold set_field. unfold set_d_devs, set_d_descs, set_d_w. cbn. f_equal. apply insert_insert_eq. }
  assert (Hring : forall bd, bd ∈ grp r1 i (zlen segs) -> in_ring r1 bd) by (intros; by eapply grp_in_ring).
  split; [done|done| |].
  - pose proof (prepared_sts r1 G1 n sw i segs _ _ _ Fs Hring Pr) as [P1 P2].
    split; [intros k seg Hk; rewrite <- Hat; by apply P1|intros j Hj; rewrite <- Hat; by apply P2].
  - rewrite <- (grp_same r r1) by done. eapply bds_frame_trans; [by apply bds_frame_fill|by apply bds_frame_sts].
Qed.

End submit.

(** ** Dropping references *)

Definition occ (sw : Z) (l : list Z) : Z := Z.of_nat (count_occ Z.eq_dec l sw).

(** What a finished request makes the driver do. *)
Definition unmap_events (buf : dma_buf_t) (dir : Z) : list kevent :=
  match buf with
  | BufAddr dma len => [EvUnmapSingle dma len dir]
  | BufSg sg cnt _ _ _ _ => [EvUnmapSg sg cnt dir; EvSgFree sg]
  end.

Definition completion (s : aes_desc) : list kevent :=
  unmap_events (d_src_buf s) DMA_TO_DEVICE ++ unmap_events (d_dst_buf s) DMA_FROM_DEVICE ++
  (if d_cb s =? 0 then [] else [EvCallback (d_cb s) (d_priv s)]).

Section refcounts.
Context {D : Type} `{!RegBus D}.

Definition info (d : Drv D) (sw : Z) : list kevent :=
  match d_descs d !! sw with Some s => completion s | None => [] end.

(** Going through the references [ids] while [rest] stays outstanding: the
    requests that finish, each at its last reference. *)
Fixpoint finished (ids rest : list Z) : list Z :=
  match ids with
  | [] => []
  | sw :: ids =>
      if bool_decide (sw ∈ ids ++ rest) then finished ids rest else sw :: finished ids rest
  end.

Definition completions (f : Z -> list kevent) (ids rest : list Z) : list kevent :=
  finished ids rest ≫= f.

Lemma completions_cons f sw ids rest : completions f (sw :: ids) rest =
  (if bool_decide (sw ∈ ids ++ rest) then [] else f sw) ++ completions f ids rest.
Proof. unfold completions. cbn [finished]. by case_bool_decide. Qed.

Lemma completions_app f a b rest :
  completions f (a ++ b) rest = completions f a (b ++ rest) ++ completions f b rest.
Proof.
  induction a as [|x a IH]; [done|]. cbn [app]. rewrite !completions_cons, IH, <- !app_assoc. done.
Qed.

Lemma completions_ext f g a rest : (forall x, x ∈ a -> x ∈ a ++ rest -> f x = g x) ->
  completions f a rest = completions g a rest.
Proof.
  induction a as [|x a IH]; intros H; [done|]. rewrite !completions_cons.
  rewrite IH by (intros; apply H; set_solver). case_bool_decide; [done|].
  rewrite (H x); [done|set_solver..].
Qed.

(** A request finishes iff it has no other reference, and only once. *)
Lemma elem_finished sw ids rest : sw ∈ finished ids rest <-> sw ∈ ids /\ sw ∉ rest.
Proof.
  induction ids as [|x l IH]; cbn [finished]; [set_solver|].
  case_bool_decide as H; [|destruct (decide (sw = x)); set_solver].
  rewrite IH. destruct (decide (sw = x)) as [->|]; set_solver.
Qed.

Lemma NoDup_finished ids rest : NoDup (finished ids rest).
Proof.
  induction ids as [|x l IH]; cbn [finished]; [constructor|]. case_bool_decide as H; [done|].
  apply NoDup_cons. split; [|done]. rewrite elem_finished. set_solver.
Qed.

(** The invariant: every outstanding reference [pend] is counted, on live
    descriptors of the device [dma]. *)
Record refs_ok (dma : Z) (dv : aes_dev) (pend : list Z) (d : Drv D) : Prop := {
  rf_dev : d_devs d !! dma = Some dv;
  rf_hw : forall x, x ∈ hw_head dv -> is_Some (d_descs d !! x);
  rf_cnt : forall sw, sw ∈ pend ->
    exists s, d_descs d !! sw = Some s /\ d_kref s = occ sw pend /\ d_dma s = dma;
  rf_free : forall sw, sw ∈ desc_head dv -> sw ∉ pend;
  rf_nodup : NoDup (desc_head dv);
}.

(** The effect of a step of the completion path on everything but the
    descriptors' memory: the engine, the machine and the other lists stay. *)
Record quiet (d d' : Drv D) (dv dv' : aes_dev) : Prop := {
  q_w : d_w d' = d_w d;
  q_tx : d_tx_head d' = d_tx_head d;
  q_rx : d_rx_head d' = d_rx_head d;
  q_dma : AxiDma dv' = AxiDma dv;
}.

Lemma occ_cons_eq sw l : occ sw (sw :: l) = occ sw l + 1.
Proof. unfold occ. rewrite count_occ_cons_eq by done. lia. Qed.

Lemma occ_cons_ne sw x l : x <> sw -> occ sw (x :: l) = occ sw l.
Proof. intros. unfold occ. now rewrite count_occ_cons_neq. Qed.

Lemma occ_in sw l : sw ∈ l <-> 0 < occ sw l.
Proof. unfold occ. rewrite list_elem_of_In, (count_occ_In Z.eq_dec). lia. Qed.

Lemma unmap_run buf dir (d : Drv D) :
  aes_unmap_buf buf dir d = Some (tt, d <|d_log := d_log d ++ unmap_events buf dir|>).
Proof.
  destruct buf; cbn; [|done]. unfold mbind, pt_bind, log, upd. cbn. do 2 f_equal.
  unfold set_field, set_d_log. cbn. f_equal. now rewrite <- app_assoc.
Qed.

(** The timer update cannot fail: the next request in the queue is live. *)
Lemma free_timer_run dv (d : Drv D) :
  (forall x, x ∈ hw_head dv -> is_Some (d_descs d !! x)) ->
  exists t, (match hw_head dv with
   | next_sw :: _ =>
       nx ← get_desc next_sw;
       mret (if time_before (t_expires (timer dv)) (d_deadline nx)
             then dv <|timer := mod_timer (d_deadline nx)|> else dv)
   | [] => mret (dv <|timer := del_timer (timer dv)|>)
   end) d = Some (dv <|timer := t|>, d).
Proof.
  intros H. destruct (hw_head dv) as [|x l] eqn:E; [by eexists|].
  destruct (H x) as [s Hs]; [by left|].
  rewrite (pt_bind_some _ _ _ _ _ (get_desc_eq _ _ _ Hs)). unfold mret, pt_ret.
  destruct (time_before _ _); [by eexists|]. exists (timer dv). by destruct dv.
Qed.

(** [aes_free_desc] on a live descriptor. *)
Lemma free_desc_run dma dv sw s (d : Drv D) :
  d_devs d !! dma = Some dv -> (forall x, x ∈ hw_head dv -> is_Some (d_descs d !! x)) ->
  d_descs d !! sw = Some s -> d_dma s = dma ->
  exists t d', aes_free_desc sw d = Some (tt, d') /\
  d_devs d' = <[dma := dv <|hw_head := filter (fun x => x <> sw) (hw_head dv)|> <|timer := t|>
                 <|desc_head := desc_head dv ++ [sw]|> <|desc_free := desc_free dv + 1|>]> (d_devs d) /\
  d_descs d' = <[sw := s <|d_cb := 0|>]> (d_descs d) /\
  d_log d' = d_log d ++ completion s /\
  d_w d' = d_w d /\ d_tx_head d' = d_tx_head d /\ d_rx_head d' = d_rx_head d.
Proof.
  intros Hdv Hhw Hs Hdma. unfold aes_free_desc.
  rewrite (pt_bind_some _ _ _ _ _ (get_desc_eq _ _ _ Hs)). rewrite Hdma.
  rewrite (pt_bind_some _ _ _ _ _ (get_dev_eq _ _ _ Hdv)).
  set (dv1 := dv <|hw_head := _|>).
  destruct (free_timer_run dv1 d) as [t Ht].
  { intros x Hx. apply Hhw. unfold dv1 in Hx. cbn in Hx. apply list_elem_of_filter in Hx. tauto. }
  rewrite (pt_bind_some _ _ _ _ _ Ht), (pt_bind_some _ _ _ _ _ (put_dev_eq _ _ _)). exists t.
  rewrite (pt_bind_some _ _ _ _ _ (unmap_run _ _ _)), (pt_bind_some _ _ _ _ _ (unmap_run _ _ _)).
  unfold completion. destruct (Z.eqb_spec (d_cb s) 0) as [E|E]; cbn [negb].
  - eexists. split; [reflexivity|]. cbn. split_and!; try done.
    + rewrite insert_id; [done|]. rewrite Hs. f_equal. destruct s. cbn in E. now subst.
    + now rewrite <- app_assoc, app_nil_r.
  - eexists. split; [reflexivity|]. cbn. split_and!; try done. now rewrite <- !app_assoc.
Qed.

(** The other references, when one of [sw] is dropped. *)
Lemma refs_others dma dv sw pend (d : Drv D) : refs_ok dma dv (sw :: pend) d -> forall x, x ∈ pend -> x <> sw ->
  exists s, d_descs d !! x = Some s /\ d_kref s = occ x pend /\ d_dma s = dma.
Proof.
  intros [_ _ Hcnt _ _] x Hx Hne. destruct (Hcnt x) as (s & ? & Hk & ?); [by right|].
  rewrite occ_cons_ne in Hk by done. eauto.
Qed.

Lemma live_insert (m : gmap Z aes_desc) sw s x : is_Some (m !! x) -> is_Some (<[sw := s]> m !! x).
Proof.
  intros H. destruct (decide (x = sw)) as [->|]; [rewrite lookup_insert_eq; eauto|by rewrite lookup_insert_ne].
Qed.

(** The count of a request that keeps other references. *)
Lemma refs_keep dma dv sw s pend (d : Drv D) : refs_ok dma dv (sw :: pend) d -> d_descs d !! sw = Some s ->
  let d1 := d <|d_descs := <[sw := s <|d_kref := d_kref s - 1|>]> (d_descs d)|> in
  refs_ok dma dv pend d1 /\ forall x, info d1 x = info d x.
Proof.
  intros R Hs. pose proof R as [Hdv Hhw Hcnt Hfree Hnd]. split.
  - split; [done|intros x Hx; apply live_insert; auto| |intros x Hx Hp; apply (Hfree x Hx); by right|done].
    intros x Hx. cbn. destruct (decide (x = sw)) as [->|].
    + destruct (Hcnt sw) as (s' & Hs' & Hk & Hd); [by left|]. rewrite Hs in Hs'. injection Hs' as <-.
      rewrite occ_cons_eq in Hk. rewrite lookup_insert_eq. eexists. split_and!; [done|cbn; lia|done].
    + rewrite lookup_insert_ne by done. by apply (refs_others _ _ _ _ _ R).
  - intros x. unfold info. cbn. destruct (decide (x = sw)) as [->|].
    + now rewrite lookup_insert_eq, Hs.
    + now rewrite lookup_insert_ne by done.
Qed.

(** Its last reference: the request completes and goes to the free list. *)
Lemma kref_last dma dv sw s pend (d : Drv D) : refs_ok dma dv (sw :: pend) d -> d_descs d !! sw = Some s ->
  sw ∉ pend ->
  let d1 := d <|d_descs := <[sw := s <|d_kref := d_kref s - 1|>]> (d_descs d)|> in
  exists d' dv', aes_free_desc sw d1 = Some (tt, d') /\ refs_ok dma dv' pend d' /\ quiet d d' dv dv' /\
  d_log d' = d_log d ++ completion s /\ (forall x, x ∈ pend -> info d' x = info d x).
Proof.
  intros R Hs Hin d1. pose proof R as [Hdv Hhw Hcnt Hfree Hnd].
  destruct (Hcnt sw) as (s' & Hs' & _ & Hdma); [by left|]. rewrite Hs in Hs'. injection Hs' as <-.
  destruct (free_desc_run dma dv sw (s <|d_kref := d_kref s - 1|>) d1 Hdv) as
    (t & d' & Hrun & Hdevs & Hdescs & Hlog & Hw & Htx & Hrx); [|apply lookup_insert_eq|done|].
  { intros x Hx. apply live_insert. auto. }
  assert (Hkeep : forall x, x <> sw -> d_descs d' !! x = d_descs d !! x).
  { intros x Hx. rewrite Hdescs. cbn. now rewrite !lookup_insert_ne by done. }
  exists d'. eexists. split; [exact Hrun|]. split_and!.
  - split.
    + rewrite Hdevs. apply lookup_insert_eq.
    + cbn. intros x Hx. apply list_elem_of_filter in Hx as [_ Hx]. rewrite Hdescs. apply live_insert, live_insert. auto.
    + intros x Hx. rewrite Hkeep by congruence. apply (refs_others _ _ _ _ _ R); congruence.
    + cbn. intros x Hx Hp. apply elem_of_app in Hx as [Hx| ->%list_elem_of_singleton]; [|done].
      apply (Hfree x Hx). by right.
    + cbn. apply NoDup_app. split_and!; [done| |apply NoDup_singleton].
      intros x Hx ->%list_elem_of_singleton. apply (Hfree sw Hx). by left.
  - by split.
  - done.
  - intros x Hx. unfold info. rewrite Hkeep by congruence. done.
Qed.

(** Dropping one of the references. *)
Lemma kref_put_run dma dv sw pend (d : Drv D) : refs_ok dma dv (sw :: pend) d ->
  exists d' dv', kref_put sw d = Some (tt, d') /\ refs_ok dma dv' pend d' /\ quiet d d' dv dv' /\
  d_log d' = d_log d ++ (if bool_decide (sw ∈ pend) then [] else info d sw) /\
  (forall x, x ∈ pend -> info d' x = info d x).
Proof.
  intros R. destruct (rf_cnt _ _ _ _ R sw) as (s & Hs & Hk & _); [by left|]. rewrite occ_cons_eq in Hk.
  unfold kref_put. rewrite (pt_bind_some _ _ _ _ _ (get_desc_eq _ _ _ Hs)).
  rewrite (pt_bind_some (put_desc _ _) _ d tt _ eq_refl). pose proof (occ_in sw pend) as Hi.
  case_bool_decide as Hin.
  - replace (d_kref s - 1 =? 0) with false by (apply Hi in Hin; lia). destruct (refs_keep dma dv sw s pend d R Hs) as [R1 I1].
    eexists. exists dv. split; [reflexivity|]. split_and!; [done|by split|by rewrite app_nil_r|auto].
  - replace (d_kref s - 1 =? 0) with true by (assert (~ 0 < occ sw pend) by tauto; unfold occ in *; lia).
    destruct (kref_last dma dv sw s pend d R Hs Hin) as (d' & dv' & E & R' & Q & L & I').
    exists d', dv'. split_and!; try done. rewrite L. unfold info. by rewrite Hs.
Qed.

(** ** Going through a completed set *)

Lemma clean_set_run r (G : geom r) dma rest n : forall i dv (d : Drv D),
  Z.of_nat n <= AllCnt r ->
  let l := grp r i (Z.of_nat n) in
  refs_ok dma dv (ids (w_mem (d_w d)) l ++ rest) d ->
  exists d' dv', aes_clean_set r n (bd_at r i) d = Some (tt, d') /\ refs_ok dma dv' rest d' /\
  AxiDma dv' = AxiDma dv /\ d_tx_head d' = d_tx_head d /\ d_rx_head d' = d_rx_head d /\
  w_dev (d_w d') = w_dev (d_w d) /\ id_frame l (w_mem (d_w d)) (w_mem (d_w d')) /\
  d_log d' = d_log d ++ completions (info d) (ids (w_mem (d_w d)) l) rest /\
  (forall x, x ∈ rest -> info d' x = info d x).
Proof.
  induction n as [|n IH]; intros i dv d Hn l Hrefs.
  { exists d, dv. split_and!; try done. cbn. by rewrite app_nil_r. }
  unfold l in *. clear l. rewrite grp_cons in * by lia.
  replace (Z.of_nat (S n) - 1) with (Z.of_nat n) in * by lia.
  set (l := grp r (i + 1) (Z.of_nat n)) in *. cbn [ids fmap list_fmap app] in Hrefs.
  fold (ids (w_mem (d_w d)) l) in Hrefs. set (sw := XAxiDma_BdGetId (w_mem (d_w d)) (bd_at r i)) in *.
  destruct (kref_put_run dma dv sw _ d Hrefs) as (d1 & dv1 & Hrun & Hrefs1 & [Qw Qt Qr Qd] & Hlog1 & Hi1).
  cbn [aes_clean_set]. unfold clean_bh at 1.
  assert (Hc : (sw ← look (fun d : Drv D => XAxiDma_BdGetId (w_mem (d_w d)) (bd_at r i)); kref_put sw) d
    = Some (tt, d1)) by exact Hrun.
  rewrite (pt_bind_some _ _ _ _ _ Hc), (pt_bind_some _ _ _ _ _ (on_w_eq _ _)), on_mem_out.
  set (m2 := st_out (XAxiDma_BdSetId (bd_at r i) 0) (w_mem (d_w d1))).
  set (d2 := d1 <|d_w := _|>). rewrite mBdRingNext_at by done.
  assert (F2 : id_frame [bd_at r i] (w_mem (d_w d)) m2).
  { intros a Ha. unfold m2, XAxiDma_BdSetId. rewrite Qw.
    apply (word_frame_write (bd_at r i) XAXIDMA_BD_ID_OFFSET); [by apply bd_at_ok|auto with drv|].
    apply Ha. by left. }
  assert (Hin : forall bd, bd ∈ l -> in_ring r bd /\ bd ∉ [bd_at r i]).
  { intros bd Hbd. split; [by eapply grp_in_ring|]. intros ->%list_elem_of_singleton. revert Hbd.
    unfold l. replace (Z.of_nat n) with (Z.of_nat (S n) - 1) by lia. apply grp_head_notin; [done|lia]. }
  assert (E2 : ids m2 l = ids (w_mem (d_w d)) l).
  { eapply (ids_frame r G); eauto. intros b ->%list_elem_of_singleton. by eexists. }
  destruct (IH (i + 1) dv1 d2 ltac:(lia)) as (d3 & dv3 & Hrun3 & Hr3 & Qd3 & Qt3 & Qr3 & Qv3 & F3 & Hlog3 & Hi3).
  { fold l. change (w_mem (d_w d2)) with m2. rewrite E2. destruct Hrefs1. by split. }
  fold l in F3, Hlog3. change (w_mem (d_w d2)) with m2 in F3, Hlog3. rewrite E2 in Hlog3.
  exists d3, dv3. split_and!; try done.
  - by rewrite Qd3.
  - by rewrite Qt3.
  - by rewrite Qr3.
  - rewrite Qv3. cbn. by rewrite Qw.
  - eapply id_frame_trans; (eapply id_frame_incl; [|eassumption]); set_solver.
  - rewrite Hlog3. cbn [ids fmap list_fmap]. fold (ids (w_mem (d_w d)) l). fold sw. rewrite completions_cons.
    change (d_log d2) with (d_log d1). rewrite Hlog1, <- app_assoc. do 2 f_equal.
    apply completions_ext. intros x _ Hx. change (info d2) with (info d1). by apply Hi1.
  - intros x Hx. rewrite Hi3 by done. apply Hi1. set_solver.
Qed.

(** ** Emptying the hardware's queue *)

Lemma get_set_ring ch r dv : 0 < zlen (RxBdRing (AxiDma dv)) -> get_ring ch (set_ring ch r dv) = r.
Proof.
  unfold zlen. intros H. destruct ch; [done|]. unfold get_ring, set_ring, XAxiDma_GetRxRing, put_rx. cbn.
  now rewrite list_lookup_insert_eq by lia.
Qed.

Lemma ring_other ch ch' r dv : ch <> ch' -> get_ring ch' (set_ring ch r dv) = get_ring ch' dv.
Proof. by destruct ch, ch'. Qed.

Lemma set_ring_rx ch r dv : zlen (RxBdRing (AxiDma (set_ring ch r dv))) = zlen (RxBdRing (AxiDma dv)).
Proof. destruct ch; [done|]. unfold zlen. cbn. now rewrite length_insert. Qed.

Lemma refs_set_ring dma dv pend (d : Drv D) ch r : refs_ok dma dv pend d ->
  refs_ok dma (set_ring ch r dv) pend (d <|d_devs := <[dma := set_ring ch r dv]> (d_devs d)|>).
Proof.
  intros [Hdv Hhw Hc Hf Hn].
  split; [cbn; apply lookup_insert_eq|by destruct ch|done|by destruct ch|by destruct ch].
Qed.

(** What giving back the first [k] descriptors of the hardware's queue achieves. *)
Record reaped (dma : Z) (ch : chan) (rest : list Z) (dv : aes_dev) (d : Drv D)
  (dv' : aes_dev) (d' : Drv D) (k : Z) : Prop := {
  re_k : 0 <= k <= HwCnt (get_ring ch dv);
  re_sim : let a := ring_abs (get_ring ch dv) in
    sim (get_ring ch dv) (get_ring ch dv')
      (mkARing (a_free a ++ ztake k (a_hw a)) (a_pre a) (zdrop k (a_hw a)) []);
  re_refs : refs_ok dma dv' (ids (w_mem (d_w d')) (zdrop k (a_hw (ring_abs (get_ring ch dv)))) ++ rest) d';
  re_complete : packets_done (w_mem (d_w d)) (get_ring ch dv) (a_hw (ring_abs (get_ring ch dv))) k;
  re_kind : IsRxChannel (get_ring ch dv') = IsRxChannel (get_ring ch dv);
  re_frame : id_frame (ztake k (a_hw (ring_abs (get_ring ch dv)))) (w_mem (d_w d)) (w_mem (d_w d'));
  re_log : d_log d' = d_log d ++
    completions (info d) (ids (w_mem (d_w d)) (ztake k (a_hw (ring_abs (get_ring ch dv)))))
      (ids (w_mem (d_w d)) (zdrop k (a_hw (ring_abs (get_ring ch dv)))) ++ rest);
  re_info : forall x, x ∈ ids (w_mem (d_w d)) (zdrop k (a_hw (ring_abs (get_ring ch dv)))) ++ rest ->
    info d' x = info d x;
  re_dev : w_dev (d_w d') = w_dev (d_w d);
  re_other : forall ch', ch' <> ch -> get_ring ch' dv' = get_ring ch' dv;
  re_rx : zlen (RxBdRing (AxiDma dv')) = zlen (RxBdRing (AxiDma dv));
  re_lists : d_tx_head d' = d_tx_head d /\ d_rx_head d' = d_rx_head d;
}.

(** Nothing is completed. *)
Lemma reaped_nil dma ch rest dv (d : Drv D) : let r := get_ring ch dv in
  0 < zlen (RxBdRing (AxiDma dv)) -> ring_wf r -> PostCnt r = 0 ->
  refs_ok dma dv (ids (w_mem (d_w d)) (a_hw (ring_abs r)) ++ rest) d ->
  let dv' := set_ring ch r dv in
  reaped dma ch rest dv d dv' (d <|d_devs := <[dma := dv']> (d_devs d)|>) 0.
Proof.
  intros r Hrx W HP Hrefs. pose proof (hw_cnt r W) as Hcnt. set (hw := a_hw (ring_abs r)) in *.
  split; fold r; rewrite ?get_set_ring by done; cbv zeta; fold hw; change (zdrop 0 hw) with hw;
    change (ztake 0 hw) with (@nil Z); try done.
  - unfold zlen in Hcnt. lia.
  - assert (mkARing (a_free (ring_abs r) ++ []) (a_pre (ring_abs r)) hw [] = ring_abs r) as ->; [|by apply sim_same].
    unfold hw, ring_abs. by rewrite HP, app_nil_r.
  - by apply refs_set_ring.
  - split_and!; [lia|unfold zlen; lia|by constructor|by left].
  - cbn. by rewrite app_nil_r.
  - intros. by apply ring_other.
  - by rewrite set_ring_rx.
Qed.

Lemma ids_split m k hw : ids m hw = ids m (ztake k hw) ++ ids m (zdrop k hw).
Proof. unfold ids, ztake, zdrop. by rewrite <- fmap_app, take_drop. Qed.

(** Whole packets within a limit, and one set of them after another. *)
Lemma packets_done_limit m r limit l k : packets_done m r (ztake limit l) k -> packets_done m r l k.
Proof.
  unfold packets_done. intros (B & F & E). unfold zlen, ztake in *. rewrite length_take in B. rewrite take_take in F.
  replace (Z.to_nat k `min` Z.to_nat limit)%nat with (Z.to_nat k) in F by lia. split_and!; [lia|lia|done|].
  destruct E as [->|(bd & E & H)]; [by left|]. right. exists bd. split; [|done]. by apply lookup_take_Some in E as [E _].
Qed.

Lemma packets_done_app m m' r r' l k1 k2 : packets_done m r l k1 -> packets_done m' r' (zdrop k1 l) k2 ->
  (forall bd, bd ∈ zdrop k1 l -> XAxiDma_BdHwCompleted m' bd = XAxiDma_BdHwCompleted m bd /\ bd_eof m' r' bd = bd_eof m r bd) ->
  packets_done m r l (k1 + k2).
Proof.
  unfold packets_done. intros (B1 & F1 & E1) (B2 & F2 & E2) H. unfold zlen, zdrop in *. rewrite length_drop in B2.
  split; [lia|]. split.
  - rewrite (proj1 (take_split l k1 k2 ltac:(lia) ltac:(lia))). apply Forall_app. split; [done|]. apply Forall_forall. intros bd Hbd.
    pose proof (proj1 (Forall_forall _ _) F2 bd Hbd) as <-. symmetry. apply H. apply (elem_of_take_drop bd k2). by left.
  - destruct (decide (k2 = 0)) as [->|]; [by rewrite Z.add_0_r|]. destruct E2 as [?|(bd & E & Hb)]; [lia|]. right. exists bd.
    split; [|by rewrite <- (proj2 (H bd (list_elem_of_lookup_2 _ _ _ E)))]. rewrite lookup_drop in E. rewrite <- E. f_equal. lia.
Qed.

(** One iteration of the loop, when it finds completed descriptors. *)
Lemma reap_round dma ch limit rest n dv (d : Drv D) : let r := get_ring ch dv in
  let k := spec_fromhw_count (w_mem (d_w d)) r limit (ring_abs r) in
  0 < zlen (RxBdRing (AxiDma dv)) -> ring_wf r -> PostCnt r = 0 -> 0 < k ->
  refs_ok dma dv (ids (w_mem (d_w d)) (a_hw (ring_abs r)) ++ rest) d ->
  exists d' dv', aes_reap dma ch limit (S n) d = aes_reap dma ch limit n d' /\ reaped dma ch rest dv d dv' d' k.
Proof.
  intros r k Hrx W HP Hk Hrefs. set (m := w_mem (d_w d)) in *. cbn [aes_reap].
  rewrite (pt_bind_some _ _ _ _ _ (get_dev_eq _ _ _ (rf_dev _ _ _ _ Hrefs))). fold r.
  rewrite (pt_bind_some (look _) _ d m d) by done.
  destruct (fromhw_taken m r limit W HP) as (Hle & _ & Hset). fold k in Hle, Hset.
  destruct (Hset Hk) as (i & r1 & r2 & E1 & [S1 G1 Hall _ Hgrp Hfree Hsim]). rewrite E1.
  rewrite (pt_bind_some _ _ _ _ _ (put_dev_eq _ _ _)). replace (k <=? 0) with false by lia.
  set (hw := a_hw (ring_abs r)) in *. set (dv1 := set_ring ch r1 dv). set (d1 := d <|d_devs := <[dma := dv1]> (d_devs d)|>).
  replace k with (Z.of_nat (Z.to_nat k)) in Hgrp by lia.
  destruct (clean_set_run r1 G1 dma (ids m (zdrop k hw) ++ rest) (Z.to_nat k) i dv1 d1) as
    (d2 & dv2 & Hrun2 & Hr2 & Qd2 & Qt2 & Qr2 & Qv2 & F2 & Hlog2 & Hi2); [lia| |].
  { change (w_mem (d_w d1)) with m. rewrite Hgrp, Z2Nat.id, app_assoc, <- ids_split by lia. by apply refs_set_ring. }
  change (w_mem (d_w d1)) with m in *. rewrite Hgrp, Z2Nat.id in F2, Hlog2 by lia.
  rewrite (pt_bind_some _ _ _ _ _ Hrun2), (pt_bind_some _ _ _ _ _ (get_dev_eq _ _ _ (rf_dev _ _ _ _ Hr2))).
  assert (Hring2 : get_ring ch dv2 = r1).
  { transitivity (get_ring ch dv1); [destruct ch; cbn; now rewrite Qd2|by apply get_set_ring]. }
  rewrite Hring2, Hfree, (pt_bind_some _ _ _ _ _ (put_dev_eq _ _ _)). cbn [snd].
  assert (Hrx2 : 0 < zlen (RxBdRing (AxiDma dv2))) by (rewrite Qd2; unfold dv1; by rewrite set_ring_rx).
  eexists. exists (set_ring ch r2 dv2). split; [reflexivity|]. pose proof W as [G _].
  split; fold r; fold hw; fold m; rewrite ?get_set_ring by done; try done.
  - cbn [d_w set_field set_d_devs]. rewrite (ids_frame r G _ _ _ _ F2) by (intros bd; apply (hw_split r k bd W Hle)).
    by apply refs_set_ring.
  - apply (packets_done_limit _ _ limit), ready_done.
  - destruct (fromhw_keeps m r limit) as (_ & _ & HK & _). rewrite E1 in HK. cbn [snd] in HK. rewrite <- HK.
    unfold XAxiDma_BdRingFree in Hfree. apply (f_equal snd) in Hfree; cbn [snd] in Hfree; rewrite <- Hfree; by repeat case_match.
  - intros ch' Hne. rewrite ring_other by done.
    transitivity (get_ring ch' dv1); [destruct ch'; cbn; now rewrite Qd2|by apply ring_other].
  - rewrite set_ring_rx, Qd2. apply set_ring_rx.
Qed.

(** Iterations in sequence. *)
Lemma reaped_app dma ch rest dv d dv1 (d1 : Drv D) dv2 d2 k1 k2 : ring_wf (get_ring ch dv) ->
  reaped dma ch rest dv d dv1 d1 k1 -> reaped dma ch rest dv1 d1 dv2 d2 k2 ->
  reaped dma ch rest dv d dv2 d2 (k1 + k2).
Proof.
  intros W [Ak As Ar Ac Akd Af Al Ai Av Ao Ax Ah] [Bk Bs Br Bc Bkd Bf Bl Bi Bv Bo Bx Bh]. pose proof W as [G _].
  destruct As as [W1 S1 A1]. set (r := get_ring ch dv) in *. set (hw := a_hw (ring_abs r)) in *.
  pose proof (hw_cnt _ W1) as C1. rewrite A1 in C1, Bs, Br, Bc, Bf, Bl, Bi. cbn [a_hw a_free a_pre a_post] in *.
  destruct (take_split hw k1 k2 ltac:(lia) ltac:(lia)) as [Et Ed]. pose proof (hw_cnt r W) as C. fold hw in C.
  assert (Hin : forall bd, bd ∈ ztake k1 hw -> in_ring r bd) by (intros bd; by apply (hw_split r k1 bd)).
  assert (Hdis : forall bd, bd ∈ zdrop k1 hw -> in_ring r bd /\ bd ∉ ztake k1 hw) by (intros bd; by apply (hw_split r k1 bd)).
  assert (Esub : forall l, l ⊆ zdrop k1 hw -> ids (w_mem (d_w d1)) l = ids (w_mem (d_w d)) l)
    by (intros l Hl; eapply (ids_frame r G); eauto).
  assert (Ht : ztake k2 (zdrop k1 hw) ⊆ zdrop k1 hw) by (intros x Hx; apply (elem_of_take_drop x k2); auto).
  assert (Hd : zdrop k2 (zdrop k1 hw) ⊆ zdrop k1 hw) by (intros x Hx; apply (elem_of_take_drop x k2); auto).
  rewrite (Esub _ Hd) in Bl, Bi. rewrite (Esub _ Ht) in Bl.
  split; fold r; fold hw; rewrite ?Et, ?Ed; try done; try congruence.
  - unfold zlen, zdrop in *. rewrite length_drop in C1. lia.
  - destruct Bs as [? ? ?]. cbv zeta. fold hw. rewrite Et, Ed. split; [done|by etransitivity|by rewrite app_assoc].
  - eapply packets_done_app; [exact Ac|exact Bc|]. intros bd Hbd. destruct (Hdis bd Hbd) as [[j ->] Hn].
    assert (Hrd : forall o, bd_off o -> XAxiDma_BdRead (w_mem (d_w d1)) (bd_at r j) o = XAxiDma_BdRead (w_mem (d_w d)) (bd_at r j) o) by (intros o Ho; eapply (id_frame_read r G); eauto).
    unfold XAxiDma_BdHwCompleted, bd_eof. rewrite Akd, !Hrd by auto with drv. done.
  - eapply id_frame_trans; (eapply id_frame_incl; [|eassumption]); set_solver.
  - rewrite Bl, Al, <- app_assoc. f_equal. rewrite (ids_split _ k2 (zdrop k1 hw)) in Ai |- *.
    assert (ids (w_mem (d_w d)) (ztake k1 hw ++ ztake k2 (zdrop k1 hw)) =
      ids (w_mem (d_w d)) (ztake k1 hw) ++ ids (w_mem (d_w d)) (ztake k2 (zdrop k1 hw))) as -> by apply fmap_app.
    rewrite completions_app, <- app_assoc. f_equal.
    apply completions_ext. intros x _ Hx. apply Ai. by rewrite <- app_assoc.
  - intros x Hx. rewrite Bi by done. apply Ai. rewrite (ids_split _ k2 (zdrop k1 hw)). set_solver.
  - intros ch' Hne. by rewrite Bo, Ao.
  - destruct Bh as [-> ->]. exact Ah.
Qed.

Lemma reap_run dma ch limit rest n : forall dv (d : Drv D),
  0 < zlen (RxBdRing (AxiDma dv)) -> ring_wf (get_ring ch dv) -> PostCnt (get_ring ch dv) = 0 ->
  HwCnt (get_ring ch dv) < Z.of_nat n ->
  refs_ok dma dv (ids (w_mem (d_w d)) (a_hw (ring_abs (get_ring ch dv))) ++ rest) d ->
  exists d' dv' k, aes_reap dma ch limit n d = Some (tt, d') /\ reaped dma ch rest dv d dv' d' k /\
  spec_fromhw_count (w_mem (d_w d')) (get_ring ch dv') limit (ring_abs (get_ring ch dv')) = 0.
Proof.
  induction n as [|n IH]; intros dv d Hrx W HP Hfuel Hrefs.
  { pose proof (hw_cnt _ W). unfold zlen in *. lia. }
  set (r := get_ring ch dv) in *. set (k := spec_fromhw_count (w_mem (d_w d)) r limit (ring_abs r)).
  destruct (fromhw_taken (w_mem (d_w d)) r limit W HP) as (Hle & Hz & _). fold k in Hle, Hz.
  destruct (decide (k = 0)) as [E0|E0].
  { eexists _, _, 0. split; [|split; [by apply reaped_nil|]].
    - cbn [aes_reap]. rewrite (pt_bind_some _ _ _ _ _ (get_dev_eq _ _ _ (rf_dev _ _ _ _ Hrefs))). fold r.
      rewrite (pt_bind_some (look _) _ d (w_mem (d_w d)) d), (Hz E0) by done. reflexivity.
    - rewrite get_set_ring by done. exact E0. }
  destruct (reap_round dma ch limit rest n dv d Hrx W HP ltac:(fold r k; lia) Hrefs) as (d1 & dv1 & E1 & R1).
  fold r k in R1. pose proof R1 as [_ [W1 _ A1] Rr _ _ _ _ _ _ _ Rx _]. fold r in A1, Rr.
  destruct (IH dv1 d1) as (d' & dv' & k2 & E2 & R2 & Hend).
  - lia.
  - done.
  - apply (post_cnt_nil _ W1). by rewrite A1.
  - rewrite <- (hw_cnt _ W1), A1. cbn [a_hw]. pose proof (hw_cnt r W). unfold zlen, zdrop in *. rewrite length_drop. lia.
  - by rewrite A1.
  - exists d', dv', (k + k2). split; [by rewrite E1|]. split; [by eapply reaped_app|done].
Qed.

End refcounts.
