(* ===== verification/AesThms.v ===== *)
(** * The theorems about the AES driver

    Buffers, submission, completion and interrupts, each with a witness on a
    small device. *)

From S2P Require Import Prelude Kernel Hw Bd BdRing RingGeom RingSpec RingHw RingCreate RingStart RingSys RingClient Dma DmaBuf AesDma AesProps.

(** ** Buffers *)

(** A buffer made from a mapped scatter list with non-empty entries covers
    the request exactly: iterating over it gives as many segments as the
    descriptor count used for allocation, they are the list's entries in order
    cut off at the request size, and their lengths add up to it. *)
Theorem dma_buf_covers buf sg cnt sz :
  sg_good sg -> 0 <= cnt -> 0 < sz <= sg_bytes (take (Z.to_nat cnt) sg) ->
  let '(err, buf') := dma_buf_sg_init true buf sg cnt sz in
  err = 0 /\ dma_buf_segs buf' = sg_cut (take (Z.to_nat cnt) sg) sz /\
  zlen (dma_buf_segs buf') = dma_buf_cnt buf' /\ seg_bytes (dma_buf_segs buf') = sz.
Proof.
  intros Hg Hc Hs. pose proof (sg_init_segs buf sg cnt sz Hg Hc Hs) as [H1 H2].
  unfold dma_buf_sg_init in *. cbn [negb snd] in *. split_and!; [done|done|by rewrite H1, H2|].
  rewrite H1. apply sg_cut_bytes; [by apply Forall_take|lia].
Qed.

Lemma dma_buf_covers_witness :
  seg_bytes (dma_buf_segs (dma_buf_sg_init true dma_buf_zero
    [mkSg 0x1000 4096; mkSg 0x9000 4096; mkSg 0x5000 4096] 3 6000).2) = 6000.
Proof.
  pose proof (dma_buf_covers dma_buf_zero [mkSg 0x1000 4096; mkSg 0x9000 4096; mkSg 0x5000 4096] 3 6000
    ltac:(repeat constructor) ltac:(lia) ltac:(split; [lia|vm_compute; discriminate])) as H.
  exact (proj2 (proj2 (proj2 H))).
Defined.

(** The guarantee needs non-empty entries: an empty entry in the middle
    ends the iteration although the descriptor count goes on, so the rest of
    the request is not transferred and the surplus descriptors stay allocated. *)
Theorem dma_buf_empty_entry :
  let buf := (dma_buf_sg_init true dma_buf_zero
    [mkSg 0x1000 4096; mkSg 0x9000 0; mkSg 0x5000 4096] 3 8192).2 in
  dma_buf_cnt buf = 3 /\ dma_buf_segs buf = [(0x1000, 4096)].
Proof. vm_compute. done. Qed.

(** ** Submission *)

(** C27: submitting one channel of a request whose buffer comes from a scatter
    list: with enough free descriptors and segments that fit the channel the
    call succeeds; the first free descriptors go to the hardware's queue in
    order, the [k]-th of them carries the [k]-th segment and the request's
    identifier, the first is marked as start and the last as end of packet,
    the lengths add up to the request size, nothing outside these descriptors
    changes in memory, and the request gains one reference for each. *)
Theorem aes_submission_exact {D} `{!RegBus D} (d : Drv D) dma sw ch dv s n sg cnt sz buf0 :
  d_devs d !! dma = Some dv -> d_descs d !! sw = Some s ->
  get_buf ch s = (dma_buf_sg_init true buf0 sg cnt sz).2 ->
  sg_good sg -> 0 <= cnt -> 0 < sz <= sg_bytes (take (Z.to_nat cnt) sg) ->
  let r := get_ring ch dv in
  let segs := sg_cut (take (Z.to_nat cnt) sg) sz in
  ring_wf r -> PreCnt r = 0 -> 0 <= n <= 26 -> MaxTransferLen r = Z.ones n ->
  zlen segs <= FreeCnt r -> (forall i seg, seg ∈ segs -> seg_fits (w_mem (d_w d)) n (bd_at r i) seg) ->
  exists w' r' i buf' s',
  aes_desc_to_hw_ch dma sw ch d = Some (XST_SUCCESS,
    d <|d_w := w'|> <|d_devs := <[dma := set_ring ch r' dv]> (d_devs d)|>
      <|d_descs := <[sw := s']> (d_descs d)|>) /\
  s' = set_submitted ch (bd_at r i) buf' (zlen segs) s /\ d_kref s' = d_kref s + zlen segs /\
  submitted (w_mem (d_w d)) (w_mem w') r r' n sw segs i /\ seg_bytes segs = sz.
Proof.
  intros Hdv Hs Hb Hg Hc Hsz r segs W HP Hn HM Hfree Hfit.
  destruct (sg_init_segs buf0 sg cnt sz Hg Hc Hsz) as [E1 E2]. rewrite <- Hb in E1, E2. fold segs in E1, E2.
  destruct (submit_ch d dma sw ch dv s n Hdv Hs W HP) as (w' & r' & i & buf' & Hrun & Hsub).
  { split; rewrite ?E1; done. }
  rewrite E1 in Hrun, Hsub. exists w', r', i, buf'. eexists. split_and!; [exact Hrun|done|by destruct ch|done|].
  apply sg_cut_bytes; [by apply Forall_take|lia].
Qed.

(** *** A device with two rings of four descriptors *)

Definition ex_blank (rx : Z) : XAxiDma_BdRing :=
  BdRing_zero <|IsRxChannel := rx|> <|MaxTransferLen := XAXIDMA_MAX_TRANSFER_LEN|> <|DataWidth := 4|>
    <|ChanBase := 0x30 * rx|>.
Definition ex_mem : Mem :=
  st_out (XAxiDma_BdRingCreate (ex_blank 0) 0x1000 0x80001000 0x40 4;;
          XAxiDma_BdRingCreate (ex_blank 1) 0x2000 0x80002000 0x40 4) ∅.
Definition ex_tx : XAxiDma_BdRing := created (ex_blank 0) 0x1000 0x80001000 0x40 4.
Definition ex_rx : XAxiDma_BdRing := created (ex_blank 1) 0x2000 0x80002000 0x40 4.
Definition ex_dev : aes_dev :=
  mkAesDev (XAxiDma_zero <|Initialized := 1|> <|HasMm2S := 1|> <|HasS2Mm := 1|> <|HasSg := 1|>
              <|RxNumChannels := 1|> <|TxNumChannels := 1|> <|TxBdRing := ex_tx|>
              <|RxBdRing := <[0%nat := ex_rx]> (RxBdRing XAxiDma_zero)|>)
    0x80001000 0x1000 256 0x80002000 0x2000 256 [] 0 (mkTimer false 0) (mkTimer false 0) [].
Definition ex_sg : sglist := [mkSg 0x10000 4096; mkSg 0x20000 4096].
Definition ex_buf : dma_buf_t := (dma_buf_sg_init true dma_buf_zero ex_sg 2 5000).2.
Definition ex_sw : Z := 0xA000.
Definition ex_desc : aes_desc :=
  aes_desc_zero <|d_dma := 0xD000|> <|d_kref := 1|> <|d_cb := 7|> <|d_priv := 9|>
    <|d_src_buf := ex_buf|> <|d_dst_buf := ex_buf|>.
Definition ex_drv : Drv RegFile :=
  mkDrv (mkWorld ex_mem ∅) {[0xD000 := ex_dev]} {[ex_sw := ex_desc]} [] [] 0 [].

Lemma ex_args p v : is_u32 p -> is_u32 v -> p mod 0x40 = 0 -> v mod 0x40 = 0 -> v + 256 <= 4294967296 ->
  create_args p v 0x40 4.
Proof. intros. split; try done; unfold is_u32 in *; lia. Qed.

Lemma ex_wf ch : ring_wf (get_ring ch ex_dev).
Proof.
  destruct ch; (split; [apply created_geom|exists 0; apply created_groups]);
    apply ex_args; try done; unfold is_u32; lia.
Qed.

(** All descriptors of the example rings take word-aligned buffers. *)
Lemma ex_fits ch i seg : seg ∈ sg_cut (take (Z.to_nat 2) ex_sg) 5000 ->
  seg_fits ex_mem 23 (bd_at (get_ring ch ex_dev) i) seg.
Proof.
  intros Hs. destruct (ex_wf ch) as [G _]. revert i. assert (seg = (0x10000, 4096) \/ seg = (0x20000, 904)) as Hseg.
  { change (sg_cut (take (Z.to_nat 2) ex_sg) 5000) with [(0x10000, 4096); (0x20000, 904)] in Hs.
    set_solver. }
  apply (ring_of_four _ G (fun bd => seg_fits ex_mem 23 bd seg)); [by destruct ch|..];
    destruct ch, Hseg as [->| ->]; (split; [vm_compute; split; congruence|vm_compute; reflexivity]).
Qed.

Lemma aes_submission_exact_witness : exists d',
  aes_desc_to_hw_ch 0xD000 ex_sw ChTx ex_drv = Some (XST_SUCCESS, d').
Proof.
  destruct (aes_submission_exact ex_drv 0xD000 ex_sw ChTx ex_dev ex_desc 23 ex_sg 2 5000 dma_buf_zero)
    as (w' & r' & i & buf' & s' & E & _).
  - reflexivity.
  - reflexivity.
  - reflexivity.
  - repeat constructor.
  - lia.
  - split; [lia|vm_compute; discriminate].
  - exact (ex_wf ChTx).
  - reflexivity.
  - lia.
  - reflexivity.
  - vm_compute; discriminate.
  - exact (ex_fits ChTx).
  - eexists. exact E.
Defined.

(** ** References across submission and completion *)

Section invariant.
Context {D : Type} `{!RegBus D}.

(** Two rings whose descriptors do not overlap. *)
Definition rings_apart (r r' : XAxiDma_BdRing) : Prop :=
  forall i j, bd_apart (bd_at r i) (bd_at r' j).

Lemma rings_apart_sym r r' : rings_apart r r' -> rings_apart r' r.
Proof. intros H i j. specialize (H j i). unfold bd_apart in *. lia. Qed.

(** Rings in disjoint memory. *)
Lemma range_apart r r' : geom r -> geom r' ->
  FirstBdAddr r + Separation r * AllCnt r <= FirstBdAddr r' -> rings_apart r r'.
Proof.
  intros [Hc Hs ? ? ? ? ?] [Hc' Hs' ? ? ? ? ?] H i j. unfold bd_apart, bd_at.
  pose proof (Z.mod_pos_bound i _ Hc). pose proof (Z.mod_pos_bound j _ Hc').
  set (x := i mod _) in *. set (y := j mod _) in *. clearbody x y. change sizeof_Bd with 64 in *. nia.
Qed.

(** The identifiers in the hardware's queue after a submission. *)
Lemma submitted_ids m m' r r' n sw segs i : ring_wf r -> submitted m m' r r' n sw segs i ->
  ids m' (a_hw (ring_abs r')) = ids m (a_hw (ring_abs r)) ++ replicate (length segs) (u32 sw).
Proof.
  intros W [HS Hfree [Hf _] Hfr]. pose proof W as [G _]. rewrite (sim_abs _ _ _ HS). cbn [a_hw].
  unfold ids. rewrite fmap_app. f_equal; [by eapply hw_ids_frame|].
  apply list_eq. intros k. rewrite list_lookup_fmap. unfold grp. rewrite list_lookup_fmap.
  destruct (decide (k < length segs)%nat) as [Hk|Hk].
  - rewrite lookup_seqZ_lt by (unfold zlen; lia). rewrite lookup_replicate_2 by done. cbn.
    destruct (lookup_lt_is_Some_2 segs k Hk) as [seg Hs]. f_equal. apply (fi_id _ _ _ _ _ (Hf k seg Hs)).
  - rewrite lookup_seqZ_ge by (unfold zlen; lia). cbn. symmetry. apply lookup_replicate_None. lia.
Qed.

(** The other ring does not notice. *)
Lemma submitted_other m m' r r' n sw segs i q : ring_wf q -> rings_apart r q ->
  submitted m m' r r' n sw segs i -> forall x o, bd_off o ->
  XAxiDma_BdRead m' (bd_at q x) o = XAxiDma_BdRead m (bd_at q x) o.
Proof.
  intros [G _] Ha [_ _ _ F] x o Ho. eapply bds_frame_read; eauto using bd_at_ok.
  intros b Hb. destruct (grp_in_ring _ _ _ _ Hb) as [y ->]. apply Ha.
Qed.

Lemma ids_same m m' r l : (forall bd, bd ∈ l -> in_ring r bd) ->
  (forall x o, bd_off o -> XAxiDma_BdRead m' (bd_at r x) o = XAxiDma_BdRead m (bd_at r x) o) ->
  ids m' l = ids m l.
Proof.
  intros Hl H. unfold ids. apply list_fmap_ext. intros k bd Hk%list_elem_of_lookup_2.
  destruct (Hl bd Hk) as [x ->]. unfold XAxiDma_BdGetId. apply H. auto with drv.
Qed.

(** The invariant of a device between calls: every descriptor that is with the
    hardware holds one reference of the request whose identifier it carries,
    and there are no other references. *)
Record aes_inv (dma : Z) (dv : aes_dev) (d : Drv D) : Prop := {
  ai_rx : 0 < zlen (RxBdRing (AxiDma dv));
  ai_wf : forall ch, ring_wf (get_ring ch dv);
  ai_pre : forall ch, PreCnt (get_ring ch dv) = 0;
  ai_post : forall ch, PostCnt (get_ring ch dv) = 0;
  ai_apart : rings_apart (get_ring ChTx dv) (get_ring ChRx dv);
  ai_refs : let m := w_mem (d_w d) in
    refs_ok dma dv (ids m (a_hw (ring_abs (get_ring ChTx dv))) ++
                    ids m (a_hw (ring_abs (get_ring ChRx dv)))) d;
}.

Lemma occ_app sw a b : occ sw (a ++ b) = occ sw a + occ sw b.
Proof. unfold occ. rewrite count_occ_app. lia. Qed.

Lemma occ_replicate sw x n : occ sw (replicate n x) = if decide (x = sw) then Z.of_nat n else 0.
Proof.
  unfold occ. induction n as [|n IH]; [by destruct (decide _)|]. cbn [replicate].
  destruct (decide (x = sw)) as [->|].
  - rewrite count_occ_cons_eq by done. lia.
  - rewrite count_occ_cons_neq by done. lia.
Qed.

Lemma refs_perm dma dv p p' (d : Drv D) : (forall x, occ x p = occ x p') ->
  refs_ok dma dv p d -> refs_ok dma dv p' d.
Proof.
  intros E [? ? Hc Hf ?].
  assert (Ein : forall x, x ∈ p' <-> x ∈ p) by (intros x; by rewrite !occ_in, E).
  split; [done|done| | |done].
  - intros sw Hin. rewrite <- E. apply Hc. by apply Ein.
  - intros sw Hin. rewrite Ein. by apply Hf.
Qed.

(** The identifiers of the descriptors a channel has with the hardware, in the
    order of the queue, and those of both channels. *)
Definition hw_ids (dv : aes_dev) (d : Drv D) (ch : chan) : list Z :=
  ids (w_mem (d_w d)) (a_hw (ring_abs (get_ring ch dv))).

Definition out_ids (dv : aes_dev) (d : Drv D) : list Z := hw_ids dv d ChTx ++ hw_ids dv d ChRx.

(** The rings of a device between calls. *)
Record rings_ok (dv : aes_dev) : Prop := {
  rs_rx : 0 < zlen (RxBdRing (AxiDma dv));
  rs_wf : forall ch, ring_wf (get_ring ch dv);
  rs_pre : forall ch, PreCnt (get_ring ch dv) = 0;
  rs_post : forall ch, PostCnt (get_ring ch dv) = 0;
  rs_apart : rings_apart (get_ring ChTx dv) (get_ring ChRx dv);
}.

(** A submission in progress, in terms of the invariant: the request [sw] has
    [x] references besides those of its descriptors. *)
Record submitting (dma sw x : Z) (dv : aes_dev) (d : Drv D) : Prop := {
  sb_rings : rings_ok dv;
  sb_dev : d_devs d !! dma = Some dv;
  sb_hw : forall y, y ∈ hw_head dv -> is_Some (d_descs d !! y);
  sb_desc : exists s, d_descs d !! sw = Some s /\ d_dma s = dma /\ d_kref s = x + occ sw (out_ids dv d);
  sb_refs : forall y, y <> sw -> y ∈ out_ids dv d ->
    exists s, d_descs d !! y = Some s /\ d_dma s = dma /\ d_kref s = occ y (out_ids dv d);
  sb_free : forall y, y ∈ desc_head dv -> y <> sw /\ y ∉ out_ids dv d;
  sb_nodup : NoDup (desc_head dv);
}.

Lemma same_geom_apart r r' q : same_geom r r' -> rings_apart r q -> rings_apart r' q.
Proof. intros S H i j. rewrite (same_geom_at r r') by done. apply H. Qed.

Lemma sim_counts r r' a : sim r r' a ->
  PreCnt r' = zlen (a_pre a) /\ PostCnt r' = zlen (a_post a).
Proof.
  intros [[G [p H]] _ A]. rewrite <- A, (abs_groups r' p G H). cbn [a_pre a_post].
  destruct H. rewrite !grp_length by done. done.
Qed.

Lemma rings_apart_of ch dv : rings_ok dv -> forall ch', ch' <> ch -> rings_apart (get_ring ch dv) (get_ring ch' dv).
Proof. intros [_ _ _ _ H] ch' Hne. destruct ch, ch'; try done. by apply rings_apart_sym. Qed.

(** Replacing a ring by one that an operation left. *)
Lemma rings_ok_set ch r' a dv : rings_ok dv -> sim (get_ring ch dv) r' a -> a_pre a = [] ->
  a_post a = a_post (ring_abs (get_ring ch dv)) -> rings_ok (set_ring ch r' dv).
Proof.
  intros R HS Ep Eq. pose proof R as [Hrx Hwf Hpre Hpost Hap]. destruct (sim_counts _ _ _ HS) as [Cp Cq].
  rewrite Ep in Cp. assert (Hring : get_ring ch (set_ring ch r' dv) = r') by by apply get_set_ring.
  assert (Hoth : forall ch', ch' <> ch -> get_ring ch' (set_ring ch r' dv) = get_ring ch' dv)
    by (intros; apply ring_other; congruence).
  split.
  - by rewrite set_ring_rx.
  - intros ch'. destruct (decide (ch' = ch)) as [->|Hne]; [rewrite Hring; apply HS|rewrite Hoth by done; auto].
  - intros ch'. destruct (decide (ch' = ch)) as [->|Hne]; [by rewrite Hring|rewrite Hoth by done; auto].
  - intros ch'. destruct (decide (ch' = ch)) as [->|Hne]; [|rewrite Hoth by done; auto].
    rewrite Hring, Cq, Eq. destruct (cnt_nil _ (Hwf ch)) as [_ Hn]. by rewrite Hn.
  - pose proof (sim_geom _ _ _ HS) as Sg. destruct ch.
    + rewrite Hring, (Hoth ChRx) by done. by eapply same_geom_apart.
    + rewrite Hring, (Hoth ChTx) by done. apply rings_apart_sym. eapply same_geom_apart; [done|].
      by apply rings_apart_sym.
Qed.

(** A submission on a channel puts its descriptors behind those already there. *)
Lemma submitted_hw_ids (d d' : Drv D) dv ch r' n sw segs i : is_u32 sw -> rings_ok dv ->
  submitted (w_mem (d_w d)) (w_mem (d_w d')) (get_ring ch dv) r' n sw segs i ->
  forall ch', hw_ids (set_ring ch r' dv) d' ch' =
    hw_ids dv d ch' ++ (if decide (ch' = ch) then replicate (length segs) sw else []).
Proof.
  intros Hu R Hsub ch'. pose proof R as [Hrx Hwf _ _ _]. unfold hw_ids. destruct (decide (ch' = ch)) as [->|Hne].
  - rewrite get_set_ring by done. rewrite <- (u32_small sw Hu) at 1. by eapply submitted_ids.
  - rewrite ring_other, app_nil_r by congruence. apply (ids_same _ _ (get_ring ch' dv)).
    + intros bd. by apply hw_in_ring.
    + eapply submitted_other; eauto. by apply rings_apart_of.
Qed.

(** A submission adds one reference for each of its descriptors. *)
Lemma submitted_occ (d d' : Drv D) dv ch r' n sw segs i : is_u32 sw -> rings_ok dv ->
  submitted (w_mem (d_w d)) (w_mem (d_w d')) (get_ring ch dv) r' n sw segs i ->
  forall y, occ y (out_ids (set_ring ch r' dv) d') = occ y (out_ids dv d) + (if decide (sw = y) then zlen segs else 0).
Proof.
  intros Hu R Hsub y. pose proof (submitted_hw_ids d d' dv ch r' n sw segs i Hu R Hsub) as Hids.
  unfold out_ids. rewrite !Hids, !occ_app. assert (occ y (@nil Z) = 0) as Z0 by done.
  assert (ch = ChTx \/ ch = ChRx) as Hch by (destruct ch; auto).
  destruct (decide (ChTx = ch)), (decide (ChRx = ch)); try (exfalso; intuition congruence);
    rewrite occ_replicate, ?Z0; unfold zlen; destruct (decide (sw = y)); lia.
Qed.

Lemma submitting_ch (d : Drv D) dma sw x dv s ch n : is_u32 sw ->
  submitting dma sw x dv d -> d_descs d !! sw = Some s ->
  buf_fits (w_mem (d_w d)) (get_ring ch dv) n (get_buf ch s) ->
  exists d' dv' s', aes_desc_to_hw_ch dma sw ch d = Some (0, d') /\ submitting dma sw x dv' d' /\
  d_descs d' !! sw = Some s' /\ (forall ch', ch' <> ch -> get_buf ch' s' = get_buf ch' s) /\
  d_kref s' = d_kref s + zlen (dma_buf_segs (get_buf ch s)) /\
  d_cb s' = d_cb s /\ d_priv s' = d_priv s /\ d_log d' = d_log d /\ hw_head dv' = hw_head dv /\
  (forall ch', hw_ids dv' d' ch' =
     hw_ids dv d ch' ++ (if decide (ch' = ch) then replicate (length (dma_buf_segs (get_buf ch s))) sw else [])) /\
  (forall ch', ch' <> ch -> get_ring ch' dv' = get_ring ch' dv /\
     forall y o, bd_off o -> XAxiDma_BdRead (w_mem (d_w d')) (bd_at (get_ring ch' dv) y) o =
                             XAxiDma_BdRead (w_mem (d_w d)) (bd_at (get_ring ch' dv) y) o).
Proof.
  intros Hu S Hs Hfit. destruct S as [R Sdev Shw [s0 (Hs0 & Hd0 & Hk0)] Sref Sfree Snd].
  rewrite Hs in Hs0. injection Hs0 as <-. pose proof R as [Srx Swf Spre Spost Sap].
  destruct (submit_ch d dma sw ch dv s n Sdev Hs (Swf ch) (Spre ch) Hfit) as (w' & r' & i & buf' & Hrun & Hsub).
  set (segs := dma_buf_segs (get_buf ch s)) in *. set (r := get_ring ch dv) in *.
  set (dv' := set_ring ch r' dv) in *. set (s' := set_submitted ch (bd_at r i) buf' (zlen segs) s) in *.
  set (d' := d <|d_w := w'|> <|d_devs := _|> <|d_descs := _|>) in Hrun.
  assert (Hocc : forall y, occ y (out_ids dv' d') = occ y (out_ids dv d) + (if decide (sw = y) then zlen segs else 0))
    by (by eapply submitted_occ).
  assert (Hlook : forall y, y <> sw -> d_descs d' !! y = d_descs d !! y) by (intros; by apply lookup_insert_ne).
  assert (Hsw : d_descs d' !! sw = Some s') by apply lookup_insert_eq.
  assert (Hk' : d_kref s' = d_kref s + zlen segs) by (unfold s'; by destruct ch).
  exists d', dv', s'. split; [exact Hrun|]. split.
  { split.
    - by eapply rings_ok_set; [done|exact (su_sim _ _ _ _ _ _ _ _ Hsub)|..].
    - apply lookup_insert_eq.
    - intros y Hy. assert (y ∈ hw_head dv) as Hy' by (by destruct ch).
      destruct (decide (y = sw)) as [->|]; [rewrite Hsw; eauto|rewrite Hlook by done; auto].
    - exists s'. split_and!; [done|unfold s'; by destruct ch|]. rewrite Hocc. destruct (decide (sw = sw)); [lia|done].
    - intros y Hy Hin. rewrite Hlook, Hocc by done. rewrite occ_in, Hocc in Hin. destruct (decide (sw = y)); [done|].
      rewrite Z.add_0_r in *. apply Sref; [done|by apply occ_in].
    - intros y Hy. assert (Hy' : y ∈ desc_head dv) by (by destruct ch). destruct (Sfree y Hy') as [Hne Hn].
      split; [done|]. rewrite occ_in, Hocc. destruct (decide (sw = y)); [congruence|]. by rewrite Z.add_0_r, <- occ_in.
    - by destruct ch. }
  split_and!; try done; try (unfold s', dv'; by destruct ch).
  - intros ch' Hne. unfold s'. by destruct ch, ch'.
  - by eapply submitted_hw_ids.
  - intros ch' Hne. split; [apply ring_other; congruence|].
    eapply submitted_other; [apply Swf| |exact Hsub]. by apply rings_apart_of.
Qed.

(** What is left of a submission once its descriptors are queued. *)
Lemma submitting_refs dma sw dv (d : Drv D) : submitting dma sw 1 dv d ->
  refs_ok dma dv (sw :: out_ids dv d) d.
Proof.
  intros [_ Hdev Hhw (s & Hs & Hd & Hk) Hr Hf Hn].
  split; [done|done| |intros y Hy [?|?]%elem_of_cons; by destruct (Hf y Hy)|done]. intros y Hy.
  destruct (decide (y = sw)) as [->|Hne].
  - exists s. rewrite occ_cons_eq. split_and!; [done|lia|done].
  - rewrite occ_cons_ne by done. apply elem_of_cons in Hy as [|Hy]; [done|].
    destruct (Hr y Hne Hy) as (s' & ? & ? & ?). eauto.
Qed.

Lemma buf_fits_mem m m' r n buf : buf_fits m r n buf ->
  (forall y o, bd_off o -> XAxiDma_BdRead m' (bd_at r y) o = XAxiDma_BdRead m (bd_at r y) o) ->
  buf_fits m' r n buf.
Proof.
  intros [? ? ? ? Hseg] Hm. split; try done. intros i seg Hin. destruct (Hseg i seg Hin) as [? Hb].
  split; [done|]. rewrite <- Hb. apply buf_ok_same, Hm. auto with drv.
Qed.

(** The state in which [aes_desc_to_hw] calls [_aes_desc_to_hw]. *)
Lemma submitting_start dma sw dv s s1 dv1 (d : Drv D) : aes_inv dma dv d ->
  d_descs d !! sw = Some s -> d_kref s = 1 -> d_dma s = dma -> sw ∉ out_ids dv d ->
  sw ∉ desc_head dv -> d_kref s1 = d_kref s -> d_dma s1 = d_dma s -> AxiDma dv1 = AxiDma dv ->
  hw_head dv1 = hw_head dv ++ [sw] -> desc_head dv1 = desc_head dv ->
  submitting dma sw 1 dv1
    (d <|d_descs := <[sw := s1]> (d_descs d)|> <|d_devs := <[dma := dv1]> (d_devs d)|>).
Proof.
  intros [Hrx Hwf Hpre Hpost Hap [Hdev Hhw Hr Hf Hn]] Hs Hk Hd Hnot Hnf Ek Ed EA Eh Ef.
  assert (Er : forall ch, get_ring ch dv1 = get_ring ch dv) by (intros ch; destruct ch; cbn; by rewrite EA).
  assert (Hlook : forall y, y <> sw -> <[sw := s1]> (d_descs d) !! y = d_descs d !! y)
    by (intros; by apply lookup_insert_ne).
  assert (Hocc : occ sw (out_ids dv d) = 0).
  { pose proof (occ_in sw (out_ids dv d)) as Hi. unfold occ in *.
    assert (~ (0 < Z.of_nat (count_occ Z.eq_dec (out_ids dv d) sw))) by tauto. lia. }
  set (d' := d <|d_descs := _|> <|d_devs := _|>).
  assert (Eo : out_ids dv1 d' = out_ids dv d) by (unfold out_ids, hw_ids; by rewrite !Er).
  split; cbn [d' d_devs d_descs set_field set_d_devs set_d_descs]; rewrite ?Eo; try done.
  - split; rewrite ?EA, ?Er; try done; intros ch; by rewrite Er.
  - apply lookup_insert_eq.
  - intros y. rewrite Eh. intros Hy. destruct (decide (y = sw)) as [->|]; [rewrite lookup_insert_eq; eauto|].
    rewrite Hlook by done. apply Hhw. set_solver.
  - exists s1. rewrite lookup_insert_eq. split_and!; [done|congruence|lia].
  - intros y Hy Hin. rewrite Hlook by done. destruct (Hr y Hin) as (s' & ? & ? & ?). eauto.
  - intros y. rewrite Ef. intros Hy. split; [congruence|by apply Hf].
  - by rewrite Ef.
Qed.

(** Both channels, the receiving one first. *)
Lemma submitting_both (d : Drv D) dma sw x dv s : is_u32 sw -> submitting dma sw x dv d -> d_descs d !! sw = Some s ->
  (forall ch, exists n, buf_fits (w_mem (d_w d)) (get_ring ch dv) n (get_buf ch s)) ->
  exists d1 d2 dv2 s2, aes_desc_to_hw_ch dma sw ChRx d = Some (0, d1) /\ aes_desc_to_hw_ch dma sw ChTx d1 = Some (0, d2) /\
  submitting dma sw x dv2 d2 /\ d_descs d2 !! sw = Some s2 /\
  d_kref s2 = d_kref s + zlen (dma_buf_segs (d_dst_buf s)) + zlen (dma_buf_segs (d_src_buf s)) /\
  d_cb s2 = d_cb s /\ d_priv s2 = d_priv s /\ d_log d2 = d_log d /\
  forall ch, hw_ids dv2 d2 ch = hw_ids dv d ch ++ replicate (length (dma_buf_segs (get_buf ch s))) sw.
Proof.
  intros Hu S0 Hs Hfit. destruct (Hfit ChRx) as [n1 F1]. destruct (Hfit ChTx) as [n2 F2].
  destruct (submitting_ch d dma sw x dv s ChRx n1 Hu S0 Hs F1) as
    (d1 & dv1 & s1 & Hrun1 & S1 & Hs1 & Hb1 & Hk1 & Hc1 & Hp1 & Hl1 & _ & Hh1 & Ho1).
  destruct (Ho1 ChTx ltac:(done)) as [Er1 Em1].
  assert (F1' : buf_fits (w_mem (d_w d1)) (get_ring ChTx dv1) n2 (get_buf ChTx s1)).
  { rewrite Hb1, Er1 by done. eapply buf_fits_mem; [exact F2|exact Em1]. }
  destruct (submitting_ch d1 dma sw x dv1 s1 ChTx n2 Hu S1 Hs1 F1') as
    (d2 & dv2 & s2 & Hrun2 & S2 & Hs2 & _ & Hk2 & Hc2 & Hp2 & Hl2 & _ & Hh2 & _).
  rewrite Hb1 in Hk2, Hh2 by done. cbn [get_buf] in Hk1, Hk2. exists d1, d2, dv2, s2. split_and!; try done; [lia|congruence..|].
  intros []; by rewrite Hh2, Hh1, ?app_nil_r.
Qed.

Lemma submit_run HZ ru (d : Drv D) dma sw dv s : aes_inv dma dv d ->
  d_descs d !! sw = Some s -> d_kref s = 1 -> d_dma s = dma -> is_u32 sw -> sw ∉ out_ids dv d ->
  sw ∉ desc_head dv -> (forall ch, exists n, buf_fits (w_mem (d_w d)) (get_ring ch dv) n (get_buf ch s)) ->
  exists d' dv' s', aes_desc_to_hw HZ ru dma sw d = Some (0, d') /\ aes_inv dma dv' d' /\
  d_log d' = d_log d /\ d_descs d' !! sw = Some s' /\
  d_kref s' = zlen (dma_buf_segs (d_dst_buf s)) + zlen (dma_buf_segs (d_src_buf s)) /\
  (forall ch, hw_ids dv' d' ch = hw_ids dv d ch ++ replicate (length (dma_buf_segs (get_buf ch s))) sw) /\
  (d_cb s <> 0 -> EvCallback (d_cb s) (d_priv s) ∈ info d' sw).
Proof.
  intros I Hs Hk Hd Hu Hnot Hnf Hfit. unfold aes_desc_to_hw.
  rewrite (pt_bind_some _ _ _ _ _ (get_desc_eq _ _ _ Hs)), (pt_bind_some (look d_now) _ d (d_now d) d eq_refl).
  cbv zeta. set (s1 := s <|d_deadline := _|> <|d_jiffies := _|>).
  rewrite (pt_bind_some _ _ _ _ _ (put_desc_eq _ _ _)). pose proof (rf_dev _ _ _ _ (ai_refs _ _ _ I)) as Hdev.
  set (d1 := d <|d_descs := <[sw := s1]> (d_descs d)|>).
  rewrite (pt_bind_some _ _ _ _ _ (get_dev_eq _ _ d1 Hdev)), (pt_bind_some _ _ _ _ _ (put_dev_eq _ _ _)).
  set (dv1 := if _ : bool then dv <|timer := _|> else dv). set (dv2 := dv1 <|hw_head := _|>).
  assert (EA : AxiDma dv2 = AxiDma dv) by (unfold dv2, dv1; by destruct (_ || _)).
  assert (Eh : hw_head dv2 = hw_head dv ++ [sw]) by (unfold dv2, dv1; by destruct (_ || _)).
  assert (Ef : desc_head dv2 = desc_head dv) by (unfold dv2, dv1; by destruct (_ || _)).
  pose proof (submitting_start dma sw dv s s1 dv2 d I Hs Hk Hd Hnot Hnf eq_refl eq_refl EA Eh Ef) as S1.
  fold d1 in S1. set (d2 := d1 <|d_devs := _|>) in *. clearbody dv2.
  assert (Er : forall ch, get_ring ch dv2 = get_ring ch dv) by (intros ch; destruct ch; cbn; by rewrite EA).
  assert (Hs2 : d_descs d2 !! sw = Some s1) by (cbn; apply lookup_insert_eq).
  destruct (submitting_both d2 dma sw 1 dv2 s1 Hu S1 Hs2) as
    (d3 & d4 & dv4 & s4 & Hrun3 & Hrun4 & S4 & Hs4 & Hk4 & Hc4 & Hp4 & Hl4 & Hh4).
  { intros ch. rewrite Er. apply Hfit. }
  rewrite (pt_bind_some _ _ _ _ _ Hrun3). cbn [negb Z.eqb]. rewrite (pt_bind_some _ _ _ _ _ Hrun4). cbn [negb Z.eqb].
  change (d_kref s1) with (d_kref s) in Hk4. change (d_dst_buf s1) with (d_dst_buf s) in Hk4.
  change (d_src_buf s1) with (d_src_buf s) in Hk4.
  pose proof (submitting_refs _ _ _ _ S4) as R4.
  destruct (kref_put_run dma dv4 sw _ d4 R4) as (d5 & dv5 & Hrun5 & R5 & [Qw _ _ Qd] & Hl5 & Hi5).
  rewrite (pt_bind_some _ _ _ _ _ Hrun5).
  assert (Ein : sw ∈ out_ids dv4 d4).
  { apply occ_in. pose proof (sb_desc _ _ _ _ _ S4) as (s' & E & _ & Ek). rewrite Hs4 in E. injection E as <-.
    pose proof (dma_buf_segs_pos (d_src_buf s)). pose proof (dma_buf_segs_pos (d_dst_buf s)). lia. }
  rewrite bool_decide_eq_true_2, app_nil_r in Hl5 by done.
  assert (Er5 : forall ch, get_ring ch dv5 = get_ring ch dv4) by (intros ch; destruct ch; cbn; by rewrite Qd).
  destruct (rf_cnt _ _ _ _ R5 sw Ein) as (s5 & Hs5 & Hk5 & _).
  exists d5, dv5, s5. split_and!; [done| |by rewrite Hl5, Hl4|done| | |].
  - destruct S4 as [[? ? ? ? ?] _ _ _ _ _ _].
    split; [by rewrite Qd|intros ch; rewrite Er5; auto..|by rewrite !Er5|cbv zeta; by rewrite !Er5, Qw].
  - pose proof (sb_desc _ _ _ _ _ S4) as (s' & E & _ & Ek). rewrite Hs4 in E. injection E as <-.
    rewrite <- Hk5 in Ek. lia.
  - intros ch. unfold hw_ids in *. rewrite Er5, Qw, Hh4, Er. by destruct ch.
  - intros Hcb. rewrite Hi5 by done. unfold info, completion. rewrite Hs4, Hc4, Hp4.
    change (d_cb s1) with (d_cb s). change (d_priv s1) with (d_priv s).
    rewrite (proj2 (Z.eqb_neq _ _) Hcb). rewrite !elem_of_app. right. right. by left.
Qed.

End invariant.
