(* ===== verification/AesFlow.v ===== *)
(** * Requests from submission to completion

    The invariant [aes_inv] ties the reference counts of the requests to the
    descriptors that are with the hardware.  Submission and the bottom halves
    preserve it, and it makes every request complete once. *)

From S2P Require Import Prelude Kernel Hw Bd BdRing RingGeom RingSpec RingHw RingCreate RingStart RingSys RingClient Dma DmaBuf AesDma AesProps AesThms.

Section flow.
Context {D : Type} `{!RegBus D}.

Definition other (ch : chan) : chan := match ch with ChTx => ChRx | ChRx => ChTx end.

(** The outstanding references seen from one channel. *)
Lemma refs_from dma dv (d : Drv D) ch : aes_inv dma dv d ->
  refs_ok dma dv (hw_ids dv d ch ++ hw_ids dv d (other ch)) d.
Proof.
  intros I. pose proof (ai_refs _ _ _ I) as R. cbv zeta in R. revert R. apply refs_perm.
  intros x. unfold hw_ids. rewrite !occ_app. destruct ch; cbn [other]; lia.
Qed.

(** Clearing identifiers of one ring keeps those queued in the other. *)
Lemma id_frame_other r q l m m' : ring_wf r -> ring_wf q -> rings_apart r q -> id_frame l m m' ->
  l ⊆ a_hw (ring_abs r) -> ids m' (a_hw (ring_abs q)) = ids m (a_hw (ring_abs q)).
Proof.
  intros Wr Wq Hap F Hl. apply (ids_same _ _ q); [intros bd; by apply hw_in_ring|].
  intros x o Ho. destruct Wq as [G _]. rewrite !BdRead_addr by auto using bd_at_ok.
  apply F. intros b Hb. destruct (hw_in_ring r b Wr (Hl b Hb)) as [y ->].
  specialize (Hap y x). unfold bd_apart, bd_off in *. change XAXIDMA_BD_ID_OFFSET with 52.
  change sizeof_Bd with 64 in *. lia.
Qed.

Lemma handle_dev_run dma ch limit dv (d : Drv D) : aes_inv dma dv d ->
  let hw := a_hw (ring_abs (get_ring ch dv)) in
  exists d' dv' k, aes_handle_dev dma ch limit d = Some (tt, d') /\ aes_inv dma dv' d' /\
  0 <= k <= zlen hw /\
  packets_done (w_mem (d_w d)) (get_ring ch dv) hw k /\
  ready (w_mem (d_w d')) (get_ring ch dv') (ztake limit (a_hw (ring_abs (get_ring ch dv')))) = 0 /\
  ring_abs (get_ring ch dv') =
    mkARing (a_free (ring_abs (get_ring ch dv)) ++ ztake k hw) [] (zdrop k hw) [] /\
  get_ring (other ch) dv' = get_ring (other ch) dv /\
  d_log d' = d_log d ++ completions (info d) (ids (w_mem (d_w d)) (ztake k hw))
    (ids (w_mem (d_w d)) (zdrop k hw) ++ hw_ids dv d (other ch)).
Proof.
  intros I hw. pose proof I as [Irx Iwf Ipre Ipost Iap _]. pose proof (refs_from dma dv d ch I) as R.
  set (rest := hw_ids dv d (other ch)) in *. unfold hw_ids at 1 in R.
  unfold aes_handle_dev. rewrite (pt_bind_some _ _ _ _ _ (get_dev_eq _ _ _ (rf_dev _ _ _ _ R))).
  pose proof (hw_cnt _ (Iwf ch)) as Hc.
  destruct (reap_run dma ch limit rest (S (Z.to_nat (HwCnt (get_ring ch dv)))) dv d Irx (Iwf ch) (Ipost ch))
    as (d1 & dv' & k & Hrun & [Rk Rs Rr Rc _ Rf Rl _ Rv Ro Rx _] & Rd); [lia|exact R|].
  fold hw in Rs, Rr, Rc, Rf, Rl, Hc. rewrite (pt_bind_some _ _ _ _ _ Hrun).
  rewrite (pt_bind_some _ _ _ _ _ (get_dev_eq _ _ _ (rf_dev _ _ _ _ Rr))), on_w_eq.
  set (w' := st_out _ (d_w d1)).
  assert (Hw : w_mem w' = w_mem (d_w d1)) by (unfold w', XAxiDma_mBdRingIntEnable; by st).
  assert (Hne : other ch <> ch) by (by destruct ch).
  assert (Hap : rings_apart (get_ring ch dv) (get_ring (other ch) dv))
    by (destruct ch; [done|by apply rings_apart_sym]).
  assert (Hrest : ids (w_mem (d_w d1)) (a_hw (ring_abs (get_ring (other ch) dv))) = rest).
  { eapply id_frame_other; [apply (Iwf ch)|apply Iwf|exact Hap|exact Rf|].
    intros bd Hbd. eapply (elem_of_take_drop _ k). by left. }
  cbv zeta in Rs. pose proof Rs as [W' S' A']. destruct (sim_counts _ _ _ Rs) as [Cp Cq]. cbn [a_pre a_post] in Cp, Cq.
  assert (Hpre : a_pre (ring_abs (get_ring ch dv)) = []).
  { unfold ring_abs. by rewrite Ipre. }
  rewrite Hpre in Cp, A'.
  assert (Each : forall P : chan -> Prop, P ch -> P (other ch) -> forall c, P c)
    by (intros P H1 H2 c; destruct ch, c; done).
  destruct (st_val _ (d_w d1)). eexists. exists dv', k. split; [reflexivity|]. split.
  { split; cbn [d_w d_descs d_devs set_field set_d_w].
    - by rewrite Rx.
    - apply Each; [done|]. rewrite Ro by done. auto.
    - apply Each; [done|]. rewrite Ro by done. auto.
    - apply Each; [done|]. rewrite Ro by done. auto.
    - assert (Ha' : rings_apart (get_ring ch dv') (get_ring (other ch) dv')).
      { rewrite (Ro (other ch)) by done. by eapply same_geom_apart. }
      destruct ch; [done|by apply rings_apart_sym].
    - cbv zeta. rewrite Hw.
      assert (Rr' : refs_ok dma dv' (ids (w_mem (d_w d1)) (a_hw (ring_abs (get_ring ch dv'))) ++
        ids (w_mem (d_w d1)) (a_hw (ring_abs (get_ring (other ch) dv')))) d1).
      { rewrite A', (Ro (other ch)), Hrest by done. exact Rr. }
      assert (refs_ok dma dv' (ids (w_mem (d_w d1)) (a_hw (ring_abs (get_ring ChTx dv'))) ++
        ids (w_mem (d_w d1)) (a_hw (ring_abs (get_ring ChRx dv')))) d1) as [? ? ? ? ?]; [|by split].
      revert Rr'. apply refs_perm. intros x. rewrite !occ_app. destruct ch; cbn [other]; lia. }
  cbn [d_w d_log set_field set_d_w]. rewrite Hw. split_and!; try done; try lia. by apply Ro.
Qed.

(** The hardware may write the descriptors as long as it leaves the
    identifiers of those that it owns. *)
Lemma aes_inv_hw dma dv (d : Drv D) w' : aes_inv dma dv d ->
  (forall ch, hw_ids dv (d <|d_w := w'|>) ch = hw_ids dv d ch) -> aes_inv dma dv (d <|d_w := w'|>).
Proof.
  intros [? ? ? ? ? R] E. pose proof (E ChTx) as E1. pose proof (E ChRx) as E2. unfold hw_ids in E1, E2.
  split; try done. cbv zeta. rewrite E1, E2. destruct R. by split.
Qed.

(** Where [aes_alloc_desc] takes the descriptor from. *)
Definition obtained (dv : aes_dev) (fresh : option Z) : option Z :=
  match desc_head dv with sw :: _ => Some sw | [] => fresh end.

Lemma alloc_desc_run dma dv fresh sw (d : Drv D) : aes_inv dma dv d -> obtained dv fresh = Some sw ->
  (desc_head dv = [] -> d_descs d !! sw = None) ->
  exists d' dv', aes_alloc_desc fresh dma d = Some (sw, d') /\ aes_inv dma dv' d' /\
  d_descs d' !! sw = Some (aes_desc_zero <|d_kref := 1|> <|d_dma := dma|>) /\
  sw ∉ out_ids dv' d' /\ sw ∉ desc_head dv' /\ d_w d' = d_w d /\ d_log d' = d_log d /\
  AxiDma dv' = AxiDma dv.
Proof.
  intros I Hob Hfr. pose proof I as [Irx Iwf Ipre Ipost Iap [Hdev Hhw Hc Hf Hn]].
  unfold aes_alloc_desc. rewrite (pt_bind_some _ _ _ _ _ (get_dev_eq _ _ _ Hdev)).
  set (z := aes_desc_zero <|d_kref := 1|> <|d_dma := dma|>).
  assert (Hout : sw ∉ out_ids dv d).
  { unfold obtained in Hob. intros Hin. destruct (desc_head dv) as [|x l] eqn:E.
    - destruct (Hc sw Hin) as (s & Hs & _). rewrite Hfr in Hs by done. discriminate.
    - injection Hob as <-. apply (Hf x); [by left|done]. }
  assert (Hk : forall y s, d_descs d !! y = Some s -> is_Some (<[sw := z]> (d_descs d) !! y)).
  { intros y s Hs. destruct (decide (y = sw)) as [->|]; [rewrite lookup_insert_eq; eauto|].
    rewrite lookup_insert_ne by done. eauto. }
  assert (Main : forall dv' devs, AxiDma dv' = AxiDma dv -> hw_head dv' = hw_head dv ->
    devs !! dma = Some dv' -> (forall x, x ∈ desc_head dv' -> x ∈ desc_head dv) -> NoDup (desc_head dv') ->
    aes_inv dma dv' (d <|d_devs := devs|> <|d_descs := <[sw := z]> (d_descs d)|>)).
  { intros dv' devs EA Eh Hd' Hsub Hn'.
    assert (Er : forall ch, get_ring ch dv' = get_ring ch dv) by (intros ch; destruct ch; cbn; by rewrite EA).
    split; [by rewrite EA|intros ch; rewrite Er; auto..|by rewrite !Er|]. cbv zeta.
    cbn [d_w d_devs d_descs set_field set_d_devs set_d_descs]. rewrite !Er. split; cbn; try done.
    - rewrite Eh. intros x Hx. destruct (Hhw x Hx) as [s Hs]. eauto.
    - intros x Hx. rewrite lookup_insert_ne by (intros ->; by apply Hout). by apply Hc.
    - intros x Hx. by apply Hf, Hsub. }
  unfold obtained in Hob. destruct (desc_head dv) as [|x l] eqn:E.
  - subst fresh. eexists. exists dv. split; [reflexivity|].
    split; [apply (Main dv (d_devs d)); try done; by rewrite E|]. cbn. rewrite lookup_insert_eq, E. split_and!; try done.
    set_solver.
  - injection Hob as ->. eexists. eexists (dv <|desc_head := l|> <|desc_free := desc_free dv - 1|>).
    apply NoDup_cons in Hn as [Hn1 Hn2]. split; [reflexivity|].
    split; [apply Main; try done; [cbn; apply lookup_insert_eq|cbn; rewrite ?E; set_solver]|].
    cbn. rewrite lookup_insert_eq. done.
Qed.

Lemma submit_api_run HZ ru (d : Drv D) dma dv fresh sw ms md
  ssg scnt ssz dsg dcnt dsz cb priv ns nd :
  aes_inv dma dv d -> obtained dv fresh = Some sw -> is_u32 sw ->
  (desc_head dv = [] -> d_descs d !! sw = None) -> ms <> 0 -> md <> 0 ->
  buf_fits (w_mem (d_w d)) (get_ring ChTx dv) ns (dma_buf_sg_init true dma_buf_zero ssg scnt ssz).2 ->
  buf_fits (w_mem (d_w d)) (get_ring ChRx dv) nd (dma_buf_sg_init true dma_buf_zero dsg dcnt dsz).2 ->
  sg_good ssg -> 0 <= scnt -> 0 < ssz <= sg_bytes (take (Z.to_nat scnt) ssg) ->
  sg_good dsg -> 0 <= dcnt -> 0 < dsz <= sg_bytes (take (Z.to_nat dcnt) dsg) ->
  exists d' dv' s',
  aes_submit HZ ru (Some dma) ms md fresh true true ssg scnt ssz dsg dcnt dsz cb priv d = Some (0, d') /\
  aes_inv dma dv' d' /\ d_log d' = d_log d /\ d_descs d' !! sw = Some s' /\
  d_kref s' = zlen (sg_cut (take (Z.to_nat dcnt) dsg) dsz) + zlen (sg_cut (take (Z.to_nat scnt) ssg) ssz) /\
  hw_ids dv' d' ChTx = hw_ids dv d ChTx ++ replicate (length (sg_cut (take (Z.to_nat scnt) ssg) ssz)) sw /\
  hw_ids dv' d' ChRx = hw_ids dv d ChRx ++ replicate (length (sg_cut (take (Z.to_nat dcnt) dsg) dsz)) sw /\
  sg_cut (take (Z.to_nat scnt) ssg) ssz <> [] /\ sg_cut (take (Z.to_nat dcnt) dsg) dsz <> [] /\
  (cb <> 0 -> EvCallback cb priv ∈ info d' sw).
Proof.
  intros I Hob Hu Hfr Hms Hmd Fs Fd Gs Cs Bs Gd Cd Bd. unfold aes_submit.
  rewrite (proj2 (Z.eqb_neq _ _) Hms), (proj2 (Z.eqb_neq _ _) Hmd).
  destruct (alloc_desc_run dma dv fresh sw d I Hob Hfr) as (d1 & dv1 & Hrun & I1 & Hs1 & Ho & Hf & Ew & El & EA).
  assert (Er : forall ch, get_ring ch dv1 = get_ring ch dv) by (intros ch; destruct ch; cbn; by rewrite EA).
  rewrite (pt_bind_some _ _ _ _ _ Hrun), (pt_bind_some _ _ _ _ _ (get_desc_eq _ _ _ Hs1)).
  cbv zeta. rewrite (pt_bind_some _ _ _ _ _ (put_desc_eq _ _ _)). set (s := _ <|d_dst_buf := _|>).
  set (d2 := d1 <|d_descs := <[sw := s]> (d_descs d1)|>).
  assert (I2 : aes_inv dma dv1 d2).
  { destruct I1 as [? ? ? ? ? [? Hhw Hc ? ?]]. split; try done. cbv zeta. split; try done.
    - intros x Hx. cbn. destruct (decide (x = sw)) as [->|]; [rewrite lookup_insert_eq; eauto|].
      rewrite lookup_insert_ne by done. auto.
    - intros x Hx. cbn. rewrite lookup_insert_ne by (intros ->; by apply Ho). by apply Hc. }
  destruct (submit_run HZ ru d2 dma sw dv1 s I2) as (d3 & dv3 & s3 & Hrun3 & I3 & El3 & Hs3 & Hk3 & Hh3 & Hcb); try done.
  - cbn. apply lookup_insert_eq.
  - intros ch. change (w_mem (d_w d2)) with (w_mem (d_w d1)). rewrite Ew, Er. destruct ch; [by exists ns|by exists nd].
  - pose proof (proj1 (sg_init_segs dma_buf_zero dsg dcnt dsz Gd Cd Bd)) as Ed.
    pose proof (proj1 (sg_init_segs dma_buf_zero ssg scnt ssz Gs Cs Bs)) as Es.
    assert (Eh : forall ch, hw_ids dv1 d2 ch = hw_ids dv d ch)
      by (intros ch; unfold hw_ids; change (w_mem (d_w d2)) with (w_mem (d_w d1)); by rewrite Ew, Er).
    assert (Hpos : forall buf, dma_buf_segs buf <> []).
    { intros buf E0. pose proof (dma_buf_segs_pos buf) as H0. by rewrite E0 in H0. }
    exists d3, dv3, s3. split_and!; try done.
    + by rewrite El3.
    + rewrite Hk3. cbn [s d_src_buf d_dst_buf]. f_equal; f_equal; assumption.
    + rewrite Hh3, Eh, <- Es. done.
    + rewrite Hh3, Eh, <- Ed. done.
    + rewrite <- Es. apply Hpos.
    + rewrite <- Ed. apply Hpos.
Qed.

(** *** Runs of a device *)

(** What a caller of [aes_submit] has to provide. *)
Record submittable (dma : Z) (dv : aes_dev) (d : Drv D) (fresh : option Z) (sw : Z)
  (ssg : sglist) (scnt ssz : Z) (dsg : sglist) (dcnt dsz : Z) : Prop := {
  sm_dev : d_devs d !! dma = Some dv;
  sm_ob : obtained dv fresh = Some sw;
  sm_u32 : is_u32 sw;
  sm_fresh : desc_head dv = [] -> d_descs d !! sw = None;
  sm_src : exists n, buf_fits (w_mem (d_w d)) (get_ring ChTx dv) n (dma_buf_sg_init true dma_buf_zero ssg scnt ssz).2;
  sm_dst : exists n, buf_fits (w_mem (d_w d)) (get_ring ChRx dv) n (dma_buf_sg_init true dma_buf_zero dsg dcnt dsz).2;
  sm_ssg : sg_good ssg /\ 0 <= scnt /\ 0 < ssz <= sg_bytes (take (Z.to_nat scnt) ssg);
  sm_dsg : sg_good dsg /\ 0 <= dcnt /\ 0 < dsz <= sg_bytes (take (Z.to_nat dcnt) dsg);
}.

(** A submission, a bottom half of a channel, or a step of the hardware, which
    leaves the identifiers of the queued descriptors alone. *)
Inductive aes_step (HZ : Z) (ru : Z -> Z) (dma : Z) : Drv D -> Drv D -> Prop :=
| step_submit dv d fresh sw ms md ssg scnt ssz dsg dcnt dsz cb priv res d' :
    submittable dma dv d fresh sw ssg scnt ssz dsg dcnt dsz -> ms <> 0 -> md <> 0 ->
    aes_submit HZ ru (Some dma) ms md fresh true true ssg scnt ssz dsg dcnt dsz cb priv d = Some (res, d') ->
    aes_step HZ ru dma d d'
| step_bh ch limit d d' :
    aes_handle_dev dma ch limit d = Some (tt, d') -> aes_step HZ ru dma d d'
| step_hw dv d w' :
    d_devs d !! dma = Some dv -> (forall ch, hw_ids dv (d <|d_w := w'|>) ch = hw_ids dv d ch) ->
    aes_step HZ ru dma d (d <|d_w := w'|>).

Definition consistent (dma : Z) (d : Drv D) : Prop := exists dv, aes_inv dma dv d.

Lemma step_consistent HZ ru dma d d' : aes_step HZ ru dma d d' -> consistent dma d -> consistent dma d'.
Proof.
  intros H [dv I]. pose proof (rf_dev _ _ _ _ (ai_refs _ _ _ I)) as Hdev. destruct H as
    [dv0 d fresh sw ms md ssg scnt ssz dsg dcnt dsz cb priv res d'
       [Hd Hob Hu Hf [ns Fs] [nd Fd] (? & ? & ?) (? & ? & ?)] Hms Hmd E
    |ch limit d d' E|dv0 d w' Hd E].
  - rewrite Hdev in Hd. injection Hd as <-.
    destruct (submit_api_run HZ ru d dma dv fresh sw ms md ssg scnt ssz dsg dcnt dsz cb priv ns nd)
      as (d1 & dv1 & s1 & E1 & I1 & _); try done.
    rewrite E in E1. injection E1 as _ <-. by exists dv1.
  - destruct (handle_dev_run dma ch limit dv d I) as (d1 & dv1 & k & E1 & I1 & _).
    rewrite E in E1. injection E1 as <-. by exists dv1.
  - rewrite Hdev in Hd. injection Hd as <-. exists dv. by apply aes_inv_hw.
Qed.

Lemma run_consistent HZ ru dma d d' : rtc (aes_step HZ ru dma) d d' -> consistent dma d -> consistent dma d'.
Proof. induction 1; [done|]. eauto using step_consistent. Qed.

End flow.

(** ** The properties *)

(** C4: every run keeps the device consistent: after any sequence of accepted
    submissions, bottom halves and hardware progress, both rings are well
    formed with nothing left half way, and the references of each request are
    exactly its descriptors with the hardware; so the next bottom half again
    finishes. *)
Theorem aes_runs_consistent {D} `{!RegBus D} HZ ru dma (d d' : Drv D) :
  rtc (aes_step HZ ru dma) d d' -> consistent dma d ->
  consistent dma d' /\ forall ch limit, exists d'', aes_handle_dev dma ch limit d' = Some (tt, d'').
Proof.
  intros R C. pose proof (run_consistent _ _ _ _ _ R C) as C'. split; [done|]. intros ch limit.
  destruct C' as [dv I]. destruct (handle_dev_run dma ch limit dv d' I) as (d'' & _ & _ & E & _). eauto.
Qed.

(** C6: a request accepted by [aes_submit].  From a consistent device, with a
    descriptor to be had, non-empty scatter lists that cover the two sizes and
    segments that fit the two rings, the call returns 0, calls nobody back,
    leaves the device consistent, and puts the request on both rings: behind
    what the hardware already has there come as many descriptors of the request
    as its source list (transmit) and its destination list (receive) have
    segments, at least one on each; it holds exactly one reference for each of
    them, and the caller's callback is what its completion will run. *)
Theorem aes_submit_accepted {D} `{!RegBus D} HZ ru (d : Drv D) dma dv fresh sw ms md
  ssg scnt ssz dsg dcnt dsz cb priv ns nd :
  aes_inv dma dv d -> obtained dv fresh = Some sw -> is_u32 sw ->
  (desc_head dv = [] -> d_descs d !! sw = None) -> ms <> 0 -> md <> 0 ->
  buf_fits (w_mem (d_w d)) (get_ring ChTx dv) ns (dma_buf_sg_init true dma_buf_zero ssg scnt ssz).2 ->
  buf_fits (w_mem (d_w d)) (get_ring ChRx dv) nd (dma_buf_sg_init true dma_buf_zero dsg dcnt dsz).2 ->
  sg_good ssg -> 0 <= scnt -> 0 < ssz <= sg_bytes (take (Z.to_nat scnt) ssg) ->
  sg_good dsg -> 0 <= dcnt -> 0 < dsz <= sg_bytes (take (Z.to_nat dcnt) dsg) ->
  exists d' dv' s',
  aes_submit HZ ru (Some dma) ms md fresh true true ssg scnt ssz dsg dcnt dsz cb priv d = Some (0, d') /\
  aes_inv dma dv' d' /\ d_log d' = d_log d /\ d_descs d' !! sw = Some s' /\
  d_kref s' = zlen (sg_cut (take (Z.to_nat dcnt) dsg) dsz) + zlen (sg_cut (take (Z.to_nat scnt) ssg) ssz) /\
  hw_ids dv' d' ChTx = hw_ids dv d ChTx ++ replicate (length (sg_cut (take (Z.to_nat scnt) ssg) ssz)) sw /\
  hw_ids dv' d' ChRx = hw_ids dv d ChRx ++ replicate (length (sg_cut (take (Z.to_nat dcnt) dsg) dsz)) sw /\
  sg_cut (take (Z.to_nat scnt) ssg) ssz <> [] /\ sg_cut (take (Z.to_nat dcnt) dsg) dsz <> [] /\
  (cb <> 0 -> EvCallback cb priv ∈ info d' sw).
Proof. apply submit_api_run. Qed.

(** The error branches of [aes_submit]: without a device, or when a list
    cannot be mapped, the call reports the error and changes nothing. *)
Theorem aes_submit_refused {D} `{!RegBus D} HZ ru (d : Drv D) dev ms md fresh a1 a2
  ssg scnt ssz dsg dcnt dsz cb priv :
  dev = None \/ ms = 0 \/ md = 0 ->
  aes_submit HZ ru dev ms md fresh a1 a2 ssg scnt ssz dsg dcnt dsz cb priv d =
  Some (if dev then - ENOMEM else - ENODEV, d).
Proof.
  intros H. unfold aes_submit. destruct dev as [dma|]; [|done].
  destruct H as [H|[->| ->]]; [done|done|]. by destruct (ms =? 0).
Qed.

(** C5: a bottom half.  On a consistent device it always finishes; it gives back a
    front part of the hardware's queue that consists of whole packets, all of them
    completed by the hardware, and stops only when no whole completed packet is left
    within the limit; the device stays consistent; and it completes (unmaps and calls
    back), each once and in the order in which their last descriptors come back,
    exactly the requests that had descriptors in that part and have none left with
    the hardware in either ring. *)
Theorem aes_bottom_half {D} `{!RegBus D} dma ch limit dv (d : Drv D) : aes_inv dma dv d ->
  let m := w_mem (d_w d) in
  let hw := a_hw (ring_abs (get_ring ch dv)) in
  exists d' dv' k, aes_handle_dev dma ch limit d = Some (tt, d') /\ aes_inv dma dv' d' /\
  packets_done m (get_ring ch dv) hw k /\
  ready (w_mem (d_w d')) (get_ring ch dv') (ztake limit (a_hw (ring_abs (get_ring ch dv')))) = 0 /\
  ring_abs (get_ring ch dv') =
    mkARing (a_free (ring_abs (get_ring ch dv)) ++ ztake k hw) [] (zdrop k hw) [] /\
  let fin := finished (ids m (ztake k hw)) (ids m (zdrop k hw) ++ hw_ids dv d (other ch)) in
  d_log d' = d_log d ++ (fin ≫= info d) /\ NoDup fin /\
  (forall sw, sw ∈ fin <-> sw ∈ ids m (ztake k hw) /\ sw ∉ ids m (zdrop k hw) ++ hw_ids dv d (other ch)).
Proof.
  intros I m hw. destruct (handle_dev_run dma ch limit dv d I) as (d' & dv' & k & H1 & H2 & _ & H4 & H5 & H6 & _ & H8).
  exists d', dv', k. do 5 (split; [done|]). cbv zeta. split; [done|]. split; [apply NoDup_finished|]. intros sw. apply elem_finished.
Qed.

(** ** A run of the example device *)

Lemma ex_hw_empty ch : a_hw (ring_abs (get_ring ch ex_dev)) = [].
Proof. destruct ch; vm_compute; reflexivity. Qed.

Lemma ex_inv : aes_inv 0xD000 ex_dev ex_drv.
Proof.
  split.
  - vm_compute. reflexivity.
  - exact ex_wf.
  - intros []; vm_compute; reflexivity.
  - intros []; vm_compute; reflexivity.
  - apply range_apart; [apply ex_wf|apply ex_wf|vm_compute; discriminate].
  - cbv zeta. rewrite !ex_hw_empty. split.
    + apply lookup_singleton_eq.
    + intros x Hx. by apply elem_of_nil in Hx.
    + intros x Hx. by apply elem_of_nil in Hx.
    + intros x Hx. by apply elem_of_nil in Hx.
    + constructor.
Qed.

Lemma ex_buf_fits ch : buf_fits ex_mem (get_ring ch ex_dev) 23 ex_buf.
Proof.
  split; [lia|by destruct ch|by vm_compute|destruct ch; vm_compute; discriminate|].
  intros i seg Hin. apply ex_fits. revert Hin. by vm_compute.
Qed.

Lemma aes_submit_accepted_witness : exists d' dv',
  aes_submit 100 (fun j => j) (Some 0xD000) 2 2 (Some 0xB000) true true ex_sg 2 5000 ex_sg 2 5000 7 9 ex_drv
  = Some (0, d') /\ hw_ids dv' d' ChTx = [0xB000; 0xB000] /\ EvCallback 7 9 ∈ info d' 0xB000.
Proof.
  destruct (aes_submit_accepted 100 (fun j => j) ex_drv 0xD000 ex_dev (Some 0xB000) 0xB000 2 2
    ex_sg 2 5000 ex_sg 2 5000 7 9 23 23 ex_inv eq_refl ltac:(unfold is_u32; lia) ltac:(intros _; reflexivity)
    ltac:(lia) ltac:(lia) (ex_buf_fits ChTx) (ex_buf_fits ChRx)
    ltac:(repeat constructor) ltac:(lia) ltac:(split; [lia|vm_compute; discriminate])
    ltac:(repeat constructor) ltac:(lia) ltac:(split; [lia|vm_compute; discriminate]))
    as (d' & dv' & s' & E & _ & _ & _ & _ & Ht & _ & _ & _ & Hcb).
  exists d', dv'. split; [exact E|]. split; [rewrite Ht; vm_compute; reflexivity|apply Hcb; discriminate].
Defined.

Lemma aes_submit_refused_witness :
  aes_submit 100 (fun j => j) None 2 2 None true true ex_sg 2 5000 ex_sg 2 5000 7 9 ex_drv
  = Some (- ENODEV, ex_drv).
Proof.
  exact (aes_submit_refused 100 (fun j => j) ex_drv None 2 2 None true true ex_sg 2 5000 ex_sg 2 5000 7 9
    (or_introl eq_refl)).
Defined.

(** The example request is with the hardware, and the hardware has completed
    the two descriptors of the receive ring and of the transmit ring. *)
Definition ex_sent : Drv RegFile :=
  match aes_desc_to_hw 100 (fun j => j) 0xD000 ex_sw ex_drv with Some (_, d) => d | None => ex_drv end.
Definition ex_sent_dev : aes_dev :=
  match d_devs ex_sent !! 0xD000 with Some dv => dv | None => ex_dev end.
Definition ex_complete (d : Drv RegFile) (l : list (Z * Z)) : Drv RegFile :=
  d <|d_w := mkWorld (foldl (fun m b => st_out (XAxiDma_BdWrite b.1 XAXIDMA_BD_STS_OFFSET b.2) m)
                       (w_mem (d_w d)) l) (w_dev (d_w d))|>.
Definition ex_completed : Drv RegFile := ex_complete ex_sent
  [(0x80001000, 0x80001000); (0x80001040, 0x80000388);
   (0x80002000, 0x88001000); (0x80002040, 0x84000388)].

Lemma ex_sent_inv : aes_inv 0xD000 ex_sent_dev ex_sent.
Proof.
  assert (Hout : ex_sw ∉ out_ids ex_dev ex_drv)
    by (unfold out_ids, hw_ids; rewrite !ex_hw_empty; apply not_elem_of_nil).
  assert (Hs : d_descs ex_drv !! ex_sw = Some ex_desc) by apply lookup_singleton_eq.
  destruct (submit_run 100 (fun j => j) ex_drv 0xD000 ex_sw ex_dev ex_desc ex_inv Hs eq_refl eq_refl
    ltac:(unfold is_u32, ex_sw; lia) Hout (not_elem_of_nil ex_sw)
    (fun ch => match ch with ChTx => ex_intro _ 23 (ex_buf_fits ChTx) | ChRx => ex_intro _ 23 (ex_buf_fits ChRx) end))
    as (d' & dv' & s' & E & I & _).
  assert (ex_sent = d') as Ed by (unfold ex_sent; by rewrite E).
  assert (ex_sent_dev = dv') as Ev.
  { unfold ex_sent_dev. rewrite Ed. by rewrite (rf_dev _ _ _ _ (ai_refs _ _ _ I)). }
  by rewrite Ed, Ev.
Qed.

Lemma ex_ids_same ch : hw_ids ex_sent_dev ex_completed ch = hw_ids ex_sent_dev ex_sent ch.
Proof. destruct ch; vm_compute; reflexivity. Qed.

Lemma ex_completed_inv : aes_inv 0xD000 ex_sent_dev ex_completed.
Proof.
  apply aes_inv_hw; [exact ex_sent_inv|exact ex_ids_same].
Qed.

Lemma aes_bottom_half_witness : exists d', aes_handle_dev 0xD000 ChTx TX_BD_NUM ex_completed = Some (tt, d').
Proof.
  destruct (aes_bottom_half 0xD000 ChTx TX_BD_NUM ex_sent_dev ex_completed ex_completed_inv)
    as (d' & dv' & k & E & _).
  exists d'. exact E.
Defined.

(** In the example the transmit half completes nothing and the receive half
    completes the request. *)
Example ex_called_back :
  match aes_handle_dev 0xD000 ChTx TX_BD_NUM ex_completed with
  | Some (_, d) => d_log d = [] /\
      match aes_handle_dev 0xD000 ChRx RX_BD_NUM d with
      | Some (_, d) => d_log d = [EvUnmapSg ex_sg 2 DMA_TO_DEVICE; EvSgFree ex_sg;
                                  EvUnmapSg ex_sg 2 DMA_FROM_DEVICE; EvSgFree ex_sg; EvCallback 7 9]
      | None => False
      end
  | None => False
  end.
Proof. vm_compute. done. Qed.

Lemma aes_runs_consistent_witness : consistent 0xD000 ex_completed.
Proof.
  refine (proj1 (aes_runs_consistent 100 (fun j => j) 0xD000 ex_sent ex_completed _ _)).
  - apply rtc_once. apply step_hw with (dv := ex_sent_dev); [|exact ex_ids_same].
    exact (rf_dev _ _ _ _ (ai_refs _ _ _ ex_sent_inv)).
  - exists ex_sent_dev. exact ex_sent_inv.
Defined.

(** ** Interrupts *)

(** The interrupt handler of a channel.  It acknowledges what it saw; on an
    error it reports it and schedules nothing; on a completion or delay
    interrupt the device is on the bottom half's list afterwards, at most once,
    and when it was not there yet the tasklet is scheduled and the channel's
    interrupts are masked, other control bits kept; memory and requests are not
    touched. *)
Theorem aes_isr_schedules {D} `{!RegBus D} ch dma dv (d : Drv D) :
  d_devs d !! dma = Some dv -> NoDup (bh_head ch d) ->
  let base := ChanBase (get_ring ch dv) in
  RegReadback D (u32 (base + XAXIDMA_CR_OFFSET)) 0xFFFFFFFF ->
  let sts := st_val (XAxiDma_ReadReg base XAXIDMA_SR_OFFSET) (d_w d) in
  let w1 := st_out (XAxiDma_mBdRingAckIrq (get_ring ch dv) sts)
              (st_out (XAxiDma_ReadReg base XAXIDMA_SR_OFFSET) (d_w d)) in
  let cr w := st_val (XAxiDma_ReadReg base XAXIDMA_CR_OFFSET) w in
  exists d', aes_ch_isr ch dma d = Some (IRQ_HANDLED, d') /\
  NoDup (bh_head ch d') /\ bh_head (other ch) d' = bh_head (other ch) d /\
  w_mem (d_w d') = w_mem (d_w d) /\ d_devs d' = d_devs d /\ d_descs d' = d_descs d /\
  if tst sts XAXIDMA_ERR_ALL_MASK
  then d_log d' = d_log d ++ [EvIrqError (is_rx ch) sts] /\ bh_head ch d' = bh_head ch d /\ d_w d' = w1
  else if negb (tst sts (XAXIDMA_IRQ_DELAY_MASK .| XAXIDMA_IRQ_IOC_MASK)) || bool_decide (dma ∈ bh_head ch d)
  then d_log d' = d_log d /\ bh_head ch d' = bh_head ch d /\ d_w d' = w1
  else d_log d' = d_log d ++ [EvTasklet (is_rx ch)] /\ bh_head ch d' = bh_head ch d ++ [dma] /\
       cr (d_w d') = Z.ldiff (cr w1) XAXIDMA_IRQ_ALL_MASK.
Proof.
  intros Hdev Hnd base RB sts w1 cr. unfold aes_ch_isr.
  rewrite (pt_bind_some _ _ _ _ _ (get_dev_eq _ _ _ Hdev)). cbv zeta. fold base.
  rewrite (pt_bind_some _ _ _ _ _ (on_w_eq _ _)). fold sts.
  rewrite (pt_bind_some _ _ _ _ _ (on_w_eq _ _)). cbn [d_w set_field set_d_w]. fold w1.
  set (d1 := d <|d_w := _|> <|d_w := w1|>).
  assert (Hm : w_mem w1 = w_mem (d_w d)) by (unfold w1, XAxiDma_mBdRingAckIrq; by st).
  destruct (tst sts XAXIDMA_ERR_ALL_MASK).
  { eexists. split; [reflexivity|]. by destruct ch. }
  rewrite (pt_bind_some (look (bh_head ch)) _ d1 (bh_head ch d) d1) by (by destruct ch).
  destruct (tst sts (_ .| _)); [|eexists; split; [reflexivity|]; by destruct ch]. cbn [negb orb andb].
  case_bool_decide as Hin; cbn [negb]; [eexists; split; [reflexivity|]; by destruct ch|].
  assert (Hnd' : NoDup (bh_head ch d ++ [dma])).
  { apply NoDup_app. split_and!; [done|by intros x Hx ->%list_elem_of_singleton|apply NoDup_singleton]. }
  destruct (int_disable_cr (get_ring ch dv) w1 RB) as [Hcr Hm2]. rewrite Hm in Hm2.
  unfold mbind at 1, pt_bind at 1.
  rewrite (pt_bind_some (upd (bh_add ch dma)) _ d1 tt (bh_add ch dma d1)) by done.
  rewrite (pt_bind_some _ _ _ _ _ (on_w_eq _ _)).
  eexists. split; [reflexivity|]. destruct ch; split_and!; done.
Qed.

Lemma aes_isr_schedules_witness : exists d', aes_ch_isr ChTx 0xD000 ex_drv = Some (IRQ_HANDLED, d').
Proof.
  destruct (aes_isr_schedules ChTx 0xD000 ex_dev ex_drv) as (d' & E & _).
  - apply lookup_singleton_eq.
  - constructor.
  - apply regfile_readback.
  - exists d'. exact E.
Defined.
