(* ===== verification/Vpci.v ===== *)
(** * The virtual PCI bus

    Models [linux-drv/vpci.c]: the FPGA is one PCI card that carries up to
    eight functions.  The driver makes a virtual device for each function,
    binds platform drivers to them, and demultiplexes the card's interrupt
    controller.  Cards and virtual devices are objects behind addresses; a bad
    pointer has no result ([None]).  A platform driver's interrupt handlers are
    called through pointers: [run_handler] gives their effect on the machine. *)

From S2P Require Import Prelude Kernel Hw.

Definition IRQ_ISR : Z := 0x00.
Definition IRQ_IPR : Z := 0x04.
Definition IRQ_IER : Z := 0x08.
Definition IRQ_IAR : Z := 0x0C.
Definition IRQ_MER : Z := 0x1C.

Definition VPCI_FPGA_VENDOR : Z := 0xAA55.
Definition VPCI_AES_DEVICE : Z := 0x2013.
Definition VPCI_10G_DEVICE : Z := 0x2014.

Record vpci_id : Type := mkVpciId { vendor : Z; device : Z }.

(** A null pointer is 0. *)
Record virt_device : Type := mkVirt {
  vd_vendor : Z;
  vd_device : Z;
  vd_mmio : Z;
  vd_mmio_len : Z;
  vd_res0_start : Z;
  vd_res0_end : Z;
  vd_res1_start : Z;
  vd_irqs : list Z;
  vd_irqs_priv : list Z;
  vd_vp : Z;
  vd_drv : Z;
  vd_pd : Z;
  vd_port : Z
}.

Record vpci_device : Type := mkVpci {
  vp_mmio : Z;
  vp_ctrl : Z;
  vp_vd : list Z;
  vp_msi : Z
}.

#[export] Instance set_vd_irqs : Setter vd_irqs := fun v x =>
  mkVirt (vd_vendor x) (vd_device x) (vd_mmio x) (vd_mmio_len x) (vd_res0_start x)
    (vd_res0_end x) (vd_res1_start x) v (vd_irqs_priv x) (vd_vp x) (vd_drv x) (vd_pd x)
    (vd_port x).
#[export] Instance set_vd_irqs_priv : Setter vd_irqs_priv := fun v x =>
  mkVirt (vd_vendor x) (vd_device x) (vd_mmio x) (vd_mmio_len x) (vd_res0_start x)
    (vd_res0_end x) (vd_res1_start x) (vd_irqs x) v (vd_vp x) (vd_drv x) (vd_pd x) (vd_port x).
#[export] Instance set_vd_drv : Setter vd_drv := fun v x =>
  mkVirt (vd_vendor x) (vd_device x) (vd_mmio x) (vd_mmio_len x) (vd_res0_start x)
    (vd_res0_end x) (vd_res1_start x) (vd_irqs x) (vd_irqs_priv x) (vd_vp x) v (vd_pd x)
    (vd_port x).
#[export] Instance set_vd_pd : Setter vd_pd := fun v x =>
  mkVirt (vd_vendor x) (vd_device x) (vd_mmio x) (vd_mmio_len x) (vd_res0_start x)
    (vd_res0_end x) (vd_res1_start x) (vd_irqs x) (vd_irqs_priv x) (vd_vp x) (vd_drv x) v
    (vd_port x).

(** What the driver asks of the kernel and of its clients, in order. *)
Inductive vevent : Type :=
| VHandler (handler irq priv : Z)
| VNoHandler (irq : Z)
| VPdAlloc (pd port : Z)
| VPdAdd (pd : Z)
| VPdUnregister (pd : Z)
| VDrvUnregister (drv : Z)
| VPinDevice
| VFreeIrq
| VReleaseRegions
| VDisableDevice
| VEnableDevice
| VSetMaster
| VSaveState
| VRestoreState
| VSetPowerD0
| VEnableWake
| VRegisterPci
| VUnregisterPci.

(** The kernel's view of a card's connection and the answers of its error
    handlers. *)
Inductive pci_channel_state_t : Type :=
| pci_channel_io_normal
| pci_channel_io_frozen
| pci_channel_io_perm_failure.

Inductive pci_ers_result_t : Type :=
| PCI_ERS_RESULT_DISCONNECT
| PCI_ERS_RESULT_NEED_RESET
| PCI_ERS_RESULT_RECOVERED.

(** The driver's state: the machine, the objects, [virt_head] and the card that
    the PCI device's driver data points to. *)
Record Vst (D : Type) : Type := mkVst {
  v_w : World D;
  v_cards : gmap Z vpci_device;
  v_vds : gmap Z virt_device;
  v_head : list Z;
  v_drvdata : Z;
  v_log : list vevent
}.
Arguments mkVst {D}.
Arguments v_w {D}.
Arguments v_cards {D}.
Arguments v_vds {D}.
Arguments v_head {D}.
Arguments v_drvdata {D}.
Arguments v_log {D}.

#[export] Instance set_v_w {D} : Setter (@v_w D) := fun v s =>
  mkVst v (v_cards s) (v_vds s) (v_head s) (v_drvdata s) (v_log s).
#[export] Instance set_v_cards {D} : Setter (@v_cards D) := fun v s =>
  mkVst (v_w s) v (v_vds s) (v_head s) (v_drvdata s) (v_log s).
#[export] Instance set_v_vds {D} : Setter (@v_vds D) := fun v s =>
  mkVst (v_w s) (v_cards s) v (v_head s) (v_drvdata s) (v_log s).
#[export] Instance set_v_head {D} : Setter (@v_head D) := fun v s =>
  mkVst (v_w s) (v_cards s) (v_vds s) v (v_drvdata s) (v_log s).
#[export] Instance set_v_drvdata {D} : Setter (@v_drvdata D) := fun v s =>
  mkVst (v_w s) (v_cards s) (v_vds s) (v_head s) v (v_log s).
#[export] Instance set_v_log {D} : Setter (@v_log D) := fun v s =>
  mkVst (v_w s) (v_cards s) (v_vds s) (v_head s) (v_drvdata s) v.

Section vpci.
Context {D : Type} `{!RegBus D}.
Context (run_handler : Z -> Z -> Z -> World D -> World D).

Definition v_get {A} (f : Vst D -> A) : PT (Vst D) A := fun s => Some (f s, s).
Definition v_upd (f : Vst D -> Vst D) : PT (Vst D) unit := fun s => Some (tt, f s).
Definition v_on {A} (m : ST (World D) A) : PT (Vst D) A := fun s =>
  Some (st_val m (v_w s), s <|v_w := st_out m (v_w s)|>).
Definition v_emit (e : vevent) : PT (Vst D) unit := v_upd (fun s => s <|v_log := v_log s ++ [e]|>).
Definition get_vd (vd : Z) : PT (Vst D) virt_device := fun s =>
  x ← v_vds s !! vd; Some (x, s).
Definition put_vd (vd : Z) (x : virt_device) : PT (Vst D) unit :=
  v_upd (fun s => s <|v_vds := <[vd := x]> (v_vds s)|>).
Definition get_card (vp : Z) : PT (Vst D) vpci_device := fun s =>
  x ← v_cards s !! vp; Some (x, s).

(** [readl] and [writel] at an address: the 32-bit accesses of the machine. *)
Definition VPCI_READ (offest : Z) : PT (Vst D) Z := v_on (XAxiDma_ReadReg offest 0).
Definition VPCI_WRITE (val offest : Z) : PT (Vst D) unit := v_on (XAxiDma_WriteReg offest 0 val).

(** ** Platform drivers *)

(** The loop of [vpci_driver_register] over the virtual devices: [id] is the
    driver's [id_table->driver_data] ([None] for a null pointer); [pd_alloc],
    [pd_add_res] and [pd_add] are the outcomes of the platform core's calls for
    a virtual device. *)
Fixpoint vpci_register_loop (pd_alloc pd_add_res pd_add : Z -> Z) (drv : Z) (id : option vpci_id)
  (vds : list Z) : PT (Vst D) Z :=
  match vds with
  | [] => mret 0
  | vd :: vds =>
      let continue := vpci_register_loop pd_alloc pd_add_res pd_add drv id vds in
      x ← get_vd vd;
      match id with
      | None => continue
      | Some id =>
          if negb (vd_vendor x =? vendor id) || negb (vd_device x =? device id) then continue
          else if negb (vd_drv x =? 0) then continue
          else
          let pd := pd_alloc vd in
          if pd =? 0 then mret (- ENOMEM)
          else
          v_emit (VPdAlloc pd (vd_port x));;
          put_vd vd (x <|vd_drv := drv|> <|vd_pd := pd|>);;
          if negb (pd_add_res vd =? 0) then mret (- ENOMEM)
          else
          v_emit (VPdAdd pd);;
          if negb (pd_add vd =? 0) then mret (pd_add vd)
          else continue
      end
  end.

Definition vpci_driver_register (rc : Z) (pd_alloc pd_add_res pd_add : Z -> Z) (drv : Z)
  (id : option vpci_id) : PT (Vst D) Z :=
  if negb (rc =? 0) then mret rc
  else
  head ← v_get v_head;
  vpci_register_loop pd_alloc pd_add_res pd_add drv id head.

Fixpoint vpci_unregister_loop (drv : Z) (vds : list Z) : PT (Vst D) unit :=
  match vds with
  | [] => mret tt
  | vd :: vds =>
      x ← get_vd vd;
      (if vd_drv x =? drv
       then v_emit (VPdUnregister (vd_pd x));; put_vd vd (x <|vd_drv := 0|> <|vd_pd := 0|>)
       else mret tt);;
      vpci_unregister_loop drv vds
  end.

Definition vpci_driver_unregister (drv : Z) : PT (Vst D) Z :=
  head ← v_get v_head;
  vpci_unregister_loop drv head;;
  v_emit (VDrvUnregister drv);;
  mret 0.

(** ** Interrupt lines *)

(** The bit of line [irq] of port [port] in the interrupt controller. *)
Definition irq_bit (irq port : Z) : Z := u32 (Z.shiftl 1 (irq + Z.shiftl port 1)).

(** [vd] is the start of the platform device's [IORESOURCE_BUS] resource. *)
Definition vpci_free_irq (vd irq : Z) : PT (Vst D) unit :=
  if 3 <? irq then mret tt
  else
  x ← get_vd vd;
  put_vd vd (x <|vd_irqs := <[Z.to_nat irq := 0]> (vd_irqs x)|>
               <|vd_irqs_priv := <[Z.to_nat irq := 0]> (vd_irqs_priv x)|>);;
  vp ← get_card (vd_vp x);
  irq_en ← VPCI_READ (vp_ctrl vp + IRQ_IER);
  VPCI_WRITE (irq_en .& not32 (irq_bit irq (vd_port x))) (vp_ctrl vp + IRQ_IER).

Definition vpci_request_irq (vd irq handler dev : Z) : PT (Vst D) Z :=
  if 3 <? irq then mret (- EINVAL)
  else
  x ← get_vd vd;
  if negb (nth (Z.to_nat irq) (vd_irqs x) 0 =? 0) then mret (- EBUSY)
  else
  put_vd vd (x <|vd_irqs := <[Z.to_nat irq := handler]> (vd_irqs x)|>
               <|vd_irqs_priv := <[Z.to_nat irq := dev]> (vd_irqs_priv x)|>);;
  vp ← get_card (vd_vp x);
  irq_en ← VPCI_READ (vp_ctrl vp + IRQ_IER);
  VPCI_WRITE (irq_en .| irq_bit irq (vd_port x)) (vp_ctrl vp + IRQ_IER);;
  mret 0.

(** ** Interrupts *)

Definition call_handler (h i priv : Z) : PT (Vst D) unit :=
  v_emit (VHandler h i priv);;
  v_upd (fun s => s <|v_w := run_handler h i priv (v_w s)|>).

(** One iteration of the loop of [vd_isr]. *)
Definition vd_line (vd irq i : Z) : PT (Vst D) unit :=
  x ← get_vd vd;
  if (irq .& Z.shiftl 1 i) =? 0 then mret tt
  else
  let h := nth (Z.to_nat i) (vd_irqs x) 0 in
  if h =? 0 then v_emit (VNoHandler irq)
  else call_handler h i (nth (Z.to_nat i) (vd_irqs_priv x) 0).

Definition vd_isr (vd irq : Z) : PT (Vst D) unit :=
  if vd =? 0 then mret tt
  else vd_line vd irq 0;; vd_line vd irq 1.

(** The [for] loop over the functions of the card. *)
Fixpoint vpci_isr_loop (vds : list Z) (irq_pending : Z) : PT (Vst D) unit :=
  match vds with
  | [] => mret tt
  | vd :: vds =>
      if irq_pending =? 0 then mret tt
      else
      vd_isr vd (irq_pending .& 0x3);;
      vpci_isr_loop vds (Z.shiftr irq_pending 2)
  end.

Definition vpci_isr (dev_id : Z) : PT (Vst D) Z :=
  vp ← get_card dev_id;
  irq_en ← VPCI_READ (vp_ctrl vp + IRQ_IER);
  irq_sts ← VPCI_READ (vp_ctrl vp + IRQ_ISR);
  irq_pending ← VPCI_READ (vp_ctrl vp + IRQ_IPR);
  if irq_pending =? 0 then mret IRQ_NONE
  else
  vpci_isr_loop (vp_vd vp) irq_pending;;
  VPCI_WRITE irq_pending (vp_ctrl vp + IRQ_IAR);;
  VPCI_READ (vp_ctrl vp + IRQ_IPR);;
  mret IRQ_HANDLED.

(** ** Probing the card *)

Definition vpci_funs : list vpci_id :=
  [mkVpciId VPCI_FPGA_VENDOR VPCI_AES_DEVICE;
   mkVpciId VPCI_FPGA_VENDOR VPCI_10G_DEVICE;
   mkVpciId VPCI_FPGA_VENDOR VPCI_10G_DEVICE;
   mkVpciId VPCI_FPGA_VENDOR VPCI_10G_DEVICE;
   mkVpciId VPCI_FPGA_VENDOR VPCI_10G_DEVICE].

Definition bar_size : Z := 0x10000.

(** The virtual device at address [vd] for function [i] of the card. *)
Definition make_virt (vp : Z) (mmio : Z) (vd i : Z) (f : vpci_id) : virt_device :=
  let m := mmio + i * bar_size in
  mkVirt (vendor f) (device f) m bar_size m (m + bar_size) vd [0; 0; 0; 0] [0; 0; 0; 0] vp 0 0 i.

(** The loop over the functions; [allocs] are the results of [kzalloc]. *)
Fixpoint vpci_probe_loop (vp : Z) (funs : list vpci_id) (allocs : list Z) (i : Z) : PT (Vst D) Z :=
  match funs with
  | [] => mret 0
  | f :: funs =>
      let vd := hd 0 allocs in
      if vd =? 0 then mret (- ENOMEM)
      else
      c ← get_card vp;
      v_upd (fun s => s <|v_cards := <[vp := mkVpci (vp_mmio c) (vp_ctrl c)
                             (<[Z.to_nat i := vd]> (vp_vd c)) (vp_msi c)]> (v_cards s)|>);;
      put_vd vd (make_virt vp (vp_mmio c) vd i f);;
      v_upd (fun s => s <|v_head := v_head s ++ [vd]|>);;
      vpci_probe_loop vp funs (tl allocs) (i + 1)
  end.

(** The arguments are the outcomes of the kernel's calls: enabling the device,
    the two attempts to get MSI vectors, mapping the regions, the memory for
    the card, the address of BAR 0, the memory for the virtual devices, and
    [request_irq]. *)
Definition vpci_probe (rc_enable rc_msi1 rc_msi2 rc_iomap vp bar0 : Z) (allocs : list Z)
  (rc_irq : Z) : PT (Vst D) Z :=
  if negb (rc_enable =? 0) then mret rc_enable
  else
  let msi := if negb (rc_msi1 =? 0) then 1 else 16 in
  let msi := if negb (rc_msi2 =? 0) then 0 else msi in
  (if rc_iomap =? - EBUSY then v_emit VPinDevice else mret tt);;
  if negb (rc_iomap =? 0) then mret rc_iomap
  else if vp =? 0 then mret (- ENOMEM)
  else
  v_upd (fun s => s <|v_cards := <[vp := mkVpci (bar0 + 0x10000) (bar0 + 0x00000)
                         (replicate 8 0) msi]> (v_cards s)|>);;
  res ← vpci_probe_loop vp vpci_funs allocs 0;
  if negb (res =? 0) then mret res
  else if negb (rc_irq =? 0) then mret (- ENODEV)
  else
  c ← get_card vp;
  v_upd (fun s => s <|v_drvdata := vp|>);;
  VPCI_WRITE 0x0 (vp_ctrl c + IRQ_MER);;
  VPCI_WRITE 0x0 (vp_ctrl c + IRQ_IER);;
  VPCI_WRITE 0xffffffff (vp_ctrl c + IRQ_IAR);;
  VPCI_WRITE 0x3 (vp_ctrl c + IRQ_MER);;
  mret 0.

Definition vpci_remove : PT (Vst D) unit :=
  vp ← v_get v_drvdata;
  c ← get_card vp;
  VPCI_WRITE 0x0 (vp_ctrl c + IRQ_IER);;
  VPCI_WRITE 0x0 (vp_ctrl c + IRQ_MER);;
  v_emit VFreeIrq;;
  v_upd (fun s => s <|v_drvdata := 0|>);;
  v_emit VReleaseRegions;;
  v_emit VDisableDevice.

(** ** Power management and error recovery *)

Definition vpci_shutdown : PT (Vst D) unit := v_emit VSaveState;; v_emit VDisableDevice.

Definition vpci_suspend : PT (Vst D) Z := mret 0.

Definition vpci_resume : PT (Vst D) Z :=
  v_emit VSetPowerD0;; v_emit VRestoreState;; v_emit VEnableWake;; mret 0.

Definition vpci_io_error_detected (state : pci_channel_state_t) : PT (Vst D) pci_ers_result_t :=
  match state with
  | pci_channel_io_perm_failure => mret PCI_ERS_RESULT_DISCONNECT
  | _ => v_emit VDisableDevice;; mret PCI_ERS_RESULT_NEED_RESET
  end.

(** [rc] is the result of [pci_enable_device]. *)
Definition vpci_io_slot_reset (rc : Z) : PT (Vst D) pci_ers_result_t :=
  v_emit VEnableDevice;;
  if negb (rc =? 0) then mret PCI_ERS_RESULT_DISCONNECT
  else v_emit VSetMaster;; mret PCI_ERS_RESULT_RECOVERED.

Definition vpci_io_resume : PT (Vst D) unit := v_emit VEnableWake.

Definition vpci_init (rc : Z) : PT (Vst D) Z :=
  v_upd (fun s => s <|v_head := []|>);; v_emit VRegisterPci;; mret rc.

Definition vpci_exit : PT (Vst D) unit := v_emit VUnregisterPci.

End vpci.
