(* ===== verification/Temac.v ===== *)
(** * The Ethernet MAC

    Models [linux-drv/axitemac.c]: the reset register of the MAC and the
    management interface to the PHY, which is polled with a retry bound. *)

From S2P Require Import Prelude Hw.

Definition MAC_ADDR_BASE : Z := 0x08000.
Definition CFG0 : Z := 0x500.
Definition CFG1 : Z := 0x504.
Definition TXD : Z := 0x508.
Definition RXD : Z := 0x50C.

(** The number of polls of the [do ... while] loop of [mdio_wait]. *)
Definition mdio_retry : nat := 10000.

Section temac.
Context {D : Type} `{!RegBus D}.

Definition mac_base (reg : Z) : Z := u32 (reg + MAC_ADDR_BASE).

(** [retry] counts down before the status is looked at. *)
Fixpoint mdio_wait_loop (reg : Z) (retry : nat) : ST (World D) Z :=
  match retry with
  | O => mret (-1)
  | S retry =>
      res ← XAxiDma_ReadReg (mac_base reg) CFG1;
      match retry with
      | O => mret (-1)
      | _ => if (res .& Z.shiftl 1 7) =? 0 then mdio_wait_loop reg retry else mret 0
      end
  end.

Definition mdio_wait (reg : Z) : ST (World D) Z := mdio_wait_loop reg mdio_retry.

Definition mdio_cr (prtad devad : Z) : Z := u32 (Z.shiftl devad 16) .| u32 (Z.shiftl prtad 24).

Definition mdio_write_reg (reg prtad devad regad val : Z) : ST (World D) Z :=
  let cr := mdio_cr prtad devad in
  XAxiDma_WriteReg (mac_base reg) TXD regad;;
  XAxiDma_WriteReg (mac_base reg) CFG1 (0x0800 .| cr);;
  res ← mdio_wait reg;
  if negb (res =? 0) then mret (-1)
  else
  XAxiDma_WriteReg (mac_base reg) TXD val;;
  XAxiDma_WriteReg (mac_base reg) CFG1 (0x4800 .| cr);;
  mdio_wait reg.

Definition axitemac_init (reg_base : Z) : ST (World D) Z :=
  XAxiDma_WriteReg (u32 (reg_base + 0x1000)) 0x0 0x1;; mret 0.

Definition axitemac_exit (reg_base : Z) : ST (World D) Z :=
  XAxiDma_WriteReg (u32 (reg_base + 0x1000)) 0x0 0x1;; mret 0.

Definition axitemac_start (reg_base : Z) : ST (World D) Z :=
  XAxiDma_WriteReg (u32 (reg_base + 0x1000)) 0x0 0x0;; mret 0.

Definition axitemac_stop (reg_base : Z) : ST (World D) Z :=
  XAxiDma_WriteReg (u32 (reg_base + 0x1000)) 0x0 0x1;; mret 0.

(** ** Polling *)

Definition poll (reg : Z) : ST (World D) Z := XAxiDma_ReadReg (mac_base reg) CFG1.

(** The machine after [k] polls. *)
Fixpoint polled (reg : Z) (k : nat) (w : World D) : World D :=
  match k with O => w | S k => polled reg k (st_out (poll reg) w) end.

Definition poll_ready (reg : Z) (w : World D) : bool := tst (st_val (poll reg) w) (Z.shiftl 1 7).

(** The loop stops at the first ready poll, if one comes before the last. *)
Lemma mdio_wait_loop_spec reg n : forall w,
  (st_val (mdio_wait_loop reg (S n)) w = 0 /\ exists k, (k < n)%nat /\ poll_ready reg (polled reg k w) = true /\
     (forall j, (j < k)%nat -> poll_ready reg (polled reg j w) = false) /\
     st_out (mdio_wait_loop reg (S n)) w = polled reg (S k) w) \/
  (st_val (mdio_wait_loop reg (S n)) w = -1 /\ (forall j, (j < n)%nat -> poll_ready reg (polled reg j w) = false) /\
     st_out (mdio_wait_loop reg (S n)) w = polled reg (S n) w).
Proof.
  induction n as [|n IH]; intros w.
  { right. cbn. unfold poll. st. split_and!; try done. lia. }
  change (mdio_wait_loop reg (S (S n))) with (res ← poll reg;
    if (res .& Z.shiftl 1 7) =? 0 then mdio_wait_loop reg (S n) else mret 0). rewrite st_val_bind, st_out_bind.
  destruct (_ =? 0) eqn:E.
  - assert (H0 : poll_ready reg w = false) by (unfold poll_ready, tst; by rewrite E).
    destruct (IH (st_out (poll reg) w)) as [(V & k & Hk & Hr & Hf & Ho)|(V & Hf & Ho)].
    + left. split; [exact V|]. exists (S k). split_and!; [lia|exact Hr| |exact Ho].
      intros [|j] Hj; [exact H0|]. apply Hf. lia.
    + right. split_and!; [exact V| |exact Ho]. intros [|j] Hj; [exact H0|]. apply Hf. lia.
  - left. st. split; [done|]. exists 0%nat. split_and!; [lia|unfold poll_ready, tst; cbn [polled]; by rewrite E|lia|done].
Qed.

End temac.

(** C40: waiting for the management interface always ends within 10000 polls.
    It returns 0 exactly when one of the first 9999 polls shows the ready bit,
    and then it has stopped right after the first such poll. *)
Theorem mdio_wait_bounded {D} `{!RegBus D} reg (w : World D) :
  let ready k := poll_ready reg (polled reg k w) in
  (st_val (mdio_wait reg) w = 0 <-> exists k, (k < pred mdio_retry)%nat /\ ready k = true) /\
  (st_val (mdio_wait reg) w = 0 \/ st_val (mdio_wait reg) w = -1) /\
  exists k, (k <= mdio_retry)%nat /\ st_out (mdio_wait reg) w = polled reg k w /\
    forall j, (j < pred k)%nat -> ready j = false.
Proof.
  cbv zeta. unfold mdio_wait. change mdio_retry with (S (pred mdio_retry)). set (n := pred mdio_retry).
  change (pred (S n)) with n.
  destruct (mdio_wait_loop_spec reg n w) as [(V & k & Hk & Hr & Hf & Ho)|(V & Hf & Ho)]; rewrite V, Ho.
  - split_and!; [split; [intros _; by exists k|done]|by left|]. exists (S k). split_and!; [lia|done|exact Hf].
  - split_and!; [split; [done|intros (k & Hk & Hr); rewrite Hf in Hr; done]|by right|].
    exists (S n). split_and!; [lia|done|exact Hf].
Qed.

(** A PHY register write fails if the address phase is not acknowledged,
    and then never issues the data phase; otherwise the data phase is issued
    after the address phase completed. *)
Theorem mdio_write_phases {D} `{!RegBus D} reg prtad devad regad val (w : World D) :
  let cr := mdio_cr prtad devad in
  let phase r v w := st_out (XAxiDma_WriteReg (mac_base reg) CFG1 (v .| cr))
                       (st_out (XAxiDma_WriteReg (mac_base reg) TXD r) w) in
  let w1 := phase regad 0x0800 w in
  let w2 := st_out (mdio_wait reg) w1 in
  if st_val (mdio_wait reg) w1 =? 0
  then mdio_write_reg reg prtad devad regad val w = mdio_wait reg (phase val 0x4800 w2)
  else mdio_write_reg reg prtad devad regad val w = (-1, w2).
Proof.
  cbv zeta. unfold mdio_write_reg. rewrite !st_bind_eq. by destruct (_ =? 0) eqn:E.
Qed.
