(* ===== verification/EthDma.v ===== *)
(** * The Ethernet driver

    Models [linux-drv/ethdma.c]: one network interface, its two rings and the
    socket buffers that travel through them.  A descriptor's identifier word
    holds the socket buffer that it carries.  The interface's place on
    [sentQueue], the state of its transmit queue and of NAPI are fields of
    [net_local]; what is handed to the kernel (unmapped buffers, freed and
    received socket buffers) goes to a log in order.  A bad socket buffer
    pointer has no result ([None]). *)

From S2P Require Import Prelude Kernel Hw Bd BdRing Dma Temac.

Definition TX_BD_NUM : Z := 8192.
Definition RX_BD_NUM : Z := 8192.
Definition DFT_TX_THRESHOLD : Z := 24.
Definition DFT_TX_WAITBOUND : Z := 254.
Definition DFT_RX_THRESHOLD : Z := 1.
Definition DFT_RX_WAITBOUND : Z := 254.
Definition AXI_DMA_REG : Z := 0.
Definition XTE_JUMBO_MTU : Z := 8982.
Definition XTE_HDR_SIZE : Z := 14.
Definition XTE_TRL_SIZE : Z := 4.

(** Values of [ip_summed]. *)
Definition CHECKSUM_NONE : Z := 0.
Definition CHECKSUM_COMPLETE : Z := 2.

Record net_stats : Type := mkStats {
  tx_packets : Z;
  tx_bytes : Z;
  tx_errors : Z;
  tx_dropped : Z;
  rx_packets : Z;
  rx_bytes : Z
}.

(** The fields of [struct sk_buff] that the driver uses: the linear part, the
    fragments (address and size), whether a checksum is to be completed
    ([CHECKSUM_PARTIAL]) and where, and the received length and checksum. *)
Record sk_buff : Type := mkSkb {
  k_data : Z;
  k_headlen : Z;
  k_frags : list (Z * Z);
  k_partial : bool;
  k_transport : Z;
  k_csum_offset : Z;
  k_len : Z;
  k_ip_summed : Z;
  k_csum : Z
}.

(** Pairs are virtual and bus addresses of the descriptor memory; 0 is a null
    pointer. *)
Record net_local : Type := mkLocal {
  n_reg_base : Z;
  n__reg_base : Z;
  n_AxiDma : XAxiDma;
  n_mtu : Z;
  n_frame_size : Z;
  n_deferred : Z;
  n_stats : net_stats;
  n_tx_bd : Z * Z;
  n_tx_bd_size : Z;
  n_rx_bd : Z * Z;
  n_rx_bd_size : Z;
  n_tx_hw_csums : Z;
  n_rx_hw_csums : Z;
  n_lro_norm : bool;
  n_poll_timer : ktimer;
  n_queue_on : bool;
  n_napi_on : bool;
  n_napi_sched : bool;
  n_sent : bool;
  n_dev_addr : list Z
}.

#[export] Instance set_tx_packets : Setter tx_packets := fun v s =>
  mkStats v (tx_bytes s) (tx_errors s) (tx_dropped s) (rx_packets s) (rx_bytes s).
#[export] Instance set_tx_bytes : Setter tx_bytes := fun v s =>
  mkStats (tx_packets s) v (tx_errors s) (tx_dropped s) (rx_packets s) (rx_bytes s).
#[export] Instance set_tx_errors : Setter tx_errors := fun v s =>
  mkStats (tx_packets s) (tx_bytes s) v (tx_dropped s) (rx_packets s) (rx_bytes s).
#[export] Instance set_tx_dropped : Setter tx_dropped := fun v s =>
  mkStats (tx_packets s) (tx_bytes s) (tx_errors s) v (rx_packets s) (rx_bytes s).
#[export] Instance set_rx_packets : Setter rx_packets := fun v s =>
  mkStats (tx_packets s) (tx_bytes s) (tx_errors s) (tx_dropped s) v (rx_bytes s).
#[export] Instance set_rx_bytes : Setter rx_bytes := fun v s =>
  mkStats (tx_packets s) (tx_bytes s) (tx_errors s) (tx_dropped s) (rx_packets s) v.

#[export] Instance set_k_len : Setter k_len := fun v s =>
  mkSkb (k_data s) (k_headlen s) (k_frags s) (k_partial s) (k_transport s) (k_csum_offset s) v
    (k_ip_summed s) (k_csum s).
#[export] Instance set_k_ip_summed : Setter k_ip_summed := fun v s =>
  mkSkb (k_data s) (k_headlen s) (k_frags s) (k_partial s) (k_transport s) (k_csum_offset s)
    (k_len s) v (k_csum s).
#[export] Instance set_k_csum : Setter k_csum := fun v s =>
  mkSkb (k_data s) (k_headlen s) (k_frags s) (k_partial s) (k_transport s) (k_csum_offset s)
    (k_len s) (k_ip_summed s) v.

#[export] Instance set_n_reg_base : Setter n_reg_base := fun v l =>
  mkLocal v (n__reg_base l) (n_AxiDma l) (n_mtu l) (n_frame_size l) (n_deferred l) (n_stats l)
    (n_tx_bd l) (n_tx_bd_size l) (n_rx_bd l) (n_rx_bd_size l) (n_tx_hw_csums l) (n_rx_hw_csums l)
    (n_lro_norm l) (n_poll_timer l) (n_queue_on l) (n_napi_on l) (n_napi_sched l) (n_sent l)
    (n_dev_addr l).
#[export] Instance set_n__reg_base : Setter n__reg_base := fun v l =>
  mkLocal (n_reg_base l) v (n_AxiDma l) (n_mtu l) (n_frame_size l) (n_deferred l) (n_stats l)
    (n_tx_bd l) (n_tx_bd_size l) (n_rx_bd l) (n_rx_bd_size l) (n_tx_hw_csums l) (n_rx_hw_csums l)
    (n_lro_norm l) (n_poll_timer l) (n_queue_on l) (n_napi_on l) (n_napi_sched l) (n_sent l)
    (n_dev_addr l).
#[export] Instance set_n_AxiDma : Setter n_AxiDma := fun v l =>
  mkLocal (n_reg_base l) (n__reg_base l) v (n_mtu l) (n_frame_size l) (n_deferred l) (n_stats l)
    (n_tx_bd l) (n_tx_bd_size l) (n_rx_bd l) (n_rx_bd_size l) (n_tx_hw_csums l) (n_rx_hw_csums l)
    (n_lro_norm l) (n_poll_timer l) (n_queue_on l) (n_napi_on l) (n_napi_sched l) (n_sent l)
    (n_dev_addr l).
#[export] Instance set_n_mtu : Setter n_mtu := fun v l =>
  mkLocal (n_reg_base l) (n__reg_base l) (n_AxiDma l) v (n_frame_size l) (n_deferred l)
    (n_stats l) (n_tx_bd l) (n_tx_bd_size l) (n_rx_bd l) (n_rx_bd_size l) (n_tx_hw_csums l)
    (n_rx_hw_csums l) (n_lro_norm l) (n_poll_timer l) (n_queue_on l) (n_napi_on l)
    (n_napi_sched l) (n_sent l) (n_dev_addr l).
#[export] Instance set_n_frame_size : Setter n_frame_size := fun v l =>
  mkLocal (n_reg_base l) (n__reg_base l) (n_AxiDma l) (n_mtu l) v (n_deferred l) (n_stats l)
    (n_tx_bd l) (n_tx_bd_size l) (n_rx_bd l) (n_rx_bd_size l) (n_tx_hw_csums l) (n_rx_hw_csums l)
    (n_lro_norm l) (n_poll_timer l) (n_queue_on l) (n_napi_on l) (n_napi_sched l) (n_sent l)
    (n_dev_addr l).
#[export] Instance set_n_deferred : Setter n_deferred := fun v l =>
  mkLocal (n_reg_base l) (n__reg_base l) (n_AxiDma l) (n_mtu l) (n_frame_size l) v (n_stats l)
    (n_tx_bd l) (n_tx_bd_size l) (n_rx_bd l) (n_rx_bd_size l) (n_tx_hw_csums l) (n_rx_hw_csums l)
    (n_lro_norm l) (n_poll_timer l) (n_queue_on l) (n_napi_on l) (n_napi_sched l) (n_sent l)
    (n_dev_addr l).
#[export] Instance set_n_stats : Setter n_stats := fun v l =>
  mkLocal (n_reg_base l) (n__reg_base l) (n_AxiDma l) (n_mtu l) (n_frame_size l) (n_deferred l) v
    (n_tx_bd l) (n_tx_bd_size l) (n_rx_bd l) (n_rx_bd_size l) (n_tx_hw_csums l) (n_rx_hw_csums l)
    (n_lro_norm l) (n_poll_timer l) (n_queue_on l) (n_napi_on l) (n_napi_sched l) (n_sent l)
    (n_dev_addr l).
#[export] Instance set_n_tx_bd : Setter n_tx_bd := fun v l =>
  mkLocal (n_reg_base l) (n__reg_base l) (n_AxiDma l) (n_mtu l) (n_frame_size l) (n_deferred l)
    (n_stats l) v (n_tx_bd_size l) (n_rx_bd l) (n_rx_bd_size l) (n_tx_hw_csums l)
    (n_rx_hw_csums l) (n_lro_norm l) (n_poll_timer l) (n_queue_on l) (n_napi_on l)
    (n_napi_sched l) (n_sent l) (n_dev_addr l).
#[export] Instance set_n_tx_bd_size : Setter n_tx_bd_size := fun v l =>
  mkLocal (n_reg_base l) (n__reg_base l) (n_AxiDma l) (n_mtu l) (n_frame_size l) (n_deferred l)
    (n_stats l) (n_tx_bd l) v (n_rx_bd l) (n_rx_bd_size l) (n_tx_hw_csums l) (n_rx_hw_csums l)
    (n_lro_norm l) (n_poll_timer l) (n_queue_on l) (n_napi_on l) (n_napi_sched l) (n_sent l)
    (n_dev_addr l).
#[export] Instance set_n_rx_bd : Setter n_rx_bd := fun v l =>
  mkLocal (n_reg_base l) (n__reg_base l) (n_AxiDma l) (n_mtu l) (n_frame_size l) (n_deferred l)
    (n_stats l) (n_tx_bd l) (n_tx_bd_size l) v (n_rx_bd_size l) (n_tx_hw_csums l)
    (n_rx_hw_csums l) (n_lro_norm l) (n_poll_timer l) (n_queue_on l) (n_napi_on l)
    (n_napi_sched l) (n_sent l) (n_dev_addr l).
#[export] Instance set_n_rx_bd_size : Setter n_rx_bd_size := fun v l =>
  mkLocal (n_reg_base l) (n__reg_base l) (n_AxiDma l) (n_mtu l) (n_frame_size l) (n_deferred l)
    (n_stats l) (n_tx_bd l) (n_tx_bd_size l) (n_rx_bd l) v (n_tx_hw_csums l) (n_rx_hw_csums l)
    (n_lro_norm l) (n_poll_timer l) (n_queue_on l) (n_napi_on l) (n_napi_sched l) (n_sent l)
    (n_dev_addr l).
#[export] Instance set_n_tx_hw_csums : Setter n_tx_hw_csums := fun v l =>
  mkLocal (n_reg_base l) (n__reg_base l) (n_AxiDma l) (n_mtu l) (n_frame_size l) (n_deferred l)
    (n_stats l) (n_tx_bd l) (n_tx_bd_size l) (n_rx_bd l) (n_rx_bd_size l) v (n_rx_hw_csums l)
    (n_lro_norm l) (n_poll_timer l) (n_queue_on l) (n_napi_on l) (n_napi_sched l) (n_sent l)
    (n_dev_addr l).
#[export] Instance set_n_rx_hw_csums : Setter n_rx_hw_csums := fun v l =>
  mkLocal (n_reg_base l) (n__reg_base l) (n_AxiDma l) (n_mtu l) (n_frame_size l) (n_deferred l)
    (n_stats l) (n_tx_bd l) (n_tx_bd_size l) (n_rx_bd l) (n_rx_bd_size l) (n_tx_hw_csums l) v
    (n_lro_norm l) (n_poll_timer l) (n_queue_on l) (n_napi_on l) (n_napi_sched l) (n_sent l)
    (n_dev_addr l).
#[export] Instance set_n_lro_norm : Setter n_lro_norm := fun v l =>
  mkLocal (n_reg_base l) (n__reg_base l) (n_AxiDma l) (n_mtu l) (n_frame_size l) (n_deferred l)
    (n_stats l) (n_tx_bd l) (n_tx_bd_size l) (n_rx_bd l) (n_rx_bd_size l) (n_tx_hw_csums l)
    (n_rx_hw_csums l) v (n_poll_timer l) (n_queue_on l) (n_napi_on l) (n_napi_sched l) (n_sent l)
    (n_dev_addr l).
#[export] Instance set_n_poll_timer : Setter n_poll_timer := fun v l =>
  mkLocal (n_reg_base l) (n__reg_base l) (n_AxiDma l) (n_mtu l) (n_frame_size l) (n_deferred l)
    (n_stats l) (n_tx_bd l) (n_tx_bd_size l) (n_rx_bd l) (n_rx_bd_size l) (n_tx_hw_csums l)
    (n_rx_hw_csums l) (n_lro_norm l) v (n_queue_on l) (n_napi_on l) (n_napi_sched l) (n_sent l)
    (n_dev_addr l).
#[export] Instance set_n_queue_on : Setter n_queue_on := fun v l =>
  mkLocal (n_reg_base l) (n__reg_base l) (n_AxiDma l) (n_mtu l) (n_frame_size l) (n_deferred l)
    (n_stats l) (n_tx_bd l) (n_tx_bd_size l) (n_rx_bd l) (n_rx_bd_size l) (n_tx_hw_csums l)
    (n_rx_hw_csums l) (n_lro_norm l) (n_poll_timer l) v (n_napi_on l) (n_napi_sched l) (n_sent l)
    (n_dev_addr l).
#[export] Instance set_n_napi_on : Setter n_napi_on := fun v l =>
  mkLocal (n_reg_base l) (n__reg_base l) (n_AxiDma l) (n_mtu l) (n_frame_size l) (n_deferred l)
    (n_stats l) (n_tx_bd l) (n_tx_bd_size l) (n_rx_bd l) (n_rx_bd_size l) (n_tx_hw_csums l)
    (n_rx_hw_csums l) (n_lro_norm l) (n_poll_timer l) (n_queue_on l) v (n_napi_sched l) (n_sent l)
    (n_dev_addr l).
#[export] Instance set_n_napi_sched : Setter n_napi_sched := fun v l =>
  mkLocal (n_reg_base l) (n__reg_base l) (n_AxiDma l) (n_mtu l) (n_frame_size l) (n_deferred l)
    (n_stats l) (n_tx_bd l) (n_tx_bd_size l) (n_rx_bd l) (n_rx_bd_size l) (n_tx_hw_csums l)
    (n_rx_hw_csums l) (n_lro_norm l) (n_poll_timer l) (n_queue_on l) (n_napi_on l) v (n_sent l)
    (n_dev_addr l).
#[export] Instance set_n_sent : Setter n_sent := fun v l =>
  mkLocal (n_reg_base l) (n__reg_base l) (n_AxiDma l) (n_mtu l) (n_frame_size l) (n_deferred l)
    (n_stats l) (n_tx_bd l) (n_tx_bd_size l) (n_rx_bd l) (n_rx_bd_size l) (n_tx_hw_csums l)
    (n_rx_hw_csums l) (n_lro_norm l) (n_poll_timer l) (n_queue_on l) (n_napi_on l)
    (n_napi_sched l) v (n_dev_addr l).
#[export] Instance set_n_dev_addr : Setter n_dev_addr := fun v l =>
  mkLocal (n_reg_base l) (n__reg_base l) (n_AxiDma l) (n_mtu l) (n_frame_size l) (n_deferred l)
    (n_stats l) (n_tx_bd l) (n_tx_bd_size l) (n_rx_bd l) (n_rx_bd_size l) (n_tx_hw_csums l)
    (n_rx_hw_csums l) (n_lro_norm l) (n_poll_timer l) (n_queue_on l) (n_napi_on l)
    (n_napi_sched l) (n_sent l) v.

(** What the driver hands to the kernel, in order. *)
Inductive nevent : Type :=
| NvUnmap (addr len dir : Z)
| NvFreeSkb (skb : Z)
| NvReceive (skb : Z) (lro : bool)
| NvLroFlush
| NvTasklet
| NvNapiSchedule
| NvIrqError (rx : bool) (sts : Z)
| NvRequestIrq
| NvFreeIrq
| NvFreeCoherent (bd : Z * Z) (size : Z)
| NvIounmap (p : Z)
| NvFreeNetdev
| NvRegister
| NvUnregister
| NvEnableDevice
| NvDisableDevice
| NvRequestRegions
| NvReleaseRegions
| NvSetMaster
| NvSetDrvdata (on : bool)
| NvNapiAdd
| NvRegisterPci
| NvUnregisterPci
| NvRegisterVpci
| NvUnregisterVpci.

Record Net (D : Type) : Type := mkNet {
  e_w : World D;
  e_lp : net_local;
  e_skbs : gmap Z sk_buff;
  e_now : Z;
  e_log : list nevent
}.
Arguments mkNet {D}.
Arguments e_w {D}.
Arguments e_lp {D}.
Arguments e_skbs {D}.
Arguments e_now {D}.
Arguments e_log {D}.

#[export] Instance set_e_w {D} : Setter (@e_w D) := fun v e =>
  mkNet v (e_lp e) (e_skbs e) (e_now e) (e_log e).
#[export] Instance set_e_lp {D} : Setter (@e_lp D) := fun v e =>
  mkNet (e_w e) v (e_skbs e) (e_now e) (e_log e).
#[export] Instance set_e_skbs {D} : Setter (@e_skbs D) := fun v e =>
  mkNet (e_w e) (e_lp e) v (e_now e) (e_log e).
#[export] Instance set_e_now {D} : Setter (@e_now D) := fun v e =>
  mkNet (e_w e) (e_lp e) (e_skbs e) v (e_log e).
#[export] Instance set_e_log {D} : Setter (@e_log D) := fun v e =>
  mkNet (e_w e) (e_lp e) (e_skbs e) (e_now e) v.

(** ** Checksum offload *)

Definition BdCsumEnable (BdPtr : Z) : ST Mem unit := fun m =>
  XAxiDma_BdWrite BdPtr XAXIDMA_BD_USR0_OFFSET
    ((XAxiDma_BdRead m BdPtr XAXIDMA_BD_USR0_OFFSET .| 0x1) .& 0xFFFFFFFF) m.

Definition BdCsumEnabled (m : Mem) (BdPtr : Z) : Z :=
  XAxiDma_BdRead m BdPtr XAXIDMA_BD_USR0_OFFSET .& 1.

Definition BdCsumDisable (BdPtr : Z) : ST Mem unit := fun m =>
  XAxiDma_BdWrite BdPtr XAXIDMA_BD_USR0_OFFSET
    (XAxiDma_BdRead m BdPtr XAXIDMA_BD_USR0_OFFSET .& 0xFFFFFFFC) m.

Definition BdCsumSetup (BdPtr Start Insert : Z) : ST Mem unit :=
  XAxiDma_BdWrite BdPtr XAXIDMA_BD_USR1_OFFSET (u32 (Z.shiftl Start 16) .| Insert).

Definition BdCsumInsert (m : Mem) (BdPtr : Z) : Z :=
  XAxiDma_BdRead m BdPtr XAXIDMA_BD_USR1_OFFSET .& 0xffff.

Definition BdCsumSeed (BdPtr Seed : Z) : ST Mem unit :=
  XAxiDma_BdWrite BdPtr XAXIDMA_BD_USR2_OFFSET 0.

Definition BdCsumGet (m : Mem) (BdPtr : Z) : Z :=
  XAxiDma_BdRead m BdPtr XAXIDMA_BD_USR3_OFFSET .& 0xffff.

Definition BdGetRxLen (m : Mem) (BdPtr : Z) : Z :=
  XAxiDma_BdRead m BdPtr XAXIDMA_BD_USR4_OFFSET .& 0xffff.

Section eth.
Context {D : Type} `{!RegBus D}.
Context (HZ : Z).

(** [dma_map_single] (address and length) and the protocol that
    [eth_type_trans] finds in a frame. *)
Context (dma_map_single : Z -> Z -> Z).
Context (eth_type_ip : Z -> bool).

(** *** Access to the state *)

Definition en_fails {A} : PT (Net D) A := fun _ => None.
Definition en_w {A} (m : ST (World D) A) : PT (Net D) A := fun e =>
  Some (st_val m (e_w e), e <|e_w := st_out m (e_w e)|>).
Definition en_wp {A} (m : PT (World D) A) : PT (Net D) A := fun e =>
  '(a, w) ← m (e_w e); Some (a, e <|e_w := w|>).
Definition en_m {A} (m : ST Mem A) : PT (Net D) A := en_w (on_mem m).
Definition en_get {A} (f : Net D -> A) : PT (Net D) A := fun e => Some (f e, e).
Definition en_upd (f : Net D -> Net D) : PT (Net D) unit := fun e => Some (tt, f e).
Definition en_lp (f : net_local -> net_local) : PT (Net D) unit :=
  en_upd (fun e => e <|e_lp := f (e_lp e)|>).
Definition en_stats (f : net_stats -> net_stats) : PT (Net D) unit :=
  en_lp (fun l => l <|n_stats := f (n_stats l)|>).
Definition en_log (v : nevent) : PT (Net D) unit := en_upd (fun e => e <|e_log := e_log e ++ [v]|>).
Definition get_skb (skb : Z) : PT (Net D) sk_buff := fun e =>
  x ← e_skbs e !! skb; Some (x, e).

Definition tx_ring : PT (Net D) XAxiDma_BdRing := en_get (fun e => XAxiDma_GetTxRing (n_AxiDma (e_lp e))).
Definition rx_ring : PT (Net D) XAxiDma_BdRing := en_get (fun e => XAxiDma_GetRxRing (n_AxiDma (e_lp e)) 0).
Definition put_tx (r : XAxiDma_BdRing) : PT (Net D) unit :=
  en_lp (fun l => l <|n_AxiDma := (n_AxiDma l) <|TxBdRing := r|> |>).
Definition put_rx0 (r : XAxiDma_BdRing) : PT (Net D) unit :=
  en_lp (fun l => l <|n_AxiDma := put_rx (n_AxiDma l) 0 r|>).
Definition netif_stop_queue : PT (Net D) unit := en_lp (fun l => l <|n_queue_on := false|>).
Definition netif_wake_queue : PT (Net D) unit := en_lp (fun l => l <|n_queue_on := true|>).
Definition napi_enable : PT (Net D) unit := en_lp (fun l => l <|n_napi_on := true|>).

(** [XAxiDma_Reset] of the interface's engine. *)
Definition en_reset : PT (Net D) unit :=
  a ← en_get (fun e => n_AxiDma (e_lp e));
  a ← en_w (XAxiDma_Reset a);
  en_lp (fun l => l <|n_AxiDma := a|>).

Definition AxiDma_Config (reg_base : Z) : XAxiDma_Config := mkConfig 0xe001 reg_base 1 1 1 64 1 1 64 1 1 1.

Definition AxiDma_Stop (BaseAddress : Z) : ST (World D) unit :=
  v ← XAxiDma_ReadReg BaseAddress (XAXIDMA_TX_OFFSET + XAXIDMA_CR_OFFSET);
  XAxiDma_WriteReg BaseAddress (XAXIDMA_TX_OFFSET + XAXIDMA_CR_OFFSET)
    (v .& not32 XAXIDMA_CR_RUNSTOP_MASK);;
  v ← XAxiDma_ReadReg BaseAddress (XAXIDMA_RX_OFFSET + XAXIDMA_CR_OFFSET);
  XAxiDma_WriteReg BaseAddress (XAXIDMA_RX_OFFSET + XAXIDMA_CR_OFFSET)
    (v .& not32 XAXIDMA_CR_RUNSTOP_MASK).

(** ** Reset *)

Definition axi_reset : PT (Net D) unit :=
  RxRingPtr ← rx_ring;
  TxRingPtr ← tx_ring;
  netif_stop_queue;;
  '(RxThreshold, RxWaitBound) ← en_w (XAxiDma_BdRingGetCoalesce RxRingPtr);
  '(TxThreshold, TxWaitBound) ← en_w (XAxiDma_BdRingGetCoalesce TxRingPtr);
  en_reset;;
  a ← en_get (fun e => n_AxiDma (e_lp e));
  TimeOut ← en_w (reset_wait a 500);
  match TimeOut with
  | O => mret tt
  | S _ =>
      RxRingPtr ← rx_ring;
      TxRingPtr ← tx_ring;
      en_w (XAxiDma_BdRingSetCoalesce RxRingPtr RxThreshold RxWaitBound);;
      en_w (XAxiDma_BdRingSetCoalesce TxRingPtr TxThreshold TxWaitBound);;
      en_w (XAxiDma_mBdRingIntEnable RxRingPtr XAXIDMA_IRQ_ALL_MASK);;
      en_w (XAxiDma_mBdRingIntEnable TxRingPtr XAXIDMA_IRQ_ALL_MASK);;
      deferred_skb ← en_get (fun e => n_deferred (e_lp e));
      (if negb (deferred_skb =? 0)
       then en_log (NvFreeSkb deferred_skb);;
            en_lp (fun l => l <|n_deferred := 0|>);;
            en_stats (fun s => s <|tx_errors := u32 (tx_errors s + 1)|>)
       else mret tt);;
      base ← en_get (fun e => n_reg_base (e_lp e));
      en_w (axitemac_start base);;
      netif_wake_queue;;
      napi_enable
  end.

(** ** Interrupts *)

Definition axi_dma_rx_interrupt : PT (Net D) Z :=
  RingPtr ← rx_ring;
  irq_status ← en_w (XAxiDma_ReadReg (ChanBase RingPtr) XAXIDMA_SR_OFFSET);
  if tst irq_status XAXIDMA_ERR_ALL_MASK then
    en_w (XAxiDma_mBdRingAckIrq RingPtr irq_status);;
    en_log (NvIrqError true irq_status);;
    mret IRQ_HANDLED
  else
  (if tst irq_status (XAXIDMA_IRQ_DELAY_MASK .| XAXIDMA_IRQ_IOC_MASK) then
     en_w (XAxiDma_mBdRingAckIrq RingPtr irq_status);;
     lp ← en_get e_lp;
     (if n_napi_on lp && negb (n_napi_sched lp)
      then en_lp (fun l => l <|n_napi_sched := true|>);;
           en_w (XAxiDma_mBdRingIntDisable RingPtr XAXIDMA_IRQ_ALL_MASK);;
           en_log NvNapiSchedule
      else mret tt)
   else mret tt);;
  mret IRQ_HANDLED.

Definition axi_dma_tx_interrupt : PT (Net D) Z :=
  RingPtr ← tx_ring;
  irq_status ← en_w (XAxiDma_ReadReg (ChanBase RingPtr) XAXIDMA_SR_OFFSET);
  if tst irq_status XAXIDMA_ERR_ALL_MASK then
    en_w (XAxiDma_mBdRingAckIrq RingPtr irq_status);;
    en_log (NvIrqError false irq_status);;
    mret IRQ_HANDLED
  else
  (if tst irq_status (XAXIDMA_IRQ_DELAY_MASK .| XAXIDMA_IRQ_IOC_MASK) then
     en_w (XAxiDma_mBdRingAckIrq RingPtr irq_status);;
     lp ← en_get e_lp;
     (if negb (n_sent lp)
      then en_lp (fun l => l <|n_sent := true|>);;
           en_w (XAxiDma_mBdRingIntDisable RingPtr XAXIDMA_IRQ_ALL_MASK);;
           en_log NvTasklet
      else mret tt)
   else mret tt);;
  mret IRQ_HANDLED.

Definition axi_interrupt : PT (Net D) Z :=
  RxRingPtr ← rx_ring;
  TxRingPtr ← tx_ring;
  IrqStatusTx ← en_w (XAxiDma_ReadReg (ChanBase TxRingPtr) XAXIDMA_SR_OFFSET);
  IrqStatusRx ← en_w (XAxiDma_ReadReg (ChanBase RxRingPtr) XAXIDMA_SR_OFFSET);
  if ((IrqStatusTx .| IrqStatusRx) .& XAXIDMA_IRQ_ALL_MASK) =? 0 then mret IRQ_NONE
  else
  (if tst IrqStatusTx XAXIDMA_IRQ_ALL_MASK then axi_dma_tx_interrupt else mret 0);;
  (if tst IrqStatusRx XAXIDMA_IRQ_ALL_MASK then axi_dma_rx_interrupt else mret 0);;
  mret IRQ_HANDLED.

(** ** Transmission *)

(** The loop over the fragments: the last descriptor used. *)
Fixpoint send_frags (r : XAxiDma_BdRing) (bd_ptr : Z) (frags : list (Z * Z)) : ST Mem Z :=
  match frags with
  | [] => mret bd_ptr
  | (virt_addr, size) :: frags =>
      let bd_ptr := XAxiDma_mBdRingNext r bd_ptr in
      XAxiDma_BdSetBufAddr bd_ptr (u32 (dma_map_single virt_addr size));;
      XAxiDma_BdSetLength bd_ptr size (MaxTransferLen r);;
      XAxiDma_BdSetId bd_ptr 0;;
      BdCsumDisable bd_ptr;;
      XAxiDma_BdSetCtrl bd_ptr 0;;
      send_frags r bd_ptr frags
  end.

(** Programs the descriptors for a socket buffer, from the first one. *)
Definition send_fill (r : XAxiDma_BdRing) (skb : Z) (x : sk_buff) (bd_ptr : Z) : ST Mem unit :=
  XAxiDma_BdSetBufAddr bd_ptr (u32 (dma_map_single (k_data x) (k_headlen x)));;
  XAxiDma_BdSetLength bd_ptr (k_headlen x) (MaxTransferLen r);;
  XAxiDma_BdSetId bd_ptr skb;;
  (if k_partial x
   then BdCsumEnable bd_ptr;;
        BdCsumSetup bd_ptr (k_transport x) (u32 (k_transport x + k_csum_offset x))
   else BdCsumDisable bd_ptr);;
  last_bd_ptr ← send_frags r bd_ptr (k_frags x);
  if bd_ptr =? last_bd_ptr
  then XAxiDma_BdSetCtrl last_bd_ptr XAXIDMA_BD_CTRL_ALL_MASK;; mret tt
  else
    XAxiDma_BdSetCtrl bd_ptr XAXIDMA_BD_CTRL_TXSOF_MASK;;
    XAxiDma_BdSetCtrl last_bd_ptr XAXIDMA_BD_CTRL_TXEOF_MASK;;
    mret tt.

Definition axi_DmaSend_internal (skb : Z) : PT (Net D) Z :=
  x ← get_skb skb;
  r ← tx_ring;
  let total_frags := Z.of_nat (length (k_frags x)) + 1 in
  if total_frags <? TX_BD_NUM then
    let '(result, bd, r) := XAxiDma_BdRingAlloc r total_frags in
    put_tx r;;
    match bd with
    | None =>
        netif_stop_queue;;
        en_lp (fun l => l <|n_deferred := skb|>);;
        mret result
    | Some first_bd_ptr =>
        en_m (send_fill r skb x first_bd_ptr);;
        (if k_partial x then en_lp (fun l => l <|n_tx_hw_csums := u32 (n_tx_hw_csums l + 1)|>) else mret tt);;
        '(result, r) ← en_w (XAxiDma_BdRingToHw r total_frags first_bd_ptr 0);
        put_tx r;;
        if negb (result =? XST_SUCCESS) then
          netif_stop_queue;;
          en_log (NvFreeSkb skb);;
          en_m (XAxiDma_BdSetId first_bd_ptr 0);;
          en_stats (fun s => s <|tx_dropped := u32 (tx_dropped s + 1)|>);;
          en_reset;;
          mret XST_FAILURE
        else mret XST_SUCCESS
    end
  else
    en_log (NvFreeSkb skb);;
    en_stats (fun s => s <|tx_dropped := u32 (tx_dropped s + 1)|>);;
    mret XST_FAILURE.

Definition axi_send (skb : Z) : PT (Net D) Z := axi_DmaSend_internal skb;; mret 0.

Definition axi_tx_timeout : PT (Net D) unit :=
  en_stats (fun s => s <|tx_errors := u32 (tx_errors s + 1)|>);;
  axi_reset.

(** ** Completed transmissions *)

(** The [do ... while] over the [n] descriptors of a completed set. *)
Fixpoint send_done_loop (r : XAxiDma_BdRing) (n : nat) (BdCurPtr : Z) : PT (Net D) unit :=
  match n with
  | O => mret tt
  | S n =>
      m ← en_get (fun e => w_mem (e_w e));
      let len := XAxiDma_BdGetLength m BdCurPtr (MaxTransferLen r) in
      en_log (NvUnmap (XAxiDma_BdGetBufAddr m BdCurPtr) len DMA_TO_DEVICE);;
      let skb := XAxiDma_BdGetId m BdCurPtr in
      (if negb (skb =? 0) then en_log (NvFreeSkb skb) else mret tt);;
      en_m (XAxiDma_BdSetId BdCurPtr 0);;
      en_stats (fun s => s <|tx_bytes := u32 (tx_bytes s + len)|>);;
      m ← en_get (fun e => w_mem (e_w e));
      (if tst (XAxiDma_BdGetCtrl m BdCurPtr) XAXIDMA_BD_CTRL_TXEOF_MASK
       then en_stats (fun s => s <|tx_packets := u32 (tx_packets s + 1)|>) else mret tt);;
      send_done_loop r n (XAxiDma_mBdRingNext r BdCurPtr)
  end.

(** The [while] loop: the last [bd_processed_save], or the failure of
    [XAxiDma_BdRingFree].  [n] bounds the iterations. *)
Fixpoint send_done (n : nat) (bd_processed_save : Z) : PT (Net D) (option Z) :=
  match n with
  | O => en_fails
  | S n =>
      r ← tx_ring;
      m ← en_get (fun e => w_mem (e_w e));
      let '(bd_processed, BdPtr, r) := XAxiDma_BdRingFromHw m r TX_BD_NUM in
      put_tx r;;
      if bd_processed <=? 0 then mret (Some bd_processed_save)
      else
      send_done_loop r (Z.to_nat bd_processed) BdPtr;;
      r ← tx_ring;
      let '(result, r) := XAxiDma_BdRingFree r bd_processed BdPtr in
      put_tx r;;
      if negb (result =? XST_SUCCESS) then en_reset;; mret None
      else send_done n bd_processed
  end.

(** [junk] is the value of the uninitialised [bd_processed_save]. *)
Definition DmaSendHandlerBH_netdev (junk : Z) : PT (Net D) unit :=
  r ← tx_ring;
  saved ← send_done (S (Z.to_nat (HwCnt r))) junk;
  match saved with
  | None => mret tt
  | Some bd_processed_save =>
      deferred_skb ← en_get (fun e => n_deferred (e_lp e));
      result ← (if negb (deferred_skb =? 0) && negb (bd_processed_save =? 0)
                then en_lp (fun l => l <|n_deferred := 0|>);; axi_DmaSend_internal deferred_skb
                else mret XST_SUCCESS);
      if result =? XST_SUCCESS then netif_wake_queue else mret tt
  end.

(** The bottom half, for this interface. *)
Definition DmaSendHandlerBH (junk : Z) : PT (Net D) unit :=
  lp ← en_get e_lp;
  if negb (n_sent lp) then mret tt
  else
  en_lp (fun l => l <|n_sent := false|>);;
  DmaSendHandlerBH_netdev junk;;
  r ← tx_ring;
  en_w (XAxiDma_mBdRingIntEnable r XAXIDMA_IRQ_ALL_MASK).

(** ** Reception *)

(** One received descriptor: the socket buffer, filled in. *)
Definition recv_skb (x : sk_buff) (skb len csum : Z) : sk_buff * bool :=
  let x := x <|k_len := k_len x + len - XTE_HDR_SIZE|> <|k_ip_summed := CHECKSUM_NONE|> in
  if eth_type_ip skb && (64 <? k_len x)
  then (x <|k_csum := csum|> <|k_ip_summed := CHECKSUM_COMPLETE|>, true)
  else (x, false).

Fixpoint recv_loop (r : XAxiDma_BdRing) (n : nat) (BdCurPtr : Z) (sk_buff_list : list Z) : PT (Net D) (list Z) :=
  match n with
  | O => mret sk_buff_list
  | S n =>
      m ← en_get (fun e => w_mem (e_w e));
      let len := BdGetRxLen m BdCurPtr in
      let skb := XAxiDma_BdGetId m BdCurPtr in
      size ← en_get (fun e => n_frame_size (e_lp e));
      en_log (NvUnmap (XAxiDma_BdGetBufAddr m BdCurPtr) size DMA_FROM_DEVICE);;
      en_m (XAxiDma_BdSetId BdCurPtr 0);;
      x ← get_skb skb;
      let '(x, csummed) := recv_skb x skb len (BdCsumGet m BdCurPtr) in
      en_upd (fun e => e <|e_skbs := <[skb := x]> (e_skbs e)|>);;
      (if csummed then en_lp (fun l => l <|n_rx_hw_csums := u32 (n_rx_hw_csums l + 1)|>) else mret tt);;
      en_stats (fun s => s <|rx_packets := u32 (rx_packets s + 1)|> <|rx_bytes := u32 (rx_bytes s + len)|>);;
      recv_loop r n (XAxiDma_mBdRingNext r BdCurPtr) (sk_buff_list ++ [skb])
  end.

Definition DmaRecvHandlerBH_netdev : PT (Net D) (list Z) :=
  r ← rx_ring;
  m ← en_get (fun e => w_mem (e_w e));
  let '(bd_processed, BdPtr, r) := XAxiDma_BdRingFromHw m r RX_BD_NUM in
  put_rx0 r;;
  if bd_processed <=? 0 then mret []
  else
  sk_buff_list ← recv_loop r (Z.to_nat bd_processed) BdPtr [];
  r ← rx_ring;
  let '(result, r) := XAxiDma_BdRingFree r bd_processed BdPtr in
  put_rx0 r;;
  if negb (result =? XST_SUCCESS) then en_reset;; mret sk_buff_list
  else mret sk_buff_list.

(** *** Refilling the receive ring *)

(** The socket buffers that [netdev_alloc_skb_ip_align] gives before it fails,
    at most [n] of them, as pairs of buffer and data. *)
Fixpoint alloc_skbs (n : nat) (allocs : list (Z * Z)) : list (Z * Z) :=
  match n, allocs with
  | S n, (skb, data) :: allocs => if skb =? 0 then [] else (skb, data) :: alloc_skbs n allocs
  | _, _ => []
  end.

(** The [while] loop over the queued buffers. *)
Fixpoint recv_fill (r : XAxiDma_BdRing) (frame_size BdCurPtr : Z) (skbs : list (Z * Z)) : ST Mem unit :=
  match skbs with
  | [] => mret tt
  | (new_skb, data) :: skbs =>
      XAxiDma_BdSetBufAddr BdCurPtr (u32 (dma_map_single data frame_size));;
      XAxiDma_BdSetLength BdCurPtr frame_size (MaxTransferLen r);;
      XAxiDma_BdSetId BdCurPtr new_skb;;
      XAxiDma_BdSetCtrl BdCurPtr (XAXIDMA_BD_STS_RXSOF_MASK .| XAXIDMA_BD_STS_RXEOF_MASK);;
      recv_fill r frame_size (XAxiDma_mBdRingNext r BdCurPtr) skbs
  end.

Fixpoint clear_ids (r : XAxiDma_BdRing) (n : nat) (BdCurPtr : Z) : ST Mem unit :=
  match n with
  | O => mret tt
  | S n => XAxiDma_BdSetId BdCurPtr 0;; clear_ids r n (XAxiDma_mBdRingNext r BdCurPtr)
  end.

Definition new_skb (data : Z) : sk_buff := mkSkb data 0 [] false 0 0 0 0 0.

Definition axi_DmaSetupRecvBuffers (allocs : list (Z * Z)) : PT (Net D) unit :=
  r ← rx_ring;
  size ← en_get (fun e => n_frame_size (e_lp e));
  let skbs := alloc_skbs (Z.to_nat (XAxiDma_mBdRingGetFreeCnt r)) allocs in
  en_upd (fun e => e <|e_skbs := foldl (fun s p => <[p.1 := new_skb p.2]> s) (e_skbs e) skbs|>);;
  let num_sk_buffs := Z.of_nat (length skbs) in
  if num_sk_buffs =? 0 then mret tt
  else
  let '(result, bd, r) := XAxiDma_BdRingAlloc r num_sk_buffs in
  put_rx0 r;;
  match bd with
  | None =>
      mapM (fun p => en_log (NvFreeSkb p.1)) skbs;;
      en_reset
  | Some BdPtr =>
      en_m (recv_fill r size BdPtr skbs);;
      '(result, r) ← en_w (XAxiDma_BdRingToHw r num_sk_buffs BdPtr 0);
      put_rx0 r;;
      if negb (result =? XST_SUCCESS) then
        en_m (clear_ids r (length skbs) BdPtr);;
        en_reset
      else mret tt
  end.

(** *** Polling *)

(** The [while] loop that passes the received buffers on. *)
Fixpoint deliver (lro : bool) (skbs : list Z) : PT (Net D) unit :=
  match skbs with
  | [] => mret tt
  | skb :: skbs => en_log (NvReceive skb lro);; deliver lro skbs
  end.

Definition axi_rx_clean (allocs : list (Z * Z)) : PT (Net D) Z :=
  sk_buff_list ← DmaRecvHandlerBH_netdev;
  lro ← en_get (fun e => n_lro_norm (e_lp e));
  deliver lro sk_buff_list;;
  let done := Z.of_nat (length sk_buff_list) in
  (if lro && (0 <? done) then en_log NvLroFlush else mret tt);;
  (if negb (done =? 0) then axi_DmaSetupRecvBuffers allocs else mret tt);;
  mret done.

Definition axi_poll (allocs : list (Z * Z)) (budget : Z) : PT (Net D) Z :=
  work_done ← axi_rx_clean allocs;
  (if work_done <? u32 budget then
     r ← rx_ring;
     en_lp (fun l => l <|n_napi_sched := false|>);;
     en_w (XAxiDma_mBdRingIntEnable r XAXIDMA_IRQ_ALL_MASK)
   else mret tt);;
  mret work_done.

Definition axi_poll_isr : PT (Net D) unit :=
  axi_interrupt;;
  now ← en_get e_now;
  en_lp (fun l => l <|n_poll_timer := mod_timer (u32 (now + HZ))|>).

(** ** Opening and closing *)

Definition axi_irq_free : PT (Net D) Z := en_log NvFreeIrq;; mret 0.

(** [res] is the answer of the interrupt's owner. *)
Definition axi_irq_setup (res : Z) : PT (Net D) Z := en_log NvRequestIrq;; mret res.

Definition axi_open (irq_res : Z) : PT (Net D) Z :=
  netif_stop_queue;;
  en_lp (fun l => l <|n_sent := false|>);;
  base ← en_get (fun e => n_reg_base (e_lp e));
  en_w (axitemac_start base);;
  axi_irq_setup irq_res;;
  r ← tx_ring;
  '(res, r) ← en_wp (XAxiDma_BdRingStart r 0);
  put_tx r;;
  if res =? XST_FAILURE then mret (- EIO)
  else
  r ← rx_ring;
  '(res, r) ← en_wp (XAxiDma_BdRingStart r 0);
  put_rx0 r;;
  if res =? XST_FAILURE then mret (- EIO)
  else
  netif_wake_queue;;
  napi_enable;;
  now ← en_get e_now;
  en_lp (fun l => l <|n_poll_timer := mod_timer (u32 (now + 1 * HZ))|>);;
  mret 0.

Definition axi_close : PT (Net D) Z :=
  netif_stop_queue;;
  base ← en_get (fun e => n_reg_base (e_lp e));
  en_w (AxiDma_Stop (u32 (base + AXI_DMA_REG)));;
  en_lp (fun l => l <|n_poll_timer := del_timer (n_poll_timer l)|>);;
  en_w (axitemac_stop base);;
  axi_irq_free;;
  en_lp (fun l => l <|n_napi_on := false|>);;
  en_lp (fun l => l <|n_sent := false|>);;
  mret 0.

Definition axi_get_stats : PT (Net D) net_stats := en_get (fun e => n_stats (e_lp e)).

(** ** Setting up and tearing down *)

(** [tx] and [rx] are what [dma_alloc_coherent] returned. *)
Definition descriptor_init (tx rx : Z * Z) (allocs : list (Z * Z)) : PT (Net D) Z :=
  en_lp (fun l => l <|n_tx_bd := tx|>
    <|n_tx_bd_size := XAxiDma_mBdRingMemCalc XAXIDMA_BD_MINIMUM_ALIGNMENT TX_BD_NUM|>);;
  en_lp (fun l => l <|n_rx_bd := rx|>
    <|n_rx_bd_size := XAxiDma_mBdRingMemCalc XAXIDMA_BD_MINIMUM_ALIGNMENT RX_BD_NUM|>);;
  r ← tx_ring;
  '(result, r) ← en_m (XAxiDma_BdRingCreate r tx.2 tx.1 XAXIDMA_BD_MINIMUM_ALIGNMENT TX_BD_NUM);
  put_tx r;;
  if negb (result =? XST_SUCCESS) then mret (- EIO)
  else
  r ← rx_ring;
  '(result, r) ← en_m (XAxiDma_BdRingCreate r rx.2 rx.1 XAXIDMA_BD_MINIMUM_ALIGNMENT RX_BD_NUM);
  put_rx0 r;;
  if negb (result =? XST_SUCCESS) then mret (- EIO)
  else
  axi_DmaSetupRecvBuffers allocs;;
  mret XST_SUCCESS.

(** One of the two loops of [free_descriptor_skb]; [len] is the mapped length
    of a descriptor's buffer. *)
Fixpoint free_skb_loop (r : XAxiDma_BdRing) (len : Mem -> Z -> Z) (dir : Z) (n : nat) (BdPtr : Z)
  : PT (Net D) unit :=
  match n with
  | O => mret tt
  | S n =>
      m ← en_get (fun e => w_mem (e_w e));
      let skb := XAxiDma_BdGetId m BdPtr in
      (if negb (skb =? 0)
       then en_log (NvUnmap (XAxiDma_BdGetBufAddr m BdPtr) (len m BdPtr) dir);; en_log (NvFreeSkb skb)
       else mret tt);;
      free_skb_loop r len dir n (XAxiDma_mBdRingNext r BdPtr)
  end.

Definition free_descriptor_skb : PT (Net D) unit :=
  rx ← rx_ring;
  tx ← tx_ring;
  lp ← en_get e_lp;
  free_skb_loop rx (fun _ _ => n_frame_size lp) DMA_FROM_DEVICE (Z.to_nat RX_BD_NUM) (FirstBdAddr rx);;
  free_skb_loop tx (fun m bd => XAxiDma_BdGetLength m bd (MaxTransferLen tx)) DMA_TO_DEVICE
    (Z.to_nat TX_BD_NUM) (FirstBdAddr tx);;
  (if negb ((n_tx_bd lp).1 =? 0) then en_log (NvFreeCoherent (n_tx_bd lp) (n_tx_bd_size lp)) else mret tt);;
  (if negb ((n_rx_bd lp).1 =? 0) then en_log (NvFreeCoherent (n_rx_bd lp) (n_rx_bd_size lp)) else mret tt).

Definition axi_remove_ndev : PT (Net D) unit :=
  rx ← rx_ring;
  tx ← tx_ring;
  lp ← en_get e_lp;
  en_w (XAxiDma_mBdRingIntDisable rx XAXIDMA_IRQ_ALL_MASK);;
  en_w (XAxiDma_mBdRingIntDisable tx XAXIDMA_IRQ_ALL_MASK);;
  en_lp (fun l => l <|n_poll_timer := del_timer (n_poll_timer l)|>);;
  en_w (axitemac_stop (n_reg_base lp));;
  en_w (axitemac_exit (n_reg_base lp));;
  en_w (AxiDma_Stop (u32 (n_reg_base lp + AXI_DMA_REG)));;
  free_descriptor_skb;;
  en_log (NvIounmap (n__reg_base lp));;
  en_log NvFreeNetdev.

(** ** The station address *)

(** A unicast address that is not all zero. *)
Definition is_valid_ether_addr (a : list Z) : bool :=
  negb (tst (nth 0 a 0) 1) && negb (forallb (fun b => b =? 0) a).

(** [up] is [IFF_UP] and [random] what [random_ether_addr] gives. *)
Definition axi_set_mac_address (up : bool) (address : option (list Z)) (random : list Z) : PT (Net D) unit :=
  if up then mret tt
  else
  en_lp (fun l => match address with Some a => l <|n_dev_addr := take 6 a|> | None => l end);;
  en_lp (fun l => if is_valid_ether_addr (n_dev_addr l) then l else l <|n_dev_addr := random|>).

Definition netdev_set_mac_address (up : bool) (sa_data random : list Z) : PT (Net D) Z :=
  axi_set_mac_address up (Some sa_data) random;; mret 0.

(** The part of probing that both kinds of devices share; [reg_res] is the
    result of [register_netdev], [random] a random station address. *)
Definition eth_probe_common (random : list Z) (tx rx : Z * Z) (allocs : list (Z * Z)) (reg_res : Z)
  : PT (Net D) Z :=
  en_lp (fun l => if XTE_JUMBO_MTU <? n_mtu l then l <|n_mtu := XTE_JUMBO_MTU|> else l);;
  en_lp (fun l => l <|n_frame_size := n_mtu l + XTE_HDR_SIZE + XTE_TRL_SIZE|> <|n_lro_norm := false|>);;
  lp ← en_get e_lp;
  en_w (axitemac_init (n_reg_base lp));;
  en_w (axitemac_stop (n_reg_base lp));;
  axi_set_mac_address false None random;;
  '(err, a) ← en_w (XAxiDma_CfgInitialize (n_AxiDma lp) (Some (AxiDma_Config (u32 (n_reg_base lp + AXI_DMA_REG)))));
  en_lp (fun l => l <|n_AxiDma := a|>);;
  if negb (err =? XST_SUCCESS) then mret (-11)
  else if negb (XAxiDma_HasSg a) then mret (-2)
  else
  err ← descriptor_init tx rx allocs;
  if negb (err =? XST_SUCCESS) then mret (-1)
  else
  rx ← rx_ring;
  tx ← tx_ring;
  en_w (XAxiDma_BdRingSetCoalesce tx DFT_TX_THRESHOLD DFT_TX_WAITBOUND);;
  en_w (XAxiDma_mBdRingIntEnable tx XAXIDMA_IRQ_ALL_MASK);;
  en_w (XAxiDma_BdRingSetCoalesce rx DFT_RX_THRESHOLD DFT_RX_WAITBOUND);;
  en_w (XAxiDma_mBdRingIntEnable rx XAXIDMA_IRQ_ALL_MASK);;
  en_lp (fun l => l <|n_lro_norm := true|> <|n_tx_hw_csums := 0|> <|n_rx_hw_csums := 0|>);;
  en_log NvNapiAdd;;
  en_log NvRegister;;
  if negb (reg_res =? 0) then mret (-1) else mret 0.

(** An interface structure as [alloc_etherdev] clears it, with its MTU. *)
Definition net_local_zero (mtu : Z) : net_local :=
  mkLocal 0 0 XAxiDma_zero mtu 0 0 (mkStats 0 0 0 0 0 0) (0, 0) 0 (0, 0) 0 0 0 false (mkTimer false 0)
    false false false false [0; 0; 0; 0; 0; 0].

(** The card's own function.  The arguments are the kernel's answers:
    [alloc_etherdev], [pci_enable_device], [pci_request_regions], the DMA masks
    and [ioremap]. *)
Definition axi_probe (alloc : bool) (mtu enable regions : Z) (mask cmask : Z -> Z) (ioremap : Z)
  (random : list Z) (tx rx : Z * Z) (allocs : list (Z * Z)) (reg_res : Z) : PT (Net D) Z :=
  let error := axi_remove_ndev;; mret XST_FAILURE in
  if negb alloc then mret XST_FAILURE
  else
  en_lp (fun _ => net_local_zero mtu);;
  en_log NvEnableDevice;;
  if negb (enable =? 0) then mret enable
  else
  en_log (NvSetDrvdata true);;
  en_log NvRequestRegions;;
  if negb (regions =? 0) then error
  else
  en_log NvSetMaster;;
  let err := if mask 64 =? 0 then cmask 64 else if mask 32 =? 0 then cmask 32 else mask 32 in
  if negb (err =? 0) then error
  else if ioremap =? 0 then error
  else
  en_lp (fun l => l <|n__reg_base := ioremap|> <|n_reg_base := u32 (ioremap + 0x10000)|>);;
  err ← eth_probe_common random tx rx allocs reg_res;
  if negb (err =? 0) then error else mret XST_SUCCESS.

Definition axi_remove : PT (Net D) unit :=
  en_log NvUnregister;;
  axi_remove_ndev;;
  en_log NvReleaseRegions;;
  en_log (NvSetDrvdata false);;
  en_log NvDisableDevice.

(** A function of the virtual PCI bus; [start] is its register window. *)
Definition eth_probe (alloc : bool) (mtu start : Z) (random : list Z) (tx rx : Z * Z) (allocs : list (Z * Z))
  (reg_res : Z) : PT (Net D) Z :=
  let error := axi_remove_ndev;; mret (-1) in
  if negb alloc then mret (-1)
  else
  en_lp (fun _ => net_local_zero mtu);;
  en_log (NvSetDrvdata true);;
  en_lp (fun l => l <|n_reg_base := start|>);;
  if start =? 0 then error
  else
  err ← eth_probe_common random tx rx allocs reg_res;
  if negb (err =? 0) then error else mret 0.

Definition eth_remove : PT (Net D) Z :=
  en_log NvUnregister;;
  axi_remove_ndev;;
  en_log (NvSetDrvdata false);;
  mret 0.

(** Loading the module, for this interface: the queue of the bottom half is
    empty; what the registrations return is not looked at. *)
Definition axi_init : PT (Net D) Z :=
  en_lp (fun l => l <|n_sent := false|>);;
  en_log NvRegisterPci;;
  en_log NvRegisterVpci;;
  mret 0.

Definition axi_exit : PT (Net D) unit :=
  en_log NvUnregisterPci;;
  en_log NvUnregisterVpci.

End eth.

(** ** Frame headers *)

Definition IPPROTO_TCP : Z := 6.

(** [axi_get_skb_header]: whether large receive offload may take a frame.  The
    arguments are what the frame's headers say: protocol, checksum state, IP
    protocol, total length and the two header lengths. *)
Definition axi_get_skb_header (is_ip : bool) (ip_summed protocol tot_len ip_len tcp_len : Z) : Z :=
  if negb is_ip then -1
  else if negb (ip_summed =? CHECKSUM_COMPLETE) then -1
  else if negb (protocol =? IPPROTO_TCP) then -1
  else if tot_len <? ip_len + tcp_len then -1
  else 0.
