(* ===== verification/EthProps.v ===== *)
(** * Properties of the Ethernet driver

    Checksum words, refilling the receive ring and taking received frames off
    it. *)

From S2P Require Import Prelude Kernel Hw Bd BdRing RingGeom RingSpec RingHw RingCreate RingStart RingSys RingClient Dma DmaBuf AesDma AesProps AesThms Temac EthDma.

(** ** Checksum offload *)

Lemma csum_enabled m bd : BdCsumEnabled (st_out (BdCsumEnable bd) m) bd = 1.
Proof.
  unfold BdCsumEnabled, BdCsumEnable, st_out. pose proof (BdRead_Write_eq m bd XAXIDMA_BD_USR0_OFFSET) as R.
  unfold st_out in R. rewrite R. set (v0 := XAxiDma_BdRead m bd XAXIDMA_BD_USR0_OFFSET).
  rewrite (u32_small ((v0 .| 1) .& 4294967295)) by (apply is_u32_land_r; unfold is_u32; lia).
  rewrite <- Z.land_assoc, Z.land_lor_distr_l. change (4294967295 .& 1) with 1. change (1 .& 1) with 1.
  change 1 with (Z.ones 1) at 1. rewrite Z.land_ones by lia.
  pose proof (Z.mod_pos_bound v0 (2 ^ 1) ltac:(lia)). assert (v0 mod 2 ^ 1 = 0 \/ v0 mod 2 ^ 1 = 1) as [-> | ->] by lia; done.
Qed.

Lemma csum_disabled m bd : BdCsumEnabled (st_out (BdCsumDisable bd) m) bd = 0.
Proof.
  unfold BdCsumEnabled, BdCsumDisable, st_out. pose proof (BdRead_Write_eq m bd XAXIDMA_BD_USR0_OFFSET) as R.
  unfold st_out in R. rewrite R, u32_small by auto with drv.
  rewrite <- Z.land_assoc. change (4294967292 .& 1) with 0. apply Z.land_0_r.
Qed.

(** The set-up word gives back the start offset and the insertion offset. *)
Lemma csum_setup m bd Start Insert : 0 <= Start < 65536 -> 0 <= Insert < 65536 ->
  let m' := st_out (BdCsumSetup bd Start Insert) m in
  Z.shiftr (XAxiDma_BdRead m' bd XAXIDMA_BD_USR1_OFFSET) 16 = Start /\ BdCsumInsert m' bd = Insert.
Proof.
  intros HS HI. cbv zeta. unfold BdCsumInsert, BdCsumSetup.
  pose proof (BdRead_Write_eq m bd XAXIDMA_BD_USR1_OFFSET) as R1. unfold st_out in *. rewrite !R1.
  assert (Es : u32 (Z.shiftl Start 16) = Z.shiftl Start 16).
  { apply u32_small. unfold is_u32. rewrite Z.shiftl_mul_pow2 by lia. lia. }
  assert (HI32 : is_u32 Insert) by (unfold is_u32; lia).
  rewrite (u32_small (_ .| Insert)), Es by auto with drv. split.
  - rewrite Z.shiftr_lor, Z.shiftr_shiftl_l, Z.shiftl_0_r by lia. rewrite (Z.shiftr_div_pow2 Insert) by lia.
    rewrite Z.div_small by lia. apply Z.lor_0_r.
  - rewrite Z.land_lor_distr_l. change 65535 with (Z.ones 16). rewrite !Z.land_ones by lia.
    rewrite Z.shiftl_mul_pow2, Z.mod_mul, Z.lor_0_l by lia. apply Z.mod_small. lia.
Qed.

(** The checksum words of a descriptor.  Enabling sets and disabling clears
    the enable bit and keeps the word's other control bits; the set-up word gives
    back the insertion offset, and its upper half the start offset. *)
Theorem eth_csum_words m bd Start Insert : 0 <= Start < 65536 -> 0 <= Insert < 65536 ->
  BdCsumEnabled (st_out (BdCsumEnable bd) m) bd = 1 /\
  BdCsumEnabled (st_out (BdCsumDisable bd) m) bd = 0 /\
  (forall i, 2 <= i < 32 -> Z.testbit (XAxiDma_BdRead (st_out (BdCsumDisable bd) m) bd XAXIDMA_BD_USR0_OFFSET) i =
     Z.testbit (XAxiDma_BdRead m bd XAXIDMA_BD_USR0_OFFSET) i) /\
  let m' := st_out (BdCsumSetup bd Start Insert) m in
  Z.shiftr (XAxiDma_BdRead m' bd XAXIDMA_BD_USR1_OFFSET) 16 = Start /\ BdCsumInsert m' bd = Insert.
Proof.
  intros HS HI. split; [apply csum_enabled|]. split; [apply csum_disabled|]. split; [|by apply csum_setup].
  unfold BdCsumDisable, st_out.
  assert (Hu : is_u32 (XAxiDma_BdRead m bd XAXIDMA_BD_USR0_OFFSET)) by auto with drv.
  set (v0 := XAxiDma_BdRead m bd XAXIDMA_BD_USR0_OFFSET) in *.
  pose proof (BdRead_Write_eq m bd XAXIDMA_BD_USR0_OFFSET) as R0. unfold st_out in R0. rewrite !R0.
  rewrite (u32_small (v0 .& 4294967292)) by auto with drv.
  intros i Hi. rewrite Z.land_spec. replace (Z.testbit 4294967292 i) with true; [apply andb_true_r|].
  change 4294967292 with (Z.shiftl (Z.ones 30) 2). rewrite Z.shiftl_spec, Z.ones_spec_low by lia. done.
Qed.

Lemma eth_csum_words_witness : BdCsumInsert (st_out (BdCsumSetup 0x1000 34 50) ∅) 0x1000 = 50.
Proof.
  exact (proj2 (proj2 (proj2 (proj2 (eth_csum_words ∅ 0x1000 34 50 ltac:(lia) ltac:(lia)))))).
Defined.

(** ** Refilling the receive ring *)

Section fill.
Context (dma_map_single : Z -> Z -> Z).

Definition recv_ctrl : Z := XAXIDMA_BD_STS_RXSOF_MASK .| XAXIDMA_BD_STS_RXEOF_MASK.

(** One buffer. *)
Definition recv_one (r : XAxiDma_BdRing) (size bd skb data : Z) : ST Mem unit :=
  XAxiDma_BdSetBufAddr bd (u32 (dma_map_single data size));;
  XAxiDma_BdSetLength bd size (MaxTransferLen r);;
  XAxiDma_BdSetId bd skb;;
  XAxiDma_BdSetCtrl bd recv_ctrl.

Lemma recv_one_spec r size bd skb data n m : bd_ok bd -> 0 <= n <= 26 -> MaxTransferLen r = Z.ones n ->
  seg_fits m n bd (u32 (dma_map_single data size), size) ->
  let m' := st_out (recv_one r size bd skb data) m in
  filled m' bd n skb (u32 (dma_map_single data size), size) /\ fill_frame [bd] m m'.
Proof.
  set (addr := u32 (dma_map_single data size)). intros Hok Hn HM [Hlen Hbuf]. cbn [fst snd] in *.
  cbv zeta. unfold recv_one. fold addr. rewrite HM. st.
  destruct (BdSetBufAddr_ok m bd addr Hok Hbuf) as (_ & B1 & F1).
  set (m1 := st_out (XAxiDma_BdSetBufAddr bd addr) m) in *.
  destruct (BdSetLength_ok m1 bd size n Hok Hn Hlen) as (_ & L2 & _ & F2).
  set (m2 := st_out (XAxiDma_BdSetLength bd size (Z.ones n)) m1) in *.
  pose proof (word_frame_write bd XAXIDMA_BD_ID_OFFSET (u32 skb) m2 Hok ltac:(auto with drv)) as F3.
  fold (XAxiDma_BdSetId bd skb) in F3. set (m3 := st_out (XAxiDma_BdSetId bd skb) m2) in *.
  destruct (BdSetCtrl_ok m3 bd recv_ctrl n Hok Hn ltac:(vm_compute; split; congruence)) as (_ & L4 & F4).
  set (m4 := st_out (XAxiDma_BdSetCtrl bd recv_ctrl) m3) in *. split.
  - split; cbn [fst snd].
    + rewrite <- B1. unfold XAxiDma_BdGetBufAddr.
      rewrite (word_frame_read _ _ _ _ _ F4), (word_frame_read _ _ _ _ _ F3), (word_frame_read _ _ _ _ _ F2); auto with drv.
    + rewrite L4, <- L2. unfold XAxiDma_BdGetLength. rewrite (word_frame_read _ _ _ _ _ F3); auto with drv.
    + unfold XAxiDma_BdGetId. rewrite (word_frame_read _ _ _ _ _ F4) by auto with drv.
      unfold m3, XAxiDma_BdSetId. st. apply u32_idemp.
  - eapply fill_frame_trans; [eapply fill_frame_word; [by left|exact F1|auto]|].
    eapply fill_frame_trans; [eapply fill_frame_word; [by left|exact F2|auto]|].
    eapply fill_frame_trans; [eapply fill_frame_word; [by left|exact F3|auto]|].
    eapply fill_frame_word; [by left|exact F4|auto].
Qed.

(** The loop over the buffers, from index [i]. *)
Lemma recv_fill_spec r (G : geom r) n size : 0 <= n <= 26 -> MaxTransferLen r = Z.ones n -> forall skbs i m,
  zlen skbs <= AllCnt r ->
  (forall k p, skbs !! k = Some p -> seg_fits m n (bd_at r (i + Z.of_nat k)) (u32 (dma_map_single p.2 size), size)) ->
  let m' := st_out (recv_fill dma_map_single r size (bd_at r i) skbs) m in
  (forall k p, skbs !! k = Some p ->
     filled m' (bd_at r (i + Z.of_nat k)) n p.1 (u32 (dma_map_single p.2 size), size)) /\
  fill_frame (grp r i (zlen skbs)) m m'.
Proof.
  intros Hn HM. induction skbs as [|[skb data] skbs IH]; intros i m Hz Hfit.
  { cbn. split; [by intros|apply fill_frame_refl]. }
  assert (Hlen : zlen ((skb, data) :: skbs) = zlen skbs + 1) by (unfold zlen; cbn [length]; lia).
  assert (Hpos : 0 <= zlen skbs) by (unfold zlen; lia).
  pose proof (Hfit 0%nat (skb, data) eq_refl) as Hf0. rewrite Z.add_0_r in Hf0. cbn [snd] in Hf0.
  destruct (recv_one_spec r size (bd_at r i) skb data n m (bd_at_ok r G i) Hn HM Hf0) as [F1 Fr1].
  cbn [recv_fill]. change (XAXIDMA_BD_STS_RXSOF_MASK .| XAXIDMA_BD_STS_RXEOF_MASK) with recv_ctrl.
  cbv zeta. set (m1 := st_out (recv_one r size (bd_at r i) skb data) m) in *.
  match goal with |- context [st_out ?k m] =>
    replace (st_out k m) with (st_out (recv_fill dma_map_single r size (XAxiDma_mBdRingNext r (bd_at r i)) skbs) m1)
      by (unfold m1, recv_one; st; done) end.
  rewrite mBdRingNext_at by done.
  assert (Hin : forall bd, bd ∈ [bd_at r i] -> in_ring r bd) by (intros b ->%list_elem_of_singleton; by eexists).
  destruct (IH (i + 1) m1) as [IF IFr]; [lia| |].
  { intros k p Hk. destruct (Hfit (S k) p Hk) as [Q1 Q2]. replace (i + 1 + Z.of_nat k) with (i + Z.of_nat (S k)) by lia.
    split; [exact Q1|]. rewrite <- Q2. apply buf_ok_same.
    eapply (fill_frame_read r G); eauto using dre_no_transfer with drv. }
  assert (Hnot : bd_at r i ∉ grp r (i + 1) (zlen skbs)).
  { replace (zlen skbs) with (zlen skbs + 1 - 1) by lia. apply grp_head_notin; [done|lia]. }
  set (m2 := st_out (recv_fill _ _ _ _ _) m1) in *. split.
  - intros [|k] p Hk; cbn in Hk.
    + injection Hk as <-. rewrite Z.add_0_r. destruct F1 as [B L I].
      split; unfold XAxiDma_BdGetBufAddr, XAxiDma_BdGetLength, XAxiDma_BdGetId in *;
        rewrite (fill_frame_read r G _ m1 m2 i _ IFr) by eauto using grp_in_ring with drv; done.
    + replace (i + Z.of_nat (S k)) with (i + 1 + Z.of_nat k) by lia. by apply IF.
  - rewrite Hlen, grp_cons by lia. replace (zlen skbs + 1 - 1) with (zlen skbs) by lia.
    eapply fill_frame_trans; (eapply fill_frame_incl; [|eassumption]); set_solver.
Qed.

End fill.

(** The status words that a commit clears are no transfer words. *)
Lemma filled_sts r (G : geom r) l m m' j n sw seg : sts_frame l m m' ->
  (forall bd, bd ∈ l -> in_ring r bd) -> filled m (bd_at r j) n sw seg -> filled m' (bd_at r j) n sw seg.
Proof.
  intros F Hl [B L I].
  assert (K : forall o, bd_off o -> o <> XAXIDMA_BD_STS_OFFSET ->
    XAxiDma_BdRead m' (bd_at r j) o = XAxiDma_BdRead m (bd_at r j) o).
  { intros. eapply sts_frame_read; eauto. }
  split; unfold XAxiDma_BdGetBufAddr, XAxiDma_BdGetLength, XAxiDma_BdGetId in *; rewrite K by auto with drv; done.
Qed.

Lemma alloc_skbs_length n : forall allocs, (length (alloc_skbs n allocs) <= n)%nat.
Proof.
  induction n as [|n IH]; intros [|[skb data] allocs]; cbn; try lia.
  destruct (skb =? 0); cbn; [lia|]. specialize (IH allocs). lia.
Qed.

Section run.
Context {D : Type} `{!RegBus D}.

Lemma en_w_eq {A} (m : ST (World D) A) (e : Net D) :
  en_w m e = Some (st_val m (e_w e), e <|e_w := st_out m (e_w e)|>).
Proof. done. Qed.

Lemma en_m_eq {A} (m : ST Mem A) (e : Net D) :
  en_m m e = Some (st_val m (w_mem (e_w e)), e <|e_w := mkWorld (st_out m (w_mem (e_w e))) (w_dev (e_w e))|>).
Proof. unfold en_m. by rewrite en_w_eq, on_mem_val, on_mem_out. Qed.

Lemma lp_of_w (e : Net D) w : e_lp (e <|e_w := w|>) = e_lp e.
Proof. done. Qed.

Lemma get_put_rx0 a r : 0 < zlen (RxBdRing a) -> XAxiDma_GetRxRing (put_rx a 0 r) 0 = r.
Proof.
  unfold zlen. intros H. unfold XAxiDma_GetRxRing, put_rx. cbn. by rewrite list_lookup_insert_eq by lia.
Qed.

End run.

(** The buffers that a refill uses, and what it leaves. *)
Definition refill_skbs {D} (allocs : list (Z * Z)) (e : Net D) : list (Z * Z) :=
  alloc_skbs (Z.to_nat (FreeCnt (XAxiDma_GetRxRing (n_AxiDma (e_lp e)) 0))) allocs.

Record refilled {D} (map : Z -> Z -> Z) (n : Z) (allocs : list (Z * Z)) (e e' : Net D) (i : Z) : Prop := {
  rf_ring : let r := XAxiDma_GetRxRing (n_AxiDma (e_lp e)) 0 in let a := ring_abs r in
    let k := zlen (refill_skbs allocs e) in
    sim r (XAxiDma_GetRxRing (n_AxiDma (e_lp e')) 0)
      (mkARing (zdrop k (a_free a)) [] (a_hw a ++ grp r i k) (a_post a)) /\
    ztake k (a_free a) = grp r i k;
  rf_bds : let r := XAxiDma_GetRxRing (n_AxiDma (e_lp e)) 0 in let size := n_frame_size (e_lp e) in
    forall k p, refill_skbs allocs e !! k = Some p ->
    filled (w_mem (e_w e')) (bd_at r (i + Z.of_nat k)) n p.1 (u32 (map p.2 size), size);
  rf_frame : let r := XAxiDma_GetRxRing (n_AxiDma (e_lp e)) 0 in
    bds_frame (grp r i (zlen (refill_skbs allocs e))) (w_mem (e_w e)) (w_mem (e_w e'));
  rf_build : let r := XAxiDma_GetRxRing (n_AxiDma (e_lp e)) 0 in
    forall j, XAxiDma_BdRead (w_mem (e_w e')) (bd_at r j) XAXIDMA_BD_HAS_DRE_OFFSET =
              XAxiDma_BdRead (w_mem (e_w e)) (bd_at r j) XAXIDMA_BD_HAS_DRE_OFFSET;
  rf_chan : keeps_run (XAxiDma_GetRxRing (n_AxiDma (e_lp e)) 0) (XAxiDma_GetRxRing (n_AxiDma (e_lp e')) 0);
  rf_rx : zlen (RxBdRing (n_AxiDma (e_lp e'))) = zlen (RxBdRing (n_AxiDma (e_lp e)));
  rf_lp : e_lp e' = (e_lp e) <|n_AxiDma := n_AxiDma (e_lp e')|>;
  rf_tx : TxBdRing (n_AxiDma (e_lp e')) = TxBdRing (n_AxiDma (e_lp e));
  rf_skbs : e_skbs e' = foldl (fun s p => <[p.1 := new_skb p.2]> s) (e_skbs e) (refill_skbs allocs e);
  rf_log : e_log e' = e_log e;
}.

(** The commit accepts descriptors that carry the buffers. *)
Lemma recv_accepts map n size (skbs : list (Z * Z)) r i m : IsRxChannel r <> 0 -> MaxTransferLen r = Z.ones n ->
  0 < size -> 0 < zlen skbs ->
  (forall k p, skbs !! k = Some p -> filled m (bd_at r (i + Z.of_nat k)) n p.1 (u32 (map p.2 size), size)) ->
  tohw_accepts m r (grp r i (zlen skbs)) = true.
Proof.
  intros Hch HM Hsz Hk Hf. rewrite tohw_accepts_grp by done. replace (IsRxChannel r =? 0) with false by lia.
  cbn [negb orb]. rewrite andb_true_r. apply forallb_forall. intros bd (j & Hj & ->)%list_elem_of_In%elem_grp.
  destruct (lookup_lt_is_Some_2 skbs (Z.to_nat j)) as [p Hp]; [unfold zlen in Hj; lia|].
  pose proof (Hf _ _ Hp) as [_ L _]. rewrite Z2Nat.id in L by lia. cbn [snd] in L. rewrite HM, L.
  apply negb_true_iff, Z.eqb_neq. lia.
Qed.

Lemma refill_run {D} `{!RegBus D} dma_map_single allocs n (e : Net D) :
  let r := XAxiDma_GetRxRing (n_AxiDma (e_lp e)) 0 in
  let size := n_frame_size (e_lp e) in
  let skbs := refill_skbs allocs e in
  let addr data := u32 (dma_map_single data size) in
  0 < zlen (RxBdRing (n_AxiDma (e_lp e))) -> ring_wf r -> PreCnt r = 0 -> IsRxChannel r <> 0 ->
  0 <= n <= 26 -> MaxTransferLen r = Z.ones n -> skbs <> [] ->
  (forall i p, p ∈ skbs -> seg_fits (w_mem (e_w e)) n (bd_at r i) (addr p.2, size)) ->
  exists e' i, axi_DmaSetupRecvBuffers dma_map_single allocs e = Some (tt, e') /\
  refilled dma_map_single n allocs e e' i.
Proof.
  intros r size skbs addr Hrx W Hpre Hch Hn HM Hne Hfit. pose proof W as [G [p0 H0]].
  assert (Hk : 0 < zlen skbs) by (unfold zlen; destruct skbs; [done|cbn [length]; lia]).
  assert (Hle : zlen skbs <= FreeCnt r).
  { assert (Hal : (length skbs <= Z.to_nat (FreeCnt r))%nat) by apply alloc_skbs_length.
    unfold zlen. destruct H0. lia. }
  destruct (alloc_commit r (zlen skbs) W Hpre ltac:(lia)) as (i & r1 & [Ha Sg G1 Hat Hall HM1 Hrx1 Hfr Hcommit]).
  unfold axi_DmaSetupRecvBuffers.
  rewrite (pt_bind_some rx_ring _ e r e eq_refl), (pt_bind_some (en_get (fun e => n_frame_size (e_lp e))) _ e size e eq_refl).
  cbv zeta. change (XAxiDma_mBdRingGetFreeCnt r) with (FreeCnt r). change (alloc_skbs _ allocs) with skbs.
  fold (zlen skbs).
  rewrite (pt_bind_some (en_upd _) _ e tt _ eq_refl). set (e1 := e <|e_skbs := _|>).
  replace (zlen skbs =? 0) with false by lia. pose proof (alloc_keeps r (zlen skbs)) as K1. rewrite Ha in K1 |- *.
  cbn [snd] in K1. rewrite (pt_bind_some (put_rx0 r1) _ e1 tt _ eq_refl). set (e2 := e1 <|e_lp := _|>).
  rewrite (pt_bind_some _ _ _ _ _ (en_m_eq _ _)). change (w_mem (e_w e2)) with (w_mem (e_w e)).
  change (w_dev (e_w e2)) with (w_dev (e_w e)).
  destruct (recv_fill_spec dma_map_single r1 G1 n size Hn ltac:(by rewrite HM1) skbs i (w_mem (e_w e)) Hall) as [Hf Hfm].
  { intros k p Hp. rewrite Hat. apply Hfit. by eapply list_elem_of_lookup_2. }
  set (m1 := st_out (recv_fill _ _ _ _ _) (w_mem (e_w e))) in *. set (w1 := mkWorld m1 (w_dev (e_w e))).
  rewrite (pt_bind_some _ _ _ _ _ (en_w_eq _ _)). cbn [e_w set_field set_e_w].
  assert (Hsize : 0 < size).
  { destruct skbs as [|p ?]; [done|]. destruct (Hfit 0 p) as [[? _] _]; [by left|]. done. }
  destruct (Hcommit w1) as (r2 & Hrun & Fs & Hsim & _).
  { apply (recv_accepts dma_map_single n size skbs); try congruence; done. }
  rewrite Hrun. set (w2 := st_out (XAxiDma_BdRingToHw _ _ _ _) w1) in *.
  rewrite (pt_bind_some (put_rx0 r2) _ _ tt _ eq_refl). change (XST_SUCCESS =? XST_SUCCESS) with true. cbn [negb].
  assert (Hring : forall bd, bd ∈ grp r1 i (zlen skbs) -> in_ring r1 bd) by (intros; by eapply grp_in_ring).
  pose proof (tohw_keeps r1 (zlen skbs) (bd_at r1 i) 0 w1) as K2. rewrite Hrun in K2. cbn [snd] in K2.
  eexists. exists i. split; [reflexivity|].
  assert (Hget : XAxiDma_GetRxRing (put_rx (n_AxiDma (e_lp e2)) 0 r2) 0 = r2).
  { apply get_put_rx0. unfold zlen in *. cbn. by rewrite length_insert. }
  split; cbv zeta; cbn [e_w e_lp e_log e_skbs n_AxiDma set_field set_e_w set_e_lp set_e_skbs set_n_AxiDma w_mem];
    fold r size skbs; try done.
  - by rewrite Hget.
  - intros k p Hp. rewrite <- Hat. by apply (filled_sts r1 G1 _ m1 _ _ _ _ _ Fs), Hf.
  - rewrite <- (grp_same r r1) by done. eapply bds_frame_trans; [by apply bds_frame_fill|by apply bds_frame_sts].
  - intros j. rewrite <- Hat. rewrite (sts_frame_read r1 G1 _ m1 _ j _ Fs); [|done|auto with drv|by left].
    eapply (fill_frame_read r1 G1); [exact Hfm|done|auto with drv|left; apply dre_no_transfer].
  - rewrite Hget. unfold keeps_run in *. intuition congruence.
  - unfold zlen. cbn. by rewrite !length_insert.
Qed.

(** Refilling the receive ring.  The socket buffers that could be allocated
    (at most one for each free descriptor) are all handed to the hardware, in
    order: the first free descriptors move to the end of the hardware's queue,
    the [k]-th carries the mapped data of the [k]-th buffer with the frame size
    as length and the buffer as identifier, and no memory outside these
    descriptors changes; nothing is reported or freed. *)
Theorem eth_refill_exact {D} `{!RegBus D} dma_map_single allocs n (e : Net D) :
  let r := XAxiDma_GetRxRing (n_AxiDma (e_lp e)) 0 in
  let size := n_frame_size (e_lp e) in
  let skbs := refill_skbs allocs e in
  0 < zlen (RxBdRing (n_AxiDma (e_lp e))) -> ring_wf r -> PreCnt r = 0 -> IsRxChannel r <> 0 ->
  0 <= n <= 26 -> MaxTransferLen r = Z.ones n -> skbs <> [] ->
  (forall i p, p ∈ skbs -> seg_fits (w_mem (e_w e)) n (bd_at r i) (u32 (dma_map_single p.2 size), size)) ->
  exists e' i, axi_DmaSetupRecvBuffers dma_map_single allocs e = Some (tt, e') /\
  refilled dma_map_single n allocs e e' i.
Proof. apply refill_run. Qed.

(** *** An interface with two rings of four descriptors *)

Definition ex_local : net_local :=
  mkLocal 0x10000 0 (AxiDma ex_dev) 1500 1518 0 (mkStats 0 0 0 0 0 0) (0x80001000, 0x1000) 256
    (0x80002000, 0x2000) 256 0 0 true (mkTimer false 0) true true false false
    [2; 0; 0; 0; 0; 1].
Definition ex_net : Net RegFile := mkNet (mkWorld ex_mem ∅) ex_local ∅ 0 [].
Definition ex_allocs : list (Z * Z) := [(0xE000, 0x30000); (0xE100, 0x31000); (0, 0)].
Definition ex_map (a len : Z) : Z := a.

Lemma ex_net_wf : ring_wf (XAxiDma_GetRxRing (n_AxiDma (e_lp ex_net)) 0).
Proof. exact (ex_wf ChRx). Qed.

Lemma ex_net_fits i p : p ∈ [(0xE000, 0x30000); (0xE100, 0x31000)] ->
  seg_fits ex_mem 23 (bd_at (XAxiDma_GetRxRing (n_AxiDma (e_lp ex_net)) 0) i) (u32 (ex_map p.2 1518), 1518).
Proof.
  intros Hp. pose proof ex_net_wf as [G _]. revert i.
  apply (ring_of_four _ G (fun bd => seg_fits ex_mem 23 bd _)); [reflexivity|..];
    (repeat (apply elem_of_cons in Hp as [->|Hp];
      [split; [vm_compute; split; congruence|vm_compute; reflexivity]|]); by apply elem_of_nil in Hp).
Qed.

Lemma ex_refill : refill_skbs ex_allocs ex_net =
  [(0xE000, 0x30000); (0xE100, 0x31000)].
Proof. vm_compute. reflexivity. Qed.

Lemma eth_refill_exact_witness : exists e', axi_DmaSetupRecvBuffers ex_map ex_allocs ex_net = Some (tt, e').
Proof.
  destruct (eth_refill_exact ex_map ex_allocs 23 ex_net) as (e' & i & E & _).
  - vm_compute. reflexivity.
  - exact ex_net_wf.
  - vm_compute. reflexivity.
  - vm_compute. discriminate.
  - lia.
  - vm_compute. reflexivity.
  - rewrite ex_refill. discriminate.
  - rewrite ex_refill. exact ex_net_fits.
  - exists e'. exact E.
Defined.

(** ** Taking a completed set off a ring *)

(** ** Reception *)

Section recv.
Context {D : Type} `{!RegBus D}.
Context (eth_type_ip : Z -> bool).

(** What receiving the descriptors [l] does to the interface, its rings apart:
    only the counters change, the identifiers are cleared, each buffer is
    unmapped once and each socket buffer is filled in. *)
Record received (l : list Z) (e e' : Net D) : Prop := {
  rc_lp : e_lp e' = (e_lp e) <|n_AxiDma := n_AxiDma (e_lp e')|> <|n_stats := n_stats (e_lp e')|>
                             <|n_rx_hw_csums := n_rx_hw_csums (e_lp e')|>;
  rc_dev : w_dev (e_w e') = w_dev (e_w e);
  rc_frame : id_frame l (w_mem (e_w e)) (w_mem (e_w e'));
  rc_ids : forall bd, bd ∈ l -> XAxiDma_BdGetId (w_mem (e_w e')) bd = 0;
  rc_log : e_log e' = e_log e ++
    ((fun bd => NvUnmap (XAxiDma_BdGetBufAddr (w_mem (e_w e)) bd) (n_frame_size (e_lp e)) DMA_FROM_DEVICE) <$> l);
  rc_others : forall y, y ∉ ids (w_mem (e_w e)) l -> e_skbs e' !! y = e_skbs e !! y;
  rc_live : forall y, is_Some (e_skbs e !! y) -> is_Some (e_skbs e' !! y);
  rc_filled : let m := w_mem (e_w e) in NoDup (ids m l) -> forall bd x, bd ∈ l ->
    e_skbs e !! XAxiDma_BdGetId m bd = Some x ->
    e_skbs e' !! XAxiDma_BdGetId m bd =
      Some (recv_skb eth_type_ip x (XAxiDma_BdGetId m bd) (BdGetRxLen m bd) (BdCsumGet m bd)).1;
  rc_packets : u32 (rx_packets (n_stats (e_lp e'))) = u32 (rx_packets (n_stats (e_lp e)) + zlen l);
  rc_bytes : u32 (rx_bytes (n_stats (e_lp e'))) =
    u32 (rx_bytes (n_stats (e_lp e)) + foldr Z.add 0 (BdGetRxLen (w_mem (e_w e)) <$> l));
}.

Lemma rc_size l e e' : received l e e' -> n_frame_size (e_lp e') = n_frame_size (e_lp e).
Proof. intros R. by rewrite (rc_lp _ _ _ R). Qed.

Lemma received_nil e a : received [] e (e <|e_lp := (e_lp e) <|n_AxiDma := a|>|>).
Proof. split; cbn; rewrite ?app_nil_r, ?Z.add_0_r; try done; by intros * Hb%elem_of_nil || intros ? * Hb%elem_of_nil. Qed.

(** The rings play no part. *)
Lemma received_dma l e e' a a' :
  received l (e <|e_lp := (e_lp e) <|n_AxiDma := a|>|>) e' -> received l e (e' <|e_lp := (e_lp e') <|n_AxiDma := a'|>|>).
Proof. intros [A B C E F G H I J K]. split; try done. cbn. rewrite A at 1. done. Qed.

(** One iteration of the loop. *)
Lemma recv_one_run r n bd acc x (e : Net D) : let m := w_mem (e_w e) in
  bd_ok bd -> e_skbs e !! XAxiDma_BdGetId m bd = Some x ->
  exists e1, recv_loop eth_type_ip r (S n) bd acc e =
    recv_loop eth_type_ip r n (XAxiDma_mBdRingNext r bd) (acc ++ [XAxiDma_BdGetId m bd]) e1 /\
  received [bd] e e1 /\ n_AxiDma (e_lp e1) = n_AxiDma (e_lp e).
Proof.
  intros m Hok Hx. cbn [recv_loop]. rewrite (pt_bind_some (en_get (fun e => w_mem (e_w e))) _ e m e eq_refl).
  rewrite (pt_bind_some (en_get (fun e => n_frame_size (e_lp e))) _ e _ e eq_refl).
  rewrite (pt_bind_some (en_log _) _ e tt _ eq_refl), (pt_bind_some _ _ _ _ _ (en_m_eq _ _)).
  set (m1 := st_out (XAxiDma_BdSetId bd 0) _).
  erewrite (pt_bind_some (get_skb _)); [|unfold get_skb; cbn; rewrite Hx; reflexivity].
  destruct (recv_skb _ _ _ _ _) as [x' cs] eqn:Ex. rewrite (pt_bind_some (en_upd _) _ _ tt _ eq_refl).
  assert (Hid : XAxiDma_BdGetId m1 bd = 0) by (unfold m1, XAxiDma_BdSetId, XAxiDma_BdGetId; st; done).
  assert (Hfr : id_frame [bd] m m1).
  { intros a Ha. unfold m1, XAxiDma_BdSetId.
    apply (word_frame_write bd XAXIDMA_BD_ID_OFFSET); [done|auto with drv|]. apply Ha. by left. }
  destruct cs; [rewrite (pt_bind_some (en_lp _) _ _ tt _ eq_refl)|rewrite (pt_bind_some (mret tt) _ _ tt _ eq_refl)].
  all: rewrite (pt_bind_some (en_stats _) _ _ tt _ eq_refl); eexists; split; [reflexivity|]; split; [|done]; split; cbn;
    try done.
  all: try (rewrite u32_idemp; fold m; f_equal; lia).
  all: try (by intros b ->%list_elem_of_singleton).
  all: try (intros y Hy; rewrite lookup_insert_ne; [done|]; intros <-; apply Hy; by left).
  all: try (intros _ b y ->%list_elem_of_singleton Hy; fold m in Hy |- *; rewrite lookup_insert_eq;
    assert (y = x) as -> by congruence; by rewrite Ex).
  all: intros y Hy; destruct (decide (y = XAxiDma_BdGetId m bd)) as [->|];
    [rewrite lookup_insert_eq; eauto|by rewrite lookup_insert_ne].
Qed.

(** Receiving one descriptor and then others of the same ring. *)
Lemma received_cons r (G : geom r) bd l e e1 e2 : in_ring r bd -> (forall b, b ∈ l -> in_ring r b) -> bd ∉ l ->
  received [bd] e e1 -> received l e1 e2 -> received (bd :: l) e e2.
Proof.
  intros Hbd Hl Hnot [A1 A2 A3 A4 A5 A6 A7 A8 A9 A10] [B1 B2 B3 B4 B5 B6 B7 B8 B9 B10].
  assert (K : forall b o, b ∈ l -> bd_off o ->
    XAxiDma_BdRead (w_mem (e_w e1)) b o = XAxiDma_BdRead (w_mem (e_w e)) b o).
  { intros b o Hb Ho. destruct (Hl b Hb) as [j ->]. eapply (id_frame_read r G); eauto.
    - by intros x ->%list_elem_of_singleton.
    - right. intros Hin%list_elem_of_singleton. by subst. }
  assert (KI : forall b, b ∈ l -> XAxiDma_BdGetId (w_mem (e_w e1)) b = XAxiDma_BdGetId (w_mem (e_w e)) b)
    by (intros; apply K; auto with drv).
  assert (Hids : ids (w_mem (e_w e1)) l = ids (w_mem (e_w e)) l).
  { apply list_fmap_ext. intros j b Hj%list_elem_of_lookup_2. auto. }
  split; try congruence.
  - rewrite B1, A1. done.
  - eapply id_frame_trans; (eapply id_frame_incl; [|eassumption]); set_solver.
  - intros b [->|Hb]%elem_of_cons; [|auto]. rewrite <- (A4 bd) by (by left). destruct Hbd as [i ->].
    unfold XAxiDma_BdGetId. eapply (id_frame_read r G); eauto with drv.
  - rewrite B5, A5, <- app_assoc. replace (n_frame_size (e_lp e1)) with (n_frame_size (e_lp e)) by (by rewrite A1).
    f_equal. cbn. f_equal. apply list_fmap_ext. intros j b Hj%list_elem_of_lookup_2.
    unfold XAxiDma_BdGetBufAddr. by rewrite K by auto with drv.
  - intros y Hy. cbn in Hy. apply not_elem_of_cons in Hy as [Hy1 Hy2]. rewrite B6 by (by rewrite Hids).
    apply A6. cbn. by intros ->%list_elem_of_singleton.
  - auto.
  - cbn. intros [Hd1 Hd2]%NoDup_cons b x [->|Hb]%elem_of_cons Hx.
    + rewrite B6 by (by rewrite Hids). apply A8; [cbn; apply NoDup_singleton|by left|done].
    + rewrite <- KI by done. rewrite (B8 ltac:(by rewrite Hids) b x Hb).
      * unfold BdGetRxLen, BdCsumGet. by rewrite !K by auto with drv.
      * rewrite KI by done. rewrite A6; [done|]. cbn. intros E%list_elem_of_singleton.
        apply Hd1. rewrite <- E. by apply list_elem_of_fmap_2.
  - rewrite B9, <- u32_add_l, A9, u32_add_l. f_equal. unfold zlen. cbn [length]. lia.
  - rewrite B10, <- u32_add_l, A10, u32_add_l. f_equal.
    assert (E : BdGetRxLen (w_mem (e_w e1)) <$> l = BdGetRxLen (w_mem (e_w e)) <$> l).
    { apply list_fmap_ext. intros j b Hj%list_elem_of_lookup_2. unfold BdGetRxLen. by rewrite K by auto with drv. }
    rewrite E. cbn. lia.
Qed.

Lemma recv_loop_run r (G : geom r) n : forall i acc (e : Net D), Z.of_nat n <= AllCnt r ->
  let l := grp r i (Z.of_nat n) in
  (forall bd, bd ∈ l -> is_Some (e_skbs e !! XAxiDma_BdGetId (w_mem (e_w e)) bd)) ->
  exists e', recv_loop eth_type_ip r n (bd_at r i) acc e = Some (acc ++ ids (w_mem (e_w e)) l, e') /\
  received l e e' /\ n_AxiDma (e_lp e') = n_AxiDma (e_lp e).
Proof.
  induction n as [|n IH]; intros i acc e Hn l Hlive.
  { exists e. split_and!; [cbn; by rewrite app_nil_r| |done].
    assert (e = e <|e_lp := (e_lp e) <|n_AxiDma := n_AxiDma (e_lp e)|>|>) as Ee by (by destruct e as [? [] ? ? ?]).
    rewrite Ee at 2. apply received_nil. }
  unfold l in *. clear l. rewrite grp_cons in * by lia. replace (Z.of_nat (S n) - 1) with (Z.of_nat n) in * by lia.
  set (l := grp r (i + 1) (Z.of_nat n)) in *. destruct (Hlive (bd_at r i)) as [x Hx]; [by left|].
  destruct (recv_one_run r n (bd_at r i) acc x e (bd_at_ok r G i) Hx) as (e1 & E1 & R1 & D1). rewrite E1.
  assert (Hnot : bd_at r i ∉ l).
  { unfold l. replace (Z.of_nat n) with (Z.of_nat (S n) - 1) by lia. apply grp_head_notin; [done|lia]. }
  assert (Hl : forall b, b ∈ l -> in_ring r b) by (intros; by eapply grp_in_ring).
  assert (Hids : ids (w_mem (e_w e1)) l = ids (w_mem (e_w e)) l).
  { eapply (ids_frame r G); [apply (rc_frame _ _ _ R1)|by intros b ->%list_elem_of_singleton; eexists|].
    intros b Hb. split; [auto|]. intros ->%list_elem_of_singleton. done. }
  rewrite mBdRingNext_at by done.
  destruct (IH (i + 1) (acc ++ [XAxiDma_BdGetId (w_mem (e_w e)) (bd_at r i)]) e1 ltac:(lia)) as (e' & E' & R' & D').
  { fold l. intros b Hb. apply (rc_live _ _ _ R1).
    assert (E : XAxiDma_BdGetId (w_mem (e_w e1)) b = XAxiDma_BdGetId (w_mem (e_w e)) b).
    { destruct (Hl b Hb) as [j ->]. eapply (id_frame_read r G); [apply (rc_frame _ _ _ R1)| |auto with drv|].
      - by intros b' ->%list_elem_of_singleton; eexists.
      - right. intros Hin%list_elem_of_singleton. congruence. }
    rewrite E. apply Hlive. by right. }
  fold l in E', R'. exists e'. split_and!.
  - rewrite E', Hids, <- app_assoc. done.
  - eapply (received_cons r G); eauto. by eexists.
  - congruence.
Qed.

(** What one pass over the receive ring leaves, when it takes [k] descriptors. *)
Record rx_taken (k : Z) (e e' : Net D) : Prop := {
  rt_recv : received (ztake k (a_hw (ring_abs (XAxiDma_GetRxRing (n_AxiDma (e_lp e)) 0)))) e e';
  rt_ring : let r := XAxiDma_GetRxRing (n_AxiDma (e_lp e)) 0 in let a := ring_abs r in
    sim r (XAxiDma_GetRxRing (n_AxiDma (e_lp e')) 0)
      (mkARing (a_free a ++ ztake k (a_hw a)) (a_pre a) (zdrop k (a_hw a)) []);
  rt_chan : keeps_run (XAxiDma_GetRxRing (n_AxiDma (e_lp e)) 0) (XAxiDma_GetRxRing (n_AxiDma (e_lp e')) 0);
  rt_rx : zlen (RxBdRing (n_AxiDma (e_lp e'))) = zlen (RxBdRing (n_AxiDma (e_lp e)));
  rt_tx : TxBdRing (n_AxiDma (e_lp e')) = TxBdRing (n_AxiDma (e_lp e));
}.

Lemma recv_run (e : Net D) :
  let r := XAxiDma_GetRxRing (n_AxiDma (e_lp e)) 0 in
  let m := w_mem (e_w e) in
  let hw := a_hw (ring_abs r) in
  0 < zlen (RxBdRing (n_AxiDma (e_lp e))) -> ring_wf r -> PostCnt r = 0 ->
  (forall bd, bd ∈ hw -> is_Some (e_skbs e !! XAxiDma_BdGetId m bd)) ->
  let k := spec_fromhw_count m r RX_BD_NUM (ring_abs r) in
  0 <= k <= HwCnt r /\
  exists e', DmaRecvHandlerBH_netdev eth_type_ip e = Some (ids m (ztake k hw), e') /\ rx_taken k e e'.
Proof.
  intros r m hw Hrx W HP Hlive k. unfold k, DmaRecvHandlerBH_netdev. clear k. generalize RX_BD_NUM as lim. intros lim.
  set (k := spec_fromhw_count m r lim (ring_abs r)).
  rewrite (pt_bind_some rx_ring _ e r e eq_refl), (pt_bind_some (en_get (fun e => w_mem (e_w e))) _ e m e eq_refl).
  destruct (fromhw_taken m r lim W HP) as (Hk & Hz & Hpos). fold k in Hk, Hz, Hpos. split; [done|].
  pose proof (fromhw_keeps m r lim) as K1.
  assert (0 <= k) as [Hk0|E0]%Z.le_lteq by lia; cycle 1.
  { rewrite (Hz (eq_sym E0)), (pt_bind_some (put_rx0 r) _ e tt _ eq_refl). rewrite <- E0. cbn [Z.leb].
    eexists. split; [done|]. change (ztake 0 hw) with (@nil Z). split; cbn [e_lp set_field set_e_lp n_AxiDma set_n_AxiDma].
    - fold r hw. apply received_nil.
    - fold r hw. rewrite get_put_rx0 by done. cbv zeta. change (ztake 0 hw) with (@nil Z). change (zdrop 0 hw) with hw. rewrite app_nil_r.
      assert (mkARing (a_free (ring_abs r)) (a_pre (ring_abs r)) hw [] = ring_abs r) as ->;
        [unfold hw, ring_abs; by rewrite HP|by apply sim_same].
    - fold r. by rewrite get_put_rx0.
    - unfold zlen. cbn. by rewrite length_insert.
    - done. }
  destruct (Hpos Hk0) as (i & r1 & r2 & E1 & [S1 G1 Hall HM1 Hgrp Hfree Hsim]). rewrite E1 in K1 |- *. cbn [snd] in K1.
  rewrite (pt_bind_some (put_rx0 r1) _ e tt _ eq_refl). replace (k <=? 0) with false by lia.
  set (e1 := e <|e_lp := _|>). assert (Hr1 : XAxiDma_GetRxRing (n_AxiDma (e_lp e1)) 0 = r1) by by apply get_put_rx0.
  fold hw in Hgrp. replace k with (Z.of_nat (Z.to_nat k)) in Hgrp by lia.
  destruct (recv_loop_run r1 G1 (Z.to_nat k) i [] e1 ltac:(lia)) as (e2 & E2 & R2 & D2).
  { rewrite Hgrp. intros b Hb. apply Hlive. eapply (elem_of_take_drop _ _). by left. }
  rewrite Hgrp, Z2Nat.id in R2, E2 by lia. cbn [app] in E2. rewrite (pt_bind_some _ _ _ _ _ E2).
  rewrite (pt_bind_some rx_ring _ e2 r1 e2) by (unfold rx_ring, en_get; rewrite D2, Hr1; done).
  rewrite Hfree, (pt_bind_some (put_rx0 r2) _ e2 tt _ eq_refl). change (XST_SUCCESS =? XST_SUCCESS) with true.
  cbn [negb]. eexists. split; [reflexivity|]. pose proof (free_keeps r1 k (bd_at r1 i)) as K2. rewrite Hfree in K2.
  assert (Hlen : zlen (RxBdRing (n_AxiDma (e_lp e2))) = zlen (RxBdRing (n_AxiDma (e_lp e)))).
  { rewrite D2. unfold zlen. cbn. by rewrite length_insert. }
  split; cbn [e_lp set_field set_e_lp n_AxiDma set_n_AxiDma]; fold r hw.
  - eapply received_dma. exact R2.
  - rewrite get_put_rx0 by lia. done.
  - rewrite get_put_rx0 by lia. cbn [snd] in K2. unfold keeps_run in *. intuition congruence.
  - rewrite <- Hlen. unfold zlen. cbn. by rewrite length_insert.
  - cbn. by rewrite D2.
Qed.

End recv.

(** Receiving.  When every descriptor with the hardware carries a live
    socket buffer, one pass over the receive ring takes exactly the whole
    completed frames at the front of the hardware's queue (the most that the
    limit allows), returns their socket buffers in order, puts the descriptors
    back into the free queue, and otherwise only does what [received] says:
    each buffer is unmapped once with the frame size, the identifiers are
    cleared and no other memory changes, each socket buffer (they being
    different) gets the received length and checksum, and the frames and their
    bytes are counted (in 32-bit counters). *)
Theorem eth_receive_exact {D} `{!RegBus D} eth_type_ip (e : Net D) :
  let r := XAxiDma_GetRxRing (n_AxiDma (e_lp e)) 0 in
  let m := w_mem (e_w e) in
  let hw := a_hw (ring_abs r) in
  0 < zlen (RxBdRing (n_AxiDma (e_lp e))) -> ring_wf r -> PostCnt r = 0 ->
  (forall bd, bd ∈ hw -> is_Some (e_skbs e !! XAxiDma_BdGetId m bd)) ->
  exists e' k, DmaRecvHandlerBH_netdev eth_type_ip e = Some (ids m (ztake k hw), e') /\
  packets_done m r (ztake RX_BD_NUM hw) k /\ (forall j, packets_done m r (ztake RX_BD_NUM hw) j -> j <= k) /\
  received eth_type_ip (ztake k hw) e e' /\
  sim r (XAxiDma_GetRxRing (n_AxiDma (e_lp e')) 0)
    (mkARing (a_free (ring_abs r) ++ ztake k hw) (a_pre (ring_abs r)) (zdrop k hw) []).
Proof.
  intros r m hw Hrx W HP Hlive. destruct (recv_run eth_type_ip e Hrx W HP Hlive) as (_ & e' & E & [R S _ _ _]).
  exists e'. eexists. split; [exact E|]. split_and!; [apply ready_done|apply ready_max|exact R|exact S].
Qed.

(** The example interface after a refill, with one frame of 60 bytes received
    into the first buffer. *)
Definition ex_filled : Net RegFile :=
  match axi_DmaSetupRecvBuffers ex_map ex_allocs ex_net with Some (_, e) => e | None => ex_net end.
Definition ex_frame : Net RegFile :=
  ex_filled <|e_w := mkWorld (st_out (XAxiDma_BdWrite 0x80002000 XAXIDMA_BD_STS_OFFSET 0x8C000000;;
                                      XAxiDma_BdWrite 0x80002000 XAXIDMA_BD_USR4_OFFSET 60) (w_mem (e_w ex_filled)))
                       (w_dev (e_w ex_filled))|>.

Lemma ex_frame_wf : ring_wf (XAxiDma_GetRxRing (n_AxiDma (e_lp ex_frame)) 0).
Proof.
  destruct (refill_run ex_map ex_allocs 23 ex_net) as (e' & i & E & R).
  - vm_compute. reflexivity.
  - exact ex_net_wf.
  - vm_compute. reflexivity.
  - vm_compute. discriminate.
  - lia.
  - vm_compute. reflexivity.
  - rewrite ex_refill. discriminate.
  - rewrite ex_refill. exact ex_net_fits.
  - assert (ex_filled = e') as Ee by (unfold ex_filled; by rewrite E).
    unfold ex_frame. rewrite lp_of_w, Ee. exact (sim_wf _ _ _ (proj1 (rf_ring _ _ _ _ _ _ R))).
Qed.

Lemma ex_frame_live bd : bd ∈ a_hw (ring_abs (XAxiDma_GetRxRing (n_AxiDma (e_lp ex_frame)) 0)) ->
  is_Some (e_skbs ex_frame !! XAxiDma_BdGetId (w_mem (e_w ex_frame)) bd).
Proof.
  assert (E : a_hw (ring_abs (XAxiDma_GetRxRing (n_AxiDma (e_lp ex_frame)) 0)) = [0x80002000; 0x80002040])
    by (vm_compute; reflexivity).
  rewrite E. intros H. repeat (apply elem_of_cons in H as [->|H]; [vm_compute; eexists; reflexivity|]).
  apply elem_of_nil in H. destruct H.
Qed.

Lemma eth_receive_exact_witness : exists e' l, DmaRecvHandlerBH_netdev (fun _ => false) ex_frame = Some (l, e').
Proof.
  destruct (eth_receive_exact (fun _ => false) ex_frame) as (e' & k & E & _).
  - vm_compute. reflexivity.
  - exact ex_frame_wf.
  - vm_compute. reflexivity.
  - exact ex_frame_live.
  - exists e'. eexists. exact E.
Defined.
