(* ===== verification/EthSend.v ===== *)
(** * Sending a frame

    The descriptors that [axi_DmaSend_internal] programs for a socket buffer
    and its fragments, and what happens when it cannot. *)

From S2P Require Import Prelude Kernel Hw Bd BdRing RingGeom RingSpec RingHw RingCreate RingStart RingSys RingClient Dma DmaBuf AesDma AesProps AesThms Temac EthDma EthProps.

Lemma filled_frame r (G : geom r) l m m' i n sw seg : bds_frame l m m' -> (forall bd, bd ∈ l -> in_ring r bd) ->
  bd_at r i ∉ l -> filled m (bd_at r i) n sw seg -> filled m' (bd_at r i) n sw seg.
Proof.
  intros F Hl Hn [B L I].
  split; unfold XAxiDma_BdGetBufAddr, XAxiDma_BdGetLength, XAxiDma_BdGetId in *;
    rewrite (bds_frame_ring r G l m m') by auto with drv; done.
Qed.

Lemma seg_fits_frame r (G : geom r) l m m' i n seg : bds_frame l m m' -> (forall bd, bd ∈ l -> in_ring r bd) ->
  bd_at r i ∉ l -> seg_fits m n (bd_at r i) seg -> seg_fits m' n (bd_at r i) seg.
Proof.
  intros F Hl Hn [H1 H2]. split; [done|]. rewrite <- H2. apply buf_ok_same. eapply bds_frame_ring; eauto with drv.
Qed.

(** Address, length and identifier of one descriptor. *)
Definition set_transfer (r : XAxiDma_BdRing) (bd addr len id : Z) : ST Mem unit :=
  XAxiDma_BdSetBufAddr bd addr;;
  XAxiDma_BdSetLength bd len (MaxTransferLen r);;
  XAxiDma_BdSetId bd id.

Lemma set_transfer_spec r bd addr len id n m : bd_ok bd -> 0 <= n <= 26 -> MaxTransferLen r = Z.ones n ->
  seg_fits m n bd (addr, len) ->
  let m' := st_out (set_transfer r bd addr len id) m in
  filled m' bd n id (addr, len) /\ bds_frame [bd] m m'.
Proof.
  intros Hok Hn HM [Hlen Hbuf]. cbn [fst snd] in *. cbv zeta. unfold set_transfer. rewrite HM. st.
  destruct (BdSetBufAddr_ok m bd addr Hok Hbuf) as (_ & B1 & F1).
  set (m1 := st_out (XAxiDma_BdSetBufAddr bd addr) m) in *.
  destruct (BdSetLength_ok m1 bd len n Hok Hn Hlen) as (_ & L2 & _ & F2).
  set (m2 := st_out (XAxiDma_BdSetLength bd len (Z.ones n)) m1) in *.
  pose proof (word_frame_write bd XAXIDMA_BD_ID_OFFSET (u32 id) m2 Hok ltac:(auto with drv)) as F3.
  fold (XAxiDma_BdSetId bd id) in F3. set (m3 := st_out (XAxiDma_BdSetId bd id) m2) in *. split.
  - split; cbn [fst snd].
    + rewrite <- B1. unfold XAxiDma_BdGetBufAddr.
      rewrite (word_frame_read _ _ _ _ _ F3), (word_frame_read _ _ _ _ _ F2); auto with drv.
    + rewrite <- L2. unfold XAxiDma_BdGetLength. rewrite (word_frame_read _ _ _ _ _ F3); auto with drv.
    + unfold XAxiDma_BdGetId, m3, XAxiDma_BdSetId. st. apply u32_idemp.
  - eapply bds_frame_trans; [eapply bds_frame_word; [exact F1|auto with drv]|].
    eapply bds_frame_trans; (eapply bds_frame_word; [eassumption|auto with drv]).
Qed.

(** Writing a user word keeps the transfer words. *)
Lemma filled_usr m m' bd n sw seg o : bd_ok bd -> word_frame bd o m m' -> bd_off o ->
  o = XAXIDMA_BD_USR0_OFFSET \/ o = XAXIDMA_BD_USR1_OFFSET -> filled m bd n sw seg -> filled m' bd n sw seg.
Proof.
  intros Hok F Ho Hu [B L I].
  assert (o <> XAXIDMA_BD_BUFA_OFFSET /\ o <> XAXIDMA_BD_CTRL_LEN_OFFSET /\ o <> XAXIDMA_BD_ID_OFFSET) as (N1 & N2 & N3)
    by (destruct Hu as [-> | ->]; done).
  split; unfold XAxiDma_BdGetBufAddr, XAxiDma_BdGetLength, XAxiDma_BdGetId in *;
    rewrite (word_frame_read _ _ _ _ _ F) by auto with drv; done.
Qed.

Section send.
Context (dma_map_single : Z -> Z -> Z).

(** The segments that a socket buffer's parts are mapped to. *)
Definition part_seg (p : Z * Z) : Z * Z := (u32 (dma_map_single p.1 p.2), p.2).
Definition skb_segs (x : sk_buff) : list (Z * Z) := part_seg <$> (k_data x, k_headlen x) :: k_frags x.

Lemma csum_disable_frame bd m : bd_ok bd ->
  word_frame bd XAXIDMA_BD_USR0_OFFSET m (st_out (BdCsumDisable bd) m).
Proof. intros Hok. unfold BdCsumDisable, st_out. apply word_frame_write; [done|auto with drv]. Qed.

(** One fragment. *)
Definition frag_one (r : XAxiDma_BdRing) (bd : Z) (p : Z * Z) : ST Mem unit :=
  set_transfer r bd (u32 (dma_map_single p.1 p.2)) p.2 0;;
  BdCsumDisable bd;;
  XAxiDma_BdSetCtrl bd 0.

Lemma frag_one_spec r (G : geom r) i p n m : 0 <= n <= 26 -> MaxTransferLen r = Z.ones n ->
  seg_fits m n (bd_at r i) (part_seg p) ->
  let m' := st_out (frag_one r (bd_at r i) p) m in
  filled m' (bd_at r i) n 0 (part_seg p) /\ XAxiDma_BdGetCtrl m' (bd_at r i) = 0 /\
  BdCsumEnabled m' (bd_at r i) = 0 /\ bds_frame [bd_at r i] m m'.
Proof.
  intros Hn HM Hf. pose proof (bd_at_ok r G i) as Hok. cbv zeta. unfold frag_one. st.
  destruct (set_transfer_spec r (bd_at r i) _ _ 0 n m Hok Hn HM Hf) as [F1 Fr1].
  set (m1 := st_out (set_transfer _ _ _ _ _) m) in *. pose proof (csum_disable_frame (bd_at r i) m1 Hok) as W2.
  set (m2 := st_out (BdCsumDisable _) m1) in *.
  pose proof (csum_disabled m1 (bd_at r i)) as D2. fold m2 in D2.
  destruct (set_ctrl_filled r G n i 0 m2 Hn ltac:(unfold is_u32; lia)) as (C3 & F3 & _ & K3).
  set (m3 := st_out (XAxiDma_BdSetCtrl _ _) m2) in *. split_and!.
  - apply K3. eapply filled_usr; eauto with drv.
  - by rewrite C3.
  - rewrite <- D2. unfold BdCsumEnabled. rewrite (fill_frame_read r G _ m2 m3 i _ F3); [done|apply single_in_ring|auto with drv|].
    left. intros [H|[H|H]]; discriminate.
  - eapply bds_frame_trans; [exact Fr1|]. eapply bds_frame_trans; [eapply bds_frame_word; [exact W2|auto with drv]|].
    by apply bds_frame_fill.
Qed.

(** What the loop over the fragments leaves: [j] counts from the descriptor
    behind [i]. *)
Record frags_done (r : XAxiDma_BdRing) (n i : Z) (frags : list (Z * Z)) (m m' : Mem) : Prop := {
  fd_filled : forall k p, frags !! k = Some p -> filled m' (bd_at r (i + 1 + Z.of_nat k)) n 0 (part_seg p);
  fd_ctrl : forall j, 0 <= j < zlen frags -> XAxiDma_BdGetCtrl m' (bd_at r (i + 1 + j)) = 0;
  fd_csum : forall j, 0 <= j < zlen frags -> BdCsumEnabled m' (bd_at r (i + 1 + j)) = 0;
  fd_frame : bds_frame (grp r (i + 1) (zlen frags)) m m';
}.

Lemma send_frags_spec r (G : geom r) n : 0 <= n <= 26 -> MaxTransferLen r = Z.ones n -> forall frags i m,
  zlen frags < AllCnt r ->
  (forall k p, frags !! k = Some p -> seg_fits m n (bd_at r (i + 1 + Z.of_nat k)) (part_seg p)) ->
  st_val (send_frags dma_map_single r (bd_at r i) frags) m = bd_at r (i + zlen frags) /\
  frags_done r n i frags m (st_out (send_frags dma_map_single r (bd_at r i) frags) m).
Proof.
  intros Hn HM. induction frags as [|p frags IH]; intros i m Hz Hfit.
  { cbn. split; [unfold zlen; cbn; by rewrite Z.add_0_r|].
    split; [by intros|unfold zlen; cbn; lia..|apply bds_frame_refl]. }
  assert (Hlen : zlen (p :: frags) = zlen frags + 1) by (unfold zlen; cbn [length]; lia).
  assert (Hpos : 0 <= zlen frags) by (unfold zlen; lia). rewrite Hlen in *.
  pose proof (Hfit 0%nat p eq_refl) as Hf0. rewrite Z.add_0_r in Hf0.
  destruct (frag_one_spec r G (i + 1) p n m Hn HM Hf0) as (F1 & C1 & D1 & Fr1).
  cbn [send_frags]. rewrite mBdRingNext_at by done. destruct p as [virt size].
  set (m1 := st_out (frag_one r (bd_at r (i + 1)) (virt, size)) m) in *.
  match goal with |- st_val ?k m = _ /\ _ =>
    replace (st_val k m) with (st_val (send_frags dma_map_single r (bd_at r (i + 1)) frags) m1)
      by (unfold m1, frag_one, set_transfer; st; done);
    replace (st_out k m) with (st_out (send_frags dma_map_single r (bd_at r (i + 1)) frags) m1)
      by (unfold m1, frag_one, set_transfer; st; done) end.
  destruct (IH (i + 1) m1 ltac:(lia)) as [V [Ff Fc Fd Ffr]].
  { intros k p Hk. eapply (seg_fits_frame r G); [exact Fr1|apply single_in_ring| |].
    - intros E%list_elem_of_singleton. revert E. replace (i + 1 + 1 + Z.of_nat k) with (i + 1 + (1 + Z.of_nat k)) by lia.
      apply bd_at_ne; [done|]. apply lookup_lt_Some in Hk. unfold zlen in *. lia.
    - replace (i + 1 + 1 + Z.of_nat k) with (i + 1 + Z.of_nat (S k)) by lia. by apply Hfit. }
  set (m2 := st_out (send_frags _ _ _ _) m1) in *.
  assert (Hnot : bd_at r (i + 1) ∉ grp r (i + 1 + 1) (zlen frags)).
  { replace (zlen frags) with (zlen frags + 1 - 1) by lia. apply grp_head_notin; [done|lia]. }
  assert (Hin : forall bd, bd ∈ grp r (i + 1 + 1) (zlen frags) -> in_ring r bd) by (intros; by eapply grp_in_ring).
  split; [rewrite V; f_equal; lia|]. split.
  - intros [|k] q Hk; cbn in Hk.
    + injection Hk as <-. rewrite Z.add_0_r. by eapply (filled_frame r G).
    + replace (i + 1 + Z.of_nat (S k)) with (i + 1 + 1 + Z.of_nat k) by lia. by apply Ff.
  - intros j Hj. destruct (decide (j = 0)) as [->|].
    + rewrite Z.add_0_r, <- C1. unfold XAxiDma_BdGetCtrl. rewrite (bds_frame_ring r G _ m1 m2 (i + 1) _ Ffr Hin) by auto with drv. done.
    + replace (i + 1 + j) with (i + 1 + 1 + (j - 1)) by lia. apply Fc. lia.
  - intros j Hj. destruct (decide (j = 0)) as [->|].
    + rewrite Z.add_0_r, <- D1. unfold BdCsumEnabled. rewrite (bds_frame_ring r G _ m1 m2 (i + 1) _ Ffr Hin) by auto with drv. done.
    + replace (i + 1 + j) with (i + 1 + 1 + (j - 1)) by lia. apply Fd. lia.
  - rewrite Hlen, grp_cons by lia. replace (zlen frags + 1 - 1) with (zlen frags) by lia.
    eapply bds_frame_trans; (eapply bds_frame_incl; [|eassumption]); set_solver.
Qed.

(** The checksum part of the first descriptor. *)
Definition send_csum (bd : Z) (x : sk_buff) : ST Mem unit :=
  if k_partial x
  then BdCsumEnable bd;; BdCsumSetup bd (k_transport x) (u32 (k_transport x + k_csum_offset x))
  else BdCsumDisable bd.

(** What the words of a descriptor ask of the checksum engine: insertion for a
    buffer that wants it, from the transport header on and at the offset of its
    checksum (both are 16 bit wide), none for another one. *)
Definition csum_as (m : Mem) (bd : Z) (x : sk_buff) : Prop :=
  if k_partial x
  then BdCsumEnabled m bd = 1 /\
       (0 <= k_transport x -> 0 <= k_csum_offset x -> k_transport x + k_csum_offset x < 65536 ->
        Z.shiftr (XAxiDma_BdRead m bd XAXIDMA_BD_USR1_OFFSET) 16 = k_transport x /\
        BdCsumInsert m bd = k_transport x + k_csum_offset x)
  else BdCsumEnabled m bd = 0.

Lemma csum_as_same m m' bd x :
  (forall o, o = XAXIDMA_BD_USR0_OFFSET \/ o = XAXIDMA_BD_USR1_OFFSET -> XAxiDma_BdRead m' bd o = XAxiDma_BdRead m bd o) ->
  csum_as m bd x -> csum_as m' bd x.
Proof. intros E. unfold csum_as, BdCsumEnabled, BdCsumInsert. rewrite !E by auto. done. Qed.

Lemma send_csum_spec bd x n sw seg m : bd_ok bd -> filled m bd n sw seg ->
  let m' := st_out (send_csum bd x) m in
  filled m' bd n sw seg /\ bds_frame [bd] m m' /\ csum_as m' bd x.
Proof.
  intros Hok F. cbv zeta. unfold send_csum, csum_as. destruct (k_partial x); st.
  - assert (W1 : word_frame bd XAXIDMA_BD_USR0_OFFSET m (st_out (BdCsumEnable bd) m))
      by (unfold BdCsumEnable, st_out; apply word_frame_write; auto with drv).
    pose proof (csum_enabled m bd) as E1. set (m1 := st_out (BdCsumEnable bd) m) in *.
    set (v := u32 (k_transport x + k_csum_offset x)).
    assert (W2 : word_frame bd XAXIDMA_BD_USR1_OFFSET m1 (st_out (BdCsumSetup bd (k_transport x) v) m1))
      by (unfold BdCsumSetup; apply word_frame_write; auto with drv).
    set (m2 := st_out (BdCsumSetup _ _ _) m1) in *. split_and!.
    + eapply filled_usr; [done|exact W2|auto with drv|auto|]. eapply filled_usr; eauto with drv.
    + eapply bds_frame_trans; (eapply bds_frame_word; [eassumption|auto with drv]).
    + rewrite <- E1. unfold BdCsumEnabled. rewrite (word_frame_read _ _ _ _ _ W2); auto with drv.
    + intros Ht Ho Hs. assert (Ev : v = k_transport x + k_csum_offset x) by (apply u32_small; unfold is_u32; lia).
      rewrite <- Ev. apply csum_setup; lia.
  - pose proof (csum_disable_frame bd m Hok) as W1. split_and!; [|eapply bds_frame_word; eauto with drv|apply csum_disabled].
    eapply filled_usr; eauto with drv.
Qed.

(** Marking the packet: [L] descriptors from [i] with no flags behind the first. *)
Definition send_marks (first last : Z) : ST Mem unit :=
  if first =? last
  then XAxiDma_BdSetCtrl last XAXIDMA_BD_CTRL_ALL_MASK;; mret tt
  else
    XAxiDma_BdSetCtrl first XAXIDMA_BD_CTRL_TXSOF_MASK;;
    XAxiDma_BdSetCtrl last XAXIDMA_BD_CTRL_TXEOF_MASK;;
    mret tt.

Lemma send_marks_spec r (G : geom r) n i L m : 0 <= n <= 26 -> 0 < L <= AllCnt r ->
  (forall j, 0 < j < L -> XAxiDma_BdGetCtrl m (bd_at r (i + j)) = 0) ->
  let m' := st_out (send_marks (bd_at r i) (bd_at r (i + (L - 1)))) m in
  (forall j, 0 <= j < L -> XAxiDma_BdGetCtrl m' (bd_at r (i + j)) = packet_flags L j) /\
  (forall j sw seg, filled m (bd_at r j) n sw seg -> filled m' (bd_at r j) n sw seg) /\
  fill_frame (grp r i L) m m'.
Proof.
  intros Hn HL Hc. cbv zeta. unfold send_marks.
  assert (Hg : forall j, 0 <= j < L -> bd_at r (i + j) ∈ grp r i L) by (intros j Hj; apply elem_grp; by exists j).
  destruct (Z.eqb_spec (bd_at r i) (bd_at r (i + (L - 1)))) as [E|E].
  - assert (L = 1) as ->.
    { destruct (decide (L = 1)); [done|]. exfalso. apply (bd_at_ne r i (L - 1) G); [lia|done]. }
    rewrite <- E. st. destruct (set_ctrl_filled r G n i XAXIDMA_BD_CTRL_ALL_MASK m Hn ltac:(vm_compute; split; congruence))
      as (C1 & F1 & _ & K1). split_and!; [|by auto|].
    + intros j Hj. assert (j = 0) as -> by lia. rewrite Z.add_0_r, C1. done.
    + eapply fill_frame_incl; [|exact F1]. intros b ->%list_elem_of_singleton. rewrite <- (Z.add_0_r i) at 1. apply Hg. lia.
  - assert (L <> 1) by (intros ->; apply E; f_equal; lia). st.
    destruct (set_ctrl_filled r G n i XAXIDMA_BD_CTRL_TXSOF_MASK m Hn ltac:(vm_compute; split; congruence))
      as (C1 & F1 & N1 & K1). set (m1 := st_out (XAxiDma_BdSetCtrl (bd_at r i) _) m) in *.
    destruct (set_ctrl_filled r G n (i + (L - 1)) XAXIDMA_BD_CTRL_TXEOF_MASK m1 Hn ltac:(vm_compute; split; congruence))
      as (C2 & F2 & N2 & K2). set (m2 := st_out (XAxiDma_BdSetCtrl _ _) m1) in *. split_and!; [|by auto|].
    + intros j Hj. unfold packet_flags. destruct (Z.eqb_spec j (L - 1)) as [->|].
      * rewrite C2. replace (L - 1 =? 0) with false by lia. done.
      * rewrite N2.
        2:{ replace (i + (L - 1)) with (i + j + (L - 1 - j)) by lia. intros Eq. symmetry in Eq. revert Eq.
            apply bd_at_ne; [done|lia]. }
        destruct (Z.eqb_spec j 0) as [->|]; [by rewrite Z.add_0_r, C1|].
        rewrite N1 by (apply bd_at_ne; [done|lia]). apply Hc. lia.
    + eapply fill_frame_trans; (eapply fill_frame_incl; [|eassumption]); intros b ->%list_elem_of_singleton;
        [rewrite <- (Z.add_0_r i) at 1|]; apply Hg; lia.
Qed.

(** The descriptors for a socket buffer. *)
Record sent (r : XAxiDma_BdRing) (n skb i : Z) (x : sk_buff) (m : Mem) : Prop := {
  sn_filled : forall k seg, skb_segs x !! k = Some seg ->
    filled m (bd_at r (i + Z.of_nat k)) n (if (k =? 0)%nat then skb else 0) seg;
  sn_ctrl : forall j, 0 <= j < zlen (skb_segs x) ->
    XAxiDma_BdGetCtrl m (bd_at r (i + j)) = packet_flags (zlen (skb_segs x)) j;
  sn_csum : csum_as m (bd_at r i) x;
  sn_none : forall j, 0 < j < zlen (skb_segs x) -> BdCsumEnabled m (bd_at r (i + j)) = 0;
}.

Lemma send_fill_eq r skb x bd m :
  let m1 := st_out (set_transfer r bd (u32 (dma_map_single (k_data x) (k_headlen x))) (k_headlen x) skb) m in
  let m2 := st_out (send_csum bd x) m1 in
  let last := st_val (send_frags dma_map_single r bd (k_frags x)) m2 in
  let m3 := st_out (send_frags dma_map_single r bd (k_frags x)) m2 in
  st_out (send_fill dma_map_single r skb x bd) m = st_out (send_marks bd last) m3.
Proof. cbv zeta. unfold send_fill, set_transfer, send_marks, send_csum. st. done. Qed.

Lemma send_fill_spec r (G : geom r) n skb x i m : 0 <= n <= 26 -> MaxTransferLen r = Z.ones n ->
  zlen (skb_segs x) <= AllCnt r ->
  (forall k seg, skb_segs x !! k = Some seg -> seg_fits m n (bd_at r (i + Z.of_nat k)) seg) ->
  let m' := st_out (send_fill dma_map_single r skb x (bd_at r i)) m in
  sent r n skb i x m' /\ bds_frame (grp r i (zlen (skb_segs x))) m m'.
Proof.
  intros Hn HM HL Hfit. cbv zeta. rewrite send_fill_eq. pose proof (bd_at_ok r G i) as Hok.
  pose proof (Hfit 0%nat _ eq_refl) as Hf0. rewrite Z.add_0_r in Hf0.
  destruct (set_transfer_spec r (bd_at r i) _ _ skb n m Hok Hn HM Hf0) as [F1 Fr1].
  cbn [fst snd] in *. set (m1 := st_out (set_transfer _ _ _ _ _) m) in *.
  destruct (send_csum_spec (bd_at r i) x _ _ _ m1 Hok F1) as (F2 & Fr2 & E2).
  set (m2 := st_out (send_csum _ _) m1) in *.
  assert (Fr12 : bds_frame [bd_at r i] m m2) by (by eapply bds_frame_trans).
  set (q := k_frags x) in *. assert (Hq : zlen (skb_segs x) = zlen q + 1).
  { unfold skb_segs, zlen. rewrite length_fmap. cbn [length]. fold q. lia. }
  assert (Hq0 : 0 <= zlen q) by (unfold zlen; lia).
  destruct (send_frags_spec r G n Hn HM q i m2 ltac:(lia)) as [V [Ff Fc Fd Ffr]].
  { intros k p Hk. eapply (seg_fits_frame r G); [exact Fr12|apply single_in_ring| |].
    - intros E%list_elem_of_singleton. revert E. replace (i + 1 + Z.of_nat k) with (i + (1 + Z.of_nat k)) by lia.
      apply bd_at_ne; [done|]. apply lookup_lt_Some in Hk. unfold zlen in *. lia.
    - replace (i + 1 + Z.of_nat k) with (i + Z.of_nat (S k)) by lia. apply Hfit.
      unfold skb_segs. rewrite list_lookup_fmap. change ((_ :: k_frags x) !! S k) with (q !! k). by rewrite Hk. }
  rewrite V. set (m3 := st_out (send_frags _ _ _ _) m2) in *. set (L := zlen (skb_segs x)) in *.
  replace (i + zlen q) with (i + (L - 1)) by lia.
  assert (Hnot : bd_at r i ∉ grp r (i + 1) (zlen q)).
  { replace (zlen q) with (L - 1) by lia. apply grp_head_notin; [done|lia]. }
  assert (Hin : forall bd, bd ∈ grp r (i + 1) (zlen q) -> in_ring r bd) by (intros; by eapply grp_in_ring).
  destruct (send_marks_spec r G n i L m3 Hn ltac:(lia)) as (M1 & M2 & M3).
  { intros j Hj. replace (i + j) with (i + 1 + (j - 1)) by lia. apply Fc. lia. }
  set (m4 := st_out (send_marks _ _) m3) in *. split; [split|].
  - intros [|k] seg Hk.
    + injection Hk as <-. rewrite Z.add_0_r. apply M2. eapply (filled_frame r G); eauto.
    + unfold skb_segs in Hk. rewrite list_lookup_fmap in Hk. change ((_ :: k_frags x) !! S k) with (q !! k) in Hk.
      destruct (q !! k) as [p|] eqn:Ek; [|done]. injection Hk as <-.
      replace (i + Z.of_nat (S k)) with (i + 1 + Z.of_nat k) by lia. apply M2. by apply Ff.
  - exact M1.
  - revert E2. apply csum_as_same. intros o Ho.
    rewrite (fill_frame_read r G _ m3 m4 i o M3);
      [|by intros; eapply grp_in_ring|destruct Ho as [-> | ->]; auto with drv
       |left; destruct Ho as [-> | ->]; intros [H|[H|H]]; discriminate].
    apply (bds_frame_ring r G _ m2 m3 i o Ffr Hin); [destruct Ho as [-> | ->]; auto with drv|done].
  - intros j Hj. unfold BdCsumEnabled. rewrite (fill_frame_read r G _ m3 m4 (i + j) _ M3);
      [|by intros; eapply grp_in_ring|auto with drv|left; intros [H|[H|H]]; discriminate].
    replace (i + j) with (i + 1 + (j - 1)) by lia. apply Fd. lia.
  - assert (Hg : grp r i L = bd_at r i :: grp r (i + 1) (zlen q)).
    { rewrite grp_cons by lia. do 2 f_equal. lia. }
    rewrite Hg. eapply bds_frame_trans; [eapply bds_frame_incl; [|exact Fr12]; set_solver|].
    eapply bds_frame_trans; [eapply bds_frame_incl; [|exact Ffr]; set_solver|].
    rewrite <- Hg. by apply bds_frame_fill.
Qed.

Lemma sent_accepted r n skb i x m : MaxTransferLen r = Z.ones n ->
  (forall seg, seg ∈ skb_segs x -> 0 < seg.2) -> sent r n skb i x m ->
  tohw_accepts m r (grp r i (zlen (skb_segs x))) = true.
Proof.
  intros HM Hpos [Hf Hc _ _].
  assert (HL : 0 < zlen (skb_segs x)) by (unfold skb_segs, zlen; rewrite length_fmap; cbn [length]; lia).
  rewrite tohw_accepts_grp by done. apply andb_true_iff. split.
  - apply forallb_forall. intros bd Hbd%list_elem_of_In. apply elem_grp in Hbd as (j & Hj & ->).
    destruct (lookup_lt_is_Some_2 (skb_segs x) (Z.to_nat j)) as [seg Hseg]; [unfold zlen in Hj; lia|].
    pose proof (Hf _ _ Hseg) as [_ Le _]. rewrite Z2Nat.id in Le by lia. rewrite HM, Le.
    apply negb_true_iff, Z.eqb_neq. apply list_elem_of_lookup_2 in Hseg. specialize (Hpos _ Hseg). lia.
  - apply orb_true_iff. right. apply andb_true_iff.
    set (L := zlen (skb_segs x)) in *. replace (i + L - 1) with (i + (L - 1)) by lia.
    replace i with (i + 0) at 1 by lia. rewrite !Hc by lia. unfold packet_flags.
    rewrite Z.eqb_refl. destruct (Z.eqb_spec (L - 1) 0), (Z.eqb_spec 0 (L - 1)); rewrite ?Z.eqb_refl; try lia; done.
Qed.

(** The status words that a commit clears. *)
Lemma sent_sts r (G : geom r) n skb i x l m m' : sts_frame l m m' ->
  (forall bd, bd ∈ l -> in_ring r bd) -> sent r n skb i x m -> sent r n skb i x m'.
Proof.
  intros F Hl [Hf Hc Hs Hns].
  assert (K : forall j o, bd_off o -> o <> XAXIDMA_BD_STS_OFFSET ->
    XAxiDma_BdRead m' (bd_at r j) o = XAxiDma_BdRead m (bd_at r j) o).
  { intros. eapply sts_frame_read; eauto. }
  split.
  - intros k seg Hk. eapply filled_sts; eauto.
  - intros j Hj. unfold XAxiDma_BdGetCtrl in *. rewrite K by auto with drv. by apply Hc.
  - revert Hs. apply csum_as_same. intros o [-> | ->]; apply K; auto with drv; discriminate.
  - intros j Hj. unfold BdCsumEnabled in *. rewrite K by auto with drv. by apply Hns.
Qed.

End send.

Lemma sent_same r r' map n skb i x m : (forall j, bd_at r' j = bd_at r j) -> sent map r' n skb i x m ->
  sent map r n skb i x m.
Proof.
  intros E [Hf Hc Hs Hns]. split.
  - intros k seg Hk. rewrite <- E. by apply Hf.
  - intros j Hj. rewrite <- E. by apply Hc.
  - by rewrite <- E.
  - intros j Hj. rewrite <- E. by apply Hns.
Qed.

Lemma get_skb_eq {D} `{!RegBus D} skb x (e : Net D) : e_skbs e !! skb = Some x -> get_skb skb e = Some (x, e).
Proof. intros H. unfold get_skb. cbn. by rewrite H. Qed.

(** ** Words that a program leaves alone *)

Section keeps.
Context (r : XAxiDma_BdRing) (G : geom r) (o : Z) (Ho : bd_off o).

(** The program keeps the word at offset [o] of every descriptor. *)
Definition keeps {A} (p : ST Mem A) : Prop :=
  forall m i, XAxiDma_BdRead (st_out p m) (bd_at r i) o = XAxiDma_BdRead m (bd_at r i) o.

Lemma keeps_ret {A} (a : A) : keeps (mret a).
Proof. done. Qed.

Lemma keeps_get {A} (f : Mem -> A) : keeps (st_get f).
Proof. done. Qed.

Lemma keeps_bind {A B} (p : ST Mem A) (k : A -> ST Mem B) : keeps p -> (forall a, keeps (k a)) -> keeps (p ≫= k).
Proof. intros H1 H2 m i. rewrite st_out_bind, H2. apply H1. Qed.

Lemma keeps_write j o' v : bd_off o' -> o' <> o -> keeps (XAxiDma_BdWrite (bd_at r j) o' v).
Proof.
  intros Ho' Hne m i. destruct (decide (bd_at r i = bd_at r j)) as [E|E].
  - rewrite E. apply BdRead_Write_off; auto using bd_at_ok.
  - apply BdRead_Write_apart; auto using bd_at_ok. apply bd_at_apart; congruence.
Qed.

Lemma keeps_csum_enable j : XAXIDMA_BD_USR0_OFFSET <> o -> keeps (BdCsumEnable (bd_at r j)).
Proof. intros H m i. unfold BdCsumEnable. eapply keeps_write; auto with drv. Qed.

Lemma keeps_csum_disable j : XAXIDMA_BD_USR0_OFFSET <> o -> keeps (BdCsumDisable (bd_at r j)).
Proof. intros H m i. unfold BdCsumDisable. eapply keeps_write; auto with drv. Qed.

End keeps.

#[export] Hint Resolve keeps_ret keeps_get keeps_write keeps_csum_enable keeps_csum_disable : keeps.
#[export] Hint Extern 1 (bd_off _) => progress auto with drv : keeps.
#[export] Hint Extern 1 (_ <> _) => discriminate : keeps.

(** Goes through a program that only writes descriptor words. *)
Ltac keeps :=
  repeat first
    [ apply keeps_bind; [|intros ?]
    | match goal with |- keeps _ _ (if ?b then _ else _) => destruct b end
    | progress cbv zeta
    | solve [auto with keeps] ].

(** Transmission leaves the build information of the descriptors alone. *)
Lemma send_frags_keeps map r (G : geom r) frags : forall i,
  keeps r XAXIDMA_BD_HAS_DRE_OFFSET (send_frags map r (bd_at r i) frags).
Proof.
  induction frags as [|[a s] frags IH]; intros i; cbn [send_frags]; [auto with keeps|].
  rewrite mBdRingNext_at by done.
  unfold XAxiDma_BdSetBufAddr, XAxiDma_BdSetLength, XAxiDma_BdSetId, XAxiDma_BdSetCtrl. keeps.
Qed.

Lemma send_frags_last map r (G : geom r) frags : forall i m,
  exists j, st_val (send_frags map r (bd_at r i) frags) m = bd_at r j.
Proof.
  induction frags as [|[a s] frags IH]; intros i m; cbn [send_frags]; [by exists i|].
  rewrite mBdRingNext_at by done. st. apply IH.
Qed.

Lemma send_fill_keeps map r (G : geom r) skb x i :
  keeps r XAXIDMA_BD_HAS_DRE_OFFSET (send_fill map r skb x (bd_at r i)).
Proof.
  intros m j. rewrite send_fill_eq. cbv zeta.
  set (p1 := set_transfer _ _ _ _ _). set (p2 := send_csum _ _).
  assert (K1 : keeps r XAXIDMA_BD_HAS_DRE_OFFSET p1).
  { unfold p1, set_transfer, XAxiDma_BdSetBufAddr, XAxiDma_BdSetLength, XAxiDma_BdSetId. keeps. }
  assert (K2 : keeps r XAXIDMA_BD_HAS_DRE_OFFSET p2) by (unfold p2, send_csum, BdCsumSetup; keeps).
  set (m2 := st_out p2 (st_out p1 m)). destruct (send_frags_last map r G (k_frags x) i m2) as [l ->].
  assert (K3 : keeps r XAXIDMA_BD_HAS_DRE_OFFSET (send_marks (bd_at r i) (bd_at r l)))
    by (unfold send_marks, XAxiDma_BdSetCtrl; keeps).
  rewrite K3, (send_frags_keeps map r G). unfold m2. by rewrite K2, K1.
Qed.

(** What an accepted frame leaves: the ring, the memory and the interface. *)
Record send_done_as {D} `{!RegBus D} (map : Z -> Z -> Z) (n skb : Z) (x : sk_buff) (e e' : Net D) (i : Z) : Prop := {
  sd_ring : let r := TxBdRing (n_AxiDma (e_lp e)) in let a := ring_abs r in let k := zlen (skb_segs map x) in
    sim r (TxBdRing (n_AxiDma (e_lp e'))) (mkARing (zdrop k (a_free a)) [] (a_hw a ++ grp r i k) (a_post a)) /\
    ztake k (a_free a) = grp r i k;
  sd_bds : sent map (TxBdRing (n_AxiDma (e_lp e))) n skb i x (w_mem (e_w e'));
  sd_frame : bds_frame (grp (TxBdRing (n_AxiDma (e_lp e))) i (zlen (skb_segs map x))) (w_mem (e_w e)) (w_mem (e_w e'));
  sd_build : forall i, XAxiDma_BdRead (w_mem (e_w e')) (bd_at (TxBdRing (n_AxiDma (e_lp e))) i) XAXIDMA_BD_HAS_DRE_OFFSET =
    XAxiDma_BdRead (w_mem (e_w e)) (bd_at (TxBdRing (n_AxiDma (e_lp e))) i) XAXIDMA_BD_HAS_DRE_OFFSET;
  sd_chan : keeps_run (TxBdRing (n_AxiDma (e_lp e))) (TxBdRing (n_AxiDma (e_lp e')));
  sd_regs : w_dev (e_w e') = tohw_kick (TxBdRing (n_AxiDma (e_lp e'))) 0 (w_dev (e_w e));
  sd_rest : e' = e <|e_w := e_w e'|>
    <|e_lp := (e_lp e) <|n_AxiDma := (n_AxiDma (e_lp e)) <|TxBdRing := TxBdRing (n_AxiDma (e_lp e'))|> |>
        <|n_tx_hw_csums := if k_partial x then u32 (n_tx_hw_csums (e_lp e) + 1) else n_tx_hw_csums (e_lp e)|> |>;
}.

(** Parts of the state that are not touched. *)
Lemma send_rest {D} `{!RegBus D} map n skb x (e e' : Net D) i : send_done_as map n skb x e e' i ->
  n_deferred (e_lp e') = n_deferred (e_lp e) /\ n_queue_on (e_lp e') = n_queue_on (e_lp e) /\
  e_skbs e' = e_skbs e /\ e_log e' = e_log e.
Proof. intros [_ _ _ _ _ _ E]. rewrite E. done. Qed.

(** When a frame can be accepted. *)
Record sendable {D} `{!RegBus D} (map : Z -> Z -> Z) (n skb : Z) (x : sk_buff) (e : Net D) : Prop := {
  sb_live : e_skbs e !! skb = Some x;
  sb_wf : ring_wf (TxBdRing (n_AxiDma (e_lp e)));
  sb_pre : PreCnt (TxBdRing (n_AxiDma (e_lp e))) = 0;
  sb_few : zlen (skb_segs map x) < TX_BD_NUM;
  sb_room : zlen (skb_segs map x) <= FreeCnt (TxBdRing (n_AxiDma (e_lp e)));
  sb_width : 0 <= n <= 26;
  sb_max : MaxTransferLen (TxBdRing (n_AxiDma (e_lp e))) = Z.ones n;
  sb_fits : forall i seg, seg ∈ skb_segs map x ->
    seg_fits (w_mem (e_w e)) n (bd_at (TxBdRing (n_AxiDma (e_lp e))) i) seg;
}.

Lemma en_lp_if {D} (b : bool) f (e : Net D) :
  (if b then en_lp f else mret tt) e = Some (tt, if b then e <|e_lp := f (e_lp e)|> else e).
Proof. by destruct b. Qed.

Lemma skb_segs_len map x : zlen (skb_segs map x) = Z.of_nat (length (k_frags x)) + 1.
Proof. unfold skb_segs, zlen. rewrite length_fmap. cbn [length]. lia. Qed.

Lemma send_run {D} `{!RegBus D} map n skb x (e : Net D) : sendable map n skb x e ->
  exists e' i, axi_DmaSend_internal map skb e = Some (XST_SUCCESS, e') /\ send_done_as map n skb x e e' i.
Proof.
  intros [Hx W Hpre Hfew Hroom Hn HM Hfit]. set (r := TxBdRing _) in *. set (k := zlen (skb_segs map x)) in *.
  assert (Hk : k = Z.of_nat (length (k_frags x)) + 1) by apply skb_segs_len.
  destruct (alloc_commit r k W Hpre ltac:(lia)) as (i & r1 & [Ha Sg G1 Hat Hall HM1 Hrx1 Hfr Hcommit]).
  unfold axi_DmaSend_internal. rewrite (pt_bind_some _ _ _ _ _ (get_skb_eq skb x e Hx)).
  rewrite (pt_bind_some tx_ring _ e r e eq_refl). cbv zeta. rewrite <- Hk.
  rewrite (proj2 (Z.ltb_lt k TX_BD_NUM) Hfew). pose proof Ha as Ha'. rewrite Ha. clear Ha.
  rewrite (pt_bind_some (put_tx r1) _ e tt _ eq_refl). set (e1 := e <|e_lp := _|>).
  rewrite (pt_bind_some _ _ _ _ _ (en_m_eq _ _)). change (w_mem (e_w e1)) with (w_mem (e_w e)).
  change (w_dev (e_w e1)) with (w_dev (e_w e)).
  destruct (send_fill_spec map r1 G1 n skb x i (w_mem (e_w e)) Hn ltac:(by rewrite HM1) Hall) as [Hs Hsm].
  { intros j p Hp. rewrite Hat. apply Hfit. by eapply list_elem_of_lookup_2. }
  fold k in Hsm. set (m1 := st_out (send_fill _ _ _ _ _) (w_mem (e_w e))) in *.
  set (w1 := mkWorld m1 (w_dev (e_w e))). set (e2 := e1 <|e_w := w1|>).
  set (e3 := if k_partial x then e2 <|e_lp := (e_lp e2) <|n_tx_hw_csums := u32 (n_tx_hw_csums (e_lp e2) + 1)|> |> else e2).
  rewrite (pt_bind_some _ _ e2 _ _ (en_lp_if _ _ e2)). fold e3.
  rewrite (pt_bind_some _ _ _ _ _ (en_w_eq _ _)).
  assert (Hpos : forall seg, seg ∈ skb_segs map x -> 0 < seg.2).
  { intros seg Hseg. destruct (Hfit 0 seg Hseg) as [[? _] _]. lia. }
  destruct (Hcommit w1) as (r2 & Hrun & Fs & Hsim & Hdev).
  { by apply (sent_accepted map r1 n skb); [rewrite HM1|..]. }
  replace (e_w e3) with w1 by (unfold e3; destruct (k_partial x); reflexivity).
  rewrite Hrun. set (w2 := st_out (XAxiDma_BdRingToHw _ _ _ _) w1) in *.
  rewrite (pt_bind_some (put_tx r2) _ _ tt _ eq_refl). change (XST_SUCCESS =? XST_SUCCESS) with true. cbn [negb].
  assert (Hring : forall bd, bd ∈ grp r1 i k -> in_ring r1 bd) by (intros; by eapply grp_in_ring).
  eexists. exists i. split; [reflexivity|].
  set (c := if k_partial x then u32 (n_tx_hw_csums (e_lp e) + 1) else n_tx_hw_csums (e_lp e)).
  assert (e3 = e2 <|e_lp := (e_lp e2) <|n_tx_hw_csums := c|> |>) as ->.
  { unfold e3, c. destruct (k_partial x); [done|]. by destruct e as [? [] ? ? ?]. }
  split; try done.
  - apply (sent_same r r1); [done|]. by eapply sent_sts.
  - fold r k. rewrite <- (grp_same r r1) by done. eapply bds_frame_trans; [exact Hsm|by apply bds_frame_sts].
  - intros j. fold r. rewrite <- Hat.
    rewrite (sts_frame_read r1 G1 (grp r1 i k) m1 (w_mem w2)); [|done..|auto with drv|by left].
    apply (send_fill_keeps map r1 G1 skb x i).
  - fold r. pose proof (tohw_keeps r1 k (bd_at r1 i) 0 w1) as K2. rewrite Hrun in K2. cbn [snd] in K2.
    pose proof (alloc_keeps r k) as K1. rewrite Ha' in K1. cbn [snd] in K1. unfold keeps_run in *. cbn. intuition congruence.
Qed.

(** What a frame that is not accepted leaves. *)
Definition refused {D} (skb parts : Z) (e : Net D) : Net D :=
  if parts <? TX_BD_NUM
  then e <|e_lp := (e_lp e) <|n_queue_on := false|> <|n_deferred := skb|> |>
  else e <|e_log := e_log e ++ [NvFreeSkb skb]|>
         <|e_lp := (e_lp e) <|n_stats := (n_stats (e_lp e))
              <|tx_dropped := u32 (tx_dropped (n_stats (e_lp e)) + 1)|> |> |>.

Lemma put_tx_same {D} (e : Net D) : put_tx (TxBdRing (n_AxiDma (e_lp e))) e = Some (tt, e).
Proof. by destruct e as [w [? ? []] ? ? ?]. Qed.

Lemma send_refused {D} `{!RegBus D} map skb x (e : Net D) :
  let r := TxBdRing (n_AxiDma (e_lp e)) in let parts := Z.of_nat (length (k_frags x)) + 1 in
  e_skbs e !! skb = Some x -> FreeCnt r < parts \/ TX_BD_NUM <= parts ->
  axi_DmaSend_internal map skb e = Some (XST_FAILURE, refused skb parts e).
Proof.
  intros r parts Hx Hroom. unfold axi_DmaSend_internal, refused.
  rewrite (pt_bind_some _ _ _ _ _ (get_skb_eq skb x e Hx)), (pt_bind_some tx_ring _ e r e eq_refl).
  cbv zeta. fold parts. destruct (Z.ltb_spec parts TX_BD_NUM); [|reflexivity].
  assert (Hp : 0 < parts) by (unfold parts; lia). destruct Hroom as [Hroom|]; [|lia].
  unfold XAxiDma_BdRingAlloc. replace (parts <=? 0) with false by lia.
  rewrite (proj2 (Z.ltb_lt (FreeCnt r) parts) Hroom), (pt_bind_some _ _ _ _ _ (put_tx_same e)). reflexivity.
Qed.

(** ** Properties *)

(** C34: sending a frame.  A live socket buffer whose parts fit into the free
    descriptors and the engine's limits is accepted: the first free descriptors
    move to the end of the hardware's queue, one for each part in order, with
    the mapped address and the length of the part, the buffer as identifier on
    the first one only, start and end of frame on the first and the last one,
    and checksum insertion switched on on the first one exactly for buffers that
    ask for it, from the transport header on and at the offset of its checksum
    (when the two fit 16 bits), and off on the others; the tail register is
    written exactly when the channel runs; no memory outside these descriptors
    changes, and of the interface only the transmit ring and, for such a buffer,
    the counter of checksums. *)
Theorem eth_send_exact {D} `{!RegBus D} map n skb x (e : Net D) : sendable map n skb x e ->
  exists e' i, axi_send map skb e = Some (0, e') /\ send_done_as map n skb x e e' i.
Proof.
  intros H. destruct (send_run map n skb x e H) as (e' & i & E & S). exists e', i. split; [|done].
  unfold axi_send. by rewrite (pt_bind_some _ _ _ _ _ E).
Qed.

(** Back-pressure.  A live socket buffer that needs more descriptors than
    are free is kept as the deferred frame and the transmit queue is stopped;
    one with too many parts for the ring is freed once and counted as dropped.
    Either way the rings, the registers and the descriptor memory are as they
    were, and the network layer is told that the frame was taken. *)
Theorem eth_send_backpressure {D} `{!RegBus D} map skb x (e : Net D) :
  let r := TxBdRing (n_AxiDma (e_lp e)) in let parts := Z.of_nat (length (k_frags x)) + 1 in
  e_skbs e !! skb = Some x -> FreeCnt r < parts \/ TX_BD_NUM <= parts ->
  axi_send map skb e = Some (0, refused skb parts e).
Proof.
  intros r parts Hx Hroom. unfold axi_send. by rewrite (pt_bind_some _ _ _ _ _ (send_refused map skb x e Hx Hroom)).
Qed.

(** *** A frame with a header part and one fragment, and one that is too long *)

Definition ex_skb : sk_buff := mkSkb 0x40000 64 [(0x41000, 1000)] true 34 16 0 CHECKSUM_NONE 0.
Definition ex_long : sk_buff := mkSkb 0x40000 64 (replicate 4 (0x41000, 1000)) true 34 16 0 CHECKSUM_NONE 0.
Definition ex_tx_net : Net RegFile := ex_net <|e_skbs := {[0xE000 := ex_skb; 0xE100 := ex_long]}|>.

Lemma ex_sendable : sendable ex_map 23 0xE000 ex_skb ex_tx_net.
Proof.
  split; [reflexivity|exact (ex_wf ChTx)|reflexivity|reflexivity|vm_compute; congruence|lia|reflexivity|].
  intros i p Hp. pose proof (ex_wf ChTx) as [G _]. change (TxBdRing _) with (get_ring ChTx ex_dev). revert i.
  apply (ring_of_four _ G (fun bd => seg_fits ex_mem 23 bd _)); [reflexivity|..];
    (repeat (apply elem_of_cons in Hp as [->|Hp];
      [split; [vm_compute; split; congruence|vm_compute; reflexivity]|]); by apply elem_of_nil in Hp).
Qed.

Lemma eth_send_exact_witness : exists e', axi_send ex_map 0xE000 ex_tx_net = Some (0, e') /\ e_log e' = [].
Proof.
  destruct (eth_send_exact ex_map 23 0xE000 ex_skb ex_tx_net ex_sendable) as (e' & i & E & S).
  exists e'. split; [exact E|]. destruct S as [_ _ _ _ _ _ L]. rewrite L. reflexivity.
Defined.

Lemma eth_send_backpressure_witness : exists e', axi_send ex_map 0xE100 ex_tx_net = Some (0, e').
Proof.
  eexists. apply (eth_send_backpressure ex_map 0xE100 ex_long ex_tx_net).
  - vm_compute. reflexivity.
  - left. vm_compute. reflexivity.
Defined.
