(* ===== verification/EthTx.v ===== *)
(** * Completed transmissions

    The transmit bottom half of the Ethernet driver: what it does with the
    completed frames and with a deferred one. *)

From S2P Require Import Prelude Kernel Hw Bd BdRing RingGeom RingSpec RingHw RingCreate RingStart RingSys RingClient Dma DmaBuf AesDma AesProps AesThms Temac EthDma EthProps EthSend.

(** ** The loop over a completed set *)

(** What is reported for one completed descriptor. *)
Definition tx_events (m : Mem) (M bd : Z) : list nevent :=
  NvUnmap (XAxiDma_BdGetBufAddr m bd) (XAxiDma_BdGetLength m bd M) DMA_TO_DEVICE ::
  (if XAxiDma_BdGetId m bd =? 0 then [] else [NvFreeSkb (XAxiDma_BdGetId m bd)]).

Definition tx_eof (m : Mem) (bd : Z) : bool := tst (XAxiDma_BdGetCtrl m bd) XAXIDMA_BD_CTRL_TXEOF_MASK.

(** [l] completed descriptors have been gone through; [M] is the length mask. *)
Record tx_gone {D} (M : Z) (l : list Z) (e e' : Net D) : Prop := {
  tg_lp : e_lp e' = (e_lp e) <|n_AxiDma := n_AxiDma (e_lp e')|> <|n_stats := n_stats (e_lp e')|>;
  tg_dev : w_dev (e_w e') = w_dev (e_w e);
  tg_skbs : e_skbs e' = e_skbs e;
  tg_frame : id_frame l (w_mem (e_w e)) (w_mem (e_w e'));
  tg_ids : forall bd, bd ∈ l -> XAxiDma_BdGetId (w_mem (e_w e')) bd = 0;
  tg_log : e_log e' = e_log e ++ (l ≫= tx_events (w_mem (e_w e)) M);
  tg_packets : u32 (tx_packets (n_stats (e_lp e'))) =
    u32 (tx_packets (n_stats (e_lp e)) + zlen (filter (fun bd => tx_eof (w_mem (e_w e)) bd = true) l));
  tg_bytes : u32 (tx_bytes (n_stats (e_lp e'))) =
    u32 (tx_bytes (n_stats (e_lp e)) + foldr Z.add 0 ((fun bd => XAxiDma_BdGetLength (w_mem (e_w e)) bd M) <$> l));
}.

Lemma tx_gone_nil {D} M (e : Net D) : tx_gone M [] e e.
Proof.
  split; try done; cbn; rewrite ?app_nil_r, ?Z.add_0_r; try done.
  - by destruct e as [? [] ? ? ?].
  - by intros b Hb%elem_of_nil.
Qed.

Lemma bind_ext_in {A B} (f g : A -> list B) l : (forall x, x ∈ l -> f x = g x) -> l ≫= f = l ≫= g.
Proof.
  induction l as [|x l IH]; intros H; [done|]. cbn. rewrite (H x) by (by left). f_equal. apply IH.
  intros y Hy. apply H. by right.
Qed.

Lemma filter_ext_in {A} (f g : A -> bool) (l : list A) : (forall x, x ∈ l -> f x = g x) ->
  filter (fun x => f x = true) l = filter (fun x => g x = true) l.
Proof.
  induction l as [|x l IH]; intros H; [done|]. rewrite !filter_cons, (H x) by (by left).
  rewrite IH by (intros y Hy; apply H; by right). done.
Qed.

Lemma sum_app l1 l2 : foldr Z.add 0 (l1 ++ l2) = foldr Z.add 0 l1 + foldr Z.add 0 l2.
Proof. induction l1 as [|x l1 IH]; cbn; [done|]. rewrite IH. lia. Qed.

(** Going through two disjoint sets of the same ring, one after the other. *)
Lemma tx_gone_app {D} r (G : geom r) M l1 l2 (e e1 e2 : Net D) :
  (forall b, b ∈ l1 -> in_ring r b) -> (forall b, b ∈ l2 -> in_ring r b /\ b ∉ l1) ->
  tx_gone M l1 e e1 -> tx_gone M l2 e1 e2 -> tx_gone M (l1 ++ l2) e e2.
Proof.
  intros H1 H2 [A1 A2 A3 A4 A5 A6 A7 A8] [B1 B2 B3 B4 B5 B6 B7 B8].
  assert (K : forall b o, b ∈ l2 -> bd_off o ->
    XAxiDma_BdRead (w_mem (e_w e1)) b o = XAxiDma_BdRead (w_mem (e_w e)) b o).
  { intros b o Hb Ho. destruct (H2 b Hb) as [[j ->] Hn]. eapply (id_frame_read r G); eauto. }
  split; try congruence.
  - rewrite B1, A1. by destruct (e_lp e).
  - eapply id_frame_trans; (eapply id_frame_incl; [|eassumption]); set_solver.
  - intros b [Hb|Hb]%elem_of_app; [|auto]. destruct (decide (b ∈ l2)); [auto|]. rewrite <- (A5 b Hb).
    destruct (H1 b Hb) as [i ->]. eapply (id_frame_read r G); eauto with drv. intros x Hx. by apply H2.
  - rewrite B6, A6, <- app_assoc, bind_app. do 2 f_equal. apply bind_ext_in. intros b Hb.
    unfold tx_events, XAxiDma_BdGetBufAddr, XAxiDma_BdGetLength, XAxiDma_BdGetId. by rewrite !K by auto with drv.
  - rewrite B7, <- u32_add_l, A7, u32_add_l, filter_app. f_equal. unfold zlen. rewrite length_app.
    rewrite (filter_ext_in (tx_eof (w_mem (e_w e1))) (tx_eof (w_mem (e_w e))) l2); [lia|].
    intros b Hb. unfold tx_eof, XAxiDma_BdGetCtrl. by rewrite K by auto with drv.
  - rewrite B8, <- u32_add_l, A8, u32_add_l, fmap_app, sum_app. f_equal.
    rewrite (list_fmap_ext (fun bd => XAxiDma_BdGetLength (w_mem (e_w e1)) bd M)
      (fun bd => XAxiDma_BdGetLength (w_mem (e_w e)) bd M) l2); [lia|].
    intros j b Hb%list_elem_of_lookup_2. unfold XAxiDma_BdGetLength. by rewrite K by auto with drv.
Qed.

Section loop.
Context {D : Type} `{!RegBus D}.

Lemma en_get_eq {A} (f : Net D -> A) (e : Net D) : en_get f e = Some (f e, e).
Proof. done. Qed.

Lemma tx_one_run r n bd (e : Net D) : bd_ok bd ->
  exists e1, send_done_loop r (S n) bd e = send_done_loop r n (XAxiDma_mBdRingNext r bd) e1 /\
  tx_gone (MaxTransferLen r) [bd] e e1 /\ n_AxiDma (e_lp e1) = n_AxiDma (e_lp e).
Proof.
  intros Hok. set (m := w_mem (e_w e)). cbn [send_done_loop].
  rewrite (pt_bind_some (en_get (fun e => w_mem (e_w e))) _ e m e eq_refl). cbv zeta.
  rewrite (pt_bind_some (en_log _) _ e tt _ eq_refl).
  set (len := XAxiDma_BdGetLength m bd (MaxTransferLen r)). set (skb := XAxiDma_BdGetId m bd).
  set (e1 := e <|e_log := _|>).
  set (e2 := if negb (skb =? 0) then e1 <|e_log := e_log e1 ++ [NvFreeSkb skb]|> else e1).
  assert (E2 : (if negb (skb =? 0) then en_log (NvFreeSkb skb) else mret tt) e1 = Some (tt, e2))
    by (unfold e2; by destruct (negb _)).
  rewrite (pt_bind_some _ _ _ _ _ E2), (pt_bind_some _ _ _ _ _ (en_m_eq _ _)).
  assert (Hw : e_w e2 = e_w e) by (unfold e2; by destruct (negb _)).
  rewrite Hw. fold m. set (m1 := st_out (XAxiDma_BdSetId bd 0) m).
  rewrite (pt_bind_some (en_stats _) _ _ tt _ eq_refl).
  rewrite (pt_bind_some _ _ _ _ _ (en_get_eq _ _)). cbn [e_w w_mem set_field set_e_lp set_e_w].
  assert (Hc : XAxiDma_BdGetCtrl m1 bd = XAxiDma_BdGetCtrl m bd).
  { unfold m1, XAxiDma_BdSetId, XAxiDma_BdGetCtrl. by rewrite BdRead_Write_off by auto with drv. }
  rewrite Hc. fold (tx_eof m bd).
  assert (Hid : XAxiDma_BdGetId m1 bd = 0) by (unfold m1, XAxiDma_BdSetId, XAxiDma_BdGetId; st; done).
  assert (Hfr : id_frame [bd] m m1).
  { intros a Ha. unfold m1, XAxiDma_BdSetId.
    apply (word_frame_write bd XAXIDMA_BD_ID_OFFSET); [done|auto with drv|]. apply Ha. by left. }
  destruct (tx_eof m bd) eqn:He;
    [rewrite (pt_bind_some (en_stats _) _ _ tt _ eq_refl)|rewrite (pt_bind_some (mret tt) _ _ tt _ eq_refl)].
  all: eexists; split; [reflexivity|]; split; [|unfold e2; by destruct (negb _)].
  all: split; cbn [e_lp e_w e_skbs e_log w_mem w_dev set_field set_e_lp set_e_w n_stats set_n_stats tx_packets tx_bytes
         set_tx_packets set_tx_bytes]; fold m; rewrite ?Hw; try done.
  all: try (by intros b ->%list_elem_of_singleton).
  all: try (unfold e2; destruct (negb _); by destruct (e_lp e)).
  all: try (unfold e2; by destruct (negb _)).
  all: assert (Hlp : e_lp e2 = e_lp e) by (unfold e2; by destruct (negb _)); rewrite ?Hlp.
  all: try (change ([bd] ≫= tx_events m (MaxTransferLen r)) with (tx_events m (MaxTransferLen r) bd ++ []);
    rewrite app_nil_r; unfold tx_events; fold skb; fold len; unfold e2; destruct (skb =? 0); cbn; by rewrite <- ?app_assoc).
  all: first [rewrite filter_cons_True by done | rewrite filter_cons_False by (rewrite He; done) | idtac].
  all: rewrite ?u32_idemp, ?filter_nil; unfold zlen; f_equal; cbn; lia.
Qed.

(** The loop over [n] descriptors of the ring. *)
Lemma tx_loop_run r (G : geom r) n : forall i (e : Net D), Z.of_nat n <= AllCnt r ->
  exists e', send_done_loop r n (bd_at r i) e = Some (tt, e') /\
  tx_gone (MaxTransferLen r) (grp r i (Z.of_nat n)) e e' /\ n_AxiDma (e_lp e') = n_AxiDma (e_lp e).
Proof.
  induction n as [|n IH]; intros i e Hn.
  { exists e. split_and!; [done|apply tx_gone_nil|done]. }
  destruct (tx_one_run r n (bd_at r i) e (bd_at_ok r G i)) as (e1 & E1 & R1 & A1). rewrite E1, mBdRingNext_at by done.
  destruct (IH (i + 1) e1 ltac:(lia)) as (e' & E' & R' & A'). exists e'. split_and!; [done| |congruence].
  rewrite grp_cons by lia. replace (Z.of_nat (S n) - 1) with (Z.of_nat n) by lia.
  apply (tx_gone_app r G _ [bd_at r i] _ e e1 e'); [by intros b ->%list_elem_of_singleton; eexists| |done|done].
  intros b Hb. split; [by eapply grp_in_ring|]. intros ->%list_elem_of_singleton. revert Hb.
  replace (Z.of_nat n) with (Z.of_nat (S n) - 1) by lia. apply grp_head_notin; [done|lia].
Qed.

End loop.

(** ** Emptying the hardware's queue *)

(** [k] descriptors have been taken off the hardware's queue, gone through and
    freed; the transmit ring is written in the state that [e'] holds. *)
Record tx_reaped {D} (k : Z) (e e' : Net D) : Prop := {
  tr_k : 0 <= k <= HwCnt (TxBdRing (n_AxiDma (e_lp e)));
  tr_gone : let r := TxBdRing (n_AxiDma (e_lp e)) in
    tx_gone (MaxTransferLen r) (ztake k (a_hw (ring_abs r))) e e';
  tr_sim : let r := TxBdRing (n_AxiDma (e_lp e)) in let a := ring_abs r in
    sim r (TxBdRing (n_AxiDma (e_lp e'))) (mkARing (a_free a ++ ztake k (a_hw a)) (a_pre a) (zdrop k (a_hw a)) []);
  tr_max : MaxTransferLen (TxBdRing (n_AxiDma (e_lp e'))) = MaxTransferLen (TxBdRing (n_AxiDma (e_lp e)));
  tr_dma : n_AxiDma (e_lp e') = (n_AxiDma (e_lp e)) <|TxBdRing := TxBdRing (n_AxiDma (e_lp e'))|>;
  tr_complete : Forall (fun bd => XAxiDma_BdHwCompleted (w_mem (e_w e)) bd = true)
    (ztake k (a_hw (ring_abs (TxBdRing (n_AxiDma (e_lp e))))));
}.

Lemma tx_reaped_nil {D} (e : Net D) : let r := TxBdRing (n_AxiDma (e_lp e)) in
  ring_wf r -> PostCnt r = 0 -> tx_reaped 0 e e.
Proof.
  intros r W HP. pose proof (hw_cnt r W) as Hc. split; fold r; try done.
  - unfold zlen in Hc. lia.
  - apply tx_gone_nil.
  - cbv zeta. change (ztake 0 (a_hw (ring_abs r))) with (@nil Z). rewrite app_nil_r.
    assert (mkARing (a_free (ring_abs r)) (a_pre (ring_abs r)) (a_hw (ring_abs r)) [] = ring_abs r) as E
      by (unfold ring_abs; by rewrite HP).
    change (zdrop 0 (a_hw (ring_abs r))) with (a_hw (ring_abs r)). rewrite E. by apply sim_same.
  - by destruct (n_AxiDma (e_lp e)).
Qed.

Lemma tx_reaped_trans {D} k1 k2 (e e1 e2 : Net D) : ring_wf (TxBdRing (n_AxiDma (e_lp e))) ->
  tx_reaped k1 e e1 -> tx_reaped k2 e1 e2 -> tx_reaped (k1 + k2) e e2.
Proof.
  intros W [K1 G1 [W1 S1 A1] M1 D1 C1] [K2 G2 [W2 S2 A2] M2 D2 C2]. set (r := TxBdRing (n_AxiDma (e_lp e))) in *.
  set (r1 := TxBdRing (n_AxiDma (e_lp e1))) in *. cbv zeta in *. rewrite A1 in *. cbn [a_free a_pre a_hw a_post] in *.
  set (hw := a_hw (ring_abs r)) in *. pose proof (hw_cnt r W) as Hc. fold hw in Hc.
  rewrite <- (hw_cnt r1 W1), A1 in K2. cbn [a_hw] in K2.
  assert (Hk : k1 + k2 <= HwCnt r) by (unfold zlen, zdrop in *; rewrite length_drop in K2; lia).
  destruct (take_split hw k1 k2 ltac:(lia) ltac:(lia)) as [Et Ed]. pose proof W as [G _].
  assert (Hin : forall b, b ∈ ztake k1 hw -> in_ring r b) by (intros b; by apply (hw_split r k1 b)).
  assert (Hdis : forall b, b ∈ ztake k2 (zdrop k1 hw) -> in_ring r b /\ b ∉ ztake k1 hw).
  { intros b Hb. apply (hw_split r k1 b); [done..|]. eapply (elem_of_take_drop _ k2). by left. }
  split; fold r; fold hw; rewrite ?Et, ?Ed.
  - lia.
  - rewrite M1 in G2. cbv zeta. fold hw. rewrite Et. by apply (tx_gone_app r G _ _ _ e e1 e2).
  - cbv zeta. fold hw. rewrite Et, Ed. split; [done|by etransitivity|]. by rewrite A2, app_assoc.
  - congruence.
  - rewrite D2, D1. by destruct (n_AxiDma (e_lp e)).
  - apply Forall_app. split; [done|]. apply Forall_forall. intros bd Hbd.
    pose proof (proj1 (Forall_forall _ _) C2 bd Hbd) as <-. destruct (Hdis bd Hbd) as [[j ->] Hn].
    unfold XAxiDma_BdHwCompleted. symmetry. f_equal. eapply (id_frame_read r G); [apply (tg_frame _ _ _ _ G1)|..];
      auto with drv.
Qed.

Section done.
Context {D : Type} `{!RegBus D}.

Lemma put_tx_eq r (e : Net D) :
  put_tx r e = Some (tt, e <|e_lp := (e_lp e) <|n_AxiDma := (n_AxiDma (e_lp e)) <|TxBdRing := r|> |> |>).
Proof. done. Qed.

(** One round with a non-empty set. *)
Lemma tx_round n saved (e : Net D) : let r := TxBdRing (n_AxiDma (e_lp e)) in
  let k := spec_fromhw_count (w_mem (e_w e)) r TX_BD_NUM (ring_abs r) in
  ring_wf r -> PostCnt r = 0 -> 0 < k ->
  exists e', send_done (S n) saved e = send_done n k e' /\ tx_reaped k e e'.
Proof.
  intros r k W HP Hk. pose proof (fromhw_taken (w_mem (e_w e)) r TX_BD_NUM W HP) as (Hle & _ & Hset).
  fold k in Hle, Hset. destruct (Hset Hk) as (i & r1 & r2 & EF & [S1 G1 HA HM HG HF HS]). clear Hset.
  cbn [send_done]. rewrite (pt_bind_some tx_ring _ e r e eq_refl), (pt_bind_some _ _ _ _ _ (en_get_eq _ _)).
  rewrite EF, (pt_bind_some _ _ _ _ _ (put_tx_eq r1 e)). replace (k <=? 0) with false by lia.
  set (e1 := e <|e_lp := _|>). destruct (tx_loop_run r1 G1 (Z.to_nat k) i e1 ltac:(lia)) as (e2 & E2 & R2 & A2).
  rewrite (pt_bind_some _ _ _ _ _ E2).
  rewrite (pt_bind_some tx_ring _ e2 r1 e2) by (unfold tx_ring; by rewrite en_get_eq, A2).
  rewrite HF, (pt_bind_some _ _ _ _ _ (put_tx_eq r2 e2)). change (XST_SUCCESS =? XST_SUCCESS) with true. cbn [negb].
  eexists. split; [reflexivity|]. rewrite Z2Nat.id, HG in R2 by lia. rewrite HM in R2. fold r in R2.
  assert (HM2 : MaxTransferLen r2 = MaxTransferLen r1).
  { apply (f_equal snd) in HF. cbn [snd] in HF. rewrite <- HF. apply free_keeps. }
  split; fold r; cbn; try done.
  - destruct R2 as [B1 B2 B3 B4 B5 B6 B7 B8]. split; try done. cbn. rewrite B1. by destruct (e_lp e).
  - congruence.
  - rewrite A2. by destruct (n_AxiDma (e_lp e)).
  - apply ready_completed.
Qed.

Lemma send_done_run n : forall saved (e : Net D), let r := TxBdRing (n_AxiDma (e_lp e)) in
  ring_wf r -> PostCnt r = 0 -> HwCnt r < Z.of_nat n ->
  exists e' k saved', send_done n saved e = Some (Some saved', e') /\ tx_reaped k e e' /\
  (saved' = if k =? 0 then saved else saved') /\ (k <> 0 -> saved' <> 0) /\
  (let c := spec_fromhw_count (w_mem (e_w e)) r TX_BD_NUM (ring_abs r) in (0 < c -> k <> 0) /\ (c = 0 -> k = 0 /\ e' = e)) /\
  let r' := TxBdRing (n_AxiDma (e_lp e')) in
  spec_fromhw_count (w_mem (e_w e')) r' TX_BD_NUM (ring_abs r') = 0.
Proof.
  induction n as [|n IH]; intros saved e r W HP Hf.
  { pose proof (hw_cnt r W). unfold zlen in *. lia. }
  set (k := spec_fromhw_count (w_mem (e_w e)) r TX_BD_NUM (ring_abs r)).
  pose proof (fromhw_taken (w_mem (e_w e)) r TX_BD_NUM W HP) as (Hle & Hz & _). fold k in Hle, Hz.
  destruct (decide (k = 0)) as [E|E].
  - cbn [send_done]. rewrite (pt_bind_some tx_ring _ e r e eq_refl), (pt_bind_some _ _ _ _ _ (en_get_eq _ _)).
    rewrite (Hz E), (pt_bind_some _ _ _ _ _ (put_tx_same e)). change (0 <=? 0) with true. cbv iota.
    exists e, 0, saved. split_and!; try done; [by apply tx_reaped_nil|fold k; lia].
  - destruct (tx_round n saved e W HP ltac:(fold r k; lia)) as (e1 & E1 & R1). fold r k in E1, R1. rewrite E1.
    pose proof R1 as [_ _ [W1 S1 A1] _ _ _]. cbv zeta in A1. fold r in A1. set (r1 := TxBdRing (n_AxiDma (e_lp e1))) in *.
    destruct (IH k e1) as (e' & k2 & saved' & E2 & R2 & Hs & Hn & _ & Hd).
    + done.
    + fold r1. apply post_cnt_nil; [done|]. by rewrite A1.
    + fold r1. pose proof (hw_cnt r1 W1) as C1. rewrite A1 in C1. cbn [a_hw] in C1. pose proof (hw_cnt r W) as C.
      unfold zlen, zdrop in *. rewrite length_drop in C1. lia.
    + exists e', (k + k2), saved'. pose proof R2 as [Hk2 _ _ _ _ _].
      split_and!; [done|by eapply tx_reaped_trans|by replace (k + k2 =? 0) with false by lia|..|done].
      2:{ cbv zeta. fold k. lia. }
      intros _. destruct (Z.eqb_spec k2 0) as [->|]; [|auto]. rewrite Hs. lia.
Qed.

End done.

(** ** The bottom half *)

Section bottom_half.
Context {D : Type} `{!RegBus D} (map : Z -> Z -> Z).

Definition wake (e : Net D) : Net D := e <|e_lp := (e_lp e) <|n_queue_on := true|> |>.
Definition undefer (e : Net D) : Net D := e <|e_lp := (e_lp e) <|n_deferred := 0|> |>.

(** What follows the loop. *)
Definition retry (saved : Z) (e : Net D) : option (unit * Net D) :=
  if negb (n_deferred (e_lp e) =? 0) && negb (saved =? 0) then
    match axi_DmaSend_internal map (n_deferred (e_lp e)) (undefer e) with
    | Some (result, e') => Some (tt, if result =? XST_SUCCESS then wake e' else e')
    | None => None
    end
  else Some (tt, wake e).

Lemma handler_eq junk (e : Net D) : let r := TxBdRing (n_AxiDma (e_lp e)) in
  ring_wf r -> PostCnt r = 0 ->
  exists e1 k saved, DmaSendHandlerBH_netdev map junk e = retry saved e1 /\ tx_reaped k e e1 /\
  n_deferred (e_lp e1) = n_deferred (e_lp e) /\ n_queue_on (e_lp e1) = n_queue_on (e_lp e) /\
  (k = 0 -> saved = junk) /\ (k <> 0 -> saved <> 0) /\
  (let c := spec_fromhw_count (w_mem (e_w e)) r TX_BD_NUM (ring_abs r) in (0 < c -> k <> 0) /\ (c = 0 -> k = 0 /\ e1 = e)) /\
  let r' := TxBdRing (n_AxiDma (e_lp e1)) in
  spec_fromhw_count (w_mem (e_w e1)) r' TX_BD_NUM (ring_abs r') = 0.
Proof.
  intros r W HP. pose proof (hw_cnt r W) as Hc.
  destruct (send_done_run (S (Z.to_nat (HwCnt r))) junk e W HP ltac:(fold r; unfold zlen in Hc; lia))
    as (e1 & k & saved & E & R & Hs & Hn & Hp & Hd).
  pose proof (tg_lp _ _ _ _ (tr_gone _ _ _ R)) as Hlp.
  exists e1, k, saved. split_and!; try done.
  - unfold DmaSendHandlerBH_netdev. rewrite (pt_bind_some tx_ring _ e r e eq_refl), (pt_bind_some _ _ _ _ _ E).
    rewrite (pt_bind_some _ _ _ _ _ (en_get_eq _ _)). unfold retry. destruct (negb _ && negb _); [|reflexivity].
    unfold mbind at 1, pt_bind at 1. unfold mbind at 1, pt_bind at 1. change (en_lp _ e1) with (Some (tt, undefer e1)).
    cbn [fst snd]. destruct (axi_DmaSend_internal map _ (undefer e1)) as [[res e']|]; [|done].
    by destruct (res =? XST_SUCCESS).
  - by rewrite Hlp.
  - by rewrite Hlp.
  - intros ->. by rewrite Hs.
Qed.

End bottom_half.

(** ** Properties *)

(** The transmit bottom half.  On a well-formed ring it always gets through
    the completed frames: every descriptor of them is unmapped with its address
    and length and a buffer that it names is freed, in order; packets and bytes
    are counted; the descriptors are free again and none of the completed
    frames is left behind.  Without a deferred frame it then wakes the queue;
    with one, when something was reclaimed, the frame is sent and the queue
    woken if it fits now, and otherwise it stays deferred with the queue as it
    was. *)
Theorem eth_send_done {D} `{!RegBus D} map junk (e : Net D) :
  let r := TxBdRing (n_AxiDma (e_lp e)) in let skb := n_deferred (e_lp e) in
  ring_wf r -> PostCnt r = 0 ->
  exists e1 k, tx_reaped k e e1 /\
  (let r' := TxBdRing (n_AxiDma (e_lp e1)) in
   spec_fromhw_count (w_mem (e_w e1)) r' TX_BD_NUM (ring_abs r') = 0) /\
  (skb = 0 -> DmaSendHandlerBH_netdev map junk e = Some (tt, wake e1)) /\
  (forall n x, skb <> 0 -> k <> 0 -> sendable map n skb x (undefer e1) ->
   exists e2 i, DmaSendHandlerBH_netdev map junk e = Some (tt, wake e2) /\
                send_done_as map n skb x (undefer e1) e2 i) /\
  (forall x, skb <> 0 -> k <> 0 -> e_skbs e !! skb = Some x ->
   let parts := Z.of_nat (length (k_frags x)) + 1 in
   FreeCnt (TxBdRing (n_AxiDma (e_lp e1))) < parts < TX_BD_NUM ->
   DmaSendHandlerBH_netdev map junk e = Some (tt, e1 <|e_lp := (e_lp e1) <|n_queue_on := false|> |>)).
Proof.
  intros r skb W HP. destruct (handler_eq map junk e W HP) as (e1 & k & saved & E & R & Hdf & Hq & Hz & Hn & _ & Hd).
  pose proof (tg_skbs _ _ _ _ (tr_gone _ _ _ R)) as Hsk. fold skb in Hdf. exists e1, k. rewrite E. unfold retry.
  rewrite Hdf. split_and!; try done.
  - intros ->. done.
  - intros n x Hs Hk Hsend. replace (skb =? 0) with false by lia. replace (saved =? 0) with false by (specialize (Hn Hk); lia).
    cbn [negb andb]. destruct (send_run map n skb x (undefer e1) Hsend) as (e2 & i & E2 & S2). rewrite E2.
    by exists e2, i.
  - intros x Hs Hk Hx Hroom. replace (skb =? 0) with false by lia. replace (saved =? 0) with false by (specialize (Hn Hk); lia).
    cbn [negb andb]. rewrite (send_refused map skb x (undefer e1)); [|by rewrite <- Hsk in Hx|cbn; lia].
    unfold refused. replace (_ <? TX_BD_NUM) with true by lia. change (XST_FAILURE =? XST_SUCCESS) with false.
    rewrite <- Hdf. unfold undefer. done.
Qed.

(** A deferred frame can be lost.  When the bottom half runs with nothing
    completed (and finds its uninitialised counter at zero), it wakes the queue
    although a frame is still deferred; the next frame that does not fit takes
    the place of the first one, which is then neither with the hardware nor
    freed nor deferred. *)
Theorem eth_deferred_lost {D} `{!RegBus D} map (e : Net D) skb2 x2 :
  let r := TxBdRing (n_AxiDma (e_lp e)) in let parts := Z.of_nat (length (k_frags x2)) + 1 in
  ring_wf r -> PostCnt r = 0 -> spec_fromhw_count (w_mem (e_w e)) r TX_BD_NUM (ring_abs r) = 0 ->
  n_deferred (e_lp e) <> skb2 -> e_skbs e !! skb2 = Some x2 -> FreeCnt r < parts < TX_BD_NUM ->
  exists e1 e2, DmaSendHandlerBH_netdev map 0 e = Some (tt, e1) /\ n_queue_on (e_lp e1) = true /\
  n_deferred (e_lp e1) = n_deferred (e_lp e) /\
  axi_send map skb2 e1 = Some (0, e2) /\ n_deferred (e_lp e2) = skb2 /\ e_log e2 = e_log e /\ e_w e2 = e_w e /\
  n_AxiDma (e_lp e2) = n_AxiDma (e_lp e).
Proof.
  intros r parts W HP Hnone Hne Hx Hroom.
  assert (E : DmaSendHandlerBH_netdev map 0 e = Some (tt, wake e)).
  { destruct (handler_eq map 0 e W HP) as (e1 & k & saved & E & _ & _ & _ & Hz & _ & [_ Hc] & _).
    destruct (Hc Hnone) as [Hk ->]. rewrite E, (Hz Hk). unfold retry. by rewrite andb_false_r. }
  exists (wake e), (refused skb2 parts (wake e)). unfold axi_send.
  rewrite (pt_bind_some _ _ _ _ _ (send_refused map skb2 x2 (wake e) Hx (or_introl (proj1 Hroom)))).
  unfold refused. fold parts. replace (parts <? TX_BD_NUM) with true by lia. done.
Qed.

(** *** The example frame, sent and completed *)

Definition ex_tx_sent : Net RegFile :=
  match axi_send ex_map 0xE000 ex_tx_net with Some (_, e) => e | None => ex_tx_net end.

Definition ex_tx_done : Net RegFile :=
  ex_tx_sent <|e_w := mkWorld
    (st_out (XAxiDma_BdWrite 0x80001000 XAXIDMA_BD_STS_OFFSET XAXIDMA_BD_STS_COMPLETE_MASK;;
             XAxiDma_BdWrite 0x80001040 XAXIDMA_BD_STS_OFFSET XAXIDMA_BD_STS_COMPLETE_MASK)
       (w_mem (e_w ex_tx_sent))) (w_dev (e_w ex_tx_sent))|>.

Lemma ex_tx_sent_wf : ring_wf (TxBdRing (n_AxiDma (e_lp ex_tx_sent))).
Proof.
  destruct (send_run ex_map 23 0xE000 ex_skb ex_tx_net ex_sendable) as (e' & i & E & S).
  assert (ex_tx_sent = e') as ->; [|exact (sim_wf _ _ _ (proj1 (sd_ring _ _ _ _ _ _ _ S)))].
  unfold ex_tx_sent, axi_send. by rewrite (pt_bind_some _ _ _ _ _ E).
Qed.

Lemma ex_tx_done_lp : e_lp ex_tx_done = e_lp ex_tx_sent.
Proof. unfold ex_tx_done. apply lp_of_w. Qed.

Lemma eth_send_done_witness : exists e', DmaSendHandlerBH_netdev ex_map 0 ex_tx_done = Some (tt, e') /\
  n_queue_on (e_lp e') = true.
Proof.
  destruct (eth_send_done ex_map 0 ex_tx_done) as (e1 & k & _ & _ & H & _).
  - rewrite ex_tx_done_lp. exact ex_tx_sent_wf.
  - vm_compute. reflexivity.
  - exists (wake e1). split; [apply H; vm_compute; reflexivity|reflexivity].
Defined.

(** The frame of two parts is unmapped part by part and freed once. *)
Example ex_tx_done_log :
  (e ← DmaSendHandlerBH_netdev ex_map 0 ex_tx_done; Some (e_log e.2, n_stats (e_lp e.2))) =
  Some ([NvUnmap 0x40000 64 DMA_TO_DEVICE; NvFreeSkb 0xE000; NvUnmap 0x41000 1000 DMA_TO_DEVICE],
        mkStats 1 1064 0 0 0 0).
Proof. vm_compute. reflexivity. Qed.

Lemma eth_deferred_lost_witness : exists e1 e2,
  DmaSendHandlerBH_netdev ex_map 0 (ex_tx_net <|e_lp := ex_local <|n_deferred := 0xE200|> |>) = Some (tt, e1) /\
  axi_send ex_map 0xE100 e1 = Some (0, e2) /\ n_deferred (e_lp e2) = 0xE100.
Proof.
  destruct (eth_deferred_lost ex_map (ex_tx_net <|e_lp := ex_local <|n_deferred := 0xE200|> |>) 0xE100 ex_long)
    as (e1 & e2 & E1 & _ & _ & E2 & E3 & _).
  - exact (ex_wf ChTx).
  - vm_compute. reflexivity.
  - vm_compute. reflexivity.
  - vm_compute. discriminate.
  - vm_compute. reflexivity.
  - split; vm_compute; reflexivity.
  - exists e1, e2. split; [exact E1|split; [exact E2|exact E3]].
Defined.
