(* ===== verification/EthRun.v ===== *)
(** * Where the socket buffers are

    Runs of the transmit side: frames from the network layer, the hardware
    completing descriptors, bottom halves.  The frames that were taken are freed
    in their order, then come those named by the descriptors of the hardware's
    queue, then the deferred one. *)

From S2P Require Import Prelude Kernel Hw Bd BdRing RingGeom RingSpec RingHw RingCreate RingStart RingSys RingClient Dma DmaBuf AesDma AesProps AesThms Temac EthDma EthProps EthSend EthTx.

(** ** The four places of a frame *)

Definition freed (log : list nevent) : list Z :=
  omap (fun v => match v with NvFreeSkb skb => Some skb | _ => None end) log.

(** The buffers that the descriptors [l] name. *)
Definition named (m : Mem) (l : list Z) : list Z := filter (fun skb => skb <> 0) (ids m l).

Definition deferred (lp : net_local) : list Z := if n_deferred lp =? 0 then [] else [n_deferred lp].

(** Parts that a descriptor can hold. *)
Definition parts_ok (n : Z) (x : sk_buff) : Prop :=
  Forall (fun p => 0 < p.2 <= Z.ones n) ((k_data x, k_headlen x) :: k_frags x).

(** The engine realigns data for every descriptor of the ring. *)
Definition realigns (m : Mem) (r : XAxiDma_BdRing) : Prop :=
  forall i, XAxiDma_BdRead m (bd_at r i) XAXIDMA_BD_HAS_DRE_OFFSET .& XAXIDMA_BD_HAS_DRE_MASK <> 0.

(** [shuffle a b l]: [l] has the elements of [a] and those of [b], both in their
    order. *)
Inductive shuffle : list Z -> list Z -> list Z -> Prop :=
| shuffle_nil : shuffle [] [] []
| shuffle_l a b l x : shuffle a b l -> shuffle (a ++ [x]) b (l ++ [x])
| shuffle_r a b l x : shuffle a b l -> shuffle a (b ++ [x]) (l ++ [x]).

Lemma shuffle_app a b l c : shuffle a b l -> shuffle (a ++ c) b (l ++ c).
Proof.
  intros H. induction c as [|x c IH] using rev_ind; [by rewrite !app_nil_r|]. rewrite !app_assoc. by constructor.
Qed.

Lemma shuffle_perm a b l : shuffle a b l -> l ≡ₚ a ++ b.
Proof.
  induction 1 as [|a b l x _ IH|a b l x _ IH]; [done|..]; rewrite IH; [|by rewrite app_assoc].
  rewrite <- !app_assoc. f_equiv. apply Permutation_app_comm.
Qed.

(** The frames taken so far: those of few enough parts, and those that are
    dropped because they have too many for the ring. *)
Definition frames : Type := list Z * list Z.
Definition few_parts (x : sk_buff) : bool := Z.of_nat (length (k_frags x)) + 1 <? TX_BD_NUM.
Definition noted (skb : Z) (x : sk_buff) (g : frames) : frames :=
  if few_parts x then (g.1 ++ [skb], g.2) else (g.1, g.2 ++ [skb]).

Record tx_inv {D} (n : Z) (taken : frames) (e : Net D) : Prop := {
  ti_wf : ring_wf (TxBdRing (n_AxiDma (e_lp e)));
  ti_pre : PreCnt (TxBdRing (n_AxiDma (e_lp e))) = 0;
  ti_post : PostCnt (TxBdRing (n_AxiDma (e_lp e))) = 0;
  ti_width : 0 <= n <= 26;
  ti_max : MaxTransferLen (TxBdRing (n_AxiDma (e_lp e))) = Z.ones n;
  ti_dre : realigns (w_mem (e_w e)) (TxBdRing (n_AxiDma (e_lp e)));
  ti_deferred : n_deferred (e_lp e) <> 0 ->
    is_u32 (n_deferred (e_lp e)) /\ exists x, e_skbs e !! n_deferred (e_lp e) = Some x /\ parts_ok n x /\ few_parts x = true;
  ti_queue : n_queue_on (e_lp e) = true -> n_deferred (e_lp e) = 0;
  ti_taken : exists sent, shuffle sent taken.2 (freed (e_log e)) /\
    taken.1 = sent ++ named (w_mem (e_w e)) (a_hw (ring_abs (TxBdRing (n_AxiDma (e_lp e))))) ++ deferred (e_lp e);
}.

Lemma freed_app l1 l2 : freed (l1 ++ l2) = freed l1 ++ freed l2.
Proof. apply omap_app. Qed.

Lemma named_app m l1 l2 : named m (l1 ++ l2) = named m l1 ++ named m l2.
Proof. unfold named, ids. by rewrite fmap_app, filter_app. Qed.

(** The frees of a completed set are the buffers that it names. *)
Lemma freed_events m M l : freed (l ≫= tx_events m M) = named m l.
Proof.
  induction l as [|bd l IH]; [done|]. change (freed (tx_events m M bd ++ l ≫= tx_events m M) = named m ([bd] ++ l)).
  rewrite freed_app, named_app, IH. f_equal. unfold tx_events, named. cbn [ids fmap list_fmap].
  destruct (Z.eqb_spec (XAxiDma_BdGetId m bd) 0) as [E|E].
  - by rewrite filter_cons_False by (rewrite E; auto).
  - by rewrite filter_cons_True.
Qed.

(** A frame with legal parts fits every descriptor. *)
Lemma parts_fit {D} map n taken (e : Net D) x i seg : tx_inv n taken e -> parts_ok n x -> seg ∈ skb_segs map x ->
  seg_fits (w_mem (e_w e)) n (bd_at (TxBdRing (n_AxiDma (e_lp e))) i) seg.
Proof.
  intros I P Hs. unfold skb_segs in Hs. apply list_elem_of_fmap in Hs as (p & -> & Hp).
  pose proof (proj1 (Forall_forall _ _) P p Hp) as Hl. split; [done|]. unfold buf_ok.
  rewrite (proj2 (Z.eqb_neq _ 0) (ti_dre _ _ _ I i)). by rewrite andb_false_r.
Qed.

Lemma inv_sendable {D} `{!RegBus D} map n taken skb x (e : Net D) : tx_inv n taken e -> parts_ok n x ->
  e_skbs e !! skb = Some x -> zlen (skb_segs map x) < TX_BD_NUM ->
  zlen (skb_segs map x) <= FreeCnt (TxBdRing (n_AxiDma (e_lp e))) -> sendable map n skb x e.
Proof. intros I P Hx Hf Hr. pose proof I as []. split; try done. intros. by eapply parts_fit. Qed.

(** ** Preservation *)

Lemma deferred_nil lp : n_deferred lp = 0 -> deferred lp = [].
Proof. unfold deferred. by intros ->. Qed.

Lemma deferred_one lp : n_deferred lp <> 0 -> deferred lp = [n_deferred lp].
Proof. intros H. unfold deferred. by replace (n_deferred lp =? 0) with false by lia. Qed.

Lemma named_same m m' l : ids m' l = ids m l -> named m' l = named m l.
Proof. unfold named. by intros ->. Qed.

(** The identifiers of a sent frame: the buffer, then none. *)
Lemma named_sent map r n skb i x m : is_u32 skb -> skb <> 0 -> sent map r n skb i x m ->
  named m (grp r i (zlen (skb_segs map x))) = [skb].
Proof.
  intros Hu Hne [Hf _ _].
  assert (E : ids m (grp r i (zlen (skb_segs map x))) = skb :: replicate (length (k_frags x)) 0).
  { apply list_eq. intros k. unfold ids, grp. rewrite !list_lookup_fmap.
    destruct (decide (k < length (skb_segs map x))%nat) as [Hk|Hk].
    - rewrite lookup_seqZ_lt by (unfold zlen; lia). cbn.
      destruct (lookup_lt_is_Some_2 _ _ Hk) as [seg Hs]. pose proof (fi_id _ _ _ _ _ (Hf k seg Hs)) as ->.
      destruct k as [|k]; [cbn; by rewrite u32_small|]. change (u32 _) with 0.
      change ((skb :: ?l) !! S k) with (l !! k). rewrite lookup_replicate_2; [done|]. unfold skb_segs in Hk. rewrite length_fmap in Hk. cbn in Hk. lia.
    - rewrite lookup_seqZ_ge by (unfold zlen; lia). symmetry. apply lookup_ge_None_2. cbn. rewrite length_replicate.
      unfold skb_segs in Hk. rewrite length_fmap in Hk. cbn in Hk. lia. }
  unfold named. rewrite E, filter_cons_True by done. f_equal. clear E. induction (length (k_frags x)) as [|l IH]; [done|].
  cbn [replicate]. rewrite filter_cons_False by auto. exact IH.
Qed.

Section preserve.
Context {D : Type} `{!RegBus D} (n : Z).

Lemma inv_sent map taken skb x (e e' : Net D) i : tx_inv n taken e -> n_deferred (e_lp e) = 0 ->
  is_u32 skb -> skb <> 0 -> send_done_as map n skb x e e' i -> tx_inv n (taken.1 ++ [skb], taken.2) e'.
Proof.
  intros [W P1 P2 Hn HM HD HF HQ HT] Hd0 Hu Hne [[[W' S' A'] Hfree] Hsent Hfr Hb (HR & HM' & _) _ Hrest].
  assert (n_deferred (e_lp e') = n_deferred (e_lp e) /\ n_queue_on (e_lp e') = n_queue_on (e_lp e) /\ e_log e' = e_log e)
    as (Q1 & Q2 & Q4) by (rewrite Hrest; done). clear Hrest. cbv zeta in *. set (r := TxBdRing (n_AxiDma (e_lp e))) in *. set (r' := TxBdRing (n_AxiDma (e_lp e'))) in *.
  set (m := w_mem (e_w e)) in *. set (m' := w_mem (e_w e')) in *. pose proof W as [G _].
  destruct (cnt_nil r W) as [_ Hpost]. destruct (cnt_nil r' W') as [Hpre' _]. split; try done.
  - apply Hpre'. by rewrite A'.
  - apply (post_cnt_nil r' W'). rewrite A'. cbn [a_post]. auto.
  - fold r'. congruence.
  - intros j. fold r'. rewrite (same_geom_at r r' j S'), Hb. apply HD.
  - by rewrite Q1, Hd0.
  - by rewrite Q1.
  - fold r' m'. rewrite A'. cbn [a_hw]. rewrite named_app, (named_sent map r n skb i x m') by done.
    rewrite (named_same m m') by (by eapply hw_ids_frame). rewrite (deferred_nil (e_lp e')) by congruence.
    destruct HT as (s & Hsh & HT). rewrite (deferred_nil (e_lp e)), app_nil_r in HT by done.
    exists s. rewrite Q4. split; [done|]. cbn [fst]. by rewrite HT, app_nil_r, app_assoc.
Qed.

Lemma inv_refused taken skb x (e : Net D) : let parts := Z.of_nat (length (k_frags x)) + 1 in
  tx_inv n taken e -> n_deferred (e_lp e) = 0 -> is_u32 skb -> skb <> 0 ->
  e_skbs e !! skb = Some x -> parts_ok n x -> tx_inv n (noted skb x taken) (refused skb parts e).
Proof.
  intros parts [W P1 P2 Hn HM HD HF HQ HT] Hd0 Hu Hne Hx Hp. destruct HT as (s & Hsh & HT).
  rewrite (deferred_nil (e_lp e)), app_nil_r in HT by done.
  unfold refused, noted. pose proof (eq_refl (few_parts x)) as Hfew. unfold few_parts in Hfew at 2. fold parts in Hfew.
  rewrite <- Hfew. destruct (few_parts x) eqn:Ef; split; cbn [e_lp e_w e_skbs e_log n_AxiDma n_deferred n_queue_on set_field set_e_lp set_e_log
    set_n_queue_on set_n_deferred set_n_stats]; try done.
  - eauto 10.
  - exists s. split; [done|]. rewrite deferred_one by done. cbn [fst]. by rewrite HT, app_assoc.
  - exists s. split; [rewrite freed_app; by constructor|]. rewrite deferred_nil by done. by rewrite app_nil_r.
Qed.

Lemma inv_reaped taken k (e e1 : Net D) : tx_inv n taken e -> tx_reaped k e e1 -> tx_inv n taken e1.
Proof.
  intros [W P1 P2 Hn HM HD HF HQ HT] [Hk Hg [W' S' A'] HM' _ _]. cbv zeta in *.
  set (r := TxBdRing (n_AxiDma (e_lp e))) in *. set (r' := TxBdRing (n_AxiDma (e_lp e1))) in *.
  pose proof W as [G _]. destruct (cnt_nil r' W') as [Hpre' _]. pose proof Hg as [Q1 _ Q3 Q4 _ Q6 _ _].
  assert (Hdf : n_deferred (e_lp e1) = n_deferred (e_lp e)) by by rewrite Q1.
  assert (Hqu : n_queue_on (e_lp e1) = n_queue_on (e_lp e)) by by rewrite Q1. split; try done.
  - apply Hpre'. rewrite A'. cbn [a_pre]. unfold ring_abs. by rewrite P1.
  - apply (post_cnt_nil r' W'). by rewrite A'.
  - fold r'. congruence.
  - intros j. fold r'. rewrite (same_geom_at r r' j S').
    rewrite (id_frame_read r G _ _ _ j XAXIDMA_BD_HAS_DRE_OFFSET Q4); [apply HD| |auto with drv|by left].
    intros bd. apply (hw_split r k bd W Hk).
  - by rewrite Hdf, Q3.
  - by rewrite Hdf, Hqu.
  - fold r'. rewrite A'. cbn [a_hw]. set (hw := a_hw (ring_abs r)) in *. unfold deferred in *. rewrite Hdf.
    destruct HT as (s & Hsh & HT). exists (s ++ named (w_mem (e_w e)) (ztake k hw)).
    split; [rewrite Q6, freed_app, freed_events; by apply shuffle_app|].
    rewrite HT, <- app_assoc. f_equal. rewrite app_assoc. f_equal.
    rewrite (named_same (w_mem (e_w e)) (w_mem (e_w e1)) (zdrop k hw)).
    + rewrite <- named_app. unfold ztake, zdrop. by rewrite take_drop.
    + eapply (ids_frame r G); [exact Q4|..]; intros bd; apply (hw_split r k bd W Hk).
Qed.

Lemma inv_undefer taken (e : Net D) : tx_inv n taken e -> n_deferred (e_lp e) <> 0 ->
  exists l, taken.1 = l ++ [n_deferred (e_lp e)] /\ tx_inv n (l, taken.2) (undefer e).
Proof.
  intros [W P1 P2 Hn HM HD HF HQ (s & Hsh & HT)] Hd. rewrite deferred_one in HT by done. eexists.
  split; [by rewrite app_assoc in HT|]. split; try done. exists s. split; [done|]. by rewrite deferred_nil, app_nil_r.
Qed.

Lemma inv_wake taken (e : Net D) : tx_inv n taken e -> n_deferred (e_lp e) = 0 -> tx_inv n taken (wake e).
Proof. intros [] H. split; try done. Qed.

(** Trying to send a frame, from a state without a deferred one. *)
Lemma inv_try map taken skb x (e : Net D) : tx_inv n taken e -> n_deferred (e_lp e) = 0 -> is_u32 skb -> skb <> 0 ->
  e_skbs e !! skb = Some x -> parts_ok n x ->
  exists result e', axi_DmaSend_internal map skb e = Some (result, e') /\ tx_inv n (noted skb x taken) e' /\
  (result = XST_SUCCESS -> n_deferred (e_lp e') = 0).
Proof.
  intros I Hd Hu Hne Hx Hp. set (parts := Z.of_nat (length (k_frags x)) + 1).
  destruct (decide (parts < TX_BD_NUM /\ parts <= FreeCnt (TxBdRing (n_AxiDma (e_lp e))))) as [[H1 H2]|H].
  - destruct (send_run map n skb x e) as (e' & i & E & S).
    { eapply inv_sendable; eauto; by rewrite skb_segs_len. }
    exists XST_SUCCESS, e'. split_and!; [done|unfold noted, few_parts; fold parts; rewrite (proj2 (Z.ltb_lt _ _) H1); by eapply inv_sent|]. destruct (send_rest _ _ _ _ _ _ _ S) as (-> & _). done.
  - exists XST_FAILURE, (refused skb parts e). split_and!; [|by apply (inv_refused taken skb x)|done].
    apply send_refused; [done|]. fold parts. lia.
Qed.

End preserve.

(** ** Runs *)

Section runs.
Context {D : Type} `{!RegBus D} (map : Z -> Z -> Z) (n : Z).

(** The condition under which a bottom half does not wake the queue over a
    deferred frame: nothing is deferred, or the uninitialised
    [bd_processed_save] does not happen to be zero, or something is completed.
    [eth_deferred_lost] shows what a bottom half does otherwise. *)
Definition reap_clean (junk : Z) (e : Net D) : Prop :=
  n_deferred (e_lp e) = 0 \/ junk <> 0 \/
  0 < spec_fromhw_count (w_mem (e_w e)) (TxBdRing (n_AxiDma (e_lp e))) TX_BD_NUM
        (ring_abs (TxBdRing (n_AxiDma (e_lp e)))).

(** One step of the transmit side, with the frames taken so far: the network
    layer passes a frame while the queue is on, the hardware writes status words
    of descriptors in its queue, a bottom half runs in a state that satisfies
    [reap_clean], a socket buffer other than the deferred one is prepared. *)
Inductive tx_step : frames * Net D -> frames * Net D -> Prop :=
| step_take taken e skb x rc e' :
    n_queue_on (e_lp e) = true -> is_u32 skb -> skb <> 0 -> e_skbs e !! skb = Some x -> parts_ok n x ->
    axi_send map skb e = Some (rc, e') -> tx_step (taken, e) (noted skb x taken, e')
| step_complete taken e w' :
    sts_frame (a_hw (ring_abs (TxBdRing (n_AxiDma (e_lp e))))) (w_mem (e_w e)) (w_mem w') ->
    tx_step (taken, e) (taken, e <|e_w := w'|>)
| step_reap taken e junk e' :
    reap_clean junk e -> DmaSendHandlerBH_netdev map junk e = Some (tt, e') -> tx_step (taken, e) (taken, e')
| step_prepare taken e skb x :
    skb <> n_deferred (e_lp e) -> tx_step (taken, e) (taken, e <|e_skbs := <[skb := x]> (e_skbs e)|>).

Lemma inv_complete taken (e : Net D) w' : tx_inv n taken e ->
  sts_frame (a_hw (ring_abs (TxBdRing (n_AxiDma (e_lp e))))) (w_mem (e_w e)) (w_mem w') ->
  tx_inv n taken (e <|e_w := w'|>).
Proof.
  intros [W P1 P2 Hn HM HD HF HQ HT] F. pose proof W as [G _].
  assert (Hin : forall bd, bd ∈ a_hw (ring_abs (TxBdRing (n_AxiDma (e_lp e)))) -> in_ring (TxBdRing (n_AxiDma (e_lp e))) bd)
    by (intros; by apply hw_in_ring).
  split; try done.
  - intros j. cbn. rewrite (sts_frame_read _ G _ _ _ j XAXIDMA_BD_HAS_DRE_OFFSET F); [apply HD|done|auto with drv|by left].
  - cbn [e_lp e_w e_log set_field set_e_w]. rewrite (named_same (w_mem (e_w e)) (w_mem w')); [done|].
    apply list_fmap_ext. intros j bd Hb%list_elem_of_lookup_2. destruct (Hin bd Hb) as [i ->].
    eapply (sts_frame_read _ G); [exact F|done|auto with drv|by left].
Qed.

(** A bottom half. *)
Lemma inv_reap taken (e : Net D) junk : tx_inv n taken e ->
  exists e', DmaSendHandlerBH_netdev map junk e = Some (tt, e') /\
  (reap_clean junk e -> tx_inv n taken e').
Proof.
  intros I. destruct (handler_eq map junk e (ti_wf _ _ _ I) (ti_post _ _ _ I))
    as (e1 & k & saved & E & R & Hdf & _ & Hz & Hne & [Hc _] & _).
  pose proof (inv_reaped n taken k e e1 I R) as I1. rewrite E. unfold retry. rewrite Hdf.
  destruct (Z.eqb_spec (n_deferred (e_lp e)) 0) as [H0|H0]; cbn [negb andb].
  { exists (wake e1). split; [done|]. intros _. apply inv_wake; [done|congruence]. }
  destruct (Z.eqb_spec saved 0) as [Hs|Hs]; cbn [negb].
  { exists (wake e1). split; [done|]. intros [?|[Hj|Hp]]; [done|exfalso..].
    - destruct (decide (k = 0)); [apply Hj; rewrite <- Hs; symmetry|]; auto. by apply Hne.
    - apply Hne; auto. }
  destruct (inv_undefer n taken e1 I1) as (l & P & I2); [congruence|]. rewrite Hdf in P.
  destruct (ti_deferred _ _ _ I1) as (Hu & x & Hx & Hp & Hfew); [congruence|]. rewrite Hdf in Hu, Hx.
  destruct (inv_try n map _ _ x (undefer e1) I2 eq_refl Hu H0 Hx Hp) as (res & e2 & E2 & I3 & Hr). rewrite E2.
  unfold noted in I3. rewrite Hfew in I3. cbn [fst snd] in I3. rewrite <- P, <- surjective_pairing in I3.
  exists (if res =? XST_SUCCESS then wake e2 else e2). split; [done|]. intros _.
  destruct (Z.eqb_spec res XST_SUCCESS); [|done]. apply inv_wake; auto.
Qed.

(** A frame from the network layer. *)
Lemma inv_take taken (e : Net D) skb x : tx_inv n taken e -> n_queue_on (e_lp e) = true -> is_u32 skb -> skb <> 0 ->
  e_skbs e !! skb = Some x -> parts_ok n x ->
  exists e', axi_send map skb e = Some (0, e') /\ tx_inv n (noted skb x taken) e'.
Proof.
  intros I Hq Hu Hne Hx Hp.
  destruct (inv_try n map taken skb x e I (ti_queue _ _ _ I Hq) Hu Hne Hx Hp) as (res & e' & E & I' & _).
  exists e'. split; [|done]. unfold axi_send. by rewrite (pt_bind_some _ _ _ _ _ E).
Qed.

Lemma step_inv s s' : tx_step s s' -> tx_inv n s.1 s.2 -> tx_inv n s'.1 s'.2.
Proof.
  intros H I. destruct H as [taken e skb x rc e' Hq Hu Hne Hx Hp E|taken e w' F|taken e junk e' Hc E|taken e skb x Hne];
    cbn [fst snd] in *.
  - destruct (inv_take taken e skb x I Hq Hu Hne Hx Hp) as (e1 & E1 & I1). rewrite E in E1. by injection E1 as _ <-.
  - by apply inv_complete.
  - destruct (inv_reap taken e junk I) as (e1 & E1 & I1). rewrite E in E1. injection E1 as <-. auto.
  - destruct I. split; try done. intros Hd. destruct (ti_deferred0 Hd) as (Hu & y & Hy & Hp & Hfew). split; [done|].
    exists y. cbn. by rewrite lookup_insert_ne.
Qed.

Lemma tx_run_inv s s' : rtc tx_step s s' -> tx_inv n s.1 s.2 -> tx_inv n s'.1 s'.2.
Proof. induction 1; eauto using step_inv. Qed.

End runs.

(** ** The property *)

(** C7: accounting of transmitted frames.  After any run of the transmit side
    (frames taken while the queue is on, completions by the hardware, bottom
    halves that find something completed, nothing deferred or a non-zero
    uninitialised counter), the frames taken from the network layer that have few
    enough parts are, each once and in this order, those completed, those that the
    descriptors of the hardware's queue name and the deferred one; what was freed
    is the completed ones in their order, with the frames of too many parts, which
    are dropped at once, in between; the queue is never on while a frame is
    deferred; and the next bottom half and the next frame are again accepted.  So
    once the hardware's queue is empty and nothing is deferred, every frame taken
    has been freed once. *)
Theorem eth_tx_accounting {D} `{!RegBus D} map n taken0 taken (e0 e : Net D) :
  rtc (tx_step map n) (taken0, e0) (taken, e) -> tx_inv n taken0 e0 ->
  let hw := a_hw (ring_abs (TxBdRing (n_AxiDma (e_lp e)))) in
  (exists sent, taken.1 = sent ++ named (w_mem (e_w e)) hw ++ deferred (e_lp e) /\
     shuffle sent taken.2 (freed (e_log e))) /\
  (hw = [] -> n_deferred (e_lp e) = 0 -> freed (e_log e) ≡ₚ taken.1 ++ taken.2) /\
  (n_queue_on (e_lp e) = true -> n_deferred (e_lp e) = 0) /\
  (forall junk, exists e', DmaSendHandlerBH_netdev map junk e = Some (tt, e')) /\
  (forall skb x, n_queue_on (e_lp e) = true -> is_u32 skb -> skb <> 0 -> e_skbs e !! skb = Some x -> parts_ok n x ->
   exists e', axi_send map skb e = Some (0, e')).
Proof.
  intros R I0 hw. pose proof (tx_run_inv map n _ _ R I0) as I. cbn [fst snd] in I. split_and!.
  - destruct (ti_taken _ _ _ I) as (s & H1 & H2). by exists s.
  - intros Hh Hd. destruct (ti_taken _ _ _ I) as (s & H1%shuffle_perm & H2). fold hw in H2.
    rewrite (deferred_nil _ Hd), Hh, !app_nil_r in H2. by rewrite H2.
  - exact (ti_queue _ _ _ I).
  - intros junk. destruct (inv_reap map n taken e junk I) as (e' & E & _). by exists e'.
  - intros skb x Hq Hu Hne Hx Hp. destruct (inv_take map n taken e skb x I Hq Hu Hne Hx Hp) as (e' & E & _). by exists e'.
Qed.

(** *** An interface whose engine realigns data *)

Definition re_blank : XAxiDma_BdRing := (ex_blank 0) <|HasDRE := 1|>.
Definition re_mem : Mem := st_out (XAxiDma_BdRingCreate re_blank 0x1000 0x80001000 0x40 4) ∅.
Definition re_ring : XAxiDma_BdRing := created re_blank 0x1000 0x80001000 0x40 4.
Definition re_net : Net RegFile :=
  mkNet (mkWorld re_mem ∅) (ex_local <|n_AxiDma := (n_AxiDma ex_local) <|TxBdRing := re_ring|> |>)
    {[0xE000 := ex_skb; 0xE100 := ex_long]} 0 [].

Lemma re_inv : tx_inv 23 ([], []) re_net.
Proof.
  assert (W : ring_wf re_ring).
  { split; [apply created_geom|exists 0; apply created_groups]; apply ex_args; try done; unfold is_u32; lia. }
  split; [exact W|reflexivity|reflexivity|lia|reflexivity| |intros H; by destruct H|reflexivity|exists []; split; [constructor|reflexivity]].
  pose proof W as [G _]. intros i. change (TxBdRing _) with re_ring. revert i.
  apply (ring_of_four _ G (fun bd => XAxiDma_BdRead re_mem bd _ .& _ <> 0)); [reflexivity|..]; vm_compute; discriminate.
Qed.

Lemma ex_skb_parts : parts_ok 23 ex_skb.
Proof. repeat apply Forall_cons_2; [vm_compute; split; congruence..|apply Forall_nil_2]. Qed.

Lemma eth_tx_accounting_witness : exists e1,
  axi_send ex_map 0xE000 re_net = Some (0, e1) /\
  exists sent, [0xE000] = sent ++ named (w_mem (e_w e1)) (a_hw (ring_abs (TxBdRing (n_AxiDma (e_lp e1))))) ++
    deferred (e_lp e1) /\ shuffle sent [] (freed (e_log e1)).
Proof.
  destruct (inv_take ex_map 23 ([], []) re_net 0xE000 ex_skb re_inv) as (e1 & E & _).
  - vm_compute. reflexivity.
  - unfold is_u32. lia.
  - lia.
  - vm_compute. reflexivity.
  - exact ex_skb_parts.
  - exists e1. split; [exact E|].
    apply (eth_tx_accounting ex_map 23 ([], []) ([0xE000], []) re_net e1).
    + apply rtc_once. apply (step_take ex_map 23 ([], []) re_net 0xE000 ex_skb 0 e1).
      * vm_compute. reflexivity.
      * unfold is_u32. lia.
      * lia.
      * vm_compute. reflexivity.
      * exact ex_skb_parts.
      * exact E.
    + exact re_inv.
Defined.
