(* ===== verification/EthPoll.v ===== *)
(** * Polling the receive ring

    A poll takes the completed frames off the receive ring, passes them on,
    refills the ring, and turns the channel's interrupts on again when it found
    less than its budget.  The invariant of the receive side says that every
    descriptor with the hardware names a live socket buffer, each a different
    one. *)

From S2P Require Import Prelude Kernel Hw Bd BdRing RingGeom RingSpec RingHw RingCreate RingStart RingSys RingClient Dma DmaBuf AesDma AesProps AesThms Temac EthDma EthProps EthSend EthTx EthRun.

(** The receive ring and its queue with the hardware. *)
Abbreviation rx_of e := (XAxiDma_GetRxRing (n_AxiDma (e_lp e)) 0).
Abbreviation rx_hw e := (a_hw (ring_abs (rx_of e))).
Abbreviation rx_ids e := (ids (w_mem (e_w e)) (rx_hw e)).

Record rx_inv {D} (n : Z) (e : Net D) : Prop := {
  ri_rx : 0 < zlen (RxBdRing (n_AxiDma (e_lp e)));
  ri_wf : ring_wf (rx_of e);
  ri_pre : PreCnt (rx_of e) = 0;
  ri_post : PostCnt (rx_of e) = 0;
  ri_chan : IsRxChannel (rx_of e) <> 0;
  ri_width : 0 <= n <= 26;
  ri_max : MaxTransferLen (rx_of e) = Z.ones n;
  ri_dre : realigns (w_mem (e_w e)) (rx_of e);
  ri_size : 0 < n_frame_size (e_lp e) <= Z.ones n;
  ri_live : forall skb, skb ∈ rx_ids e -> is_Some (e_skbs e !! skb);
  ri_nodup : NoDup (rx_ids e);
}.

(** The socket buffers that the allocator gives before it first fails. *)
Definition given (allocs : list (Z * Z)) : list (Z * Z) := alloc_skbs (length allocs) allocs.

(** They are new: different from each other and from those with the hardware. *)
Definition fresh {D} (allocs : list (Z * Z)) (e : Net D) : Prop :=
  NoDup (given allocs).*1 /\ forall p, p ∈ given allocs -> is_u32 p.1 /\ p.1 ∉ rx_ids e.

Lemma alloc_skbs_take allocs : forall k, alloc_skbs k allocs = take k (given allocs).
Proof.
  unfold given. induction allocs as [|[skb data] allocs IH]; intros [|k]; try done; cbn.
  destruct (skb =? 0); [done|]. cbn. by rewrite IH.
Qed.

Lemma refill_given {D} allocs (e : Net D) : exists k, refill_skbs allocs e = take k (given allocs).
Proof. eexists. apply alloc_skbs_take. Qed.

(** The new socket buffers in the store. *)
Lemma news_other (s : gmap Z sk_buff) y (skbs : list (Z * Z)) : y ∉ skbs.*1 ->
  foldl (fun s p => <[p.1 := new_skb p.2]> s) s skbs !! y = s !! y.
Proof.
  revert s. induction skbs as [|p skbs IH]; intros s H; [done|]. cbn in H. apply not_elem_of_cons in H as [H1 H2].
  cbn. rewrite IH by done. by rewrite lookup_insert_ne.
Qed.

Lemma news_live (s : gmap Z sk_buff) y (skbs : list (Z * Z)) : is_Some (s !! y) \/ y ∈ skbs.*1 ->
  is_Some (foldl (fun s p => <[p.1 := new_skb p.2]> s) s skbs !! y).
Proof.
  revert s. induction skbs as [|p skbs IH]; intros s H; cbn.
  { destruct H as [H|H]; [done|by apply elem_of_nil in H]. }
  apply IH. destruct (decide (y = p.1)) as [->|Hne]; [left; rewrite lookup_insert_eq; eauto|].
  rewrite lookup_insert_ne by done. destruct H as [H|H]; [by left|]. apply elem_of_cons in H as [->|H]; [done|by right].
Qed.

Section poll.
Context {D : Type} `{!RegBus D} (map : Z -> Z -> Z) (eth_type_ip : Z -> bool) (n : Z).

(** The invariant does not read the log, and of the interface only the rings and
    the frame size. *)
Lemma rx_inv_log e l : rx_inv n e -> rx_inv n (e <|e_log := l|> : Net D).
Proof. intros []. by split. Qed.

(** A frame fits every descriptor. *)
Lemma rx_fits (e : Net D) i a : rx_inv n e -> seg_fits (w_mem (e_w e)) n (bd_at (rx_of e) i) (a, n_frame_size (e_lp e)).
Proof.
  intros I. split; [apply (ri_size _ _ I)|]. unfold buf_ok.
  by rewrite (proj2 (Z.eqb_neq _ 0) (ri_dre _ _ I i)), andb_false_r.
Qed.

(** The identifiers that a refill writes. *)
Lemma refilled_ids allocs (e e' : Net D) i : refilled map n allocs e e' i ->
  (forall p, p ∈ refill_skbs allocs e -> is_u32 p.1) ->
  ids (w_mem (e_w e')) (grp (rx_of e) i (zlen (refill_skbs allocs e))) = (refill_skbs allocs e).*1.
Proof.
  intros R Hu. pose proof (rf_bds _ _ _ _ _ _ R) as Hb. cbv zeta in Hb. set (skbs := refill_skbs allocs e) in *.
  apply list_eq. intros k. unfold ids, grp. rewrite !list_lookup_fmap.
  destruct (skbs !! k) as [p|] eqn:Hp.
  - pose proof (lookup_lt_Some _ _ _ Hp). rewrite lookup_seqZ_lt by (unfold zlen; lia). cbn.
    rewrite (fi_id _ _ _ _ _ (Hb k p Hp)), u32_small; [done|]. apply Hu. by eapply list_elem_of_lookup_2.
  - apply lookup_ge_None_1 in Hp. by rewrite lookup_seqZ_ge by (unfold zlen; lia).
Qed.

(** What a refill does, in terms of the invariant. *)
Record refill_ok (allocs : list (Z * Z)) (e e' : Net D) : Prop := {
  ro_inv : rx_inv n e';
  ro_ids : rx_ids e' = rx_ids e ++ (refill_skbs allocs e).*1;
  ro_lp : e_lp e' = (e_lp e) <|n_AxiDma := n_AxiDma (e_lp e')|>;
  ro_tx : TxBdRing (n_AxiDma (e_lp e')) = TxBdRing (n_AxiDma (e_lp e));
  ro_skbs : e_skbs e' = foldl (fun s p => <[p.1 := new_skb p.2]> s) (e_skbs e) (refill_skbs allocs e);
  ro_log : e_log e' = e_log e;
}.

Lemma refilled_ok allocs (e e' : Net D) i : rx_inv n e -> fresh allocs e -> refilled map n allocs e e' i ->
  refill_ok allocs e e'.
Proof.
  intros I [Hnd Hf] R. pose proof I as [Hrx W P1 P2 Hch Hn HM HD Hsz HL HN]. pose proof W as [G _].
  destruct (refill_given allocs e) as [c Hc].
  assert (Hin : forall p, p ∈ refill_skbs allocs e -> p ∈ given allocs).
  { intros p. rewrite Hc. intros (j & Hj & _)%elem_of_take. by eapply list_elem_of_lookup_2. }
  pose proof (refilled_ids allocs e e' i R ltac:(intros; by apply Hf, Hin)) as Hnew.
  pose proof R as [[[W' S' A'] Hfree] _ Hfr Hb (_ & HM' & Hch' & _) Hrx' Hlp Htx Hsk Hlog]. cbv zeta in *.
  set (skbs := refill_skbs allocs e) in *. destruct (cnt_nil _ W') as [Hpre' _]. destruct (cnt_nil _ W) as [_ Hpost].
  assert (Hids : rx_ids e' = rx_ids e ++ skbs.*1).
  { rewrite A'. cbn [a_hw]. unfold ids. rewrite fmap_app. fold (ids (w_mem (e_w e')) (rx_hw e)).
    rewrite (hw_ids_frame _ _ _ i (zlen skbs) W Hfree Hfr). f_equal. exact Hnew. }
  split; try done. split; try done; try lia.
  - apply Hpre'. by rewrite A'.
  - apply (post_cnt_nil _ W'). rewrite A'. cbn [a_post]. auto.
  - intros j. rewrite (same_geom_at _ _ j S'), Hb. apply HD.
  - by rewrite Hlp.
  - intros skb. rewrite Hids, Hsk. intros [Hs|Hs]%elem_of_app; apply news_live; auto.
  - rewrite Hids. apply NoDup_app. split_and!; [done| |rewrite Hc, fmap_take; eapply sublist_NoDup; [exact Hnd|apply sublist_take]].
    intros y Hy (p & -> & Hp)%list_elem_of_fmap. by apply (proj2 (Hf p (Hin p Hp))).
Qed.

Lemma refill_any allocs (e : Net D) : rx_inv n e -> fresh allocs e ->
  exists e', axi_DmaSetupRecvBuffers map allocs e = Some (tt, e') /\ refill_ok allocs e e'.
Proof.
  intros I F. pose proof I as [Hrx W P1 P2 Hch Hn HM HD Hsz HL HN].
  destruct (decide (refill_skbs allocs e = [])) as [E|E].
  - exists (e <|e_skbs := e_skbs e|>). split.
    + unfold axi_DmaSetupRecvBuffers. rewrite (pt_bind_some rx_ring _ e (rx_of e) e eq_refl).
      rewrite (pt_bind_some (en_get (fun e => n_frame_size (e_lp e))) _ e _ e eq_refl). cbv zeta.
      change (alloc_skbs _ allocs) with (refill_skbs allocs e). by rewrite E.
    + split; rewrite ?E; cbn; rewrite ?app_nil_r; try done. by destruct (e_lp e).
  - destruct (refill_run map allocs n e) as (e' & i & E' & R); try done.
    { intros. by apply rx_fits. }
    exists e'. split; [done|]. by eapply refilled_ok.
Qed.

(** ** Taking frames *)

Lemma taken_inv k (e e1 : Net D) : rx_inv n e -> 0 <= k <= HwCnt (rx_of e) -> rx_taken eth_type_ip k e e1 ->
  rx_inv n e1 /\ rx_ids e1 = ids (w_mem (e_w e)) (zdrop k (rx_hw e)).
Proof.
  intros I Hk T. pose proof I as [Hrx W P1 P2 Hch Hn HM HD Hsz HL HN]. pose proof W as [G _].
  pose proof T as [R [W' S' A'] (_ & HM' & Hch' & _) Hrx' _]. cbv zeta in *. pose proof (rc_frame _ _ _ _ R) as Hfr.
  destruct (cnt_nil _ W') as [Hpre' _].
  assert (Hids : rx_ids e1 = ids (w_mem (e_w e)) (zdrop k (rx_hw e))).
  { rewrite A'. cbn [a_hw]. eapply (ids_frame _ G); [exact Hfr|..]; intros bd; apply (hw_split _ k bd W Hk). }
  assert (Hsub : ids (w_mem (e_w e)) (zdrop k (rx_hw e)) = drop (Z.to_nat k) (rx_ids e)) by apply fmap_drop.
  split; [|done]. split; try done; try congruence.
  - apply Hpre'. rewrite A'. cbn [a_pre]. unfold ring_abs. by rewrite P1.
  - apply (post_cnt_nil _ W'). by rewrite A'.
  - intros j. rewrite (same_geom_at _ _ j S').
    rewrite (id_frame_read _ G _ _ _ j XAXIDMA_BD_HAS_DRE_OFFSET Hfr); [apply HD| |auto with drv|by left].
    intros bd. apply (hw_split _ k bd W Hk).
  - by rewrite (rc_size _ _ _ _ R).
  - intros skb. rewrite Hids, Hsub. intros Hs. apply (rc_live _ _ _ _ R), HL.
    apply (elem_of_take_drop _ k). by right.
  - rewrite Hids, Hsub. eapply sublist_NoDup; [exact HN|apply sublist_drop].
Qed.

Lemma deliver_run lro l : forall e : Net D, deliver lro l e = Some (tt, e <|e_log := e_log e ++ ((fun s => NvReceive s lro) <$> l)|>).
Proof.
  induction l as [|s l IH]; intros e; cbn [deliver].
  { destruct e. cbn. by rewrite app_nil_r. }
  rewrite (pt_bind_some (en_log _) _ e tt _ eq_refl), IH. cbn. by rewrite <- app_assoc.
Qed.

(** ** A pass *)

(** What a pass leaves that took [k] descriptors. *)
Record polled (k : Z) (new : list Z) (e e' : Net D) : Prop := {
  po_inv : rx_inv n e';
  po_ids : rx_ids e' = ids (w_mem (e_w e)) (zdrop k (rx_hw e)) ++ new;
  po_lp : e_lp e' = (e_lp e) <|n_AxiDma := n_AxiDma (e_lp e')|> <|n_stats := n_stats (e_lp e')|>
                             <|n_rx_hw_csums := n_rx_hw_csums (e_lp e')|>;
  po_tx : TxBdRing (n_AxiDma (e_lp e')) = TxBdRing (n_AxiDma (e_lp e));
  po_log : let lro := n_lro_norm (e_lp e) in let m := w_mem (e_w e) in
    e_log e' = e_log e ++
      ((fun bd => NvUnmap (XAxiDma_BdGetBufAddr m bd) (n_frame_size (e_lp e)) DMA_FROM_DEVICE) <$> ztake k (rx_hw e)) ++
      ((fun skb => NvReceive skb lro) <$> ids m (ztake k (rx_hw e))) ++
      (if lro && (0 <? k) then [NvLroFlush] else []);
  po_skbs : let m := w_mem (e_w e) in forall bd x, bd ∈ ztake k (rx_hw e) ->
    e_skbs e !! XAxiDma_BdGetId m bd = Some x ->
    e_skbs e' !! XAxiDma_BdGetId m bd =
      Some (recv_skb eth_type_ip x (XAxiDma_BdGetId m bd) (BdGetRxLen m bd) (BdCsumGet m bd)).1;
  po_packets : u32 (rx_packets (n_stats (e_lp e'))) = u32 (rx_packets (n_stats (e_lp e)) + k);
  po_bytes : u32 (rx_bytes (n_stats (e_lp e'))) =
    u32 (rx_bytes (n_stats (e_lp e)) + foldr Z.add 0 (BdGetRxLen (w_mem (e_w e)) <$> ztake k (rx_hw e)));
}.

(** The state after delivery. *)
Definition passed_on (k : Z) (skbs : list Z) (e : Net D) : Net D :=
  let lro := n_lro_norm (e_lp e) in
  e <|e_log := e_log e ++ ((fun skb => NvReceive skb lro) <$> skbs) ++ (if lro && (0 <? k) then [NvLroFlush] else [])|>.

Lemma rx_clean_eq allocs skbs (e e1 : Net D) : DmaRecvHandlerBH_netdev eth_type_ip e = Some (skbs, e1) ->
  let k := zlen skbs in
  axi_rx_clean map eth_type_ip allocs e =
    if k =? 0 then Some (k, passed_on k skbs e1)
    else match axi_DmaSetupRecvBuffers map allocs (passed_on k skbs e1) with
         | Some (_, e') => Some (k, e') | None => None end.
Proof.
  intros E k. unfold axi_rx_clean. rewrite (pt_bind_some _ _ _ _ _ E).
  rewrite (pt_bind_some (en_get (fun e => n_lro_norm (e_lp e))) _ e1 _ e1 eq_refl), (pt_bind_some _ _ _ _ _ (deliver_run _ _ _)).
  fold (zlen skbs) k. unfold passed_on.
  destruct (n_lro_norm (e_lp e1) && (0 <? k)); cbn [e_log set_field set_e_log];
    [rewrite (pt_bind_some (en_log _) _ _ tt _ eq_refl)|rewrite (pt_bind_some (mret tt) _ _ tt _ eq_refl)];
    rewrite ?app_nil_r; cbn [e_log set_field set_e_log]; rewrite ?app_assoc; destruct (k =? 0); reflexivity.
Qed.

(** The buffers that a pass adds to the ring. *)
Definition added (k : Z) (allocs : list (Z * Z)) (e : Net D) : list Z :=
  if k =? 0 then [] else (ztake (FreeCnt (rx_of e) + k) (given allocs)).*1.

Lemma passed_recv k (e e1 : Net D) : rx_inv n e -> 0 <= k <= HwCnt (rx_of e) -> rx_taken eth_type_ip k e e1 ->
  polled k [] e (passed_on k (ids (w_mem (e_w e)) (ztake k (rx_hw e))) e1).
Proof.
  intros I Hk T. destruct (taken_inv k e e1 I Hk T) as [I1 Hids]. pose proof T as [R _ _ _ Htx].
  pose proof (rc_lp _ _ _ _ R) as Hlp. pose proof (hw_cnt _ (ri_wf _ _ I)) as Hcnt.
  assert (Hz : zlen (ztake k (rx_hw e)) = k) by (unfold zlen, ztake in *; rewrite length_take; lia).
  split; cbn [passed_on e_lp e_w e_skbs e_log set_field set_e_log]; try done.
  - by apply rx_inv_log.
  - by rewrite app_nil_r.
  - rewrite (rc_log _ _ _ _ R), <- app_assoc. by replace (n_lro_norm (e_lp e1)) with (n_lro_norm (e_lp e)) by (by rewrite Hlp).
  - apply (rc_filled _ _ _ _ R). unfold ids. unfold ztake. rewrite fmap_take.
    eapply sublist_NoDup; [exact (ri_nodup _ _ I)|apply sublist_take].
  - by rewrite (rc_packets _ _ _ _ R), Hz.
  - exact (rc_bytes _ _ _ _ R).
Qed.

Lemma polled_refill k allocs (e e1 e' : Net D) : rx_inv n e -> fresh allocs e -> polled k [] e e1 ->
  refill_ok allocs e1 e' -> polled k (refill_skbs allocs e1).*1 e e'.
Proof.
  intros I [_ F] [J Hids Hlp Htx Hlog Hsk Hp Hb] [J' Hids' Hlp' Htx' Hsk' Hlog'].
  assert (Hst : n_stats (e_lp e') = n_stats (e_lp e1)) by (by rewrite Hlp').
  split; try congruence.
  - by rewrite Hids', Hids, app_nil_r.
  - rewrite Hlp', Hlp. done.
  - cbv zeta. by rewrite Hlog'.
  - cbv zeta. intros bd x Hbd Hx. rewrite Hsk', news_other; [by apply Hsk|].
    destruct (refill_given allocs e1) as [c ->]. intros (p & Ep & (j & Hj & _)%elem_of_take)%list_elem_of_fmap.
    apply (proj2 (F p (list_elem_of_lookup_2 _ _ _ Hj))). rewrite <- Ep. apply list_elem_of_fmap_2.
    eapply (elem_of_take_drop _ k). by left.
Qed.

Lemma rx_clean_run allocs (e : Net D) : rx_inv n e -> fresh allocs e ->
  let k := spec_fromhw_count (w_mem (e_w e)) (rx_of e) RX_BD_NUM (ring_abs (rx_of e)) in
  exists e', axi_rx_clean map eth_type_ip allocs e = Some (k, e') /\ polled k (added k allocs e) e e'.
Proof.
  intros I F. destruct (recv_run eth_type_ip e (ri_rx _ _ I) (ri_wf _ _ I) (ri_post _ _ I)) as (Hk & e1 & E1 & T).
  { intros bd Hb. apply (ri_live _ _ I). by apply list_elem_of_fmap_2. }
  cbv zeta in *. set (k := spec_fromhw_count _ _ _ _) in *. pose proof (hw_cnt _ (ri_wf _ _ I)) as Hcnt.
  assert (Hz : zlen (ids (w_mem (e_w e)) (ztake k (rx_hw e))) = k).
  { unfold zlen, ids, ztake in *. rewrite length_fmap, length_take. lia. }
  rewrite (rx_clean_eq allocs _ e e1 E1). cbv zeta. rewrite Hz. pose proof (passed_recv k e e1 I Hk T) as P.
  set (e2 := passed_on k _ e1) in *. unfold added. destruct (k =? 0); [by exists e2|].
  assert (F2 : fresh allocs e2).
  { split; [apply F|]. intros p Hp. destruct (proj2 F p Hp) as [Hu Hn]. split; [done|].
    rewrite (po_ids _ _ _ _ P), app_nil_r. unfold ids, zdrop. rewrite fmap_drop. intros Hd. apply Hn.
    apply (elem_of_take_drop _ k). by right. }
  destruct (refill_any allocs e2 (po_inv _ _ _ _ P) F2) as (e3 & E3 & O). rewrite E3. exists e3. split; [done|].
  assert (Hfree : FreeCnt (rx_of e2) = FreeCnt (rx_of e) + k).
  { destruct (rt_ring _ _ _ _ T) as [W1 _ A1]. change (rx_of e2) with (rx_of e1).
    rewrite <- (free_cnt _ W1), <- (free_cnt _ (ri_wf _ _ I)), A1. cbn [a_free]. unfold zlen, ids, ztake in *.
    rewrite length_fmap in Hz. rewrite length_app. lia. }
  unfold ztake. rewrite <- Hfree, <- alloc_skbs_take. by apply (polled_refill k allocs e e2).
Qed.

End poll.

(** ** Runs of the receive side *)

Definition delivered (log : list nevent) : list Z :=
  omap (fun v => match v with NvReceive skb _ => Some skb | _ => None end) log.

(** The words that the hardware writes when it completes receive descriptors:
    the status and the application words. *)
Definition rx_frame (l : list Z) (m m' : Mem) : Prop :=
  forall a, (forall bd, bd ∈ l -> a < bd + XAXIDMA_BD_STS_OFFSET \/ bd + XAXIDMA_BD_USR4_OFFSET < a) ->
  mem_read m' a = mem_read m a.

Lemma rx_frame_read r (G : geom r) l m m' i o : rx_frame l m m' ->
  (forall bd, bd ∈ l -> in_ring r bd) -> bd_off o -> o < XAXIDMA_BD_STS_OFFSET \/ XAXIDMA_BD_USR4_OFFSET < o ->
  XAxiDma_BdRead m' (bd_at r i) o = XAxiDma_BdRead m (bd_at r i) o.
Proof.
  intros F Hin Ho Hd. rewrite !BdRead_addr by auto using bd_at_ok. apply F.
  intros bd Hbd. destruct (Hin bd Hbd) as [j ->].
  change XAXIDMA_BD_STS_OFFSET with 28 in *. change XAXIDMA_BD_USR4_OFFSET with 48 in *.
  destruct (decide (bd_at r i = bd_at r j)) as [Eq|Ne]; [rewrite Eq; lia|].
  pose proof (bd_at_apart r G i j Ne) as Ha. unfold bd_apart, bd_off in *. change sizeof_Bd with 64 in *. lia.
Qed.

(** One step of the receive side, with the socket buffers given to the ring so
    far: the hardware completes descriptors of its queue, an interrupt, a poll
    with new buffers. *)
Inductive rx_step {D} `{!RegBus D} (map : Z -> Z -> Z) (eth_type_ip : Z -> bool) :
    list Z * Net D -> list Z * Net D -> Prop :=
| rx_complete s e w' : rx_frame (rx_hw e) (w_mem (e_w e)) (w_mem w') ->
    rx_step map eth_type_ip (s, e) (s, e <|e_w := w'|>)
| rx_irq s e rc e' : axi_dma_rx_interrupt e = Some (rc, e') -> rx_step map eth_type_ip (s, e) (s, e')
| rx_poll s e allocs budget k e' : fresh allocs e ->
    axi_poll map eth_type_ip allocs budget e = Some (k, e') ->
    rx_step map eth_type_ip (s, e) (s ++ added k allocs e, e').

Section runs.
Context {D : Type} `{!RegBus D} (map : Z -> Z -> Z) (eth_type_ip : Z -> bool) (n : Z).

(** The state after a poll. *)
Definition poll_exit (k budget : Z) (e : Net D) : Net D :=
  if k <? u32 budget
  then e <|e_lp := (e_lp e) <|n_napi_sched := false|> |>
         <|e_w := st_out (XAxiDma_mBdRingIntEnable (rx_of e) XAXIDMA_IRQ_ALL_MASK) (e_w e)|>
  else e.

Lemma poll_run allocs budget (e : Net D) : rx_inv n e -> fresh allocs e ->
  let k := spec_fromhw_count (w_mem (e_w e)) (rx_of e) RX_BD_NUM (ring_abs (rx_of e)) in
  exists e1, polled eth_type_ip n k (added k allocs e) e e1 /\
  axi_poll map eth_type_ip allocs budget e = Some (k, poll_exit k budget e1).
Proof.
  intros I F k. destruct (rx_clean_run map eth_type_ip n allocs e I F) as (e1 & E & P). cbv zeta in *. fold k in E, P.
  exists e1. split; [done|]. unfold axi_poll, poll_exit. rewrite (pt_bind_some _ _ _ _ _ E).
  by destruct (k <? u32 budget).
Qed.

(** Steps that leave descriptor memory, rings and socket buffers. *)
Lemma rx_inv_same (e e' : Net D) : w_mem (e_w e') = w_mem (e_w e) -> n_AxiDma (e_lp e') = n_AxiDma (e_lp e) ->
  n_frame_size (e_lp e') = n_frame_size (e_lp e) -> e_skbs e' = e_skbs e -> rx_inv n e -> rx_inv n e'.
Proof. intros E1 E2 E3 E4 []. by split; rewrite ?E1, ?E2, ?E3, ?E4. Qed.

(** The interrupt: what it does to the registers and to the polling state. *)
Lemma rx_irq_run (e : Net D) :
  let r := rx_of e in
  let sts := st_val (XAxiDma_ReadReg (ChanBase r) XAXIDMA_SR_OFFSET) (e_w e) in
  let w0 := st_out (XAxiDma_ReadReg (ChanBase r) XAXIDMA_SR_OFFSET) (e_w e) in
  let w1 := st_out (XAxiDma_mBdRingAckIrq r sts) w0 in
  axi_dma_rx_interrupt e = Some (IRQ_HANDLED,
    if tst sts XAXIDMA_ERR_ALL_MASK then e <|e_w := w1|> <|e_log := e_log e ++ [NvIrqError true sts]|>
    else if negb (tst sts (XAXIDMA_IRQ_DELAY_MASK .| XAXIDMA_IRQ_IOC_MASK)) then e <|e_w := w0|>
    else if n_napi_on (e_lp e) && negb (n_napi_sched (e_lp e))
    then e <|e_lp := (e_lp e) <|n_napi_sched := true|> |>
           <|e_w := st_out (XAxiDma_mBdRingIntDisable r XAXIDMA_IRQ_ALL_MASK) w1|>
           <|e_log := e_log e ++ [NvNapiSchedule]|>
    else e <|e_w := w1|>).
Proof.
  intros r sts w0 w1. unfold axi_dma_rx_interrupt. rewrite (pt_bind_some rx_ring _ e r e eq_refl).
  rewrite (pt_bind_some _ _ _ _ _ (en_w_eq _ _)). fold sts. fold w0.
  destruct (tst sts XAXIDMA_ERR_ALL_MASK); [reflexivity|]. destruct (tst sts (_ .| _)); [|reflexivity]. cbn [negb].
  unfold mbind at 1, pt_bind at 1. rewrite (pt_bind_some _ _ _ _ _ (en_w_eq _ _)). cbn [e_w set_field set_e_w]. fold w1.
  rewrite (pt_bind_some (en_get e_lp) _ _ _ _ eq_refl). cbn [e_lp set_field set_e_w].
  by destruct (n_napi_on (e_lp e) && negb (n_napi_sched (e_lp e))).
Qed.

(** The invariant of runs: what was given to the ring was delivered, in order, or
    is still there. *)
Definition rx_account (s : list Z) (e : Net D) : Prop := rx_inv n e /\ s = delivered (e_log e) ++ rx_ids e.

Lemma account_same s (e e' : Net D) : w_mem (e_w e') = w_mem (e_w e) -> n_AxiDma (e_lp e') = n_AxiDma (e_lp e) ->
  n_frame_size (e_lp e') = n_frame_size (e_lp e) -> e_skbs e' = e_skbs e ->
  delivered (e_log e') = delivered (e_log e) -> rx_account s e -> rx_account s e'.
Proof. intros E1 E2 E3 E4 E5 [I ->]. split; [by eapply rx_inv_same|]. by rewrite E1, E2, E5. Qed.

Lemma delivered_app l1 l2 : delivered (l1 ++ l2) = delivered l1 ++ delivered l2.
Proof. apply omap_app. Qed.

Lemma delivered_none (l : list nevent) : Forall (fun v => match v with NvReceive _ _ => False | _ => True end) l ->
  delivered l = [].
Proof. induction 1 as [|v l Hv _ IH]; [done|]. cbn. by destruct v. Qed.

Lemma delivered_all lro l : delivered ((fun skb => NvReceive skb lro) <$> l) = l.
Proof. induction l as [|x l IH]; [done|]. cbn. f_equal. exact IH. Qed.

Lemma account_complete s (e : Net D) w' : rx_account s e -> rx_frame (rx_hw e) (w_mem (e_w e)) (w_mem w') ->
  rx_account s (e <|e_w := w'|>).
Proof.
  clear map eth_type_ip. intros [[Hrx W P1 P2 Hch Hn HM HD Hsz HL HN] ->] F. pose proof W as [G _].
  assert (Hin : forall bd, bd ∈ rx_hw e -> in_ring (rx_of e) bd) by (intros; by apply hw_in_ring).
  assert (Hids : ids (w_mem w') (rx_hw e) = rx_ids e).
  { apply list_fmap_ext. intros j bd Hb%list_elem_of_lookup_2. destruct (Hin bd Hb) as [i ->].
    apply (rx_frame_read _ G _ _ _ i _ F Hin); [auto with drv|]. right. reflexivity. }
  split; [|cbn [e_w e_lp e_log set_field set_e_w]; by rewrite Hids].
  split; try done; cbn [e_w e_lp e_skbs set_field set_e_w]; rewrite ?Hids; try done.
  intros j. rewrite (rx_frame_read _ G _ _ _ j XAXIDMA_BD_HAS_DRE_OFFSET F Hin); [apply HD|auto with drv|]. right. reflexivity.
Qed.

Lemma account_irq s (e e' : Net D) rc : rx_account s e -> axi_dma_rx_interrupt e = Some (rc, e') -> rx_account s e'.
Proof.
  intros A. rewrite rx_irq_run. intros [= _ <-].
  repeat case_match; cbn [negb]; (apply (account_same s e); [|done|done|done| |done]);
    cbn [e_w e_log set_field set_e_w set_e_log set_e_lp]; rewrite ?delivered_app, ?app_nil_r; try done;
    unfold XAxiDma_mBdRingIntDisable, XAxiDma_mBdRingAckIrq; by st.
Qed.

Lemma polled_account s k new (e e' : Net D) : rx_account s e -> polled eth_type_ip n k new e e' ->
  rx_account (s ++ new) e'.
Proof.
  intros [I ->] [I' Hids _ _ Hlog _ _ _]. split; [done|]. cbv zeta in Hlog.
  rewrite Hids, Hlog, !delivered_app, delivered_all, (delivered_none (_ <$> ztake k (rx_hw e))),
    (delivered_none (if _ && _ then _ else _)).
  - rewrite app_nil_r, <- !app_assoc. cbn [app]. f_equal. rewrite app_assoc. f_equal. unfold ids, ztake, zdrop.
    by rewrite <- fmap_app, take_drop.
  - case_match; repeat constructor.
  - apply Forall_fmap, Forall_true. done.
Qed.

Lemma poll_exit_account s k budget (e : Net D) : rx_account s e -> rx_account s (poll_exit k budget e).
Proof.
  intros A. unfold poll_exit. destruct (k <? u32 budget); [|done]. apply (account_same s e); try done.
  cbn [e_w set_field set_e_w set_e_lp]. unfold XAxiDma_mBdRingIntEnable. by st.
Qed.

Lemma account_poll s (e e' : Net D) allocs budget k : rx_account s e -> fresh allocs e ->
  axi_poll map eth_type_ip allocs budget e = Some (k, e') -> rx_account (s ++ added k allocs e) e'.
Proof.
  intros A F E. destruct (poll_run allocs budget e (proj1 A) F) as (e1 & P & E1). rewrite E in E1.
  injection E1 as -> ->. by eapply poll_exit_account, polled_account.
Qed.

Lemma rx_steps s s' : rtc (rx_step map eth_type_ip) s s' -> rx_account s.1 s.2 -> rx_account s'.1 s'.2.
Proof.
  induction 1 as [|x y z Hs _ IH]; [done|]. intros A. apply IH. clear IH.
  destruct Hs; cbn [fst snd] in *; eauto using account_complete, account_irq, account_poll.
Qed.

(** Once the hardware has no descriptor left, no step gives it one. *)
Lemma rx_starved s s' : rtc (rx_step map eth_type_ip) s s' -> rx_account s.1 s.2 -> rx_hw s.2 = [] ->
  s'.1 = s.1 /\ rx_hw s'.2 = [].
Proof.
  induction 1 as [|x y z Hs R IH]; [done|]. intros A E.
  assert (A' : rx_account y.1 y.2) by (by apply (rx_steps x y); [apply rtc_once|]).
  assert (y.1 = x.1 /\ rx_hw y.2 = []) as [E1 E2]; [|rewrite <- E1; auto]. clear IH R.
  destruct Hs as [s e w' F|s e rc e' Ei|s e allocs budget k e' F Ep]; cbn [fst snd] in *; [done|..].
  - split; [done|]. rewrite rx_irq_run in Ei. injection Ei as _ <-. by repeat case_match.
  - destruct (poll_run allocs budget e (proj1 A) F) as (e1 & P & E1). rewrite Ep in E1.
    assert (spec_fromhw_count (w_mem (e_w e)) (rx_of e) RX_BD_NUM (ring_abs (rx_of e)) = 0) as Ek.
    { unfold spec_fromhw_count. by rewrite E. }
    injection E1 as -> ->. rewrite Ek in P |- *. split; [by rewrite app_nil_r|].
    pose proof (po_ids _ _ _ _ _ _ P) as Hids. rewrite E in Hids. apply fmap_nil_inv in Hids.
    unfold poll_exit. by destruct (0 <? u32 budget).
Qed.

End runs.

(** ** The properties *)

(** One poll.  It takes the whole completed frames at the front of the
    hardware's queue (never more than the weight it is registered with), unmaps
    and delivers them in order, each filled in from its descriptor, flushes the
    receive offload when there was one and it is on, refills the ring with the
    buffers that the allocator gave, in order, behind those still with the
    hardware, and re-establishes the invariant; it leaves the polling mode,
    turning the channel's interrupts on, exactly when it found less than its
    budget. *)
Theorem eth_poll_exact {D} `{!RegBus D} map eth_type_ip n allocs budget (e : Net D) :
  rx_inv n e -> fresh allocs e ->
  exists e1 k, axi_poll map eth_type_ip allocs budget e = Some (k, poll_exit k budget e1) /\
  packets_done (w_mem (e_w e)) (rx_of e) (ztake RX_BD_NUM (rx_hw e)) k /\
  (forall j, packets_done (w_mem (e_w e)) (rx_of e) (ztake RX_BD_NUM (rx_hw e)) j -> j <= k) /\
  0 <= k <= RX_BD_NUM /\ polled eth_type_ip n k (added k allocs e) e e1.
Proof.
  intros I F. destruct (poll_run map eth_type_ip n allocs budget e I F) as (e1 & P & E). exists e1. eexists.
  split; [exact E|]. split_and!; [apply ready_done|apply ready_max|apply ready_cap; discriminate..|exact P].
Qed.

(** C35: delivery in order.  After any run of the receive side (the hardware
    completing descriptors, interrupts, polls), the socket buffers given to the
    ring are, in the order in which they were given, those delivered to the
    network layer followed by those still with the hardware: each is delivered
    once, none is lost or overtaken.  Those with the hardware are different from
    each other and live, and a further poll returns. *)
Theorem eth_rx_order {D} `{!RegBus D} map eth_type_ip n s0 s (e0 e : Net D) :
  rtc (rx_step map eth_type_ip) (s0, e0) (s, e) -> rx_inv n e0 -> s0 = delivered (e_log e0) ++ rx_ids e0 ->
  s = delivered (e_log e) ++ rx_ids e /\ NoDup (rx_ids e) /\
  (forall skb, skb ∈ rx_ids e -> is_Some (e_skbs e !! skb)) /\
  forall allocs budget, fresh allocs e -> exists k e', axi_poll map eth_type_ip allocs budget e = Some (k, e').
Proof.
  intros R I0 E0. destruct (rx_steps map eth_type_ip n _ _ R (conj I0 E0)) as [I E]. cbn [fst snd] in *.
  split_and!; [exact E|exact (ri_nodup _ _ I)|exact (ri_live _ _ I)|]. intros allocs budget F.
  destruct (poll_run map eth_type_ip n allocs budget e I F) as (e1 & _ & Ep). eauto.
Qed.

(** A receive ring that has run empty stays empty.  A poll refills the ring
    only when it received something, so from a state in which the hardware has
    no descriptor (the last refill got no buffer), no interrupt and no poll, with
    whatever buffers the allocator then gives, hands it one again. *)
Theorem eth_rx_starves {D} `{!RegBus D} map eth_type_ip n s s' (e e' : Net D) :
  rx_inv n e -> rx_hw e = [] -> rtc (rx_step map eth_type_ip) (s, e) (s', e') -> s = delivered (e_log e) ->
  s' = s /\ rx_hw e' = [].
Proof.
  intros I Hhw R Es. apply (rx_starved map eth_type_ip n (s, e) (s', e') R); [|done]. split; [done|].
  cbn [fst snd]. by rewrite Hhw, app_nil_r.
Qed.

(** The receive interrupt.  It acknowledges the errors and completions that
    it saw; on a completion without an error, when polling is enabled and not
    under way, it starts polling and masks the channel's interrupts, other
    control bits kept; in every other case the polling state and the interrupt
    masks stay as they were.  Rings, memory and socket buffers are not touched. *)
Theorem eth_rx_irq {D} `{!RegBus D} (e : Net D) :
  let base := ChanBase (rx_of e) in
  RegReadback D (u32 (base + XAXIDMA_CR_OFFSET)) 0xFFFFFFFF ->
  let sts := st_val (XAxiDma_ReadReg base XAXIDMA_SR_OFFSET) (e_w e) in
  let w0 := st_out (XAxiDma_ReadReg base XAXIDMA_SR_OFFSET) (e_w e) in
  let w1 := st_out (XAxiDma_mBdRingAckIrq (rx_of e) sts) w0 in
  let cr w := st_val (XAxiDma_ReadReg base XAXIDMA_CR_OFFSET) w in
  exists e', axi_dma_rx_interrupt e = Some (IRQ_HANDLED, e') /\
  w_mem (e_w e') = w_mem (e_w e) /\ e_skbs e' = e_skbs e /\
  e_lp e' = (e_lp e) <|n_napi_sched := n_napi_sched (e_lp e')|> /\
  if tst sts XAXIDMA_ERR_ALL_MASK
  then e_log e' = e_log e ++ [NvIrqError true sts] /\ e_lp e' = e_lp e /\ e_w e' = w1
  else if negb (tst sts (XAXIDMA_IRQ_DELAY_MASK .| XAXIDMA_IRQ_IOC_MASK))
  then e' = e <|e_w := w0|>
  else if n_napi_on (e_lp e) && negb (n_napi_sched (e_lp e))
  then e_log e' = e_log e ++ [NvNapiSchedule] /\ n_napi_sched (e_lp e') = true /\
       cr (e_w e') = Z.ldiff (cr w1) XAXIDMA_IRQ_ALL_MASK
  else e' = e <|e_w := w1|>.
Proof.
  intros base RB sts w0 w1 cr. rewrite rx_irq_run. fold base. fold sts. fold w0. fold w1.
  assert (Elp : e_lp e = (e_lp e) <|n_napi_sched := n_napi_sched (e_lp e)|>) by by destruct (e_lp e).
  assert (Hm : w_mem w1 = w_mem (e_w e)) by (unfold w1, w0, XAxiDma_mBdRingAckIrq; by st).
  assert (Hm0 : w_mem w0 = w_mem (e_w e)) by (unfold w0; by st).
  destruct (int_disable_cr (rx_of e) w1 RB) as [Hmask Hm2]. rewrite Hm in Hm2.
  eexists. split; [reflexivity|]. repeat case_match; split_and!; done.
Qed.

(** *** An interface whose engine realigns received data *)

Definition pe_blank : XAxiDma_BdRing := (ex_blank 1) <|HasDRE := 1|>.
Definition pe_mem : Mem := st_out (XAxiDma_BdRingCreate pe_blank 0x2000 0x80002000 0x40 4) ∅.
Definition pe_ring : XAxiDma_BdRing := created pe_blank 0x2000 0x80002000 0x40 4.
Definition pe_net : Net RegFile :=
  mkNet (mkWorld pe_mem ∅) (ex_local <|n_AxiDma := put_rx (n_AxiDma ex_local) 0 pe_ring|>) ∅ 0 [].

(** After a refill with two buffers, and with a frame of 60 bytes in the first. *)
Definition pe_full : Net RegFile :=
  match axi_DmaSetupRecvBuffers ex_map ex_allocs pe_net with Some (_, e) => e | None => pe_net end.
Definition pe_world : World RegFile :=
  mkWorld (st_out (XAxiDma_BdWrite 0x80002000 XAXIDMA_BD_STS_OFFSET 0x8C000000;;
                   XAxiDma_BdWrite 0x80002000 XAXIDMA_BD_USR4_OFFSET 60) (w_mem (e_w pe_full))) (w_dev (e_w pe_full)).
Definition pe_done : Net RegFile := pe_full <|e_w := pe_world|>.
Definition pe_allocs : list (Z * Z) := [(0xE200, 0x32000)].

Lemma pe_inv : rx_inv 23 pe_net.
Proof.
  assert (W : ring_wf pe_ring).
  { split; [apply created_geom|exists 0; apply created_groups]; apply ex_args; try done; unfold is_u32; lia. }
  split; [reflexivity|exact W|reflexivity|reflexivity|discriminate|lia|reflexivity| |vm_compute; split; congruence| |].
  - pose proof W as [G _]. intros i. change (rx_of pe_net) with pe_ring. revert i.
    apply (ring_of_four _ G (fun bd => XAxiDma_BdRead pe_mem bd _ .& _ <> 0)); [reflexivity|..]; vm_compute; discriminate.
  - assert (E : rx_ids pe_net = []) by (vm_compute; reflexivity). rewrite E. intros skb H. by apply elem_of_nil in H.
  - assert (E : rx_ids pe_net = []) by (vm_compute; reflexivity). rewrite E. constructor.
Qed.

Lemma pe_fresh : fresh ex_allocs pe_net.
Proof.
  assert (E : given ex_allocs = [(0xE000, 0x30000); (0xE100, 0x31000)]) by reflexivity.
  assert (E1 : rx_ids pe_net = []) by (vm_compute; reflexivity). unfold fresh. rewrite E, E1.
  split; [apply (bool_decide_unpack _); vm_compute; exact I|].
  intros p Hp. split; [|apply not_elem_of_nil]. unfold is_u32. set_solver by lia.
Qed.

Lemma pe_full_inv : rx_inv 23 pe_full /\ rx_ids pe_full = [0xE000; 0xE100].
Proof.
  destruct (refill_any ex_map 23 ex_allocs pe_net pe_inv pe_fresh) as (e' & E & [J _ _ _ _ _]).
  split; [|vm_compute; reflexivity]. unfold pe_full. by rewrite E.
Qed.

Lemma pe_frame : rx_frame (rx_hw pe_full) (w_mem (e_w pe_full)) (w_mem pe_world).
Proof.
  assert (E : rx_hw pe_full = [0x80002000; 0x80002040]) by (vm_compute; reflexivity). rewrite E.
  intros a Ha. specialize (Ha 0x80002000 ltac:(by left)).
  change XAXIDMA_BD_STS_OFFSET with 28 in Ha. change XAXIDMA_BD_USR4_OFFSET with 48 in Ha.
  unfold pe_world. cbn [w_mem]. generalize (w_mem (e_w pe_full)). intros m. st.
  assert (Hok : bd_ok 0x80002000) by (unfold bd_ok, sizeof_Bd, XAXIDMA_BD_NUM_WORDS; lia).
  etrans; [apply (word_frame_write _ XAXIDMA_BD_USR4_OFFSET); [done|auto with drv|]
          |apply (word_frame_write _ XAXIDMA_BD_STS_OFFSET); [done|auto with drv|]].
  - change XAXIDMA_BD_USR4_OFFSET with 48. lia.
  - change XAXIDMA_BD_STS_OFFSET with 28. lia.
Qed.

Lemma pe_done_inv : rx_inv 23 pe_done.
Proof.
  destruct pe_full_inv as [I _]. unfold pe_done.
  exact (proj1 (account_complete 23 _ pe_full pe_world (conj I eq_refl) pe_frame)).
Qed.

Lemma pe_done_fresh : fresh pe_allocs pe_done.
Proof.
  assert (E : given pe_allocs = [(0xE200, 0x32000)]) by reflexivity.
  assert (E1 : rx_ids pe_done = [0xE000; 0xE100]) by (vm_compute; reflexivity). unfold fresh. rewrite E, E1.
  split; [apply NoDup_singleton|]. intros p ->%list_elem_of_singleton. cbn [fst]. unfold is_u32. split; [lia|].
  intros H. repeat (apply elem_of_cons in H as [H|H]; [lia|]). by apply elem_of_nil in H.
Qed.

Lemma pe_poll_count : fst <$> axi_poll ex_map (fun _ => false) pe_allocs 64 pe_done = Some 1.
Proof. vm_compute. reflexivity. Qed.

Lemma eth_poll_exact_witness : exists e1,
  axi_poll ex_map (fun _ => false) pe_allocs 64 pe_done = Some (1, poll_exit 1 64 e1) /\ rx_ids e1 = [0xE100; 0xE200].
Proof.
  destruct (eth_poll_exact ex_map (fun _ => false) 23 pe_allocs 64 pe_done pe_done_inv pe_done_fresh)
    as (e1 & k & E & _ & _ & _ & P).
  pose proof pe_poll_count as Hc. rewrite E in Hc. cbn in Hc. injection Hc as ->.
  exists e1. split; [exact E|]. rewrite (po_ids _ _ _ _ _ _ P). vm_compute. reflexivity.
Defined.

Lemma eth_rx_order_witness :
  [0xE000; 0xE100] = delivered (e_log pe_done) ++ rx_ids pe_done /\
  exists k e', axi_poll ex_map (fun _ => false) pe_allocs 64 pe_done = Some (k, e').
Proof.
  destruct (eth_rx_order ex_map (fun _ => false) 23 [0xE000; 0xE100] [0xE000; 0xE100] pe_full pe_done)
    as (E & _ & _ & Hp).
  - apply rtc_once. apply rx_complete. exact pe_frame.
  - exact (proj1 pe_full_inv).
  - vm_compute. reflexivity.
  - split; [exact E|]. apply Hp. exact pe_done_fresh.
Defined.

Lemma eth_rx_starves_witness : exists e' k,
  axi_poll ex_map (fun _ => false) ex_allocs 64 pe_net = Some (k, e') /\ rx_hw e' = [].
Proof.
  destruct (poll_run ex_map (fun _ => false) 23 ex_allocs 64 pe_net pe_inv pe_fresh) as (e1 & _ & E).
  cbv zeta in E. set (k := spec_fromhw_count _ _ _ _) in E. exists (poll_exit k 64 e1), k. split; [exact E|].
  apply (eth_rx_starves ex_map (fun _ => false) 23 [] ([] ++ added k ex_allocs pe_net) pe_net).
  - exact pe_inv.
  - vm_compute. reflexivity.
  - apply rtc_once. apply (rx_poll _ _ [] pe_net ex_allocs 64 k); [exact pe_fresh|exact E].
  - vm_compute. reflexivity.
Defined.

Lemma eth_rx_irq_witness : exists e', axi_dma_rx_interrupt pe_done = Some (IRQ_HANDLED, e').
Proof.
  destruct (eth_rx_irq pe_done) as (e' & E & _); [apply regfile_readback|]. exists e'. exact E.
Defined.
