(* ===== verification/AesProbe.v ===== *)
(** * Bringing the AES device up and down

    Models the probing and removal of [linux-drv/aesdma.c], for the card's own
    PCI function and for a function of the virtual PCI bus, with the self and
    performance tests that end a probe.  What the kernel's calls answer is
    collected in the record [probe_env]. *)

From S2P Require Import Prelude Kernel Hw Bd BdRing RingSpec Dma DmaBuf AesDma.

(** The fields of [struct aes_dev] that only probing and removal use. *)
Record aes_res : Type := mkAesRes { ar_irq : Z; ar_base : Z; ar_blen : Z; ar_reg : Z; ar__reg : Z }.

Record probe_env : Type := mkProbeEnv {
  pe_enable : Z;             (** [pci_enable_device] *)
  pe_mask : Z -> Z;          (** [pci_set_dma_mask] with so many bits *)
  pe_cmask : Z -> Z;         (** [pci_set_consistent_dma_mask] *)
  pe_regions : Z;            (** [pci_request_regions] *)
  pe_dma : Z;                (** [devm_kzalloc], 0 on failure *)
  pe_irq : Z;                (** [pdev->irq] *)
  pe_base : Z;               (** the register window *)
  pe_blen : Z;
  pe_ioremap : Z;            (** [ioremap_nocache], 0 on failure *)
  pe_tmpl : Z;               (** the descriptor template on the stack *)
  pe_tx : Z * Z;             (** [dma_alloc_coherent], virtual and bus address *)
  pe_rx : Z * Z;
  pe_descs : list Z;         (** [kmem_cache_alloc] *)
  pe_request_irq : Z;        (** [request_irq], or the two lines of the virtual bus *)
  pe_request_irq2 : Z
}.

(** The tests: memory for the pages and their bus addresses, the request's
    descriptor if a fresh one is needed, and the completion. *)
Record test_env : Type := mkTestEnv {
  te_src : Z; te_dst : Z; te_src_dma : Z; te_dst_dma : Z;
  te_fresh : option Z; te_done : Z;
  te_sgt : Z; te_sg_err : Z; te_src_pages : list Z; te_dst_pages : list Z;
  te_map_src : Z; te_map_dst : Z; te_fresh2 : option Z; te_done2 : Z
}.

Definition PAGE_SIZE : Z := 4096.
Definition aes_self_cb : Z := 1.

(** What [aes_alloc_sg_mem] returns: a null pointer, an error code used as a
    pointer, or a table. *)
Inductive sg_mem : Type :=
| SgNull
| SgErr (err : Z)
| SgTable (sg : sglist).

(** The loop over the entries: a page for each, or a null pointer. *)
Fixpoint sg_pages (pages : list Z) (n : nat) (order : Z) : option sglist :=
  match n with
  | O => Some []
  | S n =>
      let page := hd 0 pages in
      if page =? 0 then None
      else rest ← sg_pages (tl pages) n order; Some (mkSg page (Z.shiftl PAGE_SIZE order) :: rest)
  end.

Definition aes_alloc_sg_mem (sgt err : Z) (pages : list Z) (sgcnt order : Z) : sg_mem :=
  if sgt =? 0 then SgNull
  else if negb (err =? 0) then SgErr err
  else match sg_pages pages (Z.to_nat sgcnt) order with
       | Some sg => SgTable sg
       | None => SgNull
       end.

(** [u64] arithmetic; [div64_u64] by zero has no result. *)
Definition u64 (x : Z) : Z := x mod 2 ^ 64.
Definition aes_perf_speed (cpu_khz cycle size : Z) : option Z :=
  let d := Z.shiftr (u64 cycle) 20 in
  if d =? 0 then None else Some (u64 (cpu_khz / d * size)).

Section probe.
Context {D : Type} `{!RegBus D}.
Context (HZ : Z) (round_jiffies_up : Z -> Z).

(** Blocking until the request's callback has run: interrupts and bottom halves
    make progress meanwhile. *)
Context (wait_for_completion : Z -> PT (Drv D) unit).

Definition on_wp {A} (m : PT (World D) A) : PT (Drv D) A := fun d =>
  '(a, w) ← m (d_w d); Some (a, d <|d_w := w|>).

(** ** The tests *)

Definition aes_self_test (te : test_env) (dma : Z) : PT (Drv D) Z :=
  if (te_src te =? 0) || (te_dst te =? 0) then mret (- ENOMEM)
  else
  sw ← aes_alloc_desc (te_fresh te) dma;
  s ← get_desc sw;
  put_desc sw (s <|d_cb := aes_self_cb|> <|d_priv := te_done te|>
    <|d_src_buf := (dma_buf_addr_init (te_src_dma te) PAGE_SIZE).2|>
    <|d_dst_buf := (dma_buf_addr_init (te_dst_dma te) PAGE_SIZE).2|>);;
  aes_desc_to_hw HZ round_jiffies_up dma sw;;
  wait_for_completion (te_done te);;
  mret 0.

Definition aes_free_sg_mem (sg : sglist) : PT (Drv D) unit := log (EvFreePages sg).

(** The scatter tables of the two lists are allocated (as in [aes_submit]). *)
Definition aes_perf_test (te : test_env) (dma : Z) : PT (Drv D) Z :=
  let order := 4 in
  let sg_cnt := 2048 in
  let mem_size := sg_cnt * Z.shiftl PAGE_SIZE order in
  let src_sgt := aes_alloc_sg_mem (te_sgt te) (te_sg_err te) (te_src_pages te) sg_cnt order in
  let dst_sgt := aes_alloc_sg_mem (te_sgt te) (te_sg_err te) (te_dst_pages te) sg_cnt order in
  match src_sgt, dst_sgt with
  | SgNull, _ | _, SgNull => mret (- ENOMEM)
  | SgTable src, SgTable dst =>
      if te_map_src te =? 0 then mret (- ENOMEM)
      else if te_map_dst te =? 0 then mret (- ENOMEM)
      else
      sw ← aes_alloc_desc (te_fresh2 te) dma;
      s ← get_desc sw;
      put_desc sw (s <|d_cb := aes_self_cb|> <|d_priv := te_done2 te|>
        <|d_src_buf := (dma_buf_sg_init true (d_src_buf s) src sg_cnt mem_size).2|>
        <|d_dst_buf := (dma_buf_sg_init true (d_dst_buf s) dst sg_cnt mem_size).2|>);;
      aes_desc_to_hw HZ round_jiffies_up dma sw;;
      wait_for_completion (te_done2 te);;
      aes_free_sg_mem src;;
      aes_free_sg_mem dst;;
      mret 0
  | _, _ => fails
  end.

(** ** Probing *)

Definition aes_config (reg : Z) : XAxiDma_Config := mkConfig 0xe001 reg 1 1 0 128 1 0 128 1 1 1.

(** A device structure cleared by [devm_kzalloc]. *)
Definition aes_dev_zero : aes_dev :=
  mkAesDev XAxiDma_zero 0 0 0 0 0 0 [] 0 (mkTimer false 0) (mkTimer false 0) [].

(** Starts one ring of the device. *)
Definition aes_start_ring (dma : Z) (ch : chan) : PT (Drv D) Z :=
  dv ← get_dev dma;
  '(err, r) ← on_wp (XAxiDma_BdRingStart (get_ring ch dv) 0);
  put_dev dma (set_ring ch r dv);;
  mret err.

(** What both probe functions do with the mapped registers; [irq] requests the
    interrupt lines. *)
Definition aes_setup (pe : probe_env) (te : test_env) (dma reg : Z) (irq : PT (Drv D) Z) : PT (Drv D) Z :=
  on_w (XAxiDma_WriteReg reg (XAXIDMA_TX_OFFSET + XAXIDMA_CR_OFFSET) XAXIDMA_CR_RESET_MASK);;
  on_w (XAxiDma_WriteReg reg (XAXIDMA_RX_OFFSET + XAXIDMA_CR_OFFSET) XAXIDMA_CR_RESET_MASK);;
  dv ← get_dev dma;
  '(err, a) ← on_w (XAxiDma_CfgInitialize (AxiDma dv) (Some (aes_config reg)));
  put_dev dma (dv <|AxiDma := a|>);;
  if negb (err =? XST_SUCCESS) then mret err
  else
  err ← aes_desc_init (pe_tmpl pe) (pe_tx pe) (pe_rx pe) (pe_descs pe) dma;
  if negb (err =? 0) then mret err
  else
  err ← irq;
  if negb (err =? 0) then mret err
  else
  dv ← get_dev dma;
  on_w (XAxiDma_mBdRingIntEnable (get_ring ChRx dv) XAXIDMA_IRQ_ALL_MASK);;
  on_w (XAxiDma_mBdRingIntEnable (get_ring ChTx dv) XAXIDMA_IRQ_ALL_MASK);;
  err ← aes_start_ring dma ChRx;
  if negb (err =? XST_SUCCESS) then mret err
  else
  err ← aes_start_ring dma ChTx;
  if negb (err =? XST_SUCCESS) then mret err
  else
  dv ← get_dev dma;
  on_w (XAxiDma_BdRingSetCoalesce (get_ring ChTx dv) 24 254);;
  on_w (XAxiDma_BdRingSetCoalesce (get_ring ChRx dv) 12 254);;
  now ← look d_now;
  put_dev dma (dv <|poll_timer := mod_timer (u32 (now + 1 * HZ))|>);;
  aes_self_test te dma;;
  aes_perf_test te dma;;
  mret 0.

(** The error labels of the two probe functions. *)
Definition err_dma_mask (err : Z) : PT (Drv D) Z := log EvDisableDevice;; mret err.
Definition err_alloc_dmadev (err : Z) : PT (Drv D) Z := log EvReleaseRegions;; err_dma_mask err.
Definition err_ioremap (dma err : Z) : PT (Drv D) Z := log (EvKfree dma);; err_alloc_dmadev err.

(** The result and, when a device was set up, its resources; the global [_dma]
    then points to it. *)
Definition aes_probe (pe : probe_env) (te : test_env) : PT (Drv D) (Z * option aes_res) :=
  log EvEnableDevice;;
  if negb (pe_enable pe =? 0) then mret (pe_enable pe, None)
  else
  let err := if pe_mask pe 64 =? 0 then pe_cmask pe 64
             else if pe_mask pe 32 =? 0 then pe_cmask pe 32 else pe_mask pe 32 in
  if negb (err =? 0) then err ← err_dma_mask err; mret (err, None)
  else
  log EvRequestRegions;;
  if negb (pe_regions pe =? 0) then err ← err_dma_mask (pe_regions pe); mret (err, None)
  else
  let err := pe_regions pe in
  log EvSetMaster;;
  if pe_dma pe =? 0 then err ← err_alloc_dmadev err; mret (err, None)
  else
  put_dev (pe_dma pe) aes_dev_zero;;
  log (EvSetDrvdata (pe_dma pe));;
  if pe_ioremap pe =? 0 then err ← err_ioremap (pe_dma pe) err; mret (err, None)
  else
  let reg := u32 (pe_ioremap pe + 0x10000) in
  err ← aes_setup pe te (pe_dma pe) reg
          (log (EvRequestIrq (pe_irq pe));; mret (pe_request_irq pe));
  if negb (err =? 0) then err ← err_ioremap (pe_dma pe) err; mret (err, None)
  else mret (0, Some (mkAesRes (pe_irq pe) (pe_base pe) (pe_blen pe) reg (pe_ioremap pe))).

(** [err] is uninitialised where the allocation fails: [junk]. *)
Definition aes_platform_probe (pe : probe_env) (te : test_env) (junk : Z) : PT (Drv D) (Z * option aes_res) :=
  if pe_dma pe =? 0 then err ← err_alloc_dmadev junk; mret (err, None)
  else
  put_dev (pe_dma pe) aes_dev_zero;;
  log (EvSetDrvdata (pe_dma pe));;
  let reg := pe_base pe in
  err ← aes_setup pe te (pe_dma pe) reg
          (log (EvRequestIrq 0);; log (EvRequestIrq 1);;
           mret (pe_request_irq pe .| pe_request_irq2 pe));
  if negb (err =? 0) then err ← err_ioremap (pe_dma pe) err; mret (err, None)
  else mret (0, Some (mkAesRes 0 (pe_base pe) (pe_blen pe) reg 0)).

(** ** Removal *)

(** Interrupts off, timers off, engine off. *)
Definition aes_quiesce (dma reg : Z) : PT (Drv D) unit :=
  dv ← get_dev dma;
  on_w (XAxiDma_mBdRingIntDisable (get_ring ChTx dv) XAXIDMA_IRQ_ALL_MASK);;
  on_w (XAxiDma_mBdRingIntDisable (get_ring ChRx dv) XAXIDMA_IRQ_ALL_MASK);;
  put_dev dma (dv <|poll_timer := del_timer (poll_timer dv)|> <|timer := del_timer (timer dv)|>);;
  on_w (AxiDma_Stop reg).

Definition aes_remove (dma : Z) (res : aes_res) : PT (Drv D) unit :=
  aes_quiesce dma (ar_reg res);;
  log (EvFreeIrq (ar_irq res));;
  log (EvIounmap (ar__reg res));;
  log EvReleaseRegions;;
  log (EvSetDrvdata 0);;
  log EvDisableDevice;;
  aes_clean_desc dma.

Definition aes_platform_remove (dma : Z) (res : aes_res) : PT (Drv D) Z :=
  aes_quiesce dma (ar_reg res);;
  log (EvFreeIrq 0);;
  log (EvFreeIrq 1);;
  log (EvSetDrvdata 0);;
  aes_clean_desc dma;;
  mret 0.

(** Loading the module: the lists of the bottom halves are empty, then the
    drivers are registered; what the registrations return is not looked at. *)
Definition aes_init : PT (Drv D) Z :=
  upd (fun d => d <|d_tx_head := []|> <|d_rx_head := []|>);;
  log EvCacheCreate;;
  log EvRegisterPci;;
  log EvRegisterVpci;;
  mret 0.

Definition aes_exit : PT (Drv D) unit :=
  log EvUnregisterPci;;
  log EvUnregisterVpci;;
  log EvCacheDestroy.

End probe.

(** ** Properties *)

(** The early exits of [aes_probe].  Until the device structure is set up
    every failure undoes what was done before it, and the probe leaves no
    device; but when the memory or the register mapping is refused the result
    is 0, which the kernel takes for success. *)
Theorem aes_probe_early_exits {D} `{!RegBus D} HZ ru wait pe te (d : Drv D) :
  let mask := if pe_mask pe 64 =? 0 then pe_cmask pe 64
              else if pe_mask pe 32 =? 0 then pe_cmask pe 32 else pe_mask pe 32 in
  let run := aes_probe HZ ru wait pe te d in
  let left err l := exists d', run = Some ((err, None), d') /\ d_log d' = d_log d ++ l /\ d_w d' = d_w d in
  if negb (pe_enable pe =? 0) then left (pe_enable pe) [EvEnableDevice]
  else if negb (mask =? 0) then left mask [EvEnableDevice; EvDisableDevice]
  else if negb (pe_regions pe =? 0) then left (pe_regions pe) [EvEnableDevice; EvRequestRegions; EvDisableDevice]
  else if pe_dma pe =? 0
  then left 0 [EvEnableDevice; EvRequestRegions; EvSetMaster; EvReleaseRegions; EvDisableDevice]
  else if pe_ioremap pe =? 0
  then left 0 [EvEnableDevice; EvRequestRegions; EvSetMaster; EvSetDrvdata (pe_dma pe); EvKfree (pe_dma pe);
               EvReleaseRegions; EvDisableDevice]
  else True.
Proof.
  cbv zeta. unfold aes_probe. set (mask := if pe_mask pe 64 =? 0 then _ else _).
  destruct (negb (pe_enable pe =? 0)); [eexists; by split_and!|].
  destruct (negb (mask =? 0)); [eexists; split; [reflexivity|]; cbn; by rewrite <- !app_assoc|].
  destruct (Z.eqb_spec (pe_regions pe) 0) as [E|E]; cbn [negb].
  2:{ eexists; split; [reflexivity|]; cbn; by rewrite <- !app_assoc. }
  destruct (pe_dma pe =? 0).
  { rewrite E. eexists; split; [reflexivity|]; cbn; by rewrite <- !app_assoc. }
  destruct (pe_ioremap pe =? 0); [|done].
  rewrite E. eexists; split; [reflexivity|]; cbn; by rewrite <- !app_assoc.
Qed.

(** The speed report of the performance test divides by the number of whole
    2^20 cycles that it took, so it has no result for a shorter run, and is
    otherwise the 64-bit product of the source. *)
Theorem aes_perf_speed_defined cpu_khz cycle size : 0 <= cycle < 2 ^ 64 ->
  (aes_perf_speed cpu_khz cycle size = None <-> cycle < 2 ^ 20) /\
  (2 ^ 20 <= cycle -> aes_perf_speed cpu_khz cycle size = Some (u64 (cpu_khz / (cycle / 2 ^ 20) * size))).
Proof.
  intros Hc. assert (Hs : Z.shiftr (u64 cycle) 20 = cycle / 2 ^ 20).
  { unfold u64. rewrite Z.mod_small by done. by apply Z.shiftr_div_pow2. }
  unfold aes_perf_speed. rewrite Hs. destruct (Z.eqb_spec (cycle / 2 ^ 20) 0) as [E|E].
  - apply Z.div_small_iff in E; [|lia]. split; [split; [intros _; lia|done]|lia].
  - split; [|done]. split; [done|]. intros H. destruct E. apply Z.div_small. lia.
Qed.

Lemma aes_perf_speed_defined_witness : aes_perf_speed 2000000 0xFFFFF 128 = None.
Proof. apply (aes_perf_speed_defined 2000000 0xFFFFF 128); lia. Defined.
