(* ===== verification/AesInit.v ===== *)
(** * The AES device after initialisation

    [aes_desc_init] establishes the invariant [aes_inv] that submission and
    completion preserve. *)

From S2P Require Import Prelude Kernel Hw Bd BdRing RingGeom RingSpec RingHw RingCreate RingStart RingSys RingClient Dma DmaBuf AesDma AesProps AesThms.

Lemma init_channel_run tmpl r p v n m :
  create_args p v XAXIDMA_BD_MINIMUM_ALIGNMENT n -> bd_ok tmpl ->
  st_val (aes_init_channel tmpl r p v n) m = (0, created r p v XAXIDMA_BD_MINIMUM_ALIGNMENT n).
Proof.
  intros CA Ht. unfold aes_init_channel. unfold st_val at 1. rewrite st_bind_eq. unfold st_val at 1, st_out at 1.
  rewrite (create_run r p v _ n CA m). cbn [fst snd negb Z.eqb]. set (r' := created _ _ _ _ _).
  assert (W : ring_wf r') by (split; [by apply created_geom|exists 0; by apply created_groups]).
  change (XST_SUCCESS =? XST_SUCCESS) with true. cbn [negb]. rewrite st_bind_eq. set (m1 := st_out (XAxiDma_BdClear tmpl) _).
  destruct (clone_ok m1 r' tmpl 0 0 W eq_refl ltac:(discriminate) Ht ltac:(vm_compute; split; congruence) eq_refl) as [E _].
  rewrite st_bind_eq, E. done.
Qed.

Section init.
Context {D : Type} `{!RegBus D}.

Lemma init_abs r p v n : create_args p v XAXIDMA_BD_MINIMUM_ALIGNMENT n ->
  let r' := created r p v XAXIDMA_BD_MINIMUM_ALIGNMENT n in
  ring_wf r' /\ a_hw (ring_abs r') = [] /\ PreCnt r' = 0 /\ PostCnt r' = 0 /\ FreeCnt r' = n.
Proof.
  intros CA r'. assert (W : ring_wf r') by (split; [by apply created_geom|exists 0; by apply created_groups]).
  split_and!; try done.
Qed.

(** The loop over the request structures. *)
Lemma desc_fill_run dma (l rest : list Z) : 0 ∉ l -> forall dv (d : Drv D), d_devs d !! dma = Some dv ->
  aes_desc_fill dma (length l) (l ++ rest) d =
  Some (tt, d <|d_devs := <[dma := dv <|desc_head := desc_head dv ++ l|> <|desc_free := desc_free dv + zlen l|>]> (d_devs d)|>).
Proof.
  intros H0. induction l as [|sw l IH]; intros dv d Hd.
  - transitivity (Some (tt, d)); [done|]. do 2 f_equal. destruct d as [? devs ? ? ? ? ?]. unfold set_field, set_d_devs. cbn in *.
    f_equal. symmetry. apply insert_id. rewrite Hd. destruct dv. unfold zlen, set_desc_head, set_desc_free. cbn.
    by rewrite app_nil_r, Z.add_0_r.
  - apply not_elem_of_cons in H0 as [Hne H0]. cbn [aes_desc_fill length app].
    rewrite (proj2 (Z.eqb_neq sw 0)) by done. rewrite (pt_bind_some _ _ _ _ _ (get_dev_eq _ _ _ Hd)).
    rewrite (pt_bind_some _ _ _ _ _ (put_dev_eq _ _ _)).
    erewrite IH; [|done|cbn; apply lookup_insert_eq]. do 2 f_equal. destruct d as [? devs ? ? ? ? ?], dv.
    unfold set_field, set_d_devs, set_desc_head, set_desc_free. cbn. rewrite insert_insert_eq. do 2 f_equal.
    unfold zlen. cbn [length]. rewrite <- app_assoc. cbn [app]. f_equal. lia.
Qed.

(** The kernel gave a structure for each turn of the loop. *)
Definition enough_descs (descs : list Z) : Prop :=
  TX_BD_NUM <= zlen descs /\ 0 ∉ descs /\ NoDup descs.

Lemma desc_init_run tmpl tx rx descs dma dv (d : Drv D) :
  d_devs d !! dma = Some dv -> 0 < zlen (RxBdRing (AxiDma dv)) ->
  create_args tx.2 tx.1 XAXIDMA_BD_MINIMUM_ALIGNMENT TX_BD_NUM ->
  create_args rx.2 rx.1 XAXIDMA_BD_MINIMUM_ALIGNMENT RX_BD_NUM ->
  tx.1 <> 0 -> rx.1 <> 0 -> bd_ok tmpl -> enough_descs descs ->
  tx.1 + XAXIDMA_BD_MINIMUM_ALIGNMENT * TX_BD_NUM <= rx.1 \/
  rx.1 + XAXIDMA_BD_MINIMUM_ALIGNMENT * RX_BD_NUM <= tx.1 ->
  exists d' dv', aes_desc_init tmpl tx rx descs dma d = Some (0, d') /\ aes_inv dma dv' d' /\
  FreeCnt (get_ring ChTx dv') = TX_BD_NUM /\ FreeCnt (get_ring ChRx dv') = RX_BD_NUM /\
  desc_head dv' = take (Z.to_nat TX_BD_NUM) descs /\ desc_free dv' = TX_BD_NUM /\ d_log d' = d_log d /\ w_dev (d_w d') = w_dev (d_w d).
Proof.
  intros Hdev Hrx CT CR HT HR Ht (Hlen & H0 & Hn) Hap. unfold aes_desc_init.
  rewrite (pt_bind_some _ _ _ _ _ (get_dev_eq _ _ _ Hdev)). cbv zeta.
  set (dv0 := dv <|tx_bd_v := _|> <|tx_bd_p := _|> <|tx_bd_size := _|> <|rx_bd_v := _|> <|rx_bd_p := _|> <|rx_bd_size := _|>).
  rewrite (pt_bind_some _ _ _ _ _ (put_dev_eq _ _ _)). cbn [tx_bd_v rx_bd_v dv0 set_field set_tx_bd_v set_tx_bd_p
    set_tx_bd_size set_rx_bd_v set_rx_bd_p set_rx_bd_size tx_bd_p rx_bd_p].
  rewrite (proj2 (Z.eqb_neq _ _) HT), (proj2 (Z.eqb_neq _ _) HR). cbn [orb].
  rewrite (pt_bind_some _ _ _ _ _ (on_w_eq _ _)), on_mem_val, (init_channel_run _ _ _ _ _ _ CT Ht). cbn [negb Z.eqb].
  set (rt := created _ _ _ _ TX_BD_NUM). rewrite (pt_bind_some _ _ _ _ _ (put_dev_eq _ _ _)).
  rewrite (pt_bind_some _ _ _ _ _ (on_w_eq _ _)), on_mem_val, (init_channel_run _ _ _ _ _ _ CR Ht). cbn [negb Z.eqb].
  set (rr := created _ _ _ _ RX_BD_NUM). rewrite !(pt_bind_some _ _ _ _ _ (put_dev_eq _ _ _)).
  set (dv1 := set_ring ChRx rr (set_ring ChTx rt dv0)).
  set (dv2' := dv1 <|desc_head := _|> <|hw_head := _|> <|desc_free := _|> <|timer := _|> <|poll_timer := _|>).
  set (l := take (Z.to_nat TX_BD_NUM) descs).
  assert (Hl : length l = Z.to_nat TX_BD_NUM) by (unfold l; rewrite length_take; unfold zlen in Hlen; lia).
  assert (Ed : descs = l ++ drop (Z.to_nat TX_BD_NUM) descs) by (symmetry; apply take_drop).
  set (dv2 := dv2' <|desc_head := [] ++ l|> <|desc_free := 0 + zlen l|>).
  assert (Hfill : forall d2 : Drv D, d_devs d2 !! dma = Some dv2' ->
    aes_desc_fill dma (Z.to_nat TX_BD_NUM) descs d2 = Some (tt, d2 <|d_devs := <[dma := dv2]> (d_devs d2)|>)).
  { intros d2 Hd2. rewrite <- Hl. rewrite Ed at 1. apply desc_fill_run; [|done]. intros Hin. apply H0. rewrite Ed. set_solver. }
  erewrite (pt_bind_some (aes_desc_fill _ _ _)); [|apply Hfill; cbn; apply lookup_insert_eq]. clear Hfill.
  assert (Hr : forall ch, get_ring ch dv2 = match ch with ChTx => rt | ChRx => rr end).
  { intros ch. transitivity (get_ring ch dv1); [by destruct ch|]. destruct ch; [done|].
    apply get_set_ring. by rewrite set_ring_rx. }
  destruct (init_abs (get_ring ChTx dv0) _ _ _ CT) as (WT & AT & PT' & QT & FT). fold rt in WT, AT, PT', QT, FT.
  destruct (init_abs (get_ring ChRx (set_ring ChTx rt dv0)) _ _ _ CR) as (WR & AR & PR & QR & FR).
  fold rr in WR, AR, PR, QR, FR.
  eexists. exists dv2. split; [reflexivity|]. split_and!; [|by rewrite Hr|by rewrite Hr|done| |done|].
  - split.
    + change (AxiDma dv2) with (AxiDma dv1). unfold dv1. by rewrite !set_ring_rx.
    + intros ch. rewrite Hr. by destruct ch.
    + intros ch. rewrite Hr. by destruct ch.
    + intros ch. rewrite Hr. by destruct ch.
    + rewrite !Hr. destruct Hap as [H|H]; [|apply rings_apart_sym]; (apply range_apart; [apply WT || apply WR..|exact H]).
    + cbv zeta. rewrite !Hr, AT, AR. split; [cbn; apply lookup_insert_eq|..].
      * intros x Hx. by apply elem_of_nil in Hx.
      * intros x Hx. by apply elem_of_nil in Hx.
      * intros x _ Hx. by apply elem_of_nil in Hx.
      * change (desc_head dv2) with l. rewrite Ed in Hn. by apply NoDup_app in Hn as [? _].
  - change (desc_free dv2) with (0 + zlen l). unfold zlen. rewrite Hl. done.
  - cbn. by rewrite !on_mem_out.
Qed.

End init.

(** C39: initialisation.  With descriptor memory for both rings (aligned, inside
    the address space and disjoint) and a request structure from the kernel for
    each of the 65536 turns of the loop, [aes_desc_init] succeeds: the device is
    consistent, all 65536 descriptors of each ring are free, so are as many
    requests, and no register was touched. *)
Theorem aes_init_consistent {D} `{!RegBus D} tmpl tx rx descs dma dv (d : Drv D) :
  d_devs d !! dma = Some dv -> 0 < zlen (RxBdRing (AxiDma dv)) ->
  create_args tx.2 tx.1 XAXIDMA_BD_MINIMUM_ALIGNMENT TX_BD_NUM ->
  create_args rx.2 rx.1 XAXIDMA_BD_MINIMUM_ALIGNMENT RX_BD_NUM ->
  tx.1 <> 0 -> rx.1 <> 0 -> bd_ok tmpl -> enough_descs descs ->
  tx.1 + XAXIDMA_BD_MINIMUM_ALIGNMENT * TX_BD_NUM <= rx.1 \/
  rx.1 + XAXIDMA_BD_MINIMUM_ALIGNMENT * RX_BD_NUM <= tx.1 ->
  exists d' dv', aes_desc_init tmpl tx rx descs dma d = Some (0, d') /\ aes_inv dma dv' d' /\
  FreeCnt (get_ring ChTx dv') = TX_BD_NUM /\ FreeCnt (get_ring ChRx dv') = RX_BD_NUM /\
  desc_head dv' = take (Z.to_nat TX_BD_NUM) descs /\ desc_free dv' = TX_BD_NUM /\
  d_log d' = d_log d /\ w_dev (d_w d') = w_dev (d_w d).
Proof.
  intros H1 H2 H3 H4 H5 H6 H7 H8 H9.
  destruct (desc_init_run tmpl tx rx descs dma dv d H1 H2 H3 H4 H5 H6 H7 H8 H9)
    as (d' & dv' & E & I & F1 & F2 & F3 & F4 & L & W). exists d', dv'. by do 7 (split; [assumption|]).
Qed.

Definition blank_drv : Drv RegFile :=
  mkDrv (mkWorld ∅ ∅) {[0xD000 := mkAesDev XAxiDma_zero 0 0 0 0 0 0 [] 0 (mkTimer false 0) (mkTimer false 0) []]}
    ∅ [] [] 0 [].

Lemma big_args p v : is_u32 p -> is_u32 v -> p mod 0x40 = 0 -> v mod 0x40 = 0 -> v + 0x400000 <= 4294967296 ->
  create_args p v XAXIDMA_BD_MINIMUM_ALIGNMENT 65536.
Proof.
  intros. change XAXIDMA_BD_MINIMUM_ALIGNMENT with 0x40. split; try done; unfold is_u32 in *; lia.
Qed.

(** Structures of 512 bytes. *)
Definition ex_descs : list Z := (fun k => 0x200 * k) <$> seqZ 1 TX_BD_NUM.

Lemma ex_descs_enough : enough_descs ex_descs.
Proof.
  unfold enough_descs, ex_descs, zlen. rewrite length_fmap, length_seqZ. split_and!.
  - unfold TX_BD_NUM. lia.
  - intros (k & E & Hk%elem_of_seqZ)%list_elem_of_fmap. lia.
  - apply NoDup_fmap_2; [intros x y; lia|apply NoDup_seqZ].
Qed.

Lemma aes_init_consistent_witness : exists d',
  aes_desc_init 0xC0000000 (0x80000000, 0x1000000) (0x90000000, 0x2000000) ex_descs 0xD000 blank_drv
  = Some (0, d').
Proof.
  destruct (aes_init_consistent 0xC0000000 (0x80000000, 0x1000000) (0x90000000, 0x2000000) ex_descs 0xD000
    (mkAesDev XAxiDma_zero 0 0 0 0 0 0 [] 0 (mkTimer false 0) (mkTimer false 0) []) blank_drv) as (d' & dv' & E & _).
  - apply lookup_singleton_eq.
  - vm_compute. reflexivity.
  - apply big_args; cbn [fst snd]; (reflexivity || (unfold is_u32; lia)).
  - apply big_args; cbn [fst snd]; (reflexivity || (unfold is_u32; lia)).
  - cbn [fst]. lia.
  - cbn [fst]. lia.
  - unfold bd_ok. change sizeof_Bd with 64. lia.
  - exact ex_descs_enough.
  - left. cbn [fst]. unfold XAXIDMA_BD_MINIMUM_ALIGNMENT, TX_BD_NUM. lia.
  - exists d'. exact E.
Defined.
