(* ===== verification/VdiskAes.v ===== *)
(** * Encrypted block devices

    Models the part of [cg/scst/src/dev_handlers/scst_vdisk.c] that executes
    reads and writes on a block device: [blockio_exec_rw] cuts the buffer of a
    command into bios, and on a device with [aes] set the data passes through
    the AES driver, before the bios of a write and after those of a read.  Work
    structures are addresses whose objects live in maps; an object that was
    freed is no longer there, and a computation that would use it has no result
    ([None]).  Answers of the allocators and of the block layer are arguments;
    bios that are with the block layer, requests that are with the AES driver
    and queued work are kept in lists. *)

From S2P Require Import Prelude Kernel.

Definition PAGE_SIZE : Z := 4096.

(** Entries of the scatter tables of a request. *)
Definition AES_SG_MAX : Z := 2048.

Definition u64 (x : Z) : Z := x mod 18446744073709551616.

(** A piece of a page: an entry of a bio or of a scatter table. *)
Record piece : Type := mkPiece { p_page : Z; p_len : Z; p_off : Z }.

(** The fields of [struct bio] that the code sets; [bi_meta] stands for
    [REQ_META] and [REQ_PRIO].  The fail-fast flags are always set. *)
Record bio : Type := mkBio {
  bi_sector : Z;
  bi_vecs : list piece;
  bi_fua : bool;
  bi_meta : bool;
  bi_private : Z
}.

Record blockio_work : Type := mkWork {
  w_inflight : Z;
  w_cmd : Z;
  w_write : bool;
  w_aes : Z
}.

(** The chain of bios that starts at [hbio] is a list. *)
Record aes_work : Type := mkAesWork {
  aw_blockio : Z;
  aw_src : list piece;
  aw_dst : list piece;
  aw_sg_cnt : Z;
  aw_sg_size : Z;
  aw_hbio : list bio
}.

(** The callbacks that are given to the AES driver. *)
Inductive aes_cb : Type := blockio_write_cb | blockio_read_cb.

(** Calls of other parts of the kernel. *)
Inductive bevent : Type :=
| BvBusy (cmd : Z)
| BvDone (cmd : Z)
| BvGet (cmd : Z)
| BvPut (cmd : Z)
| BvError (cmd : Z) (write : bool)
| BvAllocPage (page : Z)
| BvFreePage (page : Z)
| BvFreeWork (work : Z)
| BvFreeAes (aes : Z)
| BvAesSubmit (src dst : list piece) (cnt size : Z).

Record vdisk : Type := mkVdisk {
  v_aes : bool;
  v_works : gmap Z blockio_work;
  v_aesw : gmap Z aes_work;
  v_bios : list (bool * bio);
  v_crypto : list (aes_cb * Z);
  v_wq : list Z;
  v_log : list bevent
}.

#[export] Instance set_w_inflight : Setter w_inflight := fun v w =>
  mkWork v (w_cmd w) (w_write w) (w_aes w).
#[export] Instance set_w_cmd : Setter w_cmd := fun v w =>
  mkWork (w_inflight w) v (w_write w) (w_aes w).
#[export] Instance set_w_write : Setter w_write := fun v w =>
  mkWork (w_inflight w) (w_cmd w) v (w_aes w).
#[export] Instance set_w_aes : Setter w_aes := fun v w =>
  mkWork (w_inflight w) (w_cmd w) (w_write w) v.
#[export] Instance set_aw_blockio : Setter aw_blockio := fun v a =>
  mkAesWork v (aw_src a) (aw_dst a) (aw_sg_cnt a) (aw_sg_size a) (aw_hbio a).
#[export] Instance set_aw_src : Setter aw_src := fun v a =>
  mkAesWork (aw_blockio a) v (aw_dst a) (aw_sg_cnt a) (aw_sg_size a) (aw_hbio a).
#[export] Instance set_aw_dst : Setter aw_dst := fun v a =>
  mkAesWork (aw_blockio a) (aw_src a) v (aw_sg_cnt a) (aw_sg_size a) (aw_hbio a).
#[export] Instance set_aw_sg_cnt : Setter aw_sg_cnt := fun v a =>
  mkAesWork (aw_blockio a) (aw_src a) (aw_dst a) v (aw_sg_size a) (aw_hbio a).
#[export] Instance set_aw_sg_size : Setter aw_sg_size := fun v a =>
  mkAesWork (aw_blockio a) (aw_src a) (aw_dst a) (aw_sg_cnt a) v (aw_hbio a).
#[export] Instance set_aw_hbio : Setter aw_hbio := fun v a =>
  mkAesWork (aw_blockio a) (aw_src a) (aw_dst a) (aw_sg_cnt a) (aw_sg_size a) v.
#[export] Instance set_v_aes : Setter v_aes := fun v s =>
  mkVdisk v (v_works s) (v_aesw s) (v_bios s) (v_crypto s) (v_wq s) (v_log s).
#[export] Instance set_v_works : Setter v_works := fun v s =>
  mkVdisk (v_aes s) v (v_aesw s) (v_bios s) (v_crypto s) (v_wq s) (v_log s).
#[export] Instance set_v_aesw : Setter v_aesw := fun v s =>
  mkVdisk (v_aes s) (v_works s) v (v_bios s) (v_crypto s) (v_wq s) (v_log s).
#[export] Instance set_v_bios : Setter v_bios := fun v s =>
  mkVdisk (v_aes s) (v_works s) (v_aesw s) v (v_crypto s) (v_wq s) (v_log s).
#[export] Instance set_v_crypto : Setter v_crypto := fun v s =>
  mkVdisk (v_aes s) (v_works s) (v_aesw s) (v_bios s) v (v_wq s) (v_log s).
#[export] Instance set_v_wq : Setter v_wq := fun v s =>
  mkVdisk (v_aes s) (v_works s) (v_aesw s) (v_bios s) (v_crypto s) v (v_log s).
#[export] Instance set_v_log : Setter v_log := fun v s =>
  mkVdisk (v_aes s) (v_works s) (v_aesw s) (v_bios s) (v_crypto s) (v_wq s) v.

(** ** Access to objects *)

Definition v_upd (f : vdisk -> vdisk) : PT vdisk unit := fun s => Some (tt, f s).
Definition v_get {A} (f : vdisk -> A) : PT vdisk A := fun s => Some (f s, s).
Definition v_note (v : bevent) : PT vdisk unit := v_upd (fun s => s <|v_log := v_log s ++ [v]|>).
Definition get_work (w : Z) : PT vdisk blockio_work := fun s => x ← v_works s !! w; Some (x, s).
Definition put_work (w : Z) (x : blockio_work) : PT vdisk unit :=
  v_upd (fun s => s <|v_works := <[w := x]> (v_works s)|>).
Definition get_aesw (a : Z) : PT vdisk aes_work := fun s => x ← v_aesw s !! a; Some (x, s).
Definition put_aesw (a : Z) (x : aes_work) : PT vdisk unit :=
  v_upd (fun s => s <|v_aesw := <[a := x]> (v_aesw s)|>).

(** [kmem_cache_free] and [kfree]: freeing what is not allocated has no result. *)
Definition free_work (w : Z) : PT vdisk unit :=
  get_work w;; v_upd (fun s => s <|v_works := delete w (v_works s)|>);; v_note (BvFreeWork w).
Definition free_aesw (a : Z) : PT vdisk unit :=
  get_aesw a;; v_upd (fun s => s <|v_aesw := delete a (v_aesw s)|>);; v_note (BvFreeAes a).

(** The [completed] flag is set whenever [scst_cmd_done] is called. *)
Definition cmd_done (cmd : Z) : PT vdisk unit := v_note (BvDone cmd).

(** ** Requests to the AES driver *)

(** [__free_page] uses the page it is given: a null pointer has no result. *)
Fixpoint free_pages (l : list piece) : PT vdisk unit :=
  match l with
  | [] => mret tt
  | p :: l => if p_page p =? 0 then fun _ => None else v_note (BvFreePage (p_page p));; free_pages l
  end.

Definition aes_cleanup (aes : Z) : PT vdisk unit :=
  a ← get_aesw aes;
  w ← get_work (aw_blockio a);
  let sg := if w_write w then aw_dst a else aw_src a in
  free_pages (take (Z.to_nat (aw_sg_cnt a)) sg);;
  free_aesw aes.

(** Submission of a chain of bios. *)
Fixpoint submit_bios (write : bool) (hbio : list bio) : PT vdisk unit :=
  match hbio with
  | [] => mret tt
  | bio :: hbio => v_upd (fun s => s <|v_bios := v_bios s ++ [(write, bio)]|>);; submit_bios write hbio
  end.

(** The answer of [aes_submit] is not used. *)
Definition blockio_aes_submit (work : Z) : PT vdisk unit :=
  w ← get_work work;
  let aes := w_aes w in
  cb ← (if w_write w
        then v_note (BvGet (w_cmd w));; cmd_done (w_cmd w);; mret blockio_write_cb
        else mret blockio_read_cb);
  a ← get_aesw aes;
  v_note (BvAesSubmit (aw_src a) (aw_dst a) (aw_sg_cnt a) (aw_sg_size a));;
  v_upd (fun s => s <|v_crypto := v_crypto s ++ [(cb, work)]|>).

Definition blockio_check_finish (work : Z) : PT vdisk unit :=
  w ← get_work work;
  let w := w <|w_inflight := w_inflight w - 1|> in
  put_work work w;;
  if w_inflight w =? 0 then
    aes ← v_get v_aes;
    if aes : bool then
      (if negb (w_write w) then blockio_aes_submit work
       else aes_cleanup (w_aes w);; v_note (BvPut (w_cmd w)));;
      free_work work
    else
      cmd_done (w_cmd w);;
      free_work work
  else mret tt.

Definition aes_write_work_fn (aes : Z) : PT vdisk unit :=
  a ← get_aesw aes;
  w ← get_work (aw_blockio a);
  submit_bios (w_write w) (aw_hbio a);;
  blockio_check_finish (aw_blockio a).

Definition blockio_write_aes_cb (work : Z) : PT vdisk unit :=
  w ← get_work work;
  get_aesw (w_aes w);;
  v_upd (fun s => s <|v_wq := v_wq s ++ [w_aes w]|>).

Definition blockio_read_aes_cb (work : Z) : PT vdisk unit :=
  w ← get_work work;
  aes_cleanup (w_aes w);;
  cmd_done (w_cmd w);;
  free_work work.

(** The end of a bio; [uptodate] is its flag, [write] its direction. *)
Definition blockio_endio (write : bool) (b : bio) (uptodate : bool) (error : Z) : PT vdisk unit :=
  let error := if negb uptodate && (error =? 0) then - EIO else error in
  (if negb (error =? 0)
   then w ← get_work (bi_private b); v_note (BvError (w_cmd w) write)
   else mret tt);;
  blockio_check_finish (bi_private b).

(** ** Executing a command *)

(** Answers of the allocators: the work structure, the AES structure, whether
    the two tables could be allocated, one answer for each new bio, one page
    for each call ([0] is a null pointer), and what the memory of the work
    structure held. *)
Record answers : Type := mkAnswers {
  an_work : Z;
  an_aes : Z;
  an_src : bool;
  an_dst : bool;
  an_bios : list bool;
  an_pages : list Z;
  an_junk : Z
}.

(** The local variables of the loops. *)
Record locals : Type := mkLocals {
  x_hbio : list bio;
  x_need : bool;
  x_bios : Z;
  x_lba0 : Z;
  x_thislen : Z;
  x_src : list piece;
  x_dst : list piece;
  x_cnt : Z;
  x_size : Z;
  x_mem : list bool;
  x_pages : list Z;
  x_log : list bevent
}.

#[export] Instance set_x_hbio : Setter x_hbio := fun v x =>
  mkLocals v (x_need x) (x_bios x) (x_lba0 x) (x_thislen x) (x_src x) (x_dst x) (x_cnt x) (x_size x)
    (x_mem x) (x_pages x) (x_log x).
#[export] Instance set_x_need : Setter x_need := fun v x =>
  mkLocals (x_hbio x) v (x_bios x) (x_lba0 x) (x_thislen x) (x_src x) (x_dst x) (x_cnt x) (x_size x)
    (x_mem x) (x_pages x) (x_log x).
#[export] Instance set_x_bios : Setter x_bios := fun v x =>
  mkLocals (x_hbio x) (x_need x) v (x_lba0 x) (x_thislen x) (x_src x) (x_dst x) (x_cnt x) (x_size x)
    (x_mem x) (x_pages x) (x_log x).
#[export] Instance set_x_lba0 : Setter x_lba0 := fun v x =>
  mkLocals (x_hbio x) (x_need x) (x_bios x) v (x_thislen x) (x_src x) (x_dst x) (x_cnt x) (x_size x)
    (x_mem x) (x_pages x) (x_log x).
#[export] Instance set_x_thislen : Setter x_thislen := fun v x =>
  mkLocals (x_hbio x) (x_need x) (x_bios x) (x_lba0 x) v (x_src x) (x_dst x) (x_cnt x) (x_size x)
    (x_mem x) (x_pages x) (x_log x).
#[export] Instance set_x_src : Setter x_src := fun v x =>
  mkLocals (x_hbio x) (x_need x) (x_bios x) (x_lba0 x) (x_thislen x) v (x_dst x) (x_cnt x) (x_size x)
    (x_mem x) (x_pages x) (x_log x).
#[export] Instance set_x_dst : Setter x_dst := fun v x =>
  mkLocals (x_hbio x) (x_need x) (x_bios x) (x_lba0 x) (x_thislen x) (x_src x) v (x_cnt x) (x_size x)
    (x_mem x) (x_pages x) (x_log x).
#[export] Instance set_x_cnt : Setter x_cnt := fun v x =>
  mkLocals (x_hbio x) (x_need x) (x_bios x) (x_lba0 x) (x_thislen x) (x_src x) (x_dst x) v (x_size x)
    (x_mem x) (x_pages x) (x_log x).
#[export] Instance set_x_size : Setter x_size := fun v x =>
  mkLocals (x_hbio x) (x_need x) (x_bios x) (x_lba0 x) (x_thislen x) (x_src x) (x_dst x) (x_cnt x) v
    (x_mem x) (x_pages x) (x_log x).
#[export] Instance set_x_mem : Setter x_mem := fun v x =>
  mkLocals (x_hbio x) (x_need x) (x_bios x) (x_lba0 x) (x_thislen x) (x_src x) (x_dst x) (x_cnt x)
    (x_size x) v (x_pages x) (x_log x).
#[export] Instance set_x_pages : Setter x_pages := fun v x =>
  mkLocals (x_hbio x) (x_need x) (x_bios x) (x_lba0 x) (x_thislen x) (x_src x) (x_dst x) (x_cnt x)
    (x_size x) (x_mem x) v (x_log x).
#[export] Instance set_x_log : Setter x_log := fun v x =>
  mkLocals (x_hbio x) (x_need x) (x_bios x) (x_lba0 x) (x_thislen x) (x_src x) (x_dst x) (x_cnt x)
    (x_size x) (x_mem x) (x_pages x) v.

Section exec.
(** [bio_add_page] of the block layer: the number of bytes it takes. *)
Context (bio_add_page : bio -> Z -> Z -> Z -> Z).
(** The command: its device's block shift, the work structure, whether it writes
    through and is at the head of the queue, and the capacities of the tables. *)
Context (block_shift work : Z) (aes write fua head_of_queue : bool) (src_cap dst_cap : Z).

(** A new bio at the end of the chain. *)
Definition new_bio (x : locals) : option locals :=
  if negb (x_need x) then Some x
  else
  match x_mem x with
  | true :: mem =>
      let b := mkBio (u64 (Z.shiftl (x_lba0 x) (block_shift - 9))) [] fua head_of_queue work in
      Some (x <|x_mem := mem|> <|x_bios := x_bios x + 1|> <|x_need := false|> <|x_hbio := x_hbio x ++ [b]|>)
  | _ => None
  end.

(** [alloc_page]: null when the answers are used up. *)
Definition take_page (x : locals) : Z * locals :=
  match x_pages x with
  | ag :: pages =>
      (ag, x <|x_pages := pages|> <|x_log := if ag =? 0 then x_log x else x_log x ++ [BvAllocPage ag]|>)
  | [] => (0, x)
  end.

(** [bio_add_page] on the last bio, which took the piece. *)
Definition add_piece (p : piece) (x : locals) : locals :=
  match last (x_hbio x) with
  | Some b => x <|x_hbio := removelast (x_hbio x) ++
                  [mkBio (bi_sector b) (bi_vecs b ++ [p]) (bi_fua b) (bi_meta b) (bi_private b)]|>
  | None => x
  end.

(** The next entries of the two tables; there may be none left. *)
Definition set_sg (pg ag bytes off : Z) (x : locals) : option locals :=
  if (x_cnt x <? src_cap) && (x_cnt x <? dst_cap) then
    let '(s, d) := if write then (pg, ag) else (ag, pg) in
    Some (x <|x_src := x_src x ++ [mkPiece s bytes off]|> <|x_dst := x_dst x ++ [mkPiece d bytes off]|>
            <|x_cnt := x_cnt x + 1|> <|x_size := x_size x + bytes|>)
  else None.

(** The loop over one segment of the command's buffer: [true] when it was done,
    [false] when no bio could be allocated.  [n] bounds the iterations. *)
Fixpoint seg_loop (n : nat) (pg len off : Z) (x : locals) : option (bool * locals) :=
  if len <=? 0 then Some (true, x)
  else
  match n with
  | O => None
  | S n =>
      match new_bio x with
      | None => Some (false, x)
      | Some x =>
          let bytes := Z.min (u32 len) (u32 (PAGE_SIZE - off)) in
          let '(ag, x) := if aes then take_page x else (0, x) in
          let page := if aes then ag else pg in
          b ← last (x_hbio x);
          let rc := bio_add_page b page bytes off in
          if rc <? bytes then
            if negb (rc =? 0) then None
            else
            seg_loop n pg len off
              (x <|x_need := true|> <|x_lba0 := u64 (x_lba0 x + Z.shiftr (x_thislen x) block_shift)|>
                 <|x_thislen := 0|>
                 <|x_log := if ag =? 0 then x_log x else x_log x ++ [BvFreePage ag]|>)
          else
          let x := add_piece (mkPiece page bytes off) x in
          x ← (if aes then set_sg pg ag bytes off x else Some x);
          seg_loop n (pg + 1) (len - bytes) 0 (x <|x_thislen := x_thislen x + bytes|>)
      end
  end.

(** Each piece takes at most two iterations. *)
Definition seg_fuel (len : Z) : nat := S (2 * Z.to_nat len).

(** The loop over the segments (page, offset, length) of the command. *)
Fixpoint seg_list (segs : list piece) (lba_start : Z) (x : locals) : option (bool * locals) :=
  match segs with
  | [] => Some (true, x)
  | p :: segs =>
      if p_len p <=? 0 then Some (true, x)
      else
      '(ok, x) ← seg_loop (seg_fuel (p_len p)) (p_page p) (p_len p) (p_off p)
                   (x <|x_thislen := 0|> <|x_lba0 := lba_start|>);
      if ok : bool then seg_list segs (u64 (lba_start + Z.shiftr (p_len p) block_shift)) x
      else Some (false, x)
  end.

End exec.

(** [out_no_mem]. *)
Definition exec_busy (cmd : Z) : PT vdisk unit := v_note (BvBusy cmd);; cmd_done cmd.

Definition blockio_exec_rw (bio_add_page : bio -> Z -> Z -> Z -> Z) (an : answers) (cmd lba_start block_shift : Z)
  (segs : list piece) (write fua head_of_queue : bool) : PT vdisk unit :=
  if an_work an =? 0 then exec_busy cmd
  else
  aes ← v_get v_aes;
  let work := an_work an in
  put_work work (mkWork 0 cmd write (an_junk an));;
  if aes && (an_aes an =? 0) then free_work work;; exec_busy cmd
  else
  (if aes : bool
   then put_aesw (an_aes an) (mkAesWork work [] [] 0 0 []);;
        put_work work (mkWork 0 cmd write (an_aes an))
   else mret tt);;
  let cap ok := if ok : bool then AES_SG_MAX else 0 in
  let x := mkLocals [] true 0 0 0 [] [] 0 0 (an_bios an) (an_pages an) [] in
  '(ok, x) ← (fun s => r ← seg_list bio_add_page block_shift work aes write fua head_of_queue
                        (cap (an_src an)) (cap (an_dst an)) segs lba_start x; Some (r, s));
  v_upd (fun s => s <|v_log := v_log s ++ x_log x|>);;
  (if aes : bool
   then a ← get_aesw (an_aes an);
        put_aesw (an_aes an) (a <|aw_src := x_src x|> <|aw_dst := x_dst x|> <|aw_sg_cnt := x_cnt x|>
                                <|aw_sg_size := x_size x|>)
   else mret tt);;
  if negb ok then free_work work;; exec_busy cmd
  else
  (if aes && negb ((x_cnt x <? cap (an_src an)) && (x_cnt x <? cap (an_dst an)))
   then fun _ => None else mret tt);;
  w ← get_work work;
  put_work work (w <|w_inflight := x_bios x + 1|>);;
  if aes && write then
    a ← get_aesw (an_aes an);
    put_aesw (an_aes an) (a <|aw_hbio := x_hbio x|>);;
    blockio_aes_submit work
  else
  submit_bios write (x_hbio x);;
  blockio_check_finish work.

(** ** The attribute in sysfs *)

(** What is printed: the flag, and whether the key mark follows. *)
Definition vdev_aes_enable_show : PT vdisk (Z * bool) :=
  aes ← v_get v_aes;
  mret (if aes : bool then 1 else 0, aes).

(** [value] is what [simple_strtoul] reads. *)
Definition vdev_aes_enable_store (value count : Z) : PT vdisk Z :=
  v_upd (fun s => s <|v_aes := negb (value =? 0)|>);; mret count.
