(* ===== verification/VdiskCut.v ===== *)
(** * Cutting a command into bios

    [blockio_exec_rw] cuts the buffer of a command at page boundaries and packs
    the pieces into bios.  [cut] is the reference; whatever number of pieces the
    block layer takes into a bio, the bios carry the pieces in order, each bio at
    the right sector, and the scatter tables for the AES driver pair each piece
    with its own page. *)

From S2P Require Import Prelude Kernel VdiskAes.

(** What the block layer promises of [bio_add_page]: all of the bytes or none,
    and a piece of a page always fits an empty bio. *)
Class BlockLayer (bio_add_page : bio -> Z -> Z -> Z -> Z) : Prop := {
  bl_all : forall b page len off, bio_add_page b page len off = len \/ bio_add_page b page len off = 0;
  bl_empty : forall b page len off, bi_vecs b = [] -> 0 < len -> 0 <= off -> off + len <= PAGE_SIZE ->
    bio_add_page b page len off = len;
}.

(** The pieces of [len] bytes from offset [off] of page [pg] on. *)
Fixpoint cut (n : nat) (pg len off : Z) : list piece :=
  match n with
  | O => []
  | S n =>
      if len <=? 0 then []
      else let b := Z.min len (PAGE_SIZE - off) in mkPiece pg b off :: cut n (pg + 1) (len - b) 0
  end.

Definition cut_seg (p : piece) : list piece := cut (Z.to_nat (p_len p)) (p_page p) (p_len p) (p_off p).

Fixpoint vlen (l : list piece) : Z := match l with [] => 0 | p :: l => p_len p + vlen l end.

Lemma vlen_app a b : vlen (a ++ b) = vlen a + vlen b.
Proof. induction a as [|p a IH]; cbn; [done|]. rewrite IH. lia. Qed.

(** The pieces cover the segment, inside pages. *)
Lemma cut_ok n : forall pg len off, 0 <= off < PAGE_SIZE -> 0 <= len <= Z.of_nat n ->
  vlen (cut n pg len off) = len /\
  Forall (fun p => 0 < p_len p /\ 0 <= p_off p /\ p_off p + p_len p <= PAGE_SIZE) (cut n pg len off).
Proof.
  induction n as [|n IH]; intros pg len off Ho Hl; cbn [cut].
  { split; [cbn; lia|constructor]. }
  case_if; [split; [cbn; lia|constructor]|]. unfold PAGE_SIZE in *.
  destruct (IH (pg + 1) (len - Z.min len (4096 - off)) 0 ltac:(lia) ltac:(lia)) as [Ev F]. split.
  - cbn [vlen p_len]. rewrite Ev. lia.
  - constructor; [cbn; lia|done].
Qed.

(** More fuel changes nothing. *)
Lemma cut_fuel n : forall m pg len off, 0 <= off < PAGE_SIZE -> 0 <= len <= Z.of_nat n -> len <= Z.of_nat m ->
  cut n pg len off = cut m pg len off.
Proof.
  unfold PAGE_SIZE in *. induction n as [|n IH]; intros [|m] pg len off Ho Hl Hm; cbn [cut]; try done.
  - case_if; [done|lia].
  - case_if; [done|lia].
  - case_if; [done|]. cbv zeta. f_equal. apply IH; unfold PAGE_SIZE; lia.
Qed.

(** The pieces on their own pages. *)
Definition on_pages (ags : list Z) (ps : list piece) : list piece :=
  zip_with (fun ag p => mkPiece ag (p_len p) (p_off p)) ags ps.

(** All pieces of a chain of bios. *)
Definition bvecs (bs : list bio) : list piece := mjoin (bi_vecs <$> bs).
Arguments bvecs : simpl never.

Lemma bvecs_app a b : bvecs (a ++ b) = bvecs a ++ bvecs b.
Proof. unfold bvecs. by rewrite fmap_app, join_app. Qed.

(** Bios from the byte [pos] of the device on: each carries something, starts
    at the sector where the one before it ended, and has the right attributes. *)
Fixpoint bios_ok (work : Z) (fua meta : bool) (pos : Z) (bs : list bio) : Prop :=
  match bs with
  | [] => True
  | b :: bs =>
      bi_sector b * 512 = pos /\ bi_vecs b <> [] /\ bi_private b = work /\ bi_fua b = fua /\ bi_meta b = meta /\
      bios_ok work fua meta (pos + vlen (bi_vecs b)) bs
  end.

Lemma bios_ok_app work fua meta a b : forall pos,
  bios_ok work fua meta pos (a ++ b) <->
  bios_ok work fua meta pos a /\ bios_ok work fua meta (pos + vlen (bvecs a)) b.
Proof.
  induction a as [|x a IH]; intros pos; cbn [app bios_ok].
  - change (vlen (bvecs [])) with 0. rewrite Z.add_0_r. tauto.
  - change (bvecs (x :: a)) with (bi_vecs x ++ bvecs a). rewrite vlen_app, IH, Z.add_assoc. tauto.
Qed.

(** The pages that an execution has taken and not given back. *)
Definition pages_in (log : list bevent) : list Z :=
  omap (fun v => match v with BvAllocPage p => Some p | _ => None end) log.
Definition pages_out (log : list bevent) : list Z :=
  omap (fun v => match v with BvFreePage p => Some p | _ => None end) log.

Definition page_event (v : bevent) : Prop :=
  match v with BvAllocPage _ | BvFreePage _ => True | _ => False end.

Section loop.
Context (bio_add_page : bio -> Z -> Z -> Z -> Z) `{!BlockLayer bio_add_page}.
Context (block_shift work : Z) (aes write fua meta : bool) (src_cap dst_cap : Z).
Context (Hshift : 9 <= block_shift <= 12).

Local Notation seg_loop := (seg_loop bio_add_page block_shift work aes write fua meta src_cap dst_cap).
Local Notation block := (2 ^ block_shift).

(** What the loop keeps, [base] being the first byte of the command and [pos]
    the next one. *)
Record loop_inv (base pos : Z) (x : locals) : Prop := {
  li_bios : bios_ok work fua meta base (x_hbio x);
  li_pos : base + vlen (bvecs (x_hbio x)) = pos;
  li_lba : x_lba0 x * block + x_thislen x = pos;
  li_need : x_need x = true -> x_thislen x = 0;
  li_have : x_need x = false -> x_hbio x <> [];
  li_this : (block | x_thislen x);
  li_range : 0 <= x_lba0 x /\ 0 <= x_thislen x;
  li_cnt : x_bios x = Z.of_nat (length (x_hbio x));
}.

(** What the loop adds for the pieces [ps]. *)
Record added_pieces (ps : list piece) (x x' : locals) : Prop := {
  ap_pieces : exists ags log, length ags = length ps /\
    bvecs (x_hbio x') = bvecs (x_hbio x) ++ (if aes then on_pages ags ps else ps) /\
    x_src x' = x_src x ++ (if aes then if write then ps else on_pages ags ps else []) /\
    x_dst x' = x_dst x ++ (if aes then if write then on_pages ags ps else ps else []) /\
    x_log x' = x_log x ++ log /\ Forall page_event log /\
    pages_in log ≡ₚ pages_out log ++ (if aes then filter (fun a => a <> 0) ags else []);
  ap_cnt : x_cnt x' = x_cnt x + (if aes then Z.of_nat (length ps) else 0);
  ap_size : x_size x' = x_size x + (if aes then vlen ps else 0);
}.

(** Getting a bio. *)
Lemma new_bio_ok base pos x x' : loop_inv base pos x -> pos < 2 ^ 64 -> 
  new_bio block_shift work fua meta x = Some x' ->
  exists b bs, x_hbio x' = bs ++ [b] /\ x_need x' = false /\ bios_ok work fua meta base bs /\
  bi_sector b * 512 = base + vlen (bvecs bs) /\ bi_private b = work /\ bi_fua b = fua /\ bi_meta b = meta /\
  bvecs (x_hbio x') = bvecs (x_hbio x) /\ (x_need x = true -> bi_vecs b = []) /\ (x_need x = false -> bi_vecs b <> []) /\
  x' = x <|x_mem := x_mem x'|> <|x_bios := x_bios x'|> <|x_need := false|> <|x_hbio := x_hbio x'|> /\
  x_bios x' = Z.of_nat (length (x_hbio x')).
Proof using Hshift.
  intros [Hb Hp Hl Hn Hh Ht [Hr0 Hr1] Hc] Hmax. unfold new_bio. destruct (x_need x) eqn:En; cbn [negb].
  - destruct (x_mem x) as [|[] mem]; [done| |done]. intros [= <-]. specialize (Hn eq_refl).
    eexists _, (x_hbio x). cbn. split; [reflexivity|]. split_and!; try done.
    + cbn [bi_sector]. rewrite Z.shiftl_mul_pow2 by lia. rewrite Hn, Z.add_0_r in Hl.
      assert (E : x_lba0 x * 2 ^ (block_shift - 9) * 512 = pos).
      { rewrite <- Hl, <- Z.mul_assoc. f_equal. change 512 with (2 ^ 9). rewrite <- Z.pow_add_r by lia. f_equal. lia. }
      unfold u64. rewrite Z.mod_small; [lia|]. change 18446744073709551616 with (2 ^ 64). nia.
    + rewrite bvecs_app. change (bvecs [_]) with (@nil piece ++ []). by rewrite !app_nil_r.
    + rewrite length_app. cbn. lia.
  - intros [= <-]. specialize (Hh eq_refl). destruct (exists_last Hh) as (bs & b & Eh).
    rewrite Eh in Hb, Hc |- *. apply bios_ok_app in Hb as [Hb1 (Hs & Hv & Hpr & Hf & Hm & _)].
    exists b, bs. split_and!; try done. rewrite <- Eh, <- En. by destruct x.
Qed.

Lemma added_app ps qs x y z : added_pieces ps x y -> added_pieces qs y z -> added_pieces (ps ++ qs) x z.
Proof.
  intros [(ags & l & Hl & E1 & E2 & E3 & E4 & Ep & E5) C1 S1] [(ags' & l' & Hl' & F1 & F2 & F3 & F4 & Fp & F5) C2 S2]. split.
  - exists (ags ++ ags'), (l ++ l'). rewrite !length_app, Hl, Hl', F1, F2, F3, F4, E1, E2, E3, E4, <- !app_assoc.
    unfold on_pages. rewrite zip_with_app by done. fold (on_pages ags ps). fold (on_pages ags' qs).
    split_and!; try done; try (by destruct aes, write); try (by apply Forall_app). unfold pages_in, pages_out in *.
    rewrite !omap_app, E5, F5. destruct aes; [rewrite filter_app; solve_Permutation|solve_Permutation].
  - rewrite C2, C1, length_app. destruct aes; lia.
  - rewrite S2, S1, vlen_app. destruct aes; lia.
Qed.

(** Steps that add no piece. *)
Lemma added_nil x y log : bvecs (x_hbio y) = bvecs (x_hbio x) -> x_src y = x_src x -> x_dst y = x_dst x ->
  x_log y = x_log x ++ log -> Forall page_event log -> pages_in log ≡ₚ pages_out log -> x_cnt y = x_cnt x -> x_size y = x_size x ->
  added_pieces [] x y.
Proof.
  intros E1 E2 E3 E4 Ep E5 E6 E7. split.
  - exists [], log. rewrite E1, E2, E3, E4. split_and!; try done; try (by destruct aes, write; rewrite app_nil_r).
  - rewrite E6. destruct aes; cbn; lia.
  - rewrite E7. destruct aes; cbn; lia.
Qed.

(** Getting the page of a piece. *)
Definition got_page (x : locals) : Z * locals := if aes then take_page x else (0, x).

Lemma got_page_ok x : let '(ag, y) := got_page x in
  exists log pages, y = x <|x_pages := pages|> <|x_log := x_log x ++ log|> /\
  pages_out log = [] /\ pages_in log = (if ag =? 0 then [] else [ag]) /\ (aes = false -> ag = 0) /\ Forall page_event log.
Proof.
  unfold got_page, take_page. destruct aes.
  - destruct (x_pages x) as [|ag pages] eqn:E.
    + exists [], (x_pages x). rewrite app_nil_r. split_and!; try done. by destruct x.
    + destruct (ag =? 0) eqn:Ea; [exists [], pages; rewrite app_nil_r|exists [BvAllocPage ag], pages];
        split_and!; try done; by repeat constructor.
  - exists [], (x_pages x). rewrite app_nil_r. split_and!; try done. by destruct x.
Qed.

(** The page goes back when the bio is full, and a new bio is asked for. *)
Definition full (ag : Z) (x : locals) : locals :=
  x <|x_need := true|> <|x_lba0 := u64 (x_lba0 x + Z.shiftr (x_thislen x) block_shift)|> <|x_thislen := 0|>
    <|x_log := if ag =? 0 then x_log x else x_log x ++ [BvFreePage ag]|>.

Lemma full_ok base pos x : loop_inv base pos x -> pos < 2 ^ 64 -> x_need x = false ->
  let '(ag, y) := got_page x in
  loop_inv base pos (full ag y) /\ added_pieces [] x (full ag y) /\ x_mem (full ag y) = x_mem x /\
  x_cnt (full ag y) = x_cnt x.
Proof.
  intros [Hb Hp Hl Hn Hh Ht [Hr0 Hr1] Hc] Hmax Hneed. pose proof (got_page_ok x) as H.
  destruct (got_page x) as [ag y]. destruct H as (log & pages & -> & O & I & _ & Pg).
  assert (Hpow : 0 < block) by (apply Z.pow_pos_nonneg; lia).
  assert (Hdiv : x_thislen x = block * Z.shiftr (x_thislen x) block_shift).
  { rewrite Z.shiftr_div_pow2 by lia. destruct Ht as [q ->]. rewrite Z.div_mul by lia. lia. }
  set (t := Z.shiftr (x_thislen x) block_shift) in *. assert (Ht0 : 0 <= t) by nia.
  assert (Hu : u64 (x_lba0 x + t) = x_lba0 x + t).
  { unfold u64. rewrite Z.mod_small; [done|]. change 18446744073709551616 with (2 ^ 64). nia. }
  split_and!; [split; cbn; try done|..].
  - fold t. rewrite Hu. lia.
  - exists 0. lia.
  - fold t. rewrite Hu. lia.
  - apply (added_nil _ _ (log ++ if ag =? 0 then [] else [BvFreePage ag])); try done.
    + cbn. destruct (ag =? 0); by rewrite ?app_nil_r, <- ?app_assoc.
    + apply Forall_app. split; [done|]. destruct (ag =? 0); by repeat constructor.
    + unfold pages_in, pages_out in *. rewrite !omap_app, O, I. destruct (ag =? 0) eqn:E0; cbn; rewrite ?E0; done.
  - done.
  - done.
Qed.

(** The last bio takes a piece. *)
Lemma add_piece_ok base pos x x1 pages log p : loop_inv base pos x -> new_bio block_shift work fua meta x = Some x1 -> pos < 2 ^ 64 ->
  let z := add_piece p (x1 <|x_pages := pages|> <|x_log := x_log x1 ++ log|>) in
  bvecs (x_hbio z) = bvecs (x_hbio x) ++ [p] /\ bios_ok work fua meta base (x_hbio z) /\
  x_bios z = Z.of_nat (length (x_hbio z)) /\
  z = x <|x_hbio := x_hbio z|> <|x_bios := x_bios z|> <|x_mem := x_mem x1|> <|x_need := false|> <|x_pages := pages|>
        <|x_log := x_log x ++ log|>.
Proof using Hshift.
  intros I Hnew Hmax.
  destruct (new_bio_ok base pos x x1 I Hmax Hnew) as (b & bs & Eh & En & Hbs & Hsec & H1 & H2 & H3 & Ev & _ & _ & Ex & Hn1).
  set (b' := mkBio (bi_sector b) (bi_vecs b ++ [p]) (bi_fua b) (bi_meta b) (bi_private b)).
  assert (Ea : add_piece p (x1 <|x_pages := pages|> <|x_log := x_log x1 ++ log|>) =
    x1 <|x_pages := pages|> <|x_log := x_log x1 ++ log|> <|x_hbio := bs ++ [b']|>).
  { unfold add_piece. cbn [x_hbio set_field set_x_log set_x_pages]. by rewrite Eh, last_snoc, removelast_last. }
  cbv zeta. rewrite Ea. split_and!.
  - rewrite <- Ev, Eh. cbn [x_hbio set_field set_x_hbio]. rewrite !bvecs_app, <- app_assoc. f_equal.
    unfold bvecs. cbn. by rewrite !app_nil_r.
  - cbn [x_hbio set_field set_x_hbio]. apply bios_ok_app. split; [done|]. cbn.
    split_and!; try done. intros E%app_nil. by destruct E.
  - cbn. rewrite Hn1, Eh, !length_app. done.
  - rewrite Ex. by destruct x.
Qed.

(** The tables take it. *)
Lemma set_sg_ok z pg ag c off : (aes = true -> x_cnt z < Z.min src_cap dst_cap) ->
  exists w, (if aes then set_sg write src_cap dst_cap pg ag c off z else Some z) = Some w /\
  w = z <|x_src := x_src w|> <|x_dst := x_dst w|> <|x_cnt := x_cnt w|> <|x_size := x_size w|> /\
  x_src w = x_src z ++ (if aes then if write then [mkPiece pg c off] else [mkPiece ag c off] else []) /\
  x_dst w = x_dst z ++ (if aes then if write then [mkPiece ag c off] else [mkPiece pg c off] else []) /\
  x_cnt w = x_cnt z + (if aes then 1 else 0) /\ x_size w = x_size z + (if aes then c else 0).
Proof.
  intros Hcap. unfold set_sg. destruct aes; [|exists z; split_and!; [done|by destruct z|by rewrite app_nil_r..|lia|lia]].
  specialize (Hcap eq_refl). replace (x_cnt z <? src_cap) with true by lia.
  replace (x_cnt z <? dst_cap) with true by lia. cbn [andb].
  destruct write; eexists; (split; [reflexivity|]; done).
Qed.

(** A piece goes into the last bio and the tables. *)
Lemma piece_ok base pos x x1 pg c off : loop_inv base pos x -> new_bio block_shift work fua meta x = Some x1 ->
  pos < 2 ^ 64 -> 0 < c -> (block | c) -> (aes = true -> x_cnt x < Z.min src_cap dst_cap) ->
  let '(ag, y) := got_page x1 in
  exists z, (if aes then set_sg write src_cap dst_cap pg ag c off (add_piece (mkPiece (if aes then ag else pg) c off) y)
             else Some (add_piece (mkPiece (if aes then ag else pg) c off) y)) = Some z /\
  let z' := z <|x_thislen := x_thislen z + c|> in
  loop_inv base (pos + c) z' /\ added_pieces [mkPiece pg c off] x z' /\ x_need z' = false /\ x_mem z' = x_mem x1.
Proof using Hshift.
  intros I Hnew Hmax Hc Hdiv Hcap. pose proof I as [Hb Hp Hl Hn Hh Ht [Hr0 Hr1] Hcnt].
  pose proof (got_page_ok x1) as H. destruct (got_page x1) as [ag y]. destruct H as (log & pages & -> & O & Il & Z0 & Pg).
  set (p := mkPiece (if aes then ag else pg) c off).
  destruct (add_piece_ok base pos x x1 pages log p I Hnew Hmax) as (Fv & Fok & Fb & Fz). set (z := add_piece _ _) in *. clearbody z.
  assert (Fs : x_src z = x_src x /\ x_dst z = x_dst x /\ x_cnt z = x_cnt x /\ x_size z = x_size x) by (by rewrite Fz).
  destruct Fs as (Fs & Fd & Fc & Fsz).
  destruct (set_sg_ok z pg ag c off) as (w & Ew & Hw & Ws & Wd & Wc & Wsz); [by rewrite Fc|]. rewrite Fs, Fd, Fc, Fsz in *.
  exists w. split; [exact Ew|].
  assert (W1 : x_hbio w = x_hbio z /\ x_lba0 w = x_lba0 x /\ x_thislen w = x_thislen x /\ x_log w = x_log x ++ log /\
    x_need w = false /\ x_mem w = x_mem x1 /\ x_bios w = x_bios z) by (rewrite Hw; cbn; rewrite Fz; done).
  clear Hw Ew. destruct W1 as (W1 & W2 & W3 & W4 & W5 & W6 & W7). cbv zeta. split_and!; try done.
  - split; cbn [x_hbio x_lba0 x_thislen x_need x_bios set_field set_x_thislen]; rewrite ?W1, ?W2, ?W3, ?W5, ?W7; try done.
    + rewrite Fv, vlen_app. cbn. clear - Hp. lia.
    + clear - Hl. lia.
    + intros _ E. rewrite E in Fv. by destruct (bvecs (x_hbio x)).
    + by apply Z.divide_add_r.
    + clear - Hr0 Hr1 Hc. lia.
  - split; cbn [x_hbio x_src x_dst x_log x_cnt x_size set_field set_x_thislen].
    + exists [ag], log. rewrite W1, W4, Fv, Ws, Wd. split_and!; try done; try (unfold p; by destruct aes, write).
      rewrite O, Il. destruct aes; [|by rewrite (Z0 eq_refl)].
      cbn [app]. destruct (Z.eqb_spec ag 0) as [E|E]; [by rewrite filter_cons_False by auto|by rewrite filter_cons_True].
    + rewrite Wc. by destruct aes.
    + rewrite Wsz. cbn. by rewrite Z.add_0_r.
Qed.

Lemma cut_cons len pg off : 0 < len -> 0 <= off < PAGE_SIZE -> let c := Z.min len (PAGE_SIZE - off) in
  cut (Z.to_nat len) pg len off = mkPiece pg c off :: cut (Z.to_nat (len - c)) (pg + 1) (len - c) 0.
Proof.
  intros Hl Ho. cbv zeta. destruct (Z.to_nat len) as [|k] eqn:E; [lia|]. cbn [cut].
  replace (len <=? 0) with false by lia. cbv zeta. f_equal. unfold PAGE_SIZE in *. apply cut_fuel; unfold PAGE_SIZE; lia.
Qed.

(** A bio can be had as long as the allocator gives them. *)
Lemma new_bio_gives x k rest : x_mem x = replicate k true ++ rest -> (0 < k)%nat ->
  exists x1 k', new_bio block_shift work fua meta x = Some x1 /\ x_mem x1 = replicate k' true ++ rest /\ (k <= S k')%nat.
Proof.
  intros E Hk. unfold new_bio. destruct (x_need x); cbn [negb]; [|exists x, k; split_and!; [done..|lia]].
  destruct k as [|k]; [lia|]. rewrite E. cbn [replicate app]. eexists _, k. split; [reflexivity|]. split; [done|lia].
Qed.

(** ** The loop over a segment *)

(** What the loop is to yield from [x], the pieces [ps] of [len] bytes being left. *)
Definition seg_result (base pos len : Z) (ps : list piece) (x : locals) (r : option (bool * locals)) : Prop :=
  exists ok x' qs, r = Some (ok, x') /\ added_pieces qs x x' /\
  (ok = true -> qs = ps /\ loop_inv base (pos + len) x') /\
  (forall k rest, x_mem x = replicate k true ++ rest -> (length ps <= k)%nat -> ok = true /\
     exists k', x_mem x' = replicate k' true ++ rest /\ (k <= k' + length ps)%nat).

Lemma result_end base pos x : loop_inv base pos x -> seg_result base pos 0 [] x (Some (true, x)).
Proof.
  intros I. exists true, x, []. split; [done|]. split; [by apply (added_nil _ _ []); rewrite ?app_nil_r|].
  rewrite Z.add_0_r. split; [done|]. intros k rest E _. split; [done|]. exists k. cbn. split; [done|lia].
Qed.

(** No bio. *)
Lemma result_stop base pos len p ps x : new_bio block_shift work fua meta x = None ->
  seg_result base pos len (p :: ps) x (Some (false, x)).
Proof.
  intros Hnew. exists false, x, []. split; [done|]. split; [by apply (added_nil _ _ []); rewrite ?app_nil_r|]. split; [done|].
  intros k rest E Hk. cbn [length] in Hk. destruct (new_bio_gives x k rest E ltac:(lia)) as (x1 & k' & E1 & _). congruence.
Qed.

(** A piece, then the rest. *)
Lemma result_piece base pos len c p ps x x1 z r : new_bio block_shift work fua meta x = Some x1 -> x_mem z = x_mem x1 ->
  added_pieces [p] x z -> seg_result base (pos + c) (len - c) ps z r -> seg_result base pos len (p :: ps) x r.
Proof.
  intros Hnew Hm HA (ok & x' & qs & E & A & Hok & Hmem). exists ok, x', (p :: qs). split; [exact E|].
  split; [by apply (added_app [_] qs x z x')|]. split.
  { intros ->. destruct (Hok eq_refl) as [-> I']. split; [done|]. by replace (pos + len) with (pos + c + (len - c)) by lia. }
  intros k rest Em Hk. cbn [length] in *. destruct (new_bio_gives x k rest Em ltac:(lia)) as (x1' & k' & E1 & Em1 & Hk').
  assert (x1' = x1) as -> by congruence. destruct (Hmem k' rest) as (Hok' & k'' & Em2 & Hk''); [congruence|lia|].
  split; [done|]. exists k''. split; [done|lia].
Qed.

(** A full bio, then another one. *)
Lemma result_full base pos len ps x z r : x_mem z = x_mem x -> added_pieces [] x z ->
  seg_result base pos len ps z r -> seg_result base pos len ps x r.
Proof.
  intros Hm HA (ok & x' & qs & E & A & Hok & Hmem). exists ok, x', qs. split; [exact E|].
  split; [by apply (added_app [] qs x z x')|]. split; [done|]. intros k rest Em. apply Hmem. congruence.
Qed.

Lemma block_page : (block | PAGE_SIZE).
Proof using Hshift.
  exists (2 ^ (12 - block_shift)). change PAGE_SIZE with (2 ^ 12). rewrite <- Z.pow_add_r by lia. f_equal. lia.
Qed.

Lemma seg_loop_spec base n : forall pg len off x pos, loop_inv base pos x ->
  0 <= off < PAGE_SIZE -> (block | off) -> (block | len) -> 0 <= len < 2 ^ 31 -> pos + len < 2 ^ 64 ->
  2 * len + (if x_need x then 0 else 1) <= Z.of_nat n ->
  let ps := cut (Z.to_nat len) pg len off in
  (aes = true -> x_cnt x + Z.of_nat (length ps) <= Z.min src_cap dst_cap) ->
  seg_result base pos len ps x (seg_loop n pg len off x).
Proof using BlockLayer0 Hshift.
  pose proof block_page as H512. induction n as [|n IH]; intros pg len off x pos I Ho Bo Bl Hl Hmax Hfuel ps Hcap.
  { assert (len = 0) as -> by (destruct (x_need x); lia). by apply result_end. }
  destruct (decide (len = 0)) as [->|Hne]; [by apply result_end|].
  assert (Hlen : 0 < len) by lia. set (c := Z.min len (PAGE_SIZE - off)).
  assert (Eps : ps = mkPiece pg c off :: cut (Z.to_nat (len - c)) (pg + 1) (len - c) 0) by (by apply cut_cons).
  assert (Hc : 0 < c <= len) by (unfold c; lia).
  assert (Bc : (block | c)) by (unfold c; destruct (Z.min_spec len (PAGE_SIZE - off)) as [[_ ->]|[_ ->]]; [done|by apply Z.divide_sub_r]).
  cbn [VdiskAes.seg_loop]. replace (len <=? 0) with false by lia.
  destruct (new_bio block_shift work fua meta x) as [x1|] eqn:Hnew; [|rewrite Eps; by apply result_stop].
  assert (Hbytes : Z.min (u32 len) (u32 (PAGE_SIZE - off)) = c).
  { unfold c, PAGE_SIZE in *. rewrite !u32_small by (unfold is_u32; lia). done. }
  rewrite Hbytes. change (if aes then take_page x1 else (0, x1)) with (got_page x1).
  destruct (new_bio_ok base pos x x1 I ltac:(lia) Hnew) as (b & bs & Eh & _ & _ & _ & _ & _ & _ & _ & Hemp & _ & _ & _).
  pose proof (piece_ok base pos x x1 pg c off I Hnew ltac:(lia) ltac:(lia) Bc) as HP.
  pose proof (got_page_ok x1) as Hg. destruct (got_page x1) as [ag y] eqn:Eg. destruct Hg as (log & pages & Ey & _ & _).
  assert (Hlast : last (x_hbio y) = Some b) by (rewrite Ey; cbn; by rewrite Eh, last_snoc).
  rewrite Hlast. cbn [mbind option_bind]. set (rc := bio_add_page b _ c off).
  destruct (bl_all b (if aes then ag else pg) c off) as [Erc|Erc]; fold rc in Erc; rewrite Erc.
  - replace (c <? c) with false by lia. rewrite Eps in Hcap |- *. cbn [length] in Hcap.
    destruct HP as (z & -> & HI & HA & Hn' & Hm'); [intros Ha; specialize (Hcap Ha); lia|]. cbn [mbind option_bind].
    eapply (result_piece _ _ _ c); [exact Hnew|exact Hm'|exact HA|].
    apply IH; [exact HI|unfold PAGE_SIZE; lia|apply Z.divide_0_r|by apply Z.divide_sub_r|lia|lia|rewrite Hn'; destruct (x_need x); lia|].
    intros Ha. rewrite (ap_cnt _ _ _ HA), Ha. specialize (Hcap Ha). cbn [length]. lia.
  - replace (0 <? c) with true by lia. cbn [negb Z.eqb]. destruct (x_need x) eqn:En.
    { exfalso. assert (rc = c); [|lia]. apply bl_empty; [auto|lia|lia|unfold c; lia]. }
    assert (x1 = x) as -> by (unfold new_bio in Hnew; rewrite En in Hnew; cbn in Hnew; congruence).
    pose proof (full_ok base pos x I ltac:(lia) En) as HF. rewrite Eg in HF. destruct HF as (FI & FA & Fm & Fc).
    apply (result_full _ _ _ _ _ (full ag y)); [done|done|]. apply IH; try done; [cbn; lia|]. intros Ha. change (x_cnt (full ag y) + Z.of_nat (length ps) <= Z.min src_cap dst_cap). rewrite Fc. auto.
Qed.

(** ** The loop over the segments *)

(** A segment of the buffer that is made of whole blocks. *)
Definition seg_ok (p : piece) : Prop :=
  0 < p_len p < 2 ^ 31 /\ 0 <= p_off p < PAGE_SIZE /\ (block | p_off p) /\ (block | p_len p).

(** The pieces of a command. *)
Definition cut_all (segs : list piece) : list piece := mjoin (cut_seg <$> segs).

Record chain_inv (base pos : Z) (x : locals) : Prop := {
  ci_bios : bios_ok work fua meta base (x_hbio x);
  ci_pos : base + vlen (bvecs (x_hbio x)) = pos;
  ci_have : x_need x = false -> x_hbio x <> [];
  ci_cnt : x_bios x = Z.of_nat (length (x_hbio x));
}.

Lemma chain_start base lba x : chain_inv base (lba * block) x -> 0 <= lba ->
  loop_inv base (lba * block) (x <|x_thislen := 0|> <|x_lba0 := lba|>).
Proof. intros [A B C E] H. split; cbn; try done; try lia. apply Z.divide_0_r. Qed.

Lemma chain_of base pos x : loop_inv base pos x -> chain_inv base pos x.
Proof. by intros []. Qed.

Local Notation seg_list := (seg_list bio_add_page block_shift work aes write fua meta src_cap dst_cap).

Lemma vlen_nonneg segs : Forall seg_ok segs -> 0 <= vlen segs.
Proof. induction 1 as [|p l [H _] _ IH]; cbn; lia. Qed.

Lemma seg_list_spec base segs : forall lba x, Forall seg_ok segs -> 0 <= lba -> chain_inv base (lba * block) x ->
  lba * block + vlen segs < 2 ^ 64 ->
  (aes = true -> x_cnt x + Z.of_nat (length (cut_all segs)) <= Z.min src_cap dst_cap) ->
  exists ok x' qs, seg_list segs lba x = Some (ok, x') /\ added_pieces qs x x' /\
  (ok = true -> qs = cut_all segs /\ chain_inv base (lba * block + vlen segs) x') /\
  (forall k rest, x_mem x = replicate k true ++ rest -> (length (cut_all segs) <= k)%nat -> ok = true).
Proof using BlockLayer0 Hshift.
  assert (Hpow : 0 < block) by (apply Z.pow_pos_nonneg; lia).
  induction segs as [|p segs IH]; intros lba x Hs Hlba I Hmax Hcap.
  { exists true, x, []. split; [done|]. split; [by apply (added_nil _ _ []); rewrite ?app_nil_r|]. cbn. by rewrite Z.add_0_r. }
  apply Forall_cons in Hs as [Hp Hs]. pose proof (vlen_nonneg segs Hs) as Hv. cbn [vlen] in Hmax |- *.
  destruct Hp as (Hl & Ho & Bo & Bl). change (cut_all (p :: segs)) with (cut_seg p ++ cut_all segs) in *.
  cbn [VdiskAes.seg_list]. replace (p_len p <=? 0) with false by lia. rewrite length_app in Hcap.
  set (x0 := x <|x_thislen := 0|> <|x_lba0 := lba|>).
  destruct (seg_loop_spec base (seg_fuel (p_len p)) (p_page p) (p_len p) (p_off p) x0 (lba * block)) as
    (ok & x1 & qs & E & A & Hok & Hmem); [by apply chain_start|done|done|done|lia|lia| | |].
  { unfold seg_fuel. destruct (x_need x0); lia. }
  { intros Ha. specialize (Hcap Ha). unfold cut_seg in Hcap. cbn. lia. }
  fold (cut_seg p) in Hok, Hmem. rewrite E. cbn [mbind option_bind].
  assert (A0 : added_pieces qs x x1) by (destruct A as [P C Sz]; by split).
  destruct ok; [|exists false, x1, qs; split_and!; try done;
    intros k rest Em Hk; rewrite length_app in Hk; apply (Hmem k rest Em); lia].
  destruct (Hok eq_refl) as [-> I1].
  assert (Hdiv : p_len p = block * Z.shiftr (p_len p) block_shift).
  { rewrite Z.shiftr_div_pow2 by lia. destruct Bl as [q ->]. rewrite Z.div_mul by lia. lia. }
  set (t := Z.shiftr (p_len p) block_shift) in *. assert (Ht : 0 <= t) by nia.
  assert (Hu : u64 (lba + t) = lba + t).
  { unfold u64. rewrite Z.mod_small; [done|]. change 18446744073709551616 with (2 ^ 64). nia. }
  rewrite Hu. assert (Epos : (lba + t) * block = lba * block + p_len p) by lia.
  destruct (IH (lba + t) x1) as (ok' & x' & qs' & E' & A' & Hok' & Hmem'); [done|lia| |lia| |].
  { rewrite Epos. by apply chain_of. }
  { intros Ha. rewrite (ap_cnt _ _ _ A0), Ha. specialize (Hcap Ha). lia. }
  exists ok', x', (cut_seg p ++ qs'). split; [exact E'|]. split; [by eapply added_app|]. split.
  - intros Ht'. destruct (Hok' Ht') as [-> I']. split; [done|]. by replace (lba * block + (p_len p + vlen segs)) with ((lba + t) * block + vlen segs) by lia.
  - intros k rest Em Hk. rewrite length_app in Hk. destruct (Hmem k rest Em ltac:(lia)) as (_ & k' & Em' & Hk').
    apply (Hmem' k' rest Em'). lia.
Qed.

End loop.
