(* ===== verification/VdiskProps.v ===== *)
(** * Properties of encrypted block devices

    What executing a command does: it is turned away, or its bios are built and
    the rest of [blockio_exec_rw] launches them. *)

From S2P Require Import Prelude Kernel VdiskAes VdiskCut.

Lemma get_work_eq w x s : v_works s !! w = Some x -> get_work w s = Some (x, s).
Proof. intros H. unfold get_work. by rewrite H. Qed.

Lemma get_aesw_eq a x s : v_aesw s !! a = Some x -> get_aesw a s = Some (x, s).
Proof. intros H. unfold get_aesw. by rewrite H. Qed.

Lemma free_work_eq w x s : v_works s !! w = Some x ->
  free_work w s = Some (tt, s <|v_works := delete w (v_works s)|> <|v_log := v_log s ++ [BvFreeWork w]|>).
Proof. intros H. unfold free_work. by rewrite (pt_bind_some _ _ _ _ _ (get_work_eq _ _ _ H)). Qed.

Lemma free_aesw_eq a x s : v_aesw s !! a = Some x ->
  free_aesw a s = Some (tt, s <|v_aesw := delete a (v_aesw s)|> <|v_log := v_log s ++ [BvFreeAes a]|>).
Proof. intros H. unfold free_aesw. by rewrite (pt_bind_some _ _ _ _ _ (get_aesw_eq _ _ _ H)). Qed.

Lemma submit_bios_eq write bs : forall s, submit_bios write bs s = Some (tt, s <|v_bios := v_bios s ++ ((write,.) <$> bs)|>).
Proof.
  induction bs as [|b bs IH]; intros s; cbn [submit_bios].
  { cbn. rewrite app_nil_r. by destruct s. }
  rewrite (pt_bind_some (v_upd _) _ s tt _ eq_refl), IH. cbn. by rewrite <- app_assoc.
Qed.

Lemma free_pages_eq l : 0 ∉ p_page <$> l -> forall s, free_pages l s = Some (tt, s <|v_log := v_log s ++ ((fun p => BvFreePage (p_page p)) <$> l)|>).
Proof.
  induction l as [|p l IH]; intros H0 s; cbn [free_pages].
  { cbn. rewrite app_nil_r. by destruct s. }
  apply not_elem_of_cons in H0 as [Hp H0]. rewrite (proj2 (Z.eqb_neq (p_page p) 0)) by done. specialize (IH H0).
  rewrite (pt_bind_some (v_note _) _ s tt _ eq_refl), IH. cbn. by rewrite <- app_assoc.
Qed.

(** ** Executing a command *)

(** The state when the bios are built. *)
Definition built (an : answers) (cmd : Z) (write : bool) (x : locals) (s : vdisk) : vdisk :=
  let w := mkWork (x_bios x + 1) cmd write (if v_aes s then an_aes an else an_junk an) in
  s <|v_works := <[an_work an := w]> (v_works s)|>
    <|v_aesw := if v_aes s
                then <[an_aes an := mkAesWork (an_work an) (x_src x) (x_dst x) (x_cnt x) (x_size x) []]> (v_aesw s)
                else v_aesw s|>
    <|v_log := v_log s ++ x_log x|>.

(** The rest of [blockio_exec_rw]. *)
Definition launch (an : answers) (write : bool) (hbio : list bio) (s : vdisk) : option (unit * vdisk) :=
  if v_aes s && write
  then match v_aesw s !! an_aes an with
       | Some a => blockio_aes_submit (an_work an) (s <|v_aesw := <[an_aes an := a <|aw_hbio := hbio|>]> (v_aesw s)|>)
       | None => None
       end
  else blockio_check_finish (an_work an) (s <|v_bios := v_bios s ++ ((write,.) <$> hbio)|>).

(** A command that could not be started is answered with "busy".  What was
    allocated for the AES driver stays behind when a bio is missing. *)
Definition turned_away (cmd : Z) (aesw : gmap Z aes_work) (log : list bevent) (s : vdisk) : vdisk :=
  s <|v_aesw := aesw|> <|v_log := v_log s ++ log ++ [BvBusy cmd; BvDone cmd]|>.

Definition blank (an : answers) : locals := mkLocals [] true 0 0 0 [] [] 0 0 (an_bios an) (an_pages an) [].

(** Events that neither answer nor hold a command. *)
Definition silent (v : bevent) : Prop :=
  match v with BvAllocPage _ | BvFreePage _ | BvFreeWork _ => True | _ => False end.

Lemma page_silent l : Forall page_event l -> Forall silent l.
Proof. intros H. eapply Forall_impl; [exact H|]. by intros []. Qed.

Section run.
Context (bio_add_page : bio -> Z -> Z -> Z -> Z) (an : answers) (cmd lba block_shift : Z).
Context (segs : list piece) (write fua meta : bool).

Definition cap (ok : bool) : Z := if ok then AES_SG_MAX else 0.

Lemma exec_eq s : v_works s !! an_work an = None -> an_work an <> 0 -> (v_aes s = true -> an_aes an <> 0) ->
  forall ok x, seg_list bio_add_page block_shift (an_work an) (v_aes s) write fua meta (cap (an_src an)) (cap (an_dst an))
    segs lba (blank an) = Some (ok, x) ->
  (ok = true -> v_aes s = true -> x_cnt x < Z.min (cap (an_src an)) (cap (an_dst an))) ->
  blockio_exec_rw bio_add_page an cmd lba block_shift segs write fua meta s =
    if ok : bool then launch an write (x_hbio x) (built an cmd write x s)
    else Some (tt, turned_away cmd
      (if v_aes s then <[an_aes an := mkAesWork (an_work an) (x_src x) (x_dst x) (x_cnt x) (x_size x) []]> (v_aesw s)
       else v_aesw s) (x_log x ++ [BvFreeWork (an_work an)]) s).
Proof.
  intros Hfresh Hw Ha ok x Hseg Hcnt. unfold blockio_exec_rw. replace (an_work an =? 0) with false by lia.
  rewrite (pt_bind_some (v_get v_aes) _ s _ s eq_refl). destruct s as [aes works aesw bios crypto wq log]. cbn [v_aes] in *.
  cbv zeta. rewrite (pt_bind_some (put_work _ _) _ _ tt _ eq_refl).
  unfold cap, blank in Hseg.
  assert (Hl : forall s', (fun s : vdisk => r ← Some (ok, x); Some (r, s)) s' = Some ((ok, x), s')) by done.
  destruct aes; cbn [andb].
  - replace (an_aes an =? 0) with false by (specialize (Ha eq_refl); lia).
    rewrite (pt_bind_some (put_aesw _ _;; put_work _ _) _ _ tt _ eq_refl), Hseg, (pt_bind_some _ _ _ _ _ (Hl _)).
    rewrite (pt_bind_some (v_upd _) _ _ tt _ eq_refl).
    erewrite (pt_bind_some (get_aesw _ ≫= _)) by
      (rewrite (pt_bind_some (get_aesw _) _ _ _ _ (get_aesw_eq _ _ _ (lookup_insert_eq _ _ _))); reflexivity).
    destruct ok; cbn [negb].
    + specialize (Hcnt eq_refl eq_refl). fold (cap (an_src an)) (cap (an_dst an)). replace (x_cnt x <? cap (an_src an)) with true by lia.
      replace (x_cnt x <? cap (an_dst an)) with true by lia. cbn [andb negb].
      rewrite (pt_bind_some (mret tt) _ _ tt _ eq_refl).
      rewrite (pt_bind_some (get_work _) _ _ _ _ (get_work_eq _ _ _ (lookup_insert_eq _ _ _))).
      rewrite (pt_bind_some (put_work _ _) _ _ tt _ eq_refl). unfold launch, built.
      cbn. rewrite !insert_insert_eq, ?lookup_insert_eq. destruct write.
      * rewrite (pt_bind_some (get_aesw _) _ _ _ _ (get_aesw_eq _ _ _ (lookup_insert_eq _ _ _))).
        rewrite (pt_bind_some (put_aesw _ _) _ _ tt _ eq_refl). cbn. by rewrite !insert_insert_eq.
      * by rewrite (pt_bind_some _ _ _ _ _ (submit_bios_eq _ _ _)).
    + rewrite (pt_bind_some _ _ _ _ _ (free_work_eq _ _ _ (lookup_insert_eq _ _ _))). unfold turned_away, exec_busy.
      rewrite (pt_bind_some (v_note _) _ _ tt _ eq_refl). unfold cmd_done, v_note, v_upd. cbn.
      rewrite !insert_insert_eq, delete_insert_id by done. by rewrite <- !app_assoc.
  - rewrite (pt_bind_some (mret tt) _ _ tt _ eq_refl), Hseg, (pt_bind_some _ _ _ _ _ (Hl _)).
    rewrite (pt_bind_some (v_upd _) _ _ tt _ eq_refl), (pt_bind_some (mret tt) _ _ tt _ eq_refl).
    destruct ok; cbn [negb].
    + rewrite (pt_bind_some (mret tt) _ _ tt _ eq_refl).
      rewrite (pt_bind_some (get_work _) _ _ _ _ (get_work_eq _ _ _ (lookup_insert_eq _ _ _))).
      rewrite (pt_bind_some (put_work _ _) _ _ tt _ eq_refl), (pt_bind_some _ _ _ _ _ (submit_bios_eq _ _ _)).
      unfold launch, built. cbn. by rewrite !insert_insert_eq.
    + rewrite (pt_bind_some _ _ _ _ _ (free_work_eq _ _ _ (lookup_insert_eq _ _ _))). unfold turned_away, exec_busy.
      rewrite (pt_bind_some (v_note _) _ _ tt _ eq_refl). unfold cmd_done, v_note, v_upd. cbn.
      rewrite delete_insert_id by done. by rewrite <- !app_assoc.
Qed.

(** A command as the target layer passes it: segments of whole blocks, inside
    the device, that the scatter tables can hold. *)
Record exec_pre (s : vdisk) : Prop := {
  ep_shift : 9 <= block_shift <= 12;
  ep_segs : Forall (seg_ok block_shift) segs;
  ep_lba : 0 <= lba;
  ep_size : lba * 2 ^ block_shift + vlen segs < 2 ^ 64;
  ep_tables : v_aes s = true -> an_src an = true /\ an_dst an = true /\ Z.of_nat (length (cut_all segs)) < AES_SG_MAX;
  ep_fresh : v_works s !! an_work an = None;
}.

(** A command is turned away, or its bios are built and launched; the latter
    when the allocators give what is asked for. *)
Lemma exec_run s : BlockLayer bio_add_page -> exec_pre s ->
  let res := blockio_exec_rw bio_add_page an cmd lba block_shift segs write fua meta s in
  let started x := res = launch an write (x_hbio x) (built an cmd write x s) /\ an_work an <> 0 /\
    (v_aes s = true -> an_aes an <> 0) /\ added_pieces (v_aes s) write (cut_all segs) (blank an) x /\
    chain_inv (an_work an) fua meta (lba * 2 ^ block_shift) (lba * 2 ^ block_shift + vlen segs) x in
  ((exists aesw log, res = Some (tt, turned_away cmd aesw log s) /\ Forall silent log /\
     (aesw = v_aesw s /\ pages_in log ≡ₚ pages_out log \/
      v_aes s = true /\ exists qs x, added_pieces (v_aes s) write qs (blank an) x /\ log = x_log x ++ [BvFreeWork (an_work an)] /\
        aesw = <[an_aes an := mkAesWork (an_work an) (x_src x) (x_dst x) (x_cnt x) (x_size x) []]> (v_aesw s))) \/
   exists x, started x) /\
  (forall k rest, an_work an <> 0 -> (v_aes s = true -> an_aes an <> 0) -> an_bios an = replicate k true ++ rest ->
     (length (cut_all segs) <= k)%nat -> exists x, started x).
Proof.
  intros BL [Hsh Hs Hl Hz Ht Hf] res started.
  destruct (decide (an_work an = 0)) as [Ew|Ew].
  { split; [|done]. left. exists (v_aesw s), []. split; [|split; [constructor|left; done]]. unfold res, blockio_exec_rw. rewrite Ew.
    unfold exec_busy. cbn [Z.eqb]. rewrite (pt_bind_some (v_note _) _ s tt _ eq_refl). unfold turned_away, cmd_done, v_note, v_upd.
    destruct s. cbn. by rewrite <- app_assoc. }
  destruct (decide (v_aes s = true /\ an_aes an = 0)) as [[Ea E0]|Ea].
  { split; [|intros k rest _ H; by destruct (H Ea)]. left. exists (v_aesw s), [BvFreeWork (an_work an)]. split; [|split; [by repeat constructor|left; done]].
    unfold res, blockio_exec_rw. replace (an_work an =? 0) with false by lia.
    rewrite (pt_bind_some (v_get v_aes) _ s _ s eq_refl). cbv zeta. rewrite (pt_bind_some (put_work _ _) _ _ tt _ eq_refl).
    rewrite Ea, E0. cbn [andb Z.eqb].
    rewrite (pt_bind_some _ _ _ _ _ (free_work_eq _ _ _ (lookup_insert_eq _ _ _))). unfold turned_away, exec_busy.
    rewrite (pt_bind_some (v_note _) _ _ tt _ eq_refl). unfold cmd_done, v_note, v_upd. destruct s. cbn in *.
    rewrite delete_insert_id by done. by rewrite <- !app_assoc. }
  assert (Ha : v_aes s = true -> an_aes an <> 0) by tauto.
  assert (Hcap : v_aes s = true -> 0 + Z.of_nat (length (cut_all segs)) <= Z.min (cap (an_src an)) (cap (an_dst an))).
  { intros E. destruct (Ht E) as (-> & -> & ?). unfold cap. lia. }
  destruct (seg_list_spec bio_add_page block_shift (an_work an) (v_aes s) write fua meta (cap (an_src an)) (cap (an_dst an))
    Hsh (lba * 2 ^ block_shift) segs lba (blank an) Hs Hl) as (ok & x & qs & Eseg & A & Hok & Hmem);
    [by split; cbn; try done; unfold bvecs; cbn; lia|done|done|].
  assert (Hcnt : ok = true -> v_aes s = true -> x_cnt x < Z.min (cap (an_src an)) (cap (an_dst an))).
  { intros Eok E. destruct (Ht E) as (Es & Ed & Hn). destruct (Hok Eok) as [-> _].
    rewrite (ap_cnt _ _ _ _ _ A), E, Es, Ed. cbn. lia. }
  pose proof (exec_eq s Hf Ew Ha ok x Eseg Hcnt) as Eq. fold res in Eq. split.
  - destruct ok.
    + right. exists x. destruct (Hok eq_refl) as [-> C]. split; [exact Eq|]. split_and!; done.
    + left. eexists _, _. split; [exact Eq|]. split.
      { apply Forall_app. split; [|by repeat constructor]. destruct A as [(ags & log & _ & _ & _ & _ & El & Pg & _) _ _].
        rewrite El. by apply page_silent. }
      destruct (v_aes s) eqn:E.
      * right. split; [done|]. exists qs, x. split_and!; done.
      * left. split; [done|]. destruct A as [(ags & log & _ & _ & _ & _ & El & Pg & Hp) _ _]. cbn in El, Hp.
        rewrite El. unfold pages_in, pages_out in *. rewrite !omap_app, Hp. cbn. by rewrite !app_nil_r.
  - intros k rest _ _ Em Hk. specialize (Hmem k rest Em Hk). subst ok. exists x. destruct (Hok eq_refl) as [-> C].
    split; [exact Eq|]. split_and!; done.
Qed.

End run.
