(* ===== verification/VdiskRun.v ===== *)
(** * The life of a command on an encrypted block device

    Commands, ends of bios, callbacks of the AES driver and queued work, in any
    order.  On a plain device, and for writes on an encrypted one whose pages and
    tables could be allocated, every command is answered once, every structure and
    page is freed once, except those that a command without a bio leaves behind,
    and nothing freed is used. *)

From S2P Require Import Prelude Kernel VdiskAes VdiskCut VdiskProps.

(** ** What the log says *)

Definition dones (log : list bevent) : list Z :=
  omap (fun v => match v with BvDone c => Some c | _ => None end) log.
Definition gets (log : list bevent) : list Z :=
  omap (fun v => match v with BvGet c => Some c | _ => None end) log.
Definition puts (log : list bevent) : list Z :=
  omap (fun v => match v with BvPut c => Some c | _ => None end) log.

(** The commands of live work structures, and the pages of live AES structures
    (of writes: the destination). *)
Definition cmds (m : gmap Z blockio_work) : list Z := (fun p => w_cmd p.2) <$> map_to_list m.
Definition own (a : aes_work) : list Z := filter (fun p => p <> 0) (p_page <$> aw_dst a).
Definition own_all (m : gmap Z aes_work) : list Z := map_to_list m ≫= (fun p => own p.2).

Lemma cmds_insert m w x : m !! w = None -> cmds (<[w := x]> m) ≡ₚ w_cmd x :: cmds m.
Proof. intros H. unfold cmds. by rewrite map_to_list_insert. Qed.

Lemma cmds_delete m w x : m !! w = Some x -> cmds m ≡ₚ w_cmd x :: cmds (delete w m).
Proof. intros H. unfold cmds. by rewrite <- (map_to_list_delete m w x H). Qed.

Lemma cmds_update m w x x' : m !! w = Some x -> w_cmd x' = w_cmd x -> cmds (<[w := x']> m) ≡ₚ cmds m.
Proof.
  intros H E. rewrite (cmds_delete m w x H), <- E, <- (cmds_insert (delete w m) w x') by apply lookup_delete_eq.
  by rewrite insert_delete_eq.
Qed.

Lemma own_insert m a x : m !! a = None -> own_all (<[a := x]> m) ≡ₚ own x ++ own_all m.
Proof. intros H. unfold own_all. by rewrite map_to_list_insert. Qed.

Lemma own_delete m a x : m !! a = Some x -> own_all m ≡ₚ own x ++ own_all (delete a m).
Proof. intros H. unfold own_all. by rewrite <- (map_to_list_delete m a x H). Qed.

(** ** The invariant *)

(** Bios of a work structure with the block layer. *)
Definition nb (w : Z) (l : list (bool * bio)) : Z := Z.of_nat (length (filter (fun p => bi_private p.2 = w) l)).

(** Work structures of requests with the AES driver or on the work queue. *)
Definition held (s : vdisk) : list Z :=
  (snd <$> v_crypto s) ++ omap (fun a => aw_blockio <$> v_aesw s !! a) (v_wq s).

(** The count of a live work structure; [extra] is what the running operation
    still holds. *)
Record work_ok (extra : Z) (s : vdisk) (w : Z) (x : blockio_work) : Prop := {
  wo_pos : 0 < w_inflight x;
  wo_plain : v_aes s = false -> w_inflight x = nb w (v_bios s) + extra;
  wo_aes : v_aes s = true -> w_write x = true /\ exists a, v_aesw s !! w_aes x = Some a /\ aw_blockio a = w /\
    aw_sg_cnt a = Z.of_nat (length (aw_dst a)) /\ 0 ∉ p_page <$> aw_dst a /\
    Forall (fun b => bi_private b = w) (aw_hbio a) /\
    w_inflight x = nb w (v_bios s) + (if bool_decide (w ∈ held s) then Z.of_nat (length (aw_hbio a)) + 1 else 0) + extra;
}.

(** The commands started so far, and the AES structures that commands left
    behind which were turned away for want of a bio. *)
Definition hist : Type := list Z * list Z.

Record vd_inv (extra : Z -> Z) (cs : hist) (s : vdisk) : Prop := {
  vi_works : forall w x, v_works s !! w = Some x -> work_ok (extra w) s w x;
  vi_bios : forall p, p ∈ v_bios s -> is_Some (v_works s !! bi_private p.2);
  vi_crypto : forall p, p ∈ v_crypto s -> p.1 = blockio_write_cb /\ is_Some (v_works s !! p.2);
  vi_wq : forall a, a ∈ v_wq s -> exists aw x, v_aesw s !! a = Some aw /\ v_works s !! aw_blockio aw = Some x /\ w_aes x = a;
  vi_held : NoDup (held s);
  vi_plain : v_aes s = false -> v_crypto s = [] /\ v_wq s = [] /\ v_aesw s = ∅;
  vi_done : cs.1 ≡ₚ dones (v_log s) ++ (if v_aes s then [] else cmds (v_works s));
  vi_refs : gets (v_log s) ≡ₚ puts (v_log s) ++ (if v_aes s then cmds (v_works s) else []);
  vi_pages : pages_in (v_log s) ≡ₚ pages_out (v_log s) ++ own_all (v_aesw s);
  vi_live : forall a aw, v_aesw s !! a = Some aw ->
    a ∈ cs.2 \/ exists x, v_works s !! aw_blockio aw = Some x /\ w_aes x = a;
}.

(** The invariant between operations. *)
Definition none (w : Z) : Z := 0.
Definition one (w w' : Z) : Z := if bool_decide (w' = w) then 1 else 0.

Lemma logs_app l1 l2 : dones (l1 ++ l2) = dones l1 ++ dones l2 /\ gets (l1 ++ l2) = gets l1 ++ gets l2 /\
  puts (l1 ++ l2) = puts l1 ++ puts l2 /\ pages_in (l1 ++ l2) = pages_in l1 ++ pages_in l2 /\
  pages_out (l1 ++ l2) = pages_out l1 ++ pages_out l2.
Proof. unfold dones, gets, puts, pages_in, pages_out. by rewrite !omap_app. Qed.

Ltac logs :=
  rewrite ?(proj1 (logs_app _ _)), ?(proj1 (proj2 (logs_app _ _))), ?(proj1 (proj2 (proj2 (logs_app _ _)))),
    ?(proj1 (proj2 (proj2 (proj2 (logs_app _ _))))), ?(proj2 (proj2 (proj2 (proj2 (logs_app _ _))))).

Lemma free_log l : let f := (fun p => BvFreePage (p_page p)) <$> l in
  dones f = [] /\ gets f = [] /\ puts f = [] /\ pages_in f = [] /\
  pages_out f = p_page <$> l.
Proof.
  induction l as [|p l (H1 & H2 & H3 & H4 & H5)]; [done|]. split_and!; try done.
  cbn [fmap list_fmap]. change (list_fmap _ _ ?f l) with (f <$> l). unfold pages_out in *. cbn [omap list_omap].
  f_equal. exact H5.
Qed.

(** All pages are there. *)
Lemma own_there a : 0 ∉ p_page <$> aw_dst a -> own a = p_page <$> aw_dst a.
Proof.
  unfold own. generalize (p_page <$> aw_dst a). intros l. induction l as [|q l IH]; intros H; [done|].
  apply not_elem_of_cons in H as [Hq H]. rewrite filter_cons_True by done. f_equal. auto.
Qed.

Lemma nb_app w l1 l2 : nb w (l1 ++ l2) = nb w l1 + nb w l2.
Proof. unfold nb. rewrite filter_app, length_app. lia. Qed.

Lemma nb_cons w p l : nb w (p :: l) = (if bool_decide (bi_private p.2 = w) then 1 else 0) + nb w l.
Proof.
  unfold nb. case_bool_decide as E; [rewrite filter_cons_True by done|rewrite filter_cons_False by done]; cbn [length]; lia.
Qed.

Lemma nb_zero w l p : nb w l = 0 -> p ∈ l -> bi_private p.2 <> w.
Proof.
  intros H Hp E. assert (p ∈ filter (fun p => bi_private p.2 = w) l) as Hf by (by apply list_elem_of_filter).
  unfold nb in H. destruct (filter _ l); [by apply elem_of_nil in Hf|cbn in H; lia].
Qed.

Lemma nb_all w write bs : Forall (fun b => bi_private b = w) bs -> nb w ((write,.) <$> bs) = Z.of_nat (length bs).
Proof.
  induction 1 as [|b bs E _ IH]; [done|]. cbn [fmap list_fmap]. change (list_fmap _ _ ?f bs) with (f <$> bs).
  rewrite nb_cons, IH. cbn [snd length]. rewrite bool_decide_eq_true_2 by done. lia.
Qed.

Lemma nb_other w w' write bs : Forall (fun b => bi_private b = w) bs -> w' <> w -> nb w' ((write,.) <$> bs) = 0.
Proof.
  induction 1 as [|b bs E _ IH]; intros Hne; [done|]. cbn [fmap list_fmap]. change (list_fmap _ _ ?f bs) with (f <$> bs).
  rewrite nb_cons, IH by done. cbn [snd]. rewrite bool_decide_eq_false_2 by congruence. lia.
Qed.

Lemma nb_nonneg w l : 0 <= nb w l.
Proof. unfold nb. lia. Qed.

(** What a work structure depends on. *)
Lemma work_ok_same e s s' w x : v_aes s' = v_aes s -> v_bios s' = v_bios s -> v_aesw s' = v_aesw s ->
  v_crypto s' = v_crypto s -> v_wq s' = v_wq s -> work_ok e s w x -> work_ok e s' w x.
Proof.
  intros E1 E2 E3 E4 E5 [A B C]. assert (E : held s' = held s) by (unfold held; by rewrite E3, E4, E5).
  split; rewrite ?E1, ?E2, ?E3, ?E; done.
Qed.

(** ** Finishing *)

Section finish.
Context (cs : hist) (s : vdisk) (w : Z) (x : blockio_work).
Context (I : vd_inv (one w) cs s) (Hx : v_works s !! w = Some x).

Lemma one_self : one w w = 1.
Proof. unfold one. by rewrite bool_decide_eq_true_2. Qed.

Lemma one_other w' : w' <> w -> one w w' = 0.
Proof. intros. unfold one. by rewrite bool_decide_eq_false_2. Qed.

(** The last reference on a plain device. *)
Lemma finish_plain : v_aes s = false -> w_inflight x = 1 ->
  vd_inv none cs (s <|v_works := delete w (v_works s)|> <|v_log := v_log s ++ [BvDone (w_cmd x); BvFreeWork w]|>).
Proof using I Hx.
  intros Ea Hi. destruct I as [Hw Hb Hc Hq Hh Hp Hd Hr Hg Hv]. destruct (Hp Ea) as (Ec & Eq & Ev).
  assert (H0 : nb w (v_bios s) = 0).
  { destruct (Hw w x Hx) as [_ H _]. specialize (H Ea). rewrite one_self in H. lia. }
  split; cbn [v_works v_aes v_bios v_crypto v_wq v_aesw v_log set_field set_v_works set_v_log]; logs; rewrite ?Ea; try done.
  - intros w' x' [Hne Hx']%lookup_delete_Some. apply (work_ok_same _ s); try done.
    unfold none. rewrite <- (one_other w') by done. auto.
  - intros p Hp'. rewrite lookup_delete_ne; [auto|]. apply not_eq_sym. by eapply nb_zero.
  - rewrite Ec. by intros p Hp'%elem_of_nil.
  - rewrite Eq. by intros p Hp'%elem_of_nil.
  - rewrite Hd, Ea. cbn. by rewrite (cmds_delete _ w x Hx), <- app_assoc.
  - rewrite Hr, Ea. cbn. by rewrite !app_nil_r.
  - cbn. by rewrite !app_nil_r.
  - rewrite Ev. by intros a aw Ha%lookup_empty_Some.
Qed.

(** A reference that is not the last. *)
Lemma finish_more : w_inflight x <> 1 ->
  vd_inv none cs (s <|v_works := <[w := x <|w_inflight := w_inflight x - 1|>]> (v_works s)|>).
Proof using I Hx.
  intros Hi. destruct I as [Hw Hb Hc Hq Hh Hp Hd Hr Hg Hv]. set (x' := x <|w_inflight := _|>).
  assert (HL : forall y, is_Some (v_works s !! y) -> is_Some (<[w := x']> (v_works s) !! y)).
  { intros y Hy. destruct (decide (y = w)) as [->|]; [rewrite lookup_insert_eq; eauto|by rewrite lookup_insert_ne]. }
  pose proof (cmds_update (v_works s) w x x' Hx eq_refl) as HC.
  split; cbn [v_works v_aes v_bios v_crypto v_wq v_aesw v_log set_field set_v_works]; try done.
  - intros w' y. destruct (decide (w' = w)) as [->|Hne].
    + rewrite lookup_insert_eq. intros [= <-]. destruct (Hw w x Hx) as [P1 P2 P3]. rewrite one_self in P2, P3.
      split; unfold none; cbn [w_inflight w_write w_aes x' set_field set_w_inflight].
      * lia.
      * intros Ea. specialize (P2 Ea). cbn. lia.
      * intros Ea. destruct (P3 Ea) as (Hwr & a & Ha & Hb1 & Hb2 & Hb0 & Hb3 & Hn). split; [done|]. exists a. split_and!; try done.
        change (held (s <|v_works := _|>)) with (held s). cbn. lia.
    + rewrite lookup_insert_ne by done. intros Hy. apply (work_ok_same _ s); try done.
      unfold none. rewrite <- (one_other w') by done. auto.
  - auto.
  - intros p Hp'. destruct (Hc p Hp'). auto.
  - intros a Ha. destruct (Hq a Ha) as (aw & y & H1 & H2 & H3). destruct (decide (aw_blockio aw = w)) as [E|E].
    + exists aw, x'. rewrite E, lookup_insert_eq. assert (y = x) as -> by congruence. done.
    + exists aw, y. by rewrite lookup_insert_ne.
  - rewrite Hd. destruct (v_aes s); [done|]. by rewrite HC.
  - rewrite Hr. destruct (v_aes s); [|done]. by rewrite HC.
  - intros a aw Ha. destruct (Hv a aw Ha) as [|(y & Hy & E)]; [by left|right]. destruct (decide (aw_blockio aw = w)) as [Ew|Ew].
    + exists x'. rewrite Ew, lookup_insert_eq. assert (y = x) as -> by congruence. done.
    + exists y. by rewrite lookup_insert_ne.
Qed.

(** The last reference of a write on an encrypted device. *)
Lemma finish_aes : v_aes s = true -> w_inflight x = 1 -> exists a, v_aesw s !! w_aes x = Some a /\ aw_blockio a = w /\
  w_write x = true /\ aw_sg_cnt a = Z.of_nat (length (aw_dst a)) /\ 0 ∉ p_page <$> aw_dst a /\
  vd_inv none cs (s <|v_works := delete w (v_works s)|> <|v_aesw := delete (w_aes x) (v_aesw s)|>
    <|v_log := v_log s ++ ((fun p => BvFreePage (p_page p)) <$> aw_dst a) ++
               [BvFreeAes (w_aes x); BvPut (w_cmd x); BvFreeWork w]|>).
Proof using I Hx.
  intros Ea Hi. destruct I as [Hw Hb Hc Hq Hh Hp Hd Hr Hg Hv].
  destruct (wo_aes _ _ _ _ (Hw w x Hx) Ea) as (Hwr & a & Ha & Hb1 & Hb2 & Hb0 & Hb3 & Hn). rewrite one_self in Hn.
  pose proof (nb_nonneg w (v_bios s)) as Hnn. exists a. do 5 (split; [done|]).
  case_bool_decide as Hheld; [lia|]. assert (H0 : nb w (v_bios s) = 0) by lia.
  assert (Hwq : forall b, b ∈ v_wq s -> b <> w_aes x).
  { intros b Hbq ->. apply Hheld. unfold held. apply elem_of_app. right. apply list_elem_of_omap. exists (w_aes x).
    split; [done|]. rewrite Ha. cbn. by rewrite Hb1. }
  assert (Hcr : forall p, p ∈ v_crypto s -> p.2 <> w).
  { intros p Hpc <-. apply Hheld. unfold held. apply elem_of_app. left. by apply list_elem_of_fmap_2. }
  set (s' := s <|v_works := _|> <|v_aesw := _|> <|v_log := _|>).
  assert (Eheld : held s' = held s).
  { unfold held. cbn. f_equal. apply list_omap_ext, Forall_Forall2_diag, Forall_forall. intros b Hbq.
    by rewrite lookup_delete_ne by (apply not_eq_sym; auto). }
  assert (Haes : forall w' y, w' <> w -> v_works s !! w' = Some y -> w_aes y <> w_aes x).
  { intros w' y Hne Hy E. destruct (wo_aes _ _ _ _ (Hw w' y Hy) Ea) as (_ & a' & Ha' & Hb' & _). congruence. }
  split; rewrite ?Eheld; cbn [s' v_works v_aes v_bios v_crypto v_wq v_aesw v_log set_field set_v_works set_v_log set_v_aesw]; logs;
    rewrite ?Ea; try done.
  - intros w' y [Hne Hy]%lookup_delete_Some. destruct (Hw w' y Hy) as [P1 P2 P3]. rewrite one_other in P2, P3 by done.
    split; [done|intros E; cbn in E; congruence|]. intros _. destruct (P3 Ea) as (Q & a' & Ha' & Q').
    split; [done|]. exists a'. rewrite Eheld. cbn. rewrite lookup_delete_ne by (apply not_eq_sym; eauto). done.
  - intros p Hp'. rewrite lookup_delete_ne; [auto|]. apply not_eq_sym. by eapply nb_zero.
  - intros p Hp'. destruct (Hc p Hp') as [Q1 Q2]. split; [done|]. rewrite lookup_delete_ne; [done|]. apply not_eq_sym. auto.
  - intros b Hbq. destruct (Hq b Hbq) as (aw & y & Q1 & Q2 & Q3). exists aw, y.
    rewrite !lookup_delete_ne; [done| |apply not_eq_sym; auto]. intros E. rewrite <- E, Hx in Q2. injection Q2 as ->. by apply (Hwq b).
  - destruct (free_log (aw_dst a)) as (-> & _). rewrite Hd, Ea. cbn. by rewrite !app_nil_r.
  - destruct (free_log (aw_dst a)) as (_ & -> & -> & _). rewrite Hr, Ea. cbn.
    by rewrite app_nil_r, (cmds_delete _ w x Hx), <- app_assoc.
  - destruct (free_log (aw_dst a)) as (_ & _ & _ & -> & ->). rewrite Hg, (own_delete _ _ _ Ha), own_there by done. cbn.
    rewrite !app_nil_r. by rewrite <- app_assoc.
  - intros b aw [Hne Hb']%lookup_delete_Some. destruct (Hv b aw Hb') as [|(y & Hy & E)]; [by left|right].
    exists y. rewrite lookup_delete_ne; [done|]. intros Ew. rewrite <- Ew in Hy. congruence.
Qed.

Lemma check_finish_run : exists s', blockio_check_finish w s = Some (tt, s') /\ vd_inv none cs s'.
Proof using I Hx.
  unfold blockio_check_finish. rewrite (pt_bind_some _ _ _ _ _ (get_work_eq _ _ _ Hx)). cbv zeta.
  set (x' := x <|w_inflight := _|>). rewrite (pt_bind_some (put_work _ _) _ _ tt _ eq_refl).
  set (s1 := s <|v_works := _|>). assert (Hx1 : v_works s1 !! w = Some x') by apply lookup_insert_eq.
  destruct (decide (w_inflight x = 1)) as [Hi|Hi]; cycle 1.
  { replace (w_inflight x' =? 0) with false by (cbn; lia). exists s1. split; [done|]. by apply finish_more. }
  replace (w_inflight x' =? 0) with true by (cbn; lia). rewrite (pt_bind_some (v_get v_aes) _ s1 _ s1 eq_refl).
  change (v_aes s1) with (v_aes s). destruct (v_aes s) eqn:Ea; cycle 1.
  { eexists. rewrite (pt_bind_some (cmd_done _) _ _ tt _ eq_refl), (free_work_eq _ x') by done. split; [reflexivity|].
    pose proof (finish_plain Ea Hi) as J. cbn. rewrite delete_insert_eq, <- app_assoc. exact J. }
  destruct (finish_aes Ea Hi) as (a & Ha & Hb & Hwr & Hcnt & H0 & J). cbn [x' w_write set_field set_w_inflight]. rewrite Hwr. cbn [negb].
  assert (Hcl : aes_cleanup (w_aes x) s1 = Some (tt, s1 <|v_aesw := delete (w_aes x) (v_aesw s)|>
    <|v_log := (v_log s ++ ((fun p => BvFreePage (p_page p)) <$> aw_dst a)) ++ [BvFreeAes (w_aes x)]|>)).
  { unfold aes_cleanup. rewrite (pt_bind_some _ _ _ _ _ (get_aesw_eq (w_aes x) a s1 Ha)), Hb.
    rewrite (pt_bind_some _ _ _ _ _ (get_work_eq _ _ _ Hx1)). cbv zeta. cbn [x' w_write set_field set_w_inflight]. rewrite Hwr.
    rewrite take_ge by lia. rewrite (pt_bind_some _ _ _ _ _ (free_pages_eq _ H0 _)). by erewrite free_aesw_eq. }
  eexists. split.
  - erewrite (pt_bind_some (_;; _)) by (rewrite (pt_bind_some _ _ _ _ _ Hcl); reflexivity).
    rewrite (free_work_eq _ x') by done. reflexivity.
  - cbn. rewrite delete_insert_eq, <- !app_assoc. exact J.
Qed.

End finish.

(** ** The other operations *)

(** Events that the accounts do not see. *)
Lemma inv_log e cs s l : dones l = [] -> gets l = [] -> puts l = [] -> pages_in l ≡ₚ pages_out l ->
  vd_inv e cs s -> vd_inv e cs (s <|v_log := v_log s ++ l|>).
Proof.
  intros E1 E2 E3 E4 [Hw Hb Hc Hq Hh Hp Hd Hr Hg Hv].
  split; cbn [v_works v_aes v_bios v_crypto v_wq v_aesw v_log set_field set_v_log]; logs;
    rewrite ?E1, ?E2, ?E3, ?app_nil_r; try done.
  - intros w x Hx. apply (work_ok_same _ s); auto.
  - rewrite Hg, E4. solve_Permutation.
Qed.

(** A bio ends. *)
Lemma inv_bio cs s l1 p l2 : vd_inv none cs s -> v_bios s = l1 ++ p :: l2 ->
  vd_inv (one (bi_private p.2)) cs (s <|v_bios := l1 ++ l2|>) /\ is_Some (v_works s !! bi_private p.2).
Proof.
  intros [Hw Hb Hc Hq Hh Hp Hd Hr Hg Hv] E. set (w := bi_private p.2).
  assert (Hnb : forall w', nb w' (v_bios s) = nb w' (l1 ++ l2) + one w w').
  { intros w'. rewrite E, !nb_app, nb_cons. unfold one. fold w.
    destruct (decide (w = w')) as [->|]; [rewrite !bool_decide_eq_true_2 by done; lia|].
    rewrite !bool_decide_eq_false_2 by congruence. lia. }
  split; [|apply Hb; rewrite E; set_solver]. split; try done.
  - intros w' x Hx. destruct (Hw w' x Hx) as [P1 P2 P3]. unfold none in P2, P3. rewrite Hnb in P2, P3.
    split; [done|intros Ea; cbn; specialize (P2 Ea); lia|]. intros Ea. destruct (P3 Ea) as (Q & a & Ha & Q1 & Q2 & Q0 & Q3 & Q4).
    split; [done|]. exists a. split_and!; try done. change (held (s <|v_bios := _|>)) with (held s). cbn. lia.
  - cbn. intros q Hq'. apply Hb. rewrite E. set_solver.
Qed.

Lemma endio_run cs s l1 wr b l2 up err : vd_inv none cs s -> v_bios s = l1 ++ (wr, b) :: l2 ->
  exists s', blockio_endio wr b up err (s <|v_bios := l1 ++ l2|>) = Some (tt, s') /\ vd_inv none cs s'.
Proof.
  intros I E. destruct (inv_bio cs s l1 (wr, b) l2 I E) as [J [x Hx]]. cbn [snd] in J, Hx.
  set (s0 := s <|v_bios := l1 ++ l2|>) in *. unfold blockio_endio. cbv zeta.
  destruct (negb (_ =? 0)).
  - erewrite (pt_bind_some (_ ≫= _)) by (rewrite (pt_bind_some _ _ _ _ _ (get_work_eq _ x s0 Hx)); reflexivity).
    eapply check_finish_run; [|exact Hx]. by apply inv_log.
  - rewrite (pt_bind_some (mret tt) _ _ tt _ eq_refl). by eapply check_finish_run.
Qed.

(** Changing who holds a work structure, not whether. *)
Lemma inv_held cs s s' : vd_inv none cs s -> v_works s' = v_works s -> v_aesw s' = v_aesw s -> v_aes s' = v_aes s ->
  v_bios s' = v_bios s -> v_log s' = v_log s -> held s' ≡ₚ held s -> v_aes s = true ->
  (forall p, p ∈ v_crypto s' -> p ∈ v_crypto s) ->
  (forall a, a ∈ v_wq s' -> exists aw x, v_aesw s !! a = Some aw /\ v_works s !! aw_blockio aw = Some x /\ w_aes x = a) ->
  vd_inv none cs s'.
Proof.
  intros [Hw Hb Hc Hq Hh Hp Hd Hr Hg Hv] E1 E2 E3 E4 E5 EH Ea HC HQ.
  split; rewrite ?E1, ?E2, ?E3, ?E4, ?E5, ?EH; try done; try congruence; auto.
  intros w x Hx. destruct (Hw w x Hx) as [P1 P2 P3].
  split; rewrite ?E2, ?E3, ?E4; [done|congruence|]. intros _. destruct (P3 Ea) as (Q & a & Ha & Q1 & Q2 & Q0 & Q3 & Q4).
  split; [done|]. exists a. split_and!; try done. rewrite Q4.
  by rewrite (bool_decide_ext (w ∈ held s') (w ∈ held s)) by (by rewrite EH).
Qed.

(** The AES driver is done with a write. *)
Lemma callback_run cs s l1 cb w l2 : vd_inv none cs s -> v_crypto s = l1 ++ (cb, w) :: l2 ->
  cb = blockio_write_cb /\
  exists s', blockio_write_aes_cb w (s <|v_crypto := l1 ++ l2|>) = Some (tt, s') /\ vd_inv none cs s'.
Proof.
  intros I E. pose proof I as [Hw Hb Hc Hq Hh Hp Hd Hr Hg Hv].
  destruct (Hc (cb, w)) as [Ecb [x Hx]]; [rewrite E; set_solver|]. cbn [fst snd] in *. split; [done|].
  assert (Ea : v_aes s = true).
  { destruct (v_aes s) eqn:Ea; [done|]. destruct (Hp eq_refl) as (Ec & _). rewrite Ec in E. by destruct l1. }
  destruct (wo_aes _ _ _ _ (Hw w x Hx) Ea) as (_ & a & Ha & Hb1 & _).
  set (s0 := s <|v_crypto := l1 ++ l2|>). unfold blockio_write_aes_cb.
  rewrite (pt_bind_some _ _ _ _ _ (get_work_eq w x s0 Hx)), (pt_bind_some _ _ _ _ _ (get_aesw_eq (w_aes x) a s0 Ha)).
  eexists. split; [reflexivity|]. apply (inv_held cs s); try done.
  - unfold held. cbn. rewrite E, !fmap_app, omap_app. cbn. rewrite Ha. cbn. rewrite Hb1, <- !app_assoc. cbn. solve_Permutation.
  - cbn. rewrite E. set_solver.
  - cbn. intros b [Hbq| ->%list_elem_of_singleton]%elem_of_app; [auto|]. exists a, x. by rewrite Hb1.
Qed.

(** The bios of a write are submitted. *)
Lemma worker_run cs s l1 a l2 : vd_inv none cs s -> v_wq s = l1 ++ a :: l2 ->
  exists s', aes_write_work_fn a (s <|v_wq := l1 ++ l2|>) = Some (tt, s') /\ vd_inv none cs s'.
Proof.
  intros I E. pose proof I as [Hw Hb Hc Hq Hh Hp Hd Hr Hg Hv].
  destruct (Hq a) as (aw & x & Ha & Hx & Hxa); [rewrite E; set_solver|]. set (w := aw_blockio aw) in *.
  assert (Ea : v_aes s = true).
  { destruct (v_aes s) eqn:Ea; [done|]. destruct (Hp eq_refl) as (_ & Eq & _). rewrite Eq in E. by destruct l1. }
  destruct (wo_aes _ _ _ _ (Hw w x Hx) Ea) as (_ & aw' & Ha' & _ & _ & _ & Hpriv & _).
  assert (aw' = aw) as -> by congruence. set (s0 := s <|v_wq := l1 ++ l2|>).
  assert (Eh : held s ≡ₚ w :: held s0).
  { unfold held. cbn. rewrite E, omap_app. cbn. rewrite Ha. cbn. fold w. rewrite omap_app. solve_Permutation. }
  assert (Hnot : w ∉ held s0) by (rewrite Eh in Hh; by apply NoDup_cons in Hh as [? _]).
  unfold aes_write_work_fn. rewrite (pt_bind_some _ _ _ _ _ (get_aesw_eq a aw s0 Ha)). fold w.
  rewrite (pt_bind_some _ _ _ _ _ (get_work_eq w x s0 Hx)), (pt_bind_some _ _ _ _ _ (submit_bios_eq _ _ _)).
  eapply check_finish_run; [|exact Hx].
  split; cbn [v_works v_aes v_bios v_crypto v_wq v_aesw v_log s0 set_field set_v_bios set_v_wq]; try done.
  - intros w' y Hy. destruct (Hw w' y Hy) as [P1 P2 P3].
    split; [done|intros E'; cbn in E'; congruence|]. intros _. destruct (P3 Ea) as (Q & b & Hbw & Q1 & Q2 & Q0 & Q3 & Q4).
    split; [done|]. exists b. split_and!; try done. cbn [v_bios set_field set_v_bios]. rewrite nb_app, Q4. unfold none.
    change (held (s0 <|v_bios := _|>)) with (held s0).
    rewrite (bool_decide_ext (w' ∈ held s) (w' = w \/ w' ∈ held s0)) by (by rewrite Eh, elem_of_cons).
    destruct (decide (w' = w)) as [->|Hne].
    + rewrite bool_decide_eq_true_2 by auto. rewrite bool_decide_eq_false_2 by done. assert (y = x) as -> by congruence.
      assert (b = aw) as -> by congruence. rewrite nb_all by done. unfold one. rewrite bool_decide_eq_true_2 by done. cbn. lia.
    + rewrite (bool_decide_ext (w' = w \/ w' ∈ held s0) (w' ∈ held s0)) by tauto. rewrite (nb_other w w') by done.
      rewrite (one_other w w' Hne). cbn. lia.
  - intros p [Hp'|Hp']%elem_of_app; [auto|]. apply list_elem_of_fmap in Hp' as (b & -> & Hb'). cbn.
    rewrite (proj1 (Forall_forall _ _) Hpriv b Hb'). eauto.
  - intros b Hb'. apply Hq. rewrite E. set_solver.
  - rewrite Eh in Hh. by apply NoDup_cons in Hh as [_ ?].
  - congruence.
Qed.

(** ** Starting a command *)

Lemma own_on_pages ags qs src w cnt size hb : length ags = length qs ->
  own (mkAesWork w src (on_pages ags qs) cnt size hb) = filter (fun a => a <> 0) ags.
Proof.
  intros H. unfold own. cbn [aw_dst]. f_equal. unfold on_pages. revert qs H.
  induction ags as [|a ags IH]; intros [|q qs] H; cbn in *; try done; try lia. f_equal. apply IH. lia.
Qed.

Lemma silent_log l : Forall silent l -> dones l = [] /\ gets l = [] /\ puts l = [].
Proof. induction 1 as [|v l Hv _ (H1 & H2 & H3)]; [done|]. by destruct v. Qed.

(** A new AES structure. *)
Lemma inv_aesw cs s a x log : vd_inv none cs s -> v_aes s = true -> v_aesw s !! a = None -> Forall silent log ->
  pages_in log ≡ₚ pages_out log ++ own x ->
  let s' := s <|v_aesw := <[a := x]> (v_aesw s)|> <|v_log := v_log s ++ log|> in
  vd_inv none (cs.1, cs.2 ++ [a]) s' /\ held s' = held s.
Proof.
  intros [Hw Hb Hc Hq Hh Hp Hd Hr Hg Hv] Ea Hfresh Hs Hpg s'. destruct (silent_log log Hs) as (L1 & L2 & L3).
  assert (HL : forall b y, v_aesw s !! b = Some y -> <[a := x]> (v_aesw s) !! b = Some y).
  { intros b y Hy. rewrite lookup_insert_ne; [done|]. intros ->. congruence. }
  assert (EH : held s' = held s).
  { unfold held. cbn. f_equal. apply list_omap_ext, Forall_Forall2_diag, Forall_forall. intros b Hbq.
    destruct (Hq b Hbq) as (aw & y & Haw & _). by rewrite (HL _ _ Haw), Haw. }
  split; [|done]. split; rewrite ?EH;
    cbn [s' v_works v_aes v_bios v_crypto v_wq v_aesw v_log set_field set_v_log set_v_aesw]; logs; rewrite ?L1, ?L2, ?L3, ?app_nil_r; try done.
  - intros w y Hy. destruct (Hw w y Hy) as [P1 P2 P3]. split; [done|done|]. intros _.
    destruct (P3 Ea) as (Q & b & Hbw & Q1 & Q2 & Q0 & Q3 & Q4). split; [done|]. exists b. rewrite EH. cbn. split_and!; auto.
  - intros b Hbq. destruct (Hq b Hbq) as (aw & y & H1 & H2 & H3). exists aw, y. auto.
  - congruence.
  - rewrite own_insert by done. rewrite Hg, Hpg. solve_Permutation.
  - intros b aw. cbn. destruct (decide (b = a)) as [->|Hne]; [intros _; left; set_solver|]. rewrite lookup_insert_ne by done.
    intros Hb'. destruct (Hv b aw Hb') as [|]; [left; set_solver|by right].
Qed.

Lemma bios_private w fua meta bs : forall pos, bios_ok w fua meta pos bs -> Forall (fun b => bi_private b = w) bs.
Proof. induction bs as [|b bs IH]; intros pos H; [constructor|]. destruct H as (_ & _ & E & _ & _ & H). constructor; eauto. Qed.

(** A command that is turned away is answered. *)
Lemma inv_answered cs s cmd : vd_inv none cs s ->
  vd_inv none (cs.1 ++ [cmd], cs.2) (s <|v_log := v_log s ++ [BvBusy cmd; BvDone cmd]|>).
Proof.
  intros [Hw Hb Hc Hq Hh Hp Hd Hr Hg Hv].
  split; cbn [v_works v_aes v_bios v_crypto v_wq v_aesw v_log set_field set_v_log]; logs; try done.
  - intros w x Hx. apply (work_ok_same _ s); auto.
  - rewrite Hd. cbn. solve_Permutation.
  - cbn. by rewrite !app_nil_r.
  - cbn. by rewrite !app_nil_r.
Qed.

(** A work structure that is not live has nothing outstanding. *)
Lemma fresh_none cs s w : vd_inv none cs s -> v_works s !! w = None -> nb w (v_bios s) = 0 /\ w ∉ held s.
Proof.
  intros [Hw Hb Hc Hq Hh Hp Hd Hr Hg Hv] Hf. split.
  - unfold nb. destruct (filter _ (v_bios s)) as [|p l] eqn:E; [done|].
    assert (p ∈ filter (fun p => bi_private p.2 = w) (v_bios s)) as [Ew Hin]%list_elem_of_filter by (rewrite E; by left).
    destruct (Hb p Hin) as [x Hx]. congruence.
  - unfold held. intros [(p & -> & Hin)%list_elem_of_fmap|(a & Ha & E)%list_elem_of_omap]%elem_of_app.
    + destruct (Hc p Hin) as [_ [x Hx]]. congruence.
    + destruct (Hq a Ha) as (aw & x & H1 & H2 & _). rewrite H1 in E. cbn in E. congruence.
Qed.

Lemma works_insert (m : gmap Z blockio_work) w x y : is_Some (m !! y) -> is_Some (<[w := x]> m !! y).
Proof.
  intros H. destruct (decide (y = w)) as [->|]; [rewrite lookup_insert_eq; eauto|by rewrite lookup_insert_ne].
Qed.

(** The bios of a command on a plain device are with the block layer. *)
Lemma inv_start cs s w cmd write junk bs : vd_inv none cs s -> v_aes s = false -> v_works s !! w = None ->
  Forall (fun b => bi_private b = w) bs ->
  vd_inv (one w) (cs.1 ++ [cmd], cs.2)
    (s <|v_works := <[w := mkWork (Z.of_nat (length bs) + 1) cmd write junk]> (v_works s)|>
       <|v_bios := v_bios s ++ ((write,.) <$> bs)|>).
Proof.
  intros I Ea Hf Hbs. destruct (fresh_none cs s w I Hf) as [H0 _]. destruct I as [Hw Hb Hc Hq Hh Hp Hd Hr Hg Hv].
  destruct (Hp Ea) as (Ec & Eq & Ev).
  split; cbn [v_works v_aes v_bios v_crypto v_wq v_aesw v_log set_field set_v_works set_v_bios]; rewrite ?Ec, ?Eq; try done.
  - intros w' y. destruct (decide (w' = w)) as [->|Hne].
    + rewrite lookup_insert_eq. intros [= <-]. split; [cbn; lia| |cbn; congruence]. intros _. cbn.
      rewrite nb_app, H0, nb_all, (one_self w) by done. lia.
    + rewrite lookup_insert_ne by done. intros Hy. destruct (Hw w' y Hy) as [P1 P2 _]. split; [done| |cbn; congruence].
      intros _. cbn. rewrite nb_app, (nb_other w w'), (one_other w w' Hne) by done. rewrite (P2 Ea). unfold none. lia.
  - intros p [Hp'|Hp']%elem_of_app; [apply works_insert; auto|]. apply list_elem_of_fmap in Hp' as (b & -> & Hb'). cbn.
    rewrite (proj1 (Forall_forall _ _) Hbs b Hb'), lookup_insert_eq. eauto.
  - by intros p Hp'%elem_of_nil.
  - by intros p Hp'%elem_of_nil.
  - rewrite Ea, cmds_insert by done. rewrite Hd, Ea. cbn. solve_Permutation.
  - by rewrite Ea in *.
  - rewrite Ev. by intros a aw Ha%lookup_empty_Some.
Qed.

(** A write on an encrypted device is with the AES driver, and answered. *)
Lemma inv_start_aes cs s w cmd a aw : vd_inv none (cs.1, cs.2 ++ [a]) s -> v_aes s = true -> v_works s !! w = None ->
  v_aesw s !! a = Some aw -> aw_blockio aw = w -> aw_sg_cnt aw = Z.of_nat (length (aw_dst aw)) -> 0 ∉ p_page <$> aw_dst aw ->
  Forall (fun b => bi_private b = w) (aw_hbio aw) ->
  vd_inv none (cs.1 ++ [cmd], cs.2)
    (s <|v_works := <[w := mkWork (Z.of_nat (length (aw_hbio aw)) + 1) cmd true a]> (v_works s)|>
       <|v_crypto := v_crypto s ++ [(blockio_write_cb, w)]|>
       <|v_log := v_log s ++ [BvGet cmd; BvDone cmd; BvAesSubmit (aw_src aw) (aw_dst aw) (aw_sg_cnt aw) (aw_sg_size aw)]|>).
Proof.
  intros I Ea Hf Ha Hb1 Hb2 Hb0 Hpriv. destruct (fresh_none _ s w I Hf) as [H0 Hn]. destruct I as [Hw Hb Hc Hq Hh Hp Hd Hr Hg Hv].
  set (s' := s <|v_works := _|> <|v_crypto := _|> <|v_log := _|>).
  assert (EH : held s' ≡ₚ w :: held s) by (unfold held; cbn; rewrite fmap_app; cbn; solve_Permutation).
  assert (EW : forall y, w <> y -> bool_decide (y ∈ held s') = bool_decide (y ∈ held s)).
  { intros y Hne. apply bool_decide_ext. rewrite EH, elem_of_cons. naive_solver. }
  split; rewrite ?EH; cbn [s' v_works v_aes v_bios v_crypto v_wq v_aesw v_log set_field set_v_works set_v_crypto set_v_log]; logs;
    try done.
  - intros w' y. destruct (decide (w' = w)) as [->|Hne].
    + rewrite lookup_insert_eq. intros [= <-]. split; [cbn; lia|cbn; congruence|]. intros _. split; [done|]. exists aw.
      split_and!; try done. rewrite bool_decide_eq_true_2 by (rewrite EH; by left). cbn. rewrite H0. unfold none. lia.
    + rewrite lookup_insert_ne by done. intros Hy. destruct (Hw w' y Hy) as [P1 P2 P3]. split; [done|done|]. intros _.
      destruct (P3 Ea) as (Q & b & Hbw & Q1 & Q2 & Q0 & Q3 & Q4). split; [done|]. exists b. rewrite EW by done. done.
  - intros p Hp'. apply works_insert. auto.
  - intros p [Hp'| ->%list_elem_of_singleton]%elem_of_app.
    + destruct (Hc p Hp'). split; [done|]. by apply works_insert.
    + split; [done|]. cbn. rewrite lookup_insert_eq. eauto.
  - intros b Hbq. destruct (Hq b Hbq) as (aw' & y & H1 & H2 & H3). exists aw', y.
    rewrite lookup_insert_ne; [done|]. intros E. rewrite <- E in H2. congruence.
  - by apply NoDup_cons.
  - congruence.
  - rewrite Hd, Ea. cbn. by rewrite !app_nil_r.
  - rewrite Hr, Ea, cmds_insert by done. cbn. rewrite app_nil_r. solve_Permutation.
  - cbn. by rewrite !app_nil_r.
  - intros b bw Hb'. destruct (decide (b = a)) as [->|Hne].
    + right. assert (bw = aw) as -> by congruence. rewrite Hb1, lookup_insert_eq. eauto.
    + destruct (Hv b bw Hb') as [Hin|(y & Hy & E)]; [left; cbn in Hin; set_solver|right].
      exists y. rewrite lookup_insert_ne; [done|]. intros Ew. rewrite <- Ew in Hy. congruence.
Qed.

Section exec_step.
Context (bio_add_page : bio -> Z -> Z -> Z -> Z) `{!BlockLayer bio_add_page}.
Context (an : answers) (cmd lba block_shift : Z) (segs : list piece) (write fua meta : bool).

(** [alloc_page] gave a page for each piece that is in the tables. *)
Definition pages_given (s' : vdisk) : Prop :=
  forall aw, v_aesw s' !! an_aes an = Some aw -> 0 ∉ p_page <$> aw_dst aw.

(** The AES structure of a command that was turned away and has no work
    structure. *)
Definition left_behind (s s' : vdisk) : list Z :=
  if v_aes s && bool_decide (is_Some (v_aesw s' !! an_aes an)) && bool_decide (v_works s' !! an_work an = None)
  then [an_aes an] else [].

(** Executing a command: a plain one, or a write. *)
Lemma exec_inv cs s : vd_inv none cs s -> exec_pre an lba block_shift segs s -> v_aesw s !! an_aes an = None ->
  (v_aes s = true -> write = true) ->
  exists s', blockio_exec_rw bio_add_page an cmd lba block_shift segs write fua meta s = Some (tt, s') /\
  (pages_given s' -> vd_inv none (cs.1 ++ [cmd], cs.2 ++ left_behind s s') s').
Proof using BlockLayer0.
  intros I P Hfa Hwr. pose proof (ep_fresh _ _ _ _ _ P) as Hfw.
  destruct (exec_run bio_add_page an cmd lba block_shift segs write fua meta s _ P) as [[R|R] _].
  - destruct R as (aesw & log & E & Hs & R). eexists. split; [exact E|]. intros _. destruct (silent_log log Hs) as (L1 & L2 & L3).
    assert (J : vd_inv none (cs.1, cs.2 ++ left_behind s (turned_away cmd aesw log s)) (s <|v_aesw := aesw|> <|v_log := v_log s ++ log|>)).
    { unfold left_behind. cbn [v_aesw v_works turned_away set_field set_v_log set_v_aesw].
      destruct R as [[-> Hpg]|(Ea & qs & x & A & El & ->)].
      - rewrite Hfa. rewrite andb_false_r, app_nil_r, <- surjective_pairing.
        pose proof (inv_log none cs s log L1 L2 L3 Hpg I) as J. by destruct s.
      - rewrite lookup_insert_eq, Hfw, Ea, bool_decide_eq_true_2 by eauto. rewrite bool_decide_eq_true_2 by done. cbn [andb].
        apply (inv_aesw cs s (an_aes an)); try done. rewrite Ea, (Hwr Ea) in A.
        destruct A as [(ags & l & Hl & _ & _ & Hd & Hlg & _ & Hpg) _ _]. cbn in Hd, Hlg, Hpg. rewrite Hd, own_on_pages by done.
        rewrite El, Hlg. unfold pages_in, pages_out in *. rewrite !omap_app, Hpg. cbn. by rewrite !app_nil_r. }
    pose proof (inv_answered _ _ cmd J) as K. cbn in K. rewrite <- app_assoc in K. exact K.
  - destruct R as (x & E & Ew & Hae & A & [C1 _ _ C4]). pose proof (bios_private _ _ _ _ _ C1) as Hpriv. rewrite E.
    unfold launch, built. cbn [v_aes set_field set_v_works set_v_aesw set_v_log]. destruct (v_aes s) eqn:Ea.
    + rewrite (Hwr eq_refl) in *. cbn [andb v_aesw set_field set_v_aesw set_v_log]. rewrite lookup_insert_eq.
      set (aw := mkAesWork (an_work an) (x_src x) (x_dst x) (x_cnt x) (x_size x) (x_hbio x)).
      destruct A as [(ags & l & Hl & _ & _ & Hd & Hlg & Hpe & Hpg) Hc _]. cbn in Hd, Hlg, Hpg, Hc.
      destruct (inv_aesw cs s (an_aes an) aw (x_log x) I Ea Hfa) as [J _].
      { rewrite Hlg. by apply page_silent. }
      { rewrite Hlg, Hpg. unfold aw. rewrite Hd, own_on_pages by done. done. }
      pose proof (inv_start_aes cs _ (an_work an) cmd (an_aes an) aw J Ea Hfw (lookup_insert_eq _ _ _) eq_refl) as K.
      assert (Ecnt : aw_sg_cnt aw = Z.of_nat (length (aw_dst aw)))
        by (cbn; rewrite Hd, Hc; unfold on_pages; rewrite length_zip_with; lia).
      set (s1 := s <|v_aesw := _|> <|v_log := _|>) in K. set (s2 := s1 <|v_works := _|> <|v_crypto := _|> <|v_log := _|>) in K.
      exists s2. split.
      { unfold blockio_aes_submit. rewrite (pt_bind_some (get_work _) _ _ _ _ (get_work_eq _ _ _ (lookup_insert_eq _ _ _))).
        cbn [w_write w_cmd w_aes]. erewrite (pt_bind_some (_;; _)) by reflexivity.
        rewrite (pt_bind_some (get_aesw _) _ _ _ _ (get_aesw_eq _ _ _ (lookup_insert_eq _ _ _))).
        rewrite (pt_bind_some (v_note _) _ _ tt _ eq_refl). unfold v_upd. do 2 f_equal. unfold s2, s1. cbn.
        rewrite insert_insert_eq, C4, <- !app_assoc. destruct s. done. }
      intros G. unfold left_behind. cbn [s2 v_works set_field set_v_works set_v_crypto set_v_log].
      rewrite lookup_insert_eq. rewrite (bool_decide_eq_false_2 (Some _ = None)) by discriminate. rewrite andb_false_r, app_nil_r.
      apply K; [exact Ecnt| |exact Hpriv]. apply G. apply lookup_insert_eq.
    + cbn [andb]. destruct A as [(ags & l & _ & _ & _ & _ & Hlg & Hpe & Hpg) _ _]. cbn in Hlg, Hpg. rewrite app_nil_r in Hpg.
      destruct (silent_log l (page_silent l Hpe)) as (L1 & L2 & L3). rewrite Hlg, C4.
      pose proof (inv_log none cs s l L1 L2 L3 Hpg I) as J.
      pose proof (inv_start cs _ (an_work an) cmd write (an_junk an) (x_hbio x) J Ea Hfw Hpriv) as K.
      unfold left_behind. rewrite Ea. cbn [andb]. rewrite app_nil_r.
      match goal with |- exists s', ?f = _ /\ _ =>
        assert (Hrun : exists s', f = Some (tt, s') /\ vd_inv none (cs.1 ++ [cmd], cs.2) s') end.
      { eapply check_finish_run; [|apply lookup_insert_eq]. destruct s. exact K. }
      destruct Hrun as (s' & E' & K'). exists s'. split; [exact E'|by intros _].
Qed.

End exec_step.

(** ** Runs *)

(** One step, with the commands started so far and the AES structures left
    behind: a command, a bio that ends (with whatever result), a callback of the
    AES driver, queued work.  On an encrypted device the commands are writes, of
    fewer than 2048 pieces, whose tables ([exec_pre]) and pages ([pages_given])
    could be allocated; the structures and the bios may be missing. *)
Inductive vd_step (bio_add_page : bio -> Z -> Z -> Z -> Z) : hist * vdisk -> hist * vdisk -> Prop :=
| vs_exec cs s an cmd lba block_shift segs write fua meta s' :
    exec_pre an lba block_shift segs s -> v_aesw s !! an_aes an = None -> (v_aes s = true -> write = true) ->
    blockio_exec_rw bio_add_page an cmd lba block_shift segs write fua meta s = Some (tt, s') -> pages_given an s' ->
    vd_step bio_add_page (cs, s) ((cs.1 ++ [cmd], cs.2 ++ left_behind an s s'), s')
| vs_endio cs s l1 wr b l2 up err s' : v_bios s = l1 ++ (wr, b) :: l2 ->
    blockio_endio wr b up err (s <|v_bios := l1 ++ l2|>) = Some (tt, s') -> vd_step bio_add_page (cs, s) (cs, s')
| vs_write_cb cs s l1 w l2 s' : v_crypto s = l1 ++ (blockio_write_cb, w) :: l2 ->
    blockio_write_aes_cb w (s <|v_crypto := l1 ++ l2|>) = Some (tt, s') -> vd_step bio_add_page (cs, s) (cs, s')
| vs_read_cb cs s l1 w l2 s' : v_crypto s = l1 ++ (blockio_read_cb, w) :: l2 ->
    blockio_read_aes_cb w (s <|v_crypto := l1 ++ l2|>) = Some (tt, s') -> vd_step bio_add_page (cs, s) (cs, s')
| vs_worker cs s l1 a l2 s' : v_wq s = l1 ++ a :: l2 ->
    aes_write_work_fn a (s <|v_wq := l1 ++ l2|>) = Some (tt, s') -> vd_step bio_add_page (cs, s) (cs, s').

Lemma vd_step_inv add `{!BlockLayer add} s s' : vd_step add s s' -> vd_inv none s.1 s.2 -> vd_inv none s'.1 s'.2.
Proof.
  intros H I. destruct H as [cs s an cmd lba sh segs wr fua meta s' P Hf Hw E HG|cs s l1 wr b l2 up err s' Hb E|
    cs s l1 w l2 s' Hc E|cs s l1 w l2 s' Hc E|cs s l1 a l2 s' Hq E]; cbn [fst snd] in *.
  - destruct (exec_inv add an cmd lba sh segs wr fua meta cs s I P Hf Hw) as (s1 & E1 & J). rewrite E in E1. injection E1 as <-. auto.
  - destruct (endio_run cs s l1 wr b l2 up err I Hb) as (s1 & E1 & J). rewrite E in E1. by injection E1 as ->.
  - destruct (callback_run cs s l1 _ w l2 I Hc) as (_ & s1 & E1 & J). rewrite E in E1. by injection E1 as ->.
  - by destruct (callback_run cs s l1 _ w l2 I Hc).
  - destruct (worker_run cs s l1 a l2 I Hq) as (s1 & E1 & J). rewrite E in E1. by injection E1 as ->.
Qed.

Lemma vd_run_inv add `{!BlockLayer add} s s' : rtc (vd_step add) s s' -> vd_inv none s.1 s.2 -> vd_inv none s'.1 s'.2.
Proof. induction 1; eauto using vd_step_inv. Qed.

(** A device on which nothing has happened. *)
Definition idle (aes : bool) : vdisk := mkVdisk aes ∅ ∅ [] [] [] [].

Lemma idle_inv aes : vd_inv none ([], []) (idle aes).
Proof.
  split; cbn; try done; try (by intros p Hp%elem_of_nil); try (by intros w x Hx%lookup_empty_Some); try constructor;
    by destruct aes.
Qed.

(** C8: the life of commands.  In every run of a plain device, and in every run
    of writes on an encrypted one, from an idle state, in which the pages and
    the scatter tables of the writes could be allocated and hold them: each
    command started is answered once or still has a live work structure (an
    encrypted write is answered when it is started); each reference on a command
    that was taken is given back or belongs to a live work structure; each page
    that was allocated was freed once or is in the tables of an AES structure,
    which belongs to a live work structure, unless its command was turned away
    for want of a bio and left it behind; and whatever ends next, a bio, a request
    to the AES driver or queued work, is handled without using a structure that
    was freed or a null pointer. *)
Theorem vdisk_lifecycle add `{!BlockLayer add} aes cs lost s : rtc (vd_step add) (([], []), idle aes) ((cs, lost), s) ->
  cs ≡ₚ dones (v_log s) ++ (if v_aes s then [] else cmds (v_works s)) /\
  gets (v_log s) ≡ₚ puts (v_log s) ++ (if v_aes s then cmds (v_works s) else []) /\
  pages_in (v_log s) ≡ₚ pages_out (v_log s) ++ own_all (v_aesw s) /\
  (forall a aw, v_aesw s !! a = Some aw -> a ∈ lost \/ exists x, v_works s !! aw_blockio aw = Some x /\ w_aes x = a) /\
  (forall l1 wr b l2 up err, v_bios s = l1 ++ (wr, b) :: l2 ->
     is_Some (blockio_endio wr b up err (s <|v_bios := l1 ++ l2|>))) /\
  (forall l1 cb w l2, v_crypto s = l1 ++ (cb, w) :: l2 -> cb = blockio_write_cb /\
     is_Some (blockio_write_aes_cb w (s <|v_crypto := l1 ++ l2|>))) /\
  (forall l1 a l2, v_wq s = l1 ++ a :: l2 -> is_Some (aes_write_work_fn a (s <|v_wq := l1 ++ l2|>))).
Proof.
  intros R. pose proof (vd_run_inv add _ _ R (idle_inv aes)) as I. cbn [fst snd] in I. pose proof I as [_ _ _ _ _ _ Hd Hr Hg Hv].
  do 4 (split; [done|]). split_and!.
  - intros l1 wr b l2 up err E. destruct (endio_run _ s l1 wr b l2 up err I E) as (s' & -> & _). done.
  - intros l1 cb w l2 E. destruct (callback_run _ s l1 cb w l2 I E) as (Hcb & s' & -> & _). done.
  - intros l1 a l2 E. destruct (worker_run _ s l1 a l2 I E) as (s' & -> & _). done.
Qed.

(** ** An encrypted write *)

(** A block layer whose bios hold two pieces. *)
Definition two_vecs (b : bio) (page len off : Z) : Z := if (length (bi_vecs b) <? 2)%nat then len else 0.

#[export] Instance two_vecs_layer : BlockLayer two_vecs.
Proof. split; intros b page len off; unfold two_vecs; [case_match; auto|]. by intros ->. Qed.

(** Twelve kilobytes at block 8. *)
Definition ex_segs : list piece := [mkPiece 100 12288 0].
Definition ex_an : answers := mkAnswers 1000 2000 true true [true; true; true] [501; 502; 503; 504] 77.

Definition after (r : option (unit * vdisk)) : vdisk := match r with Some (_, s) => s | None => idle false end.
Definition ex_started : vdisk := after (blockio_exec_rw two_vecs ex_an 7 8 9 ex_segs true false false (idle true)).
Definition ex_queued : vdisk := after (blockio_write_aes_cb 1000 (ex_started <|v_crypto := []|>)).
Definition ex_writing : vdisk := after (aes_write_work_fn 2000 (ex_queued <|v_wq := []|>)).

Lemma ex_pre aes : exec_pre ex_an 8 9 ex_segs (idle aes).
Proof.
  split; cbn; try lia; try done.
  repeat constructor; cbn; try lia; [exists 0|exists 24]; reflexivity.
Qed.

Lemma ex_given : pages_given ex_an ex_started.
Proof.
  intros aw H. assert (E : (fun a => p_page <$> aw_dst a) <$> v_aesw ex_started !! an_aes ex_an = Some [501; 502; 504])
    by (vm_compute; reflexivity).
  rewrite H in E. cbn [fmap option_fmap option_map] in E. injection E as ->. apply (bool_decide_unpack (0 ∉ [501; 502; 504])). exact I.
Qed.

Lemma vdisk_lifecycle_witness : length (v_bios ex_writing) = 2%nat /\
  gets (v_log ex_writing) ≡ₚ puts (v_log ex_writing) ++ (if v_aes ex_writing then cmds (v_works ex_writing) else []).
Proof.
  split; [reflexivity|]. refine (proj1 (proj2 (vdisk_lifecycle two_vecs true [7] [] ex_writing _))).
  eapply rtc_l; [|eapply rtc_l; [|eapply rtc_once]].
  - eapply (vs_exec _ ([], []) (idle true) ex_an 7 8 9 ex_segs true false false ex_started);
      [apply ex_pre|done|done|vm_compute; reflexivity|exact ex_given].
  - eapply (vs_write_cb _ _ ex_started [] 1000 [] ex_queued); vm_compute; reflexivity.
  - eapply (vs_worker _ _ ex_queued [] 2000 [] ex_writing); vm_compute; reflexivity.
Defined.
