(* ===== verification/VdiskThms.v ===== *)
(** * What a command on an encrypted block device becomes

    The bios and the request that a command turns into, what becomes of a read
    from an encrypted device, and what switching encryption does to commands
    that are under way. *)

From S2P Require Import Prelude Kernel VdiskAes VdiskCut VdiskProps VdiskRun.

(** ** The end of a bio *)

Lemma endio_eq wr b up err w x s : v_works s !! w = Some x -> bi_private b = w -> exists log,
  blockio_endio wr b up err s = blockio_check_finish w (s <|v_log := v_log s ++ log|>) /\
  (log = [] \/ log = [BvError (w_cmd x) wr]).
Proof.
  intros Hx Hb. unfold blockio_endio. cbv zeta. rewrite Hb. destruct (negb _).
  - exists [BvError (w_cmd x) wr]. split; [|auto]. erewrite (pt_bind_some (_ ≫= _)) by
      (rewrite (pt_bind_some _ _ _ _ _ (get_work_eq _ x s Hx)); reflexivity). done.
  - exists []. split; [|auto]. rewrite (pt_bind_some (mret tt) _ _ tt _ eq_refl), app_nil_r. by destruct s.
Qed.

(** A reference that is not the last. *)
Lemma finish_not_last w x s : v_works s !! w = Some x -> w_inflight x <> 1 ->
  blockio_check_finish w s = Some (tt, s <|v_works := <[w := x <|w_inflight := w_inflight x - 1|>]> (v_works s)|>).
Proof.
  intros Hx Hi. unfold blockio_check_finish. rewrite (pt_bind_some _ _ _ _ _ (get_work_eq _ _ _ Hx)). cbv zeta.
  rewrite (pt_bind_some (put_work _ _) _ _ tt _ eq_refl).
  replace (w_inflight (x <|w_inflight := w_inflight x - 1|>) =? 0) with false by (cbn; lia). done.
Qed.

(** The last reference of a read from an encrypted device. *)
Lemma finish_read w x a s : v_works s !! w = Some x -> w_inflight x = 1 -> v_aes s = true -> w_write x = false ->
  v_aesw s !! w_aes x = Some a ->
  blockio_check_finish w s = Some (tt, s <|v_works := delete w (v_works s)|> <|v_crypto := v_crypto s ++ [(blockio_read_cb, w)]|>
    <|v_log := v_log s ++ [BvAesSubmit (aw_src a) (aw_dst a) (aw_sg_cnt a) (aw_sg_size a); BvFreeWork w]|>).
Proof.
  intros Hx Hi Ea Hr Ha. unfold blockio_check_finish. rewrite (pt_bind_some _ _ _ _ _ (get_work_eq _ _ _ Hx)). cbv zeta.
  set (x' := x <|w_inflight := _|>). rewrite (pt_bind_some (put_work _ _) _ _ tt _ eq_refl). set (s1 := s <|v_works := _|>).
  assert (Hx1 : v_works s1 !! w = Some x') by apply lookup_insert_eq.
  replace (w_inflight x' =? 0) with true by (cbn; lia). rewrite (pt_bind_some (v_get v_aes) _ s1 _ s1 eq_refl).
  change (v_aes s1) with (v_aes s). rewrite Ea. cbn [x' w_write set_field set_w_inflight]. rewrite Hr. cbn [negb].
  assert (Es : blockio_aes_submit w s1 = Some (tt, s1 <|v_log := v_log s ++ [BvAesSubmit (aw_src a) (aw_dst a) (aw_sg_cnt a) (aw_sg_size a)]|>
    <|v_crypto := v_crypto s ++ [(blockio_read_cb, w)]|>)).
  { unfold blockio_aes_submit. rewrite (pt_bind_some _ _ _ _ _ (get_work_eq _ _ _ Hx1)). cbn [x' w_write w_aes set_field set_w_inflight].
    rewrite Hr, (pt_bind_some (mret _) _ _ _ _ eq_refl), (pt_bind_some _ _ _ _ _ (get_aesw_eq (w_aes x) a s1 Ha)). done. }
  rewrite (pt_bind_some _ _ _ _ _ Es), (free_work_eq _ x') by done. cbn. by rewrite delete_insert_eq, <- app_assoc.
Qed.

(** ** Executing a command *)

Lemma vlen_cut_all sh segs : Forall (seg_ok sh) segs -> vlen (cut_all segs) = vlen segs.
Proof.
  induction 1 as [|p segs (Hl & Ho & _) _ IH]; [done|]. change (cut_all (p :: segs)) with (cut_seg p ++ cut_all segs).
  rewrite vlen_app, IH. cbn. unfold cut_seg. by destruct (cut_ok (Z.to_nat (p_len p)) (p_page p) (p_len p) (p_off p)) as [-> _]; [lia..|].
Qed.

Lemma vlen_segs_pos sh segs : Forall (seg_ok sh) segs -> segs <> [] -> 0 < vlen segs.
Proof. intros H Hne. destruct H as [|p l [? _] Hs]; [done|]. pose proof (vlen_nonneg _ _ Hs). cbn. lia. Qed.

Section exec.
Context (bio_add_page : bio -> Z -> Z -> Z -> Z) `{!BlockLayer bio_add_page}.
Context (an : answers) (cmd lba block_shift : Z) (segs : list piece) (write fua meta : bool).

(** What a command that is started has become, with its bios and the pages that
    were allocated for it. *)
Record executed (bs : list bio) (ags : list Z) (s s' : vdisk) : Prop := {
  ex_chain : bios_ok (an_work an) fua meta (lba * 2 ^ block_shift) bs;
  ex_own : length ags = length (cut_all segs);
  ex_carry : bvecs bs = if v_aes s then on_pages ags (cut_all segs) else cut_all segs;
  ex_work : v_works s' = <[an_work an := mkWork (Z.of_nat (length bs) + (if v_aes s && write then 1 else 0)) cmd write
                             (if v_aes s then an_aes an else an_junk an)]> (v_works s);
  ex_aesw : v_aesw s' = if v_aes s
    then <[an_aes an := mkAesWork (an_work an) (if write then cut_all segs else on_pages ags (cut_all segs))
             (if write then on_pages ags (cut_all segs) else cut_all segs)
             (Z.of_nat (length (cut_all segs))) (vlen segs) (if write then bs else [])]> (v_aesw s)
    else v_aesw s;
  ex_bios : v_bios s' = v_bios s ++ (if v_aes s && write then [] else (write,.) <$> bs);
  ex_crypto : v_crypto s' = v_crypto s ++ (if v_aes s && write then [(blockio_write_cb, an_work an)] else []);
  ex_rest : v_aes s' = v_aes s /\ v_wq s' = v_wq s;
  ex_done : dones (v_log s') = dones (v_log s) ++ (if v_aes s && write then [cmd] else []);
}.

(** Enough memory for the command. *)
Record memory (s : vdisk) : Prop := {
  me_work : an_work an <> 0;
  me_aes : v_aes s = true -> an_aes an <> 0;
  me_bios : exists k rest, an_bios an = replicate k true ++ rest /\ (length (cut_all segs) <= k)%nat;
}.

Lemma on_pages_length ags ps : length ags = length ps -> length (on_pages ags ps) = length ps.
Proof. intros H. unfold on_pages. rewrite length_zip_with. lia. Qed.

Lemma exec_done s : exec_pre an lba block_shift segs s -> memory s -> segs <> [] ->
  exists bs ags s', blockio_exec_rw bio_add_page an cmd lba block_shift segs write fua meta s = Some (tt, s') /\
  executed bs ags s s' /\ bs <> [].
Proof using BlockLayer0.
  intros P [Hw Ha (k & rest & Hk & Hlen)] Hne. pose proof P as [Hsh Hs Hl Hz Ht Hf].
  destruct (exec_run bio_add_page an cmd lba block_shift segs write fua meta s _ P) as [_ R].
  destruct (R k rest Hw Ha Hk Hlen) as (x & E & _ & _ & [(ags & log & Hags & Ev & Es & Ed & El & Hpe & _) Ec Ez] & [C1 C2 _ C4]).
  rewrite (vlen_cut_all block_shift) in Ez by done. cbn in Ev, Es, Ed, El, Ec, Ez.
  destruct (silent_log log (page_silent log Hpe)) as (L1 & _).
  pose proof (vlen_segs_pos _ _ Hs Hne) as Hpos.
  assert (Hbs : x_hbio x <> []) by (intros E0; rewrite E0 in C2; change (vlen (bvecs [])) with 0 in C2; lia).
  assert (Hbios : 0 < x_bios x) by (rewrite C4; by destruct (x_hbio x)).
  rewrite E. unfold launch, built. cbn [v_aes set_field set_v_works set_v_aesw set_v_log]. destruct (v_aes s && write) eqn:Eaw.
  - apply andb_true_iff in Eaw as [Ea Ew]. rewrite Ea, Ew in *. cbn [v_aesw set_field set_v_aesw set_v_log]. rewrite lookup_insert_eq.
    unfold blockio_aes_submit. rewrite (pt_bind_some (get_work _) _ _ _ _ (get_work_eq _ _ _ (lookup_insert_eq _ _ _))).
    cbn [w_write w_cmd w_aes]. erewrite (pt_bind_some (_;; _)) by reflexivity.
    rewrite (pt_bind_some (get_aesw _) _ _ _ _ (get_aesw_eq _ _ _ (lookup_insert_eq _ _ _))).
    rewrite (pt_bind_some (v_note _) _ _ tt _ eq_refl). eexists (x_hbio x), ags, _. split; [reflexivity|]. split; [|done].
    split; cbn; rewrite ?Ea, ?Ew; cbn [andb]; try done.
    + by rewrite C4.
    + by rewrite insert_insert_eq, Es, Ed, Ec, Ez.
    + by rewrite app_nil_r.
    + unfold dones in *. rewrite El, !omap_app, L1. cbn. by rewrite !app_nil_r.
  - rewrite (finish_not_last _ _ _ (lookup_insert_eq _ _ _)) by (cbn; lia).
    eexists (x_hbio x), ags, _. split; [reflexivity|]. split; [|done]. split; cbn; rewrite ?Eaw; try done.
    + rewrite insert_insert_eq, C4. f_equal. unfold set_field, set_w_inflight. cbn. f_equal. lia.
    + destruct (v_aes s); [|done]. cbn in Eaw. subst write. by rewrite Es, Ed, Ec, Ez.
    + by rewrite app_nil_r.
    + unfold dones in *. by rewrite El, omap_app, L1.
Qed.

End exec.

(** Executing a command.  With enough memory, whatever number of pieces the
    block layer takes into a bio, the command is started: its bios carry the
    pieces of the buffer, cut at page boundaries, in order, each bio from the
    sector where the one before it ended; they are with the block layer, and the
    count of the work structure is their number.  On an encrypted device the bios
    carry pages of their own, and the scatter tables pair each of them with its
    piece of the buffer, from the buffer for a write and to it for a read; the
    bios of a write wait for the AES driver, one reference is held for it, and
    the command is answered at once. *)
Theorem vdisk_exec_cuts bio_add_page `{!BlockLayer bio_add_page} an cmd lba block_shift segs write fua meta s :
  exec_pre an lba block_shift segs s -> memory an segs s -> segs <> [] ->
  exists bs ags s', blockio_exec_rw bio_add_page an cmd lba block_shift segs write fua meta s = Some (tt, s') /\
  executed an cmd lba block_shift segs write fua meta bs ags s s' /\ bs <> [].
Proof. by apply exec_done. Qed.

Lemma ex_memory aes : memory ex_an ex_segs (idle aes).
Proof. split; [done|done|]. exists 3%nat, []. split; [done|vm_compute; lia]. Qed.

Lemma vdisk_exec_cuts_witness : exists bs ags s',
  blockio_exec_rw two_vecs ex_an 7 8 9 ex_segs true false false (idle true) = Some (tt, s') /\
  executed ex_an 7 8 9 ex_segs true false false bs ags (idle true) s' /\ bs <> [].
Proof. apply (vdisk_exec_cuts two_vecs ex_an 7 8 9 ex_segs true false false (idle true)); [apply ex_pre|apply ex_memory|done]. Defined.

(** ** Reads from an encrypted device *)

(** Bios that end one after the other, each with its result. *)
Fixpoint bios_end (wr : bool) (es : list (bio * bool * Z)) : PT vdisk unit :=
  match es with
  | [] => mret tt
  | (b, up, err) :: es => blockio_endio wr b up err;; bios_end wr es
  end.

Lemma errors_silent cmd wr log : log = [] \/ log = [BvError cmd wr] -> dones log = [].
Proof. by intros [-> | ->]. Qed.

Lemma reads_end wr w a es : forall x s, Forall (fun e => bi_private e.1.1 = w) es -> es <> [] ->
  v_works s !! w = Some x -> w_inflight x = Z.of_nat (length es) -> v_aes s = true -> w_write x = false ->
  v_aesw s !! w_aes x = Some a ->
  exists s', bios_end wr es s = Some (tt, s') /\ v_works s' = delete w (v_works s) /\ v_aesw s' = v_aesw s /\
  v_crypto s' = v_crypto s ++ [(blockio_read_cb, w)] /\ dones (v_log s') = dones (v_log s).
Proof.
  induction es as [|[[b up] err] es IH]; intros x s Hp Hne Hx Hi Ea Hr Ha; [done|]. apply Forall_cons in Hp as [Hb Hp].
  cbn [bios_end]. destruct (endio_eq wr b up err w x s Hx Hb) as (log & E & Hl). apply errors_silent in Hl.
  destruct es as [|e es].
  - rewrite (finish_read w x a) in E by done. rewrite (pt_bind_some _ _ _ _ _ E). cbn [bios_end].
    eexists. split; [reflexivity|]. cbn. split_and!; try done. unfold dones in *. rewrite !omap_app, Hl. cbn. by rewrite !app_nil_r.
  - cbn [length] in Hi. rewrite (finish_not_last w x) in E by (done || lia). rewrite (pt_bind_some _ _ _ _ _ E).
    set (x' := x <|w_inflight := _|>) in *. destruct (IH x' (s <|v_log := v_log s ++ log|> <|v_works := <[w := x']> (v_works s)|>)) as
      (s' & E' & H1 & H2 & H3 & H4); [done|done|apply lookup_insert_eq|cbn; lia|done|done|done|].
    exists s'. rewrite H1, H2, H3, H4. split; [exact E'|]. cbn. rewrite delete_insert_eq. split_and!; try done.
    unfold dones in *. by rewrite omap_app, Hl, app_nil_r.
Qed.

(** A read from an encrypted device never completes.  When its bios have all
    ended, in whatever order and with whatever results, the request has been
    passed to the AES driver with the work structure as the callback's argument,
    the work structure has been freed, and the command has not been answered; the
    callback of the request then uses the freed structure and has no result. *)
Theorem vdisk_read_use_after_free bio_add_page `{!BlockLayer bio_add_page} an cmd lba block_shift segs fua meta s :
  exec_pre an lba block_shift segs s -> memory an segs s -> segs <> [] -> v_aes s = true ->
  exists bs s1, blockio_exec_rw bio_add_page an cmd lba block_shift segs false fua meta s = Some (tt, s1) /\
  v_bios s1 = v_bios s ++ ((false,.) <$> bs) /\
  forall es, (fun e => e.1.1) <$> es ≡ₚ bs ->
  exists s2, bios_end false es s1 = Some (tt, s2) /\
  v_crypto s2 = v_crypto s ++ [(blockio_read_cb, an_work an)] /\ v_works s2 = v_works s /\
  v_works s2 !! an_work an = None /\ dones (v_log s2) = dones (v_log s) /\
  blockio_read_aes_cb (an_work an) (s2 <|v_crypto := v_crypto s|>) = None.
Proof.
  intros P M Hne Ea.
  destruct (exec_done bio_add_page an cmd lba block_shift segs false fua meta s P M Hne) as (bs & ags & s1 & E & X & Hbs).
  destruct X as [X1 X2 X3 X4 X5 X6 X7 [X8 X9] X10]. rewrite Ea in *. cbn [andb] in *. exists bs, s1. split; [done|]. split; [done|].
  intros es Hes. pose proof (bios_private _ _ _ _ _ X1) as Hp. rewrite <- Hes, Forall_fmap in Hp.
  assert (Hlen : length es = length bs) by (by rewrite <- Hes, length_fmap).
  edestruct (reads_end false (an_work an)) as (s2 & E2 & F1 & F2 & F3 & F4);
    [exact Hp|intros ->; by destruct bs|rewrite X4; apply lookup_insert_eq|cbn; lia|exact X8|done|rewrite X5; apply lookup_insert_eq|].
  assert (Hw : v_works s2 = v_works s) by (rewrite F1, X4, delete_insert_id; [done|apply (ep_fresh _ _ _ _ _ P)]).
  exists s2. rewrite F3, F4, X7, X10, !app_nil_r, Hw. rewrite (ep_fresh _ _ _ _ _ P). split_and!; try done.
  unfold blockio_read_aes_cb, mbind, pt_bind, get_work. cbn. by rewrite Hw, (ep_fresh _ _ _ _ _ P).
Qed.

Lemma vdisk_read_use_after_free_witness : exists bs s1,
  blockio_exec_rw two_vecs ex_an 7 8 9 ex_segs false false false (idle true) = Some (tt, s1) /\ length bs = 2%nat /\
  exists s2, bios_end false ((fun b => (b, true, 0)) <$> bs) s1 = Some (tt, s2) /\
  blockio_read_aes_cb 1000 (s2 <|v_crypto := []|>) = None.
Proof.
  destruct (vdisk_read_use_after_free two_vecs ex_an 7 8 9 ex_segs false false (idle true)) as (bs & s1 & E & Hb & H);
    [apply ex_pre|apply ex_memory|done|done|].
  exists bs, s1. split; [exact E|]. split.
  { apply (f_equal length) in Hb. rewrite length_app, length_fmap in Hb. cbn in Hb. rewrite <- Hb.
    vm_compute in E. injection E as <-. reflexivity. }
  destruct (H ((fun b => (b, true, 0)) <$> bs)) as (s2 & E2 & _ & _ & _ & _ & HN).
  { rewrite <- list_fmap_compose. by rewrite list_fmap_id. }
  exists s2. split; [exact E2|exact HN].
Defined.

(** ** Switching encryption *)

Lemma store_eq value count s : vdev_aes_enable_store value count s = Some (count, s <|v_aes := negb (value =? 0)|>).
Proof. done. Qed.

(** The last reference on a plain device. *)
Lemma finish_plain_eq w x s : v_works s !! w = Some x -> w_inflight x = 1 -> v_aes s = false ->
  blockio_check_finish w s = Some (tt, s <|v_works := delete w (v_works s)|>
    <|v_log := v_log s ++ [BvDone (w_cmd x); BvFreeWork w]|>).
Proof.
  intros Hx Hi Ea. unfold blockio_check_finish. rewrite (pt_bind_some _ _ _ _ _ (get_work_eq _ _ _ Hx)). cbv zeta.
  set (x' := x <|w_inflight := _|>). rewrite (pt_bind_some (put_work _ _) _ _ tt _ eq_refl). set (s1 := s <|v_works := _|>).
  replace (w_inflight x' =? 0) with true by (cbn; lia). rewrite (pt_bind_some (v_get v_aes) _ s1 _ s1 eq_refl).
  change (v_aes s1) with (v_aes s). rewrite Ea, (pt_bind_some (cmd_done _) _ _ tt _ eq_refl).
  rewrite (free_work_eq _ x') by apply lookup_insert_eq. cbn. by rewrite delete_insert_eq, <- app_assoc.
Qed.

(** The last reference of a command that was started on a plain device. *)
Lemma finish_junk w x s : v_works s !! w = Some x -> w_inflight x = 1 -> v_aes s = true -> v_aesw s !! w_aes x = None ->
  blockio_check_finish w s = None.
Proof.
  intros Hx Hi Ea Ha. unfold blockio_check_finish. rewrite (pt_bind_some _ _ _ _ _ (get_work_eq _ _ _ Hx)). cbv zeta.
  set (x' := x <|w_inflight := _|>). rewrite (pt_bind_some (put_work _ _) _ _ tt _ eq_refl). set (s1 := s <|v_works := _|>).
  assert (Hx1 : v_works s1 !! w = Some x') by apply lookup_insert_eq.
  replace (w_inflight x' =? 0) with true by (cbn; lia). rewrite (pt_bind_some (v_get v_aes) _ s1 _ s1 eq_refl).
  change (v_aes s1) with (v_aes s). rewrite Ea. destruct (w_write x') eqn:Ew; cbn [negb].
  - change (w_aes x') with (w_aes x). unfold aes_cleanup, mbind, pt_bind, get_aesw. cbn. by rewrite Ha.
  - unfold blockio_aes_submit, mbind, pt_bind, get_work, get_aesw. rewrite Hx1. cbn [mbind option_bind]. rewrite Ew.
    change (w_aes x') with (w_aes x). cbn. by rewrite Ha.
Qed.

(** The attribute is read when a command starts and again when it ends.  A
    command in flight on an encrypted device (its work structure holds one last
    reference) whose device is switched to plain is answered when its last bio
    ends, which for a write is the second time, without giving back the reference
    on the command and with its AES structure left behind; a command in flight on
    a plain device that is switched to encrypted ends with the use of an AES
    structure that it does not have. *)
Theorem vdisk_toggle_breaks s w x b wr up err count : v_works s !! w = Some x -> w_inflight x = 1 -> bi_private b = w ->
  (exists s1 s2, vdev_aes_enable_store 0 count s = Some (count, s1) /\ blockio_endio wr b up err s1 = Some (tt, s2) /\
     dones (v_log s2) = dones (v_log s) ++ [w_cmd x] /\ puts (v_log s2) = puts (v_log s) /\ v_aesw s2 = v_aesw s) /\
  (v_aesw s !! w_aes x = None ->
   exists s1, vdev_aes_enable_store 1 count s = Some (count, s1) /\ blockio_endio wr b up err s1 = None).
Proof.
  intros Hx Hi Hb. rewrite !store_eq. split.
  - set (s1 := s <|v_aes := _|>). destruct (endio_eq wr b up err w x s1 Hx Hb) as (log & E & Hl).
    rewrite (finish_plain_eq w x) in E by done. exists s1. eexists. split; [done|]. split; [exact E|].
    cbn [v_log v_aesw set_field set_v_log set_v_works s1 set_v_aes]. logs.
    destruct Hl as [-> | ->]; cbn; rewrite ?app_nil_r; done.
  - intros Ha. set (s1 := s <|v_aes := _|>). exists s1. split; [done|]. destruct (endio_eq wr b up err w x s1 Hx Hb) as (log & E & _).
    rewrite E. by eapply finish_junk.
Qed.

(** An encrypted write whose first bio has ended. *)
Definition ex_last : vdisk :=
  match v_bios ex_writing with
  | (wr, b) :: l => after (blockio_endio wr b true 0 (ex_writing <|v_bios := l|>))
  | [] => ex_writing
  end.

Definition ex_last_bio : bio := mkBio 24 [mkPiece 504 4096 0] false false 1000.

Lemma vdisk_toggle_breaks_witness : v_bios ex_last = [(true, ex_last_bio)] /\ dones (v_log ex_last) = [7] /\
  exists s1 s2, vdev_aes_enable_store 0 1 ex_last = Some (1, s1) /\ blockio_endio true ex_last_bio true 0 s1 = Some (tt, s2) /\
  dones (v_log s2) = [7; 7] /\ puts (v_log s2) = [].
Proof.
  split; [vm_compute; reflexivity|]. split; [vm_compute; reflexivity|].
  destruct (vdisk_toggle_breaks ex_last 1000 (mkWork 1 7 true 2000) ex_last_bio true true 0 1) as [(s1 & s2 & E1 & E2 & D & Q & _) _];
    [vm_compute; reflexivity|done|done|].
  exists s1, s2. split_and!; [exact E1|exact E2|rewrite D; vm_compute; reflexivity|rewrite Q; vm_compute; reflexivity].
Defined.
