(* ===== verification/VdiskLink.v ===== *)
(** * From a block device to the AES engine

    Writing to an encrypted device passes the scatter tables that
    [blockio_exec_rw] builds to [aes_submit].  The tables meet what the AES
    driver asks for, so that the composition of the two parts starts the
    request: one descriptor for each mapped entry on each ring, and the callback
    that submits the bios when the engine is done. *)

From S2P Require Import Prelude Kernel Hw Bd BdRing RingGeom RingSpec Dma DmaBuf AesDma AesProps AesThms AesFlow VdiskAes VdiskCut VdiskProps VdiskRun VdiskThms.

(** A piece of a page that is there. *)
Definition page_piece (p : piece) : Prop := p_page p <> 0 /\ 0 < p_len p <= PAGE_SIZE.

(** What [dma_map_sg] promises for a table of pieces of pages: it gives the
    number [k] of entries that it made, 0 when it failed, and the table with
    their addresses and lengths.  It may merge neighbours into one entry, up to
    the 64 KiB that are the largest segment of a device that does not ask for
    more; the first [k] entries then have the bytes of all, and what the others
    hold is not said.  An address is as aligned as the offsets in the pages. *)
Class DmaMap (dma_map_sg : list piece -> Z * sglist) : Prop := {
  dm_count : forall ps, 0 <= (dma_map_sg ps).1 <= zlen ps /\ length (dma_map_sg ps).2 = length ps;
  dm_bytes : forall ps, Forall page_piece ps -> 0 < (dma_map_sg ps).1 -> sg_bytes (ztake (dma_map_sg ps).1 (dma_map_sg ps).2) = vlen ps;
  dm_lens : forall ps, Forall page_piece ps ->
    Forall (fun s => 0 < sg_dma_len s <= 65536) (ztake (dma_map_sg ps).1 (dma_map_sg ps).2);
  dm_align : forall ps, Forall page_piece ps -> Forall (fun p => (512 | p_off p)) ps ->
    Forall (fun s => (512 | sg_dma_address s)) (ztake (dma_map_sg ps).1 (dma_map_sg ps).2);
}.

(** A ring with room for [k] pieces of pages, aligned to sectors. *)
Record ring_room (m : Mem) (r : XAxiDma_BdRing) (k n : Z) : Prop := {
  rr_n : 17 <= n <= 26;
  rr_max : MaxTransferLen r = Z.ones n;
  rr_free : k <= FreeCnt r;
  rr_align : forall i addr, (512 | addr) -> buf_ok m (bd_at r i) addr = true;
}.

(** ** Tables as scatter lists *)

(** A piece that the DMA engine can take. *)
Definition piece_ok512 (p : piece) : Prop := 0 < p_len p <= PAGE_SIZE /\ (512 | p_off p).

Lemma cut_pieces n : forall pg len off, 0 <= off < PAGE_SIZE -> (512 | off) -> Forall piece_ok512 (cut n pg len off).
Proof.
  unfold PAGE_SIZE in *. induction n as [|n IH]; intros pg len off Ho Hd; cbn [cut]; [constructor|].
  case_if; [constructor|]. constructor; [split; cbn; [unfold PAGE_SIZE; lia|done]|]. apply IH; [lia|apply Z.divide_0_r].
Qed.

Lemma cut_all_pieces sh segs : 9 <= sh -> Forall (seg_ok sh) segs -> Forall piece_ok512 (cut_all segs).
Proof.
  intros Hs. induction 1 as [|p segs (_ & Ho & Hd & _) _ IH]; [constructor|].
  change (cut_all (p :: segs)) with (cut_seg p ++ cut_all segs). apply Forall_app. split; [|done]. apply cut_pieces; [done|].
  eapply Z.divide_trans; [|exact Hd]. exists (2 ^ (sh - 9)). change 512 with (2 ^ 9). rewrite <- Z.pow_add_r by lia. f_equal. lia.
Qed.

Lemma on_pages_pieces ags : forall ps, length ags = length ps -> Forall piece_ok512 ps -> Forall piece_ok512 (on_pages ags ps).
Proof.
  induction ags as [|a ags IH]; intros [|p ps] E H; try done. apply Forall_cons in H as [Hp H]. constructor; [exact Hp|].
  apply IH; [by injection E|done].
Qed.

Lemma on_pages_vlen ags : forall ps, length ags = length ps -> vlen (on_pages ags ps) = vlen ps.
Proof. induction ags as [|a ags IH]; intros [|p ps] E; try done. cbn. f_equal. apply IH. by injection E. Qed.

(** A list cut off at its own size. *)
Lemma sg_cut_all l : sg_good l -> sg_cut l (sg_bytes l) = (fun s => (sg_dma_address s, sg_dma_len s)) <$> l.
Proof.
  induction 1 as [|s l Hs Hg IH]; [done|]. pose proof (sg_bytes_nonneg l Hg) as Hn. cbn [sg_cut fmap list_fmap].
  change (sg_bytes (s :: l)) with (sg_dma_len s + sg_bytes l). replace (_ <=? 0) with false by lia.
  rewrite Z.min_l by lia. f_equal. replace (sg_dma_len s + sg_bytes l - sg_dma_len s) with (sg_bytes l) by lia. exact IH.
Qed.

(** Only the entries that the request needs are looked at: what stands behind
    them in the table, and the count, do not matter. *)
Lemma cnt_update_prefix l1 l2 : sg_good l1 -> forall n sz, 0 < sz <= sg_bytes l1 -> (length l1 <= n)%nat ->
  sg_cnt_update (l1 ++ l2) n sz = sg_cnt_update l1 (length l1) sz.
Proof.
  induction 1 as [|s l Hs Hg IH]; intros n sz Hsz Hn; [cbn in Hsz; lia|]. destruct n as [|n]; [cbn in Hn; lia|].
  cbn [sg_cnt_update app length]. rewrite s32_small by lia. change (sg_bytes (s :: l)) with (sg_dma_len s + sg_bytes l) in Hsz.
  destruct (Z.eqb_spec (sz - Z.min (sg_dma_len s) sz) 0); [done|]. rewrite IH; [done|lia|cbn in Hn; lia].
Qed.

Lemma sg_init_prefix alloc buf l1 l2 cnt sz : sg_good l1 -> 0 < sz <= sg_bytes l1 -> zlen l1 <= cnt ->
  dma_buf_sg_init alloc buf (l1 ++ l2) cnt sz = dma_buf_sg_init alloc buf l1 (zlen l1) sz.
Proof.
  intros Hg Hsz Hc. unfold dma_buf_sg_init, zlen in *. rewrite Nat2Z.id.
  rewrite cnt_update_prefix by (done || lia). do 2 f_equal.
  rewrite sg_cnt_update_cut by (done || lia). pose proof (sg_cut_length (take (length l1) l1) sz) as Hl.
  rewrite length_take in Hl. unfold zlen. rewrite Nat2Z.id. by rewrite take_app_le by lia.
Qed.

(** A submission depends on its tables only through [dma_buf_sg_init]. *)
Lemma submit_tables {D} `{!RegBus D} HZ ru dma ms md fresh src1 scnt1 src2 scnt2 ssz dst1 dcnt1 dst2 dcnt2 dsz cb priv (d : Drv D) :
  (forall buf, dma_buf_sg_init true buf src1 scnt1 ssz = dma_buf_sg_init true buf src2 scnt2 ssz) ->
  (forall buf, dma_buf_sg_init true buf dst1 dcnt1 dsz = dma_buf_sg_init true buf dst2 dcnt2 dsz) ->
  aes_submit HZ ru (Some dma) ms md fresh true true src1 scnt1 ssz dst1 dcnt1 dsz cb priv d =
  aes_submit HZ ru (Some dma) ms md fresh true true src2 scnt2 ssz dst2 dcnt2 dsz cb priv d.
Proof.
  intros E1 E2. unfold aes_submit. destruct (ms =? 0); [done|]. destruct (md =? 0); [done|].
  unfold mbind, pt_bind. destruct (aes_alloc_desc fresh dma d) as [[sw d1]|]; [|done].
  destruct (get_desc sw d1) as [[s d2]|]; [|done]. by rewrite E1, E2.
Qed.

Section table.
Context (dma_map_sg : list piece -> Z * sglist) `{!DmaMap dma_map_sg}.

Lemma vlen_pos ps : Forall piece_ok512 ps -> ps <> [] -> 0 < vlen ps.
Proof.
  intros H Hne. destruct H as [|p ps [Hp _] H]; [done|]. cbn. enough (0 <= vlen ps) by lia. clear - H.
  induction H as [|p ps [Hp _] _ IH]; cbn; lia.
Qed.

(** The entries that the mapping made, as the driver finds them. *)
Record mapped (ps : list piece) (k : Z) (l : sglist) : Prop := {
  mp_good : sg_good (ztake k l);
  mp_len : zlen (ztake k l) = k;
  mp_bytes : 0 < vlen ps <= sg_bytes (ztake k l);
  mp_cut : zlen (sg_cut (ztake k l) (vlen ps)) = k;
  mp_init : forall alloc buf, dma_buf_sg_init alloc buf l (zlen ps) (vlen ps) = dma_buf_sg_init alloc buf (ztake k l) k (vlen ps);
}.

Lemma page_pieces ps : Forall piece_ok512 ps -> Forall (fun p => p_page p <> 0) ps -> Forall page_piece ps.
Proof. intros H1 H2. eapply Forall_impl; [apply Forall_and; split; [exact H1|exact H2]|]. by intros p [[? _] ?]. Qed.

Lemma table_mapped ps : Forall piece_ok512 ps -> Forall (fun p => p_page p <> 0) ps -> ps <> [] -> 0 < (dma_map_sg ps).1 ->
  mapped ps (dma_map_sg ps).1 (dma_map_sg ps).2.
Proof using DmaMap0.
  intros Hp H0 Hne Hk. destruct (dm_count ps) as [Hle Hlen]. pose proof (vlen_pos ps Hp Hne) as Hv.
  pose proof (page_pieces ps Hp H0) as Hl. pose proof (dm_bytes ps Hl Hk) as Hb.
  pose proof (dm_lens ps Hl) as Hs. set (k := (dma_map_sg ps).1) in *. set (l := (dma_map_sg ps).2) in *.
  assert (Hg : sg_good (ztake k l)) by (eapply Forall_impl; [exact Hs|]; cbn; lia).
  assert (Ez : zlen (ztake k l) = k) by (unfold zlen, ztake in *; rewrite length_take; lia).
  split; [done|done|lia| |].
  - rewrite <- Hb, sg_cut_all by done. unfold zlen in *. by rewrite length_fmap.
  - intros alloc buf. rewrite <- (take_drop (Z.to_nat k) l) at 1. fold (ztake k l).
    rewrite sg_init_prefix; [by rewrite Ez|done|lia..].
Qed.

(** A table fits a ring that has room for its pieces. *)
Lemma table_fits m r n ps : Forall piece_ok512 ps -> Forall (fun p => p_page p <> 0) ps -> ps <> [] -> 0 < (dma_map_sg ps).1 -> ring_room m r (zlen ps) n ->
  buf_fits m r n (dma_buf_sg_init true dma_buf_zero (ztake (dma_map_sg ps).1 (dma_map_sg ps).2) (dma_map_sg ps).1 (vlen ps)).2.
Proof using DmaMap0.
  intros Hp H0 Hne Hk [Hn Hmax Hfree Hal]. destruct (table_mapped ps Hp H0 Hne Hk) as [Hg Hz Hb Hc _].
  destruct (dm_count ps) as [Hle _].
  pose proof (page_pieces ps Hp H0) as Hl.
  assert (Ho : Forall (fun p => (512 | p_off p)) ps) by (eapply Forall_impl; [exact Hp|]; by intros p []).
  pose proof (dm_lens ps Hl) as Hs. pose proof (dm_align ps Hl Ho) as Ha. pose proof (dm_bytes ps Hl Hk) as Hbs.
  set (k := (dma_map_sg ps).1) in *. set (l := ztake k (dma_map_sg ps).2) in *.
  assert (Et : take (Z.to_nat k) l = l) by (apply take_ge; unfold zlen in Hz; lia).
  destruct (sg_init_segs dma_buf_zero l k (vlen ps) Hg ltac:(lia) ltac:(by rewrite Et)) as [Es Ecnt].
  rewrite Et in Es, Ecnt. split; rewrite ?Es, ?Ecnt; try done; try lia.
  rewrite <- Hbs, sg_cut_all by done. intros i seg (s & -> & Hin)%list_elem_of_fmap.
  pose proof (proj1 (Forall_forall _ _) Hs s Hin) as Hlen. split; cbn; [|by apply Hal, (proj1 (Forall_forall _ _) Ha)].
  rewrite Z.ones_equiv. assert (2 ^ 17 <= 2 ^ n) by (apply Z.pow_le_mono_r; lia). cbn in Hlen. lia.
Qed.

End table.

(** ** A write and its request *)

(** A consistent AES device that has a descriptor and room for [k] pieces on
    both rings; [sw] is the descriptor that the request will get. *)
Record aes_ready {D} `{!RegBus D} (d : Drv D) (dma : Z) (dv : aes_dev) (fresh : option Z) (sw k : Z) : Prop := {
  ar_inv : aes_inv dma dv d;
  ar_desc : obtained dv fresh = Some sw;
  ar_u32 : is_u32 sw;
  ar_new : desc_head dv = [] -> d_descs d !! sw = None;
  ar_room : forall ch, exists n, ring_room (w_mem (d_w d)) (get_ring ch dv) k n;
}.

(** C36: an encrypted write from the block device to the engine.  The command
    becomes a work structure that waits for the AES driver, with tables of the
    same number of pieces and bytes.  However [dma_map_sg] merges the pieces, as
    long as it does not fail and the pages are there: given to [aes_submit] of a device that has room for
    the pieces the tables are accepted, the device stays consistent, each ring
    gets one descriptor for each entry that the mapping made, the request holds
    one reference for each of them, its completion calls back with the work
    structure, and that call finds the structures it needs. *)
Theorem vdisk_write_encrypted bio_add_page `{!BlockLayer bio_add_page} dma_map_sg `{!DmaMap dma_map_sg} {D} `{!RegBus D}
  an cmd lba block_shift segs fua meta s HZ ru (d : Drv D) dma dv fresh sw cb :
  exec_pre an lba block_shift segs s -> memory an segs s -> segs <> [] -> v_aes s = true ->
  aes_ready d dma dv fresh sw (zlen (cut_all segs)) -> cb <> 0 ->
  exists s' aw, blockio_exec_rw bio_add_page an cmd lba block_shift segs true fua meta s = Some (tt, s') /\
  v_crypto s' = v_crypto s ++ [(blockio_write_cb, an_work an)] /\ v_aesw s' !! an_aes an = Some aw /\
  length (aw_src aw) = length (aw_dst aw) /\ vlen (aw_src aw) = vlen segs /\ vlen (aw_dst aw) = vlen segs /\
  is_Some (blockio_write_aes_cb (an_work an) s') /\
  let '(ms, src) := dma_map_sg (aw_src aw) in
  let '(md, dst) := dma_map_sg (aw_dst aw) in
  (Forall (fun p => p_page p <> 0) (aw_src aw ++ aw_dst aw) -> 0 < ms -> 0 < md ->
  exists d' dv' x, aes_submit HZ ru (Some dma) ms md fresh true true
    src (aw_sg_cnt aw) (aw_sg_size aw) dst (aw_sg_cnt aw) (aw_sg_size aw) cb (an_work an) d = Some (0, d') /\
  aes_inv dma dv' d' /\ d_log d' = d_log d /\ d_descs d' !! sw = Some x /\ d_kref x = ms + md /\
  hw_ids dv' d' ChTx = hw_ids dv d ChTx ++ replicate (Z.to_nat ms) sw /\
  hw_ids dv' d' ChRx = hw_ids dv d ChRx ++ replicate (Z.to_nat md) sw /\
  EvCallback cb (an_work an) ∈ info d' sw).
Proof.
  intros P M Hne Ea [Ainv Adesc Au Anew Aroom] Hcb.
  destruct (exec_done bio_add_page an cmd lba block_shift segs true fua meta s P M Hne) as (bs & ags & s' & E & X & Hbs).
  destruct X as [_ X2 X3 X4 X5 _ X7 _ _]. rewrite Ea in *. cbn [andb] in *. set (ps := cut_all segs) in *.
  pose proof (cut_all_pieces block_shift segs (proj1 (ep_shift _ _ _ _ _ P)) (ep_segs _ _ _ _ _ P)) as Hps. fold ps in Hps.
  pose proof (on_pages_pieces ags ps X2 Hps) as Hds. pose proof (vlen_cut_all block_shift segs (ep_segs _ _ _ _ _ P)) as Hv. fold ps in Hv.
  pose proof (on_pages_vlen ags ps X2) as Hvd. pose proof (on_pages_length ags ps X2) as Hld.
  assert (Hpn : ps <> []).
  { intros E0. rewrite E0 in Hv. pose proof (vlen_segs_pos _ _ (ep_segs _ _ _ _ _ P) Hne) as H0. cbn in Hv. lia. }
  eexists s', _. split; [exact E|]. split; [exact X7|]. split; [rewrite X5; apply lookup_insert_eq|]. cbn [aw_src aw_dst aw_sg_cnt aw_sg_size].
  split; [done|]. split; [done|]. split; [by rewrite Hvd|]. split.
  { unfold blockio_write_aes_cb. erewrite pt_bind_some by (apply get_work_eq; rewrite X4; apply lookup_insert_eq).
    erewrite pt_bind_some by (apply get_aesw_eq; rewrite X5; apply lookup_insert_eq). done. }
  assert (Ed : zlen (on_pages ags ps) = zlen ps) by (unfold zlen; by rewrite Hld). fold (zlen ps).
  assert (Hdn : on_pages ags ps <> []) by (intros E0; rewrite E0 in Hld; by destruct ps).
  destruct (Aroom ChTx) as [ns Rs]. destruct (Aroom ChRx) as [nd Rd]. rewrite <- Ed in Rd.
  pose proof (fun H0 => table_mapped dma_map_sg ps Hps H0 Hpn) as M1. pose proof (fun H0 => table_mapped dma_map_sg _ Hds H0 Hdn) as M2.
  pose proof (fun H0 H => table_fits dma_map_sg _ _ _ ps Hps H0 Hpn H Rs) as F1.
  pose proof (fun H0 H => table_fits dma_map_sg _ _ _ _ Hds H0 Hdn H Rd) as F2.
  destruct (dma_map_sg ps) as [ms src]. destruct (dma_map_sg (on_pages ags ps)) as [md dst]. cbn [fst snd] in *.
  intros [N1 N2]%Forall_app Hms Hmd. destruct (M1 N1 Hms) as [G1 Z1 B1 C1 I1]. destruct (M2 N2 Hmd) as [G2 Z2 B2 C2 I2].
  specialize (F1 N1 Hms). specialize (F2 N2 Hmd).
  rewrite Hvd, Hv in B2, C2, I2, F2. rewrite Hv in B1, C1, I1, F1. rewrite Ed in I2.
  assert (T1 : take (Z.to_nat ms) (ztake ms src) = ztake ms src) by (apply take_ge; unfold zlen in Z1; lia).
  assert (T2 : take (Z.to_nat md) (ztake md dst) = ztake md dst) by (apply take_ge; unfold zlen in Z2; lia).
  destruct (submit_api_run HZ ru d dma dv fresh sw ms md (ztake ms src) ms (vlen segs) (ztake md dst) md (vlen segs)
    cb (an_work an) ns nd Ainv Adesc Au Anew ltac:(lia) ltac:(lia) F1 F2 G1 ltac:(lia) ltac:(by rewrite T1) G2 ltac:(lia) ltac:(by rewrite T2))
    as (d' & dv' & x & R1 & R2 & R3 & R4 & R5 & R6 & R7 & _ & _ & R8).
  exists d', dv', x. rewrite T1, T2 in *.
  split; [rewrite <- R1; by apply submit_tables|].
  split; [done|]. split; [done|]. split; [done|]. split; [lia|].
  split; [rewrite R6; do 2 f_equal; unfold zlen in C1; lia|]. split; [rewrite R7; do 2 f_equal; unfold zlen in C2; lia|auto].
Qed.

(** Pages mapped where they are. *)
Definition flat (p : piece) : sg_ent := mkSg (p_page p * 4096 + p_off p) (p_len p).

Definition flat_map (ps : list piece) : Z * sglist := (zlen ps, flat <$> ps).

Lemma flat_map_all ps : ztake (flat_map ps).1 (flat_map ps).2 = flat <$> ps.
Proof. apply take_ge. unfold flat_map, zlen. cbn [fst snd]. rewrite length_fmap. lia. Qed.

#[export] Instance flat_dma : DmaMap flat_map.
Proof.
  split.
  - intros ps. cbn. rewrite length_fmap. unfold zlen. lia.
  - intros ps _ _. rewrite flat_map_all. induction ps as [|p ps IH]; [done|]. cbn. f_equal. exact IH.
  - intros ps H. rewrite flat_map_all. apply Forall_fmap. eapply Forall_impl; [exact H|]. unfold page_piece, PAGE_SIZE. cbn. lia.
  - intros ps _ H. rewrite flat_map_all. apply Forall_fmap. eapply Forall_impl; [exact H|]. intros p Hp. cbn.
    apply Z.divide_add_r; [|done]. apply Z.divide_mul_r. by exists 8.
Qed.

Lemma sector_aligned addr : (512 | addr) -> tst addr 3 = false.
Proof.
  intros [q ->]. unfold tst. change 3 with (Z.ones 2). rewrite Z.land_ones by lia.
  replace (q * 512) with (q * 128 * 2 ^ 2) by lia. by rewrite Z.mod_mul.
Qed.

Lemma ex_room ch : ring_room (w_mem (d_w ex_drv)) (get_ring ch ex_dev) 3 23.
Proof.
  split; [lia|by destruct ch|destruct ch; vm_compute; discriminate|]. intros i addr Hd. revert i. destruct (ex_wf ch) as [G _].
  assert (H : forall bd, XAxiDma_BdRead (w_mem (d_w ex_drv)) bd XAXIDMA_BD_HAS_DRE_OFFSET .& XAXIDMA_BD_WORDLEN_MASK = 4 ->
    buf_ok (w_mem (d_w ex_drv)) bd addr = true).
  { intros bd E. unfold buf_ok. rewrite E. change (u32 (4 - 1)) with 3. by rewrite sector_aligned. }
  apply (ring_of_four _ G (fun bd => buf_ok (w_mem (d_w ex_drv)) bd addr = true)); [by destruct ch|..];
    apply H; destruct ch; vm_compute; reflexivity.
Qed.

Lemma ex_ready : aes_ready ex_drv 0xD000 ex_dev (Some 0xB000) 0xB000 (zlen (cut_all ex_segs)).
Proof. split; [exact ex_inv|done|unfold is_u32; lia|done|]. intros ch. exists 23. exact (ex_room ch). Qed.

Lemma vdisk_write_encrypted_witness : exists aw d' x,
  v_aesw ex_started !! 2000 = Some aw /\
  aes_submit 100 (fun j => j) (Some 0xD000) 3 3 (Some 0xB000) true true
    (flat <$> aw_src aw) (aw_sg_cnt aw) (aw_sg_size aw) (flat <$> aw_dst aw) (aw_sg_cnt aw) (aw_sg_size aw)
    7 1000 ex_drv = Some (0, d') /\ d_descs d' !! 0xB000 = Some x /\ d_kref x = 6.
Proof.
  destruct (vdisk_write_encrypted two_vecs flat_map ex_an 7 8 9 ex_segs false false (idle true) 100 (fun j => j) ex_drv 0xD000 ex_dev
    (Some 0xB000) 0xB000 7 (ex_pre true) (ex_memory true) ltac:(discriminate) eq_refl ex_ready ltac:(lia))
    as (s' & aw & E & _ & Ha & _ & _ & _ & _ & H).
  assert (Es : ex_started = s') by (unfold ex_started; by rewrite E).
  assert (En : (fun aw => (zlen (aw_src aw), zlen (aw_dst aw), p_page <$> aw_src aw ++ aw_dst aw)) <$> v_aesw ex_started !! 2000 =
    Some (3, 3, [100; 101; 102; 501; 502; 504])) by (vm_compute; reflexivity).
  rewrite Es in En. change 2000 with (an_aes ex_an) in En. rewrite Ha in En.
  cbn [fmap option_fmap option_map] in En. injection En as En1 En2 En3. unfold flat_map in H. rewrite En1, En2 in H.
  destruct (H ltac:(apply Forall_fmap with (f := p_page) (P := fun q => q <> 0); rewrite En3; repeat constructor; lia) ltac:(lia) ltac:(lia))
    as (d' & dv' & x & Ed & _ & _ & Hx & Hk & _).
  exists aw, d', x. split; [rewrite Es; exact Ha|]. split; [exact Ed|]. split; [exact Hx|exact Hk].
Defined.
