(* ===== verification/Fips197.v ===== *)
(** * The AES block cipher as the standard defines it

    FIPS-197 as a reference for the software model of the card's AES core: the
    field, the S-box as inversion and affine map, the four transformations of
    the state, the key schedule and the cipher.  A state and a key schedule are
    made of columns of four bytes. *)

From S2P Require Import Prelude.

(** ** The field of bytes *)

(** Multiplication by [x] modulo [x^8 + x^4 + x^3 + x + 1]. *)
Definition xtime (b : Z) : Z := let d := 2 * b in if d <? 256 then d else Z.lxor d 0x11B.

Fixpoint gmul_bits (n : nat) (a b : Z) : Z :=
  match n with
  | O => 0
  | S n => Z.lxor (if Z.odd b then a else 0) (gmul_bits n (xtime a) (b / 2))
  end.

Definition gmul (a b : Z) : Z := gmul_bits 8 a b.

Fixpoint gpow (a : Z) (n : nat) : Z := match n with O => 1 | S n => gmul a (gpow a n) end.

(** The inverse, and [0] for [0]. *)
Definition ginv (a : Z) : Z := gpow a 254.

(** The affine map, bit by bit. *)
Definition affine (b : Z) : Z :=
  foldr (fun i acc => (if xorb (Z.testbit b i) (xorb (Z.testbit b ((i + 4) mod 8)) (xorb (Z.testbit b ((i + 5) mod 8))
                             (xorb (Z.testbit b ((i + 6) mod 8)) (xorb (Z.testbit b ((i + 7) mod 8)) (Z.testbit 0x63 i)))))
                       then 2 ^ i else 0) + acc) 0 [0; 1; 2; 3; 4; 5; 6; 7].

Definition sbox (b : Z) : Z := affine (ginv b).

(** ** Columns and states *)

Record column : Type := mkCol { y0 : Z; y1 : Z; y2 : Z; y3 : Z }.
Record block : Type := mkBlock { x0 : column; x1 : column; x2 : column; x3 : column }.

Definition cxor (a b : column) : column :=
  mkCol (Z.lxor (y0 a) (y0 b)) (Z.lxor (y1 a) (y1 b)) (Z.lxor (y2 a) (y2 b)) (Z.lxor (y3 a) (y3 b)).

Definition SubWord (c : column) : column := mkCol (sbox (y0 c)) (sbox (y1 c)) (sbox (y2 c)) (sbox (y3 c)).
Definition RotWord (c : column) : column := mkCol (y1 c) (y2 c) (y3 c) (y0 c).

Definition SubBytes (s : block) : block := mkBlock (SubWord (x0 s)) (SubWord (x1 s)) (SubWord (x2 s)) (SubWord (x3 s)).

(** Row [r] is shifted by [r] columns. *)
Definition ShiftRows (s : block) : block :=
  mkBlock (mkCol (y0 (x0 s)) (y1 (x1 s)) (y2 (x2 s)) (y3 (x3 s)))
          (mkCol (y0 (x1 s)) (y1 (x2 s)) (y2 (x3 s)) (y3 (x0 s)))
          (mkCol (y0 (x2 s)) (y1 (x3 s)) (y2 (x0 s)) (y3 (x1 s)))
          (mkCol (y0 (x3 s)) (y1 (x0 s)) (y2 (x1 s)) (y3 (x2 s))).

Definition xor4 (a b c d : Z) : Z := Z.lxor a (Z.lxor b (Z.lxor c d)).

Definition MixColumn (c : column) : column :=
  mkCol (xor4 (gmul 2 (y0 c)) (gmul 3 (y1 c)) (y2 c) (y3 c))
        (xor4 (y0 c) (gmul 2 (y1 c)) (gmul 3 (y2 c)) (y3 c))
        (xor4 (y0 c) (y1 c) (gmul 2 (y2 c)) (gmul 3 (y3 c)))
        (xor4 (gmul 3 (y0 c)) (y1 c) (y2 c) (gmul 2 (y3 c))).

Definition MixColumns (s : block) : block :=
  mkBlock (MixColumn (x0 s)) (MixColumn (x1 s)) (MixColumn (x2 s)) (MixColumn (x3 s)).

Definition AddRoundKey (s k : block) : block :=
  mkBlock (cxor (x0 s) (x0 k)) (cxor (x1 s) (x1 k)) (cxor (x2 s) (x2 k)) (cxor (x3 s) (x3 k)).

(** ** The key schedule *)

Definition zero_col : column := mkCol 0 0 0 0.

Fixpoint rcon_byte (n : nat) : Z := match n with O => 1 | S n => xtime (rcon_byte n) end.

(** [Rcon[i]], from [i = 1] on. *)
Definition Rcon (i : nat) : column := mkCol (rcon_byte (i - 1)) 0 0 0.

(** What word [i] adds to the word [Nk] places before it, from the last word. *)
Definition key_temp (Nk i : nat) (temp : column) : column :=
  if (i mod Nk =? 0)%nat then cxor (SubWord (RotWord temp)) (Rcon (i / Nk))
  else if (6 <? Nk)%nat && (i mod Nk =? 4)%nat then SubWord temp
  else temp.

(** [n] words after the key. *)
Fixpoint KeyExpansion (Nk : nat) (key : list column) (n : nat) : list column :=
  match n with
  | O => key
  | S n =>
      let w := KeyExpansion Nk key n in
      let i := (Nk + n)%nat in
      w ++ [cxor (nth (i - Nk) w zero_col) (key_temp Nk i (nth (i - 1) w zero_col))]
  end.

(** ** The cipher *)

Section cipher.
Context (w : nat -> column).

Definition round_key (r : nat) : block := mkBlock (w (4 * r)) (w (4 * r + 1)) (w (4 * r + 2)) (w (4 * r + 3)).

(** The state after [r] full rounds. *)
Fixpoint rounds (r : nat) (input : block) : block :=
  match r with
  | O => AddRoundKey input (round_key 0)
  | S r' => AddRoundKey (MixColumns (ShiftRows (SubBytes (rounds r' input)))) (round_key r)
  end.

Definition Cipher (Nr : nat) (input : block) : block :=
  AddRoundKey (ShiftRows (SubBytes (rounds (Nr - 1) input))) (round_key Nr).

End cipher.

(** The cipher under a key of [Nk] words, with [Nk + 6] rounds. *)
Definition AES (Nk : nat) (key : list column) (input : block) : block :=
  let w := KeyExpansion Nk key (4 * (Nk + 7) - Nk) in
  Cipher (fun i => nth i w zero_col) (Nk + 6) input.

(** ** The vectors of the standard *)

Definition cols (l : list Z) : list column :=
  (fix go n l := match n, l with S n, a :: b :: c :: d :: l => mkCol a b c d :: go n l | _, _ => [] end) (length l) l.

Definition to_block (l : list column) : block :=
  mkBlock (nth 0 l zero_col) (nth 1 l zero_col) (nth 2 l zero_col) (nth 3 l zero_col).

Definition fips_input : block := to_block (cols ((fun i => 0x11 * Z.of_nat i) <$> seq 0 16)).
Definition fips_key (Nk : nat) : list column := cols (Z.of_nat <$> seq 0 (4 * Nk)).

Example fips197_c1 : AES 4 (fips_key 4) fips_input = to_block (cols
  [0x69; 0xc4; 0xe0; 0xd8; 0x6a; 0x7b; 0x04; 0x30; 0xd8; 0xcd; 0xb7; 0x80; 0x70; 0xb4; 0xc5; 0x5a]).
Proof. vm_compute. reflexivity. Qed.

Example fips197_c2 : AES 6 (fips_key 6) fips_input = to_block (cols
  [0xdd; 0xa9; 0x7c; 0xa4; 0x86; 0x4c; 0xdf; 0xe0; 0x6e; 0xaf; 0x70; 0xa0; 0xec; 0x0d; 0x71; 0x91]).
Proof. vm_compute. reflexivity. Qed.

Example fips197_c3 : AES 8 (fips_key 8) fips_input = to_block (cols
  [0x8e; 0xa2; 0xb7; 0xca; 0x51; 0x67; 0x45; 0xbf; 0xea; 0xfc; 0x49; 0x90; 0x4b; 0x49; 0x60; 0x89]).
Proof. vm_compute. reflexivity. Qed.

(** ** The schedule as a recurrence *)

Lemma KeyExpansion_length Nk key n : length (KeyExpansion Nk key n) = (length key + n)%nat.
Proof. induction n as [|n IH]; cbn; [lia|]. rewrite length_app, IH. cbn. lia. Qed.

Lemma KeyExpansion_step Nk key n i : length key = Nk -> (Nk <> 0)%nat -> (Nk <= i < Nk + n)%nat ->
  let w := KeyExpansion Nk key n in
  nth i w zero_col = cxor (nth (i - Nk) w zero_col) (key_temp Nk i (nth (i - 1) w zero_col)).
Proof.
  intros Hk H0. induction n as [|n IH]; intros Hi; [lia|]. cbn [KeyExpansion]. cbv zeta.
  set (w := KeyExpansion Nk key n) in *. assert (Hl : length w = (Nk + n)%nat) by (unfold w; rewrite KeyExpansion_length; lia).
  rewrite (app_nth1 w _ _ (n := (i - Nk)%nat)) by lia. rewrite (app_nth1 w _ _ (n := (i - 1)%nat)) by lia.
  destruct (decide (i = (Nk + n)%nat)) as [->|Hne].
  - rewrite app_nth2 by lia. by replace (Nk + n - length w)%nat with 0%nat by lia.
  - rewrite app_nth1 by lia. apply IH. lia.
Qed.

Lemma KeyExpansion_key Nk key n i : (i < length key)%nat -> nth i (KeyExpansion Nk key n) zero_col = nth i key zero_col.
Proof.
  intros Hi. induction n as [|n IH]; [done|]. cbn [KeyExpansion]. cbv zeta. rewrite app_nth1; [done|].
  rewrite KeyExpansion_length. lia.
Qed.
