(* ===== verification/AesGold.v ===== *)
(** * The software model of the AES core

    Models [tb/dma/aes.c] with the table of [tb/dma/sbox.h]: the table-driven
    encryption with which the test bench of the card compares what the AES core
    wrote.  Words are 32-bit integers; where the code looks at a word through a
    pointer to bytes, byte [i] is bits [8 i] to [8 i + 7], as on the little-endian
    hosts of the test bench. *)

From S2P Require Import Prelude.

Definition table_0 : list Z :=
  [99; 99; 165; 198; 124; 124; 132; 248; 119; 119; 153; 238; 123; 123; 141; 246; 242; 242; 13; 255; 107; 107; 189; 214;
   111; 111; 177; 222; 197; 197; 84; 145; 48; 48; 80; 96; 1; 1; 3; 2; 103; 103; 169; 206; 43; 43; 125; 86;
   254; 254; 25; 231; 215; 215; 98; 181; 171; 171; 230; 77; 118; 118; 154; 236; 202; 202; 69; 143; 130; 130; 157; 31;
   201; 201; 64; 137; 125; 125; 135; 250; 250; 250; 21; 239; 89; 89; 235; 178; 71; 71; 201; 142; 240; 240; 11; 251;
   173; 173; 236; 65; 212; 212; 103; 179; 162; 162; 253; 95; 175; 175; 234; 69; 156; 156; 191; 35; 164; 164; 247; 83;
   114; 114; 150; 228; 192; 192; 91; 155; 183; 183; 194; 117; 253; 253; 28; 225; 147; 147; 174; 61; 38; 38; 106; 76;
   54; 54; 90; 108; 63; 63; 65; 126; 247; 247; 2; 245; 204; 204; 79; 131; 52; 52; 92; 104; 165; 165; 244; 81;
   229; 229; 52; 209; 241; 241; 8; 249; 113; 113; 147; 226; 216; 216; 115; 171; 49; 49; 83; 98; 21; 21; 63; 42;
   4; 4; 12; 8; 199; 199; 82; 149; 35; 35; 101; 70; 195; 195; 94; 157; 24; 24; 40; 48; 150; 150; 161; 55;
   5; 5; 15; 10; 154; 154; 181; 47; 7; 7; 9; 14; 18; 18; 54; 36; 128; 128; 155; 27; 226; 226; 61; 223;
   235; 235; 38; 205; 39; 39; 105; 78; 178; 178; 205; 127; 117; 117; 159; 234; 9; 9; 27; 18; 131; 131; 158; 29;
   44; 44; 116; 88; 26; 26; 46; 52; 27; 27; 45; 54; 110; 110; 178; 220; 90; 90; 238; 180; 160; 160; 251; 91;
   82; 82; 246; 164; 59; 59; 77; 118; 214; 214; 97; 183; 179; 179; 206; 125; 41; 41; 123; 82; 227; 227; 62; 221;
   47; 47; 113; 94; 132; 132; 151; 19; 83; 83; 245; 166; 209; 209; 104; 185; 0; 0; 0; 0; 237; 237; 44; 193;
   32; 32; 96; 64; 252; 252; 31; 227; 177; 177; 200; 121; 91; 91; 237; 182; 106; 106; 190; 212; 203; 203; 70; 141;
   190; 190; 217; 103; 57; 57; 75; 114; 74; 74; 222; 148; 76; 76; 212; 152; 88; 88; 232; 176; 207; 207; 74; 133;
   208; 208; 107; 187; 239; 239; 42; 197; 170; 170; 229; 79; 251; 251; 22; 237; 67; 67; 197; 134; 77; 77; 215; 154;
   51; 51; 85; 102; 133; 133; 148; 17; 69; 69; 207; 138; 249; 249; 16; 233; 2; 2; 6; 4; 127; 127; 129; 254;
   80; 80; 240; 160; 60; 60; 68; 120; 159; 159; 186; 37; 168; 168; 227; 75; 81; 81; 243; 162; 163; 163; 254; 93;
   64; 64; 192; 128; 143; 143; 138; 5; 146; 146; 173; 63; 157; 157; 188; 33; 56; 56; 72; 112; 245; 245; 4; 241;
   188; 188; 223; 99; 182; 182; 193; 119; 218; 218; 117; 175; 33; 33; 99; 66; 16; 16; 48; 32; 255; 255; 26; 229;
   243; 243; 14; 253; 210; 210; 109; 191; 205; 205; 76; 129; 12; 12; 20; 24; 19; 19; 53; 38; 236; 236; 47; 195;
   95; 95; 225; 190; 151; 151; 162; 53; 68; 68; 204; 136; 23; 23; 57; 46; 196; 196; 87; 147; 167; 167; 242; 85;
   126; 126; 130; 252; 61; 61; 71; 122; 100; 100; 172; 200; 93; 93; 231; 186; 25; 25; 43; 50; 115; 115; 149; 230;
   96; 96; 160; 192; 129; 129; 152; 25; 79; 79; 209; 158; 220; 220; 127; 163; 34; 34; 102; 68; 42; 42; 126; 84;
   144; 144; 171; 59; 136; 136; 131; 11; 70; 70; 202; 140; 238; 238; 41; 199; 184; 184; 211; 107; 20; 20; 60; 40;
   222; 222; 121; 167; 94; 94; 226; 188; 11; 11; 29; 22; 219; 219; 118; 173; 224; 224; 59; 219; 50; 50; 86; 100;
   58; 58; 78; 116; 10; 10; 30; 20; 73; 73; 219; 146; 6; 6; 10; 12; 36; 36; 108; 72; 92; 92; 228; 184;
   194; 194; 93; 159; 211; 211; 110; 189; 172; 172; 239; 67; 98; 98; 166; 196; 145; 145; 168; 57; 149; 149; 164; 49;
   228; 228; 55; 211; 121; 121; 139; 242; 231; 231; 50; 213; 200; 200; 67; 139; 55; 55; 89; 110; 109; 109; 183; 218;
   141; 141; 140; 1; 213; 213; 100; 177; 78; 78; 210; 156; 169; 169; 224; 73; 108; 108; 180; 216; 86; 86; 250; 172;
   244; 244; 7; 243; 234; 234; 37; 207; 101; 101; 175; 202; 122; 122; 142; 244; 174; 174; 233; 71; 8; 8; 24; 16;
   186; 186; 213; 111; 120; 120; 136; 240; 37; 37; 111; 74; 46; 46; 114; 92; 28; 28; 36; 56; 166; 166; 241; 87;
   180; 180; 199; 115; 198; 198; 81; 151; 232; 232; 35; 203; 221; 221; 124; 161; 116; 116; 156; 232; 31; 31; 33; 62;
   75; 75; 221; 150; 189; 189; 220; 97; 139; 139; 134; 13; 138; 138; 133; 15; 112; 112; 144; 224; 62; 62; 66; 124;
   181; 181; 196; 113; 102; 102; 170; 204; 72; 72; 216; 144; 3; 3; 5; 6; 246; 246; 1; 247; 14; 14; 18; 28;
   97; 97; 163; 194; 53; 53; 95; 106; 87; 87; 249; 174; 185; 185; 208; 105; 134; 134; 145; 23; 193; 193; 88; 153;
   29; 29; 39; 58; 158; 158; 185; 39; 225; 225; 56; 217; 248; 248; 19; 235; 152; 152; 179; 43; 17; 17; 51; 34;
   105; 105; 187; 210; 217; 217; 112; 169; 142; 142; 137; 7; 148; 148; 167; 51; 155; 155; 182; 45; 30; 30; 34; 60;
   135; 135; 146; 21; 233; 233; 32; 201; 206; 206; 73; 135; 85; 85; 255; 170; 40; 40; 120; 80; 223; 223; 122; 165;
   140; 140; 143; 3; 161; 161; 248; 89; 137; 137; 128; 9; 13; 13; 23; 26; 191; 191; 218; 101; 230; 230; 49; 215;
   66; 66; 198; 132; 104; 104; 184; 208; 65; 65; 195; 130; 153; 153; 176; 41; 45; 45; 119; 90; 15; 15; 17; 30;
   176; 176; 203; 123; 84; 84; 252; 168; 187; 187; 214; 109; 22; 22; 58; 44].

(** [table_0[i]]. *)
Definition tab (i : Z) : Z := nth (Z.to_nat i) table_0 0.

(** ** Words and their bytes *)

Definition byte_of (w i : Z) : Z := Z.land (Z.shiftr w (8 * i)) 255.
Definition word_of (b0 b1 b2 b3 : Z) : Z := b0 + b1 * 2 ^ 8 + b2 * 2 ^ 16 + b3 * 2 ^ 24.

(** [t0[x]], the table as words. *)
Definition t0 (x : Z) : Z := word_of (tab (4 * x)) (tab (4 * x + 1)) (tab (4 * x + 2)) (tab (4 * x + 3)).

Definition sub_byte (w : Z) : Z :=
  word_of (tab (byte_of w 0 * 4)) (tab (byte_of w 1 * 4)) (tab (byte_of w 2 * 4)) (tab (byte_of w 3 * 4)).

Definition rot_up_8 (x : Z) : Z := Z.lor (u32 (Z.shiftl x 8)) (Z.shiftr x 24).
Definition rot_16 (x : Z) : Z := Z.lor (u32 (Z.shiftl x 16)) (Z.shiftr x 16).
Definition rot_down_8 (x : Z) : Z := Z.lor (Z.shiftr x 8) (u32 (Z.shiftl x 24)).

(** Four words: the state, or the variables [p0] to [p3]. *)
Record words : Type := mkWords { q0 : Z; q1 : Z; q2 : Z; q3 : Z }.

Definition table_lookup (y : Z) : words := mkWords (t0 (byte_of y 0)) (t0 (byte_of y 1)) (t0 (byte_of y 2)) (t0 (byte_of y 3)).

Definition rot (p : words) : words := mkWords (rot_up_8 (q0 p)) (rot_16 (q1 p)) (rot_down_8 (q2 p)) (q3 p).

Definition final_mask (is_final_round : bool) (p : words) : words :=
  if is_final_round
  then mkWords (Z.land (q0 p) 0xFF) (Z.land (q1 p) 0xFF00) (Z.land (rot_16 (q2 p)) 0xFF0000)
         (Z.land (rot_down_8 (q3 p)) 0xFF000000)
  else mkWords (rot_up_8 (q0 p)) (rot_16 (q1 p)) (rot_down_8 (q2 p)) (q3 p).

(** The block of a round: the round key goes to [z0] to [z3], then the looked-up
    words of the four words of the state, each prepared by [f]. *)
Definition round_block (f : words -> words) (state k : words) : words :=
  let '(z0, z1, z2, z3) := (q0 k, q1 k, q2 k, q3 k) in
  let p := f (table_lookup (q0 state)) in
  let '(z0, z3, z2, z1) := (Z.lxor z0 (q0 p), Z.lxor z3 (q1 p), Z.lxor z2 (q2 p), Z.lxor z1 (q3 p)) in
  let p := f (table_lookup (q1 state)) in
  let '(z1, z0, z3, z2) := (Z.lxor z1 (q0 p), Z.lxor z0 (q1 p), Z.lxor z3 (q2 p), Z.lxor z2 (q3 p)) in
  let p := f (table_lookup (q2 state)) in
  let '(z2, z1, z0, z3) := (Z.lxor z2 (q0 p), Z.lxor z1 (q1 p), Z.lxor z0 (q2 p), Z.lxor z3 (q3 p)) in
  let p := f (table_lookup (q3 state)) in
  mkWords (Z.lxor z0 (q3 p)) (Z.lxor z1 (q2 p)) (Z.lxor z2 (q1 p)) (Z.lxor z3 (q0 p)).

(** A round key whose bytes are changed by the substituted bytes of the state. *)
Definition xor_bytes (k a0 a1 a2 a3 : Z) : Z :=
  word_of (Z.lxor (byte_of k 0) (tab (a0 * 4))) (Z.lxor (byte_of k 1) (tab (a1 * 4)))
    (Z.lxor (byte_of k 2) (tab (a2 * 4))) (Z.lxor (byte_of k 3) (tab (a3 * 4))).

(** Byte [i] of the state. *)
Definition state_byte (s : words) (i : Z) : Z :=
  let w := if i <? 4 then q0 s else if i <? 8 then q1 s else if i <? 12 then q2 s else q3 s in byte_of w (i mod 4).

Definition last_block (state k : words) : words :=
  let a := state_byte state in
  mkWords (xor_bytes (q0 k) (a 0) (a 5) (a 10) (a 15)) (xor_bytes (q1 k) (a 4) (a 9) (a 14) (a 3))
    (xor_bytes (q2 k) (a 8) (a 13) (a 2) (a 7)) (xor_bytes (q3 k) (a 12) (a 1) (a 6) (a 11)).

(** ** The key *)

(** [temp] from the last word of the key. *)
Definition key_core (k rcon : Z) : Z := Z.lxor (sub_byte (rot_down_8 k)) rcon.

(** [(char)rcon] is signed. *)
Definition next_rcon (rcon : Z) : Z :=
  let j := if rcon <? 128 then rcon else rcon - 256 in
  let j := Z.shiftl j 1 in
  Z.lxor j (Z.land (Z.shiftr j 8) 0x1B) mod 256.

Definition add_key (state k : words) : words :=
  mkWords (Z.lxor (q0 state) (q0 k)) (Z.lxor (q1 state) (q1 k)) (Z.lxor (q2 state) (q2 k)) (Z.lxor (q3 state) (q3 k)).

(** ** 128-bit keys *)

(** The variables of the loops: the state, the key words and [rcon]. *)
Record vars4 : Type := mkV4 { v4_state : words; v4_k : words; v4_rcon : Z }.

Definition expand_128 (k : words) (rcon : Z) : words :=
  let temp := key_core (q3 k) rcon in
  let k0 := Z.lxor (q0 k) temp in
  let k1 := Z.lxor (q1 k) k0 in
  let k2 := Z.lxor (q2 k) k1 in
  mkWords k0 k1 k2 (Z.lxor (q3 k) k2).

Definition round_128 (f : words -> words) (v : vars4) : vars4 :=
  let k := expand_128 (v4_k v) (v4_rcon v) in
  mkV4 (round_block f (v4_state v) k) k (next_rcon (v4_rcon v)).

(** The rounds [i], [i + 1] and so on, [n] of them. *)
Fixpoint loop_128 (n : nat) (i : Z) (v : vars4) : vars4 :=
  match n with O => v | S n => loop_128 n (i + 1) (round_128 (final_mask (i =? 10)) v) end.

Definition encrypt_128_key_expand_inline (state key : words) : words :=
  v4_state (loop_128 10 1 (mkV4 (add_key state key) key 1)).

Fixpoint loop_128_no_branch (n : nat) (v : vars4) : vars4 :=
  match n with O => v | S n => loop_128_no_branch n (round_128 rot v) end.

Definition encrypt_128_key_expand_inline_no_branch (state key : words) : words :=
  let v := loop_128_no_branch 9 (mkV4 (add_key state key) key 1) in
  last_block (v4_state v) (expand_128 (v4_k v) (v4_rcon v)).

(** ** 192-bit keys *)

Record vars6 : Type := mkV6 { v6_state : words; v6_k0 : Z; v6_k1 : Z; v6_k2 : Z; v6_k3 : Z; v6_k4 : Z; v6_k5 : Z; v6_rcon : Z }.

(** [k4 ^= k3; k5 ^= k4]. *)
Definition pre_192 (v : vars6) : vars6 :=
  let '(mkV6 s k0 k1 k2 k3 k4 k5 rcon) := v in
  let k4 := Z.lxor k4 k3 in
  mkV6 s k0 k1 k2 k3 k4 (Z.lxor k5 k4) rcon.

(** From label [a]: two rounds; the words [k0] to [k5] become the next ones. *)
Definition two_rounds_192 (v : vars6) : vars6 :=
  let '(mkV6 s k0 k1 k2 k3 k4 k5 rcon) := v in
  let temp := key_core k5 rcon in
  let k0 := Z.lxor k0 temp in
  let k1 := Z.lxor k1 k0 in
  let s := round_block rot s (mkWords k4 k5 k0 k1) in
  let k2 := Z.lxor k2 k1 in
  let k3 := Z.lxor k3 k2 in
  let k4 := Z.lxor k4 k3 in
  let k5 := Z.lxor k5 k4 in
  let s := round_block rot s (mkWords k2 k3 k4 k5) in
  mkV6 s k0 k1 k2 k3 k4 k5 (next_rcon rcon).

(** The words [k0] to [k3] after that. *)
Definition expand_192 (v : vars6) : words :=
  let temp := key_core (v6_k5 v) (v6_rcon v) in
  let k0 := Z.lxor (v6_k0 v) temp in
  let k1 := Z.lxor (v6_k1 v) k0 in
  let k2 := Z.lxor (v6_k2 v) k1 in
  mkWords k0 k1 k2 (Z.lxor (v6_k3 v) k2).

(** The body of the loop from label [a]. *)
Definition body_192 (v : vars6) : vars6 :=
  let v := two_rounds_192 v in
  let k := expand_192 v in
  mkV6 (round_block rot (v6_state v) k) (q0 k) (q1 k) (q2 k) (q3 k) (v6_k4 v) (v6_k5 v) (next_rcon (v6_rcon v)).

Fixpoint loop_192 (n : nat) (v : vars6) : vars6 :=
  match n with O => v | S n => loop_192 n (body_192 (pre_192 v)) end.

(** The first turn enters at the label; two more follow. *)
Definition encrypt_192_key_expand_inline_no_branch (state key : words) (key4 key5 : Z) : words :=
  let v := mkV6 (add_key state key) (q0 key) (q1 key) (q2 key) (q3 key) key4 key5 1 in
  let v := loop_192 2 (body_192 v) in
  let v := two_rounds_192 (pre_192 v) in
  last_block (v6_state v) (expand_192 v).

(** ** 256-bit keys *)

Record vars8 : Type := mkV8 { v8_state : words; v8_k : words; v8_l : words; v8_rcon : Z }.

(** [temp = k3; sub_byte(temp); k4 ^= temp; k5 ^= k4; k6 ^= k5; k7 ^= k6]. *)
Definition pre_256 (v : vars8) : vars8 :=
  let temp := sub_byte (q3 (v8_k v)) in
  let k4 := Z.lxor (q0 (v8_l v)) temp in
  let k5 := Z.lxor (q1 (v8_l v)) k4 in
  let k6 := Z.lxor (q2 (v8_l v)) k5 in
  mkV8 (v8_state v) (v8_k v) (mkWords k4 k5 k6 (Z.lxor (q3 (v8_l v)) k6)) (v8_rcon v).

(** The next [k0] to [k3]. *)
Definition expand_256 (k l : words) (rcon : Z) : words :=
  let temp := key_core (q3 l) rcon in
  let k0 := Z.lxor (q0 k) temp in
  let k1 := Z.lxor (q1 k) k0 in
  let k2 := Z.lxor (q2 k) k1 in
  mkWords k0 k1 k2 (Z.lxor (q3 k) k2).

(** The body of the loop from label [a]. *)
Definition body_256 (v : vars8) : vars8 :=
  let s := round_block rot (v8_state v) (v8_l v) in
  let k := expand_256 (v8_k v) (v8_l v) (v8_rcon v) in
  mkV8 (round_block rot s k) k (v8_l v) (next_rcon (v8_rcon v)).

Fixpoint loop_256 (n : nat) (v : vars8) : vars8 :=
  match n with O => v | S n => loop_256 n (body_256 (pre_256 v)) end.

(** The first turn enters at the label; five more follow. *)
Definition encrypt_256_key_expand_inline_no_branch (state key key4 : words) : words :=
  let v := mkV8 (add_key state key) key key4 1 in
  let v := pre_256 (loop_256 5 (body_256 v)) in
  let s := round_block rot (v8_state v) (v8_l v) in
  last_block s (expand_256 (v8_k v) (v8_l v) (v8_rcon v)).

(** ** The blocks that the test bench expects *)

(** Block [i] of the key stream: a counter of five bits under a zero key. *)
Definition dst_good (i : Z) : words :=
  let zero := mkWords 0 0 0 0 in
  encrypt_256_key_expand_inline_no_branch (mkWords (Z.land i 0x1F) 0 0 0) zero zero.
