(* ===== verification/AesGoldEq.v ===== *)
(** * The software model of the AES core implements the standard

    The table combines the S-box with the multiplications of a column, the words
    of the state are its columns, and the loops compute the key schedule as they
    go.  The three encryption routines are the cipher of the standard, for all
    inputs and keys. *)

From S2P Require Import Prelude Fips197 AesGold.

(** ** Bytes of words *)

(** Arithmetic with division by constants. *)
Ltac divs := Z.to_euclidean_division_equations; lia.

Definition is_byte (b : Z) : Prop := 0 <= b < 256.

Lemma byte_of_arith w i : 0 <= i -> byte_of w i = w / 2 ^ (8 * i) mod 256.
Proof. intros Hi. unfold byte_of. change 255 with (Z.ones 8). rewrite Z.land_ones, Z.shiftr_div_pow2 by lia. done. Qed.

Lemma byte_of_range w i : 0 <= i -> is_byte (byte_of w i).
Proof. intros Hi. rewrite byte_of_arith by done. apply Z.mod_pos_bound; lia. Qed.

Lemma byte_of_lxor a b i : 0 <= i -> byte_of (Z.lxor a b) i = Z.lxor (byte_of a i) (byte_of b i).
Proof.
  intros Hi. unfold byte_of. rewrite Z.shiftr_lxor. apply Z.bits_inj'. intros n _.
  rewrite !Z.lxor_spec, !Z.land_spec, Z.lxor_spec. by destruct (Z.testbit 255 n); rewrite ?andb_true_r, ?andb_false_r.
Qed.

Lemma byte_of_land a b i : 0 <= i -> byte_of (Z.land a b) i = Z.land (byte_of a i) (byte_of b i).
Proof.
  intros Hi. unfold byte_of. rewrite Z.shiftr_land. apply Z.bits_inj'. intros n _.
  rewrite !Z.land_spec. by destruct (Z.testbit 255 n); rewrite ?andb_true_r, ?andb_false_r.
Qed.

Lemma byte_of_word b0 b1 b2 b3 : is_byte b0 -> is_byte b1 -> is_byte b2 -> is_byte b3 ->
  byte_of (word_of b0 b1 b2 b3) 0 = b0 /\ byte_of (word_of b0 b1 b2 b3) 1 = b1 /\
  byte_of (word_of b0 b1 b2 b3) 2 = b2 /\ byte_of (word_of b0 b1 b2 b3) 3 = b3 /\ is_u32 (word_of b0 b1 b2 b3).
Proof.
  unfold is_byte, is_u32, word_of. intros. rewrite !byte_of_arith by lia.
  change (2 ^ (8 * 0)) with 1. change (2 ^ (8 * 1)) with 256. change (2 ^ (8 * 2)) with 65536.
  change (2 ^ (8 * 3)) with 16777216. change (2 ^ 8) with 256. change (2 ^ 16) with 65536. change (2 ^ 24) with 16777216. split_and!; divs.
Qed.

Lemma word_split w : is_u32 w -> w = word_of (byte_of w 0) (byte_of w 1) (byte_of w 2) (byte_of w 3).
Proof.
  unfold is_u32, word_of. intros. rewrite !byte_of_arith by lia.
  change (2 ^ (8 * 0)) with 1. change (2 ^ (8 * 1)) with 256. change (2 ^ (8 * 2)) with 65536.
  change (2 ^ (8 * 3)) with 16777216. change (2 ^ 8) with 256. change (2 ^ 16) with 65536. change (2 ^ 24) with 16777216. divs.
Qed.

Lemma lxor_u32 a b : is_u32 a -> is_u32 b -> is_u32 (Z.lxor a b).
Proof.
  unfold is_u32. change 4294967296 with (2 ^ 32). intros Ha Hb.
  assert (E : Z.lxor a b = Z.lxor a b mod 2 ^ 32); [|rewrite E; apply Z.mod_pos_bound; lia].
  apply Z.bits_inj'. intros n Hn. destruct (Z.ltb_spec n 32); [by rewrite Z.mod_pow2_bits_low|].
  rewrite Z.mod_pow2_bits_high, Z.lxor_spec by lia.
  by rewrite <- (Z.mod_small a (2 ^ 32)), <- (Z.mod_small b (2 ^ 32)), !Z.mod_pow2_bits_high by lia.
Qed.

Lemma land_u32 a b : is_u32 a -> is_u32 (Z.land a b).
Proof.
  unfold is_u32. change 4294967296 with (2 ^ 32). intros Ha.
  assert (E : Z.land a b = Z.land a b mod 2 ^ 32); [|rewrite E; apply Z.mod_pos_bound; lia].
  apply Z.bits_inj'. intros n Hn. destruct (Z.ltb_spec n 32); [by rewrite Z.mod_pow2_bits_low|].
  rewrite Z.mod_pow2_bits_high, Z.land_spec by lia. by rewrite <- (Z.mod_small a (2 ^ 32)), Z.mod_pow2_bits_high by lia.
Qed.

(** The parts of a rotation do not overlap. *)
Lemma lor_parts k a b : 0 <= k -> 0 <= a < 2 ^ k -> Z.lor a (b * 2 ^ k) = a + b * 2 ^ k.
Proof.
  intros Hk Ha. assert (E : Z.land a (b * 2 ^ k) = 0).
  { apply Z.bits_inj'. intros n Hn. rewrite Z.land_spec, Z.bits_0. destruct (Z.ltb_spec n k).
    - by rewrite Z.mul_pow2_bits_low, andb_false_r.
    - by rewrite <- (Z.mod_small a (2 ^ k)), Z.mod_pow2_bits_high by lia. }
  by rewrite Z.add_nocarry_lxor, Z.lxor_lor.
Qed.

Section rotations.
Context (b0 b1 b2 b3 : Z) (H0 : is_byte b0) (H1 : is_byte b1) (H2 : is_byte b2) (H3 : is_byte b3).

Lemma rot_down_8_word : rot_down_8 (word_of b0 b1 b2 b3) = word_of b1 b2 b3 b0.
Proof using H0 H1 H2 H3.
  unfold is_byte in *. unfold rot_down_8. rewrite Z.shiftr_div_pow2, Z.shiftl_mul_pow2 by lia.
  replace (u32 (word_of b0 b1 b2 b3 * 2 ^ 24)) with (b0 * 2 ^ 24) by (unfold u32, word_of; divs).
  rewrite lor_parts; unfold word_of; divs.
Qed.

Lemma rot_16_word : rot_16 (word_of b0 b1 b2 b3) = word_of b2 b3 b0 b1.
Proof using H0 H1 H2 H3.
  unfold is_byte in *. unfold rot_16. rewrite Z.shiftr_div_pow2, Z.shiftl_mul_pow2, Z.lor_comm by lia.
  replace (u32 (word_of b0 b1 b2 b3 * 2 ^ 16)) with ((b0 + b1 * 256) * 2 ^ 16) by (unfold u32, word_of; divs).
  rewrite lor_parts; unfold word_of; divs.
Qed.

Lemma rot_up_8_word : rot_up_8 (word_of b0 b1 b2 b3) = word_of b3 b0 b1 b2.
Proof using H0 H1 H2 H3.
  unfold is_byte in *. unfold rot_up_8. rewrite Z.shiftr_div_pow2, Z.shiftl_mul_pow2, Z.lor_comm by lia.
  replace (u32 (word_of b0 b1 b2 b3 * 2 ^ 8)) with ((b0 + b1 * 256 + b2 * 65536) * 2 ^ 8) by (unfold u32, word_of; divs).
  rewrite lor_parts; unfold word_of; divs.
Qed.

End rotations.

(** ** The table *)

Definition table_entry_ok (x : Z) : bool :=
  let s := sbox x in
  (tab (4 * x) =? s) && (tab (4 * x + 1) =? s) && (tab (4 * x + 2) =? gmul 3 s) && (tab (4 * x + 3) =? gmul 2 s)
  && (0 <=? s) && (s <? 256) && (0 <=? gmul 3 s) && (gmul 3 s <? 256) && (0 <=? gmul 2 s) && (gmul 2 s <? 256)
  && (next_rcon x =? xtime x) && (0 <=? xtime x) && (xtime x <? 256).

Lemma table_ok : forallb (fun n => table_entry_ok (Z.of_nat n)) (seq 0 256) = true.
Proof. vm_compute. reflexivity. Qed.

Lemma byte_ok x : is_byte x -> tab (4 * x) = sbox x /\ tab (4 * x + 1) = sbox x /\ tab (4 * x + 2) = gmul 3 (sbox x) /\
  tab (4 * x + 3) = gmul 2 (sbox x) /\ is_byte (sbox x) /\ is_byte (gmul 3 (sbox x)) /\ is_byte (gmul 2 (sbox x)) /\
  next_rcon x = xtime x /\ is_byte (xtime x).
Proof.
  intros Hx. pose proof table_ok as H. rewrite forallb_forall in H. specialize (H (Z.to_nat x)).
  rewrite in_seq, Z2Nat.id in H by (unfold is_byte in Hx; lia). specialize (H ltac:(unfold is_byte in Hx; lia)).
  unfold table_entry_ok in H. cbv zeta in H. unfold is_byte. rewrite !andb_true_iff in H. lia.
Qed.

Lemma tab_sbox x : is_byte x -> tab (x * 4) = sbox x /\ is_byte (sbox x).
Proof. intros Hx. rewrite Z.mul_comm. destruct (byte_ok x Hx) as (-> & _ & _ & _ & H & _). done. Qed.

Lemma t0_word x : is_byte x -> t0 x = word_of (sbox x) (sbox x) (gmul 3 (sbox x)) (gmul 2 (sbox x)).
Proof. intros Hx. unfold t0. destruct (byte_ok x Hx) as (-> & -> & -> & -> & _). done. Qed.

Lemma word_byte r : word_of r 0 0 0 = r.
Proof. unfold word_of. lia. Qed.

(** ** Words as columns *)

Definition col (w : Z) : column := mkCol (byte_of w 0) (byte_of w 1) (byte_of w 2) (byte_of w 3).
Definition blk (s : words) : block := mkBlock (col (q0 s)) (col (q1 s)) (col (q2 s)) (col (q3 s)).

Definition wok (s : words) : Prop := is_u32 (q0 s) /\ is_u32 (q1 s) /\ is_u32 (q2 s) /\ is_u32 (q3 s).

Definition col_ok (c : column) : Prop := is_byte (y0 c) /\ is_byte (y1 c) /\ is_byte (y2 c) /\ is_byte (y3 c).

(** The masks of the last round. *)
Lemma mask_cols_eq : col 0xFF = mkCol 255 0 0 0 /\ col 0xFF00 = mkCol 0 255 0 0 /\
  col 0xFF0000 = mkCol 0 0 255 0 /\ col 0xFF000000 = mkCol 0 0 0 255.
Proof. done. Qed.

#[local] Opaque tab t0 sbox gmul byte_of word_of.

Lemma col_bytes w : col_ok (col w).
Proof. split_and!; apply byte_of_range; lia. Qed.

Lemma col_lxor a b : col (Z.lxor a b) = cxor (col a) (col b).
Proof. unfold col, cxor. by rewrite !byte_of_lxor by lia. Qed.

Definition cland (a b : column) : column :=
  mkCol (Z.land (y0 a) (y0 b)) (Z.land (y1 a) (y1 b)) (Z.land (y2 a) (y2 b)) (Z.land (y3 a) (y3 b)).

Lemma col_land a b : col (Z.land a b) = cland (col a) (col b).
Proof. unfold col, cland. by rewrite !byte_of_land by lia. Qed.

Lemma col_word b0 b1 b2 b3 : is_byte b0 -> is_byte b1 -> is_byte b2 -> is_byte b3 -> col (word_of b0 b1 b2 b3) = mkCol b0 b1 b2 b3.
Proof. intros. unfold col. destruct (byte_of_word b0 b1 b2 b3) as (-> & -> & -> & -> & _); done. Qed.

Lemma col_rot_down w : is_u32 w -> col (rot_down_8 w) = RotWord (col w).
Proof.
  intros Hw. destruct (col_bytes w) as (H0 & H1 & H2 & H3). rewrite (word_split w Hw) at 1. rewrite rot_down_8_word by done.
  by rewrite col_word.
Qed.

Lemma col_sub_byte w : col (sub_byte w) = SubWord (col w) /\ is_u32 (sub_byte w).
Proof.
  destruct (col_bytes w) as (H0 & H1 & H2 & H3). unfold sub_byte.
  destruct (tab_sbox _ H0) as [E0 B0], (tab_sbox _ H1) as [E1 B1], (tab_sbox _ H2) as [E2 B2], (tab_sbox _ H3) as [E3 B3].
  cbn [col y0 y1 y2 y3] in *. rewrite E0, E1, E2, E3. split; [by rewrite col_word|]. by apply byte_of_word.
Qed.

(** A word that is zero but for its first byte. *)
Lemma col_byte r : is_byte r -> col r = mkCol r 0 0 0 /\ is_u32 r.
Proof.
  intros Hr. rewrite <- (word_byte r) at 1. split; [by apply col_word|].
  unfold is_byte in Hr. unfold is_u32. lia.
Qed.

Lemma key_core_ok k r : is_u32 k -> is_byte r ->
  col (key_core k r) = cxor (SubWord (RotWord (col k))) (mkCol r 0 0 0) /\ is_u32 (key_core k r).
Proof.
  intros Hk Hr. unfold key_core. destruct (col_sub_byte (rot_down_8 k)) as [E U]. destruct (col_byte r Hr) as [Er Ur].
  rewrite col_lxor, E, Er, col_rot_down by done. split; [done|by apply lxor_u32].
Qed.

(** ** Rounds *)

(** What each byte of a column contributes to the columns of a round ... *)
Definition m0 (c : column) : column := mkCol (gmul 2 (y0 c)) (y0 c) (y0 c) (gmul 3 (y0 c)).
Definition m1 (c : column) : column := mkCol (gmul 3 (y1 c)) (gmul 2 (y1 c)) (y1 c) (y1 c).
Definition m2 (c : column) : column := mkCol (y2 c) (gmul 3 (y2 c)) (gmul 2 (y2 c)) (y2 c).
Definition m3 (c : column) : column := mkCol (y3 c) (y3 c) (gmul 3 (y3 c)) (gmul 2 (y3 c)).

(** ... and of the last round. *)
Definition o0 (c : column) : column := mkCol (y0 c) 0 0 0.
Definition o1 (c : column) : column := mkCol 0 (y1 c) 0 0.
Definition o2 (c : column) : column := mkCol 0 0 (y2 c) 0.
Definition o3 (c : column) : column := mkCol 0 0 0 (y3 c).

(** The looked-up words of column [y] after the rotations. *)
Lemma rot_cols y : let s := SubWord (col y) in
  let p := rot (table_lookup y) in
  col (q0 p) = m0 s /\ col (q1 p) = m1 s /\ col (q2 p) = m2 s /\ col (q3 p) = m3 s /\ wok p.
Proof.
  destruct (col_bytes y) as (H0 & H1 & H2 & H3). cbn [col y0 y1 y2 y3] in *. cbv zeta. unfold rot, table_lookup, wok, m0, m1, m2, m3.
  cbn [q0 q1 q2 q3 SubWord col y0 y1 y2 y3]. rewrite !t0_word by assumption.
  destruct (byte_ok _ H0) as (_ & _ & _ & _ & B01 & B02 & B03 & _), (byte_ok _ H1) as (_ & _ & _ & _ & B11 & B12 & B13 & _),
    (byte_ok _ H2) as (_ & _ & _ & _ & B21 & B22 & B23 & _), (byte_ok _ H3) as (_ & _ & _ & _ & B31 & B32 & B33 & _).
  rewrite rot_up_8_word, rot_16_word, rot_down_8_word by assumption. rewrite !col_word by assumption.
  split_and!; try reflexivity; (apply byte_of_word; assumption).
Qed.

(** The same in the last round of the routine with the branch. *)
Lemma mask_cols y : let s := SubWord (col y) in
  let p := final_mask true (table_lookup y) in
  col (q0 p) = o0 s /\ col (q1 p) = o1 s /\ col (q2 p) = o2 s /\ col (q3 p) = o3 s /\ wok p.
Proof.
  destruct (col_bytes y) as (H0 & H1 & H2 & H3). cbn [col y0 y1 y2 y3] in *. cbv zeta. unfold final_mask, table_lookup, wok, o0, o1, o2, o3.
  cbn [q0 q1 q2 q3 SubWord col y0 y1 y2 y3]. rewrite !t0_word by assumption.
  destruct (byte_ok _ H0) as (_ & _ & _ & _ & B01 & B02 & B03 & _), (byte_ok _ H1) as (_ & _ & _ & _ & B11 & B12 & B13 & _),
    (byte_ok _ H2) as (_ & _ & _ & _ & B21 & B22 & B23 & _), (byte_ok _ H3) as (_ & _ & _ & _ & B31 & B32 & B33 & _).
  rewrite rot_16_word, rot_down_8_word by assumption.
  assert (L : forall b, is_byte b -> Z.land b 255 = b).
  { intros b Hb. change 255 with (Z.ones 8). rewrite Z.land_ones by lia. by apply Z.mod_small. }
  rewrite !col_land, !col_word by assumption. destruct mask_cols_eq as (-> & -> & -> & ->). unfold cland. cbn [y0 y1 y2 y3].
  rewrite !L, !Z.land_0_r by assumption. split_and!; try reflexivity; (apply land_u32, byte_of_word; assumption).
Qed.

(** The orders in which a round adds up the parts of a byte. *)
Lemma xor_orders k a b c d :
  Z.lxor (Z.lxor (Z.lxor (Z.lxor k a) b) c) d = Z.lxor (xor4 a b c d) k /\
  Z.lxor (Z.lxor (Z.lxor (Z.lxor k d) a) b) c = Z.lxor (xor4 a b c d) k /\
  Z.lxor (Z.lxor (Z.lxor (Z.lxor k c) d) a) b = Z.lxor (xor4 a b c d) k /\
  Z.lxor (Z.lxor (Z.lxor (Z.lxor k b) c) d) a = Z.lxor (xor4 a b c d) k.
Proof.
  unfold xor4. split_and!; apply Z.bits_inj'; intros n _; rewrite !Z.lxor_spec;
    by destruct (Z.testbit k n), (Z.testbit a n), (Z.testbit b n), (Z.testbit c n), (Z.testbit d n).
Qed.

Definition cxor4 (a b c d : column) : column :=
  mkCol (xor4 (y0 a) (y0 b) (y0 c) (y0 d)) (xor4 (y1 a) (y1 b) (y1 c) (y1 d)) (xor4 (y2 a) (y2 b) (y2 c) (y2 d))
        (xor4 (y3 a) (y3 b) (y3 c) (y3 d)).

Lemma cxor_orders k a b c d :
  cxor (cxor (cxor (cxor k a) b) c) d = cxor (cxor4 a b c d) k /\ cxor (cxor (cxor (cxor k d) a) b) c = cxor (cxor4 a b c d) k /\
  cxor (cxor (cxor (cxor k c) d) a) b = cxor (cxor4 a b c d) k /\ cxor (cxor (cxor (cxor k b) c) d) a = cxor (cxor4 a b c d) k.
Proof. unfold cxor, cxor4. cbn [y0 y1 y2 y3]. split_and!; f_equal; apply xor_orders. Qed.

Lemma round_block_cols f s k :
  let p i := f (table_lookup i) in
  blk (round_block f s k) =
  mkBlock (cxor (cxor (cxor (cxor (col (q0 k)) (col (q0 (p (q0 s))))) (col (q1 (p (q1 s))))) (col (q2 (p (q2 s))))) (col (q3 (p (q3 s)))))
          (cxor (cxor (cxor (cxor (col (q1 k)) (col (q3 (p (q0 s))))) (col (q0 (p (q1 s))))) (col (q1 (p (q2 s))))) (col (q2 (p (q3 s)))))
          (cxor (cxor (cxor (cxor (col (q2 k)) (col (q2 (p (q0 s))))) (col (q3 (p (q1 s))))) (col (q0 (p (q2 s))))) (col (q1 (p (q3 s)))))
          (cxor (cxor (cxor (cxor (col (q3 k)) (col (q1 (p (q0 s))))) (col (q2 (p (q1 s))))) (col (q3 (p (q2 s))))) (col (q0 (p (q3 s))))).
Proof. cbv zeta. unfold round_block, blk. cbn [q0 q1 q2 q3]. by rewrite !col_lxor. Qed.

Lemma round_block_u32 f s k : wok k -> (forall y, wok (f (table_lookup y))) -> wok (round_block f s k).
Proof.
  intros (K0 & K1 & K2 & K3) Hf. unfold round_block. cbv zeta.
  destruct (Hf (q0 s)) as (A0 & A1 & A2 & A3), (Hf (q1 s)) as (B0 & B1 & B2 & B3), (Hf (q2 s)) as (C0 & C1 & C2 & C3),
    (Hf (q3 s)) as (D0 & D1 & D2 & D3).
  split_and!; cbn [q0 q1 q2 q3]; (apply lxor_u32; [apply lxor_u32; [apply lxor_u32; [apply lxor_u32|]|]|]; assumption).
Qed.

(** A round from what the words of a column contribute. *)
Lemma round_block_sum f s k (c0 c1 c2 c3 : column -> column) :
  (forall y, let s := SubWord (col y) in let p := f (table_lookup y) in
     col (q0 p) = c0 s /\ col (q1 p) = c1 s /\ col (q2 p) = c2 s /\ col (q3 p) = c3 s /\ wok p) -> wok k ->
  let sum a b d e := cxor4 (c0 a) (c1 b) (c2 d) (c3 e) in
  let '(mkBlock a b d e) := SubBytes (blk s) in
  blk (round_block f s k) = AddRoundKey (mkBlock (sum a b d e) (sum b d e a) (sum d e a b) (sum e a b d)) (blk k) /\
  wok (round_block f s k).
Proof.
  intros H Hk. change (SubBytes (blk s)) with
    (mkBlock (SubWord (col (q0 s))) (SubWord (col (q1 s))) (SubWord (col (q2 s))) (SubWord (col (q3 s)))). cbv beta iota.
  split; [|apply round_block_u32; [done|intros y; by destruct (H y) as (_ & _ & _ & _ & ?)]].
  cbv zeta. rewrite round_block_cols. cbv zeta. unfold AddRoundKey, blk. cbn [x0 x1 x2 x3].
  destruct (H (q0 s)) as (-> & -> & -> & -> & _), (H (q1 s)) as (-> & -> & -> & -> & _), (H (q2 s)) as (-> & -> & -> & -> & _),
    (H (q3 s)) as (-> & -> & -> & -> & _). f_equal; apply cxor_orders.
Qed.

Lemma mix_sum a b c d : MixColumns (ShiftRows (mkBlock a b c d)) =
  let sum a b d e := cxor4 (m0 a) (m1 b) (m2 d) (m3 e) in mkBlock (sum a b c d) (sum b c d a) (sum c d a b) (sum d a b c).
Proof. reflexivity. Qed.

Lemma shift_sum a b c d : ShiftRows (mkBlock a b c d) =
  let sum a b d e := cxor4 (o0 a) (o1 b) (o2 d) (o3 e) in mkBlock (sum a b c d) (sum b c d a) (sum c d a b) (sum d a b c).
Proof. cbv zeta. unfold cxor4, xor4, o0, o1, o2, o3. cbn [y0 y1 y2 y3]. by rewrite !Z.lxor_0_r, ?Z.lxor_0_l. Qed.

Lemma round_ok s k : wok k ->
  blk (round_block rot s k) = AddRoundKey (MixColumns (ShiftRows (SubBytes (blk s)))) (blk k) /\ wok (round_block rot s k).
Proof.
  intros Hk. pose proof (round_block_sum rot s k m0 m1 m2 m3 rot_cols Hk) as H. destruct (SubBytes (blk s)) as [a b c d].
  by rewrite mix_sum.
Qed.

Lemma final_ok s k : wok k ->
  blk (round_block (final_mask true) s k) = AddRoundKey (ShiftRows (SubBytes (blk s))) (blk k) /\
  wok (round_block (final_mask true) s k).
Proof.
  intros Hk. pose proof (round_block_sum (final_mask true) s k o0 o1 o2 o3 mask_cols Hk) as H.
  destruct (SubBytes (blk s)) as [a b c d]. by rewrite shift_sum.
Qed.

(** The last round on the bytes of the state. *)
Lemma xor_bytes_ok k a0 a1 a2 a3 : is_byte a0 -> is_byte a1 -> is_byte a2 -> is_byte a3 ->
  col (xor_bytes k a0 a1 a2 a3) = cxor (mkCol (sbox a0) (sbox a1) (sbox a2) (sbox a3)) (col k) /\ is_u32 (xor_bytes k a0 a1 a2 a3).
Proof.
  intros H0 H1 H2 H3. unfold xor_bytes.
  destruct (tab_sbox _ H0) as [-> B0], (tab_sbox _ H1) as [-> B1], (tab_sbox _ H2) as [-> B2], (tab_sbox _ H3) as [-> B3].
  assert (X : forall i b, 0 <= i -> is_byte b -> is_byte (Z.lxor (byte_of k i) b)).
  { intros i b Hi Hb. replace b with (byte_of b 0) by (rewrite byte_of_arith by lia; unfold is_byte in Hb; divs).
    replace (byte_of k i) with (byte_of (byte_of k i) 0); [rewrite <- byte_of_lxor by lia; apply byte_of_range; lia|].
    pose proof (byte_of_range k i Hi) as Hk. rewrite (byte_of_arith _ 0) by lia. unfold is_byte in Hk. divs. }
  rewrite col_word by (apply X; [lia|done]). split; [|apply byte_of_word; apply X; try lia; done].
  unfold cxor. cbn [col y0 y1 y2 y3]. f_equal; apply Z.lxor_comm.
Qed.

Lemma last_ok s k : blk (last_block s k) = AddRoundKey (ShiftRows (SubBytes (blk s))) (blk k) /\ wok (last_block s k).
Proof.
  destruct (col_bytes (q0 s)) as (A0 & A1 & A2 & A3), (col_bytes (q1 s)) as (B0 & B1 & B2 & B3),
    (col_bytes (q2 s)) as (C0 & C1 & C2 & C3), (col_bytes (q3 s)) as (D0 & D1 & D2 & D3). cbn [col y0 y1 y2 y3] in *.
  destruct (xor_bytes_ok (q0 k) _ _ _ _ A0 B1 C2 D3) as [E0 U0], (xor_bytes_ok (q1 k) _ _ _ _ B0 C1 D2 A3) as [E1 U1],
    (xor_bytes_ok (q2 k) _ _ _ _ C0 D1 A2 B3) as [E2 U2], (xor_bytes_ok (q3 k) _ _ _ _ D0 A1 B2 C3) as [E3 U3].
  split; [|done]. unfold last_block, blk. cbn [q0 q1 q2 q3].
  change (state_byte s 0) with (byte_of (q0 s) 0). 
  etransitivity; [|unfold AddRoundKey, ShiftRows, SubBytes; cbn [x0 x1 x2 x3 SubWord col y0 y1 y2 y3]; rewrite <- E0, <- E1, <- E2, <- E3; reflexivity].
  reflexivity.
Qed.

(** ** The key schedule *)

Lemma rcon_next n : next_rcon (rcon_byte n) = rcon_byte (S n) /\ is_byte (rcon_byte n).
Proof.
  assert (B : forall n, is_byte (rcon_byte n)).
  { clear n. intros n. induction n as [|n IH]; [unfold is_byte; cbn; lia|]. cbn [rcon_byte]. by apply byte_ok in IH as (_ & _ & _ & _ & _ & _ & _ & _ & ?). }
  split; [|done]. cbn [rcon_byte]. by destruct (byte_ok _ (B n)) as (_ & _ & _ & _ & _ & _ & _ & -> & _).
Qed.

#[local] Opaque key_core next_rcon.

(** A word of the code that holds word [i] of the schedule. *)
Definition holds (w : nat -> column) (k : Z) (i : nat) : Prop := col k = w i /\ is_u32 k.

Lemma holds_eq w k i j : i = j -> holds w k i -> holds w k j.
Proof. by intros ->. Qed.

(** Four words that hold a round key. *)
Definition holds4 (w : nat -> column) (k : words) (i : nat) : Prop :=
  holds w (q0 k) i /\ holds w (q1 k) (i + 1) /\ holds w (q2 k) (i + 2) /\ holds w (q3 k) (i + 3).

Section schedule.
Context (Nk N : nat) (w : nat -> column).
Context (Hstep : forall i, (Nk <= i < N)%nat -> w i = cxor (w (i - Nk)%nat) (key_temp Nk i (w (i - 1)%nat))).
Context (Hpos : (0 < Nk)%nat).

Lemma word_core q i : i = (q * Nk)%nat -> (0 < q)%nat -> (i < N)%nat ->
  w i = cxor (w (i - Nk)%nat) (cxor (SubWord (RotWord (w (i - 1)%nat))) (Rcon q)).
Proof using Hstep Hpos.
  intros -> Hq Hi. rewrite Hstep by nia. unfold key_temp. rewrite Nat.Div0.mod_mul, Nat.div_mul by lia. done.
Qed.

Lemma word_plain q r i : i = (q * Nk + r)%nat -> (0 < q)%nat -> (0 < r < Nk)%nat -> ((6 < Nk)%nat -> r <> 4%nat) -> (i < N)%nat ->
  w i = cxor (w (i - Nk)%nat) (w (i - 1)%nat).
Proof using Hstep Hpos.
  intros -> Hq Hr H4 Hi. rewrite Hstep by nia. unfold key_temp.
  assert (E : ((q * Nk + r) mod Nk = r)%nat) by (rewrite Nat.add_comm, Nat.Div0.mod_add; apply Nat.mod_small; lia). rewrite E.
  destruct (Nat.eqb_spec r 0) as [->|_]; [lia|]. destruct (Nat.ltb_spec 6 Nk) as [H6|_]; [|done].
  destruct (Nat.eqb_spec r 4) as [->|_]; [by destruct (H4 H6)|done].
Qed.

Lemma word_sub q i : i = (q * Nk + 4)%nat -> (0 < q)%nat -> (6 < Nk)%nat -> (i < N)%nat ->
  w i = cxor (w (i - Nk)%nat) (SubWord (w (i - 1)%nat)).
Proof using Hstep Hpos.
  intros -> Hq H6 Hi. rewrite Hstep by nia. unfold key_temp.
  assert (E : ((q * Nk + 4) mod Nk = 4)%nat) by (rewrite Nat.add_comm, Nat.Div0.mod_add; apply Nat.mod_small; lia). rewrite E.
  cbn [Nat.eqb andb]. destruct (Nat.ltb_spec 6 Nk); [done|lia].
Qed.

Lemma holds_core j i k p : i = (S j * Nk)%nat -> (i < N)%nat -> holds w k (i - Nk) -> holds w p (i - 1) ->
  holds w (Z.lxor k (key_core p (rcon_byte j))) i.
Proof using Hstep Hpos.
  intros Ei Hi [Ek Uk] [Ep Up]. destruct (rcon_next j) as [_ Hb]. destruct (key_core_ok p _ Up Hb) as [Ec Uc].
  split; [|by apply lxor_u32]. rewrite col_lxor, Ec, Ek, Ep, (word_core (S j) i) by (done || lia).
  unfold Rcon. by replace (S j - 1)%nat with j by lia.
Qed.

Lemma holds_plain q r i k p : i = (q * Nk + r)%nat -> (0 < q)%nat -> (0 < r < Nk)%nat -> ((6 < Nk)%nat -> r <> 4%nat) -> (i < N)%nat ->
  holds w k (i - Nk) -> holds w p (i - 1) -> holds w (Z.lxor k p) i.
Proof using Hstep Hpos.
  intros Ei Hq Hr H4 Hi [Ek Uk] [Ep Up]. split; [|by apply lxor_u32].
  rewrite col_lxor, Ek, Ep, (word_plain q r i) by done. done.
Qed.

Lemma holds_sub q i k p : i = (q * Nk + 4)%nat -> (0 < q)%nat -> (6 < Nk)%nat -> (i < N)%nat ->
  holds w k (i - Nk) -> holds w p (i - 1) -> holds w (Z.lxor k (sub_byte p)) i.
Proof using Hstep Hpos.
  intros Ei Hq H6 Hi [Ek Uk] [Ep Up]. destruct (col_sub_byte p) as [Es Us]. split; [|by apply lxor_u32].
  rewrite col_lxor, Ek, Es, Ep, (word_sub q i) by done. done.
Qed.

(** Three more words, each from the one before it. *)
Lemma holds_chain q r i k0 l1 l2 l3 : i = (q * Nk + r)%nat -> (0 < q)%nat -> (r + 3 < Nk)%nat -> ((6 < Nk)%nat -> r = 0%nat \/ r = 4%nat) ->
  (i + 3 < N)%nat -> holds w k0 i -> holds w l1 (i + 1 - Nk) -> holds w l2 (i + 2 - Nk) -> holds w l3 (i + 3 - Nk) ->
  let k1 := Z.lxor l1 k0 in let k2 := Z.lxor l2 k1 in holds4 w (mkWords k0 k1 k2 (Z.lxor l3 k2)) i.
Proof using Hstep Hpos.
  intros Ei Hq Hr H6 Hi K0 L1 L2 L3. cbv zeta.
  assert (P : forall j k p, (0 < j <= 3)%nat -> holds w k (i + j - Nk) -> holds w p (i + j - 1) -> holds w (Z.lxor k p) (i + j)).
  { intros j k p Hj Hk Hp. apply (holds_plain q (r + j)); [lia|lia|lia| |lia|done|done]. intros H. specialize (H6 H). lia. }
  assert (K1 : holds w (Z.lxor l1 k0) (i + 1)) by (apply P; [lia|done|eapply holds_eq; [|exact K0]; lia]).
  assert (K2 : holds w (Z.lxor l2 (Z.lxor l1 k0)) (i + 2)) by (apply P; [lia|done|eapply holds_eq; [|exact K1]; lia]).
  split_and!; try done. apply P; [lia|done|]. eapply holds_eq; [|exact K2]. lia.
Qed.

End schedule.

Lemma holds4_key w k r : holds4 w k (4 * r) -> blk k = round_key w r /\ wok k.
Proof. intros ([E0 U0] & [E1 U1] & [E2 U2] & [E3 U3]). split; [|done]. unfold blk, round_key. by rewrite E0, E1, E2, E3. Qed.

(** A round of the code with a round key of the schedule. *)
Lemma round_step w s k r input : holds4 w k (4 * S r) -> blk s = rounds w r input ->
  blk (round_block rot s k) = rounds w (S r) input /\ wok (round_block rot s k).
Proof.
  intros Hk Hs. destruct (holds4_key w k (S r) Hk) as [Ek Uk]. destruct (round_ok s k Uk) as [E U]. split; [|done].
  rewrite E, Hs, Ek. done.
Qed.

Lemma last_step w s k r input : holds4 w k (4 * S r) -> blk s = rounds w r input ->
  blk (last_block s k) = Cipher w (S r) input /\ wok (last_block s k).
Proof.
  intros Hk Hs. destruct (holds4_key w k (S r) Hk) as [Ek Uk]. destruct (last_ok s k) as [E U]. split; [|done].
  rewrite E, Hs, Ek. unfold Cipher. by replace (S r - 1)%nat with r by lia.
Qed.
