(* ===== verification/AesGoldThms.v ===== *)
(** * The theorems about the software model of the AES core

    The loops of the three encryption routines run through the rounds of the
    standard with the words of its key schedule. *)

From S2P Require Import Prelude Fips197 AesGold AesGoldEq.

#[local] Opaque tab t0 sbox gmul byte_of word_of key_core next_rcon sub_byte rot_down_8 round_block last_block rcon_byte.

(** Indices into the schedule. *)
Ltac at_index := solve [eapply holds_eq; [|eassumption]; lia].

(** The fields of the variables. *)
Ltac fields := cbn [v6_state v6_k0 v6_k1 v6_k2 v6_k3 v6_k4 v6_k5 v6_rcon v8_state v8_k v8_l v8_rcon q0 q1 q2 q3].

(** ** 128-bit keys *)

Section k128.
Context (w : nat -> column).
Context (Hstep : forall i, (4 <= i < 44)%nat -> w i = cxor (w (i - 4)%nat) (key_temp 4 i (w (i - 1)%nat))).

Lemma expand_128_ok k i : holds4 w k (4 * i) -> (i < 10)%nat -> holds4 w (expand_128 k (rcon_byte i)) (4 * S i).
Proof using Hstep.
  intros (H0 & H1 & H2 & H3) Hi. unfold expand_128. cbv zeta.
  assert (K0 : holds w (Z.lxor (q0 k) (key_core (q3 k) (rcon_byte i))) (4 * S i)).
  { apply (holds_core 4 44 w Hstep ltac:(lia) i); [lia|lia|at_index..]. }
  apply (holds_chain 4 44 w Hstep ltac:(lia) (S i) 0); first [lia|at_index].
Qed.

(** The variables after [i] rounds. *)
Definition inv4 (input : block) (i : nat) (v : vars4) : Prop :=
  blk (v4_state v) = rounds w i input /\ holds4 w (v4_k v) (4 * i) /\ v4_rcon v = rcon_byte i.

Lemma round_128_ok input i v : inv4 input i v -> (i < 10)%nat -> inv4 input (S i) (round_128 rot v).
Proof using Hstep.
  intros (Hs & Hk & Hr) Hi. unfold round_128. cbv zeta. rewrite Hr. pose proof (expand_128_ok _ i Hk Hi) as Hk'.
  split_and!; cbn [v4_state v4_k v4_rcon]; [by apply round_step|done|apply rcon_next].
Qed.

Lemma loop_128_ok input n : forall i v, inv4 input i v -> (i + n <= 10)%nat -> inv4 input (i + n) (loop_128_no_branch n v).
Proof using Hstep.
  induction n as [|n IH]; intros i v Hv Hn; [by rewrite Nat.add_0_r|]. cbn [loop_128_no_branch].
  replace (i + S n)%nat with (S i + n)%nat by lia. apply IH; [|lia]. apply round_128_ok; [done|lia].
Qed.

(** Up to the last round the loop with the branch is the one without. *)
Lemma loop_128_branch n : forall i v, i + Z.of_nat n <= 10 ->
  loop_128 n i v = loop_128_no_branch n v.
Proof.
  induction n as [|n IH]; intros i v Hi; [done|]. cbn [loop_128 loop_128_no_branch]. replace (i =? 10) with false by lia.
  rewrite IH by lia. done.
Qed.

End k128.

(** ** 192-bit keys *)

Section k192.
Context (w : nat -> column).
Context (Hstep : forall i, (6 <= i < 52)%nat -> w i = cxor (w (i - 6)%nat) (key_temp 6 i (w (i - 1)%nat))).

(** The six words from [i] on. *)
Definition holds6 (v : vars6) (i : nat) : Prop :=
  holds w (v6_k0 v) i /\ holds w (v6_k1 v) (i + 1) /\ holds w (v6_k2 v) (i + 2) /\ holds w (v6_k3 v) (i + 3) /\
  holds w (v6_k4 v) (i + 4) /\ holds w (v6_k5 v) (i + 5).

(** The next four words. *)
Lemma expand_192_ok v j : holds6 v (6 * j) -> v6_rcon v = rcon_byte j -> (6 * S j + 3 < 52)%nat -> holds4 w (expand_192 v) (6 * S j).
Proof using Hstep.
  intros (H0 & H1 & H2 & H3 & H4 & H5) Hr Hj. unfold expand_192. cbv zeta. rewrite Hr.
  assert (K0 : holds w (Z.lxor (v6_k0 v) (key_core (v6_k5 v) (rcon_byte j))) (6 * S j)).
  { apply (holds_core 6 52 w Hstep ltac:(lia) j); [lia|lia|at_index..]. }
  apply (holds_chain 6 52 w Hstep ltac:(lia) (S j) 0); first [lia|at_index].
Qed.

(** The last two of six. *)
Lemma pair_192_ok j k3 k4 k5 : (0 < j)%nat -> (6 * j + 5 < 52)%nat -> holds w k3 (6 * j + 3) ->
  holds w k4 (6 * j - 2) -> holds w k5 (6 * j - 1) ->
  holds w (Z.lxor k4 k3) (6 * j + 4) /\ holds w (Z.lxor k5 (Z.lxor k4 k3)) (6 * j + 5).
Proof using Hstep.
  intros H0 Hj H3 H4 H5.
  assert (K4 : holds w (Z.lxor k4 k3) (6 * j + 4)) by (apply (holds_plain 6 52 w Hstep ltac:(lia) j 4); [lia..|at_index|at_index]).
  split; [done|]. apply (holds_plain 6 52 w Hstep ltac:(lia) j 5); [lia..|at_index|at_index].
Qed.

(** The variables at label [a], before round [3 m + 1]. *)
Definition inv6 (input : block) (m : nat) (v : vars6) : Prop :=
  blk (v6_state v) = rounds w (3 * m) input /\ holds6 v (12 * m) /\ v6_rcon v = rcon_byte (2 * m).

(** The variables after two more rounds. *)
Definition mid6 (input : block) (m : nat) (v : vars6) : Prop :=
  blk (v6_state v) = rounds w (3 * m + 2) input /\ holds6 v (12 * m + 6) /\ v6_rcon v = rcon_byte (2 * m + 1).

Lemma two_rounds_192_ok input m v : inv6 input m v -> (12 * m + 11 < 52)%nat -> mid6 input m (two_rounds_192 v).
Proof using Hstep.
  intros (Hs & Hk & Hr) Hm. assert (E : (12 * m = 6 * (2 * m))%nat) by lia. rewrite E in Hk.
  destruct (expand_192_ok v (2 * m) Hk Hr ltac:(lia)) as (K0 & K1 & K2 & K3). destruct Hk as (_ & _ & _ & _ & H4 & H5).
  destruct v as [s k0 k1 k2 k3 k4 k5 r]. unfold expand_192, two_rounds_192 in *. cbn [v6_state v6_k0 v6_k1 v6_k2 v6_k3 v6_k4 v6_k5 v6_rcon q0 q1 q2 q3] in K0, K1, K2, K3, H4, H5, Hs, Hr |- *.
  set (a0 := Z.lxor k0 (key_core k5 r)) in *. set (a1 := Z.lxor k1 a0) in *. set (a2 := Z.lxor k2 a1) in *. set (a3 := Z.lxor k3 a2) in *.
  destruct (pair_192_ok (S (2 * m)) a3 k4 k5) as [K4 K5]; [lia|lia|at_index..|].
  set (a4 := Z.lxor k4 a3) in *. set (a5 := Z.lxor k5 a4) in *. clearbody a0 a1 a2 a3 a4 a5.
  destruct (round_step w s (mkWords k4 k5 a0 a1) (3 * m) input) as [Es _]; [split_and!; fields; at_index|done|].
  destruct (round_step w (round_block rot s (mkWords k4 k5 a0 a1)) (mkWords a2 a3 a4 a5) (S (3 * m)) input) as [Et _];
    [split_and!; fields; at_index|done|].
  split_and!; fields; [by replace (3 * m + 2)%nat with (S (S (3 * m))) by lia|split_and!; at_index|].
  rewrite Hr. replace (2 * m + 1)%nat with (S (2 * m)) by lia. apply rcon_next.
Qed.

(** The body of the loop and the start of the next turn. *)
Lemma body_192_ok input m v : inv6 input m v -> (12 * m + 17 < 52)%nat -> inv6 input (S m) (pre_192 (body_192 v)).
Proof using Hstep.
  intros Hv Hm. destruct (two_rounds_192_ok input m v Hv ltac:(lia)) as (Hs & Hk & Hr). unfold body_192. cbv zeta.
  set (u := two_rounds_192 v) in *. clearbody u.
  assert (E : (12 * m + 6 = 6 * (2 * m + 1))%nat) by lia. rewrite E in Hk.
  pose proof (expand_192_ok u (2 * m + 1) Hk Hr ltac:(lia)) as Hx. destruct Hk as (_ & _ & _ & _ & H4 & H5).
  destruct (round_step w (v6_state u) (expand_192 u) (3 * m + 2) input) as [Es _]; [|done|].
  { destruct Hx as (X0 & X1 & X2 & X3). split_and!; at_index. }
  destruct Hx as (X0 & X1 & X2 & X3). unfold pre_192. cbv zeta.
  destruct (pair_192_ok (2 * m + 2) (q3 (expand_192 u)) (v6_k4 u) (v6_k5 u)) as [K4 K5]; [lia|lia|at_index..|].
  split_and!; fields; [by replace (3 * S m)%nat with (S (3 * m + 2)) by lia|split_and!; fields; at_index|].
  rewrite Hr. replace (2 * S m)%nat with (S (2 * m + 1)) by lia. apply rcon_next.
Qed.

End k192.

(** ** 256-bit keys *)

Section k256.
Context (w : nat -> column).
Context (Hstep : forall i, (8 <= i < 60)%nat -> w i = cxor (w (i - 8)%nat) (key_temp 8 i (w (i - 1)%nat))).

Lemma expand_256_ok k l j : holds4 w k (8 * j) -> holds4 w l (8 * j + 4) -> (8 * S j + 3 < 60)%nat ->
  holds4 w (expand_256 k l (rcon_byte j)) (8 * S j).
Proof using Hstep.
  intros (H0 & H1 & H2 & H3) (_ & _ & _ & L3) Hj. unfold expand_256. cbv zeta.
  assert (K0 : holds w (Z.lxor (q0 k) (key_core (q3 l) (rcon_byte j))) (8 * S j)).
  { apply (holds_core 8 60 w Hstep ltac:(lia) j); [lia|lia|at_index..]. }
  apply (holds_chain 8 60 w Hstep ltac:(lia) (S j) 0); first [lia|at_index].
Qed.

Lemma upper_256_ok k l j : holds4 w k (8 * S j) -> holds4 w l (8 * j + 4) -> (8 * S j + 7 < 60)%nat ->
  let k4 := Z.lxor (q0 l) (sub_byte (q3 k)) in let k5 := Z.lxor (q1 l) k4 in let k6 := Z.lxor (q2 l) k5 in
  holds4 w (mkWords k4 k5 k6 (Z.lxor (q3 l) k6)) (8 * S j + 4).
Proof using Hstep.
  intros (_ & _ & _ & H3) (L0 & L1 & L2 & L3) Hj. cbv zeta.
  assert (K0 : holds w (Z.lxor (q0 l) (sub_byte (q3 k))) (8 * S j + 4)).
  { apply (holds_sub 8 60 w Hstep ltac:(lia) (S j)); [lia..|at_index|at_index]. }
  apply (holds_chain 8 60 w Hstep ltac:(lia) (S j) 4); first [lia|at_index].
Qed.

(** The variables at label [a], before round [2 m + 1]. *)
Definition inv8 (input : block) (m : nat) (v : vars8) : Prop :=
  blk (v8_state v) = rounds w (2 * m) input /\ holds4 w (v8_k v) (8 * m) /\ holds4 w (v8_l v) (8 * m + 4) /\
  v8_rcon v = rcon_byte m.

(** The round with the upper words. *)
Lemma upper_round_ok input m v : inv8 input m v -> blk (round_block rot (v8_state v) (v8_l v)) = rounds w (2 * m + 1) input.
Proof.
  intros (Hs & _ & (L0 & L1 & L2 & L3) & _). replace (2 * m + 1)%nat with (S (2 * m)) by lia.
  apply round_step; [split_and!; at_index|done].
Qed.

Lemma body_256_ok input m v : inv8 input m v -> (8 * S m + 7 < 60)%nat -> inv8 input (S m) (pre_256 (body_256 v)).
Proof using Hstep.
  intros Hv Hm. pose proof (upper_round_ok input m v Hv) as Hu. destruct Hv as (Hs & Hk & Hl & Hr).
  pose proof (expand_256_ok _ _ m Hk Hl ltac:(lia)) as Hk'. pose proof (upper_256_ok _ _ m Hk' Hl Hm) as Hl'. cbv zeta in Hl'.
  unfold body_256, pre_256. cbv zeta. fields. rewrite Hr.
  split_and!; fields; [|exact Hk'|exact Hl'|apply rcon_next].
  replace (2 * S m)%nat with (S (2 * m + 1)) by lia. destruct Hk' as (K0 & K1 & K2 & K3).
  apply round_step; [split_and!; at_index|done].
Qed.

End k256.

(** ** The routines *)

(** The key schedule of a key, as the standard computes it. *)
Lemma schedule_step Nk key n : length key = Nk -> (0 < Nk)%nat -> let w i := nth i (KeyExpansion Nk key n) zero_col in
  forall i, (Nk <= i < Nk + n)%nat -> w i = cxor (w (i - Nk)%nat) (key_temp Nk i (w (i - 1)%nat)).
Proof. intros Hk Hn w i Hi. apply KeyExpansion_step; [done|lia|done]. Qed.

Lemma holds_key Nk key n k i : nth_error key i = Some (col k) -> is_u32 k -> holds (fun i => nth i (KeyExpansion Nk key n) zero_col) k i.
Proof.
  intros Hk Hu. split; [|done]. rewrite KeyExpansion_key by (apply nth_error_Some; congruence). symmetry. by apply nth_error_nth.
Qed.

Lemma add_key_ok w state key input : blk state = input -> holds4 w key 0 -> blk (add_key state key) = rounds w 0 input.
Proof.
  intros <- Hk. destruct (holds4_key w key 0 Hk) as [E _]. cbn [rounds]. rewrite <- E. unfold blk, add_key, AddRoundKey. cbn [q0 q1 q2 q3].
  by rewrite !col_lxor.
Qed.

(** The words of a key. *)
Definition key_cols (k : words) : list column := [col (q0 k); col (q1 k); col (q2 k); col (q3 k)].

Lemma blk_inj a b : wok a -> wok b -> blk a = blk b -> a = b.
Proof.
  intros (A0 & A1 & A2 & A3) (B0 & B1 & B2 & B3) E. destruct a as [a0 a1 a2 a3], b as [b0 b1 b2 b3]. cbn [q0 q1 q2 q3] in *.
  assert (C : forall x y, is_u32 x -> is_u32 y -> col x = col y -> x = y).
  { intros x y Hx Hy Exy. rewrite (word_split x Hx), (word_split y Hy). by injection Exy as -> -> -> ->. }
  unfold blk in E. cbn [q0 q1 q2 q3] in E. f_equal; apply C; try done; congruence.
Qed.

Section keys.
Context (state key : words) (Hkey : wok key).

Let w128 (i : nat) : column := nth i (KeyExpansion 4 (key_cols key) 40) zero_col.

Lemma inv_128 : inv4 w128 (blk state) 0 (mkV4 (add_key state key) key 1).
Proof using Hkey.
  destruct Hkey as (K0 & K1 & K2 & K3). assert (H : holds4 w128 key 0) by (split_and!; by apply holds_key).
  split_and!; cbn [v4_state v4_k v4_rcon]; [by apply add_key_ok|exact H|done].
Qed.

Lemma encrypt_128_ok :
  blk (encrypt_128_key_expand_inline_no_branch state key) = AES 4 (key_cols key) (blk state) /\
  wok (encrypt_128_key_expand_inline_no_branch state key).
Proof using Hkey.
  pose proof (schedule_step 4 (key_cols key) 40 eq_refl ltac:(lia)) as Hs. cbv zeta in Hs.
  destruct (loop_128_ok w128 Hs (blk state) 9 0 _ inv_128 ltac:(lia)) as (Hst & Hk & Hr). change (0 + 9)%nat with 9%nat in *.
  unfold encrypt_128_key_expand_inline_no_branch. cbv zeta. rewrite Hr.
  apply (last_step w128 _ _ 9); [|exact Hst]. apply (expand_128_ok w128 Hs _ 9 Hk). lia.
Qed.

Lemma encrypt_128_branch_ok :
  blk (encrypt_128_key_expand_inline state key) = AES 4 (key_cols key) (blk state) /\
  wok (encrypt_128_key_expand_inline state key).
Proof using Hkey.
  pose proof (schedule_step 4 (key_cols key) 40 eq_refl ltac:(lia)) as Hs. cbv zeta in Hs.
  destruct (loop_128_ok w128 Hs (blk state) 9 0 _ inv_128 ltac:(lia)) as (Hst & Hk & Hr). change (0 + 9)%nat with 9%nat in *.
  unfold encrypt_128_key_expand_inline.
  assert (E : forall v, loop_128 10 1 v = round_128 (final_mask true) (loop_128_no_branch 9 v)).
  { intros v. rewrite <- (loop_128_branch 9 1) by lia. reflexivity. }
  rewrite E. unfold round_128. cbv zeta. cbn [v4_state]. rewrite Hr. pose proof (expand_128_ok w128 Hs _ 9 Hk ltac:(lia)) as Hk'.
  destruct (holds4_key w128 _ 10 Hk') as [Ek Uk]. destruct (final_ok (v4_state (loop_128_no_branch 9 (mkV4 (add_key state key) key 1))) _ Uk) as [Ef Uf].
  split; [|exact Uf]. rewrite Ef, Hst, Ek. reflexivity.
Qed.

Lemma encrypt_192_ok k4 k5 : is_u32 k4 -> is_u32 k5 ->
  blk (encrypt_192_key_expand_inline_no_branch state key k4 k5) = AES 6 (key_cols key ++ [col k4; col k5]) (blk state) /\
  wok (encrypt_192_key_expand_inline_no_branch state key k4 k5).
Proof using Hkey.
  intros H4 H5. destruct Hkey as (K0 & K1 & K2 & K3). set (ks := key_cols key ++ [col k4; col k5]).
  pose proof (schedule_step 6 ks 46 eq_refl ltac:(lia)) as Hs. cbv zeta in Hs.
  set (w := fun i => nth i (KeyExpansion 6 ks 46) zero_col) in *.
  assert (H : holds4 w key 0) by (split_and!; by apply holds_key).
  assert (I0 : inv6 w (blk state) 0 (mkV6 (add_key state key) (q0 key) (q1 key) (q2 key) (q3 key) k4 k5 1)).
  { split_and!; fields; [by apply add_key_ok| |done]. destruct H as (? & ? & ? & ?). split_and!; try done; by apply holds_key. }
  unfold encrypt_192_key_expand_inline_no_branch. cbv zeta. cbn [loop_192].
  pose proof (body_192_ok w Hs (blk state) 0 _ I0 ltac:(lia)) as I1. pose proof (body_192_ok w Hs (blk state) 1 _ I1 ltac:(lia)) as I2.
  pose proof (body_192_ok w Hs (blk state) 2 _ I2 ltac:(lia)) as I3.
  destruct (two_rounds_192_ok w Hs (blk state) 3 _ I3 ltac:(lia)) as (Ms & Mk & Mr).
  set (v := two_rounds_192 _) in *. clearbody v.
  apply (last_step w _ _ 11); [|exact Ms]. exact (expand_192_ok w Hs v 7 Mk Mr ltac:(lia)).
Qed.

Lemma encrypt_256_ok key4 : wok key4 ->
  blk (encrypt_256_key_expand_inline_no_branch state key key4) = AES 8 (key_cols key ++ key_cols key4) (blk state) /\
  wok (encrypt_256_key_expand_inline_no_branch state key key4).
Proof using Hkey.
  intros (L0 & L1 & L2 & L3). destruct Hkey as (K0 & K1 & K2 & K3). set (ks := key_cols key ++ key_cols key4).
  pose proof (schedule_step 8 ks 52 eq_refl ltac:(lia)) as Hs. cbv zeta in Hs.
  set (w := fun i => nth i (KeyExpansion 8 ks 52) zero_col) in *.
  assert (H : holds4 w key 0) by (split_and!; by apply holds_key).
  assert (I0 : inv8 w (blk state) 0 (mkV8 (add_key state key) key key4 1)).
  { split_and!; fields; [by apply add_key_ok|exact H|split_and!; by apply holds_key|done]. }
  unfold encrypt_256_key_expand_inline_no_branch. cbv zeta. cbn [loop_256].
  pose proof (body_256_ok w Hs (blk state) 0 _ I0 ltac:(lia)) as I1. pose proof (body_256_ok w Hs (blk state) 1 _ I1 ltac:(lia)) as I2.
  pose proof (body_256_ok w Hs (blk state) 2 _ I2 ltac:(lia)) as I3. pose proof (body_256_ok w Hs (blk state) 3 _ I3 ltac:(lia)) as I4.
  pose proof (body_256_ok w Hs (blk state) 4 _ I4 ltac:(lia)) as I5. pose proof (body_256_ok w Hs (blk state) 5 _ I5 ltac:(lia)) as I6.
  set (v := pre_256 _) in *. clearbody v. pose proof (upper_round_ok w _ _ _ I6) as Hu. destruct I6 as (_ & Hk & Hl & Hr). rewrite Hr.
  apply (last_step w _ _ 13); [|exact Hu]. exact (expand_256_ok w Hs _ _ 6 Hk Hl ltac:(lia)).
Qed.

End keys.

(** C19: the software model of the AES core is the cipher of FIPS-197.  For all
    blocks and all keys of 128, 192 and 256 bits, the words that the table-driven
    routines leave in the state are the columns of the cipher's output, with the
    key schedule that the standard prescribes. *)
Theorem aes_is_fips197 state key k4 k5 key4 : wok key -> is_u32 k4 -> is_u32 k5 -> wok key4 ->
  blk (encrypt_128_key_expand_inline_no_branch state key) = AES 4 (key_cols key) (blk state) /\
  blk (encrypt_192_key_expand_inline_no_branch state key k4 k5) = AES 6 (key_cols key ++ [col k4; col k5]) (blk state) /\
  blk (encrypt_256_key_expand_inline_no_branch state key key4) = AES 8 (key_cols key ++ key_cols key4) (blk state).
Proof. intros. split_and!; [by apply encrypt_128_ok|by apply encrypt_192_ok|by apply encrypt_256_ok]. Qed.

Lemma aes_is_fips197_witness :
  let zero := mkWords 0 0 0 0 in
  blk (encrypt_256_key_expand_inline_no_branch (mkWords 5 0 0 0) zero zero) = AES 8 (key_cols zero ++ key_cols zero) (blk (mkWords 5 0 0 0)).
Proof.
  cbv zeta. assert (H : is_u32 0) by (unfold is_u32; lia). assert (W : wok (mkWords 0 0 0 0)) by done.
  exact (proj2 (proj2 (aes_is_fips197 (mkWords 5 0 0 0) (mkWords 0 0 0 0) 0 0 (mkWords 0 0 0 0) W H H W))).
Defined.

(** The two routines for 128-bit keys agree: the one that masks the table's
    words in the last round of its loop and the one that takes the last round out
    of the loop leave the same words. *)
Theorem aes128_branch_free state key : wok key ->
  encrypt_128_key_expand_inline state key = encrypt_128_key_expand_inline_no_branch state key.
Proof.
  intros Hk. destruct (encrypt_128_ok state key Hk) as [E U], (encrypt_128_branch_ok state key Hk) as [E' U'].
  apply blk_inj; [exact U'|exact U|congruence].
Qed.

Lemma aes128_branch_free_witness : let k := mkWords 0x03020100 0x07060504 0x0b0a0908 0x0f0e0d0c in
  encrypt_128_key_expand_inline k k = encrypt_128_key_expand_inline_no_branch k k.
Proof. cbv zeta. apply aes128_branch_free. unfold wok, is_u32. cbn. lia. Defined.
