(* ===== verification/PresTid.v ===== *)
(** * Transport identifiers

    Models [tid_size], [tid_secure] and [tid_equal] of
    [cg/scst/src/scst_pres.c]: an initiator port is named by a transport
    identifier, bytes whose first one tells the protocol.  A pointer to one is the
    list of the bytes from there on; a read past the end has no result. *)

From S2P Require Import Prelude.

Definition SCSI_TRANSPORTID_PROTOCOLID_ISCSI : Z := 5.
Definition TID_COMMON_SIZE : Z := 24.

(** A byte at an index. *)
Definition at_ (b : list Z) (i : Z) : option Z := if i <? 0 then None else b !! Z.to_nat i.

Arguments at_ : simpl never.

(** Big-endian fields. *)
Definition be16 (b : list Z) (i : Z) : option Z := x ← at_ b i; y ← at_ b (i + 1); Some (x * 256 + y).
Definition be32 (b : list Z) (i : Z) : option Z := x ← be16 b i; y ← be16 b (i + 2); Some (x * 65536 + y).
Definition be64 (b : list Z) (i : Z) : option Z := x ← be32 b i; y ← be32 b (i + 4); Some (x * 4294967296 + y).

Definition tid_iscsi (tid : list Z) : option bool :=
  b ← at_ tid 0; Some (Z.land b 0x0f =? SCSI_TRANSPORTID_PROTOCOLID_ISCSI).

Definition tid_size (tid : list Z) : option Z :=
  i ← tid_iscsi tid;
  if i : bool then n ← be16 tid 2; Some (n + 4) else Some TID_COMMON_SIZE.

(** The buffer with the last byte of the identifier at [off] set to zero. *)
Definition tid_secure (buf : list Z) (off : Z) : option (list Z) :=
  let tid := drop (Z.to_nat off) buf in
  i ← tid_iscsi tid;
  if i : bool then
    n ← tid_size tid;
    at_ tid (n - 1);;
    Some (<[Z.to_nat (off + n - 1) := 0]> buf)
  else Some buf.

(** [tolower] of the kernel, whose table is Latin 1. *)
Definition tolower (c : Z) : Z :=
  if (65 <=? c) && (c <=? 90) || (192 <=? c) && (c <=? 222) && negb (c =? 215) then c + 32 else c.

Arguments tolower : simpl never.

(** [strnlen] and [strnchr] on the first [max] bytes. *)
Fixpoint strnlen (s : list Z) (max : nat) {struct max} : option Z :=
  match max with
  | O => Some 0
  | S max => match s with [] => None | c :: s => if c =? 0 then Some 0 else n ← strnlen s max; Some (n + 1) end
  end.

(** The distance to the character, [-1] when there is none. *)
Fixpoint strnchr (s : list Z) (max : nat) (ch : Z) {struct max} : option Z :=
  match max with
  | O => Some (-1)
  | S max =>
      match s with
      | [] => None
      | c :: s =>
          if c =? 0 then Some (-1)
          else if c =? ch then Some 0
          else n ← strnchr s max ch; Some (if n <? 0 then -1 else n + 1)
      end
  end.

(** The length of an iSCSI name; [None] inside is an invalid identifier. *)
Definition name_len (name : list Z) (max fmt other_fmt : Z) : option (option Z) :=
  if fmt =? 0 then n ← strnlen name (Z.to_nat max); Some (Some n)
  else if fmt =? 0x40 then
    if negb (fmt =? other_fmt)
    then n ← strnchr name (Z.to_nat max) 44; Some (if n <? 0 then None else Some n)
    else n ← strnlen name (Z.to_nat max); Some (Some n)
  else Some None.

Fixpoint same_name (a b : list Z) (len : nat) {struct len} : option bool :=
  match len with
  | O => Some true
  | S len =>
      match a, b with
      | x :: a, y :: b => if tolower x =? tolower y then same_name a b len else Some false
      | _, _ => None
      end
  end.

(** [memcmp(a, b, len) == 0]. *)
Fixpoint memeq (a b : list Z) (len : nat) {struct len} : option bool :=
  match len with
  | O => Some true
  | S len => match a, b with x :: a, y :: b => if x =? y then memeq a b len else Some false | _, _ => None end
  end.

(** A null pointer is [None]. *)
Definition tid_equal (ta tb : option (list Z)) : option bool :=
  match ta, tb with
  | Some a, Some b =>
      a0 ← at_ a 0;
      b0 ← at_ b 0;
      if negb (Z.land a0 0x0f =? Z.land b0 0x0f) then Some false
      else if Z.land a0 0x0f =? SCSI_TRANSPORTID_PROTOCOLID_ISCSI then
        let a_fmt := Z.land a0 0xc0 in
        let b_fmt := Z.land b0 0xc0 in
        na ← tid_size a;
        nb ← tid_size b;
        let a := drop 4 a in
        let b := drop 4 b in
        la ← name_len a (na - 4) a_fmt b_fmt;
        match la with
        | None => Some false
        | Some la =>
            lb ← name_len b (nb - 4) b_fmt a_fmt;
            match lb with
            | None => Some false
            | Some lb => if negb (la =? lb) then Some false else same_name a b (Z.to_nat la)
            end
        end
      else memeq a b (Z.to_nat TID_COMMON_SIZE)
  | _, _ => Some false
  end.

(** ** What the comparison promises *)

(** A complete identifier, of which the bytes are bytes. *)
Definition tid_ok (t : list Z) : Prop :=
  Forall (fun b => 0 <= b < 256) t /\ exists n, tid_size t = Some n /\ n <= Z.of_nat (length t).

Lemma at_some b i : 0 <= i < Z.of_nat (length b) -> is_Some (at_ b i).
Proof. intros H. unfold at_. replace (i <? 0) with false by lia. apply lookup_lt_is_Some. lia. Qed.

Lemma at_byte b i x : Forall (fun b => 0 <= b < 256) b -> at_ b i = Some x -> 0 <= x < 256.
Proof. intros H. unfold at_. destruct (i <? 0); [done|]. intros Hx. exact (proj1 (Forall_lookup _ _) H _ _ Hx). Qed.

Lemma tid_size_pos t n : Forall (fun b => 0 <= b < 256) t -> tid_size t = Some n -> 4 <= n.
Proof.
  intros HF. unfold tid_size, be16. destruct (tid_iscsi t) as [[]|]; cbn; [|intros [= <-]; unfold TID_COMMON_SIZE; lia|done].
  destruct (at_ t 2) as [x|] eqn:E2; cbn; [|done]. destruct (at_ t (2 + 1)) as [y|] eqn:E3; cbn; [|done]. intros [= <-].
  pose proof (at_byte t _ _ HF E2). pose proof (at_byte t _ _ HF E3). lia.
Qed.

Lemma strnlen_total max : forall s, (max <= length s)%nat -> exists n, strnlen s max = Some n /\ 0 <= n <= Z.of_nat max.
Proof.
  induction max as [|max IH]; intros s H; [exists 0; split; [done|lia]|]. destruct s as [|c s]; cbn in *; [lia|].
  case_if; [exists 0; split; [done|lia]|]. destruct (IH s) as (n & -> & Hn); [lia|]. exists (n + 1). split; [done|lia].
Qed.

Lemma strnchr_total ch max : forall s, (max <= length s)%nat -> exists n, strnchr s max ch = Some n /\ n < Z.of_nat max.
Proof.
  induction max as [|max IH]; intros s H; [exists (-1); split; [done|lia]|]. destruct s as [|c s]; cbn in *; [lia|].
  case_if; [exists (-1); split; [done|lia]|]. case_if; [exists 0; split; [done|lia]|]. destruct (IH s) as (n & -> & Hn); [lia|].
  eexists. cbn. split; [reflexivity|]. case_if; lia.
Qed.

Lemma name_len_total s max f f' : 0 <= max <= Z.of_nat (length s) -> exists r, name_len s max f f' = Some r /\
  match r with Some n => 0 <= n <= max | None => True end.
Proof.
  intros H. unfold name_len. destruct (strnlen_total (Z.to_nat max) s) as (n & En & Hn); [lia|].
  destruct (strnchr_total 44 (Z.to_nat max) s) as (m & Em & Hm); [lia|]. rewrite En, Em. cbn.
  case_if; [exists (Some n); split; [done|lia]|]. case_if; [|by exists None]. case_if; [|exists (Some n); split; [done|lia]].
  eexists. split; [reflexivity|]. case_if; [done|lia].
Qed.

Lemma same_name_total len : forall a b, (len <= length a)%nat -> (len <= length b)%nat -> is_Some (same_name a b len).
Proof.
  induction len as [|len IH]; intros [|x a] [|y b] Ha Hb; cbn in *; try lia; eauto. case_if; [apply IH; lia|eauto].
Qed.

Lemma memeq_total len : forall a b, (len <= length a)%nat -> (len <= length b)%nat -> is_Some (memeq a b len).
Proof.
  induction len as [|len IH]; intros [|x a] [|y b] Ha Hb; cbn in *; try lia; eauto. case_if; [apply IH; lia|eauto].
Qed.

(** Comparing complete identifiers stays inside them. *)
Lemma tid_equal_total a b : tid_ok a -> tid_ok b -> is_Some (tid_equal (Some a) (Some b)).
Proof.
  intros [Fa (na & Ea & Ha)] [Fb (nb & Eb & Hb)]. pose proof (tid_size_pos a na Fa Ea). pose proof (tid_size_pos b nb Fb Eb).
  unfold tid_equal. destruct (at_some a 0) as [a0 E0]; [lia|]. destruct (at_some b 0) as [b0 F0]; [lia|]. rewrite E0, F0. cbn.
  destruct (Z.eqb_spec (Z.land a0 15) (Z.land b0 15)) as [H1|]; cbn; [|eauto]. destruct (Z.land a0 15 =? SCSI_TRANSPORTID_PROTOCOLID_ISCSI) eqn:H2.
  - rewrite Ea, Eb. cbn. set (fa := Z.land a0 192). set (fb := Z.land b0 192).
    destruct (name_len_total (drop 4 a) (na - 4) fa fb) as (la & -> & Hla); [rewrite length_drop; lia|]. cbn. destruct la as [la|]; [|eauto].
    destruct (name_len_total (drop 4 b) (nb - 4) fb fa) as (lb & -> & Hlb); [rewrite length_drop; lia|]. cbn. destruct lb as [lb|]; [|eauto].
    case_if; [eauto|]. apply same_name_total; rewrite length_drop; lia.
  - assert (na = 24 /\ nb = 24) as [-> ->].
    { unfold tid_size, tid_iscsi in Ea, Eb. rewrite E0 in Ea. rewrite F0 in Eb. cbn in Ea, Eb. rewrite <- H1 in Eb. rewrite H2 in Ea, Eb.
      unfold TID_COMMON_SIZE in *. split; congruence. }
    apply memeq_total; unfold TID_COMMON_SIZE; lia.
Qed.

Lemma same_name_sym len : forall a b, same_name a b len = same_name b a len.
Proof. induction len as [|len IH]; intros [|x a] [|y b]; cbn; try done. rewrite (Z.eqb_sym (tolower y)). by destruct (_ =? _). Qed.

Lemma memeq_sym len : forall a b, memeq a b len = memeq b a len.
Proof. induction len as [|len IH]; intros [|x a] [|y b]; cbn; try done. rewrite (Z.eqb_sym y). by destruct (_ =? _). Qed.

(** The comparison is symmetric. *)
Lemma tid_equal_sym a b r : tid_ok a -> tid_ok b -> tid_equal (Some a) (Some b) = Some r -> tid_equal (Some b) (Some a) = Some r.
Proof.
  intros [Fa (na & Ea & Ha)] [Fb (nb & Eb & Hb)]. pose proof (tid_size_pos a na Fa Ea). pose proof (tid_size_pos b nb Fb Eb).
  unfold tid_equal. destruct (at_some a 0) as [a0 E0]; [lia|]. destruct (at_some b 0) as [b0 F0]; [lia|]. rewrite E0, F0. cbn.
  rewrite (Z.eqb_sym (Z.land b0 15)). destruct (Z.eqb_spec (Z.land a0 15) (Z.land b0 15)) as [H1|]; cbn; [|done]. rewrite <- H1.
  destruct (Z.land a0 15 =? SCSI_TRANSPORTID_PROTOCOLID_ISCSI); [|by rewrite memeq_sym].
  rewrite Ea, Eb. cbn. set (fa := Z.land a0 192). set (fb := Z.land b0 192).
  destruct (name_len_total (drop 4 a) (na - 4) fa fb) as (la & -> & Hla); [rewrite length_drop; lia|].
  destruct (name_len_total (drop 4 b) (nb - 4) fb fa) as (lb & -> & Hlb); [rewrite length_drop; lia|]. cbn.
  destruct la as [la|], lb as [lb|]; try done. rewrite (Z.eqb_sym lb). destruct (Z.eqb_spec la lb) as [->|]; cbn; [|done]. by rewrite same_name_sym.
Qed.

(** ** Copies *)

Lemma at_take b n i : 0 <= i < n -> at_ (take (Z.to_nat n) b) i = at_ b i.
Proof. intros H. unfold at_. replace (i <? 0) with false by lia. apply lookup_take_lt. lia. Qed.

Lemma strnlen_take max : forall s m, (max <= m)%nat -> strnlen (take m s) max = strnlen s max.
Proof.
  induction max as [|max IH]; intros [|c s] [|m] H; cbn; try done; [lia|]. case_if; [done|]. by rewrite IH by lia.
Qed.

Lemma strnchr_take ch max : forall s m, (max <= m)%nat -> strnchr (take m s) max ch = strnchr s max ch.
Proof.
  induction max as [|max IH]; intros [|c s] [|m] H; cbn; try done; [lia|]. case_if; [done|]. case_if; [done|]. by rewrite IH by lia.
Qed.

Lemma name_len_take s m max f f' : (Z.to_nat max <= m)%nat -> name_len (take m s) max f f' = name_len s max f f'.
Proof. intros H. unfold name_len. by rewrite strnlen_take, strnchr_take. Qed.

Lemma same_name_take len : forall a b m, (len <= m)%nat -> same_name (take m a) b len = same_name a b len.
Proof. induction len as [|len IH]; intros [|x a] [|y b] [|m] H; cbn; try done; [lia|]. case_if; [apply IH; lia|done]. Qed.

Lemma memeq_take len : forall a b m, (len <= m)%nat -> memeq (take m a) b len = memeq a b len.
Proof. induction len as [|len IH]; intros [|x a] [|y b] [|m] H; cbn; try done; [lia|]. case_if; [apply IH; lia|done]. Qed.

Lemma tid_size_take t n m : 4 <= m -> tid_size t = Some n -> tid_size (take (Z.to_nat m) t) = Some n.
Proof. intros H. unfold tid_size, tid_iscsi, be16. by rewrite !at_take by lia. Qed.

(** A copy of its [tid_size] bytes is as good as an identifier. *)
Lemma tid_ok_take t n : tid_ok t -> tid_size t = Some n -> tid_ok (take (Z.to_nat n) t).
Proof.
  intros [HF (n' & E & Hl)] E'. assert (n' = n) as -> by congruence. pose proof (tid_size_pos t n HF E).
  split; [by apply Forall_take|]. exists n. split; [by apply tid_size_take|]. rewrite length_take. lia.
Qed.

Lemma tid_equal_take t n o : tid_ok t -> tid_size t = Some n -> tid_equal (Some (take (Z.to_nat n) t)) o = tid_equal (Some t) o.
Proof.
  intros [HF (n' & E & Hl)] E'. assert (n' = n) as -> by congruence. pose proof (tid_size_pos t n HF E).
  destruct o as [b|]; [|done]. unfold tid_equal. rewrite at_take by lia. rewrite (tid_size_take t n n), E by (lia || done). cbn [mbind option_bind].
  destruct (at_ t 0) as [a0|] eqn:E0; [|done]. cbn. destruct (at_ b 0) as [b0|]; [|done]. cbn.
  destruct (negb (Z.land a0 15 =? Z.land b0 15)); [done|]. destruct (Z.land a0 15 =? SCSI_TRANSPORTID_PROTOCOLID_ISCSI) eqn:E5.
  - destruct (tid_size b) as [nb|]; [|done]. cbn. rewrite skipn_firstn_comm. rewrite name_len_take by lia.
    set (fa := Z.land a0 192). set (fb := Z.land b0 192).
    destruct (name_len_total (drop 4 t) (n - 4) fa fb) as (la & -> & Hla); [rewrite length_drop; lia|]. cbn. destruct la as [la|]; [|done].
    destruct (name_len (drop 4 b) (nb - 4) fb fa) as [[lb|]|]; [|done..]. cbn. destruct (negb (la =? lb)); [done|]. apply same_name_take. lia.
  - apply memeq_take. unfold tid_size, tid_iscsi in E. rewrite E0 in E. cbn in E. rewrite E5 in E. injection E as <-. lia.
Qed.

Lemma tid_equal_take_r t n a : tid_ok a -> tid_ok t -> tid_size t = Some n -> tid_equal (Some a) (Some (take (Z.to_nat n) t)) = tid_equal (Some a) (Some t).
Proof.
  intros Ha Ht E. destruct (tid_equal_total a t Ha Ht) as [r Er]. rewrite Er. apply tid_equal_sym; [by eapply tid_ok_take|done|].
  rewrite tid_equal_take by done. by apply tid_equal_sym.
Qed.

(** ** Equality through a full identifier

    The comparison is not transitive: a name without session identifier is equal to
    the name with any of them.  It is through an identifier that has one. *)

Definition tid_full (t : list Z) : Prop :=
  forall b, at_ t 0 = Some b -> Z.land b 0x0f = SCSI_TRANSPORTID_PROTOCOLID_ISCSI -> Z.land b 0xc0 = 0x40.

Lemma memeq_trans len : forall a t b, memeq a t len = Some true -> memeq b t len = Some true -> memeq a b len = Some true.
Proof.
  induction len as [|len IH]; intros [|x a] [|z t] [|y b]; cbn; try done.
  destruct (Z.eqb_spec x z) as [->|]; [|done]. destruct (Z.eqb_spec y z) as [->|]; [|done]. rewrite Z.eqb_refl. apply IH.
Qed.

Lemma same_name_trans len : forall a t b, same_name a t len = Some true -> same_name b t len = Some true -> same_name a b len = Some true.
Proof.
  induction len as [|len IH]; intros [|x a] [|z t] [|y b]; cbn; try done.
  destruct (Z.eqb_spec (tolower x) (tolower z)) as [->|]; [|done]. destruct (Z.eqb_spec (tolower y) (tolower z)) as [->|]; [|done].
  rewrite Z.eqb_refl. apply IH.
Qed.

Lemma same_name_less len : forall len' a b, (len <= len')%nat -> same_name a b len' = Some true -> same_name a b len = Some true.
Proof.
  induction len as [|len IH]; intros [|len'] [|x a] [|y b] H; cbn; try done; try lia. case_if; [apply IH; lia|done].
Qed.

Lemma tolower_comma c d : tolower c = tolower d -> (c =? 44) = (d =? 44).
Proof.
  unfold tolower. intros H. apply eq_iff_eq_true. rewrite !Z.eqb_eq. revert H.
  destruct ((65 <=? c) && (c <=? 90) || _) eqn:Ec; destruct ((65 <=? d) && (d <=? 90) || _) eqn:Ed; lia.
Qed.

Lemma strnlen_nonneg max : forall s n, strnlen s max = Some n -> 0 <= n.
Proof.
  induction max as [|max IH]; intros [|c s] n; cbn; try congruence; try (intros [= <-]; lia).
  case_if; [intros [= <-]; lia|]. destruct (strnlen s max) as [m|] eqn:En; cbn; [|done]. intros [= <-]. apply IH in En. lia.
Qed.

Lemma strnchr_le_strnlen ch max : forall s n m, strnlen s max = Some n -> strnchr s max ch = Some m -> m <= n.
Proof.
  induction max as [|max IH]; intros [|c s] n m; cbn; try congruence; try (intros [= <-] [= <-]; lia).
  case_if; [intros [= <-] [= <-]; lia|]. destruct (strnlen s max) as [n'|] eqn:En; cbn; [|done]. intros [= <-].
  pose proof (strnlen_nonneg _ _ _ En). case_if; [intros [= <-]; lia|]. destruct (strnchr s max ch) as [m'|] eqn:Em; cbn; [|done].
  intros [= <-]. pose proof (IH _ _ _ En Em). case_if; lia.
Qed.

Lemma strnchr_same ma : forall mt a t L, strnlen a ma = Some L -> strnlen t mt = Some L -> same_name a t (Z.to_nat L) = Some true ->
  strnchr a ma 44 = strnchr t mt 44.
Proof.
  induction ma as [|ma IH]; intros mt a t L Ha Ht Hs; cbn in Ha.
  - injection Ha as <-. destruct mt as [|mt]; [done|]. destruct t as [|d t]; [done|]. cbn in Ht |- *. destruct (d =? 0); [done|].
    destruct (strnlen t mt) as [n|] eqn:E; cbn in Ht; [|done]. apply strnlen_nonneg in E. injection Ht as Ht. lia.
  - destruct a as [|c a]; [done|]. cbn. destruct (c =? 0) eqn:Ec.
    + injection Ha as <-. destruct mt as [|mt]; [done|]. destruct t as [|d t]; [done|]. cbn in Ht |- *. destruct (d =? 0); [done|].
      destruct (strnlen t mt) as [n|] eqn:E; cbn in Ht; [|done]. apply strnlen_nonneg in E. injection Ht as Ht. lia.
    + destruct (strnlen a ma) as [n|] eqn:E; cbn in Ha; [|done]. injection Ha as <-. pose proof (strnlen_nonneg _ _ _ E).
      destruct mt as [|mt]; [cbn in Ht; injection Ht as Ht; lia|]. destruct t as [|d t]; [done|]. cbn in Ht |- *.
      destruct (d =? 0); [injection Ht as Ht; lia|]. destruct (strnlen t mt) as [m|] eqn:E'; cbn in Ht; [|done].
      injection Ht as Ht. assert (m = n) as -> by lia. replace (Z.to_nat (n + 1)) with (S (Z.to_nat n)) in Hs by lia. cbn in Hs.
      destruct (Z.eqb_spec (tolower c) (tolower d)) as [Hcd|]; [|done]. rewrite (tolower_comma c d Hcd). by rewrite (IH mt a t n).
Qed.

(** What equality says about two iSCSI identifiers. *)
Definition iscsi_eq (a b : list Z) (na nb fa fb : Z) : Prop :=
  exists l, name_len (drop 4 a) (na - 4) fa fb = Some (Some l) /\ name_len (drop 4 b) (nb - 4) fb fa = Some (Some l) /\
    same_name (drop 4 a) (drop 4 b) (Z.to_nat l) = Some true.

Lemma tid_equal_iscsi a b a0 b0 na nb : at_ a 0 = Some a0 -> at_ b 0 = Some b0 -> tid_size a = Some na -> tid_size b = Some nb ->
  Z.land a0 15 = SCSI_TRANSPORTID_PROTOCOLID_ISCSI -> Z.land b0 15 = SCSI_TRANSPORTID_PROTOCOLID_ISCSI ->
  tid_equal (Some a) (Some b) = Some true <-> iscsi_eq a b na nb (Z.land a0 0xc0) (Z.land b0 0xc0).
Proof.
  intros E0 F0 Ea Eb Ha Hb. unfold tid_equal, iscsi_eq. rewrite E0, F0. cbn. rewrite Ha, Hb. cbn. rewrite Ea, Eb. cbn.
  destruct (name_len (drop 4 a) _ _ _) as [[la|]|]; cbn; [|split; [done|intros (l & ? & ?); congruence]..].
  destruct (name_len (drop 4 b) _ _ _) as [[lb|]|]; cbn; [|split; [done|intros (l & ? & ? & ?); congruence]..].
  destruct (Z.eqb_spec la lb) as [->|]; cbn.
  - split; [intros H; by exists lb|]. intros (l & [= ->] & _ & H). exact H.
  - split; [done|]. intros (l & [= ->] & [= ->] & H). lia.
Qed.

Lemma name_len_cases s max f f' l : name_len s max f f' = Some (Some l) ->
  f = 0 /\ strnlen s (Z.to_nat max) = Some l \/
  f = 0x40 /\ f' = 0x40 /\ strnlen s (Z.to_nat max) = Some l \/
  f = 0x40 /\ f' <> 0x40 /\ strnchr s (Z.to_nat max) 44 = Some l /\ 0 <= l.
Proof.
  unfold name_len. destruct (Z.eqb_spec f 0) as [->|H0].
  - destruct (strnlen _ _); cbn; [|done]. intros [= ->]. by left.
  - destruct (Z.eqb_spec f 0x40) as [->|]; [|done]. destruct (Z.eqb_spec 0x40 f') as [<-|]; cbn.
    + destruct (strnlen _ _); cbn; [|done]. intros [= ->]. right. by left.
    + destruct (strnchr _ _ _) as [m|]; cbn; [|done]. case_if; [done|]. intros [= ->]. right. right. split_and!; auto; lia.
Qed.

Lemma iscsi_eq_via a t b na nt nb fa fb : iscsi_eq a t na nt fa 0x40 -> iscsi_eq b t nb nt fb 0x40 -> iscsi_eq a b na nb fa fb.
Proof.
  intros (l & La & Lt & Hs) (m & Lb & Lt' & Hs').
  apply name_len_cases in La, Lt, Lb, Lt'. unfold iscsi_eq, name_len.
  destruct La as [[-> La]|[(-> & _ & La)|(-> & ? & _)]]; [| |done];
  destruct Lb as [[-> Lb]|[(-> & _ & Lb)|(-> & ? & _)]]; [| |done| | |done]; cbn; rewrite ?La, ?Lb; cbn;
  destruct Lt as [[? _]|[(_ & ? & Lt)|(_ & ? & Lt & Pt)]]; try done; destruct Lt' as [[? _]|[(_ & ? & Lt')|(_ & ? & Lt' & Pt')]]; try done.
  - assert (m = l) as -> by congruence. exists l. split_and!; try done. by eapply same_name_trans.
  - rewrite (strnchr_same _ _ _ _ _ Lb Lt' Hs'), Lt. cbn. replace (l <? 0) with false by lia. exists l. split_and!; try done.
    eapply same_name_trans; [done|]. eapply same_name_less; [|done]. pose proof (strnchr_le_strnlen _ _ _ _ _ Lt' Lt). lia.
  - rewrite (strnchr_same _ _ _ _ _ La Lt Hs), Lt'. cbn. replace (m <? 0) with false by lia. exists m. split_and!; try done.
    eapply same_name_trans; [|done]. eapply same_name_less; [|done]. pose proof (strnchr_le_strnlen _ _ _ _ _ Lt Lt'). lia.
  - assert (m = l) as -> by congruence. exists l. split_and!; try done. by eapply same_name_trans.
Qed.

Lemma tid_equal_via a t b : tid_ok a -> tid_ok t -> tid_ok b -> tid_full t ->
  tid_equal (Some a) (Some t) = Some true -> tid_equal (Some b) (Some t) = Some true -> tid_equal (Some a) (Some b) = Some true.
Proof.
  intros [Fa (na & Ea & Ha)] [Ft (nt & Et & Ht)] [Fb (nb & Eb & Hb)] Hf H1 H2.
  pose proof (tid_size_pos a na Fa Ea). pose proof (tid_size_pos b nb Fb Eb). pose proof (tid_size_pos t nt Ft Et).
  destruct (at_some a 0) as [a0 E0]; [lia|]. destruct (at_some b 0) as [b0 F0]; [lia|]. destruct (at_some t 0) as [t0 G0]; [lia|].
  assert (Hat : Z.land a0 15 = Z.land t0 15).
  { unfold tid_equal in H1. rewrite E0, G0 in H1. cbn in H1. destruct (Z.eqb_spec (Z.land a0 15) (Z.land t0 15)); [done|discriminate]. }
  assert (Hbt : Z.land b0 15 = Z.land t0 15).
  { unfold tid_equal in H2. rewrite F0, G0 in H2. cbn in H2. destruct (Z.eqb_spec (Z.land b0 15) (Z.land t0 15)); [done|discriminate]. }
  destruct (Z.eqb_spec (Z.land t0 15) SCSI_TRANSPORTID_PROTOCOLID_ISCSI) as [E5|N5].
  - eapply tid_equal_iscsi; try eassumption; try congruence.
    eapply tid_equal_iscsi in H1; try eassumption; try congruence. eapply tid_equal_iscsi in H2; try eassumption; try congruence.
    rewrite (Hf t0 G0 E5) in H1, H2. by eapply iscsi_eq_via.
  - unfold tid_equal in *. rewrite E0, G0 in H1. rewrite F0, G0 in H2. rewrite E0, F0. cbn in *. rewrite Hat, Hbt in *. rewrite Z.eqb_refl in *. cbn in *.
    destruct (Z.eqb_spec (Z.land t0 15) SCSI_TRANSPORTID_PROTOCOLID_ISCSI); [done|]. by eapply memeq_trans.
Qed.
