(* ===== verification/Pres.v ===== *)
(** * Persistent reservations

    Models [cg/scst/src/scst_pres.c] and [scst_pres.h]: the registrations of a
    device, its reservation, and the service actions that change them.
    Registrants and tgt_devs are addresses, whose objects are in lists in the
    order of the lists of the code; 0 is NULL.  An address of a registrant is
    never used again, and a computation that would use an object that is not
    there has no result, nor one that would read outside the parameter list.

    The target templates, the answers of the allocators and the commands that
    an abort waits for are outside; the code is built without
    [CONFIG_SCST_PROC]. *)

From S2P Require Import Prelude PresTid.

Definition PR_REGISTER : Z := 0x00.
Definition PR_RESERVE : Z := 0x01.
Definition PR_RELEASE : Z := 0x02.
Definition PR_CLEAR : Z := 0x03.
Definition PR_PREEMPT : Z := 0x04.
Definition PR_PREEMPT_AND_ABORT : Z := 0x05.
Definition PR_REGISTER_AND_IGNORE : Z := 0x06.
Definition PR_REGISTER_AND_MOVE : Z := 0x07.

Definition PR_READ_KEYS : Z := 0x00.
Definition PR_READ_RESERVATION : Z := 0x01.
Definition PR_REPORT_CAPS : Z := 0x02.
Definition PR_READ_FULL_STATUS : Z := 0x03.

(** [-1] in a [uint8_t]. *)
Definition TYPE_UNSPECIFIED : Z := 255.
Definition TYPE_WRITE_EXCLUSIVE : Z := 0x01.
Definition TYPE_EXCLUSIVE_ACCESS : Z := 0x03.
Definition TYPE_WRITE_EXCLUSIVE_REGONLY : Z := 0x05.
Definition TYPE_EXCLUSIVE_ACCESS_REGONLY : Z := 0x06.
Definition TYPE_WRITE_EXCLUSIVE_ALL_REG : Z := 0x07.
Definition TYPE_EXCLUSIVE_ACCESS_ALL_REG : Z := 0x08.

Definition SCOPE_LU : Z := 0x00.

(** Commands that are allowed in the presence of a reservation. *)
Definition SCST_WRITE_EXCL_ALLOWED : Z := 0x2000.
Definition SCST_EXCL_ACCESS_ALLOWED : Z := 0x4000.

(** [struct scst_dev_registrant]. *)
Record registrant_t : Type := mkReg {
  transport_id : list Z;
  rel_tgt_id : Z;
  key : Z;
  tgt_dev : Z;
  rollback_key : Z
}.

(** What is used of a [struct scst_tgt_dev]: the transport id and the target of
    its session, and its registrant. *)
Record tgt_dev_t : Type := mkTd {
  sess_tid : option (list Z);
  sess_rel : Z;
  registrant : Z
}.

(** Unit attentions. *)
Inductive ua : Type := reservation_preempted | reservation_released | registrations_preempted.

(** Calls of other parts of SCST: a unit attention for a tgt_dev, and the
    abort of its commands. *)
Inductive pr_event : Type := SetUA (t : Z) (u : ua) | AbortAll (t : Z).

(** How a command ends. *)
Inductive sense : Type :=
| parameter_list_length_invalid
| invalid_field_in_parm_list
| invalid_field_in_cdb
| invalid_release
| invalid_opcode.
Inductive status : Type :=
| SAM_STAT_GOOD
| SAM_STAT_RESERVATION_CONFLICT
| SAM_STAT_BUSY
| CheckCondition (s : sense).

#[export] Instance ua_eq_dec : EqDecision ua.
Proof. solve_decision. Defined.
#[export] Instance sense_eq_dec : EqDecision sense.
Proof. solve_decision. Defined.
#[export] Instance status_eq_dec : EqDecision status.
Proof. solve_decision. Defined.
#[export] Instance pr_event_eq_dec : EqDecision pr_event.
Proof. solve_decision. Defined.

(** The fields of [struct scst_device] for reservations: [tgt_devs] has the
    objects, [td_list] is [dev_tgt_dev_list], [not_pr_supporting] is
    [not_pr_supporting_tgt_devs_num]; then the answers that the
    allocators will give (they succeed when there is none left) and the calls
    made so far. *)
Record pr_dev : Type := mkDev {
  pr_is_set : bool;
  pr_type : Z;
  pr_scope : Z;
  pr_generation : Z;
  pr_aptpl : bool;
  pr_holder : Z;
  registrants : list (Z * registrant_t);
  tgt_devs : list (Z * tgt_dev_t);
  td_list : list Z;
  not_pr_supporting : Z;
  next_reg : Z;
  allocs : list bool;
  events : list pr_event
}.

#[export] Instance set_transport_id : Setter transport_id := fun v r =>
  mkReg v (rel_tgt_id r) (key r) (tgt_dev r) (rollback_key r).
#[export] Instance set_rel_tgt_id : Setter rel_tgt_id := fun v r =>
  mkReg (transport_id r) v (key r) (tgt_dev r) (rollback_key r).
#[export] Instance set_key : Setter key := fun v r =>
  mkReg (transport_id r) (rel_tgt_id r) v (tgt_dev r) (rollback_key r).
#[export] Instance set_tgt_dev : Setter tgt_dev := fun v r =>
  mkReg (transport_id r) (rel_tgt_id r) (key r) v (rollback_key r).
#[export] Instance set_rollback_key : Setter rollback_key := fun v r =>
  mkReg (transport_id r) (rel_tgt_id r) (key r) (tgt_dev r) v.
#[export] Instance set_sess_tid : Setter sess_tid := fun v t =>
  mkTd v (sess_rel t) (registrant t).
#[export] Instance set_sess_rel : Setter sess_rel := fun v t =>
  mkTd (sess_tid t) v (registrant t).
#[export] Instance set_registrant : Setter registrant := fun v t =>
  mkTd (sess_tid t) (sess_rel t) v.
#[export] Instance set_pr_is_set : Setter pr_is_set := fun v d =>
  mkDev v (pr_type d) (pr_scope d) (pr_generation d) (pr_aptpl d) (pr_holder d) (registrants d)
    (tgt_devs d) (td_list d) (not_pr_supporting d) (next_reg d) (allocs d) (events d).
#[export] Instance set_pr_type : Setter pr_type := fun v d =>
  mkDev (pr_is_set d) v (pr_scope d) (pr_generation d) (pr_aptpl d) (pr_holder d) (registrants d)
    (tgt_devs d) (td_list d) (not_pr_supporting d) (next_reg d) (allocs d) (events d).
#[export] Instance set_pr_scope : Setter pr_scope := fun v d =>
  mkDev (pr_is_set d) (pr_type d) v (pr_generation d) (pr_aptpl d) (pr_holder d) (registrants d)
    (tgt_devs d) (td_list d) (not_pr_supporting d) (next_reg d) (allocs d) (events d).
#[export] Instance set_pr_generation : Setter pr_generation := fun v d =>
  mkDev (pr_is_set d) (pr_type d) (pr_scope d) v (pr_aptpl d) (pr_holder d) (registrants d) (tgt_devs d)
    (td_list d) (not_pr_supporting d) (next_reg d) (allocs d) (events d).
#[export] Instance set_pr_aptpl : Setter pr_aptpl := fun v d =>
  mkDev (pr_is_set d) (pr_type d) (pr_scope d) (pr_generation d) v (pr_holder d) (registrants d)
    (tgt_devs d) (td_list d) (not_pr_supporting d) (next_reg d) (allocs d) (events d).
#[export] Instance set_pr_holder : Setter pr_holder := fun v d =>
  mkDev (pr_is_set d) (pr_type d) (pr_scope d) (pr_generation d) (pr_aptpl d) v (registrants d)
    (tgt_devs d) (td_list d) (not_pr_supporting d) (next_reg d) (allocs d) (events d).
#[export] Instance set_registrants : Setter registrants := fun v d =>
  mkDev (pr_is_set d) (pr_type d) (pr_scope d) (pr_generation d) (pr_aptpl d) (pr_holder d) v (tgt_devs d)
    (td_list d) (not_pr_supporting d) (next_reg d) (allocs d) (events d).
#[export] Instance set_tgt_devs : Setter tgt_devs := fun v d =>
  mkDev (pr_is_set d) (pr_type d) (pr_scope d) (pr_generation d) (pr_aptpl d) (pr_holder d)
    (registrants d) v (td_list d) (not_pr_supporting d) (next_reg d) (allocs d) (events d).
#[export] Instance set_td_list : Setter td_list := fun v d =>
  mkDev (pr_is_set d) (pr_type d) (pr_scope d) (pr_generation d) (pr_aptpl d) (pr_holder d)
    (registrants d) (tgt_devs d) v (not_pr_supporting d) (next_reg d) (allocs d) (events d).
#[export] Instance set_not_pr_supporting : Setter not_pr_supporting := fun v d =>
  mkDev (pr_is_set d) (pr_type d) (pr_scope d) (pr_generation d) (pr_aptpl d) (pr_holder d)
    (registrants d) (tgt_devs d) (td_list d) v (next_reg d) (allocs d) (events d).
#[export] Instance set_next_reg : Setter next_reg := fun v d =>
  mkDev (pr_is_set d) (pr_type d) (pr_scope d) (pr_generation d) (pr_aptpl d) (pr_holder d)
    (registrants d) (tgt_devs d) (td_list d) (not_pr_supporting d) v (allocs d) (events d).
#[export] Instance set_allocs : Setter allocs := fun v d =>
  mkDev (pr_is_set d) (pr_type d) (pr_scope d) (pr_generation d) (pr_aptpl d) (pr_holder d)
    (registrants d) (tgt_devs d) (td_list d) (not_pr_supporting d) (next_reg d) v (events d).
#[export] Instance set_events : Setter events := fun v d =>
  mkDev (pr_is_set d) (pr_type d) (pr_scope d) (pr_generation d) (pr_aptpl d) (pr_holder d)
    (registrants d) (tgt_devs d) (td_list d) (not_pr_supporting d) (next_reg d) (allocs d) v.
(** ** Objects *)

Section assoc.
Context {B : Type}.
Implicit Types l : list (Z * B).

Fixpoint assoc (a : Z) l : option B :=
  match l with
  | [] => None
  | (k, x) :: l => if k =? a then Some x else assoc a l
  end.

Definition aset (a : Z) (x : B) l : list (Z * B) := map (fun p => if p.1 =? a then (a, x) else p) l.

Definition adel (a : Z) l : list (Z * B) := List.filter (fun p => negb (p.1 =? a)) l.
End assoc.

Arguments aset : simpl never.
Arguments adel : simpl never.

Notation M := (PT pr_dev).

Definition get {A} (f : pr_dev -> A) : M A := fun d => Some (f d, d).
Definition upd (f : pr_dev -> pr_dev) : M unit := fun d => Some (tt, f d).
Definition stuck {A} : M A := fun _ => None.
Definition lift {A} (x : option A) : M A := fun d => match x with Some a => Some (a, d) | None => None end.
Definition note (e : pr_event) : M unit := upd (fun d => d <|events := events d ++ [e]|>).

Definition get_reg (r : Z) : M registrant_t := fun d => x ← assoc r (registrants d); Some (x, d).
Definition put_reg (r : Z) (x : registrant_t) : M unit := upd (fun d => d <|registrants := aset r x (registrants d)|>).
Definition get_td (t : Z) : M tgt_dev_t := fun d => x ← assoc t (tgt_devs d); Some (x, d).
Definition put_td (t : Z) (x : tgt_dev_t) : M unit := upd (fun d => d <|tgt_devs := aset t x (tgt_devs d)|>).

Definition kalloc : M bool := fun d =>
  match allocs d with
  | [] => Some (true, d)
  | b :: l => Some (b, d <|allocs := l|>)
  end.

(** [list_for_each_entry] on a list of addresses. *)
Fixpoint for_each (l : list Z) (f : Z -> M unit) : M unit :=
  match l with
  | [] => mret tt
  | a :: l => f a;; for_each l f
  end.

(** ** The reservation *)

Definition all_reg (type : Z) : bool :=
  (type =? TYPE_EXCLUSIVE_ACCESS_ALL_REG) || (type =? TYPE_WRITE_EXCLUSIVE_ALL_REG).

Definition scst_pr_type_valid (type : Z) : bool :=
  (type =? TYPE_WRITE_EXCLUSIVE) || (type =? TYPE_EXCLUSIVE_ACCESS) ||
  (type =? TYPE_WRITE_EXCLUSIVE_REGONLY) || (type =? TYPE_EXCLUSIVE_ACCESS_REGONLY) ||
  (type =? TYPE_WRITE_EXCLUSIVE_ALL_REG) || (type =? TYPE_EXCLUSIVE_ACCESS_ALL_REG).

Definition scst_pr_set_holder (holder scope type : Z) : M unit :=
  upd (fun d => d <|pr_is_set := true|> <|pr_scope := scope|> <|pr_type := type|>);;
  if negb (all_reg type) then upd (fun d => d <|pr_holder := holder|>) else mret tt.

Definition scst_pr_is_holder (reg : Z) (d : pr_dev) : bool :=
  if negb (pr_is_set d) then false
  else if all_reg (pr_type d) then negb (reg =? 0)
  else pr_holder d =? reg.

Definition scst_pr_clear_reservation : M unit :=
  upd (fun d => d <|pr_is_set := false|> <|pr_scope := SCOPE_LU|> <|pr_type := TYPE_UNSPECIFIED|> <|pr_holder := 0|>).

Definition list_empty (d : pr_dev) : bool := match registrants d with [] => true | _ => false end.

Definition scst_pr_clear_holder : M unit :=
  type ← get pr_type;
  (if all_reg type then
     e ← get list_empty;
     if e : bool then scst_pr_clear_reservation else mret tt
   else scst_pr_clear_reservation);;
  upd (fun d => d <|pr_holder := 0|>).

(** ** Registrants *)

Definition scst_pr_find_registrants_list_all (exclude_reg : Z) (d : pr_dev) : list Z :=
  List.filter (fun r => negb (r =? exclude_reg)) (map fst (registrants d)).

Definition scst_pr_find_registrants_list_key (k : Z) (d : pr_dev) : list Z :=
  map fst (List.filter (fun p => key p.2 =? k) (registrants d)).

(** The first registrant of the initiator port on the target, 0 when there is none. *)
Fixpoint find_reg_in (l : list (Z * registrant_t)) (tid : option (list Z)) (rel : Z) : option Z :=
  match l with
  | [] => Some 0
  | (r, x) :: l =>
      if rel_tgt_id x =? rel then
        e ← tid_equal (Some (transport_id x)) tid;
        if e : bool then Some r else find_reg_in l tid rel
      else find_reg_in l tid rel
  end.

Definition scst_pr_find_reg (tid : option (list Z)) (rel : Z) : M Z :=
  l ← get registrants; lift (find_reg_in l tid rel).

(** The first tgt_dev of the initiator port on the target without registrant. *)
Fixpoint find_td_in (tds : list (Z * tgt_dev_t)) (l : list Z) (tid : list Z) (rel : Z) : option Z :=
  match l with
  | [] => Some 0
  | t :: l =>
      x ← assoc t tds;
      e ← tid_equal (sess_tid x) (Some tid);
      if (e : bool) && (sess_rel x =? rel) && (registrant x =? 0) then Some t else find_td_in tds l tid rel
  end.

(** [kmemdup] of a transport id. *)
Definition tid_dup (tid : list Z) : option (list Z) :=
  n ← tid_size tid;
  if Z.of_nat (length tid) <? n then None else Some (take (Z.to_nat n) tid).

(** [dev_lock_locked] only selects how the lock is taken and memory is
    allocated.  A NULL [transport_id] is a bug. *)
Definition scst_pr_add_registrant (tid : option (list Z)) (rel k : Z) : M Z :=
  match tid with
  | None => stuck
  | Some t0 =>
      reg ← scst_pr_find_reg tid rel;
      if negb (reg =? 0) then mret 0
      else
        ok ← kalloc;
        if negb ok then mret 0
        else
          copy ← lift (tid_dup t0);
          ok ← kalloc;
          if negb ok then mret 0
          else
            reg ← get next_reg;
            upd (fun d => d <|next_reg := reg + 1|>);;
            tds ← get tgt_devs;
            l ← get td_list;
            t ← lift (find_td_in tds l t0 rel);
            (if t =? 0 then mret tt else x ← get_td t; put_td t (x <|registrant := reg|>));;
            upd (fun d => d <|registrants := registrants d ++ [(reg, mkReg copy rel k t 0)]|>);;
            mret reg
  end.

Definition scst_pr_remove_registrant (reg : Z) : M unit :=
  x ← get_reg reg;
  upd (fun d => d <|registrants := adel reg (registrants d)|>);;
  h ← get (scst_pr_is_holder reg);
  (if h : bool then scst_pr_clear_holder else mret tt);;
  if tgt_dev x =? 0 then mret tt
  else t ← get_td (tgt_dev x); put_td (tgt_dev x) (t <|registrant := 0|>).

Definition scst_pr_send_ua_reg (u : ua) (reg : Z) : M unit :=
  x ← get_reg reg;
  if tgt_dev x =? 0 then mret tt else get_td (tgt_dev x);; note (SetUA (tgt_dev x) u).

Definition scst_pr_send_ua_all (exclude_reg : Z) (u : ua) : M unit :=
  l ← get registrants;
  for_each (map fst l) (fun r => if r =? exclude_reg then mret tt else scst_pr_send_ua_reg u r).

(** The task management function is given to the session of the tgt_dev; that
    it may fail is only reported. *)
Definition scst_pr_abort_reg (reg : Z) : M unit :=
  x ← get_reg reg;
  if tgt_dev x =? 0 then mret tt else get_td (tgt_dev x);; note (AbortAll (tgt_dev x)).

(** ** Sessions come and go *)

Definition scst_pr_init_tgt_dev (t : Z) : M unit :=
  x ← get_td t;
  match sess_tid x with
  | None => mret tt
  | Some _ =>
      reg ← scst_pr_find_reg (sess_tid x) (sess_rel x);
      if reg =? 0 then mret tt
      else
        r ← get_reg reg;
        if negb (tgt_dev r =? 0) then mret tt
        else
          put_td t (x <|registrant := reg|>);;
          put_reg reg (r <|tgt_dev := t|>)
  end.

(** The first other tgt_dev of the initiator port on the target. *)
Fixpoint other_td_in (tds : list (Z * tgt_dev_t)) (l : list Z) (skip : Z) (tid : list Z) (rel : Z) : option Z :=
  match l with
  | [] => Some 0
  | t :: l =>
      if t =? skip then other_td_in tds l skip tid rel
      else
        x ← assoc t tds;
        if sess_rel x =? rel then
          e ← tid_equal (sess_tid x) (Some tid);
          if e : bool then Some t else other_td_in tds l skip tid rel
        else other_td_in tds l skip tid rel
  end.

Definition scst_pr_clear_tgt_dev (t : Z) : M unit :=
  x ← get_td t;
  if registrant x =? 0 then mret tt
  else
    let reg := registrant x in
    put_td t (x <|registrant := 0|>);;
    r ← get_reg reg;
    put_reg reg (r <|tgt_dev := 0|>);;
    tds ← get tgt_devs;
    l ← get td_list;
    t' ← lift (other_td_in tds l t (transport_id r) (rel_tgt_id r));
    if t' =? 0 then mret tt
    else
      x' ← get_td t';
      put_td t' (x' <|registrant := reg|>);;
      put_reg reg (r <|tgt_dev := t'|>).

(** What [scst_alloc_add_tgt_dev] and [scst_free_tgt_dev] do for reservations:
    a tgt_dev looks for its registrant before it is in the list of the device,
    and leaves the list before it gives it up. *)
Definition tgt_dev_add (t : Z) (tid : option (list Z)) (rel : Z) : M bool :=
  e ← get list_empty;
  match tid with
  | None =>
      if negb e then mret false
      else
        upd (fun d => d <|not_pr_supporting := not_pr_supporting d + 1|> <|tgt_devs := tgt_devs d ++ [(t, mkTd tid rel 0)]|>);;
        scst_pr_init_tgt_dev t;;
        mret true
  | Some _ =>
      upd (fun d => d <|tgt_devs := tgt_devs d ++ [(t, mkTd tid rel 0)]|>);;
      scst_pr_init_tgt_dev t;;
      mret true
  end.

Definition tgt_dev_list_add (t : Z) : M unit := upd (fun d => d <|td_list := td_list d ++ [t]|>).

Definition tgt_dev_list_del (t : Z) : M unit := upd (fun d => d <|td_list := List.filter (fun a => negb (a =? t)) (td_list d)|>).

Definition tgt_dev_free (t : Z) : M unit :=
  x ← get_td t;
  (match sess_tid x with
   | None => upd (fun d => d <|not_pr_supporting := not_pr_supporting d - 1|>)
   | Some _ => mret tt
   end);;
  scst_pr_clear_tgt_dev t;;
  upd (fun d => d <|tgt_devs := adel t (tgt_devs d)|>).

(** The registrations end with the device. *)
Definition scst_pr_clear_dev : M unit :=
  l ← get registrants;
  for_each (map fst l) scst_pr_remove_registrant.

(** ** Registration *)

(** The parameter list and the size that the command gives; the memory may go on
    behind it. *)
Definition be64_at (buf : list Z) (i : Z) : M Z := lift (be64 buf i).
Definition byte_at (buf : list Z) (i : Z) : M Z := lift (at_ buf i).
Definition tid_at (buf : list Z) (off : Z) : list Z := drop (Z.to_nat off) buf.

(** A registrant is once in the list of what to undo. *)
Definition rb_add (reg : Z) (rb : list Z) : M (list Z) :=
  if bool_decide (reg ∈ rb) then stuck else mret (rb ++ [reg]).

(** Whether the sizes of the transport ids fit, and the secured buffer.  Every
    id has four bytes at least, so the length of the buffer is enough fuel. *)
Fixpoint secure_loop (fuel : nat) (buf : list Z) (ext_size offset : Z) : option (bool * list Z) :=
  match fuel with
  | O => None
  | S fuel =>
      if u32 offset <? ext_size then
        n ← tid_size (tid_at buf (28 + offset));
        if ext_size <? u32 (offset + n) then Some (false, buf)
        else
          buf ← tid_secure buf (28 + offset);
          n ← tid_size (tid_at buf (28 + offset));
          secure_loop fuel buf ext_size (offset + n)
      else Some (true, buf)
  end.

(** A registrant is there, with the key: nothing to do; with another key: the key
    is changed; or it is added, unless there is no memory.  [None] inside is
    [-ENOMEM]. *)
Definition spec_one (tid : option (list Z)) (rel action_key : Z) (rb : list Z) : M (option (list Z)) :=
  reg ← scst_pr_find_reg tid rel;
  if reg =? 0 then
    reg ← scst_pr_add_registrant tid rel action_key;
    if reg =? 0 then mret None else rb ← rb_add reg rb; mret (Some rb)
  else
    x ← get_reg reg;
    if key x =? action_key then mret (Some rb)
    else
      put_reg reg (x <|rollback_key := key x|> <|key := action_key|>);;
      rb ← rb_add reg rb;
      mret (Some rb).

(** A name without session identifier stands for all sessions of the initiator. *)
Fixpoint spec_wildcard (l : list Z) (tid : list Z) (rel action_key : Z) (rb : list Z) : M (bool * list Z) :=
  match l with
  | [] => mret (true, rb)
  | t :: l =>
      x ← get_td t;
      e ← lift (tid_equal (sess_tid x) (Some tid));
      if negb e then spec_wildcard l tid rel action_key rb
      else
        r ← spec_one (sess_tid x) rel action_key rb;
        match r with
        | None => mret (false, rb)
        | Some rb => spec_wildcard l tid rel action_key rb
        end
  end.

Definition tid_wildcard (tid : list Z) : option bool :=
  b ← at_ tid 0; Some ((Z.land b 0x0f =? SCSI_TRANSPORTID_PROTOCOLID_ISCSI) && (Z.land b 0xc0 =? 0)).

Fixpoint spec_loop (fuel : nat) (buf : list Z) (ext_size offset rel action_key : Z) (rb : list Z) : M (bool * list Z) :=
  match fuel with
  | O => stuck
  | S fuel =>
      if u32 offset <? ext_size then
        let tid := tid_at buf (28 + offset) in
        w ← lift (tid_wildcard tid);
        r ← ((if w : bool then
               l ← get td_list;
               spec_wildcard l tid rel action_key rb
             else
               r ← spec_one (Some tid) rel action_key rb;
               mret (match r with None => (false, rb) | Some rb => (true, rb) end)) : M (bool * list Z));
        if negb (r.1 : bool) then mret r
        else
          n ← lift (tid_size tid);
          spec_loop fuel buf ext_size (offset + n) rel action_key r.2
      else mret (true, rb)
  end.

(** The status, the buffer and the list of what to undo. *)
Definition scst_pr_register_with_spec_i_pt (rel : Z) (buf : list Z) (buffer_size : Z) (rb : list Z) : M (status * list Z * list Z) :=
  action_key ← be64_at buf 8;
  ext_size ← lift (be32 buf 24);
  if u32 buffer_size <? u32 (ext_size + 28) then mret (CheckCondition parameter_list_length_invalid, buf, rb)
  else
    s ← lift (secure_loop (S (length buf)) buf ext_size 0);
    if negb (s.1 : bool) then mret (CheckCondition invalid_field_in_parm_list, s.2, rb)
    else
      r ← spec_loop (S (length buf)) s.2 ext_size 0 rel action_key rb;
      mret (if r.1 : bool then SAM_STAT_GOOD else SAM_STAT_BUSY, s.2, r.2).

Definition scst_pr_unregister (reg : Z) : M unit :=
  get_reg reg;;
  is_holder ← get (scst_pr_is_holder reg);
  type ← get pr_type;
  scst_pr_remove_registrant reg;;
  set ← get pr_is_set;
  if (is_holder : bool) && negb set &&
     ((type =? TYPE_WRITE_EXCLUSIVE_REGONLY) || (type =? TYPE_EXCLUSIVE_ACCESS_REGONLY))
  then scst_pr_send_ua_all 0 reservation_released
  else mret tt.

(** A target template: what [get_initiator_port_transport_id(tgt, NULL, NULL)]
    answers for a target, when there is such a callback, and the relative ids of
    the targets. *)
Record tgt_template : Type := mkTgtt {
  get_protocol : option (Z -> Z);
  tgt_list : list Z
}.

(** The targets of the protocol, in the order of the lists. *)
Definition tgts_of (tgtts : list tgt_template) (proto_id : Z) : list Z :=
  concat (map (fun g => match get_protocol g with
                        | None => []
                        | Some f => List.filter (fun rel => f rel =? proto_id) (tgt_list g)
                        end) tgtts).

Definition proto_of (tid : option (list Z)) : M Z :=
  match tid with
  | None => stuck
  | Some tid => b ← byte_at tid 0; mret (Z.land b 0x0f)
  end.

Definition scst_pr_unregister_all_tg_pt (tgtts : list tgt_template) (tid : option (list Z)) : M unit :=
  proto_id ← proto_of tid;
  for_each (tgts_of tgtts proto_id) (fun rel =>
    reg ← scst_pr_find_reg tid rel;
    if reg =? 0 then mret tt else scst_pr_unregister reg).

Definition scst_pr_register_on_tgt_id (tid : option (list Z)) (rel : Z) (buf : list Z) (buffer_size : Z)
    (spec_i_pt : bool) (rb : list Z) : M (status * list Z * list Z) :=
  s ← (if spec_i_pt then scst_pr_register_with_spec_i_pt rel buf buffer_size rb else mret (SAM_STAT_GOOD, buf, rb));
  let '(res, buf, rb) := s in
  match res with
  | SAM_STAT_GOOD =>
      reg ← scst_pr_find_reg tid rel;
      if reg =? 0 then
        action_key ← be64_at buf 8;
        reg ← scst_pr_add_registrant tid rel action_key;
        if reg =? 0 then mret (SAM_STAT_BUSY, buf, rb)
        else rb ← rb_add reg rb; mret (SAM_STAT_GOOD, buf, rb)
      else mret (SAM_STAT_GOOD, buf, rb)
  | _ => mret (res, buf, rb)
  end.

Fixpoint register_on_all (l : list Z) (tid : option (list Z)) (buf : list Z) (buffer_size : Z)
    (spec_i_pt : bool) (rb : list Z) : M (status * list Z * list Z) :=
  match l with
  | [] => mret (SAM_STAT_GOOD, buf, rb)
  | rel :: l =>
      if rel =? 0 then register_on_all l tid buf buffer_size spec_i_pt rb
      else
        s ← scst_pr_register_on_tgt_id tid rel buf buffer_size spec_i_pt rb;
        let '(res, buf, rb) := s in
        match res with
        | SAM_STAT_GOOD => register_on_all l tid buf buffer_size spec_i_pt rb
        | _ => mret (res, buf, rb)
        end
  end.

Definition scst_pr_register_all_tg_pt (tgtts : list tgt_template) (tid : option (list Z)) (buf : list Z)
    (buffer_size : Z) (spec_i_pt : bool) (rb : list Z) : M (status * list Z * list Z) :=
  proto_id ← proto_of tid;
  register_on_all (tgts_of tgtts proto_id) tid buf buffer_size spec_i_pt rb.

Definition rollback_one (reg : Z) : M unit :=
  x ← get_reg reg;
  if rollback_key x =? 0 then scst_pr_remove_registrant reg
  else put_reg reg (x <|key := rollback_key x|> <|rollback_key := 0|>).

Definition commit_one (reg : Z) : M unit := x ← get_reg reg; put_reg reg (x <|rollback_key := 0|>).

Definition do_scst_pr_register (tgtts : list tgt_template) (t : Z) (buf : list Z) (buffer_size : Z)
    (spec_i_pt all_tg_pt : bool) : M status :=
  x ← get_td t;
  s ← (if all_tg_pt then scst_pr_register_all_tg_pt tgtts (sess_tid x) buf buffer_size spec_i_pt []
       else scst_pr_register_on_tgt_id (sess_tid x) (sess_rel x) buf buffer_size spec_i_pt []);
  let '(res, _, rb) := s in
  match res with
  | SAM_STAT_GOOD => for_each rb commit_one;; mret SAM_STAT_GOOD
  | _ => for_each rb rollback_one;; mret res
  end.

Definition set_generation (aptpl : bool) : M unit :=
  upd (fun d => d <|pr_generation := u32 (pr_generation d + 1)|> <|pr_aptpl := aptpl|>).

Definition next_generation : M unit := upd (fun d => d <|pr_generation := u32 (pr_generation d + 1)|>).

(** Unregister a registrant, on one target or on all of its protocol. *)
Definition unregister_or_set (tgtts : list tgt_template) (x : tgt_dev_t) (reg : Z) (action_key : Z) (all_tg_pt : bool) : M unit :=
  if action_key =? 0 then
    if all_tg_pt then scst_pr_unregister_all_tg_pt tgtts (sess_tid x) else scst_pr_unregister reg
  else r ← get_reg reg; put_reg reg (r <|key := action_key|>).

Definition bit (b i : Z) : bool := Z.testbit b i.

Definition scst_pr_register (tgtts : list tgt_template) (t : Z) (buf : list Z) (buffer_size : Z) : M status :=
  b20 ← byte_at buf 20;
  let aptpl := bit b20 0 in
  let spec_i_pt := bit b20 3 in
  let all_tg_pt := bit b20 2 in
  k ← be64_at buf 0;
  action_key ← be64_at buf 8;
  if negb spec_i_pt && negb (buffer_size =? 24) then mret (CheckCondition parameter_list_length_invalid)
  else
    x ← get_td t;
    let reg := registrant x in
    if reg =? 0 then
      if negb (k =? 0) then mret SAM_STAT_RESERVATION_CONFLICT
      else
        res ← (if negb (action_key =? 0) then do_scst_pr_register tgtts t buf buffer_size spec_i_pt all_tg_pt
               else mret SAM_STAT_GOOD);
        match res with
        | SAM_STAT_GOOD => set_generation aptpl;; mret SAM_STAT_GOOD
        | _ => mret res
        end
    else
      r ← get_reg reg;
      if negb (key r =? k) then mret SAM_STAT_RESERVATION_CONFLICT
      else if spec_i_pt then mret (CheckCondition invalid_field_in_cdb)
      else
        unregister_or_set tgtts x reg action_key all_tg_pt;;
        set_generation aptpl;;
        mret SAM_STAT_GOOD.

Definition scst_pr_register_and_ignore (tgtts : list tgt_template) (t : Z) (buf : list Z) (buffer_size : Z) : M status :=
  b20 ← byte_at buf 20;
  let aptpl := bit b20 0 in
  let all_tg_pt := bit b20 2 in
  action_key ← be64_at buf 8;
  if negb (buffer_size =? 24) then mret (CheckCondition parameter_list_length_invalid)
  else
    x ← get_td t;
    let reg := registrant x in
    if reg =? 0 then
      res ← (if negb (action_key =? 0) then do_scst_pr_register tgtts t buf buffer_size false all_tg_pt
             else mret SAM_STAT_GOOD);
      match res with
      | SAM_STAT_GOOD => set_generation aptpl;; mret SAM_STAT_GOOD
      | _ => mret res
      end
    else
      unregister_or_set tgtts x reg action_key all_tg_pt;;
      set_generation aptpl;;
      mret SAM_STAT_GOOD.

Definition scst_pr_register_and_move (t : Z) (buf : list Z) (buffer_size : Z) : M status :=
  b17 ← byte_at buf 17;
  let aptpl := bit b17 0 in
  k ← be64_at buf 0;
  action_key ← be64_at buf 8;
  let unreg := bit b17 1 in
  tid_buffer_size ← lift (be32 buf 20);
  if u32 buffer_size <? u32 (tid_buffer_size + 24) then mret (CheckCondition invalid_field_in_parm_list)
  else if tid_buffer_size <? 24 then mret (CheckCondition invalid_field_in_parm_list)
  else
    x ← get_td t;
    let reg := registrant x in
    r ← get_reg reg;
    if negb (key r =? k) then mret SAM_STAT_RESERVATION_CONFLICT
    else
      set ← get pr_is_set;
      if negb set then mret (CheckCondition invalid_field_in_cdb)
      else
        h ← get (scst_pr_is_holder reg);
        if negb h then mret SAM_STAT_RESERVATION_CONFLICT
        else if action_key =? 0 then mret (CheckCondition invalid_field_in_cdb)
        else
          rel ← lift (be16 buf 18);
          n ← lift (tid_size (tid_at buf 24));
          if buffer_size <? n + 24 then mret (CheckCondition invalid_field_in_parm_list)
          else
            buf ← lift (tid_secure buf 24);
            let tid := Some (tid_at buf 24) in
            type ← get pr_type;
            if all_reg type then mret SAM_STAT_RESERVATION_CONFLICT
            else
              e ← lift (tid_equal (sess_tid x) tid);
              if e : bool then mret (CheckCondition invalid_field_in_parm_list)
              else
                reg_move ← scst_pr_find_reg tid rel;
                reg_move ← (if reg_move =? 0 then scst_pr_add_registrant tid rel action_key
                            else
                              m ← get_reg reg_move;
                              (if negb (key m =? action_key) then put_reg reg_move (m <|key := action_key|>) else mret tt);;
                              mret reg_move);
                if reg_move =? 0 then mret SAM_STAT_BUSY
                else
                  scope ← get pr_scope;
                  scst_pr_set_holder reg_move scope type;;
                  (if unreg then scst_pr_remove_registrant reg else mret tt);;
                  set_generation aptpl;;
                  mret SAM_STAT_GOOD.

(** ** Reservation *)

Definition cdb_scope (cdb2 : Z) : Z := Z.shiftr cdb2 4.
Definition cdb_type (cdb2 : Z) : Z := Z.land cdb2 0x0f.

Definition scst_pr_reserve (t cdb2 : Z) (buf : list Z) (buffer_size : Z) : M status :=
  k ← be64_at buf 0;
  let scope := cdb_scope cdb2 in
  let type := cdb_type cdb2 in
  if negb (buffer_size =? 24) then mret (CheckCondition parameter_list_length_invalid)
  else if negb (scst_pr_type_valid type) then mret (CheckCondition invalid_field_in_cdb)
  else if negb (scope =? SCOPE_LU) then mret (CheckCondition invalid_field_in_cdb)
  else
    x ← get_td t;
    let reg := registrant x in
    r ← get_reg reg;
    if negb (key r =? k) then mret SAM_STAT_RESERVATION_CONFLICT
    else
      set ← get pr_is_set;
      if negb set then scst_pr_set_holder reg scope type;; mret SAM_STAT_GOOD
      else
        h ← get (scst_pr_is_holder reg);
        if negb h then mret SAM_STAT_RESERVATION_CONFLICT
        else
          cur_scope ← get pr_scope;
          cur_type ← get pr_type;
          if negb (cur_scope =? scope) || negb (cur_type =? type) then mret SAM_STAT_RESERVATION_CONFLICT
          else mret SAM_STAT_GOOD.

Definition scst_pr_release (t cdb2 : Z) (buf : list Z) (buffer_size : Z) : M status :=
  k ← be64_at buf 0;
  let scope := cdb_scope cdb2 in
  let type := cdb_type cdb2 in
  if negb (buffer_size =? 24) then mret (CheckCondition parameter_list_length_invalid)
  else
    set ← get pr_is_set;
    if negb set then mret SAM_STAT_GOOD
    else
      x ← get_td t;
      let reg := registrant x in
      r ← get_reg reg;
      if negb (key r =? k) then mret SAM_STAT_RESERVATION_CONFLICT
      else
        h ← get (scst_pr_is_holder reg);
        if negb h then mret SAM_STAT_GOOD
        else
          cur_scope ← get pr_scope;
          cur_pr_type ← get pr_type;
          if negb (cur_scope =? scope) || negb (cur_pr_type =? type) then mret (CheckCondition invalid_release)
          else
            scst_pr_clear_reservation;;
            (if (cur_pr_type =? TYPE_WRITE_EXCLUSIVE_REGONLY) || (cur_pr_type =? TYPE_EXCLUSIVE_ACCESS_REGONLY) ||
                (cur_pr_type =? TYPE_WRITE_EXCLUSIVE_ALL_REG) || (cur_pr_type =? TYPE_EXCLUSIVE_ACCESS_ALL_REG)
             then scst_pr_send_ua_all reg reservation_released
             else mret tt);;
            mret SAM_STAT_GOOD.

Definition scst_pr_clear (t : Z) (buf : list Z) (buffer_size : Z) : M status :=
  k ← be64_at buf 0;
  if negb (buffer_size =? 24) then mret (CheckCondition parameter_list_length_invalid)
  else
    x ← get_td t;
    let reg := registrant x in
    r ← get_reg reg;
    if negb (key r =? k) then mret SAM_STAT_RESERVATION_CONFLICT
    else
      scst_pr_send_ua_all reg reservation_preempted;;
      l ← get registrants;
      for_each (map fst l) scst_pr_remove_registrant;;
      next_generation;;
      mret SAM_STAT_GOOD.

(** One registrant that is preempted; [self] tells whether the registrant of the
    command loses its registration too. *)
Definition preempt_one (abort self : bool) (reg r : Z) : M unit :=
  (if abort then scst_pr_abort_reg r else mret tt);;
  (if negb (r =? reg) then scst_pr_send_ua_reg registrations_preempted r else mret tt);;
  if self || negb (r =? reg) then scst_pr_remove_registrant r else mret tt.

Definition scst_pr_do_preempt (t cdb2 : Z) (buf : list Z) (buffer_size : Z) (abort : bool) : M status :=
  existing_pr_type ← get pr_type;
  existing_pr_scope ← get pr_scope;
  if negb (buffer_size =? 24) then mret (CheckCondition parameter_list_length_invalid)
  else
    k ← be64_at buf 0;
    action_key ← be64_at buf 8;
    let scope := cdb_scope cdb2 in
    let type := cdb_type cdb2 in
    if negb (scst_pr_type_valid type) then mret (CheckCondition invalid_field_in_cdb)
    else
      x ← get_td t;
      let reg := registrant x in
      r ← get_reg reg;
      if negb (key r =? k) then mret SAM_STAT_RESERVATION_CONFLICT
      else
        set ← get pr_is_set;
        preempt_list ← get (scst_pr_find_registrants_list_key action_key);
        let empty := match preempt_list with [] => true | _ => false end in
        if negb set then
          if empty then mret SAM_STAT_RESERVATION_CONFLICT
          else
            for_each preempt_list (preempt_one abort false reg);;
            next_generation;;
            mret SAM_STAT_GOOD
        else if all_reg existing_pr_type then
          if action_key =? 0 then
            all ← get (scst_pr_find_registrants_list_all reg);
            for_each all (preempt_one abort false reg);;
            scst_pr_set_holder reg scope type;;
            next_generation;;
            mret SAM_STAT_GOOD
          else if empty then mret SAM_STAT_RESERVATION_CONFLICT
          else
            for_each preempt_list (preempt_one abort false reg);;
            next_generation;;
            mret SAM_STAT_GOOD
        else
          holder ← get pr_holder;
          h ← get_reg holder;
          if negb (key h =? action_key) then
            if action_key =? 0 then mret (CheckCondition invalid_field_in_parm_list)
            else if empty then mret SAM_STAT_RESERVATION_CONFLICT
            else
              for_each preempt_list (preempt_one abort true reg);;
              next_generation;;
              mret SAM_STAT_GOOD
          else
            for_each preempt_list (preempt_one abort false reg);;
            scst_pr_set_holder reg scope type;;
            (if negb (existing_pr_type =? type) || negb (existing_pr_scope =? scope)
             then scst_pr_send_ua_all reg reservation_released
             else mret tt);;
            next_generation;;
            mret SAM_STAT_GOOD.

Definition scst_pr_preempt (t cdb2 : Z) (buf : list Z) (buffer_size : Z) : M status :=
  scst_pr_do_preempt t cdb2 buf buffer_size false.

(** The command ends when the commands it aborts have ended, which the abort
    counter counts. *)
Definition scst_pr_preempt_and_abort (t cdb2 : Z) (buf : list Z) (buffer_size : Z) : M status :=
  ok ← kalloc;
  if negb ok then mret SAM_STAT_BUSY
  else scst_pr_do_preempt t cdb2 buf buffer_size true.

(** ** Access *)

Definition scst_pr_crh_case (reg : Z) (d : pr_dev) : bool :=
  if negb (pr_is_set d) then false
  else
    let type := pr_type d in
    if (type =? TYPE_WRITE_EXCLUSIVE) || (type =? TYPE_EXCLUSIVE_ACCESS) then reg =? pr_holder d
    else if (type =? TYPE_WRITE_EXCLUSIVE_REGONLY) || (type =? TYPE_EXCLUSIVE_ACCESS_REGONLY) ||
            (type =? TYPE_WRITE_EXCLUSIVE_ALL_REG) || (type =? TYPE_EXCLUSIVE_ACCESS_ALL_REG) then negb (reg =? 0)
    else false.

Definition scst_pr_is_cmd_allowed (reg op_flags : Z) (d : pr_dev) : bool :=
  if negb (pr_is_set d) then true
  else
    let type := pr_type d in
    if type =? TYPE_WRITE_EXCLUSIVE then
      if negb (reg =? 0) && (reg =? pr_holder d) then true else tst op_flags SCST_WRITE_EXCL_ALLOWED
    else if type =? TYPE_EXCLUSIVE_ACCESS then
      if negb (reg =? 0) && (reg =? pr_holder d) then true else tst op_flags SCST_EXCL_ACCESS_ALLOWED
    else if (type =? TYPE_WRITE_EXCLUSIVE_REGONLY) || (type =? TYPE_WRITE_EXCLUSIVE_ALL_REG) then
      if negb (reg =? 0) then true else tst op_flags SCST_WRITE_EXCL_ALLOWED
    else if (type =? TYPE_EXCLUSIVE_ACCESS_REGONLY) || (type =? TYPE_EXCLUSIVE_ACCESS_ALL_REG) then
      if negb (reg =? 0) then true else tst op_flags SCST_EXCL_ACCESS_ALLOWED
    else false.

(** ** The command *)

Definition pr_out_action (tgtts : list tgt_template) (action t cdb2 : Z) (buf : list Z) (buffer_size : Z) : M status :=
  if action =? PR_REGISTER then scst_pr_register tgtts t buf buffer_size
  else if action =? PR_RESERVE then scst_pr_reserve t cdb2 buf buffer_size
  else if action =? PR_RELEASE then scst_pr_release t cdb2 buf buffer_size
  else if action =? PR_CLEAR then scst_pr_clear t buf buffer_size
  else if action =? PR_PREEMPT then scst_pr_preempt t cdb2 buf buffer_size
  else if action =? PR_PREEMPT_AND_ABORT then scst_pr_preempt_and_abort t cdb2 buf buffer_size
  else if action =? PR_REGISTER_AND_IGNORE then scst_pr_register_and_ignore tgtts t buf buffer_size
  else if action =? PR_REGISTER_AND_MOVE then scst_pr_register_and_move t buf buffer_size
  else mret (CheckCondition invalid_field_in_cdb).

(** [dev_reserved]: the device has a reservation of the older kind; [aborted]: the
    command was aborted before it got the lock, it then ends without status.
    A positive [buffer_size] is the size of the parameter list; otherwise the
    command ended with the status of [scst_get_buf_full_sense].  The file of the
    reservations is saved after a command that ends well. *)
Definition scst_persistent_reserve_out_local (tgtts : list tgt_template) (dev_reserved aborted : bool)
    (t cdb1 cdb2 : Z) (buf : list Z) (buffer_size : Z) (buf_status : status) : M (option status) :=
  np ← get not_pr_supporting;
  if negb (np =? 0) then mret (Some (CheckCondition invalid_opcode))
  else
    let action := Z.land cdb1 0x1f in
    if dev_reserved then mret (Some SAM_STAT_RESERVATION_CONFLICT)
    else
      x ← get_td t;
      if negb (action =? PR_REGISTER) && negb (action =? PR_REGISTER_AND_IGNORE) && (registrant x =? 0)
      then mret (Some SAM_STAT_RESERVATION_CONFLICT)
      else if buffer_size <=? 0 then mret (Some buf_status)
      else if negb (action =? PR_REGISTER) && negb (action =? PR_REGISTER_AND_IGNORE) && negb (action =? PR_CLEAR) &&
              negb (cdb_scope cdb2 =? SCOPE_LU)
      then mret (Some (CheckCondition invalid_field_in_cdb))
      else
        b20 ← (if negb (action =? PR_REGISTER) && negb (action =? PR_REGISTER_AND_MOVE) then byte_at buf 20 else mret 0);
        if bit b20 3 then mret (Some (CheckCondition invalid_field_in_cdb))
        else if negb (action =? PR_REGISTER_AND_IGNORE) && bit b20 2 then mret (Some (CheckCondition invalid_field_in_cdb))
        else if aborted then mret None
        else s ← pr_out_action tgtts action t cdb2 buf buffer_size; mret (Some s).

(** The end of a PREEMPT AND ABORT: [pending] commands are still to end, the command
    itself among them; whether the saved callback is called. *)
Definition scst_cmd_done_pr_preempt (pending : Z) : Z * bool := (pending - 1, pending - 1 =? 0).
