(* ===== verification/PresInv.v ===== *)
(** * The invariant of the reservations

    What is always true of the registrations and the reservation of a device:
    registrants and tgt_devs point at each other, an initiator port has one
    registrant on a target, and a reservation is held by a registrant.  The
    operations on one registrant keep it and have a result. *)

From S2P Require Import Prelude PresTid Pres.

(** ** Lists of objects *)

Section assoc.
Context {B : Type}.
Implicit Types l : list (Z * B).

Lemma assoc_elem a x l : assoc a l = Some x -> (a, x) ∈ l.
Proof.
  induction l as [|[k y] l IH]; cbn; [done|]. destruct (Z.eqb_spec k a) as [->|]; [intros [= ->]; by left|]. intros H. right. auto.
Qed.

Lemma assoc_dom a l : is_Some (assoc a l) <-> a ∈ map fst l.
Proof.
  induction l as [|[k y] l IH]; cbn; [split; [by intros []|by intros ?%elem_of_nil]|]. rewrite elem_of_cons.
  destruct (Z.eqb_spec k a) as [->|]; [split; eauto|]. rewrite IH. split; [auto|]. by intros [->|].
Qed.

Lemma assoc_none a l : assoc a l = None <-> a ∉ map fst l.
Proof. rewrite <- assoc_dom, <- eq_None_not_Some. done. Qed.

Lemma elem_assoc a x l : NoDup (map fst l) -> (a, x) ∈ l -> assoc a l = Some x.
Proof.
  induction l as [|[k y] l IH]; cbn; [by intros _ ?%elem_of_nil|]. rewrite NoDup_cons. intros [Hk Hn] [[= <- <-]|H]%elem_of_cons.
  - by rewrite Z.eqb_refl.
  - destruct (Z.eqb_spec k a) as [->|]; [|auto]. destruct Hk. apply list_elem_of_fmap. by exists (a, x).
Qed.

Lemma assoc_aset a b x l : assoc b (aset a x l) = if b =? a then (match assoc a l with Some _ => Some x | None => None end) else assoc b l.
Proof.
  unfold aset. induction l as [|[k y] l IH]; cbn; [by destruct (b =? a)|]. destruct (Z.eqb_spec k a) as [->|Hk]; cbn.
  - destruct (Z.eqb_spec a b) as [->|]; [by rewrite Z.eqb_refl|]. destruct (Z.eqb_spec b a); [congruence|]. by rewrite IH.
  - rewrite IH. destruct (Z.eqb_spec k b) as [->|]; [by destruct (Z.eqb_spec b a)|done].
Qed.

Lemma assoc_adel a b l : assoc b (adel a l) = if b =? a then None else assoc b l.
Proof.
  unfold adel. induction l as [|[k y] l IH]; cbn; [by destruct (b =? a)|]. destruct (Z.eqb_spec k a) as [->|Hk]; cbn.
  - rewrite IH. destruct (Z.eqb_spec a b) as [->|]; [by rewrite Z.eqb_refl|done].
  - rewrite IH. destruct (Z.eqb_spec k b) as [->|]; [by destruct (Z.eqb_spec b a)|done].
Qed.

Lemma assoc_app a l l' : assoc a (l ++ l') = match assoc a l with Some x => Some x | None => assoc a l' end.
Proof. induction l as [|[k y] l IH]; cbn; [done|]. by destruct (k =? a). Qed.

Lemma fst_aset a x l : map fst (aset a x l) = map fst l.
Proof. unfold aset. induction l as [|[k y] l IH]; cbn; [done|]. f_equal; [|done]. cbn. by destruct (Z.eqb_spec k a). Qed.

Lemma fst_adel a l : map fst (adel a l) = List.filter (fun b => negb (b =? a)) (map fst l).
Proof. unfold adel. induction l as [|[k y] l IH]; cbn; [done|]. destruct (k =? a); cbn; by rewrite IH. Qed.

Lemma nodup_adel a l : NoDup (map fst l) -> NoDup (map fst (adel a l)).
Proof. rewrite fst_adel, !NoDup_ListNoDup. apply List.NoDup_filter. Qed.
End assoc.

(** ** Runs

    [runs m d Q]: from [d] the computation has a result, and [Q] holds of it. *)

Definition runs {A} (m : M A) (d : pr_dev) (Q : A -> pr_dev -> Prop) : Prop := exists a d', m d = Some (a, d') /\ Q a d'.

Section runs.
Context {A B : Type}.
Implicit Types (m : M A) (k : A -> M B) (d : pr_dev).

Lemma runs_bind m k d (R : B -> pr_dev -> Prop) : runs m d (fun a d' => runs (k a) d' R) -> runs (m ≫= k) d R.
Proof. intros (a & d' & E & b & d'' & E' & HR). exists b, d''. split; [|done]. by rewrite (pt_bind_some _ _ _ _ _ E). Qed.

Lemma runs_ret (a : A) d Q : Q a d -> runs (mret a) d Q.
Proof. intros H. by exists a, d. Qed.

Lemma runs_get (f : pr_dev -> A) d Q : Q (f d) d -> runs (get f) d Q.
Proof. intros H. by exists (f d), d. Qed.

Lemma runs_lift (x : option A) a d Q : x = Some a -> Q a d -> runs (lift x) d Q.
Proof. intros -> H. by exists a, d. Qed.

Lemma runs_mono m d (P Q : A -> pr_dev -> Prop) : runs m d P -> (forall a d', P a d' -> Q a d') -> runs m d Q.
Proof. intros (a & d' & E & H) HQ. exists a, d'. auto. Qed.
End runs.

Lemma runs_upd f d Q : Q tt (f d) -> runs (upd f) d Q.
Proof. intros H. by exists tt, (f d). Qed.

Lemma runs_get_reg r x d Q : assoc r (registrants d) = Some x -> Q x d -> runs (get_reg r) d Q.
Proof. intros E H. exists x, d. unfold get_reg. by rewrite E. Qed.

Lemma runs_get_td t x d Q : assoc t (tgt_devs d) = Some x -> Q x d -> runs (get_td t) d Q.
Proof. intros E H. exists x, d. unfold get_td. by rewrite E. Qed.

Lemma runs_kalloc d Q : (forall b l, Q b (d <|allocs := l|>)) -> runs kalloc d Q.
Proof.
  intros H. unfold runs, kalloc. destruct (allocs d) as [|b l] eqn:E; [|by exists b, (d <|allocs := l|>)].
  exists true, d. split; [done|]. specialize (H true []). replace (d <|allocs := []|>) with d in H; [done|]. rewrite <- E. by destruct d.
Qed.

(** A loop keeps what each of its steps keeps. *)
Lemma runs_for_each (I : list Z -> pr_dev -> Prop) l f d :
  I l d -> (forall a l d, I (a :: l) d -> runs (f a) d (fun _ d' => I l d')) -> runs (for_each l f) d (fun _ d' => I [] d').
Proof.
  intros H Hf. revert d H. induction l as [|a l IH]; intros d H; cbn; [by apply runs_ret|].
  apply runs_bind. eapply runs_mono; [by apply Hf|]. intros u d' H'. by apply IH.
Qed.

(** [go] steps through the operations whose result is known. *)
Ltac go :=
  repeat first
    [ apply runs_bind
    | apply runs_ret
    | apply runs_get
    | apply runs_upd
    | (eapply runs_get_reg; [eassumption|])
    | (eapply runs_get_td; [eassumption|])
    | (eapply runs_lift; [eassumption|])
    | progress cbn beta ].

(** ** The invariant *)

(** What is asked of the keys of a registrant is a parameter: it is less while a
    registration may still be undone. *)
Record regs_ok (K : Z -> registrant_t -> Prop) (nxt : Z) (regs : list (Z * registrant_t)) (tds : list (Z * tgt_dev_t)) : Prop := {
  ro_nodup : NoDup (map fst regs);
  ro_next : 0 < nxt;
  ro_addr a x : assoc a regs = Some x -> 0 < a < nxt;
  ro_tid a x : assoc a regs = Some x -> tid_ok (transport_id x);
  ro_key a x : assoc a regs = Some x -> K a x;
  ro_link a x : assoc a regs = Some x -> tgt_dev x <> 0 -> exists t, assoc (tgt_dev x) tds = Some t /\ registrant t = a;
  ro_diff a x b y : assoc a regs = Some x -> assoc b regs = Some y -> a <> b -> rel_tgt_id x = rel_tgt_id y ->
    tid_equal (Some (transport_id x)) (Some (transport_id y)) = Some false
}.

(** The number of tgt_devs of targets without transport ids. *)
Definition np_count (tds : list (Z * tgt_dev_t)) : Z :=
  Z.of_nat (length (List.filter (fun p => match sess_tid p.2 with None => true | _ => false end) tds)).

Record tds_ok (regs : list (Z * registrant_t)) (tds : list (Z * tgt_dev_t)) (l : list Z) (np : Z) : Prop := {
  to_nodup : NoDup (map fst tds);
  to_addr t x : assoc t tds = Some x -> t <> 0;
  to_tid t x tid : assoc t tds = Some x -> sess_tid x = Some tid -> tid_ok tid /\ tid_full tid;
  to_link t x : assoc t tds = Some x -> registrant x <> 0 ->
    exists r, assoc (registrant x) regs = Some r /\ tgt_dev r = t /\ rel_tgt_id r = sess_rel x /\
      tid_equal (Some (transport_id r)) (sess_tid x) = Some true;
  to_list t : t ∈ l -> is_Some (assoc t tds);
  to_count : np = np_count tds;
  to_np : regs <> [] -> np = 0
}.

Definition resv_ok (set : bool) (type scope holder : Z) (regs : list (Z * registrant_t)) : Prop :=
  if set then
    scst_pr_type_valid type = true /\ scope = SCOPE_LU /\ regs <> [] /\
    (if all_reg type then holder = 0 \/ is_Some (assoc holder regs) else is_Some (assoc holder regs))
  else type = TYPE_UNSPECIFIED /\ scope = SCOPE_LU /\ holder = 0.

Definition wfk (K : Z -> registrant_t -> Prop) (d : pr_dev) : Prop :=
  regs_ok K (next_reg d) (registrants d) (tgt_devs d) /\
  tds_ok (registrants d) (tgt_devs d) (td_list d) (not_pr_supporting d) /\
  resv_ok (pr_is_set d) (pr_type d) (pr_scope d) (pr_holder d) (registrants d).

Definition settled (_ : Z) (x : registrant_t) : Prop := key x <> 0 /\ rollback_key x = 0.

Notation wf := (wfk settled).

Lemma wfk_mono (K K' : Z -> registrant_t -> Prop) d :
  wfk K d -> (forall a x, assoc a (registrants d) = Some x -> K a x -> K' a x) -> wfk K' d.
Proof. intros ([] & Ht & Hv) H. split; [|done]. constructor; eauto. Qed.

Lemma regs_link_td K d r x : wfk K d -> assoc r (registrants d) = Some x -> tgt_dev x <> 0 ->
  exists t, assoc (tgt_dev x) (tgt_devs d) = Some t /\ registrant t = r.
Proof. intros (Hr & _) Hx. exact (ro_link _ _ _ _ Hr r x Hx). Qed.

Lemma td_link_reg K d t x : wfk K d -> assoc t (tgt_devs d) = Some x -> registrant x <> 0 ->
  exists r, assoc (registrant x) (registrants d) = Some r.
Proof. intros (_ & Ht & _) Hx H. destruct (to_link _ _ _ _ Ht t x Hx H) as (r & ? & _). eauto. Qed.

(** ** Searches *)

Lemma find_reg_in_spec l t rel : (forall a x, (a, x) ∈ l -> tid_ok (transport_id x)) -> tid_ok t ->
  exists r, find_reg_in l (Some t) rel = Some r /\
    (r = 0 /\ (forall a x, (a, x) ∈ l -> rel_tgt_id x = rel -> tid_equal (Some (transport_id x)) (Some t) = Some false) \/
     exists x, (r, x) ∈ l /\ rel_tgt_id x = rel /\ tid_equal (Some (transport_id x)) (Some t) = Some true).
Proof.
  intros Hl Ht. induction l as [|[a x] l IH]; cbn [find_reg_in].
  { exists 0. split; [done|]. left. split; [done|]. by intros ? ? ?%elem_of_nil. }
  destruct IH as (r & E & H); [intros b y Hy; apply (Hl b y); by right|].
  assert (Hskip : rel_tgt_id x <> rel \/ tid_equal (Some (transport_id x)) (Some t) = Some false ->
    r = 0 /\ (forall a' x', (a', x') ∈ (a, x) :: l -> rel_tgt_id x' = rel -> tid_equal (Some (transport_id x')) (Some t) = Some false) \/
    exists x', (r, x') ∈ (a, x) :: l /\ rel_tgt_id x' = rel /\ tid_equal (Some (transport_id x')) (Some t) = Some true).
  { intros Hs. destruct H as [[-> H]|(x' & H & H')]; [left|right; exists x'; split; [by right|done]].
    split; [done|]. intros b y [[= -> ->]|Hy]%elem_of_cons Hrel; [by destruct Hs|eauto]. }
  destruct (Z.eqb_spec (rel_tgt_id x) rel) as [Hr|Hr]; [|exists r; auto].
  destruct (tid_equal_total (transport_id x) t) as [[] Ee]; [by apply (Hl a x); left|done|..]; rewrite Ee; cbn [mbind option_bind].
  - exists a. split; [done|]. right. exists x. split_and!; [by left|done..].
  - exists r. auto.
Qed.

Lemma find_reg_spec K d t rel : wfk K d -> tid_ok t -> exists r, find_reg_in (registrants d) (Some t) rel = Some r /\
  (r = 0 /\ (forall a x, assoc a (registrants d) = Some x -> rel_tgt_id x = rel -> tid_equal (Some (transport_id x)) (Some t) = Some false) \/
   r <> 0 /\ exists x, assoc r (registrants d) = Some x /\ rel_tgt_id x = rel /\ tid_equal (Some (transport_id x)) (Some t) = Some true).
Proof.
  intros ([Hn ? Ha Hti] & _) Ht.
  destruct (find_reg_in_spec (registrants d) t rel) as (r & E & H); [intros a x Hx; apply (Hti a), (elem_assoc a x); auto|done|].
  exists r. split; [done|]. destruct H as [[-> H]|(x & Hx & H)]; [left|right].
  - split; [done|]. intros a x Hx%assoc_elem. by apply (H a).
  - apply elem_assoc in Hx; [|done]. split; [apply Ha in Hx; lia|]. by exists x.
Qed.

Lemma runs_find_reg K d t rel Q : wfk K d -> tid_ok t ->
  ((forall a x, assoc a (registrants d) = Some x -> rel_tgt_id x = rel -> tid_equal (Some (transport_id x)) (Some t) = Some false) -> Q 0 d) ->
  (forall r x, r <> 0 -> assoc r (registrants d) = Some x -> rel_tgt_id x = rel -> tid_equal (Some (transport_id x)) (Some t) = Some true -> Q r d) ->
  runs (scst_pr_find_reg (Some t) rel) d Q.
Proof.
  intros Hd Ht H0 H1. destruct (find_reg_spec K d t rel Hd Ht) as (r & E & H). unfold scst_pr_find_reg.
  apply runs_bind, runs_get. eapply runs_lift; [exact E|]. destruct H as [[-> H]|(Hr & x & Hx & Hrel & He)]; eauto.
Qed.

Definition td_fits (t0 : list Z) (rel t : Z) (tds : list (Z * tgt_dev_t)) : Prop :=
  t = 0 \/ exists x, assoc t tds = Some x /\ registrant x = 0 /\ sess_rel x = rel /\ tid_equal (sess_tid x) (Some t0) = Some true.

Lemma find_td_in_spec regs tds l np t0 rel l' : tds_ok regs tds l np -> (forall t, t ∈ l' -> t ∈ l) -> tid_ok t0 ->
  exists t, find_td_in tds l' t0 rel = Some t /\ td_fits t0 rel t tds.
Proof.
  intros Ht Hl H0. induction l' as [|t l' IH]; cbn [find_td_in]; [exists 0; split; [done|by left]|].
  destruct IH as (t' & E & H); [intros; apply Hl; by right|]. destruct (to_list _ _ _ _ Ht t) as [x Hx]; [apply Hl; by left|].
  rewrite Hx. cbn [mbind option_bind]. destruct (sess_tid x) as [tid|] eqn:Etid; [|cbn; eauto].
  destruct (tid_equal_total tid t0) as [e Ee]; [by eapply to_tid|done|]. rewrite Ee. cbn [mbind option_bind].
  destruct (e && (sess_rel x =? rel) && (registrant x =? 0)) eqn:Eb; [|eauto].
  exists t. split; [done|]. right. exists x. bool_prop. rewrite Etid. subst e. by split_and!.
Qed.

Lemma other_td_in_spec regs tds l np tid rel skip l' : tds_ok regs tds l np -> (forall t, t ∈ l' -> t ∈ l) -> tid_ok tid ->
  exists t, other_td_in tds l' skip tid rel = Some t /\
    (t = 0 \/ t <> skip /\ exists x, assoc t tds = Some x /\ sess_rel x = rel /\ tid_equal (sess_tid x) (Some tid) = Some true).
Proof.
  intros Ht Hl H0. induction l' as [|t l' IH]; cbn [other_td_in]; [exists 0; split; [done|by left]|].
  destruct IH as (t' & E & H); [intros; apply Hl; by right|]. destruct (Z.eqb_spec t skip) as [|Hsk]; [eauto|].
  destruct (to_list _ _ _ _ Ht t) as [x Hx]; [apply Hl; by left|].
  rewrite Hx. cbn [mbind option_bind]. destruct (Z.eqb_spec (sess_rel x) rel) as [Hrel|]; [|eauto]. destruct (sess_tid x) as [tid'|] eqn:Etid; [|cbn; eauto].
  destruct (tid_equal_total tid' tid) as [e Ee]; [by eapply to_tid|done|]. rewrite Ee. cbn [mbind option_bind]. destruct e; [|eauto].
  exists t. split; [done|]. right. split; [done|]. exists x. rewrite Etid. by split_and!.
Qed.

(** ** Adding a registrant *)

Definition add_state (d : pr_dev) (x : registrant_t) : pr_dev :=
  let r := next_reg d in
  d <|next_reg := r + 1|>
    <|tgt_devs := match assoc (tgt_dev x) (tgt_devs d) with
                  | Some t => aset (tgt_dev x) (t <|registrant := r|>) (tgt_devs d)
                  | None => tgt_devs d
                  end|>
    <|registrants := registrants d ++ [(r, x)]|>.

Lemma np_count_aset t x y tds : assoc t tds = Some x -> NoDup (map fst tds) -> sess_tid y = sess_tid x -> np_count (aset t y tds) = np_count tds.
Proof.
  unfold np_count, aset. intros Hx Hn Hs. f_equal. revert Hx Hn. induction tds as [|[k z] tds IH]; cbn; [done|]. rewrite NoDup_cons.
  destruct (Z.eqb_spec k t) as [->|Hk]; cbn.
  - intros [= ->] [Hni _]. rewrite Hs. assert (map (fun p => if p.1 =? t then (t, y) else p) tds = tds) as ->; [|by destruct (sess_tid x)].
    clear IH. induction tds as [|[k z] tds IH]; cbn in *; [done|]. rewrite elem_of_cons in Hni.
    destruct (Z.eqb_spec k t) as [->|]; [by destruct Hni; left|]. f_equal. apply IH. tauto.
  - intros Hx [_ Hn]. destruct (sess_tid z); cbn; by rewrite IH.
Qed.

Lemma resv_ok_more set type scope holder regs regs' : resv_ok set type scope holder regs -> (regs <> [] -> regs' <> []) ->
  (is_Some (assoc holder regs) -> is_Some (assoc holder regs')) -> resv_ok set type scope holder regs'.
Proof.
  unfold resv_ok. destruct set; [|done]. intros (? & ? & ? & H) Hne Hh. split_and!; auto. destruct (all_reg type); [|auto].
  destruct H; auto.
Qed.

Lemma wfk_add K d x : wfk K d -> tid_ok (transport_id x) -> not_pr_supporting d = 0 -> K (next_reg d) x ->
  (forall a y, assoc a (registrants d) = Some y -> rel_tgt_id y = rel_tgt_id x -> tid_equal (Some (transport_id y)) (Some (transport_id x)) = Some false) ->
  td_fits (transport_id x) (rel_tgt_id x) (tgt_dev x) (tgt_devs d) -> wfk K (add_state d x).
Proof.
  intros (Hr & Ht & Hv) Htid Hnp HK Hdiff Hfit. set (r := next_reg d). pose proof (ro_next _ _ _ _ Hr) as Hnx.
  assert (Hnew : assoc r (registrants d) = None).
  { destruct (assoc r (registrants d)) eqn:E; [|done]. apply (ro_addr _ _ _ _ Hr) in E. unfold r in E. lia. }
  set (tds' := tgt_devs (add_state d x)).
  assert (Htds : forall t, assoc t tds' = match assoc t (tgt_devs d) with
     | Some z => Some (if (t =? tgt_dev x) then z <|registrant := r|> else z) | None => None end).
  { intros t. unfold tds', add_state. cbn. destruct (assoc (tgt_dev x) (tgt_devs d)) as [z|] eqn:E.
    - rewrite assoc_aset. destruct (Z.eqb_spec t (tgt_dev x)) as [->|]; [by rewrite E|]. by destruct (assoc t _).
    - destruct (assoc t (tgt_devs d)) eqn:E'; [|done]. destruct (Z.eqb_spec t (tgt_dev x)); [congruence|done]. }
  assert (Hregs : forall a y, assoc a (registrants (add_state d x)) = Some y -> assoc a (registrants d) = Some y \/ a = r /\ y = x).
  { intros a y. unfold add_state. cbn. rewrite assoc_app. destruct (assoc a (registrants d)); [auto|]. cbn. fold r.
    destruct (Z.eqb_spec r a) as [<-|]; [|done]. intros [= <-]. auto. }
  assert (Hold : forall a y, assoc a (registrants d) = Some y -> assoc a (registrants (add_state d x)) = Some y).
  { intros a y E. unfold add_state. cbn. by rewrite assoc_app, E. }
  assert (Hself : assoc r (registrants (add_state d x)) = Some x).
  { unfold add_state. cbn. rewrite assoc_app, Hnew. cbn. by rewrite Z.eqb_refl. }
  split; [|split].
  - constructor.
    + unfold add_state. cbn. rewrite map_app. apply NoDup_app. split_and!; [apply Hr| |apply NoDup_singleton].
      intros a Ha ->%list_elem_of_singleton. by apply assoc_none in Hnew.
    + cbn. lia.
    + intros a y [E|[-> ->]]%Hregs; cbn; [apply (ro_addr _ _ _ _ Hr) in E; lia|unfold r; lia].
    + intros a y [E|[-> ->]]%Hregs; [by eapply ro_tid|done].
    + intros a y [E|[-> ->]]%Hregs; [by eapply ro_key|done].
    + intros a y [E|[-> ->]]%Hregs Hne; fold tds'; rewrite Htds.
      * destruct (ro_link _ _ _ _ Hr a y E Hne) as (z & Ez & Hz). rewrite Ez. eexists. split; [reflexivity|].
        destruct (Z.eqb_spec (tgt_dev y) (tgt_dev x)) as [Eq|]; [|done]. exfalso. destruct Hfit as [?|(w & Ew & Hw & _)]; [congruence|].
        rewrite <- Eq, Ez in Ew. injection Ew as <-. apply (ro_addr _ _ _ _ Hr) in E. lia.
      * destruct Hfit as [?|(w & Ew & Hw & _)]; [done|]. rewrite Ew, Z.eqb_refl. eexists. split; reflexivity.
    + intros a y b z [E|[-> ->]]%Hregs [F|[-> ->]]%Hregs Hab Hrel; [by eapply ro_diff|by eapply Hdiff| |done].
      apply tid_equal_sym; [by eapply ro_tid|done|]. by eapply Hdiff.
  - constructor.
    + unfold add_state. cbn. destruct (assoc (tgt_dev x) (tgt_devs d)); [rewrite fst_aset|]; apply Ht.
    + intros t z. fold tds'. rewrite Htds. destruct (assoc t (tgt_devs d)) eqn:E; [|done]. intros _. by eapply to_addr.
    + intros t z tid. fold tds'. rewrite Htds. destruct (assoc t (tgt_devs d)) as [w|] eqn:E; [|done]. intros [= <-] Hz.
      eapply to_tid; [exact Ht|exact E|]. by destruct (t =? tgt_dev x).
    + intros t z. fold tds'. rewrite Htds. destruct (assoc t (tgt_devs d)) as [w|] eqn:E; [|done].
      destruct (Z.eqb_spec t (tgt_dev x)) as [->|]; intros [= <-] Hz.
      * exists x. destruct Hfit as [H0|(w' & Ew & Hw & Hrel & He)]; [by apply (to_addr _ _ _ _ Ht) in E|].
        rewrite E in Ew. injection Ew as <-. cbn. split_and!; try done. destruct (sess_tid w) as [tid|] eqn:Es; [|done].
        apply tid_equal_sym; [|done|done]. by eapply to_tid.
      * destruct (to_link _ _ _ _ Ht t w E Hz) as (y & Hy & ?). exists y. split; [by apply Hold|done].
    + intros t Hl. fold tds'. rewrite Htds. destruct (to_list _ _ _ _ Ht t Hl) as [z ->]. eauto.
    + unfold add_state. cbn. destruct (assoc (tgt_dev x) (tgt_devs d)) as [z|] eqn:E; [|by apply Ht].
      rewrite (np_count_aset _ z); [by apply Ht|done|by apply Ht|done].
    + done.
  - eapply resv_ok_more; [exact Hv| |].
    + intros _. unfold add_state. cbn. by destruct (registrants d).
    + intros [y Hy]. exists y. by apply Hold.
Qed.

Lemma tid_dup_ok t : tid_ok t -> exists c, tid_dup t = Some c /\ tid_ok c /\
  (forall o, tid_equal (Some c) o = tid_equal (Some t) o) /\ (forall a, tid_ok a -> tid_equal (Some a) (Some c) = tid_equal (Some a) (Some t)).
Proof.
  intros Ht. pose proof Ht as [_ (n & E & Hl)]. unfold tid_dup. rewrite E. cbn. replace (Z.of_nat (length t) <? n) with false by lia.
  eexists. split; [reflexivity|]. split_and!; [by eapply tid_ok_take|intros; by apply tid_equal_take|intros; by apply tid_equal_take_r].
Qed.

(** Without memory nothing changes; otherwise there is one registrant more. *)
Lemma runs_add K d t rel k Q : wfk K d -> tid_ok t -> not_pr_supporting d = 0 ->
  (forall l, Q 0 (d <|allocs := l|>)) ->
  (forall x l, rel_tgt_id x = rel -> key x = k -> rollback_key x = 0 -> td_fits (transport_id x) rel (tgt_dev x) (tgt_devs d) ->
     tid_ok (transport_id x) -> (forall o, tid_equal (Some (transport_id x)) o = tid_equal (Some t) o) ->
     (K (next_reg d) x -> wfk K (add_state (d <|allocs := l|>) x)) ->
     Q (next_reg d) (add_state (d <|allocs := l|>) x)) ->
  runs (scst_pr_add_registrant (Some t) rel k) d Q.
Proof.
  intros Hd Ht Hnp H0 H1. unfold scst_pr_add_registrant. apply runs_bind. eapply runs_find_reg; [exact Hd|exact Ht| |].
  2:{ intros r x Hr _ _ _. apply Z.eqb_neq in Hr. rewrite Hr. cbn. apply runs_ret. specialize (H0 (allocs d)). by destruct d. }
  intros Hnone. cbn. apply runs_bind, runs_kalloc. intros b l. destruct b; cbn; [|apply runs_ret; auto].
  destruct (tid_dup_ok t Ht) as (c & Ec & Hc & Hcl & Hcr). apply runs_bind. eapply runs_lift; [exact Ec|].
  apply runs_bind, runs_kalloc. intros b l'. destruct b; cbn; [|apply runs_ret; apply H0].
  apply runs_bind, runs_get, runs_bind, runs_upd, runs_bind, runs_get, runs_bind, runs_get, runs_bind. cbn.
  destruct (find_td_in_spec (registrants d) (tgt_devs d) (td_list d) (not_pr_supporting d) t rel (td_list d)) as (td & Etd & Hfit); [apply Hd|done|done|].
  eapply runs_lift; [exact Etd|].
  assert (Hfit' : td_fits c rel td (tgt_devs d)).
  { destruct Hfit as [->|(x & Hx & Hreg & Hrel & He)]; [by left|right]. exists x. split_and!; try done.
    destruct (sess_tid x) as [tid|] eqn:Es; [|done]. rewrite Hcr; [done|]. destruct Hd as (_ & Htds & _). by eapply to_tid. }
  specialize (H1 (mkReg c rel k td 0) l' eq_refl eq_refl eq_refl Hfit' Hc Hcl).
  assert (Hadd : K (next_reg d) (mkReg c rel k td 0) -> wfk K (add_state (d <|allocs := l'|>) (mkReg c rel k td 0))).
  { intros HK. apply wfk_add; [exact Hd|done..| |done]. intros a y Ey Hrel. cbn [transport_id]. rewrite Hcr; [by eapply Hnone|]. destruct Hd as (Hr & _). by eapply ro_tid. }
  specialize (H1 Hadd). unfold add_state in H1. cbn in H1. destruct (Z.eqb_spec td 0) as [->|Hne].
  - assert (assoc 0 (tgt_devs d) = None) as E0 by (destruct (assoc 0 (tgt_devs d)) eqn:E; [destruct Hd as (_ & Htds & _); by apply (to_addr _ _ _ _ Htds) in E|done]).
    rewrite E0 in H1. go. exact H1.
  - destruct Hfit as [?|(x & Hx & _)]; [done|]. rewrite Hx in H1. apply runs_bind, runs_bind. eapply runs_get_td; [exact Hx|].
    unfold put_td. go. exact H1.
Qed.

(** ** Removing a registrant *)

Definition cleared (d : pr_dev) : pr_dev :=
  d <|pr_is_set := false|> <|pr_scope := SCOPE_LU|> <|pr_type := TYPE_UNSPECIFIED|> <|pr_holder := 0|>.

(** The reservation when a registrant has left the list. *)
Definition left (r : Z) (d : pr_dev) : pr_dev :=
  if scst_pr_is_holder r d then
    if all_reg (pr_type d) && negb (list_empty d) then d <|pr_holder := 0|> else cleared d
  else d.

Definition rem_state (d : pr_dev) (r : Z) (x : registrant_t) : pr_dev :=
  let d1 := left r (d <|registrants := adel r (registrants d)|>) in
  match assoc (tgt_dev x) (tgt_devs d1) with
  | Some t => d1 <|tgt_devs := aset (tgt_dev x) (t <|registrant := 0|>) (tgt_devs d1)|>
  | None => d1
  end.

Lemma left_fields r d : registrants (left r d) = registrants d /\ tgt_devs (left r d) = tgt_devs d /\ td_list (left r d) = td_list d /\
  not_pr_supporting (left r d) = not_pr_supporting d /\ next_reg (left r d) = next_reg d /\ events (left r d) = events d.
Proof. unfold left. repeat case_if; by split_and!. Qed.

Lemma rem_fields d r x : registrants (rem_state d r x) = adel r (registrants d) /\ td_list (rem_state d r x) = td_list d /\
  not_pr_supporting (rem_state d r x) = not_pr_supporting d /\ next_reg (rem_state d r x) = next_reg d /\ events (rem_state d r x) = events d.
Proof.
  unfold rem_state. set (d1 := d <|registrants := _|>). pose proof (left_fields r d1) as (H1 & H2 & H3 & H4 & H5 & H6).
  destruct (assoc _ _); cbn; by rewrite H1, H3, H4, H5, H6.
Qed.

Lemma rem_tds d r x t : assoc t (tgt_devs (rem_state d r x)) = match assoc t (tgt_devs d) with
  | Some z => Some (if t =? tgt_dev x then z <|registrant := 0|> else z) | None => None end.
Proof.
  unfold rem_state. set (d1 := d <|registrants := _|>). pose proof (left_fields r d1) as (_ & H2 & _). rewrite H2. cbn.
  destruct (assoc (tgt_dev x) (tgt_devs d)) as [z|] eqn:E; cbn; rewrite ?H2; cbn.
  - rewrite assoc_aset. destruct (Z.eqb_spec t (tgt_dev x)) as [->|]; [by rewrite E|]. by destruct (assoc t _).
  - destruct (assoc t (tgt_devs d)) eqn:E'; [|done]. destruct (Z.eqb_spec t (tgt_dev x)); [congruence|done].
Qed.

Lemma all_reg_unspecified : all_reg TYPE_UNSPECIFIED = false.
Proof. reflexivity. Qed.

Lemma resv_left K d r x : wfk K d -> assoc r (registrants d) = Some x ->
  let d' := left r (d <|registrants := adel r (registrants d)|>) in
  resv_ok (pr_is_set d') (pr_type d') (pr_scope d') (pr_holder d') (adel r (registrants d)).
Proof.
  intros (Hr & _ & Hv) Hx. cbn. pose proof (ro_addr _ _ _ _ Hr r x Hx) as Ha. unfold left, scst_pr_is_holder. cbn. unfold resv_ok in *.
  destruct (pr_is_set d) eqn:Es; cbn; [|rewrite Es; done]. destruct Hv as (Hty & Hsc & Hne & Hh).
  destruct (all_reg (pr_type d)) eqn:Ea; cbn.
  - replace (r =? 0) with false by lia. cbn. unfold list_empty. cbn. destruct (adel r (registrants d)) eqn:El; cbn; [by split_and!|].
    rewrite Es, Ea. split_and!; try done. by left.
  - destruct (Z.eqb_spec (pr_holder d) r) as [<-|Hnr]; cbn; [by split_and!|]. rewrite Es, Ea.
    assert (is_Some (assoc (pr_holder d) (adel r (registrants d)))) as Hs.
    { rewrite assoc_adel. by replace (pr_holder d =? r) with false by lia. }
    split_and!; try done. intros El. rewrite El in Hs. by destruct Hs.
Qed.

Lemma rem_resv d r x : let d' := rem_state d r x in let d1 := left r (d <|registrants := adel r (registrants d)|>) in
  pr_is_set d' = pr_is_set d1 /\ pr_type d' = pr_type d1 /\ pr_scope d' = pr_scope d1 /\ pr_holder d' = pr_holder d1 /\
  pr_generation d' = pr_generation d /\ pr_aptpl d' = pr_aptpl d /\ allocs d' = allocs d.
Proof. cbn. unfold rem_state. destruct (assoc _ _); unfold left; repeat case_if; by split_and!. Qed.

Lemma np_count_unlink t tds : NoDup (map fst tds) ->
  np_count (match assoc t tds with Some z => aset t (z <|registrant := 0|>) tds | None => tds end) = np_count tds.
Proof. intros Hn. destruct (assoc t tds) as [z|] eqn:E; [|done]. by apply (np_count_aset _ z). Qed.

Lemma wfk_rem K d r x : wfk K d -> assoc r (registrants d) = Some x -> wfk K (rem_state d r x).
Proof.
  intros Hd Hx. pose proof (resv_left K d r x Hd Hx) as Hv. destruct Hd as (Hr & Ht & _).
  pose proof (rem_fields d r x) as (Er & El & En & Ex & _). pose proof (rem_resv d r x) as (E1 & E2 & E3 & E4 & _).
  pose proof (ro_addr _ _ _ _ Hr r x Hx) as Ha.
  assert (Hlink : forall a y, assoc a (registrants d) = Some y -> a <> r -> tgt_dev y <> 0 -> tgt_dev y <> tgt_dev x).
  { intros a y Ey Hne H0 Eq. destruct (ro_link _ _ _ _ Hr a y Ey H0) as (z & Hz & Hza).
    destruct (ro_link _ _ _ _ Hr r x Hx) as (z' & Hz' & Hza'); [congruence|]. rewrite Eq in Hz. congruence. }
  unfold wfk. rewrite Er, El, En, Ex, E1, E2, E3, E4. split; [|split; [|exact Hv]]; constructor.
  - apply nodup_adel, Hr.
  - apply Hr.
  - intros a y. rewrite assoc_adel. destruct (a =? r); [done|]. apply (ro_addr _ _ _ _ Hr).
  - intros a y. rewrite assoc_adel. destruct (a =? r); [done|]. apply (ro_tid _ _ _ _ Hr).
  - intros a y. rewrite assoc_adel. destruct (a =? r); [done|]. apply (ro_key _ _ _ _ Hr).
  - intros a y. rewrite assoc_adel. destruct (Z.eqb_spec a r); [done|]. intros Ey H0. rewrite rem_tds.
    destruct (ro_link _ _ _ _ Hr a y Ey H0) as (z & -> & Hz). eexists. split; [reflexivity|].
    destruct (Z.eqb_spec (tgt_dev y) (tgt_dev x)); [|done]. by destruct (Hlink a y).
  - intros a y b z. rewrite !assoc_adel. destruct (a =? r); [done|]. destruct (b =? r); [done|]. apply (ro_diff _ _ _ _ Hr).
  - assert (map fst (tgt_devs (rem_state d r x)) = map fst (tgt_devs d)) as ->; [|apply Ht].
    unfold rem_state. pose proof (left_fields r (d <|registrants := adel r (registrants d)|>)) as (_ & -> & _). cbn.
    destruct (assoc (tgt_dev x) (tgt_devs d)); cbn; [by rewrite fst_aset|]. f_equal.
    exact (proj1 (proj2 (left_fields r (d <|registrants := adel r (registrants d)|>)))).
  - intros t z. rewrite rem_tds. destruct (assoc t (tgt_devs d)) eqn:E; [|done]. intros _. by eapply to_addr.
  - intros t z tid. rewrite rem_tds. destruct (assoc t (tgt_devs d)) as [w|] eqn:E; [|done]. intros [= <-] Hz.
    eapply to_tid; [exact Ht|exact E|]. by destruct (t =? tgt_dev x).
  - intros t z. rewrite rem_tds. destruct (assoc t (tgt_devs d)) as [w|] eqn:E; [|done].
    destruct (Z.eqb_spec t (tgt_dev x)) as [->|Hne]; intros [= <-] Hz; [done|].
    destruct (to_link _ _ _ _ Ht t w E Hz) as (y & Hy & Hyt & ?). exists y. rewrite assoc_adel. split; [|done].
    destruct (Z.eqb_spec (registrant w) r) as [Er'|]; [|done]. rewrite Er', Hx in Hy. congruence.
  - intros t Hl. rewrite rem_tds. destruct (to_list _ _ _ _ Ht t Hl) as [z ->]. eauto.
  - rewrite (to_count _ _ _ _ Ht). symmetry. unfold rem_state.
    pose proof (left_fields r (d <|registrants := adel r (registrants d)|>)) as (_ & H2 & _). cbn in H2. rewrite H2.
    pose proof (np_count_unlink (tgt_dev x) (tgt_devs d) (to_nodup _ _ _ _ Ht)) as Hc.
    destruct (assoc (tgt_dev x) (tgt_devs d)); cbn; [done|]. by rewrite H2.
  - intros _. apply (to_np _ _ _ _ Ht). intros El'. by rewrite El' in Hx.
Qed.

Lemma run_remove K d r x : wfk K d -> assoc r (registrants d) = Some x -> scst_pr_remove_registrant r d = Some (tt, rem_state d r x).
Proof.
  intros Hd Hx. unfold scst_pr_remove_registrant. rewrite (pt_bind_some _ _ _ x d) by (unfold get_reg; by rewrite Hx).
  set (d1 := d <|registrants := adel r (registrants d)|>). rewrite (pt_bind_some _ _ _ tt d1) by done.
  rewrite (pt_bind_some _ _ _ (scst_pr_is_holder r d1) d1) by done. cbn beta.
  rewrite (pt_bind_some _ _ _ tt (left r d1)).
  2:{ unfold left. destruct (scst_pr_is_holder r d1); [|done]. unfold scst_pr_clear_holder, get, upd, mbind, pt_bind. cbn [mbind].
      destruct (all_reg (pr_type d1)); [|done]. destruct (list_empty d1); done. }
  unfold rem_state. fold d1. pose proof (left_fields r d1) as (_ & H2 & _). rewrite H2. change (tgt_devs d1) with (tgt_devs d).
  destruct (Z.eqb_spec (tgt_dev x) 0) as [E|E].
  - destruct (assoc (tgt_dev x) (tgt_devs d)) eqn:E'; [|done]. destruct Hd as (_ & Ht & _). by apply (to_addr _ _ _ _ Ht) in E'.
  - destruct (regs_link_td K d r x Hd Hx E) as (t & Et & _). unfold put_td, get_td, upd, mbind, pt_bind. rewrite H2.
    change (tgt_devs d1) with (tgt_devs d). rewrite Et. cbn. by rewrite H2.
Qed.

Lemma runs_remove K d r x (Q : unit -> pr_dev -> Prop) : wfk K d -> assoc r (registrants d) = Some x ->
  (wfk K (rem_state d r x) -> Q tt (rem_state d r x)) -> runs (scst_pr_remove_registrant r) d Q.
Proof. intros Hd Hx HQ. exists tt, (rem_state d r x). split; [by eapply run_remove|]. by apply HQ, wfk_rem. Qed.

(** ** Changing keys, the reservation and links *)

Definition put_state (d : pr_dev) (r : Z) (x : registrant_t) : pr_dev := d <|registrants := aset r x (registrants d)|>.

Lemma assoc_put {B} r (x y : B) regs a z : assoc r regs = Some x -> assoc a (aset r y regs) = Some z ->
  a <> r /\ assoc a regs = Some z \/ a = r /\ z = y.
Proof. intros Hx. rewrite assoc_aset. destruct (Z.eqb_spec a r) as [->|]; [rewrite Hx; intros [= <-]|]; auto. Qed.

Lemma assoc_aset_some {B} r (y : B) regs a : is_Some (assoc a regs) -> is_Some (assoc a (aset r y regs)).
Proof. intros [z Hz]. rewrite assoc_aset. destruct (Z.eqb_spec a r) as [->|]; rewrite Hz; eauto. Qed.

Lemma aset_nil {B} r (y : B) regs : regs <> [] -> aset r y regs <> [].
Proof. by destruct regs. Qed.

Lemma wfk_put (K K' : Z -> registrant_t -> Prop) d r x y : wfk K d -> assoc r (registrants d) = Some x ->
  transport_id y = transport_id x -> rel_tgt_id y = rel_tgt_id x -> tgt_dev y = tgt_dev x -> K' r y ->
  (forall a z, a <> r -> assoc a (registrants d) = Some z -> K a z -> K' a z) -> wfk K' (put_state d r y).
Proof.
  intros (Hr & Ht & Hv) Hx Etid Erel Etd HK HK'. split; [|split].
  - constructor; cbn.
    + rewrite fst_aset. apply Hr.
    + apply Hr.
    + intros a z [[_ E]|[-> ->]]%(assoc_put r x); [by apply (ro_addr _ _ _ _ Hr) in E|by apply (ro_addr _ _ _ _ Hr) in Hx|done].
    + intros a z [[_ E]|[-> ->]]%(assoc_put r x); [by eapply ro_tid|rewrite Etid; by eapply ro_tid|done].
    + intros a z [[Hne E]|[-> ->]]%(assoc_put r x); [apply HK'; [done..|by eapply ro_key]|done|done].
    + intros a z [[_ E]|[-> ->]]%(assoc_put r x); [by eapply ro_link|rewrite Etd; by eapply ro_link|done].
    + intros a z b w [[_ E]|[-> ->]]%(assoc_put r x) [[_ F]|[-> ->]]%(assoc_put r x) Hab Hrel; try done; rewrite ?Etid;
        eapply ro_diff; try eassumption; congruence.
  - destruct Ht as [H1 H2 H3 H4 H5 H6 H7]. constructor; cbn; try assumption.
    + intros t z Hz Hne. destruct (H4 t z Hz Hne) as (w & Hw & Hwt & Hwr & Hwe). rewrite assoc_aset.
      destruct (Z.eqb_spec (registrant z) r) as [Er|]; [|exists w; by split_and!]. rewrite Er, Hx in Hw. injection Hw as <-.
      rewrite Hx. exists y. rewrite Etid, Erel, Etd. by split_and!.
    + intros Hne. apply H7. intros E. rewrite E in Hx. done.
  - eapply resv_ok_more; [exact Hv|by apply aset_nil|apply assoc_aset_some].
Qed.

(** The reservation of a registrant. *)
Definition held (d : pr_dev) (r scope type : Z) : pr_dev :=
  let d1 := d <|pr_is_set := true|> <|pr_scope := scope|> <|pr_type := type|> in
  if all_reg type then d1 else d1 <|pr_holder := r|>.

Lemma runs_set_holder d r scope type Q : Q tt (held d r scope type) -> runs (scst_pr_set_holder r scope type) d Q.
Proof.
  intros H. exists tt, (held d r scope type). split; [|done]. unfold scst_pr_set_holder, held, mbind, pt_bind, upd. by destruct (all_reg type).
Qed.

Lemma wfk_held K d r type : wfk K d -> scst_pr_type_valid type = true -> is_Some (assoc r (registrants d)) -> wfk K (held d r SCOPE_LU type).
Proof.
  intros (Hr & Ht & Hv) Hty Hs. unfold held, wfk. destruct (all_reg type) eqn:Ea; cbn.
  - split; [exact Hr|]. split; [exact Ht|]. rewrite Ea. split_and!; try done; [intros E; rewrite E in Hs; by destruct Hs|].
    unfold resv_ok in Hv. destruct (pr_is_set d); [|left; apply Hv]. destruct Hv as (_ & _ & _ & Hv). destruct (all_reg (pr_type d)); auto.
  - split; [exact Hr|]. split; [exact Ht|]. rewrite Ea. split_and!; try done. intros E; rewrite E in Hs; by destruct Hs.
Qed.

(** Unit attentions and aborts change nothing else. *)
Lemma runs_send_ua_reg K d u r x (Q : unit -> pr_dev -> Prop) : wfk K d -> assoc r (registrants d) = Some x ->
  Q tt (d <|events := events d ++ (if tgt_dev x =? 0 then [] else [SetUA (tgt_dev x) u])|>) -> runs (scst_pr_send_ua_reg u r) d Q.
Proof.
  intros Hd Hx HQ. unfold scst_pr_send_ua_reg. apply runs_bind. eapply runs_get_reg; [exact Hx|].
  destruct (Z.eqb_spec (tgt_dev x) 0) as [E|E]; cbn in HQ.
  - apply runs_ret. rewrite app_nil_r in HQ. by destruct d.
  - destruct (regs_link_td K d r x Hd Hx E) as (t & Et & _). apply runs_bind. eapply runs_get_td; [exact Et|]. unfold note. by apply runs_upd.
Qed.

Lemma runs_abort_reg K d r x (Q : unit -> pr_dev -> Prop) : wfk K d -> assoc r (registrants d) = Some x ->
  Q tt (d <|events := events d ++ (if tgt_dev x =? 0 then [] else [AbortAll (tgt_dev x)])|>) -> runs (scst_pr_abort_reg r) d Q.
Proof.
  intros Hd Hx HQ. unfold scst_pr_abort_reg. apply runs_bind. eapply runs_get_reg; [exact Hx|].
  destruct (Z.eqb_spec (tgt_dev x) 0) as [E|E]; cbn in HQ.
  - apply runs_ret. rewrite app_nil_r in HQ. by destruct d.
  - destruct (regs_link_td K d r x Hd Hx E) as (t & Et & _). apply runs_bind. eapply runs_get_td; [exact Et|]. unfold note. by apply runs_upd.
Qed.

(** The unit attentions for all registrants but one. *)
Definition uas (u : ua) (exclude : Z) (regs : list (Z * registrant_t)) : list pr_event :=
  concat (map (fun p => if p.1 =? exclude then [] else if tgt_dev p.2 =? 0 then [] else [SetUA (tgt_dev p.2) u]) regs).

Lemma runs_send_ua_all K d u ex (Q : unit -> pr_dev -> Prop) : wfk K d ->
  Q tt (d <|events := events d ++ uas u ex (registrants d)|>) -> runs (scst_pr_send_ua_all ex u) d Q.
Proof.
  intros Hd HQ. unfold scst_pr_send_ua_all. apply runs_bind, runs_get.
  assert (H : forall l done, registrants d = done ++ l ->
    runs (for_each (map fst l) (fun r => if r =? ex then mret tt else scst_pr_send_ua_reg u r))
      (d <|events := events d ++ uas u ex done|>) Q).
  { induction l as [|[r x] l IH]; intros done El; cbn [map for_each].
    - apply runs_ret. rewrite app_nil_r in El. by rewrite <- El.
    - assert (Hx : assoc r (registrants d) = Some x).
      { apply elem_assoc; [apply Hd|]. rewrite El. apply elem_of_app. right. by left. }
      specialize (IH (done ++ [(r, x)])). rewrite <- app_assoc in IH. specialize (IH El). apply runs_bind. cbn [fst].
      assert (Hev : uas u ex (done ++ [(r, x)]) = uas u ex done ++ (if r =? ex then [] else if tgt_dev x =? 0 then [] else [SetUA (tgt_dev x) u])).
      { unfold uas. rewrite map_app, concat_app. cbn. by rewrite app_nil_r. }
      rewrite Hev, app_assoc in IH. destruct (r =? ex).
      + apply runs_ret. by rewrite app_nil_r in IH.
      + eapply runs_send_ua_reg; [exact Hd|exact Hx|]. exact IH. }
  specialize (H (registrants d) [] eq_refl). cbn in H. rewrite app_nil_r in H. by destruct d.
Qed.

(** ** Sessions *)

Definition pair_state (d : pr_dev) (t : Z) (x : tgt_dev_t) (r : Z) (y : registrant_t) (v w : Z) : pr_dev :=
  d <|tgt_devs := aset t (x <|registrant := v|>) (tgt_devs d)|> <|registrants := aset r (y <|tgt_dev := w|>) (registrants d)|>.

(** A tgt_dev and a registrant that belong together are joined or parted. *)
Lemma wf_pair d t x r y (b : bool) : wf d -> assoc t (tgt_devs d) = Some x -> assoc r (registrants d) = Some y ->
  (if b then registrant x = 0 /\ tgt_dev y = 0 /\ rel_tgt_id y = sess_rel x /\ tid_equal (Some (transport_id y)) (sess_tid x) = Some true
   else registrant x = r) ->
  wf (pair_state d t x r y (if b then r else 0) (if b then t else 0)).
Proof.
  intros (Hr & Ht & Hv) Hx Hy Hb. pose proof (ro_addr _ _ _ _ Hr r y Hy) as Ha. pose proof (to_addr _ _ _ _ Ht t x Hx) as Ht0.
  assert (Hty : b = false -> tgt_dev y = t).
  { intros ->. destruct (to_link _ _ _ _ Ht t x Hx) as (z & Hz & Hzt & _); [lia|]. congruence. }
  split; [|split].
  - constructor; cbn.
    + rewrite fst_aset. apply Hr.
    + apply Hr.
    + intros a z [[_ E]|[-> ->]]%(assoc_put r y); [by apply (ro_addr _ _ _ _ Hr) in E|done|done].
    + intros a z [[_ E]|[-> ->]]%(assoc_put r y); [by eapply ro_tid|exact (ro_tid _ _ _ _ Hr r y Hy)|done].
    + intros a z [[_ E]|[-> ->]]%(assoc_put r y); [by eapply ro_key|exact (ro_key _ _ _ _ Hr r y Hy)|done].
    + intros a z [[Hne E]|[-> ->]]%(assoc_put r y) Hz; [..|done].
      * destruct (ro_link _ _ _ _ Hr a z E Hz) as (w & Hw & Hwa). rewrite assoc_aset.
        destruct (Z.eqb_spec (tgt_dev z) t) as [Et|]; [|eauto]. rewrite Et, Hx in Hw. injection Hw as <-.
        destruct b; [|congruence]. destruct Hb as [Hb _]. apply (ro_addr _ _ _ _ Hr) in E. lia.
      * destruct b; [|done]. cbn. rewrite assoc_aset, Z.eqb_refl, Hx. eexists. split; reflexivity.
    + intros a z b' w [[_ E]|[-> ->]]%(assoc_put r y) [[_ F]|[-> ->]]%(assoc_put r y) Hab Hrel; try done; cbn;
        eapply ro_diff; try eassumption; congruence.
  - constructor; cbn.
    + rewrite fst_aset. apply Ht.
    + intros t' z [[_ E]|[-> ->]]%(assoc_put t x); [by eapply to_addr|done|done].
    + intros t' z tid [[_ E]|[-> ->]]%(assoc_put t x); [by eapply to_tid|exact (to_tid _ _ _ _ Ht t x tid Hx)|done].
    + intros t' z [[Hne E]|[-> ->]]%(assoc_put t x) Hz; [..|done].
      * destruct (to_link _ _ _ _ Ht t' z E Hz) as (w & Hw & Hwt & Hwr). rewrite assoc_aset.
        destruct (Z.eqb_spec (registrant z) r) as [Er|]; [|eauto]. rewrite Er, Hy in Hw. injection Hw as <-. exfalso.
        destruct b; [|specialize (Hty eq_refl); congruence]. destruct Hb as (_ & Hb & _). rewrite Hb in Hwt. by apply (to_addr _ _ _ _ Ht) in E.
      * destruct b; [|done]. cbn. rewrite assoc_aset, Z.eqb_refl, Hy. eexists. split; [reflexivity|]. cbn. tauto.
    + intros t' Hl. apply assoc_aset_some. by eapply to_list.
    + rewrite (np_count_aset _ x); [apply Ht|done|apply Ht|done].
    + intros _. apply (to_np _ _ _ _ Ht). intros E. by rewrite E in Hy.
  - eapply resv_ok_more; [exact Hv|by apply aset_nil|apply assoc_aset_some].
Qed.

Lemma runs_init_tgt_dev d t x (Q : unit -> pr_dev -> Prop) : wf d -> assoc t (tgt_devs d) = Some x -> registrant x = 0 ->
  (forall d', wf d' -> Q tt d') -> runs (scst_pr_init_tgt_dev t) d Q.
Proof.
  intros Hd Hx H0 HQ. unfold scst_pr_init_tgt_dev. apply runs_bind. eapply runs_get_td; [exact Hx|].
  destruct (sess_tid x) as [tid|] eqn:Etid; [|apply runs_ret; auto].
  destruct (to_tid _ _ _ _ (proj1 (proj2 Hd)) t x tid Hx Etid) as [Hok Hfull].
  apply runs_bind. eapply runs_find_reg; [exact Hd|exact Hok|intros _; apply runs_ret; auto|].
  intros r y Hr Hy Hrel He. replace (r =? 0) with false by lia. apply runs_bind. eapply runs_get_reg; [exact Hy|].
  destruct (Z.eqb_spec (tgt_dev y) 0) as [E|E]; cbn [negb]; [|apply runs_ret; auto].
  unfold put_td, put_reg. apply runs_bind, runs_upd, runs_upd. apply HQ. apply (wf_pair d t x r y true Hd Hx Hy).
  by rewrite Etid.
Qed.

Lemma runs_clear_tgt_dev d t x (Q : unit -> pr_dev -> Prop) : wf d -> assoc t (tgt_devs d) = Some x ->
  (forall d', wf d' -> td_list d' = td_list d -> not_pr_supporting d' = not_pr_supporting d ->
     registrants d' = [] <-> registrants d = [] ->
     (exists y, assoc t (tgt_devs d') = Some y /\ registrant y = 0 /\ sess_tid y = sess_tid x) -> Q tt d') ->
  runs (scst_pr_clear_tgt_dev t) d Q.
Proof.
  intros Hd Hx HQ. unfold scst_pr_clear_tgt_dev. apply runs_bind. eapply runs_get_td; [exact Hx|].
  destruct (Z.eqb_spec (registrant x) 0) as [E|E]; [apply runs_ret, HQ; eauto|].
  destruct (to_link _ _ _ _ (proj1 (proj2 Hd)) t x Hx E) as (y & Hy & Hyt & Hrel & He).
  unfold put_td, put_reg. apply runs_bind, runs_upd, runs_bind. eapply runs_get_reg; [exact Hy|].
  apply runs_bind, runs_upd, runs_bind, runs_get, runs_bind, runs_get, runs_bind.
  pose proof (wf_pair d t x (registrant x) y false Hd Hx Hy eq_refl) as Hd'. cbn in Hd'.
  set (d1 := pair_state d t x (registrant x) y 0 0) in Hd'.
  assert (Hy1 : assoc (registrant x) (registrants d1) = Some (y <|tgt_dev := 0|>)) by (unfold d1, pair_state; cbn; by rewrite assoc_aset, Z.eqb_refl, Hy).
  assert (Hx1 : assoc t (tgt_devs d1) = Some (x <|registrant := 0|>)) by (unfold d1, pair_state; cbn; by rewrite assoc_aset, Z.eqb_refl, Hx).
  assert (Hnil : registrants d1 = [] <-> registrants d = []) by (unfold d1, pair_state; cbn; by destruct (registrants d)).
  destruct Hd' as (Hr1 & Ht1 & Hv1).
  destruct (other_td_in_spec _ _ _ _ (transport_id y) (rel_tgt_id y) t (td_list d1) Ht1) as (t' & Et' & H); [done|by eapply (ro_tid _ _ _ _ (proj1 Hd))|].
  eapply runs_lift; [exact Et'|]. destruct (Z.eqb_spec t' 0) as [E0|E0].
  - apply runs_ret, HQ; [by split_and!|done|done|done|eauto].
  - destruct H as [?|(Hne & x' & Hx' & Hrel' & He')]; [done|]. apply runs_bind. eapply runs_get_td; [exact Hx'|]. apply runs_bind, runs_upd, runs_upd.
    assert (Hfree : registrant x' = 0).
    { destruct (Z.eqb_spec (registrant x') 0) as [|Hne']; [done|exfalso].
      destruct (to_link _ _ _ _ Ht1 t' x' Hx' Hne') as (z & Hz & Hzt & Hzr & Hze).
      destruct (Z.eqb_spec (registrant x') (registrant x)) as [Eq|Hdiff].
      - rewrite Eq, Hy1 in Hz. injection Hz as <-. cbn in Hzt. congruence.
      - destruct (sess_tid x') as [tid|] eqn:Es; [|done]. destruct (to_tid _ _ _ _ Ht1 t' x' tid Hx' Es) as [Hok Hfull].
        pose proof (ro_tid _ _ _ _ Hr1 _ _ Hy1) as Hoky. pose proof (ro_tid _ _ _ _ Hr1 _ _ Hz) as Hokz.
        pose proof (ro_diff _ _ _ _ Hr1 _ _ _ _ Hz Hy1 Hdiff ltac:(cbn; congruence)) as Hno.
        apply tid_equal_sym in He'; [|done|done]. pose proof (tid_equal_via _ _ _ Hokz Hok Hoky Hfull Hze He') as Hyes. cbn [transport_id] in *. congruence. }
    pose proof (wf_pair d1 t' x' (registrant x) (y <|tgt_dev := 0|>) true) as Hp. cbn in Hp.
    assert (Heq : aset (registrant x) (y <|tgt_dev := t'|>) (aset (registrant x) (y <|tgt_dev := 0|>) (registrants d)) =
                  aset (registrant x) (y <|tgt_dev := 0|> <|tgt_dev := t'|>) (registrants d1)) by reflexivity.
    apply HQ; try done.
    + apply Hp; [by split_and!|done|done|]. split_and!; try done. destruct (sess_tid x') as [tid|] eqn:Es; [|done].
      apply tid_equal_sym; [|by eapply (ro_tid _ _ _ _ (proj1 Hd))|done]. by eapply to_tid.
    + cbn. by destruct (registrants d).
    + cbn. fold d1. change (aset t _ (tgt_devs d)) with (tgt_devs d1). rewrite assoc_aset. replace (t =? t') with false by lia. rewrite Hx1. by eexists.
Qed.

Lemma np_count_app tds t x : np_count (tds ++ [(t, x)]) = np_count tds + (match sess_tid x with None => 1 | _ => 0 end).
Proof. unfold np_count. rewrite List.filter_app, length_app. cbn. destruct (sess_tid x); cbn; lia. Qed.

Lemma np_count_adel tds t x : NoDup (map fst tds) -> assoc t tds = Some x ->
  np_count (adel t tds) = np_count tds - (match sess_tid x with None => 1 | _ => 0 end).
Proof.
  unfold np_count, adel. induction tds as [|[k z] tds IH]; cbn; [done|]. rewrite NoDup_cons. intros [Hk Hn]. destruct (Z.eqb_spec k t) as [->|]; cbn.
  - intros [= ->]. assert (List.filter (fun p : Z * tgt_dev_t => negb (p.1 =? t)) tds = tds) as ->.
    { clear -Hk. induction tds as [|[k z] tds IH]; cbn in *; [done|]. rewrite elem_of_cons in Hk. destruct (Z.eqb_spec k t) as [->|]; [tauto|].
      cbn. f_equal. tauto. }
    destruct (sess_tid x); cbn; lia.
  - intros Hx. specialize (IH Hn Hx). destruct (sess_tid z); cbn; lia.
Qed.

(** A tgt_dev more. *)
Lemma wf_td_add d t tid rel np : wf d -> assoc t (tgt_devs d) = None -> t <> 0 -> (forall x, tid = Some x -> tid_ok x /\ tid_full x) ->
  np = not_pr_supporting d + (match tid with None => 1 | _ => 0 end) -> (tid = None -> registrants d = []) ->
  wf (d <|not_pr_supporting := np|> <|tgt_devs := tgt_devs d ++ [(t, mkTd tid rel 0)]|>).
Proof.
  intros (Hr & Ht & Hv) Hn Ht0 Htid Hnp He.
  assert (Hold : forall a x, assoc a (tgt_devs d) = Some x -> assoc a (tgt_devs d ++ [(t, mkTd tid rel 0)]) = Some x) by (intros a x E; by rewrite assoc_app, E).
  assert (Hnew : forall a x, assoc a (tgt_devs d ++ [(t, mkTd tid rel 0)]) = Some x -> assoc a (tgt_devs d) = Some x \/ a = t /\ x = mkTd tid rel 0).
  { intros a x. rewrite assoc_app. destruct (assoc a (tgt_devs d)); [auto|]. cbn. destruct (Z.eqb_spec t a) as [<-|]; [|done]. intros [= <-]. auto. }
  split; [|split; [|exact Hv]].
  - destruct Hr as [H1 H2 H3 H4 H5 H6 H7]. constructor; cbn; try assumption. intros a x Hx Hne. destruct (H6 a x Hx Hne) as (z & Hz & ?). eauto.
  - destruct Ht as [H1 H2 H3 H4 H5 H6 H7]. constructor; cbn.
    + rewrite map_app. apply NoDup_app. split_and!; [done| |apply NoDup_singleton]. intros a Ha ->%list_elem_of_singleton. by apply assoc_none in Hn.
    + intros a x [E|[-> ->]]%Hnew; eauto.
    + intros a x tid' [E|[-> ->]]%Hnew; [eauto|]. apply Htid.
    + intros a x [E|[-> ->]]%Hnew; [eauto|done].
    + intros a Ha. destruct (H5 a Ha) as [x Hx]. eauto.
    + rewrite np_count_app, Hnp, H6. done.
    + intros Hne. rewrite Hnp, (H7 Hne). destruct tid; [done|]. by rewrite He in Hne.
Qed.

Lemma runs_tgt_dev_add d t tid rel : wf d -> assoc t (tgt_devs d) = None -> t <> 0 -> (forall x, tid = Some x -> tid_ok x /\ tid_full x) ->
  runs (tgt_dev_add t tid rel) d (fun _ d' => wf d').
Proof.
  intros Hd Hn Ht0 Htid. unfold tgt_dev_add. apply runs_bind, runs_get.
  assert (Hx : forall np, assoc t (tgt_devs (d <|not_pr_supporting := np|> <|tgt_devs := tgt_devs d ++ [(t, mkTd tid rel 0)]|>)) = Some (mkTd tid rel 0)).
  { intros np. cbn. rewrite assoc_app, Hn. cbn. by rewrite Z.eqb_refl. }
  destruct tid as [tid|].
  - apply runs_bind, runs_upd, runs_bind. pose proof (wf_td_add d t (Some tid) rel (not_pr_supporting d) Hd Hn Ht0 Htid ltac:(cbn; lia) ltac:(done)) as Hd'.
    eapply runs_init_tgt_dev; [|apply (Hx (not_pr_supporting d))|done|intros d' H'; by apply runs_ret]. by destruct d.
  - destruct (list_empty d) eqn:Ee; cbn; [|by apply runs_ret]. apply runs_bind, runs_upd, runs_bind.
    eapply runs_init_tgt_dev; [|apply Hx|done|intros d' H'; by apply runs_ret]. apply wf_td_add; try done.
    intros _. unfold list_empty in Ee. by destruct (registrants d).
Qed.

Lemma wf_list_add d t : wf d -> is_Some (assoc t (tgt_devs d)) -> wf (d <|td_list := td_list d ++ [t]|>).
Proof.
  intros (Hr & [] & Hv) Hs. split; [exact Hr|split; [|exact Hv]]. constructor; cbn; try assumption.
  intros a [Ha|Ha]%elem_of_app; [auto|]. apply list_elem_of_singleton in Ha as ->. done.
Qed.

Lemma wf_list_del d t : wf d -> wf (d <|td_list := List.filter (fun a => negb (a =? t)) (td_list d)|>).
Proof.
  intros (Hr & [H1 H2 H3 H4 H5 H6 H7] & Hv). split; [exact Hr|split; [|exact Hv]]. constructor; cbn; try assumption.
  intros a Ha. apply H5. apply list_elem_of_In in Ha. apply List.filter_In in Ha. apply list_elem_of_In. tauto.
Qed.

(** A tgt_dev without registrant that has left the list goes. *)
Lemma wf_td_del d t x np : wf d -> assoc t (tgt_devs d) = Some x -> registrant x = 0 -> t ∉ td_list d ->
  np = not_pr_supporting d - (match sess_tid x with None => 1 | _ => 0 end) ->
  wf (d <|not_pr_supporting := np|> <|tgt_devs := adel t (tgt_devs d)|>).
Proof.
  intros (Hr & Ht & Hv) Hx H0 Hl Hnp. split; [|split; [|exact Hv]].
  - destruct Hr as [H1 H2 H3 H4 H5 H6 H7]. constructor; cbn; try assumption. intros a y Hy Hne. destruct (H6 a y Hy Hne) as (z & Hz & Hza).
    exists z. rewrite assoc_adel. destruct (Z.eqb_spec (tgt_dev y) t) as [E|]; [|done]. rewrite E, Hx in Hz. injection Hz as <-.
    apply H3 in Hy. lia.
  - destruct Ht as [H1 H2 H3 H4 H5 H6 H7]. constructor; cbn.
    + by apply nodup_adel.
    + intros a y. rewrite assoc_adel. destruct (a =? t); [done|eauto].
    + intros a y tid. rewrite assoc_adel. destruct (a =? t); [done|eauto].
    + intros a y. rewrite assoc_adel. destruct (a =? t); [done|eauto].
    + intros a Ha. rewrite assoc_adel. destruct (Z.eqb_spec a t) as [->|]; [done|auto].
    + rewrite (np_count_adel _ _ x), Hnp, H6 by done. done.
    + intros Hne. specialize (H7 Hne). pose proof (np_count_adel _ t x H1 Hx) as Hc.
      destruct (sess_tid x); [lia|]. unfold np_count in *. lia.
Qed.

Lemma runs_tgt_dev_free d t x : wf d -> assoc t (tgt_devs d) = Some x -> t ∉ td_list d -> runs (tgt_dev_free t) d (fun _ d' => wf d' /\ assoc t (tgt_devs d') = None).
Proof.
  intros Hd Hx Hl. unfold tgt_dev_free. apply runs_bind. eapply runs_get_td; [exact Hx|].
  assert (Hnone : forall d', assoc t (adel t (tgt_devs d')) = None) by (intros; by rewrite assoc_adel, Z.eqb_refl).
  destruct (sess_tid x) as [tid|] eqn:Es.
  - apply runs_bind, runs_ret, runs_bind. eapply runs_clear_tgt_dev; [exact Hd|exact Hx|].
    intros d' Hd' El Enp _ (y & Hy & Hy0 & Hys). apply runs_upd. split; [|apply Hnone].
    pose proof (wf_td_del d' t y (not_pr_supporting d') Hd' Hy Hy0) as H. rewrite El, Hys, Es in H. specialize (H Hl ltac:(cbn; lia)). by destruct d'.
  - assert (registrant x = 0) as H0.
    { destruct (Z.eqb_spec (registrant x) 0) as [|E]; [done|]. destruct (to_link _ _ _ _ (proj1 (proj2 Hd)) t x Hx E) as (? & _ & _ & _ & He).
      rewrite Es in He. done. }
    apply runs_bind, runs_upd, runs_bind. unfold scst_pr_clear_tgt_dev. apply runs_bind. eapply runs_get_td; [exact Hx|]. rewrite H0. cbn [Z.eqb].
    apply runs_ret, runs_upd. split; [|apply Hnone]. apply (wf_td_del d t x); try done. by rewrite Es.
Qed.
