(* ===== verification/PresReg.v ===== *)
(** * Registering and undoing it

    A registration may change several registrants before memory runs out; the
    changes are then undone from a list.  The relation between the state at the
    beginning and the state in between says exactly what is in that list, so
    that undoing leads back. *)

From S2P Require Import Prelude PresTid Pres PresInv.

(** While a registration with the key [ak] is in progress. *)
Definition pending (rb : list Z) (ak : Z) (a : Z) (x : registrant_t) : Prop :=
  key x <> 0 /\ (a ∈ rb -> key x = ak) /\ (a ∉ rb -> rollback_key x = 0).

(** A registrant of before, now. *)
Definition changed (rb : list Z) (ak : Z) (p : Z * registrant_t) : Z * registrant_t :=
  (p.1, if bool_decide (p.1 ∈ rb) then p.2 <|rollback_key := key p.2|> <|key := ak|> else p.2).

Definition td_step (new : list (Z * registrant_t)) (p q : Z * tgt_dev_t) : Prop :=
  p.1 = q.1 /\ sess_tid p.2 = sess_tid q.2 /\ sess_rel p.2 = sess_rel q.2 /\
  (registrant q.2 = registrant p.2 \/ registrant p.2 = 0 /\ registrant q.2 ∈ map fst new).

(** The reservation is as before; a holder that is left over from a reservation of
    one registrant may be forgotten when all registrants hold it. *)
Definition same_resv (d0 d : pr_dev) : Prop :=
  pr_is_set d = pr_is_set d0 /\ pr_type d = pr_type d0 /\ pr_scope d = pr_scope d0 /\
  (pr_holder d = pr_holder d0 \/ pr_is_set d0 = true /\ all_reg (pr_type d0) = true /\ pr_holder d = 0) /\
  pr_generation d = pr_generation d0 /\ pr_aptpl d = pr_aptpl d0 /\ td_list d = td_list d0 /\
  not_pr_supporting d = not_pr_supporting d0 /\ events d = events d0.

Record in_progress (d0 d : pr_dev) (rb : list Z) (ak : Z) (new : list (Z * registrant_t)) : Prop := {
  ip_regs : registrants d = map (changed rb ak) (registrants d0) ++ new;
  ip_new a x : (a, x) ∈ new -> next_reg d0 <= a /\ a ∈ rb /\ rollback_key x = 0;
  ip_nodup : NoDup rb;
  ip_rb a : a ∈ rb -> is_Some (assoc a (registrants d));
  ip_tds : Forall2 (td_step new) (tgt_devs d0) (tgt_devs d);
  ip_next : next_reg d0 <= next_reg d;
  ip_resv : same_resv d0 d
}.

Lemma assoc_changed rb ak l a : assoc a (map (changed rb ak) l) = match assoc a l with
  | Some x => Some (if bool_decide (a ∈ rb) then x <|rollback_key := key x|> <|key := ak|> else x) | None => None end.
Proof. induction l as [|[k x] l IH]; cbn; [done|]. destruct (Z.eqb_spec k a) as [->|]; [done|]. exact IH. Qed.

Lemma changed_nil ak l : map (changed [] ak) l = l.
Proof.
  induction l as [|[k x] l IH]; cbn; [done|]. rewrite IH. unfold changed. cbn. rewrite bool_decide_eq_false_2; [done|]. by intros ?%elem_of_nil.
Qed.

Lemma changed_more rb rb' ak l : (forall a, a ∈ map fst l -> (a ∈ rb <-> a ∈ rb')) -> map (changed rb ak) l = map (changed rb' ak) l.
Proof.
  intros H. apply map_ext_in. intros [a x] Hin. unfold changed. cbn. f_equal.
  destruct (H a) as [H1 H2]; [apply list_elem_of_fmap; exists (a, x); split; [done|by apply list_elem_of_In]|].
  destruct (bool_decide (a ∈ rb)) eqn:E.
  - apply bool_decide_eq_true in E. rewrite bool_decide_eq_true_2; auto.
  - apply bool_decide_eq_false in E. rewrite bool_decide_eq_false_2; auto.
Qed.

(** At the beginning. *)
Lemma ip_start d ak : wf d -> wfk (pending [] ak) d /\ in_progress d d [] ak [].
Proof.
  intros Hd. split.
  - eapply wfk_mono; [exact Hd|]. intros a x _ [Hk Hb]. split_and!; try done. by intros ?%elem_of_nil.
  - constructor; try done.
    + by rewrite changed_nil, app_nil_r.
    + by intros a x ?%elem_of_nil.
    + apply NoDup_nil_2.
    + by intros a ?%elem_of_nil.
    + clear. induction (tgt_devs d); constructor; [|done]. unfold td_step. auto.
    + unfold same_resv. auto 20.
Qed.

(** In between, the answers of the allocators do not matter. *)
Lemma ip_allocs d0 d rb ak new l : in_progress d0 d rb ak new -> in_progress d0 (d <|allocs := l|>) rb ak new.
Proof. intros []. by constructor. Qed.

Section step.
Context (d0 d : pr_dev) (rb : list Z) (ak : Z) (new : list (Z * registrant_t)).
Context (Hd0 : wf d0) (Hd : wfk (pending rb ak) d) (Hip : in_progress d0 d rb ak new).

Lemma rb_fresh : next_reg d ∉ rb.
Proof. intros H. destruct (ip_rb _ _ _ _ _ Hip _ H) as [x Hx]. apply (ro_addr _ _ _ _ (proj1 Hd)) in Hx. lia. Qed.

Lemma old_addr a x : assoc a (registrants d0) = Some x -> 0 < a < next_reg d0.
Proof. apply (ro_addr _ _ _ _ (proj1 Hd0)). Qed.

Lemma new_not_old a x : (a, x) ∈ new -> assoc a (registrants d0) = None.
Proof.
  intros H. destruct (assoc a (registrants d0)) as [y|] eqn:E; [|done]. apply old_addr in E. destruct (ip_new _ _ _ _ _ Hip _ _ H). lia.
Qed.

Lemma now_cases a x : assoc a (registrants d) = Some x ->
  (exists y, assoc a (registrants d0) = Some y /\ x = if bool_decide (a ∈ rb) then y <|rollback_key := key y|> <|key := ak|> else y) \/
  assoc a (registrants d0) = None /\ assoc a new = Some x.
Proof.
  rewrite (ip_regs _ _ _ _ _ Hip), assoc_app, assoc_changed. destruct (assoc a (registrants d0)) as [y|]; [|auto]. intros [= <-]. eauto.
Qed.

(** A registrant is added. *)
Lemma ip_add x l : rollback_key x = 0 -> td_fits (transport_id x) (rel_tgt_id x) (tgt_dev x) (tgt_devs d) ->
  in_progress d0 (add_state (d <|allocs := l|>) x) (rb ++ [next_reg d]) ak (new ++ [(next_reg d, x)]).
Proof.
  intros Hb Hfit. pose proof (ip_next _ _ _ _ _ Hip) as Hnx. constructor.
  - cbn. rewrite (ip_regs _ _ _ _ _ Hip), app_assoc. f_equal. f_equal. apply changed_more. intros a Ha. rewrite elem_of_app, list_elem_of_singleton.
    split; [auto|]. intros [?| ->]; [done|]. apply assoc_dom in Ha as [y Hy]. apply old_addr in Hy. lia.
  - intros a y [Hy|Hy]%elem_of_app.
    + destruct (ip_new _ _ _ _ _ Hip _ _ Hy) as (? & ? & ?). rewrite elem_of_app. auto.
    + apply list_elem_of_singleton in Hy as [= -> ->]. rewrite elem_of_app, list_elem_of_singleton. auto.
  - apply NoDup_app. split_and!; [apply Hip| |apply NoDup_singleton]. intros a Ha Ha'%list_elem_of_singleton. subst a. by apply rb_fresh.
  - intros a Ha. cbn. rewrite assoc_app. apply elem_of_app in Ha as [Ha|Ha].
    + destruct (ip_rb _ _ _ _ _ Hip _ Ha) as [y ->]. eauto.
    + apply list_elem_of_singleton in Ha as ->. destruct (assoc (next_reg d) (registrants d)); [eauto|]. cbn. rewrite Z.eqb_refl. eauto.
  - cbn. assert (Hmono : forall p q, td_step new p q -> td_step (new ++ [(next_reg d, x)]) p q).
    { intros p q (? & ? & ? & H). split_and!; try done. rewrite map_app, elem_of_app. destruct H as [|[]]; auto. }
    destruct (assoc (tgt_dev x) (tgt_devs d)) as [z|] eqn:Ez.
    + destruct Hfit as [H0|(z' & Hz' & Hz0 & _)]; [by apply (to_addr _ _ _ _ (proj1 (proj2 Hd))) in Ez|].
      rewrite Ez in Hz'. injection Hz' as <-. pose proof (to_nodup _ _ _ _ (proj1 (proj2 Hd))) as Hn.
      assert (Hel : forall q, q ∈ tgt_devs d -> q.1 = tgt_dev x -> q.2 = z).
      { intros [k q] Hq Ek. cbn in *. subst k. apply elem_assoc in Hq; [|done]. congruence. }
      unfold aset. clear Ez Hn. pose proof (ip_tds _ _ _ _ _ Hip) as Ht. revert Hel. induction Ht as [|p q lp lq Hpq Ht IH]; intros Hel; cbn; constructor.
      * destruct (Z.eqb_spec q.1 (tgt_dev x)) as [Eq|]; [|by apply Hmono]. rewrite <- (Hel q) in Hz0 |- * by (done || by left).
        destruct Hpq as (? & ? & ? & H). split_and!; cbn; try congruence. right. rewrite map_app, elem_of_app. split; [|right; by left].
        destruct H as [H|[H _]]; [congruence|done].
      * apply IH. intros q' Hq'. apply Hel. by right.
    + eapply Forall2_impl; [exact (ip_tds _ _ _ _ _ Hip)|exact Hmono].
  - cbn. lia.
  - exact (ip_resv _ _ _ _ _ Hip).
Qed.

(** The key of a registrant is changed. *)
Lemma ip_change r x : assoc r (registrants d) = Some x -> key x <> ak ->
  r ∉ rb /\ in_progress d0 (put_state d r (x <|rollback_key := key x|> <|key := ak|>)) (rb ++ [r]) ak new.
Proof.
  intros Hx Hk. assert (Hrb : r ∉ rb) by (intros H; apply Hk; by apply (ro_key _ _ _ _ (proj1 Hd) r x)).
  split; [done|].
  assert (Hnew : r ∉ map fst new).
  { intros ([a y] & Ea & Hy)%list_elem_of_fmap. cbn in Ea. subst a. apply Hrb. by apply (ip_new _ _ _ _ _ Hip _ _ Hy). }
  destruct (now_cases r x Hx) as [(y & Hy & Exy)|[_ H]]; [|destruct Hnew; apply assoc_dom; eauto].
  rewrite bool_decide_eq_false_2 in Exy by done. subst y. constructor.
  - cbn. rewrite (ip_regs _ _ _ _ _ Hip). unfold aset. rewrite map_app. f_equal.
    + rewrite map_map. apply map_ext_in. intros [a z] Haz. cbn. unfold changed. cbn.
      assert (Hz : assoc a (registrants d0) = Some z) by (apply elem_assoc; [apply Hd0|by apply list_elem_of_In]).
      destruct (Z.eqb_spec a r) as [->|Hne].
      * assert (z = x) as -> by congruence. by rewrite bool_decide_eq_true_2 by set_solver.
      * f_equal. destruct (decide (a ∈ rb)); [rewrite !bool_decide_eq_true_2 by set_solver|rewrite !bool_decide_eq_false_2 by set_solver]; done.
    + clear -Hnew. induction new as [|[a z] l IH]; cbn in *; [done|]. rewrite elem_of_cons in Hnew.
      destruct (Z.eqb_spec a r) as [->|]; [tauto|]. f_equal. tauto.
  - intros a z Hz. destruct (ip_new _ _ _ _ _ Hip _ _ Hz) as (? & ? & ?). rewrite elem_of_app. auto.
  - apply NoDup_app. split_and!; [apply Hip| |apply NoDup_singleton]. intros a Ha Ha'%list_elem_of_singleton. by subst a.
  - intros a Ha. cbn. apply assoc_aset_some. apply elem_of_app in Ha as [Ha|Ha]; [by apply (ip_rb _ _ _ _ _ Hip)|].
    apply list_elem_of_singleton in Ha as ->. eauto.
  - exact (ip_tds _ _ _ _ _ Hip).
  - exact (ip_next _ _ _ _ _ Hip).
  - exact (ip_resv _ _ _ _ _ Hip).
Qed.
End step.

(** ** Undoing *)

Lemma adel_app {B} a (l l' : list (Z * B)) : adel a (l ++ l') = adel a l ++ adel a l'.
Proof. apply List.filter_app. Qed.

Lemma adel_absent {B} a (l : list (Z * B)) : assoc a l = None -> adel a l = l.
Proof.
  unfold adel. induction l as [|[k x] l IH]; cbn; [done|]. destruct (Z.eqb_spec k a) as [->|]; [done|]. cbn. intros H. f_equal. auto.
Qed.

Lemma adel_elem {B} a b (x : B) l : (b, x) ∈ adel a l <-> (b, x) ∈ l /\ b <> a.
Proof. unfold adel. rewrite !list_elem_of_In, List.filter_In. cbn. rewrite negb_true_iff, Z.eqb_neq. done. Qed.

Section undo.
Context (d0 d : pr_dev) (r : Z) (rb : list Z) (ak : Z) (new : list (Z * registrant_t)).
Context (Hd0 : wf d0) (Hd : wfk (pending (r :: rb) ak) d) (Hip : in_progress d0 d (r :: rb) ak new).

Lemma undo_once : r ∉ rb.
Proof. pose proof (ip_nodup _ _ _ _ _ Hip) as H. by apply NoDup_cons in H as []. Qed.

(** A registrant that was added goes. *)
Lemma undo_added x : assoc r (registrants d) = Some x -> assoc r (registrants d0) = None ->
  in_progress d0 (rem_state d r x) rb ak (adel r new).
Proof.
  intros Hx H0. pose proof (rem_fields d r x) as (Er & El & En & Ex & Ev). pose proof (rem_resv d r x) as (E1 & E2 & E3 & E4 & E5 & E6 & _).
  constructor.
  - rewrite Er, (ip_regs _ _ _ _ _ Hip), adel_app, adel_absent by (by rewrite assoc_changed, H0). f_equal. apply changed_more.
    intros a Ha. rewrite elem_of_cons. split; [|auto]. intros [->|]; [|done]. apply assoc_dom in Ha. rewrite H0 in Ha. by destruct Ha.
  - intros a y [Hy Hne]%adel_elem. destruct (ip_new _ _ _ _ _ Hip _ _ Hy) as (? & Ha & ?). apply elem_of_cons in Ha as [-> |]; [done|]. by split_and!.
  - pose proof (ip_nodup _ _ _ _ _ Hip) as H. by apply NoDup_cons in H as [].
  - intros a Ha. rewrite Er, assoc_adel. destruct (Z.eqb_spec a r) as [->|]; [by destruct undo_once|]. apply (ip_rb _ _ _ _ _ Hip). by right.
  - assert (Hlink : forall q, q ∈ tgt_devs d -> registrant q.2 = r -> q.1 = tgt_dev x).
    { intros [t q] Hq Eq. cbn in *. apply elem_assoc in Hq; [|apply Hd]. pose proof (ro_addr _ _ _ _ (proj1 Hd) r x Hx).
      destruct (to_link _ _ _ _ (proj1 (proj2 Hd)) t q Hq) as (y & Hy & Hyt & _); [lia|]. rewrite Eq in Hy. congruence. }
    assert (Hold : forall p, p ∈ tgt_devs d0 -> registrant p.2 <> r).
    { intros [t p] Hp Eq. cbn in *. apply elem_assoc in Hp; [|apply Hd0]. pose proof (ro_addr _ _ _ _ (proj1 Hd) r x Hx).
      destruct (to_link _ _ _ _ (proj1 (proj2 Hd0)) t p Hp) as (y & Hy & _); [lia|]. rewrite Eq in Hy. congruence. }
    assert (Hself : forall q, q ∈ tgt_devs d -> q.1 = tgt_dev x -> registrant q.2 = r).
    { intros [t q] Hq Eq. cbn in *. subst t. apply elem_assoc in Hq; [|apply Hd].
      destruct (ro_link _ _ _ _ (proj1 Hd) r x Hx) as (z & Hz & Hzr); [by eapply (to_addr _ _ _ _ (proj1 (proj2 Hd)))|]. congruence. }
    assert (Hother : forall p q, p ∈ tgt_devs d0 -> q ∈ tgt_devs d -> q.1 <> tgt_dev x -> td_step new p q -> td_step (adel r new) p q).
    { intros p q Hp Hq Hne (? & ? & ? & H). split_and!; try done. destruct H as [|[Hp0 Hin]]; [auto|right]. split; [done|].
      rewrite fst_adel, list_elem_of_In, List.filter_In, <- list_elem_of_In. split; [done|]. apply negb_true_iff, Z.eqb_neq. intros E. apply Hne. by apply Hlink. }
    assert (Ht : tgt_devs (rem_state d r x) = map (fun q => if q.1 =? tgt_dev x then (q.1, q.2 <|registrant := 0|>) else q) (tgt_devs d)).
    { unfold rem_state. pose proof (left_fields r (d <|registrants := adel r (registrants d)|>)) as (_ & H2 & _). cbn in H2. rewrite H2.
      destruct (assoc (tgt_dev x) (tgt_devs d)) as [z|] eqn:Ez; cbn; rewrite ?H2.
      - unfold aset. apply map_ext_in. intros [t q] Hq%list_elem_of_In. cbn. destruct (Z.eqb_spec t (tgt_dev x)) as [->|]; [|done].
        apply elem_assoc in Hq; [|apply Hd]. by assert (q = z) as -> by congruence.
      - symmetry. rewrite <- (map_id (tgt_devs d)) at 2. apply map_ext_in. intros [t q] Hq%list_elem_of_In. cbn.
        destruct (Z.eqb_spec t (tgt_dev x)) as [->|]; [|done]. apply elem_assoc in Hq; [congruence|apply Hd]. }
    rewrite Ht. clear Ht. pose proof (ip_tds _ _ _ _ _ Hip) as Ht. revert Hold Hself Hother. clear Hlink.
    induction Ht as [|p q lp lq Hpq Ht IH]; intros Hold Hself Hother; cbn; constructor.
    + destruct (Z.eqb_spec q.1 (tgt_dev x)) as [Eq|Hne]; [|apply Hother; [by left|by left|done|done]].
      assert (Hq : registrant q.2 = r) by (apply Hself; [by left|done]). destruct Hpq as (? & ? & ? & H). split_and!; cbn; try congruence.
      destruct H as [H|[H _]]; [|left; congruence]. exfalso. apply (Hold p); [by left|congruence].
    + apply IH; intros; [apply Hold|apply Hself|apply Hother]; try (by right); done.
  - rewrite Ex. apply Hip.
  - destruct (ip_resv _ _ _ _ _ Hip) as (R1 & R2 & R3 & R4 & R5 & R6 & R7 & R8 & R9). unfold same_resv. rewrite E1, E2, E3, E4, E5, E6, El, En, Ev.
    unfold left, scst_pr_is_holder, list_empty. cbn. rewrite R1, R2. destruct Hd0 as (_ & _ & Hv). unfold resv_ok in Hv.
    destruct (pr_is_set d0) eqn:Es; cbn; [|rewrite R1, R2, R3; by split_and!]. destruct Hv as (Hty & Hsc & Hne & Hh).
    pose proof (ro_addr _ _ _ _ (proj1 Hd) r x Hx) as Ha.
    destruct (all_reg (pr_type d0)) eqn:Ea; cbn.
    + replace (r =? 0) with false by lia. cbn. rewrite (ip_regs _ _ _ _ _ Hip), adel_app, adel_absent by (by rewrite assoc_changed, H0).
      destruct (registrants d0) as [|]; [done|]. cbn. rewrite R1, R2, R3. split_and!; auto.
    + destruct R4 as [R4|(_ & ? & _)]; [|congruence]. destruct (Z.eqb_spec (pr_holder d) r) as [Eh|]; cbn.
      * exfalso. rewrite R4 in Eh. rewrite Eh, H0 in Hh. by destruct Hh.
      * rewrite R1, R2, R3, R4. split_and!; auto.
Qed.

(** A key that was changed comes back. *)
Lemma undo_changed x : assoc r (registrants d0) = Some x ->
  exists y, assoc r (registrants d) = Some y /\ rollback_key y = key x /\ x = y <|key := rollback_key y|> <|rollback_key := 0|> /\
    in_progress d0 (put_state d r x) rb ak new.
Proof.
  intros Hx. destruct (ro_key _ _ _ _ (proj1 Hd0) r x Hx) as [Hk0 Hrk].
  assert (Hy : assoc r (registrants d) = Some (x <|rollback_key := key x|> <|key := ak|>)).
  { rewrite (ip_regs _ _ _ _ _ Hip), assoc_app, assoc_changed, Hx. by rewrite bool_decide_eq_true_2 by by left. }
  eexists. split; [exact Hy|]. split; [done|]. split; [destruct x; cbn in *; by subst|].
  assert (Hnew : r ∉ map fst new).
  { intros ([a y] & Ea & Hay)%list_elem_of_fmap. cbn in Ea. subst a. destruct (ip_new _ _ _ _ _ Hip _ _ Hay).
    apply (ro_addr _ _ _ _ (proj1 Hd0)) in Hx. lia. }
  constructor.
  - cbn. rewrite (ip_regs _ _ _ _ _ Hip). unfold aset. rewrite map_app. f_equal.
    + rewrite map_map. apply map_ext_in. intros [a z] Haz. unfold changed. cbn.
      assert (Hz : assoc a (registrants d0) = Some z) by (apply elem_assoc; [apply Hd0|by apply list_elem_of_In]).
      destruct (Z.eqb_spec a r) as [->|Hne].
      * assert (z = x) as -> by congruence. by rewrite bool_decide_eq_false_2 by apply undo_once.
      * f_equal. destruct (decide (a ∈ rb)); [rewrite !bool_decide_eq_true_2 by set_solver|rewrite !bool_decide_eq_false_2 by set_solver]; done.
    + clear -Hnew. induction new as [|[a z] l IH]; cbn in *; [done|]. rewrite elem_of_cons in Hnew.
      destruct (Z.eqb_spec a r) as [->|]; [tauto|]. f_equal. tauto.
  - intros a z Hz. destruct (ip_new _ _ _ _ _ Hip _ _ Hz) as (? & Ha & ?). apply elem_of_cons in Ha as [-> |]; [|by split_and!].
    destruct Hnew. apply list_elem_of_fmap. by exists (r, z).
  - pose proof (ip_nodup _ _ _ _ _ Hip) as H. by apply NoDup_cons in H as [].
  - intros a Ha. cbn. apply assoc_aset_some. apply (ip_rb _ _ _ _ _ Hip). by right.
  - exact (ip_tds _ _ _ _ _ Hip).
  - exact (ip_next _ _ _ _ _ Hip).
  - exact (ip_resv _ _ _ _ _ Hip).
Qed.
End undo.

(** Registrations, links and reservation are as before. *)
Definition undone (d0 d : pr_dev) : Prop :=
  registrants d = registrants d0 /\ tgt_devs d = tgt_devs d0 /\ same_resv d0 d.

Lemma ip_end d0 d ak new : in_progress d0 d [] ak new -> undone d0 d.
Proof.
  intros [Hr Hn _ _ Ht _ Hv]. assert (new = []) as ->.
  { destruct new as [|[a x] l]; [done|]. destruct (Hn a x) as (_ & H & _); [by left|]. by apply elem_of_nil in H. }
  split_and!; [by rewrite Hr, changed_nil, app_nil_r| |done]. induction Ht as [|[t p] [t' q] lp lq (H1 & H2 & H3 & H4) Ht IH]; [done|].
  f_equal; [|apply IH; done]. cbn in *. destruct H4 as [H4|[_ H4]]; [|by apply elem_of_nil in H4]. destruct p, q; cbn in *. congruence.
Qed.

Lemma undone_wf d0 d : wf d0 -> wfk (fun _ _ => True) d -> undone d0 d -> wf d.
Proof.
  intros (Hr & Ht & Hv) (Hr' & Ht' & Hv') (E1 & E2 & _). split; [|split; [done|done]]. destruct Hr' as [A1 A2 A3 A4 A5 A6 A7]. rewrite E1, E2 in *. constructor; auto.
  intros a x Hx. by apply (ro_key _ _ _ _ Hr).
Qed.

Lemma runs_rollback d0 ak rb : forall d new, wf d0 -> wfk (pending rb ak) d -> in_progress d0 d rb ak new ->
  runs (for_each rb rollback_one) d (fun _ d' => wf d' /\ undone d0 d').
Proof.
  induction rb as [|r rb IH]; intros d new Hd0 Hd Hip; cbn [for_each].
  - apply runs_ret. pose proof (ip_end _ _ _ _ Hip) as Hu. split; [|done]. eapply undone_wf; [exact Hd0| |exact Hu]. by eapply wfk_mono.
  - apply runs_bind. unfold rollback_one. destruct (ip_rb _ _ _ _ _ Hip r) as [x Hx]; [by left|].
    pose proof (ip_nodup _ _ _ _ _ Hip) as Hnd. apply NoDup_cons in Hnd as [Hni _].
    apply runs_bind. eapply runs_get_reg; [exact Hx|]. destruct (assoc r (registrants d0)) as [y|] eqn:Ey.
    + destruct (undo_changed d0 d r rb ak new Hd0 Hd Hip y Ey) as (x' & Hx' & Hrk & Exy & Hip').
      assert (x' = x) as -> by congruence. rewrite Hrk. destruct (ro_key _ _ _ _ (proj1 Hd0) r y Ey) as [Hk Hr0]. rewrite Hrk in Exy.
      replace (key y =? 0) with false by lia. unfold put_reg. apply runs_upd. rewrite <- Exy.
      change (runs (for_each rb rollback_one) (put_state d r y) (fun _ d' => wf d' /\ undone d0 d')). eapply IH; [done| |exact Hip'].
      eapply wfk_put; [exact Hd|exact Hx|rewrite Exy; done..| |].
      * split_and!; done.
      * intros a z Hne Hz (H1 & H2 & H3). split_and!; [done|intros; apply H2; by right|]. intros Ha. apply H3. by intros [-> |]%elem_of_cons.
    + destruct (now_cases d0 d (r :: rb) ak new Hip r x Hx) as [(z & Hz & _)|[_ Hn]]; [congruence|].
      apply assoc_elem in Hn. destruct (ip_new _ _ _ _ _ Hip _ _ Hn) as (_ & _ & ->). cbn [Z.eqb].
      eapply runs_remove; [exact Hd|exact Hx|]. intros Hd'. eapply IH; [done| |by apply (undo_added d0 d r rb ak new)].
      eapply wfk_mono; [exact Hd'|]. intros a z Hz (H1 & H2 & H3). split_and!; [done|intros; apply H2; by right|].
      intros Ha. apply H3. intros [-> |]%elem_of_cons; [|done]. destruct (rem_fields d r x) as (Er & _). rewrite Er, assoc_adel, Z.eqb_refl in Hz. done.
Qed.

(** ** Committing *)

Lemma runs_commit rb ak : forall d, wfk (pending rb ak) d -> (forall a, a ∈ rb -> is_Some (assoc a (registrants d))) -> NoDup rb ->
  runs (for_each rb commit_one) d (fun _ d' => wf d').
Proof.
  induction rb as [|r rb IH]; intros d Hd Hrb Hn; cbn [for_each].
  - apply runs_ret. eapply wfk_mono; [exact Hd|]. intros a x _ (H1 & _ & H3). split; [done|]. apply H3. by intros ?%elem_of_nil.
  - apply NoDup_cons in Hn as [Hni Hn]. destruct (Hrb r) as [x Hx]; [by left|]. apply runs_bind. unfold commit_one. apply runs_bind.
    eapply runs_get_reg; [exact Hx|]. unfold put_reg. apply runs_upd. apply (IH (put_state d r (x <|rollback_key := 0|>))); [| |done].
    + eapply wfk_put; [exact Hd|exact Hx|done..| |].
      * destruct (ro_key _ _ _ _ (proj1 Hd) r x Hx) as (H1 & H2 & _). split_and!; try done.
      * intros a z Hne Hz (H1 & H2 & H3). split_and!; [done|intros; apply H2; by right|]. intros Ha. apply H3. by intros [-> |]%elem_of_cons.
    + intros a Ha. apply assoc_aset_some, Hrb. by right.
Qed.

(** ** The transport ids of a parameter list *)

Definition bytes (b : list Z) : Prop := Forall (fun x => 0 <= x < 256) b.

Lemma at_tid_at buf off i : 0 <= off -> 0 <= i -> at_ (tid_at buf off) i = at_ buf (off + i).
Proof.
  intros Ho Hi. unfold at_, tid_at. replace (i <? 0) with false by lia. replace (off + i <? 0) with false by lia. rewrite lookup_drop. f_equal. lia.
Qed.

Lemma tid_size_agree t t' : (forall i, 0 <= i < 4 -> at_ t' i = at_ t i) -> tid_size t' = tid_size t.
Proof. intros H. unfold tid_size, tid_iscsi, be16. by rewrite !H by lia. Qed.

Lemma be_agree b b' i n : (forall j, 0 <= j < n -> at_ b' j = at_ b j) -> 0 <= i -> i + 8 <= n -> be64 b' i = be64 b i.
Proof. intros H Hi Hn. unfold be64, be32, be16. by rewrite !H by lia. Qed.

Lemma be32_agree b b' i n : (forall j, 0 <= j < n -> at_ b' j = at_ b j) -> 0 <= i -> i + 4 <= n -> be32 b' i = be32 b i.
Proof. intros H Hi Hn. unfold be32, be16. by rewrite !H by lia. Qed.

(** The identifiers of the list lie one behind the other in it. *)
Inductive tids_in (buf : list Z) (ext : Z) : Z -> Prop :=
| tids_end offset : ext <= offset -> tids_in buf ext offset
| tids_cons offset n : offset < ext -> tid_size (tid_at buf (28 + offset)) = Some n -> offset + n <= ext ->
    tids_in buf ext (offset + n) -> tids_in buf ext offset.

Lemma bytes_tid_at buf off : bytes buf -> bytes (tid_at buf off).
Proof. apply Forall_drop. Qed.

Lemma length_tid_at buf off : 0 <= off -> Z.of_nat (length (tid_at buf off)) = Z.max 0 (Z.of_nat (length buf) - off).
Proof. intros H. unfold tid_at. rewrite length_drop. lia. Qed.

Lemma tid_at_ok buf off n : bytes buf -> 0 <= off -> tid_size (tid_at buf off) = Some n -> off + n <= Z.of_nat (length buf) -> tid_ok (tid_at buf off).
Proof. intros Hb Ho Hn Hl. split; [by apply bytes_tid_at|]. exists n. split; [done|]. rewrite length_tid_at by done. lia. Qed.

Lemma tid_size_some buf off : bytes buf -> 0 <= off -> off + 4 <= Z.of_nat (length buf) ->
  exists n, tid_size (tid_at buf off) = Some n /\ 4 <= n <= 65539.
Proof.
  intros Hb Ho Hl. unfold tid_size, tid_iscsi, be16, TID_COMMON_SIZE.
  destruct (at_some (tid_at buf off) 0) as [b0 ->]; [rewrite length_tid_at; lia|]. destruct (at_some (tid_at buf off) 2) as [b2 E2]; [rewrite length_tid_at; lia|].
  destruct (at_some (tid_at buf off) 3) as [b3 E3]; [rewrite length_tid_at; lia|]. cbn [mbind option_bind].
  pose proof (at_byte _ _ _ (bytes_tid_at _ off Hb) E2). pose proof (at_byte _ _ _ (bytes_tid_at _ off Hb) E3). change (2 + 1) with 3. rewrite E2, E3. cbn [mbind option_bind].
  destruct (_ =? _); eexists; (split; [reflexivity|lia]).
Qed.

Lemma at_insert b i x j : 0 <= i -> at_ (<[Z.to_nat i := x]> b) j = if (j =? i) && (i <? Z.of_nat (length b)) then Some x else at_ b j.
Proof.
  intros Hi. unfold at_. destruct (Z.ltb_spec j 0); [replace (j =? i) with false by lia; done|].
  destruct (Z.eqb_spec j i) as [->|]; cbn.
  - destruct (Z.ltb_spec i (Z.of_nat (length b))); [apply list_lookup_insert_eq; lia|]. rewrite list_insert_ge by lia. done.
  - apply list_lookup_insert_ne. lia.
Qed.

Lemma tid_secure_spec buf off n : bytes buf -> 0 <= off -> tid_size (tid_at buf off) = Some n -> off + n <= Z.of_nat (length buf) ->
  exists buf', tid_secure buf off = Some buf' /\ bytes buf' /\ length buf' = length buf /\
    tid_size (tid_at buf' off) = Some n /\ forall i, i < off + 4 \/ off + n <= i -> at_ buf' i = at_ buf i.
Proof.
  intros Hb Ho Hn Hl. unfold tid_secure. fold (tid_at buf off). pose proof (tid_size_pos _ _ (bytes_tid_at _ off Hb) Hn) as H4.
  assert (Hi : exists i, tid_iscsi (tid_at buf off) = Some i) by (unfold tid_size in Hn; destruct (tid_iscsi _) as [i|]; [eauto|done]).
  destruct Hi as [i Ei]. rewrite Ei. cbn [mbind option_bind]. destruct i; [|exists buf; by split_and!].
  rewrite Hn. cbn [mbind option_bind]. destruct (at_some (tid_at buf off) (n - 1)) as [z Hz]; [rewrite length_tid_at; lia|]. rewrite Hz. cbn [mbind option_bind].
  eexists. split; [reflexivity|].
  assert (Hag : forall j, j < off + 4 \/ off + n <= j -> at_ (<[Z.to_nat (off + n - 1):=0]> buf) j = at_ buf j).
  { intros j Hj. rewrite at_insert by lia. destruct (Z.eqb_spec j (off + n - 1)) as [->|]; [|done].
    replace (off + n - 1 <? Z.of_nat (length buf)) with true by lia. cbn. assert (n = 4) as -> by lia.
    unfold tid_size, be16 in Hn. rewrite Ei in Hn. cbn [mbind option_bind] in Hn. change (2 + 1) with 3 in Hn.
    destruct (at_ (tid_at buf off) 2) as [x|] eqn:E2; cbn [mbind option_bind] in Hn; [|discriminate].
    destruct (at_ (tid_at buf off) 3) as [y|] eqn:E3; cbn [mbind option_bind] in Hn; [|discriminate].
    pose proof (at_byte _ _ _ (bytes_tid_at _ off Hb) E2). pose proof (at_byte _ _ _ (bytes_tid_at _ off Hb) E3). injection Hn as Hn.
    assert (y = 0) as -> by lia. rewrite at_tid_at in E3 by lia. rewrite <- E3. f_equal. lia. }
  split_and!.
  - apply Forall_insert; [done|lia].
  - apply length_insert.
  - rewrite <- Hn. apply tid_size_agree. intros j Hj. rewrite !at_tid_at by lia. apply Hag. lia.
  - exact Hag.
Qed.

(** The first loop has a result, and leaves identifiers that lie in the list. *)
Lemma secure_loop_spec ext fuel : forall buf offset, bytes buf -> 0 <= offset <= ext -> 28 + ext + 4 <= Z.of_nat (length buf) ->
  Z.of_nat (length buf) < 2147483648 -> ext - offset < Z.of_nat fuel ->
  exists ok buf', secure_loop fuel buf ext offset = Some (ok, buf') /\ bytes buf' /\ length buf' = length buf /\
    (forall i, i < 28 + offset -> at_ buf' i = at_ buf i) /\ (ok = true -> tids_in buf' ext offset).
Proof.
  induction fuel as [|fuel IH]; intros buf offset Hb Ho Hl Hlt Hf; [lia|]. cbn [secure_loop]. rewrite (u32_small offset) by (unfold is_u32; lia).
  destruct (Z.ltb_spec offset ext) as [Hlo|Hhi]; [|exists true, buf; split_and!; auto; intros _; by apply tids_end].
  destruct (tid_size_some buf (28 + offset)) as (n & En & Hn); [done|lia|lia|]. rewrite En. cbn [mbind option_bind].
  rewrite (u32_small (offset + n)) by (unfold is_u32; lia). destruct (Z.ltb_spec ext (offset + n)) as [Hbad|Hok]; [exists false, buf; by split_and!|].
  destruct (tid_secure_spec buf (28 + offset) n) as (b1 & Eb & Hb1 & Hl1 & En1 & Hag1); [done|lia|done|lia|]. rewrite Eb. cbn [mbind option_bind].
  rewrite En1. cbn [mbind option_bind]. destruct (IH b1 (offset + n)) as (ok & b2 & E2 & Hb2 & Hl2 & Hag2 & Hin); [done|lia|lia|lia|lia|].
  rewrite E2. exists ok, b2. split_and!; try done; [lia| |].
  - intros i Hi. rewrite Hag2, Hag1 by lia. done.
  - intros ->. apply tids_cons with n; [done| |done|by apply Hin]. rewrite <- En1. apply tid_size_agree. intros j Hj. rewrite !at_tid_at by lia. apply Hag2. lia.
Qed.

(** ** Registration *)

Definition underway (d0 : pr_dev) (ak : Z) (rb : list Z) (d : pr_dev) : Prop :=
  exists new, wfk (pending rb ak) d /\ in_progress d0 d rb ak new.

(** The parameter list: bytes, with the size given and a few bytes behind it. *)
Definition buf_ok (buf : list Z) (buffer_size : Z) : Prop :=
  bytes buf /\ 24 <= buffer_size /\ buffer_size + 4 <= Z.of_nat (length buf) < 2147483648.

(** The length of the list of identifiers does not overflow. *)
Definition ext_ok (buf : list Z) : Prop := forall n, be32 buf 24 = Some n -> n + 28 < 4294967296.

Lemma be32_some buf i : bytes buf -> 0 <= i -> i + 4 <= Z.of_nat (length buf) -> exists n, be32 buf i = Some n /\ 0 <= n < 4294967296.
Proof.
  intros Hb Hi Hl. unfold be32, be16. destruct (at_some buf i) as [x E1]; [lia|]. destruct (at_some buf (i + 1)) as [y E2]; [lia|].
  destruct (at_some buf (i + 2)) as [z E3]; [lia|]. destruct (at_some buf (i + 2 + 1)) as [w E4]; [lia|]. rewrite E1, E2, E3, E4. cbn [mbind option_bind].
  pose proof (at_byte _ _ _ Hb E1). pose proof (at_byte _ _ _ Hb E2). pose proof (at_byte _ _ _ Hb E3). pose proof (at_byte _ _ _ Hb E4).
  eexists. split; [reflexivity|lia].
Qed.

Lemma be64_some buf i : bytes buf -> 0 <= i -> i + 8 <= Z.of_nat (length buf) -> exists n, be64 buf i = Some n /\ 0 <= n < 18446744073709551616.
Proof.
  intros Hb Hi Hl. unfold be64. destruct (be32_some buf i) as (x & -> & Hx); [done|lia|lia|]. destruct (be32_some buf (i + 4)) as (y & -> & Hy); [done|lia|lia|].
  cbn [mbind option_bind]. eexists. split; [reflexivity|lia].
Qed.

Section registration.
Context (d0 : pr_dev) (ak : Z) (Hd0 : wf d0) (Hak : ak <> 0) (Hnp : not_pr_supporting d0 = 0).

Lemma underway_np rb d : underway d0 ak rb d -> not_pr_supporting d = 0 /\ td_list d = td_list d0.
Proof. intros (new & _ & Hip). destruct (ip_resv _ _ _ _ _ Hip) as (_ & _ & _ & _ & _ & _ & ? & ? & _). split; congruence. Qed.

Lemma underway_allocs rb d l : underway d0 ak rb d -> underway d0 ak rb (d <|allocs := l|>).
Proof. intros (new & H & Hip). exists new. split; [exact H|by apply ip_allocs]. Qed.

(** One registrant more, to be undone when something fails. *)
Lemma runs_add_rb rb d t rel : underway d0 ak rb d -> tid_ok t ->
  runs (scst_pr_add_registrant (Some t) rel ak) d (fun r d' =>
    r = 0 /\ underway d0 ak rb d' \/ r <> 0 /\ runs (rb_add r rb) d' (fun rb' d'' => underway d0 ak rb' d'')).
Proof.
  intros Hu Ht. pose proof (underway_np _ _ Hu) as [Hnp' _]. pose proof Hu as (new & Hd & Hip).
  eapply runs_add; [exact Hd|exact Ht|exact Hnp'|intros l; left; split; [done|by apply underway_allocs]|].
  intros x l Hrel Hk Hrb Hfit Hok _ Hwf. right. pose proof (ro_next _ _ _ _ (proj1 Hd)) as Hpos. split; [lia|].
  pose proof (rb_fresh d0 d rb ak new Hd Hip) as Hfr. unfold rb_add. rewrite bool_decide_eq_false_2 by done. apply runs_ret.
  exists (new ++ [(next_reg d, x)]). split; [|apply (ip_add d0 d rb ak new Hd0 Hd Hip); [done|by rewrite Hrel]].
  eapply wfk_mono; [apply Hwf; split_and!; [congruence|done|done]|]. intros a y Hy (H1 & H2 & H3). unfold pending. rewrite elem_of_app, list_elem_of_singleton.
  split; [done|]. split; [|intros Hn; apply H3; tauto]. intros [Ha| ->]; [auto|]. cbn in Hy. rewrite assoc_app in Hy.
  destruct (assoc (next_reg d) (registrants d)) eqn:E; [apply (ro_addr _ _ _ _ (proj1 Hd)) in E; lia|]. cbn in Hy. rewrite Z.eqb_refl in Hy. congruence.
Qed.

Lemma runs_spec_one rb d t rel : underway d0 ak rb d -> tid_ok t ->
  runs (spec_one (Some t) rel ak rb) d (fun r d' => match r with None => underway d0 ak rb d' | Some rb' => underway d0 ak rb' d' end).
Proof.
  intros Hu Ht. pose proof Hu as (new & Hd & Hip). unfold spec_one. apply runs_bind. eapply runs_find_reg; [exact Hd|exact Ht| |].
  - intros _. cbn [Z.eqb]. apply runs_bind. eapply runs_mono; [by apply runs_add_rb|]. intros r d' [[-> Hu']|[Hr Hrun]].
    + by apply runs_ret.
    + replace (r =? 0) with false by lia. apply runs_bind. eapply runs_mono; [exact Hrun|]. intros rb' d'' Hu''. by apply runs_ret.
  - intros r x Hr Hx _ _. replace (r =? 0) with false by lia. apply runs_bind. eapply runs_get_reg; [exact Hx|].
    destruct (Z.eqb_spec (key x) ak) as [|Hk]; [by apply runs_ret|].
    destruct (ip_change d0 d rb ak new Hd0 Hd Hip r x Hx Hk) as [Hni Hip']. apply runs_bind. unfold put_reg. apply runs_upd, runs_bind.
    unfold rb_add. rewrite bool_decide_eq_false_2 by done. apply runs_ret, runs_ret. exists new. split; [|exact Hip'].
    eapply wfk_put; [exact Hd|exact Hx|done..| |].
    + split_and!; [done|done|]. intros H. exfalso. apply H. apply elem_of_app. right. by left.
    + intros a z Hne _ (H1 & H2 & H3). unfold pending. rewrite elem_of_app, list_elem_of_singleton. split_and!; [done|intros [?|?]; [auto|done]|]. intros Hn. apply H3. tauto.
Qed.

Lemma runs_spec_wildcard t rel l : tid_ok t -> (forall a, a ∈ l -> a ∈ td_list d0) -> forall rb d, underway d0 ak rb d ->
  runs (spec_wildcard l t rel ak rb) d (fun r d' => underway d0 ak r.2 d').
Proof.
  intros Ht. induction l as [|a l IH]; intros Hl rb d Hu; cbn [spec_wildcard]; [by apply runs_ret|].
  pose proof (underway_np _ _ Hu) as [_ El]. pose proof Hu as (new & Hd & Hip).
  destruct (to_list _ _ _ _ (proj1 (proj2 Hd)) a) as [x Hx]; [rewrite El; apply Hl; by left|]. apply runs_bind. eapply runs_get_td; [exact Hx|].
  assert (IH' : forall rb' d', underway d0 ak rb' d' -> runs (spec_wildcard l t rel ak rb') d' (fun r d'' => underway d0 ak r.2 d'')) by (intros; apply IH; [intros; apply Hl; by right|done]).
  apply runs_bind. destruct (sess_tid x) as [tid|] eqn:Es; [|eapply runs_lift; [reflexivity|]; by apply IH'].
  destruct (to_tid _ _ _ _ (proj1 (proj2 Hd)) a x tid Hx Es) as [Hok _]. destruct (tid_equal_total tid t Hok Ht) as [e Ee].
  eapply runs_lift; [exact Ee|]. destruct e; cbn [negb]; [|by apply IH']. apply runs_bind. eapply runs_mono; [by apply runs_spec_one|].
  intros [rb'|] d' Hu'; [by apply IH'|by apply runs_ret].
Qed.

Lemma runs_spec_loop buf ext rel fuel : bytes buf -> 28 + ext <= Z.of_nat (length buf) < 2147483648 -> forall offset rb d,
  0 <= offset <= ext -> tids_in buf ext offset -> ext - offset < Z.of_nat fuel -> underway d0 ak rb d ->
  runs (spec_loop fuel buf ext offset rel ak rb) d (fun r d' => underway d0 ak r.2 d').
Proof.
  intros Hb Hl. induction fuel as [|fuel IH]; intros offset rb d Ho Hin Hf Hu; [lia|]. cbn [spec_loop]. rewrite u32_small by (unfold is_u32; lia).
  destruct Hin as [offset Hend|offset n Hlo Hn Hhi Hin]; [replace (offset <? ext) with false by lia; by apply runs_ret|].
  replace (offset <? ext) with true by lia. pose proof (tid_at_ok buf (28 + offset) n Hb ltac:(lia) Hn ltac:(lia)) as Hok.
  pose proof (tid_size_pos _ _ (proj1 Hok) Hn) as Hpos.
  destruct (at_some (tid_at buf (28 + offset)) 0) as [b0 Eb]; [rewrite length_tid_at; lia|].
  apply runs_bind. eapply runs_lift; [unfold tid_wildcard; rewrite Eb; reflexivity|]. apply runs_bind.
  apply runs_mono with (P := fun r d' => underway d0 ak r.2 d').
  - destruct (_ && _).
    + apply runs_bind, runs_get. apply runs_spec_wildcard; [done|intros a Ha; by rewrite <- (proj2 (underway_np _ _ Hu))|done].
    + apply runs_bind. eapply runs_mono; [by apply runs_spec_one|]. intros [rb'|] d' Hu'; by apply runs_ret.
  - intros [ok rb'] d' Hu'. cbn [fst snd]. destruct ok; cbn [negb]; [|by apply runs_ret]. apply runs_bind. eapply runs_lift; [exact Hn|].
    apply IH; [lia|done|lia|done].
Qed.

Lemma runs_spec_i_pt buf bs rel rb d : buf_ok buf bs -> ext_ok buf -> be64 buf 8 = Some ak -> underway d0 ak rb d ->
  runs (scst_pr_register_with_spec_i_pt rel buf bs rb) d (fun r d' =>
    underway d0 ak r.2 d' /\ buf_ok r.1.2 bs /\ (forall i, i < 28 -> at_ r.1.2 i = at_ buf i)).
Proof.
  intros (Hb & H24 & Hl) Hext Hk Hu. unfold scst_pr_register_with_spec_i_pt. apply runs_bind. eapply runs_lift; [exact Hk|].
  destruct (be32_some buf 24) as (ext & Ee & Hr); [done|lia|lia|]. apply runs_bind. eapply runs_lift; [exact Ee|]. specialize (Hext ext Ee).
  rewrite (u32_small bs), (u32_small (ext + 28)) by (unfold is_u32; lia).
  destruct (Z.ltb_spec bs (ext + 28)) as [|Hfit]; [by apply runs_ret|].
  destruct (secure_loop_spec ext (S (length buf)) buf 0) as (ok & b1 & E1 & Hb1 & Hl1 & Hag & Hin); [done|lia|lia|lia|lia|].
  apply runs_bind. eapply runs_lift; [exact E1|]. cbn [fst snd]. assert (Hok1 : buf_ok b1 bs) by (split_and!; [done|lia|lia|lia]).
  destruct ok; cbn [negb]; [|apply runs_ret; by split_and!]. apply runs_bind.
  eapply runs_mono; [apply runs_spec_loop; [done|lia|lia|by apply Hin|lia|done]|]. intros [ok' rb'] d' Hu'. apply runs_ret. by split_and!.
Qed.

Lemma runs_on_tgt_id t rel buf bs spec rb d : tid_ok t -> buf_ok buf bs -> (spec = true -> ext_ok buf) -> be64 buf 8 = Some ak ->
  underway d0 ak rb d -> runs (scst_pr_register_on_tgt_id (Some t) rel buf bs spec rb) d (fun r d' =>
    underway d0 ak r.2 d' /\ buf_ok r.1.2 bs /\ (forall i, i < 28 -> at_ r.1.2 i = at_ buf i)).
Proof.
  intros Ht Hb Hext Hk Hu. unfold scst_pr_register_on_tgt_id. apply runs_bind.
  apply runs_mono with (P := fun r d' => underway d0 ak r.2 d' /\ buf_ok r.1.2 bs /\ (forall i, i < 28 -> at_ r.1.2 i = at_ buf i)).
  { destruct spec; [apply runs_spec_i_pt; auto|by apply runs_ret]. }
  intros [[res b1] rb1] d1 (Hu1 & Hb1 & Hag). cbn [fst snd] in *. destruct res; [|by apply runs_ret..].
  pose proof Hu1 as (new & Hd1 & _). apply runs_bind. eapply runs_find_reg; [exact Hd1|exact Ht| |].
  - intros _. cbn [Z.eqb]. apply runs_bind. eapply runs_lift; [rewrite (be_agree buf b1 8 28); [exact Hk|intros; apply Hag; lia|lia|lia]|].
    apply runs_bind. eapply runs_mono; [by apply runs_add_rb|]. intros r d' [[-> Hu']|[Hr Hrun]]; [by apply runs_ret|].
    replace (r =? 0) with false by lia. apply runs_bind. eapply runs_mono; [exact Hrun|]. intros rb' d'' Hu''. by apply runs_ret.
  - intros r x Hr _ _ _. replace (r =? 0) with false by lia. by apply runs_ret.
Qed.

Lemma runs_on_all t bs spec l : tid_ok t -> forall buf rb d, buf_ok buf bs -> (spec = true -> ext_ok buf) -> be64 buf 8 = Some ak ->
  underway d0 ak rb d -> runs (register_on_all l (Some t) buf bs spec rb) d (fun r d' => underway d0 ak r.2 d').
Proof.
  intros Ht. induction l as [|rel l IH]; intros buf rb d Hb Hext Hk Hu; cbn [register_on_all]; [by apply runs_ret|].
  destruct (rel =? 0); [by apply IH|]. apply runs_bind. eapply runs_mono; [by apply runs_on_tgt_id|].
  intros [[res b1] rb1] d1 (Hu1 & Hb1 & Hag). cbn [fst snd] in *. destruct res; [|by apply runs_ret..]. apply IH; [done| | |done].
  - intros Hs n. rewrite (be32_agree buf b1 24 28) by (lia || (intros; apply Hag; lia)). by apply Hext.
  - rewrite (be_agree buf b1 8 28) by (lia || (intros; apply Hag; lia)). done.
Qed.
End registration.

(** All or nothing: a registration that fails leaves everything as it was. *)
Lemma runs_do_register tgtts d t x tid buf bs spec all ak : wf d -> ak <> 0 -> not_pr_supporting d = 0 -> assoc t (tgt_devs d) = Some x ->
  sess_tid x = Some tid -> buf_ok buf bs -> (spec = true -> ext_ok buf) -> be64 buf 8 = Some ak ->
  runs (do_scst_pr_register tgtts t buf bs spec all) d (fun s d' => wf d' /\ (s <> SAM_STAT_GOOD -> undone d d')).
Proof.
  intros Hd Hak Hnp Hx Es Hb Hext Hk. unfold do_scst_pr_register. apply runs_bind. eapply runs_get_td; [exact Hx|]. rewrite Es.
  destruct (to_tid _ _ _ _ (proj1 (proj2 Hd)) t x tid Hx Es) as [Hok _].
  assert (Hu : underway d ak [] d) by (exists []; by apply ip_start).
  apply runs_bind. apply runs_mono with (P := fun r d' => underway d ak r.2 d').
  - destruct all.
    + unfold scst_pr_register_all_tg_pt, proto_of. apply runs_bind, runs_bind. destruct Hok as [Hf (n & En & Hl)].
      pose proof (tid_size_pos _ _ Hf En). destruct (at_some tid 0) as [b0 Eb]; [lia|].
      eapply runs_lift; [exact Eb|]. apply runs_ret. apply runs_on_all; try done. split; [done|eauto].
    + eapply runs_mono; [by apply runs_on_tgt_id|]. intros r d' H. apply H.
  - intros [[res b1] rb] d1 (new & Hd1 & Hip). cbn [fst snd] in *.
    assert (Hroll : res <> SAM_STAT_GOOD -> runs (for_each rb rollback_one;; mret res) d1 (fun s d' => wf d' /\ (s <> SAM_STAT_GOOD -> undone d d'))).
    { intros _. apply runs_bind. eapply runs_mono; [by eapply runs_rollback|]. intros [] d' [Hw Hun]. by apply runs_ret. }
    destruct res; [|apply Hroll; done..]. apply runs_bind. eapply runs_mono; [eapply runs_commit; [exact Hd1|apply Hip|apply Hip]|].
    intros [] d' Hw. by apply runs_ret.
Qed.
