(* ===== verification/PresOut.v ===== *)
(** * The service actions

    Every service action of PERSISTENT RESERVE OUT has a result, keeps the
    invariant, and changes nothing when it ends with an error. *)

From S2P Require Import Prelude PresTid Pres PresInv PresReg.

Lemma undone_refl d : undone d d.
Proof. unfold undone, same_resv. auto 20. Qed.

Lemma undone_allocs d l : undone d (d <|allocs := l|>).
Proof. exact (undone_refl d). Qed.

#[export] Hint Resolve undone_refl undone_allocs : drv.

(** What every service action promises. *)
Definition outcome (d : pr_dev) (s : status) (d' : pr_dev) : Prop := wf d' /\ (s <> SAM_STAT_GOOD -> undone d d').

Lemma outcome_error d s : wf d -> outcome d s d.
Proof. intros H. split; [done|]. intros _. apply undone_refl. Qed.

Lemma outcome_good d d' : wf d' -> outcome d SAM_STAT_GOOD d'.
Proof. by split. Qed.

#[export] Hint Resolve outcome_error outcome_good : drv.

(** ** Unregistering *)

Definition unreg_state (d : pr_dev) (r : Z) (x : registrant_t) : pr_dev :=
  let d1 := rem_state d r x in
  if scst_pr_is_holder r d && negb (pr_is_set d1) &&
     ((pr_type d =? TYPE_WRITE_EXCLUSIVE_REGONLY) || (pr_type d =? TYPE_EXCLUSIVE_ACCESS_REGONLY))
  then d1 <|events := events d1 ++ uas reservation_released 0 (registrants d1)|>
  else d1.

Lemma wf_unreg d r x : wf d -> assoc r (registrants d) = Some x -> wf (unreg_state d r x).
Proof. intros Hd Hx. pose proof (wfk_rem _ d r x Hd Hx). unfold unreg_state. by destruct (_ && _). Qed.

Lemma runs_unregister d r x (Q : unit -> pr_dev -> Prop) : wf d -> assoc r (registrants d) = Some x ->
  (wf (unreg_state d r x) -> Q tt (unreg_state d r x)) -> runs (scst_pr_unregister r) d Q.
Proof.
  intros Hd Hx HQ. pose proof (HQ (wf_unreg d r x Hd Hx)) as H. clear HQ. unfold scst_pr_unregister. apply runs_bind. eapply runs_get_reg; [exact Hx|].
  apply runs_bind, runs_get, runs_bind, runs_get, runs_bind. eapply runs_remove; [exact Hd|exact Hx|]. intros Hd'.
  apply runs_bind, runs_get. unfold unreg_state in H. destruct (_ && _); [|by apply runs_ret]. by eapply runs_send_ua_all.
Qed.

Lemma proto_runs d t (Q : Z -> pr_dev -> Prop) : tid_ok t -> (forall p, Q p d) -> runs (proto_of (Some t)) d Q.
Proof.
  intros [Hf (n & En & Hl)] HQ. pose proof (tid_size_pos _ _ Hf En). destruct (at_some t 0) as [b Eb]; [lia|].
  unfold proto_of. apply runs_bind. eapply runs_lift; [exact Eb|]. by apply runs_ret.
Qed.

Lemma runs_unregister_all tgtts d t : wf d -> tid_ok t -> runs (scst_pr_unregister_all_tg_pt tgtts (Some t)) d (fun _ d' => wf d').
Proof.
  intros Hd Ht. unfold scst_pr_unregister_all_tg_pt. apply runs_bind. apply proto_runs; [done|]. intros p.
  eapply (runs_for_each (fun _ d => wf d)); [done|]. intros rel l d' Hd'. apply runs_bind.
  eapply runs_find_reg; [exact Hd'|exact Ht|intros _; by apply runs_ret|]. intros r x Hr Hx _ _. replace (r =? 0) with false by lia.
  eapply runs_unregister; [exact Hd'|exact Hx|]. auto.
Qed.

(** The registrant of a tgt_dev that has one. *)
Lemma own_registrant d t x : wf d -> assoc t (tgt_devs d) = Some x -> registrant x <> 0 ->
  exists r tid, assoc (registrant x) (registrants d) = Some r /\ tgt_dev r = t /\ rel_tgt_id r = sess_rel x /\ sess_tid x = Some tid /\ tid_ok tid.
Proof.
  intros Hd Hx H. destruct (to_link _ _ _ _ (proj1 (proj2 Hd)) t x Hx H) as (r & Hr & Ht & Hrel & He).
  destruct (sess_tid x) as [tid|] eqn:Es; [|done]. exists r, tid. split_and!; try done. by eapply (to_tid _ _ _ _ (proj1 (proj2 Hd))).
Qed.

Lemma np_all_tids d t x : wf d -> not_pr_supporting d = 0 -> assoc t (tgt_devs d) = Some x -> exists tid, sess_tid x = Some tid.
Proof.
  intros Hd H0 Hx. destruct (sess_tid x) as [tid|] eqn:Es; [eauto|]. exfalso. rewrite (to_count _ _ _ _ (proj1 (proj2 Hd))) in H0.
  pose proof (np_count_adel _ t x (to_nodup _ _ _ _ (proj1 (proj2 Hd))) Hx) as H. rewrite Es, H0 in H. unfold np_count in H. lia.
Qed.

Lemma runs_unregister_or_set tgtts d t x ak all : wf d -> assoc t (tgt_devs d) = Some x -> registrant x <> 0 ->
  runs (unregister_or_set tgtts x (registrant x) ak all) d (fun _ d' => wf d').
Proof.
  intros Hd Hx Hreg. destruct (own_registrant d t x Hd Hx Hreg) as (r & tid & Hr & _ & _ & Es & Ht). unfold unregister_or_set.
  destruct (Z.eqb_spec ak 0) as [|Hak].
  - destruct all; [rewrite Es; by apply runs_unregister_all|]. eapply runs_unregister; [exact Hd|exact Hr|]. auto.
  - apply runs_bind. eapply runs_get_reg; [exact Hr|]. unfold put_reg. apply runs_upd. eapply wfk_put; [exact Hd|exact Hr|done..| |done].
    split; [done|]. exact (proj2 (ro_key _ _ _ _ (proj1 Hd) (registrant x) r Hr)).
Qed.

(** ** REGISTER *)

Section actions.
Context (d : pr_dev) (t : Z) (x : tgt_dev_t) (buf : list Z) (bs : Z).
Context (Hd : wf d) (Hx : assoc t (tgt_devs d) = Some x) (Hb : buf_ok buf bs).

Lemma buf_byte i : 0 <= i < 28 -> exists b, at_ buf i = Some b.
Proof. intros Hi. destruct (at_some buf i) as [b ?]; [destruct Hb as (_ & ? & ?); lia|eauto]. Qed.

Lemma buf_be64 i : 0 <= i <= 20 -> exists k, be64 buf i = Some k.
Proof. intros Hi. destruct Hb as (Hby & ? & ?). destruct (be64_some buf i) as (k & ? & _); [done|lia|lia|eauto]. Qed.

Lemma wf_set_generation aptpl d' : wf d' -> runs (set_generation aptpl;; mret SAM_STAT_GOOD) d' (outcome d).
Proof. intros H. unfold set_generation. apply runs_bind, runs_upd, runs_ret. by apply outcome_good. Qed.

(** A new registration and what follows it. *)
Lemma runs_new_registration tgtts spec all ak aptpl : not_pr_supporting d = 0 -> (spec = true -> ext_ok buf) -> be64 buf 8 = Some ak ->
  runs (res ← (if negb (ak =? 0) then do_scst_pr_register tgtts t buf bs spec all else mret SAM_STAT_GOOD);
        match res with
        | SAM_STAT_GOOD => set_generation aptpl;; mret SAM_STAT_GOOD
        | _ => mret res
        end) d (outcome d).
Proof.
  intros Hnp Hext Hk. destruct (np_all_tids d t x Hd Hnp Hx) as [tid Es]. apply runs_bind.
  apply runs_mono with (P := fun s d' => wf d' /\ (s <> SAM_STAT_GOOD -> undone d d')).
  - destruct (Z.eqb_spec ak 0) as [|Hak]; cbn [negb]; [by apply runs_ret|]. by eapply runs_do_register.
  - intros s d' [Hw Hun]. destruct s; [by apply wf_set_generation|apply runs_ret; by split..].
Qed.

Lemma runs_register tgtts : not_pr_supporting d = 0 -> (forall b, at_ buf 20 = Some b -> bit b 3 = true -> ext_ok buf) ->
  runs (scst_pr_register tgtts t buf bs) d (outcome d).
Proof.
  intros Hnp Hext. unfold scst_pr_register. destruct (buf_byte 20) as [b20 E20]; [lia|]. destruct (buf_be64 0) as [k Ek]; [lia|].
  destruct (buf_be64 8) as [ak Eak]; [lia|]. apply runs_bind. eapply runs_lift; [exact E20|]. apply runs_bind. eapply runs_lift; [exact Ek|].
  apply runs_bind. eapply runs_lift; [exact Eak|]. destruct (negb (bit b20 3) && _); [apply runs_ret; auto with drv|].
  apply runs_bind. eapply runs_get_td; [exact Hx|]. destruct (Z.eqb_spec (registrant x) 0) as [E0|E0].
  - destruct (negb (k =? 0)); [apply runs_ret; auto with drv|]. apply runs_new_registration; eauto.
  - destruct (own_registrant d t x Hd Hx E0) as (r & tid & Hr & _). apply runs_bind. eapply runs_get_reg; [exact Hr|].
    destruct (negb (key r =? k)); [apply runs_ret; auto with drv|]. destruct (bit b20 3); [apply runs_ret; auto with drv|].
    apply runs_bind. eapply runs_mono; [by eapply runs_unregister_or_set|]. intros u d' Hd'. by apply wf_set_generation.
Qed.

Lemma runs_register_and_ignore tgtts : not_pr_supporting d = 0 -> runs (scst_pr_register_and_ignore tgtts t buf bs) d (outcome d).
Proof.
  intros Hnp. unfold scst_pr_register_and_ignore. destruct (buf_byte 20) as [b20 E20]; [lia|]. destruct (buf_be64 8) as [ak Eak]; [lia|].
  apply runs_bind. eapply runs_lift; [exact E20|]. apply runs_bind. eapply runs_lift; [exact Eak|].
  destruct (negb (bs =? 24)); [apply runs_ret; auto with drv|]. apply runs_bind. eapply runs_get_td; [exact Hx|].
  destruct (Z.eqb_spec (registrant x) 0) as [E0|E0]; [by apply runs_new_registration|].
  apply runs_bind. eapply runs_mono; [by eapply runs_unregister_or_set|]. intros u d' Hd'. by apply wf_set_generation.
Qed.

(** ** The actions of a registrant *)

Context (r : registrant_t) (Hreg : registrant x <> 0) (Hr : assoc (registrant x) (registrants d) = Some r).

Lemma runs_reserve cdb2 : runs (scst_pr_reserve t cdb2 buf bs) d (outcome d).
Proof.
  unfold scst_pr_reserve. destruct (buf_be64 0) as [k Ek]; [lia|]. apply runs_bind. eapply runs_lift; [exact Ek|].
  destruct (negb (bs =? 24)); [apply runs_ret; auto with drv|]. destruct (scst_pr_type_valid _) eqn:Et; cbn [negb]; [|apply runs_ret; auto with drv].
  destruct (Z.eqb_spec (cdb_scope cdb2) SCOPE_LU) as [->|]; cbn [negb]; [|apply runs_ret; auto with drv].
  apply runs_bind. eapply runs_get_td; [exact Hx|]. apply runs_bind. eapply runs_get_reg; [exact Hr|].
  destruct (negb (key r =? k)); [apply runs_ret; auto with drv|]. apply runs_bind, runs_get. destruct (pr_is_set d); cbn [negb].
  - apply runs_bind, runs_get. destruct (negb _); [apply runs_ret; auto with drv|]. apply runs_bind, runs_get, runs_bind, runs_get.
    destruct (negb _ || negb _); apply runs_ret; auto with drv.
  - apply runs_bind, runs_set_holder, runs_ret. apply outcome_good, wfk_held; eauto.
Qed.

Lemma wf_cleared d' : wf d' -> wf (cleared d').
Proof. intros (H1 & H2 & _). split; [exact H1|split; [exact H2|]]. by split_and!. Qed.

Lemma runs_release cdb2 : runs (scst_pr_release t cdb2 buf bs) d (outcome d).
Proof.
  unfold scst_pr_release. destruct (buf_be64 0) as [k Ek]; [lia|]. apply runs_bind. eapply runs_lift; [exact Ek|].
  destruct (negb (bs =? 24)); [apply runs_ret; auto with drv|]. apply runs_bind, runs_get. destruct (pr_is_set d); cbn [negb]; [|apply runs_ret; auto with drv].
  apply runs_bind. eapply runs_get_td; [exact Hx|]. apply runs_bind. eapply runs_get_reg; [exact Hr|].
  destruct (negb (key r =? k)); [apply runs_ret; auto with drv|]. apply runs_bind, runs_get. destruct (negb _); [apply runs_ret; auto with drv|].
  apply runs_bind, runs_get, runs_bind, runs_get. destruct (negb _ || negb _); [apply runs_ret; auto with drv|].
  apply runs_bind, runs_upd, runs_bind. pose proof (wf_cleared d Hd) as Hc. destruct (_ || _ || _ || _).
  - eapply runs_send_ua_all; [exact Hc|]. apply runs_ret. by apply outcome_good.
  - apply runs_ret, runs_ret. by apply outcome_good.
Qed.

Lemma runs_remove_all d' l : wf d' -> map fst (registrants d') = l -> runs (for_each l scst_pr_remove_registrant) d' (fun _ d'' => wf d'' /\ registrants d'' = []).
Proof.
  intros Hd' El. apply (runs_mono _ _ (fun _ d'' => wf d'' /\ map fst (registrants d'') = [])).
  - apply (runs_for_each (fun l d'' => wf d'' /\ map fst (registrants d'') = l)); [done|]. intros a l' d1 [Hd1 El1].
    destruct (proj2 (assoc_dom a (registrants d1))) as [y Hy]; [rewrite El1; by left|]. eapply runs_remove; [exact Hd1|exact Hy|]. intros Hw. split; [done|].
    destruct (rem_fields d1 a y) as (-> & _). rewrite fst_adel, El1. cbn. rewrite Z.eqb_refl. cbn. pose proof (ro_nodup _ _ _ _ (proj1 Hd1)) as Hn.
    rewrite El1, NoDup_cons in Hn. destruct Hn as [Hni _]. clear -Hni. induction l' as [|b l' IH]; [done|]. cbn. rewrite elem_of_cons in Hni.
    destruct (Z.eqb_spec b a) as [->|]; [tauto|]. cbn. f_equal. tauto.
  - intros u d'' [Hw E]. split; [done|]. by destruct (registrants d'').
Qed.

Lemma runs_clear : runs (scst_pr_clear t buf bs) d (fun s d' => outcome d s d' /\ (s = SAM_STAT_GOOD -> registrants d' = [] /\ pr_is_set d' = false)).
Proof.
  unfold scst_pr_clear. destruct (buf_be64 0) as [k Ek]; [lia|]. apply runs_bind. eapply runs_lift; [exact Ek|].
  destruct (negb (bs =? 24)); [apply runs_ret; split; [auto with drv|done]|].
  apply runs_bind. eapply runs_get_td; [exact Hx|]. apply runs_bind. eapply runs_get_reg; [exact Hr|].
  destruct (negb (key r =? k)); [apply runs_ret; split; [auto with drv|done]|]. apply runs_bind. eapply runs_send_ua_all; [exact Hd|].
  apply runs_bind, runs_get, runs_bind. eapply runs_mono; [by apply runs_remove_all|]. intros u d' [Hw E].
  unfold next_generation. apply runs_bind, runs_upd, runs_ret. split; [by apply outcome_good|]. intros _. cbn. split; [done|].
  destruct Hw as (_ & _ & Hv). unfold resv_ok in Hv. destruct (pr_is_set d'); [|done]. destruct Hv as (_ & _ & Hne & _). done.
Qed.

(** ** PREEMPT *)

Definition preempt_inv (self : bool) (l : list Z) (d' : pr_dev) : Prop :=
  wf d' /\ NoDup l /\ (forall a, a ∈ l -> is_Some (assoc a (registrants d'))) /\ (self = false -> is_Some (assoc (registrant x) (registrants d'))).

Lemma runs_preempt_one abort self a l d' : preempt_inv self (a :: l) d' ->
  runs (preempt_one abort self (registrant x) a) d' (fun _ d'' => preempt_inv self l d'').
Proof.
  intros (Hw & Hn & Hl & Hs). apply NoDup_cons in Hn as [Hni Hn]. destruct (Hl a) as [y Hy]; [by left|]. unfold preempt_one.
  assert (Hrm : forall d1, wf d1 -> registrants d1 = registrants d' ->
    runs (if self || negb (a =? registrant x) then scst_pr_remove_registrant a else mret tt) d1 (fun _ d'' => preempt_inv self l d'')).
  { intros d1 Hw1 E1. destruct (self || negb (a =? registrant x)) eqn:Eb.
    - eapply runs_remove; [exact Hw1|rewrite E1; exact Hy|]. intros Hw2. destruct (rem_fields d1 a y) as (Er & _). split_and!; try done.
      + intros b Hb'. rewrite Er, assoc_adel, E1. destruct (Z.eqb_spec b a) as [->|]; [done|]. apply Hl. by right.
      + intros ->. cbn in Eb. rewrite Er, assoc_adel, E1. destruct (Z.eqb_spec (registrant x) a) as [E|]; [|by apply Hs]. subst a. by rewrite Z.eqb_refl in Eb.
    - apply runs_ret. split_and!; [done|done| |]; rewrite E1; [intros; apply Hl; by right|done]. }
  apply runs_bind. destruct abort.
  - eapply runs_abort_reg; [exact Hw|exact Hy|]. apply runs_bind. destruct (negb (a =? _)); [|apply runs_ret; by apply Hrm].
    eapply runs_send_ua_reg; [exact Hw|exact Hy|]. by apply Hrm.
  - apply runs_ret, runs_bind. destruct (negb (a =? _)); [|apply runs_ret; by apply Hrm]. eapply runs_send_ua_reg; [exact Hw|exact Hy|]. by apply Hrm.
Qed.

Lemma runs_preempt_all abort self l d' : preempt_inv self l d' ->
  runs (for_each l (preempt_one abort self (registrant x))) d' (fun _ d'' => wf d'' /\ (self = false -> is_Some (assoc (registrant x) (registrants d'')))).
Proof.
  intros H. eapply runs_mono; [apply (runs_for_each (preempt_inv self)); [exact H|intros; by apply runs_preempt_one]|].
  intros u d'' (Hw & _ & _ & Hs). done.
Qed.

Lemma find_key_ok self k : preempt_inv self (scst_pr_find_registrants_list_key k d) d.
Proof.
  unfold scst_pr_find_registrants_list_key. split_and!; [done| | |eauto].
  - pose proof (ro_nodup _ _ _ _ (proj1 Hd)) as Hn. clear -Hn. induction (registrants d) as [|[a y] l IH]; cbn in *; [constructor|].
    apply NoDup_cons in Hn as [Hni Hn]. destruct (key y =? k); cbn; [|auto]. apply NoDup_cons. split; [|auto]. intros (p & Ep & Hp)%list_elem_of_fmap. apply Hni.
    apply list_elem_of_fmap. exists p. split; [done|]. rewrite list_elem_of_In, List.filter_In, <- list_elem_of_In in Hp. tauto.
  - intros a (p & -> & Hp)%list_elem_of_fmap. rewrite list_elem_of_In, List.filter_In, <- list_elem_of_In in Hp. apply assoc_dom, list_elem_of_fmap. exists p. tauto.
Qed.

Lemma find_all_ok self : preempt_inv self (scst_pr_find_registrants_list_all (registrant x) d) d.
Proof.
  unfold scst_pr_find_registrants_list_all. split_and!; [done| | |eauto].
  - rewrite NoDup_ListNoDup. apply List.NoDup_filter. rewrite <- NoDup_ListNoDup. apply Hd.
  - intros a Ha. rewrite list_elem_of_In, List.filter_In, <- list_elem_of_In in Ha. apply assoc_dom. tauto.
Qed.

Lemma runs_do_preempt cdb2 abort d1 : d1 = d -> cdb_scope cdb2 = SCOPE_LU -> runs (scst_pr_do_preempt t cdb2 buf bs abort) d1 (outcome d).
Proof.
  intros -> Hsc. unfold scst_pr_do_preempt. apply runs_bind, runs_get, runs_bind, runs_get.
  destruct (negb (bs =? 24)); [apply runs_ret; auto with drv|]. destruct (buf_be64 0) as [k Ek]; [lia|]. destruct (buf_be64 8) as [ak Eak]; [lia|].
  apply runs_bind. eapply runs_lift; [exact Ek|]. apply runs_bind. eapply runs_lift; [exact Eak|]. rewrite Hsc.
  destruct (scst_pr_type_valid _) eqn:Et; cbn [negb]; [|apply runs_ret; auto with drv].
  apply runs_bind. eapply runs_get_td; [exact Hx|]. apply runs_bind. eapply runs_get_reg; [exact Hr|].
  destruct (negb (key r =? k)); [apply runs_ret; auto with drv|]. apply runs_bind, runs_get, runs_bind, runs_get.
  set (pl := scst_pr_find_registrants_list_key ak d).
  assert (Hloop : forall self l (k' : M status), preempt_inv self l d ->
    (forall d', wf d' -> (self = false -> is_Some (assoc (registrant x) (registrants d'))) -> runs k' d' (outcome d)) ->
    runs (for_each l (preempt_one abort self (registrant x));; k') d (outcome d)).
  { intros self l k' Hi Hk. apply runs_bind. eapply runs_mono; [by apply runs_preempt_all|]. intros u d' [Hw Hs]. by apply Hk. }
  assert (Hgen : forall d', wf d' -> runs (next_generation;; mret SAM_STAT_GOOD) d' (outcome d)).
  { intros d' Hw. unfold next_generation. apply runs_bind, runs_upd, runs_ret. by apply outcome_good. }
  pose proof Hd as (_ & _ & Hv). unfold resv_ok in Hv. destruct (pr_is_set d) eqn:Es; cbn [negb].
  2:{ destruct pl eqn:Epl; [apply runs_ret; auto with drv|]. rewrite <- Epl. apply (Hloop false); [apply find_key_ok|auto]. }
  destruct Hv as (_ & _ & _ & Hh). destruct (all_reg (pr_type d)).
  - destruct (ak =? 0).
    + apply runs_bind, runs_get. apply (Hloop false); [apply find_all_ok|]. intros d' Hw Hs. apply runs_bind, runs_set_holder, Hgen. apply wfk_held; auto.
    + destruct pl eqn:Epl; [apply runs_ret; auto with drv|]. rewrite <- Epl. apply (Hloop false); [apply find_key_ok|auto].
  - destruct Hh as [h Hh]. apply runs_bind, runs_get, runs_bind. eapply runs_get_reg; [exact Hh|]. destruct (negb (key h =? ak)).
    + destruct (ak =? 0); [apply runs_ret; auto with drv|]. destruct pl eqn:Epl; [apply runs_ret; auto with drv|]. rewrite <- Epl.
      apply (Hloop true); [apply find_key_ok|auto].
    + apply (Hloop false); [apply find_key_ok|]. intros d' Hw Hs. apply runs_bind, runs_set_holder, runs_bind. specialize (Hs eq_refl).
      pose proof (wfk_held _ d' (registrant x) _ Hw Et Hs) as Hw'. destruct (negb _ || negb _).
      * eapply runs_send_ua_all; [exact Hw'|]. by apply Hgen.
      * apply runs_ret. by apply Hgen.
Qed.
End actions.

(** ** REGISTER AND MOVE *)

(** The registrant to move to, old or new. *)
Lemma runs_move_target d tid rel ak (Q : Z -> pr_dev -> Prop) : wf d -> not_pr_supporting d = 0 -> tid_ok tid -> ak <> 0 ->
  (forall l, Q 0 (d <|allocs := l|>)) ->
  (forall r d', r <> 0 -> wf d' -> is_Some (assoc r (registrants d')) ->
     (forall a, is_Some (assoc a (registrants d)) -> is_Some (assoc a (registrants d'))) -> same_resv d d' -> Q r d') ->
  runs (reg_move ← scst_pr_find_reg (Some tid) rel;
        if reg_move =? 0 then scst_pr_add_registrant (Some tid) rel ak
        else
          m ← get_reg reg_move;
          (if negb (key m =? ak) then put_reg reg_move (m <|key := ak|>) else mret tt);;
          mret reg_move) d Q.
Proof.
  intros Hd Hnp Ht Hak H0 H1. apply runs_bind. eapply runs_find_reg; [exact Hd|exact Ht| |].
  - intros _. cbn [Z.eqb]. eapply runs_add; [exact Hd|exact Ht|exact Hnp|exact H0|]. intros x l Hrel Hk Hrb Hfit Hok _ Hwf.
    pose proof (ro_next _ _ _ _ (proj1 Hd)) as Hpos. apply H1; [lia|apply Hwf; split; congruence| | |].
    + cbn. rewrite assoc_app. destruct (assoc _ _); [eauto|]. cbn. rewrite Z.eqb_refl. eauto.
    + intros a [y Hy]. cbn. rewrite assoc_app, Hy. eauto.
    + exact (proj2 (proj2 (undone_refl d))).
  - intros r x Hr Hx _ _. replace (r =? 0) with false by lia. apply runs_bind. eapply runs_get_reg; [exact Hx|]. apply runs_bind.
    destruct (Z.eqb_spec (key x) ak) as [|Hk]; cbn [negb].
    + apply runs_ret, runs_ret, H1; eauto. exact (proj2 (proj2 (undone_refl d))).
    + unfold put_reg. apply runs_upd, runs_ret, H1; [done| | | |].
      * eapply wfk_put; [exact Hd|exact Hx|done..| |done]. split; [done|]. exact (proj2 (ro_key _ _ _ _ (proj1 Hd) r x Hx)).
      * apply assoc_aset_some. eauto.
      * intros a. apply assoc_aset_some.
      * exact (proj2 (proj2 (undone_refl d))).
Qed.

Lemma runs_register_and_move d t x buf bs r : wf d -> not_pr_supporting d = 0 -> assoc t (tgt_devs d) = Some x -> buf_ok buf bs ->
  registrant x <> 0 -> assoc (registrant x) (registrants d) = Some r -> runs (scst_pr_register_and_move t buf bs) d (outcome d).
Proof.
  intros Hd Hnp Hx Hb Hreg Hr. unfold scst_pr_register_and_move. pose proof Hb as (Hby & H24 & Hlen).
  destruct (buf_byte buf bs Hb 17) as [b17 E17]; [lia|]. destruct (buf_be64 buf bs Hb 0) as [k Ek]; [lia|]. destruct (buf_be64 buf bs Hb 8) as [ak Eak]; [lia|].
  destruct (be32_some buf 20) as (tbs & Etbs & Htbs); [done|lia|lia|].
  apply runs_bind. eapply runs_lift; [exact E17|]. apply runs_bind. eapply runs_lift; [exact Ek|]. apply runs_bind. eapply runs_lift; [exact Eak|].
  apply runs_bind. eapply runs_lift; [exact Etbs|].
  destruct (u32 bs <? u32 (tbs + 24)); [apply runs_ret; auto with drv|]. destruct (Z.ltb_spec tbs 24) as [|Htb]; [apply runs_ret; auto with drv|].
  apply runs_bind. eapply runs_get_td; [exact Hx|]. apply runs_bind. eapply runs_get_reg; [exact Hr|].
  destruct (negb (key r =? k)); [apply runs_ret; auto with drv|]. apply runs_bind, runs_get.
  destruct (pr_is_set d) eqn:Es; cbn [negb]; [|apply runs_ret; auto with drv]. apply runs_bind, runs_get.
  destruct (scst_pr_is_holder (registrant x) d); cbn [negb]; [|apply runs_ret; auto with drv].
  destruct (Z.eqb_spec ak 0) as [|Hak]; [apply runs_ret; auto with drv|].
  destruct (tid_size_some buf 24) as (n & En & Hn); [done|lia|lia|].
  assert (exists rel, be16 buf 18 = Some rel) as [rel Erel].
  { unfold be16. destruct (at_some buf 18) as [a ->]; [lia|]. destruct (at_some buf (18 + 1)) as [b ->]; [lia|]. cbn. eauto. }
  apply runs_bind. eapply runs_lift; [exact Erel|]. apply runs_bind. eapply runs_lift; [exact En|].
  destruct (Z.ltb_spec bs (n + 24)) as [|Hn24]; [apply runs_ret; auto with drv|].
  destruct (tid_secure_spec buf 24 n) as (b1 & Eb1 & Hb1 & Hl1 & En1 & _); [done|lia|done|lia|]. apply runs_bind. eapply runs_lift; [exact Eb1|].
  pose proof (tid_at_ok b1 24 n Hb1 ltac:(lia) En1 ltac:(lia)) as Hok. apply runs_bind, runs_get.
  destruct (all_reg (pr_type d)); [apply runs_ret; auto with drv|].
  destruct (own_registrant d t x Hd Hx Hreg) as (_ & tid & _ & _ & _ & Est & Htid). rewrite Est. destruct (tid_equal_total tid (tid_at b1 24) Htid Hok) as [e Ee].
  apply runs_bind. eapply runs_lift; [exact Ee|]. destruct e; [apply runs_ret; auto with drv|].
  pose proof Hd as (_ & _ & Hv). unfold resv_ok in Hv. rewrite Es in Hv. destruct Hv as (Hty & Hsc & _).
  pose proof (fun Q => runs_move_target d (tid_at b1 24) rel ak Q Hd Hnp Hok Hak) as Hmv.
  match goal with |- runs (?m ≫= ?k) _ _ => assert (Hassoc : forall d' Q, runs ((a ← m; (if a =? 0 then scst_pr_add_registrant (Some (tid_at b1 24)) rel ak
     else m0 ← get_reg a; (if negb (key m0 =? ak) then put_reg a (m0 <|key := ak|>) else mret tt);; mret a)) ≫=
     (fun reg_move => if reg_move =? 0 then mret SAM_STAT_BUSY else
        scope ← get pr_scope; scst_pr_set_holder reg_move scope (pr_type d);;
        (if bit b17 1 then scst_pr_remove_registrant (registrant x) else mret tt);; set_generation (bit b17 0);; mret SAM_STAT_GOOD)) d' Q ->
     runs (m ≫= k) d' Q) end.
  { intros d' Q. unfold runs, mbind, pt_bind. destruct (scst_pr_find_reg _ _ d') as [[a d1]|]; done. }
  apply Hassoc. apply runs_bind. apply Hmv.
  - intros l. apply runs_ret. split; [exact Hd|]. auto with drv.
  - intros m d' Hm Hd' Hms Hmore (R1 & R2 & R3 & _). replace (m =? 0) with false by lia. apply runs_bind, runs_get. rewrite R3, Hsc.
    apply runs_bind, runs_set_holder, runs_bind. pose proof (wfk_held _ d' m _ Hd' Hty Hms) as Hw. destruct (bit b17 1).
    + destruct (Hmore (registrant x)) as [y Hy]; [eauto|].
      assert (Hy' : assoc (registrant x) (registrants (held d' m SCOPE_LU (pr_type d))) = Some y) by (unfold held; by destruct (all_reg _)).
      eapply runs_remove; [exact Hw|exact Hy'|]. intros Hw'. by apply wf_set_generation.
    + apply runs_ret. by apply wf_set_generation.
Qed.

(** ** Every service action *)

Lemma runs_action tgtts action d t x cdb2 buf bs : wf d -> not_pr_supporting d = 0 -> assoc t (tgt_devs d) = Some x -> buf_ok buf bs ->
  cdb_scope cdb2 = SCOPE_LU \/ action = PR_REGISTER \/ action = PR_REGISTER_AND_IGNORE \/ action = PR_CLEAR ->
  (action = PR_REGISTER -> forall b, at_ buf 20 = Some b -> bit b 3 = true -> ext_ok buf) ->
  action = PR_REGISTER \/ action = PR_REGISTER_AND_IGNORE \/ registrant x <> 0 ->
  runs (pr_out_action tgtts action t cdb2 buf bs) d (outcome d).
Proof.
  intros Hd Hnp Hx Hb Hsc Hext Hreg. unfold pr_out_action.
  destruct (Z.eqb_spec action PR_REGISTER) as [->|N0]; [eapply runs_register; eauto|].
  assert (Hown : action <> PR_REGISTER_AND_IGNORE -> registrant x <> 0 /\ exists r, assoc (registrant x) (registrants d) = Some r).
  { intros N6. destruct Hreg as [?|[?|Hne]]; [done|done|]. split; [done|]. destruct (own_registrant d t x Hd Hx Hne) as (r & _ & ? & _). eauto. }
  destruct (Z.eqb_spec action PR_RESERVE) as [->|N1]; [destruct Hown as [? [r Hr]]; [done|]; by eapply runs_reserve|].
  destruct (Z.eqb_spec action PR_RELEASE) as [->|N2]; [destruct Hown as [? [r Hr]]; [done|]; by eapply runs_release|].
  destruct (Z.eqb_spec action PR_CLEAR) as [->|N3].
  { destruct Hown as [? [r Hr]]; [done|]. eapply runs_mono; [by eapply runs_clear|]. intros s d' [H' _]. exact H'. }
  assert (Hscope : action <> PR_REGISTER_AND_IGNORE -> cdb_scope cdb2 = SCOPE_LU) by (intros; destruct Hsc as [?|[?|[?|?]]]; done).
  destruct (Z.eqb_spec action PR_PREEMPT) as [->|N4].
  { destruct Hown as [? [r Hr]]; [done|]. eapply runs_do_preempt; eauto. }
  destruct (Z.eqb_spec action PR_PREEMPT_AND_ABORT) as [->|N5].
  { destruct Hown as [? [r Hr]]; [done|]. unfold scst_pr_preempt_and_abort. apply runs_bind, runs_kalloc. intros b l. destruct b; cbn [negb].
    - eapply runs_mono; [eapply (runs_do_preempt (d <|allocs := l|>)); eauto|]. intros s d' H'. exact H'.
    - apply runs_ret. split; [exact Hd|]. auto with drv. }
  destruct (Z.eqb_spec action PR_REGISTER_AND_IGNORE) as [->|N6]; [by eapply runs_register_and_ignore|].
  destruct (Z.eqb_spec action PR_REGISTER_AND_MOVE) as [->|N7]; [|apply runs_ret; auto with drv].
  destruct Hown as [? [r Hr]]; [done|]. eapply runs_register_and_move; eauto.
Qed.

(** [n] calls with [pending] commands to end, and how often the saved callback was
    called. *)
Fixpoint preempt_ends (n : nat) (pending : Z) : Z * nat :=
  match n with
  | O => (pending, O)
  | S n => let '(p, c) := scst_cmd_done_pr_preempt pending in let '(p, k) := preempt_ends n p in (p, if c then S k else k)
  end.

(** The callback of a PREEMPT AND ABORT is called once, by the last command that
    ends. *)
Lemma preempt_callback_once n : forall pending, 0 < pending -> preempt_ends n pending = (pending - Z.of_nat n, if Z.of_nat n <? pending then O else 1%nat).
Proof.
  assert (Hneg : forall n p, p <= 0 -> preempt_ends n p = (p - Z.of_nat n, O)).
  { clear. induction n as [|n IH]; intros p H; cbn -[Z.of_nat]; [f_equal; lia|]. rewrite (IH (p - 1)) by lia. replace (p - 1 =? 0) with false by lia. f_equal; lia. }
  induction n as [|n IH]; intros p H; cbn -[Z.of_nat]; [replace (Z.of_nat 0 <? p) with true by lia; f_equal; lia|].
  destruct (Z.eqb_spec (p - 1) 0) as [E|E].
  - rewrite (Hneg n (p - 1)) by lia. replace (Z.of_nat (S n) <? p) with false by lia. f_equal; lia.
  - rewrite (IH (p - 1)) by lia. f_equal; [lia|]. destruct (Z.ltb_spec (Z.of_nat n) (p - 1)), (Z.ltb_spec (Z.of_nat (S n)) p); try lia; done.
Qed.
