(* ===== verification/PresThms.v ===== *)
(** * What persistent reservations promise

    The invariant holds in every state that sessions and commands lead to, no
    command with a parameter list as the standard wants it uses an object that is
    gone or reads outside the memory of the list, and a command that fails changes
    nothing.  A reservation gives access as the table of the SCSI primary commands
    says, RELEASE and PREEMPT end it. *)

From S2P Require Import Prelude PresTid Pres PresInv PresReg PresOut.

(** ** Commands and sessions in any order *)

(** What is asked of the parameter list: there is none, or it has at least 24
    bytes, the memory it is in goes on for at least 4 bytes behind it, and, when
    it is that of a REGISTER with SPEC_I_PT, the additional length and the 28
    bytes before it do not overflow 32 bits.  The code does not check this: for a
    shorter list bytes 20 and 24 to 27 lie behind its end, and an additional
    length of almost 2^32 passes the comparison with the size. *)
Definition parm_ok (cdb1 : Z) (buf : list Z) (bs : Z) : Prop :=
  bs <= 0 \/ buf_ok buf bs /\ (Z.land cdb1 0x1f = PR_REGISTER -> forall b, at_ buf 20 = Some b -> bit b 3 = true -> ext_ok buf).

Lemma runs_out tgtts rsv ab d t x cdb1 cdb2 buf bs bst : wf d -> assoc t (tgt_devs d) = Some x -> parm_ok cdb1 buf bs ->
  runs (scst_persistent_reserve_out_local tgtts rsv ab t cdb1 cdb2 buf bs bst) d (fun s d' => wf d' /\ (s <> Some SAM_STAT_GOOD -> undone d d')).
Proof.
  intros Hd Hx Hp. assert (Hsame : forall s : option status, wf d /\ (s <> Some SAM_STAT_GOOD -> undone d d)) by (intros; split; auto with drv).
  unfold scst_persistent_reserve_out_local. apply runs_bind, runs_get. destruct (Z.eqb_spec (not_pr_supporting d) 0) as [Hnp|]; cbn [negb]; [|by apply runs_ret].
  destruct rsv; [by apply runs_ret|]. apply runs_bind. eapply runs_get_td; [exact Hx|]. set (action := Z.land cdb1 31) in *.
  destruct (negb (action =? PR_REGISTER) && negb (action =? PR_REGISTER_AND_IGNORE) && (registrant x =? 0)) eqn:Er; [by apply runs_ret|].
  destruct (Z.leb_spec bs 0) as [|Hbs]; [by apply runs_ret|]. destruct Hp as [?|[Hb Hext]]; [lia|].
  destruct (negb (action =? PR_REGISTER) && negb (action =? PR_REGISTER_AND_IGNORE) && negb (action =? PR_CLEAR) && negb (cdb_scope cdb2 =? SCOPE_LU)) eqn:Esc; [by apply runs_ret|].
  apply runs_bind. apply runs_mono with (P := fun _ d' => d' = d).
  { match goal with |- context [if ?c then _ else _] => destruct c end; [|by apply runs_ret]. destruct (buf_byte buf bs Hb 20) as [b Eb]; [lia|]. by eapply runs_lift. }
  intros b d' ->. destruct (bit b 3); [by apply runs_ret|].
  match goal with |- context [if ?c then _ else _] => destruct c end; [by apply runs_ret|]. destruct ab; [by apply runs_ret|].
  apply runs_bind. eapply runs_mono; [eapply runs_action; eauto|].
  - destruct (Z.eqb_spec (cdb_scope cdb2) SCOPE_LU); [by left|right]. lia.
  - lia.
  - intros s d' [Hw Hun]. apply runs_ret. split; [done|]. intros Hne. apply Hun. congruence.
Qed.

(** A device without registrations and sessions. *)
Definition pr_init (answers : list bool) : pr_dev := mkDev false TYPE_UNSPECIFIED SCOPE_LU 0 false 0 [] [] [] 0 1 answers [].

Inductive pr_step (tgtts : list tgt_template) (d d' : pr_dev) : Prop :=
| step_command rsv ab t x cdb1 cdb2 buf bs bst s :
    assoc t (tgt_devs d) = Some x -> parm_ok cdb1 buf bs ->
    scst_persistent_reserve_out_local tgtts rsv ab t cdb1 cdb2 buf bs bst d = Some (s, d') -> pr_step tgtts d d'
| step_add t tid rel b :
    assoc t (tgt_devs d) = None -> t <> 0 -> (forall x, tid = Some x -> tid_ok x /\ tid_full x) ->
    tgt_dev_add t tid rel d = Some (b, d') -> pr_step tgtts d d'
| step_list_add t : is_Some (assoc t (tgt_devs d)) -> tgt_dev_list_add t d = Some (tt, d') -> pr_step tgtts d d'
| step_list_del t : tgt_dev_list_del t d = Some (tt, d') -> pr_step tgtts d d'
| step_free t x : assoc t (tgt_devs d) = Some x -> t ∉ td_list d -> tgt_dev_free t d = Some (tt, d') -> pr_step tgtts d d'.

Lemma runs_det {A} (m : M A) d Q a d' : runs m d Q -> m d = Some (a, d') -> Q a d'.
Proof. intros (b & d1 & E & H) E'. rewrite E in E'. by injection E' as <- <-. Qed.

Lemma runs_eq {A} (m : M A) d a d' : runs m d (fun b d1 => b = a /\ d1 = d') -> m d = Some (a, d').
Proof. by intros (b & d1 & E & -> & ->). Qed.

Lemma wf_init answers : wf (pr_init answers).
Proof.
  split; [|split].
  - constructor; cbn; try done. apply NoDup_nil_2.
  - constructor; cbn; try done; [apply NoDup_nil_2|]. by intros t ?%elem_of_nil.
  - by split_and!.
Qed.

Lemma wf_step tgtts d d' : wf d -> pr_step tgtts d d' -> wf d'.
Proof.
  intros Hd [rsv ab t x cdb1 cdb2 buf bs bst s Hx Hp E|t tid rel b Hn Ht0 Htid E|t Hs E|t E|t x Hx Hl E].
  - eapply runs_det in E; [|by eapply runs_out]. apply E.
  - by eapply runs_det in E; [|by apply runs_tgt_dev_add].
  - injection E as <-. by apply wf_list_add.
  - injection E as <-. by apply wf_list_del.
  - eapply runs_det in E; [|by eapply runs_tgt_dev_free]. apply E.
Qed.

Lemma reach_wf tgtts answers d : rtc (pr_step tgtts) (pr_init answers) d -> wf d.
Proof.
  intros H. remember (pr_init answers) as d0 eqn:E. assert (Hd0 : wf d0) by (subst; apply wf_init). clear E.
  induction H as [|d0 d1 d2 H1 _ IH]; [done|]. apply IH. by eapply wf_step.
Qed.

(** C9: In every state that sessions coming and going and PERSISTENT RESERVE OUT
    commands lead to, registrants and tgt_devs point at each other, an initiator
    port has one registrant on a target, all keys are non-zero and settled, and a
    reservation has a valid type and is held by a registrant. *)
Theorem pr_invariant tgtts answers d : rtc (pr_step tgtts) (pr_init answers) d -> wf d.
Proof. apply reach_wf. Qed.

(** C10: In such a state a command without a parameter list, or with one that
    [parm_ok] describes (at least 24 bytes, memory for 4 more bytes behind it, no
    additional length that overflows), has a result: no object is used that was
    freed, nothing is read outside the memory of the list, no loop runs out and
    no list is corrupted.  When the status is not GOOD, the registrations, the
    links and the reservation are as before. *)
Theorem pr_command_safe tgtts answers d rsv ab t x cdb1 cdb2 buf bs bst :
  rtc (pr_step tgtts) (pr_init answers) d -> assoc t (tgt_devs d) = Some x -> parm_ok cdb1 buf bs ->
  exists s d', scst_persistent_reserve_out_local tgtts rsv ab t cdb1 cdb2 buf bs bst d = Some (s, d') /\
    (s <> Some SAM_STAT_GOOD ->
     registrants d' = registrants d /\ tgt_devs d' = tgt_devs d /\ pr_is_set d' = pr_is_set d /\ pr_type d' = pr_type d /\ pr_scope d' = pr_scope d /\
     (all_reg (pr_type d) = false -> pr_holder d' = pr_holder d) /\ pr_generation d' = pr_generation d /\ pr_aptpl d' = pr_aptpl d /\ events d' = events d).
Proof.
  intros Hr Hx Hp. pose proof (reach_wf _ _ _ Hr) as Hd.
  destruct (runs_out tgtts rsv ab d t x cdb1 cdb2 buf bs bst Hd Hx Hp) as (s & d' & E & _ & Hun). exists s, d'. split; [done|].
  intros Hs. destruct (Hun Hs) as (U1 & U2 & U3 & U4 & U5 & U6 & U7 & U8 & _ & _ & U9). split_and!; try done.
  intros Ha. destruct U6 as [|(_ & H & _)]; [done|congruence].
Qed.

(** ** Access *)

(** Who a reservation is for: its holder, or all registrants. *)
Definition for_holder (type : Z) : bool := (type =? TYPE_WRITE_EXCLUSIVE) || (type =? TYPE_EXCLUSIVE_ACCESS).

(** Whether others may read. *)
Definition write_exclusive (type : Z) : bool :=
  (type =? TYPE_WRITE_EXCLUSIVE) || (type =? TYPE_WRITE_EXCLUSIVE_REGONLY) || (type =? TYPE_WRITE_EXCLUSIVE_ALL_REG).

(** The table of the commands that are allowed in the presence of a reservation. *)
Definition spc_allowed (type : Z) (is_holder is_registered : bool) (op_flags : Z) : bool :=
  (if for_holder type then is_holder else is_registered) ||
  tst op_flags (if write_exclusive type then SCST_WRITE_EXCL_ALLOWED else SCST_EXCL_ACCESS_ALLOWED).

Lemma type_valid_cases type : scst_pr_type_valid type = true ->
  type = 1 \/ type = 3 \/ type = 5 \/ type = 6 \/ type = 7 \/ type = 8.
Proof.
  unfold scst_pr_type_valid, TYPE_WRITE_EXCLUSIVE, TYPE_EXCLUSIVE_ACCESS, TYPE_WRITE_EXCLUSIVE_REGONLY, TYPE_EXCLUSIVE_ACCESS_REGONLY,
    TYPE_WRITE_EXCLUSIVE_ALL_REG, TYPE_EXCLUSIVE_ACCESS_ALL_REG. lia.
Qed.

Lemma allowed_spc d r op_flags : pr_is_set d = true -> scst_pr_type_valid (pr_type d) = true -> (for_holder (pr_type d) = true -> pr_holder d <> 0) ->
  scst_pr_is_cmd_allowed r op_flags d = spc_allowed (pr_type d) (r =? pr_holder d) (negb (r =? 0)) op_flags.
Proof.
  intros Hs Ht Hh. unfold scst_pr_is_cmd_allowed. rewrite Hs. cbn [negb].
  destruct (type_valid_cases _ Ht) as [E|[E|[E|[E|[E|E]]]]]; rewrite E in *; unfold spc_allowed; cbn;
    specialize (Hh); cbn in Hh; destruct (r =? 0) eqn:E0; destruct (r =? pr_holder d) eqn:Eh; cbn; try done; exfalso; apply Hh; [done|lia|done|lia].
Qed.

(** Two tgt_devs with the same registrant are one. *)
Lemma registrant_inj d t x t' x' : wf d -> assoc t (tgt_devs d) = Some x -> assoc t' (tgt_devs d) = Some x' -> registrant x <> 0 ->
  (registrant x' =? registrant x) = (t' =? t).
Proof.
  intros Hd Hx Hx' H0. apply eq_iff_eq_true. rewrite !Z.eqb_eq. split; [|intros ->; congruence]. intros E.
  destruct (own_registrant d t x Hd Hx H0) as (r & _ & Hr & Ht & _). destruct (own_registrant d t' x' Hd Hx' ltac:(congruence)) as (r' & _ & Hr' & Ht' & _). congruence.
Qed.

Lemma cleared_held d r type : wf d -> pr_is_set d = false -> cleared (held d r SCOPE_LU type) = d.
Proof.
  intros (_ & _ & Hv) Hs. unfold resv_ok in Hv. rewrite Hs in Hv. destruct Hv as (V1 & V2 & V3). destruct d; cbn in *. subst.
  unfold held, cleared. by destruct (all_reg type).
Qed.

(** The unit attentions of the end of a reservation. *)
Definition release_uas (type own : Z) (regs : list (Z * registrant_t)) : list pr_event :=
  if for_holder type then [] else uas reservation_released own regs.

(** C30: When a registrant with the right key reserves a device that is not
    reserved, the status is GOOD and from then on a command is allowed for a
    tgt_dev exactly as the table of the standard says: by the type, whether it is
    the holder and whether it is registered.  A RELEASE with the same scope and
    type ends the reservation, the other registrants get a unit attention when
    the reservation was for them too, and the device is as it was. *)
Theorem reserve_release d t x r cdb2 buf :
  wf d -> assoc t (tgt_devs d) = Some x -> registrant x <> 0 -> assoc (registrant x) (registrants d) = Some r ->
  pr_is_set d = false -> be64 buf 0 = Some (key r) -> cdb_scope cdb2 = SCOPE_LU -> scst_pr_type_valid (cdb_type cdb2) = true ->
  exists d1, scst_pr_reserve t cdb2 buf 24 d = Some (SAM_STAT_GOOD, d1) /\
    (forall t' x' op_flags, assoc t' (tgt_devs d1) = Some x' ->
       scst_pr_is_cmd_allowed (registrant x') op_flags d1 = spc_allowed (cdb_type cdb2) (t' =? t) (negb (registrant x' =? 0)) op_flags) /\
    scst_pr_release t cdb2 buf 24 d1 =
      Some (SAM_STAT_GOOD, d <|events := events d ++ release_uas (cdb_type cdb2) (registrant x) (registrants d)|>).
Proof.
  intros Hd Hx H0 Hr Hs Hk Hsc Hty. exists (held d (registrant x) SCOPE_LU (cdb_type cdb2)). pose proof (wfk_held _ d (registrant x) _ Hd Hty ltac:(eauto)) as Hd1.
  assert (Hf : tgt_devs (held d (registrant x) SCOPE_LU (cdb_type cdb2)) = tgt_devs d /\ registrants (held d (registrant x) SCOPE_LU (cdb_type cdb2)) = registrants d /\
    pr_is_set (held d (registrant x) SCOPE_LU (cdb_type cdb2)) = true /\ pr_type (held d (registrant x) SCOPE_LU (cdb_type cdb2)) = cdb_type cdb2 /\
    pr_scope (held d (registrant x) SCOPE_LU (cdb_type cdb2)) = SCOPE_LU).
  { unfold held. destruct (all_reg (cdb_type cdb2)); by split_and!. }
  destruct Hf as (F1 & F2 & F3 & F4 & F5). split_and!.
  - apply runs_eq. unfold scst_pr_reserve. apply runs_bind. eapply runs_lift; [exact Hk|]. rewrite Hty, Hsc. cbn [Z.eqb Pos.eqb negb].
    apply runs_bind. eapply runs_get_td; [exact Hx|]. apply runs_bind. eapply runs_get_reg; [exact Hr|]. rewrite Z.eqb_refl. cbn [negb].
    apply runs_bind, runs_get. rewrite Hs. cbn [negb]. by apply runs_bind, runs_set_holder, runs_ret.
  - assert (Hho : for_holder (cdb_type cdb2) = true -> pr_holder (held d (registrant x) SCOPE_LU (cdb_type cdb2)) = registrant x).
    { intros Ef. unfold held. replace (all_reg (cdb_type cdb2)) with false; [done|].
      destruct (type_valid_cases _ Hty) as [E|[E|[E|[E|[E|E]]]]]; rewrite E in *; done. }
    intros t' x' op_flags Hx'. rewrite F1 in Hx'. rewrite allowed_spc; rewrite ?F4; [|done|done|intros Ef; by rewrite Hho].
    unfold spc_allowed. destruct (for_holder (cdb_type cdb2)); [|done]. by rewrite Hho, (registrant_inj d t x t' x').
  - set (d1 := held d (registrant x) SCOPE_LU (cdb_type cdb2)) in *.
    assert (Hh : scst_pr_is_holder (registrant x) d1 = true).
    { unfold scst_pr_is_holder. rewrite F3, F4. cbn. destruct (all_reg (cdb_type cdb2)) eqn:Ea; [lia|]. unfold d1, held. rewrite Ea. cbn. lia. }
    pose proof (cleared_held d (registrant x) (cdb_type cdb2) Hd Hs) as Hc. fold d1 in Hc.
    assert (Hu : (cdb_type cdb2 =? TYPE_WRITE_EXCLUSIVE_REGONLY) || (cdb_type cdb2 =? TYPE_EXCLUSIVE_ACCESS_REGONLY) ||
      (cdb_type cdb2 =? TYPE_WRITE_EXCLUSIVE_ALL_REG) || (cdb_type cdb2 =? TYPE_EXCLUSIVE_ACCESS_ALL_REG) = negb (for_holder (cdb_type cdb2))).
    { destruct (type_valid_cases _ Hty) as [E|[E|[E|[E|[E|E]]]]]; by rewrite E. }
    apply runs_eq. unfold scst_pr_release. apply runs_bind. eapply runs_lift; [exact Hk|]. cbn [Z.eqb Pos.eqb negb].
    apply runs_bind, runs_get. rewrite F3. cbn [negb]. apply runs_bind. eapply runs_get_td; [rewrite F1; exact Hx|]. apply runs_bind.
    eapply runs_get_reg; [rewrite F2; exact Hr|]. rewrite Z.eqb_refl. cbn [negb]. apply runs_bind, runs_get. rewrite Hh. cbn [negb].
    apply runs_bind, runs_get, runs_bind, runs_get. rewrite F5, F4, Hsc, !Z.eqb_refl. cbn [negb orb]. apply runs_bind, runs_upd, runs_bind.
    change (d1 <|pr_is_set := false|> <|pr_scope := SCOPE_LU|> <|pr_type := TYPE_UNSPECIFIED|> <|pr_holder := 0|>) with (cleared d1).
    rewrite Hc, Hu. unfold release_uas. destruct (for_holder (cdb_type cdb2)); cbn [negb].
    + apply runs_ret, runs_ret. split; [done|]. rewrite app_nil_r. by clear; destruct d.
    + eapply runs_send_ua_all; [exact Hd|]. by apply runs_ret.
Qed.

(** ** What a computation keeps *)

Definition keeps {A B} (f : pr_dev -> B) (m : M A) : Prop := forall d a d', m d = Some (a, d') -> f d' = f d.

Section keeps.
Context {B : Type} (f : pr_dev -> B).

Lemma kept_bind {A C} (m : M A) (k : A -> M C) : keeps f m -> (forall a, keeps f (k a)) -> keeps f (m ≫= k).
Proof.
  intros Hm Hk d c d'. unfold mbind, pt_bind. destruct (m d) as [[a d1]|] eqn:E; [|done]. intros E'. rewrite (Hk a _ _ _ E'). by apply Hm in E.
Qed.

Lemma kept_ret {A} (a : A) : keeps f (mret a).
Proof. by intros d b d' [= _ ->]. Qed.

Lemma kept_get {A} (g : pr_dev -> A) : keeps f (get g).
Proof. by intros d b d' [= _ ->]. Qed.

Lemma kept_lift {A} (x : option A) : keeps f (lift x).
Proof. intros d b d'. unfold lift. destruct x; [|done]. by intros [= _ ->]. Qed.

Lemma kept_get_reg r : keeps f (get_reg r).
Proof. intros d b d'. unfold get_reg. destruct (assoc r _); [|done]. by intros [= _ ->]. Qed.

Lemma kept_get_td t : keeps f (get_td t).
Proof. intros d b d'. unfold get_td. destruct (assoc t _); [|done]. by intros [= _ ->]. Qed.

Lemma kept_stuck {A} : keeps f (stuck (A := A)).
Proof. by intros d b d'. Qed.

Lemma kept_upd g : (forall d, f (g d) = f d) -> keeps f (upd g).
Proof. intros H d b d' [= _ <-]. apply H. Qed.

Lemma kept_for_each l g : (forall a, keeps f (g a)) -> keeps f (for_each l g).
Proof. intros H. induction l as [|a l IH]; cbn; [apply kept_ret|]. by apply kept_bind. Qed.

Lemma kept_kalloc : (forall d l, f (d <|allocs := l|>) = f d) -> keeps f kalloc.
Proof. intros H d b d'. unfold kalloc. destruct (allocs d); intros [= _ <-]; auto. Qed.
End keeps.

Create HintDb keeps.

(** [keep] follows the structure of a computation. *)
Ltac keep :=
  repeat first
    [ (solve [eauto with keeps])
    | apply kept_bind; [|intros ?]
    | apply kept_ret | apply kept_get | apply kept_lift | apply kept_get_reg | apply kept_get_td | apply kept_stuck
    | (apply kept_upd; intros; reflexivity)
    | (apply kept_kalloc; intros; reflexivity)
    | (apply kept_for_each; intros ?)
    | case_if
    | match goal with
      | |- keeps _ (match ?x with _ => _ end) => destruct x
      | |- keeps _ (let '_ := ?x in _) => destruct x
      end
    | progress unfold be64_at, byte_at, put_reg, put_td, note ].

Lemma keep_find_reg {B} (f : pr_dev -> B) tid rel : keeps f (scst_pr_find_reg tid rel).
Proof. unfold scst_pr_find_reg. keep. Qed.
#[export] Hint Resolve keep_find_reg : keeps.

(** PRGENERATION is changed by the actions themselves and by nothing they use. *)
Lemma gen_add tid rel k : keeps pr_generation (scst_pr_add_registrant tid rel k).
Proof. unfold scst_pr_add_registrant. keep. Qed.

Lemma gen_remove r : keeps pr_generation (scst_pr_remove_registrant r).
Proof. unfold scst_pr_remove_registrant, scst_pr_clear_holder, scst_pr_clear_reservation. keep. Qed.

Lemma gen_ua u r : keeps pr_generation (scst_pr_send_ua_reg u r).
Proof. unfold scst_pr_send_ua_reg. keep. Qed.
#[export] Hint Resolve gen_add gen_remove gen_ua : keeps.

Lemma gen_ua_all ex u : keeps pr_generation (scst_pr_send_ua_all ex u).
Proof. unfold scst_pr_send_ua_all. keep. Qed.

Lemma gen_abort r : keeps pr_generation (scst_pr_abort_reg r).
Proof. unfold scst_pr_abort_reg. keep. Qed.

Lemma gen_set_holder r s ty : keeps pr_generation (scst_pr_set_holder r s ty).
Proof. unfold scst_pr_set_holder. keep. Qed.

Lemma gen_rb_add r rb : keeps pr_generation (rb_add r rb).
Proof. unfold rb_add. keep. Qed.
#[export] Hint Resolve gen_ua_all gen_abort gen_set_holder gen_rb_add : keeps.

Lemma gen_unregister r : keeps pr_generation (scst_pr_unregister r).
Proof. unfold scst_pr_unregister. keep. Qed.
#[export] Hint Resolve gen_unregister : keeps.

Lemma gen_preempt_one ab self reg r : keeps pr_generation (preempt_one ab self reg r).
Proof. unfold preempt_one. keep. Qed.
#[export] Hint Resolve gen_preempt_one : keeps.

Lemma gen_spec_one tid rel k rb : keeps pr_generation (spec_one tid rel k rb).
Proof. unfold spec_one. keep. Qed.
#[export] Hint Resolve gen_spec_one : keeps.

Lemma gen_spec_wildcard l tid rel k : forall rb, keeps pr_generation (spec_wildcard l tid rel k rb).
Proof. induction l as [|t l IH]; intros rb; cbn [spec_wildcard]; keep. Qed.
#[export] Hint Resolve gen_spec_wildcard : keeps.

Lemma gen_spec_loop buf ext rel k fuel : forall off rb, keeps pr_generation (spec_loop fuel buf ext off rel k rb).
Proof. induction fuel as [|fuel IH]; intros off rb; cbn [spec_loop]; keep. Qed.
#[export] Hint Resolve gen_spec_loop : keeps.

Lemma gen_on_tgt_id tid rel buf bs spec rb : keeps pr_generation (scst_pr_register_on_tgt_id tid rel buf bs spec rb).
Proof. unfold scst_pr_register_on_tgt_id, scst_pr_register_with_spec_i_pt. keep. Qed.
#[export] Hint Resolve gen_on_tgt_id : keeps.

Lemma gen_on_all tid bs spec l : forall buf rb, keeps pr_generation (register_on_all l tid buf bs spec rb).
Proof. induction l as [|rel l IH]; intros buf rb; cbn [register_on_all]; keep. Qed.
#[export] Hint Resolve gen_on_all : keeps.

Lemma gen_do_register tgtts t buf bs spec all : keeps pr_generation (do_scst_pr_register tgtts t buf bs spec all).
Proof. unfold do_scst_pr_register, scst_pr_register_all_tg_pt, proto_of, commit_one, rollback_one. keep. Qed.

Lemma gen_unregister_or_set tgtts x r k all : keeps pr_generation (unregister_or_set tgtts x r k all).
Proof. unfold unregister_or_set, scst_pr_unregister_all_tg_pt, proto_of. keep. Qed.
#[export] Hint Resolve gen_do_register gen_unregister_or_set : keeps.

(** ** PRGENERATION *)

(** A computation that adds one to PRGENERATION when it ends with GOOD. *)
Definition counts (m : M status) : Prop := forall d s d', m d = Some (s, d') ->
  pr_generation d' = if bool_decide (s = SAM_STAT_GOOD) then u32 (pr_generation d + 1) else pr_generation d.

Lemma counts_bind {A} (m : M A) k : keeps pr_generation m -> (forall a, counts (k a)) -> counts (m ≫= k).
Proof.
  intros Hm Hk d s d'. unfold mbind, pt_bind. destruct (m d) as [[a d1]|] eqn:E; [|done]. intros E'. rewrite (Hk a _ _ _ E'). by rewrite (Hm _ _ _ E).
Qed.

Lemma counts_error s : s <> SAM_STAT_GOOD -> counts (mret s).
Proof. intros H d s' d' [= -> ->]. by rewrite bool_decide_eq_false_2. Qed.

Lemma counts_set b : counts (set_generation b;; mret SAM_STAT_GOOD).
Proof. intros d s d' [= <- <-]. done. Qed.

Lemma counts_next : counts (next_generation;; mret SAM_STAT_GOOD).
Proof. intros d s d' [= <- <-]. done. Qed.

Ltac count :=
  repeat first
    [ apply counts_set | apply counts_next | (apply counts_error; discriminate)
    | apply counts_bind; [solve [keep]|intros ?]
    | case_if
    | match goal with |- counts (match ?x with _ => _ end) => destruct x end ].

Lemma counts_action tgtts action t cdb2 buf bs : action <> PR_RESERVE -> action <> PR_RELEASE -> counts (pr_out_action tgtts action t cdb2 buf bs).
Proof.
  intros H1 H2. unfold pr_out_action. case_if; [unfold scst_pr_register; count|]. case_if; [done|]. case_if; [done|]. case_if; [unfold scst_pr_clear; count|].
  case_if; [unfold scst_pr_preempt, scst_pr_do_preempt; count|]. case_if; [unfold scst_pr_preempt_and_abort, scst_pr_do_preempt; count|].
  case_if; [unfold scst_pr_register_and_ignore; count|]. case_if; [unfold scst_pr_register_and_move; count|]. count.
Qed.

Lemma kept_reserve_release tgtts action t cdb2 buf bs : action = PR_RESERVE \/ action = PR_RELEASE ->
  keeps pr_generation (pr_out_action tgtts action t cdb2 buf bs).
Proof. intros [->| ->]; cbn; [unfold scst_pr_reserve|unfold scst_pr_release, scst_pr_clear_reservation]; keep. Qed.

(** PRGENERATION counts: a REGISTER, CLEAR, PREEMPT, PREEMPT AND ABORT, REGISTER
    AND IGNORE EXISTING KEY or REGISTER AND MOVE that ends with GOOD adds one
    modulo 2^32; RESERVE, RELEASE and every command that fails leave it. *)
Theorem pr_generation_counts tgtts action t cdb2 buf bs d s d' :
  pr_out_action tgtts action t cdb2 buf bs d = Some (s, d') ->
  pr_generation d' =
    if bool_decide (s = SAM_STAT_GOOD) && negb (action =? PR_RESERVE) && negb (action =? PR_RELEASE)
    then u32 (pr_generation d + 1) else pr_generation d.
Proof.
  intros E. destruct (Z.eqb_spec action PR_RESERVE) as [H1|H1]; [rewrite andb_false_r; cbn; eapply (kept_reserve_release tgtts action); eauto|].
  destruct (Z.eqb_spec action PR_RELEASE) as [H2|H2]; [rewrite andb_false_r; eapply (kept_reserve_release tgtts action); eauto|].
  rewrite (counts_action _ _ _ _ _ _ H1 H2 _ _ _ E), !andb_true_r. done.
Qed.

(** ** CLEAR *)

Lemma runs_keeps {A B} (f : pr_dev -> B) (m : M A) d Q : keeps f m -> runs m d Q -> runs m d (fun a d' => Q a d' /\ f d' = f d).
Proof. intros Hk (a & d' & E & H). exists a, d'. split; [done|]. split; [done|]. by eapply Hk. Qed.

Lemma ev_remove r : keeps events (scst_pr_remove_registrant r).
Proof. unfold scst_pr_remove_registrant, scst_pr_clear_holder, scst_pr_clear_reservation. keep. Qed.
#[export] Hint Resolve ev_remove : keeps.

(** CLEAR by a registrant with its key ends the reservation and all
    registrations: no tgt_dev has a registrant any more, every other registrant
    with a session gets the unit attention RESERVATIONS PREEMPTED, and
    PRGENERATION counts. *)
Theorem pr_clear_all d t x r buf :
  wf d -> assoc t (tgt_devs d) = Some x -> registrant x <> 0 -> assoc (registrant x) (registrants d) = Some r -> be64 buf 0 = Some (key r) ->
  exists d', scst_pr_clear t buf 24 d = Some (SAM_STAT_GOOD, d') /\ registrants d' = [] /\ pr_is_set d' = false /\ pr_holder d' = 0 /\
    (forall t' x', assoc t' (tgt_devs d') = Some x' -> registrant x' = 0) /\
    events d' = events d ++ uas reservation_preempted (registrant x) (registrants d) /\ pr_generation d' = u32 (pr_generation d + 1).
Proof.
  intros Hd Hx H0 Hr Hk.
  assert (H : runs (scst_pr_clear t buf 24) d (fun s d' => s = SAM_STAT_GOOD /\ wf d' /\ registrants d' = [] /\
    events d' = events d ++ uas reservation_preempted (registrant x) (registrants d) /\ pr_generation d' = u32 (pr_generation d + 1))).
  { unfold scst_pr_clear. apply runs_bind. eapply runs_lift; [exact Hk|]. cbn [Z.eqb Pos.eqb negb]. apply runs_bind. eapply runs_get_td; [exact Hx|].
    apply runs_bind. eapply runs_get_reg; [exact Hr|]. rewrite Z.eqb_refl. cbn [negb]. apply runs_bind. eapply runs_send_ua_all; [exact Hd|].
    apply runs_bind, runs_get, runs_bind. eapply runs_mono.
    - apply (runs_keeps (fun d => (events d, pr_generation d))); [|by apply (runs_remove_all _ _)].
      apply kept_for_each. intros a d1 u d2 E. by rewrite (ev_remove a _ _ _ E), (gen_remove a _ _ _ E).
    - intros u d' [[Hw E] [= Eev Egen]]. unfold next_generation. apply runs_bind, runs_upd, runs_ret. split_and!; try done. cbn. by rewrite Egen. }
  destruct H as (s & d' & E & -> & Hw & Hnil & Hev & Hg). exists d'. pose proof Hw as (_ & Ht & Hv). unfold resv_ok in Hv. rewrite Hnil in Hv.
  assert (Hset : pr_is_set d' = false) by (destruct (pr_is_set d'); [by destruct Hv as (_ & _ & ? & _)|done]). rewrite Hset in Hv.
  split_and!; try done; [apply Hv|]. intros t' x' Hx'. destruct (Z.eqb_spec (registrant x') 0) as [|Hne]; [done|].
  destruct (to_link _ _ _ _ Ht t' x' Hx' Hne) as (y & Hy & _). by rewrite Hnil in Hy.
Qed.

(** ** PREEMPT *)

(** The registrants without those that are preempted. *)
Definition without (own : Z) (gone : list Z) (regs : list (Z * registrant_t)) : list (Z * registrant_t) :=
  List.filter (fun p => (p.1 =? own) || negb (bool_decide (p.1 ∈ gone))) regs.

Definition preempt_uas (own : Z) (gone : list Z) (regs : list (Z * registrant_t)) : list pr_event :=
  concat (map (fun a => match assoc a regs with
                        | Some y => if (a =? own) || (tgt_dev y =? 0) then [] else [SetUA (tgt_dev y) registrations_preempted]
                        | None => [] end) gone).

Lemma without_nil own regs : without own [] regs = regs.
Proof.
  unfold without. induction regs as [|[a y] l IH]; cbn; [done|]. rewrite bool_decide_eq_false_2 by (by intros ?%elem_of_nil). rewrite orb_true_r. by f_equal.
Qed.

Lemma without_snoc own gone a regs : without own (gone ++ [a]) regs = if a =? own then without own gone regs else adel a (without own gone regs).
Proof.
  unfold without, adel. induction regs as [|[b y] l IH]; cbn; [by destruct (a =? own)|]. rewrite IH.
  destruct (Z.eqb_spec b own) as [->|Hb]; cbn; [destruct (Z.eqb_spec a own) as [->|]; cbn; [done|]; by replace (own =? a) with false by lia|].
  destruct (decide (b ∈ gone)).
  - rewrite !bool_decide_eq_true_2 by set_solver. cbn. by destruct (a =? own).
  - rewrite (bool_decide_eq_false_2 (b ∈ gone)) by done. cbn. destruct (Z.eqb_spec a own) as [->|Ha]; cbn.
    + rewrite bool_decide_eq_false_2 by set_solver. done.
    + destruct (Z.eqb_spec b a) as [->|]; cbn; [rewrite bool_decide_eq_true_2 by set_solver|rewrite bool_decide_eq_false_2 by set_solver]; done.
Qed.

Lemma assoc_without own gone regs a : a = own \/ a ∉ gone -> assoc a (without own gone regs) = assoc a regs.
Proof.
  intros Ha. unfold without. induction regs as [|[b y] l IH]; cbn; [done|]. destruct (Z.eqb_spec b a) as [->|Hb].
  - replace ((a =? own) || negb (bool_decide (a ∈ gone))) with true; [cbn; by rewrite Z.eqb_refl|]. symmetry.
    destruct Ha as [->|Ha]; [by rewrite Z.eqb_refl|]. rewrite bool_decide_eq_false_2 by done. by rewrite orb_true_r.
  - destruct (_ || _); cbn; [|done]. by replace (b =? a) with false by lia.
Qed.

Lemma without_key d own ak : NoDup (map fst (registrants d)) ->
  without own (scst_pr_find_registrants_list_key ak d) (registrants d) =
  List.filter (fun p => (p.1 =? own) || negb (key p.2 =? ak)) (registrants d).
Proof.
  intros Hn. unfold without. apply List.filter_ext_in. intros [a y] Hin%list_elem_of_In. cbn. f_equal. f_equal. apply elem_assoc in Hin as Hy; [|done].
  assert (Hin' : a ∈ scst_pr_find_registrants_list_key ak d <-> key y = ak).
  { unfold scst_pr_find_registrants_list_key. rewrite list_elem_of_fmap. split.
    - intros ([b z] & -> & Hz). rewrite list_elem_of_In, List.filter_In, <- list_elem_of_In in Hz. destruct Hz as [Hz Hk']. apply elem_assoc in Hz; [|done].
      cbn in *. assert (z = y) as -> by congruence. lia.
    - intros Hk'. exists (a, y). split; [done|]. rewrite list_elem_of_In, List.filter_In, <- list_elem_of_In. cbn. split; [done|lia]. }
  destruct (Z.eqb_spec (key y) ak); [rewrite bool_decide_eq_true_2 by tauto|rewrite bool_decide_eq_false_2 by tauto]; done.
Qed.

(** What the loop has done for a part of its list. *)
Record preempted (d : pr_dev) (own : Z) (gone : list Z) (d' : pr_dev) : Prop := {
  pe_wf : wf d';
  pe_regs : registrants d' = without own gone (registrants d);
  pe_events : events d' = events d ++ preempt_uas own gone (registrants d)
}.

Lemma runs_preempt_exact d own l : forall gone d', NoDup (gone ++ l) -> (forall a, a ∈ l -> is_Some (assoc a (registrants d))) -> preempted d own gone d' ->
  runs (for_each l (preempt_one false false own)) d' (fun _ d'' => preempted d own (gone ++ l) d'').
Proof.
  induction l as [|a l IH]; intros gone d' Hn Hl Hp; cbn [for_each]; [rewrite app_nil_r; by apply runs_ret|].
  destruct (Hl a) as [y Hy]; [by left|]. replace (gone ++ a :: l) with ((gone ++ [a]) ++ l) in * by (by rewrite <- app_assoc). destruct Hp as [Hw Er Ee].
  assert (Ha : a ∉ gone) by (apply NoDup_app in Hn as (Hn & _ & _); apply NoDup_app in Hn as (_ & Hn & _); intros H; apply (Hn a H); by left).
  assert (Hy' : assoc a (registrants d') = Some y) by (rewrite Er, assoc_without; auto).
  assert (Hpu : preempt_uas own (gone ++ [a]) (registrants d) = preempt_uas own gone (registrants d) ++ (if (a =? own) || (tgt_dev y =? 0) then [] else [SetUA (tgt_dev y) registrations_preempted])).
  { unfold preempt_uas. rewrite map_app, concat_app. cbn. by rewrite Hy, app_nil_r. }
  apply runs_bind. unfold preempt_one. apply runs_bind, runs_ret. cbn [orb]. destruct (Z.eqb_spec a own) as [->|Hne]; cbn [negb].
  - apply runs_bind, runs_ret, runs_ret. apply IH; [done|intros; apply Hl; by right|]. constructor; [done|by rewrite without_snoc, Z.eqb_refl|].
    rewrite Hpu. cbn [orb]. by rewrite app_nil_r.
  - apply runs_bind. eapply runs_send_ua_reg; [exact Hw|exact Hy'|]. eapply runs_remove; [exact Hw|exact Hy'|]. intros Hw'.
    apply IH; [done|intros; apply Hl; by right|]. destruct (rem_fields (d' <|events := events d' ++ (if tgt_dev y =? 0 then [] else [SetUA (tgt_dev y) registrations_preempted])|>) a y) as (R1 & _ & _ & _ & R5).
    constructor; [exact Hw'| |].
    + rewrite R1, without_snoc. replace (a =? own) with false by lia. cbn. by rewrite Er.
    + rewrite R5, Hpu. cbn. by rewrite Ee, app_assoc.
Qed.

(** C31: PREEMPT of the holder of a reservation of one registrant, by a registrant
    with its key: the holder and all others with the preempted key lose their
    registrations, in place and with a unit attention for those that have a
    session; the preempting registrant stays and holds a reservation of the new
    type; when the type changes the remaining registrants are told; PRGENERATION
    counts. *)
Theorem pr_preempt_holder d t x r h ak cdb2 buf :
  wf d -> assoc t (tgt_devs d) = Some x -> registrant x <> 0 -> assoc (registrant x) (registrants d) = Some r ->
  be64 buf 0 = Some (key r) -> be64 buf 8 = Some ak -> cdb_scope cdb2 = SCOPE_LU -> scst_pr_type_valid (cdb_type cdb2) = true ->
  pr_is_set d = true -> all_reg (pr_type d) = false -> assoc (pr_holder d) (registrants d) = Some h -> key h = ak ->
  exists d', scst_pr_preempt t cdb2 buf 24 d = Some (SAM_STAT_GOOD, d') /\
    registrants d' = List.filter (fun p => (p.1 =? registrant x) || negb (key p.2 =? ak)) (registrants d) /\
    pr_is_set d' = true /\ pr_type d' = cdb_type cdb2 /\ (all_reg (cdb_type cdb2) = false -> pr_holder d' = registrant x) /\
    events d' = events d ++ preempt_uas (registrant x) (scst_pr_find_registrants_list_key ak d) (registrants d) ++
      (if pr_type d =? cdb_type cdb2 then [] else uas reservation_released (registrant x) (registrants d')) /\
    pr_generation d' = u32 (pr_generation d + 1).
Proof.
  intros Hd Hx H0 Hr Hk Hak Hsc Hty Hs Ha Hh Ehk. set (pl := scst_pr_find_registrants_list_key ak d). set (own := registrant x) in *.
  destruct (find_key_ok d x Hd r Hr true ak) as (_ & Hn & Hl & _). fold pl in Hn, Hl.
  assert (Hfil : without own pl (registrants d) = List.filter (fun p => (p.1 =? own) || negb (key p.2 =? ak)) (registrants d)) by (apply without_key, Hd).
  assert (Hstart : preempted d own [] d).
  { constructor; [done|by rewrite without_nil|]. unfold preempt_uas. cbn. by rewrite app_nil_r. }
  pose proof (runs_preempt_exact d own pl [] d Hn Hl Hstart) as Hloop. cbn [app] in Hloop.
  apply (runs_keeps (fun d => pr_generation d)) in Hloop; [|apply kept_for_each; intros; apply gen_preempt_one].
  assert (H : runs (scst_pr_preempt t cdb2 buf 24) d (fun s d' => s = SAM_STAT_GOOD /\
    registrants d' = List.filter (fun p => (p.1 =? own) || negb (key p.2 =? ak)) (registrants d) /\
    pr_is_set d' = true /\ pr_type d' = cdb_type cdb2 /\ (all_reg (cdb_type cdb2) = false -> pr_holder d' = own) /\
    events d' = events d ++ preempt_uas own pl (registrants d) ++ (if pr_type d =? cdb_type cdb2 then [] else uas reservation_released own (registrants d')) /\
    pr_generation d' = u32 (pr_generation d + 1))).
  { unfold scst_pr_preempt, scst_pr_do_preempt. apply runs_bind, runs_get, runs_bind, runs_get. cbn [Z.eqb Pos.eqb negb].
    apply runs_bind. eapply runs_lift; [exact Hk|]. apply runs_bind. eapply runs_lift; [exact Hak|]. rewrite Hty, Hsc. cbn [negb].
    apply runs_bind. eapply runs_get_td; [exact Hx|]. apply runs_bind. eapply runs_get_reg; [exact Hr|]. rewrite Z.eqb_refl. cbn [negb].
    apply runs_bind, runs_get, runs_bind, runs_get. rewrite Hs, Ha. cbn [negb]. apply runs_bind, runs_get, runs_bind. eapply runs_get_reg; [exact Hh|].
    rewrite Ehk, Z.eqb_refl. cbn [negb]. apply runs_bind. eapply runs_mono; [exact Hloop|]. intros u d1 [[Hw Er Ee] Eg].
    apply runs_bind, runs_set_holder, runs_bind. fold own. set (d2 := held d1 own SCOPE_LU (cdb_type cdb2)).
    assert (Hown : is_Some (assoc own (registrants d1))) by (rewrite Er, assoc_without; eauto).
    pose proof (wfk_held _ d1 own (cdb_type cdb2) Hw Hty Hown) as Hw2. fold d2 in Hw2.
    assert (F : registrants d2 = registrants d1 /\ pr_is_set d2 = true /\ pr_type d2 = cdb_type cdb2 /\ (all_reg (cdb_type cdb2) = false -> pr_holder d2 = own) /\
      events d2 = events d1 /\ pr_generation d2 = pr_generation d1).
    { unfold d2, held. destruct (all_reg (cdb_type cdb2)); by split_and!. }
    destruct F as (F1 & F2 & F3 & F4 & F5 & F6).
    destruct Hd as (_ & _ & Hv). unfold resv_ok in Hv. rewrite Hs in Hv. destruct Hv as (_ & Hsc' & _). rewrite Hsc'. cbn [Z.eqb negb]. rewrite orb_false_r.
    unfold next_generation. destruct (pr_type d =? cdb_type cdb2) eqn:Eq; cbn [negb].
    - apply runs_ret, runs_bind, runs_upd, runs_ret. cbn. split_and!; try done; [by rewrite F1, Er|by rewrite F5, Ee, app_nil_r|by rewrite F6, Eg].
    - eapply runs_send_ua_all; [exact Hw2|]. apply runs_bind, runs_upd, runs_ret. cbn.
      split_and!; try done; [by rewrite F1, Er|by rewrite F5, Ee, <- app_assoc|by rewrite F6, Eg]. }
  destruct H as (s & d' & E & -> & H). by exists d'.
Qed.

(** ** A run

    Two initiator ports connect, register with the keys 17 and 34, and the first
    reserves the device. *)

Definition run_of {A} (m : M A) (d : pr_dev) : pr_dev := match m d with Some (_, d') => d' | None => d end.
Definition ex_tid (n : Z) : list Z := 0 :: repeat n 23.
Definition ex_parm (k ak flags : Z) : list Z := [0;0;0;0;0;0;0;k; 0;0;0;0;0;0;0;ak; 0;0;0;0;flags;0;0;0; 0;0;0;0].
Definition ex_out (action cdb2 t k ak : Z) : M (option status) :=
  scst_persistent_reserve_out_local [mkTgtt (Some (fun _ => 0)) [1]] false false t action cdb2 (ex_parm k ak 0) 24 SAM_STAT_GOOD.

Definition ex1 : pr_dev := run_of (tgt_dev_add 1 (Some (ex_tid 1)) 1) (pr_init []).
Definition ex2 : pr_dev := run_of (tgt_dev_list_add 1) ex1.
Definition ex3 : pr_dev := run_of (tgt_dev_add 2 (Some (ex_tid 2)) 1) ex2.
Definition ex4 : pr_dev := run_of (tgt_dev_list_add 2) ex3.
Definition ex5 : pr_dev := run_of (ex_out PR_REGISTER 0 1 0 17) ex4.
Definition ex6 : pr_dev := run_of (ex_out PR_REGISTER 0 2 0 34) ex5.
Definition ex7 : pr_dev := run_of (ex_out PR_RESERVE 3 1 17 0) ex6.

Lemma ex_tid_ok n : 0 <= n < 256 -> tid_ok (ex_tid n) /\ tid_full (ex_tid n).
Proof.
  intros H. split; [split|].
  - constructor; [lia|]. apply Forall_forall. intros x Hx%list_elem_of_In%repeat_spec. lia.
  - exists 24. split; [reflexivity|]. unfold ex_tid. cbn [length]. rewrite repeat_length. lia.
  - intros b [= <-]. discriminate.
Qed.

Lemma ex_buf_ok k ak : 0 <= k < 256 -> 0 <= ak < 256 -> parm_ok PR_REGISTER (ex_parm k ak 0) 24 /\ buf_ok (ex_parm k ak 0) 24.
Proof.
  intros Hk Hak. assert (buf_ok (ex_parm k ak 0) 24).
  { split_and!; [repeat (constructor; [lia|]); constructor|lia|cbn; lia|cbn; lia]. }
  split; [right; split; [done|]|done]. intros _ b [= <-]. done.
Qed.

Lemma ex_out_step action cdb2 t x k ak d : 0 <= k < 256 -> 0 <= ak < 256 -> wf d -> assoc t (tgt_devs d) = Some x ->
  pr_step [mkTgtt (Some (fun _ => 0)) [1]] d (run_of (ex_out action cdb2 t k ak) d).
Proof.
  intros Hk Hak Hd Hx. assert (Hp : parm_ok action (ex_parm k ak 0) 24) by (right; split; [by apply ex_buf_ok|]; intros _ b [= <-]; done).
  destruct (runs_out [mkTgtt (Some (fun _ => 0)) [1]] false false d t x action cdb2 (ex_parm k ak 0) 24 SAM_STAT_GOOD Hd Hx Hp) as (s & d' & E & _).
  eapply step_command; [exact Hx|exact Hp|]. unfold run_of, ex_out. rewrite E. reflexivity.
Qed.

Lemma ex4_reach : rtc (pr_step [mkTgtt (Some (fun _ => 0)) [1]]) (pr_init []) ex4.
Proof.
  eapply rtc_l; [eapply (step_add _ _ ex1 1 (Some (ex_tid 1)) 1 true); [reflexivity|done|intros ? [= <-]; by apply ex_tid_ok|reflexivity]|].
  eapply rtc_l; [apply (step_list_add _ _ ex2 1); [by eexists|reflexivity]|].
  eapply rtc_l; [eapply (step_add _ _ ex3 2 (Some (ex_tid 2)) 1 true); [reflexivity|done|intros ? [= <-]; by apply ex_tid_ok|reflexivity]|].
  eapply rtc_l; [apply (step_list_add _ _ ex4 2); [by eexists|reflexivity]|]. constructor.
Qed.

Lemma ex7_reach : rtc (pr_step [mkTgtt (Some (fun _ => 0)) [1]]) (pr_init []) ex7.
Proof.
  pose proof ex4_reach as H4. pose proof (reach_wf _ _ _ H4) as W4.
  assert (H5 : rtc (pr_step [mkTgtt (Some (fun _ => 0)) [1]]) (pr_init []) ex5) by (eapply rtc_r; [exact H4|by eapply ex_out_step]).
  assert (H6 : rtc (pr_step [mkTgtt (Some (fun _ => 0)) [1]]) (pr_init []) ex6) by (eapply rtc_r; [exact H5|eapply ex_out_step; [lia|lia|by eapply reach_wf|reflexivity]]).
  eapply rtc_r; [exact H6|]. eapply ex_out_step; [lia|lia|by eapply reach_wf|reflexivity].
Qed.

(** The initiator port without reservation is kept off, the other is not. *)
Example ex7_access : scst_pr_is_cmd_allowed 1 0 ex7 = true /\ scst_pr_is_cmd_allowed 2 0 ex7 = false /\ map (fun p => key p.2) (registrants ex7) = [17; 34].
Proof. vm_compute. done. Qed.

Lemma pr_invariant_witness : wf ex7 /\ pr_is_set ex7 = true.
Proof. split; [exact (pr_invariant _ _ _ ex7_reach)|reflexivity]. Defined.

Lemma pr_command_safe_witness : exists s d', ex_out PR_RESERVE 3 2 34 0 ex7 = Some (s, d') /\ registrants d' = registrants ex7.
Proof.
  destruct (pr_command_safe _ _ ex7 false false 2 (mkTd (Some (ex_tid 2)) 1 2) PR_RESERVE 3 (ex_parm 34 0 0) 24 SAM_STAT_GOOD ex7_reach) as (s & d' & E & H).
  - reflexivity.
  - right. split; [apply ex_buf_ok; lia|]. intros _ b [= <-]. done.
  - exists s, d'. split; [exact E|]. apply H. intros ->. vm_compute in E. congruence.
Defined.

Lemma ex6_wf : wf ex6.
Proof.
  pose proof ex4_reach as H4. pose proof (reach_wf _ _ _ H4) as W4.
  assert (H5 : rtc (pr_step [mkTgtt (Some (fun _ => 0)) [1]]) (pr_init []) ex5) by (eapply rtc_r; [exact H4|by eapply ex_out_step]).
  eapply (reach_wf [mkTgtt (Some (fun _ => 0)) [1]] []). eapply rtc_r; [exact H5|eapply ex_out_step; [lia|lia|by eapply reach_wf|reflexivity]].
Qed.

Lemma reserve_release_witness : exists d1, scst_pr_reserve 1 5 (ex_parm 17 0 0) 24 ex6 = Some (SAM_STAT_GOOD, d1) /\
  scst_pr_release 1 5 (ex_parm 17 0 0) 24 d1 = Some (SAM_STAT_GOOD, ex6 <|events := [SetUA 2 reservation_released]|>).
Proof.
  destruct (reserve_release ex6 1 (mkTd (Some (ex_tid 1)) 1 1) (mkReg (ex_tid 1) 1 17 1 0) 5 (ex_parm 17 0 0) ex6_wf) as (d1 & E1 & _ & E2); try reflexivity; [done|].
  exists d1. split; [exact E1|]. rewrite E2. vm_compute. reflexivity.
Defined.

Lemma pr_generation_counts_witness : pr_generation ex7 = 2.
Proof.
  pose proof (pr_generation_counts [] PR_RESERVE 1 3 (ex_parm 17 0 0) 24 ex6 SAM_STAT_GOOD ex7 ltac:(vm_compute; reflexivity)) as H. exact H.
Defined.

Lemma pr_clear_all_witness : exists d', scst_pr_clear 2 (ex_parm 34 0 0) 24 ex7 = Some (SAM_STAT_GOOD, d') /\ registrants d' = [] /\
  events d' = [SetUA 1 reservation_preempted].
Proof.
  destruct (pr_clear_all ex7 2 (mkTd (Some (ex_tid 2)) 1 2) (mkReg (ex_tid 2) 1 34 2 0) (ex_parm 34 0 0)) as (d' & E & H & _ & _ & _ & Hev & _); try reflexivity; [exact (reach_wf _ _ _ ex7_reach)|done|].
  exists d'. split; [exact E|]. split; [exact H|]. rewrite Hev. vm_compute. reflexivity.
Defined.

Lemma pr_preempt_holder_witness : exists d', scst_pr_preempt 2 1 (ex_parm 34 17 0) 24 ex7 = Some (SAM_STAT_GOOD, d') /\ pr_holder d' = 2 /\
  map fst (registrants d') = [2] /\ events d' = [SetUA 1 registrations_preempted].
Proof.
  destruct (pr_preempt_holder ex7 2 (mkTd (Some (ex_tid 2)) 1 2) (mkReg (ex_tid 2) 1 34 2 0) (mkReg (ex_tid 1) 1 17 1 0) 17 1 (ex_parm 34 17 0))
    as (d' & E & Hr & _ & _ & Hh & Hev & _); try reflexivity; [exact (reach_wf _ _ _ ex7_reach)|done|].
  exists d'. split; [exact E|]. split; [by apply Hh|]. rewrite Hev, Hr. split; vm_compute; reflexivity.
Defined.
