(* ===== verification/PresIn.v ===== *)
(** * Reading registrations and reservation

    Models the service actions of PERSISTENT RESERVE IN of
    [cg/scst/src/scst_pres.c] and their dispatch in [scst_targ.c].  The data
    buffer is a list of bytes; a write outside of it has no result. *)

From S2P Require Import Prelude PresTid Pres PresInv PresReg PresOut PresThms.

(** ** Writes *)

Definition put_at (buf : list Z) (off : Z) (bs : list Z) : option (list Z) :=
  if (0 <=? off) && (off + Z.of_nat (length bs) <=? Z.of_nat (length buf))
  then Some (take (Z.to_nat off) buf ++ bs ++ drop (Z.to_nat off + length bs) buf) else None.

(** Big-endian bytes of a number. *)
Fixpoint be_bytes (n : nat) (x : Z) : list Z :=
  match n with
  | O => []
  | S n => be_bytes n (x / 256) ++ [x mod 256]
  end.

Definition zeros (n : Z) : list Z := repeat 0 (Z.to_nat n).

(** ** READ KEYS *)

Fixpoint keys_loop (l : list (Z * registrant_t)) (buf : list Z) (offset size size_max : Z) : option (list Z * Z * Z) :=
  match l with
  | [] => Some (buf, offset, size)
  | (_, x) :: l =>
      if 8 <=? size_max - size then
        buf ← put_at buf (offset + 8 * 0) (be_bytes 8 (key x));
        keys_loop l buf (offset + 8) (size + 8) size_max
      else keys_loop l buf offset (size + 8) size_max
  end.

(** The buffer and the length of the response. *)
Definition scst_pr_read_keys (d : pr_dev) (buf : list Z) (buffer_size : Z) : option (list Z * Z) :=
  if buffer_size <? 8 then Some (buf, 0)
  else
    buf ← put_at buf 0 (be_bytes 4 (pr_generation d));
    r ← keys_loop (registrants d) buf 8 0 (buffer_size - 8);
    let '(buf, offset, size) := r in
    buf ← put_at buf 4 (be_bytes 4 size);
    Some (buf, offset).

(** ** READ RESERVATION *)

Definition scst_pr_read_reservation (d : pr_dev) (buf : list Z) (buffer_size : Z) : option (list Z * Z) :=
  if buffer_size <? 8 then Some (buf, 0)
  else
    b ← (if negb (pr_is_set d) then Some (be_bytes 4 (pr_generation d) ++ zeros 20)
         else
           k ← (if pr_holder d =? 0 then Some 0 else h ← assoc (pr_holder d) (registrants d); Some (key h));
           Some (be_bytes 4 (pr_generation d) ++ [0; 0; 0; 0x10] ++ be_bytes 8 k ++ zeros 5 ++
                 [Z.lor (Z.shiftl (pr_scope d) 4) (pr_type d)] ++ zeros 2));
    let size := if negb (pr_is_set d) then 8 else 24 in
    buf ← put_at buf 0 (zeros buffer_size);
    buf ← put_at buf 0 (take (Z.to_nat (Z.min size buffer_size)) b);
    Some (buf, size).

(** ** REPORT CAPABILITIES *)

Definition scst_pr_report_caps (d : pr_dev) (buf : list Z) (buffer_size : Z) : option (list Z * Z) :=
  if buffer_size <? 8 then Some (buf, 0)
  else
    let crh := 1 in
    let atp_c := 1 in
    let sip_c := 1 in
    let ptpl_c := 1 in
    buf ← put_at buf 0
      [0; 8; Z.lor (Z.lor (Z.lor (Z.shiftl crh 4) (Z.shiftl sip_c 3)) (Z.shiftl atp_c 2)) ptpl_c;
       Z.lor (Z.lor (Z.shiftl 1 7) (Z.shiftl 4 4)) (if pr_aptpl d then 1 else 0); 0xEA; 0x1];
    Some (buf, 8).

(** ** READ FULL STATUS *)

(** The record of a registrant. *)
Definition status_record (d : pr_dev) (r : Z) (x : registrant_t) (ts : Z) : list Z :=
  be_bytes 8 (key x) ++ zeros 4 ++
  (if pr_is_set d && scst_pr_is_holder r d then [1; Z.lor (Z.shiftl (pr_scope d) 4) (pr_type d)] else [0; 0]) ++
  zeros 4 ++ be_bytes 2 (rel_tgt_id x) ++ be_bytes 4 ts ++ take (Z.to_nat ts) (transport_id x).

Fixpoint status_loop (d : pr_dev) (l : list (Z * registrant_t)) (buf : list Z) (offset size size_max : Z) : option (list Z * Z * Z) :=
  match l with
  | [] => Some (buf, offset, size)
  | (r, x) :: l =>
      ts ← tid_size (transport_id x);
      let rec_len := 24 + ts in
      if rec_len <? size_max - size then
        if Z.of_nat (length (transport_id x)) <? ts then None
        else
          buf ← put_at buf offset (status_record d r x ts);
          status_loop d l buf (offset + rec_len) (size + rec_len) size_max
      else status_loop d l buf offset (size + rec_len) size_max
  end.

Definition scst_pr_read_full_status (d : pr_dev) (buf : list Z) (buffer_size : Z) : option (list Z * Z) :=
  if buffer_size <? 8 then Some (buf, 0)
  else
    buf ← put_at buf 0 (be_bytes 4 (pr_generation d));
    r ← status_loop d (registrants d) buf 8 0 (buffer_size - 8);
    let '(buf, offset, size) := r in
    buf ← put_at buf 4 (be_bytes 4 size);
    Some (buf, offset).

(** ** The command *)

(** The status with the buffer and the length of the response.  [scsi_dev]: a
    pass-through device; an aborted command ends without status. *)
Definition scst_persistent_reserve_in_local (d : pr_dev) (dev_reserved scsi_dev aborted : bool) (cdb1 : Z)
    (buf : list Z) (buffer_size : Z) (buf_status : status) : option (option status * list Z * Z) :=
  if negb (not_pr_supporting d =? 0) then Some (Some (CheckCondition invalid_opcode), buf, 0)
  else if dev_reserved then Some (Some SAM_STAT_RESERVATION_CONFLICT, buf, 0)
  else if scsi_dev then Some (Some (CheckCondition invalid_opcode), buf, 0)
  else if buffer_size <=? 0 then Some (Some buf_status, buf, 0)
  else if aborted then Some (None, buf, 0)
  else
    let action := Z.land cdb1 0x1f in
    let good r := '(buf, n) ← r; Some (Some SAM_STAT_GOOD, buf, n) in
    if action =? PR_READ_KEYS then good (scst_pr_read_keys d buf buffer_size)
    else if action =? PR_READ_RESERVATION then good (scst_pr_read_reservation d buf buffer_size)
    else if action =? PR_REPORT_CAPS then good (scst_pr_report_caps d buf buffer_size)
    else if action =? PR_READ_FULL_STATUS then good (scst_pr_read_full_status d buf buffer_size)
    else Some (Some (CheckCondition invalid_field_in_cdb), buf, 0).

(** ** What is reported *)

Lemma length_be n x : length (be_bytes n x) = n.
Proof. revert x. induction n as [|n IH]; intros x; cbn; [done|]. rewrite length_app, IH. cbn. lia. Qed.

Lemma put_at_app A B bs : (length bs <= length B)%nat -> put_at (A ++ B) (Z.of_nat (length A)) bs = Some (A ++ bs ++ drop (length bs) B).
Proof.
  intros H. unfold put_at. rewrite length_app. replace ((0 <=? Z.of_nat (length A)) && _) with true by lia. rewrite Nat2Z.id.
  rewrite take_app_length. f_equal. f_equal. f_equal. rewrite <- drop_drop, drop_app_length. done.
Qed.

Lemma put_at_start B bs : (length bs <= length B)%nat -> put_at B 0 bs = Some (bs ++ drop (length bs) B).
Proof. exact (put_at_app [] B bs). Qed.

(** As many records as fit in the room, from the first on. *)
Fixpoint whole (fits : Z -> Z -> bool) (recs : list (list Z)) (room : Z) : list Z :=
  match recs with
  | [] => []
  | r :: recs => if fits (Z.of_nat (length r)) room then r ++ whole fits recs (room - Z.of_nat (length r)) else []
  end.

Definition key_records (regs : list (Z * registrant_t)) : list (list Z) := map (fun p => be_bytes 8 (key p.2)) regs.

Lemma keys_loop_skip l : forall buf off size max, max - size < 8 -> keys_loop l buf off size max = Some (buf, off, size + 8 * Z.of_nat (length l)).
Proof.
  induction l as [|[r x] l IH]; intros buf off size max H; cbn [keys_loop length]; [do 2 f_equal; lia|].
  replace (8 <=? max - size) with false by lia. rewrite IH by lia. do 2 f_equal. lia.
Qed.

Lemma keys_loop_spec l : forall A B size max, max - size = Z.of_nat (length B) ->
  let W := whole Z.leb (key_records l) (max - size) in
  (length W <= length B)%nat /\
  keys_loop l (A ++ B) (Z.of_nat (length A)) size max = Some (A ++ W ++ drop (length W) B, Z.of_nat (length A + length W), size + 8 * Z.of_nat (length l)).
Proof.
  induction l as [|[r x] l IH]; intros A B size max HB.
  { cbn. split; [lia|]. rewrite Nat.add_0_r. do 2 f_equal. lia. }
  cbn [key_records map whole keys_loop snd]. rewrite length_be. change (Z.of_nat 8) with 8. destruct (Z.leb_spec 8 (max - size)) as [H8|H8].
  - rewrite Z.add_0_r, put_at_app by (rewrite length_be; lia). cbn [mbind option_bind]. rewrite length_be.
    destruct (IH (A ++ be_bytes 8 (key x)) (drop 8 B) (size + 8) max) as [Hl E]; [rewrite length_drop; lia|].
    change (map (fun p : Z * registrant_t => be_bytes 8 (key p.2)) l) with (key_records l). cbn zeta.
    replace (max - (size + 8)) with (max - size - 8) in Hl, E by lia. set (W := whole Z.leb (key_records l) (max - size - 8)) in *.
    rewrite length_drop in Hl. rewrite !length_app, length_be in E |- *. split; [lia|].
    rewrite <- app_assoc in E. replace (Z.of_nat (length A) + 8) with (Z.of_nat (length A + 8)) by lia. rewrite E, drop_drop, <- !app_assoc.
    replace (length A + 8 + length W)%nat with (length A + (8 + length W))%nat by lia. do 2 f_equal. cbn [length]. lia.
  - cbn [length]. split; [lia|]. rewrite keys_loop_skip by lia. cbn [app drop]. rewrite Nat.add_0_r. do 2 f_equal. lia.
Qed.

Definition status_records (d : pr_dev) (regs : list (Z * registrant_t)) : list (list Z) :=
  map (fun p => status_record d p.1 p.2 (match tid_size (transport_id p.2) with Some n => n | None => 0 end)) regs.

Definition total_size (recs : list (list Z)) : Z := Z.of_nat (length (concat recs)).

Lemma length_record d r x ts : tid_size (transport_id x) = Some ts -> tid_ok (transport_id x) -> Z.of_nat (length (status_record d r x ts)) = 24 + ts.
Proof.
  intros E [Hf (n & En & Hl)]. assert (n = ts) as -> by congruence. pose proof (tid_size_pos _ _ Hf E). unfold status_record, zeros.
  rewrite !length_app, !length_be, !repeat_length, length_take. destruct (_ && _); cbn [length]; lia.
Qed.

Lemma total_cons d r x l n : tid_size (transport_id x) = Some n -> tid_ok (transport_id x) ->
  total_size (status_records d ((r, x) :: l)) = 24 + n + total_size (status_records d l).
Proof.
  intros En Hok. unfold total_size, status_records. cbn [map concat fst snd]. rewrite En, length_app. pose proof (length_record d r x n En Hok). lia.
Qed.

Lemma status_loop_skip d l : (forall p, p ∈ l -> tid_ok (transport_id p.2)) -> forall buf off size max, max - size <= 0 ->
  status_loop d l buf off size max = Some (buf, off, size + total_size (status_records d l)).
Proof.
  induction l as [|[r x] l IH]; intros Ht buf off size max H; cbn [status_loop]; [do 2 f_equal; unfold total_size; cbn; lia|].
  pose proof (Ht (r, x) ltac:(by left)) as Hok. cbn [snd] in Hok. pose proof Hok as [Hf (n & En & Hl)].
  rewrite En. cbn [mbind option_bind]. pose proof (tid_size_pos _ _ Hf En).
  replace (24 + n <? max - size) with false by lia. rewrite IH by (intros; (apply Ht; by right) || lia).
  rewrite (total_cons d r x l n) by done. do 2 f_equal. lia.
Qed.

Lemma status_loop_spec d l : (forall p, p ∈ l -> tid_ok (transport_id p.2)) -> forall A B size max, max - size = Z.of_nat (length B) ->
  let W := whole Z.ltb (status_records d l) (max - size) in
  (length W <= length B)%nat /\
  status_loop d l (A ++ B) (Z.of_nat (length A)) size max =
    Some (A ++ W ++ drop (length W) B, Z.of_nat (length A + length W), size + total_size (status_records d l)).
Proof.
  induction l as [|[r x] l IH]; intros Ht A B size max HB.
  { cbn. split; [lia|]. rewrite Nat.add_0_r. do 2 f_equal. unfold total_size. cbn. lia. }
  pose proof (Ht (r, x) ltac:(by left)) as Hok. cbn [snd] in Hok. pose proof Hok as [Hf (n & En & Hl)]. pose proof (tid_size_pos _ _ Hf En) as Hn.
  pose proof (length_record d r x n En Hok) as Hrec. rewrite (total_cons d r x l n) by done. cbn [status_records map whole status_loop fst snd]. rewrite En. cbn [mbind option_bind]. rewrite Hrec.
  change (map _ l) with (status_records d l). destruct (Z.ltb_spec (24 + n) (max - size)) as [H8|H8].
  - replace (Z.of_nat (length (transport_id x)) <? n) with false by lia. rewrite put_at_app by lia. cbn [mbind option_bind].
    destruct (IH ltac:(intros; apply Ht; by right) (A ++ status_record d r x n) (drop (length (status_record d r x n)) B) (size + (24 + n)) max) as [HW E];
      [rewrite length_drop; lia|]. cbn zeta.
    replace (max - (size + (24 + n))) with (max - size - (24 + n)) in HW, E by lia. set (W := whole Z.ltb (status_records d l) (max - size - (24 + n))) in *.
    rewrite length_drop in HW. rewrite !length_app in E |- *. split; [lia|].
    rewrite <- app_assoc in E. replace (Z.of_nat (length A) + (24 + n)) with (Z.of_nat (length A + length (status_record d r x n))) by lia.
    rewrite E, drop_drop, <- !app_assoc.
    replace (length A + length (status_record d r x n) + length W)%nat with (length A + (length (status_record d r x n) + length W))%nat by lia.
    do 2 f_equal. lia.
  - cbn [length]. split; [lia|]. rewrite status_loop_skip; [|intros; apply Ht; by right|lia]. cbn [app drop]. rewrite Nat.add_0_r. do 2 f_equal. lia.
Qed.

(** The header is written in two parts, around the loop. *)
Lemma header_split buf g : 8 <= Z.of_nat (length buf) -> exists m, put_at buf 0 (be_bytes 4 g) = Some ((be_bytes 4 g ++ m) ++ drop 8 buf) /\ length m = 4%nat.
Proof.
  intros H. exists (take 4 (drop 4 buf)). rewrite put_at_start by (rewrite length_be; lia). rewrite length_be. split.
  - f_equal. rewrite <- app_assoc. f_equal. rewrite <- (take_drop 4 (drop 4 buf)) at 1. by rewrite drop_drop.
  - rewrite length_take, length_drop. lia.
Qed.

Lemma header_size g m R n : length m = 4%nat -> put_at ((be_bytes 4 g ++ m) ++ R) 4 (be_bytes 4 n) = Some (be_bytes 4 g ++ be_bytes 4 n ++ R).
Proof.
  intros Hm. rewrite <- app_assoc. change 4 with (Z.of_nat 4) at 1. rewrite <- (length_be 4 g) at 1. rewrite put_at_app by (rewrite length_be, length_app; lia).
  do 2 f_equal. rewrite length_be. f_equal. by rewrite drop_app_le, drop_ge by lia.
Qed.

(** C33: READ KEYS and READ FULL STATUS never write outside the buffer: they leave
    PRGENERATION, the length of everything there is to report, and whole records of
    the registrants, in order and from the first on, and do not touch what is behind
    them.  READ KEYS gives as many records as fit, READ FULL STATUS as many as leave
    at least one byte free: one that fits exactly is left out. *)
Theorem pr_in_reports d buf bs : wf d -> Z.of_nat (length buf) = bs -> 8 <= bs ->
  let keys := whole Z.leb (key_records (registrants d)) (bs - 8) in
  let full := whole Z.ltb (status_records d (registrants d)) (bs - 8) in
  scst_pr_read_keys d buf bs =
    Some (be_bytes 4 (pr_generation d) ++ be_bytes 4 (8 * Z.of_nat (length (registrants d))) ++ keys ++ drop (8 + length keys) buf,
          8 + Z.of_nat (length keys)) /\
  scst_pr_read_full_status d buf bs =
    Some (be_bytes 4 (pr_generation d) ++ be_bytes 4 (total_size (status_records d (registrants d))) ++ full ++ drop (8 + length full) buf,
          8 + Z.of_nat (length full)).
Proof.
  intros Hd Hl H8 keys full. destruct (header_split buf (pr_generation d)) as (m & Em & Hm); [lia|].
  assert (HA : length (be_bytes 4 (pr_generation d) ++ m) = 8%nat) by (rewrite length_app, length_be; lia).
  unfold scst_pr_read_keys, scst_pr_read_full_status. replace (bs <? 8) with false by lia. rewrite Em. cbn [mbind option_bind]. split.
  - destruct (keys_loop_spec (registrants d) (be_bytes 4 (pr_generation d) ++ m) (drop 8 buf) 0 (bs - 8)) as [Hle E]; [rewrite length_drop; lia|].
    rewrite HA, Z.sub_0_r in *. change (Z.of_nat 8) with 8 in E. fold keys in E, Hle. rewrite E. cbn [mbind option_bind].
    rewrite header_size by done. cbn [mbind option_bind]. rewrite drop_drop. do 2 f_equal. lia.
  - destruct (status_loop_spec d (registrants d)) with (A := be_bytes 4 (pr_generation d) ++ m) (B := drop 8 buf) (size := 0) (max := bs - 8) as [Hle E].
    { intros [a x] Hx. apply elem_assoc in Hx; [|apply Hd]. by eapply (ro_tid _ _ _ _ (proj1 Hd)). }
    { rewrite length_drop. lia. }
    rewrite HA, Z.sub_0_r in *. change (Z.of_nat 8) with 8 in E. fold full in E, Hle. rewrite E. cbn [mbind option_bind].
    rewrite header_size by done. cbn [mbind option_bind]. rewrite drop_drop. do 2 f_equal. lia.
Qed.

Lemma pr_in_reports_witness :
  scst_pr_read_keys ex7 (repeat 255 20) 20 = Some ([0;0;0;2; 0;0;0;16; 0;0;0;0;0;0;0;17; 255;255;255;255], 16).
Proof.
  destruct (pr_in_reports ex7 (repeat 255 20) 20) as [E _]; [exact (reach_wf _ _ _ ex7_reach)|reflexivity|lia|].
  rewrite E. vm_compute. reflexivity.
Defined.
