(* ===== verification/PresEx.v ===== *)
(** * Behaviours that were not meant

    Runs of the model that show where the code does not do what it should. *)

From S2P Require Import Prelude PresTid Pres PresInv PresReg PresOut PresThms PresIn.

(** The size of the list of transport ids is added to 28 modulo 2^32: with
    0xfffffff0 the sum is 12, the check passes, and the loop reads (and writes)
    behind the parameter list of 28 bytes. *)
Definition overflow_parm (behind : list Z) : list Z :=
  [0;0;0;0;0;0;0;0; 0;0;0;0;0;0;0;17; 0;0;0;0;8;0;0;0; 255;255;255;240] ++ behind.

Example spec_i_pt_overflow : scst_pr_register [] 1 (overflow_parm []) 28 ex4 = None.
Proof. vm_compute. reflexivity. Qed.

(** The first round of the loop takes what is behind the list for an iSCSI name and
    sets its last byte to zero. *)
Example spec_i_pt_corrupts :
  tid_size (tid_at (overflow_parm [5;0;0;4;101;102;103;104]) 28) = Some 8 /\
  tid_secure (overflow_parm [5;0;0;4;101;102;103;104]) 28 = Some (overflow_parm [5;0;0;4;101;102;103;0]).
Proof. split; vm_compute; reflexivity. Qed.

(** A record that fits the buffer exactly is left out of READ FULL STATUS, a key that
    fits exactly is not left out of READ KEYS. *)
Example full_status_exact_fit :
  option_map snd (scst_pr_read_full_status ex5 (repeat 0 56) 56) = Some 8 /\
  option_map snd (scst_pr_read_full_status ex5 (repeat 0 57) 57) = Some 56 /\
  option_map snd (scst_pr_read_keys ex5 (repeat 0 16) 16) = Some 16.
Proof. split_and!; vm_compute; reflexivity. Qed.

(** With a reservation READ RESERVATION answers 24 bytes, whatever the size of the
    buffer. *)
Example read_reservation_too_long : option_map snd (scst_pr_read_reservation ex7 (repeat 0 8) 8) = Some 24.
Proof. vm_compute. reflexivity. Qed.

(** A holder that preempts itself to a reservation of all registrants is still
    reported as the holder: READ RESERVATION has its key and not zero. *)
Definition ex_self : pr_dev := run_of (ex_out PR_PREEMPT 7 1 17 17) ex7.

Example self_preempt_keeps_holder :
  pr_type ex_self = TYPE_WRITE_EXCLUSIVE_ALL_REG /\ pr_holder ex_self = 1 /\
  option_map (fun r => take 16 r.1) (scst_pr_read_reservation ex_self (repeat 0 24) 24) = Some [0;0;0;3; 0;0;0;16; 0;0;0;0;0;0;0;17].
Proof. split_and!; vm_compute; reflexivity. Qed.

(** An iSCSI name without session identifier is registered for an initiator that
    has no session yet.  Its first session gets that registrant; the second one
    registers with status GOOD and is not registered. *)
Definition name_tid : list Z := [5;0;0;4; 101;0;0;0].
Definition port_tid (isid : Z) : list Z := [69;0;0;8; 101;44;105;44;48;isid;0;0].
Definition ex_name : pr_dev :=
  run_of (scst_pr_add_registrant (Some name_tid) 1 17;; tgt_dev_add 1 (Some (port_tid 49)) 1;; tgt_dev_list_add 1;;
          tgt_dev_add 2 (Some (port_tid 50)) 1;; tgt_dev_list_add 2) (pr_init []).
Definition ex_name' : pr_dev := run_of (ex_out PR_REGISTER 0 2 0 34) ex_name.

Example second_session_not_registered :
  option_map fst (ex_out PR_REGISTER 0 2 0 34 ex_name) = Some (Some SAM_STAT_GOOD) /\
  map (fun p => (p.1, registrant p.2)) (tgt_devs ex_name') = [(1, 1); (2, 0)] /\
  map (fun p => key p.2) (registrants ex_name') = [17] /\ pr_generation ex_name' = 1.
Proof. split_and!; vm_compute; reflexivity. Qed.
