(* ===== verification/PresFile.v ===== *)
(** * The files of the reservations

    Models how [cg/scst/src/scst_pres.c] saves registrations and reservation of a
    device that asks for it (APTPL) and loads them when the device comes back:
    [scst_pr_sync_device_file], [scst_pr_remove_device_files],
    [scst_pr_do_load_device_file], [scst_pr_load_device_file] and
    [scst_pr_init_dev], with [scst_copy_file] of [scst_lib.c].

    There are two files, the second one a copy of what the first one was.  A save
    is a sequence of operations on them, which may stop after any byte when power
    is lost; what was written before reaches the disk first.  What the file system
    answers, that a file can not be opened or that a write or [fsync] fails, is an
    argument of the save.  The files are
    regular ones and numbers are stored as a little-endian machine has them. *)

From S2P Require Import Prelude PresTid Pres PresInv PresReg PresOut PresThms PresIn.

Definition SCST_PR_FILE_SIGN : Z := 0xBBEEEEAAEEBBDD77.
Definition SCST_PR_FILE_VERSION : Z := 1.

Definition ENOENT : Z := 2.
Definition ENOMEM : Z := 12.
Definition EINVAL : Z := 22.

Fixpoint le_bytes (n : nat) (x : Z) : list Z :=
  match n with
  | O => []
  | S n => x mod 256 :: le_bytes n (x / 256)
  end.

Fixpoint le_get (n : nat) (b : list Z) (i : Z) : option Z :=
  match n with
  | O => Some 0
  | S n => x ← at_ b i; y ← le_get n b (i + 1); Some (x + 256 * y)
  end.

(** ** The files and what is done to them *)

Record fs : Type := mkFs { pr_file_name : option (list Z); pr_file_name1 : option (list Z) }.

(** Which of the two. *)
Inductive which : Type := Primary | Backup.

Inductive fop : Type :=
| Trunc (w : which)
| Write (w : which) (pos : nat) (b : list Z)
| Unlink (w : which).

Definition get_file (w : which) (f : fs) : option (list Z) :=
  match w with Primary => pr_file_name f | Backup => pr_file_name1 f end.
Definition set_file (w : which) (c : option (list Z)) (f : fs) : fs :=
  match w with Primary => mkFs c (pr_file_name1 f) | Backup => mkFs (pr_file_name f) c end.

(** Bytes over the content from a position on that is not behind its end. *)
Definition write_bytes (c : list Z) (pos : nat) (b : list Z) : list Z := take pos c ++ b ++ drop (pos + length b) c.

Definition do_op (f : fs) (o : fop) : fs :=
  match o with
  | Trunc w => set_file w (Some []) f
  | Write w pos b => set_file w (Some (write_bytes (default [] (get_file w f)) pos b)) f
  | Unlink w => set_file w None f
  end.

(** The first [n] bytes of an operation. *)
Definition part_of (n : nat) (o : fop) : list fop :=
  match o with Write w pos b => [Write w pos (take n b)] | _ => [] end.

Definition do_ops (f : fs) (l : list fop) : fs := fold_left do_op l f.

(** ** Saving *)

(** [vfs_write] one behind the other. *)
Fixpoint writes (w : which) (pos : nat) (l : list (list Z)) : list fop :=
  match l with
  | [] => []
  | b :: l => Write w pos b :: writes w (pos + length b) l
  end.

Definition byte_of_bool (b : bool) : Z := if b then 1 else 0.

Definition tid_bytes (x : registrant_t) : list Z :=
  take (Z.to_nat (default 0 (tid_size (transport_id x)))) (transport_id x).

(** The fields of the header behind the signature, and the records. *)
Definition header_fields (d : pr_dev) : list (list Z) :=
  [le_bytes 8 SCST_PR_FILE_VERSION; [byte_of_bool (pr_aptpl d)]; [byte_of_bool (pr_is_set d)]; [pr_type d]; [pr_scope d]].

Definition reg_fields (d : pr_dev) (p : Z * registrant_t) : list (list Z) :=
  [[byte_of_bool (pr_holder d =? p.1)]; tid_bytes p.2; be_bytes 8 (key p.2); le_bytes 2 (rel_tgt_id p.2)].

(** What becomes of the copy: it is made, one of the files can not be opened, or the
    backup has only the first [m] bytes. *)
Inductive copy_io : Type := CopyDone | CopyNotOpened | CopyCut (m : nat).

(** [scst_copy_file(pr_file_name, pr_file_name1)]. *)
Definition scst_copy_file (io : copy_io) (f : fs) : list fop :=
  match pr_file_name f, io with
  | None, _ | _, CopyNotOpened => []
  | Some c, CopyDone => [Trunc Backup; Write Backup 0 c]
  | Some c, CopyCut m => [Trunc Backup; Write Backup 0 (take m c)]
  end.

(** The signature is 0 until everything else is on the disk. *)
Definition save_ops (d : pr_dev) : list fop :=
  Trunc Primary :: writes Primary 0 (le_bytes 8 0 :: header_fields d ++ concat (map (reg_fields d) (registrants d))) ++
  [Write Primary 0 (le_bytes 8 SCST_PR_FILE_SIGN)].

Definition scst_pr_remove_device_files : list fop := [Unlink Primary; Unlink Backup].

(** The error path: an operation fails after [n] of them, when [m] bytes of it are
    written (an [fsync] writes none), and the file is removed. *)
Definition failed_save (n m : nat) (d : pr_dev) : list fop :=
  take n (save_ops d) ++ concat (map (part_of m) (take 1 (drop n (save_ops d)))) ++ [Unlink Primary].

(** What becomes of the save. *)
Inductive save_io : Type := SaveDone | SaveNotOpened | SaveFailed (n m : nat).

(** The operations of [scst_pr_sync_device_file].  Its errors are only logged: the
    status of the command stays GOOD. *)
Definition scst_pr_sync_device_file (copy : copy_io) (io : save_io) (d : pr_dev) (f : fs) : list fop :=
  if negb (pr_aptpl d) || list_empty d then scst_pr_remove_device_files
  else scst_copy_file copy f ++
       match io with
       | SaveDone => save_ops d
       | SaveNotOpened => []
       | SaveFailed n m => failed_save n m d
       end.

(** The whole command: after an action that ends with GOOD the files are saved, before
    the lock is given back. *)
Definition scst_persistent_reserve_out_files (tgtts : list tgt_template) (dev_reserved aborted : bool)
    (t cdb1 cdb2 : Z) (buf : list Z) (buffer_size : Z) (buf_status : status) (copy : copy_io) (io : save_io)
    (d : pr_dev) (f : fs) : option (option status * pr_dev * fs) :=
  '(s, d') ← scst_persistent_reserve_out_local tgtts dev_reserved aborted t cdb1 cdb2 buf buffer_size buf_status d;
  Some (s, d', if (0 <? buffer_size) && bool_decide (s = Some SAM_STAT_GOOD)
               then do_ops f (scst_pr_sync_device_file copy io d' f) else f).

(** ** Loading *)

(** Whether the sizes of the records fit the file.  A record has fifteen bytes at
    least, so the length of the file is enough fuel. *)
Fixpoint check_loop (fuel : nat) (buf : list Z) (data_size file_size : Z) : option bool :=
  match fuel with
  | O => None
  | S fuel =>
      if data_size <? file_size then
        n ← tid_size (tid_at buf (data_size + 1));
        let data_size := data_size + 1 + n + 8 + 2 in
        if file_size <? data_size then Some false else check_loop fuel buf data_size file_size
      else Some true
  end.

Fixpoint load_loop (fuel : nat) (buf : list Z) (pos file_size : Z) : M Z :=
  match fuel with
  | O => stuck
  | S fuel =>
      if pos <? file_size then
        is_holder ← byte_at buf pos;
        let tid := tid_at buf (pos + 1) in
        n ← lift (tid_size tid);
        k ← be64_at buf (pos + 1 + n);
        rel ← lift (le_get 2 buf (pos + 1 + n + 8));
        reg ← scst_pr_add_registrant (Some tid) rel k;
        if reg =? 0 then mret (- ENOMEM)
        else
          (if negb (is_holder =? 0) then upd (fun d => d <|pr_holder := reg|>) else mret tt);;
          load_loop fuel buf (pos + 1 + n + 8 + 2) file_size
      else mret 0
  end.

Definition scst_pr_do_load_device_file (file : option (list Z)) : M Z :=
  match file with
  | None => mret (- ENOENT)
  | Some buf =>
      let file_size := Z.of_nat (length buf) in
      if (file_size =? 0) || (15 * 1024 * 1024 <=? file_size) then mret (- EINVAL)
      else
        ok ← kalloc;
        if negb ok then mret (- ENOMEM)
        else if file_size <? 20 then mret (- EINVAL)
        else
          sign ← lift (le_get 8 buf 0);
          if negb (sign =? SCST_PR_FILE_SIGN) then mret (- EINVAL)
          else
            version ← lift (le_get 8 buf 8);
            if negb (version =? SCST_PR_FILE_VERSION) then mret (- EINVAL)
            else
              fit ← lift (check_loop (S (length buf)) buf 20 file_size);
              if negb fit then mret (- EINVAL)
              else
                aptpl ← byte_at buf 16;
                set ← byte_at buf 17;
                type ← byte_at buf 18;
                scope ← byte_at buf 19;
                upd (fun d => d <|pr_aptpl := negb (aptpl =? 0)|> <|pr_is_set := negb (set =? 0)|> <|pr_type := type|> <|pr_scope := scope|>);;
                load_loop (S (length buf)) buf 20 file_size
  end.

Definition scst_pr_load_device_file (f : fs) : M Z :=
  res ← scst_pr_do_load_device_file (pr_file_name f);
  if (res =? 0) || (res =? - ENOMEM) then mret res
  else scst_pr_do_load_device_file (pr_file_name1 f).

(** [path]: what [scst_pr_check_pr_path] answers. *)
Definition scst_pr_init_dev (path : Z) (f : fs) : M Z :=
  ok ← kalloc;
  if negb ok then mret (- ENOMEM)
  else
    ok ← kalloc;
    if negb ok then mret (- ENOMEM)
    else if negb (path =? 0) then mret path
    else
      res ← scst_pr_load_device_file f;
      mret (if res =? - ENOENT then 0 else res).
