(* ===== verification/PresDisk.v ===== *)
(** * What is saved is loaded, also after a loss of power

    The image of a device on disk and what loading makes of it; a save that stops
    after any byte leaves the old or the new reservations. *)

From S2P Require Import Prelude PresTid Pres PresInv PresReg PresOut PresThms PresIn PresFile.

(** ** Numbers *)

Lemma at_app_r A B i : 0 <= i -> at_ (A ++ B) (Z.of_nat (length A) + i) = at_ B i.
Proof.
  intros Hi. unfold at_. replace (_ + i <? 0) with false by lia. replace (i <? 0) with false by lia.
  rewrite lookup_app_r by lia. f_equal. lia.
Qed.

Lemma at_app_l A B i : i < Z.of_nat (length A) -> at_ (A ++ B) i = at_ A i.
Proof. intros Hi. unfold at_. destruct (Z.ltb_spec i 0); [done|]. apply lookup_app_l. lia. Qed.

Lemma tid_at_app A B i : 0 <= i -> tid_at (A ++ B) (Z.of_nat (length A) + i) = tid_at B i.
Proof. intros Hi. unfold tid_at. rewrite Z2Nat.inj_add, Nat2Z.id by lia. rewrite <- drop_drop, drop_app_length. done. Qed.

Lemma le_get_app n : forall A B i, 0 <= i -> le_get n (A ++ B) (Z.of_nat (length A) + i) = le_get n B i.
Proof.
  induction n as [|n IH]; intros A B i Hi; cbn [le_get]; [done|]. rewrite at_app_r by done. destruct (at_ B i); [|done]. cbn [mbind option_bind].
  rewrite <- Z.add_assoc, IH by lia. done.
Qed.

Lemma le_get_bytes n : forall x B, 0 <= x < 256 ^ Z.of_nat n -> le_get n (le_bytes n x ++ B) 0 = Some x.
Proof.
  induction n as [|n IH]; intros x B H; [cbn in *; f_equal; lia|]. cbn [le_get le_bytes app].
  change (at_ (x mod 256 :: le_bytes n (x / 256) ++ B) 0) with (Some (x mod 256)). cbn [mbind option_bind].
  change (x mod 256 :: le_bytes n (x / 256) ++ B) with ([x mod 256] ++ (le_bytes n (x / 256) ++ B)). change (0 + 1) with (Z.of_nat (length [x mod 256]) + 0).
  rewrite le_get_app by lia. rewrite IH; [cbn; f_equal; pose proof (Z.div_mod x 256); lia|].
  rewrite Nat2Z.inj_succ, Z.pow_succ_r in H by lia. pose proof (Z.div_mod x 256). pose proof (Z.mod_pos_bound x 256). nia.
Qed.

Lemma length_le n x : length (le_bytes n x) = n.
Proof. revert x. induction n as [|n IH]; intros x; cbn; [done|]. by rewrite IH. Qed.

Lemma be64_app A B i : 0 <= i -> be64 (A ++ B) (Z.of_nat (length A) + i) = be64 B i.
Proof. intros Hi. unfold be64, be32, be16. rewrite <- !Z.add_assoc, !at_app_r by lia. done. Qed.

Lemma be64_list a b c d e f g h B : be64 (a :: b :: c :: d :: e :: f :: g :: h :: B) 0 =
  Some (((a * 256 + b) * 65536 + (c * 256 + d)) * 4294967296 + ((e * 256 + f) * 65536 + (g * 256 + h))).
Proof. reflexivity. Qed.

Lemma be64_bytes x B : 0 <= x < 18446744073709551616 -> be64 (be_bytes 8 x ++ B) 0 = Some x.
Proof.
  intros H. cbn [be_bytes app]. rewrite be64_list. f_equal.
  assert (Hd : forall y, y = 256 * (y / 256) + y mod 256 /\ 0 <= y mod 256 < 256) by (intros y; split; [apply Z_div_mod_eq_full|by apply Z.mod_pos_bound]).
  pose proof (Hd x). set (x1 := x / 256) in *. pose proof (Hd x1). set (x2 := x1 / 256) in *. pose proof (Hd x2). set (x3 := x2 / 256) in *. pose proof (Hd x3).
  set (x4 := x3 / 256) in *. pose proof (Hd x4). set (x5 := x4 / 256) in *. pose proof (Hd x5). set (x6 := x5 / 256) in *. pose proof (Hd x6).
  set (x7 := x6 / 256) in *. assert (0 <= x7 < 256) by lia. rewrite (Z.mod_small x7) by lia. lia.
Qed.

(** ** The image *)

Definition body (d : pr_dev) : list Z := concat (header_fields d) ++ concat (concat (map (reg_fields d) (registrants d))).
Definition image (d : pr_dev) : list Z := le_bytes 8 SCST_PR_FILE_SIGN ++ body d.

Lemma write_append c b : write_bytes c (length c) b = c ++ b.
Proof. unfold write_bytes. rewrite take_ge, drop_ge by lia. by rewrite app_nil_r. Qed.

Lemma do_ops_app f a b : do_ops f (a ++ b) = do_ops (do_ops f a) b.
Proof. apply fold_left_app. Qed.

Lemma get_set w c f : get_file w (set_file w c f) = c.
Proof. by destruct w. Qed.

Lemma set_set w c c' f : set_file w c (set_file w c' f) = set_file w c f.
Proof. by destruct w. Qed.

Lemma do_writes w l : forall f c, get_file w f = Some c -> do_ops f (writes w (length c) l) = set_file w (Some (c ++ concat l)) f.
Proof.
  induction l as [|b l IH]; intros f c Hf; cbn [writes concat].
  - cbn. rewrite app_nil_r, <- Hf. by destruct w, f.
  - cbn [do_ops fold_left do_op]. rewrite Hf. cbn [default]. rewrite write_append. change (fold_left do_op) with (fun l f => do_ops f l). cbn beta.
    rewrite <- length_app, (IH _ (c ++ b)) by apply get_set. by rewrite set_set, app_assoc.
Qed.

(** The bytes of a save up to its last operation. *)
Lemma concat_fields d : concat (le_bytes 8 0 :: header_fields d ++ concat (map (reg_fields d) (registrants d))) = le_bytes 8 0 ++ body d.
Proof. cbn [concat]. by rewrite concat_app. Qed.

Lemma do_save d f : do_ops f (save_ops d) = set_file Primary (Some (image d)) f.
Proof.
  unfold save_ops. cbn [do_ops fold_left]. rewrite fold_left_app. change (fold_left do_op) with (fun l f => do_ops f l). cbn beta.
  change 0%nat with (length (@nil Z)) at 1. rewrite (do_writes Primary _ _ []) by apply get_set. rewrite concat_fields. 
  cbn [do_ops fold_left do_op get_file set_file pr_file_name pr_file_name1 default app]. unfold write_bytes, image, id. rewrite length_le. cbn [take app Nat.add].
  by rewrite drop_app_length' by done.
Qed.

(** ** Loading an image *)

(** What a file can hold. *)
Record storable (d : pr_dev) : Prop := {
  so_wf : wf d;
  so_rel p : p ∈ registrants d -> 0 <= rel_tgt_id p.2 < 65536;
  so_key p : p ∈ registrants d -> 0 <= key p.2 < 18446744073709551616;
  so_size : Z.of_nat (length (image d)) < 15 * 1024 * 1024
}.

Definition copy_reg (x : registrant_t) : registrant_t := mkReg (tid_bytes x) (rel_tgt_id x) (key x) 0 0.

Fixpoint number (n : Z) (l : list (Z * registrant_t)) : list (Z * registrant_t) :=
  match l with
  | [] => []
  | p :: l => (n, copy_reg p.2) :: number (n + 1) l
  end.

(** The address that the holder [h] gets. *)
Fixpoint holder_in (h : Z) (l : list (Z * registrant_t)) (n old : Z) : Z :=
  match l with
  | [] => old
  | p :: l => holder_in h l (n + 1) (if h =? p.1 then n else old)
  end.

(** A device after the records [l] were loaded. *)
Definition loaded (d : pr_dev) (l : list (Z * registrant_t)) : pr_dev :=
  (pr_init []) <|pr_aptpl := pr_aptpl d|> <|pr_is_set := pr_is_set d|> <|pr_type := pr_type d|> <|pr_scope := pr_scope d|>
    <|pr_holder := holder_in (pr_holder d) l 1 0|> <|registrants := number 1 l|> <|next_reg := 1 + Z.of_nat (length l)|>.

Lemma number_app l : forall n p, number n (l ++ [p]) = number n l ++ [(n + Z.of_nat (length l), copy_reg p.2)].
Proof.
  induction l as [|q l IH]; intros n p; cbn [number app length]; [by rewrite Z.add_0_r|]. rewrite IH.
  by replace (n + Z.of_nat (S (length l))) with (n + 1 + Z.of_nat (length l)) by lia.
Qed.

Lemma holder_in_app h l : forall n old p, holder_in h (l ++ [p]) n old = if h =? p.1 then n + Z.of_nat (length l) else holder_in h l n old.
Proof.
  induction l as [|q l IH]; intros n old p; cbn [holder_in app length]; [by rewrite Z.add_0_r|]. rewrite IH. destruct (h =? p.1); [lia|done].
Qed.

Lemma number_elem l : forall n a x, (a, x) ∈ number n l -> exists p, p ∈ l /\ x = copy_reg p.2 /\ n <= a < n + Z.of_nat (length l).
Proof.
  induction l as [|q l IH]; intros n a x H; cbn [number] in H; [by apply elem_of_nil in H|]. apply elem_of_cons in H as [H|H]; cbn [length].
  - injection H as -> ->. exists q. split; [by left|]. split; [done|lia].
  - apply IH in H as (p & Hp & -> & Ha). exists p. split; [by right|]. split; [done|lia].
Qed.

(** The identifier of a registrant, as it lies in the file. *)
Lemma tid_bytes_spec x rest : tid_ok (transport_id x) -> exists n, tid_size (transport_id x) = Some n /\ 4 <= n /\ Z.of_nat (length (tid_bytes x)) = n /\
  tid_ok (tid_bytes x) /\ tid_size (tid_bytes x ++ rest) = Some n /\ take (Z.to_nat n) (tid_bytes x ++ rest) = tid_bytes x.
Proof.
  intros Hok. pose proof Hok as [Hf (n & En & Hl)]. pose proof (tid_size_pos _ _ Hf En) as Hn. exists n.
  assert (Et : tid_bytes x = take (Z.to_nat n) (transport_id x)) by (unfold tid_bytes; by rewrite En).
  assert (El : Z.of_nat (length (tid_bytes x)) = n) by (rewrite Et, length_take; lia).
  split_and!; try done.
  - rewrite Et. by apply tid_ok_take.
  - rewrite <- En. apply tid_size_agree. intros i Hi. rewrite at_app_l by lia. rewrite Et. apply at_take. lia.
  - rewrite take_app_le by lia. rewrite take_ge; [done|lia].
Qed.

Lemma tid_ok_app x rest : tid_ok (transport_id x) -> Forall (fun b => 0 <= b < 256) rest -> tid_ok (tid_bytes x ++ rest).
Proof.
  intros Hok Hr. destruct (tid_bytes_spec x rest Hok) as (n & _ & Hn & El & [Hf _] & En & _). split; [by apply Forall_app|]. exists n. split; [done|].
  rewrite length_app. lia.
Qed.

Lemma tid_equal_file x y rest : tid_ok (transport_id x) -> tid_ok (transport_id y) -> Forall (fun b => 0 <= b < 256) rest ->
  tid_equal (Some (tid_bytes x)) (Some (tid_bytes y ++ rest)) = tid_equal (Some (transport_id x)) (Some (transport_id y)).
Proof.
  intros Hx Hy Hr. destruct (tid_bytes_spec x [] Hx) as (n & En & _ & _ & Hox & _). destruct (tid_bytes_spec y rest Hy) as (m & Em & _ & _ & Hoy & Em' & Et).
  pose proof (tid_ok_app y rest Hy Hr) as Hor. rewrite <- (tid_equal_take_r _ m) by done. rewrite Et.
  unfold tid_bytes. rewrite En, Em. cbn [default]. unfold id. rewrite tid_equal_take by done. by apply tid_equal_take_r.
Qed.

Lemma be_bytes_ok n : forall x, bytes (be_bytes n x).
Proof. induction n as [|n IH]; intros x; cbn; [constructor|]. apply Forall_app. split; [apply IH|]. constructor; [by apply Z.mod_pos_bound|constructor]. Qed.

Lemma le_bytes_ok n : forall x, bytes (le_bytes n x).
Proof. induction n as [|n IH]; intros x; cbn; [constructor|]. constructor; [by apply Z.mod_pos_bound|apply IH]. Qed.

Lemma bool_byte b : 0 <= byte_of_bool b < 256.
Proof. destruct b; cbn; lia. Qed.

Definition record_bytes (d : pr_dev) (l : list (Z * registrant_t)) : list Z := concat (concat (map (reg_fields d) l)).

Lemma record_cons d p l : record_bytes d (p :: l) =
  [byte_of_bool (pr_holder d =? p.1)] ++ tid_bytes p.2 ++ be_bytes 8 (key p.2) ++ le_bytes 2 (rel_tgt_id p.2) ++ record_bytes d l.
Proof. reflexivity. Qed.

Lemma record_bytes_ok d l : (forall p, p ∈ l -> tid_ok (transport_id p.2)) -> bytes (record_bytes d l).
Proof.
  induction l as [|p l IH]; intros H; [constructor|]. rewrite record_cons. destruct (tid_bytes_spec p.2 []) as (n & _ & _ & _ & [Hf _] & _); [apply H; by left|].
  unfold bytes in *. rewrite !Forall_app. split_and!; [|done|apply be_bytes_ok|apply le_bytes_ok|apply IH; intros; apply H; by right].
  constructor; [apply bool_byte|constructor].
Qed.

Lemma storable_tid d p : storable d -> p ∈ registrants d -> tid_ok (transport_id p.2).
Proof.
  intros Hs Hp. destruct p as [a x]. pose proof (so_wf _ Hs) as (Hr & _). apply elem_assoc in Hp; [|apply Hr]. by eapply (ro_tid _ _ _ _ Hr).
Qed.

(** Without sessions a registrant is just added. *)
Lemma add_alone D t c rel k : allocs D = [] -> td_list D = [] -> find_reg_in (registrants D) (Some t) rel = Some 0 -> tid_dup t = Some c ->
  scst_pr_add_registrant (Some t) rel k D =
    Some (next_reg D, D <|next_reg := next_reg D + 1|> <|registrants := registrants D ++ [(next_reg D, mkReg c rel k 0 0)]|>).
Proof.
  intros Ha Ht Hf Hc. unfold scst_pr_add_registrant. rewrite (pt_bind_some _ _ _ 0 D) by (unfold scst_pr_find_reg, get, lift, mbind, pt_bind; by rewrite Hf).
  cbn [Z.eqb negb]. assert (Hk : kalloc D = Some (true, D)) by (unfold kalloc; by rewrite Ha).
  rewrite (pt_bind_some _ _ _ _ _ Hk). cbn [negb]. rewrite (pt_bind_some _ _ _ c D) by (by rewrite Hc). rewrite (pt_bind_some _ _ _ _ _ Hk). cbn [negb].
  unfold get, upd, lift, mbind, pt_bind. change (td_list (D <|next_reg := next_reg D + 1|>)) with (td_list D). rewrite Ht. reflexivity.
Qed.

Section load.
Context (d : pr_dev) (Hs : storable d).

(** The next record is added. *)
Lemma add_loaded prev p l rest : registrants d = prev ++ p :: l -> bytes rest ->
  scst_pr_add_registrant (Some (tid_bytes p.2 ++ rest)) (rel_tgt_id p.2) (key p.2) (loaded d prev) =
    Some (1 + Z.of_nat (length prev), (loaded d prev) <|next_reg := 1 + Z.of_nat (length prev) + 1|>
      <|registrants := number 1 prev ++ [(1 + Z.of_nat (length prev), copy_reg p.2)]|>).
Proof.
  intros El Hrest. pose proof (so_wf _ Hs) as (Hr & _).
  assert (Hin : forall q, q ∈ prev -> q ∈ registrants d) by (intros q Hq; rewrite El; apply elem_of_app; by left).
  assert (Hp : p ∈ registrants d) by (rewrite El; apply elem_of_app; right; by left).
  pose proof (storable_tid d p Hs Hp) as Hok. pose proof (tid_ok_app p.2 rest Hok Hrest) as Hok'. destruct (tid_bytes_spec p.2 rest Hok) as (n & _ & Hn & Hlen & _ & En & Et).
  destruct (find_reg_in_spec (number 1 prev) (tid_bytes p.2 ++ rest) (rel_tgt_id p.2)) as (r & E & H); [|done|].
  { intros a x (q & Hq & -> & _)%number_elem. cbn. destruct (tid_bytes_spec q.2 []) as (? & _ & _ & _ & Ho & _); [by apply (storable_tid d), Hin|done]. }
  assert (r = 0) as ->.
  { destruct H as [[-> _]|(x & (q & Hq & -> & _)%number_elem & Hrel & He)]; [done|exfalso]. cbn [copy_reg transport_id rel_tgt_id] in *.
    rewrite tid_equal_file in He by (done || by apply (storable_tid d), Hin). destruct q as [a x], p as [b y]. cbn [fst snd] in *.
    pose proof (elem_assoc a x _ (ro_nodup _ _ _ _ Hr) (Hin _ Hq)) as Ha. pose proof (elem_assoc b y _ (ro_nodup _ _ _ _ Hr) Hp) as Hb.
    rewrite (ro_diff _ _ _ _ Hr a x b y Ha Hb) in He; [done| |done]. intros ->. pose proof (ro_nodup _ _ _ _ Hr) as Hnd. rewrite El, map_app in Hnd.
    apply NoDup_app in Hnd as (_ & Hnd & _). apply (Hnd b); [apply list_elem_of_fmap; by exists (b, x)|by left]. }
  rewrite (add_alone (loaded d prev) _ (tid_bytes p.2)); [reflexivity|reflexivity|reflexivity|exact E|]. unfold tid_dup. rewrite En. cbn [mbind option_bind].
  replace (Z.of_nat (length (tid_bytes p.2 ++ rest)) <? n) with false by (rewrite length_app; lia). by rewrite Et.
Qed.

Lemma loaded_step prev p : (if negb (byte_of_bool (pr_holder d =? p.1) =? 0) then upd (fun d' => d' <|pr_holder := 1 + Z.of_nat (length prev)|>) else mret tt)
    ((loaded d prev) <|next_reg := 1 + Z.of_nat (length prev) + 1|> <|registrants := number 1 prev ++ [(1 + Z.of_nat (length prev), copy_reg p.2)]|>) =
  Some (tt, loaded d (prev ++ [p])).
Proof.
  unfold loaded. rewrite number_app, holder_in_app, length_app. cbn [length].
  replace (1 + Z.of_nat (length prev + 1)) with (1 + Z.of_nat (length prev) + 1) by lia. by destruct (pr_holder d =? p.1).
Qed.

Lemma load_loop_spec l : forall prev pre fuel, registrants d = prev ++ l -> Z.of_nat (length (record_bytes d l)) < Z.of_nat fuel ->
  load_loop fuel (pre ++ record_bytes d l) (Z.of_nat (length pre)) (Z.of_nat (length (pre ++ record_bytes d l))) (loaded d prev) = Some (0, loaded d (prev ++ l)).
Proof.
  induction l as [|p l IH]; intros prev pre fuel El Hf; (destruct fuel as [|fuel]; [lia|]); cbn [load_loop].
  { change (record_bytes d []) with (@nil Z). rewrite !app_nil_r, Z.ltb_irrefl. done. }
  assert (Hp : p ∈ registrants d) by (rewrite El; apply elem_of_app; right; by left). pose proof (storable_tid d p Hs Hp) as Hok.
  set (rest := be_bytes 8 (key p.2) ++ le_bytes 2 (rel_tgt_id p.2) ++ record_bytes d l).
  assert (Hrest : bytes rest).
  { unfold rest. apply Forall_app. split; [apply be_bytes_ok|]. apply Forall_app. split; [apply le_bytes_ok|]. apply record_bytes_ok.
    intros q Hq. apply (storable_tid d); [done|]. rewrite El. apply elem_of_app. right. by right. }
  destruct (tid_bytes_spec p.2 rest Hok) as (n & _ & Hn & Hlen & _ & En & Et).
  assert (Er : record_bytes d (p :: l) = [byte_of_bool (pr_holder d =? p.1)] ++ tid_bytes p.2 ++ rest) by apply record_cons.
  set (hb := byte_of_bool (pr_holder d =? p.1)) in *. rewrite Er in Hf |- *.
  assert (Hpos : (Z.of_nat (length pre) <? Z.of_nat (length (pre ++ [hb] ++ tid_bytes p.2 ++ rest))) = true) by (rewrite !length_app; cbn [length]; lia).
  assert (Hhb : at_ (pre ++ [hb] ++ tid_bytes p.2 ++ rest) (Z.of_nat (length pre)) = Some hb).
  { rewrite <- (Z.add_0_r (Z.of_nat (length pre))). by rewrite at_app_r by lia. }
  rewrite Hpos. rewrite (pt_bind_some _ _ _ hb (loaded d prev)) by (unfold byte_at; by rewrite Hhb).
  assert (Htid : tid_at (pre ++ [hb] ++ tid_bytes p.2 ++ rest) (Z.of_nat (length pre) + 1) = tid_bytes p.2 ++ rest).
  { rewrite tid_at_app by lia. done. }
  rewrite Htid, En. rewrite (pt_bind_some _ _ _ n (loaded d prev)) by reflexivity.
  assert (Hk : be64 (pre ++ [hb] ++ tid_bytes p.2 ++ rest) (Z.of_nat (length pre) + 1 + n) = Some (key p.2)).
  { rewrite (app_assoc [hb]), (app_assoc pre). replace (Z.of_nat (length pre) + 1 + n) with (Z.of_nat (length (pre ++ [hb] ++ tid_bytes p.2)) + 0) by (rewrite !length_app; cbn [length]; lia).
    rewrite be64_app by lia. unfold rest. apply be64_bytes. by apply (so_key _ Hs). }
  assert (Hrel : le_get 2 (pre ++ [hb] ++ tid_bytes p.2 ++ rest) (Z.of_nat (length pre) + 1 + n + 8) = Some (rel_tgt_id p.2)).
  { unfold rest. rewrite (app_assoc (tid_bytes p.2)), (app_assoc [hb]), (app_assoc pre).
    replace (Z.of_nat (length pre) + 1 + n + 8) with (Z.of_nat (length (pre ++ [hb] ++ tid_bytes p.2 ++ be_bytes 8 (key p.2))) + 0) by (rewrite !length_app, length_be; cbn [length]; lia).
    rewrite le_get_app by lia. apply le_get_bytes. pose proof (so_rel _ Hs p Hp). change (256 ^ Z.of_nat 2) with 65536. lia. }
  rewrite (pt_bind_some _ _ _ (key p.2) (loaded d prev)) by (unfold be64_at; by rewrite Hk).
  rewrite (pt_bind_some _ _ _ (rel_tgt_id p.2) (loaded d prev)) by (by rewrite Hrel).
  rewrite (pt_bind_some _ _ _ _ _ (add_loaded prev p l rest El Hrest)). replace (1 + Z.of_nat (length prev) =? 0) with false by lia.
  rewrite (pt_bind_some _ _ _ _ _ (loaded_step prev p)).
  specialize (IH (prev ++ [p]) (pre ++ [hb] ++ tid_bytes p.2 ++ be_bytes 8 (key p.2) ++ le_bytes 2 (rel_tgt_id p.2)) fuel).
  rewrite <- !app_assoc in IH. cbn [app] in IH. rewrite <- IH; [|done|].
  - f_equal. rewrite !length_app. cbn [length]. rewrite !length_app, length_be, length_le. lia.
  - unfold rest in Hf. rewrite !length_app in Hf. cbn [length] in Hf. lia.
Qed.

Lemma check_loop_spec l : forall prev pre fuel, registrants d = prev ++ l -> Z.of_nat (length (record_bytes d l)) < Z.of_nat fuel ->
  check_loop fuel (pre ++ record_bytes d l) (Z.of_nat (length pre)) (Z.of_nat (length (pre ++ record_bytes d l))) = Some true.
Proof.
  induction l as [|p l IH]; intros prev pre fuel El Hf; (destruct fuel as [|fuel]; [lia|]); cbn [check_loop].
  { change (record_bytes d []) with (@nil Z). rewrite !app_nil_r, Z.ltb_irrefl. done. }
  assert (Hp : p ∈ registrants d) by (rewrite El; apply elem_of_app; right; by left). pose proof (storable_tid d p Hs Hp) as Hok.
  destruct (tid_bytes_spec p.2 (be_bytes 8 (key p.2) ++ le_bytes 2 (rel_tgt_id p.2) ++ record_bytes d l) Hok) as (n & _ & Hn & Hlen & _ & En & _).
  rewrite record_cons in Hf |- *. set (hb := byte_of_bool (pr_holder d =? p.1)) in *. set (kb := be_bytes 8 (key p.2)) in *. set (rb := le_bytes 2 (rel_tgt_id p.2)) in *.
  assert (Lk : length kb = 8%nat) by apply length_be. assert (Lr : length rb = 2%nat) by apply length_le.
  rewrite !length_app in Hf. rewrite !length_app. cbn [length] in Hf |- *.
  replace (Z.of_nat (length pre) <? _) with true by lia. rewrite tid_at_app by lia.
  change (tid_at ([hb] ++ tid_bytes p.2 ++ kb ++ rb ++ record_bytes d l) 1) with (tid_bytes p.2 ++ kb ++ rb ++ record_bytes d l).
  rewrite En. cbn [mbind option_bind]. replace (_ <? Z.of_nat (length pre) + 1 + n + 8 + 2) with false by lia.
  specialize (IH (prev ++ [p]) (pre ++ [hb] ++ tid_bytes p.2 ++ kb ++ rb) fuel). rewrite <- !app_assoc, !length_app in IH. cbn [length app] in IH.
  rewrite <- IH; [|done|lia]. f_equal; lia.
Qed.

(** The image of a device makes it what it was. *)
Lemma load_image : scst_pr_do_load_device_file (Some (image d)) (pr_init []) = Some (0, loaded d (registrants d)).
Proof.
  pose proof (so_size _ Hs) as Hsz. pose proof (so_wf _ Hs) as (Hr & _ & Hv).
  set (hd := le_bytes 8 SCST_PR_FILE_SIGN ++ concat (header_fields d)).
  assert (Hi : image d = hd ++ record_bytes d (registrants d)) by (unfold image, body, hd; by rewrite <- app_assoc).
  assert (Hl : length hd = 20%nat) by reflexivity. rewrite Hi in Hsz |- *. unfold scst_pr_do_load_device_file.
  assert (Hlen : 20 <= Z.of_nat (length (hd ++ record_bytes d (registrants d)))) by (rewrite length_app; lia).
  replace ((_ =? 0) || _) with false by lia. rewrite (pt_bind_some _ _ _ true (pr_init [])) by reflexivity. cbn [negb].
  replace (_ <? 20) with false by lia. rewrite (pt_bind_some _ _ _ SCST_PR_FILE_SIGN (pr_init [])) by (unfold hd; by rewrite <- app_assoc, le_get_bytes by (split; vm_compute; congruence)).
  rewrite Z.eqb_refl. cbn [negb].
  rewrite (pt_bind_some _ _ _ SCST_PR_FILE_VERSION (pr_init [])).
  2:{ unfold hd. rewrite <- app_assoc. pose proof (le_get_app 8 (le_bytes 8 SCST_PR_FILE_SIGN) (concat (header_fields d) ++ record_bytes d (registrants d)) 0) as Hv8.
      rewrite length_le in Hv8. change (Z.of_nat 8 + 0) with 8 in Hv8. rewrite Hv8 by lia. unfold header_fields. cbn [concat]. rewrite <- app_assoc.
      by rewrite le_get_bytes by (split; vm_compute; congruence). }
  rewrite Z.eqb_refl. cbn [negb]. pose proof (check_loop_spec (registrants d) [] hd (S (length (hd ++ record_bytes d (registrants d)))) eq_refl) as Hc.
  rewrite Hl in Hc. change (Z.of_nat 20) with 20 in Hc.
  rewrite (pt_bind_some _ _ _ true (pr_init [])) by (rewrite Hc; [done|rewrite length_app; lia]). cbn [negb].
  rewrite (pt_bind_some _ _ _ (byte_of_bool (pr_aptpl d)) (pr_init [])) by reflexivity.
  rewrite (pt_bind_some _ _ _ (byte_of_bool (pr_is_set d)) (pr_init [])) by reflexivity.
  rewrite (pt_bind_some _ _ _ (pr_type d) (pr_init [])) by reflexivity.
  rewrite (pt_bind_some _ _ _ (pr_scope d) (pr_init [])) by reflexivity.
  rewrite (pt_bind_some _ _ _ tt (loaded d [])).
  2:{ unfold loaded, upd, byte_of_bool. cbn [number holder_in length]. by destruct (pr_aptpl d), (pr_is_set d). }
  pose proof (load_loop_spec (registrants d) [] hd (S (length (hd ++ record_bytes d (registrants d)))) eq_refl) as Hload.
  rewrite Hl in Hload. change (Z.of_nat 20) with 20 in Hload. apply Hload. rewrite length_app. lia.
Qed.
End load.

(** ** A loaded device *)

Lemma number_lookup l : forall n i, number n l !! i = (fun p => (n + Z.of_nat i, copy_reg p.2)) <$> (l !! i).
Proof.
  induction l as [|q l IH]; intros n [|i]; cbn [number]; try done; [cbn; by rewrite Z.add_0_r|]. cbn. rewrite IH. destruct (l !! i); cbn; [|done].
  do 2 f_equal. lia.
Qed.

Lemma number_fst l n : NoDup (map fst (number n l)).
Proof.
  apply NoDup_alt. intros i j a. rewrite !list_lookup_fmap, !number_lookup. destruct (l !! i), (l !! j); cbn; try done. intros [= <-] [= H]. lia.
Qed.

Lemma number_assoc l n a x : assoc a (number n l) = Some x -> exists i p, l !! i = Some p /\ a = n + Z.of_nat i /\ x = copy_reg p.2.
Proof.
  intros H%assoc_elem%list_elem_of_lookup. destruct H as [i Hi]. rewrite number_lookup in Hi. destruct (l !! i) as [p|] eqn:E; [|done]. cbn in Hi.
  injection Hi as <- <-. eauto.
Qed.

Lemma number_assoc_at l n i p : l !! i = Some p -> assoc (n + Z.of_nat i) (number n l) = Some (copy_reg p.2).
Proof. intros E. apply elem_assoc; [apply number_fst|]. apply list_elem_of_lookup. exists i. by rewrite number_lookup, E. Qed.

Lemma holder_in_none h l : forall n old, h ∉ map fst l -> holder_in h l n old = old.
Proof.
  induction l as [|q l IH]; intros n old H; cbn [holder_in]; [done|]. cbn in H. rewrite elem_of_cons in H. rewrite IH by tauto.
  destruct (Z.eqb_spec h q.1); [tauto|done].
Qed.

Lemma holder_in_at h l : forall n old i p, NoDup (map fst l) -> l !! i = Some p -> p.1 = h -> holder_in h l n old = n + Z.of_nat i.
Proof.
  induction l as [|q l IH]; intros n old i p Hn Hi Hp; [done|]. cbn in Hn. apply NoDup_cons in Hn as [Hni Hn]. destruct i as [|i]; cbn in Hi; cbn [holder_in].
  - injection Hi as ->. rewrite Hp, Z.eqb_refl, holder_in_none; [lia|]. by rewrite <- Hp.
  - rewrite (IH _ _ i p) by done. lia.
Qed.

(** What a file keeps of a device. *)
Definition view (d : pr_dev) : bool * bool * Z * Z * list (list Z * Z * Z * bool) :=
  (pr_aptpl d, pr_is_set d, pr_type d, pr_scope d,
   map (fun p => (tid_bytes p.2, rel_tgt_id p.2, key p.2, pr_holder d =? p.1)) (registrants d)).

Lemma tid_bytes_copy x : tid_ok (transport_id x) -> tid_bytes (copy_reg x) = tid_bytes x.
Proof.
  intros Hok. destruct (tid_bytes_spec x [] Hok) as (n & _ & _ & _ & _ & En & Et). rewrite app_nil_r in En, Et. unfold tid_bytes at 1. cbn [copy_reg transport_id].
  by rewrite En.
Qed.

Section loaded.
Context (d : pr_dev) (Hs : storable d).

Lemma holder_index i p : registrants d !! i = Some p -> (holder_in (pr_holder d) (registrants d) 1 0 =? 1 + Z.of_nat i) = (pr_holder d =? p.1).
Proof.
  intros Hi. pose proof (so_wf _ Hs) as (Hr & _). apply eq_iff_eq_true. rewrite !Z.eqb_eq. split.
  - intros E. destruct (decide (pr_holder d ∈ map fst (registrants d))) as [Hin|Hni]; [|rewrite holder_in_none in E by done; lia].
    apply list_elem_of_fmap in Hin as (q & Eq & Hq). apply list_elem_of_lookup in Hq as [j Hj].
    rewrite (holder_in_at _ _ 1 0 j q) in E by (done || apply Hr). assert (j = i) as -> by lia. congruence.
  - intros E. apply holder_in_at with p; [apply Hr|done|done].
Qed.

Lemma view_loaded : view (loaded d (registrants d)) = view d.
Proof.
  change (view (loaded d (registrants d))) with (pr_aptpl d, pr_is_set d, pr_type d, pr_scope d,
    map (fun p => (tid_bytes p.2, rel_tgt_id p.2, key p.2, holder_in (pr_holder d) (registrants d) 1 0 =? p.1)) (number 1 (registrants d))).
  unfold view. f_equal. apply list_eq. intros i. rewrite !list_lookup_fmap, number_lookup.
  destruct (registrants d !! i) as [p|] eqn:E; [|done]. cbn [fmap option_fmap option_map fst snd]. f_equal.
  rewrite tid_bytes_copy by (apply (storable_tid d); [done|]; apply list_elem_of_lookup; eauto). f_equal. exact (holder_index i p E).
Qed.

Lemma holder_loaded : resv_ok (pr_is_set d) (pr_type d) (pr_scope d) (holder_in (pr_holder d) (registrants d) 1 0) (number 1 (registrants d)).
Proof.
  pose proof (so_wf _ Hs) as (Hr & _ & Hv). unfold resv_ok in *. destruct (pr_is_set d).
  - destruct Hv as (V1 & V2 & V3 & V4). split_and!; [done|done|by destruct (registrants d)|].
    assert (Hreg : is_Some (assoc (pr_holder d) (registrants d)) -> is_Some (assoc (holder_in (pr_holder d) (registrants d) 1 0) (number 1 (registrants d)))).
    { intros Hin%assoc_dom. apply list_elem_of_fmap in Hin as (q & Eq & Hq). apply list_elem_of_lookup in Hq as [j Hj].
      rewrite (holder_in_at _ _ 1 0 j q) by (done || apply Hr). rewrite (number_assoc_at _ _ _ _ Hj). eauto. }
    destruct (all_reg (pr_type d)); [|auto]. destruct V4 as [E|V4]; [|auto]. left. apply holder_in_none. rewrite E. intros Hin%assoc_dom.
    destruct Hin as [x Hx]. apply (ro_addr _ _ _ _ Hr) in Hx. lia.
  - destruct Hv as (V1 & V2 & V3). split_and!; try done. apply holder_in_none. rewrite V3. intros Hin%assoc_dom.
    destruct Hin as [x Hx]. apply (ro_addr _ _ _ _ Hr) in Hx. lia.
Qed.

Lemma wf_loaded : wf (loaded d (registrants d)).
Proof.
  pose proof (so_wf _ Hs) as (Hr & _). split; [|split; [|exact holder_loaded]].
  - assert (Hof : forall i p, registrants d !! i = Some p -> assoc p.1 (registrants d) = Some p.2 /\ p ∈ registrants d).
    { intros i [a x] Hi. assert ((a, x) ∈ registrants d) by (apply list_elem_of_lookup; eauto). split; [|done]. apply elem_assoc; [apply Hr|done]. }
    constructor; change (registrants (loaded d (registrants d))) with (number 1 (registrants d)).
    + apply number_fst.
    + cbn. lia.
    + intros a x (i & p & Hi & -> & ->)%number_assoc. apply lookup_lt_Some in Hi. cbn. lia.
    + intros a x (i & p & Hi & -> & ->)%number_assoc. destruct (Hof i p Hi) as [_ Hp].
      destruct (tid_bytes_spec p.2 []) as (n & _ & _ & _ & Ho & _); [by apply (storable_tid d)|exact Ho].
    + intros a x (i & p & Hi & -> & ->)%number_assoc. destruct (Hof i p Hi) as [Hp _]. split; [|done]. cbn. by apply (ro_key _ _ _ _ Hr) in Hp as [].
    + by intros a x (i & p & Hi & -> & ->)%number_assoc.
    + intros a x b y (i & p & Hi & -> & ->)%number_assoc (j & q & Hj & -> & ->)%number_assoc Hab Hrel. cbn [copy_reg transport_id rel_tgt_id] in *.
      destruct (Hof i p Hi) as [Hp Hp']. destruct (Hof j q Hj) as [Hq Hq']. pose proof (tid_equal_file p.2 q.2 []) as He. rewrite app_nil_r in He.
      rewrite He; [|by apply (storable_tid d)|by apply (storable_tid d)|constructor]. eapply (ro_diff _ _ _ _ Hr); [exact Hp|exact Hq| |done]. intros E. apply Hab. do 2 f_equal.
      eapply (NoDup_lookup (map fst (registrants d))); [apply Hr|rewrite list_lookup_fmap, Hi; reflexivity|rewrite list_lookup_fmap, Hj; cbn; congruence].
  - constructor; cbn; try done; [apply NoDup_nil_2|]. by intros t ?%elem_of_nil.
Qed.
End loaded.

(** ** Saving and loading *)

Lemma load_primary d f : storable d -> pr_file_name f = Some (image d) ->
  scst_pr_load_device_file f (pr_init []) = Some (0, loaded d (registrants d)).
Proof. intros Hs Hf. unfold scst_pr_load_device_file. rewrite Hf, (pt_bind_some _ _ _ _ _ (load_image d Hs)). reflexivity. Qed.

(** A file that is not valid, and the device is as it was. *)
Definition invalid (c : list Z) : Prop := scst_pr_do_load_device_file (Some c) (pr_init []) = Some (- EINVAL, pr_init []).

Lemma load_backup d f c : storable d -> pr_file_name f = Some c -> invalid c -> pr_file_name1 f = Some (image d) ->
  scst_pr_load_device_file f (pr_init []) = Some (0, loaded d (registrants d)).
Proof.
  intros Hs Hf Hc Hf1. unfold scst_pr_load_device_file. rewrite Hf, (pt_bind_some _ _ _ _ _ Hc). cbn [EINVAL ENOMEM Z.opp Z.eqb Pos.eqb orb].
  rewrite Hf1. by apply load_image.
Qed.

Lemma load_saved copy d f : storable d -> pr_aptpl d = true -> registrants d <> [] ->
  exists d', scst_pr_load_device_file (do_ops f (scst_pr_sync_device_file copy SaveDone d f)) (pr_init []) = Some (0, d') /\ view d' = view d /\ wf d'.
Proof.
  intros Hs Ha Hne. exists (loaded d (registrants d)). split; [|split; [by apply view_loaded|by apply wf_loaded]]. apply load_primary; [done|].
  unfold scst_pr_sync_device_file, list_empty. rewrite Ha. destruct (registrants d); [done|]. cbn [negb orb]. by rewrite do_ops_app, do_save.
Qed.

(** The copy does not touch the first file. *)
Lemma copy_primary copy f : pr_file_name (do_ops f (scst_copy_file copy f)) = pr_file_name f.
Proof. unfold scst_copy_file. destruct (pr_file_name f) eqn:E, copy; cbn; done. Qed.

(** C32: What a command saves, a load brings back.  After a PERSISTENT RESERVE OUT that
    ends with GOOD, and whose save the file system does not refuse, a device that
    asked for it (APTPL) and comes up with the files has the APTPL bit, the
    reservation, and the registrations with their keys, targets and holder in their
    order, and satisfies the invariant, whatever became of the copy; when the file
    can not be opened, the first file stays as it was, and when a write or [fsync]
    fails it is gone, though the command ends with GOOD.  When the device did not
    ask, or nobody is registered any more, both files are gone.  Other commands leave
    the files. *)
Theorem pr_file_roundtrip tgtts rsv ab t cdb1 cdb2 buf bs bst copy io d f s d' f' : 0 < bs -> storable d' ->
  scst_persistent_reserve_out_files tgtts rsv ab t cdb1 cdb2 buf bs bst copy io d f = Some (s, d', f') ->
  if bool_decide (s = Some SAM_STAT_GOOD) then
    if pr_aptpl d' && negb (list_empty d')
    then match io with
         | SaveDone => exists d'', scst_pr_load_device_file f' (pr_init []) = Some (0, d'') /\ view d'' = view d' /\ wf d''
         | SaveNotOpened => pr_file_name f' = pr_file_name f
         | SaveFailed _ _ => pr_file_name f' = None
         end
    else f' = mkFs None None
  else f' = f.
Proof.
  intros Hbs Hs. unfold scst_persistent_reserve_out_files. replace (0 <? bs) with true by lia. cbn [andb].
  destruct (scst_persistent_reserve_out_local _ _ _ _ _ _ _ _ _ d) as [[s1 d1]|]; [|done]. cbn. intros [= <- <- <-]. case_bool_decide; [|done].
  destruct (pr_aptpl d1) eqn:Ea; [|by unfold scst_pr_sync_device_file; rewrite Ea].
  destruct (list_empty d1) eqn:El; [by unfold scst_pr_sync_device_file; rewrite Ea, El|]. destruct io as [| |n m].
  - apply load_saved; [done|done|]. unfold list_empty in El. by destruct (registrants d1).
  - unfold scst_pr_sync_device_file. rewrite Ea, El. cbn [negb orb]. rewrite app_nil_r. apply copy_primary.
  - unfold scst_pr_sync_device_file, failed_save. rewrite Ea, El. cbn [negb orb]. by rewrite !app_assoc, do_ops_app.
Qed.

(** ** Losing power *)

(** The operations up to the [m]-th byte of the [k]-th. *)
Definition cut (k m : nat) (l : list fop) : list fop := take k l ++ concat (map (part_of m) (take 1 (drop k l))).

Lemma cut_app k m a b : cut k m (a ++ b) = if decide (k < length a)%nat then cut k m a else a ++ cut (k - length a) m b.
Proof.
  unfold cut. destruct (decide (k < length a)%nat) as [H|H].
  - rewrite take_app_le, drop_app_le, take_app_le by (rewrite ?length_drop; lia). done.
  - rewrite take_app_ge, drop_app_ge by lia. by rewrite app_assoc.
Qed.

Lemma cut_writes w m l : forall k f c, get_file w f = Some c ->
  exists j, do_ops f (cut k m (writes w (length c) l)) = set_file w (Some (c ++ take j (concat l))) f.
Proof.
  assert (Hsame : forall f c, get_file w f = Some c -> f = set_file w (Some (c ++ [])) f) by (intros f c H; rewrite app_nil_r, <- H; by destruct w, f).
  induction l as [|b l IH]; intros k f c Hf; cbn [writes concat].
  - exists 0%nat. destruct k; cbn; by apply Hsame.
  - destruct k as [|k].
    + cbn [cut take drop map concat part_of app do_ops fold_left do_op]. exists (length (take m b)). rewrite Hf. unfold default, id. rewrite write_append.
      f_equal. f_equal. f_equal. rewrite take_app_le by (rewrite length_take; lia). rewrite length_take. destruct (decide (m <= length b)%nat).
      * by rewrite Nat.min_l by lia.
      * rewrite Nat.min_r, (take_ge b m), (take_ge b (length b)) by lia. done.
    + change (cut (S k) m (Write w (length c) b :: writes w (length c + length b) l)) with (Write w (length c) b :: cut k m (writes w (length c + length b) l)).
      cbn [do_ops fold_left do_op]. rewrite Hf. unfold default, id. rewrite write_append, <- length_app.
      destruct (IH k (set_file w (Some (c ++ b)) f) (c ++ b)) as [j Hj]; [apply get_set|]. exists (length b + j)%nat.
      change (fold_left do_op) with (fun l f => do_ops f l). cbn beta. rewrite Hj, set_set, <- app_assoc.
      rewrite take_app_ge by lia. by replace (length b + j - length b)%nat with j by lia.
Qed.

(** What is there before the signature is written is not valid. *)
Lemma invalid_prefix j b : invalid (take j (le_bytes 8 0 ++ b)).
Proof.
  unfold invalid. cbn [scst_pr_do_load_device_file]. set (c := take j (le_bytes 8 0 ++ b)).
  destruct ((Z.of_nat (length c) =? 0) || _); [done|]. rewrite (pt_bind_some _ _ _ true (pr_init [])) by reflexivity. cbn [negb].
  destruct (Z.ltb_spec (Z.of_nat (length c)) 20) as [|H20]; [done|]. rewrite (pt_bind_some _ _ _ 0 (pr_init [])); [done|].
  assert (Hc : c = le_bytes 8 0 ++ take (j - 8) b).
  { unfold c in *. rewrite length_take in H20. rewrite take_app_ge; [by rewrite length_le|rewrite length_le; lia]. }
  rewrite Hc, le_get_bytes by (split; vm_compute; congruence). reflexivity.
Qed.

(** Nor is a signature that is written in part. *)
Lemma invalid_sign m b : (m < 8)%nat -> invalid (take m (le_bytes 8 SCST_PR_FILE_SIGN) ++ drop m (le_bytes 8 0) ++ b).
Proof.
  intros Hm. unfold invalid. cbn [scst_pr_do_load_device_file]. set (c := take m _ ++ _).
  destruct ((Z.of_nat (length c) =? 0) || _); [done|]. rewrite (pt_bind_some _ _ _ true (pr_init [])) by reflexivity. cbn [negb].
  destruct (Z.of_nat (length c) <? 20); [done|].
  assert (Hg : exists s, le_get 8 c 0 = Some s /\ (s =? SCST_PR_FILE_SIGN) = false).
  { unfold c. do 8 (destruct m as [|m]; [eexists; split; reflexivity|]). lia. }
  destruct Hg as (s & Es & Hne). rewrite (pt_bind_some _ _ _ s (pr_init [])) by (by rewrite Es). by rewrite Hne.
Qed.

Lemma cut_save k m d f : let f' := do_ops f (cut k m (save_ops d)) in
  pr_file_name1 f' = pr_file_name1 f /\
  (pr_file_name f' = pr_file_name f \/ (exists c, pr_file_name f' = Some c /\ invalid c) \/ pr_file_name f' = Some (image d)).
Proof.
  unfold save_ops. destruct k as [|k]; [cbn; auto|]. set (l := le_bytes 8 0 :: header_fields d ++ concat (map (reg_fields d) (registrants d))).
  change (cut (S k) m (Trunc Primary :: ?l)) with (Trunc Primary :: cut k m l).
  change (cut (S k) m (Trunc Primary :: writes Primary 0 l ++ [Write Primary 0 (le_bytes 8 SCST_PR_FILE_SIGN)])) with
    (Trunc Primary :: cut k m (writes Primary 0 l ++ [Write Primary 0 (le_bytes 8 SCST_PR_FILE_SIGN)])).
  cbn [do_ops fold_left]. change (fold_left do_op) with (fun l f => do_ops f l). cbn beta. set (f0 := do_op f (Trunc Primary)).
  assert (Hf0 : get_file Primary f0 = Some []) by reflexivity. rewrite cut_app. destruct (decide _) as [Hk|Hk].
  - destruct (cut_writes Primary m l k f0 [] Hf0) as [j Hj]. cbn [length app] in Hj. rewrite Hj. split; [done|]. right. left. eexists. split; [reflexivity|].
    unfold l. rewrite concat_fields. apply invalid_prefix.
  - rewrite do_ops_app. pose proof (do_writes Primary l f0 [] Hf0) as Hw. cbn [length app] in Hw. rewrite Hw. unfold l. rewrite concat_fields.
    set (f1 := set_file Primary (Some (le_bytes 8 0 ++ body d)) f0). destruct (k - _)%nat as [|k'].
    + cbn [cut take drop map concat part_of app do_ops fold_left do_op]. split; [done|]. right.
      change (pr_file_name (set_file Primary ?c f1)) with c. cbn [get_file f1 set_file pr_file_name]. unfold default, id, write_bytes.
      rewrite !take_0. cbn [app Nat.add]. destruct (decide (m < 8)%nat) as [Hm|Hm]; [left|right].
      * eexists. split; [reflexivity|]. rewrite length_take, length_le, Nat.min_l by lia. rewrite drop_app_le by (rewrite length_le; lia). by apply invalid_sign.
      * rewrite (take_ge _ m) by (rewrite length_le; lia). rewrite length_le. unfold image. by rewrite drop_app_length' by done.
    + assert (cut (S k') m [Write Primary 0 (le_bytes 8 SCST_PR_FILE_SIGN)] = [Write Primary 0 (le_bytes 8 SCST_PR_FILE_SIGN)]) as ->.
      { unfold cut. cbn. by rewrite take_nil, drop_nil. }
      cbn [do_ops fold_left do_op]. split; [done|]. right. right. cbn [set_file f1 get_file pr_file_name]. unfold default, id, write_bytes, image.
      rewrite !take_0. cbn [app Nat.add]. rewrite length_le. by rewrite drop_app_length' by done.
Qed.

(** C12: A save may stop after any byte of any of its operations: when the first file
    was that of an earlier save, a device that comes up afterwards loads either
    what that save wrote or what this one writes, and satisfies the invariant. *)
Theorem pr_save_crash_safe d0 d f k m : storable d0 -> storable d -> pr_aptpl d = true -> registrants d <> [] -> pr_file_name f = Some (image d0) ->
  exists d', scst_pr_load_device_file (do_ops f (cut k m (scst_pr_sync_device_file CopyDone SaveDone d f))) (pr_init []) = Some (0, d') /\
    (view d' = view d0 \/ view d' = view d) /\ wf d'.
Proof.
  intros H0 Hs Ha Hne Hf. unfold scst_pr_sync_device_file, list_empty. rewrite Ha. destruct (registrants d) as [|p l] eqn:El; [done|]. cbn [negb orb].
  assert (Hold : exists d', Some (0, loaded d0 (registrants d0)) = Some (0, d') /\ (view d' = view d0 \/ view d' = view d) /\ wf d').
  { eexists. split; [reflexivity|]. split; [left; by apply view_loaded|by apply wf_loaded]. }
  unfold scst_copy_file. rewrite Hf, cut_app. destruct (decide _) as [Hk|Hk].
  - rewrite (load_primary d0); [done|done|]. cbn in Hk. destruct k as [|[|k]]; [cbn; done|cbn; done|lia].
  - rewrite do_ops_app. set (f1 := do_ops f [Trunc Backup; Write Backup 0 (image d0)]).
    assert (F1 : pr_file_name f1 = Some (image d0) /\ pr_file_name1 f1 = Some (image d0)).
    { split; [exact Hf|]. exact (f_equal Some (write_append [] (image d0))). }
    destruct F1 as [Fp Fb]. destruct (cut_save (k - length [Trunc Backup; Write Backup 0 (image d0)]) m d f1) as [Eb [Ep|[(c & Ep & Hc)|Ep]]].
    + rewrite (load_primary d0); [done|done|]. by rewrite Ep.
    + rewrite (load_backup d0 _ c); [done|done|done|done|]. by rewrite Eb.
    + rewrite (load_primary d); [|done|done]. eexists. split; [reflexivity|]. split; [right; by apply view_loaded|by apply wf_loaded].
Qed.

(** ** A run *)

Definition ex_saved : pr_dev := ex7 <|pr_aptpl := true|>.
Definition ex_before : pr_dev := ex6 <|pr_aptpl := true|>.

Lemma ex_storable d : wf d -> registrants d = [(1, mkReg (ex_tid 1) 1 17 1 0); (2, mkReg (ex_tid 2) 1 34 2 0)] -> storable d.
Proof.
  intros Hd Er. assert (Hall : Forall (fun p => 0 <= rel_tgt_id p.2 < 65536 /\ 0 <= key p.2 < 18446744073709551616) (registrants d)).
  { rewrite Er. repeat (constructor; [cbn; lia|]). constructor. }
  rewrite Forall_forall in Hall. constructor; [done|intros p Hp; by apply Hall|intros p Hp; by apply Hall|].
  unfold image, body, header_fields. rewrite Er. vm_compute. reflexivity.
Qed.

Lemma ex_saved_storable : storable ex_saved.
Proof. apply ex_storable; [exact (reach_wf _ _ _ ex7_reach)|vm_compute; reflexivity]. Qed.

Lemma ex_before_storable : storable ex_before.
Proof. apply ex_storable; [exact ex6_wf|vm_compute; reflexivity]. Qed.

(** The first initiator reserves. *)
Lemma pr_file_roundtrip_witness : exists f' d'',
  scst_persistent_reserve_out_files [mkTgtt (Some (fun _ => 0)) [1]] false false 1 PR_RESERVE 3 (ex_parm 17 0 0) 24 SAM_STAT_GOOD CopyDone SaveDone ex_before (mkFs None None)
    = Some (Some SAM_STAT_GOOD, ex_saved, f') /\
  scst_pr_load_device_file f' (pr_init []) = Some (0, d'') /\ view d'' = view ex_saved.
Proof.
  eexists. destruct (pr_file_roundtrip [mkTgtt (Some (fun _ => 0)) [1]] false false 1 PR_RESERVE 3 (ex_parm 17 0 0) 24 SAM_STAT_GOOD CopyDone SaveDone ex_before (mkFs None None)
    (Some SAM_STAT_GOOD) ex_saved (do_ops (mkFs None None) (scst_pr_sync_device_file CopyDone SaveDone ex_saved (mkFs None None)))) as (d'' & E & V & _);
    [lia|exact ex_saved_storable|vm_compute; reflexivity|].
  exists d''. split; [vm_compute; reflexivity|]. split; [exact E|exact V].
Defined.

(** Power is lost in the 30th byte of the new file, after the copy. *)
Lemma pr_save_crash_safe_witness : exists d',
  scst_pr_load_device_file (do_ops (mkFs (Some (image ex_before)) None) (cut 11 7 (scst_pr_sync_device_file CopyDone SaveDone ex_saved (mkFs (Some (image ex_before)) None)))) (pr_init []) = Some (0, d') /\
  (view d' = view ex_before \/ view d' = view ex_saved) /\ wf d'.
Proof. apply (pr_save_crash_safe ex_before ex_saved (mkFs (Some (image ex_before)) None) 11 7 ex_before_storable ex_saved_storable); [reflexivity|discriminate|reflexivity]. Defined.

(** After a loss of power in a save the device runs on the backup, but the first file
    stays as it is.  The next save copies it over the backup: when power is lost
    again, nothing is left to load. *)
Definition ex_crashed : fs := do_ops (mkFs (Some (image ex_before)) None) (cut 11 7 (scst_pr_sync_device_file CopyDone SaveDone ex_saved (mkFs (Some (image ex_before)) None))).

Example second_crash_loses :
  option_map fst (scst_pr_load_device_file ex_crashed (pr_init [])) = Some 0 /\
  option_map fst (scst_pr_load_device_file (do_ops ex_crashed (cut 11 7 (scst_pr_sync_device_file CopyDone SaveDone ex_saved ex_crashed))) (pr_init [])) = Some (- EINVAL).
Proof. split; vm_compute; reflexivity. Qed.

(** That the copy fails is not noticed.  When the disk takes no more writes, the save
    fails as well: the first file is removed, the backup was cut before, and nothing
    is left to load. *)
Definition ex_failed : fs :=
  do_ops (mkFs (Some (image ex_before)) (Some (image ex_before))) 
    (scst_pr_sync_device_file (CopyCut 0) (SaveFailed 1 0) ex_saved (mkFs (Some (image ex_before)) (Some (image ex_before)))).

Example failed_writes_lose : option_map fst (scst_pr_load_device_file ex_failed (pr_init [])) = Some (- EINVAL).
Proof. vm_compute. reflexivity. Qed.

(** The file ends in the middle of a record: its first byte is there, and the size of
    the transport id is read from behind the end of the buffer. *)
Example load_reads_behind : scst_pr_do_load_device_file (Some (image (pr_init []) ++ [0])) (pr_init []) = None.
Proof. vm_compute. reflexivity. Qed.
