(* ===== verification/PresLock.v ===== *)
(** * The lock of the reservations

    Models the lock of [cg/scst/src/scst_pres.h] between the commands that look at
    a reservation and those that change it.  A command is counted as a reader from
    when it is let on the device ([scst_check_blocked_dev] of [scst_targ.c]) until
    [__scst_check_local_events] has looked; only when a writer is active it takes
    the mutex.  A writer takes the mutex, announces itself and waits until no
    reader is counted.

    Commands are processes that take turns; the memory barriers of the code make
    its reads and writes happen in their order.

    The lock protects what is done between [scst_pr_read_lock] and
    [scst_pr_read_unlock], and between [scst_pr_write_lock] and
    [scst_pr_write_unlock].  Two reads of the code are outside it and happen at
    any time, also while a writer is active: [__scst_check_local_events] reads
    [dev->pr_is_set] to decide whether to call [scst_pr_is_cmd_allowed], which
    takes the lock, and [scst_persistent_reserve_out_local] reads
    [tgt_dev->registrant] before it takes the lock to write. *)

From S2P Require Import Prelude.

(** Where a process is. *)
Inductive pc : Type :=
| Idle
| Counted          (** counted as a reader *)
| SawWriter        (** in [scst_pr_read_lock], has seen a writer, still counted *)
| WaitMutex        (** in [scst_pr_read_lock], waits for the mutex *)
| Reading          (** looks at the reservation, is counted *)
| ReadingLocked    (** looks at the reservation, has the mutex *)
| WriterLocked     (** in [scst_pr_write_lock], has the mutex *)
| WaitReaders      (** in the loop of [scst_pr_write_lock] *)
| Writing          (** changes the reservation *)
| WriterLeaving.   (** in [scst_pr_write_unlock], still has the mutex *)

#[export] Instance pc_eq_dec : EqDecision pc.
Proof. solve_decision. Defined.

Record lock : Type := mkLock {
  pr_readers_count : Z;
  pr_writer_active : bool;
  dev_pr_mutex : bool
}.

#[export] Instance set_pr_readers_count : Setter pr_readers_count := fun v k =>
  mkLock v (pr_writer_active k) (dev_pr_mutex k).
#[export] Instance set_pr_writer_active : Setter pr_writer_active := fun v k =>
  mkLock (pr_readers_count k) v (dev_pr_mutex k).
#[export] Instance set_dev_pr_mutex : Setter dev_pr_mutex := fun v k =>
  mkLock (pr_readers_count k) (pr_writer_active k) v.

Definition scst_inc_pr_readers_count (k : lock) : lock := k <|pr_readers_count := pr_readers_count k + 1|>.
Definition scst_dec_pr_readers_count (k : lock) : lock := k <|pr_readers_count := pr_readers_count k - 1|>.

(** One step of a process: where it is then, and what becomes of the lock.  A
    process that must wait has no step.  [start] says what an idle process
    begins: to read or to write. *)
Definition scst_pr_read_lock (p : pc) (k : lock) : option (pc * lock) :=
  match p with
  | Counted => Some (if pr_writer_active k then SawWriter else Reading, k)
  | SawWriter => Some (WaitMutex, scst_dec_pr_readers_count k)
  | WaitMutex => if dev_pr_mutex k then None else Some (ReadingLocked, k <|dev_pr_mutex := true|>)
  | _ => None
  end.

Definition scst_pr_read_unlock (p : pc) (k : lock) : option (pc * lock) :=
  match p with
  | ReadingLocked => Some (Idle, k <|dev_pr_mutex := false|>)
  | Reading => Some (Idle, scst_dec_pr_readers_count k)
  | _ => None
  end.

Definition scst_pr_write_lock (p : pc) (k : lock) : option (pc * lock) :=
  match p with
  | Idle => if dev_pr_mutex k then None else Some (WriterLocked, k <|dev_pr_mutex := true|>)
  | WriterLocked => Some (WaitReaders, k <|pr_writer_active := true|>)
  | WaitReaders => if pr_readers_count k =? 0 then Some (Writing, k) else None
  | _ => None
  end.

Definition scst_pr_write_unlock (p : pc) (k : lock) : option (pc * lock) :=
  match p with
  | Writing => Some (WriterLeaving, k <|pr_writer_active := false|>)
  | WriterLeaving => Some (Idle, k <|dev_pr_mutex := false|>)
  | _ => None
  end.

(** A process that has started goes on.  What a counted one does depends on its
    unlocked read of [dev->pr_is_set]: when it saw the flag set it goes on to
    [scst_pr_read_lock], when it saw it clear it is no longer counted and goes on
    without the lock ([st_unlocked]).  The flag is not part of the lock, so both
    are possible in every state, also while another process is [Writing]. *)
Inductive pc_step (p : pc) (k : lock) : pc -> lock -> Prop :=
| st_read_lock p' k' : scst_pr_read_lock p k = Some (p', k') -> pc_step p k p' k'
| st_read_unlock p' k' : scst_pr_read_unlock p k = Some (p', k') -> pc_step p k p' k'
| st_write_lock p' k' : p <> Idle -> scst_pr_write_lock p k = Some (p', k') -> pc_step p k p' k'
| st_write_unlock p' k' : scst_pr_write_unlock p k = Some (p', k') -> pc_step p k p' k'
| st_unlocked : p = Counted -> pc_step p k Idle (scst_dec_pr_readers_count k).

(** An idle one becomes a reader or a writer. *)
Inductive pc_start (k : lock) : pc -> lock -> Prop :=
| st_count : pc_start k Counted (scst_inc_pr_readers_count k)
| st_write p' k' : scst_pr_write_lock Idle k = Some (p', k') -> pc_start k p' k'.

Definition sys : Type := list pc * lock.

Inductive sys_go : sys -> sys -> Prop :=
| go_one l k i p p' k' : l !! i = Some p -> pc_step p k p' k' -> sys_go (l, k) (<[i := p']> l, k').

Inductive sys_step : sys -> sys -> Prop :=
| step_go s s' : sys_go s s' -> sys_step s s'
| step_start l k i p' k' : l !! i = Some Idle -> pc_start k p' k' -> sys_step (l, k) (<[i := p']> l, k').

Definition sys_init (n : nat) : sys := (replicate n Idle, mkLock 0 false false).

(** ** The invariant *)

Definition is_counted (p : pc) : bool := match p with Counted | SawWriter | Reading => true | _ => false end.
Definition has_mutex (p : pc) : bool := match p with ReadingLocked | WriterLocked | WaitReaders | Writing | WriterLeaving => true | _ => false end.
Definition announced (p : pc) : bool := match p with WaitReaders | Writing => true | _ => false end.

Definition number_of (f : pc -> bool) (l : list pc) : Z := Z.of_nat (length (List.filter f l)).

Definition lock_ok (s : sys) : Prop :=
  pr_readers_count s.2 = number_of is_counted s.1 /\
  (if dev_pr_mutex s.2 then 1 else 0) = number_of has_mutex s.1 /\
  (if pr_writer_active s.2 then 1 else 0) = number_of announced s.1 /\
  (Writing ∈ s.1 -> Reading ∉ s.1).

Lemma number_insert f l i p p' : l !! i = Some p ->
  number_of f (<[i := p']> l) = number_of f l - (if f p then 1 else 0) + (if f p' then 1 else 0).
Proof.
  intros Hi. rewrite <- (take_drop_middle l i p Hi) at 2. rewrite insert_take_drop by (by eapply lookup_lt_Some). unfold number_of.
  rewrite !List.filter_app, !length_app. cbn. destruct (f p), (f p'); cbn; lia.
Qed.

Lemma number_one f l i p : l !! i = Some p -> f p = true -> 1 <= number_of f l.
Proof.
  intros Hi Hf. rewrite <- (take_drop_middle l i p Hi). unfold number_of. rewrite List.filter_app, length_app. cbn. rewrite Hf. cbn. lia.
Qed.

(** Two processes count twice. *)
Lemma number_two f l i j p q : i <> j -> l !! i = Some p -> l !! j = Some q -> f p = true -> f q = true -> f Idle = false -> 2 <= number_of f l.
Proof.
  intros Hij Hi Hj Hp Hq H0. pose proof (number_insert f l i p Idle Hi) as H. rewrite Hp, H0 in H.
  pose proof (number_one f (<[i := Idle]> l) j q) as H1. rewrite list_lookup_insert_ne in H1 by done. specialize (H1 Hj Hq). lia.
Qed.

Lemma elem_insert (l : list pc) i p x : x ∈ <[i := p]> l -> x = p \/ x ∈ l.
Proof.
  intros [j Hj]%list_elem_of_lookup. destruct (decide (i = j)) as [<-|Hne].
  - destruct (decide (i < length l)%nat) as [Hl|Hl].
    + rewrite list_lookup_insert_eq in Hj by done. left. congruence.
    + rewrite list_insert_ge in Hj by lia. right. apply list_elem_of_lookup. eauto.
  - rewrite list_lookup_insert_ne in Hj by done. right. apply list_elem_of_lookup. eauto.
Qed.

(** One process changes, and the others do not look while one writes. *)
Lemma lock_ok_insert l k i p p' k' : lock_ok (l, k) -> l !! i = Some p ->
  pr_readers_count k' = pr_readers_count k - (if is_counted p then 1 else 0) + (if is_counted p' then 1 else 0) ->
  (if dev_pr_mutex k' then 1 else 0) = (if dev_pr_mutex k then 1 else 0) - (if has_mutex p then 1 else 0) + (if has_mutex p' then 1 else 0) ->
  (if pr_writer_active k' then 1 else 0) = (if pr_writer_active k then 1 else 0) - (if announced p then 1 else 0) + (if announced p' then 1 else 0) ->
  (p' = Reading -> Writing ∉ l) -> (p' = Writing -> Reading ∉ l) -> lock_ok (<[i := p']> l, k').
Proof.
  intros (H1 & H2 & H3 & H4) Hi E1 E2 E3 Hr Hw. cbn [fst snd] in *. unfold lock_ok. cbn [fst snd]. rewrite !(number_insert _ _ _ _ _ Hi). split_and!; try lia.
  intros [HW|HW]%elem_insert [HR|HR]%elem_insert; [congruence|by apply Hw|by apply Hr|by apply H4].
Qed.

Lemma no_elem f l p : number_of f l = 0 -> f p = true -> p ∉ l.
Proof. intros H0 Hf Hp. apply list_elem_of_lookup in Hp as [i Hi]. pose proof (number_one f l i p Hi Hf). lia. Qed.

(** A process that looks can not begin while another writes, nor the other way. *)
Lemma announced_active l k p : lock_ok (l, k) -> p ∈ l -> announced p = true -> pr_writer_active k = true.
Proof.
  intros (_ & _ & H3 & _) [i Hi]%list_elem_of_lookup Hp. cbn [fst snd] in *. pose proof (number_one announced l i p Hi Hp). destruct (pr_writer_active k); [done|lia].
Qed.

Lemma number_some f l : 1 <= number_of f l -> exists i p, l !! i = Some p /\ f p = true.
Proof.
  unfold number_of. intros H. destruct (List.filter f l) as [|p r] eqn:E; [cbn in H; lia|].
  assert (Hp : In p (List.filter f l)) by (rewrite E; by left). apply List.filter_In in Hp as [Hp Hf]. apply list_elem_of_In, list_elem_of_lookup in Hp as [i Hi]. eauto.
Qed.

(** Only one process has the mutex. *)
Lemma mutex_alone l k i j p q : lock_ok (l, k) -> i <> j -> l !! i = Some p -> l !! j = Some q -> has_mutex p = true -> has_mutex q = true -> False.
Proof.
  intros (_ & H2 & _) Hij Hi Hj Hp Hq. cbn [fst snd] in H2. pose proof (number_two has_mutex l i j p q Hij Hi Hj Hp Hq eq_refl). destruct (dev_pr_mutex k); lia.
Qed.

Lemma alone_inactive l k i p : lock_ok (l, k) -> l !! i = Some p -> has_mutex p = true -> announced p = false -> pr_writer_active k = false.
Proof.
  intros Hok Hi Hp Ha. destruct (pr_writer_active k) eqn:E; [exfalso|done]. pose proof Hok as (_ & _ & H3 & _). cbn [fst snd] in H3. rewrite E in H3.
  destruct (number_some announced l) as (j & q & Hj & Hq); [lia|]. eapply (mutex_alone l k i j p q); eauto; [|by destruct q]. intros ->. congruence.
Qed.

(** Where a step leads, and what it does to the lock. *)
Lemma lock_ok_go l k i p p' k' : lock_ok (l, k) -> l !! i = Some p -> pc_step p k p' k' -> lock_ok (<[i := p']> l, k').
Proof.
  intros Hok Hi Hst. pose proof Hok as (H1 & H2 & H3 & H4). cbn [fst snd] in *.
  pose proof (number_one has_mutex l i p Hi) as Hm. pose proof (number_one announced l i p Hi) as Ha.
  destruct Hst as [p' k' E|p' k' E|p' k' Hne E|p' k' E| ->]; [..|apply (lock_ok_insert _ _ _ _ _ _ Hok Hi); cbn; done || lia]; destruct p; cbn in E; try done.
  - injection E as <- <-. apply (lock_ok_insert _ _ _ _ _ _ Hok Hi); destruct (pr_writer_active k) eqn:Ea; cbn; try done; try lia.
    intros _ HW. rewrite (announced_active l k Writing Hok HW) in Ea; done.
  - injection E as <- <-. apply (lock_ok_insert _ _ _ _ _ _ Hok Hi); cbn; done || lia.
  - destruct (dev_pr_mutex k) eqn:Em; [done|]. injection E as <- <-. apply (lock_ok_insert _ _ _ _ _ _ Hok Hi); cbn; rewrite ?Em; done || lia.
  - injection E as <- <-. apply (lock_ok_insert _ _ _ _ _ _ Hok Hi); cbn; done || lia.
  - injection E as <- <-. apply (lock_ok_insert _ _ _ _ _ _ Hok Hi); cbn in *; try done; try lia. destruct (dev_pr_mutex k); [done|]. specialize (Hm eq_refl). lia.
  - injection E as <- <-. apply (lock_ok_insert _ _ _ _ _ _ Hok Hi); cbn in *; try done; try lia. rewrite (alone_inactive l k i WriterLocked Hok Hi); done.
  - destruct (Z.eqb_spec (pr_readers_count k) 0) as [E0|]; [|done]. injection E as <- <-. apply (lock_ok_insert _ _ _ _ _ _ Hok Hi); cbn; try done; try lia.
    intros _. apply (no_elem is_counted); [congruence|done].
  - injection E as <- <-. apply (lock_ok_insert _ _ _ _ _ _ Hok Hi); cbn in *; try done; try lia. destruct (pr_writer_active k); [done|]. specialize (Ha eq_refl). lia.
  - injection E as <- <-. apply (lock_ok_insert _ _ _ _ _ _ Hok Hi); cbn in *; try done; try lia. destruct (dev_pr_mutex k); [done|]. specialize (Hm eq_refl). lia.
Qed.

Lemma lock_ok_step s s' : lock_ok s -> sys_step s s' -> lock_ok s'.
Proof.
  intros Hok Hst. destruct Hst as [s1 s1' Hgo|l k i p' k' Hi Hst]; [destruct Hgo; eapply lock_ok_go; eassumption|]. destruct Hst as [|p' k' E].
  - apply (lock_ok_insert _ _ _ _ _ _ Hok Hi); cbn; done || lia.
  - cbn in E. destruct (dev_pr_mutex k) eqn:Em; [done|]. injection E as <- <-. apply (lock_ok_insert _ _ _ _ _ _ Hok Hi); cbn; rewrite ?Em; done || lia.
Qed.

Lemma number_replicate f n : f Idle = false -> number_of f (replicate n Idle) = 0.
Proof. intros H. unfold number_of. induction n as [|n IH]; cbn; [done|]. by rewrite H. Qed.

Lemma lock_ok_reach n s : rtc sys_step (sys_init n) s -> lock_ok s.
Proof.
  intros H. remember (sys_init n) as s0 eqn:E. assert (H0 : lock_ok s0).
  { subst. unfold lock_ok. cbn. rewrite !number_replicate by done. split_and!; try done. intros Hin. apply elem_of_replicate in Hin as [? _]. done. }
  clear E. induction H as [|s0 s1 s2 H1 _ IH]; [done|]. apply IH. by eapply lock_ok_step.
Qed.

(** C11: However commands take turns, the counter of the readers is the number of
    commands that are counted, so never negative, and while one is between
    [scst_pr_write_lock] and [scst_pr_write_unlock], no other one is, nor between
    [scst_pr_read_lock] and [scst_pr_read_unlock]. *)
Theorem pr_lock_exclusive n s : rtc sys_step (sys_init n) s ->
  pr_readers_count s.2 = number_of is_counted s.1 /\ 0 <= pr_readers_count s.2 /\
  forall i j p, s.1 !! i = Some Writing -> i <> j -> s.1 !! j = Some p -> p <> Writing /\ p <> Reading /\ p <> ReadingLocked.
Proof.
  intros Hr. pose proof (lock_ok_reach n s Hr) as Hok. destruct s as [l k]. pose proof Hok as (H1 & _ & _ & H4). cbn [fst snd] in *.
  split; [done|]. split; [rewrite H1; unfold number_of; lia|]. intros i j p Hi Hij Hj. split_and!; intros ->.
  - by eapply (mutex_alone l k i j).
  - apply H4; apply list_elem_of_lookup; eauto.
  - by eapply (mutex_alone l k i j).
Qed.

(** ** Nobody waits for ever *)

(** How many steps a process may still need. *)
Definition to_go (p : pc) : nat :=
  match p with
  | Idle => 0
  | Reading | ReadingLocked | WriterLeaving => 1
  | WaitMutex | Writing => 2
  | SawWriter | WaitReaders => 3
  | Counted | WriterLocked => 4
  end.

Definition total_to_go (l : list pc) : nat := sum_list_with to_go l.

Lemma pc_step_less p k p' k' : pc_step p k p' k' -> (to_go p' < to_go p)%nat.
Proof.
  intros [p1 k1 E|p1 k1 E|p1 k1 Hne E|p1 k1 E|E]; destruct p; cbn in E; try done; repeat case_if_in E; try done; try (injection E as <- <-); cbn; try lia.
Qed.

Lemma total_insert l i p p' : l !! i = Some p -> (total_to_go (<[i := p']> l) + to_go p = total_to_go l + to_go p')%nat.
Proof.
  intros Hi. unfold total_to_go. rewrite <- (take_drop_middle l i p Hi) at 2. rewrite insert_take_drop by (by eapply lookup_lt_Some).
  rewrite !sum_list_with_app. cbn. lia.
Qed.

Lemma sys_go_less s s' : sys_go s s' -> (total_to_go s'.1 < total_to_go s.1)%nat.
Proof. intros [l k i p p' k' Hi Hst]. pose proof (total_insert l i p p' Hi). apply pc_step_less in Hst. cbn [fst]. lia. Qed.

(** A process that has not the mutex and need not wait for it. *)
Lemma free_step l k i p : l !! i = Some p -> is_counted p = true \/ p = WaitMutex /\ dev_pr_mutex k = false -> exists s', sys_go (l, k) s'.
Proof.
  intros Hi [Hp|[-> Hm]].
  - destruct p; try done; eexists; (eapply go_one; [exact Hi|]); [apply st_read_lock|apply st_read_lock|apply st_read_unlock]; reflexivity.
  - eexists. eapply go_one; [exact Hi|]. apply st_read_lock. cbn. by rewrite Hm.
Qed.

Lemma someone_goes l k : lock_ok (l, k) -> (exists p, p ∈ l /\ p <> Idle) -> exists s', sys_go (l, k) s'.
Proof.
  intros Hok (p & Hp & Hne). pose proof Hok as (H1 & H2 & _). cbn [fst snd] in *. destruct (dev_pr_mutex k) eqn:Em.
  - destruct (number_some has_mutex l) as (i & q & Hi & Hq); [lia|].
    destruct q; try done; try (by eexists; eapply go_one; [exact Hi|]; first [apply st_read_unlock; reflexivity|apply st_write_lock; [done|reflexivity]|apply st_write_unlock; reflexivity]).
    destruct (Z.eqb_spec (pr_readers_count k) 0) as [E0|E0].
    + eexists. eapply go_one; [exact Hi|]. apply st_write_lock; [done|]. cbn. by rewrite E0.
    + destruct (number_some is_counted l) as (j & q & Hj & Hc); [unfold number_of in *; lia|]. eapply free_step; eauto.
  - apply list_elem_of_lookup in Hp as [i Hi]. destruct (is_counted p) eqn:Ec; [eapply free_step; eauto|].
    destruct (has_mutex p) eqn:Eh; [pose proof (number_one has_mutex l i p Hi Eh); lia|]. destruct p; try done. eapply free_step; eauto.
Qed.

(** C38: There is no deadlock and no endless wait: whenever some command is at work, one
    of them can go on, and if no new one starts then after at most four steps for
    each of them all are done. *)
Theorem pr_lock_drains n s : rtc sys_step (sys_init n) s ->
  (forall m s', nsteps sys_go m s s' -> (m <= 4 * length s.1)%nat) /\
  (exists s', rtc sys_go s s' /\ Forall (fun p => p = Idle) s'.1 /\ pr_readers_count s'.2 = 0 /\ dev_pr_mutex s'.2 = false).
Proof.
  intros Hr. pose proof (lock_ok_reach n s Hr) as Hok. split.
  - assert (Hb : (total_to_go s.1 <= 4 * length s.1)%nat).
    { unfold total_to_go. clear. induction s.1 as [|p l IH]; cbn; [lia|]. assert (to_go p <= 4)%nat by (destruct p; cbn; lia). lia. }
    intros m s' Hm. assert (m + total_to_go s'.1 <= total_to_go s.1)%nat; [|lia].
    clear Hb Hr Hok. induction Hm as [|m s1 s2 s3 H1 _ IH]; [lia|]. apply sys_go_less in H1. lia.
  - clear Hr. remember (total_to_go s.1) as m eqn:Em. revert s Em Hok. induction (lt_wf m) as [m _ IH]. intros [l k] -> Hok. cbn [fst] in IH.
    destruct (decide (Forall (fun p => p = Idle) l)) as [Hall|Hall].
    + exists (l, k). split; [constructor|]. split; [done|]. destruct Hok as (H1 & H2 & _). cbn [fst snd] in *.
      assert (Hz : forall f, f Idle = false -> number_of f l = 0).
      { intros f Hf. destruct (Z.leb_spec 1 (number_of f l)) as [H|H]; [|unfold number_of in *; lia]. destruct (number_some f l H) as (i & p & Hi & Hp).
        rewrite Forall_lookup in Hall. rewrite (Hall i p Hi) in Hp. congruence. }
      rewrite Hz in H1, H2 by done. split; [done|]. by destruct (dev_pr_mutex k).
    + apply not_Forall_Exists in Hall; [|apply _]. apply Exists_exists in Hall as (p & Hp & Hne).
      destruct (someone_goes l k Hok) as [s1 Hgo]; [eauto|]. destruct (IH (total_to_go s1.1) (sys_go_less _ _ Hgo) s1 eq_refl) as (s' & Hr & H).
      { eapply lock_ok_step; [exact Hok|by apply step_go]. }
      exists s'. split; [|done]. by eapply rtc_l.
Qed.

(** ** A run

    A reader is counted and looks; a writer announces itself and waits; the reader
    leaves and the writer goes on. *)

Lemma ex_writer_reach : rtc sys_step (sys_init 2) ([Idle; Writing], mkLock 0 true true).
Proof.
  eapply rtc_l; [eapply (step_start _ _ 0); [reflexivity|apply st_count]|].
  eapply rtc_l; [apply step_go; eapply (go_one _ _ 0); [reflexivity|by apply st_read_lock]|].
  eapply rtc_l; [eapply (step_start _ _ 1); [reflexivity|by apply st_write]|].
  eapply rtc_l; [apply step_go; eapply (go_one _ _ 1); [reflexivity|by apply st_write_lock]|].
  eapply rtc_l; [apply step_go; eapply (go_one _ _ 0); [reflexivity|by apply st_read_unlock]|].
  eapply rtc_l; [apply step_go; eapply (go_one _ _ 1); [reflexivity|by apply st_write_lock]|]. constructor.
Qed.

(** Commands are counted also while another one writes: what they read without the
    lock then is not protected. *)
Example unlocked_read_while_writing : exists s, rtc sys_step (sys_init 2) s /\ s.1 = [Counted; Writing] /\
  sys_step s ([Idle; Writing], mkLock 0 true true).
Proof.
  exists ([Counted; Writing], mkLock 1 true true). split; [|split; [done|]].
  - eapply rtc_r; [exact ex_writer_reach|]. apply (step_start [Idle; Writing] (mkLock 0 true true) 0); [done|apply st_count].
  - apply step_go, (go_one [Counted; Writing] (mkLock 1 true true) 0 Counted); [done|by apply st_unlocked].
Qed.

Lemma pr_lock_exclusive_witness : pr_readers_count (mkLock 0 true true) = number_of is_counted [Idle; Writing] /\ Idle <> Reading.
Proof.
  destruct (pr_lock_exclusive 2 ([Idle; Writing], mkLock 0 true true) ex_writer_reach) as (H & _ & H0).
  split; [exact H|]. exact (proj1 (proj2 (H0 1%nat 0%nat Idle eq_refl ltac:(lia) eq_refl))).
Defined.

Lemma pr_lock_drains_witness : exists s', rtc sys_go ([Idle; Writing], mkLock 0 true true) s' /\ Forall (fun p => p = Idle) s'.1.
Proof. destruct (pr_lock_drains 2 _ ex_writer_reach) as [_ (s' & H & H' & _)]. exists s'. split; [exact H|exact H']. Defined.
