(* ===== verification/Sn.v ===== *)
(** * The order of commands

    Models how SCST executes the commands of a device in their order, honouring the
    task attributes: [scst_cmd_set_sn], [scst_exec_check_sn],
    [scst_inc_expected_sn] and [scst_post_exec_sn] of [cg/scst/src/scst_targ.c],
    [__scst_check_deferred_commands_locked], [scst_unblock_deferred] and
    [scst_on_hq_cmd_response] of [scst_lib.c].

    A command gets a sequence number when it arrives; commands that may run
    together have the same one.  It is let through when its number is the expected
    one and no HEAD OF QUEUE command is around, and is deferred otherwise.  SIMPLE
    commands with the same number are counted in a slot.

    A command is a value: what is assigned when it arrives does not change
    afterwards.  Activating a command puts it on the list of a thread. *)

From S2P Require Import Prelude.

Inductive scst_cmd_queue_type : Type :=
| SCST_CMD_QUEUE_UNTAGGED
| SCST_CMD_QUEUE_SIMPLE
| SCST_CMD_QUEUE_ORDERED
| SCST_CMD_QUEUE_HEAD_OF_QUEUE.

#[export] Instance queue_type_eq_dec : EqDecision scst_cmd_queue_type.
Proof. solve_decision. Defined.

(** What is used of a [struct scst_cmd]; [tag] tells it from the others. *)
Record scst_cmd : Type := mkCmd {
  tag : Z;
  queue_type : scst_cmd_queue_type;
  sn : Z;
  sn_set : bool;
  sn_slot : option nat;
  hq_cmd_inced : bool;
  inc_expected_sn_on_done : bool
}.

#[export] Instance scst_cmd_eq_dec : EqDecision scst_cmd.
Proof. solve_decision. Defined.

(** [struct scst_order_data]; a slot is its index.  [inc_passed] has the commands
    with the flag [SCST_CMD_INC_EXPECTED_SN_PASSED]. *)
Record order_data : Type := mkOd {
  skipped_sn_list : list scst_cmd;
  deferred_cmd_list : list scst_cmd;
  hq_cmd_count : Z;
  prev_cmd_ordered : bool;
  def_cmd_count : Z;
  expected_sn : Z;
  curr_sn : Z;
  pending_simple_inc_expected_sn : Z;
  cur_sn_slot : nat;
  sn_slots : list Z;
  inc_passed : list Z
}.

#[export] Instance set_queue_type : Setter queue_type := fun v c =>
  mkCmd (tag c) v (sn c) (sn_set c) (sn_slot c) (hq_cmd_inced c) (inc_expected_sn_on_done c).
#[export] Instance set_sn : Setter sn := fun v c =>
  mkCmd (tag c) (queue_type c) v (sn_set c) (sn_slot c) (hq_cmd_inced c) (inc_expected_sn_on_done c).
#[export] Instance set_sn_set : Setter sn_set := fun v c =>
  mkCmd (tag c) (queue_type c) (sn c) v (sn_slot c) (hq_cmd_inced c) (inc_expected_sn_on_done c).
#[export] Instance set_sn_slot : Setter sn_slot := fun v c =>
  mkCmd (tag c) (queue_type c) (sn c) (sn_set c) v (hq_cmd_inced c) (inc_expected_sn_on_done c).
#[export] Instance set_hq_cmd_inced : Setter hq_cmd_inced := fun v c =>
  mkCmd (tag c) (queue_type c) (sn c) (sn_set c) (sn_slot c) v (inc_expected_sn_on_done c).
#[export] Instance set_skipped_sn_list : Setter skipped_sn_list := fun v o =>
  mkOd v (deferred_cmd_list o) (hq_cmd_count o) (prev_cmd_ordered o) (def_cmd_count o) (expected_sn o) (curr_sn o)
    (pending_simple_inc_expected_sn o) (cur_sn_slot o) (sn_slots o) (inc_passed o).
#[export] Instance set_deferred_cmd_list : Setter deferred_cmd_list := fun v o =>
  mkOd (skipped_sn_list o) v (hq_cmd_count o) (prev_cmd_ordered o) (def_cmd_count o) (expected_sn o) (curr_sn o)
    (pending_simple_inc_expected_sn o) (cur_sn_slot o) (sn_slots o) (inc_passed o).
#[export] Instance set_hq_cmd_count : Setter hq_cmd_count := fun v o =>
  mkOd (skipped_sn_list o) (deferred_cmd_list o) v (prev_cmd_ordered o) (def_cmd_count o) (expected_sn o) (curr_sn o)
    (pending_simple_inc_expected_sn o) (cur_sn_slot o) (sn_slots o) (inc_passed o).
#[export] Instance set_prev_cmd_ordered : Setter prev_cmd_ordered := fun v o =>
  mkOd (skipped_sn_list o) (deferred_cmd_list o) (hq_cmd_count o) v (def_cmd_count o) (expected_sn o) (curr_sn o)
    (pending_simple_inc_expected_sn o) (cur_sn_slot o) (sn_slots o) (inc_passed o).
#[export] Instance set_def_cmd_count : Setter def_cmd_count := fun v o =>
  mkOd (skipped_sn_list o) (deferred_cmd_list o) (hq_cmd_count o) (prev_cmd_ordered o) v (expected_sn o) (curr_sn o)
    (pending_simple_inc_expected_sn o) (cur_sn_slot o) (sn_slots o) (inc_passed o).
#[export] Instance set_expected_sn : Setter expected_sn := fun v o =>
  mkOd (skipped_sn_list o) (deferred_cmd_list o) (hq_cmd_count o) (prev_cmd_ordered o) (def_cmd_count o) v (curr_sn o)
    (pending_simple_inc_expected_sn o) (cur_sn_slot o) (sn_slots o) (inc_passed o).
#[export] Instance set_curr_sn : Setter curr_sn := fun v o =>
  mkOd (skipped_sn_list o) (deferred_cmd_list o) (hq_cmd_count o) (prev_cmd_ordered o) (def_cmd_count o) (expected_sn o) v
    (pending_simple_inc_expected_sn o) (cur_sn_slot o) (sn_slots o) (inc_passed o).
#[export] Instance set_pending : Setter pending_simple_inc_expected_sn := fun v o =>
  mkOd (skipped_sn_list o) (deferred_cmd_list o) (hq_cmd_count o) (prev_cmd_ordered o) (def_cmd_count o) (expected_sn o) (curr_sn o)
    v (cur_sn_slot o) (sn_slots o) (inc_passed o).
#[export] Instance set_cur_sn_slot : Setter cur_sn_slot := fun v o =>
  mkOd (skipped_sn_list o) (deferred_cmd_list o) (hq_cmd_count o) (prev_cmd_ordered o) (def_cmd_count o) (expected_sn o) (curr_sn o)
    (pending_simple_inc_expected_sn o) v (sn_slots o) (inc_passed o).
#[export] Instance set_sn_slots : Setter sn_slots := fun v o =>
  mkOd (skipped_sn_list o) (deferred_cmd_list o) (hq_cmd_count o) (prev_cmd_ordered o) (def_cmd_count o) (expected_sn o) (curr_sn o)
    (pending_simple_inc_expected_sn o) (cur_sn_slot o) v (inc_passed o).
#[export] Instance set_inc_passed : Setter inc_passed := fun v o =>
  mkOd (skipped_sn_list o) (deferred_cmd_list o) (hq_cmd_count o) (prev_cmd_ordered o) (def_cmd_count o) (expected_sn o) (curr_sn o)
    (pending_simple_inc_expected_sn o) (cur_sn_slot o) (sn_slots o) v.

Definition SN_SLOTS : nat := 15.

(** [-20] in an [unsigned int]. *)
Definition scst_init_order_data : order_data :=
  mkOd [] [] 0 false 0 (u32 (-20)) (u32 (-20)) 0 0 (repeat 0 SN_SLOTS) [].

(** ** Going on to the next number *)

Definition slot_value (o : order_data) (k : nat) : Z := default 0 (sn_slots o !! k).

Definition inc_expected (o : order_data) : order_data := o <|expected_sn := u32 (expected_sn o + 1)|>.

(** [atomic_dec_and_test(slot)]. *)
Definition dec_slot (k : nat) (o : order_data) : bool * order_data :=
  let v := slot_value o k - 1 in
  (v =? 0, o <|sn_slots := <[k := v]> (sn_slots o)|>).

(** What follows under [sn_lock]. *)
Definition take_pending (o : order_data) : bool * order_data :=
  if pending_simple_inc_expected_sn o =? 0 then (false, o)
  else (true, inc_expected (o <|pending_simple_inc_expected_sn := pending_simple_inc_expected_sn o - 1|>)).

Definition pass_flag (cmd : scst_cmd) (o : order_data) : order_data := o <|inc_passed := tag cmd :: inc_passed o|>.

(** Whether [expected_sn] was incremented. *)
Definition scst_inc_expected_sn (cmd : scst_cmd) (o : order_data) : bool * order_data :=
  let o := pass_flag cmd o in
  match sn_slot cmd with
  | None => (true, inc_expected o)
  | Some k =>
      let '(zero, o) := dec_slot k o in
      if negb zero then (false, o)
      else if pending_simple_inc_expected_sn o =? 0 then (false, o)
      else take_pending o
  end.

(** ** Deferred commands *)

(** The walk over the deferred commands: which stay, which are activated, which one
    is returned, and whether there was one. *)
Fixpoint deferred_loop (l : list scst_cmd) (expected : Z) (activate first : bool)
    : list scst_cmd * list scst_cmd * option scst_cmd * bool :=
  match l with
  | [] => ([], [], None, false)
  | cmd :: l =>
      if sn cmd =? expected then
        let stop := match sn_slot cmd with None => true | Some _ => false end in
        let act := if activate then [cmd] else [] in
        let res := if first && negb activate then Some cmd else None in
        if first && stop then (l, act, res, true)
        else
          let '(kept, act', res', _) := deferred_loop l expected (if first then true else activate) false in
          (kept, act ++ act', match res with Some c => Some c | None => res' end, true)
      else
        let '(kept, act, res, found) := deferred_loop l expected activate first in
        (cmd :: kept, act, res, found)
  end.

(** The first command with the number, and the list without it. *)
Fixpoint take_sn (l : list scst_cmd) (expected : Z) : option (scst_cmd * list scst_cmd) :=
  match l with
  | [] => None
  | cmd :: l => if sn cmd =? expected then Some (cmd, l) else '(c, l) ← take_sn l expected; Some (c, cmd :: l)
  end.

(** From the label [restart]; each turn takes a command off the list of the skipped
    ones, so one turn more than there are is enough.  The returned command, the
    activated ones, and the state. *)
Fixpoint restart_loop (fuel : nat) (return_first : bool) (o : order_data) : option (option scst_cmd * list scst_cmd * order_data) :=
  match fuel with
  | O => None
  | S fuel =>
      let '(kept, act, res, found) := deferred_loop (deferred_cmd_list o) (expected_sn o) (negb return_first) true in
      let n := Z.of_nat (length (deferred_cmd_list o) - length kept) in
      let o := o <|deferred_cmd_list := kept|> <|def_cmd_count := def_cmd_count o - n|> in
      if (found : bool) then Some (res, act, o)
      else
        match take_sn (skipped_sn_list o) (expected_sn o) with
        | None => Some (res, act, o)
        | Some (cmd, l) =>
            let o := o <|def_cmd_count := def_cmd_count o - 1|> <|skipped_sn_list := l|> in
            restart_loop fuel return_first (scst_inc_expected_sn cmd o).2
        end
  end.

Definition scst_check_deferred_commands_locked (return_first : bool) (o : order_data) : option (option scst_cmd * list scst_cmd * order_data) :=
  if negb (hq_cmd_count o =? 0) then Some (None, [], o)
  else restart_loop (S (length (skipped_sn_list o))) return_first o.

Definition scst_check_deferred_commands (return_first : bool) (o : order_data) : option (option scst_cmd * list scst_cmd * order_data) :=
  if def_cmd_count o =? 0 then Some (None, [], o) else scst_check_deferred_commands_locked return_first o.

Definition scst_make_deferred_commands_active (o : order_data) : option (list scst_cmd * order_data) :=
  '(_, act, o) ← scst_check_deferred_commands false o; Some (act, o).

Definition scst_inc_expected_sn_idle (o : order_data) : option (list scst_cmd * order_data) :=
  let o := inc_expected o in
  if negb (def_cmd_count o =? 0) then '(_, act, o) ← scst_check_deferred_commands_locked false o; Some (act, o)
  else Some ([], o).

(** ** Arrival *)

(** From the label [ordered]. *)
Definition set_ordered (cmd : scst_cmd) (o : order_data) : option (scst_cmd * list scst_cmd * order_data) :=
  let o := o <|curr_sn := u32 (curr_sn o + 1)|> in
  '(act, o) ← (if prev_cmd_ordered o then Some ([], o)
               else
                 let o := o <|prev_cmd_ordered := true|> in
                 if slot_value o (cur_sn_slot o) =? 0 then scst_inc_expected_sn_idle o
                 else
                   let o := o <|pending_simple_inc_expected_sn := pending_simple_inc_expected_sn o + 1|> in
                   if slot_value o (cur_sn_slot o) =? 0
                   then scst_inc_expected_sn_idle (o <|pending_simple_inc_expected_sn := pending_simple_inc_expected_sn o - 1|>)
                   else Some ([], o));
  Some (cmd <|sn := curr_sn o|> <|sn_set := true|>, act, o).

Definition take_slot (cmd : scst_cmd) (o : order_data) : scst_cmd * order_data :=
  let k := cur_sn_slot o in
  (cmd <|sn_slot := Some k|> <|sn := curr_sn o|> <|sn_set := true|>, o <|sn_slots := <[k := slot_value o k + 1]> (sn_slots o)|>).

(** The next slot; whether it is free. *)
Definition next_slot (o : order_data) : bool * order_data :=
  let k := if Nat.eqb (S (cur_sn_slot o)) SN_SLOTS then O else S (cur_sn_slot o) in
  (slot_value o k =? 0, o <|cur_sn_slot := k|>).

Definition set_simple (cmd : scst_cmd) (o : order_data) : option (scst_cmd * list scst_cmd * order_data) :=
  let simple o := let '(cmd, o) := take_slot cmd o in Some (cmd, [], o) in
  if prev_cmd_ordered o then
    let '(free, o) := if negb (slot_value o (cur_sn_slot o) =? 0) then next_slot o else (true, o) in
    if negb (free : bool) then set_ordered cmd o
    else simple (o <|curr_sn := u32 (curr_sn o + 1)|> <|prev_cmd_ordered := false|>)
  else simple o.

(** [implicit_hq]: the command has [SCST_IMPLICIT_HQ]; [restricted]: the device does not
    let commands be reordered.  The command, and which ones were activated. *)
Definition scst_cmd_set_sn (implicit_hq restricted : bool) (cmd : scst_cmd) (o : order_data) : option (scst_cmd * list scst_cmd * order_data) :=
  let hq cmd := bool_decide (queue_type cmd = SCST_CMD_QUEUE_HEAD_OF_QUEUE) in
  let cmd := if implicit_hq && bool_decide (queue_type cmd = SCST_CMD_QUEUE_SIMPLE) then cmd <|queue_type := SCST_CMD_QUEUE_HEAD_OF_QUEUE|> else cmd in
  let cmd := if restricted && negb (hq cmd) then cmd <|queue_type := SCST_CMD_QUEUE_ORDERED|> else cmd in
  match queue_type cmd with
  | SCST_CMD_QUEUE_SIMPLE => set_simple cmd o
  | SCST_CMD_QUEUE_UNTAGGED => set_simple (cmd <|queue_type := SCST_CMD_QUEUE_SIMPLE|>) o
  | SCST_CMD_QUEUE_ORDERED => set_ordered cmd o
  | SCST_CMD_QUEUE_HEAD_OF_QUEUE => Some (cmd <|hq_cmd_inced := true|>, [], o <|hq_cmd_count := hq_cmd_count o + 1|>)
  end.

(** ** Execution *)

(** What becomes of a command that is looked at. *)
Inductive sn_check : Type := Exec | Defer | AbnormalDone.

Definition scst_exec_check_sn (aborted : bool) (cmd : scst_cmd) (o : order_data) : sn_check * order_data :=
  let out_of_order := negb (sn cmd =? expected_sn o) || (0 <? hq_cmd_count o) in
  if bool_decide (queue_type cmd = SCST_CMD_QUEUE_HEAD_OF_QUEUE) then (Exec, o)
  else if out_of_order then
    if aborted then (AbnormalDone, o)
    else (Defer, o <|def_cmd_count := def_cmd_count o + 1|> <|deferred_cmd_list := deferred_cmd_list o ++ [cmd]|>)
  else (Exec, o).

(** After a command was sent: the one to send next, and the activated ones; with
    [make_active] false. *)
Definition scst_post_exec_sn (cmd : scst_cmd) (o : order_data) : option (option scst_cmd * list scst_cmd * order_data) :=
  if negb (inc_expected_sn_on_done cmd) && sn_set cmd then
    let '(rc, o) := scst_inc_expected_sn cmd o in
    if negb rc then Some (None, [], o) else scst_check_deferred_commands true o
  else Some (None, [], o).

(** The part of [scst_dev_done] about numbers, for a command that was sent. *)
Definition dev_done_sn (cmd : scst_cmd) (o : order_data) : option (list scst_cmd * order_data) :=
  if inc_expected_sn_on_done cmd && sn_set cmd then
    let '(rc, o) := scst_inc_expected_sn cmd o in
    if negb rc then Some ([], o) else scst_make_deferred_commands_active o
  else Some ([], o).

(** A command that ended without being sent. *)
Definition scst_unblock_deferred (cmd : scst_cmd) (o : order_data) : option (list scst_cmd * order_data) :=
  if negb (sn_set cmd) then Some ([], o)
  else
    let o := if sn cmd =? expected_sn o then (scst_inc_expected_sn cmd o).2
             else o <|def_cmd_count := def_cmd_count o + 1|> <|skipped_sn_list := skipped_sn_list o ++ [cmd]|> in
    scst_make_deferred_commands_active o.

Definition scst_on_hq_cmd_response (cmd : scst_cmd) (o : order_data) : option (list scst_cmd * order_data) :=
  if negb (hq_cmd_inced cmd) then Some ([], o)
  else
    let o := o <|hq_cmd_count := hq_cmd_count o - 1|> in
    if hq_cmd_count o =? 0 then scst_make_deferred_commands_active o else Some ([], o).

(** The part of [scst_pre_xmit_response] about numbers. *)
Definition pre_xmit_sn (sent_for_exec : bool) (cmd : scst_cmd) (o : order_data) : option (list scst_cmd * order_data) :=
  if bool_decide (queue_type cmd = SCST_CMD_QUEUE_HEAD_OF_QUEUE) then scst_on_hq_cmd_response cmd o
  else if negb sent_for_exec then scst_unblock_deferred cmd o
  else Some ([], o).

(** An aborted command leaves the deferred ones ([scst_unblock_aborted_cmds]). *)
Definition unblock_aborted (cmd : scst_cmd) (o : order_data) : order_data :=
  o <|deferred_cmd_list := List.filter (fun c => negb (tag c =? tag cmd)) (deferred_cmd_list o)|> <|def_cmd_count := def_cmd_count o - 1|>.

(** ** All commands of a device *)

(** Where a command is: it is to be looked at, deferred, ended without being sent, or
    sent; then whether [scst_post_exec_sn] was called, whether it is done and whether
    it is answered. *)
Inductive place : Type :=
| Active
| Deferred
| Failed
| FailedAnswered
| Sent (posted done answered : bool).

#[export] Instance place_eq_dec : EqDecision place.
Proof. solve_decision. Defined.

(** The commands that arrived, in their order. *)
Record sn_sys : Type := mkSys { s_od : order_data; s_cmds : list (scst_cmd * place) }.

Definition find_cmd (t : Z) (s : sn_sys) : option (scst_cmd * place) := List.find (fun p => tag p.1 =? t) (s_cmds s).

Definition put_place (t : Z) (x : place) (l : list (scst_cmd * place)) : list (scst_cmd * place) :=
  map (fun p => if tag p.1 =? t then (p.1, x) else p) l.

Definition activate (act : list scst_cmd) (l : list (scst_cmd * place)) : list (scst_cmd * place) :=
  fold_left (fun l c => put_place (tag c) Active l) act l.

Inductive label : Type :=
| Arrive (t : Z) (qt : scst_cmd_queue_type) (on_done implicit_hq restricted : bool)
| Check_ (t : Z) (aborted : bool)
| Fail_ (t : Z)
| Unblock (t : Z)
| Post (t : Z)
| Done (t : Z)
| Answer (t : Z).

Definition not_passed (s : sn_sys) : list scst_cmd :=
  List.filter (fun c => sn_set c && bool_decide (tag c ∉ inc_passed (s_od s))) (map fst (s_cmds s)).

(** What happens next.  The tag of a new command is a new one; a device has not as
    many commands as there are numbers. *)
Definition sn_do (l : label) (s : sn_sys) : option sn_sys :=
  let o := s_od s in
  let cs := s_cmds s in
  match l with
  | Arrive t qt on_done implicit_hq restricted =>
      if bool_decide (t ∈ map (fun p => tag p.1) cs) || (4294967290 <=? Z.of_nat (length (not_passed s))) then None
      else
        '(c, act, o) ← scst_cmd_set_sn implicit_hq restricted (mkCmd t qt 0 false None false on_done) o;
        Some (mkSys o (activate act cs ++ [(c, Active)]))
  | Check_ t aborted =>
      '(c, x) ← find_cmd t s;
      if bool_decide (x = Active) then
        let '(r, o) := scst_exec_check_sn aborted c o in
        Some (mkSys o (put_place t (match r with Exec => Sent false false false | Defer => Deferred | AbnormalDone => Failed end) cs))
      else None
  | Fail_ t =>
      '(c, x) ← find_cmd t s;
      if bool_decide (x = Active) then Some (mkSys o (put_place t Failed cs)) else None
  | Unblock t =>
      '(c, x) ← find_cmd t s;
      if bool_decide (x = Deferred) then Some (mkSys (unblock_aborted c o) (put_place t Active cs)) else None
  | Post t =>
      '(c, x) ← find_cmd t s;
      match x with
      | Sent false d a =>
          '(res, act, o) ← scst_post_exec_sn c o;
          let cs := activate act (put_place t (Sent true d a) cs) in
          Some (mkSys o (match res with Some c' => put_place (tag c') (Sent false false false) cs | None => cs end))
      | _ => None
      end
  | Done t =>
      '(c, x) ← find_cmd t s;
      match x with
      | Sent p false false => '(act, o) ← dev_done_sn c o; Some (mkSys o (activate act (put_place t (Sent p true false) cs)))
      | _ => None
      end
  | Answer t =>
      '(c, x) ← find_cmd t s;
      match x with
      | Sent p true false => '(act, o) ← pre_xmit_sn true c o; Some (mkSys o (activate act (put_place t (Sent p true true) cs)))
      | Failed => '(act, o) ← pre_xmit_sn false c o; Some (mkSys o (activate act (put_place t FailedAnswered cs)))
      | _ => None
      end
  end.

Definition sn_init : sn_sys := mkSys scst_init_order_data [].

Definition sn_step (s s' : sn_sys) : Prop := exists l, sn_do l s = Some s'.

Fixpoint sn_run (ls : list label) (s : sn_sys) : option sn_sys :=
  match ls with
  | [] => Some s
  | l :: ls => s ← sn_do l s; sn_run ls s
  end.
