(* ===== verification/SnInv.v ===== *)
(** * The numbers as a queue of groups

    The commands that are numbered and not passed form a queue of groups: an ORDERED
    command is a group of its own, SIMPLE commands that follow each other are one.
    The expected number is that of the first group.  This file has the relation
    between the fields of [order_data] and the queue, and that arrivals append to the
    queue and passing a command takes it off the first group. *)

From S2P Require Import Prelude Sn.

Inductive group : Type := GOrd (c : scst_cmd) | GSimp (k : nat) (cs : list scst_cmd).

Definition members (g : group) : list scst_cmd := match g with GOrd c => [c] | GSimp _ cs => cs end.
Definition flat (gs : list group) : list scst_cmd := concat (map members gs).
Definition first_group (gs : list group) : list scst_cmd := match gs with [] => [] | g :: _ => members g end.

(** The slots in use, and the commands counted in one. *)
Definition slot_of (g : group) : list nat := match g with GOrd _ => [] | GSimp k _ => [k] end.
Definition slots_of (gs : list group) : list nat := concat (map slot_of gs).
Definition counted (k : nat) (g : group) : nat := match g with GSimp j cs => if Nat.eqb j k then length cs else O | GOrd _ => O end.
Definition count_slot (k : nat) (gs : list group) : nat := list_sum (map (counted k) gs).

(** A command of the group with number [E]. *)
Definition member_ok (E : Z) (g : group) (c : scst_cmd) : Prop :=
  sn c = u32 E /\ sn_set c = true /\ queue_type c <> SCST_CMD_QUEUE_HEAD_OF_QUEUE /\
  match g with GOrd _ => sn_slot c = None | GSimp k _ => sn_slot c = Some k /\ queue_type c = SCST_CMD_QUEUE_SIMPLE end.

Fixpoint numbered (E : Z) (gs : list group) : Prop :=
  match gs with
  | [] => True
  | g :: gs => (forall c, c ∈ members g -> member_ok E g c) /\ numbered (E + 1) gs
  end.

(** Only the last group can grow, and only when it is all there is it can be empty. *)
Definition shape (prev : bool) (cur : nat) (gs : list group) : Prop :=
  if prev then Forall (fun g => members g <> []) gs /\ (gs = [] \/ exists gs0 c, gs = gs0 ++ [GOrd c])
  else exists gs0 cs, gs = gs0 ++ [GSimp cur cs] /\ Forall (fun g => members g <> []) gs0 /\ (cs = [] -> gs0 = []).

Record od_ok (E : Z) (gs : list group) (o : order_data) : Prop := {
  ok_expected : expected_sn o = u32 E;
  ok_curr : curr_sn o = u32 (E + Z.of_nat (length gs) - 1);
  ok_few : Z.of_nat (length gs) < 4294967296;
  ok_num : numbered E gs;
  ok_shape : shape (prev_cmd_ordered o) (cur_sn_slot o) gs;
  ok_pending : pending_simple_inc_expected_sn o = Z.of_nat (length (slots_of gs)) - (if prev_cmd_ordered o then 0 else 1);
  ok_length : length (sn_slots o) = SN_SLOTS;
  ok_cur : (cur_sn_slot o < SN_SLOTS)%nat;
  ok_slots : forall k, (k < SN_SLOTS)%nat -> slot_value o k = Z.of_nat (count_slot k gs);
  ok_distinct : NoDup (slots_of gs);
  ok_range : forall k, k ∈ slots_of gs -> (k < SN_SLOTS)%nat
}.

(** ** Lists of groups *)

Lemma one_snoc {A} (x y : A) l : [x] = l ++ [y] -> l = [] /\ x = y.
Proof. destruct l as [|z [|]]; cbn; intros [=]; auto. Qed.

Lemma flat_app a b : flat (a ++ b) = flat a ++ flat b.
Proof. unfold flat. by rewrite map_app, concat_app. Qed.

Lemma slots_of_app a b : slots_of (a ++ b) = slots_of a ++ slots_of b.
Proof. unfold slots_of. by rewrite map_app, concat_app. Qed.

Lemma count_slot_app k a b : count_slot k (a ++ b) = (count_slot k a + count_slot k b)%nat.
Proof. unfold count_slot. by rewrite map_app, list_sum_app. Qed.

Lemma count_slot_cons k g gs : count_slot k (g :: gs) = (counted k g + count_slot k gs)%nat.
Proof. done. Qed.

Lemma count_slot_unused k gs : k ∉ slots_of gs -> count_slot k gs = O.
Proof.
  induction gs as [|g gs IH]; [done|]. change (slots_of (g :: gs)) with (slot_of g ++ slots_of gs). rewrite elem_of_app. intros H.
  rewrite count_slot_cons, IH by tauto. destruct g as [c|j cs]; cbn; [done|]. case_match eqn:Ej; [|lia].
  apply Nat.eqb_eq in Ej as ->. exfalso. apply H. left. cbn. set_solver.
Qed.

Lemma numbered_app a : forall E b, numbered E (a ++ b) <-> numbered E a /\ numbered (E + Z.of_nat (length a)) b.
Proof.
  induction a as [|g a IH]; intros E b; cbn -[Z.of_nat].
  - rewrite Z.add_0_r. tauto.
  - rewrite IH. replace (E + 1 + Z.of_nat (length a)) with (E + Z.of_nat (S (length a))) by lia. tauto.
Qed.

Lemma numbered_elem gs : forall E c, numbered E gs -> c ∈ flat gs ->
  exists i g, gs !! i = Some g /\ c ∈ members g /\ member_ok (E + Z.of_nat i) g c.
Proof.
  induction gs as [|g gs IH]; intros E c; [set_solver|]. intros [Hg Hn]. change (flat (g :: gs)) with (members g ++ flat gs).
  rewrite elem_of_app. intros [Hc|Hc].
  - exists 0%nat, g. split; [done|]. rewrite Z.add_0_r. auto.
  - destruct (IH _ _ Hn Hc) as (i & g' & Hi & Hm & Hok). exists (S i), g'. split; [done|]. split; [done|].
    by replace (E + Z.of_nat (S i)) with (E + 1 + Z.of_nat i) by lia.
Qed.

Lemma u32_shift E i : 0 <= i < 4294967296 -> u32 (E + i) = u32 E -> i = 0.
Proof. unfold u32. intros H Hu. pose proof (Z.mod_pos_bound E 4294967296). Z.div_mod_to_equations. lia. Qed.

(** A numbered command with the expected number is in the first group, and the
    other way round. *)
Lemma expected_first E gs o c : od_ok E gs o -> c ∈ flat gs -> sn c = expected_sn o <-> c ∈ first_group gs.
Proof.
  intros Ho Hc. rewrite (ok_expected _ _ _ Ho). split.
  - intros Hs. destruct (numbered_elem gs E c (ok_num _ _ _ Ho) Hc) as (i & g & Hi & Hm & Hok & _). rewrite Hok in Hs.
    pose proof (lookup_lt_Some _ _ _ Hi). pose proof (ok_few _ _ _ Ho). apply u32_shift in Hs; [|lia]. assert (i = 0%nat) as -> by lia.
    destruct gs; [done|]. injection Hi as ->. done.
  - pose proof (ok_num _ _ _ Ho) as Hn. destruct gs as [|g gs]; [set_solver|]. intros Hf. by apply Hn.
Qed.

Lemma shape_cons prev cur g gs : gs <> [] -> shape prev cur (g :: gs) -> members g <> [] /\ shape prev cur gs.
Proof.
  intros Hne. unfold shape. destruct prev.
  - intros [HF [?|(gs0 & c & E)]]; [done|]. inversion_clear HF. split; [done|]. split; [done|]. right.
    destruct gs0 as [|g0 gs0]; cbn in E; injection E as -> ->; [done|eauto].
  - intros (gs0 & cs & E & HF & Hcs). destruct gs0 as [|g0 gs0]; cbn in E; injection E as -> ->; [done|]. inversion_clear HF.
    split; [done|]. exists gs0, cs. split; [done|]. split; [done|]. intros ->. by specialize (Hcs eq_refl).
Qed.

Lemma slots_of_nonempty prev cur gs : gs <> [] -> shape prev cur gs -> prev = false -> slots_of gs <> [].
Proof.
  intros Hne Hs ->. destruct Hs as (gs0 & cs & -> & _). rewrite slots_of_app. cbn. destruct (slots_of gs0); done.
Qed.

(** ** Passing a command *)

Definition others (c : scst_cmd) (l : list scst_cmd) : list scst_cmd := List.filter (fun x => negb (tag x =? tag c)) l.

Lemma elem_others c l x : x ∈ others c l <-> x ∈ l /\ tag x <> tag c.
Proof.
  unfold others. rewrite !list_elem_of_In, filter_In, negb_true_iff, Z.eqb_neq. tauto.
Qed.

Lemma others_app c a b : others c (a ++ b) = others c a ++ others c b.
Proof. apply List.filter_app. Qed.

Lemma others_id c l : ~ tag c ∈ map tag l -> others c l = l.
Proof.
  unfold others. induction l as [|x l IH]; [done|]. cbn. intros H. apply not_elem_of_cons in H as [H1 H2]. replace (tag x =? tag c) with false by lia.
  cbn. by rewrite IH.
Qed.

Lemma length_others c l : NoDup (map tag l) -> c ∈ l -> length l = S (length (others c l)).
Proof.
  induction l as [|x l IH]; [set_solver|]. cbn [map]. intros [Hx Hl]%NoDup_cons. rewrite elem_of_cons. unfold others. cbn. intros [->|Hc].
  - rewrite Z.eqb_refl. cbn. fold (others x l). by rewrite others_id.
  - replace (tag x =? tag c) with false; [|symmetry; apply Z.eqb_neq; intros E; apply Hx; rewrite E; by apply list_elem_of_fmap_2].
    cbn. f_equal. by apply IH.
Qed.

(** What passing a command does not touch. *)
Definition same_lists (o o' : order_data) : Prop :=
  skipped_sn_list o' = skipped_sn_list o /\ deferred_cmd_list o' = deferred_cmd_list o /\ def_cmd_count o' = def_cmd_count o /\
  hq_cmd_count o' = hq_cmd_count o.

Lemma slot_value_insert o k j v : (k < length (sn_slots o))%nat ->
  slot_value (o <|sn_slots := <[k := v]> (sn_slots o)|>) j = if Nat.eqb j k then v else slot_value o j.
Proof.
  intros H. unfold slot_value. cbn. destruct (Nat.eqb_spec j k) as [->|E]; [by rewrite list_lookup_insert_eq|by rewrite list_lookup_insert_ne].
Qed.

(** The first group is without the command, or gone when that was its last one and
    there are more groups. *)
Definition passes (E : Z) (gs : list group) (o : order_data) (c : scst_cmd) : Prop :=
  exists rc o' E' gs', scst_inc_expected_sn c o = (rc, o') /\ od_ok E' gs' o' /\ flat gs' = others c (flat gs) /\
  (forall x, x ∈ first_group gs -> tag x <> tag c -> x ∈ first_group gs') /\ (rc = false -> forall x, x ∈ first_group gs' -> x ∈ first_group gs) /\
  same_lists o o' /\ inc_passed o' = tag c :: inc_passed o.

Lemma others_self c : others c [c] = [].
Proof. unfold others. cbn. by rewrite Z.eqb_refl. Qed.

(** Without the first group. *)
Lemma od_ok_tail E g gs o o' : od_ok E (g :: gs) o -> gs <> [] \/ prev_cmd_ordered o = true ->
  expected_sn o' = u32 (expected_sn o + 1) -> curr_sn o' = curr_sn o -> prev_cmd_ordered o' = prev_cmd_ordered o -> cur_sn_slot o' = cur_sn_slot o ->
  pending_simple_inc_expected_sn o' = pending_simple_inc_expected_sn o - Z.of_nat (length (slot_of g)) ->
  length (sn_slots o') = length (sn_slots o) -> (forall k, (k < SN_SLOTS)%nat -> slot_value o' k = slot_value o k - Z.of_nat (counted k g)) ->
  od_ok (E + 1) gs o'.
Proof.
  intros [H1 H2 H3 [_ H4] H5 H6 H7 H8 H9 H10 H11] Hne X1 X2 X3 X4 X5 X6 X7. change (slots_of (g :: gs)) with (slot_of g ++ slots_of gs) in *.
  cbn [length] in *. constructor; rewrite ?X1, ?X2, ?X3, ?X4, ?X5, ?X6; try done.
  - by rewrite H1, u32_add_l.
  - rewrite H2. f_equal. lia.
  - lia.
  - destruct gs as [|g1 gs]; [|by apply shape_cons in H5 as [_ ?]]. destruct Hne as [?| ->]; [done|]. split; [constructor|by left].
  - rewrite H6, length_app. lia.
  - intros k Hk. rewrite X7, H9, count_slot_cons by done. lia.
  - by apply NoDup_app in H10 as (_ & _ & ?).
  - intros k Hk. apply H11, elem_of_app. by right.
Qed.

(** The first group shrinks. *)
Lemma od_ok_shrink E k cs cs' gs o o' : od_ok E (GSimp k cs :: gs) o -> (forall x, x ∈ cs' -> x ∈ cs) -> cs' <> [] \/ gs = [] ->
  expected_sn o' = expected_sn o -> curr_sn o' = curr_sn o -> prev_cmd_ordered o' = prev_cmd_ordered o -> cur_sn_slot o' = cur_sn_slot o ->
  pending_simple_inc_expected_sn o' = pending_simple_inc_expected_sn o -> length (sn_slots o') = length (sn_slots o) ->
  (forall j, (j < SN_SLOTS)%nat -> slot_value o' j = Z.of_nat (count_slot j (GSimp k cs' :: gs))) ->
  od_ok E (GSimp k cs' :: gs) o'.
Proof.
  intros [H1 H2 H3 [H4 H4'] H5 H6 H7 H8 H9 H10 H11] Hsub Hne X1 X2 X3 X4 X5 X6 X7.
  constructor; rewrite ?X1, ?X2, ?X3, ?X4, ?X5, ?X6; try done.
  - split; [|done]. intros x Hx. apply (H4 x). by apply Hsub.
  - clear -H5 Hne. unfold shape in *. destruct (prev_cmd_ordered o).
    + destruct H5 as [HF [?|(gs0 & d & Eq)]]; [done|]. destruct gs0 as [|g0 gs0]; cbn in Eq; injection Eq as Eq0 Eq; [done|].
      destruct Hne as [Hne|Hne]; [|by destruct gs0; rewrite Hne in Eq]. inversion HF. split; [by constructor|].
      right. exists (GSimp k cs' :: gs0), d. by rewrite Eq.
    + destruct H5 as (gs0 & cs0 & Eq & HF & Hcs). destruct gs0 as [|g0 gs0]; cbn in Eq.
      * injection Eq as -> _ ->. by exists [], cs'.
      * injection Eq as _ ->. destruct Hne as [Hne|Hne]; [|by destruct gs0]. inversion HF.
        exists (GSimp k cs' :: gs0), cs0. split; [done|]. split; [by constructor|]. intros ->. by specialize (Hcs eq_refl).
Qed.

Lemma pass_ordered E d gs o : od_ok E (GOrd d :: gs) o -> tag d ∉ map tag (flat gs) -> passes E (GOrd d :: gs) o d.
Proof.
  intros Hok Hrest. pose proof (ok_num _ _ _ Hok) as [Hg _]. destruct (Hg d) as (_ & _ & _ & Hslot); [cbn; set_solver|].
  unfold passes, scst_inc_expected_sn. rewrite Hslot. eexists true, _, (E + 1), gs. split; [reflexivity|].
  split; [|split; [|split; [|done]]].
  - eapply od_ok_tail; [exact Hok|..]; try done.
    + destruct gs; [right|by left]. pose proof (ok_shape _ _ _ Hok) as Hs. destruct (prev_cmd_ordered o); [done|].
      destruct Hs as (gs0 & cs & Eq & _). by apply one_snoc in Eq as [_ ?].
    + cbn. lia.
    + intros k Hk. cbn. unfold slot_value. cbn. lia.
  - change (flat (GOrd d :: gs)) with ([d] ++ flat gs). by rewrite others_app, others_self, others_id.
  - intros x Hx Ht. cbn in Hx. by apply list_elem_of_singleton in Hx as ->.
Qed.

Definition slot_dec (c : scst_cmd) (k : nat) (o : order_data) : order_data :=
  pass_flag c o <|sn_slots := <[k := slot_value o k - 1]> (sn_slots o)|>.

Lemma inc_slot_eq c k o : sn_slot c = Some k ->
  scst_inc_expected_sn c o = if slot_value o k - 1 =? 0 then take_pending (slot_dec c k o) else (false, slot_dec c k o).
Proof.
  intros H. unfold scst_inc_expected_sn. rewrite H. cbn. change (slot_value (pass_flag c o) k) with (slot_value o k). fold (slot_dec c k o).
  destruct (_ - 1 =? 0); [|done]. cbn. unfold take_pending. by destruct (_ =? 0).
Qed.

Section simple.
Context (E : Z) (k : nat) (cs : list scst_cmd) (gs : list group) (o : order_data) (c : scst_cmd).
Hypothesis Hok : od_ok E (GSimp k cs :: gs) o.
Hypothesis Hnd : NoDup (map tag (cs ++ flat gs)).
Hypothesis Hc : c ∈ cs.

Lemma simple_slot : sn_slot c = Some k.
Proof. pose proof (ok_num _ _ _ Hok) as [Hg _]. by destruct (Hg c Hc) as (_ & _ & _ & ? & _). Qed.

Lemma simple_unique : k ∉ slots_of gs /\ (k < SN_SLOTS)%nat /\ tag c ∉ map tag (flat gs) /\ length cs = S (length (others c cs)).
Proof.
  pose proof (ok_distinct _ _ _ Hok) as Hd. pose proof (ok_range _ _ _ Hok k) as Hr. change (slots_of (GSimp k cs :: gs)) with (k :: slots_of gs) in *.
  apply NoDup_cons in Hd as [Hk _]. rewrite map_app in Hnd. apply NoDup_app in Hnd as (Hn1 & Hn2 & _). split; [done|]. split; [apply Hr; set_solver|].
  split; [apply Hn2; by apply list_elem_of_fmap_2|by apply length_others].
Qed.

Lemma simple_value : slot_value o k = Z.of_nat (length cs).
Proof.
  destruct simple_unique as (Hk & Hr & _). rewrite (ok_slots _ _ _ Hok) by done. rewrite count_slot_cons, count_slot_unused by done. cbn. rewrite Nat.eqb_refl. lia.
Qed.

Lemma simple_dec j : slot_value (slot_dec c k o) j = if Nat.eqb j k then Z.of_nat (length (others c cs)) else slot_value o j.
Proof.
  destruct simple_unique as (_ & Hr & _ & Hl). unfold slot_dec. rewrite simple_value.
  etransitivity; [apply (slot_value_insert (pass_flag c o)); change (sn_slots (pass_flag c o)) with (sn_slots o); by rewrite (ok_length _ _ _ Hok)|].
  case_match; [lia|done].
Qed.

Lemma simple_flat : others c (flat (GSimp k cs :: gs)) = others c cs ++ flat gs.
Proof. destruct simple_unique as (_ & _ & Ht & _). change (flat (GSimp k cs :: gs)) with (cs ++ flat gs). by rewrite others_app, (others_id c (flat gs)). Qed.

(** The last command of its group. *)
Lemma pass_last : others c cs = [] -> gs <> [] -> passes E (GSimp k cs :: gs) o c.
Proof.
  intros Hnil Hne. destruct simple_unique as (Hk & Hr & _ & Hl). rewrite Hnil in Hl. cbn in Hl.
  assert (Hp : 0 < pending_simple_inc_expected_sn o).
  { pose proof (ok_pending _ _ _ Hok) as Hp. change (slots_of (GSimp k cs :: gs)) with (k :: slots_of gs) in Hp. cbn [length] in Hp.
    destruct (prev_cmd_ordered o) eqn:Ep; [lia|]. pose proof (ok_shape _ _ _ Hok) as Hs. rewrite Ep in Hs. apply shape_cons in Hs as [_ Hs]; [|done].
    pose proof (slots_of_nonempty _ _ _ Hne Hs eq_refl) as Hsl. destruct (slots_of gs); [done|]. cbn [length] in *. lia. }
  unfold passes. rewrite (inc_slot_eq c k o simple_slot), simple_value, Hl. replace (Z.of_nat 1 - 1 =? 0) with true by lia. unfold take_pending.
  change (pending_simple_inc_expected_sn (slot_dec c k o)) with (pending_simple_inc_expected_sn o).
  replace (pending_simple_inc_expected_sn o =? 0) with false by lia. eexists true, _, (E + 1), gs. split; [reflexivity|].
  split; [|split; [|split; [|done]]].
  - eapply od_ok_tail; [exact Hok|..]; try done; [by left|cbn; by rewrite length_insert|].
    intros j Hj. etransitivity; [apply simple_dec|]. cbn. rewrite Hnil, (Nat.eqb_sym k j). destruct (Nat.eqb_spec j k) as [->|]; [rewrite simple_value|]; cbn; lia.
  - by rewrite simple_flat, Hnil.
  - intros x Hx Ht. assert (Hx' : x ∈ others c cs) by (by apply elem_others). rewrite Hnil in Hx'. set_solver.
Qed.

(** The group stays. *)
Lemma pass_stay : others c cs <> [] \/ gs = [] -> passes E (GSimp k cs :: gs) o c.
Proof.
  intros Hne. destruct simple_unique as (Hk & Hr & _ & Hl).
  assert (Hsub : forall x, x ∈ others c cs -> x ∈ cs) by (intros x Hx; by apply elem_others in Hx as [? _]).
  assert (Hrc : scst_inc_expected_sn c o = (false, slot_dec c k o)).
  { rewrite (inc_slot_eq c k o simple_slot), simple_value. destruct (Z.eqb_spec (Z.of_nat (length cs) - 1) 0) as [Ev|]; [|done].
    assert (others c cs = []) by (apply nil_length_inv; lia). destruct Hne as [?|Hgs]; [done|]. unfold take_pending.
    change (pending_simple_inc_expected_sn (slot_dec c k o)) with (pending_simple_inc_expected_sn o).
    replace (pending_simple_inc_expected_sn o) with 0; [done|]. rewrite (ok_pending _ _ _ Hok), Hgs. destruct (prev_cmd_ordered o) eqn:Ep; [|done].
    pose proof (ok_shape _ _ _ Hok) as Hs. rewrite Ep, Hgs in Hs. destruct Hs as [_ [?|(gs0 & d & Eq)]]; [done|]. by apply one_snoc in Eq as [_ ?]. }
  unfold passes. rewrite Hrc. eexists false, _, E, (GSimp k (others c cs) :: gs). split; [reflexivity|]. split; [|split; [|split; [|done]]].
  - eapply od_ok_shrink; [exact Hok|..]; try done; [cbn; by rewrite length_insert|].
    intros j Hj. rewrite simple_dec, count_slot_cons. cbn. rewrite (Nat.eqb_sym k j). destruct (Nat.eqb_spec j k) as [->|Hne'].
    + by rewrite (count_slot_unused k), Nat.add_0_r.
    + rewrite (ok_slots _ _ _ Hok) by done. rewrite count_slot_cons. cbn. by rewrite (proj2 (Nat.eqb_neq k j)) by done.
  - by rewrite simple_flat.
  - intros x Hx Ht. by apply elem_others.
Qed.
End simple.

Lemma od_pass E gs o c : od_ok E gs o -> NoDup (map tag (flat gs)) -> c ∈ first_group gs -> passes E gs o c.
Proof.
  intros Hok Hnd Hc. destruct gs as [|[d|k cs] gs]; [set_solver|..].
  - cbn in Hc. apply list_elem_of_singleton in Hc as ->. apply pass_ordered; [done|]. cbn in Hnd. by apply NoDup_cons in Hnd as [? _].
  - destruct (decide (others c cs = [])) as [Hnil|Hnil]; [|by apply pass_stay; [..|left]].
    destruct (decide (gs = [])) as [Hgs|Hgs]; [by apply pass_stay; [..|right]|by apply pass_last].
Qed.

(** ** Arrivals *)

Lemma count_in_slot E gs o k : od_ok E gs o -> (k < SN_SLOTS)%nat -> slot_value o k = 0 -> Forall (fun g => members g <> []) gs -> k ∉ slots_of gs.
Proof.
  intros Hok Hk Hv HF Hin. rewrite (ok_slots _ _ _ Hok) in Hv by done. clear Hok. induction HF as [|g gs Hg _ IH]; [set_solver|].
  change (slots_of (g :: gs)) with (slot_of g ++ slots_of gs) in Hin. rewrite count_slot_cons in Hv. apply elem_of_app in Hin as [Hin|Hin]; [|apply IH; first [done|lia]].
  destruct g as [d|j cs]; cbn in *; [set_solver|]. apply list_elem_of_singleton in Hin as ->. rewrite Nat.eqb_refl in Hv. destruct cs; [done|]. cbn in Hv. lia.
Qed.

(** One more group at the end. *)
Lemma od_ok_snoc E gs g c o o' : od_ok E gs o -> Z.of_nat (length gs) + 1 < 4294967296 -> Forall (fun g => members g <> []) gs -> members g = [c] ->
  member_ok (E + Z.of_nat (length gs)) g c -> expected_sn o' = expected_sn o -> curr_sn o' = u32 (curr_sn o + 1) ->
  match g with GOrd _ => prev_cmd_ordered o' = true | GSimp k _ => prev_cmd_ordered o' = false /\ cur_sn_slot o' = k end ->
  pending_simple_inc_expected_sn o' = Z.of_nat (length (slots_of gs)) -> length (sn_slots o') = SN_SLOTS -> (cur_sn_slot o' < SN_SLOTS)%nat ->
  (forall k, (k < SN_SLOTS)%nat -> slot_value o' k = slot_value o k + Z.of_nat (counted k g)) ->
  (forall k, k ∈ slot_of g -> k ∉ slots_of gs /\ (k < SN_SLOTS)%nat) -> od_ok E (gs ++ [g]) o'.
Proof.
  intros [H1 H2 H3 H4 H5 H6 H7 H8 H9 H10 H11] Hfew HF Hm Hc X1 X2 X3 X4 X5 X6 X7 X8.
  assert (Hlen : length (gs ++ [g]) = S (length gs)) by (rewrite length_app; cbn; lia).
  assert (Hsl : slots_of (gs ++ [g]) = slots_of gs ++ slot_of g) by (rewrite slots_of_app; cbn; by rewrite app_nil_r).
  constructor; rewrite ?Hlen, ?Hsl; try done.
  - congruence.
  - rewrite X2, H2, u32_add_l. f_equal. lia.
  - lia.
  - rewrite numbered_app. split; [done|]. split; [|done]. rewrite Hm. intros x Hx. apply list_elem_of_singleton in Hx as ->. done.
  - assert (members g <> []) by (rewrite Hm; done). unfold shape. destruct g as [d|k cs].
    + rewrite X3. split; [apply Forall_app; split; [done|by constructor]|]. right. eauto.
    + destruct X3 as [-> ->]. exists gs, cs. split; [done|]. split; [done|]. intros ->. done.
  - rewrite X4, length_app. destruct g; [rewrite X3|destruct X3 as [-> _]]; cbn; lia.
  - intros k Hk. rewrite X7, H9, count_slot_app by done. cbn. lia.
  - apply NoDup_app. split; [done|]. split; [intros k Hk Hg; by apply X8 in Hg as [? _]|]. destruct g; cbn; [constructor|apply NoDup_singleton].
  - intros k Hk. apply elem_of_app in Hk as [Hk|Hk]; [by apply H11|by apply X8].
Qed.

(** A command is appended to the queue; nothing is activated. *)
Definition arrives (gs : list group) (o : order_data) (c : scst_cmd) (r : option (scst_cmd * list scst_cmd * order_data)) : Prop :=
  exists c' o' E' gs', r = Some (c', [], o') /\ od_ok E' gs' o' /\ flat gs' = flat gs ++ [c'] /\
  tag c' = tag c /\ queue_type c' = queue_type c /\ sn_set c' = true /\ hq_cmd_inced c' = hq_cmd_inced c /\ inc_expected_sn_on_done c' = inc_expected_sn_on_done c /\
  (forall x, x ∈ first_group gs -> x ∈ first_group gs') /\ (forall x, x ∈ first_group gs' -> x ∈ first_group gs \/ x = c') /\
  same_lists o o' /\ inc_passed o' = inc_passed o.

Lemma first_snoc gs g x : x ∈ first_group gs -> x ∈ first_group (gs ++ [g]).
Proof. by destruct gs; [set_solver|]. Qed.

Lemma first_snoc_inv gs g c x : members g = [c] -> x ∈ first_group (gs ++ [g]) -> x ∈ first_group gs \/ x = c.
Proof. destruct gs; cbn; [intros ->; set_solver|auto]. Qed.

Lemma flat_snoc gs g c : members g = [c] -> flat (gs ++ [g]) = flat gs ++ [c].
Proof. intros H. rewrite flat_app. unfold flat at 2. cbn. by rewrite H. Qed.

Lemma curr_next E gs o : od_ok E gs o -> u32 (curr_sn o + 1) = u32 (E + Z.of_nat (length gs)).
Proof. intros H. rewrite (ok_curr _ _ _ H), u32_add_l. f_equal. lia. Qed.

(** The last group is SIMPLE and its slot is free: it is all there is, and empty. *)
Lemma idle_queue E gs o : od_ok E gs o -> prev_cmd_ordered o = false ->
  (slot_value o (cur_sn_slot o) = 0 /\ gs = [GSimp (cur_sn_slot o) []]) \/ (slot_value o (cur_sn_slot o) <> 0 /\ Forall (fun g => members g <> []) gs).
Proof.
  intros Hok Hp. pose proof (ok_shape _ _ _ Hok) as Hs. rewrite Hp in Hs. destruct Hs as (gs0 & cs & Eq & HF & Hcs).
  rewrite (ok_slots _ _ _ Hok) by apply (ok_cur _ _ _ Hok). rewrite Eq, count_slot_app, count_slot_unused.
  - cbn. rewrite Nat.eqb_refl. destruct cs as [|c cs]; [left; split; [done|by rewrite (Hcs eq_refl)]|right; split; [cbn; lia|]].
    apply Forall_app. split; [done|]. by constructor.
  - pose proof (ok_distinct _ _ _ Hok) as Hd. rewrite Eq, slots_of_app in Hd. apply NoDup_app in Hd as (_ & Hd & _). intros Hin. apply (Hd _ Hin). cbn. set_solver.
Qed.

Lemma arrives_from gs o gs1 o1 c r : flat gs1 = flat gs -> first_group gs1 = first_group gs -> same_lists o o1 -> inc_passed o1 = inc_passed o ->
  arrives gs1 o1 c r -> arrives gs o c r.
Proof.
  intros Hf Hg (S1 & S2 & S3 & S4) Hp (c' & o' & E' & gs' & H1 & H2 & H3 & H4 & H5 & H6 & H7 & H8 & H9 & H10 & (T1 & T2 & T3 & T4) & H12).
  exists c', o', E', gs'. rewrite <- Hf, <- Hg. do 10 (split; [done|]). split; [|congruence]. unfold same_lists. split_and!; congruence.
Qed.

(** An ORDERED command behind groups that all have commands. *)
Lemma arrive_behind E gs o c o' : od_ok E gs o -> Z.of_nat (length gs) + 1 < 4294967296 -> sn_slot c = None ->
  Forall (fun g => members g <> []) gs -> queue_type c <> SCST_CMD_QUEUE_HEAD_OF_QUEUE ->
  expected_sn o' = expected_sn o -> curr_sn o' = u32 (curr_sn o + 1) -> prev_cmd_ordered o' = true ->
  pending_simple_inc_expected_sn o' = Z.of_nat (length (slots_of gs)) -> sn_slots o' = sn_slots o -> (cur_sn_slot o' < SN_SLOTS)%nat ->
  same_lists o o' -> inc_passed o' = inc_passed o ->
  arrives gs o c (Some (c <|sn := curr_sn o'|> <|sn_set := true|>, [], o')).
Proof.
  intros Hok Hfew Hslot HF Hq X1 X2 X3 X4 X5 X6 X7 X8. set (c' := c <|sn := curr_sn o'|> <|sn_set := true|>). exists c', o', E, (gs ++ [GOrd c']).
  split; [done|]. split.
  { eapply (od_ok_snoc E gs (GOrd c') c' o o'); try done.
    - unfold member_ok. cbn. split; [|by split]. rewrite X2. by apply curr_next.
    - rewrite X5. apply (ok_length _ _ _ Hok).
    - intros k Hk. unfold slot_value. rewrite X5. cbn. lia.
    - cbn. set_solver. }
  split; [by apply flat_snoc|]. do 5 (split; [done|]). split; [intros x; apply first_snoc|]. split; [intros x; by apply first_snoc_inv|]. done.
Qed.

(** The empty group makes room. *)
Lemma od_ok_idle E o : od_ok E [GSimp (cur_sn_slot o) []] o -> prev_cmd_ordered o = false -> od_ok (E + 1) [] (inc_expected (o <|prev_cmd_ordered := true|>)).
Proof.
  intros [H1 H2 H3 H4 H5 H6 H7 H8 H9 H10 H11] Ep. rewrite Ep in *.
  constructor; cbn -[u32 Z.of_nat]; try done; [by rewrite H1, u32_add_l|rewrite H2; f_equal; cbn; lia|split; [constructor|by left]| |constructor|intros k ?; set_solver].
  intros k Hk. change (slot_value _ k) with (slot_value o k). rewrite H9 by done. rewrite count_slot_cons. cbn. by destruct (Nat.eqb _ _).
Qed.

(** A command joins the last group. *)
Lemma od_ok_join E gs cs c o o' : od_ok E (gs ++ [GSimp (cur_sn_slot o) cs]) o -> prev_cmd_ordered o = false ->
  member_ok (E + Z.of_nat (length gs)) (GSimp (cur_sn_slot o) cs) c -> expected_sn o' = expected_sn o -> curr_sn o' = curr_sn o ->
  prev_cmd_ordered o' = false -> cur_sn_slot o' = cur_sn_slot o -> pending_simple_inc_expected_sn o' = pending_simple_inc_expected_sn o ->
  length (sn_slots o') = length (sn_slots o) ->
  (forall k, slot_value o' k = slot_value o k + if Nat.eqb (cur_sn_slot o) k then 1 else 0) ->
  od_ok E (gs ++ [GSimp (cur_sn_slot o) (cs ++ [c])]) o'.
Proof.
  intros [H1 H2 H3 H4 H5 H6 H7 H8 H9 H10 H11] Hp Hc X1 X2 X3 X4 X5 X6 X7. rewrite Hp in *.
  assert (Hl : length (gs ++ [GSimp (cur_sn_slot o) (cs ++ [c])]) = length (gs ++ [GSimp (cur_sn_slot o) cs])) by (rewrite !length_app; done).
  assert (Hs : slots_of (gs ++ [GSimp (cur_sn_slot o) (cs ++ [c])]) = slots_of (gs ++ [GSimp (cur_sn_slot o) cs])) by (rewrite !slots_of_app; done).
  constructor; rewrite ?Hl, ?Hs, ?X1, ?X2, ?X3, ?X4, ?X5, ?X6; try done.
  - apply numbered_app in H4 as [H4 [H4' _]]. apply numbered_app. split; [done|]. split; [|done]. cbn [members] in *. intros x Hx.
    apply elem_of_app in Hx as [Hx|Hx]; [by apply (H4' x)|]. apply list_elem_of_singleton in Hx as ->. done.
  - destruct H5 as (gs0 & cs0 & Eq & HF & _). apply app_inj_tail in Eq as [<- _]. exists gs, (cs ++ [c]). split; [done|]. split; [done|]. by destruct cs.
  - intros k Hk. rewrite X7, H9 by done. rewrite !count_slot_app. cbn. rewrite length_app. destruct (Nat.eqb _ _); cbn; lia.
Qed.

Lemma take_slot_value o k j : (k < length (sn_slots o))%nat ->
  slot_value (o <|sn_slots := <[k := slot_value o k + 1]> (sn_slots o)|>) j = slot_value o j + if Nat.eqb k j then 1 else 0.
Proof. intros H. rewrite slot_value_insert, (Nat.eqb_sym k j) by done. destruct (Nat.eqb_spec j k) as [->|]; lia. Qed.

Section arrival.
Context (E : Z) (gs : list group) (o : order_data) (c : scst_cmd).
Hypothesis Hok : od_ok E gs o.
Hypothesis Hfew : Z.of_nat (length gs) + 1 < 4294967296.
Hypothesis Hslot : sn_slot c = None.

Lemma arrive_ordered : (flat gs = [] -> def_cmd_count o = 0) -> queue_type c <> SCST_CMD_QUEUE_HEAD_OF_QUEUE -> arrives gs o c (set_ordered c o).
Proof.
  intros Hidle Hq. unfold set_ordered. change (prev_cmd_ordered (o <|curr_sn := _|>)) with (prev_cmd_ordered o). destruct (prev_cmd_ordered o) eqn:Ep.
  - eapply arrive_behind; try done; [|cbn; rewrite (ok_pending _ _ _ Hok), Ep; lia|apply (ok_cur _ _ _ Hok)].
    pose proof (ok_shape _ _ _ Hok) as Hs. rewrite Ep in Hs. by destruct Hs.
  - set (o1 := o <|curr_sn := _|> <|prev_cmd_ordered := true|>). change (slot_value o1 (cur_sn_slot o1)) with (slot_value o (cur_sn_slot o)).
    destruct (idle_queue E gs o Hok Ep) as [[Hv Hgs]|[Hv HF]].
    + rewrite Hv. cbn [Z.eqb]. unfold scst_inc_expected_sn_idle. change (def_cmd_count (inc_expected o1)) with (def_cmd_count o). rewrite Hidle by (by rewrite Hgs).
      cbn [Z.eqb negb mbind option_bind]. pose proof Hok as Hok1. rewrite Hgs in Hok1. pose proof (od_ok_idle E o Hok1 Ep) as Hm.
      apply (arrives_from _ _ [] (inc_expected (o <|prev_cmd_ordered := true|>))); [by rewrite Hgs|by rewrite Hgs|done|done|].
      eapply arrive_behind; try done; [cbn; by rewrite (ok_pending _ _ _ Hok), Ep, Hgs|apply (ok_cur _ _ _ Hok)].
    + replace (slot_value o (cur_sn_slot o) =? 0) with false by lia.
      set (o2 := o1 <|pending_simple_inc_expected_sn := _|>). change (slot_value o2 (cur_sn_slot o2)) with (slot_value o (cur_sn_slot o)).
      replace (slot_value o (cur_sn_slot o) =? 0) with false by lia. cbn [mbind option_bind].
      eapply arrive_behind; try done; [cbn; rewrite (ok_pending _ _ _ Hok), Ep; lia|apply (ok_cur _ _ _ Hok)].
Qed.

(** A SIMPLE command opens a group in a free slot. *)
Lemma arrive_new k : queue_type c = SCST_CMD_QUEUE_SIMPLE -> prev_cmd_ordered o = true -> (k < SN_SLOTS)%nat -> slot_value o k = 0 ->
  arrives gs o c (let '(cmd, o) := take_slot c (o <|cur_sn_slot := k|> <|curr_sn := u32 (curr_sn o + 1)|> <|prev_cmd_ordered := false|>) in Some (cmd, [], o)).
Proof.
  intros Hq Hp Hk Hv. pose proof (ok_shape _ _ _ Hok) as Hs. rewrite Hp in Hs. destruct Hs as [HF _].
  set (o1 := o <|cur_sn_slot := k|> <|curr_sn := u32 (curr_sn o + 1)|> <|prev_cmd_ordered := false|>).
  set (c' := c <|sn_slot := Some k|> <|sn := u32 (curr_sn o + 1)|> <|sn_set := true|>).
  set (o' := o1 <|sn_slots := <[k := slot_value o1 k + 1]> (sn_slots o1)|>).
  exists c', o', E, (gs ++ [GSimp k [c']]). split; [done|]. split; [|split; [by apply flat_snoc|]].
  - eapply (od_ok_snoc E gs (GSimp k [c']) c' o o'); try done.
    + split; [by apply curr_next|]. cbn. by rewrite Hq.
    + cbn. rewrite (ok_pending _ _ _ Hok), Hp. lia.
    + cbn. rewrite length_insert. apply (ok_length _ _ _ Hok).
    + intros j Hj. etransitivity; [apply (take_slot_value o1); change (sn_slots o1) with (sn_slots o); by rewrite (ok_length _ _ _ Hok)|]. cbn. by destruct (Nat.eqb k j).
    + cbn. intros j Hj. apply list_elem_of_singleton in Hj as ->. split; [by eapply count_in_slot|done].
  - do 5 (split; [done|]). split; [intros x; apply first_snoc|]. split; [intros x; by apply first_snoc_inv|]. done.
Qed.

(** It joins the last group. *)
Lemma arrive_join : queue_type c = SCST_CMD_QUEUE_SIMPLE -> prev_cmd_ordered o = false -> arrives gs o c (let '(cmd, o) := take_slot c o in Some (cmd, [], o)).
Proof.
  intros Hq Hp. pose proof (ok_shape _ _ _ Hok) as Hs. rewrite Hp in Hs. destruct Hs as (gs0 & cs & Eq & HF & Hcs).
  unfold take_slot. cbn zeta iota beta. set (c' := c <|sn_slot := _|> <|sn := _|> <|sn_set := true|>).
  set (o' := o <|sn_slots := <[cur_sn_slot o := slot_value o (cur_sn_slot o) + 1]> (sn_slots o)|>).
  pose proof Hok as Hok1. rewrite Eq in Hok1. exists c', o', E, (gs0 ++ [GSimp (cur_sn_slot o) (cs ++ [c'])]). split; [done|]. split.
  { eapply od_ok_join; try done.
    - split; [|cbn; by rewrite Hq]. change (sn c') with (curr_sn o). rewrite (ok_curr _ _ _ Hok1), length_app. cbn. f_equal. lia.
    - cbn. by rewrite length_insert.
    - intros k. apply take_slot_value. rewrite (ok_length _ _ _ Hok). apply (ok_cur _ _ _ Hok). }
  split; [rewrite Eq, !flat_app; unfold flat; cbn; by rewrite !app_nil_r, app_assoc|]. do 5 (split; [done|]).
  rewrite Eq. destruct gs0 as [|g gs0]; cbn.
  - split; [set_solver|]. split; [|done]. intros x Hx. apply elem_of_app in Hx as [?|Hx]; [by left|right]. by apply list_elem_of_singleton in Hx.
  - split; [done|]. split; [auto|done].
Qed.

Lemma arrive_simple : queue_type c = SCST_CMD_QUEUE_SIMPLE -> arrives gs o c (set_simple c o).
Proof.
  intros Hq. unfold set_simple. destruct (prev_cmd_ordered o) eqn:Ep; [|by apply arrive_join].
  destruct (Z.eqb_spec (slot_value o (cur_sn_slot o)) 0) as [Hv|Hv]; cbn [negb].
  - pose proof (arrive_new (cur_sn_slot o) Hq Ep (ok_cur _ _ _ Hok) Hv) as H. by destruct o.
  - unfold next_slot. set (k := if Nat.eqb _ _ then _ else _).
    assert (Hk : (k < SN_SLOTS)%nat).
    { pose proof (ok_cur _ _ _ Hok). unfold k. destruct (Nat.eqb_spec (S (cur_sn_slot o)) SN_SLOTS); [unfold SN_SLOTS; lia|lia]. }
    destruct (Z.eqb_spec (slot_value o k) 0) as [Hv1|Hv1]; cbn [negb]; [by apply (arrive_new k)|].
    apply (arrives_from _ _ gs (o <|cur_sn_slot := k|>)); try done. pose proof (ok_shape _ _ _ Hok) as Hs. rewrite Ep in Hs.
    unfold set_ordered. change (prev_cmd_ordered _) with (prev_cmd_ordered o). rewrite Ep. cbn [mbind option_bind].
    eapply arrive_behind; try done; [|by destruct Hs|by rewrite Hq|cbn; rewrite (ok_pending _ _ _ Hok), Ep; lia].
    destruct Hok as [H1 H2 H3 H4 H5 H6 H7 H8 H9 H10 H11]. constructor; try done. cbn. by rewrite Ep.
Qed.
End arrival.

(** Only one group can be empty. *)
Lemma few_groups E gs o : od_ok E gs o -> (length gs <= S (length (flat gs)))%nat.
Proof.
  assert (Hne : forall l, Forall (fun g => members g <> []) l -> (length l <= length (flat l))%nat).
  { intros l HF. induction HF as [|g l Hg _ IH]; [done|]. change (flat (g :: l)) with (members g ++ flat l). rewrite length_app. cbn. destruct (members g); [done|cbn; lia]. }
  intros Ho. pose proof (ok_shape _ _ _ Ho) as Hs. unfold shape in Hs. destruct (prev_cmd_ordered o).
  - destruct Hs as [HF _]. pose proof (Hne _ HF). lia.
  - destruct Hs as (gs0 & cs & -> & HF & _). pose proof (Hne _ HF). rewrite flat_app, !length_app. cbn. lia.
Qed.
