(* ===== verification/SnRun.v ===== *)
(** * The invariant of the order of commands

    The queue of groups against the commands that arrived and where they are, and
    that everything that happens keeps it. *)

From S2P Require Import Prelude Sn SnInv.

(** ** Places *)

Lemma elem_put t x' cs c x : (c, x) ∈ put_place t x' cs <-> (tag c = t /\ x = x' /\ exists x0, (c, x0) ∈ cs) \/ (tag c <> t /\ (c, x) ∈ cs).
Proof.
  unfold put_place. rewrite list_elem_of_fmap. split.
  - intros ([c0 x0] & Eq & H0). cbn in Eq. destruct (Z.eqb_spec (tag c0) t); injection Eq as -> ->; eauto.
  - intros [(Ht & -> & x0 & H0)|[Ht H0]]; [exists (c, x0)|exists (c, x)]; cbn; (split; [|done]); [by rewrite Ht, Z.eqb_refl|].
    by replace (tag c =? t) with false by lia.
Qed.

Lemma fst_put t x' cs : map fst (put_place t x' cs) = map fst cs.
Proof. unfold put_place. rewrite map_map. apply map_ext. intros p. by destruct (_ =? _). Qed.

Lemma tags_put t x' cs : map (fun p => tag p.1) (put_place t x' cs) = map (fun p => tag p.1) cs.
Proof. rewrite <- !(map_map fst tag). by rewrite fst_put. Qed.

Lemma fst_activate act : forall cs, map fst (activate act cs) = map fst cs.
Proof. induction act as [|c act IH]; intros cs; cbn; [done|]. fold (activate act (put_place (tag c) Active cs)). by rewrite IH, fst_put. Qed.

Lemma tags_activate act cs : map (fun p => tag p.1) (activate act cs) = map (fun p => tag p.1) cs.
Proof. rewrite <- !(map_map fst tag). by rewrite fst_activate. Qed.

Lemma elem_activate act : forall cs c x, (c, x) ∈ activate act cs <->
  (tag c ∈ map tag act /\ x = Active /\ exists x0, (c, x0) ∈ cs) \/ (tag c ∉ map tag act /\ (c, x) ∈ cs).
Proof.
  induction act as [|a act IH]; intros cs c x; cbn [activate fold_left map]; [set_solver|]. fold (activate act (put_place (tag a) Active cs)). rewrite IH. split.
  - intros [(Ht & -> & x0 & H0)|[Ht H0]].
    + left. split; [by right|]. split; [done|]. apply elem_put in H0 as [(_ & _ & H0)|[_ H0]]; eauto.
    + apply elem_put in H0 as [(H1 & -> & H0)|[H1 H0]]; [left|right]; [rewrite H1; set_solver|set_solver].
  - intros [(Ht & -> & x0 & H0)|[Ht H0]].
    + destruct (decide (tag c ∈ map tag act)) as [Hin|Hin].
      * left. split; [done|]. split; [done|]. destruct (decide (tag c = tag a)); [exists Active|exists x0]; apply elem_put; [left; eauto|by right].
      * right. split; [done|]. apply elem_put. left. split; [set_solver|]. eauto.
    + right. split; [set_solver|]. apply elem_put. right. set_solver.
Qed.

(** The tag tells the command. *)
Lemma tag_inj (cs : list (scst_cmd * place)) c d x y : NoDup (map (fun p => tag p.1) cs) -> (c, x) ∈ cs -> (d, y) ∈ cs -> tag c = tag d -> c = d /\ x = y.
Proof.
  intros Hnd Hc Hd Ht. apply list_elem_of_lookup in Hc as [i Hi], Hd as [j Hj].
  assert (i = j) as ->; [|rewrite Hi in Hj; by injection Hj as -> ->].
  eapply NoDup_lookup; [exact Hnd|..]; rewrite list_lookup_fmap; [rewrite Hi|rewrite Hj]; cbn; [reflexivity|by rewrite Ht].
Qed.

Lemma find_elem t s c x : find_cmd t s = Some (c, x) -> (c, x) ∈ s_cmds s /\ tag c = t.
Proof. unfold find_cmd. intros H. apply find_some in H as [H Ht]. cbn in Ht. rewrite list_elem_of_In. split; [done|lia]. Qed.

Lemma elem_find s c x : NoDup (map (fun p => tag p.1) (s_cmds s)) -> (c, x) ∈ s_cmds s -> find_cmd (tag c) s = Some (c, x).
Proof.
  intros Hnd H. destruct (find_cmd (tag c) s) as [[d y]|] eqn:Ef.
  - apply find_elem in Ef as [Hd Ht]. by destruct (tag_inj _ _ _ _ _ Hnd Hd H Ht) as [-> ->].
  - unfold find_cmd in Ef. apply find_none with (x := (c, x)) in Ef; [cbn in Ef; lia|]. by apply list_elem_of_In.
Qed.

(** ** HEAD OF QUEUE commands *)

Definition is_hq (c : scst_cmd) : bool := bool_decide (queue_type c = SCST_CMD_QUEUE_HEAD_OF_QUEUE).
Definition unanswered (x : place) : bool := match x with FailedAnswered => false | Sent _ _ a => negb a | _ => true end.
Definition hq_one (c : scst_cmd) (x : place) : Z := if is_hq c && unanswered x then 1 else 0.

Fixpoint hq_waiting (cs : list (scst_cmd * place)) : Z :=
  match cs with
  | [] => 0
  | (c, x) :: cs => hq_one c x + hq_waiting cs
  end.

Lemma hq_one_range c x : 0 <= hq_one c x <= 1.
Proof. unfold hq_one. destruct (_ && _); lia. Qed.

Lemma hq_waiting_nonneg cs : 0 <= hq_waiting cs.
Proof. induction cs as [|[c x] cs IH]; cbn; [done|]. pose proof (hq_one_range c x). lia. Qed.

Lemma hq_waiting_app a b : hq_waiting (a ++ b) = hq_waiting a + hq_waiting b.
Proof. induction a as [|[c x] a IH]; cbn; [done|]. rewrite IH. lia. Qed.

Lemma hq_put_none t x' cs : t ∉ map (fun p => tag p.1) cs -> hq_waiting (put_place t x' cs) = hq_waiting cs.
Proof.
  induction cs as [|[c x] cs IH]; [done|]. cbn. intros H. apply not_elem_of_cons in H as [Hc H]. replace (tag c =? t) with false by lia.
  cbn. fold (put_place t x' cs). by rewrite IH.
Qed.

Lemma hq_put cs c x x' : NoDup (map (fun p => tag p.1) cs) -> (c, x) ∈ cs ->
  hq_waiting (put_place (tag c) x' cs) = hq_waiting cs - hq_one c x + hq_one c x'.
Proof.
  induction cs as [|[d y] cs IH]; [set_solver|]. cbn [map]. intros [Hd Hnd]%NoDup_cons Hc. cbn in Hd. apply elem_of_cons in Hc as [[= <- <-]|Hc].
  - cbn. rewrite Z.eqb_refl. cbn. fold (put_place (tag c) x' cs). rewrite hq_put_none by done. lia.
  - cbn. destruct (Z.eqb_spec (tag d) (tag c)) as [Ht|Ht].
    + exfalso. apply Hd. rewrite Ht. by apply (list_elem_of_fmap_2 (fun p => tag p.1) cs (c, x)).
    + cbn. fold (put_place (tag c) x' cs). rewrite IH by done. lia.
Qed.

(** ** The walks over the lists *)

Definition with_sn (e : Z) (l : list scst_cmd) : list scst_cmd := List.filter (fun c => sn c =? e) l.
Definition without_sn (e : Z) (l : list scst_cmd) : list scst_cmd := List.filter (fun c => negb (sn c =? e)) l.

Lemma elem_with e l c : c ∈ with_sn e l <-> c ∈ l /\ sn c = e.
Proof. unfold with_sn. by rewrite !list_elem_of_In, filter_In, Z.eqb_eq. Qed.

Lemma elem_without e l c : c ∈ without_sn e l <-> c ∈ l /\ sn c <> e.
Proof. unfold without_sn. by rewrite !list_elem_of_In, filter_In, negb_true_iff, Z.eqb_neq. Qed.

Lemma length_with e l : length l = (length (with_sn e l) + length (without_sn e l))%nat.
Proof. unfold with_sn, without_sn. induction l as [|c l IH]; cbn; [done|]. destruct (_ =? _); cbn; lia. Qed.

Lemma nil_with e l : (forall c, c ∈ l -> sn c <> e) -> with_sn e l = [] /\ without_sn e l = l.
Proof.
  unfold with_sn, without_sn. induction l as [|c l IH]; intros H; cbn; [done|]. destruct (Z.eqb_spec (sn c) e); [by destruct (H c); [set_solver|]|].
  cbn. destruct IH as [-> ->]; [|done]. intros d Hd. apply H. set_solver.
Qed.

Lemma deferred_rest e l : deferred_loop l e true false = (without_sn e l, with_sn e l, None, negb (bool_decide (with_sn e l = []))).
Proof.
  unfold with_sn, without_sn. induction l as [|c l IH]; [done|]. cbn. rewrite IH. by destruct (sn c =? e).
Qed.

(** All with the number are taken: when the first has no slot, it is the only one. *)
Lemma deferred_loop_spec e b l : NoDup l -> (forall c d, c ∈ l -> d ∈ l -> sn c = e -> sn d = e -> sn_slot c = None -> d = c) ->
  deferred_loop l e b true =
    (without_sn e l, if b then with_sn e l else tail (with_sn e l), if b then None else head (with_sn e l), negb (bool_decide (with_sn e l = []))).
Proof.
  unfold with_sn, without_sn. induction l as [|c l IH]; intros Hnd Hu; [by destruct b|]. apply NoDup_cons in Hnd as [Hc Hnd]. cbn.
  destruct (Z.eqb_spec (sn c) e) as [Es|Es]; cbn.
  - destruct (sn_slot c) as [k|] eqn:Ek; cbn.
    + rewrite deferred_rest. unfold with_sn, without_sn. by destruct b.
    + destruct (nil_with e l) as [H1 H2]; unfold with_sn, without_sn in *.
      { intros d Hd Hs. assert (d = c) as -> by (apply Hu; set_solver). done. }
      rewrite H1, H2. by destruct b.
  - rewrite IH; [done|done|]. intros x y Hx Hy. apply Hu; set_solver.
Qed.

Lemma take_sn_spec e l : match take_sn l e with
  | None => forall c, c ∈ l -> sn c <> e
  | Some (c, l') => c ∈ l /\ sn c = e /\ (NoDup (map tag l) -> l' = others c l)
  end.
Proof.
  induction l as [|d l IH]; cbn; [set_solver|]. destruct (Z.eqb_spec (sn d) e) as [Es|Es].
  - split; [set_solver|]. split; [done|]. intros [Hd _]%NoDup_cons. unfold others. cbn. rewrite Z.eqb_refl. cbn. symmetry. by apply others_id.
  - destruct (take_sn l e) as [[c l']|]; cbn; [|intros c; set_solver]. destruct IH as (Hc & Hs & Hl). split; [set_solver|]. split; [done|].
    cbn [map]. intros [Hd Hnd]%NoDup_cons. unfold others. cbn. replace (tag d =? tag c) with false.
    + cbn. f_equal. by apply Hl.
    + symmetry. apply Z.eqb_neq. intros E. apply Hd. rewrite E. by apply list_elem_of_fmap_2.
Qed.

(** What is in the first part comes before what follows it. *)
Lemma split_before {A} (f r a : list A) d b c e : NoDup (f ++ r) -> f ++ r = a ++ d :: b ++ c :: e -> c ∈ f -> d ∈ f /\ d <> c.
Proof.
  intros Hnd Heq Hc. apply list_elem_of_lookup in Hc as [k Hk]. pose proof (lookup_lt_Some _ _ _ Hk) as Hlt.
  assert (Hi : (f ++ r) !! length a = Some d) by (rewrite Heq; by apply list_lookup_middle).
  assert (Hj : (f ++ r) !! (length (a ++ d :: b)) = Some c) by (rewrite Heq; change (d :: b ++ c :: e) with ((d :: b) ++ c :: e); rewrite app_assoc; by apply list_lookup_middle).
  assert (k = length (a ++ d :: b)) as -> by (eapply NoDup_lookup; [exact Hnd|by apply lookup_app_l_Some|done]).
  rewrite length_app in Hlt, Hj. cbn in Hlt, Hj. split.
  - rewrite lookup_app_l in Hi by lia. by eapply list_elem_of_lookup_2.
  - intros ->. pose proof (NoDup_lookup _ _ _ _ Hnd Hi Hj). lia.
Qed.

(** ** The invariant *)

Definition unpassed (o : order_data) (cs : list (scst_cmd * place)) : list scst_cmd :=
  List.filter (fun c => sn_set c && bool_decide (tag c ∉ inc_passed o)) (map fst cs).

(** A numbered command: one that was sent has passed when it was posted, or done when
    that is what passes it; until then it is in the first group. *)
Definition place_ok (o : order_data) (gs : list group) (c : scst_cmd) (x : place) : Prop :=
  match x with
  | Active | Deferred | Failed => tag c ∉ inc_passed o
  | FailedAnswered => True
  | Sent p d a => (tag c ∈ inc_passed o <-> (if inc_expected_sn_on_done c then d else p) = true) /\ (tag c ∉ inc_passed o -> c ∈ first_group gs)
  end.

Definition kind_ok (c : scst_cmd) (x : place) : Prop :=
  if sn_set c then is_hq c = false /\ hq_cmd_inced c = false else is_hq c = true /\ hq_cmd_inced c = true /\ x <> Deferred.

Record sn_ok (E : Z) (gs : list group) (o : order_data) (cs : list (scst_cmd * place)) : Prop := {
  so_od : od_ok E gs o;
  so_tags : NoDup (map (fun p => tag p.1) cs);
  so_passed : forall t, t ∈ inc_passed o -> t ∈ map (fun p => tag p.1) cs;
  so_flat : flat gs = unpassed o cs;
  so_def : forall c, c ∈ deferred_cmd_list o <-> (c, Deferred) ∈ cs;
  so_def_nd : NoDup (deferred_cmd_list o);
  so_skip : forall c, c ∈ skipped_sn_list o <-> (c, FailedAnswered) ∈ cs /\ sn_set c = true /\ tag c ∉ inc_passed o;
  so_skip_nd : NoDup (map tag (skipped_sn_list o));
  so_count : def_cmd_count o = Z.of_nat (length (deferred_cmd_list o)) + Z.of_nat (length (skipped_sn_list o));
  so_hq : hq_cmd_count o = hq_waiting cs;
  so_order : forall l1 d l2 c l3, map fst cs = l1 ++ d :: l2 ++ c :: l3 -> sn_set c = true -> sn_set d = true ->
    tag c ∈ inc_passed o -> tag d ∉ inc_passed o -> queue_type c = SCST_CMD_QUEUE_SIMPLE /\ queue_type d = SCST_CMD_QUEUE_SIMPLE;
  so_kind : forall c x, (c, x) ∈ cs -> kind_ok c x;
  so_place : forall c x, (c, x) ∈ cs -> sn_set c = true -> place_ok o gs c x
}.

(** No command waits that could go. *)
Definition awake (gs : list group) (o : order_data) : Prop := hq_cmd_count o = 0 -> forall c, c ∈ deferred_cmd_list o -> c ∉ first_group gs.

Lemma elem_unpassed o cs c : c ∈ unpassed o cs <-> sn_set c = true /\ tag c ∉ inc_passed o /\ exists x, (c, x) ∈ cs.
Proof.
  unfold unpassed. rewrite list_elem_of_In, filter_In, <- list_elem_of_In, andb_true_iff, bool_decide_eq_true, list_elem_of_fmap. split.
  - intros [([d x] & -> & H) [H1 H2]]. eauto.
  - intros (H1 & H2 & x & H). split; [by exists (c, x)|done].
Qed.

Lemma unpassed_pass o o' cs c x' : inc_passed o' = tag c :: inc_passed o -> unpassed o' (put_place (tag c) x' cs) = others c (unpassed o cs).
Proof.
  intros H. unfold unpassed, others. rewrite fst_put, H. induction (map fst cs) as [|d l IH]; [done|]. cbn. rewrite IH.
  destruct (sn_set d); cbn; [|done]. destruct (Z.eqb_spec (tag d) (tag c)) as [E|E].
  - rewrite bool_decide_eq_false_2 by set_solver. destruct (bool_decide (tag d ∉ inc_passed o)); cbn; [|done]. by rewrite E, Z.eqb_refl.
  - rewrite (bool_decide_ext (tag d ∉ tag c :: inc_passed o) (tag d ∉ inc_passed o)) by set_solver. destruct (bool_decide _); cbn; [|done].
    by replace (tag d =? tag c) with false by lia.
Qed.

Lemma put_same cs c x : NoDup (map (fun p => tag p.1) cs) -> (c, x) ∈ cs -> put_place (tag c) x cs = cs.
Proof.
  intros Hnd Hc. unfold put_place. rewrite <- (map_id cs) at 2. apply map_ext_in. intros [d y] Hd%list_elem_of_In. cbn.
  destruct (Z.eqb_spec (tag d) (tag c)) as [E|]; [|done]. by destruct (tag_inj cs d c y x Hnd Hd Hc E) as [-> ->].
Qed.

Lemma od_ok_lists E gs o sk n : od_ok E gs o -> od_ok E gs (o <|skipped_sn_list := sk|> <|def_cmd_count := n|>).
Proof. intros [H1 H2 H3 H4 H5 H6 H7 H8 H9 H10 H11]. by constructor. Qed.

Section ok.
Context (E : Z) (gs : list group) (o : order_data) (cs : list (scst_cmd * place)).
Hypothesis Hok : sn_ok E gs o cs.

Lemma flat_tags : NoDup (map tag (flat gs)).
Proof.
  rewrite (so_flat _ _ _ _ Hok). unfold unpassed. pose proof (so_tags _ _ _ _ Hok) as Hnd. rewrite <- (map_map fst tag) in Hnd. revert Hnd.
  generalize (map fst cs). intros l. induction l as [|c l IH]; [done|]. cbn. intros [Hc Hnd]%NoDup_cons. destruct (_ && _); [|by apply IH]. cbn. apply NoDup_cons.
  split; [|by apply IH]. intros Hin. apply Hc. apply list_elem_of_fmap in Hin as (d & -> & Hd). apply list_elem_of_In, filter_In in Hd as [Hd _].
  apply list_elem_of_fmap_2. by apply list_elem_of_In.
Qed.

Lemma def_flat c : c ∈ deferred_cmd_list o -> c ∈ flat gs /\ sn_set c = true /\ tag c ∉ inc_passed o /\ (c, Deferred) ∈ cs.
Proof.
  intros Hc. apply (so_def _ _ _ _ Hok) in Hc. pose proof (so_kind _ _ _ _ Hok _ _ Hc) as Hk. unfold kind_ok in Hk.
  destruct (sn_set c) eqn:Es; [|by destruct Hk as (_ & _ & ?)]. pose proof (so_place _ _ _ _ Hok _ _ Hc Es) as Hp. cbn in Hp.
  split; [|done]. rewrite (so_flat _ _ _ _ Hok). apply elem_unpassed. eauto.
Qed.

Lemma skip_flat c : c ∈ skipped_sn_list o -> c ∈ flat gs /\ sn_set c = true /\ tag c ∉ inc_passed o /\ (c, FailedAnswered) ∈ cs.
Proof.
  intros Hc. apply (so_skip _ _ _ _ Hok) in Hc as (Hc & Hs & Hp). split; [|done]. rewrite (so_flat _ _ _ _ Hok). apply elem_unpassed. eauto.
Qed.

Lemma idle_empty : flat gs = [] -> def_cmd_count o = 0.
Proof.
  intros Hf. rewrite (so_count _ _ _ _ Hok).
  assert (deferred_cmd_list o = []) as ->; [|assert (skipped_sn_list o = []) as ->; [|done]].
  - destruct (deferred_cmd_list o) as [|c l] eqn:El; [done|]. destruct (def_flat c) as [H _]; [rewrite El; set_solver|]. rewrite Hf in H. set_solver.
  - destruct (skipped_sn_list o) as [|c l] eqn:El; [done|]. destruct (skip_flat c) as [H _]; [rewrite El; set_solver|]. rewrite Hf in H. set_solver.
Qed.

Lemma fst_inj c d x : c ∈ map fst cs -> (d, x) ∈ cs -> tag c = tag d -> c = d.
Proof. intros ([c0 y] & -> & Hc)%list_elem_of_fmap Hd Ht. by destruct (tag_inj cs c0 d y x (so_tags _ _ _ _ Hok) Hc Hd Ht). Qed.

(** A command of the first group and an earlier one are SIMPLE. *)
Lemma first_simple l1 d l2 c l3 : map fst cs = l1 ++ d :: l2 ++ c :: l3 -> sn_set d = true -> tag d ∉ inc_passed o -> c ∈ first_group gs ->
  queue_type c = SCST_CMD_QUEUE_SIMPLE /\ queue_type d = SCST_CMD_QUEUE_SIMPLE.
Proof.
  intros Hm Hd Hpd Hf. pose proof flat_tags as Hnd. pose proof (ok_num _ _ _ (so_od _ _ _ _ Hok)) as Hnum. destruct gs as [|g gs1] eqn:Eg; [set_solver|]. cbn [first_group] in Hf.
  change (flat (g :: gs1)) with (members g ++ flat gs1) in Hnd. pose proof (so_flat _ _ _ _ Hok) as Hfl. change (flat (g :: gs1)) with (members g ++ flat gs1) in Hfl.
  assert (Hcf : c ∈ unpassed o cs) by (rewrite <- Hfl; set_solver). apply elem_unpassed in Hcf as (Hc & Hpc & _).
  unfold unpassed in Hfl. rewrite Hm, !List.filter_app in Hfl. cbn in Hfl. rewrite Hd, bool_decide_eq_true_2 in Hfl by done. cbn in Hfl.
  rewrite List.filter_app in Hfl. cbn in Hfl. rewrite Hc, bool_decide_eq_true_2 in Hfl by done. cbn in Hfl.
  set (a := List.filter _ l1) in Hfl. set (b := List.filter _ l2) in Hfl. set (e := List.filter _ l3) in Hfl.
  destruct (split_before (members g) (flat gs1) a d b c e (NoDup_fmap_1 _ _ Hnd) Hfl Hf) as [Hdg Hne].
  destruct Hnum as [Hnum _]. destruct g as [c0|k l]; cbn [members] in *; [set_solver|]. destruct (Hnum c Hf) as (_ & _ & _ & _ & ?), (Hnum d Hdg) as (_ & _ & _ & _ & ?). done.
Qed.

(** Where a command that has passed may be. *)
Definition passed_place (c : scst_cmd) (x : place) : Prop :=
  match x with
  | FailedAnswered => True
  | Sent p d a => (if inc_expected_sn_on_done c then d else p) = true
  | _ => False
  end.

Lemma sys_pass c x x' : (c, x) ∈ cs -> sn_set c = true -> tag c ∉ inc_passed o -> c ∈ first_group gs -> x <> Deferred -> passed_place c x' ->
  let o0 := o <|skipped_sn_list := others c (skipped_sn_list o)|>
              <|def_cmd_count := Z.of_nat (length (deferred_cmd_list o)) + Z.of_nat (length (others c (skipped_sn_list o)))|> in
  exists rc o' E' gs', scst_inc_expected_sn c o0 = (rc, o') /\ sn_ok E' gs' o' (put_place (tag c) x' cs) /\
    (rc = false -> forall y, y ∈ first_group gs' -> y ∈ first_group gs) /\ deferred_cmd_list o' = deferred_cmd_list o /\ hq_cmd_count o' = hq_cmd_count o /\
    skipped_sn_list o' = others c (skipped_sn_list o) /\ inc_passed o' = tag c :: inc_passed o.
Proof.
  intros Hc Hs Hp Hf Hx Hx' o0.
  destruct (od_pass E gs o0 c (od_ok_lists _ _ _ _ _ (so_od _ _ _ _ Hok)) flat_tags Hf) as (rc & o' & E' & gs' & Hi & Hod & Hfl & Hfst & Hrc & (S1 & S2 & S3 & S4) & Hps).
  exists rc, o', E', gs'. cbn in S1, S2, S3, S4, Hps. split; [done|]. split; [|by rewrite S1, S2, S4, Hps].
  pose proof (so_tags _ _ _ _ Hok) as Hnd. assert (Hnh : is_hq c = false).
  { pose proof (so_kind _ _ _ _ Hok _ _ Hc) as Hk. unfold kind_ok in Hk. rewrite Hs in Hk. by destruct Hk. }
  constructor.
  - done.
  - by rewrite tags_put.
  - intros t. rewrite Hps, tags_put. intros [->|Ht]%elem_of_cons; [by apply (list_elem_of_fmap_2 (fun p => tag p.1) cs (c, x))|by apply (so_passed _ _ _ _ Hok)].
  - by rewrite Hfl, (so_flat _ _ _ _ Hok), (unpassed_pass o o') by done.
  - intros d. rewrite S2, (so_def _ _ _ _ Hok), elem_put. split.
    + intros Hd. right. split; [|done]. intros Ht. destruct (tag_inj cs d c Deferred x Hnd Hd Hc Ht) as [_ <-]. done.
    + intros [(_ & <- & _)|[_ Hd]]; [by destruct Hx'|done].
  - rewrite S2. apply (so_def_nd _ _ _ _ Hok).
  - intros d. rewrite S1, elem_others, (so_skip _ _ _ _ Hok), elem_put, Hps. set_solver.
  - rewrite S1. pose proof (so_skip_nd _ _ _ _ Hok) as Hsk. clear -Hsk. unfold others. induction (skipped_sn_list o) as [|d l IH]; [done|]. cbn in *.
    apply NoDup_cons in Hsk as [Hd Hsk]. destruct (negb _); [|by apply IH]. cbn. apply NoDup_cons. split; [|by apply IH]. intros Hin. apply Hd.
    apply list_elem_of_fmap in Hin as (y & -> & Hy). apply list_elem_of_In, filter_In in Hy as [Hy _]. apply list_elem_of_fmap_2. by apply list_elem_of_In.
  - by rewrite S1, S2, S3.
  - rewrite S4, (so_hq _ _ _ _ Hok), (hq_put cs c x x' Hnd Hc). unfold hq_one. rewrite Hnh. cbn. lia.
  - intros l1 d l2 c0 l3. rewrite fst_put, Hps. intros Hm Hc0 Hd [Ht|Ht]%elem_of_cons Hnp; [|apply (so_order _ _ _ _ Hok l1 d l2 c0 l3); set_solver].
    assert (c0 = c) as -> by (apply (fst_inj c0 c x); [rewrite Hm; set_solver|done|done]).
    apply (first_simple l1 d l2 c l3); set_solver.
  - intros d y [(Ht & -> & y0 & Hd)|[_ Hd]]%elem_put; [|by apply (so_kind _ _ _ _ Hok)].
    pose proof (so_kind _ _ _ _ Hok _ _ Hd) as Hk. destruct (tag_inj cs d c y0 x Hnd Hd Hc Ht) as [-> _]. unfold kind_ok in *. by rewrite Hs in *.
  - intros d y [(Ht & -> & y0 & Hd)|[Ht Hd]]%elem_put Hds.
    + destruct (tag_inj cs d c y0 x Hnd Hd Hc Ht) as [-> _]. destruct x'; try done. cbn in Hx'. cbn. rewrite Hps, Hx'. split; [set_solver|]. intros Hn. exfalso. apply Hn. set_solver.
    + pose proof (so_place _ _ _ _ Hok _ _ Hd Hds) as Hpl. unfold place_ok in *. rewrite Hps. destruct y; set_solver.
Qed.
End ok.

(** ** Waking deferred commands *)

Definition release (res : option scst_cmd) (cs : list (scst_cmd * place)) : list (scst_cmd * place) :=
  match res with Some c => put_place (tag c) (Sent false false false) cs | None => cs end.

Lemma fst_release res cs : map fst (release res cs) = map fst cs.
Proof. destruct res; [apply fst_put|done]. Qed.

(** The commands that are woken: the released one and the activated ones. *)
Definition woken (res : option scst_cmd) (act : list scst_cmd) : list scst_cmd := match res with Some c => c :: act | None => act end.

(** The places afterwards; the woken ones are neither deferred nor passed. *)
Lemma elem_woken res act cs c x : NoDup (map tag (woken res act)) -> (c, x) ∈ release res (activate act cs) ->
  (exists x0, (c, x0) ∈ cs) /\ (tag c ∈ map tag (woken res act) /\ x = (if bool_decide (Some (tag c) = option_map tag res) then Sent false false false else Active) \/
  (tag c ∉ map tag (woken res act) /\ (c, x) ∈ cs)).
Proof.
  intros Hnd. destruct res as [r|]; cbn [woken release option_map map] in *.
  - intros [(Ht & -> & x0 & H0)|[Ht H0]]%elem_put.
    + apply elem_activate in H0. split; [destruct H0 as [(_ & _ & ?)|[_ ?]]; eauto|]. left. rewrite bool_decide_eq_true_2 by congruence. set_solver.
    + rewrite bool_decide_eq_false_2 by congruence. apply elem_activate in H0 as [(H1 & H2 & H3)|[H1 H2]]; set_solver.
  - rewrite bool_decide_eq_false_2 by done. intros [(H1 & H2 & H3)|[H1 H2]]%elem_activate; set_solver.
Qed.

Lemma woken_elem res act cs c x : (c, x) ∈ cs -> tag c ∉ map tag (woken res act) -> (c, x) ∈ release res (activate act cs).
Proof.
  intros Hc Ht. destruct res as [r|]; cbn [woken release map] in *; [apply elem_put; right; split; [set_solver|]|]; apply elem_activate; right; set_solver.
Qed.

Lemma hq_activate act : forall cs, NoDup (map (fun p => tag p.1) cs) ->
  (forall a, a ∈ act -> exists x, (a, x) ∈ cs /\ is_hq a = false) -> hq_waiting (activate act cs) = hq_waiting cs.
Proof.
  induction act as [|a act IH]; intros cs Hnd Ha; [done|]. cbn. fold (activate act (put_place (tag a) Active cs)).
  destruct (Ha a) as (x & Hx & Hq); [set_solver|]. rewrite IH.
  - rewrite (hq_put cs a x Active Hnd Hx). unfold hq_one. rewrite Hq. cbn. lia.
  - by rewrite tags_put.
  - intros b Hb. destruct (Ha b) as (y & Hy & Hbq); [set_solver|]. destruct (decide (tag b = tag a)).
    + exists Active. split; [|done]. apply elem_put. left. eauto.
    + exists y. split; [|done]. apply elem_put. by right.
Qed.

Lemma hq_release res act cs : NoDup (map (fun p => tag p.1) cs) ->
  (forall a, a ∈ woken res act -> exists x, (a, x) ∈ cs /\ is_hq a = false) -> hq_waiting (release res (activate act cs)) = hq_waiting cs.
Proof.
  intros Hnd Ha. assert (Hact : hq_waiting (activate act cs) = hq_waiting cs) by (apply hq_activate; [done|]; intros a H; apply Ha; destruct res; set_solver).
  destruct res as [r|]; [|done]. destruct (Ha r) as (x & Hx & Hq); [cbn; set_solver|]. cbn.
  assert (Hr : exists y, (r, y) ∈ activate act cs).
  { destruct (decide (tag r ∈ map tag act)); [exists Active|exists x]; apply elem_activate; [left; eauto|by right]. }
  destruct Hr as [y Hy]. rewrite (hq_put _ r y); [|by rewrite tags_activate|done]. unfold hq_one. rewrite Hq. cbn. lia.
Qed.

Section wake.
Context (E : Z) (gs : list group) (o : order_data) (cs : list (scst_cmd * place)).
Hypothesis Hok : sn_ok E gs o cs.

(** Two deferred commands with the expected number, one of them without a slot. *)
Lemma deferred_unique c d : c ∈ deferred_cmd_list o -> d ∈ deferred_cmd_list o -> sn c = expected_sn o -> sn d = expected_sn o -> sn_slot c = None -> d = c.
Proof.
  intros Hc Hd Ec Ed Hn. destruct (def_flat _ _ _ _ Hok c Hc) as [Fc _], (def_flat _ _ _ _ Hok d Hd) as [Fd _].
  pose proof (so_od _ _ _ _ Hok) as Hod. apply (expected_first _ _ _ _ Hod Fc) in Ec. apply (expected_first _ _ _ _ Hod Fd) in Ed.
  pose proof (ok_num _ _ _ Hod) as Hnum. destruct gs as [|[g|k l] gs1]; [set_solver|cbn in *; set_solver|]. destruct Hnum as [Hnum _].
  destruct (Hnum c Ec) as (_ & _ & _ & Hk & _). congruence.
Qed.

Lemma sys_wake rf res act : woken res act = with_sn (expected_sn o) (deferred_cmd_list o) -> (rf = false -> res = None) ->
  let o' := o <|deferred_cmd_list := without_sn (expected_sn o) (deferred_cmd_list o)|>
              <|def_cmd_count := def_cmd_count o - Z.of_nat (length (with_sn (expected_sn o) (deferred_cmd_list o)))|> in
  sn_ok E gs o' (release res (activate act cs)) /\ (forall c, c ∈ deferred_cmd_list o' -> c ∉ first_group gs).
Proof.
  intros Hw Hrf o'. pose proof (so_od _ _ _ _ Hok) as Hod. pose proof (so_tags _ _ _ _ Hok) as Hnd.
  assert (Hwd : forall a, a ∈ woken res act -> a ∈ deferred_cmd_list o /\ a ∈ first_group gs /\ sn_set a = true /\ tag a ∉ inc_passed o /\ (a, Deferred) ∈ cs).
  { intros a Ha. rewrite Hw in Ha. apply elem_with in Ha as [Ha Hs]. destruct (def_flat _ _ _ _ Hok a Ha) as (F & ?). split; [done|]. split; [|done].
    by apply (expected_first _ _ _ _ Hod F). }
  assert (Hwt : NoDup (map tag (woken res act))).
  { apply NoDup_fmap_2_strong.
    - intros a b Ha Hb Ht. apply Hwd in Ha as (_ & _ & _ & _ & Ha), Hb as (_ & _ & _ & _ & Hb). by destruct (tag_inj cs a b _ _ Hnd Ha Hb Ht).
    - rewrite Hw. apply NoDup_ListNoDup, List.NoDup_filter, NoDup_ListNoDup, (so_def_nd _ _ _ _ Hok). }
  assert (Hin : forall c x, (c, x) ∈ cs -> tag c ∈ map tag (woken res act) -> c ∈ woken res act).
  { intros c x Hc Ht. apply list_elem_of_fmap in Ht as (a & Ht & Ha). pose proof (Hwd a Ha) as (_ & _ & _ & _ & Ha'). by destruct (tag_inj cs c a _ _ Hnd Hc Ha' Ht) as [-> _]. }
  split.
  - constructor.
    + destruct Hod as [H1 H2 H3 H4 H5 H6 H7 H8 H9 H10 H11]. by constructor.
    + rewrite <- (map_map fst tag), fst_release, fst_activate, map_map. done.
    + intros t Ht. rewrite <- (map_map fst tag), fst_release, fst_activate, map_map. by apply (so_passed _ _ _ _ Hok).
    + rewrite (so_flat _ _ _ _ Hok). unfold unpassed. by rewrite fst_release, fst_activate.
    + intros c. cbn. rewrite elem_without, (so_def _ _ _ _ Hok). split.
      * intros [Hc Hs]. apply woken_elem; [done|]. intros Ht. apply (Hin _ _ Hc) in Ht. rewrite Hw in Ht. by apply elem_with in Ht as [_ ?].
      * intros Hc. destruct (elem_woken _ _ _ _ _ Hwt Hc) as [_ [[_ Hx]|[Ht Hc']]]; [by destruct (bool_decide _)|]. split; [done|]. intros Hs. apply Ht.
        apply list_elem_of_fmap_2. rewrite Hw. apply elem_with. split; [by apply (so_def _ _ _ _ Hok)|done].
    + cbn. apply NoDup_ListNoDup, List.NoDup_filter, NoDup_ListNoDup, (so_def_nd _ _ _ _ Hok).
    + intros c. cbn. rewrite (so_skip _ _ _ _ Hok). split; intros (Hc & Hs & Hp); (split; [|done]).
      * apply woken_elem; [done|]. intros Ht. pose proof (Hin _ _ Hc Ht) as Ha. apply Hwd in Ha as (_ & _ & _ & _ & Ha). by destruct (tag_inj cs c c _ _ Hnd Hc Ha eq_refl) as [_ ?].
      * destruct (elem_woken _ _ _ _ _ Hwt Hc) as [_ [[_ Hx]|[_ Hc']]]; [by destruct (bool_decide _)|done].
    + apply (so_skip_nd _ _ _ _ Hok).
    + cbn. rewrite (so_count _ _ _ _ Hok), (length_with (expected_sn o) (deferred_cmd_list o)). lia.
    + cbn. rewrite (so_hq _ _ _ _ Hok). symmetry. apply hq_release; [done|]. intros a Ha. apply Hwd in Ha as (_ & _ & Hs & _ & Ha). exists Deferred. split; [done|].
      pose proof (so_kind _ _ _ _ Hok _ _ Ha) as Hk. unfold kind_ok in Hk. rewrite Hs in Hk. by destruct Hk.
    + intros l1 d l2 c l3. rewrite fst_release, fst_activate. apply (so_order _ _ _ _ Hok).
    + intros c x Hc. destruct (elem_woken _ _ _ _ _ Hwt Hc) as [[x0 H0] [[_ Hx]|[_ Hc']]]; [|by apply (so_kind _ _ _ _ Hok)].
      pose proof (so_kind _ _ _ _ Hok _ _ H0) as Hk. unfold kind_ok in *. destruct (sn_set c); [done|]. split_and!; [tauto|tauto|]. rewrite Hx. by destruct (bool_decide _).
    + intros c x Hc Hs. destruct (elem_woken _ _ _ _ _ Hwt Hc) as [[x0 H0] [[Ht Hx]|[_ Hc']]]; [|by apply (so_place _ _ _ _ Hok _ _ Hc' Hs)].
      destruct (Hwd c (Hin _ _ H0 Ht)) as (_ & Hf & _ & Hp & _). rewrite Hx. destruct (bool_decide _); cbn; [|done].
      split; [|done]. split; [done|]. by destruct (inc_expected_sn_on_done c).
  - cbn. intros c Hc Hf. apply elem_without in Hc as [Hc Hs]. apply Hs. destruct (def_flat _ _ _ _ Hok c Hc) as [F _]. by apply (expected_first _ _ _ _ Hod F).
Qed.
End wake.

(** What a look at the deferred commands ends with. *)
Definition looked (rf : bool) (o : order_data) (cs : list (scst_cmd * place)) (r : option (option scst_cmd * list scst_cmd * order_data)) : Prop :=
  exists res act o' E' gs', r = Some (res, act, o') /\ sn_ok E' gs' o' (release res (activate act cs)) /\ awake gs' o' /\
    hq_cmd_count o' = hq_cmd_count o /\ (rf = false -> res = None) /\ (hq_cmd_count o <> 0 -> res = None /\ act = []).

Lemma restart_ok rf fuel : forall E gs o cs, sn_ok E gs o cs -> (length (skipped_sn_list o) < fuel)%nat -> hq_cmd_count o = 0 -> looked rf o cs (restart_loop fuel rf o).
Proof.
  induction fuel as [|fuel IH]; intros E gs o cs Hok Hf Hq; [lia|]. cbn [restart_loop].
  rewrite deferred_loop_spec by (first [apply (so_def_nd _ _ _ _ Hok)|apply (deferred_unique _ _ _ _ Hok)]).
  set (w := with_sn (expected_sn o) (deferred_cmd_list o)). set (k := without_sn (expected_sn o) (deferred_cmd_list o)).
  assert (Hlen : (length (deferred_cmd_list o) - length k = length w)%nat) by (rewrite (length_with (expected_sn o) (deferred_cmd_list o)); fold k w; lia).
  rewrite Hlen. destruct (decide (w = [])) as [Hw|Hw].
  - rewrite bool_decide_eq_true_2 by done. cbn [negb]. rewrite Hw. cbn [length]. change (skipped_sn_list _) with (skipped_sn_list o). change (expected_sn _) with (expected_sn o).
    assert (Hk : k = deferred_cmd_list o).
    { destruct (nil_with (expected_sn o) (deferred_cmd_list o)) as [_ ?]; [|done]. intros c Hc Hs. assert (Hx : c ∈ w) by (by apply elem_with). rewrite Hw in Hx. set_solver. }
    rewrite Hk. pose proof (take_sn_spec (expected_sn o) (skipped_sn_list o)) as Ht. destruct (take_sn _ _) as [[c l]|].
    + destruct Ht as (Hc & Hs & Hl). specialize (Hl (so_skip_nd _ _ _ _ Hok)). destruct (skip_flat _ _ _ _ Hok c Hc) as (Fc & Hss & Hp & Hc').
      apply (expected_first _ _ _ _ (so_od _ _ _ _ Hok) Fc) in Hs.
      destruct (sys_pass _ _ _ _ Hok c FailedAnswered FailedAnswered Hc' Hss Hp Hs ltac:(done) I) as (rc & o' & E' & gs' & Hi & Hok' & _ & _ & Hq' & Hsk & _).
      rewrite (put_same cs c FailedAnswered (so_tags _ _ _ _ Hok) Hc') in Hok'.
      match goal with |- looked _ _ _ (restart_loop _ _ (scst_inc_expected_sn c ?oo).2) =>
        replace oo with (o <|skipped_sn_list := others c (skipped_sn_list o)|> <|def_cmd_count := Z.of_nat (length (deferred_cmd_list o)) + Z.of_nat (length (others c (skipped_sn_list o)))|>) end.
      2:{ pose proof (so_count _ _ _ _ Hok) as Hn. pose proof (length_others c _ (so_skip_nd _ _ _ _ Hok) Hc) as Hlo. clear -Hn Hlo Hl. destruct o. cbn in *. subst l. cbv [set_field set_skipped_sn_list set_def_cmd_count set_deferred_cmd_list]. cbn. f_equal. lia. }
      rewrite Hi. cbn [snd]. destruct (IH E' gs' o' cs Hok') as (res & act & o2 & E2 & gs2 & H1 & H2 & H3 & H4 & H5 & H6); [|lia|].
      { rewrite Hsk. pose proof (length_others c _ (so_skip_nd _ _ _ _ Hok) Hc). lia. }
      exists res, act, o2, E2, gs2. rewrite <- Hq'. done.
    + destruct (sys_wake E gs o cs Hok false None []) as [H1 H2]; [by symmetry|done|]. fold w k in H1, H2. rewrite Hw, Hk in H1, H2.
      eexists _, _, _, E, gs. split; [by destruct rf|]. destruct rf; (split; [exact H1|]); (split; [intros _; exact H2|]); done.
  - rewrite bool_decide_eq_false_2 by done. cbn [negb].
    assert (Hwk : woken (if negb rf then None else head w) (if negb rf then w else tail w) = w) by (destruct rf; cbn; [destruct w; done|done]).
    destruct (sys_wake E gs o cs Hok rf _ _ Hwk) as [H1 H2]; [by intros ->|]. eexists _, _, _, E, gs. split; [reflexivity|].
    split; [exact H1|]. split; [intros _; exact H2|]. split; [done|]. split; [by intros ->|done].
Qed.

Lemma check_deferred_ok E gs o cs rf : sn_ok E gs o cs -> looked rf o cs (scst_check_deferred_commands rf o).
Proof.
  intros Hok. unfold scst_check_deferred_commands, scst_check_deferred_commands_locked.
  assert (Hnone : awake gs o -> looked rf o cs (Some (None, [], o))) by (intros Ha; exists None, [], o, E, gs; done).
  destruct (Z.eqb_spec (def_cmd_count o) 0) as [Hz|Hz].
  - apply Hnone. intros _ c Hc. pose proof (so_count _ _ _ _ Hok) as Hn. destruct (deferred_cmd_list o) as [|d l] eqn:Ed; [set_solver|]. cbn in Hn. lia.
  - destruct (Z.eqb_spec (hq_cmd_count o) 0) as [Hq|Hq]; cbn [negb]; [apply (restart_ok rf _ E gs); [done|lia|done]|]. apply Hnone. by intros ?.
Qed.

Lemma make_active_ok E gs o cs : sn_ok E gs o cs ->
  exists act o' E' gs', scst_make_deferred_commands_active o = Some (act, o') /\ sn_ok E' gs' o' (activate act cs) /\ awake gs' o'.
Proof.
  intros Hok. destruct (check_deferred_ok E gs o cs false Hok) as (res & act & o' & E' & gs' & H1 & H2 & H3 & _ & H5 & _). unfold scst_make_deferred_commands_active.
  rewrite H1. cbn. rewrite (H5 eq_refl) in H2. eauto 10.
Qed.

(** ** One command moves *)

Lemma od_ok_same E gs o o' : od_ok E gs o -> expected_sn o' = expected_sn o -> curr_sn o' = curr_sn o -> prev_cmd_ordered o' = prev_cmd_ordered o ->
  pending_simple_inc_expected_sn o' = pending_simple_inc_expected_sn o -> cur_sn_slot o' = cur_sn_slot o -> sn_slots o' = sn_slots o -> od_ok E gs o'.
Proof.
  intros [H1 H2 H3 H4 H5 H6 H7 H8 H9 H10 H11] X1 X2 X3 X4 X5 X6. constructor; rewrite ?X1, ?X2, ?X3, ?X4, ?X5, ?X6; try done.
  intros k Hk. unfold slot_value. rewrite X6. by apply H9.
Qed.

(** From its place to another, on and off the lists accordingly. *)
Lemma sys_update E gs o o' cs c x x' : sn_ok E gs o cs -> (c, x) ∈ cs -> od_ok E gs o' -> inc_passed o' = inc_passed o ->
  (forall d, d ∈ deferred_cmd_list o' <-> (tag d <> tag c /\ d ∈ deferred_cmd_list o) \/ (d = c /\ x' = Deferred)) -> NoDup (deferred_cmd_list o') ->
  (forall d, d ∈ skipped_sn_list o' <-> (tag d <> tag c /\ d ∈ skipped_sn_list o) \/ (d = c /\ x' = FailedAnswered /\ sn_set c = true /\ tag c ∉ inc_passed o)) ->
  NoDup (map tag (skipped_sn_list o')) ->
  def_cmd_count o' = Z.of_nat (length (deferred_cmd_list o')) + Z.of_nat (length (skipped_sn_list o')) ->
  hq_cmd_count o' = hq_cmd_count o - hq_one c x + hq_one c x' -> kind_ok c x' -> (sn_set c = true -> place_ok o gs c x') ->
  sn_ok E gs o' (put_place (tag c) x' cs).
Proof.
  intros Hok Hc Hod Hps Hd Hdn Hs Hsn Hn Hq Hk Hp. pose proof (so_tags _ _ _ _ Hok) as Hnd.
  assert (Heq : forall d y, (d, y) ∈ cs -> tag d = tag c -> d = c) by (intros d y Hy Ht; by destruct (tag_inj cs d c y x Hnd Hy Hc Ht)).
  constructor; try done.
  - by rewrite tags_put.
  - intros t. rewrite Hps, tags_put. apply (so_passed _ _ _ _ Hok).
  - rewrite (so_flat _ _ _ _ Hok). unfold unpassed. by rewrite fst_put, Hps.
  - intros d. rewrite Hd, (so_def _ _ _ _ Hok), elem_put. split.
    + intros [[Ht Hy]|[-> ->]]; [by right|left]. eauto.
    + intros [(Ht & <- & y & Hy)|[Ht Hy]]; [right|by left]. split; [by eapply Heq|done].
  - intros d. rewrite Hs, (so_skip _ _ _ _ Hok), elem_put, Hps. split.
    + intros [[Ht (Hy & H1)]|(-> & -> & H1 & H2)]; [split; [by right|done]|]. split; [left; eauto|done].
    + intros [[(Ht & <- & y & Hy)|[Ht Hy]] [H1 H2]]; [right|by left]. assert (d = c) as -> by (by eapply Heq). done.
  - rewrite Hq, (so_hq _ _ _ _ Hok), (hq_put cs c x x' Hnd Hc). done.
  - intros l1 d l2 c0 l3. rewrite fst_put, Hps. apply (so_order _ _ _ _ Hok).
  - intros d y [(Ht & -> & y0 & Hy)|[_ Hy]]%elem_put; [|by apply (so_kind _ _ _ _ Hok)]. by rewrite (Heq d y0 Hy Ht).
  - intros d y [(Ht & -> & y0 & Hy)|[_ Hy]]%elem_put Hds.
    + rewrite (Heq d y0 Hy Ht) in *. specialize (Hp Hds). unfold place_ok in *. by rewrite Hps.
    + pose proof (so_place _ _ _ _ Hok _ _ Hy Hds) as Hpl. unfold place_ok in *. by rewrite Hps.
Qed.

(** Without the lists being touched; a HEAD OF QUEUE command may be answered. *)
Lemma sys_move E gs o cs c x x' n : sn_ok E gs o cs -> (c, x) ∈ cs -> x <> Deferred -> x' <> Deferred ->
  (sn_set c = true -> x <> FailedAnswered /\ x' <> FailedAnswered /\ place_ok o gs c x') -> n = hq_cmd_count o - hq_one c x + hq_one c x' ->
  sn_ok E gs (o <|hq_cmd_count := n|>) (put_place (tag c) x' cs).
Proof.
  intros Hok Hc Hx Hx' Hp ->. pose proof (so_tags _ _ _ _ Hok) as Hnd. eapply sys_update; try done.
  - eapply od_ok_same; [exact (so_od _ _ _ _ Hok)|done..].
  - intros d. cbn. split; [|intros [[_ ?]|[_ ?]]; done]. intros Hd. left. split; [|done]. intros Ht. apply (so_def _ _ _ _ Hok) in Hd.
    by destruct (tag_inj cs d c _ x Hnd Hd Hc Ht) as [_ <-].
  - apply (so_def_nd _ _ _ _ Hok).
  - intros d. cbn. split; [|intros [[_ ?]|(_ & -> & Hs & _)]; [done|by apply Hp in Hs as (_ & ? & _)]]. intros Hd. left. split; [|done].
    intros Ht. apply (so_skip _ _ _ _ Hok) in Hd as (Hd & Hs & _). destruct (tag_inj cs d c _ x Hnd Hd Hc Ht) as [-> <-]. by apply Hp in Hs as [? _].
  - apply (so_skip_nd _ _ _ _ Hok).
  - apply (so_count _ _ _ _ Hok).
  - pose proof (so_kind _ _ _ _ Hok _ _ Hc) as Hk. unfold kind_ok in *. by destruct (sn_set c); [|destruct Hk as (? & ? & _)].
  - intros Hs. by apply Hp.
Qed.

Lemma sys_move_same E gs o cs c x x' : sn_ok E gs o cs -> (c, x) ∈ cs -> x <> Deferred -> x' <> Deferred ->
  (sn_set c = true -> x <> FailedAnswered /\ x' <> FailedAnswered /\ place_ok o gs c x') -> hq_one c x = hq_one c x' ->
  sn_ok E gs o (put_place (tag c) x' cs).
Proof.
  intros Hok Hc Hx Hx' Hp Hq. pose proof (sys_move E gs o cs c x x' (hq_cmd_count o) Hok Hc Hx Hx' Hp ltac:(lia)) as H. by destruct o.
Qed.

Lemma sys_defer E gs o cs c : sn_ok E gs o cs -> (c, Active) ∈ cs -> sn_set c = true ->
  sn_ok E gs (o <|def_cmd_count := def_cmd_count o + 1|> <|deferred_cmd_list := deferred_cmd_list o ++ [c]|>) (put_place (tag c) Deferred cs).
Proof.
  intros Hok Hc Hs. pose proof (so_tags _ _ _ _ Hok) as Hnd.
  assert (Hnot : forall d, d ∈ deferred_cmd_list o -> tag d <> tag c).
  { intros d Hd Ht. apply (so_def _ _ _ _ Hok) in Hd. by destruct (tag_inj cs d c _ _ Hnd Hd Hc Ht). }
  eapply sys_update; try done.
  - eapply od_ok_same; [exact (so_od _ _ _ _ Hok)|done..].
  - intros d. cbn. rewrite elem_of_app, list_elem_of_singleton. naive_solver.
  - cbn. apply NoDup_app. split; [apply (so_def_nd _ _ _ _ Hok)|]. split; [|apply NoDup_singleton]. intros d Hd. rewrite list_elem_of_singleton. intros ->. by apply (Hnot c).
  - intros d. cbn. split; [|intros [[_ ?]|(_ & ? & _)]; done]. intros Hd. left. split; [|done]. intros Ht. apply (so_skip _ _ _ _ Hok) in Hd as (Hd & _).
    by destruct (tag_inj cs d c _ _ Hnd Hd Hc Ht).
  - apply (so_skip_nd _ _ _ _ Hok).
  - cbn. rewrite (so_count _ _ _ _ Hok), length_app. cbn. lia.
  - cbn. unfold hq_one. cbn. lia.
  - pose proof (so_kind _ _ _ _ Hok _ _ Hc) as Hk. unfold kind_ok in *. by rewrite Hs in *.
  - intros _. exact (so_place _ _ _ _ Hok _ _ Hc Hs).
Qed.

Lemma sys_unblock E gs o cs c : sn_ok E gs o cs -> (c, Deferred) ∈ cs -> sn_ok E gs (unblock_aborted c o) (put_place (tag c) Active cs).
Proof.
  intros Hok Hc. pose proof (so_tags _ _ _ _ Hok) as Hnd. pose proof (proj2 (so_def _ _ _ _ Hok c) Hc) as Hcd.
  destruct (def_flat _ _ _ _ Hok c Hcd) as (_ & Hs & Hp & _). unfold unblock_aborted. fold (others c (deferred_cmd_list o)).
  assert (Hdt : NoDup (map tag (deferred_cmd_list o))).
  { apply NoDup_fmap_2_strong; [|apply (so_def_nd _ _ _ _ Hok)]. intros a b Ha%(so_def _ _ _ _ Hok) Hb%(so_def _ _ _ _ Hok) Ht. by destruct (tag_inj cs a b _ _ Hnd Ha Hb Ht). }
  eapply sys_update; try done.
  - eapply od_ok_same; [exact (so_od _ _ _ _ Hok)|done..].
  - intros d. cbn. rewrite elem_others. naive_solver.
  - cbn. apply NoDup_ListNoDup, List.NoDup_filter, NoDup_ListNoDup, (so_def_nd _ _ _ _ Hok).
  - intros d. cbn. split; [|intros [[_ ?]|(_ & ? & _)]; done]. intros Hd. left. split; [|done]. intros Ht. apply (so_skip _ _ _ _ Hok) in Hd as (Hd & _).
    by destruct (tag_inj cs d c _ _ Hnd Hd Hc Ht).
  - apply (so_skip_nd _ _ _ _ Hok).
  - cbn. rewrite (so_count _ _ _ _ Hok), (length_others c _ Hdt Hcd). lia.
  - cbn. unfold hq_one. cbn. lia.
  - pose proof (so_kind _ _ _ _ Hok _ _ Hc) as Hk. unfold kind_ok in *. by rewrite Hs in *.
Qed.

Lemma sys_skip E gs o cs c : sn_ok E gs o cs -> (c, Failed) ∈ cs -> sn_set c = true ->
  sn_ok E gs (o <|def_cmd_count := def_cmd_count o + 1|> <|skipped_sn_list := skipped_sn_list o ++ [c]|>) (put_place (tag c) FailedAnswered cs).
Proof.
  intros Hok Hc Hs. pose proof (so_tags _ _ _ _ Hok) as Hnd. pose proof (so_place _ _ _ _ Hok _ _ Hc Hs) as Hp. cbn in Hp.
  assert (Hnot : forall d, d ∈ skipped_sn_list o -> tag d <> tag c).
  { intros d Hd Ht. apply (so_skip _ _ _ _ Hok) in Hd as (Hd & _). by destruct (tag_inj cs d c _ _ Hnd Hd Hc Ht). }
  eapply sys_update; try done.
  - eapply od_ok_same; [exact (so_od _ _ _ _ Hok)|done..].
  - intros d. cbn. split; [|intros [[_ ?]|(_ & ?)]; done]. intros Hd. left. split; [|done]. intros Ht. apply (so_def _ _ _ _ Hok) in Hd.
    by destruct (tag_inj cs d c _ _ Hnd Hd Hc Ht).
  - apply (so_def_nd _ _ _ _ Hok).
  - intros d. cbn. rewrite elem_of_app, list_elem_of_singleton. naive_solver.
  - cbn. rewrite map_app. apply NoDup_app. split; [apply (so_skip_nd _ _ _ _ Hok)|]. split; [|apply NoDup_singleton]. cbn. intros t Ht. rewrite list_elem_of_singleton. intros ->.
    apply list_elem_of_fmap in Ht as (d & Ht & Hd). by apply (Hnot d).
  - cbn. rewrite (so_count _ _ _ _ Hok), length_app. cbn. lia.
  - cbn. pose proof (so_kind _ _ _ _ Hok _ _ Hc) as Hk. unfold kind_ok in Hk. rewrite Hs in Hk. unfold hq_one. destruct Hk as [-> _]. cbn. lia.
  - pose proof (so_kind _ _ _ _ Hok _ _ Hc) as Hk. unfold kind_ok in *. by rewrite Hs in *.
Qed.

(** ** Arrival *)

Lemma tags_snoc cs c (x : place) t : t ∉ map (fun p => tag p.1) cs -> tag c = t -> NoDup (map (fun p => tag p.1) cs) -> NoDup (map (fun p => tag p.1) (cs ++ [(c, x)])).
Proof.
  intros Ht <- Hnd. rewrite map_app. apply NoDup_app. split; [done|]. split; [|apply NoDup_singleton]. cbn. intros u Hu. rewrite list_elem_of_singleton. by intros ->.
Qed.

(** A last element that is not [c]. *)
Lemma snoc_split {A} (l : list A) z l1 d l2 c l3 : l ++ [z] = l1 ++ d :: l2 ++ c :: l3 -> c <> z -> exists l4, l = l1 ++ d :: l2 ++ c :: l4.
Proof.
  intros H Hz. destruct l3 as [|y l3 _] using rev_ind.
  - replace (l1 ++ d :: l2 ++ [c]) with ((l1 ++ d :: l2) ++ [c]) in H by (by rewrite <- app_assoc). apply app_inj_tail in H as [_ <-]. done.
  - replace (l1 ++ d :: l2 ++ c :: l3 ++ [y]) with ((l1 ++ d :: l2 ++ c :: l3) ++ [y]) in H by (rewrite <- !app_assoc; cbn; by rewrite <- app_assoc).
    apply app_inj_tail in H as [-> _]. eauto.
Qed.

Lemma sys_arrive E gs o cs c r : sn_ok E gs o cs -> awake gs o -> tag c ∉ map (fun p => tag p.1) cs -> is_hq c = false -> hq_cmd_inced c = false -> arrives gs o c r ->
  exists c' o' E' gs', r = Some (c', [], o') /\ sn_ok E' gs' o' (cs ++ [(c', Active)]) /\ awake gs' o'.
Proof.
  intros Hok Ha Ht Hh Hi (c' & o' & E' & gs' & Hr & Hod & Hfl & H1 & H2 & H3 & H4 & H5 & H6 & H7 & (S1 & S2 & S3 & S4) & Hps).
  exists c', o', E', gs'. split; [done|].
  assert (Hnp : tag c' ∉ inc_passed o) by (rewrite H1; intros Hp; apply Ht; by apply (so_passed _ _ _ _ Hok)).
  assert (Hnew : forall x, (c', x) ∉ cs) by (intros x Hx; apply Ht; rewrite <- H1; by apply (list_elem_of_fmap_2 (fun p => tag p.1) cs (c', x))).
  assert (Hmem : forall d x, (d, x) ∈ cs ++ [(c', Active)] <-> (d, x) ∈ cs \/ (d = c' /\ x = Active)) by (intros d x; rewrite elem_of_app, list_elem_of_singleton; naive_solver).
  split; [constructor|].
  - done.
  - by eapply tags_snoc; [exact Ht|done|apply (so_tags _ _ _ _ Hok)].
  - intros t. rewrite Hps, map_app. intros Hp%(so_passed _ _ _ _ Hok). set_solver.
  - rewrite Hfl, (so_flat _ _ _ _ Hok). unfold unpassed. rewrite map_app, List.filter_app, Hps. cbn. by rewrite H3, bool_decide_eq_true_2.
  - intros d. rewrite S2, (so_def _ _ _ _ Hok), Hmem. naive_solver.
  - rewrite S2. apply (so_def_nd _ _ _ _ Hok).
  - intros d. rewrite S1, (so_skip _ _ _ _ Hok), Hmem, Hps. naive_solver.
  - rewrite S1. apply (so_skip_nd _ _ _ _ Hok).
  - rewrite S1, S2, S3. apply (so_count _ _ _ _ Hok).
  - rewrite S4, hq_waiting_app, (so_hq _ _ _ _ Hok). cbn. unfold hq_one, is_hq in *. rewrite H2, Hh. cbn. lia.
  - intros l1 d l2 c0 l3. rewrite map_app, Hps. cbn. intros Hm Hc0 Hd Hp Hnd. apply snoc_split in Hm as [l4 Hm]; [|by intros ->]. by apply (so_order _ _ _ _ Hok l1 d l2 c0 l4).
  - intros d x [Hd|[-> ->]]%Hmem; [by apply (so_kind _ _ _ _ Hok)|]. unfold kind_ok, is_hq in *. by rewrite H3, H2, H4.
  - intros d x [Hd|[-> ->]]%Hmem Hs; [|by cbn; rewrite Hps]. pose proof (so_place _ _ _ _ Hok _ _ Hd Hs) as Hp. unfold place_ok in *. rewrite Hps. destruct x; naive_solver.
  - intros Hq d Hd Hf. rewrite S4 in Hq. rewrite S2 in Hd. apply H7 in Hf as [Hf| ->]; [by apply (Ha Hq d)|]. apply (so_def _ _ _ _ Hok) in Hd. by apply Hnew in Hd.
Qed.

(** A HEAD OF QUEUE command arrives. *)
Lemma sys_arrive_hq E gs o cs c : sn_ok E gs o cs -> tag c ∉ map (fun p => tag p.1) cs -> is_hq c = true -> sn_set c = false -> hq_cmd_inced c = true ->
  sn_ok E gs (o <|hq_cmd_count := hq_cmd_count o + 1|>) (cs ++ [(c, Active)]).
Proof.
  intros Hok Ht Hh Hs Hi.
  assert (Hmem : forall d x, (d, x) ∈ cs ++ [(c, Active)] <-> (d, x) ∈ cs \/ (d = c /\ x = Active)) by (intros d x; rewrite elem_of_app, list_elem_of_singleton; naive_solver).
  constructor; cbn [set_field set_hq_cmd_count inc_passed deferred_cmd_list skipped_sn_list def_cmd_count hq_cmd_count].
  - eapply od_ok_same; [exact (so_od _ _ _ _ Hok)|done..].
  - by eapply tags_snoc; [exact Ht|done|apply (so_tags _ _ _ _ Hok)].
  - intros t. rewrite map_app. intros Hp%(so_passed _ _ _ _ Hok). set_solver.
  - rewrite (so_flat _ _ _ _ Hok). unfold unpassed. rewrite map_app, List.filter_app. cbn. by rewrite Hs, app_nil_r.
  - intros d. rewrite (so_def _ _ _ _ Hok), Hmem. naive_solver.
  - apply (so_def_nd _ _ _ _ Hok).
  - intros d. rewrite (so_skip _ _ _ _ Hok), Hmem. naive_solver.
  - apply (so_skip_nd _ _ _ _ Hok).
  - apply (so_count _ _ _ _ Hok).
  - rewrite hq_waiting_app, (so_hq _ _ _ _ Hok). cbn. unfold hq_one. rewrite Hh. cbn. lia.
  - intros l1 d l2 c0 l3. rewrite map_app. cbn. intros Hm Hc0 Hd Hp Hnd. apply snoc_split in Hm as [l4 Hm]; [|intros ->; congruence]. by apply (so_order _ _ _ _ Hok l1 d l2 c0 l4).
  - intros d x [Hd|[-> ->]]%Hmem; [by apply (so_kind _ _ _ _ Hok)|]. unfold kind_ok. by rewrite Hs.
  - intros d x [Hd|[-> ->]]%Hmem Hds; [|congruence]. exact (so_place _ _ _ _ Hok _ _ Hd Hds).
Qed.
