(* ===== verification/SnThms.v ===== *)
(** * The order of commands: steps and theorems *)

From S2P Require Import Prelude Sn SnInv SnRun.

Definition good (s : sn_sys) : Prop := exists E gs, sn_ok E gs (s_od s) (s_cmds s) /\ awake gs (s_od s).

Lemma good_init : good sn_init.
Proof.
  exists (-20), [GSimp 0 []]. split; [|intros _ c; set_solver]. constructor; cbn; try done; try (constructor; fail); try set_solver.
  constructor; try done; try (apply NoDup_singleton); try set_solver.
  - exists [], []. done.
  - unfold SN_SLOTS. cbn. lia.
  - intros k Hk. unfold slot_value, SN_SLOTS in *. do 15 (destruct k as [|k]; [done|]). lia.
  - intros k Hk. apply list_elem_of_singleton in Hk as ->. unfold SN_SLOTS. lia.
Qed.

Lemma awake_less gs gs' o o' : awake gs o -> hq_cmd_count o' = hq_cmd_count o -> (forall c, c ∈ deferred_cmd_list o' -> c ∈ deferred_cmd_list o) ->
  (forall c, c ∈ first_group gs' -> c ∈ first_group gs) -> awake gs' o'.
Proof. intros Ha Hq Hd Hf H0 c Hc Hin. apply (Ha ltac:(congruence) c); auto. Qed.

(** A command that is not skipped passes. *)
Lemma sys_pass_now E gs o cs c x x' : sn_ok E gs o cs -> (c, x) ∈ cs -> sn_set c = true -> tag c ∉ inc_passed o -> c ∈ first_group gs ->
  x <> Deferred -> x <> FailedAnswered -> passed_place c x' ->
  exists rc o' E' gs', scst_inc_expected_sn c o = (rc, o') /\ sn_ok E' gs' o' (put_place (tag c) x' cs) /\
    (rc = false -> forall y, y ∈ first_group gs' -> y ∈ first_group gs) /\ deferred_cmd_list o' = deferred_cmd_list o /\ hq_cmd_count o' = hq_cmd_count o.
Proof.
  intros Hok Hc Hs Hp Hf Hx Hx2 Hx'. destruct (sys_pass E gs o cs Hok c x x' Hc Hs Hp Hf Hx Hx') as (rc & o' & E' & gs' & Hi & H1 & H2 & H3 & H4 & _).
  exists rc, o', E', gs'. split; [|done]. rewrite <- Hi. f_equal. rewrite others_id.
  - pose proof (so_count _ _ _ _ Hok) as Hn. destruct o. cbn in *. by subst.
  - intros Hin. apply list_elem_of_fmap in Hin as (d & Ht & Hd). apply (so_skip _ _ _ _ Hok) in Hd as (Hd & _).
    by destruct (tag_inj cs d c _ x (so_tags _ _ _ _ Hok) Hd Hc (eq_sym Ht)) as [_ ?].
Qed.

(** ** What happens, one by one *)

Section steps.
Context (s : sn_sys) (c : scst_cmd).
Hypothesis Hgood : good s.
Notation cs := (s_cmds s).
Notation o := (s_od s).

Lemma good_tags : NoDup (map (fun p => tag p.1) cs).
Proof. destruct Hgood as (E & gs & Hok & _). apply (so_tags _ _ _ _ Hok). Qed.

Lemma find_of x : (c, x) ∈ cs -> find_cmd (tag c) s = Some (c, x).
Proof. apply elem_find, good_tags. Qed.

Lemma good_kind x : (c, x) ∈ cs -> kind_ok c x.
Proof. destruct Hgood as (E & gs & Hok & _). apply (so_kind _ _ _ _ Hok). Qed.

Definition check_place (ab : bool) : place :=
  if is_hq c then Sent false false false
  else if negb (sn c =? expected_sn o) || (0 <? hq_cmd_count o) then if ab then Failed else Deferred
  else Sent false false false.

Lemma do_check ab : (c, Active) ∈ cs -> exists o', sn_do (Check_ (tag c) ab) s = Some (mkSys o' (put_place (tag c) (check_place ab) cs)) /\
  good (mkSys o' (put_place (tag c) (check_place ab) cs)).
Proof.
  intros Hc. unfold sn_do. rewrite (find_of _ Hc). cbn [mbind option_bind]. rewrite bool_decide_eq_true_2 by done. pose proof (good_kind _ Hc) as Hk. unfold kind_ok in Hk.
  destruct Hgood as (E & gs & Hok & Ha). unfold scst_exec_check_sn, check_place. fold (is_hq c).
  destruct (is_hq c) eqn:Eh; cbn zeta iota beta.
  - eexists. split; [reflexivity|]. exists E, gs. split; [|done]. eapply sys_move_same; try done.
    intros Hs. rewrite Hs in Hk. by destruct Hk.
  - destruct (sn_set c) eqn:Hs; [|by destruct Hk]. pose proof (so_place _ _ _ _ Hok _ _ Hc Hs) as Hp. cbn in Hp.
    assert (Hflat : c ∈ flat gs) by (rewrite (so_flat _ _ _ _ Hok); apply elem_unpassed; eauto).
    destruct (negb (sn c =? expected_sn o) || (0 <? hq_cmd_count o)) eqn:Eo; [destruct ab|].
    + eexists. split; [reflexivity|]. exists E, gs. split; [|done]. eapply sys_move_same; try done.
    + eexists. split; [reflexivity|]. exists E, gs. split; [by apply sys_defer|]. intros H0 d Hd Hf. cbn in H0, Hd. apply elem_of_app in Hd as [Hd|Hd]; [by apply (Ha H0 d)|].
      apply list_elem_of_singleton in Hd as ->. apply (expected_first _ _ _ _ (so_od _ _ _ _ Hok) Hflat) in Hf. rewrite Hf, Z.eqb_refl in Eo. lia.
    + eexists. split; [reflexivity|]. exists E, gs. split; [|done]. eapply sys_move_same; try done.
      intros _. split; [done|]. split; [done|]. cbn. apply orb_false_iff in Eo as [Eo _]. split; [by destruct (inc_expected_sn_on_done c)|].
      intros _. apply (expected_first _ _ _ _ (so_od _ _ _ _ Hok) Hflat). lia.
Qed.

Lemma do_fail : (c, Active) ∈ cs -> sn_do (Fail_ (tag c)) s = Some (mkSys o (put_place (tag c) Failed cs)) /\ good (mkSys o (put_place (tag c) Failed cs)).
Proof.
  intros Hc. unfold sn_do. rewrite (find_of _ Hc). split; [done|]. destruct Hgood as (E & gs & Hok & Ha). exists E, gs. split; [|done].
  eapply sys_move_same; try done. intros Hs. pose proof (so_place _ _ _ _ Hok _ _ Hc Hs) as Hp. done.
Qed.

Lemma do_unblock : (c, Deferred) ∈ cs -> sn_do (Unblock (tag c)) s = Some (mkSys (unblock_aborted c o) (put_place (tag c) Active cs)) /\
  good (mkSys (unblock_aborted c o) (put_place (tag c) Active cs)).
Proof.
  intros Hc. unfold sn_do. rewrite (find_of _ Hc). split; [done|]. destruct Hgood as (E & gs & Hok & Ha). exists E, gs. split; [by apply sys_unblock|].
  eapply awake_less; [exact Ha|done| |done]. intros d Hd. cbn in Hd. fold (others c (deferred_cmd_list o)) in Hd. by apply elem_others in Hd as [? _].
Qed.

Lemma post_ok d a : (c, Sent false d a) ∈ cs -> exists res act o', scst_post_exec_sn c o = Some (res, act, o') /\
  good (mkSys o' (release res (activate act (put_place (tag c) (Sent true d a) cs)))) /\ (hq_cmd_count o <> 0 -> res = None).
Proof.
  intros Hc. destruct Hgood as (E & gs & Hok & Ha). unfold scst_post_exec_sn.
  destruct (negb (inc_expected_sn_on_done c) && sn_set c) eqn:Ei.
  - apply andb_true_iff in Ei as [Ei Hs]. apply negb_true_iff in Ei. pose proof (so_place _ _ _ _ Hok _ _ Hc Hs) as [Hp1 Hp2]. rewrite Ei in Hp1.
    assert (Hp : tag c ∉ inc_passed o) by (intros H; by apply Hp1 in H). specialize (Hp2 Hp).
    destruct (sys_pass_now E gs o cs c _ (Sent true d a) Hok Hc Hs Hp Hp2 ltac:(done) ltac:(done) ltac:(cbn; by rewrite Ei)) as (rc & o1 & E1 & gs1 & Hi & Hok1 & Hrc & Hd1 & Hq1).
    rewrite Hi. destruct rc; cbn [negb].
    + destruct (check_deferred_ok E1 gs1 o1 _ true Hok1) as (res & act & o2 & E2 & gs2 & H1 & H2 & H3 & _ & _ & H6). rewrite H1. cbn [mbind option_bind].
      exists res, act, o2. split; [by destruct res|]. split; [exists E2, gs2; done|]. intros Hq. by apply H6; rewrite Hq1.
    + exists None, [], o1. split; [done|]. split; [|done]. exists E1, gs1. split; [done|]. eapply awake_less; [exact Ha|done|intros z; cbn; by rewrite Hd1|by apply Hrc].
  - exists None, [], o. split; [done|]. split; [|done]. exists E, gs. split; [|done]. cbn. eapply sys_move_same; try done. intros Hs. rewrite Hs, andb_true_r in Ei.
    apply negb_false_iff in Ei. pose proof (so_place _ _ _ _ Hok _ _ Hc Hs) as Hp. cbn in *. by rewrite Ei in *.
Qed.

Lemma done_ok p : (c, Sent p false false) ∈ cs -> exists act o', dev_done_sn c o = Some (act, o') /\ good (mkSys o' (activate act (put_place (tag c) (Sent p true false) cs))).
Proof.
  intros Hc. destruct Hgood as (E & gs & Hok & Ha). unfold dev_done_sn.
  destruct (inc_expected_sn_on_done c && sn_set c) eqn:Ei.
  - apply andb_true_iff in Ei as [Ei Hs]. pose proof (so_place _ _ _ _ Hok _ _ Hc Hs) as [Hp1 Hp2]. rewrite Ei in Hp1.
    assert (Hp : tag c ∉ inc_passed o) by (intros H; by apply Hp1 in H). specialize (Hp2 Hp).
    destruct (sys_pass_now E gs o cs c _ (Sent p true false) Hok Hc Hs Hp Hp2 ltac:(done) ltac:(done) ltac:(cbn; by rewrite Ei)) as (rc & o1 & E1 & gs1 & Hi & Hok1 & Hrc & Hd1 & Hq1).
    rewrite Hi. destruct rc; cbn [negb].
    + destruct (make_active_ok E1 gs1 o1 _ Hok1) as (act & o2 & E2 & gs2 & H1 & H2 & H3). rewrite H1. cbn [mbind option_bind].
      exists act, o2. split; [done|]. exists E2, gs2. done.
    + exists [], o1. split; [done|]. exists E1, gs1. split; [done|]. eapply awake_less; [exact Ha|done|intros z; cbn; by rewrite Hd1|by apply Hrc].
  - exists [], o. split; [done|]. exists E, gs. split; [|done]. cbn. eapply sys_move_same; try done. intros Hs. rewrite Hs, andb_true_r in Ei.
    pose proof (so_place _ _ _ _ Hok _ _ Hc Hs) as Hp. cbn in *. by rewrite Ei in *.
Qed.

(** A HEAD OF QUEUE command is answered. *)
Lemma hq_answered x x' : (c, x) ∈ cs -> is_hq c = true -> sn_set c = false -> x <> Deferred -> x' <> Deferred -> unanswered x = true -> unanswered x' = false ->
  exists act o', scst_on_hq_cmd_response c o = Some (act, o') /\ good (mkSys o' (activate act (put_place (tag c) x' cs))).
Proof.
  intros Hc Hh Hs Hx Hx' Hu Hu'. destruct Hgood as (E & gs & Hok & Ha). pose proof (so_kind _ _ _ _ Hok _ _ Hc) as Hk. unfold kind_ok in Hk. rewrite Hs in Hk.
  destruct Hk as (_ & Hi & _). unfold scst_on_hq_cmd_response. rewrite Hi. cbn [negb].
  assert (Hok1 : sn_ok E gs (o <|hq_cmd_count := hq_cmd_count o - 1|>) (put_place (tag c) x' cs)).
  { eapply sys_move; try done; [|unfold hq_one; rewrite Hh, Hu, Hu'; cbn; lia]. intros H. by rewrite Hs in H. }
  change (hq_cmd_count (o <|hq_cmd_count := _|>)) with (hq_cmd_count o - 1). destruct (Z.eqb_spec (hq_cmd_count o - 1) 0) as [H0|H0].
  - destruct (make_active_ok E gs _ _ Hok1) as (act & o2 & E2 & gs2 & H1 & H2 & H3). exists act, o2. split; [done|]. exists E2, gs2. done.
  - eexists [], _. split; [reflexivity|]. exists E, gs. split; [exact Hok1|]. intros Hq. cbn in Hq. lia.
Qed.

Lemma answer_ok p : (c, Sent p true false) ∈ cs -> exists act o', pre_xmit_sn true c o = Some (act, o') /\ good (mkSys o' (activate act (put_place (tag c) (Sent p true true) cs))).
Proof.
  intros Hc. unfold pre_xmit_sn. fold (is_hq c). pose proof (good_kind _ Hc) as Hk. unfold kind_ok in Hk.
  destruct (sn_set c) eqn:Hs.
  - destruct Hk as [Hh _]. rewrite Hh. cbn [negb mbind option_bind]. exists [], o. split; [done|]. destruct Hgood as (E & gs & Hok & Ha). exists E, gs. split; [|done].
    cbn. eapply sys_move_same; try done; [|unfold hq_one; by rewrite Hh]. intros _. split; [done|]. split; [done|]. exact (so_place _ _ _ _ Hok _ _ Hc Hs).
  - destruct Hk as (Hh & _ & _). rewrite Hh. destruct (hq_answered _ (Sent p true true) Hc Hh Hs) as (act & o' & H1 & H2); try done. rewrite H1. cbn. eauto.
Qed.

Lemma answer_failed_ok : (c, Failed) ∈ cs -> exists act o', pre_xmit_sn false c o = Some (act, o') /\ good (mkSys o' (activate act (put_place (tag c) FailedAnswered cs))).
Proof.
  intros Hc. unfold pre_xmit_sn. fold (is_hq c). pose proof (good_kind _ Hc) as Hk. unfold kind_ok in Hk.
  destruct (sn_set c) eqn:Hs.
  - destruct Hk as [Hh _]. rewrite Hh. cbn [negb]. unfold scst_unblock_deferred. rewrite Hs. cbn [negb]. destruct Hgood as (E & gs & Hok & Ha).
    pose proof (so_place _ _ _ _ Hok _ _ Hc Hs) as Hp. cbn in Hp.
    assert (Hflat : c ∈ flat gs) by (rewrite (so_flat _ _ _ _ Hok); apply elem_unpassed; eauto).
    assert (H : exists E1 gs1, sn_ok E1 gs1 (if sn c =? expected_sn o then (scst_inc_expected_sn c o).2
      else o <|def_cmd_count := def_cmd_count o + 1|> <|skipped_sn_list := skipped_sn_list o ++ [c]|>) (put_place (tag c) FailedAnswered cs)).
    { destruct (Z.eqb_spec (sn c) (expected_sn o)) as [Ee|Ee]; [|exists E, gs; by apply sys_skip].
      apply (expected_first _ _ _ _ (so_od _ _ _ _ Hok) Hflat) in Ee.
      destruct (sys_pass_now E gs o cs c _ FailedAnswered Hok Hc Hs Hp Ee ltac:(done) ltac:(done) I) as (rc & o1 & E1 & gs1 & Hi & Hok1 & _). rewrite Hi. eauto. }
    destruct H as (E1 & gs1 & Hok1). destruct (make_active_ok E1 gs1 _ _ Hok1) as (act & o2 & E2 & gs2 & H1 & H2 & H3). rewrite H1. cbn. exists act, o2. split; [done|].
    exists E2, gs2. done.
  - destruct Hk as (Hh & _ & _). rewrite Hh. destruct (hq_answered _ FailedAnswered Hc Hh Hs) as (act & o' & H1 & H2); try done. rewrite H1. cbn. eauto.
Qed.
End steps.

Definition arrived (restricted implicit_hq : bool) (qt : scst_cmd_queue_type) : scst_cmd_queue_type :=
  match qt with
  | SCST_CMD_QUEUE_HEAD_OF_QUEUE => SCST_CMD_QUEUE_HEAD_OF_QUEUE
  | SCST_CMD_QUEUE_SIMPLE => if implicit_hq then SCST_CMD_QUEUE_HEAD_OF_QUEUE else if restricted then SCST_CMD_QUEUE_ORDERED else SCST_CMD_QUEUE_SIMPLE
  | SCST_CMD_QUEUE_UNTAGGED => if restricted then SCST_CMD_QUEUE_ORDERED else SCST_CMD_QUEUE_SIMPLE
  | SCST_CMD_QUEUE_ORDERED => SCST_CMD_QUEUE_ORDERED
  end.

(** The attribute is adjusted, and the rest depends on it. *)
Lemma set_sn_cases ih r t qt od o : scst_cmd_set_sn ih r (mkCmd t qt 0 false None false od) o =
  match arrived r ih qt with
  | SCST_CMD_QUEUE_HEAD_OF_QUEUE => Some (mkCmd t SCST_CMD_QUEUE_HEAD_OF_QUEUE 0 false None true od, [], o <|hq_cmd_count := hq_cmd_count o + 1|>)
  | SCST_CMD_QUEUE_ORDERED => set_ordered (mkCmd t SCST_CMD_QUEUE_ORDERED 0 false None false od) o
  | _ => set_simple (mkCmd t SCST_CMD_QUEUE_SIMPLE 0 false None false od) o
  end.
Proof. by destruct qt, ih, r. Qed.

Lemma do_arrive s t qt od ih r : good s -> t ∉ map (fun p => tag p.1) (s_cmds s) -> Z.of_nat (length (not_passed s)) < 4294967290 ->
  exists c o', sn_do (Arrive t qt od ih r) s = Some (mkSys o' (s_cmds s ++ [(c, Active)])) /\ good (mkSys o' (s_cmds s ++ [(c, Active)])).
Proof.
  intros (E & gs & Hok & Ha) Ht Hn. unfold sn_do. rewrite bool_decide_eq_false_2 by done. replace (4294967290 <=? _) with false by lia. cbn [orb].
  assert (Hfew : Z.of_nat (length gs) + 1 < 4294967296).
  { pose proof (few_groups _ _ _ (so_od _ _ _ _ Hok)) as Hl. rewrite (so_flat _ _ _ _ Hok) in Hl. change (unpassed _ _) with (not_passed s) in Hl. lia. }
  rewrite set_sn_cases. pose proof (so_od _ _ _ _ Hok) as Hod.
  assert (Hnum : forall c x, tag c = t -> is_hq c = false -> hq_cmd_inced c = false -> arrives gs (s_od s) c x ->
    exists c' o', ('(c, act, o) ← x; Some (mkSys o (activate act (s_cmds s) ++ [(c, Active)]))) = Some (mkSys o' (s_cmds s ++ [(c', Active)])) /\ good (mkSys o' (s_cmds s ++ [(c', Active)]))).
  { intros c x Hc Hh Hi Har. destruct (sys_arrive E gs (s_od s) (s_cmds s) c x Hok Ha ltac:(by rewrite Hc) Hh Hi Har) as (c' & o' & E' & gs' & -> & Hok' & Ha').
    exists c', o'. split; [done|]. exists E', gs'. done. }
  destruct (arrived r ih qt).
  1,2: eapply Hnum; [..|by apply (arrive_simple E)]; done.
  - eapply Hnum; [..|apply (arrive_ordered E); try done; by apply (idle_empty E gs _ (s_cmds s))]; done.
  - eexists _, _. split; [reflexivity|]. exists E, gs. split; [by apply sys_arrive_hq|]. intros Hq. cbn in Hq. pose proof (hq_waiting_nonneg (s_cmds s)). rewrite (so_hq _ _ _ _ Hok) in Hq. lia.
Qed.

(** What a step is, by its label. *)
Definition moves (l : label) (s s' : sn_sys) : Prop :=
  let put c x := put_place (tag c) x (s_cmds s) in
  match l with
  | Arrive _ _ _ _ _ => exists c o', s' = mkSys o' (s_cmds s ++ [(c, Active)])
  | Check_ t ab => exists c o', t = tag c /\ (c, Active) ∈ s_cmds s /\ scst_exec_check_sn ab c (s_od s) = (o'.1, o'.2) /\ s' = mkSys o'.2 (put c (check_place s c ab))
  | Fail_ t => exists c, t = tag c /\ (c, Active) ∈ s_cmds s /\ s' = mkSys (s_od s) (put c Failed)
  | Unblock t => exists c, t = tag c /\ (c, Deferred) ∈ s_cmds s /\ s' = mkSys (unblock_aborted c (s_od s)) (put c Active)
  | Post t => exists c d a res act o', t = tag c /\ (c, Sent false d a) ∈ s_cmds s /\ scst_post_exec_sn c (s_od s) = Some (res, act, o') /\
      s' = mkSys o' (release res (activate act (put c (Sent true d a)))) /\ (hq_cmd_count (s_od s) <> 0 -> res = None)
  | Done t => exists c p act o', t = tag c /\ (c, Sent p false false) ∈ s_cmds s /\ dev_done_sn c (s_od s) = Some (act, o') /\ s' = mkSys o' (activate act (put c (Sent p true false)))
  | Answer t => exists c x x' act o', t = tag c /\ (c, x) ∈ s_cmds s /\ (x = Failed /\ x' = FailedAnswered \/ exists p, x = Sent p true false /\ x' = Sent p true true) /\
      pre_xmit_sn (match x with Sent _ _ _ => true | _ => false end) c (s_od s) = Some (act, o') /\ s' = mkSys o' (activate act (put c x'))
  end.

(** Everything that happens keeps the invariant. *)
Lemma do_moves l s s' : good s -> sn_do l s = Some s' -> good s' /\ moves l s s'.
Proof.
  intros Hg Hl. destruct l as [t qt od ih r|t ab|t|t|t|t|t].
  { unfold sn_do in Hl. destruct (bool_decide _) eqn:Et; [done|]. destruct (Z.leb_spec 4294967290 (Z.of_nat (length (not_passed s)))); [done|].
    apply bool_decide_eq_false in Et. destruct (do_arrive s t qt od ih r Hg Et ltac:(lia)) as (c & o' & H1 & H2). unfold sn_do in H1.
    rewrite bool_decide_eq_false_2 in H1 by done. replace (4294967290 <=? _) with false in H1 by lia. rewrite H1 in Hl. injection Hl as <-. split; [done|]. cbn. eauto. }
  all: destruct (find_cmd t s) as [[c x]|] eqn:Ef; [|by unfold sn_do in Hl; rewrite Ef in Hl]; destruct (find_elem _ _ _ _ Ef) as [Hc <-]; unfold sn_do in Hl; rewrite Ef in Hl; cbn [mbind option_bind] in Hl.
  - destruct (decide (x = Active)) as [->|Hx]; [|by rewrite bool_decide_eq_false_2 in Hl].
    destruct (do_check s c Hg ab Hc) as (o' & H1 & H2). unfold sn_do in H1. rewrite Ef in H1. cbn [mbind option_bind] in H1. rewrite bool_decide_eq_true_2 in H1, Hl by done.
    destruct (scst_exec_check_sn ab c (s_od s)) as [r o1] eqn:Ee. rewrite H1 in Hl. injection Hl as <-. split; [done|]. exists c, (r, o1). injection H1 as <- _. done.
  - destruct (decide (x = Active)) as [->|Hx]; [|by rewrite bool_decide_eq_false_2 in Hl].
    rewrite bool_decide_eq_true_2 in Hl by done. injection Hl as <-. split; [by apply do_fail|]. by exists c.
  - destruct (decide (x = Deferred)) as [->|Hx]; [|by rewrite bool_decide_eq_false_2 in Hl].
    rewrite bool_decide_eq_true_2 in Hl by done. injection Hl as <-. split; [by apply do_unblock|]. by exists c.
  - destruct x as [| | | |[] d a]; try done. destruct (post_ok s c Hg d a Hc) as (res & act & o' & H1 & H2 & H3).
    rewrite H1 in Hl. injection Hl as <-. split; [done|]. exists c, d, a, res, act, o'. done.
  - destruct x as [| | | |p [] []]; try done. destruct (done_ok s c Hg p Hc) as (act & o' & H1 & H2).
    rewrite H1 in Hl. injection Hl as <-. split; [done|]. exists c, p, act, o'. done.
  - destruct x as [| | | |p [] []]; try done.
    + destruct (answer_failed_ok s c Hg Hc) as (act & o' & H1 & H2). rewrite H1 in Hl. injection Hl as <-. split; [done|]. exists c, Failed, FailedAnswered, act, o'. eauto 10.
    + destruct (answer_ok s c Hg p Hc) as (act & o' & H1 & H2). rewrite H1 in Hl. injection Hl as <-. split; [done|]. exists c, (Sent p true false), (Sent p true true), act, o'. eauto 10.
Qed.

Lemma good_do l s s' : good s -> sn_do l s = Some s' -> good s'.
Proof. intros Hg Hl. by apply (do_moves l s). Qed.

Lemma good_run ls : forall s s', good s -> sn_run ls s = Some s' -> good s'.
Proof. induction ls as [|l ls IH]; intros s s' Hg; cbn; [by intros [= <-]|]. destruct (sn_do l s) as [s1|] eqn:E; [|done]. cbn. apply IH. by eapply good_do. Qed.

Lemma good_reach ls s : sn_run ls sn_init = Some s -> good s.
Proof. apply good_run, good_init. Qed.

(** ** The order *)

(** A command no longer holds up later ones: it ended, or was sent and [expected_sn]
    went on. *)
Definition passed_by (c : scst_cmd) (x : place) : bool :=
  match x with
  | FailedAnswered => true
  | Sent p d _ => if inc_expected_sn_on_done c then d else p
  | _ => false
  end.

Definition is_sent (x : place) : bool := match x with Sent _ _ _ => true | _ => false end.

Lemma unpassed_place E gs o cs c x : sn_ok E gs o cs -> (c, x) ∈ cs -> sn_set c = true -> passed_by c x = false -> tag c ∉ inc_passed o.
Proof. intros Hok Hc Hs Hp. pose proof (so_place _ _ _ _ Hok _ _ Hc Hs) as Hpl. destruct x as [| | | |p d a]; cbn in *; try done. destruct Hpl as [Hpl _]. intros Hin. apply Hpl in Hin. congruence. Qed.

Lemma not_hq_set c x : kind_ok c x -> is_hq c = false -> sn_set c = true.
Proof. unfold kind_ok. destruct (sn_set c); [done|]. intros (H & _). congruence. Qed.

(** When a command was sent, each command that arrived before it, where one of the two is
    ORDERED, has passed. *)
Lemma order_good s l1 d y l2 c p dn a l3 : good s -> s_cmds s = l1 ++ (d, y) :: l2 ++ (c, Sent p dn a) :: l3 ->
  is_hq c = false -> is_hq d = false -> queue_type c = SCST_CMD_QUEUE_ORDERED \/ queue_type d = SCST_CMD_QUEUE_ORDERED -> passed_by d y = true.
Proof.
  intros (E & gs & Hok & _) Hcs Hc Hd Hq.
  assert (Hcin : (c, Sent p dn a) ∈ s_cmds s) by (rewrite Hcs; set_solver). assert (Hdin : (d, y) ∈ s_cmds s) by (rewrite Hcs; set_solver).
  pose proof (not_hq_set _ _ (so_kind _ _ _ _ Hok _ _ Hcin) Hc) as Hcs1. pose proof (not_hq_set _ _ (so_kind _ _ _ _ Hok _ _ Hdin) Hd) as Hds1.
  destruct (passed_by d y) eqn:Ep; [done|]. pose proof (unpassed_place _ _ _ _ _ _ Hok Hdin Hds1 Ep) as Hnp.
  assert (Hm : map fst (s_cmds s) = map fst l1 ++ d :: map fst l2 ++ c :: map fst l3) by (rewrite Hcs, map_app; cbn; by rewrite map_app).
  assert (Hsimple : queue_type c = SCST_CMD_QUEUE_SIMPLE /\ queue_type d = SCST_CMD_QUEUE_SIMPLE); [|destruct Hsimple, Hq; congruence].
  destruct (decide (tag c ∈ inc_passed (s_od s))) as [Hpc|Hpc]; [by apply (so_order _ _ _ _ Hok _ _ _ _ _ Hm)|].
  apply (first_simple _ _ _ _ Hok _ _ _ _ _ Hm Hds1 Hnp). by apply (so_place _ _ _ _ Hok _ _ Hcin Hcs1).
Qed.

(** ** HEAD OF QUEUE commands *)

Lemma hq_zero cs : hq_waiting cs = 0 -> forall h y, (h, y) ∈ cs -> is_hq h = true -> unanswered y = false.
Proof.
  induction cs as [|[c x] cs IH]; [set_solver|]. cbn. intros H0 h y [[= -> ->]|Hin]%elem_of_cons Hh; pose proof (hq_waiting_nonneg cs); pose proof (hq_one_range c x); [|by apply (IH ltac:(lia) h)].
  unfold hq_one in *. rewrite Hh in *. destruct (unanswered x); [cbn in *; lia|done].
Qed.

(** A command that is sent was sent before, is the one of the label, or was released. *)
Lemma sent_put t x' cs c p d a : (c, Sent p d a) ∈ put_place t x' cs -> (exists x, (c, x) ∈ cs /\ is_sent x = true) \/ (tag c = t /\ x' = Sent p d a).
Proof. intros [(Ht & <- & _)|[_ H]]%elem_put; [by right|left; by exists (Sent p d a)]. Qed.

Lemma sent_activate act cs c p d a : (c, Sent p d a) ∈ activate act cs -> (c, Sent p d a) ∈ cs.
Proof. by intros [(_ & ? & _)|[_ H]]%elem_activate. Qed.

Lemma sent_moves s c0 x0 x' act c p d a : good s -> (c0, x0) ∈ s_cmds s -> is_sent x' = is_sent x0 -> (forall x, (c, x) ∈ s_cmds s -> is_sent x = false) ->
  (c, Sent p d a) ∈ activate act (put_place (tag c0) x' (s_cmds s)) -> False.
Proof.
  intros Hg Hc0 Hx Hns H. apply sent_activate, elem_put in H as [(Ht & <- & x & Hin)|[_ H]]; [|by apply Hns in H].
  destruct (tag_inj _ _ _ _ _ (good_tags s Hg) Hin Hc0 Ht) as [-> ->]. apply Hns in Hin. cbn in Hx. congruence.
Qed.

(** C15: HEAD OF QUEUE commands go first: whatever happens, a command of another kind
    is sent only when every HEAD OF QUEUE command that arrived is answered. *)
Theorem sn_head_of_queue ls s l s' c p d a : sn_run ls sn_init = Some s -> sn_do l s = Some s' -> (c, Sent p d a) ∈ s_cmds s' -> is_hq c = false ->
  (forall x, (c, x) ∈ s_cmds s -> is_sent x = false) -> forall h y, (h, y) ∈ s_cmds s -> is_hq h = true -> unanswered y = false.
Proof.
  intros Hr Hl Hc Hq Hns. pose proof (good_reach ls s Hr) as Hg. pose proof Hg as (E & gs & Hok & _). apply hq_zero. rewrite <- (so_hq _ _ _ _ Hok).
  destruct (decide (hq_cmd_count (s_od s) = 0)) as [|Hne]; [done|]. exfalso. destruct (do_moves l s s' Hg Hl) as [_ Hm]. destruct l as [t qt od ih r|t ab|t|t|t|t|t].
  - destruct Hm as (c0 & o' & ->). cbn in Hc. apply elem_of_app in Hc as [Hc|Hc]; [by apply Hns in Hc|by apply list_elem_of_singleton in Hc].
  - destruct Hm as (c0 & o' & -> & Hc0 & _ & ->). cbn in Hc. apply elem_put in Hc as [(Ht & Hx & x & Hin)|[_ Hin]]; [|by apply Hns in Hin].
    destruct (tag_inj _ _ _ _ _ (good_tags s Hg) Hin Hc0 Ht) as [-> _]. unfold check_place in Hx. rewrite Hq in Hx. pose proof (hq_waiting_nonneg (s_cmds s)) as Hnn. rewrite <- (so_hq _ _ _ _ Hok) in Hnn.
    replace (0 <? hq_cmd_count (s_od s)) with true in Hx by lia. rewrite orb_true_r in Hx. by destruct ab.
  - destruct Hm as (c0 & -> & Hc0 & ->). by eapply (sent_moves s c0 Active Failed []).
  - destruct Hm as (c0 & -> & Hc0 & ->). by eapply (sent_moves s c0 Deferred Active []).
  - destruct Hm as (c0 & d0 & a0 & res & act & o' & -> & Hc0 & _ & -> & H3). rewrite (H3 Hne) in Hc. by eapply (sent_moves s c0 (Sent false d0 a0) (Sent true d0 a0) act).
  - destruct Hm as (c0 & p0 & act & o' & -> & Hc0 & _ & ->). by eapply (sent_moves s c0 (Sent p0 false false) (Sent p0 true false) act).
  - destruct Hm as (c0 & x & x' & act & o' & -> & Hc0 & Hx & _ & ->). eapply (sent_moves s c0 x x' act); try done. by destruct Hx as [[-> ->]|(p0 & -> & ->)].
Qed.

(** ** Concrete runs *)

Definition the_run (ls : list label) : sn_sys := default sn_init (sn_run ls sn_init).
Definition cmd_1 : scst_cmd := mkCmd 1 SCST_CMD_QUEUE_SIMPLE 4294967276 true (Some 0%nat) false false.

(** A SIMPLE command is sent after the HEAD OF QUEUE command is answered. *)
Definition hq_run : list label :=
  [Arrive 1 SCST_CMD_QUEUE_SIMPLE false false false; Arrive 2 SCST_CMD_QUEUE_HEAD_OF_QUEUE false false false; Check_ 1 false; Check_ 2 false; Done 2; Answer 2].

Definition cmd_hq : scst_cmd := mkCmd 2 SCST_CMD_QUEUE_HEAD_OF_QUEUE 0 false None true false.

Lemma sn_head_of_queue_witness : unanswered (Sent false true true) = false.
Proof.
  apply (sn_head_of_queue hq_run (the_run hq_run) (Check_ 1 false) (the_run (hq_run ++ [Check_ 1 false])) cmd_1 false false false) with (h := cmd_hq).
  - vm_compute. reflexivity.
  - vm_compute. reflexivity.
  - vm_compute. apply list_elem_of_here.
  - reflexivity.
  - intros x Hx. change (s_cmds (the_run hq_run)) with [(cmd_1, Active); (cmd_hq, Sent false true true)] in Hx.
    apply elem_of_cons in Hx as [[= ->]|Hx]; [reflexivity|]. apply list_elem_of_singleton in Hx. discriminate Hx.
  - vm_compute. apply list_elem_of_further, list_elem_of_here.
  - reflexivity.
Defined.
