(* ===== verification/SnLive.v ===== *)
(** * The order of commands: none waits for ever

    Without aborts and failures every command is finished, whatever the order in
    which the threads go on; and a run with an abort in which one is not. *)

From S2P Require Import Prelude Sn SnInv SnRun SnThms.

(** ** Steps *)

Definition calm_label (l : label) : bool := match l with Fail_ _ | Unblock _ | Check_ _ true => false | _ => true end.
Definition work_label (l : label) : bool := match l with Check_ _ false | Post _ | Done _ | Answer _ => true | _ => false end.

(** Not failed, and done before it is answered. *)
Definition fine (x : place) : bool := match x with Failed | FailedAnswered => false | Sent _ d a => d || negb a | _ => true end.

Definition calm (s : sn_sys) : Prop := forall c x, (c, x) ∈ s_cmds s -> fine x = true.

Lemma work_calm l : work_label l = true -> calm_label l = true.
Proof. by destruct l as [| ? []| | | | |]. Qed.

Lemma calm_put s c x act : calm s -> fine x = true -> forall d y, (d, y) ∈ activate act (put_place (tag c) x (s_cmds s)) -> fine y = true.
Proof. intros Hs H1 d y [(_ & -> & _)|[_ H]]%elem_activate; [done|]. apply elem_put in H as [(_ & -> & _)|[_ H]]; [done|by apply (Hs d)]. Qed.

Lemma calm_do l s s' : good s -> calm s -> calm_label l = true -> sn_do l s = Some s' -> calm s'.
Proof.
  intros Hg Hs Hl Hd. destruct (do_moves l s s' Hg Hd) as [_ Hm]. destruct l as [t qt od ih r|t ab|t|t|t|t|t]; try done.
  - destruct Hm as (c & o' & ->). intros d y Hy. cbn in Hy. apply elem_of_app in Hy as [Hy|Hy]; [by apply (Hs d)|]. by apply list_elem_of_singleton in Hy as [= _ ->].
  - destruct ab; [done|]. destruct Hm as (c & o' & _ & _ & _ & ->). intros d y Hy. refine (calm_put s c (check_place s c false) [] Hs _ d y Hy); unfold check_place; by repeat case_match.
  - destruct Hm as (c & d & a & res & act & o' & _ & Hc & _ & -> & _). apply Hs in Hc. intros e y Hy. cbn in Hy. destruct res as [r|]; [apply elem_put in Hy as [(_ & -> & _)|[_ Hy]]; [done|]|];
      by apply (calm_put s c (Sent true d a) act) in Hy.
  - destruct Hm as (c & p & act & o' & _ & _ & _ & ->). intros d y. by apply (calm_put s c (Sent p true false) act).
  - destruct Hm as (c & x & x' & act & o' & _ & Hc & [[-> ->]|(p & -> & ->)] & _ & ->);
      [by apply Hs in Hc|]. intros d y. by apply (calm_put s c (Sent p true true) act).
Qed.

(** ** The measure *)

Definition missing (b : bool) : Z := if b then 0 else 1.

Definition weight (x : place) : Z :=
  match x with
  | Active => 5
  | Deferred => 4
  | Sent p d a => missing p + missing d + missing a
  | _ => 0
  end.

Fixpoint total (cs : list (scst_cmd * place)) : Z :=
  match cs with
  | [] => 0
  | (_, x) :: cs => weight x + total cs
  end.

Lemma weight_range x : 0 <= weight x <= 5.
Proof. destruct x as [| | | |[] [] []]; cbn; lia. Qed.

Lemma total_range cs : 0 <= total cs <= 5 * Z.of_nat (length cs).
Proof. induction cs as [|[c x] cs IH]; cbn -[Z.of_nat weight]; [lia|]. pose proof (weight_range x). lia. Qed.

Lemma total_put_none t x' cs : t ∉ map (fun p => tag p.1) cs -> total (put_place t x' cs) = total cs.
Proof.
  induction cs as [|[c x] cs IH]; [done|]. cbn. intros H. apply not_elem_of_cons in H as [Hc H]. replace (tag c =? t) with false by lia.
  cbn. fold (put_place t x' cs). by rewrite IH.
Qed.

Lemma total_put cs c x x' : NoDup (map (fun p => tag p.1) cs) -> (c, x) ∈ cs -> total (put_place (tag c) x' cs) = total cs - weight x + weight x'.
Proof.
  induction cs as [|[d y] cs IH]; [set_solver|]. cbn [map]. intros [Hd Hnd]%NoDup_cons Hc. cbn in Hd. apply elem_of_cons in Hc as [[= <- <-]|Hc].
  - cbn. rewrite Z.eqb_refl. cbn. fold (put_place (tag c) x' cs). rewrite total_put_none by done. lia.
  - cbn. destruct (Z.eqb_spec (tag d) (tag c)) as [Ht|Ht].
    + exfalso. apply Hd. rewrite Ht. by apply (list_elem_of_fmap_2 (fun p => tag p.1) cs (c, x)).
    + cbn. fold (put_place (tag c) x' cs). rewrite IH by done. lia.
Qed.

(** What is still to pass or to be answered; it counts more than all places. *)
Definition open_cmds (s : sn_sys) : Z := Z.of_nat (length (not_passed s)) + hq_cmd_count (s_od s).
Definition measure (s : sn_sys) : Z := open_cmds s * (5 * Z.of_nat (length (s_cmds s)) + 1) + total (s_cmds s).

Lemma open_range s : good s -> 0 <= open_cmds s <= Z.of_nat (length (s_cmds s)).
Proof.
  intros (E & gs & Hok & _). unfold open_cmds. rewrite (so_hq _ _ _ _ Hok). pose proof (so_kind _ _ _ _ Hok) as Hk. unfold not_passed. clear Hok.
  induction (s_cmds s) as [|[c x] cs IH]; cbn; [lia|]. assert (Hc : kind_ok c x) by (apply Hk; set_solver).
  destruct IH as [IH1 IH2]; [intros; apply Hk; set_solver|]. unfold kind_ok, hq_one in *. destruct (sn_set c).
  - destruct Hc as [-> _]. cbn. destruct (bool_decide _); cbn; lia.
  - cbn. destruct (is_hq c && unanswered x); lia.
Qed.

Lemma measure_range s : good s -> 0 <= measure s <= Z.of_nat (length (s_cmds s)) * (5 * Z.of_nat (length (s_cmds s)) + 6).
Proof. intros Hg. unfold measure. pose proof (open_range s Hg). pose proof (total_range (s_cmds s)). nia. Qed.

(** It goes down when a command passes or is answered, wherever the others go. *)
Lemma measure_open s s' : length (s_cmds s') = length (s_cmds s) -> open_cmds s' < open_cmds s -> measure s' < measure s.
Proof. intros Hl Ho. unfold measure. rewrite Hl. pose proof (total_range (s_cmds s)). pose proof (total_range (s_cmds s')). rewrite Hl in *. nia. Qed.

Lemma measure_place s c x x' o' : good s -> (c, x) ∈ s_cmds s -> inc_passed o' = inc_passed (s_od s) -> hq_cmd_count o' = hq_cmd_count (s_od s) -> weight x' < weight x ->
  measure (mkSys o' (put_place (tag c) x' (s_cmds s))) < measure s.
Proof.
  intros Hg Hc Hp Hq Hw. unfold measure, open_cmds, not_passed. cbn [s_od s_cmds]. rewrite fst_put, Hp, Hq, (total_put _ c x x' (good_tags s Hg) Hc).
  assert (length (put_place (tag c) x' (s_cmds s)) = length (s_cmds s)) as -> by (unfold put_place; apply length_map). lia.
Qed.

(** ** What stays of the state *)

(** Passed commands stay passed, and HEAD OF QUEUE commands are counted as before. *)
Definition kept (o o' : order_data) : Prop := inc_passed o ⊆ inc_passed o' /\ hq_cmd_count o' = hq_cmd_count o.

Lemma kept_refl o o' : inc_passed o' = inc_passed o -> hq_cmd_count o' = hq_cmd_count o -> kept o o'.
Proof. intros H1 H2. split; [by rewrite H1|done]. Qed.

Lemma kept_trans o1 o2 o3 : kept o1 o2 -> kept o2 o3 -> kept o1 o3.
Proof. intros [H1 H2] [H3 H4]. split; [set_solver|congruence]. Qed.

Lemma inc_frame c o : inc_passed (scst_inc_expected_sn c o).2 = tag c :: inc_passed o /\ hq_cmd_count (scst_inc_expected_sn c o).2 = hq_cmd_count o.
Proof. unfold scst_inc_expected_sn, dec_slot, take_pending. destruct (sn_slot c); [|done]. cbn -[slot_value]. by repeat case_match. Qed.

Lemma inc_kept c o : kept o (scst_inc_expected_sn c o).2.
Proof. destruct (inc_frame c o) as [H1 H2]. split; [rewrite H1; set_solver|done]. Qed.

Lemma restart_kept rf fuel : forall o res act o', restart_loop fuel rf o = Some (res, act, o') -> kept o o'.
Proof.
  induction fuel as [|fuel IH]; [done|]. intros o res act o'. cbn [restart_loop]. destruct (deferred_loop _ _ _ _) as [[[k a] r] f]. destruct f; [intros [= _ _ <-]; by apply kept_refl|].
  destruct (take_sn _ _) as [[c l]|]; [|intros [= _ _ <-]; by apply kept_refl]. intros H%IH. eapply kept_trans; [|exact H]. eapply kept_trans; [|apply inc_kept]. by apply kept_refl.
Qed.

Lemma check_kept rf o res act o' : scst_check_deferred_commands rf o = Some (res, act, o') -> kept o o'.
Proof.
  unfold scst_check_deferred_commands, scst_check_deferred_commands_locked. destruct (_ =? 0); [intros [= _ _ <-]; by apply kept_refl|].
  destruct (negb _); [intros [= _ _ <-]; by apply kept_refl|apply restart_kept].
Qed.

Lemma make_active_kept o act o' : scst_make_deferred_commands_active o = Some (act, o') -> kept o o'.
Proof.
  unfold scst_make_deferred_commands_active. destruct (scst_check_deferred_commands false o) as [[[r a] o1]|] eqn:E; [|done]. cbn. intros [= _ <-]. by eapply check_kept.
Qed.

Lemma unpassed_le o o' cs cs' : inc_passed o ⊆ inc_passed o' -> map fst cs' = map fst cs -> (length (unpassed o' cs') <= length (unpassed o cs))%nat.
Proof.
  intros Hi Hm. unfold unpassed. rewrite Hm. clear Hm. induction (map fst cs) as [|d l IH]; [done|]. cbn. destruct (sn_set d); cbn; [|done].
  destruct (decide (tag d ∈ inc_passed o')); [rewrite (bool_decide_eq_false_2 (tag d ∉ inc_passed o')) by auto; destruct (bool_decide _); cbn; lia|].
  rewrite !bool_decide_eq_true_2 by set_solver. cbn. lia.
Qed.

Lemma unpassed_same_pass c o cs : others c (unpassed o cs) = unpassed (pass_flag c o) cs.
Proof.
  rewrite <- (unpassed_pass o (pass_flag c o) cs c Active) by done. unfold unpassed. by rewrite fst_put.
Qed.

(** One more has passed. *)
Lemma unpassed_lt o o' cs cs' c : tag c :: inc_passed o ⊆ inc_passed o' -> map fst cs' = map fst cs -> c ∈ unpassed o cs -> (length (unpassed o' cs') < length (unpassed o cs))%nat.
Proof.
  intros Hi Hm Hc. pose proof (unpassed_le (pass_flag c o) o' cs cs' Hi Hm) as Hle. eapply Nat.le_lt_trans; [exact Hle|].
  rewrite <- unpassed_same_pass. clear -Hc. unfold others. induction (unpassed o cs) as [|d l IH]; [set_solver|]. cbn.
  apply elem_of_cons in Hc as [<-|Hc].
  - rewrite Z.eqb_refl. cbn. pose proof (List.filter_length_le (fun x => negb (tag x =? tag c)) l). lia.
  - apply IH in Hc. destruct (negb _); cbn; lia.
Qed.

(** ** Every run comes to an end *)

Lemma open_lt s s' c x : good s -> (c, x) ∈ s_cmds s -> sn_set c = true -> passed_by c x = false -> map fst (s_cmds s') = map fst (s_cmds s) ->
  tag c :: inc_passed (s_od s) ⊆ inc_passed (s_od s') -> hq_cmd_count (s_od s') = hq_cmd_count (s_od s) -> measure s' < measure s.
Proof.
  intros (E & gs & Hok & _) Hc Hs Hp Hm Hi Hq. apply measure_open; [by rewrite <- !(length_map fst), Hm|]. unfold open_cmds. rewrite Hq.
  enough (length (not_passed s') < length (not_passed s))%nat by lia. apply (unpassed_lt (s_od s) (s_od s') (s_cmds s) (s_cmds s') c Hi Hm).
  apply elem_unpassed. split; [done|]. split; [|by exists x]. by eapply unpassed_place.
Qed.

Lemma post_less s c d a res act o' : good s -> (c, Sent false d a) ∈ s_cmds s -> scst_post_exec_sn c (s_od s) = Some (res, act, o') ->
  measure (mkSys o' (release res (activate act (put_place (tag c) (Sent true d a) (s_cmds s))))) < measure s.
Proof.
  intros Hg Hc. unfold scst_post_exec_sn. destruct (negb _ && _) eqn:Eb.
  - apply andb_true_iff in Eb as [Eb Hs]. apply negb_true_iff in Eb. pose proof (inc_frame c (s_od s)) as [H1 H2]. destruct (scst_inc_expected_sn c (s_od s)) as [rc o1]. cbn in H1, H2. intros Hr.
    assert (Hk : kept o1 o') by (destruct rc; cbn in Hr; [by eapply check_kept|injection Hr as _ _ <-; by apply kept_refl]). destruct Hk as [K1 K2].
    eapply (open_lt s _ c _ Hg Hc Hs); [cbn; by rewrite Eb|cbn; by rewrite fst_release, fst_activate, fst_put|cbn; by rewrite <- H1|cbn; congruence].
  - intros [= <- <- <-]. apply (measure_place s c (Sent false d a)); try done. cbn. lia.
Qed.

Lemma done_less s c p act o' : good s -> (c, Sent p false false) ∈ s_cmds s -> dev_done_sn c (s_od s) = Some (act, o') ->
  measure (mkSys o' (activate act (put_place (tag c) (Sent p true false) (s_cmds s)))) < measure s.
Proof.
  intros Hg Hc. unfold dev_done_sn. destruct (_ && _) eqn:Eb.
  - apply andb_true_iff in Eb as [Eb Hs]. pose proof (inc_frame c (s_od s)) as [H1 H2]. destruct (scst_inc_expected_sn c (s_od s)) as [rc o1]. cbn in H1, H2. intros Hr.
    assert (Hk : kept o1 o') by (destruct rc; cbn in Hr; [by eapply make_active_kept|injection Hr as _ <-; by apply kept_refl]). destruct Hk as [K1 K2].
    eapply (open_lt s _ c _ Hg Hc Hs); [cbn; by rewrite Eb|cbn; by rewrite fst_activate, fst_put|cbn; by rewrite <- H1|cbn; congruence].
  - intros [= <- <-]. apply (measure_place s c (Sent p false false)); try done. cbn. lia.
Qed.

Lemma answer_less s c p act o' : good s -> (c, Sent p true false) ∈ s_cmds s -> pre_xmit_sn true c (s_od s) = Some (act, o') ->
  measure (mkSys o' (activate act (put_place (tag c) (Sent p true true) (s_cmds s)))) < measure s.
Proof.
  intros Hg Hc. unfold pre_xmit_sn. fold (is_hq c). destruct (is_hq c) eqn:Eh.
  - pose proof (good_kind s c Hg _ Hc) as Hk. unfold kind_ok in Hk. rewrite Eh in Hk. destruct (sn_set c); [by destruct Hk|]. destruct Hk as (_ & Hi & _).
    unfold scst_on_hq_cmd_response. rewrite Hi. cbn [negb]. set (o1 := _ <|hq_cmd_count := _|>). intros Hr.
    assert (Hk : kept o1 o') by (destruct (_ =? 0); [by eapply make_active_kept|injection Hr as _ <-; by apply kept_refl]). destruct Hk as [K1 K2].
    apply measure_open; [cbn; by rewrite <- !(length_map fst), fst_activate, fst_put|]. unfold open_cmds. cbn [s_od]. rewrite K2. change (hq_cmd_count o1) with (hq_cmd_count (s_od s) - 1).
    pose proof (unpassed_le (s_od s) o' (s_cmds s) (activate act (put_place (tag c) (Sent p true true) (s_cmds s))) K1) as Hle. rewrite fst_activate, fst_put in Hle. specialize (Hle eq_refl).
    unfold not_passed. unfold unpassed in Hle. cbn [s_od s_cmds] in *. lia.
  - cbn. intros [= <- <-]. apply (measure_place s c (Sent p true false)); try done. cbn. lia.
Qed.

Lemma work_less l s s' : good s -> calm s -> work_label l = true -> sn_do l s = Some s' -> measure s' < measure s /\ length (s_cmds s') = length (s_cmds s).
Proof.
  intros Hg Hs Hl Hd. destruct (do_moves l s s' Hg Hd) as [_ Hm]. destruct l as [t qt od ih r|t ab|t|t|t|t|t]; try done.
  - destruct ab; [done|]. destruct Hm as (c & o' & _ & Hc & He & ->). split; [|cbn; by rewrite <- !(length_map fst), fst_put].
    assert (Hk : inc_passed o'.2 = inc_passed (s_od s) /\ hq_cmd_count o'.2 = hq_cmd_count (s_od s)).
    { unfold scst_exec_check_sn in He. repeat case_match; injection He as _ <-; done. }
    apply (measure_place s c Active); try apply Hk; [done..|]. unfold check_place. repeat case_match; cbn; lia.
  - destruct Hm as (c & d & a & res & act & o' & _ & Hc & He & -> & _). split; [by eapply post_less|cbn; by rewrite <- !(length_map fst), fst_release, fst_activate, fst_put].
  - destruct Hm as (c & p & act & o' & _ & Hc & He & ->). split; [by eapply done_less|cbn; by rewrite <- !(length_map fst), fst_activate, fst_put].
  - destruct Hm as (c & x & x' & act & o' & _ & Hc & [[-> ->]|(p & -> & ->)] & He & ->); [by apply Hs in Hc|].
    split; [by eapply answer_less|cbn; by rewrite <- !(length_map fst), fst_activate, fst_put].
Qed.

(** ** And at its end all commands are finished *)

Definition finished (s : sn_sys) : Prop := forall c x, (c, x) ∈ s_cmds s -> x = Sent true true true.

Definition can_go (s : sn_sys) : Prop := exists l s', work_label l = true /\ sn_do l s = Some s'.

Lemma go_place s c x : good s -> calm s -> (c, x) ∈ s_cmds s -> x = Deferred \/ x = Sent true true true \/ can_go s.
Proof.
  intros Hg Hs Hc. pose proof (find_of s c Hg x Hc) as Hf. unfold can_go. destruct x as [| | | |p d a].
  - right; right. destruct (do_check s c Hg false Hc) as (o' & H & _). by eexists (Check_ (tag c) false), _.
  - by left.
  - by apply Hs in Hc.
  - by apply Hs in Hc.
  - right. destruct p; [destruct d; [destruct a; [by left|]|]|]; right.
    + destruct (answer_ok s c Hg true Hc) as (act & o' & H & _). eexists (Answer (tag c)), _. split; [done|]. unfold sn_do. rewrite Hf. cbn [mbind option_bind]. rewrite H. reflexivity.
    + destruct a.
      * by apply Hs in Hc.
      * destruct (done_ok s c Hg true Hc) as (act & o' & H & _). eexists (Done (tag c)), _. split; [done|]. unfold sn_do. rewrite Hf. cbn [mbind option_bind]. rewrite H. reflexivity.
    + destruct (post_ok s c Hg d a Hc) as (res & act & o' & H & _). eexists (Post (tag c)), _. split; [done|]. unfold sn_do. rewrite Hf. cbn [mbind option_bind]. rewrite H. reflexivity.
Qed.

(** The first group of commands that have not passed. *)
Lemma first_nonempty E gs o : od_ok E gs o -> flat gs <> [] -> exists c, c ∈ first_group gs.
Proof.
  intros Ho Hf. destruct gs as [|g gs]; [done|]. cbn [first_group]. destruct (members g) as [|c l] eqn:Em; [|exists c; set_solver]. exfalso.
  pose proof (ok_shape _ _ _ Ho) as Hs. destruct (decide (gs = [])) as [->|Hgs]; [apply Hf; unfold flat; cbn; by rewrite Em|]. by destruct (shape_cons _ _ _ _ Hgs Hs) as [? _].
Qed.

Lemma progress s : good s -> calm s -> finished s \/ can_go s.
Proof.
  intros Hg Hs. destruct (decide (Forall (fun p => p.2 = Deferred \/ p.2 = Sent true true true) (s_cmds s))) as [HF|HF].
  2:{ right. apply not_Forall_Exists in HF; [|apply _]. apply Exists_exists in HF as ([c x] & Hc & Hx). destruct (go_place s c x Hg Hs Hc) as [?|[?|?]]; [cbn in Hx; tauto..|done]. }
  left. rewrite Forall_forall in HF. intros c x Hc. destruct (HF _ Hc) as [Hx|Hx]; [|done]. exfalso. cbn in Hx. subst x. destruct Hg as (E & gs & Hok & Ha).
  assert (Hq : hq_cmd_count (s_od s) = 0).
  { rewrite (so_hq _ _ _ _ Hok). pose proof (so_kind _ _ _ _ Hok) as Hk. clear -HF Hk. induction (s_cmds s) as [|[d y] cs IH]; [done|]. cbn. rewrite IH; [|intros; apply HF; set_solver|intros; apply Hk; set_solver].
    destruct (HF (d, y)) as [Hy|Hy]; [set_solver|..]; cbn in Hy; subst y; unfold hq_one; cbn; [|by rewrite andb_false_r].
    assert (Hd : kind_ok d Deferred) by (apply Hk; set_solver). unfold kind_ok in Hd. destruct (sn_set d); [by destruct Hd as [-> _]|by destruct Hd as (_ & _ & ?)]. }
  assert (Hd : c ∈ deferred_cmd_list (s_od s)) by (by apply (so_def _ _ _ _ Hok)). destruct (def_flat _ _ _ _ Hok c Hd) as [Hf _].
  destruct (first_nonempty _ _ _ (so_od _ _ _ _ Hok)) as [f Hff]; [intros Hn; rewrite Hn in Hf; set_solver|].
  assert (Hfl : f ∈ flat gs) by (destruct gs; [done|]; unfold flat; cbn; set_solver). rewrite (so_flat _ _ _ _ Hok) in Hfl. apply elem_unpassed in Hfl as (Hfs & Hfp & y & Hfy).
  destruct (HF _ Hfy) as [Hy|Hy]; cbn in Hy; subst y; [by apply (Ha Hq f); [apply (so_def _ _ _ _ Hok)|]|].
  destruct (so_place _ _ _ _ Hok _ _ Hfy Hfs) as [Hp _]. apply Hfp, Hp. by destruct (inc_expected_sn_on_done f).
Qed.

Lemma calm_run ls : forall s s', good s -> calm s -> forallb calm_label ls = true -> sn_run ls s = Some s' -> calm s'.
Proof.
  induction ls as [|l ls IH]; intros s s' Hg Hs; cbn; [by intros _ [= <-]|]. intros [Hl Hls]%andb_true_iff. destruct (sn_do l s) as [s1|] eqn:E; [|done]. cbn.
  apply IH; [by eapply good_do|by eapply calm_do|done].
Qed.

Lemma work_run ls : forall s s', good s -> calm s -> forallb work_label ls = true -> sn_run ls s = Some s' ->
  Z.of_nat (length ls) + measure s' <= measure s /\ good s' /\ calm s' /\ length (s_cmds s') = length (s_cmds s).
Proof.
  induction ls as [|l ls IH]; intros s s' Hg Hs; cbn [forallb sn_run length]; [intros _ [= <-]; split; [lia|done]|]. intros [Hl Hls]%andb_true_iff.
  destruct (sn_do l s) as [s1|] eqn:E; [|done]. cbn. intros Hr. destruct (work_less l s s1 Hg Hs Hl E) as [Hm Hn].
  destruct (IH s1 s' (good_do _ _ _ Hg E) (calm_do l s s1 Hg Hs (work_calm l Hl) E) Hls Hr) as (H1 & H2 & H3 & H4). split; [lia|]. split; [done|]. split; [done|congruence].
Qed.

(** ** An abort that leaves a command waiting *)

(** Commands 2 and 3 are SIMPLE and have one number; 3 is aborted while it is
    deferred and ends before its turn.  When 1 is done, 2 is activated and 3 is not
    taken off the list of the skipped ones; so the slot of the two never gets to 0. *)
Definition lost_run : list label :=
  [Arrive 1 SCST_CMD_QUEUE_ORDERED true false false; Check_ 1 false; Arrive 2 SCST_CMD_QUEUE_SIMPLE false false false; Arrive 3 SCST_CMD_QUEUE_SIMPLE false false false;
   Arrive 4 SCST_CMD_QUEUE_ORDERED true false false; Check_ 2 false; Check_ 3 false; Check_ 4 false; Unblock 3; Check_ 3 true; Answer 3;
   Post 1; Done 1; Answer 1; Check_ 2 false; Post 2; Done 2; Answer 2].

Definition places (s : sn_sys) : list (Z * place) := map (fun p => (tag p.1, p.2)) (s_cmds s).

(** A thread can go on only with a command that is active, or sent and not finished. *)
Lemma stuck_places s : Forall (fun p => p.2 = Deferred \/ p.2 = FailedAnswered \/ p.2 = Sent true true true) (places s) -> ~ can_go s.
Proof.
  intros HF (l & s' & Hl & Hd). assert (Hf : forall t c x, find_cmd t s = Some (c, x) -> x = Deferred \/ x = FailedAnswered \/ x = Sent true true true).
  { intros t c x [Hc _]%find_elem. rewrite Forall_forall in HF. apply (HF (tag c, x)). unfold places. by apply (list_elem_of_fmap_2 (fun p => (tag p.1, p.2)) (s_cmds s) (c, x)). }
  destruct l as [| t [] | | |t|t|t]; try done; unfold sn_do in Hd; destruct (find_cmd t s) as [[c x]|] eqn:Ef; try done; by destruct (Hf t c x Ef) as [->|[->| ->]].
Qed.

(** An abort can leave a command waiting: after this run the ORDERED command is
    deferred, every other command is answered, and no thread has anything to do. *)
Theorem sn_lost_wakeup : exists s, sn_run lost_run sn_init = Some s /\
  places s = [(1, Sent true true true); (2, Sent true true true); (3, FailedAnswered); (4, Deferred)] /\ ~ can_go s.
Proof.
  eexists. split; [vm_compute; reflexivity|]. split; [vm_compute; reflexivity|]. apply stuck_places. vm_compute. repeat (constructor; [tauto|]). constructor.
Qed.
