(* ===== verification/SnSplit.v ===== *)
(** * The order of commands: the slot is counted down without the lock

    [scst_inc_expected_sn] of [cg/scst/src/scst_targ.c] counts the slot of a SIMPLE
    command down before it takes [sn_lock].  Here the two are steps of their own, and
    other threads go on in between.  While no command arrives in between, every run is
    one of the runs in which the function is one step; when one arrives, it need not be
    ([sn_slot_race]).  The call for a command on the list of the skipped ones, which only
    failed commands get to, stays one step with the walk over that list. *)

From S2P Require Import Prelude Sn SnInv SnRun SnThms SnLive.

#[export] Instance label_eq_dec : EqDecision label.
Proof. solve_decision. Defined.

(** ** The two halves *)

Definition label_tag (l : label) : Z :=
  match l with Arrive t _ _ _ _ | Check_ t _ | Fail_ t | Unblock t | Post t | Done t | Answer t => t end.

(** Whether [scst_post_exec_sn], [scst_dev_done] or [scst_unblock_deferred] calls
    [scst_inc_expected_sn] for the command. *)
Definition calls (l : label) (c : scst_cmd) (x : place) (expected : Z) : bool :=
  match l, x with
  | Post _, Sent false _ _ => negb (inc_expected_sn_on_done c) && sn_set c
  | Done _, Sent _ false false => inc_expected_sn_on_done c && sn_set c
  | Answer _, Failed => negb (is_hq c) && sn_set c && (sn c =? expected)
  | _, _ => false
  end.

Definition caller (l : label) (s : sn_sys) : option scst_cmd :=
  '(c, x) ← find_cmd (label_tag l) s; if calls l c x (expected_sn (s_od s)) then Some c else None.

(** A thread has counted a slot down to zero, and has not looked at
    [pending_simple_inc_expected_sn] yet. *)
Definition sn_half (l : label) (s : sn_sys) : option sn_sys :=
  c ← caller l s; k ← sn_slot c;
  let '(zero, o) := dec_slot k (pass_flag c (s_od s)) in
  if (zero : bool) then Some (mkSys o (s_cmds s)) else None.

(** What it does then, and its caller after it. *)
Definition sn_rest (l : label) (s : sn_sys) : option sn_sys :=
  let '(rc, o) := take_pending (s_od s) in
  let cs := s_cmds s in
  '(c, x) ← find_cmd (label_tag l) s;
  match l, x with
  | Post t, Sent false d a =>
      '(res, act, o) ← (if negb rc then Some (None, [], o) else scst_check_deferred_commands true o);
      Some (mkSys o (release res (activate act (put_place t (Sent true d a) cs))))
  | Done t, Sent p false false =>
      '(act, o) ← (if negb rc then Some ([], o) else scst_make_deferred_commands_active o);
      Some (mkSys o (activate act (put_place t (Sent p true false) cs)))
  | Answer t, Failed =>
      '(act, o) ← scst_make_deferred_commands_active o;
      Some (mkSys o (activate act (put_place t FailedAnswered cs)))
  | _, _ => None
  end.

(** The device, and what the threads between the two halves are doing. *)
Record fine_sys : Type := mkFine { f_sys : sn_sys; f_open : list label }.

Inductive fine_label : Type := Whole (l : label) | Half (l : label) | Rest (l : label).

Definition label_of (fl : fine_label) : label := match fl with Whole l | Half l | Rest l => l end.

Definition fine_do (fl : fine_label) (f : fine_sys) : option fine_sys :=
  let is_open := bool_decide (label_of fl ∈ f_open f) in
  match fl with
  | Whole l => if is_open then None else s ← sn_do l (f_sys f); Some (mkFine s (f_open f))
  | Half l => if is_open then None else s ← sn_half l (f_sys f); Some (mkFine s (l :: f_open f))
  | Rest l => if is_open then s ← sn_rest l (f_sys f); Some (mkFine s (List.filter (fun x => negb (bool_decide (x = l))) (f_open f))) else None
  end.

Definition fine_init : fine_sys := mkFine sn_init [].

Fixpoint fine_run (ls : list fine_label) (f : fine_sys) : option fine_sys :=
  match ls with
  | [] => Some f
  | l :: ls => f ← fine_do l f; fine_run ls f
  end.

(** No command arrives while a thread is between the two halves. *)
Definition quiet_step (fl : fine_label) (f : fine_sys) : bool :=
  match label_of fl with Arrive _ _ _ _ _ => bool_decide (f_open f = []) | _ => true end.

Fixpoint quiet (ls : list fine_label) (f : fine_sys) : bool :=
  match ls with
  | [] => true
  | l :: ls => quiet_step l f && match fine_do l f with Some f => quiet ls f | None => true end
  end.

(** ** Steps of other threads in between *)

Definition half (c : scst_cmd) (k : nat) (s : sn_sys) : sn_sys := mkSys (slot_dec c k (s_od s)) (s_cmds s).

(** No waiting command has the expected number. *)
Definition nobody (o : order_data) : Prop :=
  (forall d, d ∈ deferred_cmd_list o -> sn d <> expected_sn o) /\ (forall d, d ∈ skipped_sn_list o -> sn d <> expected_sn o).

Lemma deferred_none l e a f : (forall d, d ∈ l -> sn d <> e) -> deferred_loop l e a f = (l, [], None, false).
Proof.
  induction l as [|c l IH]; intros H; [done|]. cbn. rewrite (proj2 (Z.eqb_neq _ _)) by (apply H; set_solver). by rewrite IH by (intros; apply H; set_solver).
Qed.

Lemma take_none l e : (forall d, d ∈ l -> sn d <> e) -> take_sn l e = None.
Proof.
  induction l as [|c l IH]; intros H; [done|]. cbn. rewrite (proj2 (Z.eqb_neq _ _)) by (apply H; set_solver). by rewrite IH by (intros; apply H; set_solver).
Qed.

Lemma idle_active o : nobody o -> scst_make_deferred_commands_active o = Some ([], o).
Proof.
  intros [Hd Hs]. unfold scst_make_deferred_commands_active, scst_check_deferred_commands, scst_check_deferred_commands_locked. destruct (_ =? 0); [done|]. destruct (negb _); [done|].
  cbn [restart_loop]. rewrite deferred_none by done. rewrite Nat.sub_diag. change (skipped_sn_list (_ <|def_cmd_count := _|>)) with (skipped_sn_list o). change (expected_sn (_ <|def_cmd_count := _|>)) with (expected_sn o).
  rewrite take_none by done. destruct o. cbn. cbv [set_field set_deferred_cmd_list set_def_cmd_count]. cbn. do 2 f_equal.
  f_equal. lia.
Qed.

Lemma find_put t x' cs o t' s : s_cmds s = cs ->
  find_cmd t' (mkSys o (put_place t x' cs)) = (fun p => (p.1, if t' =? t then x' else p.2)) <$> find_cmd t' s.
Proof.
  intros <-. unfold find_cmd. cbn [s_cmds]. induction (s_cmds s) as [|[c x] l IH]; [done|]. cbn [put_place map find fst]. fold (put_place t x' l).
  destruct (Z.eqb_spec (tag c) t) as [Et|H]; cbn [fst]; (destruct (Z.eqb_spec (tag c) t') as [Et'|]; [cbn|exact IH]).
  - by replace (t' =? t) with true by lia.
  - by replace (t' =? t) with false by lia.
Qed.

(** A step that moves one command and leaves numbers and slots alone. *)
Definition still (l : label) (s s' : sn_sys) : Prop :=
  sn_slots (s_od s') = sn_slots (s_od s) /\ forall l' c, l' <> l -> caller l' s = Some c -> caller l' s' = Some c.

Lemma still_put l s c x x' o' : find_cmd (label_tag l) s = Some (c, x) -> sn_slots o' = sn_slots (s_od s) -> expected_sn o' = expected_sn (s_od s) ->
  (forall l' e, label_tag l' = label_tag l -> l' <> l -> calls l' c x e = true -> calls l' c x' e = true) -> still l s (mkSys o' (put_place (label_tag l) x' (s_cmds s))).
Proof.
  intros Hf H1 H2 Hx. split; [done|]. intros l' c' Hne. unfold caller. rewrite (find_put _ _ _ _ _ s) by done. cbn [s_od]. rewrite H2.
  destruct (find_cmd (label_tag l') s) as [[d y]|] eqn:Ed; [|done]. cbn. destruct (Z.eqb_spec (label_tag l') (label_tag l)) as [E|E]; [|done].
  rewrite E, Hf in Ed. injection Ed as <- <-. destruct (calls l' c x _) eqn:Ec; [|done]. by rewrite Hx.
Qed.

(** In between, another thread does the same as if the slot were not counted down yet. *)
Lemma window_do l s c k : nobody (s_od s) -> (forall t qt od ih r, l <> Arrive t qt od ih r) -> caller l s = None ->
  sn_do l (half c k s) = half c k <$> sn_do l s /\ forall s', sn_do l s = Some s' -> still l s s'.
Proof.
  intros Hn Hl Hc. unfold caller in Hc. destruct l as [t qt od ih r|t ab|t|t|t|t|t]; [by destruct (Hl t qt od ih r)|..]; cbn [label_tag] in Hc; unfold sn_do;
    change (find_cmd t (half c k s)) with (find_cmd t s); change (s_cmds (half c k s)) with (s_cmds s); change (s_od (half c k s)) with (slot_dec c k (s_od s));
    destruct (find_cmd t s) as [[d x]|] eqn:Ef; cbn [mbind option_bind fmap option_fmap option_map] in *; try done.
  - destruct (bool_decide (x = Active)) eqn:Ex; [|done]. apply bool_decide_eq_true in Ex as ->.
    assert (E : scst_exec_check_sn ab d (slot_dec c k (s_od s)) = ((scst_exec_check_sn ab d (s_od s)).1, slot_dec c k (scst_exec_check_sn ab d (s_od s)).2)) by (unfold scst_exec_check_sn; cbn; by repeat case_match).
    rewrite E. assert (Hs : sn_slots (scst_exec_check_sn ab d (s_od s)).2 = sn_slots (s_od s) /\ expected_sn (scst_exec_check_sn ab d (s_od s)).2 = expected_sn (s_od s)) by (unfold scst_exec_check_sn; by repeat case_match).
    destruct (scst_exec_check_sn ab d (s_od s)) as [r o']. split; [done|]. intros s' [= <-]. apply (still_put (Check_ t ab) s d Active); [done|apply Hs|apply Hs|by intros []].
  - destruct (bool_decide (x = Active)) eqn:Ex; [|done]. apply bool_decide_eq_true in Ex as ->. split; [done|]. intros s' [= <-]. by apply (still_put (Fail_ t) s d Active); [..|intros []].
  - destruct (bool_decide (x = Deferred)) eqn:Ex; [|done]. apply bool_decide_eq_true in Ex as ->. split; [done|]. intros s' [= <-]. by apply (still_put (Unblock t) s d Deferred); [..|intros []].
  - destruct x as [| | | |[] dn a]; try done. unfold scst_post_exec_sn. cbn [calls] in Hc. destruct (negb _ && _); [done|]. cbn. split; [done|]. intros s' [= <-].
    apply (still_put (Post t) s d (Sent false dn a)); [done..|]. intros [] e Et Hne; cbn; try done; cbn in Et; congruence.
  - destruct x as [| | | |p [] []]; try done. unfold dev_done_sn. cbn [calls] in Hc. destruct (_ && _); [done|]. cbn. split; [done|]. intros s' [= <-].
    apply (still_put (Done t) s d (Sent p false false)); [done..|]. intros [] e Et Hne; cbn; try done; cbn in Et; congruence.
  - assert (Hr : forall x', (x = Failed /\ x' = FailedAnswered) \/ (exists p, x = Sent p true false /\ x' = Sent p true true) -> forall o', sn_slots o' = sn_slots (s_od s) -> expected_sn o' = expected_sn (s_od s) ->
      still (Answer t) s (mkSys o' (put_place t x' (s_cmds s)))).
    { intros x' Hx o' H1 H2. apply (still_put (Answer t) s d x); [done..|]. destruct Hx as [[-> ->]|(p & -> & ->)]; intros [] e Et Hne; cbn; try done; cbn in Et; congruence. }
    assert (Hq : exists o', scst_on_hq_cmd_response d (s_od s) = Some ([], o') /\ scst_on_hq_cmd_response d (slot_dec c k (s_od s)) = Some ([], slot_dec c k o') /\ sn_slots o' = sn_slots (s_od s) /\ expected_sn o' = expected_sn (s_od s)).
    { unfold scst_on_hq_cmd_response. destruct (negb _); [by eexists|]. exists ((s_od s) <|hq_cmd_count := hq_cmd_count (s_od s) - 1|>).
      rewrite !idle_active by exact Hn. change (hq_cmd_count (slot_dec c k (s_od s) <|hq_cmd_count := _|>)) with (hq_cmd_count (s_od s) - 1). cbn zeta. by destruct (_ =? 0). }
    destruct Hq as (oq & Hq1 & Hq2 & Hq3 & Hq4). unfold pre_xmit_sn. fold (is_hq d). destruct x as [| | | |p [] []]; try done; destruct (is_hq d) eqn:Eh.
    + rewrite Hq1, Hq2. cbn. split; [done|]. intros s' [= <-]. apply Hr; auto.
    + cbn [negb]. unfold scst_unblock_deferred. cbn [calls] in Hc. rewrite Eh in Hc. cbn [negb andb] in Hc. destruct (sn_set d); cbn [negb andb] in *; [|cbn; split; [done|]; intros s' [= <-]; apply Hr; auto].
      change (expected_sn (slot_dec c k (s_od s))) with (expected_sn (s_od s)). destruct (Z.eqb_spec (sn d) (expected_sn (s_od s))) as [|Hne]; [done|].
      rewrite !idle_active by (destruct Hn as [Hn1 Hn2]; split; [exact Hn1|]; cbn; intros y [Hy|Hy]%elem_of_app; [by apply Hn2|by apply list_elem_of_singleton in Hy as ->]).
      cbn. split; [done|]. intros s' [= <-]. apply Hr; auto.
    + rewrite Hq1, Hq2. cbn. split; [done|]. intros s' [= <-]. apply Hr; eauto.
    + cbn. split; [done|]. intros s' [= <-]. apply Hr; eauto.
Qed.

(** The second half is the rest of the step. *)
Lemma rest_do l s c k : caller l s = Some c -> sn_slot c = Some k -> slot_value (s_od s) k = 1 -> sn_rest l (half c k s) = sn_do l s.
Proof.
  intros Hc Hk Hv. assert (Hi : scst_inc_expected_sn c (s_od s) = take_pending (slot_dec c k (s_od s))) by (rewrite (inc_slot_eq c k) by done; by rewrite Hv).
  unfold caller in Hc. unfold sn_rest. change (find_cmd (label_tag l) (half c k s)) with (find_cmd (label_tag l) s). change (s_cmds (half c k s)) with (s_cmds s). change (s_od (half c k s)) with (slot_dec c k (s_od s)).
  destruct (take_pending _) as [rc o'] eqn:Et. unfold sn_do. destruct (find_cmd (label_tag l) s) as [[d x]|] eqn:Ef; [|done]. cbn [mbind option_bind] in *.
  destruct (calls l d x _) eqn:Ec; [|done]. injection Hc as ->. destruct l as [| | | |t|t|t]; try done; cbn [label_tag] in Ef; rewrite Ef; cbn [mbind option_bind].
  - destruct x as [| | | |[] dn a]; try done. cbn in Ec. unfold scst_post_exec_sn. rewrite Ec, Hi. destruct rc; cbn; [|done]. destruct (scst_check_deferred_commands true o') as [[[res act] o2]|]; [|done]. by destruct res.
  - destruct x as [| | | |p [] []]; try done. cbn in Ec. unfold dev_done_sn. rewrite Ec, Hi. by destruct rc.
  - destruct x as [| | | |p [] []]; try done. cbn in Ec. apply andb_true_iff in Ec as [Ec Ee]. apply andb_true_iff in Ec as [Eh Es]. apply negb_true_iff in Eh.
    unfold pre_xmit_sn. fold (is_hq c). rewrite Eh. cbn [negb]. unfold scst_unblock_deferred. rewrite Es, Ee, Hi. done.
Qed.

(** ** A thread in between is alone *)

Lemma caller_first E gs s l c : sn_ok E gs (s_od s) (s_cmds s) -> caller l s = Some c ->
  exists x, (c, x) ∈ s_cmds s /\ tag c = label_tag l /\ calls l c x (expected_sn (s_od s)) = true /\ c ∈ first_group gs.
Proof.
  intros Hok Hc. unfold caller in Hc. destruct (find_cmd (label_tag l) s) as [[d x]|] eqn:Ef; [|done]. cbn in Hc. destruct (calls l d x _) eqn:Ec; [|done]. injection Hc as ->.
  destruct (find_elem _ _ _ _ Ef) as [Hin Ht]. exists x. split_and!; [done|done|done|].
  assert (Hs : sn_set c = true) by (destruct l; try done; cbn in Ec; repeat case_match; try done; rewrite ?andb_true_iff in Ec; tauto).
  pose proof (so_place _ _ _ _ Hok _ _ Hin Hs) as Hp. destruct l as [| | | |t|t|t]; try done.
  - destruct x as [| | | |[] dn a]; try done. cbn in Ec. apply andb_true_iff in Ec as [Ec _]. apply negb_true_iff in Ec. destruct Hp as [Hp1 Hp2]. rewrite Ec in Hp1. apply Hp2. intros H. by apply Hp1 in H.
  - destruct x as [| | | |p [] []]; try done. cbn in Ec. apply andb_true_iff in Ec as [Ec _]. destruct Hp as [Hp1 Hp2]. rewrite Ec in Hp1. apply Hp2. intros H. by apply Hp1 in H.
  - destruct x as [| | | |p [] []]; try done. cbn in Ec. apply andb_true_iff in Ec as [_ Ee]. apply (expected_first E gs (s_od s)); [apply (so_od _ _ _ _ Hok)| |lia].
    rewrite (so_flat _ _ _ _ Hok). apply elem_unpassed. split_and!; [done|exact Hp|eauto].
Qed.

Lemma calls_unique l l' c x e : calls l c x e = true -> calls l' c x e = true -> label_tag l = label_tag l' -> l = l'.
Proof.
  destruct l, l'; try done; cbn; intros H H' E; try (by rewrite E); exfalso; destruct x as [| | | |[] [] []]; try done; by destruct (inc_expected_sn_on_done c).
Qed.

Lemma alone s l c k : good s -> caller l s = Some c -> sn_slot c = Some k -> slot_value (s_od s) k = 1 ->
  nobody (s_od s) /\ forall l' c', caller l' s = Some c' -> l' = l.
Proof.
  intros (E & gs & Hok & _) Hc Hk Hv. destruct (caller_first E gs s l c Hok Hc) as (x & Hin & Ht & Hcall & Hf).
  assert (Hone : forall d, d ∈ first_group gs -> d = c).
  { destruct gs as [|g gs]; [by apply not_elem_of_nil in Hf|]. cbn [first_group] in *. pose proof (so_od _ _ _ _ Hok) as Ho. pose proof (ok_num _ _ _ Ho) as [Hg _]. destruct (Hg c Hf) as (_ & _ & _ & Hgk).
    destruct g as [e|j cs]; [congruence|]. destruct Hgk as [Hj _]. assert (j = k) as -> by congruence. pose proof (simple_value E k cs gs (s_od s) c Ho (flat_tags _ _ _ _ Hok) Hf) as Hl.
    cbn [members] in *. rewrite Hv in Hl. destruct cs as [|e [|]]; cbn in Hl; try lia. apply list_elem_of_singleton in Hf as ->. by intros d ->%list_elem_of_singleton. }
  assert (Hno : forall d y, d ∈ flat gs -> (d, y) ∈ s_cmds s -> sn d = expected_sn (s_od s) -> y = x).
  { intros d y Hd Hy He. apply (expected_first _ _ _ _ (so_od _ _ _ _ Hok) Hd), Hone in He as ->. by destruct (tag_inj _ _ _ _ _ (so_tags _ _ _ _ Hok) Hy Hin eq_refl). }
  split; [split; intros d Hd He|].
  - destruct (def_flat _ _ _ _ Hok d Hd) as (H1 & _ & _ & H2). rewrite <- (Hno d Deferred H1 H2 He) in Hcall. by destruct l.
  - destruct (skip_flat _ _ _ _ Hok d Hd) as (H1 & _ & _ & H2). rewrite <- (Hno d FailedAnswered H1 H2 He) in Hcall. by destruct l.
  - intros l' c' Hc'. destruct (caller_first E gs s l' c' Hok Hc') as (x' & Hin' & Ht' & Hcall' & Hf'). apply Hone in Hf' as ->.
    destruct (tag_inj _ _ _ _ _ (so_tags _ _ _ _ Hok) Hin' Hin eq_refl) as [_ ->]. symmetry. apply (calls_unique l l' c x _ Hcall Hcall'). congruence.
Qed.

(** ** The runs are runs with whole steps *)

Inductive linked : fine_sys -> sn_sys -> Prop :=
| linked_none s : linked (mkFine s []) s
| linked_open l c k s : caller l s = Some c -> sn_slot c = Some k -> slot_value (s_od s) k = 1 -> linked (mkFine (half c k s) [l]) s.

Lemma linked_cmds f s : linked f s -> s_cmds (f_sys f) = s_cmds s.
Proof. by destruct 1. Qed.

(** A step is one of the whole system, or the first half of one. *)
Definition simulated (fl : fine_label) (f f' : fine_sys) (s s' : sn_sys) : Prop :=
  (sn_do (label_of fl) s = Some s' /\ (f_open f = [] -> f_open f' = [])) \/ (s' = s /\ f_open f = [] /\ f_open f' <> []).

Lemma half_inv l s s' : sn_half l s = Some s' -> exists c k, caller l s = Some c /\ sn_slot c = Some k /\ slot_value (s_od s) k = 1 /\ s' = half c k s.
Proof.
  unfold sn_half. destruct (caller l s) as [c|]; [|done]. cbn. destruct (sn_slot c) as [k|] eqn:Ek; [|done]. cbn. change (slot_value (pass_flag c (s_od s)) k) with (slot_value (s_od s) k).
  destruct (Z.eqb_spec (slot_value (s_od s) k - 1) 0); [|done]. intros [= <-]. exists c, k. split_and!; [done|done|lia|done].
Qed.

Lemma fine_sim fl f f' s : good s -> linked f s -> quiet_step fl f = true -> fine_do fl f = Some f' -> exists s', linked f' s' /\ simulated fl f f' s s' /\ good s'.
Proof.
  intros Hg Hlk Hq Hd. destruct Hlk as [s|l0 c k s Hc Hk Hv].
  - destruct fl as [l|l|l]; cbn in Hd; try rewrite bool_decide_eq_false_2 in Hd by set_solver; [| |done].
    + destruct (sn_do l s) as [s'|] eqn:E; [|done]. injection Hd as <-. exists s'. split_and!; [constructor|left; by split|by eapply good_do].
    + destruct (sn_half l s) as [s'|] eqn:E; [|done]. injection Hd as <-. apply half_inv in E as (c & k & H1 & H2 & H3 & ->). exists s. split_and!; [by econstructor|right; by split_and!|done].
  - destruct (alone s l0 c k Hg Hc Hk Hv) as [Hn Hu]. destruct fl as [l|l|l]; unfold fine_do in Hd; cbn [label_of f_open f_sys] in Hd; (case_bool_decide as Ho; [|]); try done; rewrite list_elem_of_singleton in Ho.
    + destruct (window_do l s c k Hn) as [He Hs]; [intros t qt od ih r ->; by cbn in Hq|destruct (caller l s) eqn:El; [by apply Hu in El|done]|]. rewrite He in Hd.
      destruct (sn_do l s) as [s'|] eqn:E; [|done]. injection Hd as <-. specialize (Hs s' eq_refl) as [Hs1 Hs2]. exists s'. split_and!; [|by left|by eapply good_do].
      econstructor; [apply Hs2; [congruence|exact Hc]|done|]. unfold slot_value in *. by rewrite Hs1.
    + destruct (sn_half l (half c k s)) as [s'|] eqn:E; [|done]. apply half_inv in E as (c' & k' & H1 & _). by apply Hu in H1.
    + subst l. rewrite (rest_do l0 s c k Hc Hk Hv) in Hd. destruct (sn_do l0 s) as [s'|] eqn:E; [|done]. cbn in Hd. rewrite bool_decide_eq_true_2 in Hd by done. injection Hd as <-.
      exists s'. split_and!; [constructor|by left|by eapply good_do].
Qed.

Lemma fine_reach ls : forall f s f', good s -> linked f s -> quiet ls f = true -> fine_run ls f = Some f' -> exists s', linked f' s' /\ good s'.
Proof.
  induction ls as [|l ls IH]; intros f s f' Hg Hlk; cbn; [intros _ [= <-]; by exists s|]. intros [Hq Hqs]%andb_true_iff. destruct (fine_do l f) as [f1|] eqn:E; [|done].
  destruct (fine_sim l f f1 s Hg Hlk Hq E) as (s1 & H1 & _ & H2). by apply (IH f1 s1).
Qed.

(** C13: Commands are executed in their order.  In every run of arrivals, aborts,
    failures and completions from a new device, in which a thread may stop between
    counting down a slot and taking the lock, and no command arrives while one does:
    when a command was sent to the device, each command that arrived before it, where
    one of the two is ORDERED, has ended or was sent and has passed: it is done when
    [expected_sn] goes on at its end. *)
Theorem sn_order ls f l1 d y l2 c p dn a l3 : fine_run ls fine_init = Some f -> quiet ls fine_init = true ->
  s_cmds (f_sys f) = l1 ++ (d, y) :: l2 ++ (c, Sent p dn a) :: l3 ->
  is_hq c = false -> is_hq d = false -> queue_type c = SCST_CMD_QUEUE_ORDERED \/ queue_type d = SCST_CMD_QUEUE_ORDERED -> passed_by d y = true.
Proof.
  intros Hr Hq Hcs. destruct (fine_reach ls fine_init sn_init f good_init ltac:(constructor) Hq Hr) as (s & Hlk & Hg). rewrite (linked_cmds f s Hlk) in Hcs. by apply (order_good s l1 d y l2 c p dn a l3).
Qed.

(** ** No command waits for ever *)

Definition fine_measure (f : fine_sys) (s : sn_sys) : Z := 2 * measure s + (if bool_decide (f_open f = []) then 1 else 0).

Lemma fine_calm ls : forall f s f', good s -> calm s -> linked f s -> quiet ls f = true -> forallb (fun l => calm_label (label_of l)) ls = true -> fine_run ls f = Some f' ->
  exists s', linked f' s' /\ good s' /\ calm s'.
Proof.
  induction ls as [|l ls IH]; intros f s f' Hg Hs Hlk; cbn; [intros _ _ [= <-]; by exists s|]. intros [Hq Hqs]%andb_true_iff [Hl Hls]%andb_true_iff. destruct (fine_do l f) as [f1|] eqn:E; [|done].
  destruct (fine_sim l f f1 s Hg Hlk Hq E) as (s1 & H1 & Hsim & H2). apply (IH f1 s1); try done. destruct Hsim as [[Hd _]|[-> _]]; [by apply (calm_do (label_of l) s)|done].
Qed.

Lemma fine_work ls : forall f s f', good s -> calm s -> linked f s -> forallb (fun l => work_label (label_of l)) ls = true -> fine_run ls f = Some f' ->
  exists s', linked f' s' /\ good s' /\ calm s' /\ Z.of_nat (length ls) + fine_measure f' s' <= fine_measure f s.
Proof.
  induction ls as [|l ls IH]; intros f s f' Hg Hs Hlk; cbn [forallb fine_run length]; [intros _ [= <-]; exists s; split_and!; try done; lia|]. intros [Hl Hls]%andb_true_iff. destruct (fine_do l f) as [f1|] eqn:E; [|done]. cbn. intros Hr.
  destruct (fine_sim l f f1 s Hg Hlk) as (s1 & H1 & Hsim & H2); [unfold quiet_step; by destruct (label_of l)|done|].
  assert (Hc : calm s1) by (destruct Hsim as [[Hd _]|[-> _]]; [by apply (calm_do (label_of l) s); [..|apply work_calm|]|done]).
  destruct (IH f1 s1 f' H2 Hc H1 Hls Hr) as (s2 & H3 & H4 & H5 & Hm). exists s2. split_and!; try done. enough (fine_measure f1 s1 < fine_measure f s) by lia. unfold fine_measure.
  destruct Hsim as [[Hd Ho]|(-> & Ho & Ho')].
  - destruct (work_less _ s s1 Hg Hs Hl Hd) as [Hlt _]. destruct (bool_decide (f_open f = [])), (bool_decide (f_open f1 = [])); lia.
  - rewrite (bool_decide_eq_true_2 (f_open f = [])) by done. rewrite (bool_decide_eq_false_2 (f_open f1 = [])) by done. lia.
Qed.

(** A thread that calls [scst_inc_expected_sn] can go on. *)
Lemma caller_go s l c : good s -> caller l s = Some c -> is_Some (sn_do l s).
Proof.
  intros Hg Hc. unfold caller in Hc. destruct (find_cmd (label_tag l) s) as [[d x]|] eqn:Ef; [|done]. cbn in Hc. destruct (calls l d x _) eqn:Ec; [|done]. injection Hc as ->. destruct (find_elem _ _ _ _ Ef) as [Hin _].
  destruct l as [| | | |t|t|t]; try done; cbn [label_tag] in Ef; unfold sn_do; rewrite Ef; cbn [mbind option_bind]; cbn in Ec.
  - destruct x as [| | | |[] dn a]; try done. destruct (post_ok s c Hg dn a Hin) as (res & act & o' & -> & _). cbn. eauto.
  - destruct x as [| | | |p [] []]; try done. destruct (done_ok s c Hg p Hin) as (act & o' & -> & _). cbn. eauto.
  - destruct x as [| | | |p [] []]; try done. destruct (answer_failed_ok s c Hg Hin) as (act & o' & -> & _). cbn. eauto.
Qed.

Definition fine_can_go (f : fine_sys) : Prop := exists fl f', work_label (label_of fl) = true /\ fine_do fl f = Some f'.

Lemma fine_progress f s : good s -> calm s -> linked f s -> (f_open f = [] /\ finished (f_sys f)) \/ fine_can_go f.
Proof.
  intros Hg Hs Hlk. destruct Hlk as [s0|l c k s0 Hc Hk Hv].
  - destruct (progress s0 Hg Hs) as [Hf|(l & s' & Hl & Hd)]; [by left|]. right. exists (Whole l), (mkFine s' []). split; [done|]. cbn. rewrite Hd. by rewrite bool_decide_eq_false_2 by set_solver.
  - right. assert (Hl : work_label l = true) by (unfold caller in Hc; destruct (find_cmd _ _) as [[d x]|]; [|done]; by destruct l).
    destruct (caller_go s0 l c Hg Hc) as [s' Hd]. exists (Rest l), (mkFine s' []). split; [done|]. cbn. rewrite bool_decide_eq_true_2 by set_solver. rewrite (rest_do l s0 c k Hc Hk Hv), Hd. cbn. by rewrite bool_decide_eq_true_2.
Qed.

(** C14: No command waits for ever.  From every state that is reached without aborts
    and failures, in runs in which a thread may stop between counting down a slot and
    taking the lock, and no command arrives while one does: the threads can go on only
    for a bounded number of steps until another command arrives, in whatever order they
    are scheduled, and when none can go on all commands were sent, are done and are
    answered. *)
Theorem sn_drains ls f ls' f' : forallb (fun l => calm_label (label_of l)) ls = true -> quiet ls fine_init = true -> fine_run ls fine_init = Some f ->
  forallb (fun l => work_label (label_of l)) ls' = true -> fine_run ls' f = Some f' ->
  let n := Z.of_nat (length (s_cmds (f_sys f))) in Z.of_nat (length ls') <= 2 * n * (5 * n + 6) + 1 /\ ((f_open f' = [] /\ finished (f_sys f')) \/ fine_can_go f').
Proof.
  intros Hls Hq Hr Hls' Hr' n. destruct (fine_calm ls fine_init sn_init f good_init ltac:(intros c x; set_solver) ltac:(constructor) Hq Hls Hr) as (s & Hlk & Hg & Hs).
  destruct (fine_work ls' f s f' Hg Hs Hlk Hls' Hr') as (s' & Hlk' & Hg' & Hs' & Hm). split; [|by apply (fine_progress f' s')].
  pose proof (measure_range s Hg) as H1. pose proof (measure_range s' Hg') as H2. unfold fine_measure in Hm. unfold n. rewrite (linked_cmds f s Hlk).
  destruct (bool_decide (f_open f = [])), (bool_decide (f_open f' = [])); nia.
Qed.

(** ** Concrete runs *)

Definition the_fine (ls : list fine_label) : fine_sys := default fine_init (fine_run ls fine_init).

Definition simple_cmd (t : Z) (sn : Z) (k : nat) : scst_cmd := mkCmd t SCST_CMD_QUEUE_SIMPLE sn true (Some k) false false.
Definition ordered_cmd (t : Z) (sn : Z) : scst_cmd := mkCmd t SCST_CMD_QUEUE_ORDERED sn true None false true.

(** A SIMPLE and an ORDERED command; the second is looked at while the thread of the
    first is between the two halves, and waits until that one has taken the lock. *)
Definition order_run : list fine_label :=
  [Whole (Arrive 1 SCST_CMD_QUEUE_SIMPLE false false false); Whole (Arrive 2 SCST_CMD_QUEUE_ORDERED true false false); Whole (Check_ 1 false);
   Half (Post 1); Whole (Done 1); Whole (Check_ 2 false); Rest (Post 1)].

Lemma sn_order_witness : passed_by (simple_cmd 1 4294967276 0) (Sent true true false) = true.
Proof.
  apply (sn_order order_run (the_fine order_run) [] (simple_cmd 1 4294967276 0) (Sent true true false) [] (ordered_cmd 2 4294967277) false false false []);
    [vm_compute; reflexivity|vm_compute; reflexivity|vm_compute; reflexivity|reflexivity|reflexivity|left; reflexivity].
Defined.

Lemma sn_drains_witness : exists f', fine_run [Rest (Post 1); Whole (Post 2); Whole (Done 2); Whole (Answer 2); Whole (Answer 1)] (the_fine (take 6 order_run)) = Some f' /\
  ((f_open f' = [] /\ finished (f_sys f')) \/ fine_can_go f').
Proof.
  eexists. split; [vm_compute; reflexivity|].
  eapply (sn_drains (take 6 order_run) (the_fine (take 6 order_run)) [Rest (Post 1); Whole (Post 2); Whole (Done 2); Whole (Answer 2); Whole (Answer 1)]); vm_compute; reflexivity.
Defined.

(** ** An arrival in between *)

(** The thread of the SIMPLE command 1 stops in between; the ORDERED command 2 arrives,
    finds the slot free and goes on itself; 3 and 4 arrive; and the thread takes what 4
    left for 3.  Then the threads go on as long as they can. *)
Definition race_run : list fine_label :=
  [Whole (Arrive 1 SCST_CMD_QUEUE_SIMPLE false false false); Whole (Check_ 1 false); Half (Post 1); Whole (Arrive 2 SCST_CMD_QUEUE_ORDERED false false false); Whole (Check_ 2 false); Whole (Post 2);
   Whole (Arrive 3 SCST_CMD_QUEUE_SIMPLE false false false); Whole (Arrive 4 SCST_CMD_QUEUE_ORDERED false false false); Rest (Post 1);
   Whole (Check_ 4 false); Whole (Check_ 3 false); Whole (Post 4); Whole (Done 1); Whole (Done 2); Whole (Done 4); Whole (Answer 1); Whole (Answer 2); Whole (Answer 4)].

(** The two halves of [scst_inc_expected_sn] can be too far apart: after this run, without
    aborts and failures, the ORDERED command 4 was sent before the SIMPLE command 3,
    which arrived earlier, and 3 is deferred although all others are answered, and no
    thread has anything to do. *)
Theorem sn_slot_race : exists f, fine_run race_run fine_init = Some f /\ quiet race_run fine_init = false /\ f_open f = [] /\
  places (f_sys f) = [(1, Sent true true true); (2, Sent true true true); (3, Deferred); (4, Sent true true true)] /\ ~ can_go (f_sys f).
Proof.
  eexists. split; [vm_compute; reflexivity|]. split; [vm_compute; reflexivity|]. split; [reflexivity|]. split; [vm_compute; reflexivity|].
  apply stuck_places. vm_compute. repeat (constructor; [tauto|]). constructor.
Qed.
