(* ===== verification/Hash.v ===== *)
(** * The digests of the iSCSI daemon

    Models [cg/iscsi-scst/usr/md5.c] and [sha1.c], with which the daemon answers and
    checks CHAP challenges.  The two files differ in their transforms and in the order
    of the bytes of words; [..._init], [..._update] and [..._final] are the same text
    otherwise, and here one definition with the transform as an argument.

    Words are 32-bit integers, the block of a context is its 64 bytes, and the host is
    little-endian. *)

From S2P Require Import Prelude.

Definition u64 (x : Z) : Z := x mod 18446744073709551616.

(** ** Words and bytes *)

(** Bytes of a word, lowest first and highest first ([cpu_to_le32], [cpu_to_be32]). *)
Definition le32_bytes (w : Z) : list Z := [w mod 256; w / 256 mod 256; w / 65536 mod 256; w / 16777216 mod 256].
Definition be32_bytes (w : Z) : list Z := rev (le32_bytes w).

Fixpoint le_val (l : list Z) : Z := match l with [] => 0 | b :: l => b + 256 * le_val l end.
Definition be_val (l : list Z) : Z := le_val (rev l).

(** Word [i] of a block. *)
Definition block_word (val : list Z -> Z) (block : list Z) (i : nat) : Z := val (take 4 (drop (4 * i) block)).

Definition rol32 (word shift : Z) : Z := Z.lor (u32 (Z.shiftl word shift)) (Z.shiftr word (32 - shift)).

(** ** A context *)

(** [struct md5_ctx], [struct sha1_ctx]. *)
Record hash_ctx : Type := mkHash { block : list Z; digest : list Z; count : Z }.

#[export] Instance set_block : Setter block := fun v c => mkHash v (digest c) (count c).
#[export] Instance set_digest : Setter digest := fun v c => mkHash (block c) v (count c).
#[export] Instance set_count : Setter count := fun v c => mkHash (block c) (digest c) v.

Definition BLOCK_BYTES : nat := 64.
Definition COUNTER_BYTES : Z := 8.

(** [memcpy] and [memset] into the block. *)
Definition put (b : list Z) (pos : nat) (data : list Z) : list Z := take pos b ++ data ++ drop (pos + length data) b.

Section hash.
Context (transform : list Z -> list Z -> list Z).

Definition run_transform (c : hash_ctx) : hash_ctx := c <|digest := transform (digest c) (block c)|>.

(** The loop over whole blocks; as many turns as there are bytes are enough. *)
Fixpoint update_loop (fuel : nat) (data : list Z) (c : hash_ctx) : hash_ctx :=
  match fuel with
  | O => c
  | S fuel =>
      if Nat.leb BLOCK_BYTES (length data)
      then update_loop fuel (drop BLOCK_BYTES data) (run_transform (c <|block := put (block c) 0 (take BLOCK_BYTES data)|>))
      else c <|block := put (block c) 0 data|>
  end.

Definition hash_update (data : list Z) (c : hash_ctx) : hash_ctx :=
  let len := length data in
  let offset := Z.to_nat (Z.land (count c) 63) in
  let avail := (BLOCK_BYTES - offset)%nat in
  let c := c <|count := u64 (count c + Z.of_nat len)|> in
  if Nat.ltb len avail then c <|block := put (block c) offset data|>
  else
    let c := run_transform (c <|block := put (block c) offset (take avail data)|>) in
    update_loop (S len) (drop avail data) c.

(** [count_bytes]: the last eight bytes of the last block; [word_bytes]: the bytes of
    a word of the result.  The result, and the context afterwards. *)
Definition hash_final (count_bytes : Z -> list Z) (word_bytes : Z -> list Z) (c : hash_ctx) : list Z * hash_ctx :=
  let offset := Z.to_nat (Z.land (count c) 63) in
  let padding := Z.of_nat BLOCK_BYTES - COUNTER_BYTES - (Z.of_nat offset + 1) in
  let c := c <|block := put (block c) offset [128]|> in
  let '(c, p, padding) :=
    if padding <? 0
    then (run_transform (c <|block := put (block c) (S offset) (repeat 0 (Z.to_nat (padding + COUNTER_BYTES)))|>), 0%nat, Z.of_nat BLOCK_BYTES - COUNTER_BYTES)
    else (c, S offset, padding) in
  let c := c <|block := put (block c) p (repeat 0 (Z.to_nat padding))|> in
  let c := run_transform (c <|block := put (block c) 56 (count_bytes (count c))|>) in
  (concat (map word_bytes (digest c)), mkHash (repeat 0 BLOCK_BYTES) (repeat 0 (length (digest c))) 0).

End hash.

(** ** MD5 *)

Definition F1 (x y z : Z) : Z := Z.lxor z (Z.land x (Z.lxor y z)).
Definition F2 (x y z : Z) : Z := F1 z x y.
Definition F3 (x y z : Z) : Z := Z.lxor (Z.lxor x y) z.
Definition F4 (x y z : Z) : Z := Z.lxor y (Z.lor x (not32 z)).

(** The variables [a] to [d], and which one a step assigns; the other three follow
    it in the order of the arguments. *)
Record abcd : Type := mkAbcd { ra : Z; rb : Z; rc : Z; rd : Z }.
Inductive var : Type := va | vb | vc | vd.

Definition md5_calc (f : Z -> Z -> Z -> Z) (w x y z i k s : Z) : Z :=
  let w := u32 (w + (f x y z + i + k)) in
  u32 (Z.lor (u32 (Z.shiftl w s)) (Z.shiftr w (32 - s)) + x).

Definition MD5STEP (f : Z -> Z -> Z -> Z) (v : var) (i k s : Z) (r : abcd) : abcd :=
  let '(mkAbcd a b c d) := r in
  match v with
  | va => mkAbcd (md5_calc f a b c d i k s) b c d
  | vd => mkAbcd a b c (md5_calc f d a b c i k s)
  | vc => mkAbcd a b (md5_calc f c d a b i k s) d
  | vb => mkAbcd a (md5_calc f b c d a i k s) c d
  end.

Definition md5_steps : list ((Z -> Z -> Z -> Z) * var * nat * Z * Z) :=
  [(F1, va, 0%nat, 0xD76AA478, 7); (F1, vd, 1%nat, 0xE8C7B756, 12); (F1, vc, 2%nat, 0x242070DB, 17); (F1, vb, 3%nat, 0xC1BDCEEE, 22);
   (F1, va, 4%nat, 0xF57C0FAF, 7); (F1, vd, 5%nat, 0x4787C62A, 12); (F1, vc, 6%nat, 0xA8304613, 17); (F1, vb, 7%nat, 0xFD469501, 22);
   (F1, va, 8%nat, 0x698098D8, 7); (F1, vd, 9%nat, 0x8B44F7AF, 12); (F1, vc, 10%nat, 0xFFFF5BB1, 17); (F1, vb, 11%nat, 0x895CD7BE, 22);
   (F1, va, 12%nat, 0x6B901122, 7); (F1, vd, 13%nat, 0xFD987193, 12); (F1, vc, 14%nat, 0xA679438E, 17); (F1, vb, 15%nat, 0x49B40821, 22);
   (F2, va, 1%nat, 0xF61E2562, 5); (F2, vd, 6%nat, 0xC040B340, 9); (F2, vc, 11%nat, 0x265E5A51, 14); (F2, vb, 0%nat, 0xE9B6C7AA, 20);
   (F2, va, 5%nat, 0xD62F105D, 5); (F2, vd, 10%nat, 0x02441453, 9); (F2, vc, 15%nat, 0xD8A1E681, 14); (F2, vb, 4%nat, 0xE7D3FBC8, 20);
   (F2, va, 9%nat, 0x21E1CDE6, 5); (F2, vd, 14%nat, 0xC33707D6, 9); (F2, vc, 3%nat, 0xF4D50D87, 14); (F2, vb, 8%nat, 0x455A14ED, 20);
   (F2, va, 13%nat, 0xA9E3E905, 5); (F2, vd, 2%nat, 0xFCEFA3F8, 9); (F2, vc, 7%nat, 0x676F02D9, 14); (F2, vb, 12%nat, 0x8D2A4C8A, 20);
   (F3, va, 5%nat, 0xFFFA3942, 4); (F3, vd, 8%nat, 0x8771F681, 11); (F3, vc, 11%nat, 0x6D9D6122, 16); (F3, vb, 14%nat, 0xFDE5380C, 23);
   (F3, va, 1%nat, 0xA4BEEA44, 4); (F3, vd, 4%nat, 0x4BDECFA9, 11); (F3, vc, 7%nat, 0xF6BB4B60, 16); (F3, vb, 10%nat, 0xBEBFBC70, 23);
   (F3, va, 13%nat, 0x289B7EC6, 4); (F3, vd, 0%nat, 0xEAA127FA, 11); (F3, vc, 3%nat, 0xD4EF3085, 16); (F3, vb, 6%nat, 0x04881D05, 23);
   (F3, va, 9%nat, 0xD9D4D039, 4); (F3, vd, 12%nat, 0xE6DB99E5, 11); (F3, vc, 15%nat, 0x1FA27CF8, 16); (F3, vb, 2%nat, 0xC4AC5665, 23);
   (F4, va, 0%nat, 0xF4292244, 6); (F4, vd, 7%nat, 0x432AFF97, 10); (F4, vc, 14%nat, 0xAB9423A7, 15); (F4, vb, 5%nat, 0xFC93A039, 21);
   (F4, va, 12%nat, 0x655B59C3, 6); (F4, vd, 3%nat, 0x8F0CCC92, 10); (F4, vc, 10%nat, 0xFFEFF47D, 15); (F4, vb, 1%nat, 0x85845DD1, 21);
   (F4, va, 8%nat, 0x6FA87E4F, 6); (F4, vd, 15%nat, 0xFE2CE6E0, 10); (F4, vc, 6%nat, 0xA3014314, 15); (F4, vb, 13%nat, 0x4E0811A1, 21);
   (F4, va, 4%nat, 0xF7537E82, 6); (F4, vd, 11%nat, 0xBD3AF235, 10); (F4, vc, 2%nat, 0x2AD7D2BB, 15); (F4, vb, 9%nat, 0xEB86D391, 21)].

Definition md5_transform_words (hash input : list Z) : list Z :=
  let h i := nth i hash 0 in
  let r := fold_left (fun r '(f, v, i, k, s) => MD5STEP f v (nth i input 0) k s r) md5_steps (mkAbcd (h 0%nat) (h 1%nat) (h 2%nat) (h 3%nat)) in
  [u32 (h 0%nat + ra r); u32 (h 1%nat + rb r); u32 (h 2%nat + rc r); u32 (h 3%nat + rd r)].

Definition md5_transform (hash blk : list Z) : list Z := md5_transform_words hash (map (block_word le_val blk) (seq 0 16)).

(** What the block holds before is not written. *)
Definition md5_init (blk : list Z) : hash_ctx := mkHash blk [0x67452301; 0xEFCDAB89; 0x98BADCFE; 0x10325476] 0.
Definition md5_update : list Z -> hash_ctx -> hash_ctx := hash_update md5_transform.
Definition md5_final : hash_ctx -> list Z * hash_ctx :=
  hash_final md5_transform (fun n => le32_bytes (u32 (u64 (Z.shiftl n 3))) ++ le32_bytes (u32 (Z.shiftr n 29))) le32_bytes.

(** ** SHA-1 *)

Definition sha1_F1 (x y z : Z) : Z := Z.lxor z (Z.land x (Z.lxor y z)).
Definition sha1_F2 (x y z : Z) : Z := Z.lxor (Z.lxor x y) z.
Definition sha1_F3 (x y z : Z) : Z := u32 (Z.land x y + Z.land z (Z.lxor x y)).

Definition sha1_K1 : Z := 0x5A827999.
Definition sha1_K2 : Z := 0x6ED9EBA1.
Definition sha1_K3 : Z := 0x8F1BBCDC.
Definition sha1_K4 : Z := 0xCA62C1D6.

Record abcde : Type := mkAbcde { sa : Z; sb : Z; sc : Z; sd : Z; se : Z }.

(** The words of [W] from the sixteenth on. *)
Definition extend (W : list Z) (i : nat) : list Z :=
  let w j := nth j W 0 in
  W ++ [rol32 (Z.lxor (Z.lxor (Z.lxor (w (i + 13)%nat) (w (i + 8)%nat)) (w (i + 2)%nat)) (w i)) 1].

(** The body of the four loops. *)
Definition sha1_round (f : Z -> Z -> Z -> Z) (k : Z) (W : list Z) (r : abcde) (i : nat) : abcde :=
  let '(mkAbcde a b c d e) := r in
  let t := u32 (f b c d + k + rol32 a 5 + e + nth i W 0) in
  mkAbcde t a (rol32 b 30) c d.

Definition sha1_transform_words (hash W : list Z) : list Z :=
  let h i := nth i hash 0 in
  let W := fold_left extend (seq 0 64) W in
  let r := mkAbcde (h 0%nat) (h 1%nat) (h 2%nat) (h 3%nat) (h 4%nat) in
  let r := fold_left (sha1_round sha1_F1 sha1_K1 W) (seq 0 20) r in
  let r := fold_left (sha1_round sha1_F2 sha1_K2 W) (seq 20 20) r in
  let r := fold_left (sha1_round sha1_F3 sha1_K3 W) (seq 40 20) r in
  let r := fold_left (sha1_round sha1_F2 sha1_K4 W) (seq 60 20) r in
  [u32 (h 0%nat + sa r); u32 (h 1%nat + sb r); u32 (h 2%nat + sc r); u32 (h 3%nat + sd r); u32 (h 4%nat + se r)].

Definition sha1_transform (hash blk : list Z) : list Z := sha1_transform_words hash (map (block_word be_val blk) (seq 0 16)).

Definition sha1_init (blk : list Z) : hash_ctx := mkHash blk [0x67452301; 0xEFCDAB89; 0x98BADCFE; 0x10325476; 0xC3D2E1F0] 0.
Definition sha1_update : list Z -> hash_ctx -> hash_ctx := hash_update sha1_transform.
Definition sha1_final : hash_ctx -> list Z * hash_ctx :=
  hash_final sha1_transform (fun n => be32_bytes (u32 (Z.shiftr n 29)) ++ be32_bytes (u32 (u64 (Z.shiftl n 3)))) be32_bytes.
