(* ===== verification/HashRef.v ===== *)
(** * MD5 and SHA-1 as they are published

    The digests of RFC 1321 and of FIPS 180-4: padding to whole blocks and the
    compression of a block, written from the publications.  They are what the code
    of the daemon is compared with. *)

From S2P Require Import Prelude.

(** ** Padding *)

(** The [n] low bytes of a number, lowest first. *)
Fixpoint bytes_le (n : nat) (x : Z) : list Z := match n with O => [] | S n => x mod 256 :: bytes_le n (x / 256) end.

(** A one bit, zeros up to eight bytes before the end of a block, the number of bits. *)
Definition padded (length_bytes : Z -> list Z) (m : list Z) : list Z :=
  let len := Z.of_nat (length m) in
  m ++ [128] ++ repeat 0 (Z.to_nat ((55 - len) mod 64)) ++ length_bytes (8 * len mod 2 ^ 64).

(** The first [n] blocks. *)
Fixpoint blocks (n : nat) (l : list Z) : list (list Z) := match n with O => [] | S n => take 64 l :: blocks n (drop 64 l) end.

Definition all_blocks (l : list Z) : list (list Z) := blocks (length l / 64) l.

Definition word_le (b : list Z) : Z := fold_right (fun x acc => x + 256 * acc) 0 b.
Definition word_be (b : list Z) : Z := fold_left (fun acc x => 256 * acc + x) b 0.

(** Rotation to the left. *)
Definition rotl (n x : Z) : Z := (x * 2 ^ n) mod 2 ^ 32 + x / 2 ^ (32 - n).

Definition add32 (x y : Z) : Z := (x + y) mod 2 ^ 32.

Definition negate (x : Z) : Z := 2 ^ 32 - 1 - x.

(** ** RFC 1321 *)

Definition md5_F (x y z : Z) : Z := Z.lor (Z.land x y) (Z.land (negate x) z).
Definition md5_G (x y z : Z) : Z := Z.lor (Z.land x z) (Z.land y (negate z)).
Definition md5_H (x y z : Z) : Z := Z.lxor x (Z.lxor y z).
Definition md5_I (x y z : Z) : Z := Z.lxor y (Z.lor x (negate z)).

(** The integer part of 4294967296 times abs(sin(i)), i from 1. *)
Definition md5_T : list Z :=
  [0xd76aa478; 0xe8c7b756; 0x242070db; 0xc1bdceee; 0xf57c0faf; 0x4787c62a; 0xa8304613; 0xfd469501;
   0x698098d8; 0x8b44f7af; 0xffff5bb1; 0x895cd7be; 0x6b901122; 0xfd987193; 0xa679438e; 0x49b40821;
   0xf61e2562; 0xc040b340; 0x265e5a51; 0xe9b6c7aa; 0xd62f105d; 0x02441453; 0xd8a1e681; 0xe7d3fbc8;
   0x21e1cde6; 0xc33707d6; 0xf4d50d87; 0x455a14ed; 0xa9e3e905; 0xfcefa3f8; 0x676f02d9; 0x8d2a4c8a;
   0xfffa3942; 0x8771f681; 0x6d9d6122; 0xfde5380c; 0xa4beea44; 0x4bdecfa9; 0xf6bb4b60; 0xbebfbc70;
   0x289b7ec6; 0xeaa127fa; 0xd4ef3085; 0x04881d05; 0xd9d4d039; 0xe6db99e5; 0x1fa27cf8; 0xc4ac5665;
   0xf4292244; 0x432aff97; 0xab9423a7; 0xfc93a039; 0x655b59c3; 0x8f0ccc92; 0xffeff47d; 0x85845dd1;
   0x6fa87e4f; 0xfe2ce6e0; 0xa3014314; 0x4e0811a1; 0xf7537e82; 0xbd3af235; 0x2ad7d2bb; 0xeb86d391].

(** Function, word and rotation of operation [i]. *)
Definition md5_fun (i : nat) : Z -> Z -> Z -> Z :=
  match (i / 16)%nat with O => md5_F | 1%nat => md5_G | 2%nat => md5_H | _ => md5_I end.
Definition md5_word (i : nat) : nat :=
  match (i / 16)%nat with O => i | 1%nat => (5 * i + 1) mod 16 | 2%nat => (3 * i + 5) mod 16 | _ => (7 * i) mod 16 end%nat.
Definition md5_rot (i : nat) : Z :=
  nth (i mod 4) (match (i / 16)%nat with O => [7; 12; 17; 22] | 1%nat => [5; 9; 14; 20] | 2%nat => [4; 11; 16; 23] | _ => [6; 10; 15; 21] end) 0.

(** An operation on (a, b, c, d), after which the names move on. *)
Definition md5_op (X : nat -> Z) (r : Z * Z * Z * Z) (i : nat) : Z * Z * Z * Z :=
  let '(a, b, c, d) := r in
  let sum := add32 (add32 (add32 a (md5_fun i b c d)) (X (md5_word i))) (nth i md5_T 0) in
  (d, add32 b (rotl (md5_rot i) sum), b, c).

Definition md5_block (h : list Z) (b : list Z) : list Z :=
  let X i := word_le (take 4 (drop (4 * i) b)) in
  let g i := nth i h 0 in
  let '(a, b, c, d) := fold_left (md5_op X) (seq 0 64) (g 0%nat, g 1%nat, g 2%nat, g 3%nat) in
  [add32 a (g 0%nat); add32 b (g 1%nat); add32 c (g 2%nat); add32 d (g 3%nat)].

Definition md5 (m : list Z) : list Z :=
  concat (map (bytes_le 4) (fold_left md5_block (all_blocks (padded (bytes_le 8) m)) [0x67452301; 0xefcdab89; 0x98badcfe; 0x10325476])).

(** ** FIPS 180-4 *)

Definition sha1_Ch (x y z : Z) : Z := Z.lxor (Z.land x y) (Z.land (negate x) z).
Definition sha1_Parity (x y z : Z) : Z := Z.lxor (Z.lxor x y) z.
Definition sha1_Maj (x y z : Z) : Z := Z.lxor (Z.lxor (Z.land x y) (Z.land x z)) (Z.land y z).

Definition sha1_f (t : nat) : Z -> Z -> Z -> Z :=
  match (t / 20)%nat with O => sha1_Ch | 1%nat => sha1_Parity | 2%nat => sha1_Maj | _ => sha1_Parity end.
Definition sha1_K (t : nat) : Z :=
  match (t / 20)%nat with O => 0x5a827999 | 1%nat => 0x6ed9eba1 | 2%nat => 0x8f1bbcdc | _ => 0xca62c1d6 end.

(** The message schedule: the last sixteen words, latest first, after [n] more. *)
Fixpoint sha1_schedule (n : nat) (last : list Z) : list Z :=
  match n with
  | O => []
  | S n =>
      let w := rotl 1 (Z.lxor (Z.lxor (Z.lxor (nth 2 last 0) (nth 7 last 0)) (nth 13 last 0)) (nth 15 last 0)) in
      w :: sha1_schedule n (w :: take 15 last)
  end.

Definition sha1_op (r : Z * Z * Z * Z * Z) (tw : nat * Z) : Z * Z * Z * Z * Z :=
  let '(a, b, c, d, e) := r in
  let '(t, w) := tw in
  let T := add32 (add32 (add32 (add32 (rotl 5 a) (sha1_f t b c d)) e) (sha1_K t)) w in
  (T, a, rotl 30 b, c, d).

Definition sha1_block (h : list Z) (b : list Z) : list Z :=
  let M := map (fun i => word_be (take 4 (drop (4 * i) b))) (seq 0 16) in
  let W := M ++ sha1_schedule 64 (rev M) in
  let g i := nth i h 0 in
  let '(a, b, c, d, e) := fold_left sha1_op (combine (seq 0 80) W) (g 0%nat, g 1%nat, g 2%nat, g 3%nat, g 4%nat) in
  [add32 a (g 0%nat); add32 b (g 1%nat); add32 c (g 2%nat); add32 d (g 3%nat); add32 e (g 4%nat)].

Definition sha1 (m : list Z) : list Z :=
  concat (map (fun w => rev (bytes_le 4 w))
    (fold_left sha1_block (all_blocks (padded (fun n => rev (bytes_le 8 n)) m)) [0x67452301; 0xefcdab89; 0x98badcfe; 0x10325476; 0xc3d2e1f0])).

(** ** The examples of the publications *)

Example md5_empty : md5 [] = [212; 29; 140; 217; 143; 0; 178; 4; 233; 128; 9; 152; 236; 248; 66; 126].
Proof. vm_compute. reflexivity. Qed.

Example md5_abc : md5 [97; 98; 99] = [144; 1; 80; 152; 60; 210; 79; 176; 214; 150; 63; 125; 40; 225; 127; 114].
Proof. vm_compute. reflexivity. Qed.

Example sha1_abc : sha1 [97; 98; 99] = [169; 153; 62; 54; 71; 6; 129; 106; 186; 62; 37; 113; 120; 80; 194; 108; 156; 208; 216; 157].
Proof. vm_compute. reflexivity. Qed.
