(* ===== verification/HashThms.v ===== *)
(** * The digests are those that are published

    First that a context collects the message whatever the pieces are, for any
    transform; then the two transforms. *)

From S2P Require Import Prelude Hash HashRef.

(** ** Pieces *)

Lemma blocks_app n1 : forall n2 a b, length a = (64 * n1)%nat -> blocks (n1 + n2) (a ++ b) = blocks n1 a ++ blocks n2 b.
Proof.
  induction n1 as [|n1 IH]; intros n2 a b Ha; [by destruct a|]. cbn [blocks Nat.add]. rewrite take_app_le, drop_app_le by lia. cbn. f_equal. apply IH. rewrite length_drop. lia.
Qed.

Lemma length_put b pos data : (pos + length data <= length b)%nat -> length (put b pos data) = length b.
Proof. intros H. unfold put. rewrite !length_app, length_take, length_drop. lia. Qed.

Lemma put_prefix b pos data p : take pos b = p -> (pos + length data <= length b)%nat -> take (pos + length data) (put b pos data) = p ++ data.
Proof.
  intros <- H. unfold put. rewrite app_assoc, take_app_le by (rewrite length_app, length_take; lia). apply take_ge. rewrite length_app, length_take. lia.
Qed.

Lemma land_63 n : Z.land n 63 = n mod 64.
Proof. change 63 with (Z.ones 6). rewrite Z.land_ones by lia. done. Qed.

Section collect.
Context (transform : list Z -> list Z -> list Z) (iv : list Z).

(** What is left of a message after its whole blocks. *)
Definition rest (m : list Z) : list Z := drop (64 * (length m / 64)) m.

#[local] Arguments rest : simpl never.
#[local] Arguments all_blocks : simpl never.

Record holds (c : hash_ctx) (m : list Z) : Prop := {
  h_count : count c = u64 (Z.of_nat (length m));
  h_digest : digest c = fold_left transform (all_blocks m) iv;
  h_rest : take (length m mod 64) (block c) = rest m;
  h_length : length (block c) = 64%nat
}.

Lemma rest_length m : length (rest m) = (length m mod 64)%nat.
Proof. unfold rest. rewrite length_drop, (Nat.mod_eq (length m) 64) by lia. lia. Qed.

Lemma whole_rest m : m = take (64 * (length m / 64)) m ++ rest m.
Proof. unfold rest. by rewrite take_drop. Qed.

Lemma whole_length (m : list Z) : length (take (64 * (length m / 64)) m) = (64 * (length m / 64))%nat.
Proof. rewrite length_take. pose proof (Nat.Div0.mul_div_le (length m) 64). lia. Qed.

Lemma all_blocks_split (w r : list Z) : (length w mod 64 = 0)%nat -> all_blocks (w ++ r) = all_blocks w ++ all_blocks r.
Proof.
  intros Hw. unfold all_blocks. rewrite length_app. assert (E : length w = (64 * (length w / 64))%nat) by (pose proof (Nat.div_mod_eq (length w) 64); lia).
  rewrite <- blocks_app by done. f_equal. rewrite E at 1. rewrite Nat.mul_comm, Nat.div_add_l by lia. done.
Qed.

Lemma all_blocks_small (r : list Z) : (length r < 64)%nat -> all_blocks r = [].
Proof. intros H. unfold all_blocks. by rewrite Nat.div_small. Qed.

Lemma all_blocks_one (r : list Z) : length r = 64%nat -> all_blocks r = [r].
Proof. intros H. unfold all_blocks. rewrite H. cbn. by rewrite take_ge by lia. Qed.

Lemma all_blocks_whole m : all_blocks m = all_blocks (take (64 * (length m / 64)) m).
Proof.
  rewrite (whole_rest m) at 1. rewrite all_blocks_split, (all_blocks_small (rest m)), app_nil_r; [done| |rewrite whole_length, Nat.mul_comm; apply Nat.Div0.mod_mul].
  rewrite rest_length. apply Nat.mod_upper_bound. lia.
Qed.

Lemma rest_split (w r : list Z) : (length w mod 64 = 0)%nat -> rest (w ++ r) = rest r.
Proof.
  intros Hw. unfold rest. rewrite length_app. assert (E : length w = (64 * (length w / 64))%nat) by (pose proof (Nat.div_mod_eq (length w) 64); lia).
  rewrite E at 1. rewrite (Nat.mul_comm 64 (length w / 64)), Nat.div_add_l by lia. rewrite drop_app_ge by lia. f_equal. lia.
Qed.

Lemma mod_split (w r : list Z) : (length w mod 64 = 0)%nat -> (length (w ++ r) mod 64 = length r mod 64)%nat.
Proof. intros Hw. rewrite length_app, <- Nat.Div0.add_mod_idemp_l, Hw. done. Qed.

(** What a context holds, from the whole blocks and the rest. *)
Lemma holds_intro c (w r : list Z) : (length w mod 64 = 0)%nat -> (length r < 64)%nat -> count c = u64 (Z.of_nat (length (w ++ r))) ->
  digest c = fold_left transform (all_blocks w) iv -> take (length r) (block c) = r -> length (block c) = 64%nat -> holds c (w ++ r).
Proof.
  intros Hw Hr Hc Hd Ht Hl. constructor; [done| | |done].
  - by rewrite all_blocks_split, (all_blocks_small r), app_nil_r by done.
  - rewrite mod_split, rest_split by done. rewrite Nat.mod_small by lia. unfold rest. rewrite Nat.div_small by lia. done.
Qed.

Lemma loop_holds fuel : forall data (w : list Z) c, (length w mod 64 = 0)%nat -> (length data < fuel)%nat -> length (block c) = 64%nat ->
  count c = u64 (Z.of_nat (length (w ++ data))) -> digest c = fold_left transform (all_blocks w) iv -> holds (update_loop transform fuel data c) (w ++ data).
Proof.
  induction fuel as [|fuel IH]; intros data w c Hw Hf Hb Hc Hd; [lia|]. cbn [update_loop]. unfold BLOCK_BYTES. destruct (Nat.leb_spec 64 (length data)) as [Hl|Hl].
  - assert (Ht : length (take 64 data) = 64%nat) by (rewrite length_take; lia).
    assert (Hput : put (block c) 0 (take 64 data) = take 64 data) by (unfold put; rewrite Ht, drop_ge by lia; cbn; by rewrite app_nil_r).
    replace (w ++ data) with ((w ++ take 64 data) ++ drop 64 data) by (by rewrite <- app_assoc, take_drop). apply IH.
    + rewrite mod_split by done. by rewrite Ht.
    + rewrite length_drop. lia.
    + cbn. by rewrite Hput.
    + cbn. rewrite Hc, <- app_assoc, take_drop. done.
    + rewrite all_blocks_split, fold_left_app, (all_blocks_one (take 64 data)), <- Hd by done. cbn. by rewrite Hput.
  - apply holds_intro; try done.
    + cbn. apply (put_prefix _ 0 data []); [done|lia].
    + cbn. rewrite length_put by lia. done.
Qed.

Lemma offset_of c m : holds c m -> Z.to_nat (Z.land (count c) 63) = (length m mod 64)%nat.
Proof.
  intros H. rewrite (h_count _ _ H), land_63. unfold u64. rewrite <- (Znumtheory.Zmod_div_mod 64 18446744073709551616) by (first [lia|by exists 288230376151711744]).
  rewrite Z2Nat.inj_mod by lia. by rewrite Nat2Z.id.
Qed.

(** A piece is added. *)
Lemma update_holds c m data : holds c m -> holds (hash_update transform data c) (m ++ data).
Proof.
  intros H. unfold hash_update. rewrite (offset_of c m H). pose proof (h_rest _ _ H) as Hrest. pose proof (rest_length m) as Hr.
  assert (Hoff : (length m mod 64 < 64)%nat) by (apply Nat.mod_upper_bound; lia). remember (length m mod 64)%nat as off eqn:Eoff. set (w := take (64 * (length m / 64)) m).
  assert (Hw : (length w mod 64 = 0)%nat) by (unfold w; rewrite whole_length, Nat.mul_comm; apply Nat.Div0.mod_mul).
  assert (Hm : m = w ++ rest m) by apply whole_rest.
  assert (Hcnt : u64 (count c + Z.of_nat (length data)) = u64 (Z.of_nat (length (m ++ data)))).
  { rewrite (h_count _ _ H), length_app, Nat2Z.inj_add. unfold u64. apply Z.add_mod_idemp_l. lia. }
  assert (Hd : digest c = fold_left transform (all_blocks w) iv) by (rewrite (h_digest _ _ H), all_blocks_whole; done).
  unfold BLOCK_BYTES. destruct (Nat.ltb_spec (length data) (64 - off)) as [Hl|Hl].
  - assert (Heq : m ++ data = w ++ (rest m ++ data)) by (rewrite app_assoc; by rewrite <- Hm). rewrite Heq in *. apply holds_intro; try done.
    + rewrite length_app. lia.
    + cbn. rewrite length_app, Hr. apply put_prefix; [exact Hrest|rewrite (h_length _ _ H); lia].
    + cbn. rewrite length_put; [apply (h_length _ _ H)|rewrite (h_length _ _ H); lia].
  - set (a := take (64 - off) data). set (b := drop (64 - off) data).
    assert (Ha : length a = (64 - off)%nat) by (unfold a; rewrite length_take; lia).
    assert (Heq : m ++ data = (w ++ rest m ++ a) ++ b) by (unfold a, b; rewrite <- !app_assoc, take_drop, app_assoc; by rewrite <- Hm). rewrite Heq in *.
    assert (Hlast : length (rest m ++ a) = 64%nat) by (rewrite length_app; lia).
    assert (Hput : put (block c) off a = rest m ++ a).
    { rewrite <- (take_ge (put (block c) off a) (off + length a)); [apply put_prefix; [exact Hrest|]|rewrite length_put]; rewrite (h_length _ _ H); lia. }
    apply loop_holds.
    + rewrite mod_split by done. by rewrite Hlast.
    + unfold b. rewrite length_drop. lia.
    + cbn. by rewrite Hput.
    + cbn. done.
    + rewrite all_blocks_split, fold_left_app, (all_blocks_one (rest m ++ a)), <- Hd by done. cbn. by rewrite Hput.
Qed.

(** The last blocks. *)
Lemma put_full b pos data p : take pos b = p -> (pos + length data = length b)%nat -> put b pos data = p ++ data.
Proof. intros Hp Hl. rewrite <- (put_prefix b pos data p Hp) by lia. rewrite take_ge; [done|]. rewrite length_put; lia. Qed.

Context (count_bytes length_bytes : Z -> list Z) (word_bytes : Z -> list Z).
Hypothesis Hcount : forall n, 0 <= n -> count_bytes (u64 n) = length_bytes (8 * n mod 2 ^ 64).
Hypothesis Hbytes : forall n, length (length_bytes n) = 8%nat.

Lemma zeros_length n : length (repeat 0 n) = n.
Proof. apply repeat_length. Qed.

(** The zeros of the padding. *)
Lemma pad_zeros n : Z.to_nat ((55 - Z.of_nat n) mod 64) = (if Nat.ltb (n mod 64) 56 then 55 - n mod 64 else 119 - n mod 64)%nat.
Proof.
  pose proof (Nat.div_mod_eq n 64) as E. pose proof (Nat.mod_upper_bound n 64 ltac:(lia)) as Hb. destruct (Nat.ltb_spec (n mod 64) 56) as [Ho|Ho].
  - rewrite <- (Z.mod_unique (55 - Z.of_nat n) 64 (- Z.of_nat (n / 64)) (Z.of_nat (55 - n mod 64))); lia.
  - rewrite <- (Z.mod_unique (55 - Z.of_nat n) 64 (- Z.of_nat (n / 64) - 1) (Z.of_nat (119 - n mod 64))); lia.
Qed.

Lemma padded_blocks m : all_blocks (padded length_bytes m) = all_blocks m ++
  all_blocks (rest m ++ [128] ++ repeat 0 (if Nat.ltb (length m mod 64) 56 then 55 - length m mod 64 else 119 - length m mod 64) ++ length_bytes (8 * Z.of_nat (length m) mod 2 ^ 64)).
Proof.
  unfold padded. rewrite pad_zeros. set (t := [128] ++ _). rewrite (whole_rest m) at 1. rewrite <- app_assoc, all_blocks_split by (rewrite whole_length, Nat.mul_comm; apply Nat.Div0.mod_mul).
  by rewrite <- all_blocks_whole.
Qed.

(** What the last calls of the transform see. *)
Lemma final_holds c m : holds c m ->
  (hash_final transform count_bytes word_bytes c).1 = concat (map word_bytes (fold_left transform (all_blocks (padded length_bytes m)) iv)).
Proof.
  intros H. unfold hash_final. rewrite (offset_of c m H). pose proof (h_rest _ _ H) as Hrest. pose proof (rest_length m) as Hr. pose proof (h_length _ _ H) as Hlen.
  assert (Hoff : (length m mod 64 < 64)%nat) by (apply Nat.mod_upper_bound; lia). rewrite padded_blocks, fold_left_app, <- (h_digest _ _ H).
  pose proof (Hcount (Z.of_nat (length m)) ltac:(lia)) as Hcb. rewrite <- (h_count _ _ H) in Hcb. set (lb := length_bytes _) in *.
  assert (Hlb : length lb = 8%nat) by apply Hbytes. remember (length m mod 64)%nat as off eqn:Eoff. clear Eoff.
  set (c1 := c <|block := put (block c) off [128]|>). assert (L1 : length (block c1) = 64%nat) by (cbn; rewrite length_put; cbn; lia).
  assert (P1 : take (S off) (block c1) = rest m ++ [128]) by (replace (S off) with (off + length [128%Z])%nat by (cbn; lia); apply put_prefix; [done|cbn; lia]).
  change (Z.of_nat BLOCK_BYTES - COUNTER_BYTES) with 56. unfold COUNTER_BYTES. destruct (Nat.ltb_spec off 56) as [Ho|Ho].
  - replace (56 - (Z.of_nat off + 1) <? 0) with false by lia. replace (Z.to_nat (56 - (Z.of_nat off + 1))) with (55 - off)%nat by lia. cbn iota beta zeta.
    set (z := repeat 0 (55 - off)). assert (Lz : length z = (55 - off)%nat) by apply zeros_length.
    assert (P2 : take 56 (put (block c1) (S off) z) = (rest m ++ [128]) ++ z) by (replace 56%nat with (S off + length z)%nat by lia; apply put_prefix; [done|lia]).
    assert (L2 : length (put (block c1) (S off) z) = 64%nat) by (rewrite length_put; lia).
    rewrite all_blocks_one by (rewrite !length_app; cbn; lia). cbn [fst fold_left]. do 2 f_equal. cbn [run_transform set_field set_block set_digest digest block count].
    change (count c1) with (count c). rewrite Hcb, (put_full _ 56 lb _ P2) by lia. by rewrite <- !app_assoc.
  - replace (56 - (Z.of_nat off + 1) <? 0) with true by lia. replace (Z.to_nat (56 - (Z.of_nat off + 1) + 8)) with (63 - off)%nat by lia. cbn iota beta zeta.
    set (z := repeat 0 (63 - off)). assert (Lz : length z = (63 - off)%nat) by apply zeros_length.
    replace (repeat 0 (119 - off)) with (z ++ repeat 0 56) by (unfold z; rewrite <- repeat_app; f_equal; lia).
    replace (rest m ++ [128] ++ (z ++ repeat 0 56) ++ lb) with ((rest m ++ [128] ++ z) ++ (repeat 0 56 ++ lb)) by (by rewrite <- !app_assoc).
    assert (Lb : length (rest m ++ [128] ++ z) = 64%nat) by (rewrite !length_app; cbn; lia).
    rewrite all_blocks_split, (all_blocks_one (rest m ++ _)), all_blocks_one by (first [done|by rewrite Lb|rewrite length_app, zeros_length; lia]). cbn [app fold_left fst]. do 2 f_equal.
    set (c2 := run_transform transform (c1 <|block := put (block c1) (S off) z|>)). assert (D2 : digest c2 = transform (digest c) (rest m ++ [128] ++ z)).
    { cbn [c2 run_transform set_field set_block set_digest digest block]. f_equal. rewrite (put_full _ _ z _ P1) by lia. by rewrite <- app_assoc. }
    assert (L2 : length (block c2) = 64%nat) by (cbn [c2 run_transform set_field set_block set_digest digest block]; rewrite length_put; lia).
    cbn [run_transform set_field set_block set_digest digest block count]. rewrite D2. change (count c2) with (count c). rewrite Hcb. f_equal. change (Z.to_nat 56) with 56%nat.
    apply put_full; [|rewrite length_put; rewrite ?zeros_length; lia]. replace 56%nat with (0 + length (repeat 0%Z 56))%nat at 1 by (rewrite zeros_length; done).
    apply (put_prefix _ 0 (repeat 0 56) []); [done|rewrite zeros_length; lia].
Qed.
End collect.

(** ** Words *)

Lemma le_val_word l : le_val l = word_le l.
Proof. induction l as [|b l IH]; cbn; [done|]. by rewrite IH. Qed.

Lemma be_val_word l : be_val l = word_be l.
Proof.
  unfold be_val, word_be. rewrite le_val_word. unfold word_le. rewrite fold_left_rev_right. enough (H : forall a b, a = b -> fold_left (fun y x => x + 256 * y) l a = fold_left (fun acc x => 256 * acc + x) l b) by (by apply H).
  induction l as [|x l IH]; intros a b Hab; cbn; [done|]. apply IH. subst. lia.
Qed.

Definition is_byte (b : Z) : Prop := 0 <= b < 256.

Lemma word_le_bytes_range n : forall l, Forall is_byte l -> (length l <= n)%nat -> 0 <= word_le l < 256 ^ Z.of_nat n.
Proof.
  induction n as [|n IH]; intros l H Hl.
  - destruct l; [cbn; lia|cbn in Hl; lia].
  - pose proof (Z.pow_pos_nonneg 256 (Z.of_nat n) ltac:(lia) ltac:(lia)) as Hp. rewrite Nat2Z.inj_succ, Z.pow_succ_r by lia. destruct l as [|b l]; [cbn -[Z.pow]; lia|]. inversion_clear H as [|? ? Hb Hl']. specialize (IH l Hl' ltac:(cbn in Hl; lia)).
    change (word_le (b :: l)) with (b + 256 * word_le l). unfold is_byte in Hb. lia.
Qed.

Lemma word_le_u32 l : Forall is_byte l -> (length l <= 4)%nat -> is_u32 (word_le l).
Proof. intros H Hl. pose proof (word_le_bytes_range 4 l H Hl). change (256 ^ Z.of_nat 4) with 4294967296 in *. done. Qed.

Lemma word_be_u32 l : Forall is_byte l -> (length l <= 4)%nat -> is_u32 (word_be l).
Proof. intros H Hl. rewrite <- be_val_word. unfold be_val. rewrite le_val_word. apply word_le_u32; [by apply Forall_rev|by rewrite length_rev]. Qed.

Lemma negate_not32 x : is_u32 x -> negate x = not32 x.
Proof. unfold negate, not32, is_u32, Z.lnot. intros H. change (2 ^ 32) with 4294967296. rewrite u32_wrap_down by lia. lia. Qed.

Lemma testbit_not32 x i : 0 <= i -> Z.testbit (not32 x) i = (i <? 32) && negb (Z.testbit x i).
Proof. intros Hi. unfold not32. by rewrite testbit_u32, Z.lnot_spec. Qed.

Lemma add32_u32 x y : add32 x y = u32 (x + y).
Proof. done. Qed.

Lemma is_u32_lxor x y : is_u32 x -> is_u32 y -> is_u32 (Z.lxor x y).
Proof. intros Hx Hy. apply is_u32_testbit. intros i Hi. by rewrite Z.lxor_spec, (testbit_is_u32 x), (testbit_is_u32 y). Qed.

(** [bits32] proves an equation of words bit by bit. *)
Ltac bits32 :=
  apply Z.bits_inj'; let i := fresh "i" in let Hi := fresh "Hi" in intros i Hi;
  repeat first [rewrite Z.bits_0|rewrite Z.lxor_spec|rewrite Z.land_spec|rewrite Z.lor_spec|rewrite testbit_not32 by lia];
  destruct (Z.ltb_spec i 32);
    repeat match goal with
    | Hx : is_u32 ?x, Hb : 32 <= i |- context [Z.testbit ?x i] => rewrite (testbit_is_u32 x i Hx Hb)
    | |- context [Z.testbit ?x i] => destruct (Z.testbit x i)
    end; reflexivity.

(** C's rotation. *)
Lemma rol_rotl w s : is_u32 w -> 0 < s < 32 -> Z.lor (u32 (Z.shiftl w s)) (Z.shiftr w (32 - s)) = rotl s w.
Proof.
  intros Hw Hs. rewrite lor_is_add.
  - unfold rotl, u32. by rewrite Z.shiftl_mul_pow2, Z.shiftr_div_pow2 by lia.
  - apply Z.bits_inj'. intros i Hi. rewrite Z.land_spec, testbit_u32, Z.shiftl_spec, Z.shiftr_spec, Z.bits_0 by lia. destruct (Z.lt_ge_cases i s).
    + rewrite (Z.testbit_neg_r w (i - s)) by lia. by rewrite andb_false_r.
    + rewrite (testbit_is_u32 w (i + (32 - s))) by (first [done|lia]). by rewrite andb_false_r.
Qed.

Lemma rotl_u32 n x : is_u32 x -> 0 < n < 32 -> is_u32 (rotl n x).
Proof.
  intros Hx Hn. rewrite <- rol_rotl by done. apply is_u32_lor; [apply u32_range|]. apply is_u32_testbit. intros i Hi. rewrite Z.shiftr_spec by lia. apply testbit_is_u32; [done|lia].
Qed.

Lemma add32_range x y : is_u32 (add32 x y).
Proof. apply u32_range. Qed.

(** ** The MD5 transform *)

Lemma F1_F x y z : is_u32 x -> is_u32 y -> is_u32 z -> F1 x y z = md5_F x y z.
Proof. intros Hx Hy Hz. unfold F1, md5_F. rewrite negate_not32 by done. bits32. Qed.

Lemma F2_G x y z : is_u32 x -> is_u32 y -> is_u32 z -> F2 x y z = md5_G x y z.
Proof. intros Hx Hy Hz. unfold F2, F1, md5_G. rewrite negate_not32 by done. bits32. Qed.

Lemma F3_H x y z : F3 x y z = md5_H x y z.
Proof. unfold F3, md5_H. by rewrite Z.lxor_assoc. Qed.

Lemma F4_I x y z : is_u32 z -> F4 x y z = md5_I x y z.
Proof. intros Hz. unfold F4, md5_I. by rewrite negate_not32. Qed.

(** Function and variable of step [i] of the code. *)
Definition step_fun (i : nat) : Z -> Z -> Z -> Z := match (i / 16)%nat with O => F1 | 1%nat => F2 | 2%nat => F3 | _ => F4 end.
Definition step_var (i : nat) : var := match (i mod 4)%nat with O => va | 1%nat => vd | 2%nat => vc | _ => vb end.

Lemma steps_are : md5_steps = map (fun i => (step_fun i, step_var i, md5_word i, nth i md5_T 0, md5_rot i)) (seq 0 64).
Proof. reflexivity. Qed.

Lemma step_fun_eq i x y z : is_u32 x -> is_u32 y -> is_u32 z -> step_fun i x y z = md5_fun i x y z.
Proof. intros Hx Hy Hz. unfold step_fun, md5_fun. destruct (i / 16)%nat as [|[|[|n]]]; [by apply F1_F|by apply F2_G|apply F3_H|by apply F4_I]. Qed.

(** The variables in the order of the publication. *)
Definition view (i : nat) (r : abcd) : Z * Z * Z * Z :=
  match (i mod 4)%nat with
  | O => (ra r, rb r, rc r, rd r)
  | 1%nat => (rd r, ra r, rb r, rc r)
  | 2%nat => (rc r, rd r, ra r, rb r)
  | _ => (rb r, rc r, rd r, ra r)
  end.

Definition abcd_ok (r : abcd) : Prop := is_u32 (ra r) /\ is_u32 (rb r) /\ is_u32 (rc r) /\ is_u32 (rd r).

Lemma md5_calc_eq i w x y z v k s : is_u32 w -> is_u32 x -> is_u32 y -> is_u32 z -> 0 < s < 32 ->
  md5_calc (step_fun i) w x y z v k s = add32 x (rotl s (add32 (add32 (add32 w (md5_fun i x y z)) v) k)).
Proof.
  intros Hw Hx Hy Hz Hs. unfold md5_calc. rewrite step_fun_eq, rol_rotl by (first [done|apply u32_range]). rewrite (Z.add_comm (rotl _ _) x), <- add32_u32. do 2 f_equal.
  rewrite !add32_u32, u32_add_l, <- (Z.add_assoc (u32 _)), u32_add_l. f_equal. lia.
Qed.

Lemma rot_range i : (i < 64)%nat -> 0 < md5_rot i < 32.
Proof. intros Hi. do 64 (destruct i as [|i]; [by vm_compute|]). lia. Qed.

Lemma mod4_next i : ((S i) mod 4 = match i mod 4 with 0 => 1 | 1 => 2 | 2 => 3 | _ => 0 end)%nat.
Proof.
  pose proof (Nat.mod_upper_bound i 4 ltac:(lia)) as Hb. pose proof (Nat.div_mod_eq i 4) as E. pose proof (Nat.mod_upper_bound (S i) 4 ltac:(lia)). pose proof (Nat.div_mod_eq (S i) 4).
  destruct (i mod 4)%nat as [|[|[|[|n]]]]; lia.
Qed.

Lemma md5_step_eq X i r : (i < 64)%nat -> abcd_ok r -> let r' := MD5STEP (step_fun i) (step_var i) (X (md5_word i)) (nth i md5_T 0) (md5_rot i) r in
  abcd_ok r' /\ view (S i) r' = md5_op X (view i r) i.
Proof.
  intros Hi (Ha & Hb & Hc & Hd). destruct r as [a b c d]. cbn in Ha, Hb, Hc, Hd. pose proof (rot_range i Hi) as Hs. unfold view. rewrite mod4_next. unfold step_var, md5_op.
  destruct (i mod 4)%nat as [|[|[|n]]]; cbn [MD5STEP ra rb rc rd]; rewrite md5_calc_eq by done; (split; [unfold abcd_ok; cbn; repeat split; try apply Ha; try apply Hb; try apply Hc; try apply Hd; apply add32_range|done]).
Qed.

Lemma fold_left_map_seq {A B C} (f : A -> B -> A) (g : C -> B) l : forall a, fold_left f (map g l) a = fold_left (fun a x => f a (g x)) l a.
Proof. induction l as [|x l IH]; intros a; cbn; [done|]. apply IH. Qed.

Lemma md5_fold X n : forall i r, (i + n <= 64)%nat -> abcd_ok r ->
  let r' := fold_left (fun r i => MD5STEP (step_fun i) (step_var i) (X (md5_word i)) (nth i md5_T 0) (md5_rot i) r) (seq i n) r in
  abcd_ok r' /\ view (i + n) r' = fold_left (md5_op X) (seq i n) (view i r).
Proof.
  induction n as [|n IH]; intros i r Hi Hr; cbn [seq fold_left]; [by rewrite Nat.add_0_r|].
  destruct (md5_step_eq X i r ltac:(lia) Hr) as [H1 H2]. rewrite <- H2, <- Nat.add_succ_comm. apply IH; [lia|done].
Qed.

Lemma md5_word_range i : (i < 64)%nat -> (md5_word i < 16)%nat.
Proof. intros Hi. do 64 (destruct i as [|i]; [vm_compute; lia|]). lia. Qed.

Lemma md5_op_ext X Y n : forall i r, (i + n <= 64)%nat -> (forall j, (j < 16)%nat -> X j = Y j) -> fold_left (md5_op X) (seq i n) r = fold_left (md5_op Y) (seq i n) r.
Proof.
  induction n as [|n IH]; intros i r Hi HXY; cbn [seq fold_left]; [done|]. rewrite IH by (first [lia|done]). f_equal. unfold md5_op. destruct r as [[[a b] c] d].
  by rewrite HXY by (apply md5_word_range; lia).
Qed.

Lemma block_words val b i : (i < 16)%nat -> nth i (map (block_word val b) (seq 0 16)) 0 = val (take 4 (drop (4 * i) b)).
Proof. intros Hi. rewrite nth_indep with (d' := block_word val b 0%nat) by (rewrite length_map, length_seq; lia). rewrite map_nth, seq_nth by lia. done. Qed.

Definition words_ok (n : nat) (h : list Z) : Prop := length h = n /\ Forall is_u32 h.

Lemma words_nth n h i : words_ok n h -> (i < n)%nat -> is_u32 (nth i h 0).
Proof. intros [<- H] Hi. rewrite Forall_forall in H. apply H. apply list_elem_of_In, nth_In. done. Qed.

Lemma md5_transform_eq h b : words_ok 4 h -> md5_transform h b = md5_block h b /\ words_ok 4 (md5_block h b).
Proof.
  intros Hh. unfold md5_transform, md5_transform_words, md5_block. rewrite steps_are, fold_left_map_seq.
  set (X := fun i => nth i (map (block_word le_val b) (seq 0 16)) 0).
  destruct (md5_fold X 64 0 (mkAbcd (nth 0 h 0) (nth 1 h 0) (nth 2 h 0) (nth 3 h 0)) ltac:(lia)) as [_ Hv].
  { unfold abcd_ok. cbn. split_and!; apply (words_nth 4); (done || lia). }
  rewrite (md5_op_ext X (fun i => word_le (take 4 (drop (4 * i) b))) 64 0) in Hv by (first [lia|intros j Hj; unfold X; rewrite block_words by done; apply le_val_word]).
  set (r := fold_left _ (seq 0 64) (mkAbcd _ _ _ _)) in *. change (view 0 _) with (nth 0 h 0, nth 1 h 0, nth 2 h 0, nth 3 h 0) in Hv. rewrite <- Hv. change (view (0 + 64) r) with (ra r, rb r, rc r, rd r).
  clearbody r. clear Hv. cbn beta iota. rewrite !add32_u32. split; [by rewrite !(Z.add_comm (nth _ _ _))|]. split; [done|]. repeat constructor; apply u32_range.
Qed.

Lemma fold_left_agree {A B} (f g : A -> B -> A) (P : A -> Prop) (Q : B -> Prop) : (forall a b, P a -> Q b -> f a b = g a b /\ P (g a b)) ->
  forall l a, P a -> Forall Q l -> fold_left f l a = fold_left g l a.
Proof. intros H. induction l as [|b l IH]; intros a Ha HQ; [done|]. cbn. inversion_clear HQ as [|? ? Hb Hl]. destruct (H a b Ha Hb) as [-> Hg]. by apply IH. Qed.

Lemma md5_blocks_eq bs h : words_ok 4 h -> fold_left md5_transform bs h = fold_left md5_block bs h.
Proof.
  intros Hh. apply (fold_left_agree _ _ (words_ok 4) (fun _ => True)); [intros; by apply md5_transform_eq|done|]. by apply Forall_true.
Qed.

(** ** The SHA-1 transform *)

Lemma sha1_F1_Ch x y z : is_u32 x -> is_u32 y -> is_u32 z -> sha1_F1 x y z = sha1_Ch x y z.
Proof. intros Hx Hy Hz. unfold sha1_F1, sha1_Ch. rewrite negate_not32 by done. bits32. Qed.

Lemma sha1_F3_Maj x y z : is_u32 x -> is_u32 y -> is_u32 z -> sha1_F3 x y z = sha1_Maj x y z.
Proof.
  intros Hx Hy Hz. unfold sha1_F3, sha1_Maj. assert (H0 : Z.land (Z.land x y) (Z.land z (Z.lxor x y)) = 0) by bits32.
  rewrite <- (lor_is_add _ _ H0), u32_small by (apply is_u32_lor; by apply is_u32_land). bits32.
Qed.

Lemma rol32_rotl w s : is_u32 w -> 0 < s < 32 -> rol32 w s = rotl s w.
Proof. apply rol_rotl. Qed.

(** Words from the end of a list. *)
Lemma nth_rev_end (W : list Z) i k : (length W = 16 + i)%nat -> (k < 16)%nat -> nth k (take 16 (rev W)) 0 = nth (i + (15 - k)) W 0.
Proof.
  intros HW Hk. rewrite nth_firstn. replace (Nat.ltb k 16) with true by (symmetry; by apply Nat.ltb_lt). rewrite rev_nth by lia. f_equal. lia.
Qed.

Lemma schedule_eq n : forall i W, (length W = 16 + i)%nat -> Forall is_u32 W ->
  fold_left extend (seq i n) W = W ++ sha1_schedule n (take 16 (rev W)) /\ words_ok (16 + i + n) (fold_left extend (seq i n) W).
Proof.
  induction n as [|n IH]; intros i W HW HF; cbn [seq fold_left sha1_schedule]; [rewrite app_nil_r; split; [done|split; [lia|done]]|].
  assert (Hn : forall j, (j < 16 + i)%nat -> is_u32 (nth j W 0)) by (intros j Hj; by apply (words_nth (16 + i))).
  rewrite !(nth_rev_end W i) by lia. unfold extend. replace (i + (15 - 2))%nat with (i + 13)%nat by lia. replace (i + (15 - 7))%nat with (i + 8)%nat by lia.
  replace (i + (15 - 13))%nat with (i + 2)%nat by lia. replace (i + (15 - 15))%nat with i by lia. fold extend.
  set (x := Z.lxor _ (nth i W 0)). assert (Hx : is_u32 x) by (unfold x; repeat apply is_u32_lxor; apply Hn; lia). rewrite (rol32_rotl x 1) by (first [done|lia]).
  destruct (IH (S i) (W ++ [rotl 1 x])) as [H1 H2].
  { rewrite length_app. cbn. lia. }
  { apply Forall_app. split; [done|]. constructor; [|done]. apply rotl_u32; [done|lia]. }
  split; [|by replace (16 + i + S n)%nat with (16 + S i + n)%nat by lia].
  rewrite H1, <- app_assoc. cbn [app]. do 3 f_equal. rewrite rev_app_distr. cbn [rev app]. change (take 16 (rotl 1 x :: rev W)) with (rotl 1 x :: take 15 (rev W)). f_equal. rewrite take_take. done.
Qed.

Definition to_tuple (r : abcde) : Z * Z * Z * Z * Z := (sa r, sb r, sc r, sd r, se r).
Definition abcde_ok (r : abcde) : Prop := is_u32 (sa r) /\ is_u32 (sb r) /\ is_u32 (sc r) /\ is_u32 (sd r) /\ is_u32 (se r).

Lemma sha1_round_eq f k W r t : abcde_ok r -> (forall x y z, is_u32 x -> is_u32 y -> is_u32 z -> f x y z = sha1_f t x y z) -> k = sha1_K t ->
  abcde_ok (sha1_round f k W r t) /\ to_tuple (sha1_round f k W r t) = sha1_op (to_tuple r) (t, nth t W 0).
Proof.
  intros (Ha & Hb & Hc & Hd & He) Hf ->. destruct r as [a b c d e]. cbn in Ha, Hb, Hc, Hd, He. unfold sha1_round, sha1_op, to_tuple. cbn [sa sb sc sd se].
  rewrite !rol32_rotl, Hf by (first [done|lia]). split.
  - unfold abcde_ok. cbn. split_and!; try done; [apply u32_range|apply rotl_u32; [done|lia]].
  - f_equal. f_equal. f_equal. f_equal. rewrite !add32_u32. autorewrite with u32. rewrite <- !Z.add_assoc. autorewrite with u32. f_equal. lia.
Qed.

Lemma sha1_rounds_eq f k W n : forall i r, abcde_ok r -> (forall t, (i <= t < i + n)%nat -> (forall x y z, is_u32 x -> is_u32 y -> is_u32 z -> f x y z = sha1_f t x y z) /\ k = sha1_K t) ->
  abcde_ok (fold_left (sha1_round f k W) (seq i n) r) /\
  to_tuple (fold_left (sha1_round f k W) (seq i n) r) = fold_left (fun r t => sha1_op r (t, nth t W 0)) (seq i n) (to_tuple r).
Proof.
  induction n as [|n IH]; intros i r Hr Hf; cbn [seq fold_left]; [done|]. destruct (Hf i ltac:(lia)) as [Hf1 Hk]. destruct (sha1_round_eq f k W r i Hr Hf1 Hk) as [H1 <-].
  apply IH; [done|]. intros t Ht. apply Hf. lia.
Qed.

Lemma combine_seq (W : list Z) n i : length W = n -> combine (seq i n) W = map (fun t => (t, nth (t - i) W 0)) (seq i n).
Proof.
  revert n i. induction W as [|w W IH]; intros n i <-; [done|]. cbn [length seq combine map]. rewrite Nat.sub_diag. cbn [nth]. f_equal. rewrite IH by done. apply map_ext_in.
  intros t Ht%in_seq. do 2 f_equal. replace (t - i)%nat with (S (t - S i)) by lia. done.
Qed.

(** The functions and constants of the four loops. *)
Lemma sha1_quarter q t : (20 * q <= t < 20 * q + 20)%nat -> (t / 20 = q)%nat.
Proof. intros H. symmetry. apply (Nat.div_unique t 20 q (t - 20 * q)); lia. Qed.

Lemma seq_80 : seq 0 80 = seq 0 20 ++ seq 20 20 ++ seq 40 20 ++ seq 60 20.
Proof. reflexivity. Qed.

Lemma sha1_words_eq h M : words_ok 5 h -> words_ok 16 M -> sha1_transform_words h M =
  let W := M ++ sha1_schedule 64 (rev M) in
  let g i := nth i h 0 in
  let '(a, b, c, d, e) := fold_left sha1_op (combine (seq 0 80) W) (g 0%nat, g 1%nat, g 2%nat, g 3%nat, g 4%nat) in
  [add32 a (g 0%nat); add32 b (g 1%nat); add32 c (g 2%nat); add32 d (g 3%nat); add32 e (g 4%nat)].
Proof.
  intros Hh [HM HF]. destruct (schedule_eq 64 0 M HM HF) as [HW [HWl _]]. rewrite take_ge in HW by (rewrite length_rev; lia). unfold sha1_transform_words. rewrite HW in *.
  set (W := M ++ sha1_schedule 64 (rev M)) in *. cbn zeta. rewrite (combine_seq W 80 0 HWl), fold_left_map_seq.
  set (r0 := mkAbcde _ _ _ _ _). change (nth 0 h 0, nth 1 h 0, nth 2 h 0, nth 3 h 0, nth 4 h 0) with (to_tuple r0).
  assert (H0 : abcde_ok r0) by (unfold abcde_ok, r0; cbn; split_and!; apply (words_nth 5); (done || lia)).
  destruct (sha1_rounds_eq sha1_F1 sha1_K1 W 20 0 r0 H0) as [O1 E1].
  { intros t Ht. unfold sha1_f, sha1_K. rewrite (sha1_quarter 0) by lia. split; [apply sha1_F1_Ch|reflexivity]. }
  set (r1 := fold_left (sha1_round sha1_F1 sha1_K1 W) (seq 0 20) r0) in *. clearbody r1.
  destruct (sha1_rounds_eq sha1_F2 sha1_K2 W 20 20 r1 O1) as [O2 E2].
  { intros t Ht. unfold sha1_f, sha1_K. rewrite (sha1_quarter 1) by lia. split; intros; reflexivity. }
  set (r2 := fold_left (sha1_round sha1_F2 sha1_K2 W) (seq 20 20) r1) in *. clearbody r2.
  destruct (sha1_rounds_eq sha1_F3 sha1_K3 W 20 40 r2 O2) as [O3 E3].
  { intros t Ht. unfold sha1_f, sha1_K. rewrite (sha1_quarter 2) by lia. split; [apply sha1_F3_Maj|reflexivity]. }
  set (r3 := fold_left (sha1_round sha1_F3 sha1_K3 W) (seq 40 20) r2) in *. clearbody r3.
  destruct (sha1_rounds_eq sha1_F2 sha1_K4 W 20 60 r3 O3) as [O4 E4].
  { intros t Ht. unfold sha1_f, sha1_K. rewrite (sha1_quarter 3) by lia. split; intros; reflexivity. }
  set (r4 := fold_left (sha1_round sha1_F2 sha1_K4 W) (seq 60 20) r3) in *. clearbody r4.
  assert (Hsame : forall l r, fold_left (fun a t => sha1_op a (t, nth (t - 0) W 0)) l r = fold_left (fun a t => sha1_op a (t, nth t W 0)) l r).
  { intros l. induction l as [|t l IH]; intros r; cbn [fold_left]; [done|]. by rewrite IH, Nat.sub_0_r. }
  rewrite Hsame, seq_80, !fold_left_app, <- E1, <- E2, <- E3, <- E4. unfold to_tuple. cbn beta iota.
  by rewrite !add32_u32, !(Z.add_comm (nth _ _ _)).
Qed.

Lemma bytes_block b : Forall is_byte b -> words_ok 16 (map (block_word be_val b) (seq 0 16)).
Proof.
  intros Hb. split; [by rewrite length_map, length_seq|]. apply Forall_forall. intros w Hw. apply list_elem_of_fmap in Hw as (i & -> & _). unfold block_word. rewrite be_val_word. apply word_be_u32; [|rewrite length_take; lia].
  by apply Forall_take, Forall_drop.
Qed.

Lemma sha1_transform_eq h b : words_ok 5 h -> Forall is_byte b -> sha1_transform h b = sha1_block h b /\ words_ok 5 (sha1_block h b).
Proof.
  intros Hh Hb. assert (E : sha1_transform h b = sha1_block h b).
  { unfold sha1_transform. rewrite sha1_words_eq by (first [done|by apply bytes_block]). unfold sha1_block.
    replace (map (block_word be_val b) (seq 0 16)) with (map (fun i => word_be (take 4 (drop (4 * i) b))) (seq 0 16)); [done|]. apply map_ext. intros i. symmetry. apply be_val_word. }
  split; [done|]. rewrite <- E. unfold sha1_transform, sha1_transform_words. split; [done|]. repeat constructor; apply u32_range.
Qed.

Lemma blocks_bytes n : forall l, Forall is_byte l -> Forall (Forall is_byte) (blocks n l).
Proof. induction n as [|n IH]; intros l Hl; cbn [blocks]; [done|]. constructor; [by apply Forall_take|]. by apply IH, Forall_drop. Qed.

Lemma sha1_blocks_eq bs h : words_ok 5 h -> Forall (Forall is_byte) bs -> fold_left sha1_transform bs h = fold_left sha1_block bs h.
Proof. intros Hh. apply (fold_left_agree _ _ (words_ok 5) (Forall is_byte)); [intros; by apply sha1_transform_eq|done]. Qed.

(** ** The bytes of the counter and of the result *)

Lemma bytes_le_length n : forall x, length (bytes_le n x) = n.
Proof. induction n as [|n IH]; intros x; cbn; [done|]. by rewrite IH. Qed.

Lemma bytes_le_range n : forall x, Forall is_byte (bytes_le n x).
Proof. induction n as [|n IH]; intros x; cbn [bytes_le]; [constructor|]. constructor; [apply Z.mod_pos_bound; lia|apply IH]. Qed.

Lemma le32_bytes_eq w : le32_bytes w = bytes_le 4 w.
Proof. unfold le32_bytes. cbn [bytes_le]. rewrite !Z.div_div by lia. done. Qed.

Lemma bytes_le_app a b : forall x, bytes_le (a + b) x = bytes_le a x ++ bytes_le b (x / 256 ^ Z.of_nat a).
Proof.
  induction a as [|a IH]; intros x; cbn [Nat.add bytes_le app]; [by rewrite Z.div_1_r|]. f_equal. rewrite IH, Nat2Z.inj_succ, Z.pow_succ_r, Z.div_div by lia. done.
Qed.

Lemma bytes_le_mod n : forall x y, x mod 256 ^ Z.of_nat n = y mod 256 ^ Z.of_nat n -> bytes_le n x = bytes_le n y.
Proof.
  induction n as [|n IH]; intros x y H; [done|]. cbn [bytes_le]. rewrite Nat2Z.inj_succ, Z.pow_succ_r in H by lia. pose proof (Z.pow_pos_nonneg 256 (Z.of_nat n) ltac:(lia) ltac:(lia)).
  f_equal.
  - rewrite (Znumtheory.Zmod_div_mod 256 (256 * 256 ^ Z.of_nat n) x), (Znumtheory.Zmod_div_mod 256 (256 * 256 ^ Z.of_nat n) y) by (first [lia|by exists (256 ^ Z.of_nat n); lia]). by rewrite H.
  - apply IH. assert (E : forall z, z / 256 mod 256 ^ Z.of_nat n = z mod (256 * 256 ^ Z.of_nat n) / 256); [|by rewrite !E, H].
    intros z. rewrite Z.rem_mul_r by lia. rewrite Z.add_comm, Z.mul_comm, Z.div_add_l by lia. rewrite (Z.div_small (z mod 256)) by (apply Z.mod_pos_bound; lia). lia.
Qed.

(** The two words of the counter are the number of bits. *)
Lemma count_words n : 0 <= n -> bytes_le 4 (u32 (u64 (Z.shiftl (u64 n) 3))) ++ bytes_le 4 (u32 (Z.shiftr (u64 n) 29)) = bytes_le 8 (8 * n mod 2 ^ 64).
Proof.
  intros Hn. change 8%nat with (4 + 4)%nat. rewrite bytes_le_app, Z.shiftl_mul_pow2, Z.shiftr_div_pow2 by lia. change (256 ^ Z.of_nat 4) with (2 ^ 32). unfold u64, u32.
  change 18446744073709551616 with (2 ^ 64). change 4294967296 with (2 ^ 32). f_equal; apply bytes_le_mod; change (256 ^ Z.of_nat 4) with (2 ^ 32); rewrite Z.mod_mod by lia.
  - rewrite Z.mul_mod_idemp_l by lia. f_equal. rewrite Z.mul_comm. done.
  - assert (E : 8 * n mod 2 ^ 64 / 2 ^ 32 = n mod 2 ^ 61 / 2 ^ 29).
    { change (2 ^ 64) with (8 * 2 ^ 61). rewrite Z.mul_mod_distr_l by lia. change (2 ^ 32) with (8 * 2 ^ 29). by rewrite Z.div_mul_cancel_l by lia. }
    assert (A : forall x, x / 2 ^ 29 mod 2 ^ 32 = x mod 2 ^ 61 / 2 ^ 29).
    { intros x. change (2 ^ 61) with (2 ^ 29 * 2 ^ 32). rewrite Z.rem_mul_r, Z.add_comm, Z.mul_comm, Z.div_add_l by lia. rewrite (Z.div_small (x mod 2 ^ 29)) by (apply Z.mod_pos_bound; lia). lia. }
    rewrite E, !A, Z.mod_mod by lia. f_equal. symmetry. apply Znumtheory.Zmod_div_mod; [lia..|]. by exists 8.
Qed.

Lemma be32_bytes_eq w : be32_bytes w = rev (bytes_le 4 w).
Proof. unfold be32_bytes. by rewrite le32_bytes_eq. Qed.

(** ** The theorems *)

Lemma iv_md5 : words_ok 4 [0x67452301; 0xEFCDAB89; 0x98BADCFE; 0x10325476].
Proof. split; [done|]. repeat constructor; done. Qed.

Lemma iv_sha1 : words_ok 5 [0x67452301; 0xEFCDAB89; 0x98BADCFE; 0x10325476; 0xC3D2E1F0].
Proof. split; [done|]. repeat constructor; done. Qed.

Lemma init_holds transform iv b : length b = 64%nat -> holds transform iv (mkHash b iv 0) [].
Proof. intros Hb. by constructor. Qed.

Lemma updates_hold transform iv ds : forall c m, holds transform iv c m -> holds transform iv (fold_left (fun c d => hash_update transform d c) ds c) (m ++ concat ds).
Proof. induction ds as [|d ds IH]; intros c m H; cbn [fold_left concat]; [by rewrite app_nil_r|]. rewrite app_assoc. by apply IH, update_holds. Qed.

(** C20: The daemon's MD5 is that of RFC 1321: initialising a context whose block has
    any contents, adding a message in any pieces and finishing gives the digest of
    the message. *)
Theorem md5_is_rfc1321 b ds : length b = 64%nat -> (md5_final (fold_left (fun c d => md5_update d c) ds (md5_init b))).1 = md5 (concat ds).
Proof.
  intros Hb. unfold md5_final, md5_update, md5_init. set (iv := [0x67452301; _; _; _]).
  rewrite (final_holds md5_transform iv _ (bytes_le 8) le32_bytes) with (m := concat ds).
  - unfold md5. rewrite md5_blocks_eq by apply iv_md5. by rewrite (map_ext _ _ le32_bytes_eq).
  - intros n Hn. rewrite !le32_bytes_eq. by apply count_words.
  - apply bytes_le_length.
  - apply (updates_hold md5_transform iv ds _ []). by apply init_holds.
Qed.

Lemma md5_is_rfc1321_witness : (md5_final (fold_left (fun c d => md5_update d c) [[97]; []; [98; 99]] (md5_init (repeat 255 64)))).1 = md5 [97; 98; 99].
Proof. apply (md5_is_rfc1321 (repeat 255 64) [[97]; []; [98; 99]]). reflexivity. Defined.

Lemma padded_bytes m : Forall is_byte m -> Forall is_byte (padded (fun n => rev (bytes_le 8 n)) m).
Proof.
  intros Hm. unfold padded. apply Forall_app; split; [done|]. apply Forall_app; split; [by repeat constructor|]. apply Forall_app; split; [|apply Forall_rev, bytes_le_range].
  apply Forall_forall. intros x Hx%list_elem_of_In%repeat_spec. by subst.
Qed.

(** C21: The daemon's SHA-1 is that of FIPS 180-4, for messages of bytes in any pieces. *)
Theorem sha1_is_fips180 b ds : length b = 64%nat -> Forall is_byte (concat ds) ->
  (sha1_final (fold_left (fun c d => sha1_update d c) ds (sha1_init b))).1 = sha1 (concat ds).
Proof.
  intros Hb Hm. unfold sha1_final, sha1_update, sha1_init. set (iv := [0x67452301; _; _; _; _]).
  rewrite (final_holds sha1_transform iv _ (fun n => rev (bytes_le 8 n)) be32_bytes) with (m := concat ds).
  - unfold sha1. rewrite sha1_blocks_eq by (first [apply iv_sha1|by apply blocks_bytes, padded_bytes]).
    by rewrite (map_ext _ _ be32_bytes_eq).
  - intros n Hn. rewrite !be32_bytes_eq, <- rev_app_distr. f_equal. by apply count_words.
  - intros n. by rewrite length_rev, bytes_le_length.
  - apply (updates_hold sha1_transform iv ds _ []). by apply init_holds.
Qed.

Lemma sha1_is_fips180_witness : (sha1_final (fold_left (fun c d => sha1_update d c) [[97]; [98; 99]] (sha1_init (repeat 255 64)))).1 = sha1 [97; 98; 99].
Proof. apply (sha1_is_fips180 (repeat 255 64) [[97]; [98; 99]]); [reflexivity|]. cbn. repeat constructor; unfold is_byte; lia. Defined.
