(* ===== verification/CStr.v ===== *)
(** * Strings of C

    What the iSCSI daemon uses of the C library on strings.  A string is the list of
    its characters without the zero byte at the end; a character is a number from 0
    to 255. *)

From Stdlib Require Import Ascii String.
Export (notations) String.
From S2P Require Import Prelude.

(** A literal. *)
Definition str (s : string) : list Z := map (fun a => Z.of_N (N_of_ascii a)) (list_ascii_of_string s).
#[global] Arguments str s%_string_scope.

Definition strcmp_eq (a b : list Z) : bool := bool_decide (a = b).

Definition between (lo c hi : Z) : bool := (lo <=? c) && (c <=? hi).

Definition isdigit (c : Z) : bool := between 48 c 57.
Definition isspace (c : Z) : bool := (c =? 32) || between 9 c 13.
Definition tolower (c : Z) : Z := if between 65 c 90 then c + 32 else c.

Definition strcasecmp_eq (a b : list Z) : bool := bool_decide (map tolower a = map tolower b).

(** The first [n] characters are compared. *)
Definition strncasecmp_eq (a b : list Z) (n : nat) : bool := bool_decide (take n (map tolower a) = take n (map tolower b)).

(** The part before the first [c], and the part after it. *)
Fixpoint split_at_char (c : Z) (s : list Z) : list Z * option (list Z) :=
  match s with
  | [] => ([], None)
  | x :: s => if x =? c then ([], Some s) else let '(a, b) := split_at_char c s in (x :: a, b)
  end.

(** ** Numbers *)

(** The value of a digit, 36 when it is none. *)
Definition digit_value (c : Z) : Z :=
  if between 48 c 57 then c - 48 else if between 97 c 122 then c - 97 + 10 else if between 65 c 90 then c - 65 + 10 else 36.

Fixpoint digits (base : Z) (s : list Z) (acc : Z) : Z :=
  match s with
  | [] => acc
  | c :: s => if digit_value c <? base then digits base s (acc * base + digit_value c) else acc
  end.

Definition LONG_MAX : Z := 9223372036854775807.

Fixpoint skip_spaces (s : list Z) : list Z := match s with c :: s' => if isspace c then skip_spaces s' else s | [] => [] end.

(** [strtol] on a host with 64-bit [long]; with base 0 the prefix tells the base. *)
Definition strtol (s : list Z) (base : Z) : Z :=
  let s := skip_spaces s in
  let '(neg, s) := match s with c :: s' => if c =? 45 then (true, s') else if c =? 43 then (false, s') else (false, s) | [] => (false, []) end in
  let '(base, s) :=
    if base =? 0 then
      match s with
      | z :: x :: d :: s' => if (z =? 48) && ((x =? 120) || (x =? 88)) && (digit_value d <? 16) then (16, d :: s') else if z =? 48 then (8, s) else (10, s)
      | z :: _ => if z =? 48 then (8, s) else (10, s)
      | [] => (10, s)
      end
    else (base, s) in
  let v := digits base s 0 in
  if neg : bool then Z.max (- v) (- LONG_MAX - 1) else Z.min v LONG_MAX.

(** ["%u"]: at most ten digits. *)
Fixpoint udec (fuel : nat) (n : Z) : list Z :=
  match fuel with
  | O => []
  | S fuel => (if n <? 10 then [] else udec fuel (n / 10)) ++ [48 + n mod 10]
  end.

Definition print_u (n : Z) : list Z := udec 10 n.

(** ["%.2hhx"]. *)
Definition hex_char (v : Z) : Z := if v <? 10 then 48 + v else 87 + v.
Definition print_hhx (b : Z) : list Z := [hex_char (b / 16); hex_char (b mod 16)].

(** ** Facts *)

Lemma udec_length f : forall n, (length (udec f n) <= f)%nat.
Proof. induction f as [|f IH]; intros n; cbn; [lia|]. rewrite length_app. cbn. destruct (n <? 10); cbn; [lia|]. specialize (IH (n / 10)). lia. Qed.

Lemma digit_of_dec d : 0 <= d < 10 -> digit_value (48 + d) = d.
Proof. intros H. unfold digit_value, between. destruct (_ && _) eqn:E; lia. Qed.

Lemma digits_app base a : forall b acc, (forall c, c ∈ a -> digit_value c < base) -> digits base (a ++ b) acc = digits base b (digits base a acc).
Proof. induction a as [|c a IH]; intros b acc H; cbn; [done|]. replace (digit_value c <? base) with true by (symmetry; apply Z.ltb_lt, H; set_solver). apply IH. set_solver. Qed.

Lemma udec_digits f : forall n c, 0 <= n -> c ∈ udec f n -> 48 <= c <= 57.
Proof.
  induction f as [|f IH]; intros n c Hn; cbn; [set_solver|]. rewrite elem_of_app, list_elem_of_singleton. intros [Hc|Hc].
  - destruct (n <? 10); [set_solver|]. apply (IH (n / 10)); [apply Z.div_pos; lia|done].
  - pose proof (Z.mod_pos_bound n 10 ltac:(lia)). lia.
Qed.

Lemma digits_udec f : forall n, 0 <= n < 10 ^ Z.of_nat f -> digits 10 (udec f n) 0 = n.
Proof.
  induction f as [|f IH]; intros n Hn; [cbn in *; lia|]. cbn [udec]. rewrite Nat2Z.inj_succ, Z.pow_succ_r in Hn by lia. pose proof (Z.mod_pos_bound n 10 ltac:(lia)).
  assert (Hd : forall c, 48 <= c <= 57 -> digit_value c < 10) by (intros c Hc; replace c with (48 + (c - 48)) by lia; rewrite digit_of_dec; lia).
  destruct (Z.ltb_spec n 10) as [Hs|Hs].
  - cbn. rewrite digit_of_dec by done. replace (n mod 10 <? 10) with true by lia. rewrite Z.mod_small; lia.
  - rewrite digits_app by (intros c Hc; apply Hd; apply (udec_digits f (n / 10)); [apply Z.div_pos; lia|done]). rewrite IH by (split; [apply Z.div_pos; lia|apply Z.div_lt_upper_bound; lia]).
    cbn. rewrite digit_of_dec by done. replace (n mod 10 <? 10) with true by lia. pose proof (Z.div_mod n 10 ltac:(lia)). lia.
Qed.
