(* ===== verification/ChapCode.v ===== *)
(** * The encodings of CHAP

    Models the hexadecimal and base64 encodings of [cg/iscsi-scst/usr/chap.c].  A
    buffer is the list of its bytes; a write outside of it has no result. *)

From S2P Require Import Prelude CStr.

Definition HEX_FORMAT : Z := 1.
Definition BASE64_FORMAT : Z := 2.

Definition CHAP_INITIATOR_ERROR : Z := -1.
Definition CHAP_AUTH_ERROR : Z := -2.
Definition CHAP_TARGET_ERROR : Z := -3.

(** [buf[j] = v]. *)
Definition poke (buf : list Z) (j v : Z) : option (list Z) :=
  if (0 <=? j) && (j <? Z.of_nat (length buf)) then Some (<[Z.to_nat j := v mod 256]> buf) else None.

(** [s[i]] inside of a string; the byte behind its end is the zero. *)
Definition at_ (s : list Z) (i : Z) : Z := nth (Z.to_nat i) s 0.

(** ** Hexadecimal *)

Definition decode_hex_digit (c : Z) : Z :=
  if between 48 c 57 then c - 48 else if between 97 c 102 then c - 97 + 10 else if between 65 c 70 then c - 65 + 10 else 0.

(** [encoded] is the whole value, of which the string starts after two characters:
    for an odd number of digits the loop reads the character before it. *)
Fixpoint hex_loop (fuel : nat) (encoded : list Z) (ptr j : Z) (intnum : list Z) : option (Z * list Z) :=
  match fuel with
  | O => None
  | S fuel =>
      intnum ← poke intnum j (decode_hex_digit (at_ encoded (ptr - 1)));
      intnum ← poke intnum j (Z.lor (at_ intnum j) (Z.shiftl (decode_hex_digit (at_ encoded (ptr - 2))) 4));
      if 2 <? ptr - 2 then hex_loop fuel encoded (ptr - 2) (j - 1) intnum else Some (j - 1, intnum)
  end.

(** The bytes up to [j] are zero. *)
Definition zero_to (j : Z) (intnum : list Z) : list Z := repeat 0 (Z.to_nat (j + 1)) ++ drop (Z.to_nat (j + 1)) intnum.

Definition decode_hex_string (encoded : list Z) (intnum : list Z) : option (list Z) :=
  '(j, intnum) ← hex_loop (length encoded) encoded (Z.of_nat (length encoded)) (Z.of_nat (length intnum) - 1) intnum;
  Some (zero_to j intnum).

Definition encode_hex_string (intnum : list Z) : list Z := concat (map print_hhx intnum).

(** ** Base64 *)

(** A [u8]: [-1] is 255. *)
Definition decode_base64_digit (c : Z) : Z :=
  if c =? 61 then 64 else if c =? 47 then 63 else if c =? 43 then 62
  else if between 65 c 90 then c - 65 else if between 97 c 122 then 26 + (c - 97) else if between 48 c 57 then 52 + (c - 48) else 255.

Definition octets (n0 n1 n2 n3 : Z) : Z := Z.lor (Z.lor (Z.lor (Z.shiftl n0 18) (Z.shiftl n1 12)) (Z.shiftl n2 6)) n3.

(** The three bytes of a group. *)
Definition put_octets (o intptr : Z) (intnum : list Z) : option (list Z) :=
  intnum ← poke intnum intptr (Z.shiftr (Z.land o 0xFF0000) 16);
  intnum ← poke intnum (intptr + 1) (Z.shiftr (Z.land o 0x00FF00) 8);
  poke intnum (intptr + 2) (Z.land o 0x0000FF).

(** The last four characters. *)
Definition base64_last (string : list Z) (count intptr : Z) (intnum : list Z) : option (list Z) :=
  let num i := decode_base64_digit (at_ string (count + i)) in
  if (num 0 =? 64) || (num 1 =? 64) then Some intnum
  else if num 2 =? 64 then
    if negb (num 3 =? 64) then Some intnum else poke intnum intptr (Z.lor (Z.shiftl (num 0) 2) (Z.shiftr (num 1) 4))
  else if num 3 =? 64 then
    intnum ← poke intnum intptr (Z.lor (Z.shiftl (num 0) 2) (Z.shiftr (num 1) 4));
    poke intnum (intptr + 1) (Z.lor (Z.shiftl (num 1) 4) (Z.shiftr (num 2) 2))
  else put_octets (octets (num 0) (num 1) (num 2) (num 3)) intptr intnum.

Fixpoint base64_loop (fuel : nat) (string : list Z) (count intptr : Z) (intnum : list Z) : option (list Z) :=
  match fuel with
  | O => None
  | S fuel =>
      if count <? Z.of_nat (length string) - 4 then
        let num i := decode_base64_digit (at_ string (count + i)) in
        if (num 0 =? 65) || (num 1 =? 65) || (num 2 =? 65) || (num 3 =? 65) then Some intnum
        else
          intnum ← put_octets (octets (num 0) (num 1) (num 2) (num 3)) intptr intnum;
          base64_loop fuel string (count + 4) (intptr + 3) intnum
      else base64_last string count intptr intnum
  end.

Definition decode_base64_string (string : list Z) (intnum : list Z) : option (list Z) :=
  let len := Z.of_nat (length string) in
  if len =? 0 then Some intnum
  else if negb (len mod 4 =? 0) then Some intnum
  else base64_loop (length string) string 0 0 intnum.

(** [base64code]. *)
Definition base64code (v : Z) : Z :=
  if v <? 26 then 65 + v else if v <? 52 then 97 + (v - 26) else if v <? 62 then 48 + (v - 52) else if v =? 62 then 43 else if v =? 63 then 47 else 61.

Fixpoint encode_base64_string (intnum : list Z) : list Z :=
  match intnum with
  | [] => []
  | [a] => [base64code (Z.shiftr (Z.land a 0xfc) 2); base64code (Z.shiftl (Z.land a 0x03) 4); base64code 64; base64code 64]
  | [a; b] =>
      [base64code (Z.shiftr (Z.land a 0xfc) 2); base64code (Z.lor (Z.shiftl (Z.land a 0x03) 4) (Z.shiftr (Z.land b 0xf0) 4));
       base64code (Z.shiftl (Z.land b 0x0f) 2); base64code 64]
  | a :: b :: c :: intnum =>
      let o := Z.lor (Z.lor (Z.shiftl a 16) (Z.shiftl b 8)) c in
      [base64code (Z.shiftr (Z.land o 0xfc0000) 18); base64code (Z.shiftr (Z.land o 0x03f000) 12);
       base64code (Z.shiftr (Z.land o 0x000fc0) 6); base64code (Z.land o 0x00003f)] ++ encode_base64_string intnum
  end.

(** ** Either *)

Definition chap_check_encoding_format (encoded : list Z) : Z :=
  if (Z.of_nat (length encoded) <? 3) || negb (at_ encoded 0 =? 48) then -1
  else if (at_ encoded 1 =? 120) || (at_ encoded 1 =? 88) then HEX_FORMAT
  else if (at_ encoded 1 =? 98) || (at_ encoded 1 =? 66) then BASE64_FORMAT
  else -1.

(** The length of the buffer to allocate, or an error; [mem_ok]: the allocation works. *)
Definition chap_alloc_decode_buffer (mem_ok : bool) (encoded : list Z) (encoding_fmt : Z) : Z :=
  let i := Z.of_nat (length encoded) - 2 in
  let alloc decode_len := if decode_len =? 0 then CHAP_INITIATOR_ERROR else if negb mem_ok then CHAP_TARGET_ERROR else decode_len in
  if encoding_fmt =? HEX_FORMAT then alloc (Z.quot (i - 1) 2 + 1)
  else if encoding_fmt =? BASE64_FORMAT then
    if negb (Z.rem i 4 =? 0) then CHAP_INITIATOR_ERROR
    else
      let decode_len := Z.quot i 4 * 3 in
      let decode_len := if at_ encoded (i + 1) =? 61 then decode_len - 1 else decode_len in
      let decode_len := if at_ encoded i =? 61 then decode_len - 1 else decode_len in
      alloc decode_len
  else alloc 0.

(** The result, and the buffer afterwards. *)
Definition chap_decode_string (encoded : list Z) (decode_buf : list Z) (encoding_fmt : Z) : option (Z * list Z) :=
  let len := Z.of_nat (length encoded) - 2 in
  let buf_len := Z.of_nat (length decode_buf) in
  if encoding_fmt =? HEX_FORMAT then
    if 2 * buf_len <? len then Some (CHAP_TARGET_ERROR, decode_buf)
    else b ← decode_hex_string encoded decode_buf; Some (0, b)
  else if encoding_fmt =? BASE64_FORMAT then
    if (Z.quot (buf_len - 1) 3 + 1) * 4 <? len then Some (CHAP_TARGET_ERROR, decode_buf)
    else b ← decode_base64_string (drop 2 encoded) decode_buf; Some (0, b)
  else Some (CHAP_INITIATOR_ERROR, decode_buf).

Definition chap_encode_string (intnum : list Z) (encoding_fmt : Z) : list Z :=
  if encoding_fmt =? HEX_FORMAT then [48; 120] ++ encode_hex_string intnum
  else if encoding_fmt =? BASE64_FORMAT then [48; 98] ++ encode_base64_string intnum
  else [48].
