(* ===== verification/ChapThms.v ===== *)
(** * The encodings of CHAP: round trips and bounds *)

From S2P Require Import Prelude CStr ChapCode HashThms.

(** ** Buffers *)

Lemma poke_in buf j v : 0 <= j < Z.of_nat (length buf) -> poke buf j v = Some (<[Z.to_nat j := v mod 256]> buf).
Proof. intros H. unfold poke. by replace ((0 <=? j) && (j <? Z.of_nat (length buf))) with true by lia. Qed.

Lemma chal_at_insert buf j v : 0 <= j < Z.of_nat (length buf) -> at_ (<[Z.to_nat j := v]> buf) j = v.
Proof. intros H. unfold at_. rewrite nth_lookup, list_lookup_insert_eq by lia. done. Qed.

Lemma insert_split (buf : list Z) (i : nat) v : (i < length buf)%nat -> <[i := v]> buf = take i buf ++ v :: drop (S i) buf.
Proof. intros H. by apply insert_take_drop. Qed.

(** ** Hexadecimal *)

(** Byte [m] from the end. *)
Definition hex_byte (encoded : list Z) (m : nat) : Z :=
  let len := Z.of_nat (length encoded) in
  Z.lor (decode_hex_digit (at_ encoded (len - 1 - 2 * Z.of_nat m)) mod 256) (Z.shiftl (decode_hex_digit (at_ encoded (len - 2 - 2 * Z.of_nat m))) 4) mod 256.

Lemma hex_loop_spec encoded r : forall m buf fuel, let len := Z.of_nat (length encoded) in let L := length buf in
  (1 <= r)%nat -> len - 2 * Z.of_nat (m + r) <= 2 < len - 2 * Z.of_nat (m + r - 1) -> (r <= fuel)%nat -> (m + r <= L)%nat ->
  hex_loop fuel encoded (len - 2 * Z.of_nat m) (Z.of_nat L - 1 - Z.of_nat m) buf =
    Some (Z.of_nat L - 1 - Z.of_nat (m + r), take (L - (m + r)) buf ++ map (hex_byte encoded) (rev (seq m r)) ++ drop (L - m) buf).
Proof.
  induction r as [|r IH]; intros m buf fuel len L Hr Hlen Hf HL; [lia|]. destruct fuel as [|fuel]; [lia|]. cbn [hex_loop].
  assert (HLb : length buf = L) by done. rewrite poke_in by lia. cbn [mbind option_bind]. rewrite chal_at_insert by lia. rewrite poke_in by (rewrite length_insert; lia). cbn [mbind option_bind].
  rewrite list_insert_insert_eq. set (j := Z.to_nat (Z.of_nat L - 1 - Z.of_nat m)). assert (Hj : j = (L - S m)%nat) by lia.
  replace (len - 2 * Z.of_nat m - 1) with (len - 1 - 2 * Z.of_nat m) by lia. replace (len - 2 * Z.of_nat m - 2) with (len - 2 - 2 * Z.of_nat m) by lia.
  fold len. change (Z.lor _ _ mod 256) with (hex_byte encoded m). set (buf1 := <[j := hex_byte encoded m]> buf).
  assert (H1 : length buf1 = L) by (unfold buf1; by rewrite length_insert).
  assert (Hd : drop (L - S m) buf1 = hex_byte encoded m :: drop (L - m) buf).
  { unfold buf1. rewrite insert_split by lia. rewrite drop_app_ge by (rewrite length_take; lia). rewrite length_take. replace (L - S m - j `min` length buf)%nat with 0%nat by lia. cbn. do 2 f_equal. lia. }
  destruct (Nat.eq_dec r 0%nat) as [->|Hr0].
  - replace (2 <? len - 2 - 2 * Z.of_nat m) with false by lia. rewrite Nat.add_1_r. do 2 f_equal; [lia|]. cbn [seq rev map app]. rewrite <- (take_drop (L - S m) buf1), Hd. f_equal.
    unfold buf1. rewrite take_insert, decide_False by lia. done.
  - replace (2 <? len - 2 - 2 * Z.of_nat m) with true by lia. replace (len - 2 - 2 * Z.of_nat m) with (len - 2 * Z.of_nat (S m)) by lia. replace (Z.of_nat L - 1 - Z.of_nat m - 1) with (Z.of_nat (length buf1) - 1 - Z.of_nat (S m)) by lia.
    rewrite IH by lia. rewrite H1. do 2 f_equal; [lia|]. cbn [seq rev]. rewrite map_app, <- app_assoc. cbn [map app]. rewrite Hd. replace (S m + r)%nat with (m + S r)%nat by lia. f_equal.
    unfold buf1. rewrite take_insert, decide_False by lia. done.
Qed.

(** As many bytes as the digits need, with zeros before them. *)
Lemma decode_hex_spec encoded buf k : (1 <= k)%nat -> Z.of_nat (length encoded) - 2 * Z.of_nat k <= 2 < Z.of_nat (length encoded) - 2 * Z.of_nat (k - 1) -> (k <= length buf)%nat ->
  decode_hex_string encoded buf = Some (repeat 0 (length buf - k) ++ map (hex_byte encoded) (rev (seq 0 k))).
Proof.
  intros Hk Hl Hb. unfold decode_hex_string. pose proof (hex_loop_spec encoded k 0 buf (length encoded)) as H. cbn zeta in H. rewrite Z.mul_0_r, !Z.sub_0_r in H. rewrite H by lia. cbn [mbind option_bind].
  f_equal. unfold zero_to. replace (Z.to_nat (Z.of_nat (length buf) - 1 - Z.of_nat (0 + k) + 1)) with (length buf - k)%nat by lia. f_equal.
  rewrite drop_app_ge by (rewrite length_take; lia). rewrite length_take, Nat.sub_0_r, drop_all, app_nil_r. replace (length buf - k - (length buf - (0 + k)) `min` length buf)%nat with 0%nat by lia. done.
Qed.

Lemma decode_code value buf f r b : chap_decode_string value buf f = Some (r, b) -> 0 <= r -> r = 0.
Proof.
  unfold chap_decode_string, CHAP_TARGET_ERROR, CHAP_INITIATOR_ERROR. intros E Hr.
  destruct (f =? HEX_FORMAT); [|destruct (f =? BASE64_FORMAT)]; [case_match; [|destruct (decode_hex_string value buf)]|case_match; [|destruct (decode_base64_string _ buf)]|]; cbn in E; simplify_eq; lia.
Qed.

Lemma hex_digit_char v : 0 <= v < 16 -> decode_hex_digit (hex_char v) = v.
Proof. intros H. unfold decode_hex_digit, hex_char, between. destruct (Z.ltb_spec v 10); repeat case_if; lia. Qed.

Lemma encode_hex_length b : length (encode_hex_string b) = (2 * length b)%nat.
Proof. unfold encode_hex_string. induction b as [|x b IH]; cbn; [done|]. rewrite IH. lia. Qed.

Lemma encode_hex_nth b : forall i, (i < length b)%nat ->
  nth (2 * i) (encode_hex_string b) 0 = hex_char (nth i b 0 / 16) /\ nth (2 * i + 1) (encode_hex_string b) 0 = hex_char (nth i b 0 mod 16).
Proof.
  induction b as [|x b IH]; intros i Hi; cbn in Hi; [lia|]. destruct i as [|i]; [done|]. replace (2 * S i)%nat with (S (S (2 * i))) by lia. apply IH. lia.
Qed.

Lemma nibbles v : is_byte v -> Z.lor (v mod 16 mod 256) (Z.shiftl (v / 16) 4) mod 256 = v.
Proof.
  unfold is_byte. intros Hv. pose proof (Z.mod_pos_bound v 16 ltac:(lia)). rewrite (Z.mod_small (v mod 16)) by lia. rewrite Z.lor_comm, lor_shiftl by lia.
  change (2 ^ 4) with 16. pose proof (Z.div_mod v 16 ltac:(lia)). rewrite Z.mod_small; lia.
Qed.

Lemma rev_seq_map n : rev (seq 0 n) = map (fun i => n - 1 - i)%nat (seq 0 n).
Proof.
  induction n as [|n IH]; [done|]. rewrite seq_S, rev_app_distr, IH. cbn [Nat.add rev app]. rewrite <- seq_S. cbn [seq map]. f_equal; [lia|]. rewrite <- seq_shift, map_map. apply map_ext. intros i. lia.
Qed.

Lemma map_nth_seq (b : list Z) : map (fun i => nth i b 0) (seq 0 (length b)) = b.
Proof. induction b as [|x b IH]; [done|]. cbn [length seq map]. f_equal. rewrite <- seq_shift, map_map. exact IH. Qed.

Lemma hex_byte_nth b m : Forall is_byte b -> (m < length b)%nat -> hex_byte ([48; 120] ++ encode_hex_string b) m = nth (length b - 1 - m) b 0.
Proof.
  intros Hb Hm. unfold hex_byte. rewrite length_app, encode_hex_length. cbn [length]. set (i := (length b - 1 - m)%nat). assert (Hi : (i < length b)%nat) by lia.
  destruct (encode_hex_nth b i Hi) as [H1 H2]. assert (Hx : is_byte (nth i b 0)) by (rewrite Forall_forall in Hb; apply Hb, list_elem_of_In, nth_In; done).
  assert (Ha : forall k, at_ ([48; 120] ++ encode_hex_string b) (Z.of_nat (2 + k)) = nth k (encode_hex_string b) 0) by (intros k; unfold at_; rewrite Nat2Z.id; done).
  replace (Z.of_nat (2 + 2 * length b) - 1 - 2 * Z.of_nat m) with (Z.of_nat (2 + (2 * i + 1))) by lia. replace (Z.of_nat (2 + 2 * length b) - 2 - 2 * Z.of_nat m) with (Z.of_nat (2 + 2 * i)) by lia.
  rewrite !Ha, H1, H2. unfold is_byte in Hx. rewrite !hex_digit_char; [by apply nibbles|split; [apply Z.div_pos; lia|apply Z.div_lt_upper_bound; lia]|apply Z.mod_pos_bound; lia].
Qed.

Lemma hex_roundtrip b buf : Forall is_byte b -> b <> [] -> length buf = length b -> decode_hex_string ([48; 120] ++ encode_hex_string b) buf = Some b.
Proof.
  intros Hb Hne Hl. assert (length b <> 0)%nat by (by destruct b). rewrite (decode_hex_spec _ buf (length b)) by (rewrite ?length_app, ?encode_hex_length; cbn [length]; lia).
  rewrite Hl, Nat.sub_diag. cbn [repeat]. rewrite app_nil_l. f_equal. rewrite rev_seq_map, map_map. etransitivity; [|apply map_nth_seq]. apply map_ext_in. intros i Hi%in_seq. rewrite hex_byte_nth by (first [done|lia]). f_equal. lia.
Qed.

(** ** Base64 *)

Lemma base64_digit_code v : 0 <= v <= 64 -> decode_base64_digit (base64code v) = v.
Proof.
  intros H. unfold base64code. destruct (Z.ltb_spec v 26); [|destruct (Z.ltb_spec v 52); [|destruct (Z.ltb_spec v 62); [|destruct (Z.eqb_spec v 62); [|destruct (Z.eqb_spec v 63)]]]];
    unfold decode_base64_digit, between; repeat case_if; lia.
Qed.

Lemma octets_val a b c d : 0 <= b < 64 -> 0 <= c < 64 -> 0 <= d < 64 -> octets a b c d = a * 2 ^ 18 + b * 2 ^ 12 + c * 2 ^ 6 + d.
Proof.
  intros Hb Hc Hd. unfold octets. rewrite (lor_shiftl a (Z.shiftl b 12) 18) by (rewrite ?Z.shiftl_mul_pow2 by lia; lia). rewrite !Z.shiftl_mul_pow2 by lia.
  replace (a * 2 ^ 18 + b * 2 ^ 12) with (Z.shiftl (a * 2 ^ 6 + b) 12) by (rewrite Z.shiftl_mul_pow2; lia). rewrite (lor_shiftl _ (c * 2 ^ 6) 12) by lia.
  replace ((a * 2 ^ 6 + b) * 2 ^ 12 + c * 2 ^ 6) with (Z.shiftl ((a * 2 ^ 6 + b) * 2 ^ 6 + c) 6) by (rewrite Z.shiftl_mul_pow2; lia). rewrite lor_shiftl by lia. rewrite ?Z.shiftl_mul_pow2 by lia. lia.
Qed.

Lemma three_val a b c : is_byte b -> is_byte c -> Z.lor (Z.lor (Z.shiftl a 16) (Z.shiftl b 8)) c = a * 65536 + b * 256 + c.
Proof.
  unfold is_byte. intros Hb Hc. rewrite (lor_shiftl a (Z.shiftl b 8) 16) by (rewrite ?Z.shiftl_mul_pow2 by lia; lia). rewrite Z.shiftl_mul_pow2 by lia.
  replace (a * 2 ^ 16 + b * 2 ^ 8) with (Z.shiftl (a * 2 ^ 8 + b) 8) by (rewrite Z.shiftl_mul_pow2; lia). rewrite lor_shiftl by lia. rewrite ?Z.shiftl_mul_pow2 by lia. lia.
Qed.

(** The four digits of three bytes. *)
Lemma six_bits o : 0 <= o < 2 ^ 24 -> let d k := o / 2 ^ k mod 64 in
  Z.shiftr (Z.land o 0xfc0000) 18 = d 18 /\ Z.shiftr (Z.land o 0x03f000) 12 = d 12 /\ Z.shiftr (Z.land o 0x000fc0) 6 = d 6 /\ Z.land o 0x00003f = d 0 /\
  octets (d 18) (d 12) (d 6) (d 0) = o.
Proof.
  intros Ho d. unfold d. change 64 with (2 ^ 6). split_and!; try (by apply field_mod).
  - change 0x3f with (Z.ones 6). rewrite Z.land_ones by lia. by rewrite Z.div_1_r.
  - rewrite octets_val by (apply Z.mod_pos_bound; lia). change (2 ^ 0) with 1. rewrite Z.div_1_r. assert (o / 2 ^ 18 < 2 ^ 6) by (apply Z.div_lt_upper_bound; lia).
    assert (0 <= o / 2 ^ 18) by (apply Z.div_pos; lia). rewrite (Z.mod_small (o / 2 ^ 18)) by lia.
    change (2 ^ 18) with (2 ^ 12 * 2 ^ 6) at 1. rewrite <- Z.div_div by lia. change (2 ^ 12) with (2 ^ 6 * 2 ^ 6) at 1 2. rewrite <- (Z.div_div o (2 ^ 6)) by lia.
    pose proof (Z.div_mod o (2 ^ 6) ltac:(lia)). pose proof (Z.div_mod (o / 2 ^ 6) (2 ^ 6) ltac:(lia)). pose proof (Z.div_mod (o / 2 ^ 6 / 2 ^ 6) (2 ^ 6) ltac:(lia)). lia.
Qed.

Lemma poke_split buf (p : nat) v : (p < length buf)%nat -> poke buf (Z.of_nat p) v = Some (take p buf ++ [v mod 256] ++ drop (p + 1) buf).
Proof. intros H. rewrite poke_in by lia. rewrite Nat2Z.id, insert_split by done. by rewrite Nat.add_1_r. Qed.

(** A byte behind the bytes [x] that were put at [p]. *)
Lemma poke_next buf (p : nat) x v q : (p + length x < length buf)%nat -> q = Z.of_nat p + Z.of_nat (length x) ->
  poke (take p buf ++ x ++ drop (p + length x) buf) q v = Some (take p buf ++ (x ++ [v mod 256]) ++ drop (p + length (x ++ [v mod 256])) buf).
Proof.
  intros H ->. rewrite <- Nat2Z.inj_add. rewrite poke_split by (rewrite !length_app, length_take, length_drop; lia). f_equal. rewrite !app_assoc.
  rewrite take_app_length' by (rewrite length_app, length_take; lia). rewrite drop_app_ge by (rewrite length_app, length_take; lia). rewrite drop_drop, <- !app_assoc. do 3 f_equal. f_equal. rewrite !length_app, length_take. cbn. lia.
Qed.

Lemma put_octets_spec o (p : nat) buf : 0 <= o -> (p + 3 <= length buf)%nat ->
  put_octets o (Z.of_nat p) buf = Some (take p buf ++ [o / 2 ^ 16 mod 256; o / 2 ^ 8 mod 256; o mod 256] ++ drop (p + 3) buf).
Proof.
  intros Ho Hl. unfold put_octets. change 256 with (2 ^ 8).
  assert (H1 : Z.shiftr (Z.land o 0xFF0000) 16 = o / 2 ^ 16 mod 2 ^ 8) by (by apply field_mod). assert (H2 : Z.shiftr (Z.land o 0x00FF00) 8 = o / 2 ^ 8 mod 2 ^ 8) by (by apply field_mod).
  assert (H3 : Z.land o 0x0000FF = o mod 2 ^ 8) by (change 0xff with (Z.ones 8); by rewrite Z.land_ones by lia). rewrite H1, H2, H3.
  rewrite poke_split by lia. cbn [mbind option_bind]. rewrite (poke_next buf p [_]) by (cbn [length]; lia). cbn [mbind option_bind]. rewrite (poke_next buf p (_ ++ _)) by (cbn [length app]; lia).
  cbn [app length]. change 256 with (2 ^ 8). by rewrite !Z.mod_mod.
Qed.

Lemma encode_base64_length x : length (encode_base64_string x) = (4 * ((length x + 2) / 3))%nat.
Proof.
  assert (H : forall n (x : list Z), (length x <= n)%nat -> length (encode_base64_string x) = (4 * ((length x + 2) / 3))%nat); [|by apply (H (length x))].
  clear x. induction n as [|n IH]; intros x Hx; [by destruct x; cbn in Hx; [|lia]|]. destruct x as [|a [|b [|c x]]]; [done..|]. cbn [encode_base64_string app length]. rewrite IH by (cbn in Hx; lia).
  replace (S (S (S (length x))) + 2)%nat with (length x + 2 + 1 * 3)%nat by lia. rewrite Nat.div_add by lia. lia.
Qed.

(** The bytes [x] put at [p]. *)
Definition put_at (p : nat) (x buf : list Z) : list Z := take p buf ++ x ++ drop (p + length x) buf.

Lemma put_at_put_at p x y buf : (p + length x + length y <= length buf)%nat -> put_at (p + length x) y (put_at p x buf) = put_at p (x ++ y) buf.
Proof.
  intros H. unfold put_at. rewrite length_app, !(app_assoc (take p buf)). rewrite take_app_length' by (rewrite length_app, length_take; lia).
  rewrite drop_app_ge by (rewrite length_app, length_take; lia). rewrite drop_drop, length_app, length_take. rewrite <- !app_assoc. do 3 f_equal. f_equal. lia.
Qed.

Lemma length_put_at p x buf : (p + length x <= length buf)%nat -> length (put_at p x buf) = length buf.
Proof. intros H. unfold put_at. rewrite !length_app, length_take, length_drop. lia. Qed.

(** Digit [i] of the group that starts at [count]. *)
Lemma digit_at s (count : nat) i e d : drop count s = e -> 0 <= i -> nth (Z.to_nat i) e 0 = base64code d -> 0 <= d <= 64 -> decode_base64_digit (at_ s (Z.of_nat count + i)) = d.
Proof.
  intros He Hi Hn Hd. assert (H : at_ s (Z.of_nat count + i) = nth (Z.to_nat i) e 0) by (subst e; unfold at_; rewrite !nth_lookup, lookup_drop; do 2 f_equal; lia).
  rewrite H, Hn. by apply base64_digit_code.
Qed.

Ltac edm := Z.to_euclidean_division_equations; lia.

(** The digits of one byte, of two and of three. *)
Lemma digits1 a : is_byte a -> exists d0 d1, encode_base64_string [a] = map base64code [d0; d1; 64; 64] /\ 0 <= d0 < 64 /\ 0 <= d1 < 64 /\
  Z.lor (Z.shiftl d0 2) (Z.shiftr d1 4) mod 256 = a.
Proof.
  unfold is_byte. intros Ha. exists (Z.shiftr (Z.land a 0xfc) 2), (Z.shiftl (Z.land a 0x03) 4). split; [done|].
  assert (H1 : Z.shiftr (Z.land a 0xfc) 2 = a / 2 ^ 2 mod 2 ^ 6) by (by apply field_mod). assert (H2 : Z.land a 0x03 = a mod 2 ^ 2) by (change 3 with (Z.ones 2); by rewrite Z.land_ones).
  rewrite H1, H2, (Z.shiftl_mul_pow2 (a mod 2 ^ 2)) by edm. rewrite Z.shiftr_div_pow2, Z.div_mul by edm. rewrite lor_shiftl by edm. edm.
Qed.

Lemma digits2 a b : is_byte a -> is_byte b -> exists d0 d1 d2, encode_base64_string [a; b] = map base64code [d0; d1; d2; 64] /\ 0 <= d0 < 64 /\ 0 <= d1 < 64 /\ 0 <= d2 < 64 /\
  Z.lor (Z.shiftl d0 2) (Z.shiftr d1 4) mod 256 = a /\ Z.lor (Z.shiftl d1 4) (Z.shiftr d2 2) mod 256 = b.
Proof.
  unfold is_byte. intros Ha Hb. exists (Z.shiftr (Z.land a 0xfc) 2), (Z.lor (Z.shiftl (Z.land a 0x03) 4) (Z.shiftr (Z.land b 0xf0) 4)), (Z.shiftl (Z.land b 0x0f) 2). split; [done|].
  assert (H1 : Z.shiftr (Z.land a 0xfc) 2 = a / 2 ^ 2 mod 2 ^ 6) by (by apply field_mod). assert (H2 : Z.land a 0x03 = a mod 2 ^ 2) by (change 3 with (Z.ones 2); by rewrite Z.land_ones).
  assert (H3 : Z.shiftr (Z.land b 0xf0) 4 = b / 2 ^ 4 mod 2 ^ 4) by (by apply field_mod). assert (H4 : Z.land b 0x0f = b mod 2 ^ 4) by (change 15 with (Z.ones 4); by rewrite Z.land_ones).
  rewrite H1, H2, H3, H4, (lor_shiftl (a mod 2 ^ 2)) by edm. rewrite (Z.shiftl_mul_pow2 (b mod 2 ^ 4)) by edm. rewrite !Z.shiftr_div_pow2, Z.div_mul by edm. rewrite Z.div_add_l, (Z.div_small (b / 2 ^ 4 mod 2 ^ 4)) by edm.
  rewrite !lor_shiftl by edm. edm.
Qed.

Lemma digits3 a b c x : is_byte a -> is_byte b -> is_byte c -> exists d0 d1 d2 d3, encode_base64_string (a :: b :: c :: x) = map base64code [d0; d1; d2; d3] ++ encode_base64_string x /\
  0 <= d0 < 64 /\ 0 <= d1 < 64 /\ 0 <= d2 < 64 /\ 0 <= d3 < 64 /\
  forall p buf, (p + 3 <= length buf)%nat -> put_octets (octets d0 d1 d2 d3) (Z.of_nat p) buf = Some (put_at p [a; b; c] buf).
Proof.
  intros Ha Hb Hc. set (o := Z.lor (Z.lor (Z.shiftl a 16) (Z.shiftl b 8)) c). assert (Ho : o = a * 65536 + b * 256 + c) by (by apply three_val).
  unfold is_byte in Ha, Hb, Hc. assert (Hr : 0 <= o < 2 ^ 24) by lia. destruct (six_bits o Hr) as (H1 & H2 & H3 & H4 & H5). exists (o / 2 ^ 18 mod 64), (o / 2 ^ 12 mod 64), (o / 2 ^ 6 mod 64), (o / 2 ^ 0 mod 64).
  split_and!; try (apply Z.mod_pos_bound; lia); try (cbn [encode_base64_string]; fold o; by rewrite H1, H2, H3, H4).
  intros p buf Hp. rewrite H5, put_octets_spec by edm. unfold put_at. do 4 f_equal; [|f_equal; [|f_equal]]; rewrite Ho; edm.
Qed.

(** The four digits of a group. *)
Ltac digits_of Hd d0 d1 d2 d3 :=
  rewrite ?(digit_at _ _ 0 _ d0 Hd), ?(digit_at _ _ 1 _ d1 Hd), ?(digit_at _ _ 2 _ d2 Hd), ?(digit_at _ _ 3 _ d3 Hd) by first [lia | reflexivity].

(** What the decoder computes of the last group. *)
Lemma base64_last_spec s (count p : nat) buf x : Forall is_byte x -> (1 <= length x <= 3)%nat -> drop count s = encode_base64_string x -> (p + length x <= length buf)%nat ->
  base64_last s (Z.of_nat count) (Z.of_nat p) buf = Some (put_at p x buf).
Proof.
  intros Hx Hl Hd Hp. unfold base64_last. destruct x as [|a [|b [|c [|]]]]; cbn [length] in Hl, Hp; try lia; rewrite !Forall_cons in Hx.
  - destruct Hx as [Ha _]. destruct (digits1 a Ha) as (d0 & d1 & E & H0 & H1 & Hv). rewrite E in Hd. cbn zeta. digits_of Hd d0 d1 64 64.
    replace (d0 =? 64) with false by lia. replace (d1 =? 64) with false by lia. cbn [orb negb Z.eqb Pos.eqb]. rewrite poke_split by lia. by rewrite Hv.
  - destruct Hx as (Ha & Hb & _). destruct (digits2 a b Ha Hb) as (d0 & d1 & d2 & E & H0 & H1 & H2 & Hv & Hw). rewrite E in Hd. cbn zeta. digits_of Hd d0 d1 d2 64.
    replace (d0 =? 64) with false by lia. replace (d1 =? 64) with false by lia. replace (d2 =? 64) with false by lia. cbn [orb negb Z.eqb Pos.eqb].
    rewrite poke_split by lia. cbn [mbind option_bind]. rewrite (poke_next buf p [_]) by (cbn [length]; lia). by rewrite Hv, Hw.
  - destruct Hx as (Ha & Hb & Hc & _). destruct (digits3 a b c [] Ha Hb Hc) as (d0 & d1 & d2 & d3 & E & H0 & H1 & H2 & H3 & Hv). rewrite E in Hd. cbn zeta. digits_of Hd d0 d1 d2 d3.
    replace (d0 =? 64) with false by lia. replace (d1 =? 64) with false by lia. replace (d2 =? 64) with false by lia. replace (d3 =? 64) with false by lia. cbn [orb]. apply Hv. lia.
Qed.

Lemma base64_loop_spec s n : forall x (count p : nat) buf fuel, (length x <= n)%nat -> (n <= fuel)%nat -> Forall is_byte x -> x <> [] -> drop count s = encode_base64_string x -> (p + length x <= length buf)%nat ->
  base64_loop fuel s (Z.of_nat count) (Z.of_nat p) buf = Some (put_at p x buf).
Proof.
  induction n as [|n IH]; intros x count p buf fuel Hn Hf Hx Hne Hd Hp; [by destruct x; cbn in Hn; [|lia]|]. destruct fuel as [|fuel]; [lia|]. cbn [base64_loop].
  assert (Hlen : (length s = count + length (encode_base64_string x))%nat).
  { pose proof (length_drop s count) as E. rewrite Hd in E. pose proof (encode_base64_length x). assert (length x <> 0%nat) by (by destruct x). assert (1 <= (length x + 2) / 3)%nat by (apply Nat.div_le_lower_bound; lia). lia. }
  destruct (decide (length x <= 3)%nat) as [Hs|Hs].
  - assert (length (encode_base64_string x) = 4)%nat by (destruct x as [|? [|? [|? [|]]]]; cbn in Hs; first [done|lia]). replace (_ <? _) with false by lia. apply base64_last_spec; first [done|split; [destruct x; cbn; [done|lia]|done]].
  - destruct x as [|a [|b [|c x]]]; cbn [length] in Hs, Hn, Hp; try lia. rewrite !Forall_cons in Hx. destruct Hx as (Ha & Hb & Hc & Hx). destruct (digits3 a b c x Ha Hb Hc) as (d0 & d1 & d2 & d3 & E & H0 & H1 & H2 & H3 & Hv).
    assert (Hx1 : (1 <= length x)%nat) by lia. rewrite E in Hd, Hlen. rewrite length_app, encode_base64_length in Hlen. assert (1 <= (length x + 2) / 3)%nat by (apply Nat.div_le_lower_bound; lia). cbn [map length] in Hlen.
    replace (_ <? _) with true by lia. cbn zeta. digits_of Hd d0 d1 d2 d3. replace (d0 =? 65) with false by lia. replace (d1 =? 65) with false by lia. replace (d2 =? 65) with false by lia. replace (d3 =? 65) with false by lia.
    cbn [orb]. rewrite Hv by lia. cbn [mbind option_bind]. replace (Z.of_nat count + 4) with (Z.of_nat (count + 4)) by lia. replace (Z.of_nat p + 3) with (Z.of_nat (p + 3)) by lia.
    rewrite (IH x) by first [lia | done | by destruct x; cbn in Hx1; [lia|] | by rewrite <- drop_drop, Hd | rewrite length_put_at; cbn [length]; lia].
    f_equal. apply (put_at_put_at p [a; b; c] x). cbn [length]. lia.
Qed.

Lemma base64_roundtrip b buf : Forall is_byte b -> b <> [] -> length buf = length b -> decode_base64_string (encode_base64_string b) buf = Some b.
Proof.
  intros Hb Hne Hl. assert (Hb1 : (1 <= length b)%nat) by (destruct b; cbn; [done|lia]). unfold decode_base64_string. pose proof (encode_base64_length b) as He. assert (1 <= (length b + 2) / 3)%nat by (apply Nat.div_le_lower_bound; lia).
  assert (length b <= 3 * ((length b + 2) / 3))%nat by (pose proof (Nat.div_mod (length b + 2) 3 ltac:(lia)); pose proof (Nat.mod_upper_bound (length b + 2) 3 ltac:(lia)); lia).
  replace (_ =? 0) with false by lia. replace (negb _) with false by (rewrite He, Nat2Z.inj_mul, Z.mul_comm, Z.mod_mul; lia).
  change 0 with (Z.of_nat 0). rewrite (base64_loop_spec _ (length b) b) by first [lia | done]. unfold put_at. cbn [take app Nat.add]. rewrite drop_ge by lia. by rewrite app_nil_r.
Qed.

(** The padding at the end. *)
Lemma base64code_not_pad v : 0 <= v < 64 -> base64code v <> 61.
Proof. intros H. unfold base64code. repeat case_if; lia. Qed.

Lemma base64_pad x : Forall is_byte x -> x <> [] -> let e := encode_base64_string x in let L := length e in
  (nth (L - 1) e 0 =? 61) = negb (length x mod 3 =? 0)%nat /\ (nth (L - 2) e 0 =? 61) = (length x mod 3 =? 1)%nat.
Proof.
  assert (G : forall n x, (length x <= n)%nat -> Forall is_byte x -> x <> [] -> let e := encode_base64_string x in let L := length e in
    (nth (L - 1) e 0 =? 61) = negb (length x mod 3 =? 0)%nat /\ (nth (L - 2) e 0 =? 61) = (length x mod 3 =? 1)%nat); [|by apply (G (length x))].
  clear x. induction n as [|n IH]; intros x Hn Hx Hne; [by destruct x; cbn in Hn; [|lia]|]. destruct x as [|a [|b [|c x]]]; [done|done| |]; rewrite !Forall_cons in Hx.
  - destruct Hx as (Ha & Hb & _). destruct (digits2 a b Ha Hb) as (d0 & d1 & d2 & -> & _ & _ & H2 & _). cbn. pose proof (base64code_not_pad d2 H2). split; [done|lia].
  - destruct Hx as (Ha & Hb & Hc & Hx). destruct (digits3 a b c x Ha Hb Hc) as (d0 & d1 & d2 & d3 & -> & _ & _ & H2 & H3 & _). cbn zeta. replace (length (a :: b :: c :: x)) with (length x + 1 * 3)%nat by (cbn; lia). rewrite Nat.Div0.mod_add.
    destruct (decide (x = [])) as [->|Hx0]; [pose proof (base64code_not_pad d2 H2); pose proof (base64code_not_pad d3 H3); cbn; split; lia|].
    destruct (IH x ltac:(cbn in Hn; lia) Hx Hx0) as [I1 I2]. assert (Hx1 : (1 <= length x)%nat) by (destruct x; cbn; [done|lia]). pose proof (encode_base64_length x). assert (1 <= (length x + 2) / 3)%nat by (apply Nat.div_le_lower_bound; lia).
    rewrite length_app. cbn [map length]. rewrite !app_nth2 by (cbn [length]; lia). cbn [length]. rewrite <- I1, <- I2. split; do 2 f_equal; lia.
Qed.

(** ** What is encoded is decoded *)

(** C22: what the daemon encodes for CHAP, in either format, is recognised as that format, makes the decoder allocate a buffer of exactly the encoded number of bytes, and is decoded into it, whatever it held, to the bytes that were encoded. *)
Theorem chap_roundtrip b fmt buf (Hb : Forall is_byte b) (Hne : b <> []) (Hf : fmt = HEX_FORMAT \/ fmt = BASE64_FORMAT) (Hl : length buf = length b) :
  let e := chap_encode_string b fmt in
  chap_check_encoding_format e = fmt /\ chap_alloc_decode_buffer true e fmt = Z.of_nat (length b) /\ chap_decode_string e buf fmt = Some (0, b).
Proof.
  assert (Hb1 : (1 <= length b)%nat) by (destruct b; cbn; [done|lia]). destruct Hf as [-> | ->]; cbn zeta.
  - change (chap_encode_string b HEX_FORMAT) with ([48; 120] ++ encode_hex_string b). pose proof (encode_hex_length b) as He. split_and!.
    + unfold chap_check_encoding_format. rewrite length_app, He. cbn [length]. by replace (_ <? 3) with false by lia.
    + unfold chap_alloc_decode_buffer. rewrite length_app, He. cbn [length Z.eqb HEX_FORMAT Pos.eqb]. replace (Z.quot _ 2) with (Z.of_nat (length b) - 1) by (rewrite Z.quot_div_nonneg by lia; edm). case_if; [lia|]. cbn. lia.
    + unfold chap_decode_string. cbn [Z.eqb HEX_FORMAT Pos.eqb]. rewrite length_app, He. cbn [length]. replace (_ <? _) with false by lia. by rewrite hex_roundtrip.
  - change (chap_encode_string b BASE64_FORMAT) with ([48; 98] ++ encode_base64_string b). pose proof (encode_base64_length b) as He. assert (Hg : (1 <= (length b + 2) / 3)%nat) by (apply Nat.div_le_lower_bound; lia).
    set (g := ((length b + 2) / 3)%nat) in *. assert (Hd : (length b + 2 = 3 * g + (length b + 2) mod 3)%nat) by (apply Nat.div_mod; lia). pose proof (Nat.mod_upper_bound (length b + 2) 3 ltac:(lia)). split_and!.
    + unfold chap_check_encoding_format. rewrite length_app, He. cbn [length]. by replace (_ <? 3) with false by lia.
    + destruct (base64_pad b Hb Hne) as [P1 P2]. rewrite He in P1, P2. unfold chap_alloc_decode_buffer. rewrite length_app, He. cbn [length Z.eqb HEX_FORMAT BASE64_FORMAT Pos.eqb].
      replace (Z.of_nat (2 + 4 * g) - 2) with (Z.of_nat g * 4) by lia. rewrite Z.rem_mul, Z.quot_mul by lia. cbn [Z.eqb negb]. unfold at_.
      rewrite !app_nth2 by (cbn [length]; lia). cbn [length]. replace (Z.to_nat (Z.of_nat g * 4 + 1) - 2)%nat with (4 * g - 1)%nat by lia. replace (Z.to_nat (Z.of_nat g * 4) - 2)%nat with (4 * g - 2)%nat by lia. rewrite P1, P2.
      pose proof (Nat.div_mod (length b) 3 ltac:(lia)). pose proof (Nat.mod_upper_bound (length b) 3 ltac:(lia)).
      destruct (Nat.eqb_spec (length b mod 3) 0), (Nat.eqb_spec (length b mod 3) 1); cbn [negb]; try lia; (case_if; [lia|]); lia.
    + unfold chap_decode_string. cbn [Z.eqb HEX_FORMAT BASE64_FORMAT Pos.eqb]. rewrite length_app, He, Hl. cbn [length]. replace (_ <? _) with false.
      { change (drop 2 ([48; 98] ++ encode_base64_string b)) with (encode_base64_string b). by rewrite base64_roundtrip. }
      symmetry. apply Z.ltb_ge. rewrite Z.quot_div_nonneg by lia. edm.
Qed.

Lemma chap_roundtrip_witness :
  let e := chap_encode_string [1; 2; 250; 77] BASE64_FORMAT in
  chap_check_encoding_format e = BASE64_FORMAT /\ chap_alloc_decode_buffer true e BASE64_FORMAT = 4 /\ chap_decode_string e (repeat 9 4) BASE64_FORMAT = Some (0, [1; 2; 250; 77]).
Proof.
  apply (chap_roundtrip [1; 2; 250; 77] BASE64_FORMAT (repeat 9 4)); [|done|by right|reflexivity].
  repeat (apply Forall_cons; split; [unfold is_byte; lia|]). by apply Forall_nil.
Defined.

(** ** No write outside of the buffer *)

Definition fits (r : option (list Z)) (n : nat) : Prop := exists b, r = Some b /\ length b = n.

Lemma poke_fits buf j v : 0 <= j < Z.of_nat (length buf) -> fits (poke buf j v) (length buf).
Proof. intros H. rewrite poke_in by done. eexists. split; [done|]. by rewrite length_insert. Qed.

Lemma fits_bind (r : option (list Z)) (f : list Z -> option (list Z)) n : fits r n -> (forall b, length b = n -> fits (f b) n) -> fits (r ≫= f) n.
Proof. intros (b & -> & Hb) Hf. by apply Hf. Qed.

Lemma put_octets_fits o p buf : 0 <= p -> p + 3 <= Z.of_nat (length buf) -> fits (put_octets o p buf) (length buf).
Proof.
  intros H0 Hp. unfold put_octets. apply fits_bind; [apply poke_fits; lia|]. intros b Hb. rewrite <- Hb. apply fits_bind; [apply poke_fits; lia|]. intros b' Hb'. rewrite <- Hb'. apply poke_fits. lia.
Qed.

Lemma digit_pad c : (decode_base64_digit c =? 64) = (c =? 61).
Proof. unfold decode_base64_digit, between. repeat case_if; lia. Qed.

(** What the last group writes at most. *)
Definition last_need (s : list Z) : Z :=
  let l := Z.of_nat (length s) in 3 - (if at_ s (l - 1) =? 61 then 1 else 0) - (if at_ s (l - 2) =? 61 then 1 else 0).

Lemma last_need_range s : 1 <= last_need s <= 3.
Proof. unfold last_need. destruct (_ =? 61), (_ =? 61); lia. Qed.

Lemma base64_last_fits s count p buf : Z.of_nat (length s) = count + 4 -> 0 <= p -> p + last_need s <= Z.of_nat (length buf) -> fits (base64_last s count p buf) (length buf).
Proof.
  intros Hs Hp Hn. unfold base64_last, last_need in *. rewrite Hs in Hn. replace (count + 4 - 1) with (count + 3) in Hn by lia. replace (count + 4 - 2) with (count + 2) in Hn by lia. rewrite <- !digit_pad in Hn.
  assert (Hid : fits (Some buf) (length buf)) by (by exists buf). destruct (_ || _); [done|].
  destruct (decode_base64_digit (at_ s (count + 2)) =? 64), (decode_base64_digit (at_ s (count + 3)) =? 64); cbn [negb]; try done.
  - apply poke_fits. lia.
  - apply fits_bind; [apply poke_fits; lia|]. intros b Hb. rewrite <- Hb. apply poke_fits. lia.
  - apply put_octets_fits; lia.
Qed.

Lemma base64_loop_fits s k : forall count p buf fuel, (k <= fuel)%nat -> (1 <= k)%nat -> Z.of_nat (length s) = count + 4 * Z.of_nat k -> 0 <= p -> p + 3 * (Z.of_nat k - 1) + last_need s <= Z.of_nat (length buf) ->
  fits (base64_loop fuel s count p buf) (length buf).
Proof.
  pose proof (last_need_range s) as Hl.
  induction k as [|k IH]; intros count p buf fuel Hf Hk Hs Hp Hn; [lia|]. destruct fuel as [|fuel]; [lia|]. cbn [base64_loop]. destruct (Z.ltb_spec count (Z.of_nat (length s) - 4)).
  - destruct (_ || _); [by exists buf|]. apply fits_bind; [apply put_octets_fits; lia|]. intros b Hb. rewrite <- Hb. apply IH; lia.
  - apply base64_last_fits; lia.
Qed.

Lemma base64_fits s buf : (0 < length s)%nat -> 3 * (Z.of_nat (length s) / 4 - 1) + last_need s <= Z.of_nat (length buf) -> fits (decode_base64_string s buf) (length buf).
Proof.
  intros Hs Hn. unfold decode_base64_string. assert (Hid : fits (Some buf) (length buf)) by (by exists buf). case_if; [done|]. destruct (Z.eqb_spec (Z.of_nat (length s) mod 4) 0); cbn [negb]; [|done].
  assert (Hm : (length s mod 4 = 0)%nat) by (apply Nat2Z.inj; by rewrite Nat2Z.inj_mod). pose proof (Nat.div_mod (length s) 4 ltac:(lia)).
  apply (base64_loop_fits s (length s / 4)); [lia..|rewrite Nat2Z.inj_div; exact Hn].
Qed.

Lemma hex_fits encoded buf : (2 < length encoded)%nat -> Z.of_nat (length encoded) - 2 <= 2 * Z.of_nat (length buf) -> fits (decode_hex_string encoded buf) (length buf).
Proof.
  intros Hs Hn. set (k := ((length encoded - 1) / 2)%nat). assert (Hk : (length encoded - 1 = 2 * k + (length encoded - 1) mod 2)%nat) by (apply Nat.div_mod; lia). pose proof (Nat.mod_upper_bound (length encoded - 1) 2 ltac:(lia)).
  rewrite (decode_hex_spec encoded buf k) by lia. eexists. split; [done|]. rewrite length_app, repeat_length, length_map, length_rev, length_seq. lia.
Qed.

(** What the memory held before does not matter for hexadecimal digits. *)
Lemma hex_any_memory encoded buf buf' out : chap_check_encoding_format encoded = HEX_FORMAT -> length buf' = length buf ->
  chap_decode_string encoded buf HEX_FORMAT = Some (0, out) -> chap_decode_string encoded buf' HEX_FORMAT = Some (0, out).
Proof.
  intros Hf Hl. assert (Hs : (2 < length encoded)%nat) by (revert Hf; unfold chap_check_encoding_format; destruct (_ || _) eqn:E; [done|intros _; apply orb_false_iff in E as [E _]; lia]).
  unfold chap_decode_string. cbn [Z.eqb HEX_FORMAT Pos.eqb]. rewrite Hl. destruct (Z.ltb_spec (2 * Z.of_nat (length buf)) (Z.of_nat (length encoded) - 2)); [done|].
  set (k := ((length encoded - 1) / 2)%nat). assert (Hk : (length encoded - 1 = 2 * k + (length encoded - 1) mod 2)%nat) by (apply Nat.div_mod; lia). pose proof (Nat.mod_upper_bound (length encoded - 1) 2 ltac:(lia)).
  rewrite !(decode_hex_spec encoded _ k) by lia. by rewrite Hl.
Qed.

(** C23: whatever value an initiator sends for [CHAP_C]: when its format is recognised and the daemon allocates a buffer for it, decoding it succeeds and every byte that is written lies inside of that buffer. *)
Theorem chap_decode_safe encoded buf (Hf : chap_check_encoding_format encoded <> -1)
  (Ha : chap_alloc_decode_buffer true encoded (chap_check_encoding_format encoded) = Z.of_nat (length buf)) :
  exists out, chap_decode_string encoded buf (chap_check_encoding_format encoded) = Some (0, out) /\ length out = length buf.
Proof.
  assert (Hlen : 3 <= Z.of_nat (length encoded)) by (revert Hf; unfold chap_check_encoding_format; destruct (_ || _) eqn:E; [done|intros _; apply orb_false_iff in E as [E _]; lia]).
  assert (Hfmt : chap_check_encoding_format encoded = HEX_FORMAT \/ chap_check_encoding_format encoded = BASE64_FORMAT) by (revert Hf; unfold chap_check_encoding_format; repeat case_if; intros; first [by left | by right | done]).
  destruct Hfmt as [E|E]; rewrite E in *; unfold chap_alloc_decode_buffer in Ha; unfold chap_decode_string; cbn [Z.eqb HEX_FORMAT BASE64_FORMAT Pos.eqb] in *.
  - rewrite Z.quot_div_nonneg in Ha by lia. case_if_in Ha; [unfold CHAP_INITIATOR_ERROR in Ha; lia|]. cbn [negb] in Ha. replace (_ <? _) with false by edm.
    destruct (hex_fits encoded buf) as (b & -> & Hb); [lia|edm|]. by exists b.
  - case_if_in Ha; [unfold CHAP_INITIATOR_ERROR in Ha; lia|]. rewrite Z.rem_mod_nonneg in * by lia. rewrite Z.quot_div_nonneg in * by lia.
    set (s := drop 2 encoded). assert (Hs : Z.of_nat (length s) = Z.of_nat (length encoded) - 2) by (unfold s; rewrite length_drop; lia).
    assert (Hat : forall j, 0 <= j -> at_ encoded (j + 2) = at_ s j) by (intros j Hj; unfold at_, s; rewrite !nth_lookup, lookup_drop; do 2 f_equal; lia).
    assert (Hn : 3 * (Z.of_nat (length s) / 4 - 1) + last_need s = Z.of_nat (length buf)).
    { unfold last_need. rewrite Hs, <- !Hat by edm. replace (Z.of_nat (length encoded) - 2 - 1 + 2) with (Z.of_nat (length encoded) - 2 + 1) by lia. replace (Z.of_nat (length encoded) - 2 - 2 + 2) with (Z.of_nat (length encoded) - 2) by lia.
      repeat case_if_in Ha; unfold CHAP_INITIATOR_ERROR in Ha; lia. }
    destruct (base64_fits s buf) as (b & Hd & Hb); [lia|lia|]. replace (_ <? _) with false; [rewrite Hd; by exists b|]. symmetry. apply Z.ltb_ge. pose proof (last_need_range s). rewrite Z.quot_div_nonneg by edm. edm.
Qed.

Lemma chap_decode_safe_witness : exists out, chap_decode_string (str "0bAAAAAA==") (repeat 7 4) BASE64_FORMAT = Some (0, out) /\ length out = 4%nat.
Proof. apply (chap_decode_safe (str "0bAAAAAA==") (repeat 7 4)); [done|reflexivity]. Defined.

(** The response of CHAP is decoded into a buffer of the length of the digest: the check of the length counts the groups of base64 and not their padding, and a full last group writes behind the buffer. *)
Example chap_response_overruns :
  chap_decode_string (str "0bAAAAAAAAAAAAAAAAAAAAAAAA") (repeat 0 16) BASE64_FORMAT = None /\
  chap_decode_string (str "0bAAAAAAAAAAAAAAAAAAAAAAAAAAAA") (repeat 0 20) BASE64_FORMAT = None.
Proof. split; vm_compute; reflexivity. Qed.
