(* ===== verification/IscsiText.v ===== *)
(** * The text of iSCSI login and text requests

    Models the functions of [cg/iscsi-scst/usr/iscsid.c] on the [key=value] pairs of a
    data segment: finding a key, walking over the pairs, and adding a pair to the
    response, which is a list of segments of bounded size.

    A data segment is the list of its bytes.  The daemon overwrites separators of the
    segment with zeros while it walks over it; nothing reads them afterwards, and here
    the parts are returned instead. *)

From S2P Require Import Prelude CStr.

(** The next pair: the bytes before ['='], the bytes before the zero, and the rest; none
    when one of the two is not found. *)
Definition next_key (data : list Z) : option (list Z * list Z * list Z) :=
  match split_at_char 61 data with
  | (key, Some after) => match split_at_char 0 after with (value, Some rest) => Some (key, value, rest) | _ => None end
  | _ => None
  end.

(** A key that contains a zero is read as the string before it. *)
Definition cstring (s : list Z) : list Z := fst (split_at_char 0 s).

Fixpoint key_find (fuel : nat) (data searchKey : list Z) : option (list Z) :=
  match fuel with
  | O => None
  | S fuel =>
      match next_key data with
      | None => None
      | Some (key, value, rest) =>
          if (length searchKey =? length key)%nat && strncasecmp_eq key searchKey (length searchKey) then Some value else key_find fuel rest searchKey
      end
  end.

Definition text_key_find (data searchKey : list Z) : option (list Z) := key_find (S (length data)) data searchKey.

(** ** The response *)

(** [INCOMING_BUFSIZE]. *)
Definition INCOMING_BUFSIZE : nat := 8192.

Definition last_seg (segs : list (list Z)) : list Z := List.last segs [].
Definition append_last (segs : list (list Z)) (bytes : list Z) : list (list Z) := removelast segs ++ [last_seg segs ++ bytes].

(** The loop of [text_key_add]; [mem i]: allocation [i] works.  The number of
    allocations so far is returned too. *)
Fixpoint key_add (fuel : nat) (mem : nat -> bool) (allocs : nat) (data_sz : nat) (key value : list Z) (len off stage : nat) (segs : list (list Z)) : nat * list (list Z) :=
  match fuel with
  | O => (allocs, segs)
  | S fuel =>
      if (len =? 0)%nat then (allocs, segs)
      else
        let full := match segs with [] => true | _ => (length (last_seg segs) =? data_sz)%nat end in
        if full && negb (mem allocs) then (S allocs, [])
        else
          let '(allocs, segs) := if full then (S allocs, segs ++ [[]]) else (allocs, segs) in
          let room := (data_sz - length (last_seg segs))%nat in
          match stage with
          | 0%nat =>
              let sz := Nat.min room (length key - off) in
              let segs := append_last segs (take sz (drop off key)) in
              let '(off, stage) := if (sz =? room)%nat then (if (length key - (off + sz) =? 0)%nat then (0, 1)%nat else (off + sz, 0)%nat) else (0, 1)%nat in
              key_add fuel mem allocs data_sz key value (len - sz) off stage segs
          | 1%nat => key_add fuel mem allocs data_sz key value (len - 1) 0 2 (append_last segs [61])
          | 2%nat =>
              let sz := Nat.min room (length value - off) in
              let segs := append_last segs (take sz (drop off value)) in
              let '(off, stage) := if (length value - (off + sz) =? 0)%nat then (0, 3)%nat else (off + sz, 2)%nat in
              key_add fuel mem allocs data_sz key value (len - sz) off stage segs
          | _ => key_add fuel mem allocs data_sz key value (len - 1) off stage (append_last segs [0])
          end
  end.

Definition key_len (key value : list Z) : nat := length key + length value + 2.

Definition segs_add (mem : nat -> bool) (allocs : nat) (data_sz : nat) (segs : list (list Z)) (key value : list Z) : nat * list (list Z) :=
  key_add (key_len key value + 4) mem allocs data_sz key value (key_len key value) 0 0 segs.

(** ** Facts *)

Lemma split_at_char_spec c s a b : split_at_char c s = (a, Some b) -> s = a ++ c :: b /\ c ∉ a.
Proof.
  revert a b. induction s as [|x s IH]; intros a b; cbn; [done|]. destruct (Z.eqb_spec x c) as [->|Hx]; [intros [= <- <-]; split; [done|set_solver]|].
  destruct (split_at_char c s) as [a' b'] eqn:E. intros [= <- ->]. destruct (IH a' b eq_refl) as [-> Hn]. split; [done|]. rewrite not_elem_of_cons. auto.
Qed.

Lemma split_at_char_app c a b : c ∉ a -> split_at_char c (a ++ c :: b) = (a, Some b).
Proof. induction a as [|x a IH]; intros Hn; cbn; [by rewrite Z.eqb_refl|]. rewrite not_elem_of_cons in Hn. destruct (Z.eqb_spec x c); [subst; tauto|]. by rewrite IH by tauto. Qed.

Lemma next_key_spec data key value rest : next_key data = Some (key, value, rest) -> data = key ++ 61 :: value ++ 0 :: rest /\ 61 ∉ key /\ 0 ∉ value.
Proof.
  unfold next_key. destruct (split_at_char 61 data) as [k [after|]] eqn:E1; [|done]. destruct (split_at_char 0 after) as [v [r|]] eqn:E2; [|done]. intros [= -> -> ->].
  apply split_at_char_spec in E1 as [-> H1]. apply split_at_char_spec in E2 as [-> H2]. done.
Qed.

Lemma next_key_pair key value rest : 61 ∉ key -> 0 ∉ value -> next_key (key ++ 61 :: value ++ 0 :: rest) = Some (key, value, rest).
Proof. intros H1 H2. unfold next_key. rewrite split_at_char_app by done. by rewrite split_at_char_app by done. Qed.

Lemma next_key_shorter data key value rest : next_key data = Some (key, value, rest) -> (length rest < length data)%nat.
Proof. intros (-> & _)%next_key_spec. rewrite length_app. cbn. rewrite length_app. cbn. lia. Qed.

Lemma key_find_fuel f : forall g data k, (length data < f)%nat -> (length data < g)%nat -> key_find f data k = key_find g data k.
Proof.
  induction f as [|f IH]; intros g data k Hf Hg; [lia|]. destruct g as [|g]; [lia|]. cbn [key_find]. destruct (next_key data) as [[[k' v] r]|] eqn:E; [|done]. apply next_key_shorter in E.
  destruct (_ && _); [done|]. apply IH; lia.
Qed.

(** The search without fuel. *)
Lemma text_key_find_eq data k : text_key_find data k =
  match next_key data with
  | None => None
  | Some (key, value, rest) => if bool_decide (map tolower key = map tolower k) then Some value else text_key_find rest k
  end.
Proof.
  unfold text_key_find at 1. cbn [key_find]. destruct (next_key data) as [[[key v] r]|] eqn:E; [|done]. pose proof (next_key_shorter _ _ _ _ E).
  assert (Hc : (length k =? length key)%nat && strncasecmp_eq key k (length k) = bool_decide (map tolower key = map tolower k)).
  { unfold strncasecmp_eq. destruct (Nat.eqb_spec (length k) (length key)) as [El|El]; cbn [andb].
    - rewrite !take_ge by (rewrite length_map; lia). done.
    - symmetry. apply bool_decide_eq_false_2. intros Hm. apply (f_equal length) in Hm. rewrite !length_map in Hm. lia. }
  rewrite Hc. case_bool_decide; [done|]. apply key_find_fuel; lia.
Qed.

(** The value of the first pair of a list of pairs with a key. *)
Definition pair_bytes (kv : list Z * list Z) : list Z := fst kv ++ 61 :: snd kv ++ [0].

Definition pair_ok (kv : list Z * list Z) : Prop := 61 ∉ fst kv /\ 0 ∉ snd kv.

Fixpoint assoc_find (k : list Z) (kvs : list (list Z * list Z)) : option (list Z) :=
  match kvs with
  | [] => None
  | (key, v) :: kvs => if strcasecmp_eq key k then Some v else assoc_find k kvs
  end.

Lemma find_pairs kvs k : Forall pair_ok kvs -> text_key_find (concat (map pair_bytes kvs)) k = assoc_find k kvs.
Proof.
  induction kvs as [|[key v] kvs IH]; intros Hok; [done|]. apply Forall_cons in Hok as [[H1 H2] Hok]. cbn [map concat assoc_find fst snd] in *. rewrite text_key_find_eq. unfold pair_bytes at 1. cbn [fst snd].
  assert (E : (key ++ 61 :: v ++ [0]) ++ concat (map pair_bytes kvs) = key ++ 61 :: v ++ 0 :: concat (map pair_bytes kvs)) by (rewrite <- app_assoc; cbn; by rewrite <- app_assoc).
  rewrite E, next_key_pair by done. unfold strcasecmp_eq. by rewrite IH.
Qed.

(** ** Segments *)

(** Every segment but the last is full. *)
Definition chunked (n : nat) (segs : list (list Z)) : Prop := Forall (fun s => length s = n) (removelast segs) /\ (length (last_seg segs) <= n)%nat.

Lemma segs_last segs : segs <> [] -> segs = removelast segs ++ [last_seg segs].
Proof. intros H. by apply app_removelast_last. Qed.

Lemma concat_append_last segs b : segs <> [] -> concat (append_last segs b) = concat segs ++ b.
Proof. intros H. unfold append_last. rewrite (segs_last segs) at 3 by done. rewrite !concat_app. cbn. by rewrite !app_nil_r, app_assoc. Qed.

Lemma last_seg_app segs s : last_seg (segs ++ [s]) = s.
Proof. unfold last_seg. apply last_last. Qed.

Lemma append_last_ne segs b : append_last segs b <> [].
Proof. unfold append_last. by destruct (removelast segs). Qed.

Lemma chunked_append n segs b : chunked n segs -> (length (last_seg segs) + length b <= n)%nat -> chunked n (append_last segs b).
Proof. intros [H1 H2] Hl. unfold chunked, append_last. rewrite removelast_last, last_seg_app, length_app. by split; [|lia]. Qed.

Lemma chunked_new n segs : chunked n segs -> (match segs with [] => true | _ => (length (last_seg segs) =? n)%nat end) = true -> chunked n (segs ++ [[]]) /\ concat (segs ++ [[]]) = concat segs.
Proof.
  intros [H1 H2] Hf. rewrite concat_app. cbn. rewrite app_nil_r. split; [|done]. unfold chunked. rewrite removelast_last, last_seg_app. split; [|cbn; lia].
  destruct (decide (segs = [])) as [->|Hne]; [done|]. rewrite (segs_last segs Hne). apply Forall_app. split; [done|]. apply Forall_singleton. destruct segs; [done|]. lia.
Qed.

(** What remains to be written. *)
Definition remaining (key value : list Z) (off stage : nat) : list Z :=
  match stage with
  | 0%nat => drop off key ++ 61 :: value ++ [0]
  | 1%nat => 61 :: value ++ [0]
  | 2%nat => drop off value ++ [0]
  | _ => [0]
  end.

Lemma take_drop_skip (l : list Z) off sz : drop off l = take sz (drop off l) ++ drop (off + sz) l.
Proof. rewrite <- drop_drop. by rewrite take_drop. Qed.

Lemma key_add_spec mem n key value : (0 < n)%nat -> (forall i, mem i = true) -> forall fuel allocs len off stage segs,
  (stage <= 3)%nat -> len = length (remaining key value off stage) -> (len + (3 - stage) < fuel)%nat -> chunked n segs ->
  let r := key_add fuel mem allocs n key value len off stage segs in chunked n (snd r) /\ concat (snd r) = concat segs ++ remaining key value off stage.
Proof.
  intros Hn Hmem. induction fuel as [|fuel IH]; intros allocs len off stage segs Hst Hlen Hf Hc; [lia|]. cbn [key_add]. cbn zeta.
  assert (Hpos : (0 < len)%nat) by (rewrite Hlen; destruct stage as [|[|[|]]]; cbn; rewrite ?length_app; cbn; lia). replace (len =? 0)%nat with false by lia. rewrite Hmem. cbn [negb]. rewrite andb_false_r.
  set (full := match segs with [] => true | _ => (length (last_seg segs) =? n)%nat end). set (g := if full then (S allocs, segs ++ [[]]) else (allocs, segs)).
  assert (Hg : chunked n (snd g) /\ concat (snd g) = concat segs /\ snd g <> [] /\ (length (last_seg (snd g)) < n)%nat).
  { unfold g. destruct full eqn:Ef; cbn [snd].
    - destruct (chunked_new n segs Hc Ef) as [H1 H2]. split_and!; [done|done|by destruct segs|]. rewrite last_seg_app. cbn. lia.
    - destruct Hc as [H1 H2]. unfold full in Ef. destruct segs as [|s segs]; [done|]. split_and!; [done..|]. apply Nat.eqb_neq in Ef. lia. }
  clearbody g. clear full Hc. destruct g as [allocs1 segs1]. cbn [snd] in Hg. destruct Hg as (Hc & Hcc & Hne & Hr). set (room := (n - length (last_seg segs1))%nat).
  destruct stage as [|[|[|[|]]]]; try lia; cbn [remaining] in *.
  - set (sz := Nat.min room (length key - off)). assert (Hts : length (take sz (drop off key)) = sz) by (rewrite length_take, length_drop; lia).
    assert (Hl0 : (length (drop off key ++ 61%Z :: value ++ [0%Z]) = length key - off + (length value + 2))%nat) by (rewrite length_app; cbn; rewrite length_app, length_drop; cbn; lia).
    destruct (Nat.eqb_spec sz room) as [Es|Es]; [destruct (Nat.eqb_spec (length key - (off + sz)) 0) as [Eo|Eo]|].
    1,3: destruct (IH allocs1 (len - sz)%nat 0%nat 1%nat (append_last segs1 (take sz (drop off key)))) as [I1 I2];
      [lia | cbn [remaining length]; rewrite length_app; cbn [length]; lia | lia | apply chunked_append; [done|rewrite Hts; lia] |];
      split; [done|]; rewrite I2, concat_append_last, Hcc, <- app_assoc by done; do 2 f_equal; rewrite take_ge by (rewrite length_drop; lia); done.
    destruct (IH allocs1 (len - sz)%nat (off + sz)%nat 0%nat (append_last segs1 (take sz (drop off key)))) as [I1 I2];
      [lia | cbn [remaining]; rewrite length_app; cbn [length]; rewrite length_app, length_drop; cbn [length]; lia | lia | apply chunked_append; [done|rewrite Hts; lia] |].
    split; [done|]. rewrite I2, concat_append_last, Hcc, <- app_assoc by done. f_equal. cbn [remaining]. rewrite (take_drop_skip key off sz) at 2. by rewrite <- app_assoc.
  - destruct (IH allocs1 (len - 1)%nat 0%nat 2%nat (append_last segs1 [61])) as [I1 I2]; [lia | cbn [remaining]; rewrite drop_0; cbn [length] in Hlen; lia | lia | apply chunked_append; [done|cbn; lia] |].
    split; [done|]. by rewrite I2, concat_append_last, Hcc, <- app_assoc.
  - set (sz := Nat.min room (length value - off)). assert (Hts : length (take sz (drop off value)) = sz) by (rewrite length_take, length_drop; lia).
    rewrite length_app, length_drop in Hlen. cbn [length] in Hlen. destruct (Nat.eqb_spec (length value - (off + sz)) 0) as [Eo|Eo].
    + destruct (IH allocs1 (len - sz)%nat 0%nat 3%nat (append_last segs1 (take sz (drop off value)))) as [I1 I2]; [lia | cbn; lia | lia | apply chunked_append; [done|rewrite Hts; lia] |].
      split; [done|]. rewrite I2, concat_append_last, Hcc, <- app_assoc by done. do 2 f_equal. rewrite take_ge by (rewrite length_drop; lia). done.
    + destruct (IH allocs1 (len - sz)%nat (off + sz)%nat 2%nat (append_last segs1 (take sz (drop off value)))) as [I1 I2];
        [lia | cbn [remaining]; rewrite length_app, length_drop; cbn [length]; lia | lia | apply chunked_append; [done|rewrite Hts; lia] |].
      split; [done|]. rewrite I2, concat_append_last, Hcc, <- app_assoc by done. f_equal. cbn [remaining]. rewrite (take_drop_skip value off sz) at 2. by rewrite <- app_assoc.
  - cbn [length] in Hlen. subst len. destruct fuel as [|fuel]; [lia|]. cbn [key_add Nat.sub Nat.eqb snd]. split; [apply chunked_append; [done|cbn; lia]|]. by rewrite concat_append_last, Hcc.
Qed.

Lemma key_len_remaining key value : key_len key value = length (remaining key value 0 0).
Proof. unfold key_len. cbn [remaining]. rewrite drop_0, !length_app. cbn [length]. rewrite length_app. cbn [length]. lia. Qed.

(** A pair that the daemon adds to its response goes, whole and followed by its zero, behind what the response holds already: the segments of the response stay full but for the last one, and none is longer than the size that is given. *)
Theorem text_add_segments mem allocs n segs key value (Hn : (0 < n)%nat) (Hmem : forall i, mem i = true) (Hc : chunked n segs) :
  let segs' := snd (segs_add mem allocs n segs key value) in chunked n segs' /\ concat segs' = concat segs ++ pair_bytes (key, value).
Proof. apply key_add_spec; [done|done|lia|apply key_len_remaining|lia|done]. Qed.

Lemma text_add_segments_witness : let segs' := snd (segs_add (fun _ => true) 0 4 [[1; 2; 3]] (str "key") (str "value")) in chunked 4 segs' /\ concat segs' = [1; 2; 3] ++ pair_bytes (str "key", str "value").
Proof. apply (text_add_segments (fun _ => true) 0 4 [[1; 2; 3]]); [lia|done|]. split; [apply Forall_nil_2|cbn; lia]. Defined.

(** C24: what the daemon adds with [text_key_add] is what a peer that searches the same text finds: the value of the first pair whose name is the key, the case of letters ignored. *)
Theorem text_roundtrip mem n kvs k (Hn : (0 < n)%nat) (Hmem : forall i, mem i = true) (Hok : Forall pair_ok kvs) :
  let segs := foldl (fun s kv => snd (segs_add mem 0 n s (fst kv) (snd kv))) [] kvs in text_key_find (concat segs) k = assoc_find k kvs.
Proof.
  cbn zeta. rewrite <- find_pairs by done. f_equal.
  assert (H : forall l segs, chunked n segs -> concat (foldl (fun s kv => snd (segs_add mem 0 n s (fst kv) (snd kv))) segs l) = concat segs ++ concat (map pair_bytes l)).
  { induction l as [|[a b] l IH]; intros segs Hs; cbn [foldl map concat]; [by rewrite app_nil_r|].
    destruct (key_add_spec mem n a b Hn Hmem (key_len a b + 4) 0 (key_len a b) 0 0 segs) as [H1 H2]; [lia|apply key_len_remaining|lia|done|]. unfold segs_add at 2. cbn [fst snd]. rewrite IH by done. rewrite H2. by rewrite <- app_assoc. }
  rewrite H; [done|]. split; [apply Forall_nil_2|cbn; lia].
Qed.

Lemma text_roundtrip_witness : text_key_find (concat (foldl (fun s kv => snd (segs_add (fun _ => true) 0 8 s (fst kv) (snd kv))) [] [(str "AuthMethod", str "CHAP"); (str "CHAP_A", str "5,7")])) (str "chap_a") = Some (str "5,7").
Proof.
  apply (text_roundtrip (fun _ => true) 8 [(str "AuthMethod", str "CHAP"); (str "CHAP_A", str "5,7")] (str "chap_a")); [lia|done|].
  repeat (apply Forall_cons; split; [split; cbn; set_solver by lia|]). by apply Forall_nil.
Defined.
