(* ===== verification/IscsiParam.v ===== *)
(** * The parameters of iSCSI sessions

    Models [cg/iscsi-scst/usr/param.c] and [init_max_params] of [iscsi_scstd.c]: the
    tables of keys and, for each kind of key, how a value is parsed, checked, combined
    with the value of the target and printed.  Values are 32-bit. *)

From S2P Require Import Prelude CStr.

Inductive iscsi_key_ops : Set := minimum_ops | maximum_ops | or_ops | and_ops | digest_ops | marker_ops.

Record iscsi_key : Type := mkKey { k_name : list Z; rfc_def : Z; local_def : Z; k_min : Z; k_max : Z; show_in_sysfs : bool; ops : iscsi_key_ops }.

Record iscsi_param : Type := mkParam { key_state : Z; val : Z }.

#[export] Instance set_key_state : Setter key_state := fun v p => mkParam v (val p).
#[export] Instance set_val : Setter val := fun v p => mkParam (key_state p) v.

Definition KEY_STATE_START : Z := 0.
Definition KEY_STATE_REQUEST : Z := 1.
Definition KEY_STATE_DONE_ADDED : Z := 2.
Definition KEY_STATE_DONE : Z := 3.

Definition DIGEST_NONE : Z := 1.
Definition DIGEST_CRC32C : Z := 2.
Definition DIGEST_ALL : Z := 3.

(** Indices of [session_keys]. *)
Definition key_max_recv_data_length : nat := 3.
Definition key_max_xmit_data_length : nat := 4.
Definition key_max_burst_length : nat := 5.
Definition key_first_burst_length : nat := 6.
Definition key_ofmarker : nat := 15.
Definition key_ifmarker : nat := 16.
Definition key_ofmarkint : nat := 17.
Definition key_ifmarkint : nat := 18.
Definition session_key_last : nat := 19.
Definition key_max_sessions : nat := 4.

Definition iscsi_is_key_internal (key : nat) : bool := (key =? key_max_xmit_data_length)%nat.

(** The table as it is written; [-1] is the largest number. *)
Definition UINT_MAX : Z := 4294967295.

Definition session_keys_init : list iscsi_key :=
  [ mkKey (str "InitialR2T") 1 0 0 1 true or_ops;
    mkKey (str "ImmediateData") 1 1 0 1 true and_ops;
    mkKey (str "MaxConnections") 1 1 1 1 false minimum_ops;
    mkKey (str "MaxRecvDataSegmentLength") 8192 UINT_MAX 512 UINT_MAX true minimum_ops;
    mkKey (str "MaxXmitDataSegmentLength") 8192 UINT_MAX 512 UINT_MAX true minimum_ops;
    mkKey (str "MaxBurstLength") 262144 UINT_MAX 512 UINT_MAX true minimum_ops;
    mkKey (str "FirstBurstLength") 65536 65536 512 UINT_MAX true minimum_ops;
    mkKey (str "DefaultTime2Wait") 2 0 0 0 false maximum_ops;
    mkKey (str "DefaultTime2Retain") 20 0 0 0 false minimum_ops;
    mkKey (str "MaxOutstandingR2T") 1 32 1 65535 true minimum_ops;
    mkKey (str "DataPDUInOrder") 1 0 0 1 false or_ops;
    mkKey (str "DataSequenceInOrder") 1 0 0 1 false or_ops;
    mkKey (str "ErrorRecoveryLevel") 0 0 0 0 false minimum_ops;
    mkKey (str "HeaderDigest") DIGEST_NONE DIGEST_NONE DIGEST_NONE DIGEST_ALL true digest_ops;
    mkKey (str "DataDigest") DIGEST_NONE DIGEST_NONE DIGEST_NONE DIGEST_ALL true digest_ops;
    mkKey (str "OFMarker") 0 0 0 0 false and_ops;
    mkKey (str "IFMarker") 0 0 0 0 false and_ops;
    mkKey (str "OFMarkInt") 2048 2048 1 65535 false marker_ops;
    mkKey (str "IFMarkInt") 2048 2048 1 65535 false marker_ops ].

Definition target_keys_init : list iscsi_key :=
  [ mkKey (str "QueuedCommands") 32 32 1 2048 true minimum_ops;
    mkKey (str "RspTimeout") 90 90 2 65535 true minimum_ops;
    mkKey (str "NopInInterval") 30 30 0 65535 true minimum_ops;
    mkKey (str "NopInTimeout") 30 30 2 65535 true minimum_ops;
    mkKey (str "MaxSessions") 0 0 0 65535 true minimum_ops ].

(** [init_max_params]: the limits that the kernel module reported. *)
Definition limit (local_def max : Z) (k : iscsi_key) : iscsi_key := mkKey (k_name k) (rfc_def k) local_def (k_min k) max (show_in_sysfs k) (ops k).

Definition init_session_keys (max_data_seg_len : Z) : list iscsi_key :=
  let up i f (l : list iscsi_key) := alter f i l in
  let both := limit max_data_seg_len max_data_seg_len in
  up key_first_burst_length (fun k => limit (Z.min (local_def k) max_data_seg_len) max_data_seg_len k)
    (up key_max_burst_length both (up key_max_xmit_data_length both (up key_max_recv_data_length both session_keys_init))).

(** ** Operations of a key *)

Fixpoint index_by_name (i : nat) (name : list Z) (keys : list iscsi_key) : option nat :=
  match keys with
  | [] => None
  | k :: keys => if strcasecmp_eq (k_name k) name then Some i else index_by_name (S i) name keys
  end.

Definition params_index_by_name (name : list Z) (keys : list iscsi_key) : option nat := index_by_name 0 name keys.

Definition params_set_defaults (keys : list iscsi_key) : list Z := map local_def keys.

Definition range_str_to_val (s : list Z) : Z := u32 (strtol s 0).

Definition bool_str_to_val (s : list Z) : option Z := if strcmp_eq s (str "Yes") then Some 1 else if strcmp_eq s (str "No") then Some 0 else None.

(** The part after the first comma. *)
Definition after_comma (s : list Z) : option (list Z) := snd (split_at_char 44 s).

Fixpoint digest_loop (fuel : nat) (p : list Z) (v : Z) : option Z :=
  match fuel with
  | O => None
  | S fuel =>
      let p := skip_spaces p in
      let v := if strncasecmp_eq p (str "None") 4 then Some (Z.lor v DIGEST_NONE) else if strncasecmp_eq p (str "CRC32C") 6 then Some (Z.lor v DIGEST_CRC32C) else None in
      match v with
      | None => None
      | Some v => match after_comma p with Some q => digest_loop fuel q v | None => Some v end
      end
  end.

Definition digest_str_to_val (s : list Z) : option Z :=
  v ← digest_loop (S (length s)) s 0; Some (if v =? 0 then DIGEST_NONE else v).

(** A marker has no such operation: the value is what the variable holds, which
    [marker_set_val] does not use. *)
Definition params_str_to_val (k : iscsi_key) (s : list Z) (junk : Z) : option Z :=
  match ops k with
  | minimum_ops | maximum_ops => Some (range_str_to_val s)
  | or_ops | and_ops => bool_str_to_val s
  | digest_ops => digest_str_to_val s
  | marker_ops => Some junk
  end.

Definition num_check_val (k : iscsi_key) (v : Z) : Z := if v <? k_min k then k_min k else if k_max k <? v then k_max k else v.

Definition params_check_val (k : iscsi_key) (v : Z) : Z :=
  match ops k with minimum_ops | maximum_ops => num_check_val k v | _ => v end.

Definition param_at (ps : list iscsi_param) (i : nat) : iscsi_param := nth i ps (mkParam 0 0).

(** The value that is kept for key [i], of the value [v] that was offered. *)
Definition set_val_of (o : iscsi_key_ops) (ps : list iscsi_param) (i : nat) (v : Z) : Z :=
  let old := val (param_at ps i) in
  match o with
  | minimum_ops => if old <? v then old else v
  | maximum_ops => if v <? old then old else v
  | or_ops => Z.lor v old
  | and_ops => Z.land v old
  | digest_ops => if tst v DIGEST_CRC32C && tst old DIGEST_CRC32C then DIGEST_CRC32C else DIGEST_NONE
  | marker_ops =>
      if ((i =? key_ofmarkint)%nat && (key_state (param_at ps key_ofmarker) =? KEY_STATE_DONE)) ||
         ((i =? key_ifmarkint)%nat && (key_state (param_at ps key_ifmarker) =? KEY_STATE_DONE)) then 0 else 1
  end.

Definition params_set_val (k : iscsi_key) (ps : list iscsi_param) (i : nat) (v : Z) : list iscsi_param * Z :=
  let v := set_val_of (ops k) ps i v in (alter (fun p => p <|val := v|>) i ps, v).

Definition digest_val_to_str (v : Z) : list Z :=
  if tst v DIGEST_NONE then str "None" ++ (if tst v DIGEST_CRC32C then str ",CRC32C" else [])
  else if tst v DIGEST_CRC32C then str "CRC32C" else str "Unknown".

Definition params_val_to_str (k : iscsi_key) (v : Z) : list Z :=
  match ops k with
  | minimum_ops | maximum_ops => print_u v
  | or_ops | and_ops => if v =? 0 then str "No" else if v =? 1 then str "Yes" else []
  | digest_ops => digest_val_to_str v
  | marker_ops => if v =? 0 then str "Irrelevant" else str "Reject"
  end.
