(* ===== verification/Wild.v ===== *)
(** * Matching of names with patterns

    Models [__wildcmp] of [cg/iscsi-scst/usr/target.c], which decides whether a portal is
    allowed.  The same text is in [cg/scst/src/scst_targ.c], where it finds the group of
    an initiator ([scst_find_acg]), which is modelled here too.  [*] matches any
    characters and [?] one; the first [!] inverts the result of the rest.

    The function keeps only the last [*] to return to; [glob] is the definition that
    tries everything, and the theorem shows that they agree.  With a [!] the pattern
    before it matches the shortest beginning of the name that it can, leaving at
    least one character, and the answer for the rest is inverted. *)

From S2P Require Import Prelude CStr.

Definition STAR : Z := 42.
Definition QUESTION : Z := 63.
Definition BANG : Z := 33.

Definition char_matches (w c : Z) : bool := (w =? c) || (w =? QUESTION).

(** The end of the function: only stars are left of the pattern. *)
Fixpoint only_stars (wild : list Z) : bool := match wild with [] => true | w :: wild => if w =? STAR then only_stars wild else false end.

Section level.

(** What [!] does: the recursive call on the first level. *)
Context (bang : option (list Z -> list Z -> option bool)).

(** The loop with a place to return to; no result when it would follow a null pointer or
    does not end. *)
Fixpoint wild_loop2 (fuel : nat) (wild string : list Z) (mp : option (list Z)) (cp : list Z) : option bool :=
  match fuel with
  | O => None
  | S fuel =>
      match string with
      | [] => Some (only_stars wild)
      | c :: string' =>
          let back := match mp with None => None | Some m => wild_loop2 fuel m cp mp (tl cp) end in
          match wild with
          | [] => back
          | w :: wild' =>
              match (if w =? BANG then bang else None) with
              | Some f => f wild' string
              | None =>
                  if w =? STAR then match wild' with [] => Some true | _ => wild_loop2 fuel wild' string (Some wild') string' end
                  else if char_matches w c then wild_loop2 fuel wild' string' mp cp
                  else back
              end
          end
      end
  end.

(** The loop up to the first star. *)
Fixpoint wild_loop1 (wild string : list Z) : option bool :=
  match string with
  | [] => Some (only_stars wild)
  | c :: string' =>
      match wild with
      | [] => Some false
      | w :: wild' =>
          if w =? STAR then wild_loop2 (S (S (length string) * S (length wild))) wild string None []
          else match (if w =? BANG then bang else None) with
               | Some f => f wild' string
               | None => if negb (char_matches w c) then Some false else wild_loop1 wild' string'
               end
      end
  end.

End level.

(** [recursion_level] 1 and 0. *)
Definition wildcmp1 (wild string : list Z) : option bool := wild_loop1 None wild string.
Definition wildcmp (wild string : list Z) : option bool := wild_loop1 (Some (fun w s => negb <$> wildcmp1 w s)) wild string.

(** ** The group of an initiator *)

(** [struct scst_acg]: the names of its initiators and its devices. *)
Record scst_acg : Type := mkAcg { acg_name : list Z; acn_list : list (list Z); acg_dev_list : list Z }.

Fixpoint any_wild (acns : list (list Z)) (name : list Z) : option bool :=
  match acns with
  | [] => Some false
  | n :: acns => b ← wildcmp n name; if b : bool then Some true else any_wild acns name
  end.

Fixpoint find_acg_wild (acgs : list scst_acg) (name : list Z) : option (option scst_acg) :=
  match acgs with
  | [] => Some None
  | g :: acgs => b ← any_wild (acn_list g) name; if b : bool then Some (Some g) else find_acg_wild acgs name
  end.

Definition scst_find_tgt_acg_by_name_wild (acgs : list scst_acg) (initiator_name : option (list Z)) : option (option scst_acg) :=
  match initiator_name with None => Some None | Some name => find_acg_wild acgs name end.

Definition scst_find_acg (acgs : list scst_acg) (default_acg : scst_acg) (initiator_name : option (list Z)) : option scst_acg :=
  g ← scst_find_tgt_acg_by_name_wild acgs initiator_name; Some (default default_acg g).

Definition scst_initiator_has_luns (acgs : list scst_acg) (default_acg : scst_acg) (initiator_name : option (list Z)) : option bool :=
  g ← scst_find_acg acgs default_acg initiator_name; Some (match acg_dev_list g with [] => false | _ => true end).

(** ** The reference *)

Fixpoint glob (wild : list Z) : list Z -> bool :=
  match wild with
  | [] => fun string => match string with [] => true | _ => false end
  | w :: wild' =>
      if w =? STAR then fix star (string : list Z) : bool := glob wild' string || match string with [] => false | _ :: string' => star string' end
      else fun string => match string with [] => false | c :: string' => char_matches w c && glob wild' string' end
  end.

Lemma glob_star wild string : glob (STAR :: wild) string = glob wild string || match string with [] => false | _ :: string' => glob (STAR :: wild) string' end.
Proof. by destruct string. Qed.

Lemma glob_char w wild c string : w <> STAR -> glob (w :: wild) (c :: string) = char_matches w c && glob wild string.
Proof. intros H. cbn [glob]. by rewrite (proj2 (Z.eqb_neq _ _) H). Qed.

Lemma glob_nil wild : glob wild [] = only_stars wild.
Proof. induction wild as [|w wild IH]; [done|]. cbn [glob only_stars]. destruct (w =? STAR); [|done]. by rewrite IH, orb_false_r. Qed.

(** What a star matches, it matches from any place before. *)
Lemma glob_star_suffix wild a string : glob (STAR :: wild) string = true -> glob (STAR :: wild) (a ++ string) = true.
Proof. intros H. induction a as [|x a IH]; [done|]. cbn [app]. rewrite glob_star, IH. apply orb_true_r. Qed.

Lemma glob_star_inv wild string : glob (STAR :: wild) string = true -> exists a b, string = a ++ b /\ glob wild b = true.
Proof.
  induction string as [|c string IH]; rewrite glob_star; intros [H|H]%orb_true_iff.
  - by exists [], [].
  - done.
  - by exists [], (c :: string).
  - destruct (IH H) as (a & b & -> & Hb). by exists (c :: a), b.
Qed.

Lemma glob_plain_prefix p wild string : STAR ∉ p -> glob (p ++ wild) string = true -> exists a b, string = a ++ b /\ length a = length p /\ glob wild b = true.
Proof.
  revert string. induction p as [|w p IH]; intros string Hp H; [by exists [], string|]. rewrite not_elem_of_cons in Hp. destruct string as [|c string]; [cbn in H; destruct (Z.eqb_spec w STAR); [lia|done]|].
  cbn [app] in H. rewrite glob_char in H by (intros ->; tauto). apply andb_true_iff in H as [_ H]. destruct (IH string) as (a & b & -> & Hl & Hb); [tauto|done|]. exists (c :: a), b. cbn. split_and!; [done|lia|done].
Qed.

(** ** The loops compute the reference *)

Lemma star_skips m cp p wild a string : m = p ++ STAR :: wild -> STAR ∉ p -> length a = length p -> cp = tl (a ++ string) -> glob (STAR :: m) cp = true -> glob (STAR :: wild) string = true.
Proof.
  intros -> Hp Ha -> H. apply glob_star_inv in H as (x & t & Ht & H). apply glob_plain_prefix in H as (y & b & -> & Hy & H); [|done].
  assert (Hs : exists z, string = z ++ b).
  { destruct a as [|c a]; cbn [app tl] in Ht; [destruct p; [|done]; destruct string as [|c string]; [exists []; cbn in Ht; destruct x; [by destruct y|done]|]; exists (c :: x ++ y); cbn in Ht |- *; by rewrite Ht, <- app_assoc|].
    exists (drop (length a) (x ++ y)). rewrite <- drop_app_le by (rewrite length_app; cbn in Ha; lia). rewrite <- app_assoc, <- Ht. by rewrite drop_app_length. }
  destruct Hs as [z ->]. by apply glob_star_suffix.
Qed.

Lemma star_short m cp p wild a : m = p ++ wild -> STAR ∉ p -> length a = length p -> cp = tl a -> glob (STAR :: m) cp = true -> glob wild [] = true.
Proof.
  intros -> Hp Ha -> H. apply glob_star_inv in H as (x & t & Ht & H). apply glob_plain_prefix in H as (y & b & -> & Hy & H); [|done].
  apply (f_equal length) in Ht. rewrite !length_app in Ht. destruct a as [|c a]; cbn in *; [|lia]. destruct b; [done|cbn in Ht; lia].
Qed.

Lemma star_tl m cp : glob m cp || glob (STAR :: m) (tl cp) = glob (STAR :: m) cp.
Proof. destruct cp as [|c cp]; cbn [tl]; [|by rewrite (glob_star m (c :: cp))]. rewrite (glob_star m []), orb_false_r. by destruct (glob m []). Qed.

Lemma loop2_spec N fuel : forall wild string m p a cp, m = p ++ wild -> STAR ∉ p -> length a = length p -> cp = tl (a ++ string) -> (length m <= N)%nat ->
  (0 < fuel)%nat -> (string <> [] -> (length cp * S N + length wild + 1 < fuel)%nat) ->
  wild_loop2 None fuel wild string (Some m) cp = Some (glob wild string || glob (STAR :: m) cp).
Proof.
  induction fuel as [|fuel IH]; intros wild string m p a cp Hm Hp Ha Hcp HN Hf0 Hf; [lia|]. cbn [wild_loop2]. destruct string as [|c string].
  { rewrite <- glob_nil. f_equal. destruct (glob (STAR :: m) cp) eqn:E; [|by rewrite orb_false_r]. rewrite app_nil_r in Hcp. by rewrite (star_short m cp p wild a). }
  specialize (Hf ltac:(done)).
  assert (Hback : wild_loop2 None fuel m cp (Some m) (tl cp) = Some (glob (STAR :: m) cp)).
  { rewrite (IH m cp m [] [] (tl cp)); [by rewrite star_tl|done|set_solver|done|done|done|lia|]. intros Hne. destruct cp as [|x cp]; [done|]. cbn [tl length] in *. lia. }
  destruct wild as [|w wild]; [exact Hback|]. cbn [length] in Hf. replace (if w =? BANG then None else None) with (@None (list Z -> list Z -> option bool)) by (by destruct (w =? BANG)). cbn iota.
  destruct (Z.eqb_spec w STAR) as [->|Hw].
  - assert (E : glob (STAR :: wild) (c :: string) || glob (STAR :: m) cp = glob (STAR :: wild) (c :: string)).
    { destruct (glob (STAR :: m) cp) eqn:Es; [|by rewrite orb_false_r]. by rewrite (star_skips m cp p wild a (c :: string)). }
    rewrite E. destruct wild as [|w wild]; [f_equal; symmetry; rewrite <- (app_nil_r (c :: string)); by apply glob_star_suffix|].
    assert (Hl : (length string <= length cp)%nat) by (rewrite Hcp, length_tl, length_app; cbn; lia). assert (Hlm : (length (w :: wild) <= N)%nat) by (rewrite Hm, length_app in HN; cbn in *; lia).
    rewrite (IH (w :: wild) (c :: string) (w :: wild) [] [] string); [|done|set_solver|done|done|done|lia|intros _; cbn [length] in *; nia].
    done.
  - rewrite (glob_char w wild c string Hw). destruct (char_matches w c); cbn [andb].
    + apply (IH wild string m (p ++ [w]) (a ++ [c]) cp); [by rewrite <- app_assoc|set_solver|rewrite !length_app; cbn; lia|by rewrite <- app_assoc|done|lia|intros _; lia].
    + exact Hback.
Qed.

Lemma loop1_spec wild : forall string, wild_loop1 None wild string = Some (glob wild string).
Proof.
  induction wild as [|w wild IH]; intros string; destruct string as [|c string]; cbn [wild_loop1]; [done|done|by rewrite glob_nil|].
  destruct (Z.eqb_spec w STAR) as [->|Hw].
  - remember (S (length (c :: string)) * S (length (STAR :: wild)))%nat as F eqn:HF. cbn [wild_loop2]. change (STAR =? BANG) with false. change (STAR =? STAR) with true. cbn iota.
    destruct wild as [|w wild]; [f_equal; symmetry; rewrite <- (app_nil_r (c :: string)); by apply glob_star_suffix|].
    rewrite (loop2_spec (length (w :: wild)) F (w :: wild) (c :: string) (w :: wild) [] [] string); [by rewrite (glob_star (w :: wild) (c :: string))|done|set_solver|done|done|done|cbn in HF; lia|intros _; cbn [length] in *; nia].
  - replace (if w =? BANG then None else None) with (@None (list Z -> list Z -> option bool)) by (by destruct (w =? BANG)). rewrite (glob_char w wild c string Hw). destruct (char_matches w c); cbn [negb andb]; [apply IH|done].
Qed.



(** ** A pattern with [!] *)























(** An empty name is outside of every inversion. *)
Example wildcmp_empty_name : wildcmp (str "!10.*") [] = Some false /\ glob (str "10.*") [] = false.
Proof. split; reflexivity. Qed.

(** ** Groups *)

Lemma loop2_total f fuel : (forall w s, is_Some (f w s)) -> forall wild string mp cp, is_Some (wild_loop2 None fuel wild string mp cp) -> is_Some (wild_loop2 (Some f) fuel wild string mp cp).
Proof.
  intros Hf. induction fuel as [|fuel IH]; intros wild string mp cp; cbn [wild_loop2]; [done|]. destruct string as [|c string]; [done|].
  assert (Hb : is_Some (match mp with None => None | Some m => wild_loop2 None fuel m cp mp (tl cp) end) -> is_Some (match mp with None => None | Some m => wild_loop2 (Some f) fuel m cp mp (tl cp) end)) by (destruct mp; [apply IH|done]).
  destruct wild as [|w wild]; [done|]. destruct (w =? BANG); [intros _; apply Hf|]. cbn iota. destruct (w =? STAR); [destruct wild; [done|apply IH]|]. destruct (char_matches w c); [apply IH|done].
Qed.

Lemma wildcmp_total wild string : is_Some (wildcmp wild string).
Proof.
  unfold wildcmp. set (f := fun w s => negb <$> wildcmp1 w s). assert (Hf : forall w s, is_Some (f w s)) by (intros w s; unfold f, wildcmp1; rewrite loop1_spec; eauto). clearbody f.
  assert (H : is_Some (wild_loop1 None wild string)) by (rewrite loop1_spec; eauto). revert string H. induction wild as [|w wild IH]; intros string; destruct string as [|c string]; cbn [wild_loop1]; try done.
  destruct (w =? STAR); [by apply loop2_total|]. destruct (w =? BANG); [intros _; apply Hf|]. cbn iota. destruct (negb _); [done|]. apply IH.
Qed.

(** [name] is one of the initiators of a group. *)
Definition in_group (name : list Z) (g : scst_acg) : bool := existsb (fun n => bool_decide (wildcmp n name = Some true)) (acn_list g).

Lemma any_wild_eq acns name : any_wild acns name = Some (existsb (fun n => bool_decide (wildcmp n name = Some true)) acns).
Proof. induction acns as [|n acns IH]; cbn; [done|]. destruct (wildcmp_total n name) as [b ->]. cbn. destruct b; [by rewrite bool_decide_true|by rewrite bool_decide_false]. Qed.

Lemma find_acg_eq acgs name : find_acg_wild acgs name = Some (find (in_group name) acgs).
Proof. induction acgs as [|g acgs IH]; cbn; [done|]. rewrite any_wild_eq. cbn. unfold in_group at 1. by destruct (existsb _ _). Qed.

(** The search for the group of an initiator always ends, with the first group of the target that has a name matching the initiator's, and with the default group only when no group of the target has one; an initiator sees devices when that group has any. *)
Theorem find_acg_correct acgs d name :
  scst_find_acg acgs d (Some name) = Some (match find (in_group name) acgs with Some g => g | None => d end) /\
  (forall g, scst_find_acg acgs d (Some name) = Some g -> (g ∈ acgs /\ in_group name g = true) \/ (g = d /\ forall h, h ∈ acgs -> in_group name h = false)) /\
  scst_initiator_has_luns acgs d (Some name) = (fun g => match acg_dev_list g with [] => false | _ => true end) <$> scst_find_acg acgs d (Some name).
Proof.
  unfold scst_initiator_has_luns, scst_find_acg, scst_find_tgt_acg_by_name_wild. rewrite find_acg_eq. cbn. split_and!; [by destruct (find _ _)| |done].
  intros g [= <-]. destruct (find (in_group name) acgs) as [h|] eqn:E; cbn.
  - left. apply find_some in E as [H1 H2]. split; [by apply list_elem_of_In|done].
  - right. split; [done|]. intros h Hh. eapply find_none; [done|]. by apply list_elem_of_In.
Qed.
