(* ===== verification/IscsiConn.v ===== *)
(** * Connections, sessions and targets of the iSCSI daemon

    Models the data of [cg/iscsi-scst/usr/iscsid.h] and the functions of [session.c],
    [conn.c], [target.c] and [config.c] that look targets, sessions and accounts up.

    A connection is the record of its fields; a session names its connections by their
    identity and their CID, a connection its session by the identity of the session.
    The kernel module, the network and the memory allocator are the record [env]. *)

From S2P Require Import Prelude CStr IscsiText IscsiParam Wild.

(** ** What the daemon gets from outside *)

(** A listening socket: its address, or the addresses of the interfaces when it has none
    of its own; only those of the family of the connection. *)
Inductive listen_sock : Type := Addr (a : list Z) | AnyAddr (ifaddrs : list (list Z)).

Record env : Type := mkEnv {
  mem : nat -> bool;                            (* allocation [i] of a connection works *)
  heap : nat -> nat -> Z;                       (* byte [j] of allocation [i] before it is written *)
  rand : nat -> Z;                              (* [chap_rand], an [int] *)
  access_allowed : Z -> bool;                   (* [config_initiator_access_allowed] of a target *)
  kernel_initiator_allowed : Z -> list Z -> Z;  (* the ioctl of the same name *)
  sock_addr : option (list Z);                  (* the local address of the socket, printed *)
  sock_inet6 : option bool;                     (* its family, when [getsockname] works *)
  listening : list listen_sock;
  is_addr_loopback : list Z -> bool;
  server_port : Z;
  add_session : Z;                              (* result of the ioctl [ADD_SESSION] *)
  add_conn : Z                                  (* result of the ioctl [ADD_CONN] *)
}.

(** ** Data *)

(** [union iscsi_sid]: equal as 64-bit numbers when both parts are. *)
Record iscsi_sid : Type := mkSid {
  isid : list Z;
  tsih : Z
}.

#[export] Instance set_isid : Setter isid := fun v r => mkSid v (tsih r).
#[export] Instance set_tsih : Setter tsih := fun v r => mkSid (isid r) v.

#[export] Instance iscsi_sid_eq_dec : EqDecision iscsi_sid.
Proof. solve_decision. Defined.

(** [struct iscsi_attr]: a user and its secret, which can be missing. *)
Record iscsi_attr : Type := mkAttr { attr_key : list Z; attr_value : option (list Z) }.

Record session : Type := mkSess {
  s_id : nat;
  s_initiator : list Z;
  s_sid : iscsi_sid;
  conn_list : list (nat * Z)
}.

#[export] Instance set_s_id : Setter s_id := fun v r => mkSess v (s_initiator r) (s_sid r) (conn_list r).
#[export] Instance set_s_initiator : Setter s_initiator := fun v r => mkSess (s_id r) v (s_sid r) (conn_list r).
#[export] Instance set_s_sid : Setter s_sid := fun v r => mkSess (s_id r) (s_initiator r) v (conn_list r).
#[export] Instance set_conn_list : Setter conn_list := fun v r => mkSess (s_id r) (s_initiator r) (s_sid r) v.

Record target : Type := mkTarget {
  t_tid : Z;
  t_name : list Z;
  tgt_enabled : bool;
  per_portal_acl : bool;
  target_params : list Z;
  t_session_params : list Z;
  sessions_list : list session;
  sessions_count : Z;
  redirect_addr : list Z;
  redirect_port : Z;
  redirect_type : Z;
  target_in_accounts : list iscsi_attr;
  target_out_accounts : list iscsi_attr;
  allowed_portals : list (list Z);
  isns_head : list (list Z)
}.

#[export] Instance set_t_tid : Setter t_tid := fun v r => mkTarget v (t_name r) (tgt_enabled r) (per_portal_acl r) (target_params r) (t_session_params r) (sessions_list r) (sessions_count r) (redirect_addr r) (redirect_port r) (redirect_type r) (target_in_accounts r) (target_out_accounts r) (allowed_portals r) (isns_head r).
#[export] Instance set_t_name : Setter t_name := fun v r => mkTarget (t_tid r) v (tgt_enabled r) (per_portal_acl r) (target_params r) (t_session_params r) (sessions_list r) (sessions_count r) (redirect_addr r) (redirect_port r) (redirect_type r) (target_in_accounts r) (target_out_accounts r) (allowed_portals r) (isns_head r).
#[export] Instance set_tgt_enabled : Setter tgt_enabled := fun v r => mkTarget (t_tid r) (t_name r) v (per_portal_acl r) (target_params r) (t_session_params r) (sessions_list r) (sessions_count r) (redirect_addr r) (redirect_port r) (redirect_type r) (target_in_accounts r) (target_out_accounts r) (allowed_portals r) (isns_head r).
#[export] Instance set_per_portal_acl : Setter per_portal_acl := fun v r => mkTarget (t_tid r) (t_name r) (tgt_enabled r) v (target_params r) (t_session_params r) (sessions_list r) (sessions_count r) (redirect_addr r) (redirect_port r) (redirect_type r) (target_in_accounts r) (target_out_accounts r) (allowed_portals r) (isns_head r).
#[export] Instance set_target_params : Setter target_params := fun v r => mkTarget (t_tid r) (t_name r) (tgt_enabled r) (per_portal_acl r) v (t_session_params r) (sessions_list r) (sessions_count r) (redirect_addr r) (redirect_port r) (redirect_type r) (target_in_accounts r) (target_out_accounts r) (allowed_portals r) (isns_head r).
#[export] Instance set_t_session_params : Setter t_session_params := fun v r => mkTarget (t_tid r) (t_name r) (tgt_enabled r) (per_portal_acl r) (target_params r) v (sessions_list r) (sessions_count r) (redirect_addr r) (redirect_port r) (redirect_type r) (target_in_accounts r) (target_out_accounts r) (allowed_portals r) (isns_head r).
#[export] Instance set_sessions_list : Setter sessions_list := fun v r => mkTarget (t_tid r) (t_name r) (tgt_enabled r) (per_portal_acl r) (target_params r) (t_session_params r) v (sessions_count r) (redirect_addr r) (redirect_port r) (redirect_type r) (target_in_accounts r) (target_out_accounts r) (allowed_portals r) (isns_head r).
#[export] Instance set_sessions_count : Setter sessions_count := fun v r => mkTarget (t_tid r) (t_name r) (tgt_enabled r) (per_portal_acl r) (target_params r) (t_session_params r) (sessions_list r) v (redirect_addr r) (redirect_port r) (redirect_type r) (target_in_accounts r) (target_out_accounts r) (allowed_portals r) (isns_head r).
#[export] Instance set_redirect_addr : Setter redirect_addr := fun v r => mkTarget (t_tid r) (t_name r) (tgt_enabled r) (per_portal_acl r) (target_params r) (t_session_params r) (sessions_list r) (sessions_count r) v (redirect_port r) (redirect_type r) (target_in_accounts r) (target_out_accounts r) (allowed_portals r) (isns_head r).
#[export] Instance set_redirect_port : Setter redirect_port := fun v r => mkTarget (t_tid r) (t_name r) (tgt_enabled r) (per_portal_acl r) (target_params r) (t_session_params r) (sessions_list r) (sessions_count r) (redirect_addr r) v (redirect_type r) (target_in_accounts r) (target_out_accounts r) (allowed_portals r) (isns_head r).
#[export] Instance set_redirect_type : Setter redirect_type := fun v r => mkTarget (t_tid r) (t_name r) (tgt_enabled r) (per_portal_acl r) (target_params r) (t_session_params r) (sessions_list r) (sessions_count r) (redirect_addr r) (redirect_port r) v (target_in_accounts r) (target_out_accounts r) (allowed_portals r) (isns_head r).
#[export] Instance set_target_in_accounts : Setter target_in_accounts := fun v r => mkTarget (t_tid r) (t_name r) (tgt_enabled r) (per_portal_acl r) (target_params r) (t_session_params r) (sessions_list r) (sessions_count r) (redirect_addr r) (redirect_port r) (redirect_type r) v (target_out_accounts r) (allowed_portals r) (isns_head r).
#[export] Instance set_target_out_accounts : Setter target_out_accounts := fun v r => mkTarget (t_tid r) (t_name r) (tgt_enabled r) (per_portal_acl r) (target_params r) (t_session_params r) (sessions_list r) (sessions_count r) (redirect_addr r) (redirect_port r) (redirect_type r) (target_in_accounts r) v (allowed_portals r) (isns_head r).
#[export] Instance set_allowed_portals : Setter allowed_portals := fun v r => mkTarget (t_tid r) (t_name r) (tgt_enabled r) (per_portal_acl r) (target_params r) (t_session_params r) (sessions_list r) (sessions_count r) (redirect_addr r) (redirect_port r) (redirect_type r) (target_in_accounts r) (target_out_accounts r) v (isns_head r).
#[export] Instance set_isns_head : Setter isns_head := fun v r => mkTarget (t_tid r) (t_name r) (tgt_enabled r) (per_portal_acl r) (target_params r) (t_session_params r) (sessions_list r) (sessions_count r) (redirect_addr r) (redirect_port r) (redirect_type r) (target_in_accounts r) (target_out_accounts r) (allowed_portals r) v.

(** The static variables of the daemon: the table of session keys, the targets, the accounts of discovery sessions,
    the TSIH, CHAP identifier and target transfer tag that come next. *)
Record daemon : Type := mkDaemon {
  session_keys : list iscsi_key;
  targets_list : list target;
  discovery_users_in : list iscsi_attr;
  discovery_users_out : list iscsi_attr;
  iscsi_enabled : bool;
  isns_access : bool;
  next_tsih : Z;
  next_chap_id : Z;
  next_ttt : Z;
  next_sess : nat
}.

#[export] Instance set_session_keys : Setter session_keys := fun v r => mkDaemon v (targets_list r) (discovery_users_in r) (discovery_users_out r) (iscsi_enabled r) (isns_access r) (next_tsih r) (next_chap_id r) (next_ttt r) (next_sess r).
#[export] Instance set_targets_list : Setter targets_list := fun v r => mkDaemon (session_keys r) v (discovery_users_in r) (discovery_users_out r) (iscsi_enabled r) (isns_access r) (next_tsih r) (next_chap_id r) (next_ttt r) (next_sess r).
#[export] Instance set_discovery_users_in : Setter discovery_users_in := fun v r => mkDaemon (session_keys r) (targets_list r) v (discovery_users_out r) (iscsi_enabled r) (isns_access r) (next_tsih r) (next_chap_id r) (next_ttt r) (next_sess r).
#[export] Instance set_discovery_users_out : Setter discovery_users_out := fun v r => mkDaemon (session_keys r) (targets_list r) (discovery_users_in r) v (iscsi_enabled r) (isns_access r) (next_tsih r) (next_chap_id r) (next_ttt r) (next_sess r).
#[export] Instance set_iscsi_enabled : Setter iscsi_enabled := fun v r => mkDaemon (session_keys r) (targets_list r) (discovery_users_in r) (discovery_users_out r) v (isns_access r) (next_tsih r) (next_chap_id r) (next_ttt r) (next_sess r).
#[export] Instance set_isns_access : Setter isns_access := fun v r => mkDaemon (session_keys r) (targets_list r) (discovery_users_in r) (discovery_users_out r) (iscsi_enabled r) v (next_tsih r) (next_chap_id r) (next_ttt r) (next_sess r).
#[export] Instance set_next_tsih : Setter next_tsih := fun v r => mkDaemon (session_keys r) (targets_list r) (discovery_users_in r) (discovery_users_out r) (iscsi_enabled r) (isns_access r) v (next_chap_id r) (next_ttt r) (next_sess r).
#[export] Instance set_next_chap_id : Setter next_chap_id := fun v r => mkDaemon (session_keys r) (targets_list r) (discovery_users_in r) (discovery_users_out r) (iscsi_enabled r) (isns_access r) (next_tsih r) v (next_ttt r) (next_sess r).
#[export] Instance set_next_ttt : Setter next_ttt := fun v r => mkDaemon (session_keys r) (targets_list r) (discovery_users_in r) (discovery_users_out r) (iscsi_enabled r) (isns_access r) (next_tsih r) (next_chap_id r) v (next_sess r).
#[export] Instance set_next_sess : Setter next_sess := fun v r => mkDaemon (session_keys r) (targets_list r) (discovery_users_in r) (discovery_users_out r) (iscsi_enabled r) (isns_access r) (next_tsih r) (next_chap_id r) (next_ttt r) v.

(** The header of a response: the fields of the login, text, logout and reject headers,
    and the segment that goes with it. *)
Record rsp_hdr : Type := mkRsp {
  r_opcode : Z;
  r_flags : Z;
  r_sid : iscsi_sid;
  r_itt : Z;
  r_ttt : Z;
  r_stat_sn : Z;
  r_exp_cmd_sn : Z;
  r_max_cmd_sn : Z;
  status_class : Z;
  status_detail : Z;
  r_reason : Z;
  r_data : list Z
}.

#[export] Instance set_r_opcode : Setter r_opcode := fun v r => mkRsp v (r_flags r) (r_sid r) (r_itt r) (r_ttt r) (r_stat_sn r) (r_exp_cmd_sn r) (r_max_cmd_sn r) (status_class r) (status_detail r) (r_reason r) (r_data r).
#[export] Instance set_r_flags : Setter r_flags := fun v r => mkRsp (r_opcode r) v (r_sid r) (r_itt r) (r_ttt r) (r_stat_sn r) (r_exp_cmd_sn r) (r_max_cmd_sn r) (status_class r) (status_detail r) (r_reason r) (r_data r).
#[export] Instance set_r_sid : Setter r_sid := fun v r => mkRsp (r_opcode r) (r_flags r) v (r_itt r) (r_ttt r) (r_stat_sn r) (r_exp_cmd_sn r) (r_max_cmd_sn r) (status_class r) (status_detail r) (r_reason r) (r_data r).
#[export] Instance set_r_itt : Setter r_itt := fun v r => mkRsp (r_opcode r) (r_flags r) (r_sid r) v (r_ttt r) (r_stat_sn r) (r_exp_cmd_sn r) (r_max_cmd_sn r) (status_class r) (status_detail r) (r_reason r) (r_data r).
#[export] Instance set_r_ttt : Setter r_ttt := fun v r => mkRsp (r_opcode r) (r_flags r) (r_sid r) (r_itt r) v (r_stat_sn r) (r_exp_cmd_sn r) (r_max_cmd_sn r) (status_class r) (status_detail r) (r_reason r) (r_data r).
#[export] Instance set_r_stat_sn : Setter r_stat_sn := fun v r => mkRsp (r_opcode r) (r_flags r) (r_sid r) (r_itt r) (r_ttt r) v (r_exp_cmd_sn r) (r_max_cmd_sn r) (status_class r) (status_detail r) (r_reason r) (r_data r).
#[export] Instance set_r_exp_cmd_sn : Setter r_exp_cmd_sn := fun v r => mkRsp (r_opcode r) (r_flags r) (r_sid r) (r_itt r) (r_ttt r) (r_stat_sn r) v (r_max_cmd_sn r) (status_class r) (status_detail r) (r_reason r) (r_data r).
#[export] Instance set_r_max_cmd_sn : Setter r_max_cmd_sn := fun v r => mkRsp (r_opcode r) (r_flags r) (r_sid r) (r_itt r) (r_ttt r) (r_stat_sn r) (r_exp_cmd_sn r) v (status_class r) (status_detail r) (r_reason r) (r_data r).
#[export] Instance set_status_class : Setter status_class := fun v r => mkRsp (r_opcode r) (r_flags r) (r_sid r) (r_itt r) (r_ttt r) (r_stat_sn r) (r_exp_cmd_sn r) (r_max_cmd_sn r) v (status_detail r) (r_reason r) (r_data r).
#[export] Instance set_status_detail : Setter status_detail := fun v r => mkRsp (r_opcode r) (r_flags r) (r_sid r) (r_itt r) (r_ttt r) (r_stat_sn r) (r_exp_cmd_sn r) (r_max_cmd_sn r) (status_class r) v (r_reason r) (r_data r).
#[export] Instance set_r_reason : Setter r_reason := fun v r => mkRsp (r_opcode r) (r_flags r) (r_sid r) (r_itt r) (r_ttt r) (r_stat_sn r) (r_exp_cmd_sn r) (r_max_cmd_sn r) (status_class r) (status_detail r) v (r_data r).
#[export] Instance set_r_data : Setter r_data := fun v r => mkRsp (r_opcode r) (r_flags r) (r_sid r) (r_itt r) (r_ttt r) (r_stat_sn r) (r_exp_cmd_sn r) (r_max_cmd_sn r) (status_class r) (status_detail r) (r_reason r) v.

Record connection : Type := mkConn {
  state : Z;
  passed_to_kern : bool;
  sessions_count_incremented : bool;
  c_target : option Z;
  sess : option nat;
  c_tid : Z;
  session_params : list iscsi_param;
  target_portal : list Z;
  c_initiator : option (list Z);
  c_user : option (list Z);
  c_sid : iscsi_sid;
  c_cid : Z;
  session_type : Z;
  auth_method : Z;
  c_stat_sn : Z;
  c_exp_cmd_sn : Z;
  c_ttt : Z;
  rsp : rsp_hdr;
  rsp_buf_list : list (list Z);
  auth_state : Z;
  digest_alg : Z;
  chap_id : Z;
  challenge : list Z;
  c_allocs : nat;
  c_rands : nat
}.

#[export] Instance set_state : Setter state := fun v r => mkConn v (passed_to_kern r) (sessions_count_incremented r) (c_target r) (sess r) (c_tid r) (session_params r) (target_portal r) (c_initiator r) (c_user r) (c_sid r) (c_cid r) (session_type r) (auth_method r) (c_stat_sn r) (c_exp_cmd_sn r) (c_ttt r) (rsp r) (rsp_buf_list r) (auth_state r) (digest_alg r) (chap_id r) (challenge r) (c_allocs r) (c_rands r).
#[export] Instance set_passed_to_kern : Setter passed_to_kern := fun v r => mkConn (state r) v (sessions_count_incremented r) (c_target r) (sess r) (c_tid r) (session_params r) (target_portal r) (c_initiator r) (c_user r) (c_sid r) (c_cid r) (session_type r) (auth_method r) (c_stat_sn r) (c_exp_cmd_sn r) (c_ttt r) (rsp r) (rsp_buf_list r) (auth_state r) (digest_alg r) (chap_id r) (challenge r) (c_allocs r) (c_rands r).
#[export] Instance set_sessions_count_incremented : Setter sessions_count_incremented := fun v r => mkConn (state r) (passed_to_kern r) v (c_target r) (sess r) (c_tid r) (session_params r) (target_portal r) (c_initiator r) (c_user r) (c_sid r) (c_cid r) (session_type r) (auth_method r) (c_stat_sn r) (c_exp_cmd_sn r) (c_ttt r) (rsp r) (rsp_buf_list r) (auth_state r) (digest_alg r) (chap_id r) (challenge r) (c_allocs r) (c_rands r).
#[export] Instance set_c_target : Setter c_target := fun v r => mkConn (state r) (passed_to_kern r) (sessions_count_incremented r) v (sess r) (c_tid r) (session_params r) (target_portal r) (c_initiator r) (c_user r) (c_sid r) (c_cid r) (session_type r) (auth_method r) (c_stat_sn r) (c_exp_cmd_sn r) (c_ttt r) (rsp r) (rsp_buf_list r) (auth_state r) (digest_alg r) (chap_id r) (challenge r) (c_allocs r) (c_rands r).
#[export] Instance set_sess : Setter sess := fun v r => mkConn (state r) (passed_to_kern r) (sessions_count_incremented r) (c_target r) v (c_tid r) (session_params r) (target_portal r) (c_initiator r) (c_user r) (c_sid r) (c_cid r) (session_type r) (auth_method r) (c_stat_sn r) (c_exp_cmd_sn r) (c_ttt r) (rsp r) (rsp_buf_list r) (auth_state r) (digest_alg r) (chap_id r) (challenge r) (c_allocs r) (c_rands r).
#[export] Instance set_c_tid : Setter c_tid := fun v r => mkConn (state r) (passed_to_kern r) (sessions_count_incremented r) (c_target r) (sess r) v (session_params r) (target_portal r) (c_initiator r) (c_user r) (c_sid r) (c_cid r) (session_type r) (auth_method r) (c_stat_sn r) (c_exp_cmd_sn r) (c_ttt r) (rsp r) (rsp_buf_list r) (auth_state r) (digest_alg r) (chap_id r) (challenge r) (c_allocs r) (c_rands r).
#[export] Instance set_session_params : Setter session_params := fun v r => mkConn (state r) (passed_to_kern r) (sessions_count_incremented r) (c_target r) (sess r) (c_tid r) v (target_portal r) (c_initiator r) (c_user r) (c_sid r) (c_cid r) (session_type r) (auth_method r) (c_stat_sn r) (c_exp_cmd_sn r) (c_ttt r) (rsp r) (rsp_buf_list r) (auth_state r) (digest_alg r) (chap_id r) (challenge r) (c_allocs r) (c_rands r).
#[export] Instance set_target_portal : Setter target_portal := fun v r => mkConn (state r) (passed_to_kern r) (sessions_count_incremented r) (c_target r) (sess r) (c_tid r) (session_params r) v (c_initiator r) (c_user r) (c_sid r) (c_cid r) (session_type r) (auth_method r) (c_stat_sn r) (c_exp_cmd_sn r) (c_ttt r) (rsp r) (rsp_buf_list r) (auth_state r) (digest_alg r) (chap_id r) (challenge r) (c_allocs r) (c_rands r).
#[export] Instance set_c_initiator : Setter c_initiator := fun v r => mkConn (state r) (passed_to_kern r) (sessions_count_incremented r) (c_target r) (sess r) (c_tid r) (session_params r) (target_portal r) v (c_user r) (c_sid r) (c_cid r) (session_type r) (auth_method r) (c_stat_sn r) (c_exp_cmd_sn r) (c_ttt r) (rsp r) (rsp_buf_list r) (auth_state r) (digest_alg r) (chap_id r) (challenge r) (c_allocs r) (c_rands r).
#[export] Instance set_c_user : Setter c_user := fun v r => mkConn (state r) (passed_to_kern r) (sessions_count_incremented r) (c_target r) (sess r) (c_tid r) (session_params r) (target_portal r) (c_initiator r) v (c_sid r) (c_cid r) (session_type r) (auth_method r) (c_stat_sn r) (c_exp_cmd_sn r) (c_ttt r) (rsp r) (rsp_buf_list r) (auth_state r) (digest_alg r) (chap_id r) (challenge r) (c_allocs r) (c_rands r).
#[export] Instance set_c_sid : Setter c_sid := fun v r => mkConn (state r) (passed_to_kern r) (sessions_count_incremented r) (c_target r) (sess r) (c_tid r) (session_params r) (target_portal r) (c_initiator r) (c_user r) v (c_cid r) (session_type r) (auth_method r) (c_stat_sn r) (c_exp_cmd_sn r) (c_ttt r) (rsp r) (rsp_buf_list r) (auth_state r) (digest_alg r) (chap_id r) (challenge r) (c_allocs r) (c_rands r).
#[export] Instance set_c_cid : Setter c_cid := fun v r => mkConn (state r) (passed_to_kern r) (sessions_count_incremented r) (c_target r) (sess r) (c_tid r) (session_params r) (target_portal r) (c_initiator r) (c_user r) (c_sid r) v (session_type r) (auth_method r) (c_stat_sn r) (c_exp_cmd_sn r) (c_ttt r) (rsp r) (rsp_buf_list r) (auth_state r) (digest_alg r) (chap_id r) (challenge r) (c_allocs r) (c_rands r).
#[export] Instance set_session_type : Setter session_type := fun v r => mkConn (state r) (passed_to_kern r) (sessions_count_incremented r) (c_target r) (sess r) (c_tid r) (session_params r) (target_portal r) (c_initiator r) (c_user r) (c_sid r) (c_cid r) v (auth_method r) (c_stat_sn r) (c_exp_cmd_sn r) (c_ttt r) (rsp r) (rsp_buf_list r) (auth_state r) (digest_alg r) (chap_id r) (challenge r) (c_allocs r) (c_rands r).
#[export] Instance set_auth_method : Setter auth_method := fun v r => mkConn (state r) (passed_to_kern r) (sessions_count_incremented r) (c_target r) (sess r) (c_tid r) (session_params r) (target_portal r) (c_initiator r) (c_user r) (c_sid r) (c_cid r) (session_type r) v (c_stat_sn r) (c_exp_cmd_sn r) (c_ttt r) (rsp r) (rsp_buf_list r) (auth_state r) (digest_alg r) (chap_id r) (challenge r) (c_allocs r) (c_rands r).
#[export] Instance set_c_stat_sn : Setter c_stat_sn := fun v r => mkConn (state r) (passed_to_kern r) (sessions_count_incremented r) (c_target r) (sess r) (c_tid r) (session_params r) (target_portal r) (c_initiator r) (c_user r) (c_sid r) (c_cid r) (session_type r) (auth_method r) v (c_exp_cmd_sn r) (c_ttt r) (rsp r) (rsp_buf_list r) (auth_state r) (digest_alg r) (chap_id r) (challenge r) (c_allocs r) (c_rands r).
#[export] Instance set_c_exp_cmd_sn : Setter c_exp_cmd_sn := fun v r => mkConn (state r) (passed_to_kern r) (sessions_count_incremented r) (c_target r) (sess r) (c_tid r) (session_params r) (target_portal r) (c_initiator r) (c_user r) (c_sid r) (c_cid r) (session_type r) (auth_method r) (c_stat_sn r) v (c_ttt r) (rsp r) (rsp_buf_list r) (auth_state r) (digest_alg r) (chap_id r) (challenge r) (c_allocs r) (c_rands r).
#[export] Instance set_c_ttt : Setter c_ttt := fun v r => mkConn (state r) (passed_to_kern r) (sessions_count_incremented r) (c_target r) (sess r) (c_tid r) (session_params r) (target_portal r) (c_initiator r) (c_user r) (c_sid r) (c_cid r) (session_type r) (auth_method r) (c_stat_sn r) (c_exp_cmd_sn r) v (rsp r) (rsp_buf_list r) (auth_state r) (digest_alg r) (chap_id r) (challenge r) (c_allocs r) (c_rands r).
#[export] Instance set_rsp : Setter rsp := fun v r => mkConn (state r) (passed_to_kern r) (sessions_count_incremented r) (c_target r) (sess r) (c_tid r) (session_params r) (target_portal r) (c_initiator r) (c_user r) (c_sid r) (c_cid r) (session_type r) (auth_method r) (c_stat_sn r) (c_exp_cmd_sn r) (c_ttt r) v (rsp_buf_list r) (auth_state r) (digest_alg r) (chap_id r) (challenge r) (c_allocs r) (c_rands r).
#[export] Instance set_rsp_buf_list : Setter rsp_buf_list := fun v r => mkConn (state r) (passed_to_kern r) (sessions_count_incremented r) (c_target r) (sess r) (c_tid r) (session_params r) (target_portal r) (c_initiator r) (c_user r) (c_sid r) (c_cid r) (session_type r) (auth_method r) (c_stat_sn r) (c_exp_cmd_sn r) (c_ttt r) (rsp r) v (auth_state r) (digest_alg r) (chap_id r) (challenge r) (c_allocs r) (c_rands r).
#[export] Instance set_auth_state : Setter auth_state := fun v r => mkConn (state r) (passed_to_kern r) (sessions_count_incremented r) (c_target r) (sess r) (c_tid r) (session_params r) (target_portal r) (c_initiator r) (c_user r) (c_sid r) (c_cid r) (session_type r) (auth_method r) (c_stat_sn r) (c_exp_cmd_sn r) (c_ttt r) (rsp r) (rsp_buf_list r) v (digest_alg r) (chap_id r) (challenge r) (c_allocs r) (c_rands r).
#[export] Instance set_digest_alg : Setter digest_alg := fun v r => mkConn (state r) (passed_to_kern r) (sessions_count_incremented r) (c_target r) (sess r) (c_tid r) (session_params r) (target_portal r) (c_initiator r) (c_user r) (c_sid r) (c_cid r) (session_type r) (auth_method r) (c_stat_sn r) (c_exp_cmd_sn r) (c_ttt r) (rsp r) (rsp_buf_list r) (auth_state r) v (chap_id r) (challenge r) (c_allocs r) (c_rands r).
#[export] Instance set_chap_id : Setter chap_id := fun v r => mkConn (state r) (passed_to_kern r) (sessions_count_incremented r) (c_target r) (sess r) (c_tid r) (session_params r) (target_portal r) (c_initiator r) (c_user r) (c_sid r) (c_cid r) (session_type r) (auth_method r) (c_stat_sn r) (c_exp_cmd_sn r) (c_ttt r) (rsp r) (rsp_buf_list r) (auth_state r) (digest_alg r) v (challenge r) (c_allocs r) (c_rands r).
#[export] Instance set_challenge : Setter challenge := fun v r => mkConn (state r) (passed_to_kern r) (sessions_count_incremented r) (c_target r) (sess r) (c_tid r) (session_params r) (target_portal r) (c_initiator r) (c_user r) (c_sid r) (c_cid r) (session_type r) (auth_method r) (c_stat_sn r) (c_exp_cmd_sn r) (c_ttt r) (rsp r) (rsp_buf_list r) (auth_state r) (digest_alg r) (chap_id r) v (c_allocs r) (c_rands r).
#[export] Instance set_c_allocs : Setter c_allocs := fun v r => mkConn (state r) (passed_to_kern r) (sessions_count_incremented r) (c_target r) (sess r) (c_tid r) (session_params r) (target_portal r) (c_initiator r) (c_user r) (c_sid r) (c_cid r) (session_type r) (auth_method r) (c_stat_sn r) (c_exp_cmd_sn r) (c_ttt r) (rsp r) (rsp_buf_list r) (auth_state r) (digest_alg r) (chap_id r) (challenge r) v (c_rands r).
#[export] Instance set_c_rands : Setter c_rands := fun v r => mkConn (state r) (passed_to_kern r) (sessions_count_incremented r) (c_target r) (sess r) (c_tid r) (session_params r) (target_portal r) (c_initiator r) (c_user r) (c_sid r) (c_cid r) (session_type r) (auth_method r) (c_stat_sn r) (c_exp_cmd_sn r) (c_ttt r) (rsp r) (rsp_buf_list r) (auth_state r) (digest_alg r) (chap_id r) (challenge r) (c_allocs r) v.

Definition STATE_FREE : Z := 0.
Definition STATE_SECURITY : Z := 1.
Definition STATE_SECURITY_AUTH : Z := 2.
Definition STATE_SECURITY_DONE : Z := 3.
Definition STATE_SECURITY_LOGIN : Z := 4.
Definition STATE_SECURITY_FULL : Z := 5.
Definition STATE_LOGIN : Z := 6.
Definition STATE_LOGIN_FULL : Z := 7.
Definition STATE_FULL : Z := 8.
Definition STATE_KERNEL : Z := 9.
Definition STATE_CLOSE : Z := 10.
Definition STATE_EXIT : Z := 11.
Definition STATE_DROP : Z := 12.

Definition AUTH_STATE_START : Z := 0.
Definition SESSION_NORMAL : Z := 0.
Definition SESSION_DISCOVERY : Z := 1.
Definition AUTH_UNKNOWN : Z := -1.
Definition AUTH_NONE : Z := 0.
Definition AUTH_CHAP : Z := 1.

Inductive user_dir : Set := INCOMING | OUTGOING.

(** ** Targets and accounts *)

Definition target_find_by_name (d : daemon) (name : list Z) : option target := find (fun t => strcasecmp_eq (t_name t) name) (targets_list d).
Definition target_find_by_id (d : daemon) (tid : Z) : option target := find (fun t => t_tid t =? tid) (targets_list d).

(** A change of the target with a number. *)
Definition upd_target (f : target -> target) (tid : Z) (d : daemon) : daemon :=
  d <|targets_list := map (fun t => if t_tid t =? tid then f t else t) (targets_list d)|>.

Definition account_list_get (d : daemon) (t : option target) (dir : user_dir) : list iscsi_attr :=
  match t, dir with
  | Some t, INCOMING => target_in_accounts t
  | Some t, OUTGOING => target_out_accounts t
  | None, INCOMING => discovery_users_in d
  | None, OUTGOING => discovery_users_out d
  end.

(** The accounts of a target, or of discovery sessions when the number is 0; none when
    there is no such target. *)
Definition accounts_of (d : daemon) (tid : Z) (dir : user_dir) : option (list iscsi_attr) :=
  if tid =? 0 then Some (account_list_get d None dir)
  else match target_find_by_id d tid with None => None | Some t => Some (account_list_get d (Some t) dir) end.

Definition accounts_empty (d : daemon) (tid : Z) (dir : user_dir) : bool :=
  match accounts_of d tid dir with None => false | Some l => match l with [] => true | _ => false end end.

Definition account_get_first (d : daemon) (tid : Z) (dir : user_dir) : option iscsi_attr :=
  match accounts_of d tid dir with None => None | Some l => hd_error l end.

Definition iscsi_attr_lookup_by_key (l : list iscsi_attr) (key : list Z) : option iscsi_attr := find (fun a => strcmp_eq (attr_key a) key) l.

Definition ISCSI_NAME_LEN : nat := 256.
Definition ISCSI_FULL_NAME_LEN : nat := 320.

Definition ENOENT : Z := 2.
Definition EINVAL : Z := 22.

(** The result and the password; no result when the account has no secret: the code
    copies from a null pointer. *)
Definition config_account_query (d : daemon) (tid : Z) (dir : user_dir) (name : list Z) : option (Z * list Z) :=
  match l ← accounts_of d tid dir; iscsi_attr_lookup_by_key l name with
  | None => Some (- ENOENT, [])
  | Some a => pass ← attr_value a; Some (0, take (ISCSI_NAME_LEN - 1) pass)
  end.

Definition iscsi_make_full_initiator_name (per_portal_acl : bool) (initiator_name target_portal : list Z) (size : nat) : list Z :=
  take (size - 1) (if per_portal_acl then initiator_name ++ [35] ++ target_portal else initiator_name).

(** No result when the matching of a pattern does not end. *)
Definition target_portal_allowed (e : env) (t : target) (target_portal initiator_name : list Z) : option bool :=
  ok ← (match allowed_portals t with [] => Some true | l => any_wild l target_portal end);
  Some (if ok : bool then 0 <? kernel_initiator_allowed e (t_tid t) (iscsi_make_full_initiator_name (per_portal_acl t) initiator_name target_portal ISCSI_FULL_NAME_LEN) else false).

Definition isns_scn_access_allowed (d : daemon) (tid : Z) (name : list Z) : bool :=
  if negb (isns_access d) then true
  else match target_find_by_id d tid with None => false | Some t => existsb (fun n => strcmp_eq n name) (isns_head t) end.

(** ** Sessions *)

Definition sessions_of (d : daemon) (tid : Z) : list session := match target_find_by_id d tid with Some t => sessions_list t | None => [] end.

Definition session_find_name (d : daemon) (tid : Z) (iname : list Z) (sid : iscsi_sid) : option session :=
  find (fun s => bool_decide (isid sid = isid (s_sid s)) && strcmp_eq iname (s_initiator s)) (sessions_of d tid).

Definition session_find_id (d : daemon) (tid : Z) (sid : iscsi_sid) : option session := find (fun s => bool_decide (s_sid s = sid)) (sessions_of d tid).

(** [exclude]: the identity of a session. *)
Definition session_id_exists (d : daemon) (tid : Z) (sid : iscsi_sid) (exclude : nat) : bool :=
  existsb (fun s => bool_decide (s_sid s = sid) && negb (s_id s =? exclude)%nat) (sessions_of d tid).

Definition conn_find (s : session) (cid : Z) : option (nat * Z) := find (fun pc => snd pc =? cid) (conn_list s).

Definition upd_session (f : session -> session) (sid : nat) (t : target) : target :=
  t <|sessions_list := map (fun s => if (s_id s =? sid)%nat then f s else s) (sessions_list t)|>.

(** ** Connections *)

Definition rsp_zero : rsp_hdr := mkRsp 0 0 (mkSid [] 0) 0 0 0 0 0 0 0 0 [].

(** [conn_alloc], with the portal the socket was accepted on. *)
Definition conn_alloc (keys : list iscsi_key) (portal : list Z) : connection :=
  mkConn STATE_FREE false false None None 0 (map (fun v => mkParam 0 v) (params_set_defaults keys)) portal None None (mkSid [] 0) 0 0 0 0 0 0
    rsp_zero [] 0 0 0 [] 0 0.

(** [conn_write_pdu]: the response starts as zeros. *)
Definition conn_write_pdu (c : connection) : connection := c <|rsp := rsp_zero|>.

Definition conn_free_rsp_buf_list (c : connection) : connection := c <|rsp_buf_list := []|> <|rsp := (rsp c) <|r_data := []|> |>.

(** The size of a segment of the response. *)
Definition data_sz (c : connection) : nat :=
  if state c =? STATE_FULL then Z.to_nat (val (param_at (session_params c) key_max_xmit_data_length)) else INCOMING_BUFSIZE.

(** When memory runs out, the whole response is dropped. *)
Definition text_key_add (e : env) (key value : list Z) (c : connection) : connection :=
  let '(allocs, segs) := segs_add (mem e) (c_allocs c) (data_sz c) (rsp_buf_list c) key value in
  let c := c <|c_allocs := allocs|> <|rsp_buf_list := segs|> in
  match segs with [] => c <|rsp := (rsp c) <|r_data := []|> |> | _ => c end.

Definition text_key_add_reject (e : env) (key : list Z) (c : connection) : connection := text_key_add e key (str "Reject") c.
