(* ===== verification/IscsiChap.v ===== *)
(** * The CHAP exchange of the iSCSI daemon

    Models the rest of [cg/iscsi-scst/usr/chap.c]: the challenge that the daemon sends,
    the check of the response of the initiator, and the answer to a challenge of the
    initiator.  [data] is the data segment of the request.

    There is no result where the C program has none: a write outside of a buffer, or a
    copy from a null pointer. *)

From S2P Require Import Prelude CStr Hash ChapCode IscsiText IscsiParam IscsiConn.

Definition CHAP_DIGEST_ALG_MD5 : Z := 5.
Definition CHAP_DIGEST_ALG_SHA1 : Z := 7.
Definition CHAP_MD5_DIGEST_LEN : nat := 16.
Definition CHAP_SHA1_DIGEST_LEN : nat := 20.

Definition CHAP_AUTH_STATE_START : Z := AUTH_STATE_START.
Definition CHAP_AUTH_STATE_CHALLENGE : Z := 1.
Definition CHAP_AUTH_STATE_RESPONSE : Z := 2.

Definition CHAP_CHALLENGE_MAX : Z := 50.

(** The identifier is passed as a [char]. *)
Definition chap_calc_digest_md5 (junk : list Z) (chap_id : Z) (secret chal : list Z) : list Z :=
  (md5_final (md5_update chal (md5_update secret (md5_update [chap_id mod 256] (md5_init junk))))).1.

Definition chap_calc_digest_sha1 (junk : list Z) (chap_id : Z) (secret chal : list Z) : list Z :=
  (sha1_final (sha1_update chal (sha1_update secret (sha1_update [chap_id mod 256] (sha1_init junk))))).1.

(** The two [switch]es over the algorithm. *)
Definition chap_digest_len (alg : Z) : option nat :=
  if alg =? CHAP_DIGEST_ALG_MD5 then Some CHAP_MD5_DIGEST_LEN else if alg =? CHAP_DIGEST_ALG_SHA1 then Some CHAP_SHA1_DIGEST_LEN else None.

Definition chap_calc_digest (alg : Z) (junk : list Z) (chap_id : Z) (secret chal : list Z) : list Z :=
  if alg =? CHAP_DIGEST_ALG_MD5 then chap_calc_digest_md5 junk chap_id secret chal else chap_calc_digest_sha1 junk chap_id secret chal.

(** An allocation of [n] bytes. *)
Definition conn_malloc (e : env) (n : nat) (c : connection) : option (list Z) * connection :=
  (if mem e (c_allocs c) then Some (map (heap e (c_allocs c)) (seq 0 n)) else None, c <|c_allocs := S (c_allocs c)|>).

(** [chap_rand]. *)
Definition chap_rand (e : env) (c : connection) : Z * connection := (rand e (c_rands c), c <|c_rands := S (c_rands c)|>).

(** ** The challenge *)

(** The first algorithm of the list that is known. *)
Fixpoint pick_alg (fuel : nat) (value : list Z) : option (Z * list Z) :=
  match fuel with
  | O => None
  | S fuel =>
      let '(p, rest) := split_at_char 44 value in
      if strcmp_eq p (str "5") then Some (CHAP_DIGEST_ALG_MD5, p)
      else if strcmp_eq p (str "7") then Some (CHAP_DIGEST_ALG_SHA1, p)
      else match rest with None => None | Some rest => pick_alg fuel rest end
  end.

(** The size that [chap_rand() % (CHAP_CHALLENGE_MAX / 2) + CHAP_CHALLENGE_MAX / 2] gives for a random [int]. *)
Definition challenge_size (r : Z) : Z := Z.rem r (CHAP_CHALLENGE_MAX / 2) + CHAP_CHALLENGE_MAX / 2.

Fixpoint challenge_bytes (e : env) (n : nat) (c : connection) : list Z * connection :=
  match n with
  | O => ([], c)
  | S n => let '(r, c) := chap_rand e c in let '(l, c) := challenge_bytes e n c in (r mod 256 :: l, c)
  end.

Definition chap_initiator_auth_create_challenge (e : env) (data : list Z) (d : daemon) (c : connection) : Z * daemon * connection :=
  match text_key_find data (str "CHAP_A") with
  | None => (CHAP_INITIATOR_ERROR, d, c)
  | Some value =>
      match pick_alg (S (length value)) value with
      | None => (CHAP_INITIATOR_ERROR, d, c)
      | Some (alg, p) =>
          let c := c <|digest_alg := alg|> <|auth_state := CHAP_AUTH_STATE_CHALLENGE|> in
          let c := text_key_add e (str "CHAP_A") p c in
          let d := d <|next_chap_id := next_chap_id d + 1|> in
          let c := c <|chap_id := next_chap_id d|> in
          let c := text_key_add e (str "CHAP_I") (print_u (chap_id c mod 256)) c in
          let '(r, c) := chap_rand e c in
          let size := Z.to_nat (challenge_size r) in
          let '(buf, c) := conn_malloc e size c in
          match buf with
          | None => (CHAP_TARGET_ERROR, d, c)
          | Some _ =>
              let '(chal, c) := challenge_bytes e size c in
              let c := c <|challenge := chal|> in
              let c := text_key_add e (str "CHAP_C") (str "0x" ++ encode_hex_string chal) c in
              (0, d, c)
          end
      end
  end.

(** ** The response *)

(** The user and the password that belong to the request, or an error. *)
Definition chap_lookup_user (e : env) (data : list Z) (d : daemon) (c : connection) : option (Z * list Z * connection) :=
  if accounts_empty d (c_tid c) INCOMING then Some (CHAP_TARGET_ERROR, [], c)
  else
    match text_key_find data (str "CHAP_N") with
    | None => Some (CHAP_INITIATOR_ERROR, [], c)
    | Some value =>
        let '(dup, c) := conn_malloc e (S (length value)) c in
        let c := c <|c_user := match dup with Some _ => Some value | None => None end|> in
        '(res, pass) ← config_account_query d (c_tid c) INCOMING value;
        Some (if res <? 0 then CHAP_AUTH_ERROR else 0, pass, c)
    end.

Definition chap_initiator_auth_check_response (e : env) (data : list Z) (d : daemon) (c : connection) : option (Z * connection) :=
  '(res, pass, c) ← chap_lookup_user e data d c;
  if res <? 0 then Some (res, c)
  else
    match text_key_find data (str "CHAP_R") with
    | None => Some (CHAP_INITIATOR_ERROR, c)
    | Some value =>
        let encoding_format := chap_check_encoding_format value in
        if encoding_format <? 0 then Some (CHAP_INITIATOR_ERROR, c)
        else
          match chap_digest_len (digest_alg c) with
          | None => Some (CHAP_TARGET_ERROR, c)
          | Some digest_len =>
              let '(his, c) := conn_malloc e digest_len c in
              match his with
              | None => Some (CHAP_TARGET_ERROR, c)
              | Some his =>
                  let '(our, c) := conn_malloc e digest_len c in
                  match our with
                  | None => Some (CHAP_TARGET_ERROR, c)
                  | Some _ =>
                      '(res, his) ← chap_decode_string value his encoding_format;
                      if res <? 0 then Some (CHAP_INITIATOR_ERROR, c)
                      else
                        let our := chap_calc_digest (digest_alg c) (map (heap e (c_allocs c)) (seq 0 64)) (chap_id c) pass (challenge c) in
                        if bool_decide (our = his) then Some (0, c <|state := CHAP_AUTH_STATE_RESPONSE|>) else Some (CHAP_AUTH_ERROR, c)
                  end
              end
          end
    end.

(** ** The answer to the initiator *)

(** The number of characters of the response, with ["0x"] and the zero. *)
Definition response_len (encoding_format : Z) (digest_len : nat) : Z :=
  (if encoding_format =? HEX_FORMAT then 2 * Z.of_nat digest_len else (Z.quot (Z.of_nat digest_len - 1) 3 + 1) * 4) + 3.

(** The part behind the checks of the challenge [value]. *)
Definition chap_answer (e : env) (chap_id : Z) (user : iscsi_attr) (value : list Z) (encoding_format : Z) (chal : list Z) (c : connection) : option (Z * connection) :=
  match chap_digest_len (digest_alg c) with
  | None => Some (CHAP_TARGET_ERROR, c)
  | Some digest_len =>
      let '(digest, c) := conn_malloc e digest_len c in
      match digest with
      | None => Some (CHAP_TARGET_ERROR, c)
      | Some _ =>
          let '(response, c) := conn_malloc e (Z.to_nat (response_len encoding_format digest_len)) c in
          match response with
          | None => Some (CHAP_TARGET_ERROR, c)
          | Some response =>
              '(res, chal) ← chap_decode_string value chal encoding_format;
              if res <? 0 then Some (CHAP_INITIATOR_ERROR, c)
              else if bool_decide (chal = challenge c) then Some (CHAP_INITIATOR_ERROR, c)
              else
                pass ← attr_value user;
                let digest := chap_calc_digest (digest_alg c) (map (heap e (c_allocs c)) (seq 0 64)) chap_id pass chal in
                let text := chap_encode_string digest encoding_format in
                if (length response <? S (length text))%nat then None
                else
                  let c := text_key_add e (str "CHAP_N") (attr_key user) c in
                  let c := text_key_add e (str "CHAP_R") text c in
                  Some (0, c <|state := STATE_SECURITY_DONE|>)
          end
      end
  end.

Definition chap_target_auth_create_response (e : env) (data : list Z) (d : daemon) (c : connection) : option (Z * connection) :=
  match text_key_find data (str "CHAP_I") with
  | None => Some (0, c <|state := STATE_SECURITY_DONE|>)
  | Some value =>
      let chap_id := strtol value 10 in
      match account_get_first d (c_tid c) OUTGOING with
      | None => Some (CHAP_AUTH_ERROR, c)
      | Some user =>
          match text_key_find data (str "CHAP_C") with
          | None => Some (CHAP_INITIATOR_ERROR, c)
          | Some value =>
              let encoding_format := chap_check_encoding_format value in
              if encoding_format <? 0 then Some (CHAP_INITIATOR_ERROR, c)
              else
                let len := chap_alloc_decode_buffer (mem e (c_allocs c)) value encoding_format in
                let '(chal, c) := conn_malloc e (Z.to_nat len) c in
                if len <=? 0 then Some (len, c)
                else if 1024 <? len then Some (CHAP_INITIATOR_ERROR, c)
                else match chal with None => Some (CHAP_TARGET_ERROR, c) | Some chal => chap_answer e chap_id user value encoding_format chal c end
          end
      end
  end.

Definition cmnd_exec_auth_chap (e : env) (data : list Z) (d : daemon) (c : connection) : option (Z * daemon * connection) :=
  if auth_state c =? CHAP_AUTH_STATE_START then Some (chap_initiator_auth_create_challenge e data d c)
  else if auth_state c =? CHAP_AUTH_STATE_CHALLENGE then
    '(res, c) ← chap_initiator_auth_check_response e data d c;
    if res <? 0 then Some (res, d, c)
    else '(res, c) ← chap_target_auth_create_response e data d c; Some (res, d, c)
  else if auth_state c =? CHAP_AUTH_STATE_RESPONSE then
    '(res, c) ← chap_target_auth_create_response e data d c; Some (res, d, c)
  else Some (CHAP_TARGET_ERROR, d, c).
