(* ===== verification/IscsiLogin.v ===== *)
(** * The login of the iSCSI daemon

    Models the rest of [cg/iscsi-scst/usr/iscsid.c], [session.c] and [conn.c], and what
    [iscsi_scstd.c] does with a connection: the states that a login goes through, the
    negotiation of parameters, the creation of sessions, and the end of a connection.

    A request is its header of 48 bytes and its data segment.  There is no result where
    the C program has none (see [IscsiChap]). *)

From S2P Require Import Prelude CStr Hash ChapCode IscsiText IscsiParam Wild IscsiConn IscsiChap.

Record pdu : Type := mkPdu { bhs : list Z; data : list Z }.

Definition BHS_SIZE : nat := 48.

Definition field (r : pdu) (off n : nat) : list Z := take n (drop off (bhs r)).
Definition opcode (r : pdu) : Z := at_ (bhs r) 0.
Definition flags (r : pdu) : Z := at_ (bhs r) 1.
Definition min_version (r : pdu) : Z := at_ (bhs r) 3.
Definition req_sid (r : pdu) : iscsi_sid := mkSid (field r 8 6) (le_val (field r 14 2)).
Definition itt (r : pdu) : Z := le_val (field r 16 4).
Definition req_cid (r : pdu) : Z := be_val (field r 20 2).
Definition req_ttt (r : pdu) : Z := le_val (field r 20 4).
Definition cmd_sn (r : pdu) : Z := be_val (field r 24 4).

Definition ISCSI_OP_IMMEDIATE : Z := 0x40.
Definition ISCSI_OPCODE_MASK : Z := 0x3F.
Definition ISCSI_OP_LOGIN_CMD : Z := 0x03.
Definition ISCSI_OP_TEXT_CMD : Z := 0x04.
Definition ISCSI_OP_LOGOUT_CMD : Z := 0x06.
Definition ISCSI_OP_LOGIN_RSP : Z := 0x23.
Definition ISCSI_OP_TEXT_RSP : Z := 0x24.
Definition ISCSI_OP_LOGOUT_RSP : Z := 0x26.
Definition ISCSI_OP_REJECT_MSG : Z := 0x3f.
Definition ISCSI_FLG_FINAL : Z := 0x80.
Definition ISCSI_FLG_TRANSIT : Z := 0x80.
Definition ISCSI_FLG_CSG_SECURITY : Z := 0x00.
Definition ISCSI_FLG_CSG_LOGIN : Z := 0x04.
Definition ISCSI_FLG_CSG_MASK : Z := 0x0c.
Definition ISCSI_FLG_NSG_LOGIN : Z := 0x01.
Definition ISCSI_FLG_NSG_FULL_FEATURE : Z := 0x03.
Definition ISCSI_FLG_NSG_MASK : Z := 0x03.
Definition ISCSI_STATUS_REDIRECT : Z := 0x01.
Definition ISCSI_STATUS_INITIATOR_ERR : Z := 0x02.
Definition ISCSI_STATUS_TARGET_ERR : Z := 0x03.
Definition ISCSI_STATUS_INIT_ERR : Z := 0x00.
Definition ISCSI_STATUS_AUTH_FAILED : Z := 0x01.
Definition ISCSI_STATUS_TGT_NOT_FOUND : Z := 0x03.
Definition ISCSI_STATUS_NO_VERSION : Z := 0x05.
Definition ISCSI_STATUS_TOO_MANY_CONN : Z := 0x06.
Definition ISCSI_STATUS_MISSING_FIELDS : Z := 0x07.
Definition ISCSI_STATUS_INV_SESSION_TYPE : Z := 0x09.
Definition ISCSI_STATUS_SESSION_NOT_FOUND : Z := 0x0a.
Definition ISCSI_STATUS_TARGET_ERROR : Z := 0x00.
Definition ISCSI_STATUS_NO_RESOURCES : Z := 0x02.
Definition ISCSI_RESERVED_TAG : Z := 0xffffffff.
Definition ISCSI_REASON_PROTOCOL_ERROR : Z := 0x04.
Definition ISCSI_REASON_UNSUPPORTED_COMMAND : Z := 0x05.
Definition ISCSI_REASON_INVALID_PDU_FIELD : Z := 0x09.
Definition ISCSI_VERSION : Z := 0.
Definition ENOMEM : Z := 12.

Definition upd_rsp (f : rsp_hdr -> rsp_hdr) (c : connection) : connection := c <|rsp := f (rsp c)|>.

(** ** Errors *)

Definition login_rsp_ini_err (status : Z) (c : connection) : connection :=
  (upd_rsp (fun r => r <|status_class := ISCSI_STATUS_INITIATOR_ERR|> <|status_detail := status|>) c) <|state := STATE_EXIT|>.

Definition login_rsp_tgt_err (status : Z) (c : connection) : connection :=
  (upd_rsp (fun r => r <|status_class := ISCSI_STATUS_TARGET_ERR|> <|status_detail := status|>) c) <|state := STATE_EXIT|>.

(** The sequence numbers of a response. *)
Definition put_sn (c : connection) : connection :=
  (upd_rsp (fun r => r <|r_stat_sn := c_stat_sn c|> <|r_exp_cmd_sn := c_exp_cmd_sn c|> <|r_max_cmd_sn := u32 (c_exp_cmd_sn c + 1)|>) c) <|c_stat_sn := u32 (c_stat_sn c + 1)|>.

Definition cmnd_reject (e : env) (req : pdu) (reason : Z) (c : connection) : connection :=
  let c := conn_free_rsp_buf_list c in
  let '(seg, c) := conn_malloc e BHS_SIZE c in
  let c := upd_rsp (fun _ => rsp_zero <|r_opcode := ISCSI_OP_REJECT_MSG|> <|r_reason := reason|> <|r_flags := ISCSI_FLG_FINAL|>) c in
  let c := put_sn c in
  match seg with None => c | Some _ => c <|rsp_buf_list := [bhs req]|> end.

(** ** The pairs of a request *)

Fixpoint pairs_loop (fuel : nat) (dat : list Z) : list (list Z * list Z) :=
  match fuel with
  | O => []
  | S fuel => match next_key dat with None => [] | Some (key, value, rest) => (cstring key, value) :: pairs_loop fuel rest end
  end.

Definition text_pairs (dat : list Z) : list (list Z * list Z) := pairs_loop (length dat) dat.

Definition login_keys : list (list Z) := [str "InitiatorName"; str "InitiatorAlias"; str "SessionType"; str "TargetName"].

Definition is_login_key (key : list Z) : bool := existsb (fun k => strcasecmp_eq k key) login_keys.

(** ** Security *)

(** The methods that the initiator lists; the first one that fits is taken. *)
Fixpoint scan_auth_method (fuel : nat) (e : env) (d : daemon) (key value : list Z) (c : connection) : connection :=
  match fuel with
  | O => c
  | S fuel =>
      let '(v, next) := split_at_char 44 value in
      let continue := match next with None => c | Some next => scan_auth_method fuel e d key next c end in
      if strcmp_eq v (str "None") then
        if negb (accounts_empty d (c_tid c) INCOMING) then continue
        else text_key_add e key (str "None") (c <|auth_method := AUTH_NONE|>)
      else if strcmp_eq v (str "CHAP") then
        if accounts_empty d (c_tid c) INCOMING then continue
        else text_key_add e key (str "CHAP") (c <|auth_method := AUTH_CHAP|>)
      else continue
  end.

Definition scan_security_pair (e : env) (d : daemon) (c : connection) (kv : list Z * list Z) : connection :=
  let '(key, value) := kv in
  if is_login_key key then c
  else if strcmp_eq key (str "AuthMethod") then
    let c := scan_auth_method (S (length value)) e d key value c in
    if auth_method c =? AUTH_UNKNOWN then text_key_add_reject e key c else c
  else text_key_add e key (str "NotUnderstood") c.

Definition text_scan_security (e : env) (req : pdu) (d : daemon) (c : connection) : connection :=
  let c := foldl (scan_security_pair e d) c (text_pairs (data req)) in
  if auth_method c =? AUTH_UNKNOWN then login_rsp_ini_err ISCSI_STATUS_AUTH_FAILED c else c.

(** ** Parameters *)

Definition key_at (keys : list iscsi_key) (i : nat) : iscsi_key := nth i keys (mkKey [] 0 0 0 0 false minimum_ops).

Definition put_key_state (i : nat) (s : Z) (c : connection) : connection :=
  c <|session_params := alter (fun p => p <|key_state := s|>) i (session_params c)|>.

(** One pair; [true] when the scan ends with an error. *)
Definition scan_login_pair (e : env) (keys : list iscsi_key) (key value : list Z) (c : connection) : bool * connection :=
  if is_login_key key then (false, c)
  else if strcmp_eq key (str "AuthMethod") then (false, c)
  else
    match params_index_by_name key keys with
    | None => (false, text_key_add e key (str "NotUnderstood") c)
    | Some idx =>
        if (idx =? key_max_xmit_data_length)%nat then (false, text_key_add e key (str "NotUnderstood") c)
        else
          let '(idx, c) := if (idx =? key_max_recv_data_length)%nat then (key_max_xmit_data_length, put_key_state idx KEY_STATE_DONE c) else (idx, c) in
          let k := key_at keys idx in
          let ks c := key_state (param_at (session_params c) idx) in
          match params_str_to_val k value (heap e (c_allocs c) 0) with
          | None => if ks c =? KEY_STATE_START then (false, text_key_add_reject e key c) else (true, login_rsp_ini_err ISCSI_STATUS_INIT_ERR c)
          | Some v =>
              let v := params_check_val k v in
              let '(ps, v) := params_set_val k (session_params c) idx v in
              let c := c <|session_params := ps|> in
              if ks c =? KEY_STATE_START then
                if iscsi_is_key_internal idx then (false, put_key_state idx KEY_STATE_DONE c)
                else (false, put_key_state idx KEY_STATE_DONE_ADDED (text_key_add e key (params_val_to_str k v) c))
              else if ks c =? KEY_STATE_REQUEST then
                if negb (v =? val (param_at (session_params c) idx)) then (true, login_rsp_ini_err ISCSI_STATUS_INIT_ERR c)
                else (false, put_key_state idx KEY_STATE_DONE c)
              else (false, c)
          end
    end.

Fixpoint scan_login_pairs (e : env) (keys : list iscsi_key) (l : list (list Z * list Z)) (c : connection) : connection :=
  match l with
  | [] => c
  | (key, value) :: l => let '(stop, c) := scan_login_pair e keys key value c in if stop : bool then c else scan_login_pairs e keys l c
  end.

Definition text_scan_login (e : env) (req : pdu) (d : daemon) (c : connection) : connection := scan_login_pairs e (session_keys d) (text_pairs (data req)) c.

(** Key [i]; 1 when it is still to be negotiated. *)
Definition check_param (e : env) (i : nat) (k : iscsi_key) (c : connection) : connection * Z :=
  let p := param_at (session_params c) i in
  if val p =? rfc_def k then (c, 0)
  else if key_state p =? KEY_STATE_START then (c <|session_params := alter (fun p => p <|val := rfc_def k|>) i (session_params c)|>, 0)
  else if key_state p =? KEY_STATE_DONE_ADDED then (c, 0)
  else if (state c =? STATE_LOGIN_FULL) || (state c =? STATE_SECURITY_FULL) then
    if iscsi_is_key_internal i then (put_key_state i KEY_STATE_DONE c, 0) else (c, 1)
  else if state c =? STATE_LOGIN then
    if iscsi_is_key_internal i then (c, 0)
    else
      let c := text_key_add e (k_name k) (params_val_to_str k (val p)) c in
      if (i =? key_max_recv_data_length)%nat then (put_key_state i KEY_STATE_DONE c, 0) else (put_key_state i KEY_STATE_REQUEST c, 1)
  else if iscsi_is_key_internal i then (c, 0) else (c, 1).

Fixpoint check_params (e : env) (i : nat) (keys : list iscsi_key) (c : connection) (cnt : Z) : connection * Z :=
  match keys with
  | [] => (c, cnt)
  | k :: keys => let '(c, n) := check_param e i k c in check_params e (S i) keys c (cnt + n)
  end.

Definition text_check_params (e : env) (d : daemon) (c : connection) : connection * Z := check_params e 0 (session_keys d) c 0.

(** ** Sessions *)

Definition session_free (tid : Z) (id : nat) (d : daemon) : daemon :=
  upd_target (fun t => t <|sessions_count := u32 (sessions_count t - 1)|> <|sessions_list := filter (fun s => s_id s <> id) (sessions_list t)|>) tid d.

(** The first TSIH from [tsih] on that is not in use, in 16 bits; none when all are. *)
Fixpoint free_tsih (fuel : nat) (used : Z -> bool) (tsih : Z) : option Z :=
  match fuel with
  | O => None
  | S fuel => if used tsih then free_tsih fuel used ((tsih + 1) mod 65536) else Some tsih
  end.

(** As many tries as there are values. *)
Definition TSIH_VALUES : nat := Z.to_nat 65536.

(** [p] is the identity of the connection.  The result and the state afterwards. *)
Definition session_create (e : env) (p : nat) (d : daemon) (c : connection) : option (Z * daemon * connection) :=
  match target_find_by_id d (c_tid c) with
  | None => Some (- ENOENT, d, c)
  | Some _ =>
      let '(m, c) := conn_malloc e 0 c in
      match m with
      | None => Some (- ENOMEM, d, c)
      | Some _ =>
          let id := next_sess d in
          let sid := (c_sid c) <|tsih := next_tsih d|> in
          let init := default [] (c_initiator c) in
          let d := d <|next_sess := S id|> in
          let d := upd_target (fun t => t <|sessions_list := sessions_list t ++ [mkSess id init sid [(p, c_cid c)]]|>) (c_tid c) d in
          let c := c <|sess := Some id|> in
          let '(dup, c) := conn_malloc e (S (length init)) c in
          match dup with
          | None => Some (- ENOMEM, session_free (c_tid c) id d, c <|sess := None|>)
          | Some _ =>
              tsih' ← free_tsih TSIH_VALUES (fun v => session_id_exists d (c_tid c) (sid <|tsih := v|>) id) (tsih sid);
              let d := upd_target (upd_session (fun s => s <|s_sid := sid <|tsih := tsih'|> |>) id) (c_tid c) d in
              let d := d <|next_tsih := (tsih' + 1) mod 65536|> in
              if negb (add_session e =? 0) then Some (add_session e, session_free (c_tid c) id d, c <|sess := None|>)
              else Some (0, d, c)
          end
      end
  end.

Definition ISCSI_SESS_REINSTATEMENT : Z := 1.
Definition ISCSI_CONN_REINSTATEMENT : Z := 2.

(** No result when the connection has a session already. *)
Definition login_check_reinstatement (p : nat) (req : pdu) (d : daemon) (c : connection) : option (Z * daemon * connection) :=
  match sess c with
  | Some _ => None
  | None =>
      match session_find_name d (c_tid c) (default [] (c_initiator c)) (req_sid req) with
      | Some s =>
          if tsih (req_sid req) =? 0 then Some (ISCSI_SESS_REINSTATEMENT, d, c)
          else if negb (tsih (req_sid req) =? tsih (s_sid s)) then Some (-1, d, login_rsp_ini_err ISCSI_STATUS_SESSION_NOT_FOUND c)
          else
            match conn_find s (c_cid c) with
            | Some _ =>
                let d := upd_target (upd_session (fun s => s <|conn_list := conn_list s ++ [(p, c_cid c)]|>) (s_id s)) (c_tid c) d in
                Some (ISCSI_CONN_REINSTATEMENT, d, c <|sess := Some (s_id s)|>)
            | None => Some (-1, d, login_rsp_ini_err ISCSI_STATUS_TOO_MANY_CONN c)
            end
      | None => if negb (tsih (req_sid req) =? 0) then Some (-1, d, login_rsp_ini_err ISCSI_STATUS_SESSION_NOT_FOUND c) else Some (0, d, c)
      end
  end.

Definition init_conn_session_params (d : daemon) (c : connection) : Z * connection :=
  match target_find_by_id d (c_tid c) with
  | None => (- ENOENT, c)
  | Some t => (0, c <|session_params := zip_with (fun p v => p <|val := v|>) (session_params c) (t_session_params t)|>)
  end.

(** ["%d"]. *)
Definition print_d (n : Z) : list Z := if n <? 0 then 45 :: print_u (- n) else print_u n.

Definition target_redirected (e : env) (t : target) (c : connection) : bool * connection :=
  match redirect_addr t, sock_addr e with
  | [], _ => (false, c)
  | _, None => (false, c)
  | ra, Some addr => if negb (strcmp_eq ra addr) then (true, text_key_add e (str "TargetAddress") (ra ++ [58] ++ print_d (redirect_port t)) c) else (false, c)
  end.

(** The checks of a login to a target, up to the count of its sessions. *)
Definition login_target (e : env) (p : nat) (req : pdu) (name : list Z) (target_name : option (list Z)) (d : daemon) (c : connection) : option (daemon * connection) :=
  match target_name with
  | None => Some (d, login_rsp_ini_err ISCSI_STATUS_MISSING_FIELDS c)
  | Some target_name =>
      match target_find_by_name d target_name with
      | None => Some (d, login_rsp_ini_err ISCSI_STATUS_TGT_NOT_FOUND c)
      | Some t =>
          let c := c <|c_target := Some (t_tid t)|> in
          if negb (iscsi_enabled d) then Some (d, (login_rsp_tgt_err 0 c) <|state := STATE_DROP|>)
          else if negb (tgt_enabled t) then Some (d, (login_rsp_tgt_err 0 c) <|state := STATE_DROP|>)
          else
            let c := c <|c_tid := t_tid t|> in
            portal_ok ← target_portal_allowed e t (target_portal c) name;
            if negb (access_allowed e (t_tid t)) || negb portal_ok || negb (isns_scn_access_allowed d (t_tid t) name) then Some (d, login_rsp_ini_err ISCSI_STATUS_TGT_NOT_FOUND c)
            else
              let '(redirected, c) := target_redirected e t c in
              if redirected : bool then Some (d, (upd_rsp (fun r => r <|status_class := ISCSI_STATUS_REDIRECT|> <|status_detail := redirect_type t|>) c) <|state := STATE_EXIT|>)
              else
                let '(err, c) := init_conn_session_params d c in
                if negb (err =? 0) then Some (d, login_rsp_tgt_err ISCSI_STATUS_TARGET_ERROR c)
                else
                  '(rc, d, c) ← login_check_reinstatement p req d c;
                  let count d c := (upd_target (fun t => t <|sessions_count := u32 (sessions_count t + 1)|>) (t_tid t) d, c <|sessions_count_incremented := true|>) in
                  if rc <? 0 then Some (d, c)
                  else if rc =? ISCSI_SESS_REINSTATEMENT then Some (count d c)
                  else if negb (rc =? ISCSI_CONN_REINSTATEMENT) then
                    let max := nth key_max_sessions (target_params t) 0 in
                    if (max =? 0) || (sessions_count t <? max) then Some (count d c)
                    else Some (d, login_rsp_tgt_err ISCSI_STATUS_NO_RESOURCES c)
                  else Some (d, c)
      end
  end.

Definition login_start (e : env) (p : nat) (req : pdu) (d : daemon) (c : connection) : option (daemon * connection) :=
  let c := c <|c_cid := req_cid req|> <|c_sid := req_sid req|> in
  match text_key_find (data req) (str "InitiatorName") with
  | None => Some (d, login_rsp_ini_err ISCSI_STATUS_MISSING_FIELDS c)
  | Some name =>
      let '(dup, c) := conn_malloc e (S (length name)) c in
      match dup with
      | None => Some (d, login_rsp_tgt_err ISCSI_STATUS_NO_RESOURCES c)
      | Some _ =>
          let c := c <|c_initiator := Some name|> in
          let session_type' := text_key_find (data req) (str "SessionType") in
          let target_name := text_key_find (data req) (str "TargetName") in
          let c := c <|auth_method := AUTH_UNKNOWN|> <|session_type := SESSION_NORMAL|> in
          let finish d c := Some (d, text_key_add e (str "TargetPortalGroupTag") (str "1") (c <|c_exp_cmd_sn := cmd_sn req|>)) in
          let normal :=
            '(d, c) ← login_target e p req name target_name d c;
            if status_class (rsp c) =? 0 then finish d c else Some (d, c) in
          match session_type' with
          | None => normal
          | Some ty =>
              if strcmp_eq ty (str "Discovery") then finish d (c <|session_type := SESSION_DISCOVERY|>)
              else if negb (strcmp_eq ty (str "Normal")) then Some (d, login_rsp_ini_err ISCSI_STATUS_INV_SESSION_TYPE c)
              else normal
          end
      end
  end.

(** The SID of a session of a target. *)
Definition sid_of_session (d : daemon) (tid : Z) (id : nat) : option iscsi_sid := s_sid <$> find (fun s => (s_id s =? id)%nat) (sessions_of d tid).

Definition login_finish (e : env) (p : nat) (d : daemon) (c : connection) : option (Z * daemon * connection) :=
  if session_type c =? SESSION_NORMAL then
    '(res, d, c) ← (match sess c with None => session_create e p d c | Some _ => Some (0, d, c) end);
    if res =? 0 then id ← sess c; sid ← sid_of_session d (c_tid c) id; Some (res, d, c <|c_sid := sid|>)
    else Some (res, d, c)
  else if session_type c =? SESSION_DISCOVERY then Some (0, d, c <|c_sid := (c_sid c) <|tsih := 1|> |>)
  else Some (0, d, c).

(** ** A login request *)

Definition cmnd_exec_auth (e : env) (req : pdu) (d : daemon) (c : connection) : option (Z * daemon * connection) :=
  if auth_method c =? AUTH_CHAP then cmnd_exec_auth_chap e (data req) d c
  else if auth_method c =? AUTH_NONE then Some (0, d, c)
  else Some (-3, d, c).

(** Where a part of [cmnd_exec_login] goes on. *)
Inductive login_next : Set := Go | Return | InitErr | AuthErr | TargetErr | NoMem.

Definition exec_security (e : env) (p : nat) (req : pdu) (d : daemon) (c : connection) : option (login_next * daemon * connection) :=
  let c := upd_rsp (fun r => r <|r_flags := ISCSI_FLG_CSG_SECURITY|>) c in
  let scan d c :=
    let c := text_scan_security e req d c in
    if negb (status_class (rsp c) =? 0) then (Return, d, c)
    else if negb (auth_method c =? AUTH_NONE) then (Go, d, c <|state := STATE_SECURITY_AUTH|> <|auth_state := AUTH_STATE_START|>)
    else (Go, d, c) in
  if state c =? STATE_FREE then
    '(d, c) ← login_start e p req d (c <|state := STATE_SECURITY|>);
    Some (if negb (status_class (rsp c) =? 0) then (Return, d, c) else scan d c)
  else if state c =? STATE_SECURITY then Some (scan d c)
  else if state c =? STATE_SECURITY_AUTH then
    '(res, d, c) ← cmnd_exec_auth e req d c;
    Some (if res =? 0 then Go else if res =? -2 then AuthErr else InitErr, d, c)
  else Some (InitErr, d, c).

(** Also whether the negotiation has to go on ([stay]). *)
Definition exec_operational (e : env) (p : nat) (req : pdu) (d : daemon) (c : connection) : option (login_next * Z * daemon * connection) :=
  let c := upd_rsp (fun r => r <|r_flags := ISCSI_FLG_CSG_LOGIN|>) c in
  let scan d c :=
    let c := text_scan_login e req d c in
    if negb (status_class (rsp c) =? 0) then (Return, 0, d, c)
    else let '(c, stay) := text_check_params e d c in (Go, stay, d, c) in
  if state c =? STATE_FREE then
    '(d, c) ← login_start e p req d (c <|state := STATE_LOGIN|>);
    Some (if negb (status_class (rsp c) =? 0) then (Return, 0, d, c) else if negb (accounts_empty d (c_tid c) INCOMING) then (AuthErr, 0, d, c) else scan d c)
  else if state c =? STATE_LOGIN then Some (scan d c)
  else Some (InitErr, 0, d, c).

Definition put_flags (stay nsg : Z) (c : connection) : connection :=
  upd_rsp (fun r => r <|r_flags := Z.lor (r_flags r) (Z.lor nsg (if stay =? 0 then ISCSI_FLG_TRANSIT else 0))|>) c.

(** The last parameters, and the session. *)
Definition exec_finish (e : env) (p : nat) (stay nsg : Z) (d : daemon) (c : connection) : option (login_next * daemon * connection) :=
  let '(c, _) := text_check_params e d c in
  '(err, d, c) ← login_finish e p d c;
  Some (if negb (err =? 0) then (NoMem, d, c) else (Go, d, put_flags stay nsg c)).

(** The transition to the next stage. *)
Definition exec_transit (e : env) (p : nat) (req : pdu) (stay : Z) (d : daemon) (c : connection) : option (login_next * daemon * connection) :=
  let nsg := Z.land (flags req) ISCSI_FLG_NSG_MASK in
  let secure := (state c =? STATE_SECURITY) || (state c =? STATE_SECURITY_DONE) in
  if nsg =? ISCSI_FLG_NSG_LOGIN then
    if secure then Some (Go, d, put_flags stay nsg (c <|state := STATE_SECURITY_LOGIN|>)) else Some (InitErr, d, c)
  else if nsg =? ISCSI_FLG_NSG_FULL_FEATURE then
    if secure then
      let '(c, nsg_disagree) := text_check_params e d c in
      if negb (nsg_disagree =? 0) then Some (Go, d, put_flags stay ISCSI_FLG_NSG_LOGIN (c <|state := STATE_LOGIN|>))
      else
        let c := c <|state := STATE_SECURITY_FULL|> in
        if stay =? 0 then exec_finish e p stay nsg d c else Some (Go, d, put_flags stay nsg c)
    else if state c =? STATE_LOGIN then
      if negb (stay =? 0) then Some (Go, d, put_flags stay ISCSI_FLG_NSG_LOGIN c)
      else exec_finish e p stay nsg d (c <|state := STATE_LOGIN_FULL|>)
    else Some (InitErr, d, c)
  else Some (InitErr, d, c).

Definition login_end (next : login_next) (c : connection) : connection :=
  let clear := upd_rsp (fun r => r <|r_flags := 0|>) in
  match next with
  | Go =>
      match rsp_buf_list c with
      | _ :: _ :: _ => login_rsp_tgt_err ISCSI_STATUS_TARGET_ERROR (clear c)
      | _ => put_sn (upd_rsp (fun r => r <|r_sid := c_sid c|>) c)
      end
  | Return => c
  | InitErr => login_rsp_ini_err ISCSI_STATUS_INIT_ERR (clear c)
  | AuthErr => login_rsp_ini_err ISCSI_STATUS_AUTH_FAILED (clear c)
  | TargetErr => login_rsp_tgt_err ISCSI_STATUS_TARGET_ERROR (clear c)
  | NoMem => login_rsp_tgt_err ISCSI_STATUS_NO_RESOURCES (clear c)
  end.

Definition cmnd_exec_login (e : env) (p : nat) (req : pdu) (d : daemon) (c : connection) : option (daemon * connection) :=
  let c := c <|rsp := rsp_zero|> in
  if negb (Z.land (opcode req) ISCSI_OPCODE_MASK =? ISCSI_OP_LOGIN_CMD) || negb (tst (opcode req) ISCSI_OP_IMMEDIATE) then Some (d, cmnd_reject e req ISCSI_REASON_PROTOCOL_ERROR c)
  else
    let c := upd_rsp (fun r => r <|r_opcode := ISCSI_OP_LOGIN_RSP|> <|r_itt := itt req|>) c in
    if ISCSI_VERSION <? min_version req then Some (d, login_rsp_ini_err ISCSI_STATUS_NO_VERSION c)
    else
      let csg := Z.land (flags req) ISCSI_FLG_CSG_MASK in
      '(next, stay, d, c) ←
        (if csg =? ISCSI_FLG_CSG_SECURITY then '(next, d, c) ← exec_security e p req d c; Some (next, 0, d, c)
         else if csg =? ISCSI_FLG_CSG_LOGIN then exec_operational e p req d c
         else Some (InitErr, 0, d, c));
      '(next, d, c) ←
        (match next with
         | Go =>
             if negb (status_class (rsp c) =? 0) then Some (Return, d, c)
             else if negb (state c =? STATE_SECURITY_AUTH) && tst (flags req) ISCSI_FLG_TRANSIT then exec_transit e p req stay d c
             else Some (Go, d, c)
         | _ => Some (next, d, c)
         end);
      Some (d, login_end next c).

(** ** Text and logout requests *)

Definition target_print_addr (e : env) (inet6 : bool) (addr : list Z) (c : connection) : connection :=
  let text := (if inet6 then [91] ++ addr ++ [93] else addr) ++ [58] ++ print_d (server_port e) ++ str ",1" in
  text_key_add e (str "TargetAddress") text c.

(** One more address, unless it is the portal of the connection, a loopback address or
    not allowed. *)
Definition list_addr (e : env) (inet6 : bool) (t : target) (c : connection) (addr : list Z) : option connection :=
  if strcmp_eq (target_portal c) addr || is_addr_loopback e addr then Some c
  else ok ← target_portal_allowed e t addr (default [] (c_initiator c)); Some (if ok : bool then target_print_addr e inet6 addr c else c).

Fixpoint list_addrs (e : env) (inet6 : bool) (t : target) (l : list (list Z)) (c : connection) : option connection :=
  match l with
  | [] => Some c
  | a :: l => c ← list_addr e inet6 t c a; list_addrs e inet6 t l c
  end.

Definition list_target (e : env) (inet6 : bool) (d : daemon) (target_name : option (list Z)) (c : connection) (t : target) : option connection :=
  if (match target_name with Some n => negb (strcmp_eq (t_name t) n) | None => false end) then Some c
  else
    let name := default [] (c_initiator c) in
    ok ← target_portal_allowed e t (target_portal c) name;
    if negb (tgt_enabled t) || negb (isns_scn_access_allowed d (t_tid t) name) || negb (access_allowed e (t_tid t)) || negb ok then Some c
    else
      let c := text_key_add e (str "TargetName") (t_name t) c in
      let c := target_print_addr e inet6 (target_portal c) c in
      list_addrs e inet6 t (concat (map (fun s => match s with Addr a => [a] | AnyAddr l => l end) (listening e))) c.

Fixpoint list_targets (e : env) (inet6 : bool) (d : daemon) (target_name : option (list Z)) (l : list target) (c : connection) : option connection :=
  match l with
  | [] => Some c
  | t :: l => c ← list_target e inet6 d target_name c t; list_targets e inet6 d target_name l c
  end.

Definition target_list_build (e : env) (d : daemon) (target_name : option (list Z)) (c : connection) : option connection :=
  match sock_inet6 e with None => Some c | Some inet6 => list_targets e inet6 d target_name (targets_list d) c end.

(** No result when the value is empty and the connection has no session: the code follows
    the null pointer. *)
Fixpoint scan_text_pairs (e : env) (req : pdu) (d : daemon) (l : list (list Z * list Z)) (c : connection) : option (Z * connection) :=
  match l with
  | [] => Some (0, c)
  | (key, value) :: l =>
      if strcmp_eq key (str "SendTargets") then
        value ← (match value with [] => _ ← sess c; t_name <$> target_find_by_id d (c_tid c) | _ => Some value end);
        if strcasecmp_eq value (str "All") && negb (session_type c =? SESSION_DISCOVERY) then Some (- EINVAL, cmnd_reject e req ISCSI_REASON_PROTOCOL_ERROR c)
        else
          c ← target_list_build e d (if strcmp_eq value (str "All") then None else Some value) c;
          scan_text_pairs e req d l c
      else scan_text_pairs e req d l (text_key_add e key (str "NotUnderstood") c)
  end.

Definition text_scan_text (e : env) (req : pdu) (d : daemon) (c : connection) : option (Z * connection) := scan_text_pairs e req d (text_pairs (data req)) c.

(** [get_next_ttt]. *)
Definition get_next_ttt (d : daemon) : Z * daemon :=
  let t := u32 (next_ttt d + 1) in
  let t := if t =? ISCSI_RESERVED_TAG then u32 (t + 1) else t in (t, d <|next_ttt := t|>).

(** The command number that is expected after a request. *)
Definition take_cmd_sn (req : pdu) (c : connection) : connection :=
  c <|c_exp_cmd_sn := if tst (opcode req) ISCSI_OP_IMMEDIATE then cmd_sn req else u32 (cmd_sn req + 1)|>.

Definition at_most_one (l : list (list Z)) : bool := match l with _ :: _ :: _ => false | _ => true end.

Definition text_end (c : connection) : connection :=
  let c := if at_most_one (rsp_buf_list c) then upd_rsp (fun r => r <|r_flags := ISCSI_FLG_FINAL|>) (c <|c_ttt := ISCSI_RESERVED_TAG|>) else c in
  put_sn (upd_rsp (fun r => r <|r_ttt := c_ttt c|>) c).

Definition cmnd_exec_text (e : env) (req : pdu) (d : daemon) (c : connection) : option (daemon * connection) :=
  let c := c <|rsp := rsp_zero <|r_opcode := ISCSI_OP_TEXT_RSP|> <|r_itt := itt req|> |> in
  let c := take_cmd_sn req c in
  if req_ttt req =? ISCSI_RESERVED_TAG then
    '(rc, c) ← text_scan_text e req d (conn_free_rsp_buf_list c);
    if negb (rc =? 0) then Some (d, c)
    else if at_most_one (rsp_buf_list c) then Some (d, text_end (c <|c_ttt := ISCSI_RESERVED_TAG|>))
    else let '(t, d) := get_next_ttt d in Some (d, text_end (c <|c_ttt := t|>))
  else if (match rsp_buf_list c with [] => true | _ => false end) || negb (c_ttt c =? req_ttt req) then Some (d, cmnd_reject e req ISCSI_REASON_INVALID_PDU_FIELD c)
  else Some (d, text_end c).

Definition cmnd_exec_logout (req : pdu) (c : connection) : connection :=
  put_sn (take_cmd_sn req (c <|rsp := rsp_zero <|r_opcode := ISCSI_OP_LOGOUT_RSP|> <|r_flags := ISCSI_FLG_FINAL|> <|r_itt := itt req|> |>)).

(** ** A request *)

(** The first segment of the response goes with its header. *)
Definition take_segment (c : connection) : connection :=
  match rsp_buf_list c with
  | [] => upd_rsp (fun r => r <|r_data := []|>) c
  | seg :: l => upd_rsp (fun r => r <|r_data := seg|>) (c <|rsp_buf_list := l|>)
  end.

(** The result is 0 when the connection has to end. *)
Definition cmnd_execute (e : env) (p : nat) (req : pdu) (d : daemon) (c : connection) : option (Z * daemon * connection) :=
  let op := Z.land (opcode req) ISCSI_OPCODE_MASK in
  if op =? ISCSI_OP_LOGIN_CMD then
    if state c =? STATE_FULL then Some (1, d, take_segment (cmnd_reject e req ISCSI_REASON_PROTOCOL_ERROR c))
    else
      '(d, c) ← cmnd_exec_login e p req d c;
      let c := if negb (status_class (rsp c) =? 0) && negb (status_class (rsp c) =? ISCSI_STATUS_REDIRECT) then conn_free_rsp_buf_list c else c in
      Some (1, d, take_segment c)
  else if op =? ISCSI_OP_TEXT_CMD then
    if negb (state c =? STATE_FULL) then Some (1, d, take_segment (cmnd_reject e req ISCSI_REASON_PROTOCOL_ERROR c))
    else '(d, c) ← cmnd_exec_text e req d c; Some (1, d, take_segment c)
  else if op =? ISCSI_OP_LOGOUT_CMD then
    if negb (state c =? STATE_FULL) then Some (1, d, take_segment (cmnd_reject e req ISCSI_REASON_PROTOCOL_ERROR c))
    else Some (1, d, take_segment (cmnd_exec_logout req c))
  else Some (0, d, cmnd_reject e req ISCSI_REASON_UNSUPPORTED_COMMAND c).

Definition cmnd_finish (c : connection) : connection :=
  let c := upd_rsp (fun r => r <|r_data := []|>) c in
  if state c =? STATE_SECURITY_LOGIN then c <|state := STATE_LOGIN|>
  else if (state c =? STATE_SECURITY_FULL) || (state c =? STATE_LOGIN_FULL) then
    c <|state := if session_type c =? SESSION_NORMAL then STATE_KERNEL else STATE_FULL|>
  else c.

(** No result when the connection has no session: the code follows the null pointer. *)
Definition conn_pass_to_kern (e : env) (c : connection) : option connection :=
  _ ← sess c; Some (if add_conn e =? 0 then c <|passed_to_kern := true|> else c).

(** ** The life of a connection *)

(** What happens on the socket: a whole request is read and its response written, or the
    write fails, or the read fails (also when a request announces more than the daemon
    takes). *)
Inductive conn_event : Type := EvPdu (e : env) (req : pdu) | EvWriteFails (e : env) (req : pdu) | EvReadFails.

Definition ended (c : connection) : bool := (state c =? STATE_CLOSE) || (state c =? STATE_EXIT) || (state c =? STATE_DROP).

(** What follows when the response is written. *)
Definition conn_written (e : env) (c : connection) : option connection :=
  let c := cmnd_finish c in
  if state c =? STATE_KERNEL then c ← conn_pass_to_kern e c; Some (c <|state := if passed_to_kern c then STATE_CLOSE else STATE_EXIT|>) else Some c.

(** [event_conn], for a request that fits. *)
Definition event_conn (p : nat) (ev : conn_event) (d : daemon) (c : connection) : option (daemon * connection) :=
  match ev with
  | EvReadFails => Some (d, c <|state := STATE_DROP|>)
  | EvPdu e req | EvWriteFails e req =>
      '(res, d, c) ← cmnd_execute e p req d (conn_write_pdu c);
      let c := if res =? 0 then c <|state := STATE_EXIT|> else c in
      if state c =? STATE_DROP then Some (d, c)
      else match ev with
           | EvPdu _ _ => c ← conn_written e c; Some (d, c)
           | _ => Some (d, c <|state := STATE_DROP|>)
           end
  end.

(** The end of a connection, in [event_loop]; a connection that was passed to the kernel
    stays in its session. *)
Definition conn_close (p : nat) (d : daemon) (c : connection) : daemon :=
  if state c =? STATE_CLOSE then d
  else if passed_to_kern c then d
  else
    let d := match sess c, c_target c with
             | None, Some tid => if sessions_count_incremented c then upd_target (fun t => t <|sessions_count := u32 (sessions_count t - 1)|>) tid d else d
             | _, _ => d
             end in
    match sess c with
    | None => d
    | Some id =>
        let d := upd_target (upd_session (fun s => s <|conn_list := filter (fun pc => fst pc <> p) (conn_list s)|>) id) (c_tid c) d in
        match find (fun s => (s_id s =? id)%nat) (sessions_of d (c_tid c)) with
        | Some s => match conn_list s with [] => session_free (c_tid c) id d | _ => d end
        | None => d
        end
    end.

(** The kernel closed a connection ([E_CONN_CLOSE]). *)
Definition kernel_conn_closed (tid : Z) (sid : iscsi_sid) (cid : Z) (d : daemon) : daemon :=
  match session_find_id d tid sid with
  | None => d
  | Some s =>
      match conn_find s cid with
      | None => d
      | Some (q, _) =>
          let l := filter (fun pc => fst pc <> q) (conn_list s) in
          let d := upd_target (upd_session (fun s => s <|conn_list := l|>) (s_id s)) tid d in
          match l with [] => session_free tid (s_id s) d | _ => d end
      end
  end.
