(* ===== verification/IscsiAuth.v ===== *)
(** * The login of the iSCSI daemon: authentication

    A connection to a target with accounts gets past the security stage only with the
    response to the challenge that the daemon sent on it. *)

From S2P Require Import Prelude CStr Hash ChapCode ChapThms IscsiText IscsiParam Wild IscsiConn IscsiChap IscsiLogin.

(** ** The parts of a connection that decide *)

Record sec : Type := mkSec { v_state : Z; v_tid : Z; v_method : Z; v_auth : Z; v_class : Z }.

Definition sec_of (c : connection) : sec := mkSec (state c) (c_tid c) (auth_method c) (auth_state c) (status_class (rsp c)).

Lemma sec_text_key_add e k v c : sec_of (text_key_add e k v c) = sec_of c.
Proof. unfold text_key_add. destruct (segs_add _ _ _ _ _ _) as [a [|s l]]; done. Qed.

#[local] Opaque text_key_add segs_add challenge_bytes pick_alg text_key_find.

Lemma sec_conn_malloc e n c : sec_of (conn_malloc e n c).2 = sec_of c.
Proof. done. Qed.

Lemma sec_put_key_state i s c : sec_of (put_key_state i s c) = sec_of c.
Proof. done. Qed.

Lemma sec_check_param e i k c : sec_of (check_param e i k c).1 = sec_of c.
Proof. unfold check_param. repeat case_match; try done; cbn [fst]; by rewrite ?sec_put_key_state, sec_text_key_add. Qed.

Lemma sec_check_params e keys : forall i c n, sec_of (check_params e i keys c n).1 = sec_of c.
Proof.
  induction keys as [|k keys IH]; intros i c n; cbn [check_params]; [done|]. pose proof (sec_check_param e i k c) as H. destruct (check_param e i k c) as [c' m]. rewrite IH. exact H.
Qed.

Lemma sec_text_check_params e d c : sec_of (text_check_params e d c).1 = sec_of c.
Proof. apply sec_check_params. Qed.

(** A part of the login that either fails, which ends the connection, or leaves the
    state alone. *)
Definition fails (c : connection) : Prop := (state c = STATE_EXIT \/ state c = STATE_DROP) /\ status_class (rsp c) <> 0.

Lemma fails_ini s c : fails (login_rsp_ini_err s c).
Proof. split; [by left|done]. Qed.

Lemma fails_tgt s c : fails (login_rsp_tgt_err s c).
Proof. split; [by left|done]. Qed.

Lemma scan_login_pair_sec e keys k v c : let r := scan_login_pair e keys k v c in if r.1 then fails r.2 else sec_of r.2 = sec_of c.
Proof.
  cbn zeta. unfold scan_login_pair. destruct (is_login_key k); [done|]. destruct (strcmp_eq k (str "AuthMethod")); [done|]. destruct (params_index_by_name k keys) as [idx|]; [|apply sec_text_key_add].
  destruct (idx =? key_max_xmit_data_length)%nat; [apply sec_text_key_add|].
  set (g := if (idx =? key_max_recv_data_length)%nat then (key_max_xmit_data_length, put_key_state idx KEY_STATE_DONE c) else (idx, c)). assert (Hg : sec_of g.2 = sec_of c) by (unfold g; by case_match).
  clearbody g. destruct g as [i c1]. cbn [snd] in Hg. destruct (params_str_to_val _ _ _) as [x|]; [|destruct (_ =? KEY_STATE_START); cbn [fst snd]; [unfold text_key_add_reject; by rewrite sec_text_key_add|apply fails_ini]].
  unfold params_set_val. destruct (_ =? KEY_STATE_START); [destruct (iscsi_is_key_internal i)|destruct (_ =? KEY_STATE_REQUEST); [destruct (negb _)|]]; cbn [fst snd]; rewrite ?sec_put_key_state, ?sec_text_key_add; first [done | apply fails_ini].
Qed.

Lemma text_scan_login_sec e req d c : fails (text_scan_login e req d c) \/ sec_of (text_scan_login e req d c) = sec_of c.
Proof.
  unfold text_scan_login. generalize (text_pairs (data req)) as l. intros l. revert c. induction l as [|[k v] l IH]; intros c; cbn [scan_login_pairs]; [by right|].
  pose proof (scan_login_pair_sec e (session_keys d) k v c) as H. destruct (scan_login_pair e (session_keys d) k v c) as [[|] c']; cbn [fst snd] in H; [by left|]. rewrite <- H. apply IH.
Qed.

(** ** The choice of a method *)

Definition with_method (m : Z) (s : sec) : sec := mkSec (v_state s) (v_tid s) m (v_auth s) (v_class s).

(** The method is kept, or the one that the accounts of the target ask for. *)
Definition method_step (d : daemon) (s s' : sec) : Prop :=
  s' = s \/ s' = with_method (if accounts_empty d (v_tid s) INCOMING then AUTH_NONE else AUTH_CHAP) s.

Lemma method_step_trans d s s' s'' : method_step d s s' -> method_step d s' s'' -> method_step d s s''.
Proof. intros [->| ->] [->| ->]; unfold method_step; auto. Qed.

Lemma scan_auth_method_sec e d k fuel : forall v c, method_step d (sec_of c) (sec_of (scan_auth_method fuel e d k v c)).
Proof.
  induction fuel as [|fuel IH]; intros v c; cbn [scan_auth_method]; [by left|]. destruct (split_at_char 44 v) as [x next].
  assert (Hc : method_step d (sec_of c) (sec_of (match next with None => c | Some next => scan_auth_method fuel e d k next c end))) by (destruct next; [apply IH|by left]).
  destruct (strcmp_eq x (str "None")); [destruct (accounts_empty d (c_tid c) INCOMING) eqn:E; cbn [negb]; [|done]|destruct (strcmp_eq x (str "CHAP")); [destruct (accounts_empty d (c_tid c) INCOMING) eqn:E; [done|]|done]];
    rewrite sec_text_key_add; right; cbn [v_tid sec_of]; by rewrite E.
Qed.

Lemma scan_security_pair_sec e d c kv : method_step d (sec_of c) (sec_of (scan_security_pair e d c kv)).
Proof.
  unfold scan_security_pair. destruct kv as [k v]. destruct (is_login_key k); [by left|]. destruct (strcmp_eq k (str "AuthMethod")); [|left; apply sec_text_key_add].
  case_match; [unfold text_key_add_reject; rewrite sec_text_key_add|]; apply scan_auth_method_sec.
Qed.

Lemma text_scan_security_sec e req d c : let c' := text_scan_security e req d c in
  fails c' \/ (method_step d (sec_of c) (sec_of c') /\ auth_method c' <> AUTH_UNKNOWN).
Proof.
  cbn zeta. unfold text_scan_security. set (c1 := foldl _ c _). assert (H : method_step d (sec_of c) (sec_of c1)).
  { unfold c1. generalize (text_pairs (data req)) as l. intros l. revert c c1. induction l as [|kv l IH]; intros c c1; cbn [foldl]; [by left|]. eapply method_step_trans; [apply scan_security_pair_sec|apply IH]. }
  clearbody c1. destruct (Z.eqb_spec (auth_method c1) AUTH_UNKNOWN); [left; apply fails_ini|by right].
Qed.

(** ** The configuration does not change *)

(** A change of targets that leaves their numbers and accounts alone. *)
Definition same_accounts (d d' : daemon) : Prop := forall tid dir, accounts_of d' tid dir = accounts_of d tid dir.

Lemma same_accounts_refl d : same_accounts d d.
Proof. done. Qed.

Lemma same_accounts_trans d d' d'' : same_accounts d d' -> same_accounts d' d'' -> same_accounts d d''.
Proof. intros H H' tid dir. by rewrite H', H. Qed.

Lemma find_upd_target f tid d id : (forall t, t_tid (f t) = t_tid t) -> target_find_by_id (upd_target f tid d) id = (fun t => if t_tid t =? tid then f t else t) <$> target_find_by_id d id.
Proof.
  intros Hf. unfold target_find_by_id, upd_target. change (targets_list (d <|targets_list := map (fun t => if t_tid t =? tid then f t else t) (targets_list d)|>)) with (map (fun t => if t_tid t =? tid then f t else t) (targets_list d)).
  induction (targets_list d) as [|t l IH]; [done|]. cbn [map find]. assert (E : t_tid (if t_tid t =? tid then f t else t) = t_tid t) by (case_match; auto). rewrite E. destruct (t_tid t =? id); [done|exact IH].
Qed.

Lemma same_accounts_upd f tid d : (forall t, t_tid (f t) = t_tid t /\ target_in_accounts (f t) = target_in_accounts t /\ target_out_accounts (f t) = target_out_accounts t) -> same_accounts d (upd_target f tid d).
Proof.
  intros Hf id dir. unfold accounts_of. destruct (id =? 0); [by destruct dir|]. rewrite find_upd_target by (intros t; apply Hf). destruct (target_find_by_id d id) as [t|]; [|done].
  cbn [fmap option_fmap option_map]. destruct (Hf t) as (_ & H1 & H2). destruct (t_tid t =? tid); [|done]. f_equal. unfold account_list_get. by destruct dir.
Qed.

Lemma accounts_empty_same d d' tid dir : same_accounts d d' -> accounts_empty d' tid dir = accounts_empty d tid dir.
Proof. intros H. unfold accounts_empty. by rewrite H. Qed.

Lemma same_accounts_session_free tid id d : same_accounts d (session_free tid id d).
Proof. by apply same_accounts_upd. Qed.

#[local] Hint Resolve same_accounts_refl same_accounts_session_free : iscsi.

(** ** The start of a login *)

Ltac some := repeat match goal with
  | H : Some _ = Some _ |- _ => injection H as H
  | H : (_, _) = (_, _) |- _ => injection H as H
  | H : None = Some _ |- _ => discriminate H
  end; subst.

Lemma login_check_reinstatement_sec p req d c rc d' c' : login_check_reinstatement p req d c = Some (rc, d', c') -> same_accounts d d' /\ (if rc <? 0 then fails c' else sec_of c' = sec_of c).
Proof.
  unfold login_check_reinstatement. destruct (sess c); [done|]. destruct (session_find_name _ _ _ _) as [s|]; intros H; repeat case_match; some; cbn; (split; [try done; by apply same_accounts_upd|]); first [done | apply fails_ini].
Qed.

Lemma target_redirected_sec e t c : sec_of (target_redirected e t c).2 = sec_of c.
Proof. unfold target_redirected. repeat case_match; cbn [snd]; first [done | apply sec_text_key_add]. Qed.

Definition with_tid (tid : Z) (s : sec) : sec := mkSec (v_state s) tid (v_method s) (v_auth s) (v_class s).

Lemma login_target_sec e p req name tn d c d' c' : login_target e p req name tn d c = Some (d', c') ->
  same_accounts d d' /\ (fails c' \/ exists tid, sec_of c' = with_tid tid (sec_of c)).
Proof.
  unfold login_target. destruct tn as [tn|]; [|intros ?; some; split; [done|left; apply fails_ini]]. destruct (target_find_by_name d tn) as [t|]; [|intros ?; some; split; [done|left; apply fails_ini]].
  destruct (negb (iscsi_enabled d)); [intros ?; some; split; [done|left; split; [by right|done]]|]. destruct (negb (tgt_enabled t)); [intros ?; some; split; [done|left; split; [by right|done]]|].
  set (c1 := (c <|c_target := Some (t_tid t)|>) <|c_tid := t_tid t|>). assert (H1 : sec_of c1 = with_tid (t_tid t) (sec_of c)) by done. clearbody c1.
  destruct (target_portal_allowed _ _ _ _) as [ok|]; cbn [mbind option_bind]; [|done]. destruct (_ || _); [intros ?; some; split; [done|left; apply fails_ini]|].
  pose proof (target_redirected_sec e t c1) as H2. destruct (target_redirected e t c1) as [[|] c2]; cbn [snd] in H2; [intros ?; some; split; [done|left; split; [by left|done]]|].
  unfold init_conn_session_params. destruct (target_find_by_id d (c_tid c2)) as [t'|]; [change (negb (0 =? 0)) with false|change (negb (- ENOENT =? 0)) with true]; cbn iota; [|intros ?; some; split; [done|left; apply fails_tgt]].
  set (c3 := c2 <|session_params := _|>). assert (H3 : sec_of c3 = with_tid (t_tid t) (sec_of c)) by (rewrite <- H1, <- H2; done). clearbody c3.
  destruct (login_check_reinstatement p req d c3) as [[[rc d4] c4]|] eqn:E; cbn [mbind option_bind]; [|done]. apply login_check_reinstatement_sec in E as [Ha E]. destruct (rc <? 0); [intros ?; some; split; [done|by left]|].
  assert (Hcount : same_accounts d (upd_target (fun t => t <|sessions_count := u32 (sessions_count t + 1)|>) (t_tid t) d4)) by (eapply same_accounts_trans; [exact Ha|by apply same_accounts_upd]).
  destruct (rc =? ISCSI_SESS_REINSTATEMENT); [intros ?; some; split; [done|right; exists (t_tid t); by rewrite <- H3, <- E]|].
  destruct (negb (rc =? ISCSI_CONN_REINSTATEMENT)); [destruct (_ || _)|]; intros ?; some; (split; [done|]); [right; exists (t_tid t); by rewrite <- H3, <- E|left; apply fails_tgt|right; exists (t_tid t); by rewrite <- H3, <- E].
Qed.

Lemma login_start_sec e p req d c d' c' : login_start e p req d c = Some (d', c') -> status_class (rsp c) = 0 ->
  same_accounts d d' /\ (fails c' \/ exists tid, sec_of c' = mkSec (state c) tid AUTH_UNKNOWN (auth_state c) 0).
Proof.
  intros H Hc. unfold login_start in H. destruct (text_key_find _ _) as [name|]; [|some; split; [done|left; apply fails_ini]].
  unfold conn_malloc in H. destruct (mem e _); [|some; split; [done|left; apply fails_tgt]]. match type of H with context [login_target _ _ _ _ _ _ ?x] => set (c1 := x) in H end.
  assert (H1 : sec_of c1 = mkSec (state c) (c_tid c) AUTH_UNKNOWN (auth_state c) 0) by (unfold sec_of, c1; cbn; by rewrite Hc).
  assert (Hn : forall tn d' c', (('(d, c) ← login_target e p req name tn d c1; if status_class (rsp c) =? 0 then Some (d, text_key_add e (str "TargetPortalGroupTag") (str "1") (c <|c_exp_cmd_sn := cmd_sn req|>)) else Some (d, c)) = Some (d', c')) ->
    same_accounts d d' /\ (fails c' \/ exists tid, sec_of c' = mkSec (state c) tid AUTH_UNKNOWN (auth_state c) 0)).
  { intros tn d2 c2 E. destruct (login_target e p req name tn d c1) as [[d3 c3]|] eqn:El; cbn in E; [|done]. apply login_target_sec in El as [Ha El].
    destruct (Z.eqb_spec (status_class (rsp c3)) 0) as [Ez|Ez]; some; (split; [done|]).
    - destruct El as [[_ Hf]|[tid El]]; [done|]. right. exists tid. rewrite sec_text_key_add. change (sec_of c3 = mkSec (state c) tid AUTH_UNKNOWN (auth_state c) 0). by rewrite El, H1.
    - destruct El as [Hf|[tid El]]; [by left|]. rewrite H1 in El. by injection El. }
  clearbody c1. destruct (text_key_find (data req) (str "SessionType")) as [ty|]; [|eapply Hn; exact H].
  destruct (strcmp_eq ty (str "Discovery")).
  - some. split; [done|]. right. exists (c_tid c). rewrite sec_text_key_add. exact H1.
  - destruct (negb _); [some; split; [done|left; apply fails_ini]|eapply Hn; exact H].
Qed.

(** ** The exchange *)

(** The memory that the response is decoded into: the second allocation of the exchange,
    after the copy of the name, with what it holds before it is written. *)
Definition response_mem (e : env) (c : connection) (n : nat) : list Z := map (heap e (S (c_allocs c))) (seq 0 n).

(** The request proves that its sender knows the secret of an account of the target: it
    names the account, and its response decodes to the digest of the identifier and the
    challenge of this connection with the secret.  The decoding starts from the memory of
    the daemon; a hexadecimal response gives the digest whatever the memory holds. *)
Definition proves_secret (e : env) (data : list Z) (d : daemon) (c : connection) : Prop :=
  exists name l a secret value n junk, let digest := chap_calc_digest (digest_alg c) junk (chap_id c) (take (ISCSI_NAME_LEN - 1) secret) (challenge c) in
    text_key_find data (str "CHAP_N") = Some name /\
    accounts_of d (c_tid c) INCOMING = Some l /\ iscsi_attr_lookup_by_key l name = Some a /\ attr_value a = Some secret /\
    text_key_find data (str "CHAP_R") = Some value /\ chap_digest_len (digest_alg c) = Some n /\
    chap_decode_string value (response_mem e c n) (chap_check_encoding_format value) = Some (0, digest) /\
    (chap_check_encoding_format value = HEX_FORMAT -> forall buf, length buf = n -> chap_decode_string value buf HEX_FORMAT = Some (0, digest)).

Definition chap_of (c : connection) : sec * (Z * Z * list Z) := (sec_of c, (digest_alg c, chap_id c, challenge c)).

(** All but the state. *)
Definition rest_of (c : connection) : Z * Z * Z * Z := (c_tid c, auth_method c, auth_state c, status_class (rsp c)).

Lemma rest_of_sec c c' : sec_of c' = sec_of c -> rest_of c' = rest_of c.
Proof. unfold sec_of, rest_of. congruence. Qed.

Lemma rest_set_state s c : rest_of (c <|state := s|>) = rest_of c.
Proof. reflexivity. Qed.

Lemma lookup_user_sec e data d c res pass c' : chap_lookup_user e data d c = Some (res, pass, c') ->
  chap_of c' = chap_of c /\ res <= 0 /\ (res = 0 -> exists name l a secret, text_key_find data (str "CHAP_N") = Some name /\ accounts_of d (c_tid c) INCOMING = Some l /\
    iscsi_attr_lookup_by_key l name = Some a /\ attr_value a = Some secret /\ pass = take (ISCSI_NAME_LEN - 1) secret /\ c_allocs c' = S (c_allocs c)).
Proof.
  unfold chap_lookup_user. destruct (accounts_empty d (c_tid c) INCOMING); [intros ?; some; by split_and!|]. destruct (text_key_find data (str "CHAP_N")) as [name|]; [|intros ?; some; by split_and!].
  unfold conn_malloc. cbn zeta. match goal with |- context [c_tid ?x] => set (c1 := x); assert (H1 : chap_of c1 = chap_of c) by done; assert (Ht : c_tid c1 = c_tid c) by done; assert (Hm : c_allocs c1 = S (c_allocs c)) by done; clearbody c1 end. rewrite Ht. unfold config_account_query.
  destruct (accounts_of d (c_tid c) INCOMING) as [l|]; cbn [mbind option_bind]; [|change (- ENOENT <? 0) with true; cbn iota; intros ?; some; by split_and!]. destruct (iscsi_attr_lookup_by_key l name) as [a|] eqn:Ea; cbn [mbind option_bind]; [|change (- ENOENT <? 0) with true; cbn iota; intros ?; some; by split_and!].
  destruct (attr_value a) as [secret|] eqn:Es; cbn [mbind option_bind]; [|done]. intros ?. some. split_and!; [done|done|]. intros _. by exists name, l, a, secret.
Qed.

Lemma check_response_sec e data d c res c' : chap_initiator_auth_check_response e data d c = Some (res, c') -> res <= 0 /\ (res = 0 -> proves_secret e data d c) /\ rest_of c' = rest_of c.
Proof.
  unfold chap_initiator_auth_check_response. destruct (chap_lookup_user e data d c) as [[[r pass] c1]|] eqn:E; cbn [mbind option_bind]; [|done]. apply lookup_user_sec in E as (Hc & Hr & Hp).
  assert (H1 : rest_of c1 = rest_of c) by (apply rest_of_sec; exact (f_equal fst Hc)). assert (H2 : (digest_alg c1, chap_id c1, challenge c1) = (digest_alg c, chap_id c, challenge c)) by (exact (f_equal snd Hc)). injection H2 as Ha Hi Hch.
  destruct (Z.ltb_spec r 0); [intros ?; some; split_and!; [lia|lia|done]|]. destruct (Hp ltac:(lia)) as (name & l & a & secret & Hn & Hl & Hk & Hs & -> & Hm).
  destruct (text_key_find data (str "CHAP_R")) as [value|] eqn:Ev; [|intros ?; some; by split_and!]. destruct (_ <? 0); [intros ?; some; by split_and!|].
  destruct (chap_digest_len (digest_alg c1)) as [n|] eqn:En; [|intros ?; some; by split_and!]. unfold conn_malloc. destruct (mem e (c_allocs c1)); [|intros ?; some; by split_and!]. cbn zeta. destruct (mem e _); [|intros ?; some; by split_and!].
  destruct (chap_decode_string value _ _) as [[r' his]|] eqn:Ed; cbn [mbind option_bind]; [|done]. destruct (Z.ltb_spec r' 0); [intros ?; some; by split_and!|]. case_bool_decide as Eq; intros ?; some; [|by split_and!].
  split_and!; [done| |done]. intros _. unfold proves_secret. rewrite <- Ha, <- Hi, <- Hch. exists name, l, a, secret, value, n, (map (heap e (S (S (c_allocs c1)))) (seq 0 64)). cbn zeta.
  assert (Er : r' = 0) by (apply (decode_code _ _ _ _ _ Ed); lia). rewrite Er in Ed. unfold response_mem. rewrite <- Hm. split; [exact Hn|]. split; [exact Hl|]. split; [exact Hk|]. split; [exact Hs|]. split; [exact Ev|]. split; [exact En|]. split; [exact Ed|]. intros Ef buf Hb. rewrite Ef in Ed. eapply hex_any_memory; [done| |exact Ed]. by rewrite length_map, length_seq.
Qed.

Lemma answer_sec e id user v f chal c res c' : chap_answer e id user v f chal c = Some (res, c') -> rest_of c' = rest_of c /\ (res = 0 -> state c' = STATE_SECURITY_DONE).
Proof.
  unfold chap_answer. destruct (chap_digest_len _); [|intros ?; by some]. unfold conn_malloc. destruct (mem e (c_allocs c)); [|intros ?; by some]. cbn zeta. destruct (mem e _); [|intros ?; by some].
  destruct (chap_decode_string v chal f) as [[r b]|]; cbn [mbind option_bind]; [|done]. destruct (r <? 0); [intros ?; by some|]. case_bool_decide; [intros ?; by some|]. destruct (attr_value user); cbn [mbind option_bind]; [|done].
  case_match; [done|]. intros ?. some. split; [|done]. rewrite rest_set_state. apply rest_of_sec. rewrite !sec_text_key_add. reflexivity.
Qed.

Lemma alloc_nonzero m v f : chap_alloc_decode_buffer m v f <> 0.
Proof. unfold chap_alloc_decode_buffer. cbn zeta. repeat case_match; try done; lia. Qed.

Lemma target_response_sec e data d c res c' : chap_target_auth_create_response e data d c = Some (res, c') -> rest_of c' = rest_of c /\ (res = 0 -> state c' = STATE_SECURITY_DONE).
Proof.
  unfold chap_target_auth_create_response. destruct (text_key_find data (str "CHAP_I")); [|intros ?; by some]. destruct (account_get_first _ _ _); [|intros ?; by some]. destruct (text_key_find data (str "CHAP_C")); [|intros ?; by some].
  destruct (_ <? 0); [intros ?; by some|]. unfold conn_malloc. pose proof (alloc_nonzero (mem e (c_allocs c)) l0 (chap_check_encoding_format l0)) as Hnz. destruct (_ <=? 0); [intros ?; by some|]. destruct (1024 <? _); [intros ?; by some|]. destruct (mem e _); [|intros ?; by some]. intros E%answer_sec. exact E.
Qed.

Lemma sec_set_chap_id v c : sec_of (c <|chap_id := v|>) = sec_of c.
Proof. reflexivity. Qed.

Lemma sec_set_challenge v c : sec_of (c <|challenge := v|>) = sec_of c.
Proof. reflexivity. Qed.

Lemma sec_set_allocs v c : sec_of (c <|c_allocs := v|>) = sec_of c.
Proof. reflexivity. Qed.

Lemma sec_set_rands v c : sec_of (c <|c_rands := v|>) = sec_of c.
Proof. reflexivity. Qed.

Lemma challenge_bytes_sec e n : forall c, sec_of (challenge_bytes e n c).2 = sec_of c.
Proof. induction n as [|n IH]; intros c; cbn [challenge_bytes]; [done|]. unfold chap_rand. specialize (IH (c <|c_rands := S (c_rands c)|>)). destruct (challenge_bytes e n _) as [l c']. exact IH. Qed.

(** After the first message of the exchange the daemon waits for a response, or for
    another first message. *)
Lemma create_challenge_sec e data d c : let '(res, d', c') := chap_initiator_auth_create_challenge e data d c in
  same_accounts d d' /\ state c' = state c /\ c_tid c' = c_tid c /\ auth_method c' = auth_method c /\ status_class (rsp c') = status_class (rsp c) /\ (auth_state c' = auth_state c \/ auth_state c' = CHAP_AUTH_STATE_CHALLENGE).
Proof.
  unfold chap_initiator_auth_create_challenge. destruct (text_key_find data (str "CHAP_A")) as [v|]; [|by split_and!; auto]. destruct (pick_alg _ v) as [[alg p]|]; [|by split_and!; auto].
  unfold chap_rand, conn_malloc. cbn zeta. set (c0 := (c <|digest_alg := alg|>) <|auth_state := CHAP_AUTH_STATE_CHALLENGE|>). assert (H0 : sec_of c0 = mkSec (state c) (c_tid c) (auth_method c) CHAP_AUTH_STATE_CHALLENGE (status_class (rsp c))) by done. clearbody c0.
  match goal with |- context [text_key_add e (str "CHAP_I") ?x ?y] => set (c1 := text_key_add e (str "CHAP_I") x y); assert (H1 : sec_of c1 = sec_of c0) by (unfold c1; rewrite sec_text_key_add; rewrite sec_set_chap_id; apply sec_text_key_add) end.
  clearbody c1. rewrite H0 in H1. destruct (mem e _); [|injection H1 as ? ? ? ? ?; split_and!; [done|done|done|done|done|by right]].
  match goal with |- context [challenge_bytes e ?n ?x] => pose proof (challenge_bytes_sec e n x) as H2; destruct (challenge_bytes e n x) as [ch c2] end. cbn [snd] in H2.
  match goal with |- context [text_key_add e (str "CHAP_C") ?x ?y] => set (c3 := text_key_add e (str "CHAP_C") x y); assert (H3 : sec_of c3 = sec_of c2) by (unfold c3; rewrite sec_text_key_add; apply sec_set_challenge) end. clearbody c3. rewrite H2, sec_set_allocs, sec_set_rands, H1 in H3.
  injection H3 as ? ? ? ? ?. split_and!; [done|done|done|done|done|by right].
Qed.

(** ** The end of a login *)

Lemma same_accounts_tsih d v : same_accounts d (d <|next_tsih := v|>).
Proof. done. Qed.

Lemma session_create_sec e p d c res d' c' : session_create e p d c = Some (res, d', c') -> same_accounts d d' /\ sec_of c' = sec_of c.
Proof.
  unfold session_create. destruct (target_find_by_id d (c_tid c)); [|intros ?; by some]. unfold conn_malloc. cbn zeta. destruct (mem e _); [|intros ?; by some].
  set (d1 := upd_target _ _ _). assert (H1 : same_accounts d d1) by (unfold d1; by apply (same_accounts_trans d (d <|next_sess := S (next_sess d)|>)); [|apply same_accounts_upd]). clearbody d1.
  destruct (mem e _); [|intros ?; some; split; [eapply same_accounts_trans; [exact H1|apply same_accounts_session_free]|done]].
  destruct (free_tsih _ _ _) as [v|]; cbn [mbind option_bind]; [|done]. set (d2 := (upd_target _ _ _) <|next_tsih := _|>). assert (H2 : same_accounts d1 d2) by (unfold d2; eapply same_accounts_trans; [|apply same_accounts_tsih]; by apply same_accounts_upd).
  clearbody d2. assert (H3 := same_accounts_trans _ _ _ H1 H2). destruct (negb _); intros ?; some; (split; [|done]); [eapply same_accounts_trans; [exact H3|apply same_accounts_session_free]|done].
Qed.

Lemma login_finish_sec e p d c res d' c' : login_finish e p d c = Some (res, d', c') -> same_accounts d d' /\ sec_of c' = sec_of c.
Proof.
  unfold login_finish. destruct (session_type c =? SESSION_NORMAL); [|destruct (session_type c =? SESSION_DISCOVERY); intros ?; by some].
  destruct (match sess c with None => _ | Some _ => _ end) as [[[r d1] c1]|] eqn:E; cbn [mbind option_bind]; [|done].
  assert (H1 : same_accounts d d1 /\ sec_of c1 = sec_of c) by (destruct (sess c); [by some|by apply session_create_sec in E]).
  destruct (r =? 0); [|intros ?; by some]. destruct (sess c1); cbn [mbind option_bind]; [|done]. destruct (sid_of_session _ _ _); cbn [mbind option_bind]; [|done]. intros ?. some. exact H1.
Qed.

(** ** A request of a login *)

Definition past_security (s : Z) : Prop := STATE_SECURITY_DONE <= s <= STATE_CLOSE.

(** [P tid]: a connection to the target may be past the security stage. *)
Definition good (P : Z -> Prop) (s : sec) : Prop :=
  (v_state s = STATE_SECURITY -> v_method s = AUTH_NONE /\ P (v_tid s)) /\
  (v_state s = STATE_SECURITY_AUTH -> v_auth s = CHAP_AUTH_STATE_START \/ v_auth s = CHAP_AUTH_STATE_CHALLENGE) /\
  (past_security (v_state s) -> P (v_tid s)).

Lemma good_weaken (P Q : Z -> Prop) s : (forall t, P t -> Q t) -> good P s -> good Q s.
Proof. intros H (H1 & H2 & H3). split_and!; [intros E; destruct (H1 E); auto|done|auto]. Qed.

Lemma fails_good P c : fails c -> good P (sec_of c).
Proof. intros [[H|H] _]; unfold good, past_security; cbn; rewrite H; split_and!; unfold STATE_EXIT, STATE_DROP, STATE_SECURITY, STATE_SECURITY_AUTH, STATE_SECURITY_DONE, STATE_CLOSE; lia. Qed.

Section request.

Context (P : Z -> Prop) (e : env) (req : pdu) (d0 : daemon) (c0 : connection).

(** What the accounts say, and what a request can show. *)
Definition allows (tid : Z) : Prop := P tid \/ (tid = c_tid c0 /\ proves_secret e (data req) d0 c0).

Context (HP : forall tid, accounts_empty d0 tid INCOMING = true -> P tid).

Lemma allows_empty d tid : same_accounts d0 d -> accounts_empty d tid INCOMING = true -> allows tid.
Proof. intros Hd H. left. apply HP. by rewrite <- (accounts_empty_same d0 d). Qed.

Lemma scan_good d c : same_accounts d0 d -> v_state (sec_of c) = STATE_SECURITY -> (auth_method c = AUTH_UNKNOWN \/ (auth_method c = AUTH_NONE /\ allows (c_tid c))) ->
  let c' := text_scan_security e req d c in fails c' \/ (status_class (rsp c') = status_class (rsp c) /\
    if negb (auth_method c' =? AUTH_NONE) then True else good allows (sec_of c')).
Proof.
  intros Hd Hs Hm c'. destruct (text_scan_security_sec e req d c) as [Hf|[Hstep Hu]]; [by left|right]. fold c' in Hstep, Hu. clearbody c'.
  destruct Hstep as [E|E].
  - split; [exact (f_equal v_class E)|]. assert (Em : auth_method c' = auth_method c) by exact (f_equal v_method E). rewrite Em. destruct Hm as [Hm|[Hm Ha]]; [congruence|]. rewrite Hm. cbn [AUTH_NONE Z.eqb negb].
    rewrite E. unfold good, past_security. rewrite Hs. cbn. rewrite Hm. split_and!; [done|done|]. unfold STATE_SECURITY, STATE_SECURITY_DONE. lia.
  - split; [exact (f_equal v_class E)|]. destruct (Z.eqb_spec (auth_method c') AUTH_NONE) as [En|En]; [|done]. cbn [negb]. assert (Em : auth_method c' = if accounts_empty d (c_tid c) INCOMING then AUTH_NONE else AUTH_CHAP) by exact (f_equal v_method E).
    rewrite En in Em. destruct (accounts_empty d (c_tid c) INCOMING) eqn:Ea; [|done]. rewrite E. unfold good, past_security. cbn. cbn in Hs. rewrite Hs, Ea. split_and!; [intros _; split; [done|by eapply allows_empty]|done|]. unfold STATE_SECURITY, STATE_SECURITY_DONE. lia.
Qed.

Definition chapq (c : connection) : Z * Z * Z * list Z * nat := (c_tid c, digest_alg c, chap_id c, challenge c, c_allocs c).

Lemma proves_ext c : chapq c = chapq c0 -> proves_secret e (data req) d0 c -> proves_secret e (data req) d0 c0.
Proof. unfold chapq. intros [= H1 H2 H3 H4 H5]. unfold proves_secret, response_mem. by rewrite H1, H2, H3, H4, H5. Qed.

(** What a part of the login leaves: an end, or a good state without an error. *)
Definition left_good (next : login_next) (c : connection) : Prop :=
  match next with Go => good allows (sec_of c) /\ status_class (rsp c) = 0 | Return => fails c | _ => True end.

Lemma good_auth tid m : good allows (mkSec STATE_SECURITY_AUTH tid m AUTH_STATE_START 0).
Proof. unfold good, past_security. cbn. split_and!; [done|by left|]. unfold STATE_SECURITY_AUTH, STATE_SECURITY_DONE. lia. Qed.

Lemma good_past s tid m a k : past_security s -> allows tid -> good allows (mkSec s tid m a k).
Proof. unfold good, past_security. cbn. intros Hs Ha. unfold STATE_SECURITY, STATE_SECURITY_AUTH, STATE_SECURITY_DONE in *. split_and!; [lia|lia|done]. Qed.

Lemma exec_auth_good c res d' c' : sec_of c = mkSec STATE_SECURITY_AUTH (c_tid c0) (auth_method c) (auth_state c) 0 -> chapq c = chapq c0 -> good allows (sec_of c) ->
  cmnd_exec_auth e req d0 c = Some (res, d', c') -> same_accounts d0 d' /\ (res = 0 -> good allows (sec_of c') /\ status_class (rsp c') = 0).
Proof.
  intros Hs Hq Hg. unfold cmnd_exec_auth. destruct (auth_method c =? AUTH_CHAP); [|destruct (auth_method c =? AUTH_NONE); intros ?; some; (split; [done|]); [intros _; split; [done|exact (f_equal v_class Hs)]|done]].
  destruct Hg as (_ & Hauth & _). specialize (Hauth (f_equal v_state Hs)). cbn [v_auth sec_of] in Hauth. unfold cmnd_exec_auth_chap. destruct Hauth as [Ea|Ea]; rewrite Ea.
  - change (CHAP_AUTH_STATE_START =? CHAP_AUTH_STATE_START) with true. cbn iota. pose proof (create_challenge_sec e (data req) d0 c) as H. destruct (chap_initiator_auth_create_challenge e (data req) d0 c) as [[r d1] c1]. intros E. some.
    destruct H as (Hd & H1 & H2 & H3 & H4 & H5). split; [done|]. intros _. pose proof (f_equal v_state Hs) as Hst. pose proof (f_equal v_class Hs) as Hcl. cbn in Hst, Hcl. split; [|by rewrite H4].
    unfold good, past_security. cbn. rewrite H1, Hst. split_and!; [done| |unfold STATE_SECURITY_AUTH, STATE_SECURITY_DONE; lia]. intros _. rewrite Ea in H5. destruct H5 as [-> | ->]; auto.
  - change (CHAP_AUTH_STATE_CHALLENGE =? CHAP_AUTH_STATE_START) with false. change (CHAP_AUTH_STATE_CHALLENGE =? CHAP_AUTH_STATE_CHALLENGE) with true. cbn iota.
    destruct (chap_initiator_auth_check_response e (data req) d0 c) as [[r c1]|] eqn:E1; cbn [mbind option_bind]; [|done]. apply check_response_sec in E1 as (Hr & Hp & H1).
    destruct (Z.ltb_spec r 0); [intros ?; some; split; [done|lia]|]. destruct (chap_target_auth_create_response e (data req) d0 c1) as [[r2 c2]|] eqn:E2; cbn [mbind option_bind]; [|done].
    apply target_response_sec in E2 as [E2 E2s]. intros ?. some. split; [done|]. intros Hr0. rewrite H1 in E2. pose proof (f_equal v_tid Hs) as Ht. pose proof (f_equal v_class Hs) as Hcl. cbn in Ht, Hcl.
    injection E2 as E2t E2m E2a E2c. rewrite E2c, Hcl. split; [|done]. assert (Ha : allows (c_tid c')) by (right; rewrite E2t, Ht; split; [done|]; apply (proves_ext c Hq), Hp; lia).
    unfold good. cbn. rewrite (E2s ltac:(lia)). by split_and!.
Qed.

(** The connection of the request, with an empty response. *)
Definition of_request (c : connection) : Prop := rest_of c = (c_tid c0, auth_method c0, auth_state c0, 0) /\ state c = state c0 /\ chapq c = chapq c0.

Lemma of_request_sec c : of_request c -> sec_of c = mkSec (state c0) (c_tid c0) (auth_method c0) (auth_state c0) 0.
Proof. unfold of_request, rest_of, sec_of. intros (H & H2 & _). congruence. Qed.

Lemma of_request_flags f c : of_request c -> of_request (upd_rsp (fun r => r <|r_flags := f r|>) c).
Proof. done. Qed.

Lemma exec_security_good p c next d' c' : good P (sec_of c0) -> of_request c -> exec_security e p req d0 c = Some (next, d', c') -> same_accounts d0 d' /\ left_good next c'.
Proof.
  intros Hg Hc%(of_request_flags (fun _ => ISCSI_FLG_CSG_SECURITY)). unfold exec_security. set (c1 := upd_rsp _ c) in *. clearbody c1. pose proof (of_request_sec c1 Hc) as Hs. assert (Hst : state c1 = state c0) by exact (f_equal v_state Hs). rewrite Hst.
  assert (Hscan : forall d c n d' c', same_accounts d0 d -> v_state (sec_of c) = STATE_SECURITY -> status_class (rsp c) = 0 -> (auth_method c = AUTH_UNKNOWN \/ (auth_method c = AUTH_NONE /\ allows (c_tid c))) ->
    (let c := text_scan_security e req d c in if negb (status_class (rsp c) =? 0) then (Return, d, c) else if negb (auth_method c =? AUTH_NONE) then (Go, d, c <|state := STATE_SECURITY_AUTH|> <|auth_state := AUTH_STATE_START|>) else (Go, d, c)) = (n, d', c') -> same_accounts d0 d' /\ left_good n c').
  { intros d c2 n d2 c3 Hd Hs2 Hz Hm. destruct (scan_good d c2 Hd Hs2 Hm) as [Hf|[Hz' Hif]]; cbn zeta; [destruct Hf as [Hf1 Hf2]; rewrite (proj2 (Z.eqb_neq _ _) Hf2); cbn [negb]; intros ?; some; split; [done|by split]|].
    rewrite Hz', Hz. change (negb (0 =? 0)) with false. cbn iota. destruct (negb (auth_method (text_scan_security e req d c2) =? AUTH_NONE)); intros ?; some; (split; [done|]).
    - split; [|cbn; by rewrite Hz']. change (good allows (mkSec STATE_SECURITY_AUTH (c_tid (text_scan_security e req d2 c2)) (auth_method (text_scan_security e req d2 c2)) AUTH_STATE_START (status_class (rsp (text_scan_security e req d2 c2))))). rewrite Hz', Hz. apply good_auth.
    - split; [done|]. by rewrite Hz'. }
  destruct (Z.eqb_spec (state c0) STATE_FREE) as [E0|E0].
  - destruct (login_start e p req d0 (c1 <|state := STATE_SECURITY|>)) as [[d1 c2]|] eqn:El; cbn [mbind option_bind]; [|done]. apply login_start_sec in El as [Hd El]; [|exact (f_equal v_class Hs)].
    destruct El as [[Hf1 Hf2]|[tid El]]; [rewrite (proj2 (Z.eqb_neq _ _) Hf2); cbn [negb]; intros ?; some; split; [done|by split]|].
    assert (Hz : status_class (rsp c2) = 0) by exact (f_equal v_class El). rewrite Hz. change (negb (0 =? 0)) with false. cbn iota. intros [= ?].
    eapply (Hscan d1 c2); [done|by rewrite El|done|left; exact (f_equal v_method El)|done].
  - destruct (Z.eqb_spec (state c0) STATE_SECURITY) as [E1|E1].
    + intros [= ?]. destruct Hg as (Hg & _). specialize (Hg E1). eapply (Hscan d0 c1); [done|by rewrite Hs|exact (f_equal v_class Hs)| |done].
      right. assert (Ht : c_tid c1 = c_tid c0) by exact (f_equal v_tid Hs). rewrite Ht. split; [rewrite <- (proj1 Hg); exact (f_equal v_method Hs)|left; apply Hg].
    + destruct (Z.eqb_spec (state c0) STATE_SECURITY_AUTH) as [E2|E2]; [|intros ?; some; done].
      destruct (cmnd_exec_auth e req d0 c1) as [[[res d1] c2]|] eqn:Ea; cbn [mbind option_bind]; [|done]. intros ?. some.
      apply exec_auth_good in Ea as [Hd Ha]; [| |apply Hc|].
      * split; [done|]. destruct (Z.eqb_spec res 0); [by apply Ha|]. by case_match.
      * rewrite Hs, E2. f_equal; [by rewrite (f_equal v_method Hs : auth_method c1 = _)|by rewrite (f_equal v_auth Hs : auth_state c1 = _)].
      * rewrite Hs. apply (good_weaken P); [by left|exact Hg].
Qed.

Lemma exec_operational_good p c next stay d' c' : good P (sec_of c0) -> of_request c -> exec_operational e p req d0 c = Some (next, stay, d', c') -> same_accounts d0 d' /\ left_good next c'.
Proof.
  intros Hg Hc%(of_request_flags (fun _ => ISCSI_FLG_CSG_LOGIN)). unfold exec_operational. set (c1 := upd_rsp _ c) in *. clearbody c1. pose proof (of_request_sec c1 Hc) as Hs. assert (Hst : state c1 = state c0) by exact (f_equal v_state Hs). rewrite Hst.
  assert (Hscan : forall d c n st d' c', same_accounts d0 d -> v_state (sec_of c) = STATE_LOGIN -> status_class (rsp c) = 0 -> allows (c_tid c) ->
    (let c := text_scan_login e req d c in if negb (status_class (rsp c) =? 0) then (Return, 0, d, c) else let '(c, stay) := text_check_params e d c in (Go, stay, d, c)) = (n, st, d', c') -> same_accounts d0 d' /\ left_good n c').
  { intros d c2 n st d2 c3 Hd Hs2 Hz Ha. cbn zeta. destruct (text_scan_login_sec e req d c2) as [[Hf1 Hf2]|He]; [rewrite (proj2 (Z.eqb_neq _ _) Hf2); cbn [negb]; intros ?; some; split; [done|by split]|].
    assert (Hz' : status_class (rsp (text_scan_login e req d c2)) = 0) by (rewrite <- Hz; exact (f_equal v_class He)). rewrite Hz'. change (negb (0 =? 0)) with false. cbn iota.
    pose proof (sec_text_check_params e d (text_scan_login e req d c2)) as Hp. destruct (text_check_params e d _) as [c4 n4]. cbn [fst] in Hp. intros ?. some. split; [done|]. rewrite He in Hp. cbn [left_good]. rewrite Hp.
    split; [apply good_past; [cbn in Hs2; rewrite Hs2; unfold past_security, STATE_LOGIN, STATE_SECURITY_DONE, STATE_CLOSE; lia|done]|]. rewrite <- Hz. exact (f_equal v_class Hp). }
  destruct (Z.eqb_spec (state c0) STATE_FREE) as [E0|E0].
  - destruct (login_start e p req d0 (c1 <|state := STATE_LOGIN|>)) as [[d1 c2]|] eqn:El; cbn [mbind option_bind]; [|done]. apply login_start_sec in El as [Hd El]; [|exact (f_equal v_class Hs)].
    destruct El as [[Hf1 Hf2]|[tid El]]; [rewrite (proj2 (Z.eqb_neq _ _) Hf2); cbn [negb]; intros ?; some; split; [done|by split]|].
    assert (Hz : status_class (rsp c2) = 0) by exact (f_equal v_class El). rewrite Hz. change (negb (0 =? 0)) with false. cbn iota. destruct (accounts_empty d1 (c_tid c2) INCOMING) eqn:Ea; cbn [negb]; [|intros ?; some; done].
    intros [= ?]. eapply (Hscan d1 c2); [done|by rewrite El|done|by eapply allows_empty|done].
  - destruct (Z.eqb_spec (state c0) STATE_LOGIN) as [E1|E1]; [|intros ?; some; done].
    intros [= ?]. eapply (Hscan d0 c1); [done|by rewrite Hs|exact (f_equal v_class Hs)| |done]. assert (Ht : c_tid c1 = c_tid c0) by exact (f_equal v_tid Hs). rewrite Ht. left. apply (proj2 (proj2 Hg)). cbn. rewrite E1. unfold past_security, STATE_LOGIN, STATE_SECURITY_DONE, STATE_CLOSE. lia.
Qed.

(** Past the security stage, in a given state. *)
Lemma left_past s c : sec_of c = mkSec s (c_tid c) (auth_method c) (auth_state c) 0 -> past_security s -> allows (c_tid c) -> left_good Go c.
Proof. intros H Hs Ha. cbn [left_good]. rewrite H. split; [by apply good_past|exact (f_equal v_class H)]. Qed.

Lemma sec_put_flags f c : sec_of (upd_rsp (fun r => r <|r_flags := f r|>) c) = sec_of c.
Proof. done. Qed.

Lemma sec_self c : status_class (rsp c) = 0 -> sec_of c = mkSec (state c) (c_tid c) (auth_method c) (auth_state c) 0.
Proof. unfold sec_of. by intros ->. Qed.

Lemma exec_transit_good p stay d c next d' c' : same_accounts d0 d -> good allows (sec_of c) -> status_class (rsp c) = 0 -> exec_transit e p req stay d c = Some (next, d', c') -> same_accounts d0 d' /\ left_good next c'.
Proof.
  intros Hd Hg Hz. unfold exec_transit.
  assert (Hput : forall st n s c, sec_of c = mkSec s (c_tid c) (auth_method c) (auth_state c) 0 -> past_security s -> allows (c_tid c) -> left_good Go (put_flags st n c)) by (intros st n s x Hx Hp Ha; apply (left_past s (put_flags st n x)); [exact Hx|exact Hp|exact Ha]).
  assert (Hfin : forall st n s d c nx d' c', same_accounts d0 d -> sec_of c = mkSec s (c_tid c) (auth_method c) (auth_state c) 0 -> past_security s -> allows (c_tid c) ->
    exec_finish e p st n d c = Some (nx, d', c') -> same_accounts d0 d' /\ left_good nx c').
  { intros st n s d1 c1 nx d2 c2 Hd1 Hs Hp Ha. unfold exec_finish. pose proof (sec_text_check_params e d1 c1) as Hc. destruct (text_check_params e d1 c1) as [c3 m]. cbn [fst] in Hc. destruct (login_finish e p d1 c3) as [[[err d4] c4]|] eqn:El; cbn [mbind option_bind]; [|done].
    apply login_finish_sec in El as [Hd4 Hc4]. rewrite Hc in Hc4. assert (Ha4 : same_accounts d0 d4) by (eapply same_accounts_trans; eauto). destruct (negb (err =? 0)); intros ?; some; (split; [done|]); [done|].
    assert (Et : c_tid c4 = c_tid c1) by exact (f_equal v_tid Hc4). apply (Hput st n s); [|done|by rewrite Et]. rewrite Hc4, Hs, Et. f_equal; [exact (eq_sym (f_equal v_method Hc4))|exact (eq_sym (f_equal v_auth Hc4))]. }
  assert (Hsec : (state c =? STATE_SECURITY) || (state c =? STATE_SECURITY_DONE) = true -> allows (c_tid c)).
  { intros [E|E]%orb_true_iff; apply Z.eqb_eq in E; [exact (proj2 (proj1 Hg E))|]. apply (proj2 (proj2 Hg)). cbn. rewrite E. unfold past_security, STATE_SECURITY_DONE, STATE_CLOSE. lia. }
  assert (Hrange : past_security STATE_SECURITY_LOGIN /\ past_security STATE_LOGIN /\ past_security STATE_SECURITY_FULL /\ past_security STATE_LOGIN_FULL) by (unfold past_security, STATE_SECURITY_LOGIN, STATE_LOGIN, STATE_SECURITY_FULL, STATE_LOGIN_FULL, STATE_SECURITY_DONE, STATE_CLOSE; lia).
  destruct Hrange as (R1 & R2 & R3 & R4). destruct (Z.land (flags req) ISCSI_FLG_NSG_MASK =? ISCSI_FLG_NSG_LOGIN).
  { destruct (_ || _); intros ?; some; (split; [done|]); [|done]. apply (Hput _ _ STATE_SECURITY_LOGIN); [by unfold sec_of; cbn; rewrite Hz|done|by apply Hsec]. }
  destruct (Z.land (flags req) ISCSI_FLG_NSG_MASK =? ISCSI_FLG_NSG_FULL_FEATURE); [|intros ?; some; done]. destruct (_ || _).
  - pose proof (sec_text_check_params e d c) as Hc. destruct (text_check_params e d c) as [c1 n]. cbn [fst] in Hc. assert (Hz1 : status_class (rsp c1) = 0) by (rewrite <- Hz; exact (f_equal v_class Hc)). assert (Ht1 : allows (c_tid c1)) by (rewrite (f_equal v_tid Hc : c_tid c1 = c_tid c); by apply Hsec).
    destruct (negb (n =? 0)); [intros ?; some; split; [done|]; apply (Hput _ _ STATE_LOGIN); [by unfold sec_of; cbn; rewrite Hz1|done|done]|].
    destruct (stay =? 0); [intros H; eapply (Hfin _ _ STATE_SECURITY_FULL); [exact Hd| | | |exact H]; [by unfold sec_of; cbn; rewrite Hz1|done|done]|].
    intros ?; some; split; [done|]; apply (Hput _ _ STATE_SECURITY_FULL); [by unfold sec_of; cbn; rewrite Hz1|done|done].
  - destruct (Z.eqb_spec (state c) STATE_LOGIN) as [E|E]; [|intros ?; some; done]. assert (Ha : allows (c_tid c)) by (apply (proj2 (proj2 Hg)); cbn; by rewrite E).
    destruct (negb (stay =? 0)); [intros ?; some; split; [done|]; apply (Hput _ _ STATE_LOGIN); [by rewrite sec_self, E|done|done]|].
    intros H. eapply (Hfin _ _ STATE_LOGIN_FULL); [exact Hd| | | |exact H]; [by unfold sec_of; cbn; rewrite Hz|done|done].
Qed.

Lemma login_end_good next c : left_good next c -> good allows (sec_of (login_end next c)).
Proof.
  destruct next; cbn [left_good login_end]; intros H; try (apply fails_good; apply fails_ini); try (apply fails_good; apply fails_tgt).
  - destruct (rsp_buf_list c) as [|x [|y l]]; [exact (proj1 H)|exact (proj1 H)|apply fails_good, fails_tgt].
  - by apply fails_good.
Qed.

Lemma reject_sec r c : state (cmnd_reject e req r c) = state c /\ rest_of (cmnd_reject e req r c) = (c_tid c, auth_method c, auth_state c, 0).
Proof. unfold cmnd_reject, conn_malloc. cbn zeta. by destruct (mem e _). Qed.

Lemma good_same (Q : Z -> Prop) c c' : state c' = state c -> c_tid c' = c_tid c -> auth_method c' = auth_method c -> auth_state c' = auth_state c -> good Q (sec_of c) -> good Q (sec_of c').
Proof. unfold good, sec_of. cbn. by intros -> -> -> ->. Qed.

Lemma reject_good r c : good allows (sec_of c) -> good allows (sec_of (cmnd_reject e req r c)).
Proof. destruct (reject_sec r c) as [H1 H2]. injection H2 as H2 H3 H4 _. by apply good_same. Qed.

Lemma exec_login_good p c d' c' : good P (sec_of c0) -> of_request c -> cmnd_exec_login e p req d0 c = Some (d', c') -> same_accounts d0 d' /\ good allows (sec_of c').
Proof.
  intros Hg Hc. assert (Hc1 : of_request (c <|rsp := rsp_zero|>)) by (destruct Hc as (H1 & H2 & H3); split_and!; [injection H1 as E1 E2 E3 _; change ((c_tid c, auth_method c, auth_state c, 0) = (c_tid c0, auth_method c0, auth_state c0, 0)); congruence|done|done]). unfold cmnd_exec_login. clear Hc. set (c1 := c <|rsp := rsp_zero|>) in *. clearbody c1.
  assert (Hg1 : good allows (sec_of c1)) by (rewrite (of_request_sec c1 Hc1); apply (good_weaken P); [by left|exact Hg]).
  destruct (_ || _); [intros ?; some; split; [done|by apply reject_good]|]. set (c2 := upd_rsp _ c1). assert (Hc2 : of_request c2) by exact Hc1. assert (Hg2 : good allows (sec_of c2)) by exact Hg1. clearbody c2.
  destruct (_ <? _); [intros ?; some; split; [done|apply fails_good, fails_ini]|].
  match goal with |- context [if ?b =? ISCSI_FLG_CSG_SECURITY then ?x else ?y] => set (first := if b =? ISCSI_FLG_CSG_SECURITY then x else y) end.
  assert (Hf : forall n st d c, first = Some (n, st, d, c) -> same_accounts d0 d /\ left_good n c).
  { intros n st d c3. unfold first. destruct (_ =? ISCSI_FLG_CSG_SECURITY).
    - destruct (exec_security e p req d0 c2) as [[[n' d3] c4]|] eqn:E; cbn [mbind option_bind]; [|done]. intros ?. some. by eapply exec_security_good.
    - destruct (_ =? ISCSI_FLG_CSG_LOGIN); [by apply exec_operational_good|]. intros ?. some. done. }
  clearbody first. destruct first as [[[[n st] d] c3]|]; cbn [mbind option_bind]; [|done]. destruct (Hf n st d c3 eq_refl) as [Hd Hl].
  match goal with |- context [match n with Go => ?x | _ => _ end] => assert (Hs : forall n' d' c', match n with Go => x | _ => Some (n, d, c3) end = Some (n', d', c') -> same_accounts d0 d' /\ left_good n' c') end.
  { intros n' d2 c4. destruct n; try (intros ?; some; done). destruct Hl as [Hl Hz]. rewrite Hz. change (negb (0 =? 0)) with false. cbn iota. destruct (_ && _); [by apply exec_transit_good|]. intros ?. some. done. }
  destruct (match n with Go => _ | _ => _ end) as [[[n' d2] c4]|]; cbn [mbind option_bind]; [|done]. intros ?. some. destruct (Hs n' d' c4 eq_refl) as [Hd' Hl']. split; [done|by apply login_end_good].
Qed.

End request.

(** ** Any request *)

(** The parts that the requests after a login leave alone. *)
Lemma text_add_same e k v c : sess (text_key_add e k v c) = sess c.
Proof. Transparent text_key_add. unfold text_key_add. by destruct (segs_add _ _ _ _ _ _) as [a [|s l]]. Opaque text_key_add. Qed.

Definition core_of (c : connection) : Z * Z * Z * Z := (state c, c_tid c, auth_method c, auth_state c).

Lemma core_text_add e k v c : core_of (text_key_add e k v c) = core_of c.
Proof. pose proof (sec_text_key_add e k v c) as H. unfold core_of. by injection H as -> -> -> ->. Qed.

Lemma core_reject e req r c : core_of (cmnd_reject e req r c) = core_of c.
Proof. destruct (reject_sec e req r c) as [H1 H2]. injection H2 as H2 H3 H4 _. unfold core_of. by rewrite H1, H2, H3, H4. Qed.

Lemma core_list_addrs e i t l : forall c c', list_addrs e i t l c = Some c' -> core_of c' = core_of c.
Proof.
  induction l as [|a l IH]; intros c c'; cbn [list_addrs]; [intros ?; by some|]. destruct (list_addr e i t c a) as [c1|] eqn:E; cbn [mbind option_bind]; [|done]. intros ->%IH. revert E. unfold list_addr. case_match; [intros ?; by some|].
  destruct (target_portal_allowed _ _ _ _) as [[|]|]; cbn [mbind option_bind]; [|intros ?; by some|done]. intros ?. some. unfold target_print_addr. apply core_text_add.
Qed.

Lemma core_list_targets e i d n l : forall c c', list_targets e i d n l c = Some c' -> core_of c' = core_of c.
Proof.
  induction l as [|t l IH]; intros c c'; cbn [list_targets]; [intros ?; by some|]. destruct (list_target e i d n c t) as [c1|] eqn:E; cbn [mbind option_bind]; [|done]. intros ->%IH. revert E. unfold list_target. case_match; [intros ?; by some|].
  destruct (target_portal_allowed _ _ _ _) as [ok|]; cbn [mbind option_bind]; [|done]. destruct (negb (tgt_enabled t) || _ || _ || _); [intros ?; by some|]. intros ->%core_list_addrs. unfold target_print_addr. by rewrite !core_text_add.
Qed.

Lemma core_scan_text e req d l : forall c r c', scan_text_pairs e req d l c = Some (r, c') -> core_of c' = core_of c.
Proof.
  induction l as [|[k v] l IH]; intros c r c'; cbn [scan_text_pairs]; [intros ?; by some|]. destruct (strcmp_eq k (str "SendTargets")); [|intros ->%IH; apply core_text_add].
  destruct (match v with [] => _ | _ => _ end) as [v'|]; cbn [mbind option_bind]; [|done]. destruct (_ && _); [intros ?; some; apply core_reject|].
  destruct (target_list_build e d _ c) as [c1|] eqn:E; cbn [mbind option_bind]; [|done]. intros ->%IH. revert E. unfold target_list_build. destruct (sock_inet6 e); [apply core_list_targets|intros ?; by some].
Qed.

Lemma core_exec_text e req d c d' c' : cmnd_exec_text e req d c = Some (d', c') -> same_accounts d d' /\ core_of c' = core_of c.
Proof.
  unfold cmnd_exec_text. set (c1 := take_cmd_sn req _). assert (H1 : core_of c1 = core_of c) by done. clearbody c1.
  assert (Hend : forall c, core_of (text_end c) = core_of c) by (intros x; unfold text_end; by case_match). destruct (req_ttt req =? ISCSI_RESERVED_TAG).
  - destruct (text_scan_text e req d _) as [[rc c2]|] eqn:E; cbn [mbind option_bind]; [|done]. apply core_scan_text in E. assert (H2 : core_of c2 = core_of c) by (rewrite E; exact H1). destruct (negb (rc =? 0)); [intros ?; by some|].
    destruct (at_most_one _); [intros ?; some; split; [done|rewrite Hend; exact H2]|]. unfold get_next_ttt. intros ?. some. split; [done|rewrite Hend; exact H2].
  - destruct (_ || _); intros ?; some; (split; [done|]); [by rewrite core_reject|by rewrite Hend].
Qed.

Lemma good_core (Q : Z -> Prop) c c' : core_of c' = core_of c -> good Q (sec_of c) -> good Q (sec_of c').
Proof. unfold core_of. intros [= H1 H2 H3 H4]. by apply good_same. Qed.

Lemma good_move (Q : Z -> Prop) s c : good Q (sec_of c) -> past_security (state c) -> past_security s -> good Q (sec_of (c <|state := s|>)).
Proof. intros Hg Hc Hs. pose proof (proj2 (proj2 Hg) Hc) as Hq. unfold good, past_security in *. cbn in *. unfold STATE_SECURITY, STATE_SECURITY_AUTH, STATE_SECURITY_DONE in *. split_and!; [lia|lia|done]. Qed.

Lemma good_ended (Q : Z -> Prop) s c : s = STATE_EXIT \/ s = STATE_DROP -> good Q (sec_of (c <|state := s|>)).
Proof. intros H. unfold good, past_security. cbn. unfold STATE_SECURITY, STATE_SECURITY_AUTH, STATE_SECURITY_DONE, STATE_CLOSE, STATE_EXIT, STATE_DROP in *. split_and!; lia. Qed.

Section event.

Context (P : Z -> Prop) (d0 : daemon) (c0 : connection).
Context (HP : forall tid, accounts_empty d0 tid INCOMING = true -> P tid).

Lemma execute_good e p req res d' c' : good P (sec_of c0) -> cmnd_execute e p req d0 (conn_write_pdu c0) = Some (res, d', c') -> same_accounts d0 d' /\ good (allows P e req d0 c0) (sec_of c').
Proof.
  intros Hg. set (c1 := conn_write_pdu c0). assert (Hc : of_request c0 c1) by done. assert (Hg1 : good (allows P e req d0 c0) (sec_of c1)) by (apply (good_core _ c0); [done|apply (good_weaken P); [by left|done]]). clearbody c1.
  assert (Hseg : forall c, core_of (take_segment c) = core_of c) by (intros c; unfold take_segment; by destruct (rsp_buf_list c)). assert (Hrej : forall r, good (allows P e req d0 c0) (sec_of (take_segment (cmnd_reject e req r c1)))) by (intros r; apply (good_core _ c1); [by rewrite Hseg, core_reject|done]).
  unfold cmnd_execute. destruct (_ =? ISCSI_OP_LOGIN_CMD).
  { destruct (_ =? STATE_FULL); [intros ?; some; by split|]. destruct (cmnd_exec_login e p req d0 c1) as [[d2 c2]|] eqn:E; cbn [mbind option_bind]; [|done]. eapply exec_login_good in E as [Hd H2]; [|exact HP|exact Hg|exact Hc]. intros ?. some. split; [done|].
    apply (good_core _ c2); [rewrite Hseg; by case_match|done]. }
  destruct (_ =? ISCSI_OP_TEXT_CMD).
  { destruct (negb _); [intros ?; some; by split|]. destruct (cmnd_exec_text e req d0 c1) as [[d2 c2]|] eqn:E; cbn [mbind option_bind]; [|done]. apply core_exec_text in E as [Hd H2]. intros ?. some. split; [done|]. apply (good_core _ c1); [by rewrite Hseg|done]. }
  destruct (_ =? ISCSI_OP_LOGOUT_CMD).
  { destruct (negb _); intros ?; some; (split; [done|]); [done|]. apply (good_core _ c1); [by rewrite Hseg|done]. }
  intros ?. some. split; [done|]. apply (good_core _ c1); [apply core_reject|done].
Qed.

Lemma written_good (Q : Z -> Prop) e c c' : good Q (sec_of c) -> conn_written e c = Some c' -> good Q (sec_of c').
Proof.
  intros Hg. unfold conn_written, cmnd_finish. cbn zeta. set (c1 := upd_rsp _ c). assert (Hg1 : good Q (sec_of c1)) by (by apply (good_core _ c)). clearbody c1. unfold conn_pass_to_kern.
  assert (Hp : past_security STATE_SECURITY_LOGIN /\ past_security STATE_SECURITY_FULL /\ past_security STATE_LOGIN_FULL /\ past_security STATE_LOGIN /\ past_security STATE_KERNEL /\ past_security STATE_FULL /\ past_security STATE_CLOSE) by (unfold past_security, STATE_SECURITY_LOGIN, STATE_SECURITY_FULL, STATE_LOGIN_FULL, STATE_LOGIN, STATE_KERNEL, STATE_FULL, STATE_CLOSE, STATE_SECURITY_DONE; lia).
  destruct Hp as (P1 & P2 & P3 & P4 & P5 & P6 & P7). set (c2 := if state c1 =? STATE_SECURITY_LOGIN then _ else _).
  assert (Hg2 : good Q (sec_of c2)).
  { unfold c2. destruct (Z.eqb_spec (state c1) STATE_SECURITY_LOGIN) as [E|E]; [apply good_move; [done|by rewrite E|done]|]. destruct (_ || _) eqn:Eo; [|done]. apply good_move; [done| |by case_match]. apply orb_true_iff in Eo as [Eo|Eo]; apply Z.eqb_eq in Eo; by rewrite Eo. }
  clearbody c2. destruct (Z.eqb_spec (state c2) STATE_KERNEL) as [E|E]; [|intros ?; by some]. destruct (sess c2); cbn [mbind option_bind]; [|done]. intros ?. some. destruct (passed_to_kern _); [|apply good_ended; by left].
  apply good_move; [|by case_match; cbn; rewrite E|done]. apply (good_core _ c2); [by case_match|done].
Qed.

(** The request of an event, with the memory it finds. *)
Definition event_req (ev : conn_event) : list (env * pdu) := match ev with EvPdu e r | EvWriteFails e r => [(e, r)] | EvReadFails => [] end.

Lemma event_good p ev d' c' : good P (sec_of c0) -> event_conn p ev d0 c0 = Some (d', c') ->
  good (fun tid => P tid \/ exists e req, (e, req) ∈ event_req ev /\ c_tid c0 = tid /\ proves_secret e (data req) d0 c0) (sec_of c').
Proof.
  intros Hg. unfold event_conn. assert (Hreq : forall e req, ev = EvPdu e req \/ ev = EvWriteFails e req ->
    (('(res, d, c) ← cmnd_execute e p req d0 (conn_write_pdu c0); let c := if res =? 0 then c <|state := STATE_EXIT|> else c in
      if state c =? STATE_DROP then Some (d, c) else match ev with EvPdu _ _ => c ← conn_written e c; Some (d, c) | _ => Some (d, c <|state := STATE_DROP|>) end) = Some (d', c')) ->
    good (allows P e req d0 c0) (sec_of c')).
  { intros e req Hev H. destruct (cmnd_execute e p req d0 _) as [[[res d1] c1]|] eqn:E; cbn [mbind option_bind] in H; [|done]. apply execute_good in E as [Hd H1]; [|done].
    set (c2 := if res =? 0 then _ else c1) in H. assert (Hg2 : good (allows P e req d0 c0) (sec_of c2)) by (unfold c2; destruct (res =? 0); [apply (good_ended _ STATE_EXIT c1); by left|done]). clearbody c2.
    destruct (state c2 =? STATE_DROP); [by some|]. destruct Hev as [-> | ->]; [|some; apply good_ended; by right]. destruct (conn_written e c2) as [c3|] eqn:Ew; cbn [mbind option_bind] in H; [|done]. some. by eapply written_good. }
  destruct ev as [e req|e req|]; [intros H%(Hreq e req); [|by left]|intros H%(Hreq e req); [|by right]|intros ?; some; apply good_ended; by right].
  all: eapply good_weaken; [|exact H]; intros tid [Ht|[Ht Hp]]; [by left|right; exists e, req; split_and!; [set_solver|done|done]].
Qed.

End event.

(** ** Runs of a connection *)

(** The requests that a connection got, each with the state of the daemon and of the
    connection before it, newest first.  The daemon changes in any way between requests,
    but for the accounts of initiators, which are [A]. *)
Inductive login_run (A : Z -> option (list iscsi_attr)) (p : nat) (keys : list iscsi_key) (portal : list Z) : list (env * pdu * daemon * connection) -> connection -> Prop :=
  | run_start : login_run A p keys portal [] (conn_alloc keys portal)
  | run_step h c ev d d' c' : login_run A p keys portal h c -> (forall tid, accounts_of d tid INCOMING = A tid) -> ended c = false -> event_conn p ev d c = Some (d', c') ->
      login_run A p keys portal (map (fun r => (r, d, c)) (event_req ev) ++ h) c'.

(** C16: while the accounts for initiators do not change: on a target that has such accounts, or for discovery when that has accounts, a connection is past the security stage only after a request that named one of the accounts and whose response, decoded into the memory that the daemon allocated for it, was the digest of the identifier and the challenge of that connection with the secret of that account; whatever requests the initiator sends, in whatever order, and whatever fails in between.  A hexadecimal response is the digest by itself; for base64 whose length is no multiple of 4, or that is too short, the rest of the digest is what the memory held ([unaligned_base64]). *)
Theorem login_needs_secret A p keys portal h c (Hrun : login_run A p keys portal h c) (Hpast : past_security (state c)) (Hacc : A (c_tid c) <> Some []) :
  exists e req d c1, (e, req, d, c1) ∈ h /\ c_tid c1 = c_tid c /\ proves_secret e (data req) d c1.
Proof.
  set (Q := fun (h : list (env * pdu * daemon * connection)) tid => A tid = Some [] \/ exists e req d c1, (e, req, d, c1) ∈ h /\ c_tid c1 = tid /\ proves_secret e (data req) d c1).
  assert (Hg : good (Q h) (sec_of c)); [|assert (HQ : Q h (c_tid c)) by exact (proj2 (proj2 Hg) Hpast); by destruct HQ]. clear Hpast Hacc.
  induction Hrun as [|h c ev d d' c' Hrun IH HA Hend Hev]; [by unfold good, past_security; cbn; unfold STATE_FREE, STATE_SECURITY, STATE_SECURITY_AUTH, STATE_SECURITY_DONE; split_and!; lia|].
  apply (event_good (Q h) d c) in Hev; [|intros tid Ht; left|exact IH].
  - eapply good_weaken; [|exact Hev]. intros tid [[Ht|(e & r & d1 & c1 & Hin & H1 & H2)]|(e & r & Hin & H1 & H2)]; [by left|right; exists e, r, d1, c1; set_solver|].
    right. exists e, r, d, c. split_and!; [|done|done]. apply elem_of_app. left. apply list_elem_of_fmap. by exists (e, r).
  - unfold accounts_empty in Ht. rewrite HA in Ht. destruct (A tid) as [[|a l]|]; done.
Qed.

(** Base64 of a length that is no multiple of 4 is taken without an error, and leaves the memory as it was. *)
Example unaligned_base64 buf : length buf = 16%nat -> chap_decode_string (str "0bA") buf (chap_check_encoding_format (str "0bA")) = Some (0, buf).
Proof. intros H. unfold chap_decode_string. rewrite H. reflexivity. Qed.

(** ** A login *)

(** The events of a connection that is alone, one after the other. *)
Fixpoint run_events (p : nat) (evs : list conn_event) (h : list (env * pdu * daemon * connection)) (d : daemon) (c : connection) : option (list (env * pdu * daemon * connection) * daemon * connection) :=
  match evs with
  | [] => Some (h, d, c)
  | ev :: evs =>
      if ended c then None
      else '(d', c') ← event_conn p ev d c; run_events p evs (map (fun r => (r, d, c)) (event_req ev) ++ h) d' c'
  end.

Lemma event_accounts p ev d c d' c' : event_conn p ev d c = Some (d', c') -> good (fun _ => True) (sec_of c) -> same_accounts d d'.
Proof.
  intros H Hg. unfold event_conn in H. assert (Hx : forall e req res d1 c1, cmnd_execute e p req d (conn_write_pdu c) = Some (res, d1, c1) -> same_accounts d d1) by (intros e req res d1 c1 E; by eapply (execute_good (fun _ => True)) in E as [? _]).
  destruct ev as [e req|e req|]; [| |by some]; (destruct (cmnd_execute e p req d _) as [[[res d1] c1]|] eqn:E; cbn [mbind option_bind] in H; [|done]); apply Hx in E; destruct (state (if res =? 0 then _ else _) =? STATE_DROP); [by some| |by some|by some].
  destruct (conn_written e _); cbn [mbind option_bind] in H; [by some|done].
Qed.

Lemma run_events_run A p keys portal evs : forall h d c h' d' c', login_run A p keys portal h c -> (forall tid, accounts_of d tid INCOMING = A tid) -> good (fun _ => True) (sec_of c) ->
  run_events p evs h d c = Some (h', d', c') -> login_run A p keys portal h' c'.
Proof.
  induction evs as [|ev evs IH]; intros h d c h' d' c' Hr HA Hg; cbn [run_events]; [intros ?; by some|]. destruct (ended c) eqn:Ee; [done|]. destruct (event_conn p ev d c) as [[d1 c1]|] eqn:E; cbn [mbind option_bind]; [|done].
  intros H. eapply IH; [by eapply run_step| | |exact H].
  - intros tid. rewrite <- HA. by apply (event_accounts p ev d c d1 c1).
  - apply (event_good (fun _ => True)) in E; [|done|done]. by eapply good_weaken; [|exact E].
Qed.

Module Demo.

Definition keys : list iscsi_key := init_session_keys 65536.

Definition tgt : target := mkTarget 1 (str "iqn.disk") true false [32; 90; 30; 30; 0] (params_set_defaults keys) [] 0 [] 0 0 [mkAttr (str "alice") (Some (str "open sesame!"))] [] [] [].

Definition dm : daemon := mkDaemon keys [tgt] [] [] true false 1 0 0 0.

Definition ev : env := mkEnv (fun _ => true) (fun _ _ => 0) (fun i => 7 + Z.of_nat i) (fun _ => true) (fun _ _ => 1) None None [] (fun _ => false) 3260 0 0.

Definition login (flags : Z) (kvs : list (list Z * list Z)) : conn_event :=
  EvPdu ev (mkPdu ([0x43; flags] ++ repeat 0 46) (concat (map pair_bytes kvs))).

(** The challenge of the daemon, and the response to it with a secret. *)
Definition first : list conn_event :=
  [login 0 [(str "InitiatorName", str "iqn.host"); (str "TargetName", str "iqn.disk"); (str "AuthMethod", str "None,CHAP")]; login 0 [(str "CHAP_A", str "7,5")]].

Definition waiting : connection := match run_events 0 first [] dm (conn_alloc keys (str "10.0.0.1")) with Some (_, _, c) => c | None => conn_alloc keys [] end.

Definition answer (secret : list Z) : conn_event :=
  login 0x83 [(str "CHAP_N", str "alice"); (str "CHAP_R", chap_encode_string (chap_calc_digest (digest_alg waiting) (repeat 0 64) (chap_id waiting) secret (challenge waiting)) HEX_FORMAT)].

Definition result (secret : list Z) := run_events 0 (first ++ [answer secret]) [] dm (conn_alloc keys (str "10.0.0.1")).

End Demo.

(** With the right secret the connection goes to the kernel, with a session of the target; with a wrong one it ends, with the error of a failed authentication, and there is no session. *)
Example demo_login :
  (fun '(_, d, c) => (state c, length (concat (map sessions_list (targets_list d))), status_class (rsp c))) <$> Demo.result (str "open sesame!") = Some (STATE_CLOSE, 1%nat, 0) /\
  (fun '(_, d, c) => (state c, length (concat (map sessions_list (targets_list d))), status_class (rsp c), status_detail (rsp c))) <$> Demo.result (str "open barley!") = Some (STATE_EXIT, 0%nat, ISCSI_STATUS_INITIATOR_ERR, ISCSI_STATUS_AUTH_FAILED).
Proof. split; vm_compute; reflexivity. Qed.

Definition demo_end : list (env * pdu * daemon * connection) * connection := match Demo.result (str "open sesame!") with Some (h, _, c) => (h, c) | None => ([], conn_alloc [] []) end.

Lemma demo_login_run : login_run (fun tid => accounts_of Demo.dm tid INCOMING) 0 Demo.keys (str "10.0.0.1") demo_end.1 demo_end.2.
Proof.
  destruct (Demo.result (str "open sesame!")) as [[[h d] c]|] eqn:E; [|exfalso; revert E; vm_compute; discriminate].
  assert (Ed : demo_end = (h, c)) by (unfold demo_end; by rewrite E). rewrite Ed. cbn [fst snd]. eapply run_events_run; [apply run_start|done| |exact E].
  unfold good, past_security. cbn. unfold STATE_FREE, STATE_SECURITY, STATE_SECURITY_AUTH, STATE_SECURITY_DONE. split_and!; lia.
Qed.

Lemma demo_end_state : state demo_end.2 = STATE_CLOSE /\ c_tid demo_end.2 = 1.
Proof. split; vm_compute; reflexivity. Qed.

Lemma login_needs_secret_witness : exists e req d c1, (e, req, d, c1) ∈ demo_end.1 /\ c_tid c1 = c_tid demo_end.2 /\ proves_secret e (data req) d c1.
Proof.
  apply (login_needs_secret (fun tid => accounts_of Demo.dm tid INCOMING) 0 Demo.keys (str "10.0.0.1") demo_end.1 demo_end.2); [apply demo_login_run| |].
  - rewrite (proj1 demo_end_state). unfold past_security, STATE_CLOSE, STATE_SECURITY_DONE. lia.
  - rewrite (proj2 demo_end_state). discriminate.
Defined.
