(* ===== verification/IscsiSess.v ===== *)
(** * The sessions of the iSCSI daemon

    Many connections, accepted, served and closed in any order: the number of sessions
    that a target counts is the number of its sessions and of the logins that were
    counted ahead, and no two sessions of a target have the same SID. *)

From S2P Require Import Prelude CStr Hash ChapCode IscsiText IscsiParam Wild IscsiConn IscsiChap IscsiLogin IscsiAuth.

Lemma TSIH_VALUES_eq : Z.of_nat TSIH_VALUES = 65536.
Proof. unfold TSIH_VALUES. rewrite Z2Nat.id; lia. Qed.

#[local] Opaque TSIH_VALUES.
#[local] Opaque segs_add challenge_bytes pick_alg text_key_find chap_calc_digest chap_decode_string.

(** ** The parts of a connection that matter for the count *)

Record link : Type := mkLink { l_inc : bool; l_sess : option nat; l_target : option Z; l_tid : Z; l_type : Z; l_passed : bool }.

Definition link_of (c : connection) : link := mkLink (sessions_count_incremented c) (sess c) (c_target c) (c_tid c) (session_type c) (passed_to_kern c).

Lemma link_text_key_add e k v c : link_of (text_key_add e k v c) = link_of c.
Proof. unfold text_key_add. destruct (segs_add _ _ _ _ _ _) as [a [|s l]]; done. Qed.

#[local] Opaque text_key_add.

Lemma link_rsp f c : link_of (upd_rsp f c) = link_of c.
Proof. done. Qed.

Lemma link_reject e req r c : link_of (cmnd_reject e req r c) = link_of c.
Proof. unfold cmnd_reject, conn_malloc. cbn zeta. by destruct (mem e _). Qed.

Lemma link_check_param e i k c : link_of (check_param e i k c).1 = link_of c.
Proof. unfold check_param. repeat case_match; try done; cbn [fst]; by transitivity (link_of (text_key_add e (k_name k) (params_val_to_str k (val (param_at (session_params c) i))) c)); [|apply link_text_key_add]. Qed.

Lemma link_text_check_params e d c : link_of (text_check_params e d c).1 = link_of c.
Proof.
  unfold text_check_params. generalize 0%nat as i, 0 as n. generalize (session_keys d) as keys. intros keys. revert c. induction keys as [|k keys IH]; intros c i n; cbn [check_params]; [done|].
  pose proof (link_check_param e i k c) as H. destruct (check_param e i k c) as [c' m]. rewrite IH. exact H.
Qed.

Lemma link_scan_login_pair e keys k v c : link_of (scan_login_pair e keys k v c).2 = link_of c.
Proof.
  unfold scan_login_pair. destruct (is_login_key k); [done|]. destruct (strcmp_eq k (str "AuthMethod")); [done|]. destruct (params_index_by_name k keys) as [idx|]; [|apply link_text_key_add].
  destruct (idx =? key_max_xmit_data_length)%nat; [apply link_text_key_add|].
  set (g := if (idx =? key_max_recv_data_length)%nat then (key_max_xmit_data_length, put_key_state idx KEY_STATE_DONE c) else (idx, c)). assert (Hg : link_of g.2 = link_of c) by (unfold g; by case_match).
  clearbody g. destruct g as [i c1]. cbn [snd] in Hg. destruct (params_str_to_val _ _ _) as [x|]; [|destruct (_ =? KEY_STATE_START); cbn [snd]; [unfold text_key_add_reject; by rewrite link_text_key_add|exact Hg]].
  unfold params_set_val. destruct (_ =? KEY_STATE_START); [destruct (iscsi_is_key_internal i)|destruct (_ =? KEY_STATE_REQUEST); [destruct (negb _)|]]; cbn [snd]; try exact Hg.
  match goal with |- link_of (put_key_state _ _ ?x) = _ => change (link_of x = link_of c) end. by rewrite link_text_key_add.
Qed.

Lemma link_text_scan_login e req d c : link_of (text_scan_login e req d c) = link_of c.
Proof.
  unfold text_scan_login. generalize (text_pairs (data req)) as l. intros l. revert c. induction l as [|[k v] l IH]; intros c; cbn [scan_login_pairs]; [done|].
  pose proof (link_scan_login_pair e (session_keys d) k v c) as H. destruct (scan_login_pair e (session_keys d) k v c) as [[|] c']; cbn [snd] in H; [done|]. by rewrite IH.
Qed.

Lemma link_scan_auth_method e d k fuel : forall v c, link_of (scan_auth_method fuel e d k v c) = link_of c.
Proof.
  induction fuel as [|fuel IH]; intros v c; cbn [scan_auth_method]; [done|]. destruct (split_at_char 44 v) as [x next]. assert (Hc : link_of (match next with None => c | Some next => scan_auth_method fuel e d k next c end) = link_of c) by (by destruct next).
  destruct (strcmp_eq x (str "None")); [destruct (accounts_empty _ _ _)|destruct (strcmp_eq x (str "CHAP")); [destruct (accounts_empty _ _ _)|]]; cbn [negb]; try exact Hc; by rewrite link_text_key_add.
Qed.

Lemma link_text_scan_security e req d c : link_of (text_scan_security e req d c) = link_of c.
Proof.
  unfold text_scan_security. set (c1 := foldl _ c _). assert (H : link_of c1 = link_of c).
  { unfold c1. generalize (text_pairs (data req)) as l. intros l. revert c c1. induction l as [|[k v] l IH]; intros c c1; cbn [foldl]; [done|]. rewrite IH. unfold scan_security_pair. destruct (is_login_key k); [done|].
    destruct (strcmp_eq k (str "AuthMethod")); [|apply link_text_key_add]. destruct (_ =? AUTH_UNKNOWN); [unfold text_key_add_reject; rewrite link_text_key_add|]; apply link_scan_auth_method. }
  clearbody c1. by destruct (_ =? AUTH_UNKNOWN).
Qed.

(** ** The exchange *)

Lemma link_lookup_user e dat d c r pass c' : chap_lookup_user e dat d c = Some (r, pass, c') -> link_of c' = link_of c.
Proof.
  unfold chap_lookup_user. destruct (accounts_empty _ _ _); [intros ?; by some|]. destruct (text_key_find _ _) as [n|]; [|intros ?; by some]. unfold conn_malloc. cbn zeta.
  destruct (config_account_query _ _ _ _) as [[a b]|]; cbn [mbind option_bind]; [|done]. intros ?. by some.
Qed.

Lemma link_check_response e dat d c r c' : chap_initiator_auth_check_response e dat d c = Some (r, c') -> link_of c' = link_of c.
Proof.
  unfold chap_initiator_auth_check_response. destruct (chap_lookup_user e dat d c) as [[[r1 pass] c1]|] eqn:E; cbn [mbind option_bind]; [|done]. apply link_lookup_user in E.
  destruct (r1 <? 0); [intros ?; by some|]. destruct (text_key_find _ _) as [v|]; [|intros ?; by some]. destruct (_ <? 0); [intros ?; by some|]. destruct (chap_digest_len _) as [n|]; [|intros ?; by some].
  unfold conn_malloc. destruct (mem e (c_allocs c1)); [|intros ?; by some]. cbn zeta. destruct (mem e _); [|intros ?; by some]. destruct (chap_decode_string _ _ _) as [[r2 his]|]; cbn [mbind option_bind]; [|done].
  destruct (r2 <? 0); [intros ?; by some|]. destruct (bool_decide _); intros ?; by some.
Qed.

Lemma link_set_state s c : link_of (c <|state := s|>) = link_of c.
Proof. done. Qed.

Lemma link_target_response e dat d c r c' : chap_target_auth_create_response e dat d c = Some (r, c') -> link_of c' = link_of c.
Proof.
  unfold chap_target_auth_create_response. destruct (text_key_find dat (str "CHAP_I")) as [v|]; [|intros ?; by some]. destruct (account_get_first _ _ _) as [u|]; [|intros ?; by some]. destruct (text_key_find dat (str "CHAP_C")) as [w|]; [|intros ?; by some].
  destruct (_ <? 0); [intros ?; by some|]. unfold conn_malloc. destruct (_ <=? 0); [intros ?; by some|]. destruct (1024 <? _); [intros ?; by some|]. destruct (mem e _); [|intros ?; by some].
  unfold chap_answer. destruct (chap_digest_len _) as [n|]; [|intros ?; by some]. unfold conn_malloc. destruct (mem e (c_allocs _)); [|intros ?; by some]. cbn zeta. destruct (mem e (c_allocs _)); [|intros ?; by some].
  destruct (chap_decode_string _ _ _) as [[r2 b]|]; cbn [mbind option_bind]; [|done]. destruct (r2 <? 0); [intros ?; by some|]. destruct (bool_decide _); [intros ?; by some|]. destruct (attr_value u) as [pass|]; cbn [mbind option_bind]; [|done].
  destruct (_ <? _)%nat; [done|]. intros ?. some. rewrite link_set_state, !link_text_key_add. reflexivity.
Qed.

Lemma link_challenge_bytes e n : forall c, link_of (challenge_bytes e n c).2 = link_of c.
Proof. Transparent challenge_bytes. induction n as [|n IH]; intros c; cbn [challenge_bytes]; [done|]. unfold chap_rand. specialize (IH (c <|c_rands := S (c_rands c)|>)). destruct (challenge_bytes e n _) as [l c']. exact IH. Opaque challenge_bytes. Qed.

Lemma link_set_chap_id v c : link_of (c <|chap_id := v|>) = link_of c.
Proof. done. Qed.

Lemma link_set_challenge v c : link_of (c <|challenge := v|>) = link_of c.
Proof. done. Qed.

Lemma link_create_challenge e dat d c : link_of (chap_initiator_auth_create_challenge e dat d c).2 = link_of c.
Proof.
  unfold chap_initiator_auth_create_challenge. destruct (text_key_find _ _) as [v|]; [|done]. destruct (pick_alg _ v) as [[alg p]|]; [|done]. unfold chap_rand, conn_malloc. cbn zeta.
  match goal with |- context [text_key_add e (str "CHAP_I") ?x ?y] => set (c1 := text_key_add e (str "CHAP_I") x y); assert (H1 : link_of c1 = link_of c) by (unfold c1; rewrite link_text_key_add, link_set_chap_id, link_text_key_add; reflexivity) end.
  clearbody c1. destruct (mem e _); [|exact H1]. match goal with |- context [challenge_bytes e ?n ?x] => pose proof (link_challenge_bytes e n x) as H2; destruct (challenge_bytes e n x) as [ch c2] end. cbn [snd] in H2 |- *.
  rewrite link_text_key_add, link_set_challenge, H2. exact H1.
Qed.

Lemma daemon_create_challenge e dat d c : (chap_initiator_auth_create_challenge e dat d c).1.2 = d \/ (chap_initiator_auth_create_challenge e dat d c).1.2 = d <|next_chap_id := next_chap_id d + 1|>.
Proof.
  unfold chap_initiator_auth_create_challenge. destruct (text_key_find _ _) as [v|]; [|by left]. destruct (pick_alg _ v) as [[alg p]|]; [|by left]. unfold chap_rand, conn_malloc. cbn zeta. right.
  match goal with |- context [text_key_add e (str "CHAP_I") ?x ?y] => generalize (text_key_add e (str "CHAP_I") x y); intros c1 end. destruct (mem e _); [|reflexivity].
  match goal with |- context [challenge_bytes e ?n ?x] => destruct (challenge_bytes e n x) as [ch c2] end. cbn [fst snd]. reflexivity.
Qed.

Lemma link_exec_auth e req d c r d' c' : cmnd_exec_auth e req d c = Some (r, d', c') -> link_of c' = link_of c /\ targets_list d' = targets_list d /\ next_sess d' = next_sess d.
Proof.
  unfold cmnd_exec_auth. destruct (_ =? AUTH_CHAP); [|destruct (_ =? AUTH_NONE); intros ?; by some]. unfold cmnd_exec_auth_chap. destruct (_ =? CHAP_AUTH_STATE_START).
  - pose proof (link_create_challenge e (data req) d c) as H. pose proof (daemon_create_challenge e (data req) d c) as Hd. destruct (chap_initiator_auth_create_challenge e (data req) d c) as [[r1 d1] c1]. cbn [fst snd] in H, Hd. intros E. some. by split_and!; [|destruct Hd as [-> | ->]..].
  - destruct (_ =? CHAP_AUTH_STATE_CHALLENGE); [|destruct (_ =? CHAP_AUTH_STATE_RESPONSE); [|intros ?; by some]].
    + destruct (chap_initiator_auth_check_response e (data req) d c) as [[r1 c1]|] eqn:E; cbn [mbind option_bind]; [|done]. apply link_check_response in E. destruct (r1 <? 0); [intros ?; by some|].
      destruct (chap_target_auth_create_response e (data req) d c1) as [[r2 c2]|] eqn:E2; cbn [mbind option_bind]; [|done]. apply link_target_response in E2. intros ?. some. by rewrite E2.
    + destruct (chap_target_auth_create_response e (data req) d c) as [[r2 c2]|] eqn:E2; cbn [mbind option_bind]; [|done]. apply link_target_response in E2. intros ?. by some.
Qed.

(** ** Targets *)

Definition t_ok (n : nat) (t : target) : Prop :=
  NoDup (map s_id (sessions_list t)) /\ (forall s, s ∈ sessions_list t -> (s_id s < n)%nat) /\ NoDup (map s_sid (sessions_list t)).

(** Targets have different numbers, and the sessions of a target different identities
    and SIDs. *)
Definition daemon_ok (d : daemon) : Prop := NoDup (map t_tid (targets_list d)) /\ forall t, t ∈ targets_list d -> t_ok (next_sess d) t.

(** What a target counts beyond its sessions. *)
Definition excess_of (t : target) : Z := sessions_count t - Z.of_nat (length (sessions_list t)).
Definition excess (d : daemon) (tid : Z) : Z := match target_find_by_id d tid with Some t => excess_of t | None => 0 end.

(** What a connection accounts for beyond sessions. *)
Definition pend (l : link) (tid : Z) : Z :=
  if l_inc l then match l_sess l, l_target l with None, Some t => if t =? tid then 1 else 0 | _, _ => 0 end else 0.

Lemma find_in d tid t : target_find_by_id d tid = Some t -> t ∈ targets_list d /\ t_tid t = tid.
Proof. unfold target_find_by_id. intros [H1 H2]%find_some. split; [by apply list_elem_of_In|by apply Z.eqb_eq]. Qed.

Lemma in_find d t : NoDup (map t_tid (targets_list d)) -> t ∈ targets_list d -> target_find_by_id d (t_tid t) = Some t.
Proof.
  unfold target_find_by_id. induction (targets_list d) as [|x l IH]; intros Hn Hin; [by apply not_elem_of_nil in Hin|]. cbn [map find] in *. apply NoDup_cons in Hn as [Hx Hn]. apply elem_of_cons in Hin as [->|Hin]; [by rewrite Z.eqb_refl|].
  destruct (Z.eqb_spec (t_tid x) (t_tid t)) as [E|E]; [|by apply IH]. exfalso. apply Hx. rewrite E. by apply list_elem_of_fmap_2.
Qed.

Lemma tids_upd f tid d : (forall t, t_tid (f t) = t_tid t) -> map t_tid (targets_list (upd_target f tid d)) = map t_tid (targets_list d).
Proof. intros Hf. change (targets_list (upd_target f tid d)) with (map (fun t => if t_tid t =? tid then f t else t) (targets_list d)). rewrite map_map. apply map_ext. intros t. by destruct (_ =? _). Qed.

Lemma daemon_ok_upd f tid d d' : targets_list d' = targets_list (upd_target f tid d) -> (next_sess d <= next_sess d')%nat -> (forall t, t_tid (f t) = t_tid t) ->
  (forall t, target_find_by_id d tid = Some t -> t_ok (next_sess d) t -> t_ok (next_sess d') (f t)) -> daemon_ok d -> daemon_ok d'.
Proof.
  intros Ht Hn Hf Hok [Hd Hall]. split; [by rewrite Ht, tids_upd|]. rewrite Ht. change (targets_list (upd_target f tid d)) with (map (fun t => if t_tid t =? tid then f t else t) (targets_list d)).
  intros t (t0 & -> & Hin)%list_elem_of_fmap. destruct (Z.eqb_spec (t_tid t0) tid) as [E|E]; [apply Hok; [subst tid; by apply in_find|by apply Hall]|]. destruct (Hall t0 Hin) as (H1 & H2 & H3). split_and!; [done| |done]. intros s Hs. specialize (H2 s Hs). lia.
Qed.

Lemma excess_upd f tid d d' id : targets_list d' = targets_list (upd_target f tid d) -> (forall t, t_tid (f t) = t_tid t) ->
  excess d' id = match target_find_by_id d id with Some t => if id =? tid then excess_of (f t) else excess_of t | None => 0 end.
Proof.
  intros Ht Hf. unfold excess. assert (E : target_find_by_id d' id = target_find_by_id (upd_target f tid d) id) by (unfold target_find_by_id; by rewrite Ht). rewrite E, find_upd_target by done.
  destruct (target_find_by_id d id) as [t|] eqn:Ef; [|done]. cbn. apply find_in in Ef as [_ <-]. by destruct (_ =? _).
Qed.

(** A change of the connections of a session. *)
Lemma upd_session_lists f id t : (forall s, s_id (f s) = s_id s /\ s_sid (f s) = s_sid s) ->
  map s_id (sessions_list (upd_session f id t)) = map s_id (sessions_list t) /\ map s_sid (sessions_list (upd_session f id t)) = map s_sid (sessions_list t) /\ length (sessions_list (upd_session f id t)) = length (sessions_list t).
Proof.
  intros Hf. change (sessions_list (upd_session f id t)) with (map (fun s => if (s_id s =? id)%nat then f s else s) (sessions_list t)). rewrite !map_map, length_map.
  split_and!; [apply map_ext; intros s; destruct (_ =? _)%nat; [apply Hf|done]..|done].
Qed.

Lemma upd_conn_list_ok (f : session -> session) id tid d : (forall s, s_id (f s) = s_id s /\ s_sid (f s) = s_sid s) -> let d' := upd_target (upd_session f id) tid d in
  (daemon_ok d -> daemon_ok d') /\ map t_tid (targets_list d') = map t_tid (targets_list d) /\ forall x, excess d' x = excess d x.
Proof.
  intros Hf d'. split_and!.
  - intros Hd. apply (daemon_ok_upd (upd_session f id) tid d d'); [done|done|done| |done]. intros t _ (H1 & H2 & H3). destruct (upd_session_lists f id t Hf) as (E1 & E2 & _). split_and!; [by rewrite E1| |by rewrite E2].
    intros s Hs. assert (Hin : s_id s ∈ map s_id (sessions_list t)) by (rewrite <- E1; by apply list_elem_of_fmap_2). apply list_elem_of_fmap in Hin as (s0 & -> & Hs0). by apply H2.
  - by apply tids_upd.
  - intros x. rewrite (excess_upd (upd_session f id) tid d d' x) by done. unfold excess. destruct (target_find_by_id d x) as [t|]; [|done]. destruct (_ =? _); [|done]. unfold excess_of. destruct (upd_session_lists f id t Hf) as (_ & _ & E). by rewrite E.
Qed.

Lemma u32_minus a b : u32 (u32 a - b) = u32 (a - b).
Proof. unfold u32. by rewrite Zminus_mod_idemp_l. Qed.

Lemma filter_all (Q : session -> Prop) `{!forall s, Decision (Q s)} (l : list session) : (forall s, s ∈ l -> Q s) -> filter Q l = l.
Proof. induction l as [|x l IH]; intros Hq; [done|]. rewrite filter_cons, decide_True by (apply Hq; set_solver). f_equal. apply IH. set_solver. Qed.

Lemma filter_other (l : list session) s : NoDup (map s_id l) -> s ∈ l -> length (filter (fun x => s_id x <> s_id s) l) = (length l - 1)%nat /\ (1 <= length l)%nat.
Proof.
  induction l as [|x l IH]; intros Hn Hin; [by apply not_elem_of_nil in Hin|]. cbn [map] in Hn. apply NoDup_cons in Hn as [Hx Hn]. rewrite filter_cons. apply elem_of_cons in Hin as [->|Hin].
  - rewrite decide_False by auto. split; [|cbn; lia]. cbn. rewrite Nat.sub_0_r. f_equal. apply filter_all. intros y Hy E. apply Hx. rewrite <- E. by apply list_elem_of_fmap_2.
  - destruct (IH Hn Hin) as [E1 E2]. rewrite decide_True by (intros E; apply Hx; rewrite E; by apply list_elem_of_fmap_2). cbn. split; lia.
Qed.

Lemma NoDup_map_filter {B} (g : session -> B) (Q : session -> Prop) `{!forall s, Decision (Q s)} (l : list session) : NoDup (map g l) -> NoDup (map g (filter Q l)).
Proof.
  induction l as [|x l IH]; intros Hn; [done|]. cbn [map] in Hn. apply NoDup_cons in Hn as [Hx Hn]. rewrite filter_cons. case_decide; [|by apply IH]. cbn [map]. apply NoDup_cons. split; [|by apply IH].
  intros (y & Hy & Hin)%list_elem_of_fmap. apply list_elem_of_filter in Hin as [_ Hin]. apply Hx. rewrite Hy. by apply list_elem_of_fmap_2.
Qed.

Lemma session_free_ok tid id d : daemon_ok d -> (exists s, s ∈ sessions_of d tid /\ s_id s = id) -> let d' := session_free tid id d in
  daemon_ok d' /\ map t_tid (targets_list d') = map t_tid (targets_list d) /\ forall x, u32 (excess d' x) = u32 (excess d x).
Proof.
  intros Hd (s & Hs & <-) d'. unfold sessions_of in Hs. destruct (target_find_by_id d tid) as [t|] eqn:Et; [|by apply not_elem_of_nil in Hs]. pose proof (find_in d tid t Et) as [Hin Htid]. destruct (proj2 Hd t Hin) as (Hid & Hlt & Hsid).
  set (f := fun t => (t <|sessions_count := u32 (sessions_count t - 1)|>) <|sessions_list := filter (fun x => s_id x <> s_id s) (sessions_list t)|>). split_and!.
  - apply (daemon_ok_upd f tid d d'); [done|done|done| |done]. intros t0 _ (H1 & H2 & H3). split_and!; [by apply NoDup_map_filter| |by apply NoDup_map_filter]. intros x Hx. change (x ∈ filter (fun x => s_id x <> s_id s) (sessions_list t0)) in Hx. apply list_elem_of_filter in Hx as [_ Hx]. by apply H2.
  - by apply (tids_upd f tid d).
  - intros x. rewrite (excess_upd f tid d d' x) by done. unfold excess. destruct (Z.eqb_spec x tid) as [->|E]; [|done]. rewrite Et. unfold excess_of. cbn. destruct (filter_other (sessions_list t) s Hid Hs) as [E1 E2]. rewrite E1, u32_minus. f_equal. lia.
Qed.

(** One login more that is counted. *)
Lemma count_ok k tid d : let d' := upd_target (fun t => t <|sessions_count := u32 (sessions_count t + k)|>) tid d in
  (daemon_ok d -> daemon_ok d') /\ map t_tid (targets_list d') = map t_tid (targets_list d) /\
  forall x, is_Some (target_find_by_id d x) -> u32 (excess d' x) = u32 (excess d x + if x =? tid then k else 0).
Proof.
  intros d'. set (f := fun t => t <|sessions_count := u32 (sessions_count t + k)|>). split_and!.
  - apply (daemon_ok_upd f tid d d'); [done|done|done|]. intros t _ H. exact H.
  - by apply (tids_upd f tid d).
  - intros x [t Ht]. rewrite (excess_upd f tid d d' x) by done. unfold excess. rewrite Ht. destruct (_ =? _); [|by rewrite Z.add_0_r]. unfold excess_of. cbn. rewrite u32_minus. f_equal. lia.
Qed.

(** ** Changes that keep the balance *)

(** The daemon stays in order, and what a target counts beyond its sessions changes by
    what the connection accounts for. *)
Definition balance (d : daemon) (l : link) (d' : daemon) (l' : link) : Prop :=
  daemon_ok d -> daemon_ok d' /\ map t_tid (targets_list d') = map t_tid (targets_list d) /\
  forall x, is_Some (target_find_by_id d x) -> u32 (excess d' x - pend l' x) = u32 (excess d x - pend l x).

Lemma balance_refl d l : balance d l d l.
Proof. done. Qed.

(** A target is found when one with its number exists. *)
Lemma find_tids d x : is_Some (target_find_by_id d x) <-> x ∈ map t_tid (targets_list d).
Proof.
  unfold target_find_by_id. induction (targets_list d) as [|t l IH]; cbn [find map]; [split; [by intros []|by intros ?%not_elem_of_nil]|]. rewrite elem_of_cons. destruct (Z.eqb_spec (t_tid t) x) as [E|E]; [split; [by left|eauto]|].
  rewrite IH. split; [by right|]. intros [?|?]; [congruence|done].
Qed.

Lemma balance_trans d l d1 l1 d2 l2 : balance d l d1 l1 -> balance d1 l1 d2 l2 -> balance d l d2 l2.
Proof.
  intros H1 H2 Hd. destruct (H1 Hd) as (Hd1 & E1 & B1). destruct (H2 Hd1) as (Hd2 & E2 & B2). split_and!; [done|by rewrite E2|]. intros x Hx. rewrite B2; [by apply B1|]. apply find_tids. rewrite E1. by apply find_tids.
Qed.

Lemma balance_same d l d' : targets_list d' = targets_list d -> next_sess d' = next_sess d -> balance d l d' l.
Proof.
  intros Ht Hn Hd. assert (Hf : forall x, target_find_by_id d' x = target_find_by_id d x) by (intros x; unfold target_find_by_id; by rewrite Ht). split_and!; [unfold daemon_ok; by rewrite Ht, Hn|by rewrite Ht|]. intros x _. unfold excess. by rewrite Hf.
Qed.

(** ** The start of a login *)

(** A connection that is counted is so for its target, and the kernel does not have it; one
    that is past its first request and has no session is counted. *)
Definition counted (l : link) : Prop := (l_inc l = true -> l_target l = Some (l_tid l)) /\ l_passed l = false.
Definition fresh (l : link) : Prop := l_inc l = false /\ l_passed l = false.

Lemma fresh_counted l : fresh l -> counted l.
Proof. intros [H1 H2]. split; [congruence|done]. Qed.
Definition ready (c : connection) : Prop := status_class (rsp c) = 0 -> session_type c = SESSION_NORMAL -> sess c = None -> sessions_count_incremented c = true.

Lemma pend_none l x : l_inc l = false -> pend l x = 0.
Proof. unfold pend. by intros ->. Qed.

Lemma balance_conn d l l' : (forall x, pend l' x = pend l x) -> balance d l d l'.
Proof. intros H Hd. split_and!; [done|done|]. intros x _. by rewrite H. Qed.

Lemma link_redirected e t c : link_of (target_redirected e t c).2 = link_of c.
Proof. unfold target_redirected. destruct (redirect_addr t); [done|]. destruct (sock_addr e); [|done]. destruct (negb _); [apply link_text_key_add|done]. Qed.

Definition login_start_post (d : daemon) (l : link) (d' : daemon) (c' : connection) : Prop := balance d l d' (link_of c') /\ counted (link_of c') /\ ready c'.

Lemma start_fails d l c' : link_of c' = l -> fresh l -> status_class (rsp c') <> 0 -> login_start_post d l d c'.
Proof. intros <- Hi Hs. split; [apply balance_refl|]. split; [by apply fresh_counted|]. intros E. congruence. Qed.

Lemma start_fails' d l l' c' : link_of c' = l' -> fresh l -> fresh l' -> status_class (rsp c') <> 0 -> login_start_post d l d c'.
Proof. intros <- H1 H2 Hs. split; [apply balance_conn; intros x; by rewrite !pend_none by apply H1 || apply H2|]. split; [by apply fresh_counted|]. intros E. congruence. Qed.

Lemma reinstatement_link p req d c rc d' c' : l_inc (link_of c) = false -> login_check_reinstatement p req d c = Some (rc, d', c') ->
  balance d (link_of c) d' (link_of c') /\ l_inc (link_of c') = false /\ l_passed (link_of c') = l_passed (link_of c) /\ l_target (link_of c') = l_target (link_of c) /\ l_tid (link_of c') = l_tid (link_of c) /\ l_type (link_of c') = l_type (link_of c) /\
  (rc < 0 -> status_class (rsp c') <> 0) /\ (rc = ISCSI_CONN_REINSTATEMENT -> sess c' <> None) /\ (rc <> ISCSI_CONN_REINSTATEMENT -> sess c' = None).
Proof.
  intros Hi. unfold login_check_reinstatement. destruct (sess c) eqn:Es; [done|]. destruct (session_find_name _ _ _ _) as [s|].
  - destruct (_ =? 0); [intros ?; some; split_and!; [apply balance_refl|done..]|]. destruct (negb _); [intros ?; some; split_and!; [apply balance_refl|done..]|].
    destruct (conn_find s (c_cid c)); [|intros ?; some; split_and!; [apply balance_refl|done..]]. intros ?. some. split_and!; try done. intros Hd.
    destruct (upd_conn_list_ok (fun s0 => s0 <|conn_list := conn_list s0 ++ [(p, c_cid c)]|>) (s_id s) (c_tid c) d ltac:(done)) as (H1 & H2 & H3). split_and!; [by apply H1|done|]. intros x _. rewrite H3, !pend_none by done. done.
  - destruct (negb _); intros ?; some; (split_and!; [apply balance_refl|done..]).
Qed.

Lemma login_target_link e p req name tn d c d' c' : fresh (link_of c) -> login_target e p req name tn d c = Some (d', c') -> login_start_post d (link_of c) d' c'.
Proof.
  intros Hi. unfold login_target. destruct tn as [tn|]; [|intros ?; some; by apply start_fails]. destruct (target_find_by_name d tn) as [t|]; [|intros ?; some; by apply start_fails].
  destruct (negb (iscsi_enabled d)); [intros ?; some; by eapply start_fails'|]. destruct (negb (tgt_enabled t)); [intros ?; some; by eapply start_fails'|].
  set (c1 := (c <|c_target := Some (t_tid t)|>) <|c_tid := t_tid t|>). assert (H1 : fresh (link_of c1) /\ l_target (link_of c1) = Some (l_tid (link_of c1)) /\ l_tid (link_of c1) = t_tid t) by done. clearbody c1.
  destruct (target_portal_allowed _ _ _ _) as [ok|]; cbn [mbind option_bind]; [|done]. destruct (_ || _); [intros ?; some; eapply start_fails'; [reflexivity|exact Hi|exact (proj1 H1)|done]|].
  pose proof (link_redirected e t c1) as H2. destruct (target_redirected e t c1) as [[|] c2]; cbn [snd] in H2; [intros ?; some; eapply start_fails'; [rewrite link_set_state, link_rsp; exact H2|done|apply H1|done]|]. rewrite <- H2 in H1. clear H2 c1.
  unfold init_conn_session_params. destruct (target_find_by_id d (c_tid c2)) as [t'|]; [change (negb (0 =? 0)) with false|change (negb (- ENOENT =? 0)) with true]; cbn iota; [|intros ?; some; eapply start_fails'; [reflexivity|done|apply H1|done]].
  set (c3 := c2 <|session_params := _|>). change (link_of c2) with (link_of c3) in H1. clearbody c3. destruct H1 as ([Hi3 Hp3] & Ht3 & Htid).
  destruct (login_check_reinstatement p req d c3) as [[[rc d4] c4]|] eqn:E; cbn [mbind option_bind]; [|done]. apply reinstatement_link in E as (B & Hi4 & Hp4 & Ht4 & Hd4 & Hy4 & Herr & Hconn & Hnone); [|done]. rewrite Hp3 in Hp4.
  assert (B' : balance d (link_of c) d4 (link_of c4)) by (eapply balance_trans; [|exact B]; apply balance_conn; intros x; by rewrite !pend_none by (done || apply Hi)). clear B. assert (C4 : counted (link_of c4)) by (by apply fresh_counted).
  destruct (Z.ltb_spec rc 0); [intros ?; some; split; [done|split; [done|intros Ex; by apply Herr in Ex]]|].
  assert (Hcount : sess c4 = None -> login_start_post d (link_of c) (upd_target (fun t => t <|sessions_count := u32 (sessions_count t + 1)|>) (t_tid t) d4) (c4 <|sessions_count_incremented := true|>)).
  { intros Hs. assert (Hc4 : c_target c4 = Some (t_tid t)) by (change (l_target (link_of c4) = Some (t_tid t)); by rewrite Ht4, Ht3, Htid). split; [|split; [split; [intros _; cbn; rewrite Hc4; f_equal; symmetry; change (l_tid (link_of c4) = t_tid t); by rewrite Hd4|exact Hp4]|done]].
    eapply balance_trans; [exact B'|]. intros Hd. destruct (count_ok 1 (t_tid t) d4) as (C1 & C2 & C3). split_and!; [by apply C1|done|]. intros x Hx. rewrite (pend_none _ x Hi4), Z.sub_0_r. rewrite <- (Z.add_simpl_r (excess d4 x) (pend (link_of (c4 <|sessions_count_incremented := true|>)) x)).
    unfold u32 in *. rewrite Zminus_mod, (C3 x Hx), <- Zminus_mod. do 2 f_equal. unfold pend. cbn. rewrite Hs, Hc4. by rewrite (Z.eqb_sym x). }
  destruct (Z.eqb_spec rc ISCSI_SESS_REINSTATEMENT) as [->|Er]; [intros ?; some; apply Hcount, Hnone; done|]. destruct (Z.eqb_spec rc ISCSI_CONN_REINSTATEMENT) as [->|Er2]; cbn [negb].
  - intros ?. some. split; [done|]. split; [done|]. intros _ _ Hs. by apply Hconn in Hs.
  - destruct (_ || _); intros ?; some; [by apply Hcount, Hnone|]. split; [exact B'|]. split; [exact C4|done].
Qed.

Lemma login_start_link e p req d c d' c' : fresh (link_of c) -> sess c = None -> login_start e p req d c = Some (d', c') -> login_start_post d (link_of c) d' c'.
Proof.
  intros Hi Hs H. unfold login_start in H. destruct (text_key_find _ _) as [name|]; [|some; by apply start_fails].
  unfold conn_malloc in H. destruct (mem e _); [|some; by apply start_fails]. match type of H with context [login_target _ _ _ _ _ _ ?x] => set (c1 := x) in H end.
  assert (H1 : fresh (link_of c1) /\ sess c1 = None) by done. assert (Hb : forall l, l_inc l = false -> balance d (link_of c) d l) by (intros l Hl; apply balance_conn; intros x; by rewrite !pend_none by (done || apply Hi)).
  assert (Hfin : forall d2 c2, login_start_post d (link_of c) d2 c2 -> login_start_post d (link_of c) d2 (text_key_add e (str "TargetPortalGroupTag") (str "1") (c2 <|c_exp_cmd_sn := cmd_sn req|>))).
  { intros d2 c2 (B & C & R). set (c3 := text_key_add _ _ _ _). assert (E : link_of c3 = link_of c2) by (unfold c3; rewrite link_text_key_add; done). assert (Ec : status_class (rsp c3) = status_class (rsp c2)) by exact (f_equal v_class (sec_text_key_add e (str "TargetPortalGroupTag") (str "1") (c2 <|c_exp_cmd_sn := cmd_sn req|>))). clearbody c3.
    unfold login_start_post, ready. rewrite E, Ec. injection E as -> -> _ _ -> _. by split_and!. }
  assert (Hn : forall tn d' c', (('(d, c) ← login_target e p req name tn d c1; if status_class (rsp c) =? 0 then Some (d, text_key_add e (str "TargetPortalGroupTag") (str "1") (c <|c_exp_cmd_sn := cmd_sn req|>)) else Some (d, c)) = Some (d', c')) -> login_start_post d (link_of c) d' c').
  { intros tn d2 c2 E. destruct (login_target e p req name tn d c1) as [[d3 c3]|] eqn:El; cbn [mbind option_bind] in E; [|done]. apply login_target_link in El as (B & C & R); [|apply H1].
    assert (Hp : login_start_post d (link_of c) d3 c3) by (split; [eapply balance_trans; [apply Hb; apply (proj1 (proj1 H1))|exact B]|done]). destruct (_ =? 0); some; [by apply Hfin|done]. }
  destruct (text_key_find (data req) (str "SessionType")) as [ty|]; [|eapply Hn; exact H].
  destruct (strcmp_eq ty (str "Discovery")).
  - some. apply Hfin. split; [by apply Hb; apply (proj1 H1)|]. split; [by apply fresh_counted|done].
  - destruct (negb _); [some; eapply start_fails'; [reflexivity|done|exact (proj1 H1)|done]|eapply Hn; exact H].
Qed.

(** ** A session *)

Definition env_ok (e : env) : Prop := add_session e = 0 /\ forall i, mem e i = true.

Lemma free_tsih_unused used fuel : forall v r, free_tsih fuel used v = Some r -> used r = false.
Proof. induction fuel as [|fuel IH]; intros v r; cbn [free_tsih]; [done|]. destruct (used v) eqn:E; [apply IH|]. by intros [= <-]. Qed.

Lemma existsb_false {B} (f : B -> bool) l : existsb f l = false -> forall x, x ∈ l -> f x = false.
Proof. intros H x Hx. destruct (f x) eqn:E; [|done]. rewrite <- H. symmetry. apply existsb_exists. exists x. split; [by apply list_elem_of_In|done]. Qed.

(** The SID of the new session, the last one of its target. *)
Lemma upd_last_session (f : session -> session) id t l s : sessions_list t = l ++ [s] -> s_id s = id -> (forall x, x ∈ l -> s_id x <> id) -> sessions_list (upd_session f id t) = l ++ [f s].
Proof.
  intros Hl Hs Hn. change (sessions_list (upd_session f id t)) with (map (fun s => if (s_id s =? id)%nat then f s else s) (sessions_list t)). rewrite Hl, map_app. cbn [map]. rewrite Hs, Nat.eqb_refl. f_equal.
  rewrite <- (map_id l) at 2. apply map_ext_in. intros x Hx%list_elem_of_In. rewrite (proj2 (Nat.eqb_neq _ _)); [done|by apply Hn].
Qed.

Lemma upd_upd f g tid d : (forall t, t_tid (f t) = t_tid t) -> targets_list (upd_target g tid (upd_target f tid d)) = targets_list (upd_target (fun t => g (f t)) tid d).
Proof.
  intros Hf. change (map (fun t => if t_tid t =? tid then g t else t) (map (fun t => if t_tid t =? tid then f t else t) (targets_list d)) = map (fun t => if t_tid t =? tid then g (f t) else t) (targets_list d)).
  rewrite map_map. apply map_ext. intros t. destruct (Z.eqb_spec (t_tid t) tid) as [E|E]; [by rewrite Hf, E, Z.eqb_refl|]. by rewrite (proj2 (Z.eqb_neq _ _) E).
Qed.

Lemma session_create_link e p d c res d' c' : env_ok e -> counted (link_of c) -> sess c = None -> sessions_count_incremented c = true -> session_create e p d c = Some (res, d', c') ->
  balance d (link_of c) d' (link_of c') /\ counted (link_of c').
Proof.
  intros [Ha Hm] Hc Hs Hi. unfold session_create. destruct (target_find_by_id d (c_tid c)) as [t|] eqn:Et; [|intros ?; some; split; [apply balance_refl|done]]. unfold conn_malloc. rewrite !Hm. cbn zeta. rewrite ?Hm, Ha.
  change (negb (0 =? 0)) with false. cbn iota. set (id := next_sess d). set (sid := _ <|tsih := next_tsih d|>). set (new := mkSess id _ sid _). set (tid := c_tid _).
  destruct (free_tsih _ _ _) as [v|] eqn:Ef; cbn [mbind option_bind]; [|done]. apply free_tsih_unused in Ef. intros ?. some. assert (Htid : tid = c_tid c) by done. clearbody tid. subst tid.
  split; [|exact Hc]. intros Hd. pose proof (find_in d _ t Et) as [Hin Htid]. destruct (proj2 Hd t Hin) as (Hids & Hlt & Hsids).
  set (f := fun t => t <|sessions_list := sessions_list t ++ [new]|>) in *. set (g := upd_session (fun s => s <|s_sid := sid <|tsih := v|> |>) id) in *.
  assert (Hgf : sessions_list (g (f t)) = sessions_list t ++ [new <|s_sid := sid <|tsih := v|> |>]) by (apply (upd_last_session _ id (f t) (sessions_list t) new); [done|done|intros x Hx E; specialize (Hlt x Hx); unfold id in E; lia]).
  match goal with |- daemon_ok ?x /\ _ => set (d' := x) end. assert (Hl : targets_list d' = targets_list (upd_target (fun t => g (f t)) (c_tid c) d)) by (change (targets_list d') with (targets_list (upd_target g (c_tid c) (upd_target f (c_tid c) d))); by apply upd_upd).
  assert (Hn : next_sess d' = S (next_sess d)) by done.
  assert (Hfresh : forall s, s ∈ sessions_list t -> s_sid s <> sid <|tsih := v|>).
  { intros s Hs' E. unfold session_id_exists in Ef. pose proof (existsb_false _ _ Ef s) as Hx. assert (Hs2 : s ∈ sessions_of (upd_target f (c_tid c) (d <|next_sess := S id|>)) (c_tid c)).
    { unfold sessions_of. rewrite find_upd_target by done. change (target_find_by_id (d <|next_sess := S id|>) (c_tid c)) with (target_find_by_id d (c_tid c)). rewrite Et. cbn [fmap option_fmap option_map]. rewrite Htid, Z.eqb_refl. change (s ∈ sessions_list t ++ [new]). set_solver. }
    specialize (Hx Hs2). cbn beta in Hx. rewrite bool_decide_true in Hx by done. cbn [andb] in Hx. apply negb_false_iff, Nat.eqb_eq in Hx. specialize (Hlt s Hs'). unfold id in Hx. lia. }
  clearbody d'. split_and!.
  - apply (daemon_ok_upd (fun t => g (f t)) (c_tid c) d d'); [done|lia|done| |done]. intros t0 E _. rewrite Et in E. injection E as <-. unfold t_ok. rewrite Hgf, !map_app. cbn [map]. split_and!.
    + apply NoDup_app. split_and!; [done| |apply NoDup_singleton]. intros x (s & -> & Hs')%list_elem_of_fmap Hx%list_elem_of_singleton. specialize (Hlt s Hs'). cbn in Hx. unfold id in Hx. lia.
    + intros s [Hs'|Hs']%elem_of_app; [specialize (Hlt s Hs'); lia|]. apply list_elem_of_singleton in Hs' as ->. cbn. unfold id. lia.
    + apply NoDup_app. split_and!; [done| |apply NoDup_singleton]. intros x (s & -> & Hs')%list_elem_of_fmap Hx%list_elem_of_singleton. by apply (Hfresh s).
  - rewrite Hl. by apply (tids_upd (fun t => g (f t))).
  - intros x _. rewrite (excess_upd (fun t => g (f t)) (c_tid c) d d' x) by done. assert (Htg : c_target c = Some (c_tid c)) by (by apply (proj1 Hc)). unfold pend, excess. cbn. rewrite Hi, Hs, Htg. destruct (target_find_by_id d x) as [tx|] eqn:Ex.
    + destruct (Z.eqb_spec x (c_tid c)) as [->|E]; [|by rewrite (proj2 (Z.eqb_neq _ _)) by congruence]. rewrite Et in Ex. injection Ex as <-. rewrite Z.eqb_refl. unfold excess_of. rewrite Hgf, length_app. cbn. f_equal. lia.
    + destruct (Z.eqb_spec (c_tid c) x) as [E|E]; [congruence|done].
Qed.

(** ** A request *)

(** Counted, unless it has a session. *)
Definition backed (c : connection) : Prop := session_type c = SESSION_NORMAL -> sess c = None -> sessions_count_incremented c = true.

Lemma link_backed c c' : link_of c' = link_of c -> backed c -> backed c'.
Proof. unfold backed, link_of. intros [= -> -> _ _ -> _]. done. Qed.

Lemma login_finish_link e p d c res d' c' : env_ok e -> counted (link_of c) -> backed c -> login_finish e p d c = Some (res, d', c') ->
  balance d (link_of c) d' (link_of c') /\ counted (link_of c') /\ (res = 0 -> backed c').
Proof.
  intros He Hc Hb. unfold login_finish. destruct (Z.eqb_spec (session_type c) SESSION_NORMAL) as [Ety|]; [|destruct (session_type c =? SESSION_DISCOVERY); intros ?; some; split_and!; try done; apply balance_refl].
  destruct (match sess c with None => _ | Some _ => _ end) as [[[r d1] c1]|] eqn:E; cbn [mbind option_bind]; [|done].
  assert (H1 : balance d (link_of c) d1 (link_of c1) /\ counted (link_of c1)).
  { destruct (sess c) eqn:Es; [some; split; [apply balance_refl|done]|]. eapply session_create_link in E; [done|done|done|done|by apply Hb]. }
  destruct H1 as [H1 H2]. destruct (Z.eqb_spec r 0) as [->|Hr]; [|intros ?; some; split_and!; [done|done|done]]. destruct (sess c1) as [id|] eqn:Es1; cbn [mbind option_bind]; [|done]. destruct (sid_of_session _ _ _); cbn [mbind option_bind]; [|done]. intros ?. some.
  split_and!; [exact H1|exact H2|]. intros _ _ Hn. cbn in Hn. congruence.
Qed.

Lemma exec_auth_state e req d c d' c' : cmnd_exec_auth e req d c = Some (0, d', c') -> (state c' = state c \/ state c' = STATE_SECURITY_DONE) /\ status_class (rsp c') = status_class (rsp c).
Proof.
  unfold cmnd_exec_auth. destruct (_ =? AUTH_CHAP); [|destruct (_ =? AUTH_NONE); intros ?; some; by split; [left|]]. unfold cmnd_exec_auth_chap. destruct (_ =? CHAP_AUTH_STATE_START).
  - pose proof (create_challenge_sec e (data req) d c) as H. destruct (chap_initiator_auth_create_challenge e (data req) d c) as [[r d1] c1]. intros ?. some. split; [left; apply H|apply H].
  - destruct (_ =? CHAP_AUTH_STATE_CHALLENGE); [destruct (chap_initiator_auth_check_response e (data req) d c) as [[r1 c1]|] eqn:E1; cbn [mbind option_bind]; [|done]; apply check_response_sec in E1 as (_ & _ & E1); destruct (Z.ltb_spec r1 0); [intros ?; some; lia|]|destruct (_ =? CHAP_AUTH_STATE_RESPONSE); [|done]];
      (destruct (chap_target_auth_create_response e (data req) d _) as [[r2 c2]|] eqn:E2; cbn [mbind option_bind]; [|done]); apply target_response_sec in E2 as [R2 E2]; intros ?; some; (split; [right; by apply E2|]); try rewrite E1 in R2; by injection R2.
Qed.

(** A state between the first request and the kernel. *)
Definition live (s : Z) : bool := (STATE_FREE <? s) && (s <? STATE_CLOSE).

(** What is left of a part of the login. *)
Definition left_linked (d : daemon) (l : link) (next : login_next) (d' : daemon) (c' : connection) : Prop :=
  balance d l d' (link_of c') /\ counted (link_of c') /\
  match next with Go => backed c' /\ live (state c') = true /\ status_class (rsp c') = 0 | Return => state c' = STATE_EXIT \/ state c' = STATE_DROP | _ => True end.

Ltac three := split; [|split].

Section request.

Context (e : env) (He : env_ok e) (p : nat) (req : pdu).

Lemma exec_security_link d c next d' c' : counted (link_of c) -> (state c = STATE_FREE -> fresh (link_of c) /\ sess c = None) -> (state c <> STATE_FREE -> live (state c) = true /\ backed c) -> status_class (rsp c) = 0 ->
  exec_security e p req d c = Some (next, d', c') -> left_linked d (link_of c) next d' c'.
Proof.
  intros Hc Hf Hb Hz. unfold exec_security. set (c1 := upd_rsp _ c). assert (H1 : link_of c1 = link_of c /\ state c1 = state c /\ status_class (rsp c1) = 0) by done. clearbody c1. destruct H1 as (L1 & S1 & Z1). rewrite S1.
  assert (Hscan : forall d2 c2 n d' c', balance d (link_of c) d2 (link_of c2) -> counted (link_of c2) -> backed c2 -> live (state c2) = true -> status_class (rsp c2) = 0 ->
    (let c := text_scan_security e req d2 c2 in if negb (status_class (rsp c) =? 0) then (Return, d2, c) else if negb (auth_method c =? AUTH_NONE) then (Go, d2, c <|state := STATE_SECURITY_AUTH|> <|auth_state := AUTH_STATE_START|>) else (Go, d2, c)) = (n, d', c') -> left_linked d (link_of c) n d' c').
  { intros d2 c2 n d3 c3 B C K N Z2. cbn zeta. pose proof (link_text_scan_security e req d2 c2) as L. destruct (text_scan_security_sec e req d2 c2) as [[Hs1 Hs2]|[Hst _]].
    - rewrite (proj2 (Z.eqb_neq _ _) Hs2). cbn [negb]. intros ?. some. three; [by rewrite L|by rewrite L|done].
    - assert (Es : state (text_scan_security e req d2 c2) = state c2 /\ status_class (rsp (text_scan_security e req d2 c2)) = status_class (rsp c2)) by (destruct Hst as [E|E]; split; first [exact (f_equal v_state E)|exact (f_equal v_class E)]). destruct Es as [Es Ez].
      rewrite Ez, Z2. change (negb (0 =? 0)) with false. cbn iota. destruct (negb (_ =? AUTH_NONE)); intros ?; some.
      + three; [change (balance d (link_of c) d3 (link_of (text_scan_security e req d3 c2))); by rewrite L|change (counted (link_of (text_scan_security e req d3 c2))); by rewrite L|]. split; [by apply (link_backed c2)|]. split; [done|]. change (status_class (rsp (text_scan_security e req d3 c2)) = 0). by rewrite Ez.
      + three; [by rewrite L|by rewrite L|]. split; [by apply (link_backed c2)|]. split; [by rewrite Es|by rewrite Ez]. }
  destruct (Z.eqb_spec (state c) STATE_FREE) as [E0|E0].
  - destruct (Hf E0) as [Hi Hs]. destruct (login_start e p req d (c1 <|state := STATE_SECURITY|>)) as [[d1 c2]|] eqn:El; cbn [mbind option_bind]; [|done]. pose proof El as El2. apply login_start_sec in El2 as [_ El2]; [|done].
    apply login_start_link in El as (B & C & R); [|change (fresh (link_of c1)); by rewrite L1|change (l_sess (link_of c1) = None); by rewrite L1]. change (link_of (c1 <|state := STATE_SECURITY|>)) with (link_of c1) in B. rewrite L1 in B.
    destruct El2 as [[Hf1 Hf2]|[tid El2]]; [rewrite (proj2 (Z.eqb_neq _ _) Hf2); cbn [negb]; intros ?; some; by three|].
    assert (Z2 : status_class (rsp c2) = 0) by exact (f_equal v_class El2). rewrite Z2. change (negb (0 =? 0)) with false. cbn iota. intros [= ?].
    eapply (Hscan d1 c2); [done|done|intros Hy Hn; by apply R| |done|done]. assert (Es : state c2 = STATE_SECURITY) by exact (f_equal v_state El2). by rewrite Es.
  - destruct (Z.eqb_spec (state c) STATE_SECURITY) as [E1|E1].
    + intros [= ?]. eapply (Hscan d c1); [rewrite L1; apply balance_refl|by rewrite L1|apply (link_backed c); [done|by apply Hb]|rewrite S1; by apply Hb|done|done].
    + destruct (Z.eqb_spec (state c) STATE_SECURITY_AUTH) as [E2|E2]; [|intros ?; some; three; [rewrite L1; apply balance_refl|by rewrite L1|done]].
      destruct (cmnd_exec_auth e req d c1) as [[[res d1] c2]|] eqn:Ea; cbn [mbind option_bind]; [|done]. pose proof Ea as Ea2. apply link_exec_auth in Ea as (La & Lt & Ln). intros ?. some. rewrite L1 in La. three; [rewrite La; by apply balance_same|by rewrite La|].
      destruct (Z.eqb_spec res 0) as [->|]; [|by destruct (_ =? -2)]. split; [apply (link_backed c); [done|by apply Hb]|]. apply exec_auth_state in Ea2 as [Ea2 Ea3]. split; [destruct Ea2 as [-> | ->]; [rewrite S1; by apply Hb|done]|by rewrite Ea3].
Qed.

Lemma exec_operational_link d c next stay d' c' : counted (link_of c) -> (state c = STATE_FREE -> fresh (link_of c) /\ sess c = None) -> (state c <> STATE_FREE -> live (state c) = true /\ backed c) -> status_class (rsp c) = 0 ->
  exec_operational e p req d c = Some (next, stay, d', c') -> left_linked d (link_of c) next d' c'.
Proof.
  intros Hc Hf Hb Hz. unfold exec_operational. set (c1 := upd_rsp _ c). assert (H1 : link_of c1 = link_of c /\ state c1 = state c /\ status_class (rsp c1) = 0) by done. clearbody c1. destruct H1 as (L1 & S1 & Z1). rewrite S1.
  assert (Hscan : forall d2 c2 n st d' c', balance d (link_of c) d2 (link_of c2) -> counted (link_of c2) -> backed c2 -> live (state c2) = true -> status_class (rsp c2) = 0 ->
    (let c := text_scan_login e req d2 c2 in if negb (status_class (rsp c) =? 0) then (Return, 0, d2, c) else let '(c, stay) := text_check_params e d2 c in (Go, stay, d2, c)) = (n, st, d', c') -> left_linked d (link_of c) n d' c').
  { intros d2 c2 n st d3 c3 B C K N Z2. cbn zeta. pose proof (link_text_scan_login e req d2 c2) as L. destruct (text_scan_login_sec e req d2 c2) as [[Hs1 Hs2]|Hst].
    - rewrite (proj2 (Z.eqb_neq _ _) Hs2). cbn [negb]. intros ?. some. three; [by rewrite L|by rewrite L|done].
    - assert (Ez : status_class (rsp (text_scan_login e req d2 c2)) = 0) by (rewrite <- Z2; exact (f_equal v_class Hst)). rewrite Ez. change (negb (0 =? 0)) with false. cbn iota.
      pose proof (link_text_check_params e d2 (text_scan_login e req d2 c2)) as L2. pose proof (sec_text_check_params e d2 (text_scan_login e req d2 c2)) as S2. destruct (text_check_params e d2 _) as [c4 n4]. cbn [fst] in L2, S2. intros ?. some. rewrite L in L2.
      assert (Es : state c3 = state c2) by (rewrite Hst in S2; exact (f_equal v_state S2)). three; [by rewrite L2|by rewrite L2|]. split; [by apply (link_backed c2)|]. split; [by rewrite Es|]. rewrite <- Ez. exact (f_equal v_class S2). }
  destruct (Z.eqb_spec (state c) STATE_FREE) as [E0|E0].
  - destruct (Hf E0) as [Hi Hs]. destruct (login_start e p req d (c1 <|state := STATE_LOGIN|>)) as [[d1 c2]|] eqn:El; cbn [mbind option_bind]; [|done]. pose proof El as El2. apply login_start_sec in El2 as [_ El2]; [|done].
    apply login_start_link in El as (B & C & R); [|change (fresh (link_of c1)); by rewrite L1|change (l_sess (link_of c1) = None); by rewrite L1]. change (link_of (c1 <|state := STATE_LOGIN|>)) with (link_of c1) in B. rewrite L1 in B.
    destruct El2 as [[Hf1 Hf2]|[tid El2]]; [rewrite (proj2 (Z.eqb_neq _ _) Hf2); cbn [negb]; intros ?; some; by three|].
    assert (Z2 : status_class (rsp c2) = 0) by exact (f_equal v_class El2). rewrite Z2. change (negb (0 =? 0)) with false. cbn iota. destruct (negb (accounts_empty _ _ _)); [intros ?; some; by three|]. intros [= ?].
    eapply (Hscan d1 c2); [done|done|intros Hy Hn; by apply R| |done|done]. assert (Es : state c2 = STATE_LOGIN) by exact (f_equal v_state El2). by rewrite Es.
  - destruct (Z.eqb_spec (state c) STATE_LOGIN) as [E1|E1]; [|intros ?; some; three; [rewrite L1; apply balance_refl|by rewrite L1|done]].
    intros [= ?]. eapply (Hscan d c1); [rewrite L1; apply balance_refl|by rewrite L1|apply (link_backed c); [done|by apply Hb]|rewrite S1; by apply Hb|done|done].
Qed.

Lemma exec_transit_link d l d2 c stay next d' c' : balance d l d2 (link_of c) -> counted (link_of c) -> backed c -> status_class (rsp c) = 0 -> exec_transit e p req stay d2 c = Some (next, d', c') -> left_linked d l next d' c'.
Proof.
  intros B C K Z. unfold exec_transit.
  assert (Hput : forall d3 st n c, balance d l d3 (link_of c) -> counted (link_of c) -> backed c -> live (state c) = true -> status_class (rsp c) = 0 -> left_linked d l Go d3 (put_flags st n c)) by (intros d3 st n x Bx Cx Kx Nx Zx; three; [done|done|by split_and!]).
  assert (Hfin : forall st n c nx d' c', balance d l d2 (link_of c) -> counted (link_of c) -> backed c -> live (state c) = true -> status_class (rsp c) = 0 -> exec_finish e p st n d2 c = Some (nx, d', c') -> left_linked d l nx d' c').
  { intros st n x nx d3 c3 Bx Cx Kx Nx Zx. unfold exec_finish. pose proof (link_text_check_params e d2 x) as L. pose proof (sec_text_check_params e d2 x) as S. destruct (text_check_params e d2 x) as [x1 m]. cbn [fst] in L, S.
    destruct (login_finish e p d2 x1) as [[[err d4] c4]|] eqn:El; cbn [mbind option_bind]; [|done]. pose proof El as Es. apply login_finish_sec in Es as [_ Es]. apply login_finish_link in El as (B4 & C4 & K4); [|done|by rewrite L|by apply (link_backed x)].
    rewrite L in B4. assert (B5 : balance d l d4 (link_of c4)) by (eapply balance_trans; [exact Bx|exact B4]). destruct (Z.eqb_spec err 0) as [->|]; cbn [negb]; intros ?; some; [|by three].
    rewrite S in Es. apply Hput; [done|done|by apply K4| |exact (eq_trans (f_equal v_class Es) Zx)]. assert (E : state c4 = state x) by exact (f_equal v_state Es). by rewrite E. }
  destruct (_ =? ISCSI_FLG_NSG_LOGIN); [destruct (_ || _); intros ?; some; [by apply Hput|by three]|]. destruct (_ =? ISCSI_FLG_NSG_FULL_FEATURE); [|intros ?; some; by three]. destruct (_ || _).
  - pose proof (link_text_check_params e d2 c) as L. pose proof (sec_text_check_params e d2 c) as S. destruct (text_check_params e d2 c) as [x1 m]. cbn [fst] in L, S. assert (Z1 : status_class (rsp x1) = 0) by exact (eq_trans (f_equal v_class S) Z). assert (K1 : backed x1) by (by apply (link_backed c)). rewrite <- L in B, C. destruct (negb (m =? 0)); [intros ?; some; by apply Hput|]. destruct (stay =? 0); [|intros ?; some; by apply Hput]. by apply Hfin.
  - destruct (Z.eqb_spec (state c) STATE_LOGIN) as [E|E]; [|intros ?; some; by three]. destruct (negb (stay =? 0)); [intros ?; some; apply Hput; [done|done|done|by rewrite E|done]|]. by apply Hfin.
Qed.

(** A connection is in order: before its first request it is not counted, and while it
    lives it is counted or has a session. *)
Definition conn_ok (c : connection) : Prop :=
  counted (link_of c) /\ (state c = STATE_FREE -> fresh (link_of c) /\ sess c = None) /\ (state c <> STATE_FREE -> state c <> STATE_EXIT -> state c <> STATE_DROP -> live (state c) = true /\ backed c).

Lemma conn_ok_same c c' : link_of c' = link_of c -> state c' = state c -> conn_ok c -> conn_ok c'.
Proof.
  intros L S (H1 & H2 & H3). unfold conn_ok. rewrite L, S. assert (Es : sess c' = sess c) by exact (f_equal l_sess L). rewrite Es. split; [done|]. split; [done|]. intros ? ? ?. split; [by apply H3|]. apply (link_backed c); [done|by apply H3].
Qed.

Lemma conn_ok_ended c : counted (link_of c) -> state c = STATE_EXIT \/ state c = STATE_DROP -> conn_ok c.
Proof. intros H [E|E]; unfold conn_ok; rewrite E; (split; [done|]); by split. Qed.

Lemma login_end_link d l next d' c : left_linked d l next d' c -> balance d l d' (link_of (login_end next c)) /\ conn_ok (login_end next c).
Proof.
  intros (B & C & R). assert (L : link_of (login_end next c) = link_of c) by (destruct next; try done; cbn [login_end]; by destruct (rsp_buf_list c) as [|x [|y r]]). rewrite L. split; [done|].
  assert (Herr : state (login_end next c) = STATE_EXIT \/ state (login_end next c) = STATE_DROP -> conn_ok (login_end next c)) by (intros E; apply conn_ok_ended; [by rewrite L|done]).
  destruct next; try (apply Herr; by left); [|by apply Herr]. destruct R as (K & N & _). cbn [login_end] in *. destruct (rsp_buf_list c) as [|x [|y r]]; [| |apply Herr; by left];
    (apply (conn_ok_same c); [done|done|]; split; [done|split; [intros E; by rewrite E in N|done]]).
Qed.

Lemma exec_login_link d c d' c' : conn_ok c -> ended c = false -> cmnd_exec_login e p req d c = Some (d', c') -> balance d (link_of c) d' (link_of c') /\ conn_ok c'.
Proof.
  intros Hc Hend. assert (Hne : state c <> STATE_EXIT /\ state c <> STATE_DROP) by (unfold ended in Hend; apply orb_false_iff in Hend as [Hend H1]; apply orb_false_iff in Hend as [_ H2]; lia).
  unfold cmnd_exec_login. set (c1 := c <|rsp := rsp_zero|>). assert (H1 : link_of c1 = link_of c /\ state c1 = state c /\ status_class (rsp c1) = 0) by done. clearbody c1. destruct H1 as (L1 & S1 & Z1).
  destruct (_ || _); [intros ?; some; rewrite link_reject, L1; split; [apply balance_refl|apply (conn_ok_same c); [by rewrite link_reject|rewrite (proj1 (reject_sec e req _ c1)); done|done]]|].
  set (c2 := upd_rsp _ c1). assert (H2 : link_of c2 = link_of c /\ state c2 = state c /\ status_class (rsp c2) = 0) by done. clearbody c2. clear c1 L1 S1 Z1. destruct H2 as (L2 & S2 & Z2).
  destruct (_ <? _); [intros ?; some; split; [change (link_of (login_rsp_ini_err ISCSI_STATUS_NO_VERSION c2)) with (link_of c2); rewrite L2; apply balance_refl|apply conn_ok_ended; [change (counted (link_of c2)); rewrite L2; apply Hc|by left]]|].
  match goal with |- context [if ?b =? ISCSI_FLG_CSG_SECURITY then ?x else ?y] => set (first := if b =? ISCSI_FLG_CSG_SECURITY then x else y) end.
  assert (Hfirst : forall n st d' c', first = Some (n, st, d', c') -> left_linked d (link_of c) n d' c').
  { destruct Hc as (C & F & K). assert (Hb : state c2 <> STATE_FREE -> live (state c2) = true /\ backed c2) by (rewrite S2; intros N; split; [apply K; [done|apply Hne..]|apply (link_backed c); [done|apply K; [done|apply Hne..]]]). assert (Hf : state c2 = STATE_FREE -> fresh (link_of c2) /\ sess c2 = None) by (rewrite S2, L2; intros E; assert (Es : sess c2 = sess c) by exact (f_equal l_sess L2); rewrite Es; apply F; exact E).
    intros n st d3 c3. unfold first. destruct (_ =? ISCSI_FLG_CSG_SECURITY).
    - destruct (exec_security e p req d c2) as [[[n' d4] c4]|] eqn:E; cbn [mbind option_bind]; [|done]. intros ?. some. rewrite <- L2. eapply exec_security_link; [by rewrite L2|exact Hf|exact Hb|exact Z2|exact E].
    - destruct (_ =? ISCSI_FLG_CSG_LOGIN); [intros E; rewrite <- L2; eapply exec_operational_link; [by rewrite L2|exact Hf|exact Hb|exact Z2|exact E]|]. intros ?. some. three; [rewrite L2; apply balance_refl|by rewrite L2|done]. }
  clearbody first. destruct first as [[[[n st] d3] c3]|]; cbn [mbind option_bind]; [|done]. pose proof (Hfirst n st d3 c3 eq_refl) as Hl.
  match goal with |- context [match n with Go => ?x | _ => _ end] => assert (Hs : forall n' d' c', match n with Go => x | _ => Some (n, d3, c3) end = Some (n', d', c') -> left_linked d (link_of c) n' d' c') end.
  { intros n' d4 c4. destruct n; try (intros ?; some; exact Hl). destruct Hl as (B & C & K & N & Z3). rewrite Z3. change (negb (0 =? 0)) with false. cbn iota. destruct (_ && _); [by apply exec_transit_link|intros ?; some; by three]. }
  destruct (match n with Go => _ | _ => _ end) as [[[n' d4] c4]|]; cbn [mbind option_bind]; [|done]. intros ?. some. by apply login_end_link, (Hs n' d' c4).
Qed.

End request.

(** ** Text requests *)

Lemma link_list_addrs e i t l : forall c c', list_addrs e i t l c = Some c' -> link_of c' = link_of c.
Proof.
  induction l as [|a l IH]; intros c c'; cbn [list_addrs]; [intros ?; by some|]. destruct (list_addr e i t c a) as [c1|] eqn:E; cbn [mbind option_bind]; [|done]. intros ->%IH. revert E. unfold list_addr. destruct (_ || _); [intros ?; by some|].
  destruct (target_portal_allowed _ _ _ _) as [[|]|]; cbn [mbind option_bind]; [|intros ?; by some|done]. intros ?. some. unfold target_print_addr. apply link_text_key_add.
Qed.

Lemma link_list_targets e i d n l : forall c c', list_targets e i d n l c = Some c' -> link_of c' = link_of c.
Proof.
  induction l as [|t l IH]; intros c c'; cbn [list_targets]; [intros ?; by some|]. destruct (list_target e i d n c t) as [c1|] eqn:E; cbn [mbind option_bind]; [|done]. intros ->%IH. revert E. unfold list_target. destruct (match n with Some _ => _ | None => _ end); [intros ?; by some|].
  destruct (target_portal_allowed _ _ _ _) as [ok|]; cbn [mbind option_bind]; [|done]. destruct (negb (tgt_enabled t) || _ || _ || _); [intros ?; by some|]. intros ->%link_list_addrs. unfold target_print_addr. by rewrite !link_text_key_add.
Qed.

Lemma link_scan_text e req d l : forall c r c', scan_text_pairs e req d l c = Some (r, c') -> link_of c' = link_of c.
Proof.
  induction l as [|[k v] l IH]; intros c r c'; cbn [scan_text_pairs]; [intros ?; by some|]. destruct (strcmp_eq k (str "SendTargets")); [|intros ->%IH; apply link_text_key_add].
  destruct (match v with [] => _ | _ => _ end) as [v'|]; cbn [mbind option_bind]; [|done]. destruct (_ && _); [intros ?; some; apply link_reject|].
  destruct (target_list_build e d _ c) as [c1|] eqn:E; cbn [mbind option_bind]; [|done]. intros ->%IH. revert E. unfold target_list_build. destruct (sock_inet6 e); [apply link_list_targets|intros ?; by some].
Qed.

Lemma link_exec_text e req d c d' c' : cmnd_exec_text e req d c = Some (d', c') -> link_of c' = link_of c /\ targets_list d' = targets_list d /\ next_sess d' = next_sess d.
Proof.
  unfold cmnd_exec_text. set (c1 := take_cmd_sn req _). assert (H1 : link_of c1 = link_of c) by done. clearbody c1.
  assert (Hend : forall c, link_of (text_end c) = link_of c) by (intros x; unfold text_end; by destruct (at_most_one _)). destruct (req_ttt req =? ISCSI_RESERVED_TAG).
  - destruct (text_scan_text e req d _) as [[rc c2]|] eqn:E; cbn [mbind option_bind]; [|done]. apply link_scan_text in E. assert (H2 : link_of c2 = link_of c) by (rewrite E; exact H1). destruct (negb (rc =? 0)); [intros ?; by some|].
    destruct (at_most_one _); [intros ?; some; split_and!; [rewrite Hend; exact H2|done|done]|]. unfold get_next_ttt. intros ?. some. split_and!; [rewrite Hend; exact H2|done|done].
  - destruct (_ || _); intros ?; some; (split_and!; [|done|done]); [by rewrite link_reject|by rewrite Hend].
Qed.

(** ** An event of a connection *)

Lemma execute_link e p req d c res d' c' : env_ok e -> conn_ok c -> ended c = false -> cmnd_execute e p req d (conn_write_pdu c) = Some (res, d', c') -> balance d (link_of c) d' (link_of c') /\ conn_ok c'.
Proof.
  intros He Hc Hend. set (c1 := conn_write_pdu c). assert (H1 : link_of c1 = link_of c /\ state c1 = state c) by done. assert (Hc1 : conn_ok c1) by (by apply (conn_ok_same c)). assert (Hend1 : ended c1 = false) by done. clearbody c1. destruct H1 as [L1 S1].
  assert (Hseg : forall c, link_of (take_segment c) = link_of c /\ state (take_segment c) = state c) by (intros x; unfold take_segment; by destruct (rsp_buf_list x)).
  assert (Hkeep : forall d2 c2, targets_list d2 = targets_list d -> next_sess d2 = next_sess d -> link_of c2 = link_of c1 -> state c2 = state c1 -> balance d (link_of c) d2 (link_of (take_segment c2)) /\ conn_ok (take_segment c2)).
  { intros d2 c2 T N L S. destruct (Hseg c2) as [L2 S2]. split; [rewrite L2, L, L1; by apply balance_same|]. apply (conn_ok_same c1); [by rewrite L2|by rewrite S2|done]. }
  assert (Hrej : forall r, link_of (cmnd_reject e req r c1) = link_of c1 /\ state (cmnd_reject e req r c1) = state c1) by (intros r; split; [apply link_reject|apply reject_sec]).
  unfold cmnd_execute. destruct (_ =? ISCSI_OP_LOGIN_CMD).
  { destruct (_ =? STATE_FULL); [intros ?; some; apply Hkeep; [done|done|apply Hrej|apply Hrej]|]. destruct (cmnd_exec_login e p req d c1) as [[d2 c2]|] eqn:E; cbn [mbind option_bind]; [|done]. apply exec_login_link in E as [B K]; [|done..]. intros ?. some. rewrite L1 in B.
    set (c3 := if _ && _ then conn_free_rsp_buf_list c2 else c2). assert (H3 : link_of c3 = link_of c2 /\ state c3 = state c2) by (unfold c3; by destruct (_ && _)). clearbody c3. destruct H3 as [L3 S3]. destruct (Hseg c3) as [L4 S4].
    split; [by rewrite L4, L3|]. apply (conn_ok_same c2); [by rewrite L4|by rewrite S4|done]. }
  destruct (_ =? ISCSI_OP_TEXT_CMD).
  { destruct (negb _); [intros ?; some; apply Hkeep; [done|done|apply Hrej|apply Hrej]|]. destruct (cmnd_exec_text e req d c1) as [[d2 c2]|] eqn:E; cbn [mbind option_bind]; [|done]. pose proof E as E2. apply core_exec_text in E2 as [_ E2]. apply link_exec_text in E as (L & T & N). intros ?. some. apply Hkeep; [done|done|done|]. by injection E2. }
  destruct (_ =? ISCSI_OP_LOGOUT_CMD).
  { destruct (negb _); intros ?; some; [apply Hkeep; [done|done|apply Hrej|apply Hrej]|]. by apply Hkeep. }
  intros ?. some. destruct (Hrej ISCSI_REASON_UNSUPPORTED_COMMAND) as [L S]. split; [rewrite L, L1; apply balance_refl|by apply (conn_ok_same c1)].
Qed.

(** After the response is written: the connection goes on, or the kernel has it, with its
    session. *)
Definition conn_left (c : connection) : Prop := conn_ok c \/ (state c = STATE_CLOSE /\ sess c <> None).

Lemma written_link e c c' : conn_ok c -> conn_written e c = Some c' -> (forall x, pend (link_of c') x = pend (link_of c) x) /\ conn_left c'.
Proof.
  intros Hc. unfold conn_written, cmnd_finish. cbn zeta. set (c1 := upd_rsp _ c). assert (H1 : link_of c1 = link_of c /\ conn_ok c1) by (split; [done|by apply (conn_ok_same c)]). clearbody c1. destruct H1 as [L1 K1]. unfold conn_pass_to_kern.
  assert (Hmove : forall s x, link_of x = link_of c -> conn_ok x -> state x <> STATE_FREE -> state x <> STATE_EXIT -> state x <> STATE_DROP -> live s = true -> link_of (x <|state := s|>) = link_of c /\ conn_ok (x <|state := s|>)).
  { intros s x L (H1 & H2 & H3) ? ? ? Hl. split; [done|]. split; [exact H1|]. split; [intros E; change (s = STATE_FREE) in E; by rewrite E in Hl|]. intros _ _ _. split; [done|]. apply (link_backed x); [done|by apply H3]. }
  set (c2 := if state c1 =? STATE_SECURITY_LOGIN then _ else _). assert (H2 : link_of c2 = link_of c /\ conn_ok c2).
  { unfold c2. destruct (Z.eqb_spec (state c1) STATE_SECURITY_LOGIN) as [E|E]; [apply Hmove; try done; by rewrite E|]. destruct (_ || _) eqn:Eo; [|done]. apply orb_true_iff in Eo as [Eo|Eo]; apply Z.eqb_eq in Eo; apply Hmove; try done; try (by rewrite Eo); by destruct (_ =? _). }
  clearbody c2. destruct H2 as [L2 K2]. destruct (Z.eqb_spec (state c2) STATE_KERNEL) as [E|E]; [|intros ?; some; split; [intros x; by rewrite L2|by left]]. destruct (sess c2) as [id|] eqn:Es; cbn [mbind option_bind]; [|done]. intros ?. some.
  destruct (add_conn e =? 0).
  - split; [intros x; change (pend (link_of (c2 <|passed_to_kern := true|>)) x = pend (link_of c) x); rewrite <- L2; done|]. right. split; [done|]. cbn. by rewrite Es.
  - assert (Hp : passed_to_kern c2 = false) by (apply (proj1 K2)). rewrite Hp. split; [intros x; change (pend (link_of c2) x = pend (link_of c) x); by rewrite L2|]. left. apply conn_ok_ended; [apply K2|by left].
Qed.

Definition event_env_ok (ev : conn_event) : Prop := match ev with EvPdu e _ | EvWriteFails e _ => env_ok e | EvReadFails => True end.

Lemma event_link p ev d c d' c' : event_env_ok ev -> conn_ok c -> ended c = false -> event_conn p ev d c = Some (d', c') -> balance d (link_of c) d' (link_of c') /\ conn_left c'.
Proof.
  intros He Hc Hend. unfold event_conn. destruct ev as [e req|e req|]; [| |intros ?; some; split; [apply balance_refl|left; apply conn_ok_ended; [apply Hc|by right]]];
    (destruct (cmnd_execute e p req d _) as [[[res d1] c1]|] eqn:E; cbn [mbind option_bind]; [|done]); (apply execute_link in E as [B K]; [|done..]);
    set (c2 := if res =? 0 then _ else c1); (assert (H2 : link_of c2 = link_of c1 /\ conn_ok c2) by (unfold c2; destruct (res =? 0); [split; [done|apply conn_ok_ended; [apply K|by left]]|done])); clearbody c2; destruct H2 as [L2 K2]; rewrite <- L2 in B; (destruct (_ =? STATE_DROP); [intros ?; some; split; [done|by left]|]).
  - destruct (conn_written e c2) as [c3|] eqn:Ew; cbn [mbind option_bind]; [|done]. apply written_link in Ew as [L3 K3]; [|done]. intros ?. some. split; [|done]. eapply balance_trans; [exact B|by apply balance_conn].
  - intros ?. some. split; [done|]. left. apply conn_ok_ended; [apply K2|by right].
Qed.

(** ** The end of a connection *)

Lemma pend_sess l x : l_sess l <> None -> pend l x = 0.
Proof. unfold pend. destruct (l_inc l); [|done]. by destruct (l_sess l). Qed.

(** What a connection that goes leaves to the daemon. *)
Definition settled (d : daemon) (l : link) (d' : daemon) : Prop :=
  daemon_ok d -> daemon_ok d' /\ map t_tid (targets_list d') = map t_tid (targets_list d) /\
  forall x, is_Some (target_find_by_id d x) -> u32 (excess d' x) = u32 (excess d x - pend l x).

Lemma settled_none d l : (forall x, pend l x = 0) -> settled d l d.
Proof. intros H Hd. split_and!; [done|done|]. intros x _. by rewrite H, Z.sub_0_r. Qed.

(** A session loses a connection, and goes with its last one. *)
Lemma settled_session (f : session -> session) (b : bool) tid id d : (forall s, s_id (f s) = s_id s /\ s_sid (f s) = s_sid s) -> let d1 := upd_target (upd_session f id) tid d in
  (b = true -> exists s, s ∈ sessions_of d1 tid /\ s_id s = id) -> forall l, (forall x, pend l x = 0) -> settled d l (if b then session_free tid id d1 else d1).
Proof.
  intros Hf d1 Hb l Hl Hd. destruct (upd_conn_list_ok f id tid d Hf) as (H1 & H2 & H3). fold d1 in H1, H2, H3. specialize (H1 Hd). destruct b.
  - destruct (session_free_ok tid id d1 H1 (Hb eq_refl)) as (F1 & F2 & F3). split_and!; [done|by rewrite F2|]. intros x _. by rewrite F3, H3, Hl, Z.sub_0_r.
  - split_and!; [done|done|]. intros x _. by rewrite H3, Hl, Z.sub_0_r.
Qed.

Lemma close_settled p d c : conn_left c -> settled d (link_of c) (conn_close p d c).
Proof.
  intros Hc. unfold conn_close. destruct (Z.eqb_spec (state c) STATE_CLOSE) as [E|E].
  { apply settled_none. intros x. apply pend_sess. destruct Hc as [(_ & _ & Hl)|[_ Hs]]; [|exact Hs]. rewrite E in Hl. destruct Hl as [Hl _]; done. }
  destruct Hc as [(Hc & _ & _)|[Hs _]]; [|done]. destruct Hc as [Hc Hp]. change (passed_to_kern c = false) in Hp. rewrite Hp. destruct (sess c) as [id|] eqn:Es.
  - cbn zeta. set (f := fun s => s <|conn_list := filter (fun pc => fst pc <> p) (conn_list s)|>). set (d1 := upd_target (upd_session f id) (c_tid c) d).
    assert (Hz : forall x, pend (link_of c) x = 0) by (intros x; apply pend_sess; change (sess c <> None); by rewrite Es).
    pose proof (settled_session f) as G. destruct (find _ (sessions_of d1 (c_tid c))) as [s|] eqn:Ef; [destruct (conn_list s)|].
    + apply (G true (c_tid c) id d); [done| |done]. intros _. apply find_some in Ef as [H1 H2]. exists s. split; [by apply list_elem_of_In|by apply Nat.eqb_eq].
    + by apply (G false (c_tid c) id d).
    + by apply (G false (c_tid c) id d).
  - assert (Hpend : forall t, c_target c = Some t -> sessions_count_incremented c = true -> forall x, pend (link_of c) x = if x =? t then 1 else 0) by (intros t Et Ei x; unfold pend; cbn; rewrite Es, Et, Ei; by rewrite Z.eqb_sym).
    assert (Hno : sessions_count_incremented c = false \/ c_target c = None -> settled d (link_of c) d) by (intros H; apply settled_none; intros x; unfold pend; cbn; rewrite Es; destruct H as [-> | ->]; [done|by destruct (sessions_count_incremented c)]).
    destruct (c_target c) as [t|] eqn:Et; [|by apply Hno; right]. destruct (sessions_count_incremented c) eqn:Ei; [|by apply Hno; left].
    intros Hd. destruct (count_ok (-1) t d) as (C1 & C2 & C3). split_and!; [by apply C1|done|]. intros x Hx. etransitivity; [exact (C3 x Hx)|]. rewrite (Hpend t eq_refl eq_refl x). f_equal. destruct (x =? t); lia.
Qed.

Lemma kernel_closed_settled tid sid cid d : settled d (link_of (conn_alloc [] [])) (kernel_conn_closed tid sid cid d).
Proof.
  unfold kernel_conn_closed. destruct (session_find_id d tid sid) as [s|] eqn:Es; [|by apply settled_none]. destruct (conn_find s cid) as [[q k]|]; [|by apply settled_none]. set (l := filter _ _). set (f := fun s => s <|conn_list := l|>).
  pose proof (settled_session f) as G. destruct l eqn:El; [|by apply (G false tid (s_id s) d)]. apply (G true tid (s_id s) d); [done| |done]. intros _.
  unfold session_find_id in Es. apply find_some in Es as [Es _]. apply list_elem_of_In in Es. unfold sessions_of in *. rewrite find_upd_target by done. destruct (target_find_by_id d tid) as [t|] eqn:Et; [|by apply not_elem_of_nil in Es]. cbn [fmap option_fmap option_map].
  apply find_in in Et as [_ ->]. rewrite Z.eqb_refl. exists (f s). split; [|done]. change (f s ∈ map (fun x => if (s_id x =? s_id s)%nat then f x else x) (sessions_list t)). apply list_elem_of_fmap. exists s. by rewrite Nat.eqb_refl.
Qed.

(** ** The daemon and its connections *)

Record system : Type := mkSystem { s_daemon : daemon; s_conns : gmap nat connection }.

(** What logins account for beyond sessions. *)
Definition pending (m : gmap nat connection) (tid : Z) : Z := map_fold (fun _ c n => pend (link_of c) tid + n) 0 m.

Inductive sys_step : system -> system -> Prop :=
  | step_accept s p portal : s_conns s !! p = None -> sys_step s (mkSystem (s_daemon s) (<[p := conn_alloc (session_keys (s_daemon s)) portal]> (s_conns s)))
  | step_event s p c ev d' c' : s_conns s !! p = Some c -> event_env_ok ev -> event_conn p ev (s_daemon s) c = Some (d', c') -> ended c' = false -> sys_step s (mkSystem d' (<[p := c']> (s_conns s)))
  | step_end s p c ev d' c' : s_conns s !! p = Some c -> event_env_ok ev -> event_conn p ev (s_daemon s) c = Some (d', c') -> ended c' = true -> sys_step s (mkSystem (conn_close p d' c') (delete p (s_conns s)))
  | step_kernel s tid sid cid : sys_step s (mkSystem (kernel_conn_closed tid sid cid (s_daemon s)) (s_conns s)).

Definition sys_ok (s : system) : Prop :=
  daemon_ok (s_daemon s) /\ (forall p c, s_conns s !! p = Some c -> conn_ok c /\ ended c = false) /\
  forall x, is_Some (target_find_by_id (s_daemon s) x) -> u32 (excess (s_daemon s) x) = u32 (pending (s_conns s) x).

Lemma pending_insert m p c x : m !! p = None -> pending (<[p := c]> m) x = pend (link_of c) x + pending m x.
Proof. intros H. unfold pending. rewrite map_fold_insert_L; [done| |done]. intros. lia. Qed.

Lemma pending_delete m p c x : m !! p = Some c -> pending m x = pend (link_of c) x + pending (delete p m) x.
Proof. intros H. rewrite <- (insert_delete_id m p c) at 1 by done. apply pending_insert. apply lookup_delete_eq. Qed.

Lemma u32_shift_sum a b k : u32 (a - k) = u32 (b - k) -> u32 a = u32 b.
Proof. unfold u32. intros H. replace a with ((a - k) + k) by lia. replace b with ((b - k) + k) by lia. rewrite (Z.add_mod (a - k)), H, <- Z.add_mod by lia. done. Qed.

Lemma sys_step_ok s s' : sys_step s s' -> sys_ok s -> sys_ok s'.
Proof.
  intros Hst (Hd & Hc & Hx). destruct Hst as [s p portal Hp|s p c ev d' c' Hp He Hev Hend|s p c ev d' c' Hp He Hev Hend|s tid sid cid]; cbn [s_daemon s_conns].
  - split_and!; [done| |].
    + intros q c. cbn [s_conns]. intros [[<- <-]|[Hne H]]%lookup_insert_Some; [|by eapply Hc]. split; [|done]. split; [done|]. split; [done|]. done.
    + intros x Hs. cbn [s_daemon s_conns] in *. rewrite pending_insert by done. by apply Hx.
  - destruct (Hc p c Hp) as [Hok Hnend]. apply event_link in Hev as [B L]; [|done..]. destruct (B Hd) as (D & T & X). split_and!; [done| |].
    + intros q x. cbn [s_conns]. intros [[<- <-]|[Hne H]]%lookup_insert_Some; [|by eapply Hc]. split; [|done]. destruct L as [L|[L _]]; [done|]. unfold ended in Hend. by rewrite L in Hend.
    + intros x Hs. cbn [s_daemon s_conns] in *. rewrite <- (insert_delete_eq (s_conns s) p c'), pending_insert by apply lookup_delete_eq. assert (Hs0 : is_Some (target_find_by_id (s_daemon s) x)) by (apply find_tids; rewrite <- T; by apply find_tids).
      apply (u32_shift_sum _ _ (pend (link_of c') x)). rewrite (X x Hs0). replace (pend (link_of c') x + pending (delete p (s_conns s)) x - pend (link_of c') x) with (pending (delete p (s_conns s)) x) by lia.
      unfold u32 in *. rewrite Zminus_mod, (Hx x Hs0), <- Zminus_mod, (pending_delete _ p c x Hp). f_equal. lia.
  - destruct (Hc p c Hp) as [Hok Hnend]. apply event_link in Hev as [B L]; [|done..]. destruct (B Hd) as (D & T & X). destruct (close_settled p d' c' L D) as (D2 & T2 & X2). split_and!; [done| |].
    + intros q x. cbn [s_conns]. intros [Hne H]%lookup_delete_Some. by eapply Hc.
    + intros x Hs. cbn [s_daemon s_conns] in *. assert (Hs1 : is_Some (target_find_by_id d' x)) by (apply find_tids; rewrite <- T2; by apply find_tids). assert (Hs0 : is_Some (target_find_by_id (s_daemon s) x)) by (apply find_tids; rewrite <- T; by apply find_tids).
      rewrite (X2 x Hs1), (X x Hs0). unfold u32 in *. rewrite Zminus_mod, (Hx x Hs0), <- Zminus_mod, (pending_delete _ p c x Hp). f_equal. lia.
  - destruct (kernel_closed_settled tid sid cid (s_daemon s) Hd) as (D & T & X). split_and!; [done|done|]. intros x Hs. cbn [s_daemon s_conns] in *. assert (Hs0 : is_Some (target_find_by_id (s_daemon s) x)) by (apply find_tids; rewrite <- T; by apply find_tids).
    rewrite (X x Hs0). change (pend (link_of (conn_alloc [] [])) x) with 0. rewrite Z.sub_0_r. by apply Hx.
Qed.

(** C17: whatever connections are accepted, whatever requests arrive on them and in whatever order, and whenever connections break or the kernel closes them: no two sessions of a target have the same SID, and what a target counts is the number of its sessions and of the logins that were counted and have no session yet, so that the limit of [MaxSessions] is checked against the right number; as long as memory is there and the kernel takes the sessions. *)
Theorem sessions_accounted d0 s t (Hd : daemon_ok d0) (H0 : forall t, t ∈ targets_list d0 -> u32 (sessions_count t) = u32 (Z.of_nat (length (sessions_list t)))) (Hrun : rtc sys_step (mkSystem d0 ∅) s)
  (Ht : t ∈ targets_list (s_daemon s)) :
  NoDup (map s_sid (sessions_list t)) /\ u32 (sessions_count t) = u32 (Z.of_nat (length (sessions_list t)) + pending (s_conns s) (t_tid t)).
Proof.
  assert (Hok : sys_ok s).
  { assert (Hi : sys_ok (mkSystem d0 ∅)).
    { split_and!; [done|intros p c; cbn [s_conns]; by rewrite lookup_empty|]. intros x [t0 Hx]. unfold pending. cbn [s_daemon s_conns] in *. rewrite map_fold_empty. unfold excess. rewrite Hx. unfold excess_of. apply find_in in Hx as [Hx _]. specialize (H0 t0 Hx).
      apply (u32_shift_sum _ _ (- Z.of_nat (length (sessions_list t0)))). rewrite !Z.sub_opp_r, Z.sub_add. exact H0. }
    revert Hi. clear Ht. induction Hrun as [|a b c Hab _ IH]; [done|]. intros Ha. apply IH. by eapply sys_step_ok. }
  destruct Hok as (D & _ & X). split; [by apply (proj2 D t Ht)|]. specialize (X (t_tid t)). unfold excess in X. rewrite (in_find _ t (proj1 D) Ht) in X. unfold excess_of in X.
  apply (u32_shift_sum _ _ (Z.of_nat (length (sessions_list t)))). rewrite X by eauto. f_equal. lia.
Qed.

(** ** The TSIH of a session *)

Lemma free_tsih_all used fuel : forall v, 0 <= v < 65536 -> free_tsih fuel used v = None -> forall i, (i < fuel)%nat -> used ((v + Z.of_nat i) mod 65536) = true.
Proof.
  induction fuel as [|fuel IH]; intros v Hv; cbn [free_tsih]; [lia|]. destruct (used v) eqn:E; [|done]. intros H [|i] Hi; [rewrite Z.add_0_r, Z.mod_small by lia; done|].
  replace (v + Z.of_nat (S i)) with ((v + 1) + Z.of_nat i) by lia. rewrite <- Zplus_mod_idemp_l. apply IH; [apply Z.mod_pos_bound; lia|done|lia].
Qed.

Lemma mod_inj (v : Z) (i j : nat) : Z.of_nat i < 65536 -> Z.of_nat j < 65536 -> (v + Z.of_nat i) mod 65536 = (v + Z.of_nat j) mod 65536 -> i = j.
Proof. intros Hi Hj H. assert (E : (Z.of_nat i - Z.of_nat j) mod 65536 = 0) by (replace (Z.of_nat i - Z.of_nat j) with ((v + Z.of_nat i) - (v + Z.of_nat j)) by lia; by rewrite Zminus_mod, H, Z.sub_diag). apply Z.mod_divide in E as [k E]; [|lia]. assert (k = 0) by lia. lia. Qed.

(** With fewer than 65536 sessions there is a TSIH for one more. *)
Lemma free_tsih_some d tid (sid : iscsi_sid) id v : 0 <= v < 65536 -> (length (sessions_of d tid) < TSIH_VALUES)%nat -> is_Some (free_tsih TSIH_VALUES (fun v => session_id_exists d tid (sid <|tsih := v|>) id) v).
Proof.
  intros Hv Hl. pose proof TSIH_VALUES_eq as HN. remember TSIH_VALUES as N eqn:HT. clear HT. destruct (free_tsih N _ v) as [r|] eqn:E; [eauto|exfalso]. pose proof (free_tsih_all _ N v Hv E) as Hall. clear E.
  set (g := fun i : nat => sid <|tsih := (v + Z.of_nat i) mod 65536|>). assert (Hnd : NoDup (map g (seq 0 N))).
  { apply NoDup_fmap_2_strong; [|apply NoDup_seq]. intros i j Hi%elem_of_seq Hj%elem_of_seq Hg. assert (Eg : (v + Z.of_nat i) mod 65536 = (v + Z.of_nat j) mod 65536) by exact (f_equal tsih Hg). apply (mod_inj v); [lia|lia|done]. }
  assert (Hsub : map g (seq 0 N) ⊆ map s_sid (sessions_of d tid)).
  { intros x (i & -> & Hi%elem_of_seq)%list_elem_of_fmap. specialize (Hall i ltac:(lia)). unfold session_id_exists in Hall. apply existsb_exists in Hall as (s & Hs & Hb). apply andb_true_iff in Hb as [Hb _]. apply bool_decide_eq_true in Hb. apply list_elem_of_fmap. exists s. split; [done|by apply list_elem_of_In]. }
  pose proof (submseteq_length _ _ (NoDup_submseteq _ _ Hnd Hsub)) as Hlen. rewrite !length_map, length_seq in Hlen. lia.
Qed.

(** C26: the search for the TSIH of a new session ends, with one that together with the initiator's ISID makes a SID no other session of the target has, as long as the target has fewer than 65535 sessions: the daemon, which has a single thread, does not hang in it. *)
Theorem session_create_returns e p d c t (Ht : target_find_by_id d (c_tid c) = Some t) (Hd : daemon_ok d) (Hn : Z.of_nat (length (sessions_list t)) < 65535) (Hv : 0 <= next_tsih d < 65536) :
  exists res d' c', session_create e p d c = Some (res, d', c') /\ (res = 0 -> exists id sid, sess c' = Some id /\ sid_of_session d' (c_tid c) id = Some sid /\ isid sid = isid (c_sid c) /\ forall s, s ∈ sessions_list t -> s_sid s <> sid).
Proof.
  pose proof (find_in d _ t Ht) as [Hin Htid]. destruct (proj2 Hd t Hin) as (Hids & Hlt & Hsids). unfold session_create. rewrite Ht. unfold conn_malloc. cbn zeta. destruct (mem e _); [|do 3 eexists; split; [reflexivity|done]].
  set (id := next_sess d). set (sid := _ <|tsih := next_tsih d|>). set (new := mkSess id _ sid _). set (f := fun t => t <|sessions_list := sessions_list t ++ [new]|>).
  destruct (mem e _); [|do 3 eexists; split; [reflexivity|done]]. set (d1 := upd_target f _ _).
  assert (Ht1 : target_find_by_id d1 (c_tid c) = Some (f t)).
  { unfold d1. change (c_tid (c <|c_allocs := S (c_allocs c)|>)) with (c_tid c). rewrite find_upd_target by done. change (target_find_by_id (d <|next_sess := S id|>) (c_tid c)) with (target_find_by_id d (c_tid c)). rewrite Ht. cbn [fmap option_fmap option_map]. by rewrite Htid, Z.eqb_refl. }
  clearbody d1. match goal with |- context [free_tsih _ ?u ?v] => destruct (free_tsih_some d1 (c_tid c) sid id v) as [v' Hv']; [exact Hv|unfold sessions_of; rewrite Ht1; change (sessions_list (f t)) with (sessions_list t ++ [new]); rewrite length_app; cbn [length]; pose proof TSIH_VALUES_eq as HN; lia|]; change u with (fun z => session_id_exists d1 (c_tid c) (sid <|tsih := z|>) id); rewrite Hv' end.
  cbn [mbind option_bind]. destruct (negb _) eqn:Ea; [do 3 eexists; split; [reflexivity|intros E; apply negb_true_iff, Z.eqb_neq in Ea; congruence]|]. do 3 eexists. split; [reflexivity|]. intros _. exists id, (sid <|tsih := v'|>).
  split; [done|]. apply free_tsih_unused in Hv'. set (g := upd_session (fun s => s <|s_sid := sid <|tsih := v'|> |>) id).
  assert (Hgf : sessions_list (g (f t)) = sessions_list t ++ [new <|s_sid := sid <|tsih := v'|> |>]) by (apply (upd_last_session _ id (f t) (sessions_list t) new); [done|done|intros x Hx E; specialize (Hlt x Hx); unfold id in E; lia]).
  split_and!; [|done|].
  - unfold sid_of_session, sessions_of. match goal with |- context [target_find_by_id ?x (c_tid c)] => change (target_find_by_id x (c_tid c)) with (target_find_by_id (upd_target g (c_tid c) d1) (c_tid c)) end. rewrite find_upd_target by done. rewrite Ht1. cbn [fmap option_fmap option_map]. change (t_tid (f t)) with (t_tid t). rewrite Htid, Z.eqb_refl, Hgf.
    assert (Hf : forall l, (forall x, x ∈ l -> s_id x <> id) -> find (fun s => (s_id s =? id)%nat) (l ++ [new <|s_sid := sid <|tsih := v'|> |>]) = Some (new <|s_sid := sid <|tsih := v'|> |>)).
    { induction l as [|x l IH]; intros Hl; cbn [app find]; [cbn; by rewrite Nat.eqb_refl|]. rewrite (proj2 (Nat.eqb_neq _ _)) by (apply Hl; set_solver). apply IH. set_solver. }
    rewrite Hf; [done|]. intros x Hx E. specialize (Hlt x Hx). unfold id in E. lia.
  - intros s Hs E. unfold session_id_exists in Hv'. pose proof (existsb_false _ _ Hv' s) as Hx. unfold sessions_of in Hx. rewrite Ht1 in Hx. change (sessions_list (f t)) with (sessions_list t ++ [new]) in Hx. specialize (Hx ltac:(set_solver)). cbn beta in Hx. rewrite bool_decide_true in Hx by done. cbn [andb] in Hx.
    apply negb_false_iff, Nat.eqb_eq in Hx. specialize (Hlt s Hs). unfold id in Hx. lia.
Qed.

(** ** An example *)

Definition demo_sys : system := match run_events 0 (take 1 Demo.first) [] Demo.dm (conn_alloc Demo.keys (str "10.0.0.1")) with Some (_, d, c) => mkSystem d {[0%nat := c]} | None => mkSystem Demo.dm ∅ end.

Lemma demo_sys_run : rtc sys_step (mkSystem Demo.dm ∅) demo_sys.
Proof.
  eapply rtc_l; [apply (step_accept _ 0 (str "10.0.0.1")); apply lookup_empty|]. apply rtc_once. unfold demo_sys. cbn [s_daemon s_conns]. change (session_keys Demo.dm) with Demo.keys.
  change (run_events 0 (take 1 Demo.first) [] Demo.dm (conn_alloc Demo.keys (str "10.0.0.1"))) with
    ('(d', c') ← event_conn 0 (Demo.login 0 [(str "InitiatorName", str "iqn.host"); (str "TargetName", str "iqn.disk"); (str "AuthMethod", str "None,CHAP")]) Demo.dm (conn_alloc Demo.keys (str "10.0.0.1")); Some ([(Demo.ev, mkPdu ([0x43; 0] ++ repeat 0 46) (concat (map pair_bytes [(str "InitiatorName", str "iqn.host"); (str "TargetName", str "iqn.disk"); (str "AuthMethod", str "None,CHAP")])), Demo.dm, conn_alloc Demo.keys (str "10.0.0.1"))], d', c')).
  destruct (event_conn 0 _ Demo.dm _) as [[d' c']|] eqn:E; [|exfalso; revert E; vm_compute; discriminate]. cbn [mbind option_bind].
  assert (Hst : match event_conn 0 (Demo.login 0 [(str "InitiatorName", str "iqn.host"); (str "TargetName", str "iqn.disk"); (str "AuthMethod", str "None,CHAP")]) Demo.dm (conn_alloc Demo.keys (str "10.0.0.1")) with Some (_, c) => ended c | None => true end = false) by (vm_compute; reflexivity). rewrite E in Hst.
  set (m := <[0%nat := conn_alloc Demo.keys (str "10.0.0.1")]> (∅ : gmap nat connection)). replace ({[0%nat := c']} : gmap nat connection) with (<[0%nat := c']> m) by (unfold m; by rewrite insert_insert_eq, insert_empty).
  refine (step_event (mkSystem Demo.dm m) 0 _ _ d' c' (lookup_insert_eq _ _ _) _ E Hst). by split.
Qed.

Lemma demo_ok : daemon_ok Demo.dm.
Proof. split; [apply NoDup_singleton|]. intros t ->%list_elem_of_singleton. split_and!; [apply NoDup_nil_2| |apply NoDup_nil_2]. intros s Hs. by apply not_elem_of_nil in Hs. Qed.

Lemma sessions_accounted_witness : forallb (fun t => u32 (sessions_count t) =? u32 (Z.of_nat (length (sessions_list t)) + pending (s_conns demo_sys) (t_tid t))) (targets_list (s_daemon demo_sys)) = true.
Proof.
  apply forallb_forall. intros t Ht. apply Z.eqb_eq. apply (sessions_accounted Demo.dm demo_sys t); [apply demo_ok| |apply demo_sys_run|by apply list_elem_of_In].
  intros t0 ->%list_elem_of_singleton. reflexivity.
Defined.

Definition demo_conn : connection := (conn_alloc Demo.keys []) <|c_tid := 1|>.

Lemma session_create_returns_witness : exists res d' c', session_create Demo.ev 0 Demo.dm demo_conn = Some (res, d', c') /\
  (res = 0 -> exists id sid, sess c' = Some id /\ sid_of_session d' (c_tid demo_conn) id = Some sid /\ isid sid = isid (c_sid demo_conn) /\ forall s, s ∈ sessions_list Demo.tgt -> s_sid s <> sid).
Proof. apply (session_create_returns Demo.ev 0 Demo.dm demo_conn Demo.tgt); [reflexivity|apply demo_ok|cbn; lia|cbn; lia]. Defined.

(** When the kernel refuses the session of a login, the login is taken off the count twice: once with the session, and once at the end of the connection. *)
Definition refusing : env := mkEnv (fun _ => true) (fun _ _ => 0) (fun i => 7 + Z.of_nat i) (fun _ => true) (fun _ _ => 1) None None [] (fun _ => false) 3260 (-12) 0.

Definition refused (ev : conn_event) : conn_event := match ev with EvPdu _ r => EvPdu refusing r | ev => ev end.

Example refused_session_counts_twice :
  (fun '(_, d, c) => (state c, map sessions_count (targets_list d), map sessions_count (targets_list (conn_close 0 d c)))) <$>
    run_events 0 (map refused (Demo.first ++ [Demo.answer (str "open sesame!")])) [] Demo.dm (conn_alloc Demo.keys (str "10.0.0.1")) = Some (STATE_EXIT, [0], [4294967295]).
Proof. vm_compute. reflexivity. Qed.

(** An initiator of a discovery session that asks for the targets of its session, of which it has none, makes the daemon follow a null pointer. *)
Example send_targets_of_no_session e d c rest : sess c = None -> scan_text_pairs e (mkPdu [] []) d ((str "SendTargets", []) :: rest) c = None.
Proof. intros H. cbn. by rewrite H. Qed.
