(* ===== verification/IscsiNego.v ===== *)
(** * The negotiation of the parameters of a session

    Whatever an initiator sends, the parameters of a connection stay in the ranges of
    their keys. *)

From S2P Require Import Prelude CStr ChapCode IscsiText IscsiParam IscsiConn IscsiChap IscsiLogin IscsiAuth.

(** ** Ranges *)

(** The values the key may have.  For the interval of the markers 0 stands for the answer
    Irrelevant, which is outside of the range of the table. *)
Definition range_ok (k : iscsi_key) (v : Z) : Prop :=
  v = rfc_def k \/
  match ops k with
  | minimum_ops | maximum_ops => k_min k <= v <= k_max k
  | or_ops | and_ops => v = 0 \/ v = 1
  | digest_ops => v = DIGEST_NONE \/ v = DIGEST_CRC32C \/ v = DIGEST_ALL
  | marker_ops => v = 0 \/ k_min k <= v <= k_max k
  end.

(** A table is in order: the ranges are not empty, the defaults of the target are in them,
    the defaults of the standard for yes/no keys are such values, and 1, which stands for
    the answer Reject, is in the range of a marker's interval. *)
Definition key_ok (k : iscsi_key) : Prop :=
  range_ok k (local_def k) /\
  match ops k with
  | minimum_ops | maximum_ops => k_min k <= k_max k
  | or_ops | and_ops => rfc_def k = 0 \/ rfc_def k = 1
  | marker_ops => k_min k <= 1 <= k_max k
  | digest_ops => True
  end.

Definition params_ok (keys : list iscsi_key) (ps : list iscsi_param) : Prop := Forall2 (fun k p => range_ok k (val p)) keys ps.

Lemma session_keys_ok m : 512 <= m -> Forall key_ok (init_session_keys m).
Proof. intros Hm. unfold init_session_keys, session_keys_init. cbn. repeat (apply Forall_cons; split; [unfold key_ok, range_ok; cbn; unfold DIGEST_NONE; lia|]). by apply Forall_nil. Qed.

Lemma params_at keys ps i k : params_ok keys ps -> keys !! i = Some k -> range_ok k (val (param_at ps i)).
Proof. intros H Hk. destruct (Forall2_lookup_l _ _ _ _ _ H Hk) as (q & Hq & Hr). unfold param_at. by rewrite nth_lookup, Hq. Qed.

Lemma params_alter keys ps i k f : params_ok keys ps -> keys !! i = Some k -> (forall q, range_ok k (val (f q))) -> params_ok keys (alter f i ps).
Proof.
  intros H Hk Hf. apply Forall2_lookup. intros j. destruct (decide (i = j)) as [<-|Hij].
  - rewrite list_lookup_alter_eq, Hk. destruct (Forall2_lookup_l _ _ _ _ _ H Hk) as (q & -> & _). constructor. apply Hf.
  - rewrite list_lookup_alter_ne by done. by apply Forall2_lookup.
Qed.

Lemma params_state keys ps i s : params_ok keys ps -> params_ok keys (alter (fun p => p <|key_state := s|>) i ps).
Proof.
  intros H. apply Forall2_lookup. intros j. destruct (decide (i = j)) as [<-|Hij].
  - rewrite list_lookup_alter_eq. pose proof (proj1 (Forall2_lookup _ _ _) H i) as Hi. destruct Hi; constructor. done.
  - rewrite list_lookup_alter_ne by done. by apply Forall2_lookup.
Qed.

(** ** Values *)

Lemma digest_loop_range fuel : forall p v r, (v = 0 \/ v = 1 \/ v = 2 \/ v = 3) -> digest_loop fuel p v = Some r -> r = 1 \/ r = 2 \/ r = 3.
Proof.
  assert (Ho : forall v b, (v = 0 \/ v = 1 \/ v = 2 \/ v = 3) -> b = DIGEST_NONE \/ b = DIGEST_CRC32C -> Z.lor v b = 1 \/ Z.lor v b = 2 \/ Z.lor v b = 3) by (intros v b [-> | [-> | [-> | ->]]] [-> | ->]; cbn; auto).
  induction fuel as [|fuel IH]; intros p v r Hv; cbn [digest_loop]; [done|]. 
  assert (Hb : forall b, b = DIGEST_NONE \/ b = DIGEST_CRC32C -> match after_comma (skip_spaces p) with Some q => digest_loop fuel q (Z.lor v b) | None => Some (Z.lor v b) end = Some r -> r = 1 \/ r = 2 \/ r = 3).
  { intros b Hb. specialize (Ho v b Hv Hb). destruct (after_comma _) as [q|]; [apply IH; naive_solver|]. intros [= <-]. exact Ho. }
  destruct (strncasecmp_eq (skip_spaces p) (str "None") 4); [apply Hb; auto|]. destruct (strncasecmp_eq (skip_spaces p) (str "CRC32C") 6); [apply Hb; auto|done].
Qed.

(** What is parsed and checked is in the range of the key. *)
Lemma checked_range k s junk v : key_ok k -> params_str_to_val k s junk = Some v ->
  match ops k with marker_ops => True | _ => range_ok k (params_check_val k v) end.
Proof.
  unfold key_ok, params_str_to_val, range_ok, params_check_val, num_check_val. intros [_ Hk] Hv.
  destruct (ops k); try done; try (right; repeat case_match; lia).
  - unfold bool_str_to_val in Hv. repeat case_match; simplify_eq; auto.
  - unfold bool_str_to_val in Hv. repeat case_match; simplify_eq; auto.
  - unfold digest_str_to_val in Hv. destruct (digest_loop _ _ _) as [r|] eqn:E; [|done]. cbn in Hv.
    apply digest_loop_range in E; [|auto]. injection Hv as <-. right. destruct E as [-> | [-> | ->]]; cbn; auto.
Qed.

Lemma set_range k ps i v : key_ok k -> range_ok k (val (param_at ps i)) -> match ops k with marker_ops => True | _ => range_ok k v end -> range_ok k (set_val_of (ops k) ps i v).
Proof.
  unfold key_ok, range_ok, set_val_of. intros [_ Hk]. revert Hk. destruct (ops k); intros Hk Ho Hv.
  - case_match; auto.
  - case_match; auto.
  - right. assert (val (param_at ps i) = 0 \/ val (param_at ps i) = 1) as [-> | ->] by (destruct Ho as [-> | ?]; auto); assert (v = 0 \/ v = 1) as [-> | ->] by (destruct Hv as [-> | ?]; auto); cbn; auto.
  - right. assert (val (param_at ps i) = 0 \/ val (param_at ps i) = 1) as [-> | ->] by (destruct Ho as [-> | ?]; auto); assert (v = 0 \/ v = 1) as [-> | ->] by (destruct Hv as [-> | ?]; auto); cbn; auto.
  - right. case_match; auto.
  - right. case_match; lia.
Qed.

(** ** The scan of a request and the completion *)

Lemma params_put_state keys i s c : params_ok keys (session_params c) -> params_ok keys (session_params (put_key_state i s c)).
Proof. unfold put_key_state. cbn. apply params_state. Qed.

Lemma params_text e k v c : session_params (text_key_add e k v c) = session_params c.
Proof. unfold text_key_add. destruct (segs_add _ _ _ _ _ _) as [a [|s l]]; done. Qed.

#[local] Opaque text_key_add.

Lemma alter_oob {A} (f : A -> A) (l : list A) i : (length l <= i)%nat -> alter f i l = l.
Proof. intros H. apply list_eq. intros j. destruct (decide (i = j)) as [<-|]; [rewrite list_lookup_alter_eq; by rewrite lookup_ge_None_2|by rewrite list_lookup_alter_ne]. Qed.

(** Setting key [i] to a value that was checked. *)
Lemma params_set keys ps i v : Forall key_ok keys -> params_ok keys ps ->
  match ops (key_at keys i) with marker_ops => True | _ => range_ok (key_at keys i) v end -> params_ok keys (params_set_val (key_at keys i) ps i v).1.
Proof.
  intros Hk Hp Hv. unfold params_set_val. cbn [fst]. destruct (keys !! i) as [k|] eqn:E.
  - assert (Ek : key_at keys i = k) by (unfold key_at; by rewrite nth_lookup, E). rewrite Ek in *.
    apply (params_alter _ _ _ k); [done|done|]. intros q. cbn. apply set_range; [exact (Forall_lookup_1 _ _ _ _ Hk E)|exact (params_at _ _ _ _ Hp E)|done].
  - apply lookup_ge_None in E. rewrite alter_oob; [done|]. rewrite <- (Forall2_length _ _ _ Hp). done.
Qed.

Lemma params_ini k c : session_params (login_rsp_ini_err k c) = session_params c.
Proof. done. Qed.

Lemma scan_pair_ok e keys k v c : Forall key_ok keys -> params_ok keys (session_params c) -> params_ok keys (session_params (scan_login_pair e keys k v c).2).
Proof.
  intros Hk Hp. unfold scan_login_pair. destruct (is_login_key k); [done|]. destruct (strcmp_eq k (str "AuthMethod")); [done|].
  destruct (params_index_by_name k keys) as [idx|]; [|cbn [snd]; by rewrite params_text]. destruct (idx =? key_max_xmit_data_length)%nat; [cbn [snd]; by rewrite params_text|].
  match goal with |- context [let '(a, b) := ?g in _] => set (g0 := g); assert (Hg : params_ok keys (session_params g0.2)) by (unfold g0; case_match; [by apply params_put_state|done]) end.
  clearbody g0. destruct g0 as [i c1]. cbn [snd] in Hg.
  destruct (params_str_to_val _ _ _) as [x|] eqn:E; [|destruct (_ =? KEY_STATE_START); cbn [snd]; [unfold text_key_add_reject; by rewrite params_text|by rewrite params_ini]].
  assert (Hs : params_ok keys (params_set_val (key_at keys i) (session_params c1) i (params_check_val (key_at keys i) x)).1).
  { destruct (keys !! i) as [k0|] eqn:Ei.
    - apply params_set; [done|done|]. apply (checked_range _ v (heap e (c_allocs c1) 0)); [|done]. unfold key_at. rewrite nth_lookup, Ei. exact (Forall_lookup_1 _ _ _ _ Hk Ei).
    - unfold params_set_val. cbn [fst]. rewrite alter_oob; [done|]. rewrite <- (Forall2_length _ _ _ Hg). by apply lookup_ge_None. }
  destruct (params_set_val _ _ _ _) as [ps w]. cbn [fst] in Hs.
  destruct (_ =? KEY_STATE_START); [destruct (iscsi_is_key_internal i)|destruct (_ =? KEY_STATE_REQUEST); [destruct (negb _)|]]; cbn [snd]; rewrite ?params_ini; try apply params_put_state; rewrite ?params_text; exact Hs.
Qed.

Lemma scan_ok e keys l : forall c, Forall key_ok keys -> params_ok keys (session_params c) -> params_ok keys (session_params (scan_login_pairs e keys l c)).
Proof.
  induction l as [|[k v] l IH]; intros c Hk Hp; cbn [scan_login_pairs]; [done|]. pose proof (scan_pair_ok e keys k v c Hk Hp) as H.
  destruct (scan_login_pair _ _ _ _ _) as [[] c']; [exact H|by apply IH].
Qed.

Lemma check_param_ok e keys i k c : keys !! i = Some k -> params_ok keys (session_params c) -> params_ok keys (session_params (check_param e i k c).1).
Proof.
  intros Hk Hp. unfold check_param. repeat case_match; cbn [fst]; try apply params_put_state; rewrite ?params_text; try done.
  apply (params_alter _ _ _ k); [done|done|]. intros q. by left.
Qed.

Lemma check_params_ok e keys l : forall i c n, (forall j k, l !! j = Some k -> keys !! (i + j)%nat = Some k) -> params_ok keys (session_params c) -> params_ok keys (session_params (check_params e i l c n).1).
Proof.
  induction l as [|k l IH]; intros i c n Hl Hp; cbn [check_params]; [done|]. pose proof (check_param_ok e keys i k c) as H.
  rewrite <- (Nat.add_0_r i) in H at 1. specialize (H (Hl 0%nat k eq_refl) Hp). destruct (check_param _ _ _ _) as [c' m]. apply IH; [|done].
  intros j k0 Hj. rewrite <- (Hl (S j) k0 Hj). f_equal. lia.
Qed.

(** ** The parameters of a connection while it lives *)

(** The operations of the daemon on them; the others leave them alone. *)
Inductive negotiated (e : env) (d : daemon) : connection -> Prop :=
| negotiated_alloc portal : negotiated e d (conn_alloc (session_keys d) portal)
| negotiated_target c r c' : negotiated e d c -> init_conn_session_params d c = (r, c') -> negotiated e d c'
| negotiated_scan req c : negotiated e d c -> negotiated e d (text_scan_login e req d c)
| negotiated_check c c' n : negotiated e d c -> text_check_params e d c = (c', n) -> negotiated e d c'
| negotiated_other c c' : negotiated e d c -> session_params c' = session_params c -> negotiated e d c'.

Lemma target_ok keys ps vs : Forall2 range_ok keys vs -> params_ok keys ps -> params_ok keys (zip_with (fun p v => p <|val := v|>) ps vs).
Proof. intros H. revert ps. induction H as [|k v keys vs Hv H IH]; intros ps Hp; inversion Hp; subst; cbn; constructor; [done|by apply IH]. Qed.

(** C18: whatever the initiator sends, and however the requests are split and repeated, each
    parameter of a connection stays a value of its key: a number between the limits that
    the table sets for the key, yes or no, a known digest, or the default of RFC 3720,
    provided the tables of the daemon and of its targets are in order. *)
Theorem negotiation_in_range e d c : Forall key_ok (session_keys d) -> Forall (fun t => Forall2 range_ok (session_keys d) (t_session_params t)) (targets_list d) ->
  negotiated e d c -> params_ok (session_keys d) (session_params c).
Proof.
  intros Hk Ht H. induction H as [portal|c r c' _ IH E|req c _ IH|c c' n _ IH E|c c' _ IH E].
  - unfold conn_alloc, params_set_defaults. cbn. clear Ht. induction Hk as [|k keys [Hk _] _ IH]; constructor; done.
  - unfold init_conn_session_params in E. destruct (target_find_by_id d (c_tid c)) as [t|] eqn:Et; simplify_eq; [|done]. apply target_ok; [|done].
    apply (proj1 (Forall_forall _ _) Ht). apply list_elem_of_In. exact (proj1 (find_some _ _ Et)).
  - by apply scan_ok.
  - pose proof (check_params_ok e (session_keys d) (session_keys d) 0 c 0 ltac:(done) IH) as Hc. unfold text_check_params in E. rewrite E in Hc. exact Hc.
  - by rewrite E.
Qed.

(** A request that asks for too long bursts and for digests, and the completion. *)
Definition demo_nego : connection :=
  let req := mkPdu (repeat 0 48) (concat (map pair_bytes [(str "MaxBurstLength", str "16776192"); (str "InitialR2T", str "No"); (str "HeaderDigest", str "CRC32C,None"); (str "MaxRecvDataSegmentLength", str "4")])) in
  (text_check_params Demo.ev Demo.dm (text_scan_login Demo.ev req Demo.dm (conn_alloc Demo.keys (str "10.0.0.1")))).1.

Lemma negotiation_in_range_witness : params_ok Demo.keys (session_params demo_nego) /\
  map (fun i => val (param_at (session_params demo_nego) i)) [0; key_max_xmit_data_length; key_max_burst_length; 13]%nat = [0; 512; 65536; 1].
Proof.
  split; [|vm_compute; reflexivity]. apply (negotiation_in_range Demo.ev Demo.dm).
  - apply (session_keys_ok 65536). lia.
  - apply Forall_cons; split; [|by apply Forall_nil]. unfold Demo.tgt, params_set_defaults. cbn [t_session_params session_keys Demo.dm].
    assert (H : Forall key_ok Demo.keys) by (apply (session_keys_ok 65536); lia). induction H as [|k keys [Hk _] _ IH]; constructor; done.
  - unfold demo_nego. set (req := mkPdu _ _). set (c0 := text_scan_login _ _ _ _).
    apply (negotiated_check _ _ c0 _ (text_check_params Demo.ev Demo.dm c0).2); [apply negotiated_scan, negotiated_alloc|apply surjective_pairing].
Defined.
